(* ===== verification/_CoqProject ===== *)
-Q . S2P
Prelude.v
GoStrings.v
Consts.v
TraceState.v
TraceUpdate.v
Redis.v
Gateway.v
Task.v
TaskQueue.v
TaskSubmit.v
TaskWorker.v
HelmValues.v
NamespaceLock.v
RateLimiter.v
PermissionTables.v
Permissions.v
Passwords.v
Tokens.v
AuthService.v
FaultBatch.v
EventHandler.v
Executors.v
Partial.v
GoTime.v
InjectionSpec.v
FriendlySpec.v
Parameters.v
Tables.v
Resolve.v
Containers.v
Labels.v
Search.v
FaultInjection.v
Payloads.v
Jobs.v
Injections.v
Executions.v
Owners.v
Datasets.v
Submission.v
Paths.v
Files.v
DatapackStore.v
ConfigValues.v
ConfigService.v
ChaosSystems.v
ConfigListener.v
Accounts.v
Teams.v
Access.v
LimiterAdmin.v
TaskLogs.v
TaskService.v
Streams.v
