(* ===== verification/Prelude.v ===== *)
(** * AegisLab backend: a verification library (root file)

    AegisLab runs fault injection experiments on Kubernetes.  Producers submit
    tasks (restart a pedestal, inject a fault, build a datapack, run an algorithm,
    collect results); the rows of a task and of its trace are stored in MySQL and
    the task itself is queued in Redis.  Workers promote delayed tasks when they
    come due, take ready tasks under a concurrency limit, run them with retries,
    and record each change of state on the trace.  Executors that need a cluster
    namespace lock it first, and those that are expensive take a token of a rate
    limiter.  When a chaos resource or a job ends, the handler of the cluster's events
    gives locks and tokens back and submits the task of the next stage.  The HTTP
    side authenticates every request by its token and checks it against roles,
    grants and API key scopes.  The library models that core; all paths below are
    under [src/src/].

    ** Parts

    - [Prelude]: Go results ([res], [outcome]), wrap-around integers, loops that
      stop at an error, the hint database [aegis] and the tactics the other files
      share.
    - [GoStrings]: the functions of [strings] and [strconv] the code calls
      (split, join, trim, itoa, atoi, ...), with the lemmas on them.
    - [Consts]: the enumerations of [consts/]: constructors, integer codes, names,
      valid sets, JSON forms.  The class [GoEnum] gathers what the enumerations
      share.
    - [TraceState], [TraceUpdate]: [service/consumer/trace.go].  The first is the
      inference of the state of a trace from the states of its tasks, with the
      specification [state_spec]; the second the attempt that stores it under an
      optimistic lock and its retry loop.  The database is the class [TraceDB];
      what another writer does between the read and the UPDATE is the field
      [interfere] of the attempt's environment.
    - [Redis]: the server the code talks to.  [cmd_step] gives each command's
      effect on a [keyspace]; the classes [RedisServer], [RedisLaws] and
      [RedisReliable] say what the clients rely on: a command is either served as
      [cmd_step] says or fails (and a failed one may or may not have taken effect,
      as on a network), and for the reliable one that it is always served.  Sets end at
      the deadline an EXPIRE gave them, and streams lose their oldest entries to the
      MAXLEN of an XADD, as many as the server chooses beyond the last thousand.
      [InMemory] and [Reliable] are the two instances.  A Lua script is one
      command, an arbitrary monadic program over the keyspace, whose writes stay
      when it errors.
    - [Gateway]: the wrappers of [infra/redis/gateway.go].
    - [Task]: [dto/task.go]: the unified task, its conversions and labels.  JSON is
      the class [TaskCodec] with its laws.
    - [TaskQueue]: [infra/redis/task_queue.go]: the operations on the ready list,
      the delayed and dead sorted sets and the index, with their scripts.
    - [TaskSubmit]: [service/common/task.go]: submission, over the class
      [TaskStore] for the database and its transaction.
    - [TaskWorker]: [service/consumer/task.go] and [distribute_tasks.go]: one round
      of the scheduler and of the consumer loop, the retry loop, the final failure
      and cancellation.  Executors are a parameter there.
    - [NamespaceLock]: [service/consumer/monitor.go] and the three namespace
      stores.  The monitor's operations return [Finished] or [Blocked], since its
      mutex is not reentrant.
    - [RateLimiter]: [service/consumer/rate_limiter.go] and its store.
    - [PermissionTables], [Permissions]: [consts/system.go], [middleware/] and
      [dto/permission.go]: rules, role tables, API key scopes, the middleware and
      the database checker with its queries.
    - [Passwords], [Tokens], [AuthService]: [utils/password.go],
      [utils/access_key_crypto.go], [utils/jwt.go], [middleware/auth.go] and
      [module/auth/].  The first has hashes, password rules and the encryption of
      key secrets, the second the claims, issue and validation of the three kinds
      of tokens and the middleware that fills the request context, the third
      accounts, sessions and API keys over the class [AuthDB].  Primitives and
      libraries are the classes [GoCrypto] and [JWT]; the middleware sees the
      service through the class [TokenVerifier], of which the service is the
      instance.
    - [FaultBatch], [EventHandler]: the batch manager of
      [service/consumer/fault_injection.go] and the handlers of
      [service/consumer/k8s_handler.go], whose computations go on, return early,
      panic or hang ([ending]).  Their world puts together those of the worker, the
      monitor and the batches; the owners of injections and executions are the
      class [StateOwners].
    - [Executors], [FaultInjection]: the executors of [service/consumer/]: restart of
      a pedestal, algorithms, images, collection of results, and the injection of a
      batch of faults.  They run in the monad of [NamespaceLock] over the handler's
      world and the task, which they assign to; Helm, Kubernetes, BuildKit and the
      chaos library are fields of an environment or classes.
    - [Payloads], [Jobs]: what goes from one stage to the next.  The first decodes the
      items of a JSON payload ([utils/type.go], the items of [dto/]); the second has
      the jobs given to the cluster with their environment ([build_datapack.go],
      [algo_execution.go]) and the installation of a chart.
    - [Partial], [GoTime]: calls that return a value, an error or panic, and the
      durations of [time].
    - [InjectionSpec], [FriendlySpec]: what a request for injections says
      ([module/injection/]: [submit.go], [spec_convert.go], [time_range.go],
      [resolve.go] and [ResolveSpecs] of [api_types.go]): the checks of a batch, the
      removal of duplicates, friendly specifications, datapacks of a request.
    - [HelmValues], [Parameters], [Containers]: keys and values of charts
      ([dto/container.go], [utils/map.go], [utils/string.go]); configured parameters
      and templates ([module/container/resolve.go]); and the registry of containers and
      versions as tables ([module/container/]), with the resolution of references.
    - [Search]: pages, search requests and the query builder ([dto/common.go],
      [dto/search.go], [searchx/query_builder.go], [consts/search_fields.go]).
    - [Tables]: wrapped errors and the status of a response ([consts/errors.go],
      [utils/error.go], [httpx/common.go]), computations in a transaction ([Tx]), and
      what gorm does to a table with unique keys.  The files that follow are written
      with it.
    - [Labels], [Injections], [Executions], [Datasets], [Resolve]: the rows of
      [module/label/], [module/injection/], [module/execution/] and [module/dataset/],
      with every operation that changes them.  Each state contains the one before it:
      labels in [ldb], injections and executions on them in [idb], datasets on those in
      [ddb].
    - [Owners]: the adapter of [service/consumer/owner_adapter.go], and the classes of
      [EventHandler] and [Executors] implemented by these tables.
    - [Submission]: the services that turn a request for injections, datapacks or
      executions into tasks.
    - [Paths], [Files], [DatapackStore]: paths and globs, a file system, and the files of
      datapacks with their packages, archives, uploads and downloads
      ([module/injection/datapack_store.go], [archive.go], [utils/file.go]).
    - [ConfigValues], [ConfigService], [ConfigListener]: the dynamic configuration: the
      check of a value, the service of [module/system/] with its history and rollbacks,
      etcd, the settings of a process and the handlers that are told of a change
      ([service/common/], [service/consumer/config_handlers.go]).
    - [ChaosSystems]: the systems and their metadata ([module/chaossystem/],
      [config/chaos_system.go]).
    - [Accounts], [Teams], [Access]: users, roles, permissions, memberships, teams and
      projects as tables with the services that change them ([module/user/],
      [module/rbac/], [module/team/], [module/project/]); the last file has their
      theorems, with the checker of [Permissions] run on the same tables.
    - [LimiterAdmin]: the list, the reset and the collection of leaked tokens
      ([module/ratelimiter/]).
    - [TaskLogs], [TaskService], [Streams]: what is shown of tasks and traces: the receiver
      of logs, their history and their stream ([service/logreceiver/],
      [infra/loki/client.go], [module/task/log_service.go]); the service of tasks with
      expediting ([module/task/]); the streams of events of a trace and of a group with
      their processors, and the statistics of a group ([module/trace/], [module/group/]).

    ** How they interact

    [TaskSubmit] writes the database, then calls [TaskQueue]; [TaskWorker] calls
    [TaskQueue] to promote, take, fail and cancel tasks, [TaskSubmit]'s event
    helpers and, through a request it spawns, [TraceUpdate].  [EventHandler] calls
    [TaskWorker] for the states, [TaskSubmit] for the next task, [NamespaceLock] and
    [RateLimiter] for the releases, and [FaultBatch].  [Executors] and
    [FaultInjection] are what [TaskWorker] runs: they take locks and tokens of the same
    monitor and limiters, submit through [TaskSubmit], and put on jobs and resources
    the labels that [EventHandler] reads; [Payloads] ties the payloads one side writes
    to the parsers of the other, and [Jobs] the parameters [Parameters] resolves to the
    variables of a job.  The context [Tokens] fills is
    the one [Permissions] reads.  [NamespaceLock],
    [RateLimiter] and [TaskQueue] are clients of [Gateway] and so of [Redis]: what they
    guarantee - exclusion, bounds, the order of the queue - is proved for every server with
    [RedisLaws], so it holds when commands fail.  What an operation achieves when Redis
    answers is proved for a [RedisReliable] one, or for the keyspace itself: the run of an
    injection's executor with its lock ([FaultInjection]), the handlers' and executors'
    effects on locks and tokens, the races shown in [NamespaceLock], what removals and
    promotions leave when a script stops in [TaskQueue], the final failure, cancellation and
    rounds in [TaskWorker], and the totals of a collection in [LimiterAdmin].  [Submission] resolves what a request names in [Containers],
    [Datasets] and [Injections] and hands tasks to [TaskSubmit]; [Owners] lets the
    executors and the event handler write the rows of [Injections] and [Executions]
    through their classes.  [ConfigService] writes etcd and waits for the answer that
    [ConfigListener] publishes in another process, whose handlers change the limits of
    [RateLimiter], the namespaces of [NamespaceLock] and the systems of [ChaosSystems].
    [Access] relates the rows of [Accounts] to the answers of [Permissions].  [LimiterAdmin]
    takes tokens of [RateLimiter] back, [TaskService] moves tasks in the queue of
    [TaskQueue], and [Streams] reads what [TaskSubmit] and [TraceUpdate] publish.  Where several clients interleave, the interleaving is
    explicit: a list of commands by others at each point of the operation.

    ** What the theorems show

    - Queue: a promotion moves exactly the due tasks, in the order of their time;
      the ready queue refines a FIFO queue; removals and expediting touch the task
      they name; the behaviour at the limits (an undecodable item, more due tasks
      than [unpack] takes) is stated as it is.
    - Submission: success means row, trace row, level and queue entry; the queue
      never holds a task the database does not know; a failure before the commit
      changes nothing.
    - Worker: the retry loop terminates within [MaxAttempts + 1] attempts, what the
      final failure leaves, what cancellation does, that recurring tasks are
      scheduled again, that a round takes a task together with one slot; no ready task
      starves, but for those whose removal from the queue was not answered.
    - Traces: the inferred state is the unique one of the specification and does
      not depend on the order of the tasks; updates are not lost.
    - Locks and tokens: mutual exclusion under interleaving, a held lock is kept; the
      holders of a bucket never outnumber the limit, nor do the tasks of the last ten
      minutes, after which a bucket forgets its holders; the counter's bound for [n]
      consumers.
    - Events: at most one task follows an event, of the next stage and of the same
      trace; the labels of a task are read back; tokens are given back when a job
      ends; which event of a batch decides; what can panic.
    - Executors: what a restart hands over, and where locks and tokens are when an
      executor ends, on every path; when a lock ends under its fault; the row, the labels
      and the registration of a batch; which algorithms a collection starts.
    - Payloads and jobs: each stage accepts what the one before it submits; the
      variables a job has and those it silently lacks; labels are read back; when a
      chart is installed.
    - Requests: which batches are kept, what a friendly specification becomes, that the
      values of a chart are those set, templates and variables of a version.
    - Registry and search: names stay unique under every operation and a reference
      resolves to the version it names; no text of a request becomes SQL; pages hold
      every row once; groups are a partition.
    - Accounts: an authorised request carries a valid token that was not revoked,
      of an active user who has the permission; an exchange needs the signature of
      an enabled key and cannot be replayed; logout and revocation are final; kinds
      of tokens are not confused.
    - Permissions: the middleware passes exactly the requests it means to, a key
      passes what its user passes and its scopes cover, scope matching and rule texts, the database checker
      against a relational specification ([granted]).
    - Rows: the invariants of labels, injections, executions and datasets (identifiers,
      unique keys, links to rows that exist, counts of uses) under every operation; what
      a creation, a deletion and its cascade leave, and that a deletion the database refuses
      leaves nothing; the states an execution cannot leave;
      the error behaviour of each service.
    - Requests into tasks: which requests are accepted, that the payloads of the tasks
      are those their executors read, that nothing is stored for a refused request.
    - Files: what is uploaded is what is downloaded; where an upload can write; which
      files a package holds.
    - Configuration: a change reaches the settings and the limiters of the other process,
      and which changes do not; what is loaded of a scope; the history only grows; a
      rollback puts the old value back.
    - Streams: a follower is sent every event after its identifier, in order and once, but
      for those the stream had lost.
    - Access: what every assignment, removal and deletion does to the rights the checker
      grants, to the user concerned and to all others; unique keys; system roles are out
      of reach; statements a database refuses.

    ** Bounds and fuel

    Loops run over lists, over the attempts of a retry policy ([Z.to_nat]) or over the
    ticks of a timer, given as a list.  Fuel is used in three places:
    [InjectionSpec.existing_configs] has one unit for each query of a hundred keys and is
    given the number of keys, which its lemma shows to be enough; the walks of a tree of
    files, [DatapackStore.buildFileTree] and [Files.walk_files], are given one more than
    its depth, which [tree_spec] and [walk_files_in] show to be enough.  Infinite
    loops of the code are modelled by one round, or by the number of rounds before the
    client leaves ([Streams.session]).  Integers are [Z]; Go's [int] is
    64 bits wide ([wrap64], [in_int64]) where the code can leave the range.  Numbers
    that go through JSON are exact rationals: [Payloads] assumes them below [2^53].

    ** Not modelled

    The cluster, Helm, BuildKit and the chaos library themselves, signatures and the text
    of tokens, the controller that watches the cluster, the lists and reports of the
    modules (sorted or grouped reads of rows that are modelled), metrics, evaluations,
    notifications, the list and the detail of traces, charts in the registry, HTTP and
    gRPC glue and the clients of the other services, generated protobuf code, wiring,
    initialization, tracing and the command line client: they are I/O around third-party
    clients, copies of fields, or queries without a state of their own.

    What the models take for granted: foreign keys hold and the columns are wide
    enough; rows that gorm saves along with another (associations) are left out,
    except where a definition says so; a statement that fails has no effect. The
    statements of the table models ([Tables] and the files after it) fail on unique
    keys, missing rows and where a definition says so, and the deletion of injections
    wherever the database refuses a statement; other errors of the database are in
    [TaskSubmit], [TraceUpdate], [AuthService] and [Permissions], whose database is a
    class. A request to etcd that fails was carried out at once or never. The clock is
    an argument; bounds of a configured number have at most four decimals, timeouts
    are below 2^33 seconds, sizes below 2^53; the file system has no links and its
    disk no faults, and the process runs in its root. Handlers of events run one at a
    time in [EventHandler]; the interleavings of the steps on a batch are in
    [FaultBatch]. *)

From Stdlib Require Export ZArith Lia Bool Ascii String.
From stdpp Require Export base tactics list gmap fin_maps strings sets sorting.

#[global] Open Scope string_scope.
#[global] Open Scope list_scope.
#[global] Open Scope Z_scope.

(** ** Go results: a value or an error, as every fallible function returns them *)

Inductive res (A : Type) : Type :=
| Ok (a : A)
| Err (e : string).
Arguments Ok {A} a.
Arguments Err {A} e.

Definition res_bind {A B} (m : res A) (f : A -> res B) : res B :=
  match m with
  | Ok a => f a
  | Err e => Err e
  end.

Definition res_map {A B} (f : A -> B) (m : res A) : res B :=
  match m with
  | Ok a => Ok (f a)
  | Err e => Err e
  end.

(** [fmt.Errorf("prefix: %w", err)]. *)
Definition res_wrap {A} (prefix : string) (m : res A) : res A :=
  match m with
  | Ok a => Ok a
  | Err e => Err (prefix +:+ e)
  end.

Definition is_ok {A} (m : res A) : bool :=
  match m with
  | Ok _ => true
  | Err _ => false
  end.

(** A Go call that may also panic (nil dereference, failed type assertion). *)
Inductive outcome (A : Type) : Type :=
| Returns (r : A)
| Panics.
Arguments Returns {A} r.
Arguments Panics {A}.

Declare Scope go_scope.
Delimit Scope go_scope with go.
Notation "'let?' x := m 'in' k" := (res_bind m (fun x => k))
  (at level 10, x pattern, m at level 100, k at level 200) : go_scope.
Notation "m ';;?' k" := (res_bind m (fun _ => k))
  (at level 100, k at level 200, right associativity) : go_scope.
#[global] Open Scope go_scope.

(** [if !cond { return err }]. *)
Definition require (cond : bool) (e : string) : res unit :=
  if cond then Ok tt else Err e.

(** [v, ok := f(); if !ok { return err }]. *)
Definition or_error {A} (o : option A) (e : string) : res A :=
  match o with Some a => Ok a | None => Err e end.

(** [for i, x := range l { if err := f(i, x); err != nil { return err } }]. *)
Fixpoint for_each_from {A} (i : nat) (f : nat -> A -> res unit) (l : list A) : res unit :=
  match l with
  | [] => Ok tt
  | x :: l' => f i x ;;? for_each_from (S i) f l'
  end.

Definition for_each {A} (f : nat -> A -> res unit) (l : list A) : res unit :=
  for_each_from 0 f l.

(** ** Machine integers: Go's [int] and [int64] are 64-bit two's complement *)

Definition max_int64 : Z := 2 ^ 63 - 1.
Definition min_int64 : Z := - 2 ^ 63.
Definition wrap64 (z : Z) : Z := (z + 2 ^ 63) mod 2 ^ 64 - 2 ^ 63.
Definition in_int64 (z : Z) : bool := (min_int64 <=? z) && (z <=? max_int64).

Lemma wrap64_id z : min_int64 <= z <= max_int64 -> wrap64 z = z.
Proof.
  unfold wrap64, min_int64, max_int64. intros H.
  rewrite Z.mod_small; lia.
Qed.

Lemma wrap64_bounds z : min_int64 <= wrap64 z <= max_int64.
Proof.
  unfold wrap64, min_int64, max_int64.
  pose proof (Z.mod_pos_bound (z + 2 ^ 63) (2 ^ 64) ltac:(lia)). lia.
Qed.

(** ** Automation *)

Create HintDb aegis.
Create Rewrite HintDb aegis.
#[export] Hint Resolve wrap64_bounds : aegis.
#[export] Hint Rewrite @lookup_insert_eq @lookup_delete_eq : aegis.

(** Case analysis on the scrutinee of a match or an if, innermost first,
    keeping the equation. *)
Ltac case_match_eq :=
  match goal with
  | |- context [match ?x with _ => _ end] =>
      lazymatch x with
      | context [match _ with _ => _ end] => fail
      | _ => let E := fresh "E" in destruct x eqn:E
      end
  end.

Ltac hyp_match_eq :=
  match goal with
  | H : context [match ?x with _ => _ end] |- _ =>
      lazymatch x with
      | context [match _ with _ => _ end] => fail
      | _ => let E := fresh "E" in destruct x eqn:E
      end
  end.

(** Splits every match of goal and hypotheses and clears the absurd cases. *)
Ltac crush_match :=
  repeat (first [hyp_match_eq | case_match_eq]; simplify_eq/=; try done).

(** Turns boolean tests of the code into propositions. *)
Ltac bool_to_prop :=
  repeat match goal with
  | H : (_ && _) = true |- _ => apply andb_true_iff in H as [? ?]
  | H : (_ || _) = false |- _ => apply orb_false_iff in H as [? ?]
  | H : negb _ = true |- _ => apply negb_true_iff in H
  | H : negb _ = false |- _ => apply negb_false_iff in H
  | H : bool_decide _ = true |- _ => apply bool_decide_eq_true in H
  | H : bool_decide _ = false |- _ => apply bool_decide_eq_false in H
  | H : (_ <? _) = true |- _ => apply Z.ltb_lt in H
  | H : (_ <? _) = false |- _ => apply Z.ltb_ge in H
  | H : (_ <=? _) = true |- _ => apply Z.leb_le in H
  | H : (_ <=? _) = false |- _ => apply Z.leb_gt in H
  | H : (_ =? _) = true |- _ => apply Z.eqb_eq in H
  | H : (_ =? _) = false |- _ => apply Z.eqb_neq in H
  end.

(** ** Shared lemmas on results and loops *)

Lemma res_bind_ok {A B} (m : res A) (f : A -> res B) b :
  res_bind m f = Ok b <-> exists a, m = Ok a /\ f a = Ok b.
Proof. destruct m; simpl; [|split; [done|by intros (? & ? & ?)]]. split; [eauto|by intros (? & [= <-] & ?)]. Qed.

Lemma require_ok c e u : require c e = Ok u <-> c = true.
Proof. destruct c, u; simpl; naive_solver. Qed.

Lemma for_each_from_ok {A} (f : nat -> A -> res unit) l i :
  for_each_from i f l = Ok tt <->
  (forall k x, l !! k = Some x -> f (i + k)%nat x = Ok tt).
Proof.
  revert i. induction l as [|y l IH]; intros i; simpl.
  - split; [intros _ k x Hk; by rewrite lookup_nil in Hk | done].
  - rewrite res_bind_ok. split.
    + intros (u & Hy & Hl) [|k] x Hk; simpl in Hk.
      * simplify_eq. destruct u. by rewrite Nat.add_0_r.
      * rewrite Nat.add_succ_r. by apply (proj1 (IH (S i)) Hl).
    + intros H. exists tt. split.
      * pose proof (H 0%nat y eq_refl) as H0. by rewrite Nat.add_0_r in H0.
      * apply IH. intros k x Hk.
        pose proof (H (S k) x Hk) as Hs. by rewrite Nat.add_succ_r in Hs.
Qed.

Lemma for_each_ok {A} (f : nat -> A -> res unit) l :
  for_each f l = Ok tt <-> (forall k x, l !! k = Some x -> f k x = Ok tt).
Proof. apply for_each_from_ok. Qed.

(** Iteration of a predicate over a list, with booleans as the code computes them. *)
Lemma existsb_elem {A} (p : A -> bool) l :
  existsb p l = true <-> exists x, x ∈ l /\ p x = true.
Proof.
  rewrite existsb_exists. split; intros (x & Hx & Hp); exists x;
    (split; [|done]); by apply list_elem_of_In.
Qed.

Lemma forallb_elem {A} (p : A -> bool) l :
  forallb p l = true <-> forall x, x ∈ l -> p x = true.
Proof.
  rewrite forallb_forall. split; intros H x Hx; apply H; by apply list_elem_of_In.
Qed.

Lemma exists_orb {A} (l : list A) (p q : A -> bool) :
  (exists x, x ∈ l /\ p x = true) \/ (exists x, x ∈ l /\ q x = true) <->
  exists x, x ∈ l /\ p x || q x = true.
Proof.
  rewrite <- !existsb_elem, <- orb_true_iff. induction l as [|x l IH]; simpl; [done|].
  rewrite orb_true_iff in IH. rewrite !orb_true_iff, <- IH. tauto.
Qed.

#[export] Hint Rewrite @res_bind_ok require_ok @for_each_ok @existsb_elem @forallb_elem : aegis.

Lemma existsb_perm {A} (p : A -> bool) l l' : l ≡ₚ l' -> existsb p l = existsb p l'.
Proof.
  intros Hp. apply eq_iff_eq_true. rewrite !existsb_elem.
  split; intros (x & Hx & H); exists x; split; try done; [by rewrite <- Hp|by rewrite Hp].
Qed.
