(* ===== verification/GoStrings.v ===== *)
(** * Go's string functions the backend relies on

    A Go string is a sequence of bytes; here it is a [string] of [ascii].
    This file models the functions of Go's standard packages [strings] and
    [strconv] that the source calls.  [TrimSpace] and [ToLower] treat the ASCII
    range only (the non-ASCII white space and letters of Unicode are left
    alone). *)

From S2P Require Import Prelude.

Definition chars (s : string) : list ascii := list_ascii_of_string s.
Definition of_chars (l : list ascii) : string := string_of_list_ascii l.

Lemma of_chars_chars s : of_chars (chars s) = s.
Proof. apply string_of_list_ascii_of_string. Qed.

Lemma chars_of_chars l : chars (of_chars l) = l.
Proof. apply list_ascii_of_string_of_list_ascii. Qed.

Lemma chars_inj s t : chars s = chars t -> s = t.
Proof. intros H. by rewrite <- (of_chars_chars s), <- (of_chars_chars t), H. Qed.

Lemma chars_app s t : chars (s +:+ t) = chars s ++ chars t.
Proof. induction s as [|c s IH]; simpl; [done|]. by f_equal. Qed.

#[export] Hint Rewrite of_chars_chars chars_of_chars chars_app : aegis.

(** [len(s)]: the number of bytes. *)
Definition str_len (s : string) : Z := Z.of_nat (String.length s).

Lemma str_len_chars s : str_len s = Z.of_nat (List.length (chars s)).
Proof. unfold str_len. f_equal. induction s; simpl; congruence. Qed.

(** ** Byte classes *)

Definition code (c : ascii) : Z := Z.of_N (N_of_ascii c).
Definition in_range (lo hi c : ascii) : bool := (code lo <=? code c) && (code c <=? code hi).
Definition is_lower (c : ascii) : bool := in_range "a" "z" c.
Definition is_upper (c : ascii) : bool := in_range "A" "Z" c.
Definition is_digit (c : ascii) : bool := in_range "0" "9" c.
Definition is_alpha (c : ascii) : bool := is_lower c || is_upper c.
Definition is_alnum (c : ascii) : bool := is_alpha c || is_digit c.
Definition is_hex (c : ascii) : bool :=
  is_digit c || in_range "a" "f" c || in_range "A" "F" c.

(** The ASCII white space of [unicode.IsSpace]: \t \n \v \f \r and space. *)
Definition is_space (c : ascii) : bool :=
  ((9 <=? code c) && (code c <=? 13)) || (code c =? 32).

Definition ascii_eqb (a b : ascii) : bool := Ascii.eqb a b.

(** ** [strings.Split] on a one-byte separator *)

Fixpoint split_chars (sep : ascii) (acc l : list ascii) : list (list ascii) :=
  match l with
  | [] => [rev acc]
  | c :: l' =>
      if Ascii.eqb c sep then rev acc :: split_chars sep [] l'
      else split_chars sep (c :: acc) l'
  end.

Definition split (sep : ascii) (s : string) : list string :=
  map of_chars (split_chars sep [] (chars s)).

(** [strings.Join(l, sep)]. *)
Fixpoint join (sep : string) (l : list string) : string :=
  match l with
  | [] => ""
  | [s] => s
  | s :: l' => s +:+ sep +:+ join sep l'
  end.

Lemma of_chars_app l1 l2 : of_chars (l1 ++ l2) = of_chars l1 +:+ of_chars l2.
Proof.
  rewrite <- (of_chars_chars (of_chars l1 +:+ of_chars l2)), chars_app.
  by rewrite !chars_of_chars.
Qed.

Lemma str_app_assoc (s t u : string) : s +:+ (t +:+ u) = (s +:+ t) +:+ u.
Proof. apply chars_inj. by rewrite !chars_app, app_assoc. Qed.

Lemma split_chars_nonempty sep acc l : split_chars sep acc l <> [].
Proof. revert acc. induction l as [|c l IH]; intros acc; simpl; [done|]. by case_match. Qed.

Lemma split_chars_no_sep sep acc l :
  sep ∉ l -> split_chars sep acc l = [rev acc ++ l].
Proof.
  revert acc. induction l as [|c l IH]; intros acc Hn; simpl; [by rewrite app_nil_r|].
  rewrite not_elem_of_cons in Hn. destruct Hn as [Hc Hl].
  destruct (Ascii.eqb_spec c sep) as [->|_]; [done|].
  rewrite IH by done. simpl. by rewrite <- app_assoc.
Qed.

Lemma split_chars_app_sep sep acc l1 l2 :
  sep ∉ l1 ->
  split_chars sep acc (l1 ++ sep :: l2) = (rev acc ++ l1) :: split_chars sep [] l2.
Proof.
  revert acc. induction l1 as [|c l1 IH]; intros acc Hn; simpl.
  - by rewrite Ascii.eqb_refl, app_nil_r.
  - rewrite not_elem_of_cons in Hn. destruct Hn as [Hc Hl].
    destruct (Ascii.eqb_spec c sep) as [->|_]; [done|].
    rewrite IH by done. simpl. by rewrite <- app_assoc.
Qed.

(** A byte that does not occur in a string. *)
Definition free_of (sep : ascii) (s : string) : Prop := sep ∉ chars s.

#[export] Instance free_of_dec sep s : Decision (free_of sep s).
Proof. unfold free_of. apply _. Defined.

Lemma split_free sep s : free_of sep s -> split sep s = [s].
Proof.
  intros H. unfold split. rewrite split_chars_no_sep by done. simpl.
  by rewrite of_chars_chars.
Qed.

Lemma split_cons sep s t :
  free_of sep s -> split sep (s +:+ String sep t) = s :: split sep t.
Proof.
  intros H. unfold split. rewrite chars_app. simpl.
  rewrite split_chars_app_sep by done. simpl. by rewrite of_chars_chars.
Qed.

(** Joining what was split gives the string back. *)
Lemma join_split_chars sep acc l :
  join (String sep "") (map of_chars (split_chars sep acc l)) = of_chars (rev acc ++ l).
Proof.
  revert acc. induction l as [|c l IH]; intros acc; simpl; [by rewrite app_nil_r|].
  destruct (Ascii.eqb_spec c sep) as [->|_].
  - specialize (IH []). simpl in IH. simpl.
    destruct (map of_chars (split_chars sep [] l)) as [|x r] eqn:E.
    { apply map_eq_nil in E. by apply split_chars_nonempty in E. }
    rewrite IH. rewrite of_chars_app. done.
  - rewrite IH. simpl. by rewrite <- app_assoc.
Qed.

Lemma join_split sep s : join (String sep "") (split sep s) = s.
Proof. unfold split. rewrite join_split_chars. simpl. apply of_chars_chars. Qed.

(** The pieces do not contain the separator. *)
Lemma split_chars_free sep acc l :
  sep ∉ acc -> Forall (fun p => sep ∉ p) (split_chars sep acc l).
Proof.
  revert acc. induction l as [|c l IH]; intros acc Ha; simpl.
  - constructor; [|done]. intros Hin. apply Ha. by apply list_elem_of_In, in_rev, list_elem_of_In in Hin.
  - destruct (Ascii.eqb_spec c sep) as [->|Hc].
    + constructor; [|apply IH; apply not_elem_of_nil].
      intros Hin. apply Ha. by apply list_elem_of_In, in_rev, list_elem_of_In in Hin.
    + apply IH. apply not_elem_of_cons. split; congruence.
Qed.

(** Splitting what was joined gives the pieces back. *)
Lemma split_join sep l :
  l <> [] -> Forall (free_of sep) l -> split sep (join (String sep "") l) = l.
Proof.
  intros Hne Hl. induction Hl as [|s l Hs Hl IH]; [done|].
  destruct l as [|t l]; [by apply split_free|].
  change (join (String sep "") (s :: t :: l))
    with (s +:+ String sep (join (String sep "") (t :: l))).
  rewrite split_cons by done. f_equal. by apply IH.
Qed.

(** ** [strings.TrimSpace] *)

Fixpoint drop_while (p : ascii -> bool) (l : list ascii) : list ascii :=
  match l with
  | [] => []
  | c :: l' => if p c then drop_while p l' else l
  end.

Definition trim_space (s : string) : string :=
  of_chars (rev (drop_while is_space (rev (drop_while is_space (chars s))))).

Definition no_spaces (s : string) : Prop := Forall (fun c => is_space c = false) (chars s).

#[export] Instance no_spaces_dec s : Decision (no_spaces s).
Proof. unfold no_spaces. apply _. Defined.

Lemma drop_while_none p l : Forall (fun c => p c = false) l -> drop_while p l = l.
Proof. destruct 1 as [|c l Hc Hl]; simpl; [done|]. by rewrite Hc. Qed.

Lemma trim_space_id s : no_spaces s -> trim_space s = s.
Proof.
  unfold no_spaces, trim_space. intros H.
  rewrite (drop_while_none _ (chars s)) by done.
  rewrite drop_while_none by by apply Forall_rev.
  by rewrite rev_involutive, of_chars_chars.
Qed.

#[export] Hint Resolve split_free trim_space_id : aegis.

(** ** Prefixes, suffixes, substrings, case *)

Fixpoint prefix_chars (p l : list ascii) : bool :=
  match p, l with
  | [], _ => true
  | a :: p', b :: l' => Ascii.eqb a b && prefix_chars p' l'
  | _ :: _, [] => false
  end.

Definition has_prefix (s p : string) : bool := prefix_chars (chars p) (chars s).
Definition has_suffix (s p : string) : bool := prefix_chars (rev (chars p)) (rev (chars s)).

Fixpoint contains_chars (p l : list ascii) : bool :=
  prefix_chars p l ||
  match l with
  | [] => false
  | _ :: l' => contains_chars p l'
  end.

(** [strings.Contains(s, sub)]. *)
Definition str_contains (s sub : string) : bool := contains_chars (chars sub) (chars s).

Definition lower_char (c : ascii) : ascii :=
  if is_upper c then ascii_of_N (N_of_ascii c + 32) else c.

(** [strings.ToLower], ASCII range. *)
Definition to_lower (s : string) : string := of_chars (map lower_char (chars s)).

(** [strings.ToUpper], ASCII range. *)
Definition upper_char (c : ascii) : ascii :=
  if is_lower c then ascii_of_N (N_of_ascii c - 32) else c.
Definition to_upper (s : string) : string := of_chars (map upper_char (chars s)).

(** [s[:n]] and [s[n:]] for an [n] within range. *)
Definition str_take (n : nat) (s : string) : string := of_chars (take n (chars s)).
Definition str_drop (n : nat) (s : string) : string := of_chars (drop n (chars s)).

(** [for _, c := range s] with a test on ASCII characters: a byte-wise test,
    since every byte of a non-ASCII rune is at least 0x80. *)
Definition all_chars (p : ascii -> bool) (s : string) : bool := forallb p (chars s).
Definition any_char (p : ascii -> bool) (s : string) : bool := existsb p (chars s).

(** ** [strconv.Atoi] and [strconv.Itoa] *)

Definition digit_val (c : ascii) : Z := code c - code "0".
Definition digit_char (d : Z) : ascii := ascii_of_N (Z.to_N (d + code "0")).

Fixpoint digits_val (acc : Z) (l : list ascii) : option Z :=
  match l with
  | [] => Some acc
  | c :: l' => if is_digit c then digits_val (acc * 10 + digit_val c) l' else None
  end.

(** An optional sign, at least one digit, and the value fits an [int]. *)
Definition atoi (s : string) : option Z :=
  let of_digits (neg : bool) (l : list ascii) :=
    match l with
    | [] => None
    | _ =>
        match digits_val 0 l with
        | Some v =>
            let v := if neg then - v else v in
            if in_int64 v then Some v else None
        | None => None
        end
    end in
  match chars s with
  | "-"%char :: l => of_digits true l
  | "+"%char :: l => of_digits false l
  | l => of_digits false l
  end.

Fixpoint pos_digits (fuel : nat) (n : Z) (acc : list ascii) : list ascii :=
  match fuel with
  | O => acc
  | S fuel' =>
      let acc' := digit_char (n mod 10) :: acc in
      if n / 10 =? 0 then acc' else pos_digits fuel' (n / 10) acc'
  end.

(** Twenty digits are enough for every 64-bit integer. *)
Definition itoa (n : Z) : string :=
  of_chars (if n <? 0 then "-"%char :: pos_digits 20 (- n) [] else pos_digits 20 n []).

Lemma digit_cases (P : Z -> Prop) :
  P 0 -> P 1 -> P 2 -> P 3 -> P 4 -> P 5 -> P 6 -> P 7 -> P 8 -> P 9 ->
  forall d, 0 <= d < 10 -> P d.
Proof.
  intros. assert (d = 0 \/ d = 1 \/ d = 2 \/ d = 3 \/ d = 4 \/ d = 5 \/ d = 6 \/ d = 7 \/ d = 8 \/ d = 9)
    as Hd by lia.
  by repeat destruct Hd as [->|Hd]; subst.
Qed.

Lemma digit_char_ok d :
  0 <= d < 10 -> is_digit (digit_char d) = true /\ digit_val (digit_char d) = d.
Proof. revert d. apply digit_cases; by vm_compute. Qed.

Lemma digits_val_app acc l1 l2 v :
  digits_val acc l1 = Some v -> digits_val acc (l1 ++ l2) = digits_val v l2.
Proof.
  revert acc. induction l1 as [|c l1 IH]; intros acc H; simpl in *; [by simplify_eq|].
  case_match; [by apply IH|done].
Qed.

Lemma pos_digits_val fuel n acc :
  0 <= n < 10 ^ Z.of_nat fuel -> (0 < fuel)%nat ->
  digits_val 0 (pos_digits fuel n acc) = digits_val n acc.
Proof.
  revert n acc. induction fuel as [|fuel IH]; intros n acc Hn Hf; [lia|].
  cbn [pos_digits].
  destruct (digit_char_ok (n mod 10)) as [Hd Hv]; [by apply Z.mod_pos_bound|].
  pose proof (Z.div_mod n 10 ltac:(lia)) as Hdm.
  destruct (n / 10 =? 0) eqn:E; bool_to_prop.
  - cbn [digits_val]. rewrite Hd, Hv. f_equal. lia.
  - rewrite IH.
    + cbn [digits_val]. rewrite Hd, Hv. f_equal. lia.
    + rewrite Nat2Z.inj_succ, Z.pow_succ_r in Hn by lia.
      split; [apply Z.div_pos; lia | apply Z.div_lt_upper_bound; lia].
    + destruct fuel; [|lia]. simpl in Hn. exfalso. apply E. apply Z.div_small. lia.
Qed.

Lemma pos_digits_head fuel n acc :
  (0 < fuel)%nat ->
  exists d l, pos_digits fuel n acc = d :: l /\ (exists m, d = digit_char (m mod 10)).
Proof.
  revert n acc. induction fuel as [|fuel IH]; intros n acc Hf; [lia|].
  cbn [pos_digits]. case_match; [naive_solver|].
  destruct fuel as [|fuel]; [naive_solver|]. apply IH. lia.
Qed.

Lemma digit_char_not_sign d :
  0 <= d < 10 -> digit_char d <> "-"%char /\ digit_char d <> "+"%char.
Proof. revert d. apply digit_cases; by vm_compute. Qed.

Lemma atoi_signless c l :
  c <> "-"%char -> c <> "+"%char ->
  atoi (of_chars (c :: l)) =
  match digits_val 0 (c :: l) with
  | Some v => if in_int64 v then Some v else None
  | None => None
  end.
Proof.
  intros H1 H2. unfold atoi. rewrite chars_of_chars.
  destruct (Ascii.eqb_spec c "-") as [|_]; [done|].
  destruct (Ascii.eqb_spec c "+") as [|_]; [done|].
  destruct c as [[] [] [] [] [] [] [] []]; try done.
Qed.

(** [Atoi] reads back what [Itoa] wrote, for every 64-bit integer. *)
Lemma atoi_itoa n : min_int64 <= n <= max_int64 -> atoi (itoa n) = Some n.
Proof.
  intros Hn. unfold itoa.
  assert (Hr : in_int64 n = true).
  { unfold in_int64. apply andb_true_iff. split; apply Z.leb_le; lia. }
  assert (Hb : 10 ^ Z.of_nat 20 = 100000000000000000000) by reflexivity.
  unfold min_int64, max_int64 in Hn.
  destruct (n <? 0) eqn:E; bool_to_prop.
  - unfold atoi. rewrite chars_of_chars.
    destruct (pos_digits_head 20 (- n) []) as (d & l & Hd & _); [lia|].
    pose proof (pos_digits_val 20 (- n) [] ltac:(lia) ltac:(lia)) as Hv.
    rewrite Hd in *. rewrite Hv. cbn [digits_val]. by rewrite Z.opp_involutive, Hr.
  - destruct (pos_digits_head 20 n []) as (d & l & Hd & m & ->); [lia|].
    pose proof (pos_digits_val 20 n [] ltac:(lia) ltac:(lia)) as Hv.
    destruct (digit_char_not_sign (m mod 10)) as [H1 H2]; [by apply Z.mod_pos_bound|].
    rewrite Hd, atoi_signless by done. rewrite Hd in Hv. rewrite Hv. cbn [digits_val]. by rewrite Hr.
Qed.

#[export] Hint Resolve atoi_itoa : aegis.
