(* ===== verification/Consts.v ===== *)
(** * The enumerations and tables of [consts/]

    [consts/consts.go] declares the integer enumerations, [consts/collection.go]
    their name tables and [consts/validation.go] the sets of accepted values.  A
    Go enumeration is an [int] with named constants, so a value read from the
    database or from a request may be out of range: every enumeration is an
    inductive type with its integer code, and the name functions take the code. *)

From S2P Require Import Prelude.

(** ** Enumerations with integer codes *)

Class GoEnum (E : Type) := {
  enum_eq_dec :: EqDecision E;
  enum_code : E -> Z;
  enum_code_inj :: Inj (=) (=) enum_code
}.

(** [for k, v := range table]-free lookup by code: [table[code]]. *)
Fixpoint enum_find {E V} `{GoEnum E} (table : list (E * V)) (z : Z) : option V :=
  match table with
  | [] => None
  | (e, v) :: t => if enum_code e =? z then Some v else enum_find t z
  end.

(** [if name, exists := table[x]; exists { return name }; return dflt]. *)
Definition enum_name {E} `{GoEnum E} (dflt : string) (table : list (E * string)) (z : Z) : string :=
  default dflt (enum_find table z).

(** The reverse map the code builds on every call, then the lookup in it.  The
    iteration order of the Go map does not matter because the names differ. *)
Fixpoint enum_by_name {E} (table : list (E * string)) (name : string) : option E :=
  match table with
  | [] => None
  | (e, n) :: t => if String.eqb n name then Some e else enum_by_name t name
  end.

(** [_, ok := set[x]]. *)
Definition enum_mem {E} `{GoEnum E} (l : list E) (z : Z) : bool :=
  existsb (fun e => enum_code e =? z) l.

Section Enum.
Context {E : Type} `{GoEnum E}.

Lemma enum_find_code {V} (table : list (E * V)) e v :
    NoDup (map fst table) -> (e, v) ∈ table -> enum_find table (enum_code e) = Some v.
  Proof.
    induction table as [|[e' v'] t IH]; simpl; [by intros _ ?%not_elem_of_nil|].
    intros [Hn Ht]%NoDup_cons [Heq|Hin]%elem_of_cons.
    - simplify_eq. by rewrite Z.eqb_refl.
    - destruct (Z.eqb_spec (enum_code e') (enum_code e)) as [He|_]; [|by apply IH].
      apply enum_code_inj in He. subst e'. exfalso. apply Hn.
      apply list_elem_of_In, (in_map fst t (e, v)). by apply list_elem_of_In.
  Qed.

Lemma enum_find_none {V} (table : list (E * V)) z :
    (forall e, enum_code e <> z) -> enum_find table z = None.
  Proof.
    intros Hz. induction table as [|[e v] t IH]; simpl; [done|].
    destruct (Z.eqb_spec (enum_code e) z) as [He|_]; [by destruct (Hz e)|done].
  Qed.

Lemma enum_by_name_elem (table : list (E * string)) e n :
    NoDup (map snd table) -> (e, n) ∈ table -> enum_by_name table n = Some e.
  Proof.
    induction table as [|[e' n'] t IH]; simpl; [by intros _ ?%not_elem_of_nil|].
    intros [Hn Ht]%NoDup_cons [Heq|Hin]%elem_of_cons.
    - simplify_eq. by rewrite String.eqb_refl.
    - destruct (String.eqb_spec n' n) as [->|_]; [|by apply IH].
      exfalso. apply Hn. apply list_elem_of_In, (in_map snd t (e, n)).
      by apply list_elem_of_In.
  Qed.

(** A table that names every value once round-trips through the names. *)
Lemma enum_name_roundtrip dflt (table : list (E * string)) e :
    NoDup (map fst table) -> NoDup (map snd table) -> e ∈ map fst table ->
    enum_by_name table (enum_name dflt table (enum_code e)) = Some e.
  Proof.
    intros Hk Hv He. apply list_elem_of_In, in_map_iff in He as ([e' n] & Heq & Hin).
    simpl in Heq. subst e'. apply list_elem_of_In in Hin.
    unfold enum_name. rewrite (enum_find_code _ _ n) by done. simpl.
    by apply enum_by_name_elem.
  Qed.

Lemma enum_by_name_sound (table : list (E * string)) n e :
    enum_by_name table n = Some e -> (e, n) ∈ table.
  Proof.
    induction table as [|[e' n'] t IH]; simpl; [done|].
    destruct (String.eqb_spec n' n) as [->|_]; intros Heq; simplify_eq; set_solver.
  Qed.

Lemma enum_mem_code (l : list E) e : enum_mem l (enum_code e) = bool_decide (e ∈ l).
  Proof.
    unfold enum_mem. destruct (bool_decide_reflect (e ∈ l)) as [Hin|Hn].
    - apply existsb_elem. exists e. by rewrite Z.eqb_refl.
    - apply not_true_iff_false. rewrite existsb_elem. intros (e' & Hin & He).
      apply Z.eqb_eq, enum_code_inj in He. by subst.
  Qed.
End Enum.

(** ** [consts/consts.go] *)

Inductive LabelCategory :=
| SystemCategory | ConfigCategory | ContainerCategory | DatasetCategory
| ProjectCategory | InjectionCategory | ExecutionCategory.
Inductive AuditLogState := AuditLogStateFailed | AuditLogStateSuccess.
Inductive ConfigHistoryChangeType := ChangeTypeUpdate | ChangeTypeRollback.
Inductive ContainerType := ContainerTypeAlgorithm | ContainerTypeBenchmark | ContainerTypePedestal.
Inductive ConfigScope := ConfigScopeProducer | ConfigScopeConsumer | ConfigScopeGlobal.
Inductive ConfigValueType :=
| ConfigValueTypeString | ConfigValueTypeBool | ConfigValueTypeInt | ConfigValueTypeFloat
| ConfigValueTypeStringArray.
Inductive ParameterType := ParameterTypeFixed | ParameterTypeDynamic.
Inductive ParameterCategory := ParameterCategoryEnvVars | ParameterCategoryHelmValues.
Inductive ValueDataType :=
| ValueDataTypeString | ValueDataTypeInt | ValueDataTypeBool | ValueDataTypeFloat
| ValueDataTypeArray | ValueDataTypeObject.
Inductive DatapackState :=
| DatapackInitial | DatapackInjectFailed | DatapackInjectSuccess | DatapackBuildFailed
| DatapackBuildSuccess | DatapackDetectorFailed | DatapackDetectorSuccess.
Inductive ExecutionState := ExecutionInitial | ExecutionFailed | ExecutionSuccess.
Inductive GrantType := GrantTypeGrant | GrantTypeDeny.
Inductive PageSize := PageSizeTiny | PageSizeSmall | PageSizeMedium | PageSizeLarge | PageSizeXLarge.
Inductive TaskState :=
| TaskCancelled | TaskError | TaskPending | TaskRescheduled | TaskRunning | TaskCompleted.
Inductive TraceType :=
| TraceTypeFullPipeline | TraceTypeFaultInjection | TraceTypeDatapackBuild | TraceTypeAlgorithmRun.
Inductive TraceState := TracePending | TraceRunning | TraceCompleted | TraceFailed.
Inductive TaskType :=
| TaskTypeBuildContainer | TaskTypeRestartPedestal | TaskTypeFaultInjection | TaskTypeRunAlgorithm
| TaskTypeBuildDatapack | TaskTypeCollectResult | TaskTypeCronJob.
Inductive StatusType := CommonDeleted | CommonDisabled | CommonEnabled.
Inductive ResourceType := ResourceTypeSystem | ResourceTypeTable.
Inductive ResourceCategory :=
| ResourceCategoryChaos | ResourceCategoryAsset | ResourceCategoryPlatform | ResourceCategorySystem.

Definition LabelCategory_code (x : LabelCategory) : Z :=
  match x with
  | SystemCategory => 0 | ConfigCategory => 1 | ContainerCategory => 2 | DatasetCategory => 3
  | ProjectCategory => 4 | InjectionCategory => 5 | ExecutionCategory => 6
  end.
Definition AuditLogState_code (x : AuditLogState) : Z :=
  match x with AuditLogStateFailed => 0 | AuditLogStateSuccess => 1 end.
Definition ConfigHistoryChangeType_code (x : ConfigHistoryChangeType) : Z :=
  match x with ChangeTypeUpdate => 0 | ChangeTypeRollback => 1 end.
Definition ContainerType_code (x : ContainerType) : Z :=
  match x with ContainerTypeAlgorithm => 0 | ContainerTypeBenchmark => 1 | ContainerTypePedestal => 2 end.
Definition ConfigScope_code (x : ConfigScope) : Z :=
  match x with ConfigScopeProducer => 0 | ConfigScopeConsumer => 1 | ConfigScopeGlobal => 2 end.
Definition ConfigValueType_code (x : ConfigValueType) : Z :=
  match x with
  | ConfigValueTypeString => 0 | ConfigValueTypeBool => 1 | ConfigValueTypeInt => 2
  | ConfigValueTypeFloat => 3 | ConfigValueTypeStringArray => 4
  end.
Definition ParameterType_code (x : ParameterType) : Z :=
  match x with ParameterTypeFixed => 0 | ParameterTypeDynamic => 1 end.
Definition ParameterCategory_code (x : ParameterCategory) : Z :=
  match x with ParameterCategoryEnvVars => 0 | ParameterCategoryHelmValues => 1 end.
Definition ValueDataType_code (x : ValueDataType) : Z :=
  match x with
  | ValueDataTypeString => 0 | ValueDataTypeInt => 1 | ValueDataTypeBool => 2
  | ValueDataTypeFloat => 3 | ValueDataTypeArray => 4 | ValueDataTypeObject => 5
  end.
Definition DatapackState_code (x : DatapackState) : Z :=
  match x with
  | DatapackInitial => 0 | DatapackInjectFailed => 1 | DatapackInjectSuccess => 2
  | DatapackBuildFailed => 3 | DatapackBuildSuccess => 4 | DatapackDetectorFailed => 5
  | DatapackDetectorSuccess => 6
  end.
Definition ExecutionState_code (x : ExecutionState) : Z :=
  match x with ExecutionInitial => 0 | ExecutionFailed => 1 | ExecutionSuccess => 2 end.
Definition GrantType_code (x : GrantType) : Z :=
  match x with GrantTypeGrant => 0 | GrantTypeDeny => 1 end.
Definition PageSize_code (x : PageSize) : Z :=
  match x with
  | PageSizeTiny => 5 | PageSizeSmall => 10 | PageSizeMedium => 20 | PageSizeLarge => 50
  | PageSizeXLarge => 100
  end.
Definition TaskState_code (x : TaskState) : Z :=
  match x with
  | TaskCancelled => -2 | TaskError => -1 | TaskPending => 0 | TaskRescheduled => 1
  | TaskRunning => 2 | TaskCompleted => 3
  end.
Definition TraceType_code (x : TraceType) : Z :=
  match x with
  | TraceTypeFullPipeline => 0 | TraceTypeFaultInjection => 1 | TraceTypeDatapackBuild => 2
  | TraceTypeAlgorithmRun => 3
  end.
Definition TraceState_code (x : TraceState) : Z :=
  match x with TracePending => 0 | TraceRunning => 1 | TraceCompleted => 2 | TraceFailed => 3 end.
Definition TaskType_code (x : TaskType) : Z :=
  match x with
  | TaskTypeBuildContainer => 0 | TaskTypeRestartPedestal => 1 | TaskTypeFaultInjection => 2
  | TaskTypeRunAlgorithm => 3 | TaskTypeBuildDatapack => 4 | TaskTypeCollectResult => 5
  | TaskTypeCronJob => 6
  end.
Definition StatusType_code (x : StatusType) : Z :=
  match x with CommonDeleted => -1 | CommonDisabled => 0 | CommonEnabled => 1 end.
Definition ResourceType_code (x : ResourceType) : Z :=
  match x with ResourceTypeSystem => 0 | ResourceTypeTable => 1 end.
Definition ResourceCategory_code (x : ResourceCategory) : Z :=
  match x with
  | ResourceCategoryChaos => 0 | ResourceCategoryAsset => 1 | ResourceCategoryPlatform => 2
  | ResourceCategorySystem => 3
  end.

Ltac enum_instance c := unshelve refine {| enum_code := c |};
  [intros [] []; first [by left | by right] | intros [] []; done].
#[export] Instance LabelCategory_enum : GoEnum LabelCategory. Proof. enum_instance LabelCategory_code. Defined.
#[export] Instance AuditLogState_enum : GoEnum AuditLogState. Proof. enum_instance AuditLogState_code. Defined.
#[export] Instance ConfigHistoryChangeType_enum : GoEnum ConfigHistoryChangeType. Proof. enum_instance ConfigHistoryChangeType_code. Defined.
#[export] Instance ContainerType_enum : GoEnum ContainerType. Proof. enum_instance ContainerType_code. Defined.
#[export] Instance ConfigScope_enum : GoEnum ConfigScope. Proof. enum_instance ConfigScope_code. Defined.
#[export] Instance ConfigValueType_enum : GoEnum ConfigValueType. Proof. enum_instance ConfigValueType_code. Defined.
#[export] Instance ParameterType_enum : GoEnum ParameterType. Proof. enum_instance ParameterType_code. Defined.
#[export] Instance ParameterCategory_enum : GoEnum ParameterCategory. Proof. enum_instance ParameterCategory_code. Defined.
#[export] Instance ValueDataType_enum : GoEnum ValueDataType. Proof. enum_instance ValueDataType_code. Defined.
#[export] Instance DatapackState_enum : GoEnum DatapackState. Proof. enum_instance DatapackState_code. Defined.
#[export] Instance ExecutionState_enum : GoEnum ExecutionState. Proof. enum_instance ExecutionState_code. Defined.
#[export] Instance GrantType_enum : GoEnum GrantType. Proof. enum_instance GrantType_code. Defined.
#[export] Instance PageSize_enum : GoEnum PageSize. Proof. enum_instance PageSize_code. Defined.
#[export] Instance TaskState_enum : GoEnum TaskState. Proof. enum_instance TaskState_code. Defined.
#[export] Instance TraceType_enum : GoEnum TraceType. Proof. enum_instance TraceType_code. Defined.
#[export] Instance TraceState_enum : GoEnum TraceState. Proof. enum_instance TraceState_code. Defined.
#[export] Instance TaskType_enum : GoEnum TaskType. Proof. enum_instance TaskType_code. Defined.
#[export] Instance StatusType_enum : GoEnum StatusType. Proof. enum_instance StatusType_code. Defined.
#[export] Instance ResourceType_enum : GoEnum ResourceType. Proof. enum_instance ResourceType_code. Defined.
#[export] Instance ResourceCategory_enum : GoEnum ResourceCategory. Proof. enum_instance ResourceCategory_code. Defined.
(** ** [consts/collection.go] *)

Definition auditLogStateMap : list (AuditLogState * string) :=
  [(AuditLogStateFailed, "failed");
   (AuditLogStateSuccess, "success")].
Definition containerTypeMap : list (ContainerType * string) :=
  [(ContainerTypeAlgorithm, "algorithm");
   (ContainerTypeBenchmark, "benchmark");
   (ContainerTypePedestal, "pedestal")].
Definition configHistoryChangeTypeMap : list (ConfigHistoryChangeType * string) :=
  [(ChangeTypeUpdate, "update");
   (ChangeTypeRollback, "rollback")].
Definition ConfigScopeMap : list (ConfigScope * string) :=
  [(ConfigScopeProducer, "producer");
   (ConfigScopeConsumer, "consumer");
   (ConfigScopeGlobal, "global")].
Definition dynamicConfigTypeMap : list (ConfigValueType * string) :=
  [(ConfigValueTypeBool, "bool");
   (ConfigValueTypeInt, "int");
   (ConfigValueTypeFloat, "float");
   (ConfigValueTypeString, "string");
   (ConfigValueTypeStringArray, "string_array")].
Definition datapackStateMap : list (DatapackState * string) :=
  [(DatapackInitial, "initial");
   (DatapackInjectFailed, "inject_failed");
   (DatapackInjectSuccess, "inject_success");
   (DatapackBuildFailed, "build_failed");
   (DatapackBuildSuccess, "build_success");
   (DatapackDetectorFailed, "detector_failed");
   (DatapackDetectorSuccess, "detector_success")].
Definition executeStateMap : list (ExecutionState * string) :=
  [(ExecutionInitial, "initial");
   (ExecutionFailed, "failed");
   (ExecutionSuccess, "success")].
Definition grantTypeMap : list (GrantType * string) :=
  [(GrantTypeGrant, "grant");
   (GrantTypeDeny, "deny")].
Definition labelCategoryMap : list (LabelCategory * string) :=
  [(SystemCategory, "system");
   (ConfigCategory, "config");
   (ContainerCategory, "container");
   (DatasetCategory, "dataset");
   (ProjectCategory, "project");
   (InjectionCategory, "injection");
   (ExecutionCategory, "execution")].
Definition parameterTypeMap : list (ParameterType * string) :=
  [(ParameterTypeFixed, "fixed");
   (ParameterTypeDynamic, "dynamic")].
Definition parameterCategoryMap : list (ParameterCategory * string) :=
  [(ParameterCategoryEnvVars, "env_vars");
   (ParameterCategoryHelmValues, "helm_values")].
Definition valueDataTypeMap : list (ValueDataType * string) :=
  [(ValueDataTypeString, "string");
   (ValueDataTypeInt, "int");
   (ValueDataTypeBool, "bool");
   (ValueDataTypeFloat, "float");
   (ValueDataTypeArray, "array");
   (ValueDataTypeObject, "object")].
Definition resouceTypeMap : list (ResourceType * string) :=
  [(ResourceTypeSystem, "system");
   (ResourceTypeTable, "table")].
Definition resourceCategoryMap : list (ResourceCategory * string) :=
  [(ResourceCategoryChaos, "chaos");
   (ResourceCategoryAsset, "asset");
   (ResourceCategoryPlatform, "platform");
   (ResourceCategorySystem, "system")].
Definition statusTypeMap : list (StatusType * string) :=
  [(CommonDeleted, "deleted");
   (CommonDisabled, "disabled");
   (CommonEnabled, "enabled")].
Definition taskStateMap : list (TaskState * string) :=
  [(TaskCancelled, "Cancelled");
   (TaskError, "Error");
   (TaskPending, "Pending");
   (TaskRescheduled, "Rescheduled");
   (TaskRunning, "Running");
   (TaskCompleted, "Completed")].
Definition taskTypeMap : list (TaskType * string) :=
  [(TaskTypeBuildContainer, "BuildContainer");
   (TaskTypeRestartPedestal, "RestartPedestal");
   (TaskTypeFaultInjection, "FaultInjection");
   (TaskTypeRunAlgorithm, "RunAlgorithm");
   (TaskTypeBuildDatapack, "BuildDatapack");
   (TaskTypeCollectResult, "CollectResult");
   (TaskTypeCronJob, "CronJob")].
Definition traceTypeMap : list (TraceType * string) :=
  [(TraceTypeFullPipeline, "FullPipeline");
   (TraceTypeFaultInjection, "FaultInjection");
   (TraceTypeDatapackBuild, "DatapackBuild");
   (TraceTypeAlgorithmRun, "AlgorithmRun")].
Definition traceStateMap : list (TraceState * string) :=
  [(TracePending, "Pending");
   (TraceRunning, "Running");
   (TraceCompleted, "Completed");
   (TraceFailed, "Failed")].
(** ** The name functions *)
Definition GetAuditLogStateName (x : Z) : string := enum_name "unknown" auditLogStateMap x.
Definition GetContainerTypeName (x : Z) : string := enum_name "unknown" containerTypeMap x.
Definition GetConfigHistoryChangeTypeName (x : Z) : string := enum_name "unknown" configHistoryChangeTypeMap x.
Definition GetConfigScopeName (x : Z) : string := enum_name "unknown" ConfigScopeMap x.
Definition GetDatapackStateName (x : Z) : string := enum_name "unknown" datapackStateMap x.
Definition GetDatapackStateByName (name : string) : option DatapackState := enum_by_name datapackStateMap name.
Definition GetDynamicConfigTypeName (x : Z) : string := enum_name "unknown" dynamicConfigTypeMap x.
Definition GetExecutionStateName (x : Z) : string := enum_name "unknown" executeStateMap x.
Definition GetExecutionStateByName (name : string) : option ExecutionState := enum_by_name executeStateMap name.
Definition GetGrantTypeName (x : Z) : string := enum_name "unknown" grantTypeMap x.
Definition GetLabelCategoryName (x : Z) : string := enum_name "unknown" labelCategoryMap x.
Definition GetParameterTypeName (x : Z) : string := enum_name "unknown" parameterTypeMap x.
Definition GetParameterCategoryName (x : Z) : string := enum_name "unknown" parameterCategoryMap x.
Definition GetValueDataTypeName (x : Z) : string := enum_name "unknown" valueDataTypeMap x.
Definition GetResourceTypeName (x : Z) : string := enum_name "unknown" resouceTypeMap x.
Definition GetResourceCategoryName (x : Z) : string := enum_name "unknown" resourceCategoryMap x.
Definition GetStatusTypeName (x : Z) : string := enum_name "unknown" statusTypeMap x.
Definition GetTaskStateName (x : Z) : string := enum_name "Unknown" taskStateMap x.
Definition GetTaskStateByName (name : string) : option TaskState := enum_by_name taskStateMap name.
Definition GetTaskTypeName (x : Z) : string := enum_name "Unknown" taskTypeMap x.
Definition GetTaskTypeByName (name : string) : option TaskType := enum_by_name taskTypeMap name.
Definition GetTraceTypeName (x : Z) : string := enum_name "Unknown" traceTypeMap x.
Definition GetTraceStateName (x : Z) : string := enum_name "Unknown" traceStateMap x.

(** ** [consts/validation.go] *)

Definition ValidAuditLogStates : list AuditLogState :=
  [AuditLogStateFailed; AuditLogStateSuccess].
Definition ValidContainerTypes : list ContainerType :=
  [ContainerTypeAlgorithm; ContainerTypeBenchmark; ContainerTypePedestal].
Definition ValidConfigHistoryChanteTypes : list ConfigHistoryChangeType :=
  [ChangeTypeUpdate; ChangeTypeRollback].
Definition ValidConfigScopes : list ConfigScope :=
  [ConfigScopeProducer; ConfigScopeConsumer].
Definition ValidDatapackStates : list DatapackState :=
  [DatapackInitial; DatapackInjectFailed; DatapackInjectSuccess; DatapackBuildFailed; DatapackBuildSuccess].
Definition ValidDynamicConfigTypes : list ConfigValueType :=
  [ConfigValueTypeBool; ConfigValueTypeInt; ConfigValueTypeFloat; ConfigValueTypeString; ConfigValueTypeStringArray].
Definition ValidExecutionStates : list ExecutionState :=
  [ExecutionInitial; ExecutionFailed; ExecutionSuccess].
Definition ValidGrantTypes : list GrantType :=
  [GrantTypeGrant; GrantTypeDeny].
Definition ValidLabelCategories : list LabelCategory :=
  [SystemCategory; ConfigCategory; ContainerCategory; DatasetCategory; ProjectCategory; InjectionCategory; ExecutionCategory].
Definition ValidPageSizes : list PageSize :=
  [PageSizeTiny; PageSizeSmall; PageSizeMedium; PageSizeLarge; PageSizeXLarge].
Definition ValidParameterTypes : list ParameterType :=
  [ParameterTypeFixed; ParameterTypeDynamic].
Definition ValidParameterCategories : list ParameterCategory :=
  [ParameterCategoryEnvVars; ParameterCategoryHelmValues].
Definition ValidResourceTypes : list ResourceType :=
  [ResourceTypeSystem; ResourceTypeTable].
Definition ValidResourceCategories : list ResourceCategory :=
  [ResourceCategoryChaos; ResourceCategoryAsset; ResourceCategoryPlatform; ResourceCategorySystem].
Definition ValidStatuses : list StatusType :=
  [CommonDeleted; CommonDisabled; CommonEnabled].
Definition ValidTaskStates : list TaskState :=
  [TaskCancelled; TaskError; TaskPending; TaskRescheduled; TaskRunning; TaskCompleted].
Definition ValidTaskTypes : list TaskType :=
  [TaskTypeBuildContainer; TaskTypeRestartPedestal; TaskTypeBuildDatapack; TaskTypeFaultInjection; TaskTypeRunAlgorithm; TaskTypeCollectResult].
Definition ValidTraceStates : list TraceState :=
  [TracePending; TraceRunning; TraceCompleted; TraceFailed].
Definition ValidTraceTypes : list TraceType :=
  [TraceTypeFullPipeline; TraceTypeFaultInjection; TraceTypeDatapackBuild; TraceTypeAlgorithmRun].

(** ** Event names ([EventType] is a string) *)

Definition EventRestartPedestalStarted : string := "restart.pedestal.started".
Definition EventRestartPedestalCompleted : string := "restart.pedestal.completed".
Definition EventRestartPedestalFailed : string := "restart.pedestal.failed".
Definition EventFaultInjectionStarted : string := "fault.injection.started".
Definition EventFaultInjectionCompleted : string := "fault.injection.completed".
Definition EventFaultInjectionFailed : string := "fault.injection.failed".
Definition EventAlgoRunStarted : string := "algorithm.run.started".
Definition EventAlgoRunSucceed : string := "algorithm.run.succeed".
Definition EventAlgoRunFailed : string := "algorithm.run.failed".
Definition EventAlgoResultCollection : string := "algorithm.result.collection".
Definition EventAlgoNoResultData : string := "algorithm.no_result_data".
Definition EventDatapackBuildStarted : string := "datapack.build.started".
Definition EventDatapackBuildSucceed : string := "datapack.build.succeed".
Definition EventDatapackBuildFailed : string := "datapack.build.failed".
Definition EventDatapackResultCollection : string := "datapack.result.collection".
Definition EventDatapackNoAnomaly : string := "datapack.no_anomaly".
Definition EventDatapackNoDetectorData : string := "datapack.no_detector_data".
Definition EventImageBuildStarted : string := "image.build.started".
Definition EventImageBuildSucceed : string := "image.build.succeed".
Definition EventImageBuildFailed : string := "image.build.failed".
Definition EventTaskStarted : string := "task.started".
Definition EventTaskStateUpdate : string := "task.state.update".
Definition EventTaskRetryStatus : string := "task.retry.status".
Definition EventTaskScheduled : string := "task.scheduled".
Definition EventNoNamespaceAvailable : string := "no.namespace.available".
Definition EventNoTokenAvailable : string := "no.token.available".
Definition EventAcquireLock : string := "acquire.lock".
Definition EventReleaseLock : string := "release.lock".
Definition EventJobSucceed : string := "k8s.job.succeed".
Definition EventJobFailed : string := "k8s.job.failed".

(** ** JSON form of the datapack and execution states

    [MarshalJSON] writes the name; [UnmarshalJSON] reads a JSON string and
    dereferences the pointer [Get...ByName] returns, which is nil for a name that
    is not in the table.  A JSON value is reduced to what the methods look at:
    the decoded string, or nothing when the data is not a JSON string. *)
Definition DatapackState_MarshalJSON (ds : Z) : string := GetDatapackStateName ds.
Definition ExecutionState_MarshalJSON (es : Z) : string := GetExecutionStateName es.

Definition unmarshal_state {E} (by_name : string -> option E) (data : option string) : outcome (res E) :=
  match data with
  | None => Returns (Err "json: cannot unmarshal into Go value of type string")
  | Some stateName =>
      match by_name stateName with
      | Some e => Returns (Ok e)
      | None => Panics
      end
  end.
Definition DatapackState_UnmarshalJSON (data : option string) : outcome (res DatapackState) :=
  unmarshal_state GetDatapackStateByName data.
Definition ExecutionState_UnmarshalJSON (data : option string) : outcome (res ExecutionState) :=
  unmarshal_state GetExecutionStateByName data.

Lemma GetTaskTypeByName_Name t : GetTaskTypeByName (GetTaskTypeName (enum_code t)) = Some t.
Proof. by destruct t. Qed.

Lemma GetTaskStateByName_Name t : GetTaskStateByName (GetTaskStateName (enum_code t)) = Some t.
Proof. by destruct t. Qed.

Lemma GetDatapackStateByName_Name d : GetDatapackStateByName (GetDatapackStateName (enum_code d)) = Some d.
Proof. by destruct d. Qed.

#[export] Hint Rewrite GetTaskTypeByName_Name GetTaskStateByName_Name GetDatapackStateByName_Name : aegis.
