(* ===== verification/TraceState.v ===== *)
(** * Trace state inference ([service/consumer/trace.go])

    The worker recomputes the state of a trace from the states of all its tasks
    after each task update, and stores it with an optimistic lock on the
    [updated_at] column.  This file models the inference (level statistics,
    early termination, choice of the last event) and the update protocol.  The
    database is a parameter ([TraceDB]), with the SQL behaviour of the two
    statements the code issues as the laws of the class. *)

From S2P Require Import Prelude Consts.

(** ** Data: the columns of [model.Task] and [model.Trace] the file reads.
    A [time.Time] is a number of nanoseconds since the zero time. *)

Record Task := mkTask {
  task_ID : string;
  task_Type : TaskType;
  task_Level : Z;
  task_Sequence : Z;
  task_State : TaskState;
  task_UpdatedAt : Z
}.

Record Trace := mkTrace {
  trace_ID : string;
  trace_Type : TraceType;
  trace_LastEvent : string;
  trace_EndTime : option Z;
  trace_GroupID : string;
  trace_State : TraceState;
  trace_UpdatedAt : Z;
  trace_Tasks : list Task
}.

(** A stream event, reduced to the field the inference reads. *)
Record TraceStreamEvent := mkEvent { EventName : string }.

Record levelStatistics := mkStats {
  Total : Z; Completed : Z; Failed : Z; Running : Z; Pending : Z
}.
Definition zeroStats : levelStatistics := mkStats 0 0 0 0 0.

Definition traceTypeHeightMap (t : TraceType) : nat :=
  match t with
  | TraceTypeFullPipeline => 7
  | TraceTypeFaultInjection => 5
  | TraceTypeDatapackBuild => 3
  | TraceTypeAlgorithmRun => 2
  end.

Definition traceTaskEventMap (t : TaskType) : option (TaskState -> option string) :=
  match t with
  | TaskTypeRestartPedestal => Some (fun s =>
      match s with
      | TaskRunning => Some EventRestartPedestalStarted
      | TaskCompleted => Some EventRestartPedestalCompleted
      | TaskError => Some EventRestartPedestalFailed
      | TaskRescheduled => Some EventNoNamespaceAvailable
      | _ => None
      end)
  | TaskTypeFaultInjection => Some (fun s =>
      match s with
      | TaskRunning => Some EventFaultInjectionStarted
      | TaskCompleted => Some EventFaultInjectionCompleted
      | TaskError => Some EventFaultInjectionFailed
      | _ => None
      end)
  | TaskTypeBuildDatapack => Some (fun s =>
      match s with
      | TaskRunning => Some EventDatapackBuildStarted
      | TaskCompleted => Some EventDatapackBuildSucceed
      | TaskError => Some EventDatapackBuildFailed
      | _ => None
      end)
  | TaskTypeRunAlgorithm => Some (fun s =>
      match s with
      | TaskRunning => Some EventAlgoRunStarted
      | TaskCompleted => Some EventAlgoRunSucceed
      | TaskError => Some EventAlgoRunFailed
      | TaskRescheduled => Some EventNoTokenAvailable
      | _ => None
      end)
  | _ => None
  end.

Definition getEventTypeByTask (taskType : TaskType) (taskState : TaskState) : string :=
  if decide (taskType = TaskTypeCollectResult) then "unknown"
  else
    match traceTaskEventMap taskType with
    | None => "unknown"
    | Some stateMap =>
        match stateMap taskState with
        | None => "unknown"
        | Some eventType => eventType
        end
    end.

(** ** Level statistics *)

(** The [switch] on the state of one task. *)
Definition count_task (st : TaskState) (s : levelStatistics) : levelStatistics :=
  let s := mkStats (Total s + 1) (Completed s) (Failed s) (Running s) (Pending s) in
  match st with
  | TaskCompleted => mkStats (Total s) (Completed s + 1) (Failed s) (Running s) (Pending s)
  | TaskError => mkStats (Total s) (Completed s) (Failed s + 1) (Running s) (Pending s)
  | TaskRunning => mkStats (Total s) (Completed s) (Failed s) (Running s + 1) (Pending s)
  | TaskPending | TaskRescheduled =>
      mkStats (Total s) (Completed s) (Failed s) (Running s) (Pending s + 1)
  | TaskCancelled => s
  end.

(** The Go map is keyed by [0 .. treeHeight-1]; here it is the list of its
    values, indexed by the level. *)
Definition buildLevelStatistics (tasks : list Task) (treeHeight : nat) : list levelStatistics :=
  fold_left
    (fun stats task =>
       if (task_Level task <? 0) || (Z.of_nat treeHeight <=? task_Level task) then stats
       else alter (count_task (task_State task)) (Z.to_nat (task_Level task)) stats)
    tasks (replicate treeHeight zeroStats).

(** ** Early termination *)

Definition is_algo_from_5 (t : Task) : bool :=
  bool_decide (task_Type t = TaskTypeRunAlgorithm) && (5 <=? task_Level t).

Definition hasRCAAlgorithmTasks (tasks : list Task) : bool := existsb is_algo_from_5 tasks.

(** The loop over the tasks of [hasEarlyTerminationEvent]: the first completed
    CollectResult task of level 4 decides. *)
Fixpoint early_by_structure (all tasks : list Task) : bool :=
  match tasks with
  | [] => false
  | task :: rest =>
      if bool_decide (task_Type task = TaskTypeCollectResult)
         && bool_decide (task_State task = TaskCompleted)
      then
        if task_Level task =? 4 then negb (hasRCAAlgorithmTasks all)
        else early_by_structure all rest
      else early_by_structure all rest
  end.

Definition hasEarlyTerminationEvent (tasks : list Task) (streamEvent : option TraceStreamEvent) : bool :=
  match streamEvent with
  | Some ev =>
      if negb (String.eqb (EventName ev) "") then
        if String.eqb (EventName ev) EventDatapackNoAnomaly
           || String.eqb (EventName ev) EventDatapackNoDetectorData then true
        else if String.eqb (EventName ev) EventDatapackResultCollection then false
        else early_by_structure tasks tasks
      else early_by_structure tasks tasks
  | None => early_by_structure tasks tasks
  end.

(** The loop of [findEarlyTerminationEvent]: it goes on after a level 4 task
    when RCA tasks exist. *)
Fixpoint find_by_structure (all tasks : list Task) : string :=
  match tasks with
  | [] => ""
  | task :: rest =>
      if bool_decide (task_Type task = TaskTypeCollectResult)
         && bool_decide (task_State task = TaskCompleted) && (task_Level task =? 4)
      then
        if negb (hasRCAAlgorithmTasks all) then EventDatapackNoAnomaly
        else find_by_structure all rest
      else find_by_structure all rest
  end.

Definition findEarlyTerminationEvent (tasks : list Task) (streamEvent : option TraceStreamEvent) : string :=
  match streamEvent with
  | Some ev =>
      if negb (String.eqb (EventName ev) "") then
        if String.eqb (EventName ev) EventDatapackNoAnomaly
           || String.eqb (EventName ev) EventDatapackNoDetectorData then EventName ev
        else if String.eqb (EventName ev) EventDatapackResultCollection then ""
        else find_by_structure tasks tasks
      else find_by_structure tasks tasks
  | None => find_by_structure tasks tasks
  end.

(** ** The last event *)

Definition eventPriority (e : string) : Z :=
  if String.eqb e EventFaultInjectionCompleted then 80
  else if String.eqb e EventAlgoRunSucceed then 70
  else if String.eqb e EventDatapackBuildSucceed then 60
  else if String.eqb e EventRestartPedestalCompleted then 50
  else 0.

(** One round of the loop of [selectBestLastEvent] over
    (bestEvent, bestPriority, latestTime). *)
Definition best_step (leafLevel : Z) (best : string * Z * Z) (task : Task) : string * Z * Z :=
  let '(bestEvent, bestPriority, latestTime) := best in
  if negb (task_Level task =? leafLevel) || negb (bool_decide (task_State task = TaskCompleted))
  then best
  else
    let eventType := getEventTypeByTask (task_Type task) (task_State task) in
    let priority := eventPriority eventType in
    if (bestPriority <? priority)
       || ((priority =? bestPriority) && (latestTime <? task_UpdatedAt task))
    then (eventType, priority, task_UpdatedAt task)
    else best.

Definition selectBestLastEvent (tasks : list Task) (leafLevel : Z)
    (streamEvent : option TraceStreamEvent) : string :=
  let earlyTerminationEvent := findEarlyTerminationEvent tasks streamEvent in
  if negb (String.eqb earlyTerminationEvent "") then earlyTerminationEvent
  else
    let '(bestEvent, _, _) := fold_left (best_step leafLevel) tasks ("", -1, 0) in
    if String.eqb bestEvent "" then EventTaskStateUpdate else bestEvent.

(** ** The inference *)

(** The first level all of whose tasks failed. *)
Fixpoint failed_level (level : Z) (stats : list levelStatistics) : option Z :=
  match stats with
  | [] => None
  | s :: rest =>
      if (0 <? Total s) && (Failed s =? Total s) then Some level
      else failed_level (level + 1) rest
  end.

(** The event of the first failed task of a level (the inner loop of priority 1). *)
Fixpoint first_failed_event (level : Z) (dflt : string) (tasks : list Task) : string :=
  match tasks with
  | [] => dflt
  | t :: rest =>
      if (task_Level t =? level) && bool_decide (task_State t = TaskError)
      then getEventTypeByTask (task_Type t) (task_State t)
      else first_failed_event level dflt rest
  end.

(** The loop of priority 3: the last assigned event, stopping at a known one. *)
Fixpoint running_event (lastEvent : string) (tasks : list Task) : string :=
  match tasks with
  | [] => lastEvent
  | t :: rest =>
      if bool_decide (task_State t = TaskRunning) then
        let e := getEventTypeByTask (task_Type t) (task_State t) in
        if negb (String.eqb e "") && negb (String.eqb e "unknown") then e
        else running_event e rest
      else running_event lastEvent rest
  end.

(** The loop of priority 4: the event of the completed task updated last. *)
Definition completed_event (tasks : list Task) : string :=
  fst (fold_left
    (fun '(lastEvent, latestTime) t =>
       if bool_decide (task_State t = TaskCompleted) && (latestTime <? task_UpdatedAt t)
       then (getEventTypeByTask (task_Type t) (task_State t), task_UpdatedAt t)
       else (lastEvent, latestTime))
    tasks ("", 0)).

Definition or_state_update (e : string) : string :=
  if String.eqb e "" || String.eqb e "unknown" then EventTaskStateUpdate else e.

Definition any_running (stats : list levelStatistics) : bool :=
  existsb (fun s => 0 <? Running s) stats.
Definition any_active (stats : list levelStatistics) : bool :=
  existsb (fun s => (0 <? Running s) || (0 <? Pending s)) stats.
Definition any_completed (stats : list levelStatistics) : bool :=
  existsb (fun s => 0 <? Completed s) stats.

(** Priorities 1 to 4 and the default. *)
Definition infer_from_levels (trace : Trace) (tasks : list Task)
    (streamEvent : option TraceStreamEvent) : TraceState * string :=
  let treeHeight := traceTypeHeightMap (trace_Type trace) in
  let stats := buildLevelStatistics tasks treeHeight in
  match failed_level 0 stats with
  | Some level =>
      let lastEvent := selectBestLastEvent tasks level streamEvent in
      (TraceFailed,
       if String.eqb lastEvent EventTaskStateUpdate
       then first_failed_event level lastEvent tasks else lastEvent)
  | None =>
      let leafLevel := Z.of_nat treeHeight - 1 in
      let leafStat := default zeroStats (stats !! (treeHeight - 1)%nat) in
      if (0 <? Completed leafStat) && negb (any_active stats) then
        (TraceCompleted, selectBestLastEvent tasks leafLevel streamEvent)
      else if any_running stats then
        (TraceRunning, or_state_update (running_event "" tasks))
      else if any_completed stats then
        (TraceRunning, or_state_update (completed_event tasks))
      else (TracePending, EventTaskStateUpdate)
  end.

Definition inferTraceState (trace : Trace) (tasks : list Task)
    (streamEvent : option TraceStreamEvent) : TraceState * string :=
  if bool_decide (trace_Type trace = TraceTypeFullPipeline)
     && hasEarlyTerminationEvent tasks streamEvent
     && negb (String.eqb (findEarlyTerminationEvent tasks streamEvent) "")
  then (TraceCompleted, findEarlyTerminationEvent tasks streamEvent)
  else infer_from_levels trace tasks streamEvent.

(** ** What the level statistics count *)

Definition num (p : Task -> bool) (tasks : list Task) : Z := Z.of_nat (List.length (List.filter p tasks)).
Definition at_level (l : Z) (t : Task) : bool := task_Level t =? l.
Definition in_state (s : TaskState) (t : Task) : bool := bool_decide (task_State t = s).
Definition waiting (t : Task) : bool := in_state TaskPending t || in_state TaskRescheduled t.

Definition tally (tasks : list Task) (s : levelStatistics) : levelStatistics :=
  mkStats (Total s + num (fun _ => true) tasks) (Completed s + num (in_state TaskCompleted) tasks)
    (Failed s + num (in_state TaskError) tasks) (Running s + num (in_state TaskRunning) tasks)
    (Pending s + num waiting tasks).

Lemma num_cons p t ts : num p (t :: ts) = (if p t then 1 else 0) + num p ts.
Proof. unfold num. cbn [List.filter]. destruct (p t); cbn [List.length]; lia. Qed.

Lemma num_nonneg p ts : 0 <= num p ts.
Proof. unfold num. lia. Qed.

Lemma num_pos p ts : 0 < num p ts <-> exists t, t ∈ ts /\ p t = true.
Proof.
  rewrite <- existsb_elem. induction ts as [|t ts IH]; [by unfold num; simpl|].
  rewrite num_cons. cbn [existsb]. pose proof (num_nonneg p ts).
  destruct (p t); simpl; [lia|]. by rewrite Z.add_0_l.
Qed.

Lemma num_all p ts : num p ts = num (fun _ => true) ts <-> forall t, t ∈ ts -> p t = true.
Proof.
  rewrite <- forallb_elem. induction ts as [|t ts IH]; [done|].
  rewrite !num_cons. cbn [forallb].
  assert (num p ts <= num (fun _ => true) ts).
  { clear. induction ts as [|t ts IH]; [done|]. rewrite !num_cons. destruct (p t); lia. }
  destruct (p t); simpl; [rewrite <- IH; lia|]. split; [lia|done].
Qed.

Lemma num_filter p q ts : num p (List.filter q ts) = num (fun t => q t && p t) ts.
Proof.
  induction ts as [|t ts IH]; [done|]. cbn [List.filter].
  destruct (q t) eqn:Hq; rewrite ?num_cons, Hq; simpl; rewrite ?IH; lia.
Qed.

Lemma num_perm p ts ts' : ts ≡ₚ ts' -> num p ts = num p ts'.
Proof. induction 1; rewrite ?num_cons; lia. Qed.

Lemma fold_tally ts s : fold_left (fun s t => count_task (task_State t) s) ts s = tally ts s.
Proof.
  revert s. induction ts as [|t ts IH]; intros s; cbn [fold_left].
  - unfold tally, num. simpl. destruct s; simpl. f_equal; lia.
  - rewrite IH. unfold tally, waiting. rewrite !num_cons.
    unfold in_state, waiting. destruct (task_State t); simpl; f_equal; lia.
Qed.

(** Every level below the height holds the tally of its tasks; tasks whose level
    is out of range are counted nowhere. *)
Lemma buildLevelStatistics_lookup tasks h l :
  (l < h)%nat ->
  buildLevelStatistics tasks h !! l =
  Some (tally (List.filter (at_level (Z.of_nat l)) tasks) zeroStats).
Proof.
  intros Hl. unfold buildLevelStatistics. rewrite <- fold_tally.
  assert (Hi : replicate h zeroStats !! l = Some zeroStats) by by apply lookup_replicate.
  revert Hi. generalize (replicate h zeroStats). generalize zeroStats.
  induction tasks as [|t ts IH]; intros s stats Hs; cbn [fold_left List.filter]; [done|].
  destruct (((task_Level t <? 0) || (Z.of_nat h <=? task_Level t))) eqn:E.
  - replace (at_level (Z.of_nat l) t) with false; [by apply IH|].
    unfold at_level. symmetry. apply Z.eqb_neq.
    apply orb_true_iff in E as [E|E]; [apply Z.ltb_lt in E|apply Z.leb_le in E]; lia.
  - bool_to_prop. destruct (at_level (Z.of_nat l) t) eqn:Ea; unfold at_level in Ea; bool_to_prop.
    + cbn [fold_left]. apply IH. rewrite Ea, Nat2Z.id.
      by rewrite list_lookup_alter_eq, Hs.
    + apply IH. rewrite list_lookup_alter_ne; [done|]. lia.
Qed.

Lemma buildLevelStatistics_length tasks h : List.length (buildLevelStatistics tasks h) = h.
Proof.
  unfold buildLevelStatistics.
  assert (Hi : List.length (replicate h zeroStats) = h) by apply length_replicate.
  revert Hi. generalize (replicate h zeroStats).
  induction tasks as [|t ts IH]; intros stats Hs; cbn [fold_left]; [done|].
  apply IH. case_match; [done|]. by rewrite length_alter.
Qed.

Lemma elem_of_stats tasks h s :
  s ∈ buildLevelStatistics tasks h <->
  exists l, (l < h)%nat /\ s = tally (List.filter (at_level (Z.of_nat l)) tasks) zeroStats.
Proof.
  rewrite list_elem_of_lookup. split.
  - intros [l Hl]. exists l. pose proof (lookup_lt_Some _ _ _ Hl) as Hlt.
    rewrite buildLevelStatistics_length in Hlt.
    rewrite buildLevelStatistics_lookup in Hl by done. by simplify_eq.
  - intros (l & Hl & ->). exists l. by apply buildLevelStatistics_lookup.
Qed.

(** A task takes part in the inference when its level is in range. *)
Definition in_tree (h : nat) (t : Task) : bool := (0 <=? task_Level t) && (task_Level t <? Z.of_nat h).

Lemma exists_stat (f : levelStatistics -> bool) p tasks h :
  (forall ts, f (tally ts zeroStats) = true <-> exists t, t ∈ ts /\ p t = true) ->
  existsb f (buildLevelStatistics tasks h) = true <->
  exists t, t ∈ tasks /\ in_tree h t = true /\ p t = true.
Proof.
  intros Hf. rewrite existsb_elem. split.
  - intros (s & Hs & Hfs). apply elem_of_stats in Hs as (l & Hl & ->).
    apply Hf in Hfs as (t & Ht & Hp). exists t.
    apply list_elem_of_In, filter_In in Ht as [Ht Ha]. unfold at_level in Ha. bool_to_prop.
    split; [by apply list_elem_of_In|]. split; [|done].
    unfold in_tree. apply andb_true_iff. split; [apply Z.leb_le|apply Z.ltb_lt]; lia.
  - intros (t & Ht & Hin & Hp). unfold in_tree in Hin. bool_to_prop.
    exists (tally (List.filter (at_level (Z.of_nat (Z.to_nat (task_Level t)))) tasks) zeroStats).
    split; [apply elem_of_stats; exists (Z.to_nat (task_Level t)); split; [lia|done]|].
    apply Hf. exists t. split; [|done]. apply list_elem_of_In, filter_In.
    split; [by apply list_elem_of_In|]. unfold at_level. apply Z.eqb_eq. lia.
Qed.

Lemma any_running_spec tasks h :
  any_running (buildLevelStatistics tasks h) = true <->
  exists t, t ∈ tasks /\ in_tree h t = true /\ in_state TaskRunning t = true.
Proof.
  apply exists_stat. intros ts. unfold tally, zeroStats. cbn [Running].
  rewrite Z.add_0_l, Z.ltb_lt. apply num_pos.
Qed.

Lemma any_completed_spec tasks h :
  any_completed (buildLevelStatistics tasks h) = true <->
  exists t, t ∈ tasks /\ in_tree h t = true /\ in_state TaskCompleted t = true.
Proof.
  apply exists_stat. intros ts. unfold tally, zeroStats. cbn [Completed].
  rewrite Z.add_0_l, Z.ltb_lt. apply num_pos.
Qed.

Definition active (t : Task) : bool := in_state TaskRunning t || waiting t.

Lemma any_active_spec tasks h :
  any_active (buildLevelStatistics tasks h) = true <->
  exists t, t ∈ tasks /\ in_tree h t = true /\ active t = true.
Proof.
  apply (exists_stat _ active). intros ts. unfold tally, zeroStats. cbn [Running Pending].
  rewrite !Z.add_0_l, orb_true_iff, !Z.ltb_lt, !num_pos.
  apply exists_orb.
Qed.

(** All tasks of level [l] failed, and there is one. *)
Definition level_failed (tasks : list Task) (l : Z) : Prop :=
  (exists t, t ∈ tasks /\ task_Level t = l) /\
  (forall t, t ∈ tasks -> task_Level t = l -> task_State t = TaskError).

Lemma stat_failed tasks l :
  let s := tally (List.filter (at_level l) tasks) zeroStats in
  (0 <? Total s) && (Failed s =? Total s) = true <-> level_failed tasks l.
Proof.
  unfold tally, zeroStats, level_failed. cbn [Total Failed].
  rewrite !Z.add_0_l, andb_true_iff, Z.ltb_lt, Z.eqb_eq, num_pos, num_all.
  assert (Hm : forall t, t ∈ List.filter (at_level l) tasks <-> t ∈ tasks /\ task_Level t = l).
  { intros t. unfold at_level. by rewrite !list_elem_of_In, filter_In, Z.eqb_eq. }
  setoid_rewrite Hm. unfold in_state. setoid_rewrite bool_decide_eq_true. naive_solver.
Qed.

Lemma failed_level_spec stats l0 l :
  failed_level l0 stats = Some l ->
  exists i s, stats !! i = Some s /\ l = l0 + Z.of_nat i /\ (0 <? Total s) && (Failed s =? Total s) = true.
Proof.
  revert l0. induction stats as [|s stats IH]; intros l0 H; simpl in H; [done|].
  case_match eqn:E; simplify_eq.
  - exists 0%nat, s. split; [done|]. split; [lia|done].
  - apply IH in H as (i & s' & ? & -> & ?). exists (S i), s'. split; [done|]. split; [lia|done].
Qed.

Lemma failed_level_none stats l0 :
  failed_level l0 stats = None ->
  forall s, s ∈ stats -> (0 <? Total s) && (Failed s =? Total s) = false.
Proof.
  revert l0. induction stats as [|s stats IH]; intros l0 H s' Hs'; [by apply not_elem_of_nil in Hs'|].
  simpl in H. case_match eqn:E; [done|].
  apply elem_of_cons in Hs' as [->|Hs']; [done|]. by eapply IH.
Qed.

Definition some_level_failed (h : nat) (tasks : list Task) : Prop :=
  exists l, 0 <= l < Z.of_nat h /\ level_failed tasks l.

Lemma failed_level_iff tasks h :
  is_Some (failed_level 0 (buildLevelStatistics tasks h)) <-> some_level_failed h tasks.
Proof.
  split.
  - intros [l Hl]. apply failed_level_spec in Hl as (i & s & Hi & -> & Hs).
    pose proof (lookup_lt_Some _ _ _ Hi) as Hlt. rewrite buildLevelStatistics_length in Hlt.
    rewrite buildLevelStatistics_lookup in Hi by done. simplify_eq.
    exists (Z.of_nat i). split; [lia|]. by apply stat_failed.
  - intros (l & Hl & Hf). destruct (failed_level _ _) eqn:E; [done|]. exfalso.
    apply stat_failed in Hf.
    rewrite (failed_level_none _ _ E) in Hf; [done|].
    apply elem_of_stats. exists (Z.to_nat l). split; [lia|]. by rewrite Z2Nat.id by lia.
Qed.

(** ** Early termination, in one formula *)

Definition detector_collected (t : Task) : bool :=
  bool_decide (task_Type t = TaskTypeCollectResult) && bool_decide (task_State t = TaskCompleted)
  && (task_Level t =? 4).

Lemma early_by_structure_eq all ts :
  early_by_structure all ts = existsb detector_collected ts && negb (hasRCAAlgorithmTasks all).
Proof.
  induction ts as [|t ts IH]; [done|]. cbn [early_by_structure existsb]. rewrite IH.
  change (detector_collected t) with
    (bool_decide (task_Type t = TaskTypeCollectResult) && bool_decide (task_State t = TaskCompleted)
     && (task_Level t =? 4)).
  destruct (bool_decide (task_Type t = _) && bool_decide (task_State t = _)); [|done].
  by destruct (task_Level t =? 4), (negb (hasRCAAlgorithmTasks all)), (existsb detector_collected ts).
Qed.

Lemma find_by_structure_eq all ts :
  find_by_structure all ts = if early_by_structure all ts then EventDatapackNoAnomaly else "".
Proof.
  rewrite early_by_structure_eq. induction ts as [|t ts IH]; [done|].
  cbn [find_by_structure existsb]. rewrite IH. change (bool_decide (task_Type t = _) && _ && _)
    with (detector_collected t).
  by destruct (detector_collected t), (negb (hasRCAAlgorithmTasks all)), (existsb detector_collected ts).
Qed.

(** The two functions agree: an event is found exactly when the trace ends early. *)
Lemma early_event_found tasks ev :
  negb (String.eqb (findEarlyTerminationEvent tasks ev) "") = hasEarlyTerminationEvent tasks ev.
Proof.
  assert (Hs : negb (String.eqb (find_by_structure tasks tasks) "") = early_by_structure tasks tasks).
  { rewrite find_by_structure_eq. by destruct (early_by_structure tasks tasks). }
  unfold findEarlyTerminationEvent, hasEarlyTerminationEvent. destruct ev as [ev|]; [|done].
  destruct (String.eqb (EventName ev) "") eqn:E; simpl; [done|].
  case_match; [by rewrite E|]. by case_match.
Qed.

Lemma inferTraceState_unfold trace tasks ev :
  inferTraceState trace tasks ev =
  if bool_decide (trace_Type trace = TraceTypeFullPipeline) && hasEarlyTerminationEvent tasks ev
  then (TraceCompleted, findEarlyTerminationEvent tasks ev)
  else infer_from_levels trace tasks ev.
Proof.
  unfold inferTraceState. rewrite early_event_found.
  by destruct (bool_decide _), (hasEarlyTerminationEvent tasks ev).
Qed.

(** ** The specification of the inferred state *)

Definition ends_early (trace : Trace) (tasks : list Task) (ev : option TraceStreamEvent) : Prop :=
  trace_Type trace = TraceTypeFullPipeline /\ hasEarlyTerminationEvent tasks ev = true.
Definition leaf_done (h : nat) (tasks : list Task) : Prop :=
  exists t, t ∈ tasks /\ task_Level t = Z.of_nat h - 1 /\ task_State t = TaskCompleted.
Definition quiescent (h : nat) (tasks : list Task) : Prop :=
  forall t, t ∈ tasks -> in_tree h t = true -> active t = false.
Definition started (h : nat) (tasks : list Task) : Prop :=
  exists t, t ∈ tasks /\ in_tree h t = true /\
    (task_State t = TaskRunning \/ task_State t = TaskCompleted).

Lemma leaf_completed tasks h :
  (0 < h)%nat ->
  (0 <? Completed (default zeroStats (buildLevelStatistics tasks h !! (h - 1)%nat))) = true <->
  leaf_done h tasks.
Proof.
  intros Hh. rewrite buildLevelStatistics_lookup by lia. cbn [default].
  unfold tally, zeroStats. cbn [Completed from_option id].
  rewrite Z.add_0_l, Z.ltb_lt, num_filter, num_pos. unfold leaf_done, at_level, in_state.
  replace (Z.of_nat (h - 1)) with (Z.of_nat h - 1) by lia.
  split; intros (t & Ht & H); exists t; (split; [done|]); rewrite andb_true_iff, Z.eqb_eq, bool_decide_eq_true in *; tauto.
Qed.

Lemma not_active tasks h : any_active (buildLevelStatistics tasks h) = false <-> quiescent h tasks.
Proof.
  unfold quiescent. rewrite <- not_true_iff_false, any_active_spec. split.
  - intros Hn t Ht Hi. apply not_true_iff_false. intros Ha. apply Hn. eauto.
  - intros Hq (t & Ht & Hi & Ha). by rewrite Hq in Ha.
Qed.

Lemma started_iff tasks h :
  any_running (buildLevelStatistics tasks h) = true \/ any_completed (buildLevelStatistics tasks h) = true
  <-> started h tasks.
Proof.
  rewrite any_running_spec, any_completed_spec. unfold started, in_state.
  split.
  - intros [(t & ? & ? & Hs%bool_decide_eq_true)|(t & ? & ? & Hs%bool_decide_eq_true)]; eauto 6.
  - intros (t & ? & ? & [Hs|Hs]); [left|right]; exists t; by rewrite bool_decide_eq_true.
Qed.

Lemma height_pos tt : (0 < traceTypeHeightMap tt)%nat.
Proof. destruct tt; simpl; lia. Qed.

#[export] Hint Resolve height_pos : aegis.

Lemma leaf_started tasks h : (0 < h)%nat -> leaf_done h tasks -> started h tasks.
Proof.
  intros Hh (t & Ht & Hl & Hs). exists t. split; [done|]. split; [|by right].
  unfold in_tree. apply andb_true_iff. split; [apply Z.leb_le|apply Z.ltb_lt]; lia.
Qed.

Definition state_spec (trace : Trace) (tasks : list Task) (ev : option TraceStreamEvent) (s : TraceState) : Prop :=
  let h := traceTypeHeightMap (trace_Type trace) in
  match s with
  | TraceFailed => ~ ends_early trace tasks ev /\ some_level_failed h tasks
  | TraceCompleted =>
      ends_early trace tasks ev \/
      (~ some_level_failed h tasks /\ leaf_done h tasks /\ quiescent h tasks)
  | TraceRunning =>
      ~ ends_early trace tasks ev /\ ~ some_level_failed h tasks /\
      ~ (leaf_done h tasks /\ quiescent h tasks) /\ started h tasks
  | TracePending => ~ ends_early trace tasks ev /\ ~ some_level_failed h tasks /\ ~ started h tasks
  end.

Lemma infer_from_levels_spec trace tasks ev :
  ~ ends_early trace tasks ev -> state_spec trace tasks ev (fst (infer_from_levels trace tasks ev)).
Proof.
  intros He. unfold infer_from_levels, state_spec.
  pose proof (height_pos (trace_Type trace)) as Hh.
  set (h := traceTypeHeightMap (trace_Type trace)) in *.
  pose proof (failed_level_iff tasks h) as Hf.
  destruct (failed_level 0 (buildLevelStatistics tasks h)) as [l|] eqn:Efl; cbn [fst].
  { split; [done|]. apply Hf. eauto. }
  assert (Hnf : ~ some_level_failed h tasks) by (intros [? ?]%Hf; done).
  pose proof (leaf_completed tasks h Hh) as Hl. pose proof (not_active tasks h) as Ha.
  pose proof (started_iff tasks h) as Hs.
  destruct (0 <? Completed _) eqn:El; cbn [andb].
  - destruct (any_active (buildLevelStatistics tasks h)); cbn [negb fst]; [|tauto].
    assert (~ quiescent h tasks) by (rewrite <- Ha; done).
    destruct (any_running _); [|destruct (any_completed _)]; cbn [fst];
      intuition discriminate.
  - assert (~ leaf_done h tasks) by (rewrite <- Hl; done).
    destruct (any_running _); [|destruct (any_completed _)]; cbn [fst];
      intuition discriminate.
Qed.

Lemma infer_state_iff trace tasks ev s :
  fst (inferTraceState trace tasks ev) = s <-> state_spec trace tasks ev s.
Proof.
  assert (Hex : state_spec trace tasks ev (fst (inferTraceState trace tasks ev))).
  { rewrite inferTraceState_unfold. destruct (bool_decide _) eqn:Et; cbn [andb].
    - bool_to_prop. destruct (hasEarlyTerminationEvent tasks ev) eqn:Eh; cbn [fst].
      + left. done.
      + apply infer_from_levels_spec. unfold ends_early. intros [_ ?]. congruence.
    - apply infer_from_levels_spec. bool_to_prop. by intros [? _]. }
  pose proof (leaf_started tasks _ (height_pos (trace_Type trace))) as Hls.
  split; [by intros <-|]. revert Hex. unfold state_spec.
  destruct (fst (inferTraceState trace tasks ev)), s; tauto.
Qed.

(** C3. The inferred state is exactly the one its specification names: Completed
    when a full pipeline ends early, or when no level failed entirely, a leaf task
    completed and nothing is running or waiting; Failed when a level failed
    entirely; Running when something ran or completed; Pending otherwise. *)
Theorem inferTraceState_spec trace tasks ev s :
  fst (inferTraceState trace tasks ev) = s <-> state_spec trace tasks ev s.
Proof. exact (infer_state_iff trace tasks ev s). Qed.

(** ** The inferred state does not depend on the order of the tasks *)

Lemma hasEarly_perm tasks tasks' ev :
  tasks ≡ₚ tasks' -> hasEarlyTerminationEvent tasks ev = hasEarlyTerminationEvent tasks' ev.
Proof.
  intros Hp.
  assert (Hs : early_by_structure tasks tasks = early_by_structure tasks' tasks').
  { rewrite !early_by_structure_eq. unfold hasRCAAlgorithmTasks. by rewrite !(existsb_perm _ _ _ Hp). }
  unfold hasEarlyTerminationEvent. by rewrite Hs.
Qed.

#[export] Instance some_level_failed_proper h : Proper ((≡ₚ) ==> iff) (some_level_failed h).
Proof. intros l l' Hp. unfold some_level_failed, level_failed. by setoid_rewrite Hp. Qed.
#[export] Instance leaf_done_proper h : Proper ((≡ₚ) ==> iff) (leaf_done h).
Proof. intros l l' Hp. unfold leaf_done. by setoid_rewrite Hp. Qed.
#[export] Instance quiescent_proper h : Proper ((≡ₚ) ==> iff) (quiescent h).
Proof. intros l l' Hp. unfold quiescent. by setoid_rewrite Hp. Qed.
#[export] Instance started_proper h : Proper ((≡ₚ) ==> iff) (started h).
Proof. intros l l' Hp. unfold started. by setoid_rewrite Hp. Qed.
#[export] Instance ends_early_proper trace : Proper ((≡ₚ) ==> eq ==> iff) (ends_early trace).
Proof. intros l l' Hp ev ? <-. unfold ends_early. by rewrite (hasEarly_perm _ _ _ Hp). Qed.

Lemma state_spec_perm trace tasks tasks' ev s :
  tasks ≡ₚ tasks' -> state_spec trace tasks ev s -> state_spec trace tasks' ev s.
Proof. intros Hp. unfold state_spec. destruct s; by rewrite Hp. Qed.

(** The order in which the database returns the tasks does not change the
    inferred state. *)
Theorem inferTraceState_perm trace tasks tasks' ev :
  tasks ≡ₚ tasks' ->
  fst (inferTraceState trace tasks ev) = fst (inferTraceState trace tasks' ev).
Proof.
  intros Hp. symmetry. apply infer_state_iff. eapply state_spec_perm; [done|].
  by apply infer_state_iff.
Qed.

(** ** The last event is never empty *)

Lemma getEventTypeByTask_nonempty t s : getEventTypeByTask t s <> "".
Proof. by destruct t, s. Qed.

Lemma findEarly_known tasks ev :
  findEarlyTerminationEvent tasks ev = "" \/
  findEarlyTerminationEvent tasks ev = EventDatapackNoAnomaly \/
  findEarlyTerminationEvent tasks ev = EventDatapackNoDetectorData.
Proof.
  assert (Hs : find_by_structure tasks tasks = "" \/ find_by_structure tasks tasks = EventDatapackNoAnomaly).
  { rewrite find_by_structure_eq. case_match; eauto. }
  unfold findEarlyTerminationEvent. destruct ev as [ev|]; [|tauto].
  destruct (String.eqb (EventName ev) "") eqn:E; cbn [negb]; [tauto|].
  destruct (String.eqb_spec (EventName ev) EventDatapackNoAnomaly); [tauto|].
  destruct (String.eqb_spec (EventName ev) EventDatapackNoDetectorData); cbn [orb]; [tauto|].
  case_match; tauto.
Qed.

Lemma selectBestLastEvent_nonempty tasks leaf ev : selectBestLastEvent tasks leaf ev <> "".
Proof.
  unfold selectBestLastEvent.
  destruct (String.eqb_spec (findEarlyTerminationEvent tasks ev) "") as [_|Hn]; [|done].
  cbn [negb]. destruct (fold_left _ tasks _) as [[e p] t].
  destruct (String.eqb_spec e "") as [->|Hn]; done.
Qed.

Lemma first_failed_event_nonempty l d tasks : d <> "" -> first_failed_event l d tasks <> "".
Proof.
  intros Hd. induction tasks as [|t ts IH]; simpl; [done|].
  case_match; [apply getEventTypeByTask_nonempty|done].
Qed.

Lemma or_state_update_nonempty e : or_state_update e <> "" /\ or_state_update e <> "unknown".
Proof.
  unfold or_state_update. destruct (String.eqb_spec e ""); [done|].
  destruct (String.eqb_spec e "unknown"); simpl; done.
Qed.

(** Every inference names an event: the last event of a trace is never the
    empty string, and a running or pending trace never shows "unknown". *)
Theorem inferTraceState_event trace tasks ev s e :
  inferTraceState trace tasks ev = (s, e) ->
  e <> "" /\ (s = TraceRunning \/ s = TracePending -> e <> "unknown").
Proof.
  rewrite inferTraceState_unfold. destruct (bool_decide _ && _) eqn:Ee.
  - intros [= <- <-]. apply andb_true_iff in Ee as [_ Hh]. split; [|by intros [|]].
    rewrite <- early_event_found in Hh. intros H. by rewrite H in Hh.
  - unfold infer_from_levels. destruct (failed_level _ _) as [l|].
    { intros [= <- <-]. split; [|by intros [|]].
      case_match; [apply first_failed_event_nonempty|]; apply selectBestLastEvent_nonempty. }
    case_match; [intros [= <- <-]; split; [apply selectBestLastEvent_nonempty|by intros [|]]|].
    case_match; [intros [= <- <-]; split; [|intros _]; apply or_state_update_nonempty|].
    case_match; [intros [= <- <-]; split; [|intros _]; apply or_state_update_nonempty|].
    by intros [= <- <-].
Qed.

(** ** Concrete traces *)

Module TraceSample.

Definition pipeline : Trace := mkTrace "t1" TraceTypeFullPipeline "" None "g" TracePending 0 [].
Definition restart : Task := mkTask "a" TaskTypeRestartPedestal 0 0 TaskCompleted 10.
Definition inject : Task := mkTask "b" TaskTypeFaultInjection 1 0 TaskRunning 20.
Definition collected : Task := mkTask "c" TaskTypeCollectResult 4 0 TaskCompleted 30.

Example running_pipeline :
  inferTraceState pipeline [restart; inject] None = (TraceRunning, EventFaultInjectionStarted).
Proof. reflexivity. Qed.

Example early_pipeline :
  inferTraceState pipeline [restart; collected] None = (TraceCompleted, EventDatapackNoAnomaly).
Proof. reflexivity. Qed.

Lemma inferTraceState_perm_witness :
  [restart; inject] ≡ₚ [inject; restart] /\
  fst (inferTraceState pipeline [restart; inject] None)
  = fst (inferTraceState pipeline [inject; restart] None).
Proof.
  assert (Hp : [restart; inject] ≡ₚ [inject; restart]) by apply Permutation_swap.
  split; [exact Hp|]. exact (inferTraceState_perm pipeline _ _ None Hp).
Defined.

Lemma inferTraceState_event_witness :
  inferTraceState pipeline [restart; inject] None = (TraceRunning, EventFaultInjectionStarted) /\
  EventFaultInjectionStarted <> "" /\ EventFaultInjectionStarted <> "unknown".
Proof.
  assert (Hi : inferTraceState pipeline [restart; inject] None
    = (TraceRunning, EventFaultInjectionStarted)) by reflexivity.
  destruct (inferTraceState_event pipeline _ _ _ _ Hi) as [He Hu].
  split; [exact Hi|]. split; [exact He|]. apply Hu. left. reflexivity.
Defined.

End TraceSample.
