(* ===== verification/TraceUpdate.v ===== *)
(** * Storing the inferred state with an optimistic lock ([service/consumer/trace.go])

    [tryUpdateTraceStateCore] reads the trace, infers its state and issues an
    UPDATE guarded by the [updated_at] it read; [performTraceStateUpdate] retries
    at most three times.  Other workers may write between the two statements, so
    an attempt takes the function [interfere] they apply to the database.  The
    database is the class [TraceDB]; its laws are the documented behaviour of the
    SELECT and of the conditional UPDATE. *)

From S2P Require Import Prelude Consts TraceState.

(** The map of columns given to [Updates]. *)
Record trace_updates := mkUpdates {
  upd_state : TraceState;
  upd_last_event : string;
  upd_updated_at : Z;
  upd_end_time : option Z
}.

Definition apply_updates (u : trace_updates) (t : Trace) : Trace :=
  {| trace_ID := trace_ID t; trace_Type := trace_Type t;
     trace_LastEvent := upd_last_event u;
     trace_EndTime := match upd_end_time u with Some e => Some e | None => trace_EndTime t end;
     trace_GroupID := trace_GroupID t;
     trace_State := upd_state u;
     trace_UpdatedAt := upd_updated_at u;
     trace_Tasks := trace_Tasks t |}.

(** [GroupStreamEvent] of [module/group], with the stream it goes to. *)
Record GroupStreamEvent := mkGroupEvent {
  gse_stream : string;
  gse_TraceID : string;
  gse_State : TraceState;
  gse_LastEvent : string
}.

Class TraceDB (D : Type) := {
  (** [First] of the trace that is not deleted, with its tasks preloaded in
      order; an error when there is none or the query fails. *)
  db_first_trace : string -> D -> res Trace;
  (** [Where("id = ? AND updated_at = ?").Updates(u)]: the new database and the
      number of affected rows. *)
  db_update_trace : string -> Z -> trace_updates -> D -> D * res Z
}.

Class TraceDBLaws (D : Type) `{TraceDB D} := {
  row : D -> string -> option Trace;
  first_row : forall id d t, db_first_trace id d = Ok t -> row d id = Some t;
  update_hit : forall id at_ u d d' n t,
    db_update_trace id at_ u d = (d', Ok n) -> row d id = Some t -> trace_UpdatedAt t = at_ ->
    n = 1 /\ row d' id = Some (apply_updates u t);
  update_miss : forall id at_ u d d' n t,
    db_update_trace id at_ u d = (d', Ok n) -> row d id = Some t -> trace_UpdatedAt t <> at_ ->
    n = 0 /\ row d' id = Some t;
  update_none : forall id at_ u d d' n,
    db_update_trace id at_ u d = (d', Ok n) -> row d id = None -> n = 0 /\ row d' id = None;
  (** A statement whose reply is lost may have taken effect. *)
  update_err : forall id at_ u d d' e,
    db_update_trace id at_ u d = (d', Err e) ->
    row d' id = row d id \/
    exists t, row d id = Some t /\ trace_UpdatedAt t = at_ /\ row d' id = Some (apply_updates u t)
}.

Definition lockConflict : string := "optimistic lock conflict: trace was modified by another job".

(** [isOptimisticLockError] on the error of an attempt. *)
Definition isOptimisticLockError (err : res unit) : bool :=
  match err with
  | Ok _ => false
  | Err e => String.eqb e lockConflict
  end.

Definition StreamGroupLogKey (groupID : string) : string := "group:" +:+ groupID +:+ ":log".

Section Update.
Context {D : Type} `{TraceDB D}.

(** The clock readings of one attempt and what other jobs do between its two
    statements. *)
Record attempt_env := mkEnv { env_now : Z; env_end : Z; interfere : D -> D }.

Definition find_task (taskID : string) (tasks : list Task) : option Task :=
  List.find (fun t => String.eqb (task_ID t) taskID) tasks.

(** Step 3: the inference and the special handling of CollectResult tasks. *)
Definition infer_for_update (trace : Trace) (updatedTask : Task) (streamEvent : option TraceStreamEvent)
  : TraceState * string :=
  let '(inferredState, inferredEventType) := inferTraceState trace (trace_Tasks trace) streamEvent in
  match streamEvent with
  | Some ev =>
      if bool_decide (task_Type updatedTask = TaskTypeCollectResult) && negb (String.eqb (EventName ev) "")
      then
        (if bool_decide (trace_Type trace = TraceTypeFullPipeline)
            && (String.eqb (EventName ev) EventDatapackNoAnomaly
                || String.eqb (EventName ev) EventDatapackNoDetectorData)
         then TraceCompleted else inferredState, EventName ev)
      else (inferredState, inferredEventType)
  | None => (inferredState, inferredEventType)
  end.

Definition terminal (s : TraceState) : bool :=
  bool_decide (s = TraceCompleted) || bool_decide (s = TraceFailed).

(** Steps 5: the columns to write, and the group event published on the way when
    the trace reaches a terminal state for the first time. *)
Definition prepare_updates (env : attempt_env) (trace : Trace) (st : TraceState) (ev : string)
  : trace_updates * list GroupStreamEvent :=
  if terminal st && bool_decide (trace_EndTime trace = None) then
    (mkUpdates st ev (env_now env) (Some (env_end env)),
     if negb (String.eqb (trace_GroupID trace) "")
     then [mkGroupEvent (StreamGroupLogKey (trace_GroupID trace)) (trace_ID trace) st ev]
     else [])
  else (mkUpdates st ev (env_now env) None, []).

Definition tryUpdateTraceStateCore (env : attempt_env) (traceID taskID : string)
    (streamEvent : option TraceStreamEvent) (db : D) : D * list GroupStreamEvent * res unit :=
  match db_first_trace traceID db with
  | Err e => (db, [], Err ("failed to get trace: " +:+ e))
  | Ok trace =>
      let originalUpdatedAt := trace_UpdatedAt trace in
      match find_task taskID (trace_Tasks trace) with
      | None => (db, [], Err ("task " +:+ taskID +:+ " not found in trace"))
      | Some updatedTask =>
          let '(inferredState, inferredEventType) := infer_for_update trace updatedTask streamEvent in
          if bool_decide (trace_State trace = inferredState)
             && String.eqb (trace_LastEvent trace) inferredEventType
          then (db, [], Ok tt)
          else
            let '(updates, published) := prepare_updates env trace inferredState inferredEventType in
            let '(db', result) := db_update_trace traceID originalUpdatedAt updates (interfere env db) in
            (db', published,
             match result with
             | Err e => Err ("failed to update trace: " +:+ e)
             | Ok n => if n =? 0 then Err lockConflict else Ok tt
             end)
      end
  end.

(** The retry loop, from attempt number [attempt], with [left] rounds to go. *)
Fixpoint update_loop (env : nat -> attempt_env) (left attempt : nat) (traceID taskID : string)
    (streamEvent : option TraceStreamEvent) (db : D) : D * list GroupStreamEvent * res unit :=
  match left with
  | O => (db, [], Err "failed to update trace state after 3 attempts")
  | S left' =>
      let '(db1, pub1, err) := tryUpdateTraceStateCore (env attempt) traceID taskID streamEvent db in
      if is_ok err then (db1, pub1, Ok tt)
      else if isOptimisticLockError err && (attempt <? 2)%nat then
        let '(db2, pub2, err2) := update_loop env left' (S attempt) traceID taskID streamEvent db1 in
        (db2, pub1 ++ pub2, err2)
      else (db1, pub1, err)
  end.

Definition performTraceStateUpdate (env : nat -> attempt_env) (traceID taskID : string)
    (streamEvent : option TraceStreamEvent) (db : D) : D * list GroupStreamEvent * res unit :=
  update_loop env 3 0 traceID taskID streamEvent db.
End Update.
Arguments attempt_env : clear implicits.

Section Properties.
Context {D : Type} `{TraceDBLaws D}.

(** What an attempt that gets as far as the UPDATE writes, from the trace it read. *)
Lemma tryUpdate_write (env : attempt_env D) id taskID ev db t task :
  db_first_trace id db = Ok t -> find_task taskID (trace_Tasks t) = Some task ->
  let '(st, e) := infer_for_update t task ev in
  ~ (trace_State t = st /\ trace_LastEvent t = e) ->
  tryUpdateTraceStateCore env id taskID ev db =
  let '(u, published) := prepare_updates env t st e in
  let '(db', result) := db_update_trace id (trace_UpdatedAt t) u (interfere env db) in
  (db', published,
   match result with
   | Err m => Err ("failed to update trace: " +:+ m)
   | Ok n => if n =? 0 then Err lockConflict else Ok tt
   end).
Proof.
  intros Hf Ht. destruct (infer_for_update t task ev) as [st e] eqn:Ei. intros Hne.
  unfold tryUpdateTraceStateCore. rewrite Hf, Ht, Ei.
  destruct (bool_decide (trace_State t = st) && String.eqb (trace_LastEvent t) e) eqn:Es; [|done].
  apply andb_true_iff in Es as [Es1%bool_decide_eq_true Es2%String.eqb_eq]. tauto.
Qed.

Lemma prepare_updates_columns (env : attempt_env D) t st e :
  let u := fst (prepare_updates env t st e) in
  upd_state u = st /\ upd_last_event u = e /\ upd_updated_at u = env_now env /\
  (upd_end_time u <> None <-> terminal st = true /\ trace_EndTime t = None).
Proof.
  unfold prepare_updates. destruct (terminal st); cbn [andb fst];
    [case_bool_decide|]; cbn [fst upd_state upd_last_event upd_updated_at upd_end_time];
    repeat split; try done; naive_solver.
Qed.

(** The columns the update is about: all but the tasks, which are rows of their own that
    the guard does not cover. *)
Definition same_columns (t t' : Trace) : Prop :=
  trace_ID t' = trace_ID t /\ trace_Type t' = trace_Type t /\ trace_LastEvent t' = trace_LastEvent t /\
  trace_EndTime t' = trace_EndTime t /\ trace_GroupID t' = trace_GroupID t /\ trace_State t' = trace_State t /\
  trace_UpdatedAt t' = trace_UpdatedAt t.

(** What others do to a row that had the stamp [at_]: they leave its columns, or leave a
    later stamp. *)
Definition stamps (id : string) (at_ : Z) (f : D -> D) : Prop :=
  forall d t, row d id = Some t -> at_ <= trace_UpdatedAt t ->
  exists t', row (f d) id = Some t' /\ (same_columns t t' \/ at_ < trace_UpdatedAt t').

(** Every attempt of another worker is of this kind, when its clock has moved on: its
    guarded update leaves the time of its own clock. *)
Lemma attempt_stamps (env : attempt_env D) id taskID ev at_ :
  at_ < env_now env -> stamps id at_ (interfere env) ->
  stamps id at_ (fun d => (tryUpdateTraceStateCore env id taskID ev d).1.1).
Proof.
  intros Hnow Hst d t Hrow Hat. unfold tryUpdateTraceStateCore.
  assert (Hsame : same_columns t t) by done.
  destruct (db_first_trace id d) as [t0|m]; [|simpl; eauto].
  destruct (find_task taskID (trace_Tasks t0)) as [tk|]; [|simpl; eauto].
  destruct (infer_for_update _ _ _) as [st e]. case_match; [simpl; eauto|].
  pose proof (prepare_updates_columns env t0 st e) as (_ & _ & Hu & _).
  destruct (prepare_updates env t0 st e) as [u p]. cbn [fst] in Hu.
  destruct (Hst d t Hrow Hat) as (t1 & Hr1 & Hs1).
  assert (Hat1 : at_ <= trace_UpdatedAt t1) by (destruct Hs1 as [(_&_&_&_&_&_&->)|]; [done|lia]).
  assert (Hnew : forall t2, at_ < trace_UpdatedAt (apply_updates u t2)) by (intros; simpl; lia).
  destruct (db_update_trace id (trace_UpdatedAt t0) u (interfere env d)) as [d2 [n|m]] eqn:Eu; simpl.
  - destruct (decide (trace_UpdatedAt t1 = trace_UpdatedAt t0)) as [Heq|Hne].
    + destruct (update_hit _ _ _ _ _ _ _ Eu Hr1 Heq) as [_ ->]. eauto.
    + destruct (update_miss _ _ _ _ _ _ _ Eu Hr1 Hne) as [_ ->]. eauto.
  - apply update_err in Eu as [-> | (t2 & _ & _ & ->)]; eauto.
Qed.

(** C6. No lost update.  When an attempt reports success, either the stored state and event
    already were the inferred ones and nothing was written; or the row it overwrote was
    still there with the [updated_at] the attempt had read, and is now the update of that
    row.  If what the other workers did in between leaves a later [updated_at] wherever it
    changes a column of the row, as all their attempts do ([attempt_stamps]), the row was
    the very one the attempt had read, its tasks apart, which the guard does not cover. *)
Theorem tryUpdate_no_lost_update (env : attempt_env D) id taskID ev db db' published t task :
  db_first_trace id db = Ok t -> find_task taskID (trace_Tasks t) = Some task ->
  tryUpdateTraceStateCore env id taskID ev db = (db', published, Ok tt) ->
  let '(st, e) := infer_for_update t task ev in
  (db' = db /\ trace_State t = st /\ trace_LastEvent t = e) \/
  exists t', row (interfere env db) id = Some t' /\ trace_UpdatedAt t' = trace_UpdatedAt t /\
    row db' id = Some (apply_updates (fst (prepare_updates env t st e)) t') /\
    (stamps id (trace_UpdatedAt t) (interfere env) -> same_columns t t').
Proof.
  intros Hf Ht Htry. pose proof (tryUpdate_write env id taskID ev db t task Hf Ht) as Hw.
  destruct (infer_for_update t task ev) as [st e] eqn:Ei.
  destruct (decide (trace_State t = st /\ trace_LastEvent t = e)) as [[Hs He]|Hne].
  - left. unfold tryUpdateTraceStateCore in Htry. rewrite Hf, Ht, Ei in Htry.
    rewrite bool_decide_true, He, String.eqb_refl in Htry by done. by simplify_eq/=.
  - right. rewrite (Hw Hne) in Htry. destruct (prepare_updates env t st e) as [u p].
    destruct (db_update_trace _ _ _ _) as [d2 [n|m]] eqn:Eu; [|done].
    destruct (n =? 0) eqn:En; bool_to_prop; [done|]. simplify_eq.
    destruct (row (interfere env db) id) as [t'|] eqn:Hrow; [|by destruct (update_none _ _ _ _ _ _ Eu Hrow)].
    destruct (decide (trace_UpdatedAt t' = trace_UpdatedAt t)) as [Heq|Hneq];
      [|by destruct (update_miss _ _ _ _ _ _ _ Eu Hrow Hneq)].
    exists t'. split; [done|]. split; [done|]. split; [by eapply update_hit|].
    intros Hst. destruct (Hst db t (first_row _ _ _ Hf) ltac:(lia)) as (t2 & Hr2 & Hs2).
    rewrite Hrow in Hr2. injection Hr2 as <-. destruct Hs2 as [|]; [done|lia].
Qed.

(** A concurrent write is detected and nothing is overwritten, yet the event
    of the terminal state has already gone to the group stream: with a group and
    no end time, a conflicting attempt publishes the terminal event of an update
    that did not happen (and publishes it again on each retry). *)
Theorem tryUpdate_conflict_publishes (env : attempt_env D) id taskID ev db db' published err t t' task :
  db_first_trace id db = Ok t -> find_task taskID (trace_Tasks t) = Some task ->
  row (interfere env db) id = Some t' -> trace_UpdatedAt t' <> trace_UpdatedAt t ->
  let '(st, e) := infer_for_update t task ev in
  terminal st = true -> trace_EndTime t = None -> trace_GroupID t <> "" ->
  (forall d u m, db_update_trace id (trace_UpdatedAt t) u (interfere env db) <> (d, Err m)) ->
  ~ (trace_State t = st /\ trace_LastEvent t = e) ->
  tryUpdateTraceStateCore env id taskID ev db = (db', published, err) ->
  err = Err lockConflict /\ row db' id = Some t' /\
  published = [mkGroupEvent (StreamGroupLogKey (trace_GroupID t)) (trace_ID t) st e].
Proof.
  intros Hf Ht Hrow Hneq. pose proof (tryUpdate_write env id taskID ev db t task Hf Ht) as Hw.
  destruct (infer_for_update t task ev) as [st e]. intros Hterm Hend Hgrp Hup Hne Htry.
  rewrite (Hw Hne) in Htry. unfold prepare_updates in Htry.
  rewrite Hterm, bool_decide_true in Htry by done. cbn [andb] in Htry.
  destruct (String.eqb_spec (trace_GroupID t) "") as [|_]; [done|]. cbn [negb] in Htry.
  destruct (db_update_trace _ _ _ _) as [d2 [n|m]] eqn:Eu; [|by destruct (Hup d2 _ m Eu)].
  destruct (update_miss _ _ _ _ _ _ _ Eu Hrow Hneq) as [-> Hr]. by simplify_eq/=.
Qed.

(** Without interference the update succeeds at the first attempt and the
    stored row shows the inferred state and event. *)
Theorem performTraceStateUpdate_quiet (env : nat -> attempt_env D) id taskID ev db t task :
  db_first_trace id db = Ok t -> find_task taskID (trace_Tasks t) = Some task ->
  (forall d, interfere (env 0%nat) d = d) ->
  (forall d u m, db_update_trace id (trace_UpdatedAt t) u db <> (d, Err m)) ->
  let '(st, e) := infer_for_update t task ev in
  exists db' published t',
    performTraceStateUpdate env id taskID ev db = (db', published, Ok tt) /\
    row db' id = Some t' /\ trace_State t' = st /\ trace_LastEvent t' = e.
Proof.
  intros Hf Ht Hq Hup. pose proof (first_row _ _ _ Hf) as Hrow.
  pose proof (tryUpdate_write (env 0%nat) id taskID ev db t task Hf Ht) as Hw.
  destruct (infer_for_update t task ev) as [st e] eqn:Ei.
  unfold performTraceStateUpdate. cbn [update_loop].
  destruct (decide (trace_State t = st /\ trace_LastEvent t = e)) as [[Hs He]|Hne].
  - unfold tryUpdateTraceStateCore. rewrite Hf, Ht, Ei, He, bool_decide_true, String.eqb_refl by done.
    simpl. eauto 8.
  - rewrite Hq in Hw. rewrite (Hw Hne). pose proof (prepare_updates_columns (env 0%nat) t st e) as (Hcs & Hce & _).
    destruct (prepare_updates _ t st e) as [u p]. cbn [fst] in *.
    destruct (db_update_trace _ _ _ _) as [d2 [n|m]] eqn:Eu; [|by destruct (Hup d2 u m Eu)].
    destruct (update_hit _ _ _ _ _ _ _ Eu Hrow eq_refl) as [-> Hr]. simpl.
    eexists _, _, _. split; [done|]. split; [done|]. by rewrite <- Hcs, <- Hce.
Qed.

(** The retry loop ends with the outcome of one of its attempts: the message
    "failed to update trace state after 3 attempts" of the code after the loop is
    never returned. *)
Theorem performTraceStateUpdate_last_error (env : nat -> attempt_env D) id taskID ev (db : D) :
  snd (performTraceStateUpdate env id taskID ev db) <>
  Err "failed to update trace state after 3 attempts".
Proof.
  assert (Htry : forall en d, snd (tryUpdateTraceStateCore en id taskID ev d) <>
    Err "failed to update trace state after 3 attempts").
  { intros en d. unfold tryUpdateTraceStateCore.
    destruct (db_first_trace id d) as [t|m]; [|by intros [=]].
    destruct (find_task taskID (trace_Tasks t)); [|by intros [=]].
    destruct (infer_for_update _ _ _). case_match; [by intros [=]|].
    destruct (prepare_updates _ _ _ _). destruct (db_update_trace _ _ _ _) as [d2 [n|m]]; cbn [snd].
    - by case_match; intros [=].
    - by intros [=]. }
  unfold performTraceStateUpdate. cbn [update_loop].
  repeat match goal with
  | |- context [tryUpdateTraceStateCore ?en id taskID ev ?d] =>
      pose proof (Htry en d); destruct (tryUpdateTraceStateCore en id taskID ev d) as [[? ?] ?];
      cbn [snd] in *
  end.
  repeat case_match; simplify_eq/=; try done.
  all: by rewrite andb_false_r in *.
Qed.
End Properties.

(** ** An in-memory database that satisfies the laws, for concrete runs *)

#[export] Instance map_db : TraceDB (gmap string Trace) := {
  db_first_trace id d :=
    match d !! id with
    | Some t => Ok t
    | None => Err "record not found"
    end;
  db_update_trace id at_ u d :=
    match d !! id with
    | Some t => if trace_UpdatedAt t =? at_ then (<[id := apply_updates u t]> d, Ok 1) else (d, Ok 0)
    | None => (d, Ok 0)
    end
}.

#[export] Instance map_db_laws : TraceDBLaws (gmap string Trace).
Proof.
  refine {| row := fun d id => d !! id |}.
  - intros id d t. simpl. case_match; naive_solver.
  - intros id at_ u d d' n t Hu Hr Ha. simpl in Hu. rewrite Hr, Ha, Z.eqb_refl in Hu.
    simplify_eq. by rewrite lookup_insert_eq.
  - intros id at_ u d d' n t Hu Hr Ha. simpl in Hu. rewrite Hr in Hu.
    destruct (Z.eqb_spec (trace_UpdatedAt t) at_); [done|]. by simplify_eq.
  - intros id at_ u d d' n Hu Hr. simpl in Hu. rewrite Hr in Hu. by simplify_eq.
  - intros id at_ u d d' e Hu. simpl in Hu. by destruct (d !! id); [case_match|].
Defined.

Module Sample.
Definition algo : Task := mkTask "t0" TaskTypeRunAlgorithm 0 0 TaskCompleted 5.
Definition collect : Task := mkTask "t1" TaskTypeCollectResult 1 0 TaskCompleted 7.
Definition trace : Trace :=
  mkTrace "tr" TraceTypeAlgorithmRun "algorithm.run.succeed" None "grp" TraceRunning 7 [algo; collect].
Definition db : gmap string Trace := {["tr" := trace]}.
Definition event : option TraceStreamEvent := Some (mkEvent EventAlgoResultCollection).
Definition quiet : attempt_env (gmap string Trace) := mkEnv 10 11 (fun d => d).
(** Meanwhile another worker updates another trace. *)
Definition trace2 : Trace :=
  mkTrace "tr2" TraceTypeAlgorithmRun "algorithm.run.succeed" None "grp" TraceRunning 7 [algo; collect].
Definition db2 : gmap string Trace := {["tr" := trace; "tr2" := trace2]}.
Definition elsewhere : attempt_env (gmap string Trace) :=
  mkEnv 12 13 (fun d => (tryUpdateTraceStateCore quiet "tr2" "t1" event d).1.1).
Definition touch (t : Trace) : Trace :=
  mkTrace (trace_ID t) (trace_Type t) (trace_LastEvent t) (trace_EndTime t) (trace_GroupID t)
    (trace_State t) (trace_UpdatedAt t + 1) (trace_Tasks t).
Definition noisy : attempt_env (gmap string Trace) := mkEnv 10 11 (fun d => touch <$> d).
End Sample.

Lemma tryUpdate_no_lost_update_witness :
  match tryUpdateTraceStateCore Sample.elsewhere "tr" "t1" Sample.event Sample.db2 with
  | (db', _, _) => exists t',
      row (interfere Sample.elsewhere Sample.db2) "tr" = Some t' /\
      row db' "tr" = Some (apply_updates (mkUpdates TraceCompleted EventAlgoResultCollection 12 (Some 13)) t')
  end.
Proof.
  destruct (tryUpdate_no_lost_update Sample.elsewhere "tr" "t1" Sample.event Sample.db2
    _ _ Sample.trace Sample.collect ltac:(by vm_compute) ltac:(by vm_compute) eq_refl) as [(_ & Hs & _)|(t' & H1 & _ & H2 & _)].
  - vm_compute in Hs. discriminate.
  - exists t'. split; [exact H1|exact H2].
Defined.
(** The other worker's update is there too. *)
Example both_updated :
  let db' := (tryUpdateTraceStateCore Sample.elsewhere "tr" "t1" Sample.event Sample.db2).1.1 in
  trace_State <$> (db' !! "tr" : option Trace) = Some TraceCompleted /\
  trace_State <$> (db' !! "tr2" : option Trace) = Some TraceCompleted.
Proof. split; by vm_compute. Qed.

Lemma tryUpdate_conflict_publishes_witness :
  match tryUpdateTraceStateCore Sample.noisy "tr" "t1" Sample.event Sample.db with
  | (db', published, err) =>
      err = Err lockConflict /\ row db' "tr" = Some (Sample.touch Sample.trace) /\
      published = [mkGroupEvent "group:grp:log" "tr" TraceCompleted EventAlgoResultCollection]
  end.
Proof.
  destruct (tryUpdateTraceStateCore _ _ _ _ _) as [[db' published] err] eqn:E.
  refine (tryUpdate_conflict_publishes Sample.noisy "tr" "t1" Sample.event Sample.db db' published err
    Sample.trace (Sample.touch Sample.trace) Sample.collect _ _ _ _ _ _ _ _ _ E).
  1-3: by vm_compute.
  - by vm_compute.
  - by vm_compute.
  - by vm_compute.
  - by vm_compute.
  - intros d u m. by vm_compute.
  - vm_compute. by intros [? _].
Defined.

Lemma performTraceStateUpdate_quiet_witness :
  exists db' published t',
    performTraceStateUpdate (fun _ => Sample.quiet) "tr" "t1" Sample.event Sample.db = (db', published, Ok tt) /\
    row db' "tr" = Some t' /\ trace_State t' = TraceCompleted /\ trace_LastEvent t' = EventAlgoResultCollection.
Proof.
  apply (performTraceStateUpdate_quiet (fun _ => Sample.quiet) "tr" "t1" Sample.event Sample.db
    Sample.trace Sample.collect ltac:(by vm_compute) ltac:(by vm_compute) (fun d => eq_refl)).
  intros d u m. vm_compute. congruence.
Defined.
