(* ===== verification/Redis.v ===== *)
(** * The Redis server the gateway talks to

    [infra/redis] only calls the go-redis client; the server itself is not part
    of the repository.  Here it is a parameter: a type [R] of server states, an
    [exec] function for the commands the code issues and a view [keys] of the
    server as a [keyspace].  [cmd_step] is the documented effect of each command
    on the keyspace, and the only law ([exec_law]) says that a command either has
    this effect and reply, or fails with another error, in which case it has been
    applied entirely or not at all.  What the server is free to choose - the order of the
    members of a set, how many old entries a trimmed stream loses - is an argument of
    [cmd_step].  The module [InMemory] is a concrete server
    used by the witnesses.

    The file also holds the state-and-error monad of the clients ([M]) and of the
    Lua scripts. *)

From S2P Require Import Prelude GoStrings.

(** ** The state-and-error monad: [fun s => (s', result)], stopping at an error *)

Definition M (S A : Type) : Type := S -> S * res A.

Definition m_ret {S A} (a : A) : M S A := fun s => (s, Ok a).
Definition m_err {S A} (e : string) : M S A := fun s => (s, Err e).
Definition m_bind {S A B} (m : M S A) (f : A -> M S B) : M S B := fun s =>
  let '(s1, r) := m s in
  match r with
  | Ok a => f a s1
  | Err e => (s1, Err e)
  end.

(** The result of a call as a value, for the code that inspects the error. *)
Definition attempt {S A} (m : M S A) : M S (res A) := fun s =>
  let '(s1, r) := m s in (s1, Ok r).

Definition m_lift {S A} (r : res A) : M S A := fun s => (s, r).

(** [fmt.Errorf("prefix: %w", err)] on the error of a call. *)
Definition m_wrap {S A} (prefix : string) (m : M S A) : M S A := fun s =>
  let '(s1, r) := m s in (s1, res_wrap prefix r).

Notation "'let!' x := m 'in' k" := (m_bind m (fun x => k))
  (at level 10, x pattern, m at level 100, k at level 200) : go_scope.
Notation "m ';;!' k" := (m_bind m (fun _ => k))
  (at level 100, k at level 200, right associativity) : go_scope.

(** [for _, x := range l { ... }] in the monad. *)
Fixpoint m_iter {S A} (f : A -> M S unit) (l : list A) : M S unit :=
  match l with
  | [] => m_ret tt
  | x :: l' => f x ;;! m_iter f l'
  end.

Lemma m_bind_ok {S A B} (m : M S A) (f : A -> M S B) s s2 b :
  m_bind m f s = (s2, Ok b) <-> exists s1 a, m s = (s1, Ok a) /\ f a s1 = (s2, Ok b).
Proof.
  unfold m_bind. destruct (m s) as [s1 [a|e]]; simpl.
  - split; [eauto | by intros (? & ? & [= <- <-] & ?)].
  - split; [done | by intros (? & ? & ? & ?)].
Qed.

Lemma m_iter_app {S A} (f : A -> M S unit) l1 l2 s :
  m_iter f (l1 ++ l2) s = m_bind (m_iter f l1) (fun _ => m_iter f l2) s.
Proof.
  revert s. induction l1 as [|x l1 IH]; intros s; simpl; [done|].
  unfold m_bind in *. destruct (f x s) as [s1 [a|e]]; [apply IH | done].
Qed.

(** ** The keyspace *)

Record keyspace := mkKeyspace {
  ks_list : gmap string (list string);
  ks_zset : gmap string (gmap string Z);
  ks_hash : gmap string (gmap string string);
  ks_set : gmap string (gset string);
  ks_int : gmap string Z;
  ks_stream : gmap string (list (list (string * string)));
  ks_ttl : gmap string Z;                    (* deadlines of sets, in ns *)
  ks_str : gmap string (string * option Z);  (* value and deadline *)
  ks_clock : Z                               (* the server's time, in ns *)
}.

Definition empty_keyspace : keyspace := mkKeyspace ∅ ∅ ∅ ∅ ∅ ∅ ∅ ∅ 0.

(** A missing key is an empty collection. *)
Definition klist (k : string) (ks : keyspace) : list string := default [] (ks_list ks !! k).
Definition kzset (k : string) (ks : keyspace) : gmap string Z := default ∅ (ks_zset ks !! k).
Definition khash (k : string) (ks : keyspace) : gmap string string := default ∅ (ks_hash ks !! k).
(** A set is there until its deadline, if it has one. *)
Definition set_expired (k : string) (ks : keyspace) : bool :=
  match ks_ttl ks !! k with Some deadline => deadline <=? ks_clock ks | None => false end.
Definition kset (k : string) (ks : keyspace) : gset string :=
  if set_expired k ks then ∅ else default ∅ (ks_set ks !! k).
Definition kstream (k : string) (ks : keyspace) : list (list (string * string)) :=
  default [] (ks_stream ks !! k).

Definition upd_list k v ks := mkKeyspace (<[k:=v]> (ks_list ks)) (ks_zset ks) (ks_hash ks)
  (ks_set ks) (ks_int ks) (ks_stream ks) (ks_ttl ks) (ks_str ks) (ks_clock ks).
Definition upd_zset k v ks := mkKeyspace (ks_list ks) (<[k:=v]> (ks_zset ks)) (ks_hash ks)
  (ks_set ks) (ks_int ks) (ks_stream ks) (ks_ttl ks) (ks_str ks) (ks_clock ks).
Definition upd_hash k v ks := mkKeyspace (ks_list ks) (ks_zset ks) (<[k:=v]> (ks_hash ks))
  (ks_set ks) (ks_int ks) (ks_stream ks) (ks_ttl ks) (ks_str ks) (ks_clock ks).
(** A set keeps its deadline while it is changed; one that is made, or made again after it
    was empty or had expired, has none. *)
Definition upd_set k v ks := mkKeyspace (ks_list ks) (ks_zset ks) (ks_hash ks)
  (<[k:=v]> (ks_set ks)) (ks_int ks) (ks_stream ks)
  (if decide (kset k ks = ∅ \/ v = ∅) then delete k (ks_ttl ks) else ks_ttl ks) (ks_str ks) (ks_clock ks).
Definition upd_int k v ks := mkKeyspace (ks_list ks) (ks_zset ks) (ks_hash ks)
  (ks_set ks) (<[k:=v]> (ks_int ks)) (ks_stream ks) (ks_ttl ks) (ks_str ks) (ks_clock ks).
Definition upd_stream k v ks := mkKeyspace (ks_list ks) (ks_zset ks) (ks_hash ks)
  (ks_set ks) (ks_int ks) (<[k:=v]> (ks_stream ks)) (ks_ttl ks) (ks_str ks) (ks_clock ks).
Definition upd_ttl k v ks := mkKeyspace (ks_list ks) (ks_zset ks) (ks_hash ks)
  (ks_set ks) (ks_int ks) (ks_stream ks) (<[k:=v]> (ks_ttl ks))
  (ks_str ks) (ks_clock ks).
Definition upd_str k v ks := mkKeyspace (ks_list ks) (ks_zset ks) (ks_hash ks)
  (ks_set ks) (ks_int ks) (ks_stream ks) (ks_ttl ks) (<[k:=v]> (ks_str ks)) (ks_clock ks).
Definition upd_clock t ks := mkKeyspace (ks_list ks) (ks_zset ks) (ks_hash ks)
  (ks_set ks) (ks_int ks) (ks_stream ks) (ks_ttl ks) (ks_str ks) t.

(** A string key is there until its deadline. *)
Definition kstr (k : string) (ks : keyspace) : option string :=
  match ks_str ks !! k with
  | Some (v, None) => Some v
  | Some (v, Some deadline) => if ks_clock ks <? deadline then Some v else None
  | None => None
  end.

(** Time passes on the server. *)
Definition elapse (dt : Z) (ks : keyspace) : keyspace := upd_clock (ks_clock ks + dt) ks.

(** The deadline of [SET key value ttl]; go-redis sends none for zero. *)
Definition deadline_after (ttl : Z) (ks : keyspace) : option Z :=
  if 0 <? ttl then Some (ks_clock ks + ttl) else None.

(** [EXISTS] on the keys the program uses it for: hashes and strings. *)
Definition kexists (k : string) (ks : keyspace) : bool :=
  negb (bool_decide (khash k ks = ∅)) || bool_decide (is_Some (kstr k ks)).

(** The keys of the server: a list, a set or a map that is empty is not there. *)
Definition all_keys (ks : keyspace) : gset string :=
  dom (filter (fun kv => negb (bool_decide (kv.2 = [])) = true) (ks_list ks)) ∪
  dom (filter (fun kv => negb (bool_decide (kv.2 = ∅)) = true) (ks_zset ks)) ∪
  dom (filter (fun kv => negb (bool_decide (kv.2 = ∅)) = true) (ks_hash ks)) ∪
  dom (filter (fun kv => negb (bool_decide (kset kv.1 ks = ∅)) = true) (ks_set ks)) ∪
  dom (ks_int ks) ∪ dom (ks_stream ks) ∪
  dom (filter (fun kv => bool_decide (is_Some (kstr kv.1 ks)) = true) (ks_str ks)).

Definition del_key (k : string) (ks : keyspace) : keyspace :=
  mkKeyspace (delete k (ks_list ks)) (delete k (ks_zset ks)) (delete k (ks_hash ks)) (delete k (ks_set ks))
    (delete k (ks_int ks)) (delete k (ks_stream ks)) (delete k (ks_ttl ks)) (delete k (ks_str ks)) (ks_clock ks).

(** Sorted sets: members in increasing score, ties by member. *)
Definition zpair_le (a b : string * Z) : Prop :=
  snd a < snd b \/ (snd a = snd b /\ String.leb (fst a) (fst b) = true).
#[global] Instance zpair_le_dec : RelDecision zpair_le.
Proof. intros a b. unfold zpair_le. apply _. Defined.

Definition zsorted (m : gmap string Z) : list (string * Z) :=
  merge_sort zpair_le (map_to_list m).

Definition in_range (lo hi : option Z) (score : Z) : bool :=
  match lo with Some l => l <=? score | None => true end
  && match hi with Some h => score <=? h | None => true end.

Definition zrange (lo hi : option Z) (m : gmap string Z) : list string :=
  fst <$> filter (fun p => in_range lo hi (snd p) = true) (zsorted m).

Definition zrem_range (lo hi : option Z) (m : gmap string Z) : gmap string Z :=
  filter (fun p => in_range lo hi (snd p) = false) m.

Lemma zsorted_perm m : zsorted m ≡ₚ map_to_list m.
Proof. apply merge_sort_Permutation. Qed.

Lemma elem_of_zrange lo hi m x :
  x ∈ zrange lo hi m <-> exists s, m !! x = Some s /\ in_range lo hi s = true.
Proof.
  unfold zrange. rewrite list_elem_of_fmap. split.
  - intros ([y s] & -> & H). apply list_elem_of_filter in H as [Hr Hin].
    rewrite zsorted_perm in Hin. apply elem_of_map_to_list in Hin. eauto.
  - intros (s & Hm & Hr). exists (x, s). split; [done|].
    apply list_elem_of_filter. split; [done|].
    rewrite zsorted_perm. by apply elem_of_map_to_list.
Qed.

Lemma NoDup_zrange lo hi m : NoDup (zrange lo hi m).
Proof.
  unfold zrange.
  apply (NoDup_fmap_fst (A:=string) (B:=Z)).
  - intros x y1 y2 H1 H2.
    apply list_elem_of_filter in H1 as [_ H1], H2 as [_ H2].
    rewrite zsorted_perm in H1, H2.
    apply elem_of_map_to_list in H1, H2. congruence.
  - apply NoDup_filter. rewrite zsorted_perm. apply NoDup_map_to_list.
Qed.

(** ** Commands *)

Definition redis_Nil : string := "redis: nil".
Definition TxFailedErr : string := "redis: transaction failed".

Inductive cmd : Type -> Type :=
| LPUSH (k : string) (vs : list string) : cmd unit
| BRPOP (k : string) : cmd string
| LRANGE (k : string) : cmd (list string)
| LLEN (k : string) : cmd Z
| LINDEX (k : string) (i : nat) : cmd (option string)
| LSET (k : string) (i : nat) (v : string) : cmd unit
| LREM (k : string) (count : nat) (v : string) : cmd unit
| ZADD (k : string) (score : Z) (m : string) : cmd unit
| ZRANGEBYSCORE (k : string) (lo hi : option Z) : cmd (list string)
| ZRANGEBYSCORE_LIMIT (k : string) (n : Z) : cmd (list string)
| ZREM (k m : string) : cmd unit
| ZREMRANGEBYSCORE (k : string) (lo hi : option Z) : cmd unit
| ZCARD (k : string) : cmd Z
| HSET (k f v : string) : cmd unit
| HMSET (k : string) (fvs : list (string * string)) : cmd unit
| HGETALL (k : string) : cmd (gmap string string)
| HSETNX (k f v : string) : cmd unit
| HGET (k f : string) : cmd string
| HDEL (k f : string) : cmd unit
| HLEN (k : string) : cmd Z
| SADD (k m : string) : cmd unit
| SREM (k : string) (ms : list string) : cmd Z
| SCARD (k : string) : cmd Z
| SMEMBERS (k : string) : cmd (list string)
| EXISTS (k : string) : cmd bool
| SCAN (pre : string) : cmd (list string)
| DEL (k : string) : cmd Z
| GETINT (k : string) : cmd Z
| INCR (k : string) : cmd Z
| DECR (k : string) : cmd Z
| SETINT (k : string) (v : Z) : cmd unit
| XADD (k : string) (maxlen : nat) (values : list (string * string)) : cmd unit
| EXPIRE (k : string) (sec : Z) : cmd unit
| SET (k v : string) (ttl : Z) : cmd unit
| SETNX (k v : string) (ttl : Z) : cmd bool
| MULTI {A B} (c1 : cmd A) (c2 : cmd B) : cmd B
| EVAL {A} (script : M keyspace A) : cmd A.

(** [LREM]: the first [count] elements equal to [v] leave the list. *)
Fixpoint lrem (count : nat) (v : string) (l : list string) : list string :=
  match l, count with
  | [], _ => []
  | _, O => l
  | x :: l', S n => if String.eqb x v then lrem n v l' else x :: lrem count v l'
  end.

(** What the server is free to choose: the order in which it lists the members of a set,
    and how many entries of a stream it evicts at an [XADD] with an approximate bound. *)
Record choices := mkChoices { ch_order : string -> list string; ch_evicted : string -> nat }.

(** The oldest entries leave; the bound itself always stays. *)
Definition trim_stream {A} (evicted maxlen : nat) (l : list A) : list A :=
  drop (Nat.min evicted (length l - maxlen)) l.

(** The documented effect of a command. *)
Fixpoint cmd_step (ord : choices) {A} (c : cmd A) (ks : keyspace)
  : keyspace * res A :=
  match c in cmd A return keyspace * res A with
  | LPUSH k vs => (upd_list k (rev vs ++ klist k ks) ks, Ok tt)
  | BRPOP k =>
      match last (klist k ks) with
      | Some v => (upd_list k (removelast (klist k ks)) ks, Ok v)
      | None => (ks, Err redis_Nil)
      end
  | LRANGE k => (ks, Ok (klist k ks))
  | LLEN k => (ks, Ok (Z.of_nat (length (klist k ks))))
  | LINDEX k i => (ks, Ok (klist k ks !! i))
  | LSET k i v =>
      if (i <? length (klist k ks))%nat then (upd_list k (<[i:=v]> (klist k ks)) ks, Ok tt)
      else (ks, Err "ERR index out of range")
  | LREM k count v => (upd_list k (lrem count v (klist k ks)) ks, Ok tt)
  | ZADD k score m => (upd_zset k (<[m:=score]> (kzset k ks)) ks, Ok tt)
  | ZRANGEBYSCORE k lo hi => (ks, Ok (zrange lo hi (kzset k ks)))
  | ZRANGEBYSCORE_LIMIT k n => (ks, Ok (take (Z.to_nat n) (zrange None None (kzset k ks))))
  | ZREM k m => (upd_zset k (delete m (kzset k ks)) ks, Ok tt)
  | ZREMRANGEBYSCORE k lo hi => (upd_zset k (zrem_range lo hi (kzset k ks)) ks, Ok tt)
  | ZCARD k => (ks, Ok (Z.of_nat (size (kzset k ks))))
  | HSET k f v => (upd_hash k (<[f:=v]> (khash k ks)) ks, Ok tt)
  | HMSET k fvs =>
      (upd_hash k (fold_left (fun h fv => <[fst fv := snd fv]> h) fvs (khash k ks)) ks, Ok tt)
  | HGETALL k => (ks, Ok (khash k ks))
  | HSETNX k f v =>
      match khash k ks !! f with
      | Some _ => (ks, Ok tt)
      | None => (upd_hash k (<[f:=v]> (khash k ks)) ks, Ok tt)
      end
  | HGET k f =>
      match khash k ks !! f with
      | Some v => (ks, Ok v)
      | None => (ks, Err redis_Nil)
      end
  | HDEL k f => (upd_hash k (delete f (khash k ks)) ks, Ok tt)
  | HLEN k => (ks, Ok (Z.of_nat (size (khash k ks))))
  | SADD k m => (upd_set k ({[m]} ∪ kset k ks) ks, Ok tt)
  | SREM k ms =>
      (upd_set k (kset k ks ∖ list_to_set ms) ks, Ok (Z.of_nat (size (kset k ks ∩ list_to_set ms))))
  | SCARD k => (ks, Ok (Z.of_nat (size (kset k ks))))
  | SMEMBERS k => (ks, Ok (ch_order ord k))
  | EXISTS k => (ks, Ok (kexists k ks))
  | SCAN pre => (ks, Ok (List.filter (String.prefix pre) (elements (all_keys ks))))
  | DEL k => (del_key k ks, Ok (if decide (k ∈ all_keys ks) then 1 else 0))
  | GETINT k =>
      match ks_int ks !! k with
      | Some v => (ks, Ok v)
      | None => (ks, Err redis_Nil)
      end
  | INCR k => let v := default 0 (ks_int ks !! k) + 1 in (upd_int k v ks, Ok v)
  | DECR k => let v := default 0 (ks_int ks !! k) - 1 in (upd_int k v ks, Ok v)
  | SETINT k v => (upd_int k v ks, Ok tt)
  | XADD k maxlen values =>
      (upd_stream k (trim_stream (ch_evicted ord k) maxlen (kstream k ks ++ [values])) ks, Ok tt)
  | EXPIRE k sec =>
      (if decide (kset k ks = ∅) then ks else upd_ttl k (ks_clock ks + sec * 10 ^ 9) ks, Ok tt)
  | SET k v ttl => (upd_str k (v, deadline_after ttl ks) ks, Ok tt)
  | SETNX k v ttl =>
      match kstr k ks with
      | Some _ => (ks, Ok false)
      | None => (upd_str k (v, deadline_after ttl ks) ks, Ok true)
      end
  | MULTI c1 c2 => cmd_step ord c2 (fst (cmd_step ord c1 ks))
  | EVAL script => m_wrap "ERR " script ks
  end.

Class RedisServer (R : Type) := {
  keys : R -> keyspace;
  set_order : R -> string -> list string;
  evicted : R -> string -> nat;
  exec : forall {A}, cmd A -> M R A
}.

Definition chosen {R} `{RedisServer R} (r : R) : choices := mkChoices (set_order r) (evicted r).

(** A server whose commands are all served. *)
Class RedisReliable (R : Type) `{RedisServer R} := {
  exec_reliable : forall A (c : cmd A) r,
    (keys (fst (exec c r)), snd (exec c r)) = cmd_step (chosen r) c (keys r)
}.

Class RedisLaws (R : Type) `{RedisServer R} := {
  set_order_perm : forall r k, set_order r k ≡ₚ elements (kset k (keys r));
  exec_law : forall A (c : cmd A) r r' o, exec c r = (r', o) ->
    (keys r', o) = cmd_step (chosen r) c (keys r) \/
    exists e, o = Err e /\ e <> redis_Nil /\
      (keys r' = keys r \/ keys r' = fst (cmd_step (chosen r) c (keys r)))
}.

(** A command inside a Lua script ([redis.call]): no network is involved. *)
Definition redis_call {A} (c : cmd A) : M keyspace A := cmd_step (mkChoices (fun _ => []) (fun _ => 0%nat)) c.

(** A command whose error the code discards ([_ = ...], or logs). *)
Definition ignore_err {S A} (m : M S A) : M S unit := fun s => (fst (m s), Ok tt).

(** ** What follows from the law *)

Section Laws.
Context {R : Type} `{RedisLaws R}.

Lemma exec_ok {A} (c : cmd A) r r' a :
  exec c r = (r', Ok a) -> cmd_step (chosen r) c (keys r) = (keys r', Ok a).
Proof. intros Hx. apply exec_law in Hx as [Hx | (e & [=] & _)]. done. Qed.

(** The keyspace after a command, whatever the reply. *)
Lemma exec_keys {A} (c : cmd A) r r' o :
  exec c r = (r', o) ->
  keys r' = keys r \/ keys r' = fst (cmd_step (chosen r) c (keys r)).
Proof.
  intros Hx. apply exec_law in Hx as [Hx | (e & _ & _ & Hx)]; [|done].
  right. by rewrite <- Hx.
Qed.

Lemma exec_EVAL_ok {A} (script : M keyspace A) r r' a :
  exec (EVAL script) r = (r', Ok a) -> script (keys r) = (keys r', Ok a).
Proof.
  intros Hx. apply exec_ok in Hx. simpl in Hx. unfold m_wrap in Hx.
  destruct (script (keys r)) as [ks [b|e]]; simpl in Hx; by simplify_eq.
Qed.

(** A script never answers nil as an error. *)
Lemma exec_EVAL_nil {A} (script : M keyspace A) r r' :
  exec (EVAL script) r <> (r', Err redis_Nil).
Proof.
  intros Hx. apply exec_law in Hx as [Hx | (e & [= <-] & ? & _)]; [|done].
  simpl in Hx. unfold m_wrap in Hx.
  destruct (script (keys r)) as [ks [b|e]]; simpl in Hx; by simplify_eq.
Qed.

(** Commands that only read. *)
Definition reads_only {A} (c : cmd A) : Prop :=
  forall ord ks, fst (cmd_step ord c ks) = ks.

Lemma exec_reads {A} (c : cmd A) r r' o :
  reads_only c -> exec c r = (r', o) -> keys r' = keys r.
Proof. intros Hc Hx. destruct (exec_keys _ _ _ _ Hx) as [?|E]; [done|]. by rewrite Hc in E. Qed.

Lemma reads_LRANGE k : reads_only (LRANGE k). Proof. done. Qed.
Lemma reads_LLEN k : reads_only (LLEN k). Proof. done. Qed.
Lemma reads_ZRANGE k lo hi : reads_only (ZRANGEBYSCORE k lo hi). Proof. done. Qed.
Lemma reads_ZCARD k : reads_only (ZCARD k). Proof. done. Qed.
Lemma reads_HLEN k : reads_only (HLEN k). Proof. done. Qed.
Lemma reads_SCARD k : reads_only (SCARD k). Proof. done. Qed.
Lemma reads_SMEMBERS k : reads_only (SMEMBERS k). Proof. done. Qed.
Lemma reads_SCAN pre : reads_only (SCAN pre). Proof. done. Qed.
Lemma reads_EXISTS k : reads_only (EXISTS k). Proof. done. Qed.
Lemma reads_HGET k f : reads_only (HGET k f).
Proof. intros ord ks. simpl. by destruct (khash k ks !! f). Qed.
Lemma reads_GETINT k : reads_only (GETINT k).
Proof. intros ord ks. simpl. by destruct (ks_int ks !! k). Qed.

Lemma reliable_EVAL {A} `{!RedisReliable R} (script : M keyspace A) r ks o :
  script (keys r) = (ks, o) ->
  exists r', exec (EVAL script) r = (r', res_wrap "ERR " o) /\ keys r' = ks.
Proof.
  intros E. pose proof (exec_reliable _ (EVAL script) r) as Hx. simpl in Hx.
  unfold m_wrap in Hx. rewrite E in Hx.
  destruct (exec (EVAL script) r) as [r' o']. simpl in Hx. simplify_eq. by eexists.
Qed.

Lemma exec_HGET_nil k f r r' :
  exec (HGET k f) r = (r', Err redis_Nil) -> khash k (keys r) !! f = None.
Proof.
  intros Hx. apply exec_law in Hx as [Hx | (e & [= <-] & ? & _)]; [|done].
  simpl in Hx. by destruct (khash k (keys r) !! f).
Qed.

Lemma exec_HGET_ok k f r r' v :
  exec (HGET k f) r = (r', Ok v) -> khash k (keys r) !! f = Some v.
Proof.
  intros Hx. apply exec_ok in Hx. simpl in Hx.
  destruct (khash k (keys r) !! f); by simplify_eq.
Qed.
End Laws.

#[export] Hint Resolve reads_LRANGE reads_LLEN reads_ZRANGE reads_ZCARD reads_HLEN reads_SCARD
  reads_SMEMBERS reads_SCAN reads_EXISTS reads_HGET reads_GETINT : aegis.

(** ** Reading back what was written: the keyspace as independent stores *)

Lemma klist_upd k k' v ks : klist k (upd_list k' v ks) = if decide (k = k') then v else klist k ks.
Proof. unfold klist; simpl. case_decide; by simplify_map_eq. Qed.
Lemma kzset_upd k k' v ks : kzset k (upd_zset k' v ks) = if decide (k = k') then v else kzset k ks.
Proof. unfold kzset; simpl. case_decide; by simplify_map_eq. Qed.
Lemma khash_upd k k' v ks : khash k (upd_hash k' v ks) = if decide (k = k') then v else khash k ks.
Proof. unfold khash; simpl. case_decide; by simplify_map_eq. Qed.
Lemma kset_upd k k' v ks : kset k (upd_set k' v ks) = if decide (k = k') then v else kset k ks.
Proof.
  unfold kset, set_expired. simpl. destruct (decide (k = k')) as [->|Hk].
  - rewrite lookup_insert_eq. simpl. case_decide as E.
    + by rewrite lookup_delete_eq.
    + unfold kset, set_expired in E. destruct (ks_ttl ks !! k') as [d|]; [|done].
      destruct (d <=? ks_clock ks); [|done]. exfalso. auto.
  - rewrite lookup_insert_ne by done. case_decide; [by rewrite lookup_delete_ne by done|done].
Qed.
Lemma kstream_upd k k' v ks :
  kstream k (upd_stream k' v ks) = if decide (k = k') then v else kstream k ks.
Proof. unfold kstream; simpl. case_decide; by simplify_map_eq. Qed.

(** Removing one member of a set. *)
Lemma minus_one (X : gset string) m : X ∖ list_to_set [m] = X ∖ {[m]}.
Proof. set_solver. Qed.

#[export] Hint Rewrite klist_upd kzset_upd khash_upd kset_upd kstream_upd : aegis.

(** ** A concrete server: the keyspace itself, and a script of replies that are lost.
    Each command consumes one element of the script; [Lost] and [LostReply] are
    failures before and after the command took effect. *)
Module InMemory.
Inductive fate := Served | Lost | LostReply.
Record server := mkServer { srv_keys : keyspace; srv_fates : list fate }.

Definition net_error : string := "i/o timeout".

Definition srv_order (s : server) (k : string) : list string := elements (kset k (srv_keys s)).

Definition srv_exec {A} (c : cmd A) (s : server) : server * res A :=
  let '(ks', o) := cmd_step (mkChoices (srv_order s) (fun _ => 0%nat)) c (srv_keys s) in
  match srv_fates s with
  | Lost :: fs => (mkServer (srv_keys s) fs, Err net_error)
  | LostReply :: fs => (mkServer ks' fs, Err net_error)
  | Served :: fs => (mkServer ks' fs, o)
  | [] => (mkServer ks' [], o)
  end.

#[global] Instance server_redis : RedisServer server :=
  { keys := srv_keys; set_order := srv_order; evicted := fun _ _ => 0%nat; exec := @srv_exec }.

#[global] Instance server_laws : RedisLaws server.
Proof.
  split.
  - done.
  - intros A c s s' o. simpl. unfold srv_exec.
    change (chosen s) with (mkChoices (srv_order s) (fun _ => 0%nat)).
    destruct (cmd_step (mkChoices (srv_order s) (fun _ => 0%nat)) c (srv_keys s)) as [ks' o'] eqn:E.
    destruct (srv_fates s) as [|[] fs]; intros [= <- <-]; simpl; eauto 10.
Qed.

(** A fresh, reliable server. *)
Definition fresh : server := mkServer empty_keyspace [].
End InMemory.

(** The same without failures: the keyspace is its own server. *)
Module Reliable.
#[global] Instance keyspace_redis : RedisServer keyspace :=
  { keys := fun ks => ks;
    set_order := fun ks k => elements (kset k ks);
    evicted := fun _ _ => 0%nat;
    exec := fun A c ks => cmd_step (mkChoices (fun k => elements (kset k ks)) (fun _ => 0%nat)) c ks }.

#[global] Instance keyspace_laws : RedisLaws keyspace.
Proof. split; [done|]. intros A c ks ks' o E. left. symmetry. exact E. Qed.

#[global] Instance keyspace_reliable : RedisReliable keyspace.
Proof.
  split. intros A c ks. by destruct (cmd_step (chosen ks) c ks) eqn:E; simpl; unfold chosen in E; simpl in E; rewrite E.
Qed.
End Reliable.
