(* ===== verification/Gateway.v ===== *)
(** * The wrappers of the Redis gateway ([infra/redis/gateway.go])

    Each method sends one command and names the key in its error. *)

From S2P Require Import Prelude GoStrings Consts Redis.

Definition NamespacesKey : string := "monitor:namespaces".

(** [%q] of a text without characters that need escaping. *)
Definition go_quote (s : string) : string := String "034" (s +:+ String "034" "").

Section Gateway.
Context {R : Type} `{RedisServer R}.

(** [fmt.Errorf("failed to <what> for key '%s': %w", key, err)]. *)
Definition key_error {A} (what key : string) (m : M R A) : M R A :=
  m_wrap ("failed to " +:+ what +:+ " for key '" +:+ key +:+ "': ") m.

(** [HExists], as an [HGET] whose value is dropped. *)
Definition CheckCachedField (key field : string) : M R bool :=
  let! exists_ := attempt (exec (HGET key field)) in m_ret (is_ok exists_).

(** [decode] is [json.Unmarshal] at the type of the target, [current] the value
    the target holds before the call and keeps when there is nothing to decode. *)
Definition GetHashField {T} (decode : string -> res T) (current : T) (key field : string) : M R T :=
  let! r := attempt (exec (HGET key field)) in
  match r with
  | Err e =>
      if String.eqb e redis_Nil then m_ret current
      else m_err ("failed to get hash field " +:+ field +:+ " from key " +:+ key +:+ ": " +:+ e)
  | Ok itemJSON =>
      if String.eqb itemJSON "" then m_ret current
      else m_wrap ("failed to unmarshal cached items for field " +:+ field +:+ ": ")
             (m_lift (decode itemJSON))
  end.

(** [itemJSON] is the result of [json.Marshal(item)]. *)
Definition SetHashField (key field : string) (itemJSON : res string) : M R unit :=
  let! itemJSON := m_wrap "failed to marshal items to JSON: " (m_lift itemJSON) in
  m_wrap ("failed to set hash field " +:+ field +:+ " in key " +:+ key +:+ ": ")
    (exec (HSET key field itemJSON)).

Definition ListRange (key : string) : M R (list string) :=
  key_error "get list range" key (exec (LRANGE key)).
Definition ListLength (key : string) : M R Z :=
  key_error "get list length" key (exec (LLEN key)).
Definition SetMembers (key : string) : M R (list string) :=
  key_error "get set members" key (exec (SMEMBERS key)).
(** The pattern is a prefix and [*]; the keys come in no particular order. *)
Definition ScanKeys (pre : string) : M R (list string) :=
  m_wrap ("failed to scan keys " +:+ go_quote (pre +:+ "*") +:+ ": ") (exec (SCAN pre)).
(** 1 when the key was there, 0 otherwise. *)
Definition DeleteKey (key : string) : M R Z :=
  m_wrap ("failed to del key " +:+ go_quote key +:+ ": ") (exec (DEL key)).
Definition Exists (key : string) : M R bool :=
  m_wrap ("failed to check key '" +:+ key +:+ "': ") (exec (EXISTS key)).
Definition HashGetAll (key : string) : M R (gmap string string) :=
  key_error "get hash fields" key (exec (HGETALL key)).
Definition HashGet (key field : string) : M R string := exec (HGET key field).

Definition HashSet (key : string) (values : list (string * string)) : M R unit :=
  if (length values =? 0)%nat then m_ret tt
  else key_error "set hash fields" key (exec (HMSET key values)).

(** A pipeline that is not a transaction: every command is sent, the first error
    is reported. *)
Fixpoint pipelined (cmds : list (cmd unit)) : M R unit := fun r =>
  match cmds with
  | [] => (r, Ok tt)
  | c :: rest =>
      let '(r1, o) := exec c r in
      let '(r2, o') := pipelined rest r1 in
      (r2, match o with Ok _ => o' | Err e => Err e end)
  end.

Definition SeedNamespaceState (namespaceKey namespace : string) (endTime status : Z) : M R unit :=
  m_wrap ("failed to seed namespace state for '" +:+ namespace +:+ "': ")
    (pipelined [SADD NamespacesKey namespace;
                HSETNX namespaceKey "end_time" (itoa endTime);
                HSETNX namespaceKey "trace_id" "";
                HSETNX namespaceKey "status" (itoa status)]).

(** The members only; the code reads no score. *)
Definition ZRangeByScoreWithScores (key : string) (limit : Z) : M R (list string) :=
  if limit <=? 0 then m_err "limit must be a positive number"
  else m_wrap ("failed to get scheduled tasks from key '" +:+ key +:+ "': ")
         (exec (ZRANGEBYSCORE_LIMIT key limit)).

Definition ZRangeByScore (key : string) (lo hi : option Z) : M R (list string) :=
  key_error "get sorted set range" key (exec (ZRANGEBYSCORE key lo hi)).
Definition SortedSetCard (key : string) : M R Z :=
  key_error "get sorted set size" key (exec (ZCARD key)).
Definition ZAdd (key : string) (score : Z) (member : string) : M R unit :=
  key_error "add sorted set member" key (exec (ZADD key score member)).
Definition ZRemRangeByScore (key : string) (lo hi : option Z) : M R unit :=
  key_error "trim sorted set" key (exec (ZREMRANGEBYSCORE key lo hi)).
Definition SetRemove (key : string) (members : list string) : M R Z :=
  key_error "remove set members" key (exec (SREM key members)).
Definition SetCard (key : string) : M R Z :=
  key_error "get set size" key (exec (SCARD key)).
Definition XAdd (stream : string) (values : list (string * string)) : M R unit :=
  m_wrap ("redis XADD failed for stream '" +:+ stream +:+ "': ") (exec (XADD stream 1000 values)).
Definition RunScript {A} (script : M keyspace A) : M R A := exec (EVAL script).
Definition HashLength (key : string) : M R Z :=
  key_error "get hash length" key (exec (HLEN key)).

(** A missing key counts as zero. *)
Definition GetInt64 (key : string) : M R Z :=
  let! r := attempt (exec (GETINT key)) in
  match r with
  | Ok n => m_ret n
  | Err e => if String.eqb e redis_Nil then m_ret 0
             else key_error "get int64 value" key (m_err e)
  end.

(** [ttl] in nanoseconds. *)
Definition Set_ (key value : string) (ttl : Z) : M R unit :=
  m_wrap ("redis SET failed for key '" +:+ key +:+ "': ") (exec (SET key value ttl)).
Definition SetNX (key value : string) (ttl : Z) : M R bool :=
  m_wrap ("redis SETNX failed for key '" +:+ key +:+ "': ") (exec (SETNX key value ttl)).

Definition InitConcurrencyLock (lockKey : string) : M R unit := exec (SETINT lockKey 0).
End Gateway.
