(* ===== verification/Task.v ===== *)
(** * Unified tasks ([dto/task.go], [model/entity.go])

    The task as it travels through the queues, its conversion to the rows of the
    database, and the codec of its JSON form.  [encoding/json], [cjson] and the
    OpenTelemetry propagator are not part of the repository: the codec is the
    class [TaskCodec], the carriers are plain maps. *)

From Stdlib Require Import QArith.
From S2P Require Import Prelude GoStrings Consts.
#[local] Open Scope Z_scope.

(** ** Go's [any], as [encoding/json] and the code build it *)

Inductive value : Type :=
| VNil
| VBool (b : bool)
| VInt (z : Z)
| VFloat (q : Q)
| VStr (s : string)
| VList (l : list value)
| VMap (m : list (string * value)).

(** Type assertions [v.(T)] with the comma-ok form. *)
Definition as_string (v : option value) : option string :=
  match v with Some (VStr s) => Some s | _ => None end.
Definition as_int (v : option value) : option Z :=
  match v with Some (VInt z) => Some z | _ => None end.
Definition as_float64 (v : option value) : option Q :=
  match v with Some (VFloat q) => Some q | _ => None end.
Definition as_bool (v : option value) : option bool :=
  match v with Some (VBool b) => Some b | _ => None end.

(** [int(f)] truncates towards zero. *)
Definition int_of_float (q : Q) : Z := Z.quot (Qnum q) (Zpos (Qden q)).

(** ** The task *)

Record RetryPolicy := mkRetry { MaxAttempts : Z; BackoffSec : Z }.

Record UnifiedTask := mkUTask {
  TaskID : string;
  Type_ : TaskType;
  Immediate : bool;
  ExecuteTime : Z;
  CronExpr : string;
  ReStartNum : Z;
  Retry : RetryPolicy;
  Payload : gmap string value;
  Level : Z;
  Sequence : Z;
  ParentTaskID : option string;
  TraceID : string;
  GroupID : string;
  ProjectID : Z;
  UserID : Z;
  State_ : TaskState;
  TraceCarrier : option (gmap string string);
  GroupCarrier : option (gmap string string);
  Extra : option (gmap string value)
}.

(** Assignments to single fields. *)
Definition set_ids (task trace : string) (t : UnifiedTask) : UnifiedTask :=
  {| TaskID := task; Type_ := Type_ t; Immediate := Immediate t; ExecuteTime := ExecuteTime t;
     CronExpr := CronExpr t; ReStartNum := ReStartNum t; Retry := Retry t; Payload := Payload t;
     Level := Level t; Sequence := Sequence t; ParentTaskID := ParentTaskID t; TraceID := trace;
     GroupID := GroupID t; ProjectID := ProjectID t; UserID := UserID t; State_ := State_ t;
     TraceCarrier := TraceCarrier t; GroupCarrier := GroupCarrier t; Extra := Extra t |}.
Definition set_schedule (level executeTime restart : Z) (st : TaskState) (t : UnifiedTask)
  : UnifiedTask :=
  {| TaskID := TaskID t; Type_ := Type_ t; Immediate := Immediate t; ExecuteTime := executeTime;
     CronExpr := CronExpr t; ReStartNum := restart; Retry := Retry t; Payload := Payload t;
     Level := level; Sequence := Sequence t; ParentTaskID := ParentTaskID t; TraceID := TraceID t;
     GroupID := GroupID t; ProjectID := ProjectID t; UserID := UserID t; State_ := st;
     TraceCarrier := TraceCarrier t; GroupCarrier := GroupCarrier t; Extra := Extra t |}.
Definition set_execute_time (e : Z) (t : UnifiedTask) : UnifiedTask :=
  set_schedule (Level t) e (ReStartNum t) (State_ t) t.
Definition set_level (l : Z) (t : UnifiedTask) : UnifiedTask :=
  set_schedule l (ExecuteTime t) (ReStartNum t) (State_ t) t.

(** [executeTime] is the Unix time of the argument. *)
Definition Reschedule (executeTime : Z) (t : UnifiedTask) : UnifiedTask :=
  set_schedule (Level t) executeTime (ReStartNum t + 1) TaskRescheduled t.

(** ** JSON *)

Class TaskCodec := {
  (** [json.Marshal(task)] and [json.Unmarshal(data, &task)]. *)
  marshal_task : UnifiedTask -> res string;
  unmarshal_task : string -> res UnifiedTask;
  (** [json.Marshal(t.Payload)]. *)
  marshal_payload : gmap string value -> res string;
  (** [json.Unmarshal] into a [map[string]any] ([null] gives a nil map) and back. *)
  unmarshal_object : string -> res (option (gmap string value));
  marshal_object : gmap string value -> res string;
  (** [cjson.decode(item).task_id] in a script: an error when the item is not JSON. *)
  cjson_task_id : string -> res (option string);
  (** How many results [unpack] can return in the server's Lua. *)
  lua_unpack_max : nat
}.

(** What the queue relies on: the identifier (a UUID, so ASCII) survives the
    encoding, for Go's decoder and for the one of the server. *)
Definition ascii_id (s : string) : bool :=
  forallb (fun c => (N_of_ascii c <? 128)%N) (chars s).

Class TaskCodecLaws `{TaskCodec} := {
  marshal_id_go : forall t s, marshal_task t = Ok s -> ascii_id (TaskID t) = true ->
    exists t', unmarshal_task s = Ok t' /\ TaskID t' = TaskID t;
  marshal_id_lua : forall t s o, marshal_task t = Ok s -> ascii_id (TaskID t) = true ->
    cjson_task_id s = Ok o -> o = Some (TaskID t);
  (** The tombstone of the removal script is not JSON. *)
  cjson_tombstone : is_ok (cjson_task_id "__DELETED__") = false
}.

(** ** Rows of the database *)

Record TaskRow := mkTaskRow {
  row_ID : string;
  row_Type : TaskType;
  row_Immediate : bool;
  row_ExecuteTime : Z;
  row_CronExpr : string;
  row_Payload : string;
  row_Level : Z;
  row_Sequence : Z;
  row_State : TaskState;
  row_Status : StatusType;
  row_ParentTaskID : option string;
  row_TraceID : string
}.

Record TraceRow := mkTraceRow {
  tr_ID : string;
  tr_Type : TraceType;
  tr_LastEvent : string;
  tr_StartTime : Z;
  tr_EndTime : option Z;
  tr_LeafNum : Z;
  tr_GroupID : string;
  tr_ProjectID : Z;
  tr_State : TraceState;
  tr_Status : StatusType
}.

(** The literal sets no [Sequence]: the column keeps its zero value. *)
Definition ConvertToTask `{TaskCodec} (t : UnifiedTask) : res TaskRow :=
  let? jsonPayload := res_wrap "failed to marshal task payload: " (marshal_payload (Payload t)) in
  Ok {| row_ID := TaskID t; row_Type := Type_ t; row_Immediate := Immediate t;
        row_ExecuteTime := ExecuteTime t; row_CronExpr := CronExpr t; row_Payload := jsonPayload;
        row_Level := Level t; row_Sequence := 0; row_State := State_ t;
        row_Status := CommonEnabled; row_ParentTaskID := ParentTaskID t;
        row_TraceID := TraceID t |}.

Definition ConvertToTrace (now : Z) (withAlgorithms : bool) (leafNum : Z) (t : UnifiedTask)
  : res TraceRow :=
  let? traceType :=
    match Type_ t with
    | TaskTypeRestartPedestal =>
        if withAlgorithms then Ok TraceTypeFullPipeline else Ok TraceTypeFaultInjection
    | TaskTypeBuildDatapack => Ok TraceTypeDatapackBuild
    | TaskTypeRunAlgorithm => Ok TraceTypeAlgorithmRun
    | _ => Err ("unsupported task type for trace conversion: "
                +:+ GetTaskTypeName (TaskType_code (Type_ t)))
    end in
  Ok {| tr_ID := TraceID t; tr_Type := traceType; tr_LastEvent := ""; tr_StartTime := now;
        tr_EndTime := None; tr_LeafNum := leafNum; tr_GroupID := GroupID t; tr_ProjectID := ProjectID t; tr_State := TracePending;
        tr_Status := CommonEnabled |}.

(** ** Labels of the Kubernetes jobs *)

Definition JobLabelTaskID : string := "task_id".
Definition JobLabelTaskType : string := "task_type".
Definition JobLabelTraceID : string := "trace_id".
Definition JobLabelGroupID : string := "group_id".
Definition JobLabelProjectID : string := "project_id".
Definition JobLabelUserID : string := "user_id".

Definition GetLabels (t : UnifiedTask) : gmap string string :=
  {[ JobLabelTaskID := TaskID t;
     JobLabelTaskType := GetTaskTypeName (TaskType_code (Type_ t));
     JobLabelTraceID := TraceID t;
     JobLabelGroupID := GroupID t;
     JobLabelProjectID := itoa (ProjectID t);
     JobLabelUserID := itoa (UserID t) ]}.

(** ** Facts on the conversions *)

(** Which tasks can start a trace. *)
Definition starts_trace (ty : TaskType) : bool :=
  match ty with
  | TaskTypeRestartPedestal | TaskTypeBuildDatapack | TaskTypeRunAlgorithm => true
  | _ => false
  end.

Lemma ConvertToTrace_ok now wa n t :
  is_ok (ConvertToTrace now wa n t) = starts_trace (Type_ t).
Proof. unfold ConvertToTrace. destruct (Type_ t), wa; done. Qed.

Lemma ConvertToTrace_fields now wa n t tr :
  ConvertToTrace now wa n t = Ok tr ->
  tr_ID tr = TraceID t /\ tr_LeafNum tr = n /\ tr_State tr = TracePending /\ tr_StartTime tr = now.
Proof. unfold ConvertToTrace. destruct (Type_ t), wa; simpl; intros; by simplify_eq. Qed.

(** ** A concrete codec for the witnesses: the document is the identifier, an
    empty document is not JSON. *)
Module ToyCodec.
Definition task_of (id : string) : UnifiedTask :=
  {| TaskID := id; Type_ := TaskTypeRunAlgorithm; Immediate := true; ExecuteTime := 0;
     CronExpr := ""; ReStartNum := 0; Retry := mkRetry 0 0; Payload := ∅; Level := 0;
     Sequence := 0; ParentTaskID := None; TraceID := "trace"; GroupID := "group";
     ProjectID := 1; UserID := 1; State_ := TaskPending; TraceCarrier := None;
     GroupCarrier := None; Extra := None |}.

Definition bad_json (s : string) : bool := String.eqb s "" || String.eqb s "__DELETED__".

Definition toy : TaskCodec := {|
  marshal_task := fun t => if bad_json (TaskID t) then Err "bad id" else Ok (TaskID t);
  unmarshal_task := fun s => if bad_json s then Err "invalid" else Ok (task_of s);
  marshal_payload := fun _ => Ok "{}";
  unmarshal_object := fun s =>
    if bad_json s then Err "invalid" else Ok (Some {["task_id" := VStr s]});
  marshal_object := fun m =>
    match m !! "task_id", m !! "execute_time" with
    | Some (VStr s), Some (VInt z) => Ok (s +:+ "@" +:+ itoa z)
    | Some (VStr s), _ => Ok s
    | _, _ => Err "no id"
    end;
  cjson_task_id := fun s => if bad_json s then Err "invalid" else Ok (Some s);
  lua_unpack_max := 3
|}.

Lemma toy_laws : @TaskCodecLaws toy.
Proof.
  split; simpl.
  - intros t s. destruct (bad_json (TaskID t)) eqn:E; [done|]. intros [= <-] _.
    rewrite E. by eexists.
  - intros t s o. destruct (bad_json (TaskID t)) eqn:E; [done|]. intros [= <-] _.
    rewrite E. by intros [= <-].
  - done.
Qed.
End ToyCodec.
