(* ===== verification/TaskQueue.v ===== *)
(** * The task queues ([infra/redis/task_queue.go])

    Tasks wait in the sorted set [task:delayed] or the list [task:ready], failed
    ones in the sorted set [task:dead]; the hash [task:index] maps a task to its
    queue.  Every operation of the gateway is a computation on the Redis server;
    the Lua scripts are computations on the keyspace, run atomically by [EVAL]
    and stopped, without rollback, at the first error.  Scores are the Unix times
    themselves (exact as float64 below 2^53). *)

From S2P Require Import Prelude GoStrings Consts Redis Gateway Task.

Definition DelayedQueueKey : string := "task:delayed".
Definition ReadyQueueKey : string := "task:ready".
Definition DeadLetterKey : string := "task:dead".
Definition TaskIndexKey : string := "task:index".
Definition ConcurrencyLockKey : string := "task:concurrency_lock".
Definition MaxConcurrency : Z := 20.

Definition second : Z := 1000000000.

Record TaskQueueStats := mkQueueStats {
  ReadyCount : Z; DelayedCount : Z; DeadCount : Z; IndexedCount : Z; ConcurrencyCount : Z
}.

(** ** Lua scripts *)
Section Scripts.
Context `{TaskCodec}.

Definition index_ready (task : string) : M keyspace unit :=
  let! t := m_lift (cjson_task_id task) in
  match t with
  | Some id => redis_call (HSET TaskIndexKey id ReadyQueueKey)
  | None => m_err "Command arguments must be strings or integers"
  end.

(** [redis.call('LPUSH', KEYS[2], unpack(tasks))]. *)
Definition lpush_unpack (tasks : list string) : M keyspace unit :=
  if (length tasks <=? lua_unpack_max)%nat then redis_call (LPUSH ReadyQueueKey tasks)
  else m_err "too many results to unpack".

Definition delayedTaskScript (now : Z) : M keyspace (list string) :=
  let! tasks := redis_call (ZRANGEBYSCORE DelayedQueueKey (Some 0) (Some now)) in
  (if (0 <? length tasks)%nat
   then redis_call (ZREMRANGEBYSCORE DelayedQueueKey (Some 0) (Some now)) ;;!
        lpush_unpack tasks ;;!
        m_iter index_ready tasks
   else m_ret tt) ;;!
  m_ret tasks.

Definition tombstone : string := "__DELETED__".

(** One round of the loop over the indices: the number of matches so far goes in
    and out. *)
Definition mark_item (key taskID : string) (i : nat) (count : nat) : M keyspace nat :=
  let! item := redis_call (LINDEX key i) in
  match item with
  | None => m_ret count
  | Some item =>
      let! task := m_lift (cjson_task_id item) in
      if bool_decide (task = Some taskID)
      then redis_call (LSET key i tombstone) ;;! m_ret (S count)
      else m_ret count
  end.

Fixpoint mark_from (key taskID : string) (n i count : nat) : M keyspace nat :=
  match n with
  | O => m_ret count
  | S n' => let! count := mark_item key taskID i count in mark_from key taskID n' (S i) count
  end.

Definition removeFromListScript (key taskID : string) : M keyspace nat :=
  let! len := redis_call (LLEN key) in
  let! count := mark_from key taskID (Z.to_nat len) 0 0 in
  (if (0 <? count)%nat then redis_call (LREM key count tombstone) else m_ret tt) ;;!
  m_ret count.
End Scripts.

(** ** Operations of the gateway *)
Section Gateway.
Context {R : Type} `{RedisServer R} `{TaskCodec}.

Definition SubmitImmediateTask (taskData taskID : string) : M R unit :=
  exec (LPUSH ReadyQueueKey [taskData]) ;;!
  exec (HSET TaskIndexKey taskID ReadyQueueKey).

Definition GetTask : M R string := exec (BRPOP ReadyQueueKey).

(** Indexing of a dead task, when its data can be decoded. *)
Definition index_dead (taskData : string) : M R unit :=
  match unmarshal_task taskData with
  | Ok task =>
      if negb (String.eqb (TaskID task) "")
      then exec (HSET TaskIndexKey (TaskID task) DeadLetterKey)
      else m_ret tt
  | Err _ => m_ret tt
  end.

(** [now] is in nanoseconds; [Duration] arithmetic wraps. *)
Definition HandleFailedTask (now : Z) (taskData : string) (backoffSec : Z) : M R unit :=
  let deadLetterTime := (now + wrap64 (backoffSec * second)) / second in
  exec (ZADD DeadLetterKey deadLetterTime taskData) ;;! index_dead taskData.

Definition HandleCronRescheduleFailure (now : Z) (taskData : string) : M R unit :=
  exec (ZADD DeadLetterKey (now / second) taskData) ;;! index_dead taskData.

Definition SubmitDelayedTask (taskData taskID : string) (executeTime : Z) : M R unit :=
  exec (ZADD DelayedQueueKey executeTime taskData) ;;!
  exec (HSET TaskIndexKey taskID DelayedQueueKey).

(** The loop over the members of the delayed queue. *)
Fixpoint expedite_scan (taskID : string) (newExecuteTime : Z) (members : list string) : M R bool :=
  match members with
  | [] => m_ret false
  | member :: rest =>
      match unmarshal_object member with
      | Err _ => expedite_scan taskID newExecuteTime rest
      | Ok parsed =>
          let id := default "" (as_string (default ∅ parsed !! "task_id")) in
          if negb (String.eqb id taskID) then expedite_scan taskID newExecuteTime rest
          else
            match parsed with
            | None => m_err "panic: assignment to entry in nil map"
            | Some obj =>
                let! updated := m_wrap "failed to re-marshal task payload: "
                  (m_lift (marshal_object (<["execute_time" := VInt newExecuteTime]> obj))) in
                m_wrap "failed to rescore delayed task: "
                  (exec (MULTI (MULTI (ZREM DelayedQueueKey member)
                                      (ZADD DelayedQueueKey newExecuteTime updated))
                               (HSET TaskIndexKey taskID DelayedQueueKey))) ;;!
                m_ret true
            end
      end
  end.

Definition ExpediteDelayedTask (taskID : string) (newExecuteTime : Z) : M R bool :=
  let! members := m_wrap "failed to scan delayed queue: "
                    (exec (ZRANGEBYSCORE DelayedQueueKey None None)) in
  expedite_scan taskID newExecuteTime members.

(** [now] is a Unix time in seconds. *)
Definition ProcessDelayedTasks (now : Z) : M R (list string) :=
  let! result := attempt (exec (EVAL (delayedTaskScript now))) in
  match result with
  | Err e => if String.eqb e redis_Nil then m_ret [] else m_err e
  | Ok tasks => m_ret tasks
  end.

(** The read of the counter, whose error counts as zero, and the increment. *)
Definition acquire_check : M R bool :=
  let! currentCount := attempt (exec (GETINT ConcurrencyLockKey)) in
  m_ret (negb (MaxConcurrency <=? match currentCount with Ok n => n | Err _ => 0 end)).
Definition acquire_incr : M R bool :=
  let! r := attempt (exec (INCR ConcurrencyLockKey)) in m_ret (is_ok r).
Definition AcquireConcurrencyLock : M R bool :=
  let! below := acquire_check in
  if below then acquire_incr else m_ret false.

Definition ReleaseConcurrencyLock : M R unit := ignore_err (exec (DECR ConcurrencyLockKey)).

Definition GetTaskQueue (taskID : string) : M R string := exec (HGET TaskIndexKey taskID).

Definition ListDelayedTasks (limit : Z) : M R (list string) := ZRangeByScoreWithScores DelayedQueueKey limit.
Definition ListDeadLetterTasks (limit : Z) : M R (list string) := ZRangeByScoreWithScores DeadLetterKey limit.
Definition ListReadyTasks : M R (list string) := ListRange ReadyQueueKey.

Definition RemoveFromList (key taskID : string) : M R bool :=
  let! result := m_wrap "failed to remove from list: "
                   (exec (EVAL (removeFromListScript key taskID))) in
  m_ret (0 <? result)%nat.

Fixpoint zset_scan (key taskID : string) (members : list string) : M R bool :=
  match members with
  | [] => m_ret false
  | member :: rest =>
      match unmarshal_task member with
      | Ok task =>
          if String.eqb (TaskID task) taskID
          then let! r := attempt (exec (ZREM key member)) in m_ret (is_ok r)
          else zset_scan key taskID rest
      | Err _ => zset_scan key taskID rest
      end
  end.

Definition RemoveFromZSet (key taskID : string) : M R bool :=
  let! members := attempt (exec (ZRANGEBYSCORE key None None)) in
  match members with
  | Err _ => m_ret false
  | Ok members => zset_scan key taskID members
  end.

Definition DeleteTaskIndex (taskID : string) : M R unit := exec (HDEL TaskIndexKey taskID).

Definition GetTaskQueueStats : M R TaskQueueStats :=
  let! readyCount := ListLength ReadyQueueKey in
  let! delayedCount := SortedSetCard DelayedQueueKey in
  let! deadCount := SortedSetCard DeadLetterKey in
  let! indexedCount := HashLength TaskIndexKey in
  let! concurrencyCount := GetInt64 ConcurrencyLockKey in
  m_ret (mkQueueStats readyCount delayedCount deadCount indexedCount concurrencyCount).
End Gateway.

(** ** The keyspaces a script leaves alone *)

Definition same_but_hash (ks ks' : keyspace) : Prop :=
  ks_list ks' = ks_list ks /\ ks_zset ks' = ks_zset ks /\ ks_set ks' = ks_set ks /\
  ks_int ks' = ks_int ks /\ ks_stream ks' = ks_stream ks.

#[global] Instance same_but_hash_preorder : PreOrder same_but_hash.
Proof. split; unfold same_but_hash; [done | intros ??? (?&?&?&?&?) (?&?&?&?&?); split_and!; congruence]. Qed.

Section ScriptFacts.
Context `{TaskCodec}.

Lemma index_ready_spec tasks ks ks' o :
  m_iter index_ready tasks ks = (ks', o) ->
  same_but_hash ks ks' /\
  (forall id, khash TaskIndexKey ks' !! id = khash TaskIndexKey ks !! id \/
     (khash TaskIndexKey ks' !! id = Some ReadyQueueKey /\
      exists task, task ∈ tasks /\ cjson_task_id task = Ok (Some id))) /\
  (o = Ok tt -> forall task, task ∈ tasks -> exists id,
     cjson_task_id task = Ok (Some id) /\ khash TaskIndexKey ks' !! id = Some ReadyQueueKey).
Proof.
  revert ks. induction tasks as [|t tasks IH]; intros ks; simpl.
  { intros [= <- <-]. split; [done|]. split; [by left|]. intros _ task Ht. by apply not_elem_of_nil in Ht. }
  unfold m_bind at 1, index_ready, m_lift, m_bind at 1. simpl.
  destruct (cjson_task_id t) as [[id|]|e] eqn:Et; simpl.
  2,3: intros [= <- <-]; split; [done|]; split; [by left | by intros [=]].
  intros Hx. apply IH in Hx as ((E1&E2&E3&E4&E5) & Hidx & Hok). simpl in *.
  assert (Hone : khash TaskIndexKey ks' !! id = Some ReadyQueueKey).
  { destruct (Hidx id) as [Hi | [Hi _]]; [|done].
    rewrite Hi, khash_upd, decide_True by done. by simplify_map_eq. }
  split; [done|]. split.
  - intros id'. destruct (decide (id' = id)) as [->|Hne].
    { right. split; [done|]. exists t. split; [apply list_elem_of_here | done]. }
    destruct (Hidx id') as [Hi | [Hi (task & Hin & Htask)]].
    + left. rewrite Hi, khash_upd, decide_True by done. by simplify_map_eq.
    + right. split; [done|]. exists task. split; [by apply list_elem_of_further | done].
  - intros -> task Hin. apply elem_of_cons in Hin as [->|Hin]; [by exists id | by apply Hok].
Qed.

(** The state in which the promotion indexes the tasks it has moved. *)
Definition promoted (now : Z) (ks : keyspace) : keyspace :=
  let due := zrange (Some 0) (Some now) (kzset DelayedQueueKey ks) in
  upd_list ReadyQueueKey (rev due ++ klist ReadyQueueKey ks)
    (upd_zset DelayedQueueKey (zrem_range (Some 0) (Some now) (kzset DelayedQueueKey ks)) ks).

Lemma delayedTaskScript_eq now ks :
  let due := zrange (Some 0) (Some now) (kzset DelayedQueueKey ks) in
  delayedTaskScript now ks =
  if (length due =? 0)%nat then (ks, Ok [])
  else if (length due <=? lua_unpack_max)%nat
  then m_bind (m_iter index_ready due) (fun _ => m_ret due) (promoted now ks)
  else (upd_zset DelayedQueueKey (zrem_range (Some 0) (Some now) (kzset DelayedQueueKey ks)) ks,
        Err "too many results to unpack").
Proof.
  cbv zeta. unfold delayedTaskScript, lpush_unpack, promoted. unfold m_bind at 1, redis_call at 1. simpl.
  set (due := zrange (Some 0) (Some now) (kzset DelayedQueueKey ks)).
  destruct (length due <=? lua_unpack_max)%nat; destruct due as [|x due']; [done| |done|done].
  simpl. unfold m_bind; simpl.
  match goal with |- context [klist ReadyQueueKey (upd_zset ?k ?v ks)] =>
    change (klist ReadyQueueKey (upd_zset k v ks)) with (klist ReadyQueueKey ks) end.
  destruct (index_ready x _) as [ks1 [[]|e]]; [|done].
  by destruct (m_iter index_ready due' ks1) as [ks2 [[]|e]].
Qed.
End ScriptFacts.

(** ** Views of the server *)
Section Views.
Context {R : Type} `{RedisServer R}.
Definition ready (r : R) : list string := klist ReadyQueueKey (keys r).
Definition delayed (r : R) : gmap string Z := kzset DelayedQueueKey (keys r).
Definition dead (r : R) : gmap string Z := kzset DeadLetterKey (keys r).
Definition index (r : R) : gmap string string := khash TaskIndexKey (keys r).
(** The order in which the ready tasks are taken. *)
Definition fifo (r : R) : list string := rev (ready r).
End Views.

Section Facts.
Context {R : Type} `{RedisLaws R} `{TaskCodec}.

Lemma promoted_views now ks :
  klist ReadyQueueKey (promoted now ks) =
    rev (zrange (Some 0) (Some now) (kzset DelayedQueueKey ks)) ++ klist ReadyQueueKey ks /\
  kzset DelayedQueueKey (promoted now ks) =
    zrem_range (Some 0) (Some now) (kzset DelayedQueueKey ks) /\
  kzset DeadLetterKey (promoted now ks) = kzset DeadLetterKey ks /\
  khash TaskIndexKey (promoted now ks) = khash TaskIndexKey ks.
Proof.
  unfold promoted. split_and!; [| | |done].
  - rewrite klist_upd, decide_True; done.
  - change (kzset DelayedQueueKey (upd_list ?k ?v ?x)) with (kzset DelayedQueueKey x).
    rewrite kzset_upd, decide_True; done.
  - change (kzset DeadLetterKey (upd_list ?k ?v ?x)) with (kzset DeadLetterKey x).
    rewrite kzset_upd, decide_False; done.
Qed.

Lemma views_same_but_hash ks ks' k :
  same_but_hash ks ks' -> klist k ks' = klist k ks /\ kzset k ks' = kzset k ks.
Proof. intros (E1 & E2 & _). unfold klist, kzset. by rewrite E1, E2. Qed.

Lemma zrem_nothing lo hi m : zrange lo hi m = [] -> zrem_range lo hi m = m.
Proof.
  intros E. unfold zrem_range. apply map_eq. intros i.
  destruct (m !! i) as [s|] eqn:Ei; [|by apply map_lookup_filter_None_2; left].
  apply map_lookup_filter_Some. split; [done|]. simpl.
  destruct (in_range lo hi s) eqn:Er; [|done]. exfalso.
  apply (not_elem_of_nil i). rewrite <- E. apply elem_of_zrange. eauto.
Qed.

(** What a served promotion does, on the keyspace. *)
Lemma delayedTaskScript_ok now ks ks' tasks :
  delayedTaskScript now ks = (ks', Ok tasks) ->
  tasks = zrange (Some 0) (Some now) (kzset DelayedQueueKey ks) /\
  same_but_hash (promoted now ks) ks' \/ tasks = [] /\ ks' = ks /\
  zrange (Some 0) (Some now) (kzset DelayedQueueKey ks) = [].
Proof.
  rewrite delayedTaskScript_eq.
  set (due := zrange (Some 0) (Some now) (kzset DelayedQueueKey ks)).
  destruct (Nat.eqb_spec (length due) 0) as [E0|_].
  { intros [= <- <-]. right. split_and!; [done|done|by apply nil_length_inv]. }
  destruct (length due <=? lua_unpack_max)%nat; [|by intros [=]].
  rewrite m_bind_ok. intros (ks1 & [] & Hi & [= <- <-]). left. split; [done|].
  by apply index_ready_spec in Hi as [? _].
Qed.

Lemma delayedTaskScript_tasks now ks ks' tasks :
  delayedTaskScript now ks = (ks', Ok tasks) -> tasks = zrange (Some 0) (Some now) (kzset DelayedQueueKey ks).
Proof. intros Hx. by destruct (delayedTaskScript_ok _ _ _ _ Hx) as [[-> _] | (-> & _ & Hnil)]. Qed.

Lemma delayedTaskScript_indexed now ks ks' tasks task :
  delayedTaskScript now ks = (ks', Ok tasks) -> task ∈ tasks ->
  exists id, cjson_task_id task = Ok (Some id) /\ khash TaskIndexKey ks' !! id = Some ReadyQueueKey.
Proof.
  rewrite delayedTaskScript_eq.
  set (due := zrange (Some 0) (Some now) (kzset DelayedQueueKey ks)).
  destruct (length due =? 0)%nat; [intros [= <- <-] Hin; by apply not_elem_of_nil in Hin|].
  destruct (length due <=? lua_unpack_max)%nat; [|by intros [=]].
  rewrite m_bind_ok. intros (ks1 & [] & Hi & [= <- <-]) Hin.
  apply index_ready_spec in Hi as (_ & _ & Hok). by apply Hok.
Qed.

Lemma ProcessDelayedTasks_script now r r' tasks :
  ProcessDelayedTasks now r = (r', Ok tasks) ->
  delayedTaskScript now (keys r) = (keys r', Ok tasks).
Proof.
  unfold ProcessDelayedTasks, m_bind, attempt.
  destruct (exec (EVAL (delayedTaskScript now)) r) as [r1 [ts|e]] eqn:Ex.
  - intros [= <- <-]. by apply exec_EVAL_ok.
  - destruct (String.eqb_spec e redis_Nil) as [->|]; [|done].
    by apply exec_EVAL_nil in Ex.
Qed.

(** C2. A successful promotion moves exactly the delayed tasks whose time has
    come (a score between 0 and now): each is taken out of the delayed queue, is
    now in the ready queue, in order of its time, and is indexed there under its
    own identifier; the others stay delayed with their time, and neither the dead
    tasks nor the tasks already ready change.  No task is lost or duplicated. *)
Theorem ProcessDelayedTasks_moves_due now r r' tasks :
  ProcessDelayedTasks now r = (r', Ok tasks) ->
  tasks = zrange (Some 0) (Some now) (delayed r) /\
  ready r' = rev tasks ++ ready r /\
  (forall m, m ∈ tasks <-> exists s, delayed r !! m = Some s /\ 0 <= s <= now) /\
  (forall m s, delayed r' !! m = Some s <-> delayed r !! m = Some s /\ m ∉ tasks) /\
  dead r' = dead r /\
  (forall m, m ∈ tasks -> exists id, cjson_task_id m = Ok (Some id) /\
     index r' !! id = Some ReadyQueueKey).
Proof.
  intros Hx. apply ProcessDelayedTasks_script in Hx.
  assert (Htasks : tasks = zrange (Some 0) (Some now) (delayed r) /\
    ready r' = rev tasks ++ ready r /\
    delayed r' = zrem_range (Some 0) (Some now) (delayed r) /\ dead r' = dead r).
  { unfold ready, delayed, dead.
    destruct (promoted_views now (keys r)) as (V1 & V2 & V3 & _).
    destruct (delayedTaskScript_ok _ _ _ _ Hx) as [[-> Hs] | (-> & -> & Hnil)].
    - destruct (views_same_but_hash _ _ ReadyQueueKey Hs) as [-> _].
      destruct (views_same_but_hash _ _ DelayedQueueKey Hs) as [_ ->].
      destruct (views_same_but_hash _ _ DeadLetterKey Hs) as [_ ->]. done.
    - by rewrite (zrem_nothing _ _ _ Hnil). }
  destruct Htasks as (-> & Er & Edl & Edd). split_and!; [done|done| | |done|].
  - intros m. rewrite elem_of_zrange. unfold in_range.
    split; intros (s & ? & Hs); exists s; (split; [done|]); lia.
  - intros m s. rewrite Edl. unfold zrem_range. rewrite map_lookup_filter_Some, elem_of_zrange. simpl.
    split; intros [Hm Hs]; (split; [done|]).
    + intros (s' & Hm' & Hr). congruence.
    + destruct (in_range (Some 0) (Some now) s) eqn:E; [|done]. exfalso. eauto.
  - intros m Hm. by apply (delayedTaskScript_indexed _ _ _ _ _ Hx).
Qed.

(** ** The ready queue is a FIFO queue *)

Lemma ready_queue_aux r r' :
  (forall data id, SubmitImmediateTask data id r = (r', Ok tt) -> fifo r' = fifo r ++ [data]) /\
  (forall now tasks, ProcessDelayedTasks now r = (r', Ok tasks) -> fifo r' = fifo r ++ tasks) /\
  (forall data, GetTask r = (r', Ok data) -> fifo r = data :: fifo r') /\
  (GetTask r = (r', Err redis_Nil) -> fifo r = []).
Proof.
  unfold fifo. split_and!.
  - intros data id Hx. apply m_bind_ok in Hx as (r1 & [] & A1 & A2).
    apply exec_ok in A1, A2. simpl in A1, A2. injection A1 as A1. injection A2 as A2.
    unfold ready. rewrite <- A2. change (klist ReadyQueueKey (upd_hash ?k ?v ?x))
      with (klist ReadyQueueKey x). by rewrite <- A1, klist_upd, decide_True.
  - intros now tasks Hx. apply ProcessDelayedTasks_script, delayedTaskScript_ok in Hx.
    unfold ready. destruct Hx as [[-> Hs] | (-> & -> & _)]; [|by rewrite app_nil_r].
    destruct (views_same_but_hash _ _ ReadyQueueKey Hs) as [-> _].
    destruct (promoted_views now (keys r)) as (-> & _). by rewrite rev_app_distr, rev_involutive.
  - intros data Hx. apply exec_ok in Hx. simpl in Hx.
    destruct (last (klist ReadyQueueKey (keys r))) as [v|] eqn:El; [|done].
    injection Hx as Hks <-. unfold ready. rewrite <- Hks, klist_upd, decide_True by done.
    apply last_Some in El as [l ->]. rewrite removelast_last, rev_app_distr. done.
  - intros Hx. apply exec_law in Hx as [Hx | (e & [= <-] & ? & _)]; [|done].
    simpl in Hx. unfold ready.
    destruct (last (klist ReadyQueueKey (keys r))) eqn:El; [done|].
    apply last_None in El. by rewrite El.
Qed.

(** The members of a range come in the order of their scores. *)
Lemma zsorted_scores m : StronglySorted (fun a b => snd a <= snd b) (zsorted m).
Proof.
  assert (Total zpair_le).
  { intros [a sa] [b sb]. unfold zpair_le. simpl. destruct (Z.lt_total sa sb) as [|[->|]]; [by left; left| |by right; left].
    destruct (String.leb_total a b); [left|right]; by right. }
  apply Sorted_StronglySorted; [intros x y z; simpl; lia|].
  assert (Hw : forall x y, zpair_le x y -> snd x <= snd y) by (intros [] []; unfold zpair_le; simpl; lia).
  unfold zsorted. pose proof (Sorted_merge_sort zpair_le (map_to_list m)) as Hs.
  induction Hs as [|x l Hl IH Hd]; constructor; [done|]. destruct Hd; constructor. by apply Hw.
Qed.
Lemma StronglySorted_filter {A} (le : relation A) (P : A -> Prop) `{!forall x, Decision (P x)} l :
  StronglySorted le l -> StronglySorted le (filter P l).
Proof.
  induction 1 as [|x l Hs IH Hx]; [constructor|]. rewrite filter_cons. case_decide; [|done].
  constructor; [done|]. rewrite Forall_forall in *. intros y [_ Hy]%list_elem_of_filter. auto.
Qed.

(** A list of delayed tasks in the order of their times. *)
Definition in_time_order (times : gmap string Z) (tasks : list string) : Prop :=
  StronglySorted (fun a b => default 0 (times !! a) <= default 0 (times !! b)) tasks.
Lemma zrange_in_order lo hi m : in_time_order m (zrange lo hi m).
Proof.
  unfold in_time_order, zrange. set (l := filter _ (zsorted m)).
  assert (Hl : StronglySorted (fun a b => snd a <= snd b) l) by apply StronglySorted_filter, zsorted_scores.
  assert (Hm : forall p, p ∈ l -> m !! fst p = Some (snd p)).
  { intros [x sc] [_ Hin]%list_elem_of_filter. rewrite zsorted_perm in Hin. by apply elem_of_map_to_list in Hin. }
  clearbody l. induction Hl as [|p l Hs IH Hp]; simpl; [constructor|]. constructor.
  - apply IH. intros q Hq. apply Hm. by right.
  - apply Forall_forall. intros x (q & -> & Hq)%list_elem_of_fmap.
    rewrite (Hm p), (Hm q) by ((by left) || by right). simpl. rewrite Forall_forall in Hp. by apply Hp.
Qed.

(** C8. The ready queue refines a FIFO queue: submitting an immediate task appends it;
    promoting delayed ones appends those that are due, each once, in the order of their
    times, and takes none that is not due; a served [GetTask] takes the oldest element, and
    [GetTask] finds nothing only when the queue is empty. *)
Theorem ready_queue_fifo r r' :
  (forall data id, SubmitImmediateTask data id r = (r', Ok tt) -> fifo r' = fifo r ++ [data]) /\
  (forall now tasks, ProcessDelayedTasks now r = (r', Ok tasks) ->
     fifo r' = fifo r ++ tasks /\ in_time_order (delayed r) tasks /\ NoDup tasks /\
     forall t, t ∈ tasks <-> exists at_, delayed r !! t = Some at_ /\ 0 <= at_ <= now) /\
  (forall data, GetTask r = (r', Ok data) -> fifo r = data :: fifo r') /\
  (GetTask r = (r', Err redis_Nil) -> fifo r = []).
Proof.
  destruct (ready_queue_aux r r') as (Hs & Hp & Ht & Hn). split_and!; [done| |done|done].
  intros now tasks Hx. split; [by eapply Hp|]. apply ProcessDelayedTasks_script, delayedTaskScript_tasks in Hx as ->.
  split; [apply zrange_in_order|]. split; [apply NoDup_zrange|]. intros t. rewrite elem_of_zrange. unfold in_range, delayed.
  split; intros (sc & ? & Hsc); exists sc; (split; [done|]); lia.
Qed.

(** A worker that takes [n] tasks in a row. *)
Fixpoint take_tasks (n : nat) : M R (list string) :=
  match n with
  | O => m_ret []
  | S n' => let! t := GetTask in let! ts := take_tasks n' in m_ret (t :: ts)
  end.

(** Tasks are taken in the order in which they became ready: whatever is
    submitted, a worker that takes [n] tasks gets the first [n] of the queue at
    that time, and the rest stays in order. *)
Theorem take_tasks_in_order n r r' ts :
  take_tasks n r = (r', Ok ts) -> fifo r = ts ++ fifo r' /\ length ts = n.
Proof.
  revert r ts. induction n as [|n IH]; intros r ts; simpl.
  - intros [= <- <-]. done.
  - rewrite m_bind_ok. intros (r1 & t & Ht & Hx).
    apply m_bind_ok in Hx as (r2 & ts' & Hts & [= <- <-]).
    apply (proj1 (proj2 (proj2 (ready_queue_aux r r1)))) in Ht.
    apply IH in Hts as [E <-]. simpl. by rewrite Ht, E.
Qed.
End Facts.

(** ** Progress

    Producers, the scheduler and the consumers use the queue in any order, with commands
    that may fail.  A run gives the tasks that leave the queue, in order, each with whether
    a consumer got it - a reply may be lost after the task was popped -, and the number of
    requests that failed. *)
Section Progress.
Context {R : Type} `{RedisLaws R} `{TaskCodec}.

Inductive queue_op :=
| OpSubmit (data id : string)      (* SubmitImmediateTask *)
| OpPromote (now : Z)              (* ProcessDelayedTasks *)
| OpTake.                          (* GetTask, by some consumer *)

Definition popped (r r' : R) : option string :=
  match fifo r with
  | y :: rest => if decide (fifo r' = rest) then Some y else None
  | [] => None
  end.
Fixpoint run_queue (ops : list queue_op) (r : R) : list (string * bool) * nat :=
  match ops with
  | [] => ([], 0%nat)
  | OpSubmit data id :: rest => run_queue rest (fst (SubmitImmediateTask data id r))
  | OpPromote now :: rest => run_queue rest (fst (ProcessDelayedTasks now r))
  | OpTake :: rest =>
      let '(r', o) := GetTask r in
      let '(left_, failed) := run_queue rest r' in
      match o with
      | Ok data => ((data, true) :: left_, failed)
      | Err e =>
          if String.eqb e redis_Nil then (left_, failed)
          else (match popped r r' with Some y => (y, false) :: left_ | None => left_ end, S failed)
      end
  end.
Definition takes (ops : list queue_op) : nat :=
  length (List.filter (fun o => match o with OpTake => true | _ => false end) ops).

(** A submission and a promotion append, whether they succeed or stop. *)
Lemma submit_extends data id r : exists l, fifo (fst (SubmitImmediateTask data id r)) = fifo r ++ l.
Proof.
  unfold SubmitImmediateTask, m_bind, fifo, ready.
  destruct (exec (LPUSH ReadyQueueKey [data]) r) as [r1 o1] eqn:E1. apply exec_keys in E1.
  assert (Hl : exists l, rev (klist ReadyQueueKey (keys r1)) = rev (klist ReadyQueueKey (keys r)) ++ l).
  { destruct E1 as [-> | ->]; [by exists []; rewrite app_nil_r|]. exists [data]. simpl. by rewrite klist_upd, decide_True. }
  destruct o1; [|done]. destruct (exec (HSET TaskIndexKey id ReadyQueueKey) r1) as [r2 o2] eqn:E2.
  apply exec_keys in E2. simpl. destruct E2 as [-> | ->]; done.
Qed.
Lemma script_extends now ks :
  exists l, rev (klist ReadyQueueKey (fst (delayedTaskScript now ks))) = rev (klist ReadyQueueKey ks) ++ l.
Proof.
  destruct (delayedTaskScript now ks) as [ks' o'] eqn:Es. simpl.
  rewrite delayedTaskScript_eq in Es. set (due := zrange _ _ _) in Es.
  destruct (length due =? 0)%nat; [injection Es as <- _; exists []; by rewrite app_nil_r|].
  destruct (length due <=? lua_unpack_max)%nat; [|injection Es as <- _; exists []; by rewrite app_nil_r].
  unfold m_bind in Es. destruct (m_iter index_ready due (promoted now ks)) as [ks1 o1] eqn:Ei.
  apply index_ready_spec in Ei as (Hs & _). assert (ks' = ks1) as -> by (destruct o1; by injection Es as <- _).
  exists due. unfold same_but_hash in Hs. destruct Hs as (E1 & _). unfold klist at 1. rewrite E1.
  change (rev (klist ReadyQueueKey (promoted now ks)) = rev (klist ReadyQueueKey ks) ++ due).
  unfold promoted. by rewrite klist_upd, decide_True, rev_app_distr, rev_involutive.
Qed.
Lemma promote_extends now r : exists l, fifo (fst (ProcessDelayedTasks now r)) = fifo r ++ l.
Proof.
  unfold ProcessDelayedTasks, m_bind, attempt.
  destruct (exec (EVAL (delayedTaskScript now)) r) as [r' o] eqn:Ex. apply exec_keys in Ex.
  assert (Hl : exists l, fifo r' = fifo r ++ l).
  { unfold fifo, ready. destruct Ex as [-> | ->]; [by exists []; rewrite app_nil_r|].
    destruct (script_extends now (keys r)) as [l Hl]. exists l. rewrite <- Hl. simpl.
    unfold m_wrap. by destruct (delayedTaskScript now (keys r)). }
  destruct o as [ts|e]; [done|]. by destruct (String.eqb e redis_Nil).
Qed.
Lemma take_first x l r r' o :
  fifo r = x :: l -> GetTask r = (r', o) ->
  o = Ok x /\ fifo r' = l \/
  exists e, o = Err e /\ e <> redis_Nil /\ (fifo r' = fifo r /\ popped r r' = None \/ fifo r' = l /\ popped r r' = Some x).
Proof.
  intros Hf Hx. apply exec_law in Hx.
  assert (Hk : klist ReadyQueueKey (keys r) = rev l ++ [x])
    by (unfold fifo, ready in Hf; by rewrite <- (rev_involutive (klist _ _)), Hf).
  assert (Hpop : fifo r' = l -> popped r r' = Some x) by (unfold popped; rewrite Hf; intros ->; by rewrite decide_True).
  assert (Hkeep : fifo r' = fifo r -> popped r r' = None).
  { unfold popped. rewrite Hf. intros ->. rewrite decide_False; [done|]. intros E. apply (f_equal length) in E. simpl in E. lia. }
  assert (Hgone : keys r' = fst (cmd_step (chosen r) (BRPOP ReadyQueueKey) (keys r)) -> fifo r' = l).
  { simpl. rewrite Hk, last_snoc. unfold fifo, ready. intros ->. simpl.
    by rewrite klist_upd, decide_True, removelast_last, rev_involutive. }
  destruct Hx as [Hx | (e & -> & Hne & Hx)].
  - left. split; [|apply Hgone; by rewrite <- Hx]. simpl in Hx. rewrite Hk, last_snoc in Hx. by injection Hx as _ ->.
  - right. exists e. split; [done|]. split; [done|]. destruct Hx as [Hx|Hx]; [left|right; auto].
    assert (fifo r' = fifo r) by (unfold fifo, ready; by rewrite Hx). auto.
Qed.

(** C28. No task starves: whatever is submitted and promoted meanwhile, and whichever
    commands fail, a task that is ready leaves the queue once the consumers have asked more
    often than there are tasks before it and requests that failed; the tasks before it left
    first, in order.  It is handed to a consumer unless the reply to the request that took it
    was lost, which cannot be when no request failed: a lost reply loses its task. *)
Theorem ready_task_is_taken ops r pre x post :
  fifo r = pre ++ x :: post ->
  let '(left_, failed) := run_queue ops r in
  (length pre + failed < takes ops)%nat ->
  exists got later, map fst left_ = pre ++ x :: later /\ left_ !! length pre = Some (x, got) /\
    (failed = 0%nat -> got = true).
Proof.
  revert r pre post. induction ops as [|o ops IH]; intros r pre post Hf; [unfold takes; simpl; lia|].
  destruct o as [data id|now|]; cbn [run_queue]; unfold takes; cbn [List.filter length].
  - destruct (submit_extends data id r) as [l Hl]. apply (IH _ pre (post ++ l)). by rewrite Hl, Hf, <- app_assoc.
  - destruct (promote_extends now r) as [l Hl]. apply (IH _ pre (post ++ l)). by rewrite Hl, Hf, <- app_assoc.
  - destruct (GetTask r) as [r' o] eqn:Eg. fold (takes ops).
    destruct pre as [|y pre]; cbn [app] in Hf; apply (take_first _ _ _ _ _ Hf) in Eg;
      destruct Eg as [[-> Hf'] | (e & -> & Hne & Hcase)].
    + destruct (run_queue ops r') as [lf failed]. intros _. by exists true, (map fst lf).
    + rewrite (proj2 (String.eqb_neq _ _) Hne). destruct Hcase as [[Hf' ->] | [Hf' ->]].
      * rewrite Hf in Hf'. specialize (IH r' [] post Hf'). destruct (run_queue ops r') as [lf failed].
        intros Hn. destruct IH as (got & later & H1' & H2' & _); [simpl in *; lia|]. by exists got, later.
      * destruct (run_queue ops r') as [lf failed]. intros _. by exists false, (map fst lf).
    + specialize (IH r' pre post Hf'). destruct (run_queue ops r') as [lf failed]. intros Hn.
      destruct IH as (got & later & H1' & H2' & H3'); [simpl in Hn; lia|]. exists got, later. simpl. by rewrite H1'.
    + rewrite (proj2 (String.eqb_neq _ _) Hne). destruct Hcase as [[Hf' ->] | [Hf' ->]].
      * rewrite Hf in Hf'. specialize (IH r' (y :: pre) post Hf'). destruct (run_queue ops r') as [lf failed].
        intros Hn. destruct IH as (got & later & H1' & H2' & _); [simpl in *; lia|]. by exists got, later.
      * specialize (IH r' pre post Hf'). destruct (run_queue ops r') as [lf failed]. intros Hn.
        destruct IH as (got & later & H1' & H2' & _); [simpl in Hn; lia|]. exists got, later. simpl. by rewrite H1'.
Qed.
End Progress.

(** ** Promotion when a script stops *)
Section Failures.
Context {R : Type} `{RedisReliable R} `{TaskCodec}.

Definition decodable (task : string) : bool :=
  match cjson_task_id task with Ok (Some _) => true | _ => false end.

Lemma index_ready_stops tasks ks :
  forallb decodable tasks = false -> exists ks' e,
    m_iter index_ready tasks ks = (ks', Err e) /\ same_but_hash ks ks'.
Proof.
  intros Hbad. destruct (m_iter index_ready tasks ks) as [ks' [[]|e]] eqn:E;
    apply index_ready_spec in E as (Hs & _ & Hok); [|by eauto].
  exfalso. apply not_true_iff_false in Hbad. apply Hbad, forallb_elem. intros task Hin.
  destruct (Hok eq_refl task Hin) as (id & Hid & _). unfold decodable. by rewrite Hid.
Qed.

Lemma ProcessDelayedTasks_error now r ks e :
  delayedTaskScript now (keys r) = (ks, Err e) ->
  exists r', ProcessDelayedTasks now r = (r', Err ("ERR " +:+ e)) /\ keys r' = ks.
Proof.
  intros Hs. pose proof (exec_reliable _ (EVAL (delayedTaskScript now)) r) as Hx. simpl in Hx.
  unfold m_wrap in Hx. rewrite Hs in Hx. simpl in Hx.
  unfold ProcessDelayedTasks, m_bind, attempt.
  destruct (exec (EVAL (delayedTaskScript now)) r) as [r' o]. simpl in Hx. injection Hx as <- ->.
  exists r'. done.
Qed.

(** One due task that is not a JSON object with an identifier makes the whole
    promotion report an error, although every due task has already been moved to
    the ready queue: the script stops without undoing its writes.  The scheduler
    then skips the rescheduling of the recurring tasks of that batch. *)
Theorem ProcessDelayedTasks_poison now r :
  let due := zrange (Some 0) (Some now) (delayed r) in
  (length due <= lua_unpack_max)%nat -> forallb decodable due = false ->
  exists r' e, ProcessDelayedTasks now r = (r', Err e) /\ ready r' = rev due ++ ready r /\
    (forall m, m ∈ due -> delayed r' !! m = None).
Proof.
  intros due Hlen Hbad.
  pose proof (delayedTaskScript_eq now (keys r)) as Hs. cbv zeta in Hs. fold (delayed r) in Hs.
  fold due in Hs. apply Nat.leb_le in Hlen. rewrite Hlen in Hs.
  destruct (Nat.eqb_spec (length due) 0) as [E0|_]; [by apply nil_length_inv in E0; rewrite E0 in Hbad|].
  destruct (index_ready_stops due (promoted now (keys r)) Hbad) as (ks' & e & Hi & Hsame).
  unfold m_bind in Hs. rewrite Hi in Hs.
  apply ProcessDelayedTasks_error in Hs as (r' & Hp & Hk).
  exists r', ("ERR " +:+ e). unfold ready, delayed. rewrite Hk.
  destruct (views_same_but_hash _ _ ReadyQueueKey Hsame) as [-> _].
  destruct (views_same_but_hash _ _ DelayedQueueKey Hsame) as [_ ->].
  destruct (promoted_views now (keys r)) as (-> & -> & _).
  split_and!; [done|done|]. intros m Hm. apply elem_of_zrange in Hm as (s & Hm & Hr).
  apply map_lookup_filter_None_2. right. intros s' Hs'. simpl. fold (delayed r) in Hs'. congruence.
Qed.

(** The due tasks leave the delayed queue before [unpack] pushes them: when
    more of them are due than Lua can unpack, the promotion fails and they are in
    no queue any more. *)
Theorem ProcessDelayedTasks_overflow_loses now r :
  let due := zrange (Some 0) (Some now) (delayed r) in
  (lua_unpack_max < length due)%nat ->
  exists r' e, ProcessDelayedTasks now r = (r', Err e) /\ ready r' = ready r /\
    dead r' = dead r /\ (forall m, m ∈ due -> delayed r' !! m = None).
Proof.
  intros due Hlen.
  pose proof (delayedTaskScript_eq now (keys r)) as Hs. cbv zeta in Hs. fold (delayed r) in Hs.
  fold due in Hs. rewrite (proj2 (Nat.leb_gt _ _) Hlen) in Hs.
  destruct (Nat.eqb_spec (length due) 0) as [E0|_]; [lia|].
  apply ProcessDelayedTasks_error in Hs as (r' & Hp & Hk).
  exists r'. eexists. split; [exact Hp|]. unfold ready, delayed, dead. rewrite Hk. split; [done|].
  rewrite !kzset_upd, decide_False, decide_True by done. split; [done|].
  intros m Hm. apply elem_of_zrange in Hm as (s & Hm & Hr).
  apply map_lookup_filter_None_2. right. intros s' Hs'. simpl. congruence.
Qed.
End Failures.

(** ** Removal of a task from a list *)
Section Removal.
Context `{TaskCodec}.

Definition is_task (taskID item : string) : bool :=
  match cjson_task_id item with Ok o => bool_decide (o = Some taskID) | Err _ => false end.

(** The state of the list while the script runs. *)
Definition marked (taskID : string) (items : list string) : list string :=
  (fun item => if is_task taskID item then tombstone else item) <$> items.

Lemma lrem_marked taskID items :
  tombstone ∉ items ->
  lrem (length (filter (fun i => is_task taskID i = true) items)) tombstone (marked taskID items) =
  filter (fun i => is_task taskID i = false) items.
Proof.
  intros Hnt. induction items as [|x items IH]; [done|].
  apply not_elem_of_cons in Hnt as [Hx Hnt]. specialize (IH Hnt).
  rewrite !filter_cons. unfold marked in *. rewrite fmap_cons. destruct (is_task taskID x) eqn:E.
  - rewrite decide_True, decide_False by done. cbn [length lrem]. by rewrite String.eqb_refl.
  - rewrite decide_False, decide_True by done.
    destruct (length (filter (fun i => is_task taskID i = true) items)) as [|n] eqn:En.
    + cbn [lrem]. f_equal. rewrite <- IH. by destruct items.
    + cbn [lrem]. destruct (String.eqb_spec x tombstone); [done|]. by rewrite IH.
Qed.

Definition is_decoded (item : string) : bool := is_ok (cjson_task_id item).

(** [ks'] differs from [ks] only in the list [key]. *)
Definition only_list (key : string) (ks ks' : keyspace) : Prop :=
  ks_zset ks' = ks_zset ks /\ ks_hash ks' = ks_hash ks /\ ks_int ks' = ks_int ks /\
  forall k, k <> key -> klist k ks' = klist k ks.

#[local] Instance only_list_preorder key : PreOrder (only_list key).
Proof.
  split; unfold only_list; [done|].
  intros x y z (?&?&?&A) (?&?&?&B). split_and!; try congruence. intros k Hk. by rewrite B, A.
Qed.

(** The loop over the indices: up to the first item that cannot be decoded every
    match is replaced by the tombstone. *)
Lemma mark_from_spec key taskID rest before count ks ks' o :
  klist key ks = before ++ rest ->
  mark_from key taskID (length rest) (length before) count ks = (ks', o) ->
  only_list key ks ks' /\
  if forallb is_decoded rest
  then o = Ok (count + length (filter (fun i => is_task taskID i = true) rest))%nat /\
       klist key ks' = before ++ marked taskID rest
  else exists pre bad post e, rest = pre ++ bad :: post /\ forallb is_decoded pre = true /\
       cjson_task_id bad = Err e /\ o = Err e /\
       klist key ks' = before ++ marked taskID pre ++ bad :: post.
Proof.
  revert before count ks. induction rest as [|x rest IH]; intros before count ks Hl; simpl.
  { intros [= <- <-]. split; [done|]. split; [by rewrite Nat.add_0_r | done]. }
  unfold mark_item, m_bind at 1, m_bind at 1, redis_call at 1. simpl.
  rewrite Hl, list_lookup_middle by done. unfold m_bind at 1, m_lift. unfold is_decoded at 1.
  destruct (cjson_task_id x) as [o'|e] eqn:Ex; simpl.
  2:{ intros [= <- <-]. split; [done|]. exists [], x, rest, e. done. }
  assert (Hnext : forall y c ks1, only_list key ks ks1 -> klist key ks1 = before ++ y :: rest ->
    (y = if is_task taskID x then tombstone else x) ->
    (c = if is_task taskID x then S count else count) ->
    mark_from key taskID (length rest) (S (length before)) c ks1 = (ks', o) ->
    only_list key ks ks' /\
    if forallb is_decoded rest
    then o = Ok (count + length (filter (fun i => is_task taskID i = true) (x :: rest)))%nat /\
         klist key ks' = before ++ marked taskID (x :: rest)
    else exists pre bad post e, x :: rest = pre ++ bad :: post /\ forallb is_decoded pre = true /\
         cjson_task_id bad = Err e /\ o = Err e /\
         klist key ks' = before ++ marked taskID pre ++ bad :: post).
  { intros y c ks1 Ho Hl1 Hy Hc Hm.
    replace (S (length before)) with (length (before ++ [y])) in Hm by (rewrite length_app; simpl; lia).
    apply (IH (before ++ [y])) in Hm as [Ho' Hrest]; [|by rewrite <- app_assoc].
    split; [by etrans|]. destruct (forallb is_decoded rest).
    - destruct Hrest as [-> ->]. rewrite <- app_assoc. subst y c. unfold marked. rewrite fmap_cons.
      split; [|done]. f_equal. rewrite filter_cons.
      destruct (is_task taskID x) eqn:Et; case_decide; try done; simpl; lia.
    - destruct Hrest as (pre & bad & post & e & -> & Hpre & Hbad & -> & ->).
      exists (x :: pre), bad, post, e. rewrite <- app_assoc. simpl.
      unfold is_decoded at 1. rewrite Ex. simpl. subst y. unfold marked; simpl. done. }
  case_bool_decide as Hid; simpl.
  - unfold m_bind at 1, redis_call at 1. simpl. rewrite Hl.
    assert (Hlt : (length before <? length (before ++ x :: rest))%nat = true).
    { apply Nat.ltb_lt. rewrite length_app. simpl. lia. }
    rewrite Hlt. simpl. rewrite insert_app_r_alt, Nat.sub_diag by lia. simpl.
    apply (Hnext tombstone (S count)); unfold is_task; rewrite ?Ex, ?bool_decide_true by done; try done.
    + split_and!; try done. intros k Hk. rewrite klist_upd. by destruct (decide (k = key)).
    + rewrite klist_upd. by destruct (decide (key = key)).
  - apply (Hnext x count ks); unfold is_task; rewrite ?Ex, ?bool_decide_false by done; done.
Qed.
End Removal.

Section RemovalFacts.
Context `{TaskCodecLaws}.

Lemma decoded_no_tombstone items : forallb is_decoded items = true -> tombstone ∉ items.
Proof.
  intros Hall Hin. rewrite forallb_elem in Hall. apply Hall in Hin.
  unfold is_decoded in Hin. pose proof cjson_tombstone. unfold tombstone in Hin. congruence.
Qed.

(** The script as a function of the list it works on. *)
Lemma removeFromListScript_spec key taskID ks ks' o :
  removeFromListScript key taskID ks = (ks', o) ->
  only_list key ks ks' /\
  if forallb is_decoded (klist key ks)
  then o = Ok (length (filter (fun i => is_task taskID i = true) (klist key ks))) /\
       klist key ks' = filter (fun i => is_task taskID i = false) (klist key ks)
  else exists pre bad post e, klist key ks = pre ++ bad :: post /\
       forallb is_decoded pre = true /\ cjson_task_id bad = Err e /\ o = Err e /\
       klist key ks' = marked taskID pre ++ bad :: post.
Proof.
  unfold removeFromListScript, m_bind at 1, redis_call at 1. simpl. rewrite Nat2Z.id.
  unfold m_bind at 1.
  destruct (mark_from key taskID (length (klist key ks)) 0 0 ks) as [ks1 o1] eqn:Em.
  apply (mark_from_spec key taskID (klist key ks) [] 0 ks) in Em as [Ho Hm]; [|done].
  destruct (forallb is_decoded (klist key ks)) eqn:Ed.
  - destruct Hm as [-> Hl]. simpl in Hl. simpl (0 + _)%nat.
    pose proof (lrem_marked taskID _ (decoded_no_tombstone _ Ed)) as Hlrem.
    destruct (Nat.ltb_spec 0 (length (filter (fun i => is_task taskID i = true) (klist key ks)))).
    + unfold m_bind, redis_call. simpl. rewrite Hl, Hlrem. intros [= <- <-]. split.
      * destruct Ho as (?&?&?&Hk). split_and!; try done. intros k Hne.
        rewrite klist_upd. destruct (decide (k = key)); [done|by apply Hk].
      * split; [done|]. rewrite klist_upd. by destruct (decide (key = key)).
    + unfold m_bind, m_ret. intros [= <- <-]. split; [done|]. split; [done|]. rewrite Hl.
      rewrite <- Hlrem. replace (length _) with 0%nat by lia.
      by destruct (marked taskID (klist key ks)).
  - destruct Hm as (pre & bad & post & e & Hs & Hp & Hb & -> & Hl).
    intros [= <- <-]. split; [done|]. exists pre, bad, post, e. done.
Qed.

(** The split at the first item that cannot be decoded is unique. *)
Lemma first_undecodable pre bad post e pre' bad' post' e' :
  pre ++ bad :: post = pre' ++ bad' :: post' ->
  forallb is_decoded pre = true -> cjson_task_id bad = Err e ->
  forallb is_decoded pre' = true -> cjson_task_id bad' = Err e' ->
  pre' = pre /\ bad' = bad /\ post' = post.
Proof.
  intros Heq Hp Hb Hp' Hb'. revert pre' Heq Hp'.
  induction pre as [|x pre IH]; intros [|y pre'] Heq Hp'; simpl in *.
  - by simplify_eq.
  - simplify_eq. unfold is_decoded at 1 in Hp'. by rewrite Hb in Hp'.
  - simplify_eq. unfold is_decoded at 1 in Hp. by rewrite Hb' in Hp.
  - injection Heq as -> Heq. bool_to_prop.
    by destruct (IH ltac:(assumption) pre' Heq ltac:(assumption)) as (-> & -> & ->).
Qed.

Lemma removeFromListScript_aborts key taskID ks ks' o pre bad post e :
  removeFromListScript key taskID ks = (ks', o) ->
  klist key ks = pre ++ bad :: post -> forallb is_decoded pre = true ->
  cjson_task_id bad = Err e ->
  o = Err e /\ klist key ks' = marked taskID pre ++ bad :: post.
Proof.
  intros Es Hl Hp Hb. apply removeFromListScript_spec in Es as [_ Hm]. rewrite Hl in Hm.
  assert (Hd : forallb is_decoded (pre ++ bad :: post) = false).
  { rewrite forallb_app. simpl. unfold is_decoded at 2. rewrite Hb. simpl. by rewrite andb_false_r. }
  rewrite Hd in Hm. destruct Hm as (pre' & bad' & post' & e' & Heq & Hp' & Hb' & -> & Hk).
  destruct (first_undecodable _ _ _ _ _ _ _ _ Heq Hp Hb Hp' Hb') as (-> & -> & ->).
  split; [congruence|done].
Qed.

(** A successful removal takes out of the list exactly the items that carry
    the identifier, all of them, keeps the others in order, says whether there
    was one, and changes nothing else in the store. *)
Theorem RemoveFromList_removes {R} `{RedisLaws R} key taskID (r r' : R) b :
  RemoveFromList key taskID r = (r', Ok b) ->
  klist key (keys r') = filter (fun i => is_task taskID i = false) (klist key (keys r)) /\
  b = existsb (is_task taskID) (klist key (keys r)) /\
  only_list key (keys r) (keys r').
Proof.
  unfold RemoveFromList. rewrite m_bind_ok. unfold m_wrap. intros (r1 & n & Hx & [= <- <-]).
  destruct (exec (EVAL (removeFromListScript key taskID)) r) as [r2 [n'|e]] eqn:Ex; [|done].
  simpl in Hx. injection Hx as <- ->. apply exec_EVAL_ok, removeFromListScript_spec in Ex as [Ho Hm].
  destruct (forallb is_decoded (klist key (keys r))).
  - destruct Hm as [[= ->] ->]. split; [done|]. split; [|done].
    generalize (klist key (keys r)) as l. intros l. induction l as [|x l IH]; [done|].
    rewrite filter_cons. simpl. destruct (is_task taskID x); [by rewrite decide_True|].
    by rewrite decide_False.
  - by destruct Hm as (? & ? & ? & ? & _ & _ & _ & ? & _).
Qed.

(** When an item of the list cannot be decoded the removal fails, and the
    matching items before it stay in the list, overwritten by the tombstone: they
    are lost as tasks but not removed, since the script stops before its LREM. *)
Theorem RemoveFromList_leaves_tombstones {R} `{RedisReliable R} key taskID (r : R) pre bad post e :
  klist key (keys r) = pre ++ bad :: post -> forallb is_decoded pre = true ->
  cjson_task_id bad = Err e ->
  exists r' e', RemoveFromList key taskID r = (r', Err e') /\
    klist key (keys r') = marked taskID pre ++ bad :: post.
Proof.
  intros Hl Hp Hb.
  destruct (removeFromListScript key taskID (keys r)) as [ks o] eqn:Es.
  pose proof (exec_reliable _ (EVAL (removeFromListScript key taskID)) r) as Hx. simpl in Hx.
  unfold m_wrap in Hx. rewrite Es in Hx.
  destruct (removeFromListScript_aborts _ _ _ _ _ _ _ _ _ Es Hl Hp Hb) as [-> Hk].
  unfold RemoveFromList, m_bind, m_wrap.
  destruct (exec (EVAL (removeFromListScript key taskID)) r) as [r' o']. simpl in Hx.
  injection Hx as <- ->. simpl. eauto.
Qed.
End RemovalFacts.

(** ** Removal from a sorted set and rescoring *)
Section ZSets.
Context {R : Type} `{RedisLaws R} `{TaskCodec}.

Definition zset_is_task (taskID member : string) : bool :=
  match unmarshal_task member with Ok t => String.eqb (TaskID t) taskID | Err _ => false end.

Lemma zset_scan_spec key taskID members r r' b :
  zset_scan key taskID members r = (r', Ok b) ->
  match List.find (zset_is_task taskID) members with
  | None => b = false /\ r' = r
  | Some m => exists o, exec (ZREM key m) r = (r', o) /\ b = is_ok o
  end.
Proof.
  induction members as [|m members IH]; simpl; [by intros [= <- <-]|].
  unfold zset_is_task at 1. destruct (unmarshal_task m) as [t|e]; [|done].
  destruct (String.eqb (TaskID t) taskID); [|done].
  unfold m_bind, attempt. destruct (exec (ZREM key m) r) as [r1 o]. intros [= <- <-]. eauto.
Qed.

(** A removal from a sorted set that succeeds takes out exactly the first
    member of the task (in score order) and no other. *)
Theorem RemoveFromZSet_removes key taskID r r' :
  RemoveFromZSet key taskID r = (r', Ok true) ->
  exists m, m ∈ zrange None None (kzset key (keys r)) /\ zset_is_task taskID m = true /\
    kzset key (keys r') = delete m (kzset key (keys r)).
Proof.
  unfold RemoveFromZSet, m_bind, attempt.
  destruct (exec (ZRANGEBYSCORE key None None) r) as [r1 [members|e]] eqn:Ex; [|done].
  assert (Hk : keys r1 = keys r) by (eapply exec_reads; [apply reads_ZRANGE | exact Ex]).
  apply exec_ok in Ex. simpl in Ex. injection Ex as _ <-. intros Hs.
  apply zset_scan_spec in Hs.
  destruct (List.find _ _) as [m|] eqn:Ef; [|by destruct Hs].
  destruct Hs as ([[]|e] & Hz & [=]). apply find_some in Ef as [Hin Hm].
  exists m. split; [by apply list_elem_of_In|]. split; [done|].
  apply exec_ok in Hz. simpl in Hz. injection Hz as <-. rewrite kzset_upd, Hk.
  by destruct (decide (key = key)).
Qed.

Definition object_id (parsed : option (gmap string value)) : string :=
  default "" (as_string (default ∅ parsed !! "task_id")).

Definition member_is_task (taskID member : string) : bool :=
  match unmarshal_object member with
  | Ok parsed => String.eqb (object_id parsed) taskID
  | Err _ => false
  end.

Lemma expedite_scan_spec taskID at_ members r r' b :
  expedite_scan taskID at_ members r = (r', Ok b) ->
  match List.find (member_is_task taskID) members with
  | None => b = false /\ r' = r
  | Some m => b = true /\ exists obj updated,
      unmarshal_object m = Ok (Some obj) /\
      marshal_object (<["execute_time" := VInt at_]> obj) = Ok updated /\
      exec (MULTI (MULTI (ZREM DelayedQueueKey m) (ZADD DelayedQueueKey at_ updated))
                  (HSET TaskIndexKey taskID DelayedQueueKey)) r = (r', Ok tt)
  end.
Proof.
  induction members as [|m members IH]; simpl; [by intros [= <- <-]|].
  unfold member_is_task at 1. destruct (unmarshal_object m) as [parsed|e] eqn:Eu; [|done].
  change (default "" _) with (object_id parsed).
  destruct (String.eqb (object_id parsed) taskID); [simpl|done].
  destruct parsed as [obj|]; [|done]. unfold m_wrap, m_lift.
  rewrite m_bind_ok. intros (r1 & updated & Hm & Hx).
  destruct (marshal_object _) as [u|e] eqn:Emo; simpl in Hm; [|done]. injection Hm as <- <-.
  apply m_bind_ok in Hx as (r2 & [] & Hx & [= <- <-]).
  destruct (exec _ r) as [r3 [[]|e]] eqn:Ex in Hx; simpl in Hx; [|done]. injection Hx as <-.
  split; [done|]. exists obj, u. done.
Qed.

(** Expediting a task either rewrites one member of the delayed queue, which
    gets the new time both in its document and as its score, and re-indexes the
    task, in a single transaction; or finds none and leaves the store as it is. *)
Theorem ExpediteDelayedTask_spec taskID at_ r r' b :
  ExpediteDelayedTask taskID at_ r = (r', Ok b) ->
  if b then exists m obj updated, delayed r !! m <> None /\
    member_is_task taskID m = true /\ unmarshal_object m = Ok (Some obj) /\
    marshal_object (<["execute_time" := VInt at_]> obj) = Ok updated /\
    delayed r' = <[updated := at_]> (delete m (delayed r)) /\
    index r' = <[taskID := DelayedQueueKey]> (index r) /\ ready r' = ready r
  else keys r' = keys r /\ forall m, delayed r !! m <> None -> member_is_task taskID m = false.
Proof.
  unfold ExpediteDelayedTask. rewrite m_bind_ok. unfold m_wrap.
  intros (r1 & members & Hx & Hs).
  destruct (exec (ZRANGEBYSCORE DelayedQueueKey None None) r) as [r2 [ms|e]] eqn:Ex; [|done].
  simpl in Hx. injection Hx as -> ->.
  assert (Hk : keys r1 = keys r) by (eapply exec_reads; [apply reads_ZRANGE | exact Ex]).
  apply exec_ok in Ex. simpl in Ex. injection Ex as _ <-. fold (delayed r) in Hs.
  apply expedite_scan_spec in Hs. destruct (List.find _ _) as [m|] eqn:Ef.
  - destruct Hs as (-> & obj & u & Ho & Hu & Hm). apply find_some in Ef as [Hin Hid].
    apply list_elem_of_In, elem_of_zrange in Hin as (s & Hms & _).
    exists m, obj, u. split_and!; try done; [congruence| | |];
      apply exec_ok in Hm; simpl in Hm; injection Hm as Hm;
      unfold delayed, index, ready; rewrite <- Hm, <- Hk.
    + change (kzset ?k (upd_hash ?a ?b ?x)) with (kzset k x). rewrite !kzset_upd.
      by destruct (decide (DelayedQueueKey = DelayedQueueKey)).
    + rewrite khash_upd. by destruct (decide (TaskIndexKey = TaskIndexKey)).
    + done.
  - destruct Hs as [-> ->]. split; [done|]. intros m Hm.
    destruct (delayed r !! m) as [s|] eqn:Em; [|done].
    assert (Hin : m ∈ zrange None None (delayed r)) by (apply elem_of_zrange; eauto).
    apply list_elem_of_In in Hin. exact (find_none _ _ Ef _ Hin).
Qed.
End ZSets.

(** ** The concurrency counter under interleaving

    [AcquireConcurrencyLock] reads the counter and increments it in two commands,
    so other consumers may act in between.  A system is a server, for each
    consumer whether it has read a count below the limit and not yet incremented,
    and the number of tasks being executed. *)
Section Concurrency.
Context {R : Type} `{RedisLaws R}.

(** [sys_blind] counts the checks that went on without an answer, [sys_lost] the
    increments and decrements that failed. *)
Record system := mkSystem {
  sys_server : R; sys_checked : list bool; sys_running : Z; sys_blind : Z; sys_lost : Z
}.

Inductive action :=
| Check_ (i : nat)  (* consumer i runs the first half of AcquireConcurrencyLock *)
| Incr_ (i : nat)   (* consumer i runs the second half and starts a task *)
| Finish_.          (* a task ends and releases its slot *)

(** Whether a command fails now; a missing counter is an answer. *)
Definition failing {A} (c : cmd A) (r : R) : bool :=
  match snd (exec c r) with Ok _ => false | Err e => negb (String.eqb e redis_Nil) end.
Definition one (b : bool) : Z := if b then 1 else 0.

Definition do_action (a : action) (s : system) : option system :=
  let r := sys_server s in
  match a with
  | Check_ i =>
      match sys_checked s !! i, acquire_check r with
      | Some false, (r', Ok b) =>
          Some (mkSystem r' (<[i := b]> (sys_checked s)) (sys_running s)
                  (sys_blind s + one (failing (GETINT ConcurrencyLockKey) r)) (sys_lost s))
      | _, _ => None
      end
  | Incr_ i =>
      match sys_checked s !! i, acquire_incr r with
      | Some true, (r', Ok b) =>
          Some (mkSystem r' (<[i := false]> (sys_checked s)) (sys_running s + one b) (sys_blind s)
                  (sys_lost s + one (failing (INCR ConcurrencyLockKey) r)))
      | _, _ => None
      end
  | Finish_ =>
      if 0 <? sys_running s then
        Some (mkSystem (fst (ReleaseConcurrencyLock r)) (sys_checked s) (sys_running s - 1) (sys_blind s)
                (sys_lost s + one (failing (DECR ConcurrencyLockKey) r)))
      else None
  end.

Fixpoint run_actions (acts : list action) (s : system) : option system :=
  match acts with
  | [] => Some s
  | a :: rest => match do_action a s with Some s' => run_actions rest s' | None => None end
  end.

Definition counter (r : R) : Z := default 0 (ks_int (keys r) !! ConcurrencyLockKey).

Definition pending (checked : list bool) : Z := Z.of_nat (length (filter (fun b : bool => b = true) checked)).

Lemma pending_insert (checked : list bool) (i : nat) (b0 b : bool) :
  checked !! i = Some b0 ->
  pending (<[i := b]> checked) = pending checked - (if b0 then 1 else 0) + (if b then 1 else 0).
Proof.
  intros Hi. unfold pending. apply list_elem_of_split_length in Hi as (l1 & l2 & -> & ->).
  rewrite insert_app_r_alt, Nat.sub_diag by lia. simpl.
  rewrite !filter_app, !filter_cons, !length_app. destruct b0, b; simpl; lia.
Qed.

Lemma pending_le checked : pending checked <= Z.of_nat (length checked).
Proof. unfold pending. apply inj_le, length_filter. Qed.

Lemma acquire_check_spec r r' b :
  acquire_check r = (r', Ok b) ->
  counter r' = counter r /\ (failing (GETINT ConcurrencyLockKey) r = false -> b = (counter r <? MaxConcurrency)).
Proof.
  unfold acquire_check, m_bind, attempt, counter, failing.
  destruct (exec (GETINT ConcurrencyLockKey) r) as [r1 o] eqn:Ex. unfold m_ret. intros [= <- <-]. split.
  - by rewrite (exec_reads _ _ _ _ (reads_GETINT _) Ex).
  - apply exec_law in Ex as [Ex | (e & -> & Hne & _)]; simpl.
    + simpl in Ex. intros _. destruct (ks_int (keys r) !! ConcurrencyLockKey) as [v|];
        injection Ex as _ ->; simpl; unfold MaxConcurrency; lia.
    + by rewrite (proj2 (String.eqb_neq _ _) Hne).
Qed.

Lemma acquire_incr_spec r r' b :
  acquire_incr r = (r', Ok b) ->
  if failing (INCR ConcurrencyLockKey) r then b = false /\ counter r <= counter r' <= counter r + 1
  else b = true /\ counter r' = counter r + 1.
Proof.
  unfold acquire_incr, m_bind, attempt, counter, failing.
  destruct (exec (INCR ConcurrencyLockKey) r) as [r1 o] eqn:Ex. unfold m_ret. intros [= <- <-].
  apply exec_law in Ex as [Ex | (e & -> & Hne & Hk)]; simpl.
  - simpl in Ex. injection Ex as -> ->. simpl. by rewrite lookup_insert_eq.
  - rewrite (proj2 (String.eqb_neq _ _) Hne). simpl. split; [done|].
    destruct Hk as [-> | ->]; simpl; [lia|]. rewrite lookup_insert_eq. simpl. lia.
Qed.

Lemma release_spec r :
  let r' := fst (ReleaseConcurrencyLock r) in
  if failing (DECR ConcurrencyLockKey) r then counter r - 1 <= counter r' <= counter r
  else counter r' = counter r - 1.
Proof.
  unfold ReleaseConcurrencyLock, ignore_err, counter, failing.
  destruct (exec (DECR ConcurrencyLockKey) r) as [r1 o] eqn:Ex. simpl.
  apply exec_law in Ex as [Ex | (e & -> & Hne & Hk)]; simpl.
  - simpl in Ex. injection Ex as -> ->. simpl. by rewrite lookup_insert_eq.
  - rewrite (proj2 (String.eqb_neq _ _) Hne). simpl.
    destruct Hk as [-> | ->]; simpl; [lia|]. rewrite lookup_insert_eq. simpl. lia.
Qed.

Definition sys_inv (n : nat) (s : system) : Prop :=
  length (sys_checked s) = n /\ 0 <= sys_running s /\ 0 <= sys_blind s /\ 0 <= sys_lost s /\
  sys_running s <= counter (sys_server s) <= sys_running s + sys_lost s /\
  counter (sys_server s) + pending (sys_checked s) <= MaxConcurrency - 1 + Z.of_nat n + sys_blind s.

Lemma do_action_inv n a s s' : sys_inv n s -> do_action a s = Some s' -> sys_inv n s'.
Proof.
  intros (Hn & Hpos & Hb & Hl & Hr & Hc). unfold do_action, sys_inv. destruct a as [i|i|].
  - destruct (sys_checked s !! i) as [[]|] eqn:Ei; [done| |done].
    destruct (acquire_check (sys_server s)) as [r' [b|e]] eqn:Ea; [|done]. intros [= <-]. simpl.
    apply acquire_check_spec in Ea as [-> Hok]. rewrite length_insert.
    rewrite (pending_insert _ _ _ _ Ei). pose proof (pending_le (sys_checked s)) as Hp.
    assert (Hlt : pending (<[i := true]> (sys_checked s)) <= Z.of_nat n).
    { pose proof (pending_le (<[i := true]> (sys_checked s))) as Hq. by rewrite length_insert, Hn in Hq. }
    rewrite (pending_insert _ _ _ _ Ei) in Hlt.
    destruct (failing (GETINT ConcurrencyLockKey) (sys_server s)); simpl.
    + split_and!; try done; try lia. destruct b; lia.
    + rewrite (Hok eq_refl). split_and!; try done; try lia.
      destruct (Z.ltb_spec (counter (sys_server s)) MaxConcurrency); lia.
  - destruct (sys_checked s !! i) as [[]|] eqn:Ei; [|done|done].
    destruct (acquire_incr (sys_server s)) as [r' [b|e]] eqn:Ea; [|done]. intros [= <-]. simpl.
    apply acquire_incr_spec in Ea. rewrite length_insert, (pending_insert _ _ _ _ Ei).
    destruct (failing (INCR ConcurrencyLockKey) (sys_server s)); destruct Ea as [-> Hc']; simpl;
      unfold one; split_and!; try done; lia.
  - destruct (Z.ltb_spec 0 (sys_running s)); [|done]. intros [= <-]. pose proof (release_spec (sys_server s)) as Hx.
    cbn in Hx |- *. destruct (failing (DECR ConcurrencyLockKey) (sys_server s)); unfold one; split_and!; try done; lia.
Qed.

Lemma run_actions_inv n acts s s' : sys_inv n s -> run_actions acts s = Some s' -> sys_inv n s'.
Proof.
  revert s. induction acts as [|a acts IH]; intros s Hs; simpl; [by intros [= <-]|].
  destruct (do_action a s) as [s1|] eqn:Ea; [|done]. apply IH. by eapply do_action_inv.
Qed.

(** C20. From a reset counter, whatever the interleaving of [n] consumers ([n > 0]) and
    whichever commands fail: no more tasks run than the counter says, it says no more than
    run and changes that failed, and they exceed the limit of 20 by at most [n - 1] and the
    checks whose read failed, which go on as if the counter were zero.  In particular, when
    every command is served, the counter is the number of running tasks and a single
    consumer respects the limit. *)
Theorem concurrency_bounded r n acts s' :
  counter r = 0 -> (0 < n)%nat ->
  run_actions acts (mkSystem r (replicate n false) 0 0 0) = Some s' ->
  0 <= sys_running s' /\
  sys_running s' <= counter (sys_server s') <= sys_running s' + sys_lost s' /\
  sys_running s' <= MaxConcurrency + Z.of_nat (n - 1) + sys_blind s'.
Proof.
  intros Hc0 Hn Hrun.
  assert (Hrep : pending (replicate n false) = 0).
  { unfold pending. clear. induction n as [|n IH]; [done|]. simpl replicate. by rewrite filter_cons. }
  assert (Hi : sys_inv n (mkSystem r (replicate n false) 0 0 0)).
  { unfold sys_inv. simpl. rewrite length_replicate, Hc0, Hrep. unfold MaxConcurrency. split_and!; try done; lia. }
  apply (run_actions_inv n) in Hrun as (_ & Hpos & _ & _ & Hr & Hb); [|done].
  assert (0 <= pending (sys_checked s')) by (unfold pending; lia). split_and!; lia.
Qed.
End Concurrency.

(** The limit is not a limit for two consumers: there is an interleaving after
    which 21 tasks run. *)
Theorem concurrency_overshoot :
  exists acts s, run_actions (R := keyspace) acts (mkSystem empty_keyspace [false; false] 0 0 0) = Some s /\
    sys_running s = MaxConcurrency + 1.
Proof.
  exists (concat (replicate 19 [Check_ 0; Incr_ 0]) ++ [Check_ 0; Check_ 1; Incr_ 0; Incr_ 1]).
  eexists. split; [vm_compute; reflexivity | reflexivity].
Qed.

(** ** The theorems at concrete queues *)
Module QueueSample.
#[local] Existing Instance ToyCodec.toy.
#[local] Existing Instance ToyCodec.toy_laws.

Definition with_delayed (m : gmap string Z) : keyspace := upd_zset DelayedQueueKey m empty_keyspace.
Definition two_due : keyspace := with_delayed {["a" := 5; "b" := 3; "c" := 40]}.
Definition with_ready (l : list string) : keyspace := upd_list ReadyQueueKey l empty_keyspace.

Lemma ProcessDelayedTasks_moves_due_witness :
  ready (fst (ProcessDelayedTasks 10 two_due)) = rev ["b"; "a"] ++ ready two_due.
Proof.
  destruct (ProcessDelayedTasks_moves_due 10 two_due (fst (ProcessDelayedTasks 10 two_due)) ["b"; "a"])
    as (_ & E & _); [vm_compute; reflexivity | exact E].
Defined.

Lemma ready_queue_fifo_witness :
  fifo (fst (GetTask (with_ready ["b"; "a"]))) = ["b"] /\
  fifo (with_ready ["b"; "a"]) = "a" :: fifo (fst (GetTask (with_ready ["b"; "a"]))) /\
  in_time_order (delayed two_due) ["b"; "a"].
Proof.
  split; [vm_compute; reflexivity|]. split.
  2:{ destruct (ready_queue_fifo two_due (fst (ProcessDelayedTasks 10 two_due))) as (_ & Hp & _).
      apply (Hp 10). vm_compute. reflexivity. }
  destruct (ready_queue_fifo (with_ready ["b"; "a"]) (fst (GetTask (with_ready ["b"; "a"]))))
    as (_ & _ & E & _). apply E. vm_compute. reflexivity.
Defined.

Lemma take_tasks_in_order_witness :
  fifo (with_ready ["c"; "b"; "a"]) =
    ["a"; "b"] ++ fifo (fst (take_tasks 2 (with_ready ["c"; "b"; "a"]))) /\ length ["a"; "b"] = 2%nat.
Proof. apply (take_tasks_in_order 2). vm_compute. reflexivity. Defined.

(** The second request loses its reply, and with it the task [b]. *)
Definition busy : list queue_op := [OpSubmit "d" "4"; OpTake; OpPromote 9; OpTake; OpSubmit "e" "5"; OpTake; OpTake].
Definition lossy : InMemory.server :=
  InMemory.mkServer (with_ready ["c"; "b"; "a"]) [InMemory.Served; InMemory.Served; InMemory.Served; InMemory.Served; InMemory.LostReply].
Lemma ready_task_is_taken_witness :
  exists later, map fst (fst (run_queue busy lossy)) = ["a"; "b"] ++ "c" :: later.
Proof.
  pose proof (ready_task_is_taken busy lossy ["a"; "b"] "c" [] eq_refl) as Hx.
  destruct (run_queue busy lossy) as [left_ failed] eqn:E.
  assert (failed = 1%nat) as -> by (vm_compute in E; injection E as _ <-; reflexivity).
  destruct Hx as (got & later & Hl & _); [vm_compute; lia|]. exists later. exact Hl.
Defined.
Example b_is_lost : run_queue busy lossy = ([("a", true); ("b", false); ("c", true); ("d", true)], 1%nat).
Proof. by vm_compute. Qed.

Definition poisoned : keyspace := with_delayed {["" := 5; "b" := 3]}.

Lemma ProcessDelayedTasks_poison_witness :
  zrange (Some 0) (Some 10) (delayed poisoned) = ["b"; ""] /\
  exists r' e, ProcessDelayedTasks 10 poisoned = (r', Err e).
Proof.
  split; [vm_compute; reflexivity|].
  destruct (ProcessDelayedTasks_poison 10 poisoned) as (r' & e & E & _).
  - vm_compute. lia.
  - vm_compute. reflexivity.
  - exists r', e. exact E.
Defined.

Definition crowded : keyspace := with_delayed {["a" := 1; "b" := 2; "c" := 3; "d" := 4]}.

Lemma ProcessDelayedTasks_overflow_loses_witness :
  length (zrange (Some 0) (Some 10) (delayed crowded)) = 4%nat /\
  exists r' e, ProcessDelayedTasks 10 crowded = (r', Err e) /\ ready r' = [].
Proof.
  split; [vm_compute; reflexivity|].
  destruct (ProcessDelayedTasks_overflow_loses 10 crowded) as (r' & e & E & Er & _).
  - vm_compute. lia.
  - exists r', e. split; [exact E | rewrite Er; reflexivity].
Defined.

Lemma RemoveFromList_removes_witness :
  klist ReadyQueueKey (keys (fst (RemoveFromList ReadyQueueKey "a" (with_ready ["c"; "a"; "b"; "a"])))) =
  ["c"; "b"].
Proof.
  destruct (RemoveFromList_removes ReadyQueueKey "a" (with_ready ["c"; "a"; "b"; "a"])
    (fst (RemoveFromList ReadyQueueKey "a" (with_ready ["c"; "a"; "b"; "a"]))) true) as [E _].
  - vm_compute. reflexivity.
  - rewrite E. vm_compute. reflexivity.
Defined.

Lemma RemoveFromList_leaves_tombstones_witness :
  exists r' e', RemoveFromList ReadyQueueKey "a" (with_ready ["a"; ""; "b"]) = (r', Err e') /\
    klist ReadyQueueKey (keys r') = ["__DELETED__"; ""; "b"].
Proof.
  exact (RemoveFromList_leaves_tombstones ReadyQueueKey "a" (with_ready ["a"; ""; "b"])
    ["a"] "" ["b"] "invalid" eq_refl eq_refl eq_refl).
Defined.

Lemma RemoveFromZSet_removes_witness :
  exists m, zset_is_task "b" m = true /\
    kzset DelayedQueueKey (keys (fst (RemoveFromZSet DelayedQueueKey "b" two_due))) =
    delete m (kzset DelayedQueueKey (keys two_due)).
Proof.
  destruct (RemoveFromZSet_removes DelayedQueueKey "b" two_due
    (fst (RemoveFromZSet DelayedQueueKey "b" two_due))) as (m & _ & Hm & E).
  - vm_compute. reflexivity.
  - exists m. split; assumption.
Defined.

Lemma ExpediteDelayedTask_spec_witness :
  exists m updated, member_is_task "c" m = true /\
    delayed (fst (ExpediteDelayedTask "c" 7 two_due)) = <[updated := 7]> (delete m (delayed two_due)).
Proof.
  destruct (ExpediteDelayedTask_spec "c" 7 two_due (fst (ExpediteDelayedTask "c" 7 two_due)) true)
    as (m & obj & u & _ & Hm & _ & _ & E & _).
  - vm_compute. reflexivity.
  - exists m, u. split; assumption.
Defined.

(** Two consumers; the reply to the first increment is lost, and the second read fails. *)
Definition flaky : InMemory.server :=
  InMemory.mkServer empty_keyspace [InMemory.Served; InMemory.LostReply; InMemory.Lost; InMemory.Served].
Lemma concurrency_bounded_witness :
  exists s, run_actions [Check_ 0; Incr_ 0; Check_ 1; Incr_ 1] (mkSystem flaky (replicate 2 false) 0 0 0) = Some s /\
    sys_running s = 1 /\ counter (sys_server s) = 2 /\ sys_running s <= MaxConcurrency + 1 + sys_blind s.
Proof.
  eexists. split; [vm_compute; reflexivity|]. split; [reflexivity|]. split; [vm_compute; reflexivity|].
  apply (concurrency_bounded flaky 2 [Check_ 0; Incr_ 0; Check_ 1; Incr_ 1]); [reflexivity | lia | vm_compute; reflexivity].
Defined.
End QueueSample.
