(* ===== verification/TaskSubmit.v ===== *)
(** * Submission of tasks ([service/common/task.go])

    [SubmitTaskWithDB] completes a task, stores its rows in one transaction and
    then enqueues it.  The database is the class [TaskStore]: the two upserts are
    statements with the conflict columns the code gives to gorm, executed in a
    transaction that either applies them all or rolls back. *)

From S2P Require Import Prelude GoStrings Consts Redis Gateway Task TaskQueue.

(** ** The database *)

Record task_db := mkTaskDB {
  db_tasks : gmap string TaskRow;
  db_traces : gmap string TraceRow
}.

(** [ON CONFLICT (id) DO UPDATE SET execute_time, state]. *)
Definition upsertTask (task : TaskRow) (db : task_db) : task_db :=
  let row :=
    match db_tasks db !! row_ID task with
    | None => task
    | Some old =>
        {| row_ID := row_ID old; row_Type := row_Type old; row_Immediate := row_Immediate old;
           row_ExecuteTime := row_ExecuteTime task; row_CronExpr := row_CronExpr old;
           row_Payload := row_Payload old; row_Level := row_Level old;
           row_Sequence := row_Sequence old; row_State := row_State task;
           row_Status := row_Status old; row_ParentTaskID := row_ParentTaskID old;
           row_TraceID := row_TraceID old |}
    end in
  mkTaskDB (<[row_ID task := row]> (db_tasks db)) (db_traces db).

(** [ON CONFLICT (id) DO UPDATE SET last_event, end_time, state]. *)
Definition upsertTrace (trace : TraceRow) (db : task_db) : task_db :=
  let row :=
    match db_traces db !! tr_ID trace with
    | None => trace
    | Some old =>
        {| tr_ID := tr_ID old; tr_Type := tr_Type old; tr_LastEvent := tr_LastEvent trace;
           tr_StartTime := tr_StartTime old; tr_EndTime := tr_EndTime trace;
           tr_LeafNum := tr_LeafNum old; tr_GroupID := tr_GroupID old;
           tr_ProjectID := tr_ProjectID old; tr_State := tr_State trace;
           tr_Status := tr_Status old |}
    end in
  mkTaskDB (db_tasks db) (<[tr_ID trace := row]> (db_traces db)).

Class TaskStore (D : Type) := {
  tables : D -> task_db;
  (** [db.Transaction(body)]. *)
  transaction : (task_db -> task_db) -> D -> D * res unit;
  (** [First] of the [level] of a task that is not deleted. *)
  select_level : string -> D -> res Z
}.

Class TaskStoreLaws (D : Type) `{TaskStore D} := {
  transaction_ok : forall body d d', transaction body d = (d', Ok tt) -> tables d' = body (tables d);
  transaction_err : forall body d d' e, transaction body d = (d', Err e) -> tables d' = tables d;
  select_level_ok : forall id d l, select_level id d = Ok l ->
    exists row, db_tasks (tables d) !! id = Some row /\ row_Level row = l
}.

(** ** Scheduling events *)

Definition StreamTraceLogKey (traceID : string) : string := "trace:" +:+ traceID +:+ ":log".

Definition TaskScheduledReasonPreDurationWait : string := "pre_duration wait".
Definition TaskScheduledReasonTokenUnavailable : string := "token unavailable".
Definition TaskScheduledReasonRetryBackoff : string := "retry_backoff".
Definition TaskScheduledReasonManual : string := "manual".
Definition TaskScheduledReasonCronNext : string := "cron_next".
Definition TaskScheduledReasonExpedite : string := "expedite".

(** [TraceStreamEvent.ToRedisStream]; the payload is its JSON text, the position
    in the source is filled by the publisher. *)
Definition ToRedisStream (taskID : string) (taskType : TaskType) (fileName fn line : string)
    (eventName payload : string) : list (string * string) :=
  [("task_id", taskID); ("task_type", GetTaskTypeName (TaskType_code taskType));
   ("file_name", fileName); ("function_name", fn); ("line", line);
   ("name", eventName); ("payload", payload)].

Section Emit.
Context {R : Type} `{RedisServer R}.
(** [json.Marshal(TaskScheduledPayload)]. *)
Context (scheduled_json : Z -> string -> string).

Definition EmitTaskScheduled (t : UnifiedTask) (executeTime : Z) (reason : string) : M R unit :=
  if String.eqb (TraceID t) "" then m_ret tt
  else ignore_err (XAdd (StreamTraceLogKey (TraceID t))
         (ToRedisStream (TaskID t) (Type_ t) "" "" "0" EventTaskScheduled
            (scheduled_json executeTime reason))).
End Emit.

(** ** Submission *)

Definition rescheduled (t : UnifiedTask) : bool := bool_decide (State_ t = TaskRescheduled).

(** [Extra[injection_algorithms].(int)], for the pipelines with algorithms. *)
Definition algorithm_count (t : UnifiedTask) : option Z :=
  if bool_decide (Type_ t = TaskTypeRestartPedestal)
  then match Extra t with
       | Some extra =>
           match as_int (extra !! "injection_algorithms") with
           | Some n => if 0 <? n then Some n else None
           | None => None
           end
       | None => None
       end
  else None.

Section Submit.
Context {D R : Type} `{TaskStore D} `{RedisServer R} `{TaskCodec}.

(** What the environment decides: the fresh identifiers, the clock, the next
    firing of a cron expression and the text of the event payload. *)
Record submit_env := mkSubmitEnv {
  new_trace_id : string;
  new_task_id : string;
  env_time : Z;
  CronNextTime : string -> res Z;
  scheduled_json : Z -> string -> string
}.

Definition fill_ids (env : submit_env) (t : UnifiedTask) : UnifiedTask :=
  set_ids (if String.eqb (TaskID t) "" then new_task_id env else TaskID t)
          (if String.eqb (TraceID t) "" then new_trace_id env else TraceID t) t.

Definition getParentTaskLevelByID (db : D) (parentTaskID : string) : res Z :=
  res_wrap ("failed to find parent task with id " +:+ parentTaskID +:+ ": ")
    (select_level parentTaskID db).

Definition assign_level (db : D) (t : UnifiedTask) : res UnifiedTask :=
  match ParentTaskID t with
  | Some parent =>
      if rescheduled t then Ok t
      else let? parentLevel := res_wrap "failed to get parent task level: "
                                 (getParentTaskLevelByID db parent) in
           Ok (set_level (parentLevel + 1) t)
  | None => Ok t
  end.

Definition calculateExecuteTime (env : submit_env) (t : UnifiedTask) : res UnifiedTask :=
  if bool_decide (Type_ t = TaskTypeCronJob)
  then let? next := CronNextTime env (CronExpr t) in Ok (set_execute_time next t)
  else Ok t.

Definition assign_time (env : submit_env) (t : UnifiedTask) : res UnifiedTask :=
  if Immediate t then Ok t
  else res_wrap "failed to calculate execute time: " (calculateExecuteTime env t).

(** The trace row of an initial task. *)
Definition trace_of (env : submit_env) (t : UnifiedTask) : res (option TraceRow) :=
  match ParentTaskID t with
  | Some _ => Ok None
  | None =>
      if rescheduled t then Ok None
      else let '(withAlgorithms, leafNum) :=
             match algorithm_count t with Some n => (true, n) | None => (false, 1) end in
           let? trace := res_wrap "failed to convert to trace: "
                           (ConvertToTrace (env_time env) withAlgorithms leafNum t) in
           Ok (Some trace)
  end.

(** Everything before the transaction: the completed task and its rows. *)
Definition prepare (env : submit_env) (db : D) (t : UnifiedTask)
  : res (UnifiedTask * option TraceRow * TaskRow) :=
  let? t := assign_level db (fill_ids env t) in
  let? t := assign_time env t in
  let? trace := trace_of env t in
  let? task := res_wrap "failed to convert to task: " (ConvertToTask t) in
  Ok (t, trace, task).

Definition store_rows (trace : option TraceRow) (task : TaskRow) (db : task_db) : task_db :=
  upsertTask task (match trace with Some tr => upsertTrace tr db | None => db end).

Definition enqueue (env : submit_env) (t : UnifiedTask) (taskData : string) : M R unit :=
  m_wrap "failed to submit task to queue (task saved in DB): "
    (if Immediate t then SubmitImmediateTask taskData (TaskID t)
     else SubmitDelayedTask taskData (TaskID t) (ExecuteTime t) ;;!
          EmitTaskScheduled (scheduled_json env) t (ExecuteTime t)
            (if bool_decide (Type_ t = TaskTypeCronJob) then TaskScheduledReasonCronNext
             else TaskScheduledReasonPreDurationWait)).

(** On success the result is the task as the caller sees it afterwards. *)
Definition SubmitTaskWithDB (env : submit_env) (t : UnifiedTask) : M (D * R) UnifiedTask :=
  fun '(db, redis) =>
    match prepare env db t with
    | Err e => ((db, redis), Err e)
    | Ok (t', trace, task) =>
        let '(db', committed) := transaction (store_rows trace task) db in
        match committed with
        | Err e => ((db', redis), Err e)
        | Ok _ =>
            match marshal_task t' with
            | Err e => ((db', redis), Err ("failed to marshal task data: " +:+ e))
            | Ok taskData =>
                let '(redis', r) := enqueue env t' taskData redis in
                ((db', redis'), match r with Ok _ => Ok t' | Err e => Err e end)
            end
        end
    end.
End Submit.

(** ** Facts *)

Section Facts.
Context {D R : Type} `{TaskStoreLaws D} `{RedisLaws R} `{TaskCodec}.

Lemma EmitTaskScheduled_frame sj t e reason (r r' : R) o :
  EmitTaskScheduled sj t e reason r = (r', o) ->
  o = Ok tt /\ ready r' = ready r /\ delayed r' = delayed r /\ index r' = index r /\ dead r' = dead r.
Proof.
  unfold EmitTaskScheduled, XAdd, ignore_err, m_wrap.
  destruct (String.eqb (TraceID t) ""); [by intros [= <- <-]|].
  destruct (exec _ r) as [r1 o1] eqn:Ex. intros [= <- <-]. split; [done|]. simpl.
  apply exec_keys in Ex as [Ex|Ex]; unfold ready, delayed, index, dead; rewrite Ex; done.
Qed.

Lemma enqueue_ok env t data (r r' : R) :
  enqueue env t data r = (r', Ok tt) ->
  (if Immediate t then fifo r' = fifo r ++ [data] /\ delayed r' = delayed r
   else fifo r' = fifo r /\ delayed r' = <[data := ExecuteTime t]> (delayed r)) /\
  dead r' = dead r /\
  index r' = <[TaskID t := if Immediate t then ReadyQueueKey else DelayedQueueKey]> (index r).
Proof.
  unfold enqueue, m_wrap. destruct (Immediate t).
  - destruct (SubmitImmediateTask _ _ r) as [r1 [[]|e]] eqn:Es; [|done]. intros [= <-].
    pose proof (proj1 (ready_queue_aux r r1) _ _ Es) as Hf. rewrite Hf.
    apply m_bind_ok in Es as (r2 & [] & A1 & A2). apply exec_ok in A1, A2. simpl in A1, A2.
    injection A1 as A1. injection A2 as A2. unfold delayed, dead, index. rewrite <- A2, <- A1.
    rewrite khash_upd, decide_True by done. done.
  - destruct (m_bind _ _ r) as [r1 [[]|e]] eqn:Es; [|done]. intros [= <-].
    apply m_bind_ok in Es as (r2 & [] & Es & Em). apply EmitTaskScheduled_frame in Em as (_ & M1 & M2 & M3 & M4).
    apply m_bind_ok in Es as (r3 & [] & A1 & A2). apply exec_ok in A1, A2. simpl in A1, A2.
    injection A1 as A1. injection A2 as A2. unfold fifo. rewrite M1, M2, M3, M4.
    unfold ready, delayed, dead, index. rewrite <- A2, <- A1.
    rewrite khash_upd, decide_True by done.
    change (kzset ?k (upd_hash ?a ?b ?x)) with (kzset k x).
    rewrite !kzset_upd, decide_True, decide_False by done. done.
Qed.

(** The fields preparation leaves alone. *)
Lemma prepare_fields env db t t' trace task :
  prepare env db t = Ok (t', trace, task) ->
  ConvertToTask t' = Ok task /\ trace_of env t' = Ok trace /\
  TaskID t' = TaskID (fill_ids env t) /\ TraceID t' = TraceID (fill_ids env t) /\
  Immediate t' = Immediate t /\ State_ t' = State_ t /\ ParentTaskID t' = ParentTaskID t /\
  Type_ t' = Type_ t /\
  Level t' = match ParentTaskID t with
             | Some p => if rescheduled t then Level t
                         else match select_level p db with Ok l => l + 1 | Err _ => Level t' end
             | None => Level t
             end.
Proof.
  unfold prepare. rewrite res_bind_ok. intros (t1 & H1' & Hx).
  apply res_bind_ok in Hx as (t2 & H2' & Hx). apply res_bind_ok in Hx as (tr & H3' & Hx).
  apply res_bind_ok in Hx as (row & H4' & [= <- <- <-]).
  assert (A : TaskID t1 = TaskID (fill_ids env t) /\ TraceID t1 = TraceID (fill_ids env t) /\
    Immediate t1 = Immediate t /\ State_ t1 = State_ t /\ ParentTaskID t1 = ParentTaskID t /\
    Type_ t1 = Type_ t /\
    Level t1 = match ParentTaskID t with
             | Some p => if rescheduled t then Level t
                         else match select_level p db with Ok l => l + 1 | Err _ => Level t1 end
             | None => Level t end).
  { unfold assign_level in H1'. simpl in H1'. unfold rescheduled in *. simpl in H1'.
    destruct (ParentTaskID t) as [p|] eqn:Ep; [|injection H1' as <-; done].
    destruct (bool_decide (State_ t = TaskRescheduled)); [injection H1' as <-; done|].
    apply res_bind_ok in H1' as (l & Hl & [= <-]).
    unfold getParentTaskLevelByID in Hl. destruct (select_level p db); simpl in Hl; [|done].
    injection Hl as ->. simpl. done. }
  assert (B : TaskID t2 = TaskID t1 /\ TraceID t2 = TraceID t1 /\ Immediate t2 = Immediate t1 /\
    State_ t2 = State_ t1 /\ ParentTaskID t2 = ParentTaskID t1 /\ Type_ t2 = Type_ t1 /\ Level t2 = Level t1).
  { unfold assign_time, calculateExecuteTime in H2'. destruct (Immediate t1) eqn:Ei; [injection H2' as <-; done|].
    destruct (bool_decide (Type_ t1 = TaskTypeCronJob)); simpl in H2'; [|injection H2' as <-; done].
    destruct (CronNextTime env (CronExpr t1)); simpl in H2'; [|done]. injection H2' as <-. done. }
  destruct A as (A1&A2&A3&A4&A5&A6&A7), B as (B1&B2&B3&B4&B5&B6&B7).
  rewrite B1, B2, B3, B4, B5, B6, B7. split_and!; try congruence.
  unfold res_wrap in H4'. destruct (ConvertToTask t2); congruence.
Qed.

Lemma ConvertToTask_id t task : ConvertToTask t = Ok task -> row_ID task = TaskID t.
Proof. unfold ConvertToTask. rewrite res_bind_ok. by intros (p & _ & [= <-]). Qed.

Lemma trace_of_id env t trace : trace_of env t = Ok (Some trace) -> tr_ID trace = TraceID t.
Proof.
  unfold trace_of. destruct (ParentTaskID t); [done|]. destruct (rescheduled t); [done|].
  destruct (match algorithm_count t with Some n => _ | None => _ end) as [wa n].
  rewrite res_bind_ok. intros (tr & Htr & [= <-]).
  unfold res_wrap in Htr. destruct (ConvertToTrace _ wa n t) eqn:E; [|done]. injection Htr as ->.
  by apply ConvertToTrace_fields in E as [? _].
Qed.

(** Every column of a row but its time and its state is as before. *)
Definition same_but_time_and_state (row old : TaskRow) : Prop :=
  row_ID row = row_ID old /\ row_Type row = row_Type old /\ row_Immediate row = row_Immediate old /\
  row_CronExpr row = row_CronExpr old /\ row_Payload row = row_Payload old /\ row_Level row = row_Level old /\
  row_Sequence row = row_Sequence old /\ row_Status row = row_Status old /\
  row_ParentTaskID row = row_ParentTaskID old /\ row_TraceID row = row_TraceID old.

(** The stored row of a submitted task, given the row before. *)
Definition row_after (before : option TaskRow) (task row : TaskRow) : Prop :=
  row_State row = row_State task /\ row_ExecuteTime row = row_ExecuteTime task /\
  match before with
  | None => row = task
  | Some old => same_but_time_and_state row old
  end.

Lemma store_rows_task trace task db :
  (exists row, db_tasks (store_rows trace task db) !! row_ID task = Some row /\
    row_after (db_tasks db !! row_ID task) task row) /\
  forall id, id <> row_ID task -> db_tasks (store_rows trace task db) !! id = db_tasks db !! id.
Proof.
  assert (Ht : forall db', db_tasks (match trace with Some tr => upsertTrace tr db' | None => db' end) = db_tasks db')
    by (intros; by destruct trace).
  unfold store_rows, upsertTask. simpl. rewrite Ht. split.
  - rewrite lookup_insert_eq. eexists. split; [done|]. unfold row_after, same_but_time_and_state.
    by destruct (db_tasks db !! row_ID task).
  - intros id Hid. by rewrite lookup_insert_ne.
Qed.

Lemma store_rows_trace trace task db :
  match trace with
  | Some tr => is_Some (db_traces (store_rows trace task db) !! tr_ID tr) /\
      forall id, id <> tr_ID tr -> db_traces (store_rows trace task db) !! id = db_traces db !! id
  | None => db_traces (store_rows trace task db) = db_traces db
  end.
Proof.
  unfold store_rows. destruct trace; simpl; [|done]. rewrite lookup_insert_eq. split; [done|].
  intros id Hid. by rewrite lookup_insert_ne.
Qed.
End Facts.

(** ** Properties of the submission *)

Section Properties.
Context {D R : Type} `{TaskStoreLaws D} `{RedisLaws R} `{TaskCodec}.

(** C4. A submission that succeeds leaves the task in the database and in exactly
    the queue its mode asks for, indexed there: an immediate task at the end of
    the ready queue, a delayed one in the delayed queue at its execution time.  A
    task that has a row already (a rescheduled one) only changes the time and state of
    it, every other column of the row is as before, and no other task's row is touched.
    An initial task also gets a trace row, and a child task the level after its parent's;
    no other trace changes. *)
Theorem SubmitTaskWithDB_ok env t (db db' : D) (r r' : R) t' :
  SubmitTaskWithDB env t (db, r) = ((db', r'), Ok t') ->
  (exists task row data,
    ConvertToTask t' = Ok task /\ marshal_task t' = Ok data /\
    db_tasks (tables db') !! TaskID t' = Some row /\
    row_after (db_tasks (tables db) !! TaskID t') task row /\
    (if Immediate t then fifo r' = fifo r ++ [data] /\ delayed r' = delayed r
     else fifo r' = fifo r /\ delayed r' = <[data := ExecuteTime t']> (delayed r)) /\
    index r' = <[TaskID t' := if Immediate t then ReadyQueueKey else DelayedQueueKey]> (index r)) /\
  (forall id, id <> TaskID t' -> db_tasks (tables db') !! id = db_tasks (tables db) !! id) /\
  (if decide (ParentTaskID t = None /\ rescheduled t = false) then
     starts_trace (Type_ t) = true /\ is_Some (db_traces (tables db') !! TraceID t') /\
     (forall id, id <> TraceID t' -> db_traces (tables db') !! id = db_traces (tables db) !! id)
   else db_traces (tables db') = db_traces (tables db)) /\
  (forall p, ParentTaskID t = Some p -> rescheduled t = false ->
     exists prow, db_tasks (tables db) !! p = Some prow /\ Level t' = row_Level prow + 1).
Proof.
  unfold SubmitTaskWithDB. destruct (prepare env db t) as [[[t1 trace] task]|e] eqn:Ep; [|by intros [=]].
  destruct (transaction (store_rows trace task) db) as [db1 [[]|e]] eqn:Et; [|by intros [=]].
  destruct (marshal_task t1) as [data|e] eqn:Em; [|by intros [=]].
  destruct (enqueue env t1 data r) as [r1 [[]|e]] eqn:Eq; [|by intros [=]]. intros [= <- <- <-].
  apply transaction_ok in Et. apply enqueue_ok in Eq as (Hq & _ & Hidx).
  destruct (prepare_fields _ _ _ _ _ _ Ep) as (Hrow & Htr & _ & _ & Himm & Hst & Hpar & Hty & Hlev).
  rewrite Himm in Hq, Hidx. pose proof (ConvertToTask_id _ _ Hrow) as Hid.
  destruct (store_rows_task trace task (tables db)) as ((row & Hr & Hafter) & Hothers).
  pose proof (store_rows_trace trace task (tables db)) as Htrace. rewrite <- Et, Hid in *.
  split; [|split; [done|split]].
  - exists task, row, data. split_and!; done.
  - unfold trace_of in Htr. change (rescheduled t1) with (bool_decide (State_ t1 = TaskRescheduled)) in Htr.
    rewrite Hpar, Hst in Htr. fold (rescheduled t) in Htr.
    destruct (decide (ParentTaskID t = None /\ rescheduled t = false)) as [[Hp Hre]|Hn].
    + rewrite Hp, Hre in Htr.
      destruct (match algorithm_count t1 with Some n => _ | None => _ end) as [wa n].
      apply res_bind_ok in Htr as (tr & Hc & [= <-]). unfold res_wrap in Hc.
      destruct (ConvertToTrace (env_time env) wa n t1) eqn:Ec; [|done]. injection Hc as ->.
      pose proof (ConvertToTrace_ok (env_time env) wa n t1) as Hok. rewrite Ec, Hty in Hok.
      apply ConvertToTrace_fields in Ec as [Hi _]. by rewrite <- Hi.
    + destruct (ParentTaskID t); [by injection Htr as <-|].
      destruct (rescheduled t); [by injection Htr as <-|]. by destruct Hn.
  - intros p Hp Hre. rewrite Hp, Hre in Hlev.
    assert (Hl : exists l, select_level p db = Ok l).
    { unfold prepare in Ep. apply res_bind_ok in Ep as (t2 & Ha & _).
      unfold assign_level in Ha. change (ParentTaskID (fill_ids env t)) with (ParentTaskID t) in Ha.
      change (rescheduled (fill_ids env t)) with (rescheduled t) in Ha. rewrite Hp, Hre in Ha. apply res_bind_ok in Ha as (l & Hl & _).
      unfold getParentTaskLevelByID in Hl. destruct (select_level p db); [eauto|done]. }
    destruct Hl as [l Hl]. rewrite Hl in Hlev. apply select_level_ok in Hl as (prow & Hpr & <-). eauto.
Qed.

(** C36. The queues never hold a task the database does not know: whatever fails,
    if a submission changed anything in the store then the row of the task, in the
    submitted state, is in the database. *)
Theorem SubmitTaskWithDB_no_orphan env t (db db' : D) (r r' : R) o :
  SubmitTaskWithDB env t (db, r) = ((db', r'), o) ->
  keys r' = keys r \/
  exists row, db_tasks (tables db') !! TaskID (fill_ids env t) = Some row /\ row_State row = State_ t.
Proof.
  unfold SubmitTaskWithDB. destruct (prepare env db t) as [[[t1 trace] task]|e] eqn:Ep;
    [|intros [= _ <- _]; by left].
  destruct (transaction (store_rows trace task) db) as [db1 [[]|e]] eqn:Et;
    [|intros [= _ <- _]; by left].
  destruct (marshal_task t1) as [data|e] eqn:Em; [|intros [= _ <- _]; by left].
  destruct (enqueue env t1 data r) as [r1 o1]. intros [= <- _ _]. right.
  apply transaction_ok in Et.
  destruct (prepare_fields _ _ _ _ _ _ Ep) as (Hrow & _ & Hid & _ & _ & Hst & _).
  destruct (store_rows_task trace task (tables db)) as ((row & Hr & Hs & _) & _).
  rewrite (ConvertToTask_id _ _ Hrow), Hid, <- Et in Hr. exists row. split; [done|].
  rewrite Hs. unfold ConvertToTask in Hrow. by apply res_bind_ok in Hrow as (p & _ & [= <-]).
Qed.

(** A submission that fails before its transaction commits has no effect: when
    the rows are not written, neither is anything enqueued. *)
Theorem SubmitTaskWithDB_rollback env t (db db' : D) (r r' : R) e :
  SubmitTaskWithDB env t (db, r) = ((db', r'), Err e) ->
  db_tasks (tables db') !! TaskID (fill_ids env t) = None ->
  tables db' = tables db /\ r' = r.
Proof.
  unfold SubmitTaskWithDB. destruct (prepare env db t) as [[[t1 trace] task]|e'] eqn:Ep;
    [|by intros [= <- <- _]].
  destruct (transaction (store_rows trace task) db) as [db1 [[]|e']] eqn:Et.
  2:{ intros [= <- <- _] _. by apply transaction_err in Et. }
  apply transaction_ok in Et.
  destruct (prepare_fields _ _ _ _ _ _ Ep) as (Hrow & _ & Hid & _).
  destruct (store_rows_task trace task (tables db)) as ((row & Hr & _) & _).
  rewrite (ConvertToTask_id _ _ Hrow), Hid, <- Et in Hr.
  destruct (marshal_task t1) as [data|e']; [|intros [= <- _ _]; congruence].
  destruct (enqueue env t1 data r) as [r1 o1]. intros [= <- _ _]. congruence.
Qed.

(** An initial task whose type starts no trace (building a container, a cron
    job, an injection or a collection of results) cannot be submitted: the call
    fails and neither the database nor the queues change. *)
Theorem SubmitTaskWithDB_unsupported_root env t (db : D) (r : R) :
  ParentTaskID t = None -> rescheduled t = false -> starts_trace (Type_ t) = false ->
  exists e, SubmitTaskWithDB env t (db, r) = ((db, r), Err e).
Proof.
  intros Hp Hre Hty. unfold SubmitTaskWithDB.
  destruct (prepare env db t) as [[[t1 trace] task]|e] eqn:Ep; [|eauto]. exfalso.
  destruct (prepare_fields _ _ _ _ _ _ Ep) as (_ & Htr & _ & _ & _ & Hst & Hpar & Hty' & _).
  unfold trace_of, rescheduled in *. rewrite Hpar, Hp, Hst, Hre in Htr.
  destruct (match algorithm_count t1 with Some n => _ | None => _ end) as [wa n].
  apply res_bind_ok in Htr as (tr & Hc & _). unfold res_wrap in Hc.
  pose proof (ConvertToTrace_ok (env_time env) wa n t1) as Hok. rewrite Hty', Hty in Hok.
  by destruct (ConvertToTrace (env_time env) wa n t1).
Qed.
End Properties.

(** ** A concrete database, and the theorems at concrete tasks *)
Module SubmitSample.
#[local] Existing Instance ToyCodec.toy.

(** Tables and whether the next transaction is rolled back. *)
#[global] Instance memory_store : TaskStore (task_db * bool) := {
  tables := fst;
  transaction := fun body '(db, broken) =>
    if (broken : bool) then ((db, broken), Err "deadlock found") else ((body db, broken), Ok tt);
  select_level := fun id '(db, _) =>
    match db_tasks db !! id with
    | Some row => Ok (row_Level row)
    | None => Err "record not found"
    end
}.

#[global] Instance memory_store_laws : TaskStoreLaws (task_db * bool).
Proof.
  split.
  - intros body [db []] [db' b']; simpl; [done|]. by intros [= <- <-].
  - intros body [db []] [db' b'] e; simpl; [|done]. by intros [= <- <- _].
  - intros id [db b] l; simpl. destruct (db_tasks db !! id) as [row|] eqn:E; [|done].
    intros [= <-]. eauto.
Qed.

Definition env0 : submit_env :=
  mkSubmitEnv "tr-1" "ta-1" 1000 (fun _ => Ok 60) (fun e r => itoa e +:+ r).
Definition root : UnifiedTask := ToyCodec.task_of "ta-1".
Definition empty_db : task_db := mkTaskDB ∅ ∅.

Lemma SubmitTaskWithDB_ok_witness :
  let w := fst (SubmitTaskWithDB env0 root ((empty_db, false), empty_keyspace)) in
  exists row, db_tasks (tables (fst w)) !! "ta-1" = Some row /\ row_Level row = 0.
Proof.
  intros w.
  destruct (SubmitTaskWithDB_ok env0 root (empty_db, false) (fst w) empty_keyspace (snd w) root)
    as ((task & row & data & Ht & _ & Hr & _ & _) & _); [vm_compute; reflexivity|].
  exists row. split; [exact Hr|]. vm_compute in Hr. injection Hr as <-. reflexivity.
Defined.

Lemma SubmitTaskWithDB_no_orphan_witness :
  let w := SubmitTaskWithDB env0 root ((empty_db, true), empty_keyspace) in
  snd w = Err "deadlock found" /\
  (keys (snd (fst w)) = keys empty_keyspace \/
   exists row, db_tasks (tables (fst (fst w))) !! "ta-1" = Some row /\ row_State row = TaskPending).
Proof.
  intros w. split; [vm_compute; reflexivity|].
  exact (SubmitTaskWithDB_no_orphan env0 root (empty_db, true) (fst (fst w)) empty_keyspace
    (snd (fst w)) (Err "deadlock found") eq_refl).
Defined.

Lemma SubmitTaskWithDB_rollback_witness :
  let w := SubmitTaskWithDB env0 root ((empty_db, true), empty_keyspace) in
  tables (fst (fst w)) = empty_db /\ snd (fst w) = empty_keyspace.
Proof.
  intros w.
  exact (SubmitTaskWithDB_rollback env0 root (empty_db, true) (fst (fst w)) empty_keyspace
    (snd (fst w)) "deadlock found" eq_refl eq_refl).
Defined.

Definition build_image : UnifiedTask :=
  {| TaskID := "ta-2"; Type_ := TaskTypeBuildContainer; Immediate := true; ExecuteTime := 0;
     CronExpr := ""; ReStartNum := 0; Retry := mkRetry 0 0; Payload := ∅; Level := 0;
     Sequence := 0; ParentTaskID := None; TraceID := "tr-2"; GroupID := "g";
     ProjectID := 1; UserID := 1; State_ := TaskPending; TraceCarrier := None;
     GroupCarrier := None; Extra := None |}.

Lemma SubmitTaskWithDB_unsupported_root_witness :
  exists e, SubmitTaskWithDB env0 build_image ((empty_db, false), empty_keyspace) =
            (((empty_db, false), empty_keyspace), Err e).
Proof. apply SubmitTaskWithDB_unsupported_root; reflexivity. Defined.
End SubmitSample.
