(* ===== verification/TaskWorker.v ===== *)
(** * The worker ([service/consumer/task.go], [distribute_tasks.go])

    The scheduler that promotes delayed tasks, the consumer loop, the execution of
    a task with its retries, and the cancellation.  The executors of the six task
    types are an argument ([run_executor]); what they do to the world of the
    worker is arbitrary. *)

From S2P Require Import Prelude GoStrings Consts Redis Gateway Task TaskQueue TaskSubmit.

(** ** The scheduler *)

Section Scheduler.
Context {R : Type} `{RedisServer R} `{TaskCodec}.

Record sched_env := mkSchedEnv {
  sched_now : Z;                       (* nanoseconds *)
  sched_cron : string -> res Z;        (* CronNextTime, in seconds *)
  sched_json : Z -> string -> string
}.

(** One round of the loop over the promoted tasks; [false] is its [return]. *)
Definition reschedule_cron (env : sched_env) (taskData : string) : M R bool :=
  match unmarshal_task taskData with
  | Err _ => m_ret true
  | Ok task =>
      if negb (String.eqb (CronExpr task) "") then
        match sched_cron env (CronExpr task) with
        | Err _ =>
            ignore_err (HandleCronRescheduleFailure (sched_now env) taskData) ;;! m_ret true
        | Ok nextTime =>
            let task := set_execute_time nextTime task in
            match marshal_task task with
            | Err _ => m_ret false
            | Ok taskData =>
                let! submitted := attempt (SubmitDelayedTask taskData (TaskID task) (ExecuteTime task)) in
                (match submitted with
                 | Err _ => ignore_err (HandleCronRescheduleFailure (sched_now env) taskData)
                 | Ok _ => EmitTaskScheduled (sched_json env) task (ExecuteTime task)
                             TaskScheduledReasonCronNext
                 end) ;;!
                m_ret true
            end
        end
      else m_ret true
  end.

Fixpoint reschedule_all (env : sched_env) (tasks : list string) : M R unit :=
  match tasks with
  | [] => m_ret tt
  | taskData :: rest =>
      let! continue_ := reschedule_cron env taskData in
      if continue_ then reschedule_all env rest else m_ret tt
  end.

Definition processDelayedTasks (env : sched_env) : M R unit :=
  let! result := attempt (ProcessDelayedTasks (sched_now env / second)) in
  match result with
  | Err _ => m_ret tt
  | Ok tasks => reschedule_all env tasks
  end.
End Scheduler.

(** ** The consumer loop *)
Section Consumer.
Context {R : Type} `{RedisServer R}.

Inductive consumed := Idle | Spawn (taskData : string).

(** One round of [ConsumeTasks]. *)
Definition consume_once : M R consumed :=
  let! acquired := AcquireConcurrencyLock in
  if acquired then
    let! task := attempt GetTask in
    match task with
    | Err _ => ReleaseConcurrencyLock ;;! m_ret Idle
    | Ok taskData => m_ret (Spawn taskData)
    end
  else m_ret Idle.
End Consumer.

(** ** The world of the worker *)

(** A trace update started in a goroutine by [updateTraceState]. *)
Record trace_request := mkTraceRequest {
  rq_trace : string; rq_task : string; rq_state : TaskState; rq_event : option string
}.

Record worker (D R : Type) := mkWorker {
  wk_redis : R;
  wk_db : D;
  wk_spawned : list trace_request;
  wk_cancel : gset string   (* the keys of taskCancelFuncs *)
}.
Arguments mkWorker {D R} _ _ _ _.
Arguments wk_redis {D R} _.
Arguments wk_db {D R} _.
Arguments wk_spawned {D R} _.
Arguments wk_cancel {D R} _.

Class WorkerDB (D : Type) := {
  (** [Model(&Task{}).Where("id = ?").Update("state", state)]. *)
  update_state : string -> TaskState -> D -> D * res unit;
  (** The stored state of a task. *)
  state_of : D -> string -> option TaskState
}.

Class WorkerDBLaws (D : Type) `{WorkerDB D} := {
  update_state_ok : forall id st d d', update_state id st d = (d', Ok tt) ->
    state_of d id <> None -> state_of d' id = Some st
}.

Section Worker.
Context {D R : Type} `{WorkerDB D} `{RedisServer R} `{TaskCodec}.
#[local] Abbreviation W := (worker D R).

Definition on_redis {A} (m : M R A) : M W A := fun w =>
  let '(r', o) := m (wk_redis w) in (mkWorker r' (wk_db w) (wk_spawned w) (wk_cancel w), o).
Definition on_db {A} (m : M D A) : M W A := fun w =>
  let '(d', o) := m (wk_db w) in (mkWorker (wk_redis w) d' (wk_spawned w) (wk_cancel w), o).
Definition spawn (rq : trace_request) : M W unit := fun w =>
  (mkWorker (wk_redis w) (wk_db w) (wk_spawned w ++ [rq]) (wk_cancel w), Ok tt).

Definition registerCancelFunc (taskID : string) : M W unit := fun w =>
  (mkWorker (wk_redis w) (wk_db w) (wk_spawned w) ({[taskID]} ∪ wk_cancel w), Ok tt).
Definition unregisterCancelFunc (taskID : string) : M W unit := fun w =>
  (mkWorker (wk_redis w) (wk_db w) (wk_spawned w) (wk_cancel w ∖ {[taskID]}), Ok tt).

(** [publishEvent]: the position comes from the runtime, a payload that cannot be
    encoded makes the publication fail, and every failure is only logged. *)
Definition publishEvent (caller : string * string * string) (traceID taskID : string)
    (taskType : TaskType) (eventName : string) (payload : res string) : M W unit :=
  let '(file, line, fn) := caller in
  match payload with
  | Err _ => m_ret tt
  | Ok json => on_redis (ignore_err (XAdd (StreamTraceLogKey traceID)
                 (ToRedisStream taskID taskType file fn line eventName json)))
  end.

(** [taskStateUpdate], with the database and the gateway already set. *)
Record taskStateUpdate := mkStateUpdate {
  su_traceID : string; su_taskID : string; su_taskType : TaskType;
  su_taskState : TaskState; su_message : string;
  su_event : option (string * res string)   (* event name and encoded payload *)
}.

Definition newTaskStateUpdate (traceID taskID : string) (ty : TaskType) (st : TaskState)
    (message : string) : taskStateUpdate := mkStateUpdate traceID taskID ty st message None.

Definition withEvent (u : taskStateUpdate) (eventType : string) (payload : res string)
  : taskStateUpdate :=
  mkStateUpdate (su_traceID u) (su_taskID u) (su_taskType u) (su_taskState u) (su_message u)
    (Some (eventType, payload)).

Definition taskCompleted (task : UnifiedTask) : taskStateUpdate :=
  newTaskStateUpdate (TraceID task) (TaskID task) (Type_ task) TaskCompleted
    ("Task " +:+ TaskID task +:+ " completed").

Definition taskCompletedWithEvent (task : UnifiedTask) (eventType : string) (payload : res string)
  : taskStateUpdate := withEvent (taskCompleted task) eventType payload.

(** The trace is recomputed in a goroutine: the call itself cannot fail. *)
Definition updateTraceState (u : taskStateUpdate) : M W unit :=
  spawn (mkTraceRequest (su_traceID u) (su_taskID u) (su_taskState u) (fst <$> su_event u)).

(** Failures are only logged, but stop the steps that follow. *)
Definition updateTaskState (caller : string * string * string) (u : taskStateUpdate) : M W unit :=
  ignore_err
    (match su_event u with
     | Some (name, payload) =>
         publishEvent caller (su_traceID u) (su_taskID u) (su_taskType u) name payload
     | None => m_ret tt
     end ;;!
     on_db (update_state (su_taskID u) (su_taskState u)) ;;!
     updateTraceState u).

(** ** Execution *)

(** An executor gets a pointer to the task: it returns the task as it leaves it
    (rescheduling assigns to it), which is what the next attempt starts from. *)
Context (run_executor : UnifiedTask -> W -> W * UnifiedTask * outcome (res unit)).
(** [errors.Is(err, context.Canceled) || errors.Is(err, context.DeadlineExceeded)]. *)
Context (is_cancellation : string -> bool).

Record exec_env := mkExecEnv {
  ee_caller : string * string * string;
  ee_now : Z;                        (* at the final failure *)
  ee_canceled : nat -> bool;         (* whether retryCtx is done while waiting before an attempt *)
  ee_json : string -> string -> res string  (* InfoPayloadTemplate *)
}.

Definition has_executor (ty : TaskType) : bool :=
  match ty with
  | TaskTypeBuildContainer | TaskTypeRestartPedestal | TaskTypeFaultInjection
  | TaskTypeBuildDatapack | TaskTypeRunAlgorithm | TaskTypeCollectResult => true
  | _ => false
  end.

(** [Panics] is recovered by the deferred function of [dispatchTask], whose result
    is not named: the caller sees nil. *)
Definition dispatchTask (env : exec_env) (task : UnifiedTask) (w : W) : W * UnifiedTask * res unit :=
  let w1 := fst (publishEvent (ee_caller env) (TraceID task) (TaskID task) (Type_ task) EventTaskStarted
                   (marshal_task task) w) in
  if has_executor (Type_ task) then
    match run_executor task w1 with
    | (w2, task', Returns r) => (w2, task', r)
    | (w2, task', Panics) => (w2, task', Ok tt)
    end
  else (w1, task, Err ("unknown task type: " +:+ itoa (TaskType_code (Type_ task)))).

Inductive retry_status := Succeeded | Canceled_ | Exhausted.

(** The loop over the attempts: [left] of them to go, the next is number
    [attempt]; the errors met so far are [errs].  No executor assigns to the retry
    policy, so the number of attempts is that of the task at the start. *)
Fixpoint attempts (env : exec_env) (task : UnifiedTask) (left attempt_ : nat) (errs : list string)
    (w : W) : W * UnifiedTask * retry_status * list string :=
  match left with
  | O => (w, task, Exhausted, errs)
  | S left' =>
      if (0 <? attempt_)%nat && ee_canceled env attempt_ then (w, task, Canceled_, errs)
      else
        let '(w1, task, r) := dispatchTask env task w in
        match r with
        | Ok _ => (w1, task, Succeeded, errs)
        | Err e =>
            if is_cancellation e then (w1, task, Canceled_, errs ++ [e])
            else
              let '(w2, _) := publishEvent (ee_caller env) (TraceID task) (TaskID task) (Type_ task)
                EventTaskRetryStatus (ee_json env (GetTaskStateName (TaskState_code TaskError)) e) w1 in
              attempts env task left' (S attempt_) (errs ++ [e]) w2
        end
  end.

Definition handleFinalFailure (env : exec_env) (task : UnifiedTask) : M W unit :=
  match marshal_task task with
  | Err _ => m_ret tt
  | Ok taskData =>
      on_redis (ignore_err (HandleFailedTask (ee_now env) taskData (BackoffSec (Retry task))))
  end.

Definition failure_message (task : UnifiedTask) (errs : list string) : string :=
  "Task failed after " +:+ itoa (MaxAttempts (Retry task)) +:+ " attempts, errors: [["
  +:+ join " " errs +:+ "]]".

(** The argument of the deferred [unregisterCancelFunc] is read at the start. *)
Definition executeTaskWithRetry (env : exec_env) (task : UnifiedTask) (w : W)
  : W * UnifiedTask * retry_status * list string :=
  let w1 := fst (registerCancelFunc (TaskID task) w) in
  let '(w2, task', status, errs) :=
    attempts env task (Z.to_nat (MaxAttempts (Retry task) + 1)) 0 [] w1 in
  let w3 :=
    match status with
    | Exhausted =>
        let w' := fst (handleFinalFailure env task' w2) in
        fst (updateTaskState (ee_caller env)
          (newTaskStateUpdate (TraceID task') (TaskID task') (Type_ task') TaskError
            (failure_message task' errs)) w')
    | _ => w2
    end in
  (fst (unregisterCancelFunc (TaskID task) w3), task', status, errs).

(** [processTask]: the slot is released on every path. *)
Definition processTask (env : exec_env) (taskData : string) (w : W) : W :=
  let w' :=
    match unmarshal_task taskData with
    | Err _ => w
    | Ok task => let '(w1, _, _, _) := executeTaskWithRetry env task w in w1
    end in
  fst (on_redis ReleaseConcurrencyLock w').

(** ** Cancellation *)

Definition CancelTask (taskID : string) : M W unit := fun w =>
  let exists_ := bool_decide (taskID ∈ wk_cancel w) in
  let '(w1, queueType) := on_redis (GetTaskQueue taskID) w in
  let w2 :=
    match queueType with
    | Ok q =>
        if String.eqb q ReadyQueueKey
        then fst (on_redis (RemoveFromList ReadyQueueKey taskID) w1)
        else if String.eqb q DelayedQueueKey
        then fst (on_redis (RemoveFromZSet DelayedQueueKey taskID) w1)
        else if String.eqb q DeadLetterKey
        then fst (on_redis (RemoveFromZSet DeadLetterKey taskID) w1)
        else w1
    | Err _ => w1
    end in
  let w3 := fst (on_redis (DeleteTaskIndex taskID) w2) in
  (w3, if exists_ || is_ok queueType then Ok tt else Err ("task " +:+ taskID +:+ " not found")).
End Worker.

(** ** Facts on the execution *)

Section ExecFacts.
Context {D R : Type} `{WorkerDB D} `{RedisServer R} `{TaskCodec}.
Context (run_executor : UnifiedTask -> worker D R -> worker D R * UnifiedTask * outcome (res unit)).
Context (is_cancellation : string -> bool).

Lemma attempts_spec env task left k errs w w' task' status errs' :
  attempts run_executor is_cancellation env task left k errs w = (w', task', status, errs') ->
  exists new, errs' = errs ++ new /\
  match status with
  | Exhausted => length new = left /\ forallb (fun e => negb (is_cancellation e)) new = true
  | Succeeded => (length new < left)%nat /\ forallb (fun e => negb (is_cancellation e)) new = true
  | Canceled_ => (length new <= left)%nat
  end.
Proof.
  revert task k errs w. induction left as [|left IH]; intros task k errs w; simpl.
  { intros [= <- <- <- <-]. exists []. by rewrite app_nil_r. }
  destruct ((0 <? k)%nat && ee_canceled env k).
  { intros [= <- <- <- <-]. exists []. rewrite app_nil_r. split; [done|]. simpl. lia. }
  destruct (dispatchTask run_executor env task w) as [[w1 task1] [u|e]].
  { intros [= <- <- <- <-]. exists []. rewrite app_nil_r. split; [done|]. simpl. split; [lia|done]. }
  destruct (is_cancellation e) eqn:Ec.
  { intros [= <- <- <- <-]. exists [e]. split; [done|]. simpl. lia. }
  destruct (publishEvent _ _ _ _ _ _ w1) as [w2 o]. intros Hx.
  apply IH in Hx as (new & -> & Hs). exists (e :: new). split; [by rewrite <- app_assoc|].
  destruct status; simpl; [destruct Hs as [? ->] | lia | destruct Hs as [? ->]];
    rewrite Ec; simpl; split; (done || lia).
Qed.

(** C32. The retry loop stops by itself: it tries at most [MaxAttempts + 1] times,
    declares the task failed only after that many attempts none of which succeeded
    or was cancelled, reports success only when fewer failed, and in every case
    removes the cancel function it registered. *)
Theorem executeTaskWithRetry_attempts env task w w' task' status errs :
  executeTaskWithRetry run_executor is_cancellation env task w = (w', task', status, errs) ->
  let n := Z.to_nat (MaxAttempts (Retry task) + 1) in
  match status with
  | Exhausted => length errs = n /\ forallb (fun e => negb (is_cancellation e)) errs = true
  | Succeeded => (length errs < n)%nat /\ forallb (fun e => negb (is_cancellation e)) errs = true
  | Canceled_ => (length errs <= n)%nat
  end /\ TaskID task ∉ wk_cancel w'.
Proof.
  unfold executeTaskWithRetry.
  destruct (attempts _ _ _ _ _ _ _ _) as [[[w2 task2] st] es] eqn:Ea. intros [= <- <- <- <-].
  apply attempts_spec in Ea as (new & -> & Hs). simpl. split; [done|]. set_solver.
Qed.

(** A panic in an executor is swallowed: the deferred recovery makes the
    dispatch return nil, so the task counts as executed successfully although it
    is neither retried nor moved to the dead letters, and its stored state is
    whatever the executor left behind. *)
Theorem executeTaskWithRetry_panic_is_success env task w :
  0 <= MaxAttempts (Retry task) -> has_executor (Type_ task) = true ->
  (forall w0, snd (run_executor task w0) = Panics) ->
  exists w' w0,
    let left_behind := fst (fst (run_executor task w0)) in
    executeTaskWithRetry run_executor is_cancellation env task w =
      (w', snd (fst (run_executor task w0)), Succeeded, []) /\
    wk_db w' = wk_db left_behind /\ wk_redis w' = wk_redis left_behind /\
    wk_spawned w' = wk_spawned left_behind.
Proof.
  intros Hmax Hex Hp. unfold executeTaskWithRetry.
  destruct (Z.to_nat (MaxAttempts (Retry task) + 1)) as [|n] eqn:En; [lia|].
  simpl attempts. unfold dispatchTask. rewrite Hex.
  set (w0 := fst (publishEvent _ _ _ _ _ _ _)).
  pose proof (Hp w0) as Hp0. destruct (run_executor task w0) as [[w1 t1] [r|]] eqn:Er; [done|].
  eexists _, w0. cbv zeta. rewrite Er. split; [done|]. done.
Qed.

(** After the last attempt the task is dead: its data, as the executors left
    it, is in the dead letter set with the backoff as score, the last statement on
    the database sets its state to error, and, when that statement succeeds, an
    update of its trace is started. *)
Theorem executeTaskWithRetry_final_failure `{!RedisReliable R} env task0 data w w' task errs :
  executeTaskWithRetry run_executor is_cancellation env task0 w = (w', task, Exhausted, errs) ->
  marshal_task task = Ok data ->
  dead (wk_redis w') !! data =
    Some ((ee_now env + wrap64 (BackoffSec (Retry task) * second)) / second) /\
  exists d, wk_db w' = fst (update_state (TaskID task) TaskError d) /\
    (is_ok (snd (update_state (TaskID task) TaskError d)) = true ->
     mkTraceRequest (TraceID task) (TaskID task) TaskError None ∈ wk_spawned w').
Proof.
  unfold executeTaskWithRetry.
  destruct (attempts _ _ _ _ _ _ _ _) as [[[w2 task2] st] es] eqn:Ea. intros [= <- -> -> <-] Hm.
  unfold handleFinalFailure. rewrite Hm. unfold on_redis at 1 2. unfold ignore_err at 1 2.
  unfold HandleFailedTask, m_bind.
  set (score := (ee_now env + wrap64 (BackoffSec (Retry task) * second)) / second).
  pose proof (exec_reliable _ (ZADD DeadLetterKey score data) (wk_redis w2)) as Hz.
  destruct (exec (ZADD DeadLetterKey score data) (wk_redis w2)) as [r1 o1]. simpl in Hz.
  injection Hz as Hk ->.
  assert (Hd1 : dead r1 !! data = Some score).
  { unfold dead. rewrite Hk, kzset_upd, decide_True by done. by simplify_map_eq. }
  assert (Hd2 : dead (fst (index_dead data r1)) !! data = Some score).
  { unfold index_dead. destruct (unmarshal_task data) as [t|e]; [|done].
    destruct (negb _); [|done].
    pose proof (exec_reliable _ (HSET TaskIndexKey (TaskID t) DeadLetterKey) r1) as Hh.
    destruct (exec _ r1) as [r2 o2]. simpl in Hh. injection Hh as Hk2 _.
    unfold dead. simpl. rewrite Hk2.
    change (kzset ?k (upd_hash ?a ?b ?x)) with (kzset k x). exact Hd1. }
  destruct (index_dead data r1) as [r2 o2]. simpl in Hd2.
  simpl. unfold updateTaskState, ignore_err, m_bind, m_ret, on_db, newTaskStateUpdate. simpl.
  destruct (update_state (TaskID task) TaskError (wk_db w2)) as [d' [u|e]] eqn:Eu; simpl.
  - split; [done|]. exists (wk_db w2). rewrite Eu. simpl. split; [done|]. intros _. set_solver.
  - split; [done|]. exists (wk_db w2). rewrite Eu. done.
Qed.
End ExecFacts.

(** ** Facts on the cancellation *)

Section CancelFacts.
Context {D R : Type} `{RedisReliable R} `{TaskCodecLaws}.

Lemma HGET_reliable k f (r : R) v :
  khash k (keys r) !! f = v ->
  exists r', exec (HGET k f) r = (r', match v with Some x => Ok x | None => Err redis_Nil end) /\
    keys r' = keys r.
Proof.
  intros Hv. pose proof (exec_reliable _ (HGET k f) r) as Hx. simpl in Hx. rewrite Hv in Hx.
  destruct (exec (HGET k f) r) as [r' o]. exists r'. destruct v; injection Hx as Hk Ho; by rewrite Ho.
Qed.

Lemma HDEL_reliable k f (r : R) :
  keys (fst (exec (HDEL k f) r)) = upd_hash k (delete f (khash k (keys r))) (keys r).
Proof.
  pose proof (exec_reliable _ (HDEL k f) r) as Hx. simpl in Hx. congruence.
Qed.

Lemma RemoveFromList_reliable key taskID (r : R) :
  keys (fst (RemoveFromList key taskID r)) = fst (removeFromListScript key taskID (keys r)).
Proof.
  pose proof (exec_reliable _ (EVAL (removeFromListScript key taskID)) r) as Hx. simpl in Hx.
  unfold RemoveFromList, m_bind, m_wrap in *.
  destruct (exec (EVAL (removeFromListScript key taskID)) r) as [r' o].
  destruct (removeFromListScript key taskID (keys r)) as [ks o']. simpl in Hx. injection Hx as Hk Ho. rewrite Ho.
  by destruct o'.
Qed.

(** A cancellation of a task indexed as ready, as a function of the keyspace. *)
Lemma CancelTask_ready_keys taskID (w : worker D R) :
  index (wk_redis w) !! taskID = Some ReadyQueueKey ->
  let ks := fst (removeFromListScript ReadyQueueKey taskID (keys (wk_redis w))) in
  snd (CancelTask taskID w) = Ok tt /\
  keys (wk_redis (fst (CancelTask taskID w))) =
    upd_hash TaskIndexKey (delete taskID (khash TaskIndexKey ks)) ks.
Proof.
  intros Hi. destruct (HGET_reliable _ _ _ _ Hi) as (r1 & Hg & Hk1).
  unfold CancelTask, on_redis, GetTaskQueue. rewrite Hg. simpl.
  destruct (RemoveFromList ReadyQueueKey taskID r1) as [r2 o2] eqn:Er. simpl.
  unfold DeleteTaskIndex. destruct (exec (HDEL TaskIndexKey taskID) r2) as [r3 o3] eqn:Ed. simpl.
  split; [by rewrite orb_true_r|].
  change r3 with (fst (r3, o3)). rewrite <- Ed, HDEL_reliable.
  change r2 with (fst (r2, o2)). by rewrite <- Er, RemoveFromList_reliable, Hk1.
Qed.

(** Cancelling a task that waits in the ready queue takes every entry of the
    task out of it and drops its index; the entries of the other tasks keep their
    order, and the delayed and dead tasks are not touched. *)
Theorem CancelTask_ready taskID (w : worker D R) :
  index (wk_redis w) !! taskID = Some ReadyQueueKey ->
  forallb is_decoded (ready (wk_redis w)) = true ->
  exists w', CancelTask taskID w = (w', Ok tt) /\
    ready (wk_redis w') = filter (fun i => is_task taskID i = false) (ready (wk_redis w)) /\
    index (wk_redis w') = delete taskID (index (wk_redis w)) /\
    delayed (wk_redis w') = delayed (wk_redis w) /\ dead (wk_redis w') = dead (wk_redis w).
Proof.
  intros Hi Hall. destruct (CancelTask_ready_keys taskID w Hi) as [Ho Hk].
  destruct (CancelTask taskID w) as [w' o]. simpl in Ho, Hk. subst o. exists w'. split; [done|].
  destruct (removeFromListScript ReadyQueueKey taskID (keys (wk_redis w))) as [ks o] eqn:Es.
  apply removeFromListScript_spec in Es as [(Hz & Hh & _) Hm]. unfold ready in *.
  rewrite Hall in Hm. destruct Hm as [_ Hl].
  unfold index, delayed, dead, kzset. rewrite Hk. simpl. rewrite Hz.
  rewrite khash_upd, decide_True by done. unfold khash. rewrite Hh.
  change (klist ReadyQueueKey (upd_hash ?a ?b ks)) with (klist ReadyQueueKey ks).
  rewrite Hl. done.
Qed.

(** A cancellation reports success even when nothing was removed: with an item
    that cannot be decoded ahead of it in the ready queue, the task stays there and
    will be executed, while its index is gone, so that a second cancellation no
    longer finds it. *)
Theorem CancelTask_silent_failure taskID (w : worker D R) pre bad post e :
  index (wk_redis w) !! taskID = Some ReadyQueueKey ->
  ready (wk_redis w) = pre ++ bad :: post ->
  forallb is_decoded pre = true -> cjson_task_id bad = Err e ->
  forallb (fun i => negb (is_task taskID i)) pre = true ->
  exists w', CancelTask taskID w = (w', Ok tt) /\
    ready (wk_redis w') = ready (wk_redis w) /\ index (wk_redis w') !! taskID = None.
Proof.
  intros Hi Hl Hdec Hbad Hno. destruct (CancelTask_ready_keys taskID w Hi) as [Ho Hk].
  destruct (CancelTask taskID w) as [w' o]. simpl in Ho, Hk. subst o. exists w'. split; [done|].
  destruct (removeFromListScript ReadyQueueKey taskID (keys (wk_redis w))) as [ks o] eqn:Es.
  apply (removeFromListScript_aborts _ _ _ _ _ pre bad post e) in Es as [_ Hk2]; [|done..].
  unfold ready, index in *. rewrite Hk. rewrite khash_upd, decide_True by done.
  change (klist ReadyQueueKey (upd_hash ?a ?b ?x)) with (klist ReadyQueueKey x). simpl.
  rewrite lookup_delete_eq, Hk2. split; [|done]. rewrite Hl. f_equal.
  clear -Hno. unfold marked. induction pre as [|x pre IH]; [done|]. simpl in Hno. bool_to_prop.
  rewrite fmap_cons, IH by done. destruct (is_task taskID x); done.
Qed.

(** A task without index entry that no worker is running is "not found", and
    the queues are left alone. *)
Theorem CancelTask_not_found taskID (w : worker D R) :
  index (wk_redis w) !! taskID = None -> taskID ∉ wk_cancel w ->
  exists w', CancelTask taskID w = (w', Err ("task " +:+ taskID +:+ " not found")) /\
    ready (wk_redis w') = ready (wk_redis w) /\ delayed (wk_redis w') = delayed (wk_redis w) /\
    dead (wk_redis w') = dead (wk_redis w).
Proof.
  intros Hi Hc. destruct (HGET_reliable _ _ _ _ Hi) as (r1 & Hg & Hk1).
  unfold CancelTask, on_redis, GetTaskQueue. rewrite Hg, bool_decide_false by done. simpl.
  unfold DeleteTaskIndex. destruct (exec (HDEL TaskIndexKey taskID) r1) as [r3 o3] eqn:Ed. simpl.
  eexists. split; [done|]. simpl. pose proof (HDEL_reliable TaskIndexKey taskID r1) as Hd.
  rewrite Ed, Hk1 in Hd. simpl in Hd. unfold ready, delayed, dead. rewrite Hd. done.
Qed.
End CancelFacts.

(** ** Facts on the scheduler and the consumer *)

Section LoopFacts.
Context {R : Type} `{RedisReliable R} `{TaskCodec}.

Lemma served {A} (c : cmd A) (r r' : R) o :
  exec c r = (r', o) -> cmd_step (chosen r) c (keys r) = (keys r', o).
Proof. intros E. pose proof (exec_reliable _ c r) as Hx. rewrite E in Hx. done. Qed.

(** [r'] keeps the ready queue and every delayed task of [r]. *)
Definition only_adds (r r' : R) : Prop :=
  ready r' = ready r /\ forall m, is_Some (delayed r !! m) -> is_Some (delayed r' !! m).

#[local] Instance only_adds_preorder : PreOrder only_adds.
Proof. split; unfold only_adds; [done|]. intros x y z [A B] [C E]. split; [congruence|auto]. Qed.

Lemma ZADD_adds k score m r r' o :
  exec (ZADD k score m) r = (r', o) ->
  only_adds r r' /\ o = Ok tt /\ (k = DelayedQueueKey -> is_Some (delayed r' !! m)).
Proof.
  intros E. apply served in E. simpl in E. injection E as Ek Eo.
  unfold only_adds, ready, delayed. rewrite <- Ek.
  change (klist ?q (upd_zset ?a ?b ?x)) with (klist q x). rewrite kzset_upd.
  split_and!; [done| |done|].
  - intros m' Hm. case_decide; [subst k|done]. destruct (decide (m' = m)) as [->|];
      [by rewrite lookup_insert_eq | by rewrite lookup_insert_ne].
  - intros ->. rewrite decide_True, lookup_insert_eq by done. done.
Qed.

Lemma HSET_adds k f v r r' o : exec (HSET k f v) r = (r', o) -> only_adds r r' /\ o = Ok tt.
Proof.
  intros E. apply served in E. simpl in E. injection E as Ek Eo.
  unfold only_adds, ready, delayed. rewrite <- Ek. done.
Qed.

Lemma HandleCron_adds now data r : only_adds r (fst (HandleCronRescheduleFailure now data r)).
Proof.
  unfold HandleCronRescheduleFailure, m_bind, index_dead.
  destruct (exec (ZADD DeadLetterKey (now / second) data) r) as [r1 o1] eqn:Ez.
  apply ZADD_adds in Ez as (Ha & -> & _).
  destruct (unmarshal_task data) as [t|e]; [|done]. destruct (negb _); [|done].
  destruct (exec (HSET _ _ _) r1) as [r2 o2] eqn:Eh. apply HSET_adds in Eh as [Hb _]. simpl. by etrans.
Qed.

Lemma SubmitDelayed_adds data id at_ r :
  only_adds r (fst (SubmitDelayedTask data id at_ r)) /\
  snd (SubmitDelayedTask data id at_ r) = Ok tt /\
  is_Some (delayed (fst (SubmitDelayedTask data id at_ r)) !! data).
Proof.
  unfold SubmitDelayedTask, m_bind.
  destruct (exec (ZADD DelayedQueueKey at_ data) r) as [r1 o1] eqn:Ez.
  apply ZADD_adds in Ez as (Ha & -> & Hin).
  destruct (exec (HSET _ _ _) r1) as [r2 o2] eqn:Eh. apply HSET_adds in Eh as [Hb ->]. simpl.
  split_and!; [by etrans|done|]. by apply Hb, Hin.
Qed.

Lemma Emit_adds sj t e reason r : only_adds r (fst (EmitTaskScheduled sj t e reason r)).
Proof.
  unfold EmitTaskScheduled, XAdd, ignore_err, m_wrap. destruct (String.eqb _ ""); [done|].
  destruct (exec _ r) as [r1 o1] eqn:Ex. apply served in Ex. simpl in Ex. injection Ex as Ek _.
  unfold only_adds, ready, delayed. simpl. rewrite <- Ek. done.
Qed.

Lemma reschedule_cron_adds env data r :
  only_adds r (fst (reschedule_cron env data r)) /\
  forall task next data', unmarshal_task data = Ok task -> CronExpr task <> "" ->
    sched_cron env (CronExpr task) = Ok next ->
    marshal_task (set_execute_time next task) = Ok data' ->
    is_Some (delayed (fst (reschedule_cron env data r)) !! data').
Proof.
  unfold reschedule_cron. destruct (unmarshal_task data) as [t|e]; [|split; [done|by intros ???[=]]].
  destruct (String.eqb_spec (CronExpr t) "") as [E|E]; simpl.
  { split; [done|]. intros t' next data' [= <-]. done. }
  destruct (sched_cron env (CronExpr t)) as [nt|e] eqn:Ec.
  2:{ unfold m_bind, ignore_err. simpl. split; [apply HandleCron_adds|]. intros t' next data' [= <-]. congruence. }
  destruct (marshal_task (set_execute_time nt t)) as [d|e] eqn:Em.
  2:{ split; [done|]. intros t' next data' [= <-]. congruence. }
  destruct (SubmitDelayed_adds d (TaskID t) (ExecuteTime (set_execute_time nt t)) r) as (Ha & Ho & Hs).
  simpl in *. unfold m_bind, attempt.
  destruct (SubmitDelayedTask _ _ _ r) as [r1 o1]. simpl in *. subst o1.
  pose proof (Emit_adds (sched_json env) (set_execute_time nt t) nt TaskScheduledReasonCronNext r1) as Hb.
  destruct (EmitTaskScheduled _ _ _ _ r1) as [r2 o2] eqn:Ee. simpl in *.
  assert (Ho2 : o2 = Ok tt).
  { unfold EmitTaskScheduled, ignore_err, m_ret in Ee. destruct (String.eqb _ "") in Ee; by injection Ee as _ <-. }
  subst o2. simpl. split; [by etrans|]. intros t' next data' [= <-] _ Hn Hd.
  assert (data' = d) as -> by congruence. by apply Hb.
Qed.

Lemma reschedule_all_adds env tasks r :
  (forall t, is_ok (marshal_task t) = true) ->
  only_adds r (fst (reschedule_all env tasks r)) /\
  forall data task next data', data ∈ tasks -> unmarshal_task data = Ok task -> CronExpr task <> "" ->
    sched_cron env (CronExpr task) = Ok next ->
    marshal_task (set_execute_time next task) = Ok data' ->
    is_Some (delayed (fst (reschedule_all env tasks r)) !! data').
Proof.
  intros Hm. revert r. induction tasks as [|d tasks IH]; intros r; simpl.
  { split; [done|]. intros ???? Hin. by apply not_elem_of_nil in Hin. }
  destruct (reschedule_cron_adds env d r) as [Ha Hs].
  assert (Hc : snd (reschedule_cron env d r) = Ok true).
  { clear Ha Hs. unfold reschedule_cron. destruct (unmarshal_task d) as [t|e]; [|done].
    destruct (negb _); [|done]. destruct (sched_cron _ _) as [nt|e]; [|done].
    specialize (Hm (set_execute_time nt t)). destruct (marshal_task _) as [d'|e]; [|done].
    unfold m_bind, attempt. destruct (SubmitDelayedTask _ _ _ r) as [r1 [u|e]]; [|done].
    unfold EmitTaskScheduled, ignore_err, m_ret. by destruct (String.eqb _ ""). }
  unfold m_bind. destruct (reschedule_cron env d r) as [r1 o1]. simpl in Ha, Hs, Hc. subst o1.
  destruct (IH r1) as [Hb Ht]. split; [by etrans|].
  intros data task next data' Hin. apply elem_of_cons in Hin as [->|Hin]; [|by apply Ht].
  intros. apply Hb. by eapply Hs.
Qed.

(** A recurring task that comes due is both made ready and scheduled again:
    after a served round of the scheduler its data is in the ready queue and the
    same task, with the next firing time of its expression, is in the delayed
    queue. *)
Theorem processDelayedTasks_reschedules_cron env r r1 tasks data task next data' :
  (forall t, is_ok (marshal_task t) = true) ->
  ProcessDelayedTasks (sched_now env / second) r = (r1, Ok tasks) ->
  data ∈ tasks -> unmarshal_task data = Ok task -> CronExpr task <> "" ->
  sched_cron env (CronExpr task) = Ok next ->
  marshal_task (set_execute_time next task) = Ok data' ->
  let r' := fst (processDelayedTasks env r) in
  data ∈ ready r' /\ is_Some (delayed r' !! data').
Proof.
  intros Hm Hp Hin Hu Hc Hn Hd. unfold processDelayedTasks, m_bind, attempt. rewrite Hp.
  destruct (reschedule_all_adds env tasks r1 Hm) as [[Hr _] Hs]. split; [|by eapply Hs].
  rewrite Hr. unfold ProcessDelayedTasks, m_bind, attempt in Hp.
  destruct (exec (EVAL _) r) as [r2 [ts|e]] eqn:Ee.
  2:{ destruct (String.eqb e redis_Nil); [|done]. injection Hp as _ <-. by apply not_elem_of_nil in Hin. }
  injection Hp as <- <-. apply served in Ee. simpl in Ee. unfold m_wrap in Ee.
  destruct (delayedTaskScript _ (keys r)) as [ks [ts'|e]] eqn:Es; simpl in Ee; [|done].
  injection Ee as Hk <-. apply delayedTaskScript_ok in Es as [[-> Hsame] | (-> & _ & _)].
  - unfold ready. rewrite <- Hk. destruct (views_same_but_hash _ _ ReadyQueueKey Hsame) as [-> _].
    destruct (promoted_views (sched_now env / second) (keys r)) as (-> & _).
    apply elem_of_app. left. apply list_elem_of_In, in_rev. rewrite rev_involutive.
    by apply list_elem_of_In.
  - by apply not_elem_of_nil in Hin.
Qed.

(** A round of the consumer loop keeps the slots exact: it either takes the
    oldest ready task, below the limit, together with exactly one slot, or takes
    nothing and leaves the counter where it was. *)
Theorem consume_once_slots r r' o :
  consume_once r = (r', o) ->
  match o with
  | Ok (Spawn data) =>
      counter r < MaxConcurrency /\ counter r' = counter r + 1 /\ fifo r = data :: fifo r'
  | Ok Idle => counter r' = counter r /\ fifo r' = fifo r
  | Err _ => False
  end.
Proof.
  unfold consume_once, AcquireConcurrencyLock. intros Hx.
  assert (Hcheck : exists r1, acquire_check r = (r1, Ok (counter r <? MaxConcurrency)) /\ keys r1 = keys r).
  { unfold acquire_check, m_bind, attempt.
    destruct (exec (GETINT ConcurrencyLockKey) r) as [r1 o1] eqn:Eg. apply served in Eg.
    exists r1. unfold counter. simpl in Eg.
    destruct (ks_int (keys r) !! ConcurrencyLockKey); injection Eg as <- <-; split; try done;
      unfold m_ret; do 2 f_equal; simpl; unfold MaxConcurrency; lia. }
  destruct Hcheck as (r1 & Hc & Hk1). unfold m_bind at 1 2 in Hx. rewrite Hc in Hx.
  assert (Hcf : counter r1 = counter r /\ fifo r1 = fifo r) by (unfold counter, fifo, ready; by rewrite Hk1).
  destruct Hcf as [Hc1 Hf1].
  destruct (Z.ltb_spec (counter r) MaxConcurrency).
  2:{ injection Hx as <- <-. done. }
  unfold acquire_incr, m_bind at 1, attempt at 1 in Hx.
  destruct (exec (INCR ConcurrencyLockKey) r1) as [r2 o2] eqn:Ei. apply served in Ei. simpl in Ei.
  injection Ei as Hk2 <-. simpl in Hx.
  assert (Hc2 : counter r2 = counter r + 1 /\ fifo r2 = fifo r).
  { unfold counter, fifo, ready in *. rewrite <- Hk2. simpl. rewrite lookup_insert_eq.
    change (klist ?q (upd_int ?a ?b ?x)) with (klist q x). rewrite Hk1. done. }
  destruct Hc2 as [Hc2 Hf2].
  unfold m_bind at 1, attempt at 1, GetTask in Hx.
  destruct (exec (BRPOP ReadyQueueKey) r2) as [r3 o3] eqn:Eb. apply served in Eb. simpl in Eb.
  destruct (last (klist ReadyQueueKey (keys r2))) as [v|] eqn:El.
  - injection Eb as Hk3 <-. injection Hx as <- <-. split; [done|].
    apply last_Some in El as [l El]. split.
    + rewrite <- Hc2. unfold counter. by rewrite <- Hk3.
    + rewrite <- Hf2. unfold fifo, ready. rewrite <- Hk3, klist_upd, decide_True, El by done.
      by rewrite removelast_last, rev_app_distr.
  - injection Eb as Hk3 <-. unfold ReleaseConcurrencyLock, m_bind, ignore_err in Hx.
    destruct (exec (DECR ConcurrencyLockKey) r3) as [r4 o4] eqn:Ed. apply served in Ed. simpl in Ed, Hx.
    injection Ed as Hk4 _. injection Hx as <- <-. split.
    + unfold counter in *. rewrite <- Hk4. simpl. rewrite lookup_insert_eq, <- Hk3. simpl. lia.
    + rewrite <- Hf2. unfold fifo, ready. rewrite <- Hk4.
      change (klist ?q (upd_int ?a ?b ?x)) with (klist q x). by rewrite Hk3.
Qed.
End LoopFacts.

(** ** The theorems at concrete workers *)
Module WorkerSample.
#[local] Existing Instance ToyCodec.toy.
#[local] Existing Instance ToyCodec.toy_laws.

#[global] Instance memory_states : WorkerDB (gmap string TaskState) := {
  update_state := fun id st d => (match d !! id with Some _ => <[id := st]> d | None => d end, Ok tt);
  state_of := fun d id => d !! id
}.

#[global] Instance memory_states_laws : WorkerDBLaws (gmap string TaskState).
Proof.
  split. intros id st d d' [= <-]. simpl. destruct (d !! id) eqn:E; [|done].
  intros _. by rewrite lookup_insert_eq.
Qed.

Definition W : Type := worker (gmap string TaskState) keyspace.
Definition task0 : UnifiedTask := ToyCodec.task_of "a".
Definition start (r : keyspace) : W := mkWorker r {["a" := TaskRunning]} [] ∅.
Definition env0 : exec_env := mkExecEnv ("f.go", "1", "fn") 5000000000 (fun _ => false) (fun s e => Ok e).

Definition failing (t : UnifiedTask) (w : W) : W * UnifiedTask * outcome (res unit) :=
  (w, t, Returns (Err "boom")).
Definition panicking (t : UnifiedTask) (w : W) : W * UnifiedTask * outcome (res unit) := (w, t, Panics).
Definition canceled (e : string) : bool := String.eqb e "context canceled".

Lemma executeTaskWithRetry_attempts_witness :
  let '(w', _, status, errs) := executeTaskWithRetry failing canceled env0 task0 (start empty_keyspace) in
  status = Exhausted /\ length errs = 1%nat /\ "a" ∉ wk_cancel w'.
Proof.
  destruct (executeTaskWithRetry failing canceled env0 task0 (start empty_keyspace))
    as [[[w' task'] status] errs] eqn:E.
  assert (Hs : status = Exhausted) by (vm_compute in E; congruence).
  pose proof (executeTaskWithRetry_attempts failing canceled env0 task0 (start empty_keyspace) w' task' status errs E) as Ht.
  subst status. destruct Ht as [[Hl _] Hc]. split; [reflexivity|]. split; [exact Hl | exact Hc].
Defined.

Lemma executeTaskWithRetry_panic_is_success_witness :
  exists w', executeTaskWithRetry panicking canceled env0 task0 (start empty_keyspace) = (w', task0, Succeeded, []) /\
    state_of (wk_db w') "a" = Some TaskRunning.
Proof.
  destruct (executeTaskWithRetry_panic_is_success panicking canceled env0 task0 (start empty_keyspace))
    as (w' & w0 & E & _); [vm_compute; discriminate | reflexivity | reflexivity |].
  exists w'. split; [exact E|]. vm_compute in E. injection E as <-. reflexivity.
Defined.

Lemma executeTaskWithRetry_final_failure_witness :
  let '(w', _, status, errs) := executeTaskWithRetry failing canceled env0 task0 (start empty_keyspace) in
  dead (wk_redis w') !! "a" = Some 5.
Proof.
  destruct (executeTaskWithRetry failing canceled env0 task0 (start empty_keyspace))
    as [[[w' task'] status] errs] eqn:E.
  assert (Hs : status = Exhausted /\ task' = task0) by (vm_compute in E |- *; split; congruence).
  destruct Hs as [-> ->].
  destruct (executeTaskWithRetry_final_failure failing canceled env0 task0 "a" (start empty_keyspace) w' task0 errs E)
    as [Hd _]; [reflexivity | exact Hd].
Defined.

Definition queued (l : list string) : keyspace :=
  upd_hash TaskIndexKey {["a" := ReadyQueueKey]} (upd_list ReadyQueueKey l empty_keyspace).

Lemma CancelTask_ready_witness :
  exists w', CancelTask "a" (start (queued ["b"; "a"; "c"])) = (w', Ok tt) /\
    ready (wk_redis w') = ["b"; "c"].
Proof.
  destruct (CancelTask_ready "a" (start (queued ["b"; "a"; "c"]))) as (w' & E & Er & _).
  - vm_compute. reflexivity.
  - vm_compute. reflexivity.
  - exists w'. split; [exact E|]. rewrite Er. vm_compute. reflexivity.
Defined.

Lemma CancelTask_silent_failure_witness :
  exists w', CancelTask "a" (start (queued ["b"; ""; "a"])) = (w', Ok tt) /\
    ready (wk_redis w') = ["b"; ""; "a"].
Proof.
  destruct (CancelTask_silent_failure "a" (start (queued ["b"; ""; "a"])) ["b"] "" ["a"] "invalid")
    as (w' & E & Er & _); [reflexivity..|].
  exists w'. split; [exact E | exact Er].
Defined.

Lemma CancelTask_not_found_witness :
  exists w', CancelTask "z" (start (queued ["a"])) = (w', Err "task z not found").
Proof.
  destruct (CancelTask_not_found "z" (start (queued ["a"]))) as (w' & E & _).
  - vm_compute. reflexivity.
  - apply not_elem_of_empty.
  - exists w'. exact E.
Defined.

Lemma consume_once_slots_witness :
  let '(r', o) := consume_once (queued ["b"; "a"]) in
  o = Ok (Spawn "a") /\ counter r' = counter (queued ["b"; "a"]) + 1.
Proof.
  destruct (consume_once (queued ["b"; "a"])) as [r' o] eqn:E.
  assert (Ho : o = Ok (Spawn "a")) by (vm_compute in E; congruence). subst o.
  pose proof (consume_once_slots (queued ["b"; "a"]) r' _ E) as (_ & Hc & _).
  split; [reflexivity | exact Hc].
Defined.

(** A codec of recurring tasks: the document is the identifier and the time. *)
Module CronCodec.
Definition cron_task (id : string) : UnifiedTask :=
  {| TaskID := id; Type_ := TaskTypeCronJob; Immediate := false; ExecuteTime := 0;
     CronExpr := "* * * * *"; ReStartNum := 0; Retry := mkRetry 0 0; Payload := ∅; Level := 0;
     Sequence := 0; ParentTaskID := None; TraceID := "trace"; GroupID := "group";
     ProjectID := 1; UserID := 1; State_ := TaskPending; TraceCarrier := None;
     GroupCarrier := None; Extra := None |}.
Definition cron : TaskCodec := {|
  marshal_task := fun t => Ok (TaskID t +:+ "@" +:+ itoa (ExecuteTime t));
  unmarshal_task := fun s => Ok (cron_task s);
  marshal_payload := fun _ => Ok "{}";
  unmarshal_object := fun s => Ok (Some {["task_id" := VStr s]});
  marshal_object := fun m => Ok "";
  cjson_task_id := fun s => Ok (Some s);
  lua_unpack_max := 3
|}.
End CronCodec.

Definition cron_env : sched_env := mkSchedEnv 10000000000 (fun _ => Ok 60) (fun e r => r).
Definition cron_due : keyspace := upd_zset DelayedQueueKey {["j" := 5]} empty_keyspace.

Lemma processDelayedTasks_reschedules_cron_witness :
  let r' := fst (processDelayedTasks (H0 := CronCodec.cron) cron_env cron_due) in
  "j" ∈ ready r' /\ is_Some (delayed r' !! "j@60").
Proof.
  apply (processDelayedTasks_reschedules_cron (H1 := CronCodec.cron) cron_env cron_due
    (fst (ProcessDelayedTasks (H0 := CronCodec.cron) 10 cron_due)) ["j"] "j"
    (CronCodec.cron_task "j") 60 "j@60"); try (vm_compute; reflexivity).
  - apply list_elem_of_here.
  - discriminate.
Defined.
End WorkerSample.
