(* ===== verification/HelmValues.v ===== *)
(** * Helm values ([utils/string.go], [dto/container.go], [utils/map.go],
      [flattenYAMLToParameters] of [module/injection/submit.go])

    A request gives the values of a chart as a tree; the tree is flattened to
    parameters whose keys are paths, the parameters are checked and rendered
    ([Parameters]), and the paths are set one after the other in the values of the
    chart's file.  A Go map is an association list in the order of an iteration;
    nested maps and slices are shared by reference in the code, which is why a path
    is set in place: here the tree is rebuilt along the path. *)

From S2P Require Import Prelude GoStrings Task.
#[local] Open Scope Z_scope.

(** ** Maps of values *)

Definition vmap : Type := list (string * value).

Fixpoint v_get (m : vmap) (key : string) : option value :=
  match m with
  | [] => None
  | (k, v) :: rest => if String.eqb k key then Some v else v_get rest key
  end.
Fixpoint v_set (m : vmap) (key : string) (v : value) : vmap :=
  match m with
  | [] => [(key, v)]
  | (k, w) :: rest => if String.eqb k key then (k, v) :: rest else (k, w) :: v_set rest key v
  end.

(** *** [utils/map.go] *)

(** [MergeSimpleMaps]: later maps win. *)
Definition MergeSimpleMaps {A} (maps : list (gmap string A)) : gmap string A :=
  fold_left (fun result m => m ∪ result) maps ∅.

(** [deepMerge]: maps are merged where both sides have one.  The recursion is on
    the source. *)
Fixpoint deepMerge_value (srcVal : value) : option value -> value :=
  fix over (dstVal : option value) : value :=
    match srcVal, dstVal with
    | VMap src, Some (VMap dst) =>
        VMap ((fix merge (src : list (string * value)) (dst : vmap) : vmap :=
                 match src with
                 | [] => dst
                 | (key, v) :: rest => merge rest (v_set dst key (deepMerge_value v (v_get dst key)))
                 end) src dst)
    | _, _ => srcVal
    end.
Fixpoint deepMerge (dst src : vmap) : vmap :=
  match src with
  | [] => dst
  | (key, v) :: rest => deepMerge (v_set dst key (deepMerge_value v (v_get dst key))) rest
  end.
Definition DeepMergeClone (maps : list vmap) : vmap := fold_left deepMerge maps [].

(** ** Keys *)

Record HelmKeyPart := mkPart { Key : string; IsArray : bool; Index : Z }.

(** The groups of [^(.+?)\[(\d+)\]$]: the text ends with a bracketed number and
    something stands before it. *)
Fixpoint split_digits (l : list ascii) : list ascii * list ascii :=
  match l with
  | c :: rest => if is_digit c then let '(d, r) := split_digits rest in (c :: d, r) else ([], l)
  | [] => ([], [])
  end.
Definition array_index (part : string) : option (string * string) :=
  match rev (chars part) with
  | "]"%char :: l =>
      match split_digits l with
      | (d :: ds, "["%char :: c :: rest) =>
          if existsb (fun x => Ascii.eqb x "010") (c :: rest) then None
          else Some (of_chars (rev (c :: rest)), of_chars (rev (d :: ds)))
      | _ => None
      end
  | _ => None
  end.

(** The error of [Atoi] is dropped: a number that is too large is the largest. *)
Definition atoi_or_max (s : string) : Z := default max_int64 (atoi s).

Definition parse_part (part : string) : HelmKeyPart :=
  match array_index part with
  | Some (keyName, index) => mkPart keyName true (atoi_or_max index)
  | None => mkPart part false 0
  end.
Definition ParseHelmKey (key : string) : list HelmKeyPart := map parse_part (split "." key).

(** ** Setting a path *)

(** [for len(arr) <= n { append a new map }]. *)
Definition pad_to (n : nat) (arr : list value) : list value := arr ++ replicate (n - length arr) (VMap []).

(** [cur[k].(map[string]any)]: a new map where there is none. *)
Definition next_map (o : option value) : vmap := match o with Some (VMap m) => m | _ => [] end.

Fixpoint set_path (keys : list HelmKeyPart) (v : value) (cur : vmap) : vmap :=
  match keys with
  | [] => cur
  | [k] =>
      if IsArray k then
        let i := Z.to_nat (Index k) in
        match v_get cur (Key k) with
        | Some (VList arr) => v_set cur (Key k) (VList (<[i := v]> (pad_to (S i) arr)))
        | _ => v_set cur (Key k) (VList (replicate i (VMap []) ++ [v]))
        end
      else v_set cur (Key k) v
  | k :: rest =>
      if IsArray k then
        let i := Z.to_nat (Index k) in
        let cur :=
          match v_get cur (Key k) with
          | None => v_set cur (Key k) (VList (replicate (S i) (VMap [])))
          | Some _ => cur
          end in
        match v_get cur (Key k) with
        | Some (VList arr) =>
            let arr := pad_to (S i) arr in
            v_set cur (Key k) (VList (<[i := VMap (set_path rest v (next_map (arr !! i)))]> arr))
        | _ => set_path rest v cur        (* the map stays the same *)
        end
      else v_set cur (Key k) (VMap (set_path rest v (next_map (v_get cur (Key k)))))
  end.

Record ParameterItem := mkParam { p_Key : string; p_Value : value; p_Template : string }.

Record HelmConfigItem := mkHelmConfig {
  hc_Version : string;
  hc_RepoURL : string;
  hc_RepoName : string;
  hc_ChartName : string;
  hc_LocalPath : string;
  hc_ValueFile : string;
  hc_DynamicValues : list ParameterItem
}.

Definition item_keys (item : ParameterItem) : list HelmKeyPart := ParseHelmKey (p_Key item).
Definition set_items (root : vmap) (items : list ParameterItem) : vmap :=
  fold_left (fun root item => set_path (item_keys item) (p_Value item) root) items root.

(** [GetValuesMap].  [LoadYAMLFile] gives a nil map for an empty document: writing
    to it panics. *)
Definition GetValuesMap (LoadYAMLFile : string -> res (option vmap)) (hci : HelmConfigItem)
  : outcome vmap :=
  let root :=
    if negb (String.eqb (hc_ValueFile hci) "") then
      match LoadYAMLFile (hc_ValueFile hci) with
      | Ok fileValues => fileValues
      | Err _ => Some []
      end
    else Some [] in
  match root, hc_DynamicValues hci with
  | Some root, items => Returns (set_items root items)
  | None, [] => Returns []
  | None, _ :: _ => Panics
  end.

(** ** Flattening *)

Definition join_key (prefix key : string) : string :=
  if String.eqb prefix "" then key else prefix +:+ "." +:+ key.

Section Flatten.
(** [json.Marshal] of a slice. *)
Context (json_list : list value -> res string).

(** What one value gives under its full key; [flattenYAMLToParameters] itself is
    the case of a map. *)
Fixpoint flatten_value (fullKey : string) (v : value) : list (string * value) :=
  match v with
  | VMap m =>
      (fix flatten_map (m : list (string * value)) : list (string * value) :=
         match m with
         | [] => []
         | (key, w) :: rest => flatten_value (join_key fullKey key) w ++ flatten_map rest
         end) m
  | VList l => match json_list l with Ok s => [(fullKey, VStr s)] | Err _ => [] end
  | _ => [(fullKey, v)]
  end.
Definition flattenYAMLToParameters (data : vmap) (prefix : string) : list (string * value) :=
  flatten_value prefix (VMap data).
End Flatten.

(** ** Reading a path *)

Fixpoint get_path (keys : list HelmKeyPart) (v : value) : option value :=
  match keys with
  | [] => Some v
  | k :: rest =>
      match v with
      | VMap m =>
          match v_get m (Key k) with
          | Some w =>
              if IsArray k then
                match w with
                | VList arr => match arr !! Z.to_nat (Index k) with Some x => get_path rest x | None => None end
                | _ => None
                end
              else get_path rest w
          | None => None
          end
      | _ => None
      end
  end.

(** ** Maps *)

Lemma v_get_set_same m k v : v_get (v_set m k v) k = Some v.
Proof.
  induction m as [|[k' w] m IH]; simpl; [by rewrite String.eqb_refl|].
  destruct (String.eqb k' k) eqn:E; simpl; by rewrite E.
Qed.

Lemma v_get_set_other m k k' v : k <> k' -> v_get (v_set m k v) k' = v_get m k'.
Proof.
  intros Hk. induction m as [|[k0 w] m IH]; simpl.
  - destruct (String.eqb_spec k k'); congruence.
  - destruct (String.eqb_spec k0 k) as [->|]; simpl.
    + destruct (String.eqb_spec k k'); congruence.
    + destruct (String.eqb k0 k'); [done|apply IH].
Qed.

Lemma v_get_in m k v : v_get m k = Some v -> (k, v) ∈ m.
Proof.
  induction m as [|[k' w] m IH]; simpl; [done|].
  destruct (String.eqb_spec k' k) as [->|]; [intros [= ->]; left|right; auto].
Qed.

Lemma v_get_nodup m k v : NoDup m.*1 -> (k, v) ∈ m -> v_get m k = Some v.
Proof.
  induction m as [|[k' w] m IH]; simpl; [by intros _ ?%not_elem_of_nil|].
  intros [Hni Hnd]%NoDup_cons [[= -> ->]|Hin]%elem_of_cons; [by rewrite String.eqb_refl|].
  destruct (String.eqb_spec k' k) as [->|]; [|auto].
  contradict Hni. apply list_elem_of_fmap. by exists (k, v).
Qed.

#[export] Hint Rewrite v_get_set_same : aegis.

(** A path that meets a list wherever it goes through an index. *)
Fixpoint fits (keys : list HelmKeyPart) (cur : vmap) : bool :=
  match keys with
  | [] | [_] => true
  | k :: rest =>
      if IsArray k then
        match v_get cur (Key k) with
        | None => true
        | Some (VList arr) => fits rest (next_map (arr !! Z.to_nat (Index k)))
        | Some _ => false
        end
      else fits rest (next_map (v_get cur (Key k)))
  end.
Fixpoint fits_all (root : vmap) (items : list ParameterItem) : bool :=
  match items with
  | [] => true
  | item :: rest =>
      fits (item_keys item) root && fits_all (set_path (item_keys item) (p_Value item) root) rest
  end.

Lemma fits_nil keys : fits keys [] = true.
Proof. induction keys as [|k [|k' rest] IH]; [done..|]. simpl. by destruct (IsArray k). Qed.

Lemma fits_plain keys cur : forallb (fun k => negb (IsArray k)) keys = true -> fits keys cur = true.
Proof.
  revert cur. induction keys as [|k [|k' rest] IH]; intros cur H; [done..|].
  apply andb_true_iff in H as [Hk Hr]. apply negb_true_iff in Hk.
  change (fits (k :: k' :: rest) cur)
    with (if IsArray k then match v_get cur (Key k) with
                            | None => true
                            | Some (VList arr) => fits (k' :: rest) (next_map (arr !! Z.to_nat (Index k)))
                            | Some _ => false
                            end else fits (k' :: rest) (next_map (v_get cur (Key k)))).
  rewrite Hk. by apply IH.
Qed.

Lemma pad_length n arr : (n <= length (pad_to n arr))%nat.
Proof. unfold pad_to. rewrite length_app, length_replicate. lia. Qed.

Lemma pad_lookup n arr j w : arr !! j = Some w -> pad_to n arr !! j = Some w.
Proof. intros H. unfold pad_to. by rewrite lookup_app, H. Qed.

Lemma pad_next n arr j : next_map (pad_to n arr !! j) = next_map (arr !! j).
Proof.
  destruct (arr !! j) as [w|] eqn:E; [by erewrite pad_lookup|].
  unfold pad_to. rewrite lookup_app, E. destruct (replicate _ _ !! _) eqn:E2; [|done].
  apply lookup_replicate in E2 as [-> _]. done.
Qed.

(** One step of [set_path] along a path that fits. *)
Definition array_at (cur : vmap) (key : string) : list value :=
  match v_get cur key with Some (VList arr) => arr | _ => [] end.

Lemma set_path_step k rest v cur :
  rest <> [] -> fits (k :: rest) cur = true ->
  if IsArray k then
    let i := Z.to_nat (Index k) in
    exists m, next_map (array_at cur (Key k) !! i) = m /\ fits rest m = true /\ v_get (set_path (k :: rest) v cur) (Key k)
        = Some (VList (<[i := VMap (set_path rest v m)]> (pad_to (S i) (array_at cur (Key k)))))
  else
    let m := next_map (v_get cur (Key k)) in
    fits rest m = true /\ v_get (set_path (k :: rest) v cur) (Key k) = Some (VMap (set_path rest v m)).
Proof.
  destruct rest as [|k' rest]; [done|]. intros _ Hf. cbn [fits] in Hf. cbn [set_path].
  set (r := k' :: rest) in *. destruct (IsArray k); cbn zeta.
  - unfold array_at. destruct (v_get cur (Key k)) as [w|] eqn:E.
    + destruct w; try done. rewrite E. eexists. split; [done|]. split; [done|].
      by rewrite v_get_set_same, pad_next.
    + exists []. split; [done|]. split; [apply fits_nil|].
      rewrite !v_get_set_same. unfold pad_to.
      rewrite length_replicate, Nat.sub_diag, app_nil_r. simpl length. rewrite Nat.sub_0_r. simpl "++".
      by rewrite lookup_replicate_2 by lia.
  - split; [done|]. by rewrite v_get_set_same.
Qed.

Lemma set_path_other_key k rest v cur key :
  fits (k :: rest) cur = true -> key <> Key k -> v_get (set_path (k :: rest) v cur) key = v_get cur key.
Proof.
  intros Hf Hk. destruct rest as [|k' rest].
  - cbn [set_path]. repeat case_match; by rewrite v_get_set_other.
  - cbn [set_path fits] in *. set (r := k' :: rest) in *.
    destruct (IsArray k); [|by rewrite v_get_set_other].
    destruct (v_get cur (Key k)) as [w|] eqn:E.
    + destruct w; try done. rewrite E. by rewrite v_get_set_other.
    + rewrite v_get_set_same. by rewrite !v_get_set_other.
Qed.

(** ** What is written is read *)

Lemma get_path_cons k rest m :
  get_path (k :: rest) (VMap m) =
    match v_get m (Key k) with
    | Some w =>
        if IsArray k then
          match w with
          | VList arr => match arr !! Z.to_nat (Index k) with Some x => get_path rest x | None => None end
          | _ => None
          end
        else get_path rest w
    | None => None
    end.
Proof. done. Qed.

Lemma set_last_get k v cur : get_path [k] (VMap (set_path [k] v cur)) = Some v.
Proof.
  rewrite get_path_cons. cbn [set_path get_path].
  destruct (IsArray k); [|by rewrite v_get_set_same].
  assert (Hnew : (replicate (Z.to_nat (Index k)) (VMap []) ++ [v]) !! Z.to_nat (Index k) = Some v).
  { rewrite lookup_app_r by (rewrite length_replicate; lia).
    by rewrite length_replicate, Nat.sub_diag. }
  destruct (v_get cur (Key k)) as [[| | | | |arr|]|]; rewrite v_get_set_same; try by rewrite Hnew.
  rewrite list_lookup_insert_eq; [done|]. pose proof (pad_length (S (Z.to_nat (Index k))) arr). lia.
Qed.

Lemma set_path_get keys v cur :
  keys <> [] -> fits keys cur = true -> get_path keys (VMap (set_path keys v cur)) = Some v.
Proof.
  revert cur. induction keys as [|k rest IH]; intros cur Hne Hf; [done|].
  destruct (decide (rest = [])) as [->|Hr]; [apply set_last_get|].
  pose proof (set_path_step k rest v cur Hr Hf) as Hs. rewrite get_path_cons.
  destruct (IsArray k).
  - destruct Hs as (m & _ & Hm & ->).
    rewrite list_lookup_insert_eq; [by apply IH|].
    pose proof (pad_length (S (Z.to_nat (Index k))) (array_at cur (Key k))). lia.
  - destruct Hs as [Hm ->]. by apply IH.
Qed.

(** Two paths that part at some step: neither goes through the other's value. *)
Fixpoint apart (p q : list HelmKeyPart) : bool :=
  match p, q with
  | k :: p', l :: q' =>
      if String.eqb (Key k) (Key l) then
        if IsArray k && IsArray l then
          if (Z.to_nat (Index k) =? Z.to_nat (Index l))%nat then apart p' q' else true
        else if IsArray k || IsArray l then false
        else apart p' q'
      else true
  | _, _ => false
  end.

Lemma apart_nil_r p : apart p [] = false.
Proof. by destruct p. Qed.

Lemma set_last_keeps_index k cur v arr :
  IsArray k = true -> v_get cur (Key k) = Some (VList arr) ->
  v_get (set_path [k] v cur) (Key k)
    = Some (VList (<[Z.to_nat (Index k) := v]> (pad_to (S (Z.to_nat (Index k))) arr))).
Proof. intros Ha Hg. cbn [set_path]. by rewrite Ha, Hg, v_get_set_same. Qed.

Lemma set_path_frame p q v w cur :
  apart p q = true -> fits q cur = true ->
  get_path p (VMap cur) = Some w -> get_path p (VMap (set_path q v cur)) = Some w.
Proof.
  revert p cur. induction q as [|l rest IH]; intros [|k p] cur Ha Hf Hg; [done..|].
  cbn [apart] in Ha. rewrite get_path_cons in Hg |- *.
  destruct (String.eqb_spec (Key k) (Key l)) as [Hk|Hk]; [|by rewrite set_path_other_key].
  rewrite Hk in *. destruct (v_get cur (Key l)) as [x|] eqn:Ex; [|done].
  destruct (IsArray k) eqn:Ek, (IsArray l) eqn:El; cbn [andb orb] in Ha; try done.
  - destruct x as [| | | | |arr|]; try done.
    destruct (arr !! Z.to_nat (Index k)) as [y|] eqn:Ey; [|done].
    set (i := Z.to_nat (Index k)) in *. set (j := Z.to_nat (Index l)) in *.
    destruct (decide (rest = [])) as [->|Hr].
    { rewrite (set_last_keeps_index l cur v arr El Ex). fold j. rewrite apart_nil_r in Ha.
      destruct (Nat.eqb_spec i j); [done|].
      rewrite list_lookup_insert_ne by done. by rewrite (pad_lookup _ _ _ _ Ey). }
    pose proof (set_path_step l rest v cur Hr Hf) as Hs. rewrite El in Hs.
    destruct Hs as (m & Hm & Hfm & ->). fold j in Hm |- *. unfold array_at in Hm |- *. rewrite Ex in Hm |- *.
    destruct (Nat.eqb_spec i j) as [Hij|Hij].
    + rewrite Hij in *. rewrite Ey in Hm. rewrite list_lookup_insert_eq.
      * destruct p as [|k' p]; [done|]. destruct y; try done. simpl in Hm. subst m. by apply IH.
      * pose proof (pad_length (S j) arr). lia.
    + rewrite list_lookup_insert_ne by done. by rewrite (pad_lookup _ _ _ _ Ey).
  - destruct (decide (rest = [])) as [->|Hr]; [by rewrite apart_nil_r in Ha|].
    pose proof (set_path_step l rest v cur Hr Hf) as Hs. rewrite El in Hs.
    destruct Hs as [Hfm ->]. rewrite Ex in *.
    destruct p as [|k' p]; [done|]. destruct x; try done. by apply IH.
Qed.

Lemma set_items_app root a b : set_items root (a ++ b) = set_items (set_items root a) b.
Proof. apply fold_left_app. Qed.

Lemma fits_all_app root a b :
  fits_all root (a ++ b) = fits_all root a && fits_all (set_items root a) b.
Proof.
  revert root. induction a as [|x a IH]; intros root; simpl; [done|]. by rewrite IH, andb_assoc.
Qed.

Lemma set_items_frame p w items root :
  fits_all root items = true -> Forall (fun it => apart p (item_keys it) = true) items ->
  get_path p (VMap root) = Some w -> get_path p (VMap (set_items root items)) = Some w.
Proof.
  intros Hf Ha. revert root Hf. induction Ha as [|it items Hx Ha IH]; intros root Hf Hg; [done|].
  simpl in *. bool_to_prop. apply IH; [done|]. by apply set_path_frame.
Qed.

Lemma item_keys_nonempty it : item_keys it <> [].
Proof.
  unfold item_keys, ParseHelmKey, split. intros H%map_eq_nil%map_eq_nil.
  by apply split_chars_nonempty in H.
Qed.

Lemma set_items_reads root before it after :
  fits_all root (before ++ it :: after) = true ->
  Forall (fun later => apart (item_keys it) (item_keys later) = true) after ->
  get_path (item_keys it) (VMap (set_items root (before ++ it :: after))) = Some (p_Value it).
Proof.
  rewrite fits_all_app, set_items_app. cbn [fits_all]. intros Hf Ha.
  bool_to_prop. rewrite (set_items_app _ [it] after). apply set_items_frame; [done..|].
  apply set_path_get; [apply item_keys_nonempty|done].
Qed.

Lemma GetValuesMap_root load hci root :
  GetValuesMap load hci = Returns root ->
  exists file, root = set_items file (hc_DynamicValues hci) /\
    (file = [] \/ load (hc_ValueFile hci) = Ok (Some file)).
Proof.
  unfold GetValuesMap. destruct (String.eqb _ ""); simpl; [intros [= <-]; eauto|].
  destruct (load _) as [[file|]|]; [|destruct (hc_DynamicValues hci) as [|]|];
    intros [= <-]; eauto.
Qed.

(** ** Keys are read as they are written *)

Definition print_part (k : HelmKeyPart) : string :=
  if IsArray k then Key k +:+ "[" +:+ itoa (Index k) +:+ "]" else Key k.
Definition print_key (keys : list HelmKeyPart) : string := join "." (map print_part keys).

(** The characters [IsValidHelmValueKey] takes in a name. *)
Definition name_char (c : ascii) : bool := is_alnum c || Ascii.eqb c "_" || Ascii.eqb c "-".
Definition valid_name (s : string) : bool := negb (String.eqb s "") && all_chars name_char s.
Definition valid_part (k : HelmKeyPart) : bool :=
  valid_name (Key k) &&
  (if IsArray k then (0 <=? Index k) && (Index k <=? max_int64) else Index k =? 0).

Lemma pos_digits_digits fuel n acc :
  0 <= n -> Forall (fun c => is_digit c = true) acc ->
  Forall (fun c => is_digit c = true) (pos_digits fuel n acc).
Proof.
  revert n acc. induction fuel as [|fuel IH]; intros n acc Hn Ha; [done|]. cbn [pos_digits].
  assert (Hc : Forall (fun c => is_digit c = true) (digit_char (n mod 10) :: acc)).
  { constructor; [|done]. by apply digit_char_ok, Z.mod_pos_bound. }
  case_match; [done|]. apply IH; [|done]. apply Z.div_pos; lia.
Qed.

Lemma itoa_digits n :
  0 <= n -> exists d l, chars (itoa n) = d :: l /\ Forall (fun c => is_digit c = true) (d :: l).
Proof.
  intros Hn. unfold itoa. destruct (n <? 0) eqn:E; [bool_to_prop; lia|]. rewrite chars_of_chars.
  destruct (pos_digits_head 20 n []) as (d & l & Hd & _); [lia|].
  exists d, l. split; [done|]. rewrite <- Hd. by apply pos_digits_digits.
Qed.

Lemma split_digits_app l c rest :
  Forall (fun c => is_digit c = true) l -> is_digit c = false ->
  split_digits (l ++ c :: rest) = (l, c :: rest).
Proof.
  intros Hl Hc. induction Hl as [|x l Hx Hl IH]; simpl; [by rewrite Hc|]. by rewrite Hx, IH.
Qed.

Lemma name_char_free c d : name_char c = false -> forall s, valid_name s = true -> d ∈ chars s -> d <> c.
Proof.
  intros Hc s [_ Hs]%andb_true_iff Hd ->. unfold all_chars in Hs. rewrite forallb_elem in Hs.
  specialize (Hs c Hd). congruence.
Qed.

Lemma valid_name_chars s : valid_name s = true -> exists c l, chars s = c :: l.
Proof.
  intros [Hs _]%andb_true_iff. destruct s as [|c s]; [done|]. by exists c, (chars s).
Qed.

Lemma valid_name_rev s : valid_name s = true -> exists c l, rev (chars s) = c :: l /\ c ∈ chars s.
Proof.
  intros Hs. destruct (valid_name_chars s Hs) as (c & l & Hc).
  destruct (rev (chars s)) as [|x r] eqn:E.
  { apply (f_equal (@List.rev ascii)) in E. rewrite rev_involutive, Hc in E. done. }
  exists x, r. split; [done|]. apply list_elem_of_In, in_rev. rewrite E. by left.
Qed.

Lemma parse_part_name s : valid_name s = true -> parse_part s = mkPart s false 0.
Proof.
  intros Hs. unfold parse_part, array_index.
  destruct (valid_name_rev s Hs) as (c & l & -> & Hc).
  pose proof (name_char_free "]" c eq_refl s Hs Hc) as Hn.
  destruct (Ascii.eqb_spec c "]") as [|_]; [done|].
  destruct c as [[] [] [] [] [] [] [] []]; done.
Qed.

Lemma parse_part_index s n :
  valid_name s = true -> 0 <= n <= max_int64 ->
  parse_part (s +:+ "[" +:+ itoa n +:+ "]") = mkPart s true n.
Proof.
  intros Hs Hn. unfold parse_part, array_index.
  assert (Hl : rev (chars (s +:+ "[" +:+ itoa n +:+ "]"))
               = "]"%char :: rev (chars (itoa n)) ++ "["%char :: rev (chars s)).
  { rewrite !chars_app. change (chars "[") with ["["%char]. change (chars "]") with ["]"%char].
    rewrite !rev_app_distr. simpl. by rewrite <- app_assoc. }
  rewrite Hl. destruct (itoa_digits n ltac:(lia)) as (d & l & Hd & Hdig).
  assert (Hrev : Forall (fun c => is_digit c = true) (rev (chars (itoa n)))).
  { rewrite Hd. by apply Forall_rev. }
  rewrite split_digits_app by done.
  destruct (rev (chars (itoa n))) as [|y r] eqn:Er.
  { apply (f_equal (@List.rev ascii)) in Er. rewrite rev_involutive, Hd in Er. done. }
  destruct (valid_name_rev s Hs) as (c & l' & Ec & Hc). rewrite Ec.
  destruct (existsb _ (c :: l')) eqn:Ex.
  - exfalso. rewrite existsb_elem in Ex. destruct Ex as (x & Hx & Hxn). apply Ascii.eqb_eq in Hxn.
    rewrite <- Ec in Hx. apply list_elem_of_In, in_rev, list_elem_of_In in Hx.
    by apply (name_char_free "010" x eq_refl s Hs).
  - rewrite <- Er, <- Ec, !rev_involutive, !of_chars_chars.
    unfold atoi_or_max. rewrite atoi_itoa by (unfold min_int64; lia). done.
Qed.

Lemma print_part_parse k : valid_part k = true -> parse_part (print_part k) = k.
Proof.
  intros [Hs Hi]%andb_true_iff. unfold print_part. destruct k as [s [] n]; simpl in *.
  - bool_to_prop. by apply parse_part_index.
  - bool_to_prop. subst. by apply parse_part_name.
Qed.

Lemma valid_name_no_dot s : valid_name s = true -> free_of "." s.
Proof. intros Hs Hd. by apply (name_char_free "." "." eq_refl s Hs Hd). Qed.

Lemma print_part_no_dot k : valid_part k = true -> free_of "." (print_part k).
Proof.
  intros [Hs Hi]%andb_true_iff. unfold print_part. destruct k as [s [] n]; simpl in *; [|by apply valid_name_no_dot].
  bool_to_prop. unfold free_of. rewrite !chars_app.
  destruct (itoa_digits n ltac:(done)) as (d & l & Hd & Hdig). rewrite <- Hd in Hdig.
  intros [Hin|[Hin|[Hin|Hin]%elem_of_app]%elem_of_app]%elem_of_app.
  - by apply (valid_name_no_dot s Hs).
  - by apply list_elem_of_singleton in Hin.
  - rewrite Forall_forall in Hdig. specialize (Hdig _ Hin). done.
  - by apply list_elem_of_singleton in Hin.
Qed.

Lemma ParseHelmKey_print keys :
  keys <> [] -> forallb valid_part keys = true -> ParseHelmKey (print_key keys) = keys.
Proof.
  intros Hne Hv. unfold ParseHelmKey, print_key. rewrite forallb_elem in Hv.
  rewrite split_join.
  - rewrite map_map. rewrite <- (map_id keys) at 2. apply map_ext_in.
    intros k Hk. apply print_part_parse, Hv. by apply list_elem_of_In.
  - by intros ?%map_eq_nil.
  - apply Forall_forall. intros s (k & -> & Hk)%list_elem_of_fmap. apply print_part_no_dot. auto.
Qed.

(** ** Flattening and setting again *)

Definition is_leaf (v : value) : bool := match v with VMap _ | VList _ => false | _ => true end.

(** The leaves of a tree with the names on their paths. *)
Fixpoint leaves (v : value) : list (list string * value) :=
  match v with
  | VMap m =>
      (fix of_map (m : list (string * value)) : list (list string * value) :=
         match m with
         | [] => []
         | (key, w) :: rest => map (fun pw => (key :: pw.1, pw.2)) (leaves w) ++ of_map rest
         end) m
  | VList _ => []
  | _ => [([], v)]
  end.

(** A tree of maps whose keys are names, no two the same in one map. *)
Fixpoint plain_tree (v : value) : bool :=
  match v with
  | VMap m =>
      (fix of_map (m : list (string * value)) : bool :=
         match m with
         | [] => true
         | (key, w) :: rest =>
             valid_name key && plain_tree w && negb (existsb (fun kv => String.eqb kv.1 key) rest) && of_map rest
         end) m
  | VList _ => false
  | _ => true
  end.

Definition plain_keys (path : list string) : list HelmKeyPart := map (fun k => mkPart k false 0) path.

Lemma leaves_cons key w rest :
  leaves (VMap ((key, w) :: rest)) = map (fun pw => (key :: pw.1, pw.2)) (leaves w) ++ leaves (VMap rest).
Proof. done. Qed.

Lemma plain_tree_cons key w rest :
  plain_tree (VMap ((key, w) :: rest)) =
    valid_name key && plain_tree w && negb (existsb (fun kv => String.eqb kv.1 key) rest)
      && plain_tree (VMap rest).
Proof. done. Qed.

(** Induction over trees, with the maps opened. *)
Lemma tree_ind (Q : value -> Prop) :
  (forall v, is_leaf v = true -> Q v) -> (forall l, Q (VList l)) -> Q (VMap []) ->
  (forall key w rest, Q w -> Q (VMap rest) -> Q (VMap ((key, w) :: rest))) -> forall v, Q v.
Proof.
  intros Hleaf Hlist Hnil Hcons. fix IH 1. intros v.
  destruct v as [|b|z|q|s|l|m]; try (by apply Hleaf); [apply Hlist|].
  induction m as [|[key w] rest IHm]; [apply Hnil|]. apply Hcons; [apply IH|apply IHm].
Qed.

Lemma join_snoc_key ps key :
  Forall (fun s => s <> "") ps -> join_key (join "." ps) key = join "." (ps ++ [key]).
Proof.
  intros Hps. unfold join_key. destruct ps as [|p ps]; [done|].
  inversion Hps as [|? ? Hp Hps']; subst.
  assert (Hj : forall qs, join "." ((p :: ps) ++ qs) =
                 match qs with [] => join "." (p :: ps) | _ => join "." (p :: ps) +:+ "." +:+ join "." qs end).
  { intros qs. clear Hps Hps' Hp. revert p. induction ps as [|p' ps IH]; intros p.
    - destruct qs; done.
    - specialize (IH p'). change (join "." ((p :: p' :: ps) ++ qs)) with (p +:+ "." +:+ join "." ((p' :: ps) ++ qs)).
      rewrite IH. destruct qs; [done|].
      change (join "." (p :: p' :: ps)) with (p +:+ "." +:+ join "." (p' :: ps)).
      by rewrite !str_app_assoc. }
  rewrite (Hj [key]). destruct (String.eqb_spec (join "." (p :: ps)) ""); [|done].
  destruct ps; simpl in *; destruct p; done.
Qed.

Lemma flatten_leaves json ps v :
  Forall (fun s => s <> "") ps -> plain_tree v = true ->
  flatten_value json (join "." ps) v = map (fun pw => (join "." (ps ++ pw.1), pw.2)) (leaves v).
Proof.
  revert ps. pattern v. revert v. apply tree_ind.
  - intros v Hl ps _ _. destruct v; try done; simpl; by rewrite app_nil_r.
  - done.
  - done.
  - intros key w rest IHw IHr ps Hps Ht. rewrite plain_tree_cons in Ht. bool_to_prop.
    rewrite leaves_cons, map_app, map_map. cbn [fst snd].
    change (flatten_value json (join "." ps) (VMap ((key, w) :: rest)))
      with (flatten_value json (join_key (join "." ps) key) w ++ flatten_value json (join "." ps) (VMap rest)).
    rewrite IHr by done. f_equal. rewrite join_snoc_key by done. rewrite IHw; [|apply Forall_app; split|done].
    + apply map_ext. intros pw. by rewrite <- app_assoc.
    + done.
    + constructor; [|done]. intros ->. done.
Qed.

(** The leaves are what can be read of the tree. *)
Lemma leaves_complete v p w :
  get_path (plain_keys p) v = Some w -> is_leaf w = true -> (p, w) ∈ leaves v.
Proof.
  revert p. pattern v. revert v. apply tree_ind.
  - intros v Hl [|k p] Hg Hw; [|by destruct v]. injection Hg as ->. by destruct w; try constructor.
  - intros l [|k p] Hg Hw; [|done]. by injection Hg as <-.
  - intros [|k p] Hg Hw; [by injection Hg as <-|done].
  - intros key x rest IHx IHr [|k p] Hg Hw; [by injection Hg as <-|].
    rewrite leaves_cons. apply elem_of_app. cbn [plain_keys map] in Hg. rewrite get_path_cons in Hg.
    cbn [v_get Key IsArray] in Hg. destruct (String.eqb_spec key k) as [->|].
    + left. apply list_elem_of_fmap. exists (p, w). split; [done|]. by apply IHx.
    + right. apply IHr; [|done]. cbn [plain_keys map]. by rewrite get_path_cons.
Qed.

Lemma leaves_head_key (rest : vmap) k p w :
  (k :: p, w) ∈ leaves (VMap rest) -> existsb (fun kv => String.eqb kv.1 k) rest = true.
Proof.
  induction rest as [|[key x] rest IH]; [by intros ?%not_elem_of_nil|].
  rewrite leaves_cons, elem_of_app. simpl. intros [([q u] & Heq & _)%list_elem_of_fmap|Hin].
  - injection Heq as -> _ _. by rewrite String.eqb_refl.
  - rewrite IH by done. apply orb_true_r.
Qed.

Lemma leaves_map_path (m : vmap) p w : (p, w) ∈ leaves (VMap m) -> p <> [].
Proof.
  induction m as [|[key x] rest IH]; [by intros ?%not_elem_of_nil|].
  rewrite leaves_cons, elem_of_app. intros [([q u] & [= -> _] & _)%list_elem_of_fmap|Hin]; auto.
Qed.

Lemma leaves_apart v :
  plain_tree v = true -> forall before p w after,
  leaves v = before ++ (p, w) :: after ->
  Forall (fun pw => apart (plain_keys p) (plain_keys pw.1) = true) after.
Proof.
  pattern v. revert v. apply tree_ind.
  - intros v Hl _ before p w after Hv. destruct v; try done; simpl in Hv;
      (destruct before as [|? before]; [injection Hv as _ _ <-; constructor|by destruct before]).
  - done.
  - intros _ before p w after Hv. by destruct before.
  - intros key x rest IHx IHr Ht before p w after Hv.
    rewrite plain_tree_cons in Ht. bool_to_prop. rewrite leaves_cons in Hv.
    apply app_eq_inv in Hv as [(k & Hx & Hr)|(k & Hx & Hr)].
    + destruct k as [|[p' w'] k].
      { by apply (IHr ltac:(done) [] p w after). }
      injection Hr as <- <- ->. apply map_eq_app in Hx as (a & b & Hab & Ha & Hb).
      destruct b as [|[q u] b]; [done|]. simpl in Hb. injection Hb as <- <- <-.
      pose proof (IHx ltac:(done) a q u b Hab) as Hq. apply Forall_app. split.
      * apply Forall_forall. intros pw (pw' & -> & Hin)%list_elem_of_fmap.
        rewrite Forall_forall in Hq. cbn [plain_keys map fst apart Key IsArray andb orb].
        rewrite String.eqb_refl. by apply Hq.
      * apply Forall_forall. intros [r z] Hin. cbn [fst].
        destruct r as [|k' r]; [by apply leaves_map_path in Hin|].
        cbn [plain_keys map apart Key IsArray]. destruct (String.eqb_spec key k') as [->|]; [|done].
        apply leaves_head_key in Hin. congruence.
    + by apply (IHr ltac:(done) k p w after).
Qed.

Definition leaf_item (kv : string * value) : ParameterItem := mkParam kv.1 kv.2 "".

Lemma leaf_names v p w :
  plain_tree v = true -> (p, w) ∈ leaves v -> forallb valid_name p = true.
Proof.
  revert p. pattern v. revert v. apply tree_ind.
  - intros v Hl p _ Hin. destruct v; try done; apply list_elem_of_singleton in Hin; by injection Hin as -> _.
  - done.
  - by intros p _ ?%not_elem_of_nil.
  - intros key x rest IHx IHr p Ht Hin. rewrite plain_tree_cons in Ht. bool_to_prop.
    rewrite leaves_cons, elem_of_app in Hin.
    destruct Hin as [([q u] & [= -> ->] & Hq)%list_elem_of_fmap|Hin]; [|auto].
    simpl. apply andb_true_iff. auto.
Qed.

Lemma plain_item_keys p w :
  p <> [] -> forallb valid_name p = true -> item_keys (leaf_item (join "." p, w)) = plain_keys p.
Proof.
  intros Hne Hv. unfold item_keys, leaf_item. cbn [p_Key fst].
  replace (join "." p) with (print_key (plain_keys p)).
  - apply ParseHelmKey_print; [by destruct p|].
    pose proof (proj1 (forallb_elem _ _) Hv) as Hn.
    apply forallb_elem. intros k (x & -> & Hx)%list_elem_of_fmap.
    unfold valid_part. simpl. by rewrite Hn.
  - unfold print_key, plain_keys. rewrite map_map. unfold print_part. simpl. by rewrite map_id.
Qed.

Lemma fits_all_plain items root :
  Forall (fun it => forallb (fun k => negb (IsArray k)) (item_keys it) = true) items ->
  fits_all root items = true.
Proof.
  intros H. revert root. induction H as [|it items Hi _ IH]; intros root; [done|].
  simpl. by rewrite fits_plain, IH.
Qed.

Lemma plain_keys_no_array p : forallb (fun k => negb (IsArray k)) (plain_keys p) = true.
Proof. apply forallb_elem. by intros k (x & -> & _)%list_elem_of_fmap. Qed.

(** ** Properties *)

(** The values of a chart: when no path goes through an index of something that
    is not a list, the last parameter set under a path is what the tree has there, as
    long as the parameters after it take other branches; and the values of the chart's
    file that no parameter's path crosses are kept. *)
Theorem GetValuesMap_reads load hci root :
  GetValuesMap load hci = Returns root ->
  exists file, (file = [] \/ load (hc_ValueFile hci) = Ok (Some file)) /\
    (fits_all file (hc_DynamicValues hci) = true ->
     (forall before it after,
        hc_DynamicValues hci = before ++ it :: after ->
        Forall (fun later => apart (item_keys it) (item_keys later) = true) after ->
        get_path (item_keys it) (VMap root) = Some (p_Value it)) /\
     (forall p w,
        Forall (fun it => apart p (item_keys it) = true) (hc_DynamicValues hci) ->
        get_path p (VMap file) = Some w -> get_path p (VMap root) = Some w)).
Proof.
  intros H. apply GetValuesMap_root in H as (file & -> & Hfile). exists file. split; [done|].
  intros Hf. split.
  - intros before it after Hi Ha. rewrite Hi in *. by apply set_items_reads.
  - intros p w Ha Hg. by apply set_items_frame.
Qed.

(** A key that [IsValidHelmValueKey] takes is read as it was written: printing a
    path and parsing the text gives the path back, indices included. *)
Theorem helm_key_roundtrip keys :
  keys <> [] -> forallb valid_part keys = true -> ParseHelmKey (print_key keys) = keys.
Proof. apply ParseHelmKey_print. Qed.

(** Flattening the values of a request and setting the parameters again keeps
    every leaf: what is read along a path of the given tree is read along the same
    path of the values built from its parameters. *)
Theorem flatten_roundtrip json load data p w :
  plain_tree (VMap data) = true -> is_leaf w = true ->
  get_path (plain_keys p) (VMap data) = Some w ->
  exists root,
    GetValuesMap load (mkHelmConfig "" "" "" "" "" ""
      (map leaf_item (flattenYAMLToParameters json data ""))) = Returns root /\
    get_path (plain_keys p) (VMap root) = Some w.
Proof.
  intros Ht Hw Hg. eexists. split; [done|]. cbn [hc_DynamicValues].
  unfold flattenYAMLToParameters.
  assert (E : flatten_value json "" (VMap data) = _)
    by exact (flatten_leaves json [] (VMap data) (Forall_nil_2 _) Ht).
  rewrite E. clear E. cbn [app].
  apply leaves_complete in Hg; [|done]. pose proof (leaf_names _ _ _ Ht Hg) as Hp.
  pose proof (leaves_map_path _ _ _ Hg) as Hpne.
  pose proof Hg as Hsplit. apply list_elem_of_split in Hsplit as (before & after & Hl).
  pose proof (leaves_apart _ Ht _ _ _ _ Hl) as Ha.
  assert (Hkeys : forall q u, (q, u) ∈ leaves (VMap data) ->
            item_keys (leaf_item (join "." q, u)) = plain_keys q).
  { intros q u Hq. apply plain_item_keys; [by eapply leaves_map_path|by eapply leaf_names]. }
  rewrite map_map.
  rewrite <- (Hkeys p w Hg). change (Some w) with (Some (p_Value (leaf_item (join "." p, w)))).
  rewrite Hl, map_app. cbn [map fst snd app]. apply set_items_reads.
  - change (leaf_item (join "." p, w) :: map (fun pw => leaf_item (join "." pw.1, pw.2)) after)
      with (map (fun pw => leaf_item (join "." pw.1, pw.2)) ((p, w) :: after)).
    rewrite <- map_app, <- Hl. apply fits_all_plain, Forall_forall.
    intros it ([q u] & -> & Hq)%list_elem_of_fmap. cbn [fst snd].
    rewrite Hkeys by done. apply plain_keys_no_array.
  - apply Forall_forall. intros it ([q u] & -> & Hq)%list_elem_of_fmap. cbn [fst snd].
    assert (Hin : (q, u) ∈ leaves (VMap data)) by (rewrite Hl; set_solver).
    rewrite Hkeys by done. rewrite (Hkeys q u Hin). rewrite Forall_forall in Ha. by apply (Ha (q, u)).
Qed.

(** An index on something that is not a list is dropped: the rest of the path is set
    in the map that holds it. *)
Example index_of_a_scalar :
  set_items [("a", VStr "x")] [mkParam "a[0].b" (VInt 1) ""] = [("a", VStr "x"); ("b", VInt 1)].
Proof. vm_compute. reflexivity. Qed.

Module HelmSample.
Definition hci : HelmConfigItem :=
  mkHelmConfig "1" "" "" "" "" "values.yaml"
    [mkParam "image.tag" (VStr "v1") "";
     mkParam "init[1].image" (VStr "busybox") "";
     mkParam "image.tag" (VStr "v2") ""].
Definition load (_ : string) : res (option vmap) := Ok (Some [("global", VMap [("port", VInt 80)])]).

Lemma GetValuesMap_reads_witness :
  exists root, GetValuesMap load hci = Returns root /\
    get_path (ParseHelmKey "init[1].image") (VMap root) = Some (VStr "busybox") /\
    get_path (ParseHelmKey "global.port") (VMap root) = Some (VInt 80).
Proof.
  eexists. split; [vm_compute; reflexivity|].
  destruct (GetValuesMap_reads load hci _ eq_refl) as (file & [->|[= <-]] & H).
  - split; vm_compute; reflexivity.
  - destruct (H ltac:(vm_compute; reflexivity)) as [Hit Hfile]. split.
    + apply (Hit [mkParam "image.tag" (VStr "v1") ""] _ [mkParam "image.tag" (VStr "v2") ""] eq_refl).
      repeat constructor.
    + apply Hfile; [repeat constructor|vm_compute; reflexivity].
Defined.

Definition path : list HelmKeyPart := [mkPart "accounting" false 0; mkPart "initContainers" true 12; mkPart "image" false 0].
Lemma helm_key_roundtrip_witness :
  print_key path = "accounting.initContainers[12].image" /\ ParseHelmKey (print_key path) = path.
Proof. split; [vm_compute; reflexivity|]. apply helm_key_roundtrip; [done|vm_compute; reflexivity]. Defined.

Definition tree : vmap := [("image", VMap [("tag", VStr "v1"); ("pull", VBool true)]); ("replicas", VInt 3)].
Lemma flatten_roundtrip_witness :
  exists root,
    GetValuesMap load (mkHelmConfig "" "" "" "" "" ""
      (map leaf_item (flattenYAMLToParameters (fun _ => Err "") tree ""))) = Returns root /\
    get_path (plain_keys ["image"; "tag"]) (VMap root) = Some (VStr "v1").
Proof. apply flatten_roundtrip; vm_compute; reflexivity. Defined.
End HelmSample.
