(* ===== verification/NamespaceLock.v ===== *)
(** * Namespace locks ([service/consumer/namespace_*_store.go], [monitor.go])

    A namespace of the cluster is a Redis hash with the end time and the trace
    that holds it, and a status.  A lock is acquired in a WATCH/MULTI/EXEC
    transaction; other clients may act between its commands, so [acquire] takes
    the commands they run at each point, and EXEC aborts when one of them changed
    the watched hash.  The release reads and then writes, without a transaction.

    The monitor protects itself with a readers-writer mutex, which is not
    reentrant: a computation of the monitor either finishes or is blocked for
    ever ([run]).  Times are Unix seconds. *)

From S2P Require Import Prelude GoStrings Consts Redis Gateway Task TaskQueue TaskSubmit.

(** ** The lock store *)

(** [fmt.Sprintf(consts.NamespaceKeyPattern, namespace)]. *)
Definition ns_key (namespace : string) : string := "monitor:ns:" +:+ namespace.

Record namespaceLockState := mkLock { EndTime : Z; LockTraceID : string }.

Inductive any_cmd :=
| Any (A : Type) (c : cmd A).
Arguments Any {A} c.

Section LockStore.
Context {R : Type} `{RedisServer R}.

(** A field of a hash, the empty string when it is missing. *)
Definition hget_or_empty (key field : string) : M R string :=
  let! v := attempt (exec (HGET key field)) in
  match v with
  | Ok s => m_ret s
  | Err e => if String.eqb e redis_Nil then m_ret "" else m_err e
  end.

Definition parse_lock (endTimeStr traceID : string) : res namespaceLockState :=
  if String.eqb endTimeStr "" then Ok (mkLock 0 traceID)
  else match atoi endTimeStr with
       | Some endTime => Ok (mkLock endTime traceID)
       | None => Err ("strconv.ParseInt: parsing " +:+ endTimeStr +:+ ": invalid syntax")
       end.

Definition read (namespace : string) : M R namespaceLockState :=
  let! endTimeStr := hget_or_empty (ns_key namespace) "end_time" in
  let! traceID := hget_or_empty (ns_key namespace) "trace_id" in
  m_lift (parse_lock endTimeStr traceID).

Definition write (namespace : string) (endTime : Z) (traceID : string) : M R unit :=
  HashSet (ns_key namespace) [("end_time", itoa endTime); ("trace_id", traceID)].

(** The commands of the other clients; the flag says whether one of them changed
    the watched hash. *)
Fixpoint others (key : string) (cs : list any_cmd) (r : R) : R * bool :=
  match cs with
  | [] => (r, false)
  | Any c :: cs' =>
      let r1 := fst (exec c r) in
      let '(r2, dirty) := others key cs' r1 in
      (r2, negb (bool_decide (khash key (keys r1) = khash key (keys r))) || dirty)
  end.

Definition locked_message (namespace : string) (state : namespaceLockState) : string :=
  "namespace " +:+ namespace +:+ " is locked by " +:+ LockTraceID state +:+ " until "
  +:+ itoa (EndTime state).

(** [state.TraceID != "" && state.TraceID != traceID && now.Unix() < state.EndTime]. *)
Definition held_by_other (traceID : string) (now : Z) (state : namespaceLockState) : bool :=
  negb (String.eqb (LockTraceID state) "") && negb (String.eqb (LockTraceID state) traceID)
  && (now <? EndTime state).

(** What the other clients do before each of the three requests that follow
    WATCH. *)
Record watch_env := mkWatch { before_end : list any_cmd; before_trace : list any_cmd;
                              before_exec : list any_cmd }.
Definition undisturbed : watch_env := mkWatch [] [] [].

Definition acquire (env : watch_env) (namespace : string) (endTime : Z) (traceID : string) (now : Z)
  : M R unit := fun r =>
  let key := ns_key namespace in
  let '(r1, d1) := others key (before_end env) r in
  let '(r2, endTimeStr) := hget_or_empty key "end_time" r1 in
  match endTimeStr with
  | Err e => (r2, Err e)
  | Ok endTimeStr =>
      let '(r3, d2) := others key (before_trace env) r2 in
      let '(r4, tid) := hget_or_empty key "trace_id" r3 in
      match (let? tid := tid in parse_lock endTimeStr tid) with
      | Err e => (r4, Err e)
      | Ok state =>
          if held_by_other traceID now state then (r4, Err (locked_message namespace state))
          else
            let '(r5, d3) := others key (before_exec env) r4 in
            if d1 || d2 || d3 then (r5, Err TxFailedErr)
            else exec (MULTI (HSET key "end_time" (itoa endTime)) (HSET key "trace_id" traceID)) r5
      end
  end.

(** [between] is what the other clients do between the read and the write. *)
Definition release (between : list any_cmd) (namespace traceID : string) (releasedAt : Z)
  : M R unit := fun r =>
  let '(r1, state) := read namespace r in
  match state with
  | Err e =>
      if String.eqb e redis_Nil
      then write namespace releasedAt "" (fst (others (ns_key namespace) between r1))
      else (r1, Err ("failed to get current trace_id: " +:+ e))
  | Ok state =>
      if negb (String.eqb (LockTraceID state) traceID) && negb (String.eqb (LockTraceID state) "")
      then (r1, Err ("cannot release lock: namespace " +:+ namespace +:+
                     " is not owned by trace_id " +:+ traceID +:+
                     " (current owner: " +:+ LockTraceID state +:+ ")"))
      else write namespace releasedAt "" (fst (others (ns_key namespace) between r1))
  end.

Definition isActive (namespace : string) (now : Z) : M R bool :=
  let! state := attempt (read namespace) in
  match state with
  | Err e => if String.eqb e redis_Nil then m_ret false else m_err e
  | Ok state =>
      if String.eqb (LockTraceID state) "" then m_ret false
      else m_ret (now <? EndTime state)
  end.

(** ** The status store and the catalog *)

Definition status_get (namespace : string) : M R Z :=
  let! statusStr := attempt (HashGet (ns_key namespace) "status") in
  match statusStr with
  | Err e => if String.eqb e redis_Nil then m_ret (StatusType_code CommonEnabled) else m_err e
  | Ok statusStr =>
      match atoi statusStr with
      | Some status => m_ret status
      | None => m_err ("invalid status value: " +:+ statusStr)
      end
  end.

Definition status_set (namespace : string) (status : Z) : M R unit :=
  HashSet (ns_key namespace) [("status", itoa status)].

Definition catalog_list : M R (list string) := SetMembers NamespacesKey.
Definition catalog_exists (namespace : string) : M R bool := Exists (ns_key namespace).
Definition catalog_seed (namespace : string) (endTime : Z) : M R unit :=
  SeedNamespaceState (ns_key namespace) namespace endTime (StatusType_code CommonEnabled).
End LockStore.

(** ** Facts on the lock store *)

(** The lock a hash stands for. *)
Definition lock_of (h : gmap string string) : res namespaceLockState :=
  parse_lock (default "" (h !! "end_time")) (default "" (h !! "trace_id")).

Section LockFacts.
Context {R : Type} `{RedisLaws R}.

Lemma hget_or_empty_keys key field r r' o : hget_or_empty key field r = (r', o) -> keys r' = keys r.
Proof.
  unfold hget_or_empty, m_bind, attempt. destruct (exec (HGET key field) r) as [r1 o1] eqn:E.
  apply exec_reads in E; [|apply reads_HGET].
  destruct o1 as [s|e]; [by intros [= <- _]|]. destruct (String.eqb e redis_Nil); by intros [= <- _].
Qed.

Lemma hget_or_empty_ok key field r r' s :
  hget_or_empty key field r = (r', Ok s) -> s = default "" (khash key (keys r) !! field).
Proof.
  unfold hget_or_empty, m_bind, attempt. destruct (exec (HGET key field) r) as [r1 [v|e]] eqn:E.
  - intros [= _ <-]. by rewrite (exec_HGET_ok _ _ _ _ _ E).
  - destruct (String.eqb_spec e redis_Nil) as [->|]; [|done]. intros [= _ <-].
    by rewrite (exec_HGET_nil _ _ _ _ E).
Qed.

Lemma read_ok namespace r r' st :
  read namespace r = (r', Ok st) ->
  lock_of (khash (ns_key namespace) (keys r)) = Ok st /\ keys r' = keys r.
Proof.
  unfold read. rewrite m_bind_ok. intros (r1 & e & He & Hx).
  apply m_bind_ok in Hx as (r2 & t & Ht & Hx). unfold m_lift in Hx. injection Hx as -> Hp.
  pose proof (hget_or_empty_keys _ _ _ _ _ He) as Hk1. pose proof (hget_or_empty_keys _ _ _ _ _ Ht) as Hk2.
  apply hget_or_empty_ok in He as ->. apply hget_or_empty_ok in Ht as ->. rewrite Hk1 in Hp.
  split; [done|congruence].
Qed.

Lemma others_clean key cs r r' : others key cs r = (r', false) -> khash key (keys r') = khash key (keys r).
Proof.
  revert r. induction cs as [|[A c] cs IH]; intros r; simpl; [by intros [= <-]|].
  destruct (others key cs (fst (exec c r))) as [r2 d] eqn:E. intros [= -> Hd].
  apply orb_false_iff in Hd as [Hd1 ->]. apply IH in E. bool_to_prop. congruence.
Qed.

(** The server when EXEC reaches it: after the two reads, and everything the other
    clients did before them and between them and EXEC. *)
Definition at_exec (env : watch_env) (namespace : string) (r : R) : R :=
  let key := ns_key namespace in
  let r2 := fst (hget_or_empty key "end_time" (fst (others key (before_end env) r))) in
  let r4 := fst (hget_or_empty key "trace_id" (fst (others key (before_trace env) r2))) in
  fst (others key (before_exec env) r4).

Lemma acquire_exclusive_aux env namespace endTime traceID now r r' :
  acquire env namespace endTime traceID now r = (r', Ok tt) ->
  let key := ns_key namespace in
  let r5 := at_exec env namespace r in
  exists st,
    lock_of (khash key (keys r5)) = Ok st /\ held_by_other traceID now st = false /\
    exec (MULTI (HSET key "end_time" (itoa endTime)) (HSET key "trace_id" traceID)) r5 = (r', Ok tt) /\
    khash key (keys r') = <["trace_id" := traceID]> (<["end_time" := itoa endTime]> (khash key (keys r5))) /\
    khash key (keys r5) = khash key (keys r).
Proof.
  unfold acquire, at_exec. set (key := ns_key namespace).
  destruct (others key (before_end env) r) as [r1 d1] eqn:E1. cbn [fst].
  destruct (hget_or_empty key "end_time" r1) as [r2 [e|e]] eqn:G1; [|done]. cbn [fst].
  destruct (others key (before_trace env) r2) as [r3 d2] eqn:E2. cbn [fst].
  destruct (hget_or_empty key "trace_id" r3) as [r4 tid] eqn:G2. cbn [fst].
  destruct (let? tid := tid in parse_lock e tid) as [st|e'] eqn:Ep; [|done].
  destruct (held_by_other traceID now st) eqn:Eh; [done|].
  destruct (others key (before_exec env) r4) as [r5 d3] eqn:E3. cbn [fst].
  destruct (d1 || d2 || d3) eqn:Ed; [done|]. intros Hx.
  apply orb_false_iff in Ed as [Ed ->]. apply orb_false_iff in Ed as [-> ->].
  apply res_bind_ok in Ep as (t & -> & Ep).
  pose proof (hget_or_empty_keys _ _ _ _ _ G1) as K1. pose proof (hget_or_empty_keys _ _ _ _ _ G2) as K2.
  apply hget_or_empty_ok in G1 as ->. apply hget_or_empty_ok in G2 as ->.
  apply others_clean in E1, E2, E3. rewrite K1 in E2. rewrite K2 in E3.
  exists st. split_and!; [|done|done| |congruence].
  - unfold lock_of. rewrite E3, E2. by rewrite E2 in Ep.
  - apply exec_ok in Hx. simpl in Hx. injection Hx as <-. rewrite !khash_upd. by repeat case_decide.
Qed.

(** C1. Mutual exclusion.  When an acquisition succeeds, whatever the other clients did
    before and between its commands, the server its EXEC reached - after all that - had the
    namespace free for the caller: not held by another trace for a time still to come (by
    the caller's clock); it is the writes of that EXEC that succeeded, after which the
    caller holds the namespace until the end time it asked for.  So an acquisition of a
    namespace that another trace took in the meantime fails. *)
Theorem acquire_exclusive env namespace endTime traceID now r r' :
  acquire env namespace endTime traceID now r = (r', Ok tt) ->
  let key := ns_key namespace in
  let r5 := at_exec env namespace r in
  exists st,
    lock_of (khash key (keys r5)) = Ok st /\ held_by_other traceID now st = false /\
    exec (MULTI (HSET key "end_time" (itoa endTime)) (HSET key "trace_id" traceID)) r5 = (r', Ok tt) /\
    khash key (keys r') = <["trace_id" := traceID]> (<["end_time" := itoa endTime]> (khash key (keys r5))) /\
    khash key (keys r5) = khash key (keys r).
Proof. apply acquire_exclusive_aux. Qed.
End LockFacts.

(** ** Runs of lock operations *)

Inductive lock_op :=
| OpAcquire (namespace : string) (endTime : Z) (traceID : string) (now : Z)
| OpRelease (namespace traceID : string) (releasedAt : Z).

Section Runs.
Context {R : Type} `{RedisLaws R}.

Definition run_op (op : lock_op) (r : R) : R :=
  match op with
  | OpAcquire ns e t now => fst (acquire undisturbed ns e t now r)
  | OpRelease ns t at_ => fst (release [] ns t at_ r)
  end.

Definition run_ops (ops : list lock_op) (r : R) : R := fold_left (fun r op => run_op op r) ops r.

Lemma ns_key_inj a b : ns_key a = ns_key b -> a = b.
Proof. unfold ns_key. intros E. by apply (inj (String.append "monitor:ns:")) in E. Qed.

(** Writing the hash of one namespace leaves the others alone. *)
Lemma write_other ns ns' e t r :
  ns' <> ns -> khash (ns_key ns) (keys (fst (write ns' e t r))) = khash (ns_key ns) (keys r).
Proof.
  intros Hne. unfold write, HashSet, key_error, m_wrap. simpl.
  destruct (exec _ r) as [r' o] eqn:Ex. simpl. apply exec_keys in Ex as [-> | ->]; [done|].
  simpl. rewrite khash_upd, decide_False; [done|]. intros E. by apply ns_key_inj in E.
Qed.

Lemma read_keys ns r r' o : read ns r = (r', o) -> keys r' = keys r.
Proof.
  unfold read, m_bind. destruct (hget_or_empty _ _ r) as [r1 [e|e]] eqn:E1;
    apply hget_or_empty_keys in E1; [|by intros [= <- _]].
  destruct (hget_or_empty _ _ r1) as [r2 [t|t]] eqn:E2; apply hget_or_empty_keys in E2;
    intros [= <- _]; congruence.
Qed.

(** The store never reports a missing hash as an error. *)
Lemma read_not_nil ns r r' : read ns r <> (r', Err redis_Nil).
Proof.
  assert (Hnn : forall k f r0 r0', hget_or_empty k f r0 <> (r0', Err redis_Nil)).
  { intros k f r0 r0'. unfold hget_or_empty, m_bind, attempt, m_ret, m_err.
    destruct (exec (HGET k f) r0) as [? [s|m]]; [by intros [=]|].
    destruct (String.eqb_spec m redis_Nil); by intros [=]. }
  unfold read, m_bind. destruct (hget_or_empty _ "end_time" r) as [r2 [x|x]] eqn:E1.
  2:{ intros [= -> ->]. by apply Hnn in E1. }
  destruct (hget_or_empty _ "trace_id" r2) as [r3 [y|y]] eqn:E2.
  2:{ intros [= -> ->]. by apply Hnn in E2. }
  unfold m_lift, parse_lock. destruct (String.eqb x ""); [by intros [=]|].
  destruct (atoi x); by intros [=].
Qed.

Lemma acquire_held ns e0 owner e t now r :
  lock_of (khash (ns_key ns) (keys r)) = Ok (mkLock e0 owner) ->
  owner <> "" -> t <> owner -> now < e0 ->
  keys (fst (acquire undisturbed ns e t now r)) = keys r /\
  is_ok (snd (acquire undisturbed ns e t now r)) = false.
Proof.
  intros Hl Ho Ht Hn. unfold acquire. simpl.
  destruct (hget_or_empty _ "end_time" r) as [r1 [x|x]] eqn:E1; pose proof (hget_or_empty_keys _ _ _ _ _ E1) as K1;
    [|done].
  destruct (hget_or_empty _ "trace_id" r1) as [r2 tid] eqn:E2; pose proof (hget_or_empty_keys _ _ _ _ _ E2) as K2.
  destruct tid as [y|y]; simpl; [|split; [congruence|done]].
  apply hget_or_empty_ok in E1 as ->. apply hget_or_empty_ok in E2 as ->. rewrite K1.
  unfold lock_of in Hl. rewrite Hl. unfold held_by_other. simpl.
  destruct (String.eqb_spec owner ""); [done|]. destruct (String.eqb_spec owner t); [congruence|].
  destruct (Z.ltb_spec now e0); [|lia]. simpl. split; [congruence|done].
Qed.

Lemma release_held ns e0 owner t at_ r :
  lock_of (khash (ns_key ns) (keys r)) = Ok (mkLock e0 owner) ->
  owner <> "" -> t <> owner ->
  keys (fst (release [] ns t at_ r)) = keys r /\ is_ok (snd (release [] ns t at_ r)) = false.
Proof.
  intros Hl Ho Ht. unfold release.
  destruct (read ns r) as [r1 [st|e]] eqn:Er; pose proof (read_keys _ _ _ _ Er) as K.
  - apply read_ok in Er as [Er _]. rewrite Hl in Er. injection Er as <-. simpl.
    destruct (String.eqb_spec owner ""); [done|]. destruct (String.eqb_spec owner t); [congruence|].
    done.
  - destruct (String.eqb_spec e redis_Nil) as [->|]; [|done]. exfalso.
    by apply read_not_nil in Er.
Qed.

Lemma op_other_namespace ns op r :
  match op with OpAcquire ns' _ _ _ | OpRelease ns' _ _ => ns' <> ns end ->
  khash (ns_key ns) (keys (run_op op r)) = khash (ns_key ns) (keys r).
Proof.
  destruct op as [ns' e t now|ns' t at_]; intros Hne; simpl.
  - unfold acquire. simpl.
    destruct (hget_or_empty _ "end_time" r) as [r1 [x|x]] eqn:E1; pose proof (hget_or_empty_keys _ _ _ _ _ E1) as K1;
      simpl; [|by rewrite K1].
    destruct (hget_or_empty _ "trace_id" r1) as [r2 tid] eqn:E2; pose proof (hget_or_empty_keys _ _ _ _ _ E2) as K2.
    destruct (res_bind tid _) as [st|m]; simpl; [|congruence].
    destruct (held_by_other t now st); simpl; [congruence|].
    destruct (exec _ r2) as [r3 o] eqn:Ex. simpl. rewrite <- K1, <- K2.
    assert (Hk : ns_key ns <> ns_key ns') by (intros E; by apply ns_key_inj in E).
    apply exec_keys in Ex as [-> | ->]; [done|]. simpl. by rewrite !khash_upd, !decide_False.
  - unfold release. destruct (read ns' r) as [r1 [st|m]] eqn:Er; pose proof (read_keys _ _ _ _ Er) as K; simpl.
    + destruct (_ && _); simpl; [congruence|]. rewrite write_other by done. congruence.
    + destruct (String.eqb m redis_Nil); simpl; [|congruence]. rewrite write_other by done. congruence.
Qed.

(** The operations of traces other than [owner], before the end of its lock. *)
Definition by_other (owner : string) (e : Z) (op : lock_op) : Prop :=
  match op with
  | OpAcquire _ _ t now => t <> owner /\ now < e
  | OpRelease _ t _ => t <> owner
  end.

(** C9. A lock is kept: once a trace holds a namespace until [e], no sequence of
    acquisitions and releases by other traces, on any namespaces, made before [e]
    changes it. *)
Theorem held_lock_is_kept ns owner e ops r :
  owner <> "" -> lock_of (khash (ns_key ns) (keys r)) = Ok (mkLock e owner) ->
  Forall (by_other owner e) ops ->
  khash (ns_key ns) (keys (run_ops ops r)) = khash (ns_key ns) (keys r).
Proof.
  intros Ho. revert r. induction ops as [|op ops IH]; intros r Hl Hops; [done|].
  apply Forall_cons in Hops as [Hop Hops].
  assert (Hstep : khash (ns_key ns) (keys (run_op op r)) = khash (ns_key ns) (keys r)).
  { destruct (decide (match op with OpAcquire ns' _ _ _ | OpRelease ns' _ _ => ns' end = ns)) as [E|E];
      [|by apply op_other_namespace; destruct op].
    destruct op as [ns' e' t now|ns' t at_]; subst ns'; simpl in *.
    - destruct Hop as [Ht Hn]. by destruct (acquire_held ns e owner e' t now r Hl Ho Ht Hn) as [-> _].
    - by destruct (release_held ns e owner t at_ r Hl Ho Hop) as [-> _]. }
  simpl. rewrite <- Hstep. apply IH; [by rewrite Hstep|done].
Qed.

(** A lock is only given back by its owner: a successful release (undisturbed)
    found the namespace free or held by the caller, and leaves it free. *)
Theorem release_by_owner ns t at_ r r' :
  release [] ns t at_ r = (r', Ok tt) ->
  exists st, lock_of (khash (ns_key ns) (keys r)) = Ok st /\
    (LockTraceID st = t \/ LockTraceID st = "") /\
    khash (ns_key ns) (keys r') !! "trace_id" = Some "".
Proof.
  intros Hx. destruct (lock_of (khash (ns_key ns) (keys r))) as [st|m] eqn:El.
  - exists st. split; [done|].
    destruct (decide (LockTraceID st = t \/ LockTraceID st = "")) as [Hd|Hd].
    2:{ exfalso. destruct st as [e o]. simpl in Hd.
        destruct (release_held ns e o t at_ r El ltac:(tauto) ltac:(intros ->; tauto)) as [_ Hf].
        by rewrite Hx in Hf. }
    split; [done|]. unfold release in Hx.
    assert (Hw : forall r0, write ns at_ "" r0 = (r', Ok tt) -> khash (ns_key ns) (keys r') !! "trace_id" = Some "").
    { intros r0. unfold write, HashSet, key_error, m_wrap. simpl.
      destruct (exec _ r0) as [r1 [u|m]] eqn:Ex; [|done]. intros [= <- _]. apply exec_ok in Ex.
      simpl in Ex. injection Ex as <- _. rewrite khash_upd, decide_True by done. by rewrite lookup_insert_eq. }
    destruct (read ns r) as [r1 [st'|m]].
    + destruct (_ && _); [done|]. by apply Hw in Hx.
    + destruct (String.eqb m redis_Nil); [by apply Hw in Hx|done].
  - exfalso. unfold release in Hx.
    destruct (read ns r) as [r1 [st'|m']] eqn:Er; [apply read_ok in Er as [Er _]; congruence|].
    destruct (String.eqb_spec m' redis_Nil) as [->|]; [|done].
    by apply read_not_nil in Er.
Qed.
End Runs.

(** ** The monitor *)

(** A computation of one goroutine on the monitor: it finishes, or waits for the
    mutex for ever. *)
Inductive run (W A : Type) :=
| Finished (w : W) (r : res A)
| Blocked (w : W).
Arguments Finished {W A} w r.
Arguments Blocked {W A} w.

Definition B (W A : Type) : Type := W -> run W A.
Definition b_ret {W A} (a : A) : B W A := fun w => Finished w (Ok a).
Definition b_err {W A} (e : string) : B W A := fun w => Finished w (Err e).
Definition b_bind {W A C} (m : B W A) (f : A -> B W C) : B W C := fun w =>
  match m w with
  | Finished w' (Ok a) => f a w'
  | Finished w' (Err e) => Finished w' (Err e)
  | Blocked w' => Blocked w'
  end.
Definition b_attempt {W A} (m : B W A) : B W (res A) := fun w =>
  match m w with
  | Finished w' r => Finished w' (Ok r)
  | Blocked w' => Blocked w'
  end.
Definition b_wrap {W A} (prefix : string) (m : B W A) : B W A := fun w =>
  match m w with
  | Finished w' r => Finished w' (res_wrap prefix r)
  | Blocked w' => Blocked w'
  end.
(** [defer last]: runs after [m] with its result, whatever it is. *)
Definition b_defer {W A} (last : res A -> B W unit) (m : B W A) : B W A := fun w =>
  match m w with
  | Finished w1 r =>
      match last r w1 with
      | Finished w2 _ => Finished w2 r
      | Blocked w2 => Blocked w2
      end
  | Blocked w1 => Blocked w1
  end.

Notation "'let%' x := m 'in' k" := (b_bind m (fun x => k))
  (at level 10, x pattern, m at level 100, k at level 200) : go_scope.
Notation "m ';;%' k" := (b_bind m (fun _ => k))
  (at level 100, k at level 200, right associativity) : go_scope.

(** The monitor: whether a goroutine holds the write side of [m.mu], and Redis. *)
Record monitor (R : Type) := mkMonitor { mu_locked : bool; mon_redis : R }.
Arguments mkMonitor {R} _ _.
Arguments mu_locked {R} _.
Arguments mon_redis {R} _.

Record NamespaceRefreshResult := mkRefresh {
  Added : list string; Recovered : list string; Disabled : list string; Deleted : list string
}.

(** [LockMessage]. *)
Record LockMessage := mkLockMessage { lm_TraceID : string; lm_EndTime : option Z; lm_Error : res unit }.

Record monitor_env := mkMonitorEnv {
  mon_now : Z;
  GetAllNamespaces : res (list string);              (* config *)
  range_set : gset string -> list string;            (* the order of a range over a set *)
  compile_pattern : string -> res (string -> bool);  (* regexp.Compile, MatchString *)
  lock_json : LockMessage -> res string;
  mon_caller : string * string * string
}.

Section Monitor.
Context {R : Type} `{RedisServer R}.
Context (env : monitor_env).

Definition on_store {A} (m : M R A) : B (monitor R) A := fun w =>
  let '(r', o) := m (mon_redis w) in Finished (mkMonitor (mu_locked w) r') o.

Definition mu_Lock : B (monitor R) unit := fun w =>
  if mu_locked w then Blocked w else Finished (mkMonitor true (mon_redis w)) (Ok tt).
Definition mu_Unlock : B (monitor R) unit := fun w =>
  Finished (mkMonitor false (mon_redis w)) (Ok tt).
(** [RLock] then [RUnlock]: waits for the writer. *)
Definition currentContext : B (monitor R) unit := fun w =>
  if mu_locked w then Blocked w else Finished w (Ok tt).
(** [SetContext] takes the write side around one assignment. *)
Definition SetContext : B (monitor R) unit := mu_Lock ;;% mu_Unlock.

Definition listNamespaces : B (monitor R) (list string) := currentContext ;;% on_store catalog_list.
Definition namespaceExists (ns : string) : B (monitor R) bool :=
  currentContext ;;% on_store (catalog_exists ns).
Definition seedNamespace (ns : string) (endTime : Z) : B (monitor R) unit :=
  currentContext ;;% on_store (catalog_seed ns endTime).
Definition addNamespace (ns : string) (endTime : Z) : B (monitor R) unit := seedNamespace ns endTime.
Definition isNamespaceLocked (ns : string) : B (monitor R) bool :=
  currentContext ;;% on_store (isActive ns (mon_now env)).
Definition getNamespaceStatus (ns : string) : B (monitor R) Z :=
  currentContext ;;% on_store (status_get ns).
Definition setNamespaceStatus (ns : string) (status : Z) : B (monitor R) unit :=
  currentContext ;;% on_store (status_set ns status).

(** The deferred [publishEvent] of the two lock operations. *)
Definition publish_lock (ns : string) (taskType : TaskType) (eventName : string) (msg : LockMessage)
  : B (monitor R) unit :=
  let '(file, line, fn) := mon_caller env in
  match lock_json env msg with
  | Err _ => b_ret tt
  | Ok json => on_store (ignore_err (XAdd (StreamTraceLogKey ns)
                 (ToRedisStream "" taskType file fn line eventName json)))
  end.

Definition AcquireLock (wenv : watch_env) (ns : string) (endTime : Z) (traceID : string)
    (taskType : TaskType) : B (monitor R) unit :=
  b_defer (fun err => currentContext ;;%
             publish_lock ns taskType EventAcquireLock (mkLockMessage traceID (Some endTime) err))
    (let% exists_ := b_wrap "failed to check namespace existence: " (namespaceExists ns) in
     (if exists_ then b_ret tt
      else
        match GetAllNamespaces env with
        | Err e => b_err ("failed to validate namespace: " +:+ e)
        | Ok latest =>
            if bool_decide (ns ∈ latest)
            then b_wrap "failed to lazy-load namespace: " (addNamespace ns (mon_now env))
            else b_err ("namespace " +:+ ns +:+ " not found in current configuration")
        end) ;;%
     let% status := b_wrap "failed to check namespace status: " (getNamespaceStatus ns) in
     if status =? StatusType_code CommonDisabled
     then b_err ("namespace " +:+ ns +:+ " is disabled and not accepting new locks")
     else if status =? StatusType_code CommonDeleted
     then b_err ("namespace " +:+ ns +:+ " has been deleted")
     else currentContext ;;% on_store (acquire wenv ns endTime traceID (mon_now env))).

Definition ReleaseLock (between : list any_cmd) (ns traceID : string) : B (monitor R) unit :=
  b_defer (fun err => publish_lock ns TaskTypeRestartPedestal EventReleaseLock
                        (mkLockMessage traceID None err))
    (if String.eqb ns "" || String.eqb traceID "" then b_err "namespace or trace_id is empty"
     else
       let% exists_ := b_wrap "failed to check namespace existence: " (namespaceExists ns) in
       if exists_ then currentContext ;;% on_store (release between ns traceID (mon_now env))
       else b_err ("namespace " +:+ ns +:+ " not found")).

Definition CheckNamespaceToInject (wenv : watch_env) (ns : string) (executeTime : Z)
    (traceID : string) : B (monitor R) unit :=
  let proposedEndTime := executeTime + 5 * 60 in
  let% err := b_attempt (AcquireLock wenv ns proposedEndTime traceID TaskTypeFaultInjection) in
  match err with
  | Ok _ => b_ret tt
  | Err e =>
      if String.eqb e TxFailedErr
      then b_err ("cannot inject fault: namespace " +:+ ns +:+
                  " was concurrently acquired by another client")
      else b_err ("cannot inject fault: " +:+ e)
  end.

(** The loop over the namespaces; the empty string when none could be taken. *)
Fixpoint first_acquired (matches : option (string -> bool)) (endTime : Z) (traceID : string)
    (namespaces : list string) : B (monitor R) string :=
  match namespaces with
  | [] => b_ret ""
  | ns :: rest =>
      let% status := b_attempt (getNamespaceStatus ns) in
      match status with
      | Err _ => first_acquired matches endTime traceID rest
      | Ok status =>
          if negb (status =? StatusType_code CommonEnabled)
          then first_acquired matches endTime traceID rest
          else
            match matches with
            | Some matches_ =>
                if matches_ ns then
                  let% err := b_attempt (AcquireLock undisturbed ns endTime traceID
                                           TaskTypeRestartPedestal) in
                  if is_ok err then b_ret ns else first_acquired matches endTime traceID rest
                else first_acquired matches endTime traceID rest
            | None => first_acquired matches endTime traceID rest
            end
      end
  end.

Definition GetNamespaceToRestart (endTime : Z) (nsPattern traceID : string) : B (monitor R) string :=
  let% namespaces := b_attempt listNamespaces in
  match namespaces with
  | Err _ => b_ret ""
  | Ok namespaces =>
      if String.eqb nsPattern "" then first_acquired None endTime traceID namespaces
      else match compile_pattern env nsPattern with
           | Err _ => b_ret ""
           | Ok matches => first_acquired (Some matches) endTime traceID namespaces
           end
  end.

(** One namespace of the configuration, in [RefreshNamespaces]. *)
Definition refresh_latest (existing : gset string) (res_ : NamespaceRefreshResult) (ns : string)
  : B (monitor R) NamespaceRefreshResult :=
  if bool_decide (ns ∈ existing) then
    let% currentStatus := b_attempt (getNamespaceStatus ns) in
    match currentStatus with
    | Err _ => b_ret res_
    | Ok currentStatus =>
        if negb (currentStatus =? StatusType_code CommonEnabled) then
          let% err := b_attempt (setNamespaceStatus ns (StatusType_code CommonEnabled)) in
          b_ret (if is_ok err
                 then mkRefresh (Added res_) (Recovered res_ ++ [ns]) (Disabled res_) (Deleted res_)
                 else res_)
        else b_ret res_
    end
  else
    let% err := b_attempt (addNamespace ns (mon_now env)) in
    b_ret (if is_ok err
           then mkRefresh (Added res_ ++ [ns]) (Recovered res_) (Disabled res_) (Deleted res_)
           else res_).

(** One namespace that is gone from the configuration. *)
Definition refresh_existing (latest : gset string) (res_ : NamespaceRefreshResult) (ns : string)
  : B (monitor R) NamespaceRefreshResult :=
  if bool_decide (ns ∈ latest) then b_ret res_
  else
    let% currentStatus := b_attempt (getNamespaceStatus ns) in
    match currentStatus with
    | Err _ => b_ret res_
    | Ok currentStatus =>
        if (currentStatus =? StatusType_code CommonDisabled)
           || (currentStatus =? StatusType_code CommonDeleted)
        then b_ret res_
        else
          let% isLocked := b_attempt (isNamespaceLocked ns) in
          match isLocked with
          | Err _ => b_ret res_
          | Ok true =>
              let% err := b_attempt (setNamespaceStatus ns (StatusType_code CommonDisabled)) in
              b_ret (if is_ok err
                     then mkRefresh (Added res_) (Recovered res_) (Disabled res_ ++ [ns]) (Deleted res_)
                     else res_)
          | Ok false =>
              let% err := b_attempt (setNamespaceStatus ns (StatusType_code CommonDeleted)) in
              b_ret (if is_ok err
                     then mkRefresh (Added res_) (Recovered res_) (Disabled res_) (Deleted res_ ++ [ns])
                     else res_)
          end
    end.

Fixpoint b_fold {A S} (f : S -> A -> B (monitor R) S) (s : S) (l : list A) : B (monitor R) S :=
  match l with
  | [] => b_ret s
  | x :: l' => let% s' := f s x in b_fold f s' l'
  end.

Definition RefreshNamespaces : B (monitor R) NamespaceRefreshResult :=
  mu_Lock ;;%
  b_defer (fun _ => mu_Unlock)
    (match GetAllNamespaces env with
     | Err e => b_err ("failed to get latest namespaces: " +:+ e)
     | Ok latestNamespaces =>
         let% existingNamespaces := b_wrap "failed to get existing namespaces: " listNamespaces in
         let latestSet : gset string := list_to_set latestNamespaces in
         let existingSet : gset string := list_to_set existingNamespaces in
         let% result := b_fold (refresh_latest existingSet) (mkRefresh [] [] [] [])
                          (range_set env latestSet) in
         b_fold (refresh_existing latestSet) result (range_set env existingSet)
     end).

Definition initialize_one (initialized : list string) (ns : string) : B (monitor R) (list string) :=
  let% status := b_attempt (getNamespaceStatus ns) in
  match status with
  | Err _ => b_ret initialized
  | Ok status =>
      if status =? StatusType_code CommonEnabled then
        let% err := b_attempt (addNamespace ns (mon_now env)) in
        b_ret (if is_ok err then initialized ++ [ns] else initialized)
      else b_ret initialized
  end.

Definition InitializeNamespaces : B (monitor R) (list string) :=
  b_wrap "failed to refresh namespaces during initialization: " RefreshNamespaces ;;%
  let% allNamespaces := b_wrap "failed to get namespaces from Redis: " listNamespaces in
  b_fold initialize_one [] allNamespaces.
End Monitor.

(** ** Facts on the monitor *)

Section MonitorFacts.
Context {R : Type} `{RedisLaws R}.
Context (env : monitor_env).

Lemma b_bind_ok {W A C} (m : B W A) (f : A -> B W C) (w w2 : W) c :
  b_bind m f w = Finished w2 (Ok c) <-> exists w1 a, m w = Finished w1 (Ok a) /\ f a w1 = Finished w2 (Ok c).
Proof.
  unfold b_bind. destruct (m w) as [w1 [a|e]|w1]; split; try (intros; by destruct_and?).
  - eauto.
  - by intros (? & ? & [= <- <-] & ?).
  - by intros (? & ? & [=] & _).
  - by intros (? & ? & [=] & _).
Qed.

Lemma b_wrap_ok {W A} p (m : B W A) (w w' : W) a :
  b_wrap p m w = Finished w' (Ok a) <-> m w = Finished w' (Ok a).
Proof. unfold b_wrap. destruct (m w) as [w1 [x|e]|w1]; simpl; split; intros; by simplify_eq. Qed.

Lemma b_defer_ok {W A} last (m : B W A) (w w' : W) a :
  b_defer last m w = Finished w' (Ok a) ->
  exists w1 o, m w = Finished w1 (Ok a) /\ last (Ok a) w1 = Finished w' o.
Proof.
  unfold b_defer. destruct (m w) as [w1 r|]; [|done]. destruct (last r w1) as [w2 o|] eqn:E; [|done].
  intros [= -> ->]. eauto.
Qed.

Lemma on_store_ok {A} (m : M R A) (w w' : monitor R) a :
  on_store m w = Finished w' (Ok a) <->
  exists r', m (mon_redis w) = (r', Ok a) /\ w' = mkMonitor (mu_locked w) r'.
Proof.
  unfold on_store. destruct (m (mon_redis w)) as [r o]. split.
  - intros [= <- ->]. eauto.
  - by intros (r' & [= <- ->] & ->).
Qed.

Lemma context_ok (w w' : monitor R) u : currentContext w = Finished w' (Ok u) <-> mu_locked w = false /\ w' = w /\ u = tt.
Proof.
  unfold currentContext. destruct u, (mu_locked w); split; try done; [by intros (? & _)|by intros [= ->]|].
  by intros (_ & -> & _).
Qed.

Lemma in_context_ok {A} (m : M R A) (w w' : monitor R) a :
  (currentContext ;;% on_store m) w = Finished w' (Ok a) ->
  exists r', m (mon_redis w) = (r', Ok a) /\ w' = mkMonitor false r' /\ mu_locked w = false.
Proof.
  rewrite b_bind_ok. intros (w1 & u & Hc & Hs). apply context_ok in Hc as (Hl & -> & _).
  apply on_store_ok in Hs as (r' & Hm & ->). rewrite Hl. eauto.
Qed.

(** Publishing the outcome does not touch the locks. *)
Lemma publish_lock_hash ns ty ev msg key (w w' : monitor R) o :
  publish_lock env ns ty ev msg w = Finished w' o ->
  khash key (keys (mon_redis w')) = khash key (keys (mon_redis w)) /\ mu_locked w' = mu_locked w.
Proof.
  unfold publish_lock. destruct (mon_caller env) as [[f l] g].
  destruct (lock_json env msg); [|by intros [= <- _]].
  unfold on_store, ignore_err, XAdd, m_wrap. destruct (exec _ (mon_redis w)) as [r1 o1] eqn:Ex.
  intros [= <- _]. simpl. split; [|done]. by apply exec_keys in Ex as [-> | ->].
Qed.

(** [RefreshNamespaces] never returns: it takes the write side of the mutex
    and then lists the namespaces, which waits for the read side of the same
    mutex.  As soon as the configuration can be read it is blocked for ever, with
    the mutex taken and no namespace seeded. *)
Theorem RefreshNamespaces_deadlocks (w : monitor R) latest :
  GetAllNamespaces env = Ok latest ->
  RefreshNamespaces env w = Blocked (mkMonitor true (mon_redis w)).
Proof.
  intros Hg. unfold RefreshNamespaces, b_bind at 1, mu_Lock.
  destruct w as [[] r]; simpl; [done|]. by rewrite Hg.
Qed.

(** The start-up of the worker blocks the whole monitor: [InitializeNamespaces]
    does not return, and from then on acquiring a lock, releasing one, choosing a
    namespace and setting the context all wait for ever. *)
Theorem InitializeNamespaces_blocks_monitor (w : monitor R) latest :
  GetAllNamespaces env = Ok latest -> exists w',
  InitializeNamespaces env w = Blocked w' /\
  (forall wenv ns e t ty, AcquireLock env wenv ns e t ty w' = Blocked w') /\
  (forall between ns t, ns <> "" -> t <> "" -> ReleaseLock env between ns t w' = Blocked w') /\
  (forall e p t, GetNamespaceToRestart env e p t w' = Blocked w') /\
  SetContext w' = Blocked w'.
Proof.
  intros Hg. exists (mkMonitor true (mon_redis w)). split_and!; try done.
  - unfold InitializeNamespaces, b_bind at 1, b_wrap at 1, RefreshNamespaces, b_bind at 1, mu_Lock.
    destruct w as [[] r]; simpl; [done|]. by rewrite Hg.
  - intros between ns t Hns Ht. unfold ReleaseLock.
    destruct (String.eqb_spec ns ""); [done|]. by destruct (String.eqb_spec t "").
Qed.

(** The acquisition inside a successful [AcquireLock]: what was checked before it,
    and what the namespace is after it. *)
Lemma AcquireLock_inner wenv ns e t ty (w w' : monitor R) :
  AcquireLock env wenv ns e t ty w = Finished w' (Ok tt) ->
  (kexists (ns_key ns) (keys (mon_redis w)) = true \/
   exists latest, GetAllNamespaces env = Ok latest /\ ns ∈ latest) /\
  exists r0 r1 r2 status, status_get ns r0 = (r1, Ok status) /\
    status <> StatusType_code CommonDisabled /\ status <> StatusType_code CommonDeleted /\
    acquire wenv ns e t (mon_now env) r1 = (r2, Ok tt) /\
    khash (ns_key ns) (keys (mon_redis w')) = khash (ns_key ns) (keys r2).
Proof.
  unfold AcquireLock. intros Hd. apply b_defer_ok in Hd as (w3 & o & Hm & Hpub).
  assert (Hkeep : khash (ns_key ns) (keys (mon_redis w')) = khash (ns_key ns) (keys (mon_redis w3))).
  { unfold b_bind, currentContext in Hpub. destruct (mu_locked w3); [done|].
    by apply (publish_lock_hash _ _ _ _ (ns_key ns)) in Hpub as [-> _]. }
  apply b_bind_ok in Hm as (w1 & ex & He & Hm).
  apply b_wrap_ok, in_context_ok in He as (re & He & -> & _).
  apply b_bind_ok in Hm as (w2 & [] & Hs & Hm).
  apply b_bind_ok in Hm as (w4 & status & Hst & Hm).
  apply b_wrap_ok, in_context_ok in Hst as (rs & Hst & -> & _).
  split.
  - destruct ex.
    + left. unfold catalog_exists, Exists, m_wrap in He.
      destruct (exec _ (mon_redis w)) as [rx [b|m]] eqn:Ex; [|done]. apply exec_ok in Ex.
      simpl in He, Ex. congruence.
    + right. destruct (GetAllNamespaces env) as [latest|m]; [|done]. exists latest. split; [done|].
      by destruct (decide (ns ∈ latest)) as [|Hn]; [|rewrite bool_decide_false in Hs].
  - destruct (Z.eqb_spec status (StatusType_code CommonDisabled)); [done|].
    destruct (Z.eqb_spec status (StatusType_code CommonDeleted)); [done|].
    apply in_context_ok in Hm as (ra & Ha & -> & _). simpl in Ha, Hkeep.
    exists (mon_redis w2), rs, ra, status. done.
Qed.

Lemma acquire_fields wenv ns e t now r r' :
  acquire wenv ns e t now r = (r', Ok tt) ->
  khash (ns_key ns) (keys r') !! "trace_id" = Some t /\
  khash (ns_key ns) (keys r') !! "end_time" = Some (itoa e).
Proof.
  intros Ha. apply acquire_exclusive_aux in Ha as (st & _ & _ & _ & -> & _).
  by rewrite lookup_insert_eq, lookup_insert_ne, lookup_insert_eq.
Qed.

(** Only a namespace that exists (or is in the configuration) and is neither
    disabled nor deleted can be acquired through the monitor, and a successful
    acquisition leaves it to the trace until the requested end time. *)
Theorem AcquireLock_holds wenv ns e t ty (w w' : monitor R) :
  AcquireLock env wenv ns e t ty w = Finished w' (Ok tt) ->
  (kexists (ns_key ns) (keys (mon_redis w)) = true \/
   exists latest, GetAllNamespaces env = Ok latest /\ ns ∈ latest) /\
  (exists r0 r1 status, status_get ns r0 = (r1, Ok status) /\
    status <> StatusType_code CommonDisabled /\ status <> StatusType_code CommonDeleted) /\
  khash (ns_key ns) (keys (mon_redis w')) !! "trace_id" = Some t /\
  khash (ns_key ns) (keys (mon_redis w')) !! "end_time" = Some (itoa e).
Proof.
  intros Ha. apply AcquireLock_inner in Ha as (Hex & r0 & r1 & r2 & st & Hst & Hn1 & Hn2 & Ha & Hk).
  split; [done|]. split; [eauto 6|]. rewrite Hk. by eapply acquire_fields.
Qed.

Lemma first_acquired_sound matches e t nss (w w' : monitor R) ns :
  first_acquired env matches e t nss w = Finished w' (Ok ns) -> ns <> "" ->
  ns ∈ nss /\ (exists m, matches = Some m /\ m ns = true) /\
  khash (ns_key ns) (keys (mon_redis w')) !! "trace_id" = Some t /\
  khash (ns_key ns) (keys (mon_redis w')) !! "end_time" = Some (itoa e).
Proof.
  revert w. induction nss as [|n nss IH]; intros w; simpl; [by intros [= _ <-]|]. intros Hx Hns.
  assert (Hrec : forall w1, first_acquired env matches e t nss w1 = Finished w' (Ok ns) ->
    ns ∈ n :: nss /\ (exists m, matches = Some m /\ m ns = true) /\
    khash (ns_key ns) (keys (mon_redis w')) !! "trace_id" = Some t /\
    khash (ns_key ns) (keys (mon_redis w')) !! "end_time" = Some (itoa e)).
  { intros w1 H1. destruct (IH w1 H1 Hns) as [Hin Hr]. split; [by apply list_elem_of_further|done]. }
  apply b_bind_ok in Hx as (w1 & st & _ & Hx).
  destruct st as [st|m]; [|by eapply Hrec].
  destruct (negb _); [by eapply Hrec|]. destruct matches as [mt|]; [|by eapply Hrec].
  destruct (mt n) eqn:Em; [|by eapply Hrec].
  apply b_bind_ok in Hx as (w2 & o & Ha & Hx). destruct o as [[]|m]; simpl in Hx; [|by eapply Hrec].
  injection Hx as -> ->. unfold b_attempt in Ha.
  destruct (AcquireLock env undisturbed ns e t _ w1) as [w3 o|] eqn:Eal; [|done]. injection Ha as -> ->.
  apply AcquireLock_inner in Eal as (_ & r0 & r1 & r2 & s & _ & _ & _ & Ha & ->).
  split; [apply list_elem_of_here|]. split; [by exists mt|]. by eapply acquire_fields.
Qed.

(** A namespace chosen for a restart is registered, matches the pattern, and
    is held by the trace until the requested end time; when no pattern is given
    none is ever chosen. *)
Theorem GetNamespaceToRestart_sound e pattern t (w w' : monitor R) ns :
  GetNamespaceToRestart env e pattern t w = Finished w' (Ok ns) -> ns <> "" ->
  ns ∈ kset NamespacesKey (keys (mon_redis w)) /\ pattern <> "" /\
  (exists m, compile_pattern env pattern = Ok m /\ m ns = true) /\
  khash (ns_key ns) (keys (mon_redis w')) !! "trace_id" = Some t /\
  khash (ns_key ns) (keys (mon_redis w')) !! "end_time" = Some (itoa e).
Proof.
  unfold GetNamespaceToRestart. intros Hx Hns.
  apply b_bind_ok in Hx as (w1 & nss & Hl & Hx). unfold b_attempt in Hl.
  destruct (listNamespaces w) as [w2 o|] eqn:El; [|done]. injection Hl as -> ->.
  destruct nss as [nss|m]; [|by injection Hx as _ <-].
  destruct (String.eqb_spec pattern "").
  { apply first_acquired_sound in Hx as (_ & (m & [=] & _) & _); done. }
  destruct (compile_pattern env pattern) as [m|m] eqn:Ec; [|by injection Hx as _ <-].
  apply first_acquired_sound in Hx as (Hin & (m' & [= <-] & Hm) & Ht & He); [|done].
  split_and!; try done; [|by exists m].
  apply in_context_ok in El as (r' & El & _). unfold catalog_list, SetMembers, key_error, m_wrap in El.
  destruct (exec (SMEMBERS NamespacesKey) (mon_redis w)) as [r2 [l|e']] eqn:Ex; [|done].
  apply exec_ok in Ex. simpl in Ex, El. injection Ex as _ <-. injection El as _ <-.
  rewrite set_order_perm in Hin. by apply elem_of_elements.
Qed.
End MonitorFacts.

(** ** The release is not atomic *)

Section Race.
Context {R : Type} `{RedisLaws R} `{!RedisReliable R}.

(** The transaction with which [owner] takes the namespace. *)
Definition acquire_tx (ns : string) (e : Z) (owner : string) : any_cmd :=
  Any (MULTI (HSET (ns_key ns) "end_time" (itoa e)) (HSET (ns_key ns) "trace_id" owner)).

Lemma served_keys {A} (c : cmd A) (r : R) :
  keys (fst (exec c r)) = fst (cmd_step (chosen r) c (keys r)) /\
  snd (exec c r) = snd (cmd_step (chosen r) c (keys r)).
Proof. pose proof (exec_reliable _ c r) as Hx. rewrite <- Hx. done. Qed.

Lemma read_served ns st (r : R) :
  lock_of (khash (ns_key ns) (keys r)) = Ok st ->
  exists r', read ns r = (r', Ok st) /\ keys r' = keys r.
Proof.
  intros Hl.
  assert (Hh : forall f r0, exists r', hget_or_empty (ns_key ns) f r0 =
    (r', Ok (default "" (khash (ns_key ns) (keys r0) !! f))) /\ keys r' = keys r0).
  { intros f r0. unfold hget_or_empty, m_bind, attempt.
    pose proof (served_keys (HGET (ns_key ns) f) r0) as [Hk Ho].
    destruct (exec (HGET (ns_key ns) f) r0) as [r' o]. simpl in Hk, Ho.
    destruct (khash (ns_key ns) (keys r0) !! f); simpl in *; subst o; exists r'; done. }
  destruct (Hh "end_time" r) as (r1 & H1' & K1). destruct (Hh "trace_id" r1) as (r2 & H2' & K2).
  exists r2. unfold read, m_bind. rewrite H1', H2'. unfold m_lift. rewrite K1.
  unfold lock_of in Hl. rewrite Hl. split; [done|congruence].
Qed.

(** A release can destroy a lock it does not own: a trace that may release the
    namespace (it is free, or still the caller's) reads it, another trace acquires
    it, and the write of the first one frees it again, without any error. *)
Theorem release_race ns t owner e at_ (r : R) st :
  lock_of (khash (ns_key ns) (keys r)) = Ok st ->
  LockTraceID st = "" \/ LockTraceID st = t ->
  owner <> t ->
  khash (ns_key ns) (keys (fst (others (ns_key ns) [acquire_tx ns e owner] r))) !! "trace_id" = Some owner /\
  exists r', release [acquire_tx ns e owner] ns t at_ r = (r', Ok tt) /\
    khash (ns_key ns) (keys r') !! "trace_id" = Some "".
Proof.
  intros Hl Hst _. split.
  - simpl. pose proof (served_keys (MULTI (HSET (ns_key ns) "end_time" (itoa e))
      (HSET (ns_key ns) "trace_id" owner)) r) as [Hk _]. rewrite Hk. simpl.
    rewrite khash_upd, decide_True by done. by rewrite lookup_insert_eq.
  - destruct (read_served ns st r Hl) as (r1 & Hr & K). unfold release. rewrite Hr.
    replace (negb (String.eqb (LockTraceID st) t) && negb (String.eqb (LockTraceID st) "")) with false.
    2:{ destruct Hst as [-> | ->]; rewrite ?String.eqb_refl; simpl; [by rewrite andb_false_r|done]. }
    unfold write, HashSet, key_error, m_wrap.
    change (length [("end_time", itoa at_); ("trace_id", "")] =? 0)%nat with false. cbv iota beta.
    set (r2 := fst (others _ _ r1)).
    pose proof (served_keys (HMSET (ns_key ns) [("end_time", itoa at_); ("trace_id", "")]) r2) as [Hk Ho].
    destruct (exec (HMSET (ns_key ns) [("end_time", itoa at_); ("trace_id", "")]) r2) as [r3 o].
    simpl in Hk, Ho. subst o. simpl. exists r3. split; [done|]. rewrite Hk.
    rewrite khash_upd, decide_True by done. by rewrite lookup_insert_eq.
Qed.
End Race.

(** ** The theorems at concrete namespaces *)
Module LockSample.
Definition held (owner e : string) : keyspace :=
  upd_hash (ns_key "ts0") {["end_time" := e; "trace_id" := owner; "status" := "1"]}
    (upd_set NamespacesKey {["ts0"]} empty_keyspace).
Definition env0 : monitor_env :=
  mkMonitorEnv 100 (Ok ["ts0"; "ts1"]) elements (fun p => Ok (fun ns => has_prefix ns "ts"))
    (fun _ => Ok "{}") ("monitor.go", "1", "fn").

(** Other traces take other namespaces between the commands of [A]. *)
Definition busy : watch_env :=
  mkWatch [Any (HSET (ns_key "ts1") "trace_id" "C")] [Any (HSET (ns_key "ts2") "trace_id" "D")]
    [Any (HMSET (ns_key "ts1") [("end_time", "700"); ("trace_id", "E")])].
Lemma acquire_exclusive_witness :
  let r5 := at_exec (R := keyspace) busy "ts0" (held "B" "50") in
  khash (ns_key "ts1") (keys r5) !! "trace_id" = Some "E" /\
  exists st, lock_of (khash (ns_key "ts0") (keys r5)) = Ok st /\ held_by_other "A" 100 st = false.
Proof.
  split; [vm_compute; reflexivity|].
  destruct (acquire_exclusive busy "ts0" 900 "A" 100 (held "B" "50")
    (fst (acquire busy "ts0" 900 "A" 100 (held "B" "50")))) as (st & Hl & Hh & _).
  - vm_compute. reflexivity.
  - exists st. split; assumption.
Defined.

(** Another trace takes the namespace itself just before EXEC: the acquisition fails, and
    the other one keeps it. *)
Example taken_before_exec :
  let r := acquire (R := keyspace) (mkWatch [] [] [Any (HMSET (ns_key "ts0") [("end_time", "700"); ("trace_id", "C")])])
    "ts0" 900 "A" 100 (held "B" "50") in
  snd r = Err TxFailedErr /\ khash (ns_key "ts0") (keys (fst r)) !! "trace_id" = Some "C".
Proof. split; by vm_compute. Qed.

Lemma held_lock_is_kept_witness :
  khash (ns_key "ts0") (keys (run_ops [OpAcquire "ts0" 950 "B" 100; OpRelease "ts0" "C" 200]
    (held "A" "900"))) = khash (ns_key "ts0") (keys (held "A" "900")).
Proof.
  apply (held_lock_is_kept "ts0" "A" 900).
  - discriminate.
  - vm_compute. reflexivity.
  - repeat constructor; discriminate.
Defined.

Lemma release_by_owner_witness :
  exists st, lock_of (khash (ns_key "ts0") (keys (held "A" "900"))) = Ok st /\
    (LockTraceID st = "A" \/ LockTraceID st = "").
Proof.
  destruct (release_by_owner "ts0" "A" 200 (held "A" "900") (fst (release [] "ts0" "A" 200 (held "A" "900"))))
    as (st & Hl & Ht & _).
  - vm_compute. reflexivity.
  - exists st. split; assumption.
Defined.

Lemma RefreshNamespaces_deadlocks_witness :
  RefreshNamespaces env0 (mkMonitor false (held "" "0")) = Blocked (mkMonitor true (held "" "0")).
Proof. exact (RefreshNamespaces_deadlocks env0 (mkMonitor false (held "" "0")) ["ts0"; "ts1"] eq_refl). Defined.

Lemma InitializeNamespaces_blocks_monitor_witness :
  exists w', InitializeNamespaces env0 (mkMonitor false (held "" "0")) = Blocked w' /\
    SetContext w' = Blocked w'.
Proof.
  destruct (InitializeNamespaces_blocks_monitor env0 (mkMonitor false (held "" "0")) ["ts0"; "ts1"])
    as (w' & Hb & _ & _ & _ & Hs); [reflexivity|].
  exists w'. split; assumption.
Defined.

Lemma AcquireLock_holds_witness :
  match AcquireLock env0 undisturbed "ts0" 900 "A" TaskTypeRestartPedestal (mkMonitor false (held "" "0")) with
  | Finished w' _ => khash (ns_key "ts0") (keys (mon_redis w')) !! "trace_id" = Some "A"
  | Blocked _ => False
  end.
Proof.
  destruct (AcquireLock env0 undisturbed "ts0" 900 "A" TaskTypeRestartPedestal (mkMonitor false (held "" "0")))
    as [w' o|] eqn:E; [|vm_compute in E; discriminate].
  assert (Ho : o = Ok tt) by (vm_compute in E; congruence). subst o.
  destruct (AcquireLock_holds env0 undisturbed "ts0" 900 "A" TaskTypeRestartPedestal _ w' E) as (_ & _ & Ht & _).
  exact Ht.
Defined.

Lemma GetNamespaceToRestart_sound_witness :
  match GetNamespaceToRestart env0 900 "^ts" "A" (mkMonitor false (held "" "0")) with
  | Finished w' o => o = Ok "ts0" /\ khash (ns_key "ts0") (keys (mon_redis w')) !! "trace_id" = Some "A"
  | Blocked _ => False
  end.
Proof.
  destruct (GetNamespaceToRestart env0 900 "^ts" "A" (mkMonitor false (held "" "0")))
    as [w' o|] eqn:E; [|vm_compute in E; discriminate].
  assert (Ho : o = Ok "ts0") by (vm_compute in E; congruence). subst o. split; [reflexivity|].
  destruct (GetNamespaceToRestart_sound env0 900 "^ts" "A" (mkMonitor false (held "" "0")) w' "ts0" E)
    as (_ & _ & _ & Ht & _); [discriminate | exact Ht].
Defined.

Lemma release_race_witness :
  exists r', release [acquire_tx "ts0" 900 "B"] "ts0" "A" 200 (held "A" "150") = (r', Ok tt) /\
    khash (ns_key "ts0") (keys r') !! "trace_id" = Some "".
Proof.
  destruct (release_race "ts0" "A" "B" 900 200 (held "A" "150") (mkLock 150 "A")) as [_ Hr].
  - vm_compute. reflexivity.
  - right. reflexivity.
  - discriminate.
  - exact Hr.
Defined.
End LockSample.
