(* ===== verification/RateLimiter.v ===== *)
(** * Token buckets ([service/consumer/rate_limiter.go], [rate_limiter_store.go])

    A bucket is a Redis set with the identifiers of the tasks that hold a token.
    A token is acquired by a Lua script that compares the size of the set with the
    limit, and given back by removing the identifier.  The whole set expires ten
    minutes after the last acquisition. *)

From S2P Require Import Prelude GoStrings Consts Redis Gateway.

(** ** The store *)

Definition expireTime : Z := 10 * 60.

(** The script answers 1 when the token was granted, 0 otherwise. *)
Definition acquire_script (bucket_key : string) (max_tokens : Z) (task_id : string) : M keyspace Z :=
  let! current_tokens := redis_call (SCARD bucket_key) in
  if current_tokens <? max_tokens
  then redis_call (SADD bucket_key task_id) ;;!
       redis_call (EXPIRE bucket_key expireTime) ;;!
       m_ret 1
  else m_ret 0.

Section Store.
Context {R : Type} `{RedisServer R}.

Definition store_acquire (bucketKey : string) (maxTokens : Z) (taskID : string) : M R bool :=
  let! result := m_wrap "failed to acquire token: "
                   (RunScript (acquire_script bucketKey maxTokens taskID)) in
  m_ret (result =? 1).

Definition store_release (bucketKey taskID : string) : M R Z :=
  m_wrap "failed to release token: " (SetRemove bucketKey [taskID]).

Definition store_inUse (bucketKey : string) : M R Z :=
  m_wrap "failed to get token usage: " (SetCard bucketKey).
End Store.

(** ** The limiter *)

Record RateLimiterConfig := mkLimiterConfig {
  TokenBucketKey : string;
  MaxTokensKey : string;
  DefaultMaxTokens : Z;
  DefaultTimeout : Z;
  ServiceName : string
}.

(** [waitTimeout] in seconds. *)
Record TokenBucketRateLimiter := mkLimiter {
  bucketKey : string;
  maxTokens : Z;
  waitTimeout : Z;
  serviceName : string
}.

Record RateLimiterSnapshot := mkSnapshot {
  snap_ServiceName : string;
  snap_BucketKey : string;
  snap_MaxTokens : Z;
  snap_WaitTimeout : Z;
  snap_InUseTokens : res Z
}.

Definition GetConfig (r : TokenBucketRateLimiter) : Z * Z := (maxTokens r, waitTimeout r).

(** Only positive values are taken over. *)
Definition UpdateConfig (newMax newTimeout : Z) (r : TokenBucketRateLimiter) : TokenBucketRateLimiter :=
  mkLimiter (bucketKey r) (if 0 <? newMax then newMax else maxTokens r)
    (if 0 <? newTimeout then newTimeout else waitTimeout r) (serviceName r).

(** [get] is [config.GetInt]: zero for a missing key. *)
Definition newTokenBucketRateLimiter (get : string -> Z) (cfg : RateLimiterConfig)
  : TokenBucketRateLimiter :=
  let configured := get (MaxTokensKey cfg) in
  let timeout := get "rate_limiting.token_wait_timeout" in
  mkLimiter (TokenBucketKey cfg)
    (if configured <=? 0 then DefaultMaxTokens cfg else configured)
    (if timeout <=? 0 then DefaultTimeout cfg else timeout)
    (ServiceName cfg).

Definition TokenWaitTimeout : Z := 10.
Definition RestartPedestalConfig : RateLimiterConfig :=
  mkLimiterConfig "token_bucket:restart_service" "rate_limiting.max_concurrent_restarts_pedestal"
    2 TokenWaitTimeout "restart_pedestal".
Definition BuildContainerConfig : RateLimiterConfig :=
  mkLimiterConfig "token_bucket:build_container" "rate_limiting.max_concurrent_build_container"
    3 TokenWaitTimeout "build_container".
Definition AlgoExecutionConfig : RateLimiterConfig :=
  mkLimiterConfig "token_bucket:algo_execution" "rate_limiting.max_concurrent_algo_execution"
    5 TokenWaitTimeout "algo_execution".

Definition NewRestartPedestalRateLimiter get := newTokenBucketRateLimiter get RestartPedestalConfig.
Definition NewBuildContainerRateLimiter get := newTokenBucketRateLimiter get BuildContainerConfig.
Definition NewAlgoExecutionRateLimiter get := newTokenBucketRateLimiter get AlgoExecutionConfig.

Section Limiter.
Context {R : Type} `{RedisServer R}.

Definition Snapshot (r : TokenBucketRateLimiter) : M R RateLimiterSnapshot :=
  let '(max, timeout) := GetConfig r in
  let! inUse := attempt (store_inUse (bucketKey r)) in
  m_ret (mkSnapshot (serviceName r) (bucketKey r) max timeout inUse).

Definition AcquireToken (r : TokenBucketRateLimiter) (taskID : string) : M R bool :=
  store_acquire (bucketKey r) (maxTokens r) taskID.

Definition ReleaseToken (r : TokenBucketRateLimiter) (taskID : string) : M R unit :=
  store_release (bucketKey r) taskID ;;! m_ret tt.

(** [ticks] is the number of ticks before the timeout, [between] what the other
    tasks do before each of them. *)
Fixpoint WaitForToken (r : TokenBucketRateLimiter) (taskID : string) (between : nat -> R -> R)
    (ticks : nat) : M R bool := fun s =>
  match ticks with
  | O => (s, Ok false)
  | S ticks' =>
      let '(s1, acquired) := AcquireToken r taskID (between ticks s) in
      match acquired with
      | Err e => (s1, Err e)
      | Ok true => (s1, Ok true)
      | Ok false => WaitForToken r taskID between ticks' s1
      end
  end.
End Limiter.

(** ** Facts *)

Section Facts.
Context {R : Type} `{RedisLaws R}.

Definition holders (key : string) (r : R) : gset string := kset key (keys r).

(** The bucket after a grant: the task is in, and the ten minutes start again. *)
Definition granted (key task : string) (ks : keyspace) : keyspace :=
  upd_ttl key (ks_clock ks + expireTime * 10 ^ 9) (upd_set key ({[task]} ∪ kset key ks) ks).

Lemma acquire_script_spec key max task ks :
  acquire_script key max task ks =
  if Z.of_nat (size (kset key ks)) <? max then (granted key task ks, Ok 1) else (ks, Ok 0).
Proof.
  unfold acquire_script, m_bind, redis_call. simpl.
  destruct (Z.of_nat (size (kset key ks)) <? max); simpl; [|done].
  rewrite kset_upd, (decide_True (P := key = key)) by done. by rewrite (decide_False (P := _ = ∅)) by set_solver.
Qed.

Lemma kset_granted key task ks : kset key (granted key task ks) = {[task]} ∪ kset key ks.
Proof.
  unfold kset at 1, set_expired, granted. simpl. rewrite !lookup_insert_eq.
  by destruct (Z.leb_spec (ks_clock ks + expireTime * 10 ^ 9) (ks_clock ks)); [unfold expireTime in *; lia|].
Qed.

(** Whatever the reply, nothing is changed or the task got a token below the limit; an
    answer says which. *)
Lemma acquire_keys lim task r r' o :
  AcquireToken lim task r = (r', o) ->
  (keys r' = keys r /\ o <> Ok true) \/
  (Z.of_nat (size (holders (bucketKey lim) r)) < maxTokens lim /\
   keys r' = granted (bucketKey lim) task (keys r) /\ o <> Ok false).
Proof.
  unfold AcquireToken, store_acquire, RunScript, m_bind, m_wrap.
  destruct (exec _ r) as [r1 o1] eqn:Ex. intros Hx. apply exec_law in Ex. simpl in Ex.
  unfold m_wrap in Ex. rewrite acquire_script_spec in Ex. unfold holders.
  destruct (Z.ltb_spec (Z.of_nat (size (kset (bucketKey lim) (keys r)))) (maxTokens lim));
    destruct Ex as [[= Hk ->] | (e & -> & _ & Hk)]; simpl in Hx; injection Hx as <- <-;
    try (by left); try (by right); destruct Hk; [by left|by right|by left|by left].
Qed.
Lemma acquire_effect lim task r r' o :
  AcquireToken lim task r = (r', o) ->
  holders (bucketKey lim) r' = holders (bucketKey lim) r \/
  (Z.of_nat (size (holders (bucketKey lim) r)) < maxTokens lim /\
   holders (bucketKey lim) r' = {[task]} ∪ holders (bucketKey lim) r).
Proof.
  intros Ha. apply acquire_keys in Ha as [[Hk _] | (Hlt & Hk & _)]; unfold holders in *; rewrite Hk; [by left|].
  right. by rewrite kset_granted.
Qed.

Lemma acquire_reply lim task r r' b :
  AcquireToken lim task r = (r', Ok b) ->
  b = (Z.of_nat (size (holders (bucketKey lim) r)) <? maxTokens lim) /\
  holders (bucketKey lim) r' =
    if b then {[task]} ∪ holders (bucketKey lim) r else holders (bucketKey lim) r.
Proof.
  unfold AcquireToken, store_acquire, RunScript, m_bind, m_wrap.
  destruct (exec _ r) as [r1 [z|e]] eqn:Ex; simpl; [|done]. intros [= <- <-].
  apply exec_EVAL_ok in Ex. rewrite acquire_script_spec in Ex. unfold holders.
  destruct (Z.of_nat (size (kset (bucketKey lim) (keys r))) <? maxTokens lim);
    injection Ex as <- <-; simpl; split; try done. apply kset_granted.
Qed.

Lemma release_keys lim task r r' o :
  ReleaseToken lim task r = (r', o) ->
  (keys r' = keys r /\ o <> Ok tt) \/
  keys r' = upd_set (bucketKey lim) (holders (bucketKey lim) r ∖ {[task]}) (keys r).
Proof.
  unfold ReleaseToken, store_release, SetRemove, key_error, m_bind, m_wrap, holders.
  destruct (exec _ r) as [r1 o1] eqn:Ex. intros Hx. apply exec_law in Ex. cbn [cmd_step fst] in Ex. rewrite minus_one in Ex.
  destruct Ex as [[= Hk ->] | (e & -> & _ & Hk)]; simpl in Hx; injection Hx as <- <-; [by right|].
  destruct Hk; [by left|by right].
Qed.
Lemma release_effect lim task r r' o :
  ReleaseToken lim task r = (r', o) ->
  holders (bucketKey lim) r' ⊆ holders (bucketKey lim) r /\
  (o = Ok tt -> holders (bucketKey lim) r' = holders (bucketKey lim) r ∖ {[task]}).
Proof.
  intros Hr. apply release_keys in Hr as [[Hk Ho] | Hk]; unfold holders in *; rewrite Hk; [done|].
  rewrite kset_upd, decide_True by done. set_solver.
Qed.

(** ** Runs of the tasks that share a bucket *)

(** The limiter, whose limit can be reconfigured meanwhile, the server, the tasks that were
    told that they have a token and have not yet asked to give it back, each with the time
    of the grant, and the largest limit so far. *)
Record limiter_run := mkRun { rn_limiter : TokenBucketRateLimiter; rn_server : R; rn_granted : list (string * Z); rn_peak : Z }.

Definition told (task : string) (r : R) (o : res bool) (g : list (string * Z)) : list (string * Z) :=
  match o with Ok true => (task, ks_clock (keys r)) :: g | _ => g end.
Definition without (task : string) (g : list (string * Z)) : list (string * Z) :=
  List.filter (fun tg => negb (String.eqb tg.1 task)) g.

Inductive token_step : limiter_run -> limiter_run -> Prop :=
| TokAcquire lim r g p task r' o : AcquireToken lim task r = (r', o) ->
    token_step (mkRun lim r g p) (mkRun lim r' (told task r o g) p)
| TokRelease lim r g p task r' o : ReleaseToken lim task r = (r', o) ->
    token_step (mkRun lim r g p) (mkRun lim r' (without task g) p)
| TokConfig lim r g p max timeout :
    token_step (mkRun lim r g p) (mkRun (UpdateConfig max timeout lim) r g (Z.max p max))
| TokTime lim r g p dt r' : 0 <= dt -> keys r' = elapse dt (keys r) ->
    token_step (mkRun lim r g p) (mkRun lim r' g p).

(** The tasks granted a token less than ten minutes ago. *)
Definition recent (g : list (string * Z)) (now : Z) : gset string :=
  list_to_set (map fst (List.filter (fun tg => now <? tg.2 + expireTime * 10 ^ 9) g)).

Lemma elem_of_recent t g now :
  t ∈ recent g now <-> exists at_, In (t, at_) g /\ now < at_ + expireTime * 10 ^ 9.
Proof.
  unfold recent. rewrite elem_of_list_to_set, list_elem_of_In, in_map_iff. split.
  - intros ([t' a] & <- & [Hin Ha]%filter_In). exists a. split; [done|]. simpl in Ha. lia.
  - intros (a & Hin & Ha). exists (t, a). split; [done|]. apply filter_In. split; [done|]. simpl. lia.
Qed.

(** A recent grant is a token in the bucket, which will not expire before the grant is ten
    minutes old. *)
Definition grant_held (key : string) (ks : keyspace) (tg : string * Z) : Prop :=
  tg.2 <= ks_clock ks /\
  (ks_clock ks < tg.2 + expireTime * 10 ^ 9 ->
   tg.1 ∈ kset key ks /\ forall d, ks_ttl ks !! key = Some d -> tg.2 + expireTime * 10 ^ 9 <= d).
Definition run_ok (key : string) (s : limiter_run) : Prop :=
  bucketKey (rn_limiter s) = key /\ maxTokens (rn_limiter s) <= rn_peak s /\ 0 <= rn_peak s /\
  Z.of_nat (size (holders key (rn_server s))) <= rn_peak s /\
  Forall (grant_held key (keys (rn_server s))) (rn_granted s).

Lemma size_add_one (t : string) (X : gset string) : (size ({[t]} ∪ X) <= S (size X))%nat.
Proof. rewrite size_union_alt, size_singleton. apply le_n_S, subseteq_size. set_solver. Qed.

Lemma grant_granted key task ks tg : grant_held key ks tg -> grant_held key (granted key task ks) tg.
Proof.
  intros [Ht Hh]. split; [done|]. intros Hn. destruct (Hh Hn) as [Hin _]. rewrite kset_granted. split; [set_solver|].
  intros d. unfold granted. simpl. rewrite lookup_insert_eq. intros [= <-]. lia.
Qed.
Lemma grant_new key task ks : grant_held key (granted key task ks) (task, ks_clock ks).
Proof.
  split; [done|]. intros _. rewrite kset_granted. split; [set_solver|].
  intros d. unfold granted. simpl. rewrite lookup_insert_eq. by intros [= <-].
Qed.
Lemma grant_released key task ks tg :
  tg.1 <> task -> grant_held key ks tg -> grant_held key (upd_set key (kset key ks ∖ {[task]}) ks) tg.
Proof.
  intros Hne [Ht Hh]. split; [done|]. intros Hn. destruct (Hh Hn) as [Hin Hd].
  rewrite kset_upd, decide_True by done. split; [set_solver|]. simpl. intros d. case_decide; [by rewrite lookup_delete_eq|].
  apply Hd.
Qed.
Lemma grant_elapse key dt ks tg : 0 <= dt -> grant_held key ks tg -> grant_held key (elapse dt ks) tg.
Proof.
  intros Hdt [Ht Hh]. split; [simpl; lia|]. simpl. intros Hn. destruct (Hh ltac:(lia)) as [Hin Hd]. split; [|done].
  unfold kset, set_expired in *. simpl. destruct (ks_ttl ks !! key) as [d|]; [|done].
  specialize (Hd d eq_refl). destruct (Z.leb_spec d (ks_clock ks + dt)); [lia|].
  by destruct (d <=? ks_clock ks).
Qed.
Lemma kset_elapse key dt ks : kset key (elapse dt ks) ⊆ kset key ks \/ 0 > dt.
Proof.
  destruct (Z.le_gt_cases 0 dt); [left|right; lia]. unfold kset, set_expired. simpl.
  destruct (ks_ttl ks !! key) as [d|]; [|done].
  destruct (Z.leb_spec d (ks_clock ks + dt)), (Z.leb_spec d (ks_clock ks)); [set_solver..|lia|set_solver].
Qed.

Lemma rtc_keeps (P : limiter_run -> Prop) :
  (forall s s', token_step s s' -> P s -> P s') -> forall s s', rtc token_step s s' -> P s -> P s'.
Proof. intros Hstep s s' Hs. induction Hs; eauto. Qed.

Lemma token_step_ok key s s' : token_step s s' -> run_ok key s -> run_ok key s'.
Proof.
  intros Hs (<- & Hm & Hp & Hsz & Hg). destruct Hs as [lim r g p task r' o Ha | lim r g p task r' o Hr | lim r g p m t |
    lim r g p dt r' Hdt Hk]; simpl in *; unfold run_ok; simpl; (split; [done|]).
  - split_and!; [done..| |].
    + apply acquire_effect in Ha as [-> | [Hlt ->]]; [done|].
      pose proof (size_add_one task (holders (bucketKey lim) r)). lia.
    + apply acquire_keys in Ha as [[-> Ho] | (_ & -> & _)].
      * unfold told. destruct o as [[]|]; done.
      * assert (Hg' : Forall (grant_held (bucketKey lim) (granted (bucketKey lim) task (keys r))) g)
          by (eapply Forall_impl; [done|]; apply grant_granted).
        unfold told. destruct o as [[]|]; [|done..]. constructor; [apply grant_new|done].
  - split_and!; [done..| |].
    + apply release_effect in Hr as [Hsub _]. apply subseteq_size in Hsub. lia.
    + apply Forall_forall. intros tg [Hin Hne]%list_elem_of_In%filter_In.
      rewrite Forall_forall in Hg. specialize (Hg _ (proj2 (list_elem_of_In _ _) Hin)).
      apply release_keys in Hr as [[-> _] | ->]; [done|]. apply grant_released; [|done].
      intros E. by rewrite E, String.eqb_refl in Hne.
  - split_and!; [destruct (Z.ltb_spec 0 m); lia|lia|lia|done].
  - unfold holders in *. rewrite Hk. destruct (kset_elapse (bucketKey lim) dt (keys r)) as [Hsub|]; [|lia].
    apply subseteq_size in Hsub. split_and!; [done..|lia|]. eapply Forall_impl; [done|]. intros tg. by apply grant_elapse.
Qed.

(** C19. The limiter lets no more tasks in than its limit, for ten minutes.  Whatever tasks
    acquire and release, with commands that are served or fail, however the limit is
    reconfigured and however much time passes: the holders of a bucket that was empty at
    first never outnumber the largest limit that was in force; and a task that was granted a
    token less than ten minutes ago, and has not released it, is one of them, so that these
    tasks do not outnumber the limit either.  Older grants are not counted: see
    [bucket_expires]. *)
Theorem tokens_bounded lim r s :
  holders (bucketKey lim) r = ∅ -> 0 <= maxTokens lim ->
  rtc token_step (mkRun lim r [] (maxTokens lim)) s ->
  Z.of_nat (size (holders (bucketKey lim) (rn_server s))) <= rn_peak s /\
  recent (rn_granted s) (ks_clock (keys (rn_server s))) ⊆ holders (bucketKey lim) (rn_server s) /\
  Z.of_nat (size (recent (rn_granted s) (ks_clock (keys (rn_server s))))) <= rn_peak s.
Proof.
  intros He Hm Hs.
  assert (Hok : run_ok (bucketKey lim) s).
  { apply (rtc_keeps (run_ok (bucketKey lim)) (token_step_ok _) _ _ Hs).
    unfold run_ok. simpl. rewrite He, size_empty. split_and!; [done|lia|done|simpl; lia|constructor]. }
  destruct Hok as (_ & _ & _ & Hsz & Hg).
  assert (Hsub : recent (rn_granted s) (ks_clock (keys (rn_server s))) ⊆ holders (bucketKey lim) (rn_server s)).
  { intros t (a & Hin & Ha)%elem_of_recent. rewrite Forall_forall in Hg.
    apply list_elem_of_In in Hin. destruct (Hg _ Hin) as [_ Hh]. by apply Hh. }
  split_and!; [done|done|]. apply subseteq_size in Hsub. lia.
Qed.

(** The bucket does not outlive its ten minutes: when no token was granted for that long,
    it is empty although its tasks still run, and a task that asks is let in. *)
Theorem bucket_expires lim task r r1 dt r2 other r3 b :
  AcquireToken lim task r = (r1, Ok true) ->
  expireTime * 10 ^ 9 <= dt -> keys r2 = elapse dt (keys r1) ->
  holders (bucketKey lim) r2 = ∅ /\
  (0 < maxTokens lim -> AcquireToken lim other r2 = (r3, Ok b) -> b = true).
Proof.
  intros Ha Hdt Hk.
  assert (He : holders (bucketKey lim) r2 = ∅).
  { apply acquire_keys in Ha as [[_ ?] | (_ & E & _)]; [done|]. unfold holders. rewrite Hk, E.
    unfold kset, set_expired, granted. simpl. rewrite lookup_insert_eq.
    by destruct (Z.leb_spec (ks_clock (keys r) + expireTime * 10 ^ 9) (ks_clock (keys r) + dt)); [|lia]. }
  split; [done|]. intros Hm Ho. apply acquire_reply in Ho as [-> _]. rewrite He, size_empty. by apply Z.ltb_lt.
Qed.

(** A token is granted exactly when the bucket is below its limit; the task
    then holds one, and a later release gives it back. *)
Theorem AcquireToken_spec lim task r r' b :
  AcquireToken lim task r = (r', Ok b) ->
  (b = true <-> Z.of_nat (size (holders (bucketKey lim) r)) < maxTokens lim) /\
  (b = true -> task ∈ holders (bucketKey lim) r') /\
  (b = false -> holders (bucketKey lim) r' = holders (bucketKey lim) r) /\
  (forall r2, ReleaseToken lim task r' = (r2, Ok tt) -> task ∉ holders (bucketKey lim) r2).
Proof.
  intros Ha. apply acquire_reply in Ha as [-> Hh]. split_and!.
  - apply Z.ltb_lt.
  - intros E. rewrite Hh, E. set_solver.
  - intros E. by rewrite Hh, E.
  - intros r2 Hr. apply release_effect in Hr as [_ Hr]. rewrite (Hr eq_refl). set_solver.
Qed.

(** A task that already holds a token is refused when the bucket is full: the
    script does not look at the members, so a retried task waits for its own
    token. *)
Theorem AcquireToken_holder_refused lim task r r' b :
  task ∈ holders (bucketKey lim) r ->
  maxTokens lim <= Z.of_nat (size (holders (bucketKey lim) r)) ->
  AcquireToken lim task r = (r', Ok b) ->
  b = false /\ task ∈ holders (bucketKey lim) r'.
Proof.
  intros Hin Hfull Ha. apply acquire_reply in Ha as [-> Hh].
  apply Z.ltb_ge in Hfull. rewrite Hfull in *. by rewrite Hh.
Qed.

(** Waiting stops within its timeout, and says yes only when the task holds a
    token. *)
Theorem WaitForToken_spec lim task between ticks r r' b :
  WaitForToken lim task between ticks r = (r', Ok b) ->
  b = true -> task ∈ holders (bucketKey lim) r'.
Proof.
  revert r. induction ticks as [|n IH]; intros r; simpl; [by intros [= _ <-]|].
  destruct (AcquireToken lim task (between (S n) r)) as [s1 [[]|e]] eqn:Ea; [|apply IH|done].
  intros [= <- <-] _. apply acquire_reply in Ea as [_ ->]. set_solver.
Qed.

(** A limiter is never built without tokens: a missing, zero or negative
    configuration falls back to the defaults, and later reconfigurations to
    non-positive values are ignored. *)
Theorem limiter_config_positive get m t :
  let check lim := 0 < maxTokens lim /\ 0 < waitTimeout lim in
  forall cfg, cfg ∈ [RestartPedestalConfig; BuildContainerConfig; AlgoExecutionConfig] ->
  let lim := newTokenBucketRateLimiter get cfg in check lim /\ check (UpdateConfig m t lim).
Proof.
  intros check cfg Hin. unfold check, newTokenBucketRateLimiter, UpdateConfig. simpl.
  assert (Hd : 0 < DefaultMaxTokens cfg /\ 0 < DefaultTimeout cfg).
  { repeat (apply elem_of_cons in Hin as [->|Hin]; [done|]). by apply not_elem_of_nil in Hin. }
  destruct (Z.leb_spec (get (MaxTokensKey cfg)) 0),
    (Z.leb_spec (get "rate_limiting.token_wait_timeout") 0),
    (Z.ltb_spec 0 m), (Z.ltb_spec 0 t); lia.
Qed.
End Facts.

Module LimiterSample.
Definition lim : TokenBucketRateLimiter := NewRestartPedestalRateLimiter (fun _ => 0).
Definition full : keyspace := upd_set (bucketKey lim) {["a"; "b"]} empty_keyspace.

(** Two tasks get a token, a third is refused; after five minutes one gives it back. *)
Definition in_use : keyspace :=
  fst (AcquireToken lim "c" (fst (AcquireToken lim "b" (fst (AcquireToken lim "a" empty_keyspace))))).
Definition later (ks : keyspace) : keyspace := elapse (300 * 10 ^ 9) ks.
Lemma sample_run :
  rtc token_step (mkRun lim empty_keyspace [] 2)
    (mkRun lim (fst (ReleaseToken lim "a" (later in_use))) [("b", 0)] 2).
Proof.
  assert (step : forall task g ks o g', AcquireToken lim task ks = (fst (AcquireToken lim task ks), o) ->
    told task ks o g = g' ->
    token_step (mkRun lim ks g 2) (mkRun lim (fst (AcquireToken lim task ks)) g' 2))
    by (intros ? ? ? ? ? Ha <-; by apply TokAcquire).
  eapply rtc_l; [apply (step "a" [] empty_keyspace (Ok true) [("a", 0)]); by vm_compute|].
  eapply rtc_l; [apply (step "b" [("a", 0)] _ (Ok true) [("b", 0); ("a", 0)]); by vm_compute|].
  eapply rtc_l; [apply (step "c" [("b", 0); ("a", 0)] _ (Ok false) [("b", 0); ("a", 0)]); by vm_compute|].
  eapply rtc_l; [by apply (TokTime _ _ _ _ (300 * 10 ^ 9) (later in_use))|].
  apply rtc_once. change [("b", 0)] with (without "a" [("b", 0); ("a", 0)]). apply (TokRelease _ _ _ _ "a" _ (Ok tt)). by vm_compute.
Qed.
Lemma tokens_bounded_witness :
  recent [("b", 0)] (300 * 10 ^ 9) ⊆ holders (bucketKey lim) (fst (ReleaseToken lim "a" (later in_use))) /\
  Z.of_nat (size (holders (bucketKey lim) (fst (ReleaseToken lim "a" (later in_use))))) <= 2.
Proof.
  assert (He : holders (bucketKey lim) empty_keyspace = ∅) by (vm_compute; reflexivity).
  destruct (tokens_bounded lim empty_keyspace (mkRun lim (fst (ReleaseToken lim "a" (later in_use))) [("b", 0)] 2)
    He ltac:(vm_compute; discriminate) sample_run) as (Hsz & Hr & _).
  split; [exact Hr|exact Hsz].
Defined.

(** Ten minutes after the last grant two more tasks are let in. *)
Example four_at_once :
  let later := elapse (600 * 10 ^ 9) in_use in
  snd (AcquireToken lim "c" later) = Ok true /\
  snd (AcquireToken lim "d" (fst (AcquireToken lim "c" later))) = Ok true.
Proof. split; by vm_compute. Qed.
Lemma bucket_expires_witness : holders (bucketKey lim) (elapse (600 * 10 ^ 9) (fst (AcquireToken lim "a" empty_keyspace))) = ∅.
Proof.
  destruct (AcquireToken lim "a" empty_keyspace) as [r1 o] eqn:E.
  assert (o = Ok true) as -> by (vm_compute in E; injection E as _ <-; reflexivity).
  apply (bucket_expires lim "a" empty_keyspace r1 (600 * 10 ^ 9) (elapse (600 * 10 ^ 9) r1) "b" r1 true).
  - exact E.
  - vm_compute. discriminate.
  - reflexivity.
Defined.

Lemma AcquireToken_spec_witness :
  "c" ∈ holders (bucketKey lim) (fst (AcquireToken lim "c" empty_keyspace)).
Proof.
  destruct (AcquireToken_spec lim "c" empty_keyspace (fst (AcquireToken lim "c" empty_keyspace)) true)
    as (_ & Hin & _); [vm_compute; reflexivity | apply Hin; reflexivity].
Defined.

Lemma AcquireToken_holder_refused_witness : snd (AcquireToken lim "a" full) = Ok false.
Proof.
  destruct (AcquireToken lim "a" full) as [r' o] eqn:E.
  assert (Ho : exists b, o = Ok b) by (vm_compute in E; injection E as _ <-; eexists; reflexivity).
  destruct Ho as [b ->].
  destruct (AcquireToken_holder_refused lim "a" full r' b) as [-> _].
  - vm_compute. reflexivity.
  - vm_compute. discriminate.
  - exact E.
  - reflexivity.
Defined.

Lemma WaitForToken_spec_witness :
  "c" ∈ holders (bucketKey lim) (fst (WaitForToken lim "c" (fun _ r => r) 10 empty_keyspace)).
Proof.
  apply (WaitForToken_spec lim "c" (fun _ r => r) 10 empty_keyspace _ true); vm_compute; reflexivity.
Defined.

Lemma limiter_config_positive_witness :
  0 < maxTokens (newTokenBucketRateLimiter (fun _ => -4) AlgoExecutionConfig).
Proof.
  destruct (limiter_config_positive (fun _ => -4) 0 0 AlgoExecutionConfig) as [[Hm _] _].
  - apply list_elem_of_further, list_elem_of_further, list_elem_of_here.
  - exact Hm.
Defined.
End LimiterSample.
