(* ===== verification/PermissionTables.v ===== *)
(** * Permission rules and roles ([consts/system.go], [consts/validation.go])

    The action, resource, scope and role names are string types in the code; a
    permission rule is a triple of them, printed as [resource:action:scope].  The
    tables of predefined rules and of the rules of the system roles are the
    code's, entry by entry. *)

From S2P Require Import Prelude GoStrings Consts.

(** ** Names *)

Definition ActionCreate : string := "create".
Definition ActionRead : string := "read".
Definition ActionUpdate : string := "update".
Definition ActionDelete : string := "delete".
Definition ActionExecute : string := "execute".
Definition ActionStop : string := "stop".
Definition ActionRestart : string := "restart".
Definition ActionActivate : string := "activate".
Definition ActionSuspend : string := "suspend".
Definition ActionUpload : string := "upload".
Definition ActionDownload : string := "download".
Definition ActionImport : string := "import".
Definition ActionExport : string := "export".
Definition ActionAssign : string := "assign".
Definition ActionGrant : string := "grant".
Definition ActionRevoke : string := "revoke".
Definition ActionConfigure : string := "configure".
Definition ActionManage : string := "manage".
Definition ActionShare : string := "share".
Definition ActionClone : string := "clone".
Definition ActionMonitor : string := "monitor".
Definition ActionAnalyze : string := "analyze".
Definition ActionAudit : string := "audit".

Definition ResourceSystem : string := "system".
Definition ResourceAudit : string := "audit".
Definition ResourceConfiguration : string := "configuration".
Definition ResourceContainer : string := "container".
Definition ResourceContainerVersion : string := "container_version".
Definition ResourceDataset : string := "dataset".
Definition ResourceDatasetVersion : string := "dataset_version".
Definition ResourceProject : string := "project".
Definition ResourceTeam : string := "team".
Definition ResourceLabel : string := "label".
Definition ResourceUser : string := "user".
Definition ResourceRole : string := "role".
Definition ResourcePermission : string := "permission".
Definition ResourceTask : string := "task".
Definition ResourceTrace : string := "trace".
Definition ResourceInjection : string := "injection".
Definition ResourceExecution : string := "execution".

Definition ScopeOwn : string := "own".
Definition ScopeProject : string := "project".
Definition ScopeTeam : string := "team".
Definition ScopeAll : string := "all".

Definition RoleSuperAdmin : string := "super_admin".
Definition RoleAdmin : string := "admin".
Definition RoleUser : string := "user".
Definition RoleContainerAdmin : string := "container_admin".
Definition RoleContainerDeveloper : string := "container_developer".
Definition RoleContainerViewer : string := "container_viewer".
Definition RoleDatasetAdmin : string := "dataset_admin".
Definition RoleDatasetDeveloper : string := "dataset_developer".
Definition RoleDatasetViewer : string := "dataset_viewer".
Definition RoleProjectAdmin : string := "project_admin".
Definition RoleProjectAlgoDeveloper : string := "project_algo_developer".
Definition RoleProjectDataDeveloper : string := "project_data_developer".
Definition RoleProjectViewer : string := "project_viewer".
Definition RoleTeamAdmin : string := "team_admin".
Definition RoleTeamMember : string := "team_member".
Definition RoleTeamViewer : string := "team_viewer".

Definition ProjectScopedResources : list string :=
  [ResourceInjection; ResourceExecution; ResourceTask; ResourceTrace].
Definition TeamScopedResources : list string :=
  [ResourceContainer; ResourceContainerVersion; ResourceDataset; ResourceDatasetVersion; ResourceProject; ResourceLabel].

(** Whether a resource can inherit project-level or team-level permissions. *)
Definition IsProjectScoped (resource : string) : bool := bool_decide (resource ∈ ProjectScopedResources).
Definition IsTeamScoped (resource : string) : bool := bool_decide (resource ∈ TeamScopedResources).

Definition ValidActions : list string :=
  [ActionCreate; ActionRead; ActionUpdate; ActionDelete; ActionExecute; ActionStop; ActionRestart; ActionActivate; ActionSuspend; ActionUpload; ActionDownload; ActionImport; ActionExport; ActionAssign; ActionGrant; ActionRevoke; ActionConfigure; ActionManage; ActionShare; ActionClone; ActionMonitor; ActionAnalyze; ActionAudit].
Definition ValidResourceNames : list string :=
  [ResourceSystem; ResourceAudit; ResourceConfiguration; ResourceContainer; ResourceContainerVersion; ResourceDataset; ResourceDatasetVersion; ResourceProject; ResourceTeam; ResourceLabel; ResourceUser; ResourceRole; ResourcePermission; ResourceTask; ResourceTrace; ResourceInjection; ResourceExecution].
Definition ValidResourceScopes : list string :=
  [ScopeOwn; ScopeProject; ScopeTeam; ScopeAll].

(** ** Rules *)

Record PermissionRule := mkRule { Resource : string; Action : string; Scope : string }.
#[global] Instance PermissionRule_eq_dec : EqDecision PermissionRule.
Proof. solve_decision. Defined.

Definition ParsePermissionRule (rule : string) : res PermissionRule :=
  match split ":" rule with
  | [resource; action; scope] => Ok (mkRule resource action scope)
  | _ => Err ("invalid permission rule format: " +:+ rule +:+ " (expected resource:action:scope)")
  end.

Definition PermissionRule_String (pr : PermissionRule) : string :=
  Resource pr +:+ ":" +:+ Action pr +:+ ":" +:+ Scope pr.

(** ** Predefined rules *)

Definition PermSystemRead : PermissionRule := mkRule ResourceSystem ActionRead ScopeAll.
Definition PermSystemConfigure : PermissionRule := mkRule ResourceSystem ActionConfigure ScopeAll.
Definition PermSystemManage : PermissionRule := mkRule ResourceSystem ActionManage ScopeAll.
Definition PermAuditRead : PermissionRule := mkRule ResourceAudit ActionRead ScopeAll.
Definition PermAuditAudit : PermissionRule := mkRule ResourceAudit ActionAudit ScopeAll.
Definition PermConfigurationRead : PermissionRule := mkRule ResourceConfiguration ActionRead ScopeAll.
Definition PermConfigurationUpdate : PermissionRule := mkRule ResourceConfiguration ActionUpdate ScopeAll.
Definition PermConfigurationConfigure : PermissionRule := mkRule ResourceConfiguration ActionConfigure ScopeAll.
Definition PermUserReadAll : PermissionRule := mkRule ResourceUser ActionRead ScopeAll.
Definition PermUserCreateAll : PermissionRule := mkRule ResourceUser ActionCreate ScopeAll.
Definition PermUserUpdateAll : PermissionRule := mkRule ResourceUser ActionUpdate ScopeAll.
Definition PermUserDeleteAll : PermissionRule := mkRule ResourceUser ActionDelete ScopeAll.
Definition PermUserAssignAll : PermissionRule := mkRule ResourceUser ActionAssign ScopeAll.
Definition PermRoleReadAll : PermissionRule := mkRule ResourceRole ActionRead ScopeAll.
Definition PermRoleCreateAll : PermissionRule := mkRule ResourceRole ActionCreate ScopeAll.
Definition PermRoleUpdateAll : PermissionRule := mkRule ResourceRole ActionUpdate ScopeAll.
Definition PermRoleDeleteAll : PermissionRule := mkRule ResourceRole ActionDelete ScopeAll.
Definition PermRoleGrantAll : PermissionRule := mkRule ResourceRole ActionGrant ScopeAll.
Definition PermRoleRevokeAll : PermissionRule := mkRule ResourceRole ActionRevoke ScopeAll.
Definition PermPermissionReadAll : PermissionRule := mkRule ResourcePermission ActionRead ScopeAll.
Definition PermPermissionCreateAll : PermissionRule := mkRule ResourcePermission ActionCreate ScopeAll.
Definition PermPermissionUpdateAll : PermissionRule := mkRule ResourcePermission ActionUpdate ScopeAll.
Definition PermPermissionDeleteAll : PermissionRule := mkRule ResourcePermission ActionDelete ScopeAll.
Definition PermPermissionManageAll : PermissionRule := mkRule ResourcePermission ActionManage ScopeAll.
Definition PermTeamReadAll : PermissionRule := mkRule ResourceTeam ActionRead ScopeAll.
Definition PermTeamReadTeam : PermissionRule := mkRule ResourceTeam ActionRead ScopeTeam.
Definition PermTeamCreateAll : PermissionRule := mkRule ResourceTeam ActionCreate ScopeAll.
Definition PermTeamUpdateAll : PermissionRule := mkRule ResourceTeam ActionUpdate ScopeAll.
Definition PermTeamUpdateTeam : PermissionRule := mkRule ResourceTeam ActionUpdate ScopeTeam.
Definition PermTeamDeleteAll : PermissionRule := mkRule ResourceTeam ActionDelete ScopeAll.
Definition PermTeamManageAll : PermissionRule := mkRule ResourceTeam ActionManage ScopeAll.
Definition PermProjectReadAll : PermissionRule := mkRule ResourceProject ActionRead ScopeAll.
Definition PermProjectReadTeam : PermissionRule := mkRule ResourceProject ActionRead ScopeTeam.
Definition PermProjectReadOwn : PermissionRule := mkRule ResourceProject ActionRead ScopeOwn.
Definition PermProjectCreateTeam : PermissionRule := mkRule ResourceProject ActionCreate ScopeTeam.
Definition PermProjectCreateOwn : PermissionRule := mkRule ResourceProject ActionCreate ScopeOwn.
Definition PermProjectUpdateAll : PermissionRule := mkRule ResourceProject ActionUpdate ScopeAll.
Definition PermProjectUpdateOwn : PermissionRule := mkRule ResourceProject ActionUpdate ScopeOwn.
Definition PermProjectDeleteAll : PermissionRule := mkRule ResourceProject ActionDelete ScopeAll.
Definition PermProjectDeleteOwn : PermissionRule := mkRule ResourceProject ActionDelete ScopeOwn.
Definition PermProjectManageAll : PermissionRule := mkRule ResourceProject ActionManage ScopeAll.
Definition PermProjectManageOwn : PermissionRule := mkRule ResourceProject ActionManage ScopeOwn.
Definition PermContainerReadAll : PermissionRule := mkRule ResourceContainer ActionRead ScopeAll.
Definition PermContainerReadTeam : PermissionRule := mkRule ResourceContainer ActionRead ScopeTeam.
Definition PermContainerCreateAll : PermissionRule := mkRule ResourceContainer ActionCreate ScopeAll.
Definition PermContainerCreateTeam : PermissionRule := mkRule ResourceContainer ActionCreate ScopeTeam.
Definition PermContainerCreateOwn : PermissionRule := mkRule ResourceContainer ActionCreate ScopeOwn.
Definition PermContainerUpdateAll : PermissionRule := mkRule ResourceContainer ActionUpdate ScopeAll.
Definition PermContainerUpdateTeam : PermissionRule := mkRule ResourceContainer ActionUpdate ScopeTeam.
Definition PermContainerDeleteAll : PermissionRule := mkRule ResourceContainer ActionDelete ScopeAll.
Definition PermContainerManageAll : PermissionRule := mkRule ResourceContainer ActionManage ScopeAll.
Definition PermContainerExecuteAll : PermissionRule := mkRule ResourceContainer ActionExecute ScopeAll.
Definition PermContainerExecuteTeam : PermissionRule := mkRule ResourceContainer ActionExecute ScopeTeam.
Definition PermContainerVersionReadAll : PermissionRule := mkRule ResourceContainerVersion ActionRead ScopeAll.
Definition PermContainerVersionReadTeam : PermissionRule := mkRule ResourceContainerVersion ActionRead ScopeTeam.
Definition PermContainerVersionCreateAll : PermissionRule := mkRule ResourceContainerVersion ActionCreate ScopeAll.
Definition PermContainerVersionCreateTeam : PermissionRule := mkRule ResourceContainerVersion ActionCreate ScopeTeam.
Definition PermContainerVersionUpdateAll : PermissionRule := mkRule ResourceContainerVersion ActionUpdate ScopeAll.
Definition PermContainerVersionUpdateTeam : PermissionRule := mkRule ResourceContainerVersion ActionUpdate ScopeTeam.
Definition PermContainerVersionDeleteAll : PermissionRule := mkRule ResourceContainerVersion ActionDelete ScopeAll.
Definition PermContainerVersionManageAll : PermissionRule := mkRule ResourceContainerVersion ActionManage ScopeAll.
Definition PermContainerVersionUploadAll : PermissionRule := mkRule ResourceContainerVersion ActionUpload ScopeAll.
Definition PermContainerVersionUploadTeam : PermissionRule := mkRule ResourceContainerVersion ActionUpload ScopeTeam.
Definition PermDatasetReadAll : PermissionRule := mkRule ResourceDataset ActionRead ScopeAll.
Definition PermDatasetReadTeam : PermissionRule := mkRule ResourceDataset ActionRead ScopeTeam.
Definition PermDatasetCreateAll : PermissionRule := mkRule ResourceDataset ActionCreate ScopeAll.
Definition PermDatasetCreateTeam : PermissionRule := mkRule ResourceDataset ActionCreate ScopeTeam.
Definition PermDatasetCreateOwn : PermissionRule := mkRule ResourceDataset ActionCreate ScopeOwn.
Definition PermDatasetUpdateAll : PermissionRule := mkRule ResourceDataset ActionUpdate ScopeAll.
Definition PermDatasetUpdateTeam : PermissionRule := mkRule ResourceDataset ActionUpdate ScopeTeam.
Definition PermDatasetDeleteAll : PermissionRule := mkRule ResourceDataset ActionDelete ScopeAll.
Definition PermDatasetManageAll : PermissionRule := mkRule ResourceDataset ActionManage ScopeAll.
Definition PermDatasetVersionReadAll : PermissionRule := mkRule ResourceDatasetVersion ActionRead ScopeAll.
Definition PermDatasetVersionReadTeam : PermissionRule := mkRule ResourceDatasetVersion ActionRead ScopeTeam.
Definition PermDatasetVersionCreateAll : PermissionRule := mkRule ResourceDatasetVersion ActionCreate ScopeAll.
Definition PermDatasetVersionCreateTeam : PermissionRule := mkRule ResourceDatasetVersion ActionCreate ScopeTeam.
Definition PermDatasetVersionUpdateAll : PermissionRule := mkRule ResourceDatasetVersion ActionUpdate ScopeAll.
Definition PermDatasetVersionUpdateTeam : PermissionRule := mkRule ResourceDatasetVersion ActionUpdate ScopeTeam.
Definition PermDatasetVersionDeleteAll : PermissionRule := mkRule ResourceDatasetVersion ActionDelete ScopeAll.
Definition PermDatasetVersionManageAll : PermissionRule := mkRule ResourceDatasetVersion ActionManage ScopeAll.
Definition PermDatasetVersionDownloadAll : PermissionRule := mkRule ResourceDatasetVersion ActionDownload ScopeAll.
Definition PermDatasetVersionDownloadTeam : PermissionRule := mkRule ResourceDatasetVersion ActionDownload ScopeTeam.
Definition PermLabelReadAll : PermissionRule := mkRule ResourceLabel ActionRead ScopeAll.
Definition PermLabelCreateAll : PermissionRule := mkRule ResourceLabel ActionCreate ScopeAll.
Definition PermLabelCreateOwn : PermissionRule := mkRule ResourceLabel ActionCreate ScopeOwn.
Definition PermLabelUpdateAll : PermissionRule := mkRule ResourceLabel ActionUpdate ScopeAll.
Definition PermLabelDeleteAll : PermissionRule := mkRule ResourceLabel ActionDelete ScopeAll.
Definition PermInjectionReadProject : PermissionRule := mkRule ResourceInjection ActionRead ScopeProject.
Definition PermInjectionCreateProject : PermissionRule := mkRule ResourceInjection ActionCreate ScopeProject.
Definition PermInjectionUpdateProject : PermissionRule := mkRule ResourceInjection ActionUpdate ScopeProject.
Definition PermInjectionDeleteProject : PermissionRule := mkRule ResourceInjection ActionDelete ScopeProject.
Definition PermInjectionExecuteProject : PermissionRule := mkRule ResourceInjection ActionExecute ScopeProject.
Definition PermInjectionCloneProject : PermissionRule := mkRule ResourceInjection ActionClone ScopeProject.
Definition PermInjectionDownloadProject : PermissionRule := mkRule ResourceInjection ActionDownload ScopeProject.
Definition PermExecutionReadProject : PermissionRule := mkRule ResourceExecution ActionRead ScopeProject.
Definition PermExecutionCreateProject : PermissionRule := mkRule ResourceExecution ActionCreate ScopeProject.
Definition PermExecutionUpdateProject : PermissionRule := mkRule ResourceExecution ActionUpdate ScopeProject.
Definition PermExecutionDeleteProject : PermissionRule := mkRule ResourceExecution ActionDelete ScopeProject.
Definition PermExecutionExecuteProject : PermissionRule := mkRule ResourceExecution ActionExecute ScopeProject.
Definition PermExecutionStopProject : PermissionRule := mkRule ResourceExecution ActionStop ScopeProject.
Definition PermTaskReadAll : PermissionRule := mkRule ResourceTask ActionRead ScopeAll.
Definition PermTaskCreateAll : PermissionRule := mkRule ResourceTask ActionCreate ScopeAll.
Definition PermTaskUpdateAll : PermissionRule := mkRule ResourceTask ActionUpdate ScopeAll.
Definition PermTaskDeleteAll : PermissionRule := mkRule ResourceTask ActionDelete ScopeAll.
Definition PermTaskExecuteAll : PermissionRule := mkRule ResourceTask ActionExecute ScopeAll.
Definition PermTaskStopAll : PermissionRule := mkRule ResourceTask ActionStop ScopeAll.
Definition PermTraceReadAll : PermissionRule := mkRule ResourceTrace ActionRead ScopeAll.
Definition PermTraceMonitorAll : PermissionRule := mkRule ResourceTrace ActionMonitor ScopeAll.

(** All of them, in order. *)
Definition predefined_rules : list PermissionRule :=
  [PermSystemRead; PermSystemConfigure; PermSystemManage;
   PermAuditRead; PermAuditAudit; PermConfigurationRead;
   PermConfigurationUpdate; PermConfigurationConfigure; PermUserReadAll;
   PermUserCreateAll; PermUserUpdateAll; PermUserDeleteAll;
   PermUserAssignAll; PermRoleReadAll; PermRoleCreateAll;
   PermRoleUpdateAll; PermRoleDeleteAll; PermRoleGrantAll;
   PermRoleRevokeAll; PermPermissionReadAll; PermPermissionCreateAll;
   PermPermissionUpdateAll; PermPermissionDeleteAll; PermPermissionManageAll;
   PermTeamReadAll; PermTeamReadTeam; PermTeamCreateAll;
   PermTeamUpdateAll; PermTeamUpdateTeam; PermTeamDeleteAll;
   PermTeamManageAll; PermProjectReadAll; PermProjectReadTeam;
   PermProjectReadOwn; PermProjectCreateTeam; PermProjectCreateOwn;
   PermProjectUpdateAll; PermProjectUpdateOwn; PermProjectDeleteAll;
   PermProjectDeleteOwn; PermProjectManageAll; PermProjectManageOwn;
   PermContainerReadAll; PermContainerReadTeam; PermContainerCreateAll;
   PermContainerCreateTeam; PermContainerCreateOwn; PermContainerUpdateAll;
   PermContainerUpdateTeam; PermContainerDeleteAll; PermContainerManageAll;
   PermContainerExecuteAll; PermContainerExecuteTeam; PermContainerVersionReadAll;
   PermContainerVersionReadTeam; PermContainerVersionCreateAll; PermContainerVersionCreateTeam;
   PermContainerVersionUpdateAll; PermContainerVersionUpdateTeam; PermContainerVersionDeleteAll;
   PermContainerVersionManageAll; PermContainerVersionUploadAll; PermContainerVersionUploadTeam;
   PermDatasetReadAll; PermDatasetReadTeam; PermDatasetCreateAll;
   PermDatasetCreateTeam; PermDatasetCreateOwn; PermDatasetUpdateAll;
   PermDatasetUpdateTeam; PermDatasetDeleteAll; PermDatasetManageAll;
   PermDatasetVersionReadAll; PermDatasetVersionReadTeam; PermDatasetVersionCreateAll;
   PermDatasetVersionCreateTeam; PermDatasetVersionUpdateAll; PermDatasetVersionUpdateTeam;
   PermDatasetVersionDeleteAll; PermDatasetVersionManageAll; PermDatasetVersionDownloadAll;
   PermDatasetVersionDownloadTeam; PermLabelReadAll; PermLabelCreateAll;
   PermLabelCreateOwn; PermLabelUpdateAll; PermLabelDeleteAll;
   PermInjectionReadProject; PermInjectionCreateProject; PermInjectionUpdateProject;
   PermInjectionDeleteProject; PermInjectionExecuteProject; PermInjectionCloneProject;
   PermInjectionDownloadProject; PermExecutionReadProject; PermExecutionCreateProject;
   PermExecutionUpdateProject; PermExecutionDeleteProject; PermExecutionExecuteProject;
   PermExecutionStopProject; PermTaskReadAll; PermTaskCreateAll;
   PermTaskUpdateAll; PermTaskDeleteAll; PermTaskExecuteAll;
   PermTaskStopAll; PermTraceReadAll; PermTraceMonitorAll].

(** ** The rules of the system roles *)

Definition RoleSuperAdmin_permissions : list PermissionRule :=
  [].
Definition RoleAdmin_permissions : list PermissionRule :=
  [PermSystemRead; PermSystemConfigure; PermSystemManage;
   PermAuditRead; PermAuditAudit; PermConfigurationRead;
   PermConfigurationUpdate; PermConfigurationConfigure; PermUserReadAll;
   PermUserCreateAll; PermUserUpdateAll; PermUserDeleteAll;
   PermUserAssignAll; PermRoleReadAll; PermRoleCreateAll;
   PermRoleUpdateAll; PermRoleDeleteAll; PermRoleGrantAll;
   PermRoleRevokeAll; PermPermissionReadAll; PermPermissionCreateAll;
   PermPermissionUpdateAll; PermPermissionDeleteAll; PermPermissionManageAll;
   PermTeamReadAll; PermTeamCreateAll; PermTeamUpdateAll;
   PermTeamDeleteAll; PermTeamManageAll; PermProjectReadAll;
   PermProjectUpdateAll; PermProjectDeleteAll; PermProjectManageAll;
   PermContainerReadAll; PermContainerCreateAll; PermContainerUpdateAll;
   PermContainerDeleteAll; PermContainerManageAll; PermContainerExecuteAll;
   PermContainerVersionReadAll; PermContainerVersionCreateAll; PermContainerVersionUpdateAll;
   PermContainerVersionDeleteAll; PermContainerVersionUploadAll; PermDatasetReadAll;
   PermDatasetCreateAll; PermDatasetUpdateAll; PermDatasetDeleteAll;
   PermDatasetManageAll; PermDatasetVersionReadAll; PermDatasetVersionCreateAll;
   PermDatasetVersionUpdateAll; PermDatasetVersionDeleteAll; PermDatasetVersionDownloadAll;
   PermLabelReadAll; PermLabelCreateAll; PermLabelUpdateAll;
   PermLabelDeleteAll; PermInjectionReadProject; PermInjectionCreateProject;
   PermInjectionUpdateProject; PermInjectionDeleteProject; PermInjectionExecuteProject;
   PermInjectionCloneProject; PermInjectionDownloadProject; PermExecutionReadProject;
   PermExecutionCreateProject; PermExecutionUpdateProject; PermExecutionDeleteProject;
   PermExecutionExecuteProject; PermExecutionStopProject; PermTaskReadAll;
   PermTaskCreateAll; PermTaskUpdateAll; PermTaskDeleteAll;
   PermTaskExecuteAll; PermTaskStopAll; PermTraceReadAll;
   PermTraceMonitorAll].
Definition RoleUser_permissions : list PermissionRule :=
  [PermProjectCreateOwn; PermProjectReadOwn; PermContainerCreateOwn;
   PermDatasetCreateOwn; PermLabelCreateOwn; PermLabelReadAll].
Definition RoleContainerAdmin_permissions : list PermissionRule :=
  [PermContainerReadAll; PermContainerCreateAll; PermContainerUpdateAll;
   PermContainerDeleteAll; PermContainerManageAll; PermContainerExecuteAll;
   PermContainerVersionReadAll; PermContainerVersionCreateAll; PermContainerVersionUpdateAll;
   PermContainerVersionDeleteAll; PermContainerVersionManageAll; PermContainerVersionUploadAll].
Definition RoleContainerDeveloper_permissions : list PermissionRule :=
  [PermContainerReadTeam; PermContainerCreateTeam; PermContainerUpdateTeam;
   PermContainerExecuteTeam; PermContainerVersionReadTeam; PermContainerVersionCreateTeam;
   PermContainerVersionUpdateTeam; PermContainerVersionUploadTeam].
Definition RoleContainerViewer_permissions : list PermissionRule :=
  [PermContainerReadAll; PermContainerVersionReadAll].
Definition RoleDatasetAdmin_permissions : list PermissionRule :=
  [PermDatasetReadAll; PermDatasetCreateAll; PermDatasetUpdateAll;
   PermDatasetDeleteAll; PermDatasetManageAll; PermDatasetVersionReadAll;
   PermDatasetVersionCreateAll; PermDatasetVersionUpdateAll; PermDatasetVersionDeleteAll;
   PermDatasetVersionManageAll; PermDatasetVersionDownloadAll].
Definition RoleDatasetDeveloper_permissions : list PermissionRule :=
  [PermDatasetReadTeam; PermDatasetCreateTeam; PermDatasetUpdateTeam;
   PermDatasetVersionReadTeam; PermDatasetVersionCreateTeam; PermDatasetVersionUpdateTeam;
   PermDatasetVersionDownloadTeam].
Definition RoleDatasetViewer_permissions : list PermissionRule :=
  [PermDatasetReadAll; PermDatasetVersionReadAll; PermDatasetVersionDownloadAll].
Definition RoleTeamAdmin_permissions : list PermissionRule :=
  [PermTeamReadAll; PermTeamCreateAll; PermTeamUpdateAll;
   PermTeamDeleteAll; PermTeamManageAll].
Definition RoleTeamMember_permissions : list PermissionRule :=
  [PermTeamReadTeam; PermTeamUpdateTeam].
Definition RoleTeamViewer_permissions : list PermissionRule :=
  [PermTeamReadTeam].
Definition RoleProjectAdmin_permissions : list PermissionRule :=
  [PermProjectReadOwn; PermProjectUpdateOwn; PermProjectDeleteOwn;
   PermProjectManageOwn; PermInjectionReadProject; PermInjectionExecuteProject;
   PermExecutionReadProject; PermExecutionExecuteProject].
Definition RoleProjectAlgoDeveloper_permissions : list PermissionRule :=
  [PermProjectReadOwn; PermExecutionReadProject; PermExecutionExecuteProject].
Definition RoleProjectDataDeveloper_permissions : list PermissionRule :=
  [PermProjectReadOwn; PermInjectionReadProject; PermInjectionExecuteProject].
Definition RoleProjectViewer_permissions : list PermissionRule :=
  [PermProjectReadOwn; PermInjectionReadProject; PermExecutionReadProject].

Definition SystemRolePermissions : list (string * list PermissionRule) :=
  [(RoleSuperAdmin, RoleSuperAdmin_permissions);
   (RoleAdmin, RoleAdmin_permissions);
   (RoleUser, RoleUser_permissions);
   (RoleContainerAdmin, RoleContainerAdmin_permissions);
   (RoleContainerDeveloper, RoleContainerDeveloper_permissions);
   (RoleContainerViewer, RoleContainerViewer_permissions);
   (RoleDatasetAdmin, RoleDatasetAdmin_permissions);
   (RoleDatasetDeveloper, RoleDatasetDeveloper_permissions);
   (RoleDatasetViewer, RoleDatasetViewer_permissions);
   (RoleTeamAdmin, RoleTeamAdmin_permissions);
   (RoleTeamMember, RoleTeamMember_permissions);
   (RoleTeamViewer, RoleTeamViewer_permissions);
   (RoleProjectAdmin, RoleProjectAdmin_permissions);
   (RoleProjectAlgoDeveloper, RoleProjectAlgoDeveloper_permissions);
   (RoleProjectDataDeveloper, RoleProjectDataDeveloper_permissions);
   (RoleProjectViewer, RoleProjectViewer_permissions)].

(** ** Facts on rules and tables *)

Definition colon_free (r : PermissionRule) : Prop :=
  free_of ":" (Resource r) /\ free_of ":" (Action r) /\ free_of ":" (Scope r).
#[global] Instance colon_free_dec r : Decision (colon_free r).
Proof. unfold colon_free. apply _. Defined.

Lemma rule_parts r : colon_free r ->
  split ":" (PermissionRule_String r) = [Resource r; Action r; Scope r].
Proof.
  intros (Hr & Ha & Hs). exact (split_join ":" [Resource r; Action r; Scope r] ltac:(done)
    ltac:(by repeat constructor)).
Qed.

(** Printing and parsing of permission rules are inverse: a rule whose parts
    contain no colon is parsed back from its text, and whatever text is parsed is
    the text of the rule it gives. *)
Theorem rule_roundtrip :
  (forall r, colon_free r -> ParsePermissionRule (PermissionRule_String r) = Ok r) /\
  (forall s r, ParsePermissionRule s = Ok r -> PermissionRule_String r = s).
Proof.
  split.
  - intros r Hr. unfold ParsePermissionRule. rewrite rule_parts by done. by destruct r.
  - intros s r. unfold ParsePermissionRule. pose proof (join_split ":" s) as Hj.
    destruct (split ":" s) as [|a [|b [|c [|d l]]]]; try done. intros [= <-]. exact Hj.
Qed.

(** What the role a permission check needs at least looks like. *)
Definition well_formed_rule (r : PermissionRule) : bool :=
  bool_decide (Resource r ∈ ValidResourceNames) && bool_decide (Action r ∈ ValidActions)
  && bool_decide (Scope r ∈ ValidResourceScopes) && bool_decide (colon_free r).

(** The predefined rules are pairwise different, use only the valid names and
    print to texts that parse back; and every role grants only predefined rules,
    none of them twice. *)
Theorem role_tables_well_formed :
  forallb well_formed_rule predefined_rules = true /\ NoDup predefined_rules /\
  forall role rules, (role, rules) ∈ SystemRolePermissions ->
    NoDup rules /\ forall r, r ∈ rules -> r ∈ predefined_rules.
Proof.
  split; [vm_compute; reflexivity|]. split.
  { apply (bool_decide_unpack _). vm_compute. exact I. }
  intros role rules Hin.
  assert (Hall : Forall (fun p => NoDup (snd p) /\ Forall (fun r => r ∈ predefined_rules) (snd p))
                   SystemRolePermissions).
  { apply (bool_decide_unpack _). vm_compute. exact I. }
  rewrite Forall_forall in Hall. destruct (Hall _ Hin) as [Hn Hp]. split; [done|].
  intros r Hr. rewrite Forall_forall in Hp. by apply Hp.
Qed.

Lemma rule_roundtrip_witness :
  ParsePermissionRule "project:read:own" = Ok PermProjectReadOwn.
Proof.
  destruct rule_roundtrip as [H _]. apply (H PermProjectReadOwn).
  apply (bool_decide_unpack _). vm_compute. exact I.
Defined.

Lemma role_tables_well_formed_witness : PermProjectReadOwn ∈ predefined_rules.
Proof.
  destruct role_tables_well_formed as (_ & _ & H).
  destruct (H RoleProjectViewer RoleProjectViewer_permissions) as [_ Hp].
  - apply (bool_decide_unpack _). vm_compute. exact I.
  - apply Hp. apply list_elem_of_here.
Defined.
