(* ===== verification/Permissions.v ===== *)
(** * Authentication context and permission checks
      ([middleware/auth.go], [permission.go], [api_key_scope.go], [deps.go])

    A middleware looks at the values the authentication stored in the gin context
    and either lets the request through or aborts it.  The permission checks are
    proved against the interface [PermissionChecker]; the database-backed checker
    of [deps.go] implements it, its SQL queries being comprehensions over the
    tables. *)

From S2P Require Import Prelude GoStrings Consts PermissionTables.

(** ** The request *)

Inductive gin_value := GBool (b : bool) | GInt (z : Z) | GStr (s : string) | GStrs (l : list string).

Record gin_ctx := mkGin {
  g_keys : gmap string gin_value;     (* c.Get *)
  g_params : gmap string string       (* c.Param; missing is the empty string *)
}.

Definition get_bool (c : gin_ctx) (k : string) : bool :=
  match g_keys c !! k with Some (GBool b) => b | _ => false end.
Definition get_int (c : gin_ctx) (k : string) : option Z :=
  match g_keys c !! k with Some (GInt z) => Some z | _ => None end.
Definition get_str (c : gin_ctx) (k : string) : option string :=
  match g_keys c !! k with Some (GStr s) => Some s | _ => None end.
Definition get_strs (c : gin_ctx) (k : string) : option (list string) :=
  match g_keys c !! k with Some (GStrs l) => Some l | _ => None end.

Definition GetCurrentUserID (c : gin_ctx) : option Z := get_int c "user_id".
Definition IsCurrentUserActive (c : gin_ctx) : bool := get_bool c "is_active".
Definition IsServiceToken (c : gin_ctx) : bool := get_bool c "is_service_token".
Definition IsCurrentUserAdmin (c : gin_ctx) : bool := get_bool c "is_admin".
Definition GetCurrentUserRoles (c : gin_ctx) : option (list string) := get_strs c "user_roles".
Definition GetCurrentAPIKeyScopes (c : gin_ctx) : option (list string) := get_strs c "api_key_scopes".
Definition GetAuthType (c : gin_ctx) : string := default "" (get_str c "auth_type").
Definition GetServiceTaskID (c : gin_ctx) : option string := get_str c "task_id".

(** What a middleware does with the request: continue, or abort, with the response
    it has written. *)
Inductive reply := Next | Aborted (response : option (Z * string)).
Definition handler : Type := gin_ctx -> reply.

(** The result of [RequireAuth] and the response it has written. *)
Definition RequireAuth (c : gin_ctx) : bool * option (Z * string) :=
  if IsServiceToken c then
    (match GetServiceTaskID c with Some t => negb (String.eqb t "") | None => false end, None)
  else
    match GetCurrentUserID c with
    | None => (false, Some (401, "Authentication required"))
    | Some id =>
        if id <=? 0 then (false, Some (401, "Authentication required"))
        else if negb (IsCurrentUserActive c) then (false, Some (403, "User account is inactive"))
        else (true, None)
    end.

Definition RequireUserAuth (c : gin_ctx) : bool * option (Z * string) :=
  if IsServiceToken c
  then (false, Some (403, "User authentication required, service token not allowed"))
  else RequireAuth c.

Definition RequireServiceTokenAuth : handler := fun c =>
  let '(ok, resp) := RequireAuth c in
  if negb ok then Aborted resp
  else if negb (IsServiceToken c) then Aborted (Some (403, "Service token required"))
  else Next.

Definition RequireActiveUser : handler := fun c =>
  let '(ok, resp) := RequireAuth c in if ok then Next else Aborted resp.

Definition RequireHumanUserAuth : handler := fun c =>
  let '(ok, resp) := RequireUserAuth c in
  if negb ok then Aborted resp
  else if String.eqb (GetAuthType c) "api_key"
  then Aborted (Some (403, "User session required, API key token not allowed"))
  else Next.

(** ** API key scopes *)

(** The two lists padded and compared position by position. *)
Fixpoint parts_match (scopeParts targetParts : list string) : bool :=
  match targetParts, scopeParts with
  | [], _ => true
  | t :: ts, [] => parts_match [] ts
  | t :: ts, s :: ss =>
      let part := trim_space s in
      (String.eqb part "*" || String.eqb part t) && parts_match ss ts
  end.

Definition apiKeyScopeMatchesTarget (scope target : string) : bool :=
  let scope := trim_space scope in
  let target := trim_space target in
  if String.eqb scope "" || String.eqb target "" then false
  else if String.eqb scope "*" then true
  else
    let targetParts := split ":" target in
    let scopeParts := split ":" scope in
    if (length targetParts <? length scopeParts)%nat then false
    else parts_match scopeParts targetParts.

Definition apiKeyScopesAllowAnyTarget (scopes targets : list string) : bool :=
  if (length scopes =? 0)%nat || (length targets =? 0)%nat then false
  else existsb (fun scope => existsb (apiKeyScopeMatchesTarget scope) targets) scopes.

Definition RequireAPIKeyScopesAny (targets : list string) : handler := fun c =>
  let trimmed := filter (fun t => negb (String.eqb t "") = true) (trim_space <$> targets) in
  if negb (String.eqb (GetAuthType c) "api_key") then Next
  else match GetCurrentAPIKeyScopes c with
       | Some scopes =>
           if apiKeyScopesAllowAnyTarget scopes trimmed then Next
           else Aborted (Some (403, "API key scope does not allow this endpoint"))
       | None => Aborted (Some (403, "API key scope does not allow this endpoint"))
       end.

Definition apiKeyScopeMatchesPermission (scope : string) (permission : PermissionRule) : bool :=
  apiKeyScopeMatchesTarget scope (PermissionRule_String permission).

(** ** The interface of the checker *)

Record CheckPermissionParams := mkParams {
  p_UserID : Z; p_Action : string; p_Scope : string; p_ResourceName : string;
  p_TeamID : option Z; p_ProjectID : option Z; p_ContainerID : option Z; p_DatasetID : option Z
}.

Class PermissionChecker (C : Type) := {
  CheckUserPermission : CheckPermissionParams -> C -> res bool;
  IsUserTeamAdmin : Z -> Z -> C -> res bool;
  IsUserInTeam : Z -> Z -> C -> res bool;
  IsTeamPublic : Z -> C -> res bool;
  IsUserProjectAdmin : Z -> Z -> C -> res bool;
  IsUserInProject : Z -> Z -> C -> res bool
}.

(** ** The checks *)
Section Checks.
Context {C : Type} `{PermissionChecker C}.

Record permissionContext := mkContext {
  userID : Z; isAdmin : bool; roles : list string; authType : string;
  apiKeyScopes : list string;
  teamID : option Z; projectID : option Z; containerID : option Z; datasetID : option Z
}.

Definition permissionCheckFunc : Type := permissionContext -> C -> res bool.

(** An identifier of the URL: absent or not a number counts as absent. *)
Definition param_id (c : gin_ctx) (name : string) : option Z :=
  let s := default "" (g_params c !! name) in
  if String.eqb s "" then None else atoi s.

Inductive extracted :=
| NoContext (response : option (Z * string))  (* nil context, empty message *)
| AuthError (msg : string)
| Extracted (ctx : permissionContext).

(** The context of the user [id]. *)
Definition context_of (c : gin_ctx) (id : Z) : permissionContext :=
  {| userID := id; isAdmin := IsCurrentUserAdmin c;
     roles := default [] (GetCurrentUserRoles c);
     authType := GetAuthType c;
     apiKeyScopes := default [] (GetCurrentAPIKeyScopes c);
     teamID := param_id c "team_id"; projectID := param_id c "project_id";
     containerID := param_id c "container_id"; datasetID := param_id c "dataset_id" |}.

Definition extractPermissionContext (c : gin_ctx) : extracted :=
  let '(ok, resp) := RequireAuth c in
  if negb ok then NoContext resp
  else if IsServiceToken c then NoContext None
  else
    match GetCurrentUserID c with
    | None => AuthError "Authentication required"
    | Some id =>
        Extracted (context_of c id)
    end.

Definition isAPIKeyAuth (ctx : permissionContext) : bool := String.eqb (authType ctx) "api_key".

Definition scopeAllowsPermission (ctx : permissionContext) (permission : PermissionRule) : bool :=
  if negb (isAPIKeyAuth ctx) then true
  else if (length (apiKeyScopes ctx) =? 0)%nat then false
  else existsb (fun scope => apiKeyScopeMatchesPermission scope permission) (apiKeyScopes ctx).

Definition scopeAllowsAnyPermission (ctx : permissionContext) (permissions : list PermissionRule) : bool :=
  existsb (scopeAllowsPermission ctx) permissions.

Definition withPermissionCheck (db : C) (checkFunc : permissionCheckFunc) : handler := fun c =>
  match extractPermissionContext c with
  | NoContext resp => if negb (IsServiceToken c) then Aborted resp else Next
  | AuthError msg => if IsServiceToken c then Next else Aborted (Some (401, msg))
  | Extracted permCtx =>
      if IsServiceToken c then Next
      else match checkFunc permCtx db with
           | Err e => Aborted (Some (500, "Permission check failed: " +:+ e))
           | Ok false => Aborted (Some (403, "Insufficient permissions"))
           | Ok true => Next
           end
  end.

Definition params_of (ctx : permissionContext) (p : PermissionRule) : CheckPermissionParams :=
  mkParams (userID ctx) (Action p) (Scope p) (Resource p)
    (teamID ctx) (projectID ctx) (containerID ctx) (datasetID ctx).

Definition singlePermission (p : PermissionRule) : permissionCheckFunc := fun ctx db =>
  if negb (scopeAllowsPermission ctx p) then Ok false
  else CheckUserPermission (params_of ctx p) db.

(** Errors of the checker are logged and the next permission is tried. *)
Fixpoint anyPermission (permissions : list PermissionRule) : permissionCheckFunc := fun ctx db =>
  match permissions with
  | [] => Ok false
  | p :: rest =>
      if negb (scopeAllowsPermission ctx p) then anyPermission rest ctx db
      else match CheckUserPermission (params_of ctx p) db with
           | Err _ => anyPermission rest ctx db
           | Ok true => Ok true
           | Ok false => anyPermission rest ctx db
           end
  end.

Fixpoint allPermissions (permissions : list PermissionRule) : permissionCheckFunc := fun ctx db =>
  match permissions with
  | [] => Ok true
  | p :: rest =>
      if negb (scopeAllowsPermission ctx p) then Ok false
      else match CheckUserPermission (params_of ctx p) db with
           | Err e => Err e
           | Ok false => Ok false
           | Ok true => allPermissions rest ctx db
           end
  end.

Definition ownershipCheck (resourceType : string)
    (ownerIDGetter : permissionContext -> res (option Z)) : permissionCheckFunc := fun ctx _ =>
  let? ownerID := ownerIDGetter ctx in
  match ownerID with
  | None => Err ("owner ID not found for resource type: " +:+ resourceType)
  | Some id => Ok (userID ctx =? id)
  end.

Definition adminOrOwnership (resourceType : string)
    (ownerIDGetter : permissionContext -> res (option Z)) : permissionCheckFunc := fun ctx db =>
  if isAdmin ctx then Ok true else ownershipCheck resourceType ownerIDGetter ctx db.

Definition teamAccessCheck (requireAdmin : bool) : permissionCheckFunc := fun ctx db =>
  match teamID ctx with
  | None => Err "team_id is required"
  | Some team =>
      let requiredScopes := if requireAdmin then [PermTeamManageAll]
                            else [PermTeamReadAll; PermTeamManageAll] in
      if negb (scopeAllowsAnyPermission ctx requiredScopes) then Ok false
      else if isAdmin ctx then Ok true
      else if requireAdmin then IsUserTeamAdmin (userID ctx) team db
      else match IsUserInTeam (userID ctx) team db with
           | Ok true => Ok true
           | _ => match IsTeamPublic team db with
                  | Ok true => Ok true
                  | _ => Ok false
                  end
           end
  end.

Definition projectAccessCheck (requireAdmin : bool) : permissionCheckFunc := fun ctx db =>
  match projectID ctx with
  | None => Err "project_id is required"
  | Some project =>
      let requiredScopes := if requireAdmin then [PermProjectManageAll]
                            else [PermProjectReadAll; PermProjectManageAll] in
      if negb (scopeAllowsAnyPermission ctx requiredScopes) then Ok false
      else if isAdmin ctx then Ok true
      else if requireAdmin then IsUserProjectAdmin (userID ctx) project db
      else IsUserInProject (userID ctx) project db
  end.

(** ** The middlewares *)

Context (db : C).

Definition RequirePermission (p : PermissionRule) : handler := withPermissionCheck db (singlePermission p).
Definition RequireAnyPermission (ps : list PermissionRule) : handler :=
  withPermissionCheck db (anyPermission ps).
Definition RequireAllPermissions (ps : list PermissionRule) : handler :=
  withPermissionCheck db (allPermissions ps).
Definition RequireOwnership (resourceType : string) (getter : permissionContext -> res (option Z)) : handler :=
  withPermissionCheck db (ownershipCheck resourceType getter).
Definition RequireAdminOrOwnership (resourceType : string) (getter : permissionContext -> res (option Z))
  : handler := withPermissionCheck db (adminOrOwnership resourceType getter).
Definition RequireSystemAdmin : handler := withPermissionCheck db (fun ctx _ => Ok (isAdmin ctx)).
Definition RequireTeamAccess (requireAdmin : bool) : handler :=
  withPermissionCheck db (teamAccessCheck requireAdmin).
Definition RequireProjectAccess (requireAdmin : bool) : handler :=
  withPermissionCheck db (projectAccessCheck requireAdmin).

Definition getUserIDFromURL (ctx : permissionContext) : res (option Z) := Ok (Some (userID ctx)).
Definition RequireUserOwnership : handler := RequireOwnership "user" getUserIDFromURL.
Definition RequireAdminOrUserOwnership : handler := RequireAdminOrOwnership "user" getUserIDFromURL.
Definition RequireTeamAdminAccess : handler := RequireTeamAccess true.
Definition RequireTeamMemberAccess : handler := RequireTeamAccess false.
Definition RequireProjectAdminAccess : handler := RequireProjectAccess true.
Definition RequireProjectMemberAccess : handler := RequireProjectAccess false.

Definition RequireSystemRead : handler :=
  RequireAnyPermission [PermSystemRead; PermSystemConfigure; PermSystemManage].
Definition RequireSystemConfigure : handler :=
  RequireAnyPermission [PermSystemConfigure; PermSystemManage].
Definition RequireAuditRead : handler :=
  RequireAnyPermission [PermAuditRead; PermAuditAudit].
Definition RequireAuditAudit : handler := RequirePermission PermAuditAudit.
Definition RequireConfigurationRead : handler :=
  RequireAnyPermission [PermConfigurationRead; PermConfigurationUpdate; PermConfigurationConfigure].
Definition RequireConfigurationUpdate : handler :=
  RequireAnyPermission [PermConfigurationUpdate; PermConfigurationConfigure].
Definition RequireConfigurationConfigure : handler := RequirePermission PermConfigurationConfigure.
Definition RequireUserRead : handler :=
  RequireAnyPermission [PermUserReadAll].
Definition RequireUserCreate : handler :=
  RequireAnyPermission [PermUserCreateAll].
Definition RequireUserUpdate : handler :=
  RequireAnyPermission [PermUserUpdateAll].
Definition RequireUserDelete : handler :=
  RequireAnyPermission [PermUserDeleteAll].
Definition RequireUserAssign : handler :=
  RequireAnyPermission [PermUserAssignAll].
Definition RequireRoleRead : handler :=
  RequireAnyPermission [PermRoleReadAll].
Definition RequireRoleCreate : handler :=
  RequireAnyPermission [PermRoleCreateAll].
Definition RequireRoleUpdate : handler :=
  RequireAnyPermission [PermRoleUpdateAll].
Definition RequireRoleDelete : handler :=
  RequireAnyPermission [PermRoleDeleteAll].
Definition RequireRoleGrant : handler :=
  RequireAnyPermission [PermRoleGrantAll].
Definition RequireRoleRevoke : handler :=
  RequireAnyPermission [PermRoleRevokeAll].
Definition RequirePermissionRead : handler :=
  RequireAnyPermission [PermPermissionReadAll; PermPermissionManageAll].
Definition RequireTeamRead : handler :=
  RequireAnyPermission [PermTeamReadAll; PermTeamManageAll].
Definition RequireTeamCreate : handler :=
  RequireAnyPermission [PermTeamCreateAll; PermTeamManageAll].
Definition RequireTeamUpdate : handler :=
  RequireAnyPermission [PermTeamUpdateAll; PermTeamManageAll].
Definition RequireTeamDelete : handler :=
  RequireAnyPermission [PermTeamDeleteAll; PermTeamManageAll].
Definition RequireTeamManage : handler := RequirePermission PermTeamManageAll.
Definition RequireProjectRead : handler :=
  RequireAnyPermission [PermProjectReadAll; PermProjectReadOwn].
Definition RequireProjectCreate : handler :=
  RequireAnyPermission [PermProjectCreateOwn; PermProjectCreateTeam].
Definition RequireProjectUpdate : handler :=
  RequireAnyPermission [PermProjectUpdateAll; PermProjectUpdateOwn].
Definition RequireProjectDelete : handler :=
  RequireAnyPermission [PermProjectDeleteAll; PermProjectDeleteOwn].
Definition RequireProjectManage : handler :=
  RequireAnyPermission [PermProjectManageAll; PermProjectManageOwn].
Definition RequireProjectInjectionExecute : handler := RequirePermission PermInjectionExecuteProject.
Definition RequireProjectExecutionExecute : handler := RequirePermission PermExecutionExecuteProject.
Definition RequireContainerRead : handler :=
  RequireAnyPermission [PermContainerReadAll; PermContainerReadTeam; PermContainerManageAll].
Definition RequireContainerCreate : handler :=
  RequireAnyPermission [PermContainerCreateAll; PermContainerCreateTeam; PermContainerCreateOwn; PermContainerManageAll].
Definition RequireContainerUpdate : handler :=
  RequireAnyPermission [PermContainerUpdateAll; PermContainerUpdateTeam; PermContainerManageAll; PermContainerExecuteAll; PermContainerExecuteTeam].
Definition RequireContainerDelete : handler :=
  RequireAnyPermission [PermContainerDeleteAll; PermContainerManageAll].
Definition RequireContainerManage : handler := RequirePermission PermContainerManageAll.
Definition RequireContainerExecute : handler :=
  RequireAnyPermission [PermContainerExecuteAll; PermContainerExecuteTeam; PermContainerManageAll].
Definition RequireContainerVersionRead : handler :=
  RequireAnyPermission [PermContainerVersionReadAll; PermContainerVersionReadTeam; PermContainerVersionManageAll].
Definition RequireContainerVersionCreate : handler :=
  RequireAnyPermission [PermContainerVersionCreateAll; PermContainerVersionCreateTeam; PermContainerVersionManageAll].
Definition RequireContainerVersionUpdate : handler :=
  RequireAnyPermission [PermContainerVersionUpdateAll; PermContainerVersionUpdateTeam; PermContainerVersionManageAll].
Definition RequireContainerVersionDelete : handler :=
  RequireAnyPermission [PermContainerVersionDeleteAll; PermContainerVersionManageAll].
Definition RequireContainerVersionManage : handler := RequirePermission PermContainerVersionManageAll.
Definition RequireContainerVersionUpload : handler :=
  RequireAnyPermission [PermContainerVersionUploadAll; PermContainerVersionUploadTeam; PermContainerVersionManageAll].
Definition RequireDatasetRead : handler :=
  RequireAnyPermission [PermDatasetReadAll; PermDatasetReadTeam; PermDatasetManageAll].
Definition RequireDatasetCreate : handler :=
  RequireAnyPermission [PermDatasetCreateAll; PermDatasetCreateTeam; PermDatasetCreateOwn; PermDatasetManageAll].
Definition RequireDatasetUpdate : handler :=
  RequireAnyPermission [PermDatasetUpdateAll; PermDatasetUpdateTeam; PermDatasetManageAll].
Definition RequireDatasetDelete : handler :=
  RequireAnyPermission [PermDatasetDeleteAll; PermDatasetManageAll].
Definition RequireDatasetManage : handler := RequirePermission PermDatasetManageAll.
Definition RequireDatasetVersionRead : handler :=
  RequireAnyPermission [PermDatasetVersionReadAll; PermDatasetVersionReadTeam; PermDatasetVersionManageAll].
Definition RequireDatasetVersionCreate : handler :=
  RequireAnyPermission [PermDatasetVersionCreateAll; PermDatasetVersionCreateTeam; PermDatasetVersionManageAll].
Definition RequireDatasetVersionUpdate : handler :=
  RequireAnyPermission [PermDatasetVersionUpdateAll; PermDatasetVersionUpdateTeam; PermDatasetVersionManageAll].
Definition RequireDatasetVersionDelete : handler :=
  RequireAnyPermission [PermDatasetVersionDeleteAll; PermDatasetVersionManageAll].
Definition RequireDatasetVersionManage : handler := RequirePermission PermDatasetVersionManageAll.
Definition RequireDatasetVersionDownload : handler :=
  RequireAnyPermission [PermDatasetVersionDownloadAll; PermDatasetVersionDownloadTeam; PermDatasetVersionManageAll].
Definition RequireLabelRead : handler :=
  RequireAnyPermission [PermLabelReadAll].
Definition RequireLabelCreate : handler :=
  RequireAnyPermission [PermLabelCreateAll; PermLabelCreateOwn].
Definition RequireLabelUpdate : handler :=
  RequireAnyPermission [PermLabelUpdateAll].
Definition RequireLabelDelete : handler :=
  RequireAnyPermission [PermLabelDeleteAll].
Definition RequireTaskRead : handler :=
  RequireAnyPermission [PermTaskReadAll].
Definition RequireTaskCreate : handler :=
  RequireAnyPermission [PermTaskCreateAll; PermTaskExecuteAll].
Definition RequireTaskUpdate : handler :=
  RequireAnyPermission [PermTaskUpdateAll; PermTaskExecuteAll].
Definition RequireTaskDelete : handler :=
  RequireAnyPermission [PermTaskDeleteAll; PermTaskExecuteAll].
Definition RequireTaskExecute : handler :=
  RequireAnyPermission [PermTaskExecuteAll].
Definition RequireTaskStop : handler :=
  RequireAnyPermission [PermTaskStopAll; PermTaskExecuteAll].
Definition RequireTraceRead : handler :=
  RequireAnyPermission [PermTraceReadAll; PermTraceMonitorAll].
Definition RequireTraceMonitor : handler :=
  RequireAnyPermission [PermTraceMonitorAll].
End Checks.

(** ** The database-backed checker ([deps.go]) *)

Record ResourceRow := mkResource { r_id : Z; r_name : string; r_status : Z }.
Record PermissionRow := mkPermission {
  pm_id : Z; pm_action : string; pm_scope : string; pm_resource : Z; pm_status : Z
}.
Record UserPermission := mkUserPermission {
  up_user : Z; up_permission : Z; up_grant : Z; up_expires : option Z;
  up_project : option Z; up_container : option Z; up_dataset : option Z
}.
(** A role of a user in a team, a project, a container or a dataset. *)
Record Membership := mkMembership { mb_user : Z; mb_scope : Z; mb_role : Z; mb_status : Z }.

Record perm_tables := mkTables {
  t_resources : list ResourceRow;
  t_permissions : list PermissionRow;
  t_user_permissions : list UserPermission;
  t_role_permissions : list (Z * Z);      (* role, permission *)
  t_user_roles : list (Z * Z);            (* user, role *)
  t_user_teams : list Membership;
  t_user_projects : list Membership;
  t_user_containers : list Membership;
  t_user_datasets : list Membership;
  t_roles : list (Z * string);
  t_teams : list (Z * bool)               (* id, is_public *)
}.

(** A connection: the tables, and the queries, which may fail. *)
Class PermissionDB (D : Type) := {
  tables : D -> perm_tables;
  query : forall {A}, (perm_tables -> A) -> D -> res A
}.
Class PermissionDBLaws (D : Type) `{PermissionDB D} := {
  query_ok : forall A (q : perm_tables -> A) d a, query q d = Ok a -> a = q (tables d)
}.

Definition deleted : Z := StatusType_code CommonDeleted.
Definition enabled : Z := StatusType_code CommonEnabled.

Definition Validate (p : CheckPermissionParams) : res unit :=
  require (0 <? p_UserID p) "user_id must be positive" ;;?
  require (negb (String.eqb (p_Action p) "")) "action cannot be empty" ;;?
  require (negb (String.eqb (p_ResourceName p) "")) "resource_name cannot be empty".

(** [First] on the permissions joined with the resources, in primary key order. *)
Definition q_permission (action scope resourceName : string) (t : perm_tables) : option PermissionRow :=
  List.find (fun pm =>
    String.eqb (pm_action pm) action && String.eqb (pm_scope pm) scope
    && existsb (fun r => (r_id r =? pm_resource pm) && String.eqb (r_name r) resourceName) (t_resources t)
    && negb (pm_status pm =? deleted)) (t_permissions t).

(** [col IS NULL OR col = ?], or [col IS NULL] without a value. *)
Definition null_or (col value : option Z) : bool :=
  match col, value with
  | None, _ => true
  | Some c, Some v => c =? v
  | Some _, None => false
  end.

Definition grant_code : Z := GrantType_code GrantTypeGrant.

Definition q_direct (now userID permissionID : Z) (projectID containerID datasetID : option Z)
    (t : perm_tables) : bool :=
  existsb (fun up =>
    (up_user up =? userID) && (up_permission up =? permissionID) && (up_grant up =? grant_code)
    && match up_expires up with None => true | Some e => now <? e end
    && null_or (up_project up) projectID && null_or (up_container up) containerID
    && null_or (up_dataset up) datasetID) (t_user_permissions t).

Definition role_grants (t : perm_tables) (permissionID role : Z) : bool :=
  existsb (fun rp => (fst rp =? role) && (snd rp =? permissionID)) (t_role_permissions t).

Definition q_global (userID permissionID : Z) (t : perm_tables) : bool :=
  existsb (fun ur => (fst ur =? userID) && role_grants t permissionID (snd ur)) (t_user_roles t).

(** The four role queries differ in the membership table only; without an
    identifier in the URL the query is not part of the union. *)
Definition q_member (members : list Membership) (userID permissionID : Z) (scope : option Z)
    (t : perm_tables) : bool :=
  match scope with
  | None => false
  | Some id =>
      existsb (fun m => (mb_user m =? userID) && (mb_scope m =? id) && (mb_status m =? enabled)
                        && role_grants t permissionID (mb_role m)) members
  end.

(** [count > 0] on the union. *)
Definition q_has_permission (now : Z) (p : CheckPermissionParams) (permissionID : Z) (t : perm_tables)
  : bool :=
  q_direct now (p_UserID p) permissionID (p_ProjectID p) (p_ContainerID p) (p_DatasetID p) t
  || q_global (p_UserID p) permissionID t
  || q_member (t_user_teams t) (p_UserID p) permissionID (p_TeamID p) t
  || q_member (t_user_projects t) (p_UserID p) permissionID (p_ProjectID p) t
  || q_member (t_user_containers t) (p_UserID p) permissionID (p_ContainerID p) t
  || q_member (t_user_datasets t) (p_UserID p) permissionID (p_DatasetID p) t.

Definition q_membership (members : list Membership) (userID scope : Z) : option Membership :=
  List.find (fun m => (mb_user m =? userID) && (mb_scope m =? scope) && (mb_status m =? enabled)) members.

(** The preloaded role of a membership. *)
Definition role_name (t : perm_tables) (role : Z) : option string :=
  snd <$> List.find (fun r => fst r =? role) (t_roles t).

Section Checker.
Context {D : Type} `{PermissionDB D} (now : Z).

Definition db_CheckUserPermission (p : CheckPermissionParams) (d : D) : res bool :=
  res_wrap "invalid request: " (Validate p) ;;?
  let? permission := res_wrap "failed to find target permission: "
    (query (q_permission (p_Action p) (p_Scope p) (p_ResourceName p)) d) in
  match permission with
  | None => Ok false
  | Some pm => res_wrap "failed to check user permission: " (query (q_has_permission now p (pm_id pm)) d)
  end.

Definition db_IsUserInTeam (userID teamID : Z) (d : D) : res bool :=
  let? ut := query (fun t => q_membership (t_user_teams t) userID teamID) d in
  Ok (match ut with Some _ => true | None => false end).

Definition db_IsUserTeamAdmin (userID teamID : Z) (d : D) : res bool :=
  let? ut := query (fun t => (fun m => role_name t (mb_role m)) <$>
                             q_membership (t_user_teams t) userID teamID) d in
  Ok (match ut with Some (Some name) => String.eqb name RoleTeamAdmin | _ => false end).

Definition db_IsTeamPublic (teamID : Z) (d : D) : res bool :=
  let? team := query (fun t => List.find (fun r => fst r =? teamID) (t_teams t)) d in
  Ok (match team with Some (_, public) => public | None => false end).

Definition db_IsUserInProject (userID projectID : Z) (d : D) : res bool :=
  let? up := query (fun t => q_membership (t_user_projects t) userID projectID) d in
  Ok (match up with Some _ => true | None => false end).

Definition db_IsUserProjectAdmin (userID projectID : Z) (d : D) : res bool :=
  let? up := query (fun t => (fun m => role_name t (mb_role m)) <$>
                             q_membership (t_user_projects t) userID projectID) d in
  Ok (match up with Some (Some name) => String.eqb name RoleProjectAdmin | _ => false end).

#[global] Instance db_checker : PermissionChecker D := {
  CheckUserPermission := db_CheckUserPermission;
  IsUserTeamAdmin := db_IsUserTeamAdmin;
  IsUserInTeam := db_IsUserInTeam;
  IsTeamPublic := db_IsTeamPublic;
  IsUserProjectAdmin := db_IsUserProjectAdmin;
  IsUserInProject := db_IsUserInProject
}.
End Checker.

(** ** Facts *)

Section MiddlewareFacts.
Context {C : Type} `{PermissionChecker C}.

Lemma RequireAuth_user c :
  IsServiceToken c = false ->
  fst (RequireAuth c) = true <->
  exists id, GetCurrentUserID c = Some id /\ 0 < id /\ IsCurrentUserActive c = true.
Proof.
  intros Hs. unfold RequireAuth. rewrite Hs.
  destruct (GetCurrentUserID c) as [id|]; simpl; [|split; [done|by intros (? & ? & _)]].
  destruct (Z.leb_spec id 0); simpl.
  - split; [done|]. intros (i & [= <-] & ? & _). lia.
  - destruct (IsCurrentUserActive c); simpl; split; try done.
    + intros _. exists id. split_and!; [done|lia|done].
    + by intros (? & _ & _ & ?).
Qed.

Lemma withPermissionCheck_next (db : C) check c :
  withPermissionCheck db check c = Next <->
  IsServiceToken c = true \/
  exists id, GetCurrentUserID c = Some id /\ 0 < id /\ IsCurrentUserActive c = true /\
    check (context_of c id) db = Ok true.
Proof.
  unfold withPermissionCheck, extractPermissionContext.
  destruct (IsServiceToken c) eqn:Hs.
  { split; [by left|]. intros _. destruct (RequireAuth c) as [[] resp]; done. }
  pose proof (RequireAuth_user c Hs) as Ha. destruct (RequireAuth c) as [ok resp]. simpl in Ha.
  destruct ok; simpl.
  - destruct Ha as [Ha _]. destruct (Ha eq_refl) as (id & Hid & Hpos & Hact). rewrite Hid. split.
    + destruct (check (context_of c id) db) as [[]|e] eqn:Ec; try done. intros _. right. eauto 6.
    + intros [?|(i & [= <-] & _ & _ & ->)]; done.
  - split; [done|]. intros [?|(i & Hi & Hp & Hc & _)]; [done|].
    destruct Ha as [_ Ha]. discriminate Ha. eauto.
Qed.

(** A request passes a permission middleware exactly when it carries a service
    token, or the identifier of an active user whose check answers yes without an
    error: every other request is aborted. *)
Theorem withPermissionCheck_passes (db : C) check c :
  withPermissionCheck db check c = Next <->
  IsServiceToken c = true \/
  exists id, GetCurrentUserID c = Some id /\ 0 < id /\ IsCurrentUserActive c = true /\
    check (context_of c id) db = Ok true.
Proof. apply withPermissionCheck_next. Qed.

Lemma anyPermission_true ps ctx (db : C) :
  anyPermission ps ctx db = Ok true <->
  exists p, p ∈ ps /\ scopeAllowsPermission ctx p = true /\
    CheckUserPermission (params_of ctx p) db = Ok true.
Proof.
  induction ps as [|p ps IH]; simpl.
  { split; [done|]. intros (p & Hp & _). by apply not_elem_of_nil in Hp. }
  assert (Hskip : (scopeAllowsPermission ctx p = false \/ CheckUserPermission (params_of ctx p) db <> Ok true) ->
    anyPermission ps ctx db = Ok true <-> exists p', p' ∈ p :: ps /\ scopeAllowsPermission ctx p' = true /\
      CheckUserPermission (params_of ctx p') db = Ok true).
  { intros Hno. rewrite IH. split; intros (p' & Hp & Ha & Hc); exists p'.
    - split; [by apply list_elem_of_further|done].
    - apply elem_of_cons in Hp as [->|Hp]; [|done]. destruct Hno; congruence. }
  destruct (scopeAllowsPermission ctx p) eqn:Es; simpl; [|apply Hskip; by left].
  destruct (CheckUserPermission (params_of ctx p) db) as [[]|e] eqn:Ec; [|apply Hskip; by right..].
  split; [|done]. intros _. exists p. split; [apply list_elem_of_here|done].
Qed.

Lemma allPermissions_true ps ctx (db : C) :
  allPermissions ps ctx db = Ok true <->
  forall p, p ∈ ps -> scopeAllowsPermission ctx p = true /\
    CheckUserPermission (params_of ctx p) db = Ok true.
Proof.
  induction ps as [|p ps IH]; simpl.
  { split; [|done]. intros _ p Hp. by apply not_elem_of_nil in Hp. }
  destruct (scopeAllowsPermission ctx p) eqn:Es; simpl.
  2:{ split; [done|]. intros Hall. destruct (Hall p (list_elem_of_here _ _)). congruence. }
  destruct (CheckUserPermission (params_of ctx p) db) as [[]|e] eqn:Ec.
  - rewrite IH. split.
    + intros Hall p' Hp. apply elem_of_cons in Hp as [->|Hp]; [done|by apply Hall].
    + intros Hall p' Hp. by apply Hall, list_elem_of_further.
  - split; [done|]. intros Hall. destruct (Hall p (list_elem_of_here _ _)). congruence.
  - split; [done|]. intros Hall. destruct (Hall p (list_elem_of_here _ _)). congruence.
Qed.

(** The two combinators are the quantifiers they are named after: one asks for
    some rule of the list that the scopes of the key allow and the checker grants
    (errors of the checker count as refusals), the other for all of them. *)
Theorem permission_combinators ps ctx (db : C) :
  (anyPermission ps ctx db = Ok true <->
   exists p, p ∈ ps /\ scopeAllowsPermission ctx p = true /\
     CheckUserPermission (params_of ctx p) db = Ok true) /\
  (allPermissions ps ctx db = Ok true <->
   forall p, p ∈ ps -> scopeAllowsPermission ctx p = true /\
     CheckUserPermission (params_of ctx p) db = Ok true).
Proof. split; [apply anyPermission_true | apply allPermissions_true]. Qed.

(** A service token without a task, which [RequireAuth] refuses and every
    middleware built on it alone aborts, passes all the permission middlewares. *)
Theorem service_token_without_task_passes (db : C) check c :
  IsServiceToken c = true -> GetServiceTaskID c = None \/ GetServiceTaskID c = Some "" ->
  fst (RequireAuth c) = false /\ RequireActiveUser c <> Next /\ RequireServiceTokenAuth c <> Next /\
  withPermissionCheck db check c = Next.
Proof.
  intros Hs Ht. unfold RequireActiveUser, RequireServiceTokenAuth, withPermissionCheck,
    extractPermissionContext, RequireAuth. rewrite Hs.
  by destruct Ht as [-> | ->].
Qed.
End MiddlewareFacts.

Lemma parts_match_spec ss ts :
  (length ss <= length ts)%nat ->
  parts_match ss ts = true <->
  forall i s t, ss !! i = Some s -> ts !! i = Some t -> trim_space s = "*" \/ trim_space s = t.
Proof.
  revert ss. induction ts as [|t ts IH]; intros ss Hlen.
  { destruct ss; [|simpl in Hlen; lia]. split; [|done]. intros _ i s t Hs. by rewrite lookup_nil in Hs. }
  destruct ss as [|s ss]; simpl.
  { rewrite IH by (simpl; lia). split; intros _ i s' t' Hs; by rewrite lookup_nil in Hs. }
  simpl in Hlen. rewrite andb_true_iff, orb_true_iff, !String.eqb_eq, IH by lia. split.
  - intros [Hh Ht] [|i] s' t' Hs Ht'; simpl in *; [by simplify_eq|by eapply Ht].
  - intros Hall. split; [by apply (Hall 0%nat s t)|]. intros i s' t' Hs Ht. by apply (Hall (S i)).
Qed.

(** An API key scope covers a target exactly when it is [*], or has no more
    segments than the target and each of them is [*] or the segment of the target
    at its place: a short scope covers everything below it, a longer one or an
    empty one nothing. *)
Theorem apiKeyScopeMatchesTarget_spec scope target :
  apiKeyScopeMatchesTarget scope target = true <->
  trim_space scope <> "" /\ trim_space target <> "" /\
  (trim_space scope = "*" \/
   let ss := split ":" (trim_space scope) in
   let ts := split ":" (trim_space target) in
   (length ss <= length ts)%nat /\
   forall i s t, ss !! i = Some s -> ts !! i = Some t -> trim_space s = "*" \/ trim_space s = t).
Proof.
  unfold apiKeyScopeMatchesTarget.
  destruct (String.eqb_spec (trim_space scope) ""); simpl; [split; [done|by intros [? _]]|].
  destruct (String.eqb_spec (trim_space target) ""); simpl; [split; [done|by intros (_ & ? & _)]|].
  destruct (String.eqb_spec (trim_space scope) "*"); [split; [intros _; split_and!; try done; by left|done]|].
  destruct (Nat.ltb_spec (length (split ":" (trim_space target))) (length (split ":" (trim_space scope)))).
  - split; [done|]. intros (_ & _ & [?|[? _]]); [done|lia].
  - rewrite parts_match_spec by done. tauto.
Qed.

Section KeyFacts.
Context {C : Type} `{PermissionChecker C}.

(** The same user with a session instead of an API key. *)
Definition as_session (ctx : permissionContext) : permissionContext :=
  {| userID := userID ctx; isAdmin := isAdmin ctx; roles := roles ctx; authType := "user";
     apiKeyScopes := apiKeyScopes ctx; teamID := teamID ctx; projectID := projectID ctx;
     containerID := containerID ctx; datasetID := datasetID ctx |}.

(** A scope covers a rule: it is [*], or each of its segments is [*] or the one of the rule. *)
Definition covers (scope : string) (p : PermissionRule) : Prop :=
  trim_space scope <> "" /\ trim_space (PermissionRule_String p) <> "" /\
  (trim_space scope = "*" \/
   let ss := split ":" (trim_space scope) in
   let ts := split ":" (trim_space (PermissionRule_String p)) in
   (length ss <= length ts)%nat /\
   forall i s t, ss !! i = Some s -> ts !! i = Some t -> trim_space s = "*" \/ trim_space s = t).
(** A scope of the key covers one of the rules. *)
Definition in_scope (ctx : permissionContext) (ps : list PermissionRule) : Prop :=
  exists scope p, scope ∈ apiKeyScopes ctx /\ p ∈ ps /\ covers scope p.

Lemma key_allows ctx p : authType ctx = "api_key" -> scopeAllowsPermission ctx p = true <-> in_scope ctx [p].
Proof.
  intros Hk. unfold scopeAllowsPermission, in_scope. assert (isAPIKeyAuth ctx = true) as -> by (unfold isAPIKeyAuth; by rewrite Hk).
  cbn [negb]. destruct (Nat.eqb_spec (length (apiKeyScopes ctx)) 0) as [E%nil_length_inv|_].
  - rewrite E. split; [done|]. by intros (scope & p' & ?%not_elem_of_nil & _).
  - rewrite existsb_elem. split.
    + intros (scope & Hin & Hc%apiKeyScopeMatchesTarget_spec). exists scope, p. split; [done|]. split; [by left|done].
    + intros (scope & p' & Hin & ->%list_elem_of_singleton & Hc). exists scope. split; [done|]. by apply apiKeyScopeMatchesTarget_spec.
Qed.
Lemma key_allows_any ctx ps : authType ctx = "api_key" -> scopeAllowsAnyPermission ctx ps = true <-> in_scope ctx ps.
Proof.
  intros Hk. unfold scopeAllowsAnyPermission. rewrite existsb_elem. split.
  - intros (p & Hp & (scope & p' & Hin & ->%list_elem_of_singleton & Hc)%key_allows); [|done]. by exists scope, p.
  - intros (scope & p & Hin & Hp & Hc). exists p. split; [done|]. apply key_allows; [done|]. exists scope, p. split; [done|]. split; [by left|done].
Qed.

(** C35. What an API key may do is what its user may and its scopes cover.  The checks of
    permissions pass with a key exactly when they pass with a session of the user and a scope
    of the key covers the permission - one that the session passes with, or each of them -;
    those of the access to a team or a project when they pass with a session and a scope
    covers one of the two permissions that stand for it, or for administrators the second.
    The checks of the administrator and of ownership do not look at scopes: a key passes them
    as its user does. *)
Theorem api_key_restricts ctx (db : C) :
  authType ctx = "api_key" ->
  let session := as_session ctx in
  (forall p, singlePermission p ctx db = Ok true <-> in_scope ctx [p] /\ singlePermission p session db = Ok true) /\
  (forall ps, anyPermission ps ctx db = Ok true <->
     exists p, p ∈ ps /\ in_scope ctx [p] /\ singlePermission p session db = Ok true) /\
  (forall ps, allPermissions ps ctx db = Ok true <->
     forall p, p ∈ ps -> in_scope ctx [p] /\ singlePermission p session db = Ok true) /\
  (forall admin, teamAccessCheck admin ctx db = Ok true <->
     in_scope ctx (if admin then [PermTeamManageAll] else [PermTeamReadAll; PermTeamManageAll]) /\ teamAccessCheck admin session db = Ok true) /\
  (forall admin, projectAccessCheck admin ctx db = Ok true <->
     in_scope ctx (if admin then [PermProjectManageAll] else [PermProjectReadAll; PermProjectManageAll]) /\
     projectAccessCheck admin session db = Ok true) /\
  (forall what getter, (forall c, getter (as_session c) = getter c) ->
     adminOrOwnership what getter ctx db = adminOrOwnership what getter session db /\
     ownershipCheck what getter ctx db = ownershipCheck what getter session db).
Proof.
  intros Hk session.
  assert (Hs : forall p, singlePermission p session db = CheckUserPermission (params_of ctx p) db) by done.
  split_and!.
  - intros p. rewrite Hs. unfold singlePermission. rewrite <- (key_allows ctx p Hk). by destruct (scopeAllowsPermission ctx p); cbn; intuition.
  - intros ps. rewrite anyPermission_true. by setoid_rewrite (key_allows ctx _ Hk).
  - intros ps. rewrite allPermissions_true. by setoid_rewrite (key_allows ctx _ Hk).
  - intros admin. unfold teamAccessCheck. cbn [teamID as_session session]. destruct (teamID ctx); [|split; [done|by intros [_ ?]]].
    rewrite <- (key_allows_any ctx _ Hk). destruct (scopeAllowsAnyPermission ctx _); cbn [negb]; [|split; [done|by intros [? _]]].
    by destruct admin; cbn; intuition.
  - intros admin. unfold projectAccessCheck. cbn [projectID as_session session]. destruct (projectID ctx); [|split; [done|by intros [_ ?]]].
    rewrite <- (key_allows_any ctx _ Hk). destruct (scopeAllowsAnyPermission ctx _); cbn [negb]; [|split; [done|by intros [? _]]].
    by destruct admin; cbn; intuition.
  - intros what getter Hg. unfold adminOrOwnership, ownershipCheck, session. by rewrite Hg.
Qed.
End KeyFacts.

(** A scope that names a rule covers that rule and no other of the predefined
    ones, and [resource] or [resource:action] cover all the rules under them. *)
Theorem scope_of_rule r r' :
  r ∈ predefined_rules -> r' ∈ predefined_rules ->
  (apiKeyScopeMatchesPermission (PermissionRule_String r) r' = true <-> r' = r) /\
  (apiKeyScopeMatchesPermission (Resource r) r' = true <-> Resource r' = Resource r) /\
  (apiKeyScopeMatchesPermission (Resource r +:+ ":" +:+ Action r) r' = true <->
   Resource r' = Resource r /\ Action r' = Action r).
Proof.
  intros Hr Hr'.
  assert (Hall : forallb (fun r => forallb (fun r' =>
     Bool.eqb (apiKeyScopeMatchesPermission (PermissionRule_String r) r') (bool_decide (r' = r)) &&
     Bool.eqb (apiKeyScopeMatchesPermission (Resource r) r') (bool_decide (Resource r' = Resource r)) &&
     Bool.eqb (apiKeyScopeMatchesPermission (Resource r +:+ ":" +:+ Action r) r')
       (bool_decide (Resource r' = Resource r /\ Action r' = Action r)))
     predefined_rules) predefined_rules = true) by (vm_compute; reflexivity).
  rewrite forallb_elem in Hall. apply Hall in Hr. rewrite forallb_elem in Hr. apply Hr in Hr'.
  apply andb_true_iff in Hr' as [Hr' H3]. apply andb_true_iff in Hr' as [H1 H2].
  apply eqb_prop in H1, H2, H3. rewrite H1, H2, H3, !bool_decide_eq_true. done.
Qed.

Section CheckerFacts.
Context {D : Type} `{PermissionDBLaws D} (now : Z).

(** A right of the user at the permission, as the tables say it. *)
Definition granted (t : perm_tables) (p : CheckPermissionParams) (permission : Z) : Prop :=
  (exists up, up ∈ t_user_permissions t /\ up_user up = p_UserID p /\ up_permission up = permission /\
     up_grant up = grant_code /\ (forall e, up_expires up = Some e -> now < e) /\
     null_or (up_project up) (p_ProjectID p) = true /\
     null_or (up_container up) (p_ContainerID p) = true /\
     null_or (up_dataset up) (p_DatasetID p) = true) \/
  (exists role, (role, permission) ∈ t_role_permissions t /\
     ((p_UserID p, role) ∈ t_user_roles t \/
      exists members scope m, (members, scope) ∈ [(t_user_teams t, p_TeamID p);
          (t_user_projects t, p_ProjectID p); (t_user_containers t, p_ContainerID p);
          (t_user_datasets t, p_DatasetID p)] /\
        m ∈ members /\ mb_user m = p_UserID p /\ Some (mb_scope m) = scope /\
        mb_status m = enabled /\ mb_role m = role)).

Lemma role_grants_spec t permission role :
  role_grants t permission role = true <-> (role, permission) ∈ t_role_permissions t.
Proof.
  unfold role_grants. rewrite existsb_elem. split.
  - intros ([r p] & Hin & Hb). simpl in Hb. bool_to_prop. by subst.
  - intros Hin. exists (role, permission). simpl. by rewrite !Z.eqb_refl.
Qed.

Lemma q_member_spec members user permission scope t :
  q_member members user permission scope t = true <->
  exists m, m ∈ members /\ mb_user m = user /\ Some (mb_scope m) = scope /\ mb_status m = enabled /\
    (mb_role m, permission) ∈ t_role_permissions t.
Proof.
  unfold q_member. destruct scope as [id|].
  - rewrite existsb_elem. split; intros (m & Hin & Hm); exists m; (split; [done|]).
    + apply andb_true_iff in Hm as [Hm Hg]. apply role_grants_spec in Hg. bool_to_prop.
      split_and!; try done; congruence.
    + destruct Hm as (-> & [= ->] & -> & Hg). rewrite !Z.eqb_refl. simpl. by apply role_grants_spec.
  - split; [done|]. by intros (m & _ & _ & ? & _).
Qed.

Lemma q_has_permission_spec p permission t :
  q_has_permission now p permission t = true <-> granted t p permission.
Proof.
  unfold q_has_permission. rewrite !orb_true_iff, !q_member_spec. unfold q_direct, q_global.
  rewrite !existsb_elem. unfold granted. split.
  - intros [[[[[(up & Hin & Hu)|(ur & Hin & Hu)]|Hm]|Hm]|Hm]|Hm].
    + left. exists up. repeat (apply andb_true_iff in Hu as [Hu ?]). bool_to_prop.
      split_and!; try done. intros e He. rewrite He in *. by bool_to_prop.
    + right. destruct ur as [u role]. simpl in Hu. apply andb_true_iff in Hu as [Hu Hg].
      apply role_grants_spec in Hg. bool_to_prop. subst u. exists role. split; [done|]. by left.
    + right. destruct Hm as (m & Hin & ? & ? & ? & Hg). exists (mb_role m). split; [done|]. right.
      exists (t_user_teams t), (p_TeamID p), m. split_and!; try done. set_solver.
    + right. destruct Hm as (m & Hin & ? & ? & ? & Hg). exists (mb_role m). split; [done|]. right.
      exists (t_user_projects t), (p_ProjectID p), m. split_and!; try done. set_solver.
    + right. destruct Hm as (m & Hin & ? & ? & ? & Hg). exists (mb_role m). split; [done|]. right.
      exists (t_user_containers t), (p_ContainerID p), m. split_and!; try done. set_solver.
    + right. destruct Hm as (m & Hin & ? & ? & ? & Hg). exists (mb_role m). split; [done|]. right.
      exists (t_user_datasets t), (p_DatasetID p), m. split_and!; try done. set_solver.
  - intros [(up & Hin & Hu & Hp & Hg & He & H1 & H2 & H3)|(role & Hg & [Hr|(ms & scope & m & Hms & Hin & Hu & Hs & Hst & Hrole)])].
    + do 5 left. exists up. split; [done|]. rewrite Hu, Hp, Hg, H1, H2, H3, !Z.eqb_refl. simpl.
      destruct (up_expires up) as [e|]; [|done]. specialize (He e eq_refl). rewrite !andb_true_r. lia.
    + do 4 left. right. exists (p_UserID p, role). split; [done|]. simpl. rewrite Z.eqb_refl. simpl.
      by apply role_grants_spec.
    + subst role. repeat (apply elem_of_cons in Hms as [[= -> ->]|Hms]); [..|by apply not_elem_of_nil in Hms].
      * do 3 left. right. eauto 8.
      * do 2 left. right. eauto 8.
      * left. right. eauto 8.
      * right. eauto 8.
Qed.

(** C33. The database answers yes exactly when the rule names a permission that is
    not deleted and the user has it: by a direct grant that has not expired and is
    not bound to another project, container or dataset, or through a role held
    globally, or held with an enabled membership in the team, project, container
    or dataset of the request. *)
Theorem db_CheckUserPermission_spec p d b :
  db_CheckUserPermission now p d = Ok b ->
  b = true <-> exists pm,
    q_permission (p_Action p) (p_Scope p) (p_ResourceName p) (tables d) = Some pm /\
    granted (tables d) p (pm_id pm).
Proof.
  unfold db_CheckUserPermission. rewrite res_bind_ok. intros (u & _ & Hx).
  apply res_bind_ok in Hx as (pm & Hpm & Hx). unfold res_wrap in Hpm.
  destruct (query (q_permission _ _ _) d) as [opm|e] eqn:Eq; [|done]. injection Hpm as <-.
  apply query_ok in Eq. rewrite <- Eq. destruct opm as [pm|].
  - unfold res_wrap in Hx. destruct (query (q_has_permission now p (pm_id pm)) d) as [b'|e] eqn:Eh; [|done].
    injection Hx as <-. apply query_ok in Eh. rewrite Eh, q_has_permission_spec. split; [eauto|].
    by intros (pm' & [= <-] & ?).
  - injection Hx as <-. split; [done|]. by intros (? & ? & _).
Qed.

(** The tables with one more entry in the permissions of the users. *)
Definition add_user_permission (up : UserPermission) (t : perm_tables) : perm_tables :=
  mkTables (t_resources t) (t_permissions t) (up :: t_user_permissions t) (t_role_permissions t)
    (t_user_roles t) (t_user_teams t) (t_user_projects t) (t_user_containers t) (t_user_datasets t)
    (t_roles t) (t_teams t).

(** A deny entry denies nothing: adding one changes no answer, whatever the
    rights of the user. *)
Theorem deny_has_no_effect p permission up t :
  up_grant up = GrantType_code GrantTypeDeny ->
  q_has_permission now p permission (add_user_permission up t) = q_has_permission now p permission t.
Proof.
  intros Hd. unfold q_has_permission, q_direct. simpl. rewrite Hd. simpl.
  by rewrite !andb_false_r.
Qed.
End CheckerFacts.

(** The administrator role holds neither of the rules that creating a project asks
    for, and these checks do not look at the administrator flag. *)
Lemma RoleAdmin_lacks_project_create :
  Forall (fun p => p ∉ RoleAdmin_permissions) [PermProjectCreateOwn; PermProjectCreateTeam].
Proof. apply (bool_decide_unpack _). vm_compute. exact I. Qed.

(** ** The theorems at concrete requests *)
Module PermissionSample.
#[global] Instance memory_db : PermissionDB perm_tables := {
  tables := fun t => t; query := fun A q t => Ok (q t)
}.
#[global] Instance memory_db_laws : PermissionDBLaws perm_tables.
Proof. split. by intros A q d a [= <-]. Qed.

(** User 7 may read every project through role 3, and is denied it directly. *)
Definition deny : UserPermission := mkUserPermission 7 1 1 None None None None.
Definition t0 : perm_tables :=
  mkTables [mkResource 2 "project" 1] [mkPermission 1 "read" "all" 2 1] []
    [(3, 1)] [(7, 3)] [] [] [] [] [(3, "admin")] [].
Definition params : CheckPermissionParams := mkParams 7 "read" "all" "project" None None None None.

Lemma db_CheckUserPermission_spec_witness :
  exists pm, q_permission "read" "all" "project" t0 = Some pm /\ granted 100 t0 params (pm_id pm).
Proof.
  assert (E : db_CheckUserPermission 100 params t0 = Ok true) by (vm_compute; reflexivity).
  destruct (db_CheckUserPermission_spec 100 params t0 true E) as [Hy _]. exact (Hy eq_refl).
Defined.

(** User 7 with a key for reading projects, and one for teams. *)
Definition key_for (scope : string) : permissionContext :=
  {| userID := 7; isAdmin := false; roles := []; authType := "api_key"; apiKeyScopes := [scope];
     teamID := None; projectID := None; containerID := None; datasetID := None |}.
Lemma api_key_restricts_witness :
  @singlePermission perm_tables (db_checker 100) PermProjectReadAll (key_for "project:read") t0 = Ok true /\
  @singlePermission perm_tables (db_checker 100) PermProjectReadAll (key_for "team") t0 <> Ok true.
Proof.
  destruct (@api_key_restricts perm_tables (db_checker 100) (key_for "project:read") t0 eq_refl) as [Hp _].
  destruct (@api_key_restricts perm_tables (db_checker 100) (key_for "team") t0 eq_refl) as [Ht _]. split.
  - apply (proj2 (Hp PermProjectReadAll)). split; [|vm_compute; reflexivity].
    exists "project:read", PermProjectReadAll. split; [left|]. split; [left|].
    apply apiKeyScopeMatchesTarget_spec. vm_compute. reflexivity.
  - intros E. apply (proj1 (Ht PermProjectReadAll)) in E as [Hin _].
    apply (proj2 (key_allows (key_for "team") PermProjectReadAll eq_refl)) in Hin. vm_compute in Hin. discriminate Hin.
Defined.

Lemma deny_has_no_effect_witness :
  q_has_permission 100 params 1 (add_user_permission deny t0) = true.
Proof.
  rewrite (deny_has_no_effect 100 params 1 deny t0); reflexivity.
Defined.

Definition bare_service : gin_ctx := mkGin {["is_service_token" := GBool true]} ∅.

Lemma service_token_without_task_passes_witness :
  RequireActiveUser bare_service <> Next /\
  withPermissionCheck t0 (@singlePermission perm_tables (db_checker 100) PermSystemManage) bare_service = Next.
Proof.
  destruct (service_token_without_task_passes t0
    (@singlePermission perm_tables (db_checker 100) PermSystemManage) bare_service)
    as (_ & Ha & _ & Hn); [reflexivity | left; reflexivity |].
  split; assumption.
Defined.

Lemma scope_of_rule_witness :
  apiKeyScopeMatchesPermission "project" PermProjectReadOwn = true.
Proof.
  destruct (scope_of_rule PermProjectReadAll PermProjectReadOwn) as (_ & [_ Hs] & _).
  - apply (bool_decide_unpack _). vm_compute. exact I.
  - apply (bool_decide_unpack _). vm_compute. exact I.
  - exact (Hs eq_refl).
Defined.
End PermissionSample.
