(* ===== verification/Passwords.v ===== *)
(** * Passwords and API key secrets ([utils/password.go], [utils/access_key_crypto.go])

    Salted hashes, password rules and generation, request signatures and the
    encryption of key secrets.  The cryptographic primitives of Go's library
    (SHA-256, HMAC, AES-GCM) and its base64 text are the class [GoCrypto]; hex text
    is modelled here.  Bytes and strings are both [string]. *)

From S2P Require Import Prelude GoStrings.

(** ** [encoding/hex] *)

Definition hex_digit (n : Z) : ascii :=
  if n <? 10 then ascii_of_N (Z.to_N (n + code "0")) else ascii_of_N (Z.to_N (n - 10 + code "a")).

Definition hex_byte (c : ascii) : list ascii := [hex_digit (code c / 16); hex_digit (code c mod 16)].

Definition EncodeToString (b : string) : string := of_chars (concat (map hex_byte (chars b))).

Definition hex_value (c : ascii) : option Z :=
  if is_digit c then Some (code c - code "0")
  else if in_range "a" "f" c then Some (code c - code "a" + 10)
  else if in_range "A" "F" c then Some (code c - code "A" + 10)
  else None.

Fixpoint decode_hex (l : list ascii) : option (list ascii) :=
  match l with
  | [] => Some []
  | [_] => None
  | h :: l :: rest =>
      match hex_value h, hex_value l, decode_hex rest with
      | Some x, Some y, Some bytes => Some (ascii_of_N (Z.to_N (16 * x + y)) :: bytes)
      | _, _, _ => None
      end
  end.

Definition DecodeString (s : string) : option string := of_chars <$> decode_hex (chars s).

(** Every byte by cases, for facts decided by computation. *)
Lemma byte_cases (P : ascii -> bool) :
  forallb P (map (fun n => ascii_of_nat n) (seq 0 256)) = true -> forall c, P c = true.
Proof.
  intros Hall c. rewrite forallb_forall in Hall. apply Hall.
  apply in_map_iff. exists (nat_of_ascii c). split; [apply ascii_nat_embedding|].
  apply in_seq. pose proof (nat_ascii_bounded c). lia.
Qed.

Definition hex_ok (c : ascii) : bool :=
  match hex_byte c with
  | [h; l] =>
      match hex_value h, hex_value l with
      | Some x, Some y => Ascii.eqb (ascii_of_N (Z.to_N (16 * x + y))) c && is_hex h && is_hex l
      | _, _ => false
      end
  | _ => false
  end.

Lemma hex_byte_ok c : hex_ok c = true.
Proof. apply byte_cases. vm_compute. reflexivity. Qed.

Lemma decode_encode_hex l : decode_hex (concat (map hex_byte l)) = Some l.
Proof.
  induction l as [|c l IH]; [done|].
  pose proof (hex_byte_ok c) as Hc. unfold hex_ok, hex_byte in Hc.
  cbn [map concat hex_byte app decode_hex].
  destruct (hex_value (hex_digit (code c / 16))) as [x|]; [|done].
  destruct (hex_value (hex_digit (code c mod 16))) as [y|]; [|done].
  rewrite IH. bool_to_prop. repeat f_equal. by apply Ascii.eqb_eq.
Qed.

Lemma DecodeString_EncodeToString b : DecodeString (EncodeToString b) = Some b.
Proof.
  unfold DecodeString, EncodeToString. rewrite chars_of_chars, decode_encode_hex. simpl.
  by rewrite of_chars_chars.
Qed.

Lemma EncodeToString_inj a b : EncodeToString a = EncodeToString b -> a = b.
Proof.
  intros E. apply (f_equal DecodeString) in E. rewrite !DecodeString_EncodeToString in E. by simplify_eq.
Qed.

Lemma EncodeToString_free sep b : is_hex sep = false -> free_of sep (EncodeToString b).
Proof.
  unfold free_of, EncodeToString. rewrite chars_of_chars. intros Hs.
  induction (chars b) as [|c l IH]; [apply not_elem_of_nil|].
  pose proof (hex_byte_ok c) as Hc. unfold hex_ok, hex_byte in Hc.
  cbn [map concat hex_byte app].
  repeat case_match; try done. bool_to_prop.
  rewrite !not_elem_of_cons. repeat split; [congruence|congruence|done].
Qed.

#[export] Hint Resolve DecodeString_EncodeToString EncodeToString_free : aegis.

(** ** The cryptographic primitives *)

Class GoCrypto := {
  sha256 : string -> string;                      (* sha256.Sum256 *)
  hmac_sha256 : string -> string -> string;       (* key, message *)
  gcm_seal : string -> string -> string -> string;          (* key, nonce, plaintext *)
  gcm_open : string -> string -> string -> res string;      (* key, nonce, ciphertext *)
  base64 : string -> string;
  base64_decode : string -> res string
}.
Class GoCryptoLaws `{GoCrypto} := {
  sha256_length : forall s, str_len (sha256 s) = 32;
  gcm_open_seal : forall k n p, gcm_open k n (gcm_seal k n p) = Ok p;
  base64_roundtrip : forall s, base64_decode (base64 s) = Ok s
}.

(** ** Hashes *)

Definition SaltLength : Z := 32.
Definition MinPasswordLength : Z := 8.
Definition MaxPasswordLength : Z := 128.

Definition at_least (what : string) : string := what +:+ itoa MinPasswordLength +:+ " characters long".
Definition at_most (what : string) : string := what +:+ itoa MaxPasswordLength +:+ " characters long".

Section Hashes.
Context `{GoCrypto}.

(** [salt] is what [rand.Read] puts into a buffer of [SaltLength] bytes. *)
Definition HashPassword (salt : res string) (password : string) : res string :=
  if str_len password <? MinPasswordLength then Err (at_least "password must be at least ")
  else if MaxPasswordLength <? str_len password then Err (at_most "password must be no more than ")
  else
    let? salt := res_wrap "failed to generate salt: " salt in
    let hashedPassword := sha256 (salt +:+ password) in
    Ok (EncodeToString salt +:+ ":" +:+ EncodeToString hashedPassword).

(** The loop of [constantTimeCompare] over two strings of the same length. *)
Fixpoint compare_bytes (result : Z) (a b : list ascii) : Z :=
  match a, b with
  | x :: a', y :: b' => compare_bytes (Z.lor result (Z.lxor (code x) (code y))) a' b'
  | _, _ => result
  end.

Definition constantTimeCompare (a b : string) : bool :=
  if negb (str_len a =? str_len b) then false
  else compare_bytes 0 (chars a) (chars b) =? 0.

Definition VerifyPassword (password hashedPassword : string) : bool :=
  match split ":" hashedPassword with
  | [saltHex; expectedHashHex] =>
      match DecodeString saltHex with
      | None => false
      | Some salt =>
          let actualHash := sha256 (salt +:+ password) in
          constantTimeCompare expectedHashHex (EncodeToString actualHash)
      end
  | _ => false
  end.

(** ** Request signatures and key secrets *)

Definition JWTSecret : string := "your-secret-key-change-this-in-production".

Definition SignAPIKeyRequest (secret payload : string) : string :=
  EncodeToString (hmac_sha256 secret payload).

(** [hmac.Equal] compares byte strings in constant time. *)
Definition VerifyAPIKeyRequestSignature (secret payload signature : string) : bool :=
  String.eqb (SignAPIKeyRequest secret payload) signature.

Definition SHA256Hex (payload : string) : string := EncodeToString (sha256 payload).

Definition apiKeyCryptoKey : string := sha256 JWTSecret.

(** [aes.NewCipher]. *)
Definition NewCipher (key : string) : res string :=
  if (str_len key =? 16) || (str_len key =? 24) || (str_len key =? 32) then Ok key
  else Err ("crypto/aes: invalid key size " +:+ itoa (str_len key)).

Definition NonceSize : nat := 12.

(** [nonce] is what [rand.Read] puts into a buffer of [NonceSize] bytes. *)
Definition EncryptAPIKeySecret (nonce : res string) (secret : string) : res string :=
  let? key := res_wrap "failed to initialize cipher: " (NewCipher apiKeyCryptoKey) in
  let? nonce := res_wrap "failed to generate nonce: " nonce in
  Ok (base64 (nonce +:+ gcm_seal key nonce secret)).

Definition DecryptAPIKeySecret (ciphertext : string) : res string :=
  let? raw := res_wrap "failed to decode ciphertext: " (base64_decode ciphertext) in
  let? key := res_wrap "failed to initialize cipher: " (NewCipher apiKeyCryptoKey) in
  if (String.length raw <? NonceSize)%nat then Err "ciphertext is too short"
  else
    let nonce := str_take NonceSize raw in
    let encrypted := str_drop NonceSize raw in
    res_wrap "failed to decrypt ciphertext: " (gcm_open key nonce encrypted).
End Hashes.

(** ** Password rules *)

Inductive PasswordStrength := WeakPassword | ModeratePassword | StrongPassword | VeryStrongPassword.

Definition PasswordStrength_code (s : PasswordStrength) : Z :=
  match s with
  | WeakPassword => 0 | ModeratePassword => 1 | StrongPassword => 2 | VeryStrongPassword => 3
  end.

Definition PasswordStrength_String (s : PasswordStrength) : string :=
  match s with
  | WeakPassword => "Weak" | ModeratePassword => "Moderate"
  | StrongPassword => "Strong" | VeryStrongPassword => "Very Strong"
  end.

Definition lowercase : string := "abcdefghijklmnopqrstuvwxyz".
Definition uppercase : string := "ABCDEFGHIJKLMNOPQRSTUVWXYZ".
Definition digits : string := "0123456789".
Definition specialChars : string := "!@#$%^&*()_+-=[]{}|;:,.<>?".

Definition occurs (set : string) (c : ascii) : bool := existsb (Ascii.eqb c) (chars set).

Definition hasLower (password : string) : bool := any_char is_lower password.
Definition hasUpper (password : string) : bool := any_char is_upper password.
Definition hasDigit (password : string) : bool := any_char is_digit password.
Definition hasSpecial (password : string) : bool := any_char (occurs specialChars) password.

Definition commonPatterns : list string :=
  ["123456"; "password"; "admin"; "qwerty"; "abc123"; "111111"; "123123"; "password123"; "admin123"].

Definition common_pattern (password : string) : option string :=
  List.find (str_contains (to_lower password)) commonPatterns.

Definition b2z (b : bool) : Z := if b then 1 else 0.

Definition score (password : string) : Z :=
  b2z (8 <=? str_len password) + b2z (12 <=? str_len password)
  + b2z (hasLower password) + b2z (hasUpper password) + b2z (hasDigit password)
  + b2z (hasSpecial password)
  - b2z (bool_decide (is_Some (common_pattern password))).

Definition strength_of (score : Z) : PasswordStrength :=
  if 6 <=? score then VeryStrongPassword
  else if 4 <=? score then StrongPassword
  else if 2 <=? score then ModeratePassword
  else WeakPassword.

Definition suggestions (password : string) : list string :=
  (if hasLower password then [] else ["Add lowercase letters"])
  ++ (if hasUpper password then [] else ["Add uppercase letters"])
  ++ (if hasDigit password then [] else ["Add numbers"])
  ++ (if hasSpecial password then [] else ["Add special characters (!@#$%^&*)"])
  ++ match common_pattern password with
     | Some pattern => ["Avoid common patterns like '" +:+ pattern +:+ "'"]
     | None => []
     end.

(** The three results: strength, suggestions and the error, if any. *)
Definition ValidatePasswordStrength (password : string)
  : PasswordStrength * list string * option string :=
  if str_len password <? MinPasswordLength then
    (WeakPassword, ["Password must be at least 8 characters long"], Some "password too short")
  else if MaxPasswordLength <? str_len password then
    (WeakPassword, ["Password must be no more than 128 characters long"], Some "password too long")
  else
    let strength := strength_of (score password) in
    let suggestions := suggestions password in
    (strength,
     if (length suggestions =? 0)%nat
        && (PasswordStrength_code StrongPassword <=? PasswordStrength_code strength)
     then ["Password strength is good!"] else suggestions,
     None).

Definition IsPasswordValid (password : string) : res unit :=
  if str_len password <? MinPasswordLength then Err (at_least "password must be at least ")
  else if MaxPasswordLength <? str_len password then Err (at_most "password must be no more than ")
  else if negb (any_char is_alpha password) then Err "password must contain at least one letter"
  else if negb (any_char is_digit password) then Err "password must contain at least one number"
  else Ok tt.

(** ** Generation *)

Definition allChars : string := lowercase +:+ uppercase +:+ digits +:+ specialChars.

(** [rand.Read] of one byte, from the source of random bytes. *)
Definition read_byte (what : string) (rnd : list ascii) : res (Z * list ascii) :=
  match rnd with
  | [] => Err (what +:+ "EOF")
  | c :: rnd => Ok (code c, rnd)
  end.

Definition pick (set : string) (n : Z) : ascii :=
  default "000"%char (chars set !! Z.to_nat (n mod str_len set)).

(** The characters at positions [0 .. n-1], each from its set. *)
Fixpoint fill (sets : list string) (rnd : list ascii) : res (list ascii * list ascii) :=
  match sets with
  | [] => Ok ([], rnd)
  | set :: sets =>
      let? (b, rnd) := read_byte "failed to generate random password: " rnd in
      let? (rest, rnd) := fill sets rnd in
      Ok (pick set b :: rest, rnd)
  end.

Definition swap (i j : nat) (l : list ascii) : list ascii :=
  match l !! i, l !! j with
  | Some x, Some y => <[j := x]> (<[i := y]> l)
  | _, _ => l
  end.

(** [for i := n; i > 0; i--]. *)
Fixpoint shuffle (n : nat) (password rnd : list ascii) : res (list ascii) :=
  match n with
  | O => Ok password
  | S n' =>
      let? (b, rnd) := read_byte "failed to shuffle password: " rnd in
      let j := Z.to_nat (b mod (Z.of_nat n + 1)) in
      shuffle n' (swap n j password) rnd
  end.

Definition clamp_length (length : Z) : Z :=
  let length := if length <? MinPasswordLength then MinPasswordLength else length in
  if MaxPasswordLength <? length then MaxPasswordLength else length.

Definition GenerateRandomPassword (length : Z) (rnd : list ascii) : res string :=
  let length := clamp_length length in
  let sets := [lowercase; uppercase; digits; specialChars]
              ++ replicate (Z.to_nat length - 4) allChars in
  let? (password, rnd) := fill sets rnd in
  let? password := shuffle (Z.to_nat length - 1) password rnd in
  Ok (of_chars password).

(** ** The comparison is an equality test *)

Lemma code_inj a b : code a = code b -> a = b.
Proof.
  unfold code. intros E%N2Z.inj. apply (f_equal ascii_of_N) in E. by rewrite !ascii_N_embedding in E.
Qed.

Lemma compare_bytes_zero r a b :
  length a = length b -> compare_bytes r a b = 0 <-> r = 0 /\ a = b.
Proof.
  revert r b. induction a as [|x a IH]; intros r [|y b] Hl; try done; cbn [compare_bytes]; [tauto|].
  rewrite IH by (simpl in Hl; lia). rewrite Z.lor_eq_0_iff, Z.lxor_eq_0_iff.
  split; [intros [[-> E] ->]; by rewrite (code_inj _ _ E)|]. by intros (-> & [= -> ->]).
Qed.

Lemma constantTimeCompare_eq a b : constantTimeCompare a b = String.eqb a b.
Proof.
  unfold constantTimeCompare. apply eq_iff_eq_true. rewrite String.eqb_eq.
  destruct (str_len a =? str_len b) eqn:El; simpl; bool_to_prop.
  - rewrite Z.eqb_eq, compare_bytes_zero by (rewrite !str_len_chars in El; lia).
    split; [intros [_ E]; by apply chars_inj | by intros ->].
  - split; [done|]. by intros ->.
Qed.

#[export] Hint Rewrite constantTimeCompare_eq : aegis.

(** ** Hashing and checking *)

Section HashTheorems.
Context `{GoCrypto}.

Lemma VerifyPassword_of salt digest q :
  VerifyPassword q (EncodeToString salt +:+ ":" +:+ EncodeToString digest)
  = String.eqb digest (sha256 (salt +:+ q)).
Proof.
  unfold VerifyPassword. rewrite (split_cons ":" _ (EncodeToString digest)) by auto with aegis.
  rewrite split_free, DecodeString_EncodeToString, constantTimeCompare_eq by auto with aegis.
  apply eq_iff_eq_true. rewrite !String.eqb_eq. split; [apply EncodeToString_inj | by intros ->].
Qed.

(** The stored form of an accepted password. *)
Lemma HashPassword_ok salt p h :
  HashPassword salt p = Ok h ->
  exists s, salt = Ok s /\ h = EncodeToString s +:+ ":" +:+ EncodeToString (sha256 (s +:+ p)) /\
    MinPasswordLength <= str_len p <= MaxPasswordLength.
Proof.
  unfold HashPassword. destruct (str_len p <? _) eqn:E1; [done|].
  destruct (_ <? str_len p) eqn:E2; [done|]. destruct salt as [s|]; [|done]. simpl.
  intros [= <-]. bool_to_prop. exists s. repeat split; lia.
Qed.

(** A password is checked against what was stored for it: the check accepts
    exactly the passwords whose salted digest is the stored one, so the password
    itself always, and no other as long as SHA-256 has no collision on them. *)
Theorem password_check salt p h :
  HashPassword salt p = Ok h ->
  VerifyPassword p h = true /\
  exists s, salt = Ok s /\
    forall q, VerifyPassword q h = true <-> sha256 (s +:+ q) = sha256 (s +:+ p).
Proof.
  intros (s & -> & -> & _)%HashPassword_ok. rewrite VerifyPassword_of, String.eqb_refl. split; [done|].
  exists s. split; [done|]. intros q. rewrite VerifyPassword_of, String.eqb_eq. naive_solver.
Qed.

(** Exactly the passwords of 8 to 128 bytes are hashed, whatever the salt. *)
Theorem HashPassword_total salt p :
  is_ok (HashPassword (Ok salt) p) = true <-> MinPasswordLength <= str_len p <= MaxPasswordLength.
Proof.
  unfold HashPassword. destruct (str_len p <? _) eqn:E1; [bool_to_prop; simpl; split; [done|lia]|].
  destruct (_ <? str_len p) eqn:E2; bool_to_prop; simpl; split; [done|lia| lia|done].
Qed.
End HashTheorems.

(** ** Key secrets *)

Lemma take_app_chars (n p : string) :
  str_take (String.length n) (n +:+ p) = n /\ str_drop (String.length n) (n +:+ p) = p.
Proof.
  assert (Hl : String.length n = length (chars n)).
  { apply Nat2Z.inj. by rewrite <- str_len_chars. }
  unfold str_take, str_drop. rewrite chars_app, Hl, take_app_length, drop_app_length.
  by rewrite !of_chars_chars.
Qed.

(** A key secret survives its encryption: whatever nonce was drawn, what was
    encrypted is decrypted to the same secret. *)
Theorem secret_roundtrip `{GoCryptoLaws} nonce secret c :
  String.length nonce = NonceSize ->
  EncryptAPIKeySecret (Ok nonce) secret = Ok c -> DecryptAPIKeySecret c = Ok secret.
Proof.
  intros Hn. unfold EncryptAPIKeySecret, DecryptAPIKeySecret, NewCipher, apiKeyCryptoKey.
  rewrite sha256_length. cbn [Z.eqb Pos.eqb orb res_wrap res_bind]. intros [= <-].
  rewrite base64_roundtrip. cbn [res_wrap res_bind].
  set (sealed := gcm_seal _ _ _).
  destruct (take_app_chars nonce sealed) as [Ht Hd]. rewrite <- Hn, Ht, Hd.
  destruct (Nat.ltb_spec (String.length (nonce +:+ sealed)) (String.length nonce)) as [Hlt|_].
  - exfalso. assert (Ha : forall a b, String.length (a +:+ b) = (String.length a + String.length b)%nat).
    { intros a b. induction a as [|x a IH]; simpl; [done|]. f_equal. exact IH. }
    rewrite Ha in Hlt. lia.
  - unfold sealed. rewrite gcm_open_seal. done.
Qed.

(** ** Strength *)

Lemma IsPasswordValid_ok p :
  IsPasswordValid p = Ok tt <->
  MinPasswordLength <= str_len p <= MaxPasswordLength /\
  any_char is_alpha p = true /\ any_char is_digit p = true.
Proof.
  unfold IsPasswordValid. destruct (str_len p <? _) eqn:E1; [bool_to_prop; split; [done|lia]|].
  destruct (_ <? str_len p) eqn:E2; bool_to_prop; [split; [done|lia]|].
  destruct (any_char is_alpha p); [|simpl; naive_solver].
  destruct (any_char is_digit p); simpl; split; naive_solver lia.
Qed.

Lemma any_alpha p : any_char is_alpha p = hasLower p || hasUpper p.
Proof.
  unfold hasLower, hasUpper, any_char, is_alpha. induction (chars p) as [|c l IH]; [done|].
  cbn [existsb]. rewrite IH. by destruct (is_lower c), (is_upper c), (existsb is_lower l).
Qed.

Lemma ValidatePasswordStrength_in_range p :
  MinPasswordLength <= str_len p <= MaxPasswordLength ->
  exists sugg, ValidatePasswordStrength p = (strength_of (score p), sugg, None).
Proof.
  intros Hl. unfold ValidatePasswordStrength.
  destruct (str_len p <? _) eqn:E1; bool_to_prop; [lia|].
  destruct (_ <? str_len p) eqn:E2; bool_to_prop; [lia|]. eauto.
Qed.

Lemma b2z_bounds b : 0 <= b2z b <= 1.
Proof. by destruct b. Qed.

Lemma valid_not_weak p :
  IsPasswordValid p = Ok tt ->
  exists st sugg, ValidatePasswordStrength p = (st, sugg, None) /\ st <> WeakPassword.
Proof.
  intros (Hl & Ha & Hd)%IsPasswordValid_ok.
  destruct (ValidatePasswordStrength_in_range p Hl) as [sugg ->].
  eexists _, _. split; [done|]. rewrite any_alpha in Ha.
  assert (2 <= score p).
  { unfold score, hasDigit. rewrite Hd. destruct (8 <=? str_len p) eqn:E8; unfold MinPasswordLength in *; bool_to_prop; [|lia].
    pose proof (b2z_bounds (12 <=? str_len p)). pose proof (b2z_bounds (hasSpecial p)).
    pose proof (b2z_bounds (bool_decide (is_Some (common_pattern p)))).
    apply orb_true_iff in Ha as [Ha|Ha]; rewrite Ha;
      [pose proof (b2z_bounds (hasUpper p)) | pose proof (b2z_bounds (hasLower p))]; change (b2z true) with 1 in *; lia. }
  unfold strength_of. repeat (case_match; try done). bool_to_prop. lia.
Qed.

Lemma very_strong_iff p :
  (exists sugg, ValidatePasswordStrength p = (VeryStrongPassword, sugg, None)) <->
  12 <= str_len p <= 128 /\ hasLower p = true /\ hasUpper p = true /\ hasDigit p = true /\
  hasSpecial p = true /\ common_pattern p = None.
Proof.
  destruct (decide (MinPasswordLength <= str_len p <= MaxPasswordLength)) as [Hl|Hl].
  2:{ unfold MinPasswordLength, MaxPasswordLength in Hl. split; [|lia].
      intros [sugg E]. unfold ValidatePasswordStrength, MinPasswordLength, MaxPasswordLength in E.
      destruct (str_len p <? 8) eqn:E1; [done|]. destruct (128 <? str_len p) eqn:E2; [done|].
      bool_to_prop. lia. }
  destruct (ValidatePasswordStrength_in_range p Hl) as [sugg ->].
  unfold MinPasswordLength, MaxPasswordLength in Hl.
  transitivity (6 <= score p).
  { unfold strength_of. destruct (6 <=? score p) eqn:E; bool_to_prop; [naive_solver|].
    split; [|lia]. intros [s [= E' _]]. repeat case_match; done. }
  unfold score. pose proof (b2z_bounds (hasLower p)). pose proof (b2z_bounds (hasUpper p)).
  pose proof (b2z_bounds (hasDigit p)). pose proof (b2z_bounds (hasSpecial p)).
  pose proof (b2z_bounds (12 <=? str_len p)). pose proof (b2z_bounds (8 <=? str_len p)).
  split.
  + intros Hs.
    destruct (hasLower p), (hasUpper p), (hasDigit p), (hasSpecial p), (common_pattern p) eqn:Ec,
      (12 <=? str_len p) eqn:E12, (8 <=? str_len p); unfold b2z in *; simpl in *; bool_to_prop; try lia.
    repeat split; done || lia.
  + intros (H12 & -> & -> & -> & -> & ->).
    destruct (12 <=? str_len p) eqn:E12, (8 <=? str_len p) eqn:E8; unfold b2z; simpl; bool_to_prop; lia.
Qed.

(** The two checks of a password agree: a password that is valid is never
    rated weak, and the best rating is given exactly to those of at least twelve
    bytes with lower and upper case letters, a digit and a special character that
    contain no common pattern. *)
Theorem password_strength p :
  (IsPasswordValid p = Ok tt ->
   exists st sugg, ValidatePasswordStrength p = (st, sugg, None) /\ st <> WeakPassword) /\
  ((exists sugg, ValidatePasswordStrength p = (VeryStrongPassword, sugg, None)) <->
   12 <= str_len p <= 128 /\ hasLower p = true /\ hasUpper p = true /\ hasDigit p = true /\
   hasSpecial p = true /\ common_pattern p = None).
Proof. split; [apply valid_not_weak | apply very_strong_iff]. Qed.

(** ** Generated passwords *)

Lemma read_byte_ok what rnd b rnd' :
  read_byte what rnd = Ok (b, rnd') -> 0 <= b /\ length rnd = S (length rnd').
Proof. destruct rnd as [|c rnd]; simpl; [done|]. intros [= <- <-]. split; [unfold code; lia|done]. Qed.

Lemma pick_in set b : 0 <= b -> set <> "" -> pick set b ∈ chars set.
Proof.
  intros Hb Hs. unfold pick. rewrite str_len_chars.
  assert (Hl : (0 < length (chars set))%nat) by (destruct set; simpl; [done|lia]).
  pose proof (Z.mod_pos_bound b (Z.of_nat (length (chars set))) ltac:(lia)) as Hm.
  destruct (lookup_lt_is_Some_2 (chars set) (Z.to_nat (b mod Z.of_nat (length (chars set))))) as [c Hc]; [lia|].
  rewrite Hc. simpl. by eapply list_elem_of_lookup_2.
Qed.

Lemma fill_ok sets rnd l rnd' :
  Forall (fun s => s <> "") sets -> fill sets rnd = Ok (l, rnd') ->
  Forall2 (fun s c => c ∈ chars s) sets l.
Proof.
  intros Hs. revert rnd l. induction Hs as [|s sets Hs1 Hs IH]; intros rnd l Hf; simpl in Hf; [by simplify_eq|].
  destruct (read_byte _ rnd) as [[b rnd1]|] eqn:Er; [|done]. simpl in Hf.
  destruct (fill sets rnd1) as [[rest rnd2]|] eqn:Ef; simplify_eq/=.
  apply read_byte_ok in Er as [Hb _]. constructor; [by apply pick_in | by eapply IH].
Qed.

Lemma fill_total sets rnd :
  (length sets <= length rnd)%nat ->
  exists l, fill sets rnd = Ok (l, drop (length sets) rnd).
Proof.
  revert rnd. induction sets as [|s sets IH]; intros rnd Hl; simpl; [by exists []|].
  destruct rnd as [|c rnd]; simpl in *; [lia|].
  destruct (IH rnd ltac:(lia)) as [l ->]. simpl. eauto.
Qed.

Lemma swap_perm i j l : swap i j l ≡ₚ l.
Proof. unfold swap. repeat case_match; [by apply Permutation_insert_swap|done|done]. Qed.

Lemma shuffle_perm n l rnd l' : shuffle n l rnd = Ok l' -> l' ≡ₚ l.
Proof.
  revert l rnd. induction n as [|n IH]; intros l rnd Hs; simpl in Hs; [by simplify_eq|].
  destruct (read_byte _ rnd) as [[b rnd1]|]; [|done]. simpl in Hs.
  apply IH in Hs. by rewrite Hs, swap_perm.
Qed.

Lemma shuffle_total n l rnd : (n <= length rnd)%nat -> is_ok (shuffle n l rnd) = true.
Proof.
  revert l rnd. induction n as [|n IH]; intros l rnd Hl; [done|].
  destruct rnd as [|c rnd]; simpl in *; [lia|]. apply IH. lia.
Qed.

Lemma clamp_bounds n : MinPasswordLength <= clamp_length n <= MaxPasswordLength.
Proof. unfold clamp_length, MinPasswordLength, MaxPasswordLength. repeat case_match; bool_to_prop; lia. Qed.

Lemma set_classes :
  forallb is_lower (chars lowercase) && forallb is_upper (chars uppercase)
  && forallb is_digit (chars digits) && forallb (occurs specialChars) (chars specialChars) = true.
Proof. vm_compute. reflexivity. Qed.

(** A generated password has the length asked for, brought into 8..128, and
    passes every rule: it is valid and has a character of each of the four
    classes; and it is generated from any source of as many random bytes as it
    takes, two per character less one. *)
Theorem GenerateRandomPassword_ok n rnd :
  (forall p, GenerateRandomPassword n rnd = Ok p ->
     str_len p = clamp_length n /\ IsPasswordValid p = Ok tt /\
     hasLower p && hasUpper p && hasDigit p && hasSpecial p = true) /\
  (2 * clamp_length n - 1 <= Z.of_nat (length rnd) -> is_ok (GenerateRandomPassword n rnd) = true).
Proof.
  unfold GenerateRandomPassword. pose proof (clamp_bounds n) as Hc.
  unfold MinPasswordLength, MaxPasswordLength in Hc.
  set (sets := [lowercase; uppercase; digits; specialChars] ++ replicate (Z.to_nat (clamp_length n) - 4) allChars).
  assert (Hlen : length sets = Z.to_nat (clamp_length n)).
  { unfold sets. rewrite length_app, length_replicate. simpl. lia. }
  split.
  - intros p. destruct (fill sets rnd) as [[l rnd1]|] eqn:Ef; [|done]. simpl.
    destruct (shuffle _ l rnd1) as [l'|] eqn:Es; [|done]. simpl. intros [= <-].
    apply shuffle_perm in Es.
    assert (Hne : Forall (fun s => s <> "") sets).
    { unfold sets. apply Forall_app. split; [by repeat constructor|]. by apply Forall_replicate. }
    pose proof (fill_ok _ _ _ _ Hne Ef) as Hf. pose proof (Forall2_length _ _ _ Hf) as Hl.
    assert (Hstr : str_len (of_chars l') = clamp_length n).
    { rewrite str_len_chars, chars_of_chars, Es, <- Hl, Hlen. lia. }
    unfold sets in Hf. cbn [app] in Hf.
    destruct l as [|a [|b [|c [|d l]]]]; try by (repeat (apply Forall2_cons in Hf as [? Hf]); inversion Hf).
    repeat (apply Forall2_cons in Hf as [? Hf]). clear Hf.
    pose proof set_classes as Hcl. rewrite !andb_true_iff, !forallb_elem in Hcl.
    destruct Hcl as [[[Hlo Hup] Hdi] Hsp].
    assert (Hany : hasLower (of_chars l') && hasUpper (of_chars l') && hasDigit (of_chars l')
                   && hasSpecial (of_chars l') = true).
    { unfold hasLower, hasUpper, hasDigit, hasSpecial, any_char. rewrite chars_of_chars, !(existsb_perm _ _ _ Es).
      cbn [existsb]. rewrite (Hlo a), (Hup b), (Hdi c), (Hsp d) by done. simpl. by rewrite !orb_true_r. }
    split; [done|]. split; [|done]. apply IsPasswordValid_ok. rewrite Hstr.
    unfold MinPasswordLength, MaxPasswordLength. split; [done|].
    rewrite any_alpha. rewrite !andb_true_iff in Hany. destruct Hany as [[[-> _] Hd] _]. done.
  - intros Hr. destruct (fill_total sets rnd) as [l ->]; [lia|]. simpl.
    pose proof (shuffle_total (Z.to_nat (clamp_length n) - 1) l (drop (length sets) rnd)) as Ht.
    destruct (shuffle _ _ _); [done|]. apply Ht. rewrite length_drop. lia.
Qed.

(** ** A concrete instance, without secrecy *)

Module ToyCrypto.
#[global] Instance toy_crypto : GoCrypto := {
  sha256 s := str_take 32 (s +:+ "00000000000000000000000000000000");
  hmac_sha256 key message := key +:+ message;
  gcm_seal _ _ plaintext := plaintext;
  gcm_open _ _ ciphertext := Ok ciphertext;
  base64 s := s;
  base64_decode s := Ok s
}.

#[global] Instance toy_crypto_laws : GoCryptoLaws.
Proof.
  split; [|done|done]. intros s. cbn. unfold str_take. rewrite str_len_chars, chars_of_chars, length_take, chars_app, length_app.
  change (length (chars "00000000000000000000000000000000")) with 32%nat. lia.
Qed.
End ToyCrypto.

Module PasswordSample.
#[local] Existing Instance ToyCrypto.toy_crypto.
#[local] Existing Instance ToyCrypto.toy_crypto_laws.

Definition stored : string :=
  match HashPassword (Ok "salt") "correct horse 1" with Ok h => h | Err _ => "" end.

Lemma password_check_witness :
  VerifyPassword "correct horse 1" stored = true /\ VerifyPassword "wrong horse 99" stored = false.
Proof.
  destruct (password_check (Ok "salt") "correct horse 1" stored) as [Hv _]; [reflexivity|].
  split; [exact Hv | vm_compute; reflexivity].
Defined.

Lemma secret_roundtrip_witness : DecryptAPIKeySecret "0123456789abks_secret" = Ok "ks_secret".
Proof. apply (secret_roundtrip "0123456789ab" "ks_secret"); reflexivity. Defined.
End PasswordSample.
