(* ===== verification/Tokens.v ===== *)
(** * JSON web tokens and the authentication middleware
      ([utils/jwt.go], [middleware/auth.go])

    Three kinds of tokens are signed with one secret: user tokens (sessions and
    API keys), refresh tokens and service tokens.  The JWT library is the class
    [JWT]; what it signs and returns is the JSON object of the claims, which Go's
    [encoding/json] builds from and decodes into the structs of the code.  Times
    are nanoseconds, a [NumericDate] is in seconds. *)

From S2P Require Import Prelude GoStrings Consts Redis Passwords Permissions.

(** ** Claims as JSON objects *)

Inductive jval := JNull | JBool (b : bool) | JNum (z : Z) | JStr (s : string) | JArr (l : list string).

#[export] Instance jval_eq_dec : EqDecision jval.
Proof. solve_decision. Defined.

Abbreviation object := (gmap string jval).

(** A struct field; [omitempty] leaves the zero value out. *)
Definition field (key : string) (v : jval) (o : object) : object := <[key := v]> o.
Definition omit_str (key s : string) (o : object) : object :=
  if String.eqb s "" then o else <[key := JStr s]> o.
Definition omit_num (key : string) (z : Z) (o : object) : object :=
  if z =? 0 then o else <[key := JNum z]> o.
Definition omit_arr (key : string) (l : list string) (o : object) : object :=
  if (length l =? 0)%nat then o else <[key := JArr l]> o.
Definition omit_date (key : string) (d : option Z) (o : object) : object :=
  match d with Some d => <[key := JNum d]> o | None => o end.

(** Decoding: a missing or null member leaves the zero value, a member of another
    type is an error. *)
Definition bad_member {A} (key : string) : res A :=
  Err ("json: cannot unmarshal value into Go struct field " +:+ key).
Definition dec_bool (o : object) (key : string) : res bool :=
  match o !! key with None | Some JNull => Ok false | Some (JBool b) => Ok b | _ => bad_member key end.
Definition dec_num (o : object) (key : string) : res Z :=
  match o !! key with None | Some JNull => Ok 0 | Some (JNum z) => Ok z | _ => bad_member key end.
Definition dec_str (o : object) (key : string) : res string :=
  match o !! key with None | Some JNull => Ok "" | Some (JStr s) => Ok s | _ => bad_member key end.
Definition dec_arr (o : object) (key : string) : res (list string) :=
  match o !! key with None | Some JNull => Ok [] | Some (JArr l) => Ok l | _ => bad_member key end.
Definition dec_date (o : object) (key : string) : res (option Z) :=
  match o !! key with None | Some JNull => Ok None | Some (JNum z) => Ok (Some z) | _ => bad_member key end.

(** [jwt.RegisteredClaims] as the code fills it. *)
Record RegisteredClaims := mkRegistered {
  Issuer : string;
  Subject : string;
  ExpiresAt : option Z;
  NotBefore : option Z;
  IssuedAt : option Z;
  ID : string
}.

Definition registered_object (r : RegisteredClaims) (o : object) : object :=
  omit_str "iss" (Issuer r) (omit_str "sub" (Subject r) (omit_date "exp" (ExpiresAt r)
    (omit_date "nbf" (NotBefore r) (omit_date "iat" (IssuedAt r) (omit_str "jti" (ID r) o))))).

Definition dec_registered (o : object) : res RegisteredClaims :=
  let? iss := dec_str o "iss" in let? sub := dec_str o "sub" in
  let? exp := dec_date o "exp" in let? nbf := dec_date o "nbf" in
  let? iat := dec_date o "iat" in let? jti := dec_str o "jti" in
  Ok (mkRegistered iss sub exp nbf iat jti).

Record Claims := mkClaims {
  c_UserID : Z;
  c_Username : string;
  c_Email : string;
  c_IsActive : bool;
  c_IsAdmin : bool;
  c_Roles : list string;
  c_AuthType : string;
  c_APIKeyID : Z;
  c_APIKeyScopes : list string;
  c_registered : RegisteredClaims
}.

Definition claims_object (c : Claims) : object :=
  field "user_id" (JNum (c_UserID c)) (field "username" (JStr (c_Username c))
    (field "email" (JStr (c_Email c)) (field "is_active" (JBool (c_IsActive c))
    (field "is_admin" (JBool (c_IsAdmin c)) (field "roles" (JArr (c_Roles c))
    (omit_str "auth_type" (c_AuthType c) (omit_num "api_key_id" (c_APIKeyID c)
    (omit_arr "api_key_scopes" (c_APIKeyScopes c) (registered_object (c_registered c) ∅))))))))).

Definition dec_claims (o : object) : res Claims :=
  let? id := dec_num o "user_id" in let? name := dec_str o "username" in
  let? email := dec_str o "email" in let? active := dec_bool o "is_active" in
  let? admin := dec_bool o "is_admin" in let? roles := dec_arr o "roles" in
  let? auth := dec_str o "auth_type" in let? key := dec_num o "api_key_id" in
  let? scopes := dec_arr o "api_key_scopes" in let? reg := dec_registered o in
  Ok (mkClaims id name email active admin roles auth key scopes reg).

Record RefreshClaims := mkRefresh { rc_UserID : Z; rc_Username : string; rc_registered : RegisteredClaims }.

Definition refresh_object (c : RefreshClaims) : object :=
  field "user_id" (JNum (rc_UserID c)) (field "username" (JStr (rc_Username c))
    (registered_object (rc_registered c) ∅)).

Record ServiceClaims := mkService { s_TaskID : string; s_registered : RegisteredClaims }.

Definition service_object (c : ServiceClaims) : object :=
  field "task_id" (JStr (s_TaskID c)) (registered_object (s_registered c) ∅).

Definition dec_service (o : object) : res ServiceClaims :=
  let? task := dec_str o "task_id" in let? reg := dec_registered o in Ok (mkService task reg).

(** ** The library *)

Definition second : Z := 1000000000.
Definition hour : Z := 3600 * second.

(** The time checks of the parser: [exp] and [nbf], when present. *)
Definition in_window (now : Z) (o : object) : bool :=
  match o !! "exp" with Some (JNum e) => now <? e * second | _ => true end
  && match o !! "nbf" with Some (JNum n) => n * second <=? now | _ => true end.

Class JWT := {
  (** [jwt.NewWithClaims(HS256, claims).SignedString(key)]. *)
  SignedString : object -> string -> res string;
  (** [jwt.ParseWithClaims] at a time, with the key function of the algorithm. *)
  ParseWithClaims : Z -> (string -> res string) -> string -> res object;
  ParseUnverified : string -> res object
}.
Class JWTLaws `{JWT} := {
  parse_signed : forall now keyfunc o key tok,
    SignedString o key = Ok tok -> keyfunc "HS256" = Ok key -> in_window now o = true ->
    ParseWithClaims now keyfunc tok = Ok o;
  parse_window : forall now keyfunc tok o, ParseWithClaims now keyfunc tok = Ok o -> in_window now o = true;
  parse_unverified : forall now keyfunc tok o, ParseWithClaims now keyfunc tok = Ok o -> ParseUnverified tok = Ok o;
  unverified_signed : forall o key tok, SignedString o key = Ok tok -> ParseUnverified tok = Ok o;
  signed_nonempty : forall o key tok, SignedString o key = Ok tok -> tok <> ""
}.

(** ** Generation *)

Definition TokenExpiration : Z := 24 * hour.
Definition RefreshTokenExpiration : Z := 7 * 24 * hour.
Definition ServiceTokenExpiration : Z := 24 * hour.

(** [jwt.NewNumericDate] truncates to the second. *)
Definition NewNumericDate (t : Z) : option Z := Some (t / second).

Section Tokens.
Context `{JWT}.

Definition user_claims (now userID : Z) (username email : string) (isActive isAdmin : bool)
    (roles : list string) (authType : string) (apiKeyID : Z) (apiKeyScopes : list string) : Claims :=
  mkClaims userID username email isActive isAdmin roles authType apiKeyID apiKeyScopes
    (mkRegistered "rcabench" (itoa userID) (NewNumericDate (now + TokenExpiration))
       (NewNumericDate now) (NewNumericDate now)
       ("jwt_" +:+ authType +:+ "_" +:+ itoa userID +:+ "_" +:+ itoa (now / second))).

Definition generateUserToken (now userID : Z) (username email : string) (isActive isAdmin : bool)
    (roles : list string) (authType : string) (apiKeyID : Z) (apiKeyScopes : list string)
  : res (string * Z) :=
  let expirationTime := now + TokenExpiration in
  let claims := user_claims now userID username email isActive isAdmin roles authType apiKeyID apiKeyScopes in
  let? tokenString := res_wrap "failed to generate token: " (SignedString (claims_object claims) JWTSecret) in
  Ok (tokenString, expirationTime).

Definition GenerateToken (now userID : Z) (username email : string) (isActive isAdmin : bool)
    (roles : list string) : res (string * Z) :=
  generateUserToken now userID username email isActive isAdmin roles "user" 0 [].

Definition GenerateAPIKeyToken (now userID : Z) (username email : string) (isActive isAdmin : bool)
    (roles : list string) (apiKeyID : Z) (apiKeyScopes : list string) : res (string * Z) :=
  generateUserToken now userID username email isActive isAdmin roles "api_key" apiKeyID apiKeyScopes.

Definition refresh_claims (now userID : Z) (username : string) : RefreshClaims :=
  mkRefresh userID username
    (mkRegistered "rcabench-refresh" (itoa userID) (NewNumericDate (now + RefreshTokenExpiration))
       (NewNumericDate now) (NewNumericDate now) "").

Definition GenerateRefreshToken (now userID : Z) (username : string) : res (string * Z) :=
  let expirationTime := now + RefreshTokenExpiration in
  let? tokenString := res_wrap "failed to generate refresh token: "
    (SignedString (refresh_object (refresh_claims now userID username)) JWTSecret) in
  Ok (tokenString, expirationTime).

Definition service_claims (now : Z) (taskID : string) : ServiceClaims :=
  mkService taskID
    (mkRegistered "rcabench-service" taskID (NewNumericDate (now + ServiceTokenExpiration))
       (NewNumericDate now) (NewNumericDate now) ("svc_" +:+ taskID +:+ "_" +:+ itoa (now / second))).

Definition GenerateServiceToken (now : Z) (taskID : string) : res (string * Z) :=
  let expirationTime := now + ServiceTokenExpiration in
  let? tokenString := res_wrap "failed to generate service token: "
    (SignedString (service_object (service_claims now taskID)) JWTSecret) in
  Ok (tokenString, expirationTime).

(** ** Validation *)

(** The key function: HMAC algorithms only. *)
Definition keyfunc (alg : string) : res string :=
  if existsb (String.eqb alg) ["HS256"; "HS384"; "HS512"] then Ok JWTSecret
  else Err ("unexpected signing method: " +:+ alg).

Definition ValidateToken (now : Z) (tokenString : string) : res Claims :=
  if String.eqb tokenString "" then Err "token is required"
  else
    let? claims := res_wrap "failed to parse token: "
      (let? o := ParseWithClaims now keyfunc tokenString in dec_claims o) in
    if negb (c_IsActive claims) then Err "user account is inactive" else Ok claims.

Definition ValidateTokenWithCustomClaims (now : Z) (tokenString : string)
    (validateFunc : option (Claims -> res unit)) : res Claims :=
  let? claims := ValidateToken now tokenString in
  match validateFunc with
  | Some f => res_wrap "custom validation failed: " (f claims) ;;? Ok claims
  | None => Ok claims
  end.

Definition ValidateServiceToken (now : Z) (tokenString : string) : res ServiceClaims :=
  if String.eqb tokenString "" then Err "service token is required"
  else
    let? claims := res_wrap "failed to parse service token: "
      (let? o := ParseWithClaims now keyfunc tokenString in dec_service o) in
    if negb (String.eqb (Issuer (s_registered claims)) "rcabench-service")
    then Err "not a valid service token" else Ok claims.

Definition GetUserIDFromToken (now : Z) (tokenString : string) : res Z :=
  let? claims := ValidateToken now tokenString in Ok (c_UserID claims).
Definition GetUsernameFromToken (now : Z) (tokenString : string) : res string :=
  let? claims := ValidateToken now tokenString in Ok (c_Username claims).

Definition ParseTokenWithoutValidation (tokenString : string) : res Claims :=
  res_wrap "failed to parse token: " (let? o := ParseUnverified tokenString in dec_claims o).
End Tokens.

Definition ExtractTokenFromHeader (header : string) : res string :=
  if String.eqb header "" then Err "authorization header is empty"
  else
    match split " " header with
    | [bearer; token] =>
        if String.eqb bearer "Bearer" then Ok token else Err "invalid authorization header format"
    | _ => Err "invalid authorization header format"
    end.

(** ** The middleware *)

(** The service behind the middleware; checking a user token may look at the store
    of revoked tokens. *)
Class TokenVerifier (S : Type) := {
  VerifyToken : Z -> string -> M S Claims;
  VerifyServiceToken : Z -> string -> M S ServiceClaims
}.

Definition set_key (k : string) (v : gin_value) (c : gin_ctx) : gin_ctx :=
  mkGin (<[k := v]> (g_keys c)) (g_params c).

(** [claims.ExpiresAt.Time] panics when the token carries no expiry.  The time
    itself is read by nobody and left out of the context. *)
Definition set_user (claims : Claims) (c : gin_ctx) : outcome gin_ctx :=
  match ExpiresAt (c_registered claims) with
  | None => Panics
  | Some _ =>
      Returns (set_key "token_type" (GStr "user")
        (set_key "api_key_scopes" (GStrs (c_APIKeyScopes claims))
        (set_key "api_key_id" (GInt (c_APIKeyID claims))
        (set_key "auth_type" (GStr (c_AuthType claims))
        (set_key "user_roles" (GStrs (c_Roles claims))
        (set_key "is_admin" (GBool (c_IsAdmin claims))
        (set_key "is_active" (GBool (c_IsActive claims))
        (set_key "email" (GStr (c_Email claims))
        (set_key "username" (GStr (c_Username claims))
        (set_key "user_id" (GInt (c_UserID claims)) c))))))))))
  end.

Definition set_service (claims : ServiceClaims) (c : gin_ctx) : outcome gin_ctx :=
  match ExpiresAt (s_registered claims) with
  | None => Panics
  | Some _ =>
      Returns (set_key "is_service_token" (GBool true) (set_key "token_type" (GStr "service")
        (set_key "task_id" (GStr (s_TaskID claims)) c)))
  end.

(** Continue with the context, or abort with a response; both may panic before. *)
Inductive authenticated := Passed (c : gin_ctx) | Refused (status : Z) (message : string).

Definition passed (o : outcome gin_ctx) : outcome authenticated :=
  match o with Returns c => Returns (Passed c) | Panics => Panics end.

Section Middleware.
Context {S : Type} `{TokenVerifier S}.

Definition JWTAuth (now : Z) (authHeader : string) (c : gin_ctx) : M S (outcome authenticated) :=
  match ExtractTokenFromHeader authHeader with
  | Err e => m_ret (Returns (Refused 401 ("Unauthorized: " +:+ e)))
  | Ok token =>
      let! claims := attempt (VerifyToken now token) in
      match claims with
      | Ok claims => m_ret (passed (set_user claims c))
      | Err err =>
          let! serviceClaims := attempt (VerifyServiceToken now token) in
          match serviceClaims with
          | Ok serviceClaims => m_ret (passed (set_service serviceClaims c))
          | Err _ => m_ret (Returns (Refused 401 ("Unauthorized: " +:+ err)))
          end
      end
  end.

Definition OptionalJWTAuth (now : Z) (authHeader : string) (c : gin_ctx) : M S (outcome authenticated) :=
  if String.eqb authHeader "" then m_ret (Returns (Passed c))
  else
    match ExtractTokenFromHeader authHeader with
    | Err _ => m_ret (Returns (Passed c))
    | Ok token =>
        let! claims := attempt (VerifyToken now token) in
        match claims with
        | Ok claims => m_ret (passed (set_user claims c))
        | Err _ =>
            let! serviceClaims := attempt (VerifyServiceToken now token) in
            match serviceClaims with
            | Ok serviceClaims => m_ret (passed (set_service serviceClaims c))
            | Err _ => m_ret (Returns (Passed c))
            end
        end
    end.
End Middleware.

Definition GetCurrentUsername (c : gin_ctx) : option string := get_str c "username".
Definition GetCurrentUserEmail (c : gin_ctx) : option string := get_str c "email".
Definition GetTokenType (c : gin_ctx) : string := default "" (get_str c "token_type").

(** ** Decoding what was encoded *)

Lemma lookup_field k v o k' : field k v o !! k' = if String.eqb k k' then Some v else o !! k'.
Proof. unfold field. destruct (String.eqb_spec k k') as [->|]; by simplify_map_eq. Qed.
Lemma lookup_omit_str k s o k' :
  omit_str k s o !! k' = if String.eqb k k' && negb (String.eqb s "") then Some (JStr s) else o !! k'.
Proof.
  unfold omit_str. destruct (String.eqb s ""), (String.eqb_spec k k') as [->|]; by simplify_map_eq.
Qed.
Lemma lookup_omit_num k z o k' :
  omit_num k z o !! k' = if String.eqb k k' && negb (z =? 0) then Some (JNum z) else o !! k'.
Proof. unfold omit_num. destruct (z =? 0), (String.eqb_spec k k') as [->|]; by simplify_map_eq. Qed.
Lemma lookup_omit_arr k l o k' :
  omit_arr k l o !! k' = if String.eqb k k' && negb (length l =? 0)%nat then Some (JArr l) else o !! k'.
Proof.
  unfold omit_arr. destruct (length l =? 0)%nat, (String.eqb_spec k k') as [->|]; by simplify_map_eq.
Qed.
Lemma lookup_omit_date k d o k' :
  omit_date k d o !! k' =
  match d with Some z => if String.eqb k k' then Some (JNum z) else o !! k' | None => o !! k' end.
Proof. unfold omit_date. destruct d, (String.eqb_spec k k') as [->|]; by simplify_map_eq. Qed.

Create Rewrite HintDb claims.
#[export] Hint Rewrite lookup_field lookup_omit_str lookup_omit_num lookup_omit_arr lookup_omit_date
  (@lookup_empty string (gmap string)) : claims.

(** Members of an encoded object, with concrete keys compared by computation. *)
Ltac members := autorewrite with claims; cbn [String.eqb Ascii.eqb Bool.eqb andb].

(** The registered claims use six keys only. *)
Lemma registered_other r o k :
  existsb (String.eqb k) ["iss"; "sub"; "exp"; "nbf"; "iat"; "jti"] = false ->
  registered_object r o !! k = o !! k.
Proof.
  cbn [existsb]. rewrite !orb_false_iff, !String.eqb_neq. intros (H1 & H2 & H3 & H4 & H5 & H6 & _).
  unfold registered_object. autorewrite with claims.
  assert (E : forall x, k <> x -> String.eqb x k = false) by (intros x Hx; apply String.eqb_neq; congruence).
  rewrite !E by done. cbn [andb]. by destruct (ExpiresAt r), (NotBefore r), (IssuedAt r).
Qed.

Lemma dec_registered_object r : dec_registered (registered_object r ∅) = Ok r.
Proof.
  destruct r as [iss sub exp nbf iat jti]. unfold dec_registered, registered_object, dec_str, dec_date.
  cbn [Issuer Subject ExpiresAt NotBefore IssuedAt ID]. members.
  destruct (String.eqb_spec iss ""), (String.eqb_spec sub ""), (String.eqb_spec jti "");
    subst; destruct exp, nbf, iat; reflexivity.
Qed.

(** The registered members are read from six keys. *)
Lemma dec_registered_ext o o' :
  (forall k, k ∈ ["iss"; "sub"; "exp"; "nbf"; "iat"; "jti"] -> o !! k = o' !! k) ->
  dec_registered o = dec_registered o'.
Proof.
  intros He. unfold dec_registered, dec_str, dec_date.
  rewrite !He; [done|..]; apply list_elem_of_In; simpl; tauto.
Qed.

Ltac registered r := rewrite (dec_registered_ext _ (registered_object r ∅));
  [apply dec_registered_object |
   intros k Hk; repeat (apply elem_of_cons in Hk as [->|Hk]); [..|by apply not_elem_of_nil in Hk];
   unfold claims_object, refresh_object, service_object; members; done].

Lemma dec_registered_claims c : dec_registered (claims_object c) = Ok (c_registered c).
Proof. registered (c_registered c). Qed.
Lemma dec_registered_refresh c : dec_registered (refresh_object c) = Ok (rc_registered c).
Proof. registered (rc_registered c). Qed.
Lemma dec_registered_service c : dec_registered (service_object c) = Ok (s_registered c).
Proof. registered (s_registered c). Qed.

Lemma dec_claims_object c : dec_claims (claims_object c) = Ok c.
Proof.
  unfold dec_claims. rewrite dec_registered_claims. unfold dec_num, dec_str, dec_bool, dec_arr.
  unfold claims_object. members. rewrite !registered_other by reflexivity. rewrite !lookup_empty.
  destruct c as [? ? ? ? ? ? auth key scopes reg].
  cbn [c_UserID c_Username c_Email c_IsActive c_IsAdmin c_Roles c_AuthType c_APIKeyID c_APIKeyScopes c_registered].
  destruct (String.eqb_spec auth ""), (Z.eqb_spec key 0), scopes; subst; reflexivity.
Qed.

Lemma dec_service_object c : dec_service (service_object c) = Ok c.
Proof.
  unfold dec_service. rewrite dec_registered_service. unfold dec_str, service_object.
  members. by destruct c.
Qed.

(** Decoded as user claims, the other two kinds are inactive; as service claims,
    the other two keep their issuer. *)
Lemma dec_claims_inactive o c :
  o !! "is_active" = None -> dec_claims o = Ok c -> c_IsActive c = false.
Proof.
  intros Hn Hd. unfold dec_claims in Hd.
  repeat (apply res_bind_ok in Hd as (? & ? & Hd)). injection Hd as <-. cbn [c_IsActive].
  match goal with Hb : dec_bool o _ = _ |- _ => unfold dec_bool in Hb; rewrite Hn in Hb; by simplify_eq end.
Qed.

(** ** Tokens through the library *)

Section TokenTheorems.
Context `{JWTLaws}.

Lemma parse_of_signed t o tok o' :
  SignedString o JWTSecret = Ok tok -> ParseWithClaims t keyfunc tok = Ok o' ->
  o' = o /\ in_window t o = true.
Proof.
  intros Hs Hp. pose proof (parse_unverified _ _ _ _ Hp) as Hu.
  apply unverified_signed in Hs. rewrite Hs in Hu. simplify_eq. split; [done|]. by eapply parse_window.
Qed.

(** What a signed object validates to. *)
Lemma ValidateToken_signed t o tok :
  SignedString o JWTSecret = Ok tok ->
  match ValidateToken t tok with
  | Ok c => in_window t o = true /\ dec_claims o = Ok c /\ c_IsActive c = true
  | Err e => in_window t o = false \/ is_ok (dec_claims o) = false \/
             exists c, dec_claims o = Ok c /\ c_IsActive c = false /\ e = "user account is inactive"
  end.
Proof.
  intros Hs. pose proof (signed_nonempty _ _ _ Hs) as Hne. unfold ValidateToken.
  destruct (String.eqb_spec tok "") as [|_]; [done|].
  destruct (ParseWithClaims t keyfunc tok) as [o'|e] eqn:Hp; cbn [res_bind res_wrap].
  - destruct (parse_of_signed _ _ _ _ Hs Hp) as [-> Hw].
    destruct (dec_claims o) as [c|e']; cbn [res_bind res_wrap is_ok]; [|by right; left].
    destruct (c_IsActive c) eqn:Ea; cbn [negb]; [done|]. right; right. by exists c.
  - destruct (in_window t o) eqn:Hw; [|by left].
    by rewrite (parse_signed t keyfunc o JWTSecret tok Hs) in Hp.
Qed.

Lemma ValidateServiceToken_signed t o tok :
  SignedString o JWTSecret = Ok tok ->
  match ValidateServiceToken t tok with
  | Ok c => in_window t o = true /\ dec_service o = Ok c /\ Issuer (s_registered c) = "rcabench-service"
  | Err _ => in_window t o = false \/ is_ok (dec_service o) = false \/
             exists c, dec_service o = Ok c /\ Issuer (s_registered c) <> "rcabench-service"
  end.
Proof.
  intros Hs. pose proof (signed_nonempty _ _ _ Hs) as Hne. unfold ValidateServiceToken.
  destruct (String.eqb_spec tok "") as [|_]; [done|].
  destruct (ParseWithClaims t keyfunc tok) as [o'|e] eqn:Hp; cbn [res_bind res_wrap].
  - destruct (parse_of_signed _ _ _ _ Hs Hp) as [-> Hw].
    destruct (dec_service o) as [c|e']; cbn [res_bind res_wrap is_ok]; [|by right; left].
    destruct (String.eqb_spec (Issuer (s_registered c)) "rcabench-service"); cbn [negb]; [done|].
    right; right. by exists c.
  - destruct (in_window t o) eqn:Hw; [|by left].
    by rewrite (parse_signed t keyfunc o JWTSecret tok Hs) in Hp.
Qed.

(** The dates of the registered claims. *)
Definition window (t : Z) (r : RegisteredClaims) : bool :=
  match ExpiresAt r with Some e => t <? e * second | None => true end
  && match NotBefore r with Some n => n * second <=? t | None => true end.

Lemma in_window_dates t o r :
  o !! "exp" = JNum <$> ExpiresAt r -> o !! "nbf" = JNum <$> NotBefore r ->
  in_window t o = window t r.
Proof. unfold in_window, window. intros -> ->. by destruct (ExpiresAt r), (NotBefore r). Qed.

Lemma registered_dates r :
  registered_object r ∅ !! "exp" = JNum <$> ExpiresAt r /\
  registered_object r ∅ !! "nbf" = JNum <$> NotBefore r.
Proof. unfold registered_object. members. by destruct (ExpiresAt r), (NotBefore r), (IssuedAt r). Qed.

Lemma in_window_claims t c : in_window t (claims_object c) = window t (c_registered c).
Proof. destruct (registered_dates (c_registered c)). apply in_window_dates; unfold claims_object; by members. Qed.
Lemma in_window_refresh t c : in_window t (refresh_object c) = window t (rc_registered c).
Proof. destruct (registered_dates (rc_registered c)). apply in_window_dates; unfold refresh_object; by members. Qed.
Lemma in_window_service t c : in_window t (service_object c) = window t (s_registered c).
Proof. destruct (registered_dates (s_registered c)). apply in_window_dates; unfold service_object; by members. Qed.

(** The other kinds of claims, decoded as user claims. *)
Lemma refresh_not_user c c' : dec_claims (refresh_object c) = Ok c' -> c_IsActive c' = false.
Proof.
  apply dec_claims_inactive. unfold refresh_object. members. by rewrite registered_other by reflexivity.
Qed.
Lemma service_not_user c c' : dec_claims (service_object c) = Ok c' -> c_IsActive c' = false.
Proof.
  apply dec_claims_inactive. unfold service_object. members. by rewrite registered_other by reflexivity.
Qed.

Lemma dec_service_issuer o c r :
  dec_service o = Ok c -> dec_registered o = Ok r -> Issuer (s_registered c) = Issuer r.
Proof.
  unfold dec_service. intros (task & _ & E)%res_bind_ok Hr. rewrite Hr in E. simpl in E. by simplify_eq.
Qed.

(** A token that validates twice has the same claims, and is not past their expiry. *)
Lemma ValidateToken_ok t tok c :
  ValidateToken t tok = Ok c ->
  exists o, ParseUnverified tok = Ok o /\ dec_claims o = Ok c /\ in_window t o = true /\ c_IsActive c = true.
Proof.
  unfold ValidateToken. destruct (String.eqb tok ""); [done|].
  destruct (ParseWithClaims t keyfunc tok) as [o|e] eqn:Hp; cbn [res_bind res_wrap]; [|done].
  destruct (dec_claims o) as [c1|e] eqn:Hd; cbn [res_bind res_wrap]; [|done].
  destruct (c_IsActive c1) eqn:Ha; [|done]. intros [= <-]. exists o.
  split; [by eapply parse_unverified|]. split; [done|]. split; [by eapply parse_window|done].
Qed.

Lemma ValidateToken_same t t' tok c c' :
  ValidateToken t tok = Ok c -> ValidateToken t' tok = Ok c' -> c' = c.
Proof. intros (o & Ho & Hc & _)%ValidateToken_ok (o' & Ho' & Hc' & _)%ValidateToken_ok. congruence. Qed.

Lemma ValidateToken_alive t tok c e :
  ValidateToken t tok = Ok c -> ExpiresAt (c_registered c) = Some e -> t < e * second.
Proof.
  intros (o & _ & Hd & Hw & _)%ValidateToken_ok He. unfold dec_claims in Hd.
  repeat (apply res_bind_ok in Hd as (? & ? & Hd)). injection Hd as <-. cbn [c_registered] in He.
  match goal with Hr : dec_registered o = _ |- _ => rename Hr into Hreg end. unfold dec_registered in Hreg.
  repeat (apply res_bind_ok in Hreg as (? & ? & Hreg)). injection Hreg as <-. cbn [ExpiresAt] in He. subst.
  match goal with Hx : dec_date o "exp" = _ |- _ => unfold dec_date in Hx end.
  unfold in_window in Hw. destruct (o !! "exp") as [[]|]; simplify_eq. bool_to_prop. lia.
Qed.

Lemma user_token_life now id name email active admin roles auth key scopes tok exp :
  generateUserToken now id name email active admin roles auth key scopes = Ok (tok, exp) ->
  exp = now + TokenExpiration /\
  forall t,
    (now <= t < exp / second * second ->
     ValidateToken t tok =
     if active then Ok (user_claims now id name email active admin roles auth key scopes)
     else Err "user account is inactive") /\
    (exp / second * second <= t -> is_ok (ValidateToken t tok) = false).
Proof.
  unfold generateUserToken. set (c := user_claims _ _ _ _ _ _ _ _ _ _).
  destruct (SignedString _ _) as [tok'|] eqn:Hs; [|done]. simpl. intros [= <- <-].
  split; [done|]. intros t. pose proof (ValidateToken_signed t _ _ Hs) as Hv.
  rewrite dec_claims_object, in_window_claims in Hv.
  assert (Hw : window t (c_registered c) =
    (t <? (now + TokenExpiration) / second * second) && (now / second * second <=? t)) by done.
  rewrite Hw in Hv. pose proof (Z.mul_div_le now second ltac:(done)) as Hn.
  assert (Ha : c_IsActive c = active) by done.
  split; intros Ht.
  - destruct (ValidateToken t tok') as [c'|e].
    + destruct Hv as (_ & [= <-] & Hact). rewrite Ha in Hact. by rewrite Hact.
    + destruct Hv as [Hv|[Hv|(c' & [= <-] & Hact & ->)]]; [|done|by rewrite <- Ha, Hact].
      apply andb_false_iff in Hv as [Hv|Hv]; bool_to_prop; lia.
  - destruct (ValidateToken t tok') as [c'|e]; [|done].
    destruct Hv as (Hv & _). bool_to_prop. lia.
Qed.

Lemma user_token_valid now id name email admin roles auth key scopes tok exp t :
  generateUserToken now id name email true admin roles auth key scopes = Ok (tok, exp) ->
  now <= t < exp / second * second ->
  ValidateToken t tok = Ok (user_claims now id name email true admin roles auth key scopes).
Proof. intros Hg Ht. apply user_token_life in Hg as [_ Hg]. by apply Hg. Qed.

(** A session or API key token carries its user until it expires: within a day
    of its creation it validates to exactly the claims it was made from (or is
    refused when the user is inactive), and from its expiry on, rounded down to
    the second, it is refused. *)
Theorem user_token_roundtrip now id name email active admin roles auth key scopes tok exp :
  generateUserToken now id name email active admin roles auth key scopes = Ok (tok, exp) ->
  exp = now + TokenExpiration /\
  forall t,
    (now <= t < exp / second * second ->
     ValidateToken t tok =
     if active then Ok (user_claims now id name email active admin roles auth key scopes)
     else Err "user account is inactive") /\
    (exp / second * second <= t -> is_ok (ValidateToken t tok) = false).
Proof. apply user_token_life. Qed.

(** The three kinds of tokens are never taken for one another, at any time and
    although they share a secret: a service token is only good as a service token,
    for the task it names; a user token only as a user token; and a refresh token
    as neither. *)
Theorem token_kinds_apart now t tok exp :
  (forall id name email active admin roles auth key scopes,
     generateUserToken now id name email active admin roles auth key scopes = Ok (tok, exp) ->
     is_ok (ValidateServiceToken t tok) = false) /\
  (forall id name, GenerateRefreshToken now id name = Ok (tok, exp) ->
     is_ok (ValidateToken t tok) = false /\ is_ok (ValidateServiceToken t tok) = false) /\
  (forall task, GenerateServiceToken now task = Ok (tok, exp) ->
     is_ok (ValidateToken t tok) = false /\
     (now <= t < exp / second * second -> ValidateServiceToken t tok = Ok (service_claims now task))).
Proof.
  split; [|split].
  - intros *. unfold generateUserToken. destruct (SignedString _ _) as [tok'|] eqn:Hs; [|done].
    simpl. intros [= <- <-]. pose proof (ValidateServiceToken_signed t _ _ Hs) as Hv.
    destruct (ValidateServiceToken t tok'); [|done]. destruct Hv as (_ & Hd & Hi).
    rewrite (dec_service_issuer _ _ _ Hd (dec_registered_claims _)) in Hi. done.
  - intros *. unfold GenerateRefreshToken. destruct (SignedString _ _) as [tok'|] eqn:Hs; [|done].
    simpl. intros [= <- <-]. pose proof (ValidateToken_signed t _ _ Hs) as Hu.
    pose proof (ValidateServiceToken_signed t _ _ Hs) as Hv. split.
    + destruct (ValidateToken t tok'); [|done]. destruct Hu as (_ & Hd & Hact).
      by rewrite (refresh_not_user _ _ Hd) in Hact.
    + destruct (ValidateServiceToken t tok'); [|done]. destruct Hv as (_ & Hd & Hi).
      by rewrite (dec_service_issuer _ _ _ Hd (dec_registered_refresh _)) in Hi.
  - intros *. unfold GenerateServiceToken. destruct (SignedString _ _) as [tok'|] eqn:Hs; [|done].
    simpl. intros [= <- <-]. split.
    + pose proof (ValidateToken_signed t _ _ Hs) as Hu.
      destruct (ValidateToken t tok'); [|done]. destruct Hu as (_ & Hd & Hact).
      by rewrite (service_not_user _ _ Hd) in Hact.
    + intros Ht. pose proof (ValidateServiceToken_signed t _ _ Hs) as Hv.
      rewrite dec_service_object, in_window_service in Hv.
      destruct (ValidateServiceToken t tok') as [c'|e]; [by destruct Hv as (_ & [= <-] & _)|].
      destruct Hv as [Hv|[Hv|(c' & [= <-] & Hi)]]; [|done|done].
      change (window t _) with ((t <? (now + ServiceTokenExpiration) / second * second)
        && (now / second * second <=? t)) in Hv.
      pose proof (Z.mul_div_le now second ltac:(done)) as Hn.
      apply andb_false_iff in Hv as [Hv|Hv]; bool_to_prop; lia.
Qed.

(** Tokens made for a user in the same second share their identifier, under which
    a logout revokes them. *)
Lemma same_second_same_id now now' id auth name email active admin roles key scopes
    name' email' active' admin' roles' key' scopes' :
  now / second = now' / second ->
  ID (c_registered (user_claims now id name email active admin roles auth key scopes)) =
  ID (c_registered (user_claims now' id name' email' active' admin' roles' auth key' scopes')).
Proof. intros E. simpl. by rewrite E. Qed.
End TokenTheorems.

(** ** The context after the middleware *)

Lemma get_set_key k v c k' : g_keys (set_key k v c) !! k' = if String.eqb k k' then Some v else g_keys c !! k'.
Proof. unfold set_key. cbn [g_keys]. destruct (String.eqb_spec k k') as [->|]; by simplify_map_eq. Qed.

#[export] Hint Rewrite get_set_key : claims.

Section MiddlewareTheorems.
Context {S : Type} `{TokenVerifier S}.

Lemma JWTAuth_passed now header c c' (s s' : S) :
  g_keys c = ∅ ->
  JWTAuth now header c s = (s', Ok (Returns (Passed c'))) ->
  exists token, ExtractTokenFromHeader header = Ok token /\
  let '(s1, user) := VerifyToken now token s in
  match user with
  | Ok claims =>
      IsServiceToken c' = false /\ GetServiceTaskID c' = None /\
      GetCurrentUserID c' = Some (c_UserID claims) /\ IsCurrentUserActive c' = c_IsActive claims /\
      IsCurrentUserAdmin c' = c_IsAdmin claims /\ GetAuthType c' = c_AuthType claims /\
      GetCurrentAPIKeyScopes c' = Some (c_APIKeyScopes claims)
  | Err _ =>
      exists claims, snd (VerifyServiceToken now token s1) = Ok claims /\
      IsServiceToken c' = true /\ GetServiceTaskID c' = Some (s_TaskID claims) /\
      GetCurrentUserID c' = None /\ IsCurrentUserActive c' = false /\ GetCurrentAPIKeyScopes c' = None
  end.
Proof.
  intros Hc. unfold JWTAuth. destruct (ExtractTokenFromHeader header) as [token|e]; [|done].
  intros Hj. exists token. split; [done|]. unfold m_bind, attempt in Hj.
  destruct (VerifyToken now token s) as [s1 [claims|e]].
  - unfold set_user in Hj. destruct (ExpiresAt (c_registered claims)); [|done].
    injection Hj as <- <-.
    unfold IsServiceToken, GetServiceTaskID, GetCurrentUserID, IsCurrentUserActive, IsCurrentUserAdmin,
      GetAuthType, GetCurrentAPIKeyScopes, get_bool, get_int, get_str, get_strs.
    members. by rewrite Hc.
  - destruct (VerifyServiceToken now token s1) as [s2 [claims|e']]; [|done].
    unfold set_service in Hj. destruct (ExpiresAt (s_registered claims)); [|done].
    injection Hj as <- <-. exists claims. split; [done|].
    unfold IsServiceToken, GetServiceTaskID, GetCurrentUserID, IsCurrentUserActive,
      GetCurrentAPIKeyScopes, get_bool, get_int, get_str, get_strs.
    members. by rewrite Hc.
Qed.

(** A request gets past the authentication with a context that says what its
    token was, and only that: with a user token that was verified, the identity,
    activity, kind and scopes of its claims and no trace of a service; with a
    service token, when it is no user token, its task and no user. *)
Theorem JWTAuth_context now header c c' (s s' : S) :
  g_keys c = ∅ ->
  JWTAuth now header c s = (s', Ok (Returns (Passed c'))) ->
  exists token, ExtractTokenFromHeader header = Ok token /\
  let '(s1, user) := VerifyToken now token s in
  match user with
  | Ok claims =>
      IsServiceToken c' = false /\ GetServiceTaskID c' = None /\
      GetCurrentUserID c' = Some (c_UserID claims) /\ IsCurrentUserActive c' = c_IsActive claims /\
      IsCurrentUserAdmin c' = c_IsAdmin claims /\ GetAuthType c' = c_AuthType claims /\
      GetCurrentAPIKeyScopes c' = Some (c_APIKeyScopes claims)
  | Err _ =>
      exists claims, snd (VerifyServiceToken now token s1) = Ok claims /\
      IsServiceToken c' = true /\ GetServiceTaskID c' = Some (s_TaskID claims) /\
      GetCurrentUserID c' = None /\ IsCurrentUserActive c' = false /\ GetCurrentAPIKeyScopes c' = None
  end.
Proof. apply JWTAuth_passed. Qed.

(** Optional authentication is authentication that never refuses: a request
    that [JWTAuth] lets through has the same context, any other goes on without
    one. *)
Theorem OptionalJWTAuth_spec now header c (s : S) :
  OptionalJWTAuth now header c s =
  match JWTAuth now header c s with
  | (s', Ok (Returns (Refused _ _))) => (s', Ok (Returns (Passed c)))
  | r => r
  end.
Proof.
  unfold OptionalJWTAuth, JWTAuth. destruct (String.eqb_spec header "") as [->|_]; [done|].
  destruct (ExtractTokenFromHeader header) as [token|e]; [|done].
  unfold m_bind, attempt. destruct (VerifyToken now token s) as [s1 [claims|e]].
  - unfold set_user. by destruct (ExpiresAt (c_registered claims)).
  - destruct (VerifyServiceToken now token s1) as [s2 [claims|e']]; [|done].
    unfold set_service. by destruct (ExpiresAt (s_registered claims)).
Qed.
End MiddlewareTheorems.

(** ** A concrete library: a token is the text of its claims and key *)

Module ToyJWT.
#[global] Instance jval_countable : Countable jval.
Proof.
  refine (inj_countable'
    (fun v => match v with
              | JNull => inl (inl tt) | JBool b => inl (inr b) | JNum z => inr (inl z)
              | JStr s => inr (inr (inl s)) | JArr l => inr (inr (inr l)) end)
    (fun x => match x with
              | inl (inl _) => JNull | inl (inr b) => JBool b | inr (inl z) => JNum z
              | inr (inr (inl s)) => JStr s | inr (inr (inr l)) => JArr l end) _).
  by intros [].
Defined.

Fixpoint text_of (p : positive) : string :=
  match p with
  | xH => "."
  | xO p => String "0" (text_of p)
  | xI p => String "1" (text_of p)
  end.

Fixpoint of_text (s : string) : option positive :=
  match s with
  | String "." "" => Some xH
  | String "0" s => xO <$> of_text s
  | String "1" s => xI <$> of_text s
  | _ => None
  end.

Lemma of_text_of p : of_text (text_of p) = Some p.
Proof. induction p as [p IH|p IH|]; simpl; by rewrite ?IH. Qed.

Definition open (tok : string) : option (object * string) := p ← of_text tok; decode p.

Lemma open_sealed o key : open (text_of (encode (o, key))) = Some (o, key).
Proof. unfold open. rewrite of_text_of. simpl. apply decode_encode. Qed.

#[global] Instance toy_jwt : JWT := {
  SignedString o key := Ok (text_of (encode (o, key)));
  ParseWithClaims now keyfunc tok :=
    match open tok with
    | Some (o, key) =>
        let? k := keyfunc "HS256" in
        if String.eqb k key && in_window now o then Ok o else Err "token is invalid"
    | None => Err "token is malformed"
    end;
  ParseUnverified tok := match open tok with Some (o, _) => Ok o | None => Err "token is malformed" end
}.

#[global] Instance toy_jwt_laws : JWTLaws.
Proof.
  split; cbn.
  - intros now kf o key tok [= <-] Hk Hw. rewrite open_sealed, Hk. cbn [res_bind]. by rewrite String.eqb_refl, Hw.
  - intros now kf tok o. destruct (open tok) as [[o' key]|]; [|done].
    destruct (kf "HS256") as [k|]; [|done]. cbn. case_match eqn:E; [|done]. intros [= <-]. by bool_to_prop.
  - intros now kf tok o. destruct (open tok) as [[o' key]|]; [|done].
    destruct (kf "HS256") as [k|]; [|done]. cbn. case_match; [|done]. by intros [= <-].
  - intros o key tok [= <-]. by rewrite open_sealed.
  - intros o key tok [= <-]. by destruct (encode (o, key)).
Qed.
End ToyJWT.

Module TokenSample.
#[local] Existing Instance ToyJWT.toy_jwt.
#[local] Existing Instance ToyJWT.toy_jwt_laws.

Definition minted : string * Z :=
  match GenerateToken (5 * second) 7 "ada" "ada@x" true false ["user"] with
  | Ok t => t | Err _ => ("", 0) end.

Definition job : string * Z :=
  match GenerateServiceToken (5 * second) "t1" with Ok t => t | Err _ => ("", 0) end.

Lemma user_token_roundtrip_witness :
  ValidateToken (6 * second) (fst minted) =
    Ok (user_claims (5 * second) 7 "ada" "ada@x" true false ["user"] "user" 0 []) /\
  is_ok (ValidateToken (5 * second + TokenExpiration) (fst minted)) = false.
Proof.
  destruct (user_token_roundtrip (5 * second) 7 "ada" "ada@x" true false ["user"] "user" 0 []
    (fst minted) (snd minted)) as [E Hv]; [reflexivity|].
  split; [apply Hv | apply Hv]; rewrite E; unfold second, TokenExpiration, hour, second; vm_compute;
    intuition discriminate.
Defined.

Lemma token_kinds_apart_witness :
  is_ok (ValidateToken (6 * second) (fst job)) = false /\
  ValidateServiceToken (6 * second) (fst job) = Ok (service_claims (5 * second) "t1").
Proof.
  destruct (token_kinds_apart (5 * second) (6 * second) (fst job) (snd job)) as (_ & _ & Hj).
  destruct (Hj "t1") as [Hu Hs]; [reflexivity|].
  split; [exact Hu|]. apply Hs. vm_compute. intuition discriminate.
Defined.

(** A verifier that knows one service token. *)
#[local] Instance one_job : TokenVerifier unit :=
  { VerifyToken _ _ := m_err "no user token";
    VerifyServiceToken now tok :=
      if String.eqb tok "job" then m_ret (service_claims (5 * second) "t1") else m_err "unknown" }.

Definition fresh_request : gin_ctx := mkGin ∅ ∅.
Definition job_request : gin_ctx :=
  match snd (JWTAuth (6 * second) "Bearer job" fresh_request tt) with
  | Ok (Returns (Passed c)) => c
  | _ => fresh_request
  end.

Lemma JWTAuth_context_witness :
  IsServiceToken job_request = true /\ GetServiceTaskID job_request = Some "t1" /\
  GetCurrentUserID job_request = None.
Proof.
  destruct (JWTAuth_context (6 * second) "Bearer job" fresh_request job_request tt tt)
    as (token & Ht & claims & Hs & H1 & H2 & H3 & _); [reflexivity | vm_compute; reflexivity |].
  assert (Hj : token = "job") by (vm_compute in Ht; congruence).
  rewrite Hj in Hs. injection Hs as Hc. rewrite <- Hc in H2.
  split; [exact H1|]. split; [exact H2|exact H3].
Defined.
End TokenSample.
