(* ===== verification/AuthService.v ===== *)
(** * The authentication service ([module/auth/])

    Registration, login, sessions and API keys: [service.go] over the repositories
    of [repository.go] (the class [AuthDB]), the store of revoked tokens and used
    nonces ([token_store.go], in Redis) and the requests of [api_types.go].  An
    operation acts on a pair of database and Redis; [now] is the time it runs at,
    read once, and what it draws from [rand.Read] is an argument.  The service is
    the [TokenVerifier] of the middleware. *)

From S2P Require Import Prelude GoStrings Consts Redis Gateway PermissionTables Permissions Passwords Tokens.

(** ** Requests *)

Definition is_word (c : ascii) : bool := is_alnum c || Ascii.eqb c "_".

(** The regular expression [^[a-zA-Z0-9_]{3,20}$]. *)
Definition usernamePattern (s : string) : bool :=
  all_chars is_word s && (3 <=? str_len s) && (str_len s <=? 20).

Record RegisterReq := mkRegister { rg_Username : string; rg_Email : string; rg_Password : string }.

Definition RegisterReq_Validate (req : RegisterReq) : res unit :=
  require (usernamePattern (rg_Username req))
    "username must be 3-20 characters and contain only letters, numbers, and underscores" ;;?
  require (negb (str_len (rg_Password req) =? 0)) "password is required" ;;?
  require (negb (str_len (rg_Password req) <? 8)) "password must be at least 8 characters long".

Record LoginReq := mkLogin { lg_Username : string; lg_Password : string }.

Definition LoginReq_Validate (req : LoginReq) : res unit :=
  require (usernamePattern (lg_Username req)) "invalid username or password" ;;?
  require (negb (String.eqb (lg_Password req) "")) "invalid username or password".

Record ChangePasswordReq := mkChange { OldPassword : string; NewPassword : string }.

Definition ChangePasswordReq_Validate (req : ChangePasswordReq) : res unit :=
  require (negb (String.eqb (OldPassword req) "")) "old_password is required" ;;?
  require (negb (str_len (OldPassword req) <? 8)) "old_password must be at least 8 characters long" ;;?
  require (negb (String.eqb (NewPassword req) "")) "new_password is required" ;;?
  require (negb (str_len (NewPassword req) <? 8)) "new_password must be at least 8 characters long".

Definition defaultAPIKeyScope : string := "*".

(** The loop of [normalizeAPIKeyScopes]; [normalized] is also the set [seen]. *)
Fixpoint normalize_from (normalized : list string) (scopes : list string) : res (list string) :=
  match scopes with
  | [] => Ok normalized
  | scope :: rest =>
      let scope := trim_space scope in
      if String.eqb scope "" then Err "scopes cannot contain empty items"
      else if 128 <? str_len scope
      then Err ("scope " +:+ scope +:+ " must be no more than 128 characters long")
      else if existsb (String.eqb scope) normalized then normalize_from normalized rest
      else normalize_from (normalized ++ [scope]) rest
  end.

Definition normalizeAPIKeyScopes (scopes : list string) : res (list string) :=
  if (length scopes =? 0)%nat then Ok [defaultAPIKeyScope]
  else
    let? normalized := normalize_from [] scopes in
    if (length normalized =? 0)%nat then Ok [defaultAPIKeyScope] else Ok normalized.

Record CreateAPIKeyReq := mkCreateKey {
  ck_Name : string; ck_Description : string; ck_Scopes : list string; ck_ExpiresAt : option Z
}.

Definition CreateAPIKeyReq_Validate (now : Z) (req : CreateAPIKeyReq) : res CreateAPIKeyReq :=
  require (negb (String.eqb (ck_Name req) "")) "name is required" ;;?
  require (negb (128 <? str_len (ck_Name req))) "name must be no more than 128 characters long" ;;?
  let? normalizedScopes := normalizeAPIKeyScopes (ck_Scopes req) in
  require (match ck_ExpiresAt req with Some e => negb (e <? now) | None => true end)
    "expires_at must be in the future" ;;?
  Ok (mkCreateKey (ck_Name req) (ck_Description req) normalizedScopes (ck_ExpiresAt req)).

Record APIKeyTokenReq := mkKeyToken {
  KeyID : string; Timestamp : string; Nonce : string; Signature : string
}.

Definition APIKeyTokenReq_Validate (req : APIKeyTokenReq) : res APIKeyTokenReq :=
  let req := mkKeyToken (trim_space (KeyID req)) (trim_space (Timestamp req)) (trim_space (Nonce req))
               (to_lower (trim_space (Signature req))) in
  require (negb (String.eqb (KeyID req) "" || String.eqb (Timestamp req) ""
                 || String.eqb (Nonce req) "" || String.eqb (Signature req) ""))
    "X-Key-Id, X-Timestamp, X-Nonce and X-Signature are required" ;;?
  require (bool_decide (is_Some (atoi (Timestamp req))))
    "X-Timestamp must be a unix timestamp in seconds" ;;?
  require (negb (128 <? str_len (Nonce req))) "X-Nonce must be no more than 128 characters long" ;;?
  Ok req.

(** [strconv.ParseInt(s, 10, 64)]. *)
Definition TimestampUnix (req : APIKeyTokenReq) : res Z :=
  match atoi (Timestamp req) with
  | Some t => Ok t
  | None => Err "strconv.ParseInt: invalid syntax"
  end.

Definition newline : string := String "010" "".

Definition CanonicalString `{GoCrypto} (req : APIKeyTokenReq) (method path : string) : string :=
  join newline [to_upper method; path; Timestamp req; Nonce req; SHA256Hex ""].

(** ** The tables *)

Record User := mkUser {
  u_ID : Z; u_Username : string; u_Email : string; u_Password : string;
  u_IsActive : bool; u_Status : Z; u_LastLoginAt : option Z
}.

Record APIKey := mkKey {
  k_ID : Z; k_UserID : Z; k_Name : string; k_Description : string; k_KeyID : string;
  k_SecretHash : string; k_SecretCiphertext : string; k_Scopes : list string;
  k_RevokedAt : option Z; k_LastUsedAt : option Z; k_ExpiresAt : option Z; k_Status : Z
}.

(** Users and keys by primary key; the assignments of global roles, each with the
    name and status of the role. *)
Record auth_tables := mkAuth {
  t_users : gmap Z User;
  t_keys : gmap Z APIKey;
  t_roles : list (Z * (string * Z))
}.

Class AuthDB (D : Type) := {
  tables : D -> auth_tables;
  query : forall {A}, (auth_tables -> A) -> D -> res A;
  (** A statement, or the violation of a constraint. *)
  update : (auth_tables -> res auth_tables) -> D -> D * res unit;
  (** [db.Transaction(body)]. *)
  transaction : forall {A}, (D -> D * res A) -> D -> D * res A
}.

Class AuthDBLaws (D : Type) `{AuthDB D} := {
  query_ok : forall A (q : auth_tables -> A) d a, query q d = Ok a -> a = q (tables d);
  update_ok : forall f d d', update f d = (d', Ok tt) -> f (tables d) = Ok (tables d');
  update_err : forall f d d' e, update f d = (d', Err e) ->
    tables d' = tables d \/ f (tables d) = Ok (tables d');
  transaction_ok : forall A (body : D -> D * res A) d d' a, transaction body d = (d', Ok a) ->
    exists d1, body d = (d1, Ok a) /\ tables d' = tables d1;
  transaction_err : forall A (body : D -> D * res A) d d' e,
    transaction body d = (d', Err e) -> tables d' = tables d
}.

Definition key_le {X} (a b : Z * X) : Prop := fst a <= fst b.
#[global] Instance key_le_dec X : RelDecision (@key_le X).
Proof. intros a b. unfold key_le. apply _. Defined.

(** [First]: the row of least primary key that satisfies the condition. *)
Definition first_row {X} (p : X -> bool) (m : gmap Z X) : option X :=
  snd <$> List.find (fun kv => p (snd kv)) (merge_sort key_le (map_to_list m)).

(** [AUTO_INCREMENT]. *)
Definition next_id {X} (m : gmap Z X) : Z := 1 + foldr Z.max 0 (fst <$> map_to_list m).

Definition duplicate : string := "Error 1062: Duplicate entry".

(** The unique indexes on the name and the email of users. *)
Definition insert_user (u : User) (t : auth_tables) : res auth_tables :=
  if existsb (fun kv => String.eqb (u_Username (snd kv)) (u_Username u)
                        || String.eqb (u_Email (snd kv)) (u_Email u)) (map_to_list (t_users t))
  then Err duplicate
  else
    let id := next_id (t_users t) in
    Ok (mkAuth (<[id := mkUser id (u_Username u) (u_Email u) (u_Password u) (u_IsActive u)
                          (u_Status u) (u_LastLoginAt u)]> (t_users t)) (t_keys t) (t_roles t)).

Definition set_user_row (u : User) (t : auth_tables) : auth_tables :=
  mkAuth (<[u_ID u := u]> (t_users t)) (t_keys t) (t_roles t).
Definition set_key_row (k : APIKey) (t : auth_tables) : auth_tables :=
  mkAuth (t_users t) (<[k_ID k := k]> (t_keys t)) (t_roles t).

Definition with_id (id : Z) (k : APIKey) : APIKey :=
  mkKey id (k_UserID k) (k_Name k) (k_Description k) (k_KeyID k) (k_SecretHash k)
    (k_SecretCiphertext k) (k_Scopes k) (k_RevokedAt k) (k_LastUsedAt k) (k_ExpiresAt k) (k_Status k).

(** The unique index on the identifiers of keys that are not deleted. *)
Definition insert_key (k : APIKey) (t : auth_tables) : res auth_tables :=
  if existsb (fun kv => String.eqb (k_KeyID (snd kv)) (k_KeyID k)
                        && negb (k_Status (snd kv) =? deleted)) (map_to_list (t_keys t))
  then Err duplicate
  else Ok (set_key_row (with_id (next_id (t_keys t)) k) t).

Definition ErrAuthenticationFailed : string := "authentication failed".
Definition ErrPermissionDenied : string := "permission denied".
Definition ErrNotFound : string := "record not found".
Definition ErrAlreadyExists : string := "record already exists".
Definition ErrBadRequest : string := "bad request".

(** [fmt.Errorf("%w: message", sentinel)]. *)
Definition errw (sentinel message : string) : string := sentinel +:+ ": " +:+ message.

(** ** The service *)

Definition accessKeySignatureTTL : Z := 5 * 60 * second.

Section Service.
Context {D R : Type} `{AuthDB D} `{RedisServer R} `{GoCrypto} `{JWT}.

(** The service acts on its database and its Redis. *)
Abbreviation A := (M (D * R)).

Definition on_db {X} (m : M D X) : A X := fun s =>
  let '(d, o) := m (fst s) in ((d, snd s), o).
Definition on_redis {X} (m : M R X) : A X := fun s =>
  let '(r, o) := m (snd s) in ((fst s, r), o).
Definition select {X} (q : auth_tables -> X) : M D X := fun d => (d, query q d).

(** *** Repositories ([repository.go]).  A missing row ([gorm.ErrRecordNotFound])
    is [None], other errors are errors. *)

Definition GetByID (id : Z) : M D (option User) :=
  m_wrap ("failed to find user with id " +:+ itoa id +:+ ": ")
    (select (fun t => first_row (fun u => u_ID u =? id) (t_users t))).
Definition GetByUsername (username : string) : M D (option User) :=
  m_wrap ("failed to find user with username " +:+ username +:+ ": ")
    (select (fun t => first_row (fun u => String.eqb (u_Username u) username) (t_users t))).
Definition GetByEmail (email : string) : M D (option User) :=
  m_wrap ("failed to find user with email " +:+ email +:+ ": ")
    (select (fun t => first_row (fun u => String.eqb (u_Email u) email) (t_users t))).

(** [Create], after the hook [BeforeCreate] that hashes the password. *)
Definition create_user (salt : res string) (u : User) : M D User :=
  let! hashedPassword := m_wrap "failed to create user: failed to hash password: "
    (m_lift (HashPassword salt (u_Password u))) in
  let u := mkUser (u_ID u) (u_Username u) (u_Email u) hashedPassword (u_IsActive u) (u_Status u)
             (u_LastLoginAt u) in
  m_wrap "failed to create user: " (update (insert_user u)) ;;! m_ret u.

Definition save_user (u : User) : M D unit :=
  m_wrap "failed to update user: " (update (fun t => Ok (set_user_row u t))).

Definition UpdateLoginTime (now userID : Z) : M D unit :=
  m_wrap "failed to update user login time: "
    (update (fun t => Ok (mkAuth
       (alter (fun u => if u_Status u =? deleted then u else
                 mkUser (u_ID u) (u_Username u) (u_Email u) (u_Password u) (u_IsActive u) (u_Status u)
                   (Some now)) userID (t_users t)) (t_keys t) (t_roles t)))).

(** The names of the enabled roles of a user. *)
Definition roles_of (userID : Z) (t : auth_tables) : list string :=
  map (fun x => fst (snd x))
    (List.filter (fun x => (fst x =? userID) && (snd (snd x) =? enabled)) (t_roles t)).
Definition ListByUserID (userID : Z) : M D (list string) :=
  m_wrap "failed to get global roles of the specific user: " (select (roles_of userID)).

Definition create_key (k : APIKey) : M D unit :=
  m_wrap "failed to create api key: " (update (insert_key k)).
Definition GetByIDForUser (id userID : Z) : M D (option APIKey) :=
  m_wrap "failed to find api key: "
    (select (fun t => first_row (fun k => (k_ID k =? id) && (k_UserID k =? userID)
                                          && negb (k_Status k =? deleted)) (t_keys t))).
Definition GetByKeyID (keyID : string) : M D (option APIKey) :=
  m_wrap "failed to find api key: "
    (select (fun t => first_row (fun k => String.eqb (k_KeyID k) keyID
                                          && negb (k_Status k =? deleted)) (t_keys t))).
Definition save_key (k : APIKey) : M D unit :=
  m_wrap "failed to update api key: " (update (fun t => Ok (set_key_row k t))).
Definition UpdateLastUsedAt (id usedAt : Z) : M D unit :=
  m_wrap "failed to update api key last used time: "
    (update (fun t => Ok (mkAuth (t_users t)
       (alter (fun k => mkKey (k_ID k) (k_UserID k) (k_Name k) (k_Description k) (k_KeyID k)
                 (k_SecretHash k) (k_SecretCiphertext k) (k_Scopes k) (k_RevokedAt k) (Some usedAt)
                 (k_ExpiresAt k) (k_Status k)) id (t_keys t)) (t_roles t)))).

(** *** Revoked tokens and nonces ([token_store.go]) *)

Definition tokenBlacklistKey (tokenID : string) : string := "blacklist:token:" +:+ tokenID.
Definition apiKeyNonceKey (keyID nonce : string) : string := "api_key:nonce:" +:+ keyID +:+ ":" +:+ nonce.

Definition AddTokenToBlacklist (now : Z) (tokenID : string) (expiresAt : Z) (metaData : string) : M R unit :=
  let ttl := expiresAt - now in
  if ttl <=? 0 then m_ret tt
  else m_wrap "failed to blacklist token in Redis: " (Set_ (tokenBlacklistKey tokenID) metaData ttl).

Definition ReserveAPIKeyNonce (keyID nonce : string) (ttl : Z) : M R unit :=
  let! ok := m_wrap "failed to reserve api key nonce: " (SetNX (apiKeyNonceKey keyID nonce) "1" ttl) in
  if ok then m_ret tt
  else m_err (errw ErrAuthenticationFailed "request nonce has already been used").

Definition IsTokenBlacklisted (tokenID : string) : M R bool :=
  if String.eqb tokenID "" then m_ret false
  else m_wrap "failed to check blacklisted token: " (Exists (tokenBlacklistKey tokenID)).

(** *** Sessions *)

Definition Register (salt : res string) (req : RegisterReq) : A User :=
  on_db (transaction (
    let! byName := attempt (GetByUsername (rg_Username req)) in
    match byName with
    | Ok (Some _) => m_err (errw ErrAlreadyExists "username is already taken")
    | _ =>
        let! byEmail := attempt (GetByEmail (rg_Email req)) in
        match byEmail with
        | Ok (Some _) => m_err (errw ErrAlreadyExists "email is already registered")
        | _ => m_wrap "failed to create user: "
                 (create_user salt (mkUser 0 (rg_Username req) (rg_Email req) (rg_Password req) true enabled None))
        end
    end)).

Definition is_admin_role (name : string) : bool :=
  String.eqb name RoleSuperAdmin || String.eqb name RoleAdmin.

Definition generateTokenWithRoles (now : Z) (user : User) : M D (string * Z) :=
  let! roles := m_wrap "failed to get user roles: " (ListByUserID (u_ID user)) in
  m_wrap "failed to generate token: " (m_lift
    (GenerateToken now (u_ID user) (u_Username user) (u_Email user) (u_IsActive user)
       (existsb is_admin_role roles) roles)).

Definition generateAPIKeyTokenWithRoles (now : Z) (user : User) (apiKeyID : Z) (apiKeyScopes : list string)
  : M D (string * Z) :=
  let! roles := m_wrap "failed to get user roles: " (ListByUserID (u_ID user)) in
  m_wrap "failed to generate api key token: " (m_lift
    (GenerateAPIKeyToken now (u_ID user) (u_Username user) (u_Email user) (u_IsActive user)
       (existsb is_admin_role roles) roles apiKeyID apiKeyScopes)).

Definition invalid_login : string := errw ErrAuthenticationFailed "invalid username or password".

(** The response: the token, its expiry, the user and the first role. *)
Definition Login (now : Z) (req : LoginReq) : A (string * Z * User * string) :=
  let! (token, expiresAt, user) := on_db (transaction (
    let! user := attempt (GetByUsername (lg_Username req)) in
    match user with
    | Ok (Some user) =>
        if negb (VerifyPassword (lg_Password req) (u_Password user)) then m_err invalid_login
        else
          let! (token, expiresAt) := generateTokenWithRoles now user in
          ignore_err (UpdateLoginTime now (u_ID user)) ;;!
          m_ret (token, expiresAt, user)
    | _ => m_err invalid_login
    end)) in
  let! roles := m_wrap "failed to get user role: " (on_db (ListByUserID (u_ID user))) in
  match roles with
  | [] => m_err (errw ErrPermissionDenied "user has no assigned role")
  | role :: _ => m_ret (token, expiresAt, user, role)
  end.

Definition RefreshToken (now : Z) (token : string) : A (string * Z) :=
  let! refreshClaims := m_wrap "token refresh failed: " (m_lift (ValidateToken now token)) in
  let! user := m_wrap "user not found: " (on_db (GetByID (c_UserID refreshClaims))) in
  match user with
  | None => m_err ("user not found: failed to find user with id " +:+ itoa (c_UserID refreshClaims)
                   +:+ ": " +:+ ErrNotFound)
  | Some user => on_db (generateTokenWithRoles now user)
  end.

Definition quote (s : string) : string := String "034" (s +:+ String "034" "").

(** [json.Marshal] of the metadata of a logout. *)
Definition logout_metadata (userID : Z) : string :=
  "{" +:+ quote "reason" +:+ ":" +:+ quote "User logout" +:+ "," +:+ quote "user_id" +:+ ":"
  +:+ itoa userID +:+ "}".

(** [claims.ExpiresAt.Time] panics without an expiry; the outer result is the panic. *)
Definition Logout (now : Z) (claims : Claims) : A (outcome (res unit)) :=
  match ExpiresAt (c_registered claims) with
  | None => m_ret Panics
  | Some exp =>
      let! blacklisted := attempt (on_redis (AddTokenToBlacklist now (ID (c_registered claims))
                                     (exp * second) (logout_metadata (c_UserID claims)))) in
      m_ret (Returns (res_wrap "failed to blacklist token: " blacklisted))
  end.

(** The handler of the logout request; the status of its response. *)
Definition LogoutHandler (now : Z) (authHeader : string) : A (outcome Z) :=
  match ExtractTokenFromHeader authHeader with
  | Err _ => m_ret (Returns 400)
  | Ok token =>
      match ValidateToken now token with
      | Err _ => m_ret (Returns 401)
      | Ok claims =>
          let! result := Logout now claims in
          match result with
          | Panics => m_ret Panics
          | Returns (Ok _) => m_ret (Returns 200)
          | Returns (Err _) => m_ret (Returns 500)
          end
      end
  end.

Definition VerifyToken_ (now : Z) (token : string) : A Claims :=
  let! claims := m_lift (ValidateToken now token) in
  let! blacklisted := on_redis (IsTokenBlacklisted (ID (c_registered claims))) in
  if blacklisted then m_err (errw ErrAuthenticationFailed "token has been revoked")
  else m_ret claims.

#[global] Instance auth_verifier : TokenVerifier (D * R) :=
  { VerifyToken := VerifyToken_;
    VerifyServiceToken now token := m_lift (ValidateServiceToken now token) }.

Definition ChangePassword (salt : res string) (req : ChangePasswordReq) (userID : Z) : A unit :=
  on_db (transaction (
    let! user := m_wrap "failed to get user: " (GetByID userID) in
    match user with
    | None => m_err (errw ErrNotFound "user not found")
    | Some user =>
        if negb (VerifyPassword (OldPassword req) (u_Password user)) then m_err "invalid old password"
        else
          let! hashedPassword := m_wrap "password hashing failed: "
            (m_lift (HashPassword salt (NewPassword req))) in
          m_wrap "failed to update password: "
            (save_user (mkUser (u_ID user) (u_Username user) (u_Email user) hashedPassword
               (u_IsActive user) (u_Status user) (u_LastLoginAt user)))
    end)).

(** *** API keys.  Between the read of a key and its write back other requests may
    run: that is [between]. *)

(** [generateCredentialValue]; [rnd] is what [rand.Read] gives. *)
Definition generateCredentialValue (prefix : string) (rnd : res string) : res string :=
  res_map (fun buf => prefix +:+ EncodeToString buf) rnd.

Record key_material := mkMaterial { key_secret : string; secret_hash : string; secret_ciphertext : string }.

(** The bytes of the secret, the salt of its hash and the nonce of its encryption. *)
Definition new_secret (rnd salt nonce : res string) : res key_material :=
  let? secretKeyValue := res_wrap "failed to generate key secret: " (generateCredentialValue "ks_" rnd) in
  let? secretHash := res_wrap "failed to hash key secret: " (HashPassword salt secretKeyValue) in
  let? secretCiphertext := res_wrap "failed to encrypt key secret: " (EncryptAPIKeySecret nonce secretKeyValue) in
  Ok (mkMaterial secretKeyValue secretHash secretCiphertext).

(** The stored key and its secret, shown once. *)
Definition CreateAPIKey (rnd_id rnd salt nonce : res string) (userID : Z) (req : CreateAPIKeyReq)
  : A (APIKey * string) :=
  let! normalizedScopes := m_lift (normalizeAPIKeyScopes (ck_Scopes req)) in
  let! accessKeyValue := m_wrap "failed to generate api key id: "
    (m_lift (generateCredentialValue "pk_" rnd_id)) in
  let! secret := m_lift (new_secret rnd salt nonce) in
  let key := mkKey 0 userID (ck_Name req) (ck_Description req) accessKeyValue (secret_hash secret)
    (secret_ciphertext secret) normalizedScopes None None (ck_ExpiresAt req)
    (StatusType_code CommonEnabled) in
  on_db (create_key key) ;;!
  m_ret (key, key_secret secret).

Definition key_not_found : string := errw ErrNotFound "api key not found".

Definition GetAPIKey (userID accessKeyID : Z) : A APIKey :=
  let! key := on_db (GetByIDForUser accessKeyID userID) in
  match key with
  | None => m_err key_not_found
  | Some key => m_ret key
  end.

Definition set_status (st : Z) (revoked : option Z) (k : APIKey) : APIKey :=
  mkKey (k_ID k) (k_UserID k) (k_Name k) (k_Description k) (k_KeyID k) (k_SecretHash k)
    (k_SecretCiphertext k) (k_Scopes k) revoked (k_LastUsedAt k) (k_ExpiresAt k) st.

Definition DeleteAPIKey (between : A unit) (userID accessKeyID : Z) : A unit :=
  let! key := GetAPIKey userID accessKeyID in
  ignore_err between ;;!
  on_db (save_key (set_status (StatusType_code CommonDeleted) (k_RevokedAt key) key)).

Definition setAPIKeyStatus (between : A unit) (userID accessKeyID : Z) (status : StatusType) : A unit :=
  let! key := GetAPIKey userID accessKeyID in
  if bool_decide (status = CommonEnabled) && bool_decide (is_Some (k_RevokedAt key))
  then m_err (errw ErrBadRequest "revoked api key cannot be re-enabled")
  else
    ignore_err between ;;!
    on_db (save_key (set_status (StatusType_code status) (k_RevokedAt key) key)).

Definition DisableAPIKey (between : A unit) (userID accessKeyID : Z) : A unit :=
  setAPIKeyStatus between userID accessKeyID CommonDisabled.
Definition EnableAPIKey (between : A unit) (userID accessKeyID : Z) : A unit :=
  setAPIKeyStatus between userID accessKeyID CommonEnabled.

Definition RevokeAPIKey (between : A unit) (now userID accessKeyID : Z) : A unit :=
  let! key := GetAPIKey userID accessKeyID in
  match k_RevokedAt key with
  | Some _ => m_ret tt
  | None =>
      ignore_err between ;;!
      on_db (save_key (set_status (StatusType_code CommonDisabled) (Some now) key))
  end.

Definition set_secret (secret : key_material) (k : APIKey) : APIKey :=
  mkKey (k_ID k) (k_UserID k) (k_Name k) (k_Description k) (k_KeyID k) (secret_hash secret)
    (secret_ciphertext secret) (k_Scopes k) (k_RevokedAt k) (k_LastUsedAt k) (k_ExpiresAt k) (k_Status k).

Definition RotateAPIKey (between : A unit) (rnd salt nonce : res string) (userID accessKeyID : Z)
  : A (APIKey * string) :=
  let! key := GetAPIKey userID accessKeyID in
  match k_RevokedAt key with
  | Some _ => m_err (errw ErrBadRequest "revoked api key cannot be rotated")
  | None =>
      let! secret := m_lift (new_secret rnd salt nonce) in
      ignore_err between ;;!
      on_db (save_key (set_secret secret key)) ;;!
      m_ret (set_secret secret key, key_secret secret)
  end.

Definition auth_error (message : string) : string := errw ErrAuthenticationFailed message.

(** The checks on the key and the request, before anything is written. *)
Definition check_key (now : Z) (req : APIKeyTokenReq) (method path : string) (key : APIKey) : res unit :=
  require (k_Status key =? enabled) (auth_error "api key is disabled") ;;?
  require (negb (bool_decide (is_Some (k_RevokedAt key)))) (auth_error "api key is revoked") ;;?
  require (match k_ExpiresAt key with Some e => negb (e <? now) | None => true end)
    (auth_error "api key is expired") ;;?
  let? timestampUnix :=
    match TimestampUnix req with
    | Ok t => Ok t
    | Err _ => Err (auth_error "invalid request timestamp")
    end in
  let requestTime := timestampUnix * second in
  require (negb ((requestTime <? now - accessKeySignatureTTL) || (now + accessKeySignatureTTL <? requestTime)))
    (auth_error "request timestamp is outside the allowed window") ;;?
  let? secretKey := res_wrap "failed to decrypt api key secret: "
    (DecryptAPIKeySecret (k_SecretCiphertext key)) in
  require (VerifyAPIKeyRequestSignature secretKey (CanonicalString req method path) (Signature req))
    (auth_error "invalid api key signature").

(** The token, its expiry and the identifier of the key. *)
Definition ExchangeAPIKeyToken (now : Z) (req : APIKeyTokenReq) (method path : string)
  : A (string * Z * string) :=
  let! key := on_db (GetByKeyID (KeyID req)) in
  match key with
  | None => m_err (auth_error "invalid key id or key secret")
  | Some key =>
      m_lift (check_key now req method path key) ;;!
      on_redis (ReserveAPIKeyNonce (k_KeyID key) (Nonce req) accessKeySignatureTTL) ;;!
      let! user := on_db (GetByID (k_UserID key)) in
      match user with
      | None => m_err (auth_error "api key owner not found")
      | Some user =>
          if negb (u_IsActive user) || negb (u_Status user =? enabled)
          then m_err (auth_error "api key owner is inactive")
          else
            let! (token, expiresAt) :=
              on_db (generateAPIKeyTokenWithRoles now user (k_ID key) (k_Scopes key)) in
            ignore_err (on_db (UpdateLastUsedAt (k_ID key) now)) ;;!
            m_ret (token, expiresAt, k_KeyID key)
      end
  end.
End Service.

(** ** Rows *)

Lemma first_row_some {X} (p : X -> bool) (m : gmap Z X) x :
  first_row p m = Some x -> exists id, m !! id = Some x /\ p x = true.
Proof.
  unfold first_row. intros H. apply fmap_Some in H as ([id y] & Hf & ->).
  apply List.find_some in Hf as [Hin Hp]. exists id. split; [|done].
  apply elem_of_map_to_list. apply list_elem_of_In in Hin. by rewrite merge_sort_Permutation in Hin.
Qed.

Lemma first_row_none {X} (p : X -> bool) (m : gmap Z X) :
  first_row p m = None -> forall id x, m !! id = Some x -> p x = false.
Proof.
  unfold first_row. intros H id x Hx. apply fmap_None in H.
  apply (List.find_none _ _ H (id, x)). apply list_elem_of_In.
  rewrite merge_sort_Permutation. by apply elem_of_map_to_list.
Qed.

(** ** Runs of the service, one step at a time *)

Section ServiceTheorems.
Context {D R : Type} `{AuthDBLaws D} `{RedisLaws R} `{GoCrypto} `{JWT}.

Lemma on_db_inv {X} (m : M D X) s s' o :
  on_db (R := R) m s = (s', o) -> exists d', m (fst s) = (d', o) /\ s' = (d', snd s).
Proof. unfold on_db. destruct (m (fst s)) as [d' o']. intros [= <- <-]. eauto. Qed.
Lemma on_redis_inv {X} (m : M R X) s s' o :
  on_redis (D := D) m s = (s', o) -> exists r', m (snd s) = (r', o) /\ s' = (fst s, r').
Proof. unfold on_redis. destruct (m (snd s)) as [r' o']. intros [= <- <-]. eauto. Qed.
Lemma m_wrap_ok {S X} p (m : M S X) s s' a : m_wrap p m s = (s', Ok a) -> m s = (s', Ok a).
Proof. unfold m_wrap. destruct (m s) as [s1 [b|e]]; simpl; congruence. Qed.

Lemma select_ok {X} (q : auth_tables -> X) (d d' : D) a :
  select q d = (d', Ok a) -> d' = d /\ a = q (tables d).
Proof. unfold select. intros [= <- E]. split; [done|]. by apply query_ok. Qed.

Lemma GetByID_ok id (d d' : D) u :
  GetByID id d = (d', Ok (Some u)) -> d' = d /\ exists i, t_users (tables d) !! i = Some u /\ u_ID u = id.
Proof.
  intros E%m_wrap_ok. apply select_ok in E as [-> E]. split; [done|].
  symmetry in E. apply first_row_some in E as (i & Hi & Hp). bool_to_prop. eauto.
Qed.

Lemma GetByKeyID_ok keyID (d d' : D) k :
  GetByKeyID keyID d = (d', Ok (Some k)) ->
  d' = d /\ exists i, t_keys (tables d) !! i = Some k /\ k_KeyID k = keyID /\ k_Status k <> deleted.
Proof.
  intros E%m_wrap_ok. apply select_ok in E as [-> E]. split; [done|].
  symmetry in E. apply first_row_some in E as (i & Hi & Hp). apply andb_true_iff in Hp as [Hk%String.eqb_eq Hs].
  bool_to_prop. exists i. eauto.
Qed.

Lemma GetAPIKey_ok userID id (s s' : D * R) k :
  GetAPIKey userID id s = (s', Ok k) ->
  s' = s /\ exists i, t_keys (tables (fst s)) !! i = Some k /\
    k_ID k = id /\ k_UserID k = userID /\ k_Status k <> deleted.
Proof.
  unfold GetAPIKey. intros (s1 & [k1|] & Hg & Hr)%m_bind_ok; [|done]. injection Hr as <- <-.
  apply on_db_inv in Hg as (d' & Hg & ->). apply m_wrap_ok, select_ok in Hg as [-> E].
  split; [by destruct s|]. symmetry in E. apply first_row_some in E as (i & Hi & Hp).
  rewrite !andb_true_iff, negb_true_iff in Hp. destruct Hp as [[Hp1 Hp2] Hp3]. bool_to_prop. eauto 6.
Qed.

(** ** Exchanging a key for a token *)

Lemma ReserveAPIKeyNonce_ok keyID nonce ttl (r r' : R) :
  ReserveAPIKeyNonce keyID nonce ttl r = (r', Ok tt) ->
  kstr (apiKeyNonceKey keyID nonce) (keys r) = None /\
  keys r' = upd_str (apiKeyNonceKey keyID nonce) ("1", deadline_after ttl (keys r)) (keys r).
Proof.
  unfold ReserveAPIKeyNonce. intros (r1 & [] & Hs & Hr)%m_bind_ok; [|done]. injection Hr as <-.
  apply m_wrap_ok in Hs. unfold SetNX in Hs. apply m_wrap_ok, exec_ok in Hs. simpl in Hs.
  destruct (kstr _ (keys r)); simplify_eq. done.
Qed.

Lemma check_key_ok now req method path key :
  check_key now req method path key = Ok tt ->
  k_Status key = enabled /\ k_RevokedAt key = None /\
  (forall e, k_ExpiresAt key = Some e -> now <= e) /\
  (exists ts, TimestampUnix req = Ok ts /\
     now - accessKeySignatureTTL <= ts * second <= now + accessKeySignatureTTL) /\
  exists secret, DecryptAPIKeySecret (k_SecretCiphertext key) = Ok secret /\
    Signature req = SignAPIKeyRequest secret (CanonicalString req method path).
Proof.
  unfold check_key. intros H'.
  repeat (apply res_bind_ok in H' as (? & ? & H')).
  repeat match goal with Hr : require _ _ = Ok _ |- _ => apply require_ok in Hr end.
  destruct (TimestampUnix req) as [ts|] eqn:Ets; [|done]. simplify_eq.
  destruct (DecryptAPIKeySecret _) as [secret|]; simplify_eq/=.
  bool_to_prop.
  split; [done|]. split; [by apply eq_None_not_Some|].
  split. { intros e He. rewrite He in *. bool_to_prop. lia. }
  split. { eexists. split; [done|]. lia. }
  eexists. split; [done|]. by apply String.eqb_eq in H'.
Qed.

Definition nonce_key (req : APIKeyTokenReq) : string := apiKeyNonceKey (KeyID req) (Nonce req).

(** The steps of a successful exchange. *)
Lemma ExchangeAPIKeyToken_ok now req method path d r s' tok exp kid :
  ExchangeAPIKeyToken now req method path (d, r) = (s', Ok (tok, exp, kid)) ->
  exists key user roles,
    (exists i, t_keys (tables d) !! i = Some key) /\ k_KeyID key = KeyID req /\
    check_key now req method path key = Ok tt /\
    kstr (nonce_key req) (keys r) = None /\
    keys (snd s') = upd_str (nonce_key req) ("1", deadline_after accessKeySignatureTTL (keys r)) (keys r) /\
    (exists i, t_users (tables d) !! i = Some user) /\ u_ID user = k_UserID key /\
    u_IsActive user = true /\ u_Status user = enabled /\
    GenerateAPIKeyToken now (u_ID user) (u_Username user) (u_Email user) true
      (existsb is_admin_role roles) roles (k_ID key) (k_Scopes key) = Ok (tok, exp) /\
    roles = roles_of (u_ID user) (tables d).
Proof.
  unfold ExchangeAPIKeyToken. intros (s1 & [key|] & Hk & Hx)%m_bind_ok; [|done].
  apply on_db_inv in Hk as (d1 & Hk & ->). apply GetByKeyID_ok in Hk as (-> & i & Hi & Hid & _).
  apply m_bind_ok in Hx as (s2 & [] & Hc & Hx). injection Hc as <- Hc. cbn [fst snd] in Hx.
  apply m_bind_ok in Hx as (s3 & [] & Hn & Hx). apply on_redis_inv in Hn as (r1 & Hn & ->).
  cbn [fst snd] in Hn, Hx. apply ReserveAPIKeyNonce_ok in Hn as [Hnone Hkeys].
  apply m_bind_ok in Hx as (s4 & [user|] & Hu & Hx); [|done].
  apply on_db_inv in Hu as (d2 & Hu & ->). cbn [fst snd] in Hu, Hx.
  apply GetByID_ok in Hu as (-> & j & Hj & Huid).
  destruct (negb (u_IsActive user) || negb (u_Status user =? enabled)) eqn:Ea; [done|]. bool_to_prop.
  apply m_bind_ok in Hx as (s5 & [tok' exp'] & Hg & Hx). apply on_db_inv in Hg as (d3 & Hg & ->).
  apply m_bind_ok in Hg as (d4 & roles & Hr & Hg). apply m_wrap_ok, m_wrap_ok, select_ok in Hr as [-> ->].
  apply m_wrap_ok in Hg. injection Hg as <- Hg.
  unfold ignore_err, on_db, m_bind in Hx. cbn [fst snd] in Hx.
  destruct (UpdateLastUsedAt (k_ID key) now d) as [d5 o]. cbn [fst snd] in Hx. injection Hx as <- <- <- <-.
  match goal with Ha : u_IsActive user = true |- _ => rewrite Ha in Hg end.
  exists key, user, (roles_of (u_ID user) (tables d)). unfold nonce_key. rewrite <- Hid. cbn [snd]. eauto 20.
Qed.

(** C31. A key is exchanged for a token only when it exists, is enabled, neither
    revoked nor expired, the request is signed with its secret over the method,
    path, time and nonce, its time is within five minutes of now, its nonce was not
    in use (and is reserved from then on), and the owner is active and enabled; the
    token is then an API key token of the owner, with the scopes of the key. *)
Theorem ExchangeAPIKeyToken_sound now req method path (d d' : D) (r r' : R) tok exp kid :
  ExchangeAPIKeyToken now req method path (d, r) = ((d', r'), Ok (tok, exp, kid)) ->
  exists i key j user ts secret roles,
    t_keys (tables d) !! i = Some key /\ k_KeyID key = KeyID req /\ k_Status key = enabled /\
    k_RevokedAt key = None /\ (forall e, k_ExpiresAt key = Some e -> now <= e) /\
    TimestampUnix req = Ok ts /\
    now - accessKeySignatureTTL <= ts * second <= now + accessKeySignatureTTL /\
    DecryptAPIKeySecret (k_SecretCiphertext key) = Ok secret /\
    Signature req = SignAPIKeyRequest secret (CanonicalString req method path) /\
    kstr (nonce_key req) (keys r) = None /\ kstr (nonce_key req) (keys r') = Some "1" /\
    t_users (tables d) !! j = Some user /\ u_ID user = k_UserID key /\
    u_IsActive user = true /\ u_Status user = enabled /\
    GenerateAPIKeyToken now (u_ID user) (u_Username user) (u_Email user) true
      (existsb is_admin_role roles) roles (k_ID key) (k_Scopes key) = Ok (tok, exp).
Proof.
  intros (key & user & roles & (i & Hi) & Hid & Hc & Hn & Hk & (j & Hj) & Hu & Ha & Hs & Hg & _)
    %ExchangeAPIKeyToken_ok.
  apply check_key_ok in Hc as (Hst & Hrev & Hexp & (ts & Hts & Hw) & secret & Hsec & Hsig).
  exists i, key, j, user, ts, secret, roles. cbn [snd] in Hk.
  assert (kstr (nonce_key req) (keys r') = Some "1"); [|naive_solver].
  rewrite Hk. unfold kstr, deadline_after. simpl. rewrite lookup_insert_eq.
  replace (_ <? _) with true; [done|]. symmetry. apply Z.ltb_lt. unfold accessKeySignatureTTL, second. lia.
Qed.

(** A signed request is good once: after an exchange whose time stamp is
    already past, the same request fails at any later time, whatever happened to
    the database and to other keys of Redis meanwhile, for its nonce is still
    reserved or its time stamp has become too old. *)
Theorem exchange_not_replayed now now' req method path (d d1 d2 : D) (r r1 r2 : R) a ts :
  ExchangeAPIKeyToken now req method path (d, r) = ((d1, r1), Ok a) ->
  TimestampUnix req = Ok ts -> ts * second < now -> now <= now' ->
  ks_str (keys r2) !! nonce_key req = ks_str (keys r1) !! nonce_key req ->
  ks_clock (keys r2) = ks_clock (keys r1) + (now' - now) ->
  is_ok (snd (ExchangeAPIKeyToken now' req method path (d2, r2))) = false.
Proof.
  destruct a as [[tok exp] kid]. intros Hx Hts Hpast Hnow Hstr Hclock.
  apply ExchangeAPIKeyToken_ok in Hx as (_ & _ & _ & _ & _ & _ & _ & Hk & _). cbn [snd] in Hk.
  destruct (ExchangeAPIKeyToken now' req method path (d2, r2)) as [s' [[[tok' exp'] kid']|e]] eqn:Hx;
    [|done]. exfalso.
  apply ExchangeAPIKeyToken_ok in Hx as (key & _ & _ & _ & _ & Hc & Hn & _).
  apply check_key_ok in Hc as (_ & _ & _ & (ts' & Hts' & Hw) & _).
  rewrite Hts in Hts'. injection Hts' as <-.
  unfold kstr in Hn. rewrite Hstr, Hk in Hn. simpl in Hn. rewrite lookup_insert_eq in Hn.
  unfold deadline_after in Hn. replace (0 <? accessKeySignatureTTL) with true in Hn by done.
  destruct (_ <? _) eqn:El; [done|]. rewrite Hclock, Hk in El. simpl in El. bool_to_prop. lia.
Qed.
End ServiceTheorems.

(** ** Revocation is final, one request at a time *)

(** Keys sit under their identifier, and a revoked key is not enabled. *)
Definition keys_good (t : auth_tables) : Prop :=
  forall i k, t_keys t !! i = Some k ->
    k_ID k = i /\ (is_Some (k_RevokedAt k) -> k_Status k <> enabled).

(** Every revoked key is still there and revoked, at the time it was. *)
Definition revocations_kept (t t' : auth_tables) : Prop :=
  forall i k, t_keys t !! i = Some k -> is_Some (k_RevokedAt k) ->
    exists k', t_keys t' !! i = Some k' /\ k_RevokedAt k' = k_RevokedAt k.

#[export] Instance revocations_kept_preorder : PreOrder revocations_kept.
Proof.
  split; [intros t i k Hk Hr; eauto|].
  intros t1 t2 t3 H12 H23 i k Hk Hr. destruct (H12 i k Hk Hr) as (k2 & Hk2 & E2).
  destruct (H23 i k2 Hk2) as (k3 & Hk3 & E3); [by rewrite E2|]. exists k3. by rewrite E3, E2.
Qed.

Definition key_step (t t' : auth_tables) : Prop :=
  keys_good t -> keys_good t' /\ revocations_kept t t'.

#[export] Instance key_step_preorder : PreOrder key_step.
Proof.
  split; [intros t Ht; split; [done|reflexivity]|].
  intros t1 t2 t3 H12 H23 Hg. destruct (H12 Hg) as [Hg2 K12]. destruct (H23 Hg2) as [Hg3 K23].
  split; [done|by etransitivity].
Qed.

(** Writing back a key that was read, changed without undoing a revocation. *)
Lemma key_step_save t i k k' :
  t_keys t !! i = Some k -> k_ID k' = k_ID k ->
  (is_Some (k_RevokedAt k) -> k_RevokedAt k' = k_RevokedAt k) ->
  (is_Some (k_RevokedAt k') -> k_Status k' <> enabled) ->
  key_step t (set_key_row k' t).
Proof.
  intros Hk Hid Hr Hs Hg. destruct (Hg i k Hk) as [Hi _]. split.
  - intros j x Hx. unfold set_key_row in Hx. simpl in Hx. rewrite Hid, Hi in Hx.
    destruct (decide (j = i)) as [->|Hj]; simplify_map_eq; [split; [congruence|done] | by apply Hg].
  - intros j x Hx Hrev. unfold set_key_row. simpl. rewrite Hid, Hi.
    destruct (decide (j = i)) as [->|Hj]; simplify_map_eq; eauto.
Qed.

Lemma next_id_fresh {X} (m : gmap Z X) : m !! next_id m = None.
Proof.
  apply eq_None_not_Some. intros [x Hx]. unfold next_id in Hx.
  assert (Hmax : forall (l : list Z) z, z ∈ l -> z <= foldr Z.max 0 l).
  { induction l as [|y l IH]; intros z Hz; [by apply not_elem_of_nil in Hz|]. simpl.
    apply elem_of_cons in Hz as [->|Hz]; [lia|]. specialize (IH z Hz). lia. }
  apply elem_of_map_to_list in Hx. apply (list_elem_of_fmap_2 fst) in Hx. simpl in Hx.
  apply Hmax in Hx. lia.
Qed.

Lemma key_step_insert t t' k :
  insert_key k t = Ok t' -> k_RevokedAt k = None -> key_step t t'.
Proof.
  unfold insert_key. destruct (existsb _ _); [done|]. intros [= <-] Hr Hg.
  pose proof (next_id_fresh (t_keys t)) as Hf. split.
  - intros j x Hx. unfold set_key_row in Hx. simpl in Hx.
    destruct (decide (j = next_id (t_keys t))) as [->|Hj]; simplify_map_eq; [|by apply Hg].
    split; [done|]. simpl. rewrite Hr. by intros [].
  - intros j x Hx Hrev. unfold set_key_row. simpl. exists x.
    rewrite lookup_insert_ne; [done|]. intros Hj. rewrite <- Hj in Hx. congruence.
Qed.

Lemma key_step_used t id usedAt :
  key_step t (mkAuth (t_users t)
    (alter (fun k => mkKey (k_ID k) (k_UserID k) (k_Name k) (k_Description k) (k_KeyID k)
              (k_SecretHash k) (k_SecretCiphertext k) (k_Scopes k) (k_RevokedAt k) (Some usedAt)
              (k_ExpiresAt k) (k_Status k)) id (t_keys t)) (t_roles t)).
Proof.
  intros Hg. split.
  - intros j x Hx. simpl in Hx. destruct (decide (id = j)) as [->|Hj].
    + rewrite lookup_alter_eq in Hx. apply fmap_Some in Hx as (k & Hk & ->). simpl. by apply Hg.
    + rewrite lookup_alter_ne in Hx by done. by apply Hg.
  - intros j x Hx Hrev. simpl. destruct (decide (id = j)) as [->|Hj].
    + rewrite lookup_alter_eq, Hx. simpl. eauto.
    + rewrite lookup_alter_ne by done. eauto.
Qed.

Section Revocation.
Context {D R : Type} `{AuthDBLaws D} `{RedisLaws R} `{GoCrypto} `{JWT}.

(** A request on the keys; [now] where the code reads the clock, the random bytes
    where it draws some. *)
Inductive key_op :=
| OpCreate (rnd_id rnd salt nonce : res string) (userID : Z) (req : CreateAPIKeyReq)
| OpDelete (userID id : Z)
| OpDisable (userID id : Z)
| OpEnable (userID id : Z)
| OpRevoke (now userID id : Z)
| OpRotate (rnd salt nonce : res string) (userID id : Z)
| OpExchange (now : Z) (req : APIKeyTokenReq) (method path : string).

Definition alone : M (D * R) unit := m_ret tt.

Definition run_key_op (op : key_op) (s : D * R) : D * R :=
  match op with
  | OpCreate rnd_id rnd salt nonce userID req => fst (CreateAPIKey rnd_id rnd salt nonce userID req s)
  | OpDelete userID id => fst (DeleteAPIKey alone userID id s)
  | OpDisable userID id => fst (DisableAPIKey alone userID id s)
  | OpEnable userID id => fst (EnableAPIKey alone userID id s)
  | OpRevoke now userID id => fst (RevokeAPIKey alone now userID id s)
  | OpRotate rnd salt nonce userID id => fst (RotateAPIKey alone rnd salt nonce userID id s)
  | OpExchange now req method path => fst (ExchangeAPIKeyToken now req method path s)
  end.

Definition run_key_ops (ops : list key_op) (s : D * R) : D * R := fold_left (fun s op => run_key_op op s) ops s.

(** What a computation may do to the keys. *)
Definition steps {X} (m : M (D * R) X) : Prop :=
  forall s, key_step (tables (fst s)) (tables (fst (fst (m s)))).

Lemma steps_bind {X Y} (m : M (D * R) X) (f : X -> M (D * R) Y) :
  steps m -> (forall x, steps (f x)) -> steps (m_bind m f).
Proof.
  intros Hm Hf s. unfold m_bind. specialize (Hm s). destruct (m s) as [s1 [x|e]]; [|done].
  etransitivity; [exact Hm | apply Hf].
Qed.
Lemma steps_lift {X} (o : res X) : steps (m_lift o).
Proof. intros s. reflexivity. Qed.
Lemma steps_redis {X} (m : M R X) : steps (on_redis m).
Proof. intros s. unfold on_redis. destruct (m (snd s)). reflexivity. Qed.
Lemma steps_ignore {X} (m : M (D * R) X) : steps m -> steps (ignore_err m).
Proof. done. Qed.
Lemma steps_wrap {X} p (m : M (D * R) X) : steps m -> steps (m_wrap p m).
Proof. intros Hm s. unfold m_wrap. specialize (Hm s). by destruct (m s). Qed.
Lemma steps_select {X} p (q : auth_tables -> X) : steps (on_db (m_wrap p (select q))).
Proof. intros s. unfold on_db, m_wrap, select. reflexivity. Qed.

(** A statement makes its step or none. *)
Lemma steps_update p (f : auth_tables -> res auth_tables) s :
  (forall t', f (tables (fst s)) = Ok t' -> key_step (tables (fst s)) t') ->
  key_step (tables (fst s)) (tables (fst (fst (on_db (R := R) (m_wrap p (update f)) s)))).
Proof.
  intros Hf. unfold on_db, m_wrap. destruct (update f (fst s)) as [d' [[]|e]] eqn:E; cbn [fst].
  - apply update_ok in E. by apply Hf.
  - apply update_err in E as [->|E]; [reflexivity|by apply Hf].
Qed.

Lemma GetAPIKey_run userID id (s : D * R) :
  exists o, GetAPIKey userID id s = (s, o) /\
  match o with
  | Ok k => exists i, t_keys (tables (fst s)) !! i = Some k /\ k_ID k = id /\ k_UserID k = userID
  | Err _ => True
  end.
Proof.
  destruct (GetAPIKey userID id s) as [s' o] eqn:E. exists o.
  assert (s' = s) as ->.
  { destruct s as [d r]. unfold GetAPIKey, GetByIDForUser, m_bind, on_db, m_wrap, select, m_ret, m_err in E.
    cbn [fst snd] in E. destruct (res_wrap _ _) as [[k|]|e]; congruence. }
  split; [done|]. destruct o as [k|]; [|done].
  apply GetAPIKey_ok in E as (_ & i & Hi & Hid & Hu & _). eauto.
Qed.

(** Read, change, write back. *)
Lemma steps_edit {X} userID id (f : APIKey -> M (D * R) X) :
  (forall k i s, t_keys (tables (fst s)) !! i = Some k -> keys_good (tables (fst s)) ->
     key_step (tables (fst s)) (tables (fst (fst (f k s))))) ->
  steps (m_bind (GetAPIKey userID id) f).
Proof.
  intros Hf s Hg. unfold m_bind. destruct (GetAPIKey_run userID id s) as ([k|e] & -> & Hk).
  - destruct Hk as (i & Hi & _). by apply (Hf k i s).
  - by apply (reflexivity (R := key_step)).
Qed.

Lemma save_step k i k' (s : D * R) :
  t_keys (tables (fst s)) !! i = Some k -> k_ID k' = k_ID k ->
  (is_Some (k_RevokedAt k) -> k_RevokedAt k' = k_RevokedAt k) ->
  (is_Some (k_RevokedAt k') -> k_Status k' <> enabled) ->
  key_step (tables (fst s)) (tables (fst (fst (on_db (save_key k') s)))).
Proof.
  intros Hk Hid Hr Hs. apply steps_update. intros t' [= <-]. by eapply key_step_save.
Qed.

Lemma status_codes :
  StatusType_code CommonDeleted <> enabled /\ StatusType_code CommonDisabled <> enabled.
Proof. by vm_compute. Qed.

Lemma run_key_op_steps op (s : D * R) : key_step (tables (fst s)) (tables (fst (run_key_op op s))).
Proof.
  destruct status_codes as [Hdel Hdis].
  assert (Hset : forall userID id st, steps (setAPIKeyStatus (D := D) (R := R) alone userID id st)).
  { intros userID id st. apply steps_edit. intros k i s0 Hk Hg.
    destruct (bool_decide (st = CommonEnabled) && _) eqn:E; [reflexivity|].
    unfold m_bind, ignore_err, alone, m_ret. cbn [fst snd]. eapply save_step; try done. simpl.
    intros Hr. apply andb_false_iff in E as [E|E]; bool_to_prop; [|done]. by destruct st. }
  destruct op; cbn [run_key_op]; try apply Hset.
  - revert s. change (steps (CreateAPIKey rnd_id rnd salt nonce userID req)).
    repeat (apply steps_bind; [first [apply steps_lift | apply steps_wrap, steps_lift] | intros ?]).
    apply steps_bind; [|intros []; apply steps_lift]. intros s. apply steps_update.
    intros t' Ht. by eapply key_step_insert.
  - apply steps_edit. intros k i s0 Hk Hg. unfold m_bind, ignore_err, alone, m_ret. cbn [fst snd].
    by eapply save_step.
  - apply steps_edit. intros k i s0 Hk Hg. destruct (k_RevokedAt k) as [t|] eqn:Hr; [reflexivity|].
    unfold m_bind, ignore_err, alone, m_ret. cbn [fst snd]. eapply save_step; try done.
    rewrite Hr. by intros [].
  - apply steps_edit. intros k i s0 Hk Hg. destruct (k_RevokedAt k) as [t|] eqn:Hr; [reflexivity|].
    unfold m_bind at 1. unfold m_lift. destruct (new_secret rnd salt nonce) as [secret|e]; [|reflexivity].
    unfold m_bind, ignore_err, alone, m_ret. cbn [fst snd].
    pose proof (save_step k i (set_secret secret k) s0 Hk) as Hs.
    destruct (on_db (save_key (set_secret secret k)) s0) as [s1 [u|e]]; cbn [fst] in *; apply Hs; try done;
      simpl; rewrite Hr; by intros [].
  - revert s. change (steps (ExchangeAPIKeyToken now req method path)).
    apply steps_bind; [apply steps_select|]. intros [key|]; [|apply (steps_lift (Err _))].
    apply steps_bind; [apply steps_lift|]. intros _. apply steps_bind; [apply steps_redis|]. intros _.
    apply steps_bind; [apply steps_select|]. intros [user|]; [|apply (steps_lift (Err _))].
    destruct (_ || _); [apply (steps_lift (Err _))|].
    apply steps_bind.
    { intros s. unfold on_db, generateAPIKeyTokenWithRoles, ListByUserID, m_bind, m_wrap, select, m_lift.
      cbn [fst snd].
      destruct (query (roles_of (u_ID user)) (fst s)); reflexivity. }
    intros [tok exp]. apply steps_bind; [|intros []; apply steps_lift].
    apply steps_ignore. intros s. apply steps_update. intros t' [= <-]. apply key_step_used.
Qed.

(** C37. Revoking a key is final: whatever requests follow, one after the other, of
    whatever users, with statements that fail or take effect, the key stays
    revoked since the same time and is never enabled again (so that no exchange
    accepts it). *)
Theorem revocation_is_final ops (s : D * R) i k :
  keys_good (tables (fst s)) -> t_keys (tables (fst s)) !! i = Some k -> is_Some (k_RevokedAt k) ->
  exists k', t_keys (tables (fst (run_key_ops ops s))) !! i = Some k' /\
    k_RevokedAt k' = k_RevokedAt k /\ k_Status k' <> enabled.
Proof.
  intros Hg Hk Hr.
  assert (Hs : key_step (tables (fst s)) (tables (fst (run_key_ops ops s)))).
  { clear Hg Hk Hr. revert s. induction ops as [|op ops IH]; intros s; [reflexivity|]. cbn [run_key_ops fold_left].
    etransitivity; [apply run_key_op_steps | apply IH]. }
  destruct (Hs Hg) as [Hg' Hkept]. destruct (Hkept i k Hk Hr) as (k' & Hk' & E).
  exists k'. split; [done|]. split; [done|]. apply (Hg' i k' Hk'). by rewrite E.
Qed.

(** A revocation can be lost: a status change that had read the key before it
    was revoked writes the whole row back, so that whatever ran in between, the
    key ends up as it was read, in the new status; enabling it leaves a revoked
    key enabled and not revoked. *)
Theorem status_change_overwrites between userID id status (s s' : D * R) :
  setAPIKeyStatus between userID id status s = (s', Ok tt) ->
  exists i k, t_keys (tables (fst s)) !! i = Some k /\ k_ID k = id /\
    t_keys (tables (fst s')) !! id = Some (set_status (StatusType_code status) (k_RevokedAt k) k) /\
    (status = CommonEnabled -> k_RevokedAt k = None).
Proof.
  unfold setAPIKeyStatus. intros (s1 & k & Hk & Hx)%m_bind_ok.
  apply GetAPIKey_ok in Hk as (-> & i & Hi & Hid & _).
  destruct (bool_decide (status = CommonEnabled) && _) eqn:E; [done|].
  apply m_bind_ok in Hx as (s2 & [] & _ & Hx). apply on_db_inv in Hx as (d' & Hx & ->).
  apply m_wrap_ok, update_ok in Hx. injection Hx as Hx.
  exists i, k. split; [done|]. split; [done|]. split.
  - cbn [fst]. rewrite <- Hx. simpl. rewrite Hid. by rewrite lookup_insert_eq.
  - intros ->. apply andb_false_iff in E as [E|E]; bool_to_prop; [done|]. by apply eq_None_not_Some.
Qed.
End Revocation.

(** ** Sessions *)

Section SessionTheorems.
Context {D R : Type} `{AuthDBLaws D} `{RedisLaws R} `{GoCrypto} `{JWTLaws}.

Lemma m_bind_eq {S X Y} (m : M S X) (f : X -> M S Y) s s1 a : m s = (s1, Ok a) -> m_bind m f s = f a s1.
Proof. unfold m_bind. by intros ->. Qed.
Lemma m_wrap_eq {S X} p (m : M S X) s s1 a : m s = (s1, Ok a) -> m_wrap p m s = (s1, Ok a).
Proof. unfold m_wrap. by intros ->. Qed.
Lemma on_db_eq {X} (m : M D X) d d' (r : R) o : m d = (d', o) -> on_db m (d, r) = ((d', r), o).
Proof. unfold on_db. cbn [fst snd]. by intros ->. Qed.

(** A token that the service accepts is valid and not revoked. *)
Lemma VerifyToken_inv now tok (s s' : D * R) c :
  VerifyToken now tok s = (s', Ok c) ->
  ValidateToken now tok = Ok c /\
  (ID (c_registered c) = "" \/ kstr (tokenBlacklistKey (ID (c_registered c))) (keys (snd s)) = None).
Proof.
  change (VerifyToken now tok s) with (VerifyToken_ now tok s). unfold VerifyToken_. intros (s1 & c1 & Hv & Hb)%m_bind_ok. unfold m_lift in Hv. injection Hv as <- Hv.
  apply m_bind_ok in Hb as (s2 & b & Hb & Hr). destruct b; [done|]. injection Hr as <- <-.
  split; [done|]. apply on_redis_inv in Hb as (r' & Hb & _). unfold IsTokenBlacklisted in Hb.
  destruct (String.eqb_spec (ID (c_registered c1)) ""); [by left|]. right.
  apply m_wrap_ok in Hb. unfold Exists in Hb. apply m_wrap_ok, exec_ok in Hb. simpl in Hb.
  injection Hb as _ Hb. unfold kexists in Hb. bool_to_prop. by apply eq_None_not_Some.
Qed.

(** Logging out ends a session: once a logout has been answered with success,
    the token it carried is refused at every later time, whatever happened to the
    database and to other keys of Redis, and also when Redis does not answer. *)
Theorem logout_is_final now now' header tok (d d1 d2 : D) (r r1 r2 : R) c :
  ExtractTokenFromHeader header = Ok tok ->
  LogoutHandler now header (d, r) = ((d1, r1), Ok (Returns 200)) ->
  ValidateToken now tok = Ok c -> ID (c_registered c) <> "" -> now <= now' ->
  let key := tokenBlacklistKey (ID (c_registered c)) in
  ks_str (keys r2) !! key = ks_str (keys r1) !! key ->
  ks_clock (keys r2) = ks_clock (keys r1) + (now' - now) ->
  is_ok (snd (VerifyToken now' tok (d2, r2))) = false.
Proof.
  intros Ht Hl Hc Hid Hnow key Hstr Hclock. unfold LogoutHandler in Hl. rewrite Ht, Hc in Hl.
  apply m_bind_ok in Hl as (s1 & o & Hl & Ho). destruct o as [[u|e]|]; [|done|done]. injection Ho as ->.
  unfold Logout in Hl. destruct (ExpiresAt (c_registered c)) as [e|] eqn:He; [|done].
  pose proof (ValidateToken_alive _ _ _ _ Hc He) as Halive.
  apply m_bind_ok in Hl as (s2 & b & Hb & Hr). injection Hr as -> Hr. unfold attempt in Hb.
  destruct (on_redis _ (d, r)) as [s3 [[]|e']] eqn:Ha; [|injection Hb as _ <-; discriminate Hr].
  injection Hb as -> _. apply on_redis_inv in Ha as (r3 & Ha & [= <- <-]).
  unfold AddTokenToBlacklist in Ha. cbn [snd] in Ha.
  destruct (e * second - now <=? 0) eqn:Ettl; bool_to_prop; [lia|].
  apply m_wrap_ok in Ha. unfold Set_ in Ha. apply m_wrap_ok, exec_ok in Ha. simpl in Ha. injection Ha as Hk.
  fold key in Hk.
  destruct (VerifyToken now' tok (d2, r2)) as [s' [c'|e']] eqn:Hv; [|done]. exfalso.
  apply VerifyToken_inv in Hv as [Hv Hb].
  assert (c' = c) as -> by exact (ValidateToken_same _ _ _ _ _ Hc Hv). destruct Hb as [Hb|Hb]; [done|].
  pose proof (ValidateToken_alive _ _ _ _ Hv He) as Halive'.
  cbn [snd] in Hb. fold key in Hb. unfold kstr in Hb. rewrite Hstr, Hclock, <- Hk in Hb. simpl in Hb.
  rewrite lookup_insert_eq in Hb. unfold deadline_after in Hb.
  replace (0 <? e * second - now) with true in Hb by (symmetry; apply Z.ltb_lt; lia).
  destruct (_ <? _) eqn:El; [done|]. bool_to_prop. lia.
Qed.

(** A refresh ignores revocation and raises API keys: the answer does not
    depend on Redis, so a token whose session was ended is still refreshed; and
    whatever kind the token was, the new one of an active user is a session
    without scopes. *)
Theorem refresh_ignores_revocation now tok (d d' : D) (r r' : R) tok' exp :
  RefreshToken now tok (d, r) = ((d', r'), Ok (tok', exp)) ->
  (forall r2 : R, RefreshToken now tok (d, r2) = ((d', r2), Ok (tok', exp))) /\
  exists c i user, ValidateToken now tok = Ok c /\
    t_users (tables d) !! i = Some user /\ u_ID user = c_UserID c /\
    (u_IsActive user = true -> forall t, now <= t < exp / second * second ->
     exists c', ValidateToken t tok' = Ok c' /\ c_UserID c' = c_UserID c /\
       c_AuthType c' = "user" /\ c_APIKeyScopes c' = []).
Proof.
  intros Hr.
  pose proof Hr as Hinv. unfold RefreshToken in Hinv.
  apply m_bind_ok in Hinv as (s1 & c & Hc & Hx). apply m_wrap_ok in Hc. injection Hc as <- Hc.
  apply m_bind_ok in Hx as (s2 & [user|] & Hu & Hx); [|done]. apply m_wrap_ok in Hu.
  apply on_db_inv in Hu as (d1 & Hu & ->). pose proof Hu as Hu'.
  apply GetByID_ok in Hu as (-> & i & Hi & Hid). cbn [fst snd] in *.
  apply on_db_inv in Hx as (d2 & Hg & [= -> ->]). cbn [fst snd] in *. split.
  - intros r2. unfold RefreshToken.
    rewrite (m_bind_eq _ _ (d, r2) (d, r2) c) by (apply m_wrap_eq; unfold m_lift; by rewrite Hc).
    rewrite (m_bind_eq _ _ (d, r2) (d, r2) (Some user)) by (apply m_wrap_eq; by apply on_db_eq).
    by apply on_db_eq.
  - exists c, i, user. split; [done|]. split; [done|]. split; [done|]. intros Ha t Ht.
    apply m_bind_ok in Hg as (d3 & roles & _ & Hg). apply m_wrap_ok in Hg. injection Hg as _ Hg.
    rewrite Ha in Hg. apply (user_token_valid now) with (t := t) in Hg; [|done].
    eexists. split; [exact Hg|]. done.
Qed.

(** A login succeeds only with the password of the user, and for a user who
    holds an enabled role, the one it reports; the token is a session of that
    user. *)
Theorem Login_sound now req (d : D) (r : R) s' tok exp user role :
  Login now req (d, r) = (s', Ok (tok, exp, user, role)) ->
  (exists i, t_users (tables d) !! i = Some user) /\ u_Username user = lg_Username req /\
  VerifyPassword (lg_Password req) (u_Password user) = true /\
  role ∈ roles_of (u_ID user) (tables (fst s')) /\ snd s' = r /\
  exists roles, roles = roles_of (u_ID user) (tables d) /\
    GenerateToken now (u_ID user) (u_Username user) (u_Email user) (u_IsActive user)
      (existsb is_admin_role roles) roles = Ok (tok, exp).
Proof.
  unfold Login. intros (s1 & [[tok1 exp1] user1] & Ht & Hx)%m_bind_ok.
  apply on_db_inv in Ht as (d1 & Ht & ->). cbn [fst snd] in *.
  apply transaction_ok in Ht as (d2 & Ht & Hd1).
  apply m_bind_ok in Hx as (s2 & roles & Hroles & Hx).
  apply m_wrap_ok, on_db_inv in Hroles as (d3 & Hroles & ->). cbn [fst snd] in *.
  apply m_wrap_ok, select_ok in Hroles as [-> Eroles].
  destruct roles as [|role1 roles]; [done|]. injection Hx as <- <- <- <- <-. cbn [fst snd].
  apply m_bind_ok in Ht as (d4 & o & Hu & Ht). unfold attempt in Hu.
  destruct (GetByUsername _ d) as [d5 o5] eqn:Hg. injection Hu as <- <-.
  destruct o5 as [[u|]|]; [|done|done].
  apply m_wrap_ok, select_ok in Hg as [-> Eu]. symmetry in Eu. apply first_row_some in Eu as (i & Hi & Hp).
  apply String.eqb_eq in Hp. destruct (VerifyPassword _ _) eqn:Hpw; [|done]. cbn [negb] in Ht.
  apply m_bind_ok in Ht as (d6 & [tok2 exp2] & Hgen & Ht).
  apply m_bind_ok in Hgen as (d7 & rs & Hrs & Hgen).
  apply m_wrap_ok, m_wrap_ok, select_ok in Hrs as [-> ->]. apply m_wrap_ok in Hgen. injection Hgen as <- Hgen.
  unfold ignore_err, m_bind in Ht. injection Ht as <- <- <- <-.
  split; [by exists i|]. split; [done|]. split; [done|]. split; [rewrite <- Eroles; by left|].
  split; [done|]. by eexists.
Qed.

(** C7. A request that passes the authentication and then a permission check was
    entitled to: it carried a service token; or the valid, unrevoked token of an
    active user, for whom the check said yes. *)
Theorem authorised_request {C : Type} `{PermissionChecker C} now header check (db : C) c c' (s s' : D * R) :
  g_keys c = ∅ ->
  JWTAuth now header c s = (s', Ok (Returns (Passed c'))) ->
  withPermissionCheck db check c' = Next ->
  exists tok, ExtractTokenFromHeader header = Ok tok /\
    ((exists sc, ValidateServiceToken now tok = Ok sc) \/
     exists claims, ValidateToken now tok = Ok claims /\
       (ID (c_registered claims) = "" \/
        kstr (tokenBlacklistKey (ID (c_registered claims))) (keys (snd s)) = None) /\
       0 < c_UserID claims /\ c_IsActive claims = true /\
       check (context_of c' (c_UserID claims)) db = Ok true).
Proof.
  intros Hc Hj Hp. apply JWTAuth_passed in Hj as (tok & Htok & Hj); [|done].
  exists tok. split; [done|]. apply withPermissionCheck_next in Hp.
  destruct (VerifyToken now tok s) as [s1 [claims|e]] eqn:Hv.
  - right. exists claims. apply VerifyToken_inv in Hv as [Hv Hb].
    destruct Hj as (Hs & _ & Hid & Hact & _). destruct Hp as [Hp|(id & Hi & Hpos & Ha & Hchk)]; [congruence|].
    rewrite Hid in Hi. injection Hi as <-. rewrite Hact in Ha. eauto 8.
  - left. destruct Hj as (sc & Hsc & _). cbn in Hsc. unfold m_lift in Hsc. eauto.
Qed.
End SessionTheorems.

(** ** Passwords of users *)

Section PasswordTheorems.
Context {D R : Type} `{AuthDBLaws D} `{RedisLaws R} `{GoCrypto} `{JWT}.

Lemma attempt_select {X Y} p (q : auth_tables -> X) (f : res X -> M D Y) d :
  m_bind (attempt (m_wrap p (select q))) f d = f (res_wrap p (query q d)) d.
Proof. done. Qed.

(** What is left of a registration that succeeds: the row is created. *)
Lemma Register_creates salt req (d : D) (r : R) s' u :
  Register salt req (d, r) = (s', Ok u) ->
  exists d', create_user salt (mkUser 0 (rg_Username req) (rg_Email req) (rg_Password req) true enabled None) d
    = (d', Ok u) /\ tables (fst s') = tables d'.
Proof.
  unfold Register. intros Hr. apply on_db_inv in Hr as (d1 & Hr & ->). cbn [fst snd] in *.
  apply transaction_ok in Hr as (d2 & Hr & ->). exists d2. split; [|done].
  unfold GetByUsername, GetByEmail in Hr. rewrite attempt_select in Hr.
  destruct (res_wrap _ _) as [[x|]|e1]; [done| |]; rewrite attempt_select in Hr;
    (destruct (res_wrap _ _) as [[x|]|e2]; [done| |]); by apply m_wrap_ok in Hr.
Qed.

(** A registration that succeeds adds one user, active and enabled, whose name
    and email nobody had and whose stored password accepts the one given. *)
Theorem Register_ok salt req (d : D) (r : R) s' u :
  Register salt req (d, r) = (s', Ok u) ->
  let id := next_id (t_users (tables d)) in
  t_users (tables d) !! id = None /\
  (forall i x, t_users (tables d) !! i = Some x ->
     u_Username x <> rg_Username req /\ u_Email x <> rg_Email req) /\
  t_users (tables (fst s')) =
    <[id := mkUser id (rg_Username req) (rg_Email req) (u_Password u) true enabled None]> (t_users (tables d)) /\
  VerifyPassword (rg_Password req) (u_Password u) = true /\ t_keys (tables (fst s')) = t_keys (tables d).
Proof.
  intros (d' & Hr & ->)%Register_creates id. split; [apply next_id_fresh|].
  apply m_bind_ok in Hr as (d1 & h & Hh & Hr). apply m_wrap_ok in Hh. injection Hh as <- Hh.
  apply m_bind_ok in Hr as (d2 & [] & Hi & Hr). injection Hr as <- <-.
  apply m_wrap_ok, update_ok in Hi. unfold insert_user in Hi.
  destruct (existsb _ _) eqn:Ex; [done|]. injection Hi as <-. cbn [t_users t_keys u_Password]. split.
  - intros i y Hy. apply not_true_iff_false in Ex. rewrite existsb_elem in Ex.
    split; intros Heq; apply Ex; exists (i, y); (split; [by apply elem_of_map_to_list|]);
      apply orb_true_iff; cbn [snd]; rewrite !String.eqb_eq; tauto.
  - split; [done|]. split; [|done]. cbn [u_Password] in Hh.
    apply HashPassword_ok in Hh as (sa & -> & -> & _). by rewrite VerifyPassword_of, String.eqb_refl.
Qed.

(** A password is changed by who knows the old one: on success the old
    password was accepted by what was stored, the new one is accepted by what is
    stored now, and nothing else of any user has changed. *)
Theorem ChangePassword_ok salt req userID (d : D) (r : R) s' :
  ChangePassword salt req userID (d, r) = (s', Ok tt) ->
  exists i u h, t_users (tables d) !! i = Some u /\ u_ID u = userID /\
    VerifyPassword (OldPassword req) (u_Password u) = true /\
    VerifyPassword (NewPassword req) h = true /\
    tables (fst s') = set_user_row (mkUser userID (u_Username u) (u_Email u) h (u_IsActive u) (u_Status u)
                        (u_LastLoginAt u)) (tables d).
Proof.
  unfold ChangePassword. intros Hr. apply on_db_inv in Hr as (d1 & Hr & ->). cbn [fst snd] in *.
  apply transaction_ok in Hr as (d2 & Hr & ->).
  apply m_bind_ok in Hr as (d3 & [u|] & Hu & Hr); [|done]. apply m_wrap_ok in Hu.
  apply GetByID_ok in Hu as (-> & i & Hi & Hid).
  destruct (VerifyPassword (OldPassword req) (u_Password u)) eqn:Ho; [|done]. cbn [negb] in Hr.
  apply m_bind_ok in Hr as (d4 & h & Hh & Hr). apply m_wrap_ok in Hh. injection Hh as <- Hh.
  apply m_wrap_ok, m_wrap_ok, update_ok in Hr. injection Hr as <-.
  apply HashPassword_ok in Hh as (sa & -> & -> & _).
  eexists i, u, _. split; [done|]. split; [done|]. split; [done|].
  split; [by rewrite VerifyPassword_of, String.eqb_refl | by rewrite <- Hid].
Qed.
End PasswordTheorems.

(** ** A concrete service: tables in memory, a served Redis, toy cryptography *)

Module AuthSample.
#[local] Existing Instance ToyCrypto.toy_crypto.
#[local] Existing Instance ToyCrypto.toy_crypto_laws.
#[local] Existing Instance ToyJWT.toy_jwt.
#[local] Existing Instance ToyJWT.toy_jwt_laws.
#[local] Existing Instance Reliable.keyspace_redis.
#[local] Existing Instance Reliable.keyspace_laws.

#[global] Instance memory_db : AuthDB auth_tables := {
  tables t := t;
  query _ q t := Ok (q t);
  update f t := match f t with Ok t' => (t', Ok tt) | Err e => (t, Err e) end;
  transaction _ body t := match body t with (t', Ok a) => (t', Ok a) | (_, Err e) => (t, Err e) end
}.
#[global] Instance memory_db_laws : AuthDBLaws auth_tables.
Proof.
  split; cbn.
  - by intros X q d a [= <-].
  - intros f d d'. by destruct (f d) as [t|e] eqn:E; intros [= <-].
  - intros f d d' e. destruct (f d) as [t|e'] eqn:E; intros [= <- <-]; by left.
  - intros X body d d' a. destruct (body d) as [t [b|e]] eqn:E; [intros [= <- <-]|done]. by exists t.
  - intros X body d d' e. by destruct (body d) as [t [b|e']] eqn:E; intros [= <-].
Qed.

Definition t0 : Z := 1000 * second.

Definition ada : User :=
  mkUser 1 "ada" "ada@x" (default "" (match HashPassword (Ok "salt") "password 1" with Ok h => Some h | _ => None end))
    true enabled None.
Definition key1 : APIKey :=
  mkKey 5 1 "ci" "" "pk_1" "" "0123456789abks_1" ["project"] None None None enabled.
Definition db0 : auth_tables := mkAuth {[1 := ada]} {[5 := key1]} [(1, ("user", enabled))].
Definition s0 : auth_tables * keyspace := (db0, empty_keyspace).

(** A request of the key, signed at the given second. *)
Definition signed (ts : string) : APIKeyTokenReq :=
  let req := mkKeyToken "pk_1" ts "n1" "" in
  mkKeyToken "pk_1" ts "n1" (SignAPIKeyRequest "ks_1" (CanonicalString req "POST" "/token")).

Definition exchange (now : Z) (ts : string) (s : auth_tables * keyspace) :=
  ExchangeAPIKeyToken now (signed ts) "POST" "/token" s.

Definition outcome_of {X} (dflt : X) (o : res X) : X := match o with Ok a => a | Err _ => dflt end.
Definition first_exchange := exchange t0 "999" s0.
Definition issued : string * Z * string := outcome_of ("", 0, "") (snd first_exchange).

Lemma first_exchange_ok :
  ExchangeAPIKeyToken t0 (signed "999") "POST" "/token" s0
  = ((fst (fst first_exchange), snd (fst first_exchange)), Ok (fst (fst issued), snd (fst issued), snd issued)).
Proof. vm_compute. reflexivity. Qed.

Lemma ExchangeAPIKeyToken_sound_witness :
  exists i key, t_keys db0 !! i = Some key /\ k_KeyID key = "pk_1" /\ k_RevokedAt key = None.
Proof.
  destruct (ExchangeAPIKeyToken_sound _ _ _ _ _ _ _ _ _ _ _ first_exchange_ok)
    as (i & key & j & user & ts & secret & roles & Hk & Hid & _ & Hr & _).
  exists i, key. split; [exact Hk|]. split; [exact Hid|exact Hr].
Defined.

Lemma exchange_not_replayed_witness :
  is_ok (snd (exchange (t0 + 60 * second) "999"
    (db0, elapse (60 * second) (snd (fst first_exchange))))) = false.
Proof.
  apply (exchange_not_replayed t0 (t0 + 60 * second) (signed "999") "POST" "/token" db0
    (fst (fst first_exchange)) db0 empty_keyspace (snd (fst first_exchange))
    (elapse (60 * second) (snd (fst first_exchange)))
    (fst (fst issued), snd (fst issued), snd issued) 999).
  - exact first_exchange_ok.
  - reflexivity.
  - vm_compute. reflexivity.
  - vm_compute. intuition discriminate.
  - vm_compute. reflexivity.
  - vm_compute. reflexivity.
Defined.

(** A request whose time stamp lies ahead outlives its nonce: it is accepted twice. *)
Lemma future_timestamp_replayed :
  let first := exchange t0 "1300" s0 in
  is_ok (snd first) = true /\
  is_ok (snd (exchange (t0 + accessKeySignatureTTL) "1300"
    (fst (fst first), elapse accessKeySignatureTTL (snd (fst first))))) = true.
Proof. vm_compute. done. Qed.

Definition revoked_state : auth_tables * keyspace := fst (RevokeAPIKey alone t0 1 5 s0).

Lemma revocation_is_final_witness :
  exists k', t_keys (fst (run_key_ops [OpEnable 1 5; OpRotate (Ok "r") (Ok "s") (Ok "n") 1 5; OpDelete 1 5]
                            revoked_state)) !! 5 = Some k' /\ k_RevokedAt k' = Some t0.
Proof.
  destruct (revocation_is_final
    [OpEnable 1 5; OpRotate (Ok "r") (Ok "s") (Ok "n") 1 5; OpDelete 1 5] revoked_state 5
    (set_status (StatusType_code CommonDisabled) (Some t0) key1)) as (k' & Hk & Hr & _).
  - assert (Ht : t_keys (tables (fst revoked_state))
      = {[5 := set_status (StatusType_code CommonDisabled) (Some t0) key1]}) by (vm_compute; reflexivity).
    intros i k Hk. rewrite Ht in Hk. apply lookup_singleton_Some in Hk as [<- <-]. by vm_compute.
  - vm_compute. reflexivity.
  - by eexists.
  - exists k'. split; [exact Hk|exact Hr].
Defined.

Definition enable_during_revoke := EnableAPIKey (RevokeAPIKey alone t0 1 5) 1 5 s0.

Lemma status_change_overwrites_witness :
  exists k, t_keys (fst (fst enable_during_revoke)) !! 5 = Some k /\
    k_RevokedAt k = None /\ k_Status k = enabled.
Proof.
  destruct (status_change_overwrites (RevokeAPIKey alone t0 1 5) 1 5 CommonEnabled s0
    (fst enable_during_revoke)) as (i & k & Hk & Hid & Hs & Hr); [vm_compute; reflexivity|].
  eexists. split; [exact Hs|]. split; [exact (Hr eq_refl) | reflexivity].
Defined.

Definition session : string :=
  fst (outcome_of ("", 0) (GenerateToken t0 1 "ada" "ada@x" true false ["user"])).
Definition session_claims : Claims := user_claims t0 1 "ada" "ada@x" true false ["user"] "user" 0 [].
Definition logged_out := LogoutHandler t0 ("Bearer " +:+ session) s0.

Lemma session_valid : ValidateToken t0 session = Ok session_claims.
Proof. vm_compute. reflexivity. Qed.
Lemma session_header : ExtractTokenFromHeader ("Bearer " +:+ session) = Ok session.
Proof. vm_compute. reflexivity. Qed.
Lemma logout_answer :
  LogoutHandler t0 ("Bearer " +:+ session) (db0, empty_keyspace)
  = ((fst (fst logged_out), snd (fst logged_out)), Ok (Returns 200)).
Proof. vm_compute. reflexivity. Qed.

Lemma logout_is_final_witness :
  is_ok (snd (VerifyToken (t0 + second) session (db0, elapse second (snd (fst logged_out))))) = false.
Proof.
  apply (logout_is_final t0 (t0 + second) ("Bearer " +:+ session) session db0 (fst (fst logged_out)) db0
    empty_keyspace (snd (fst logged_out)) (elapse second (snd (fst logged_out))) session_claims).
  - exact session_header.
  - exact logout_answer.
  - exact session_valid.
  - vm_compute. discriminate.
  - vm_compute. intuition discriminate.
  - vm_compute. reflexivity.
  - vm_compute. reflexivity.
Defined.

(** An API key token, and its refresh. *)
Definition refreshed := RefreshToken t0 (fst (fst issued)) s0.
Lemma refreshed_ok :
  RefreshToken t0 (fst (fst issued)) (db0, empty_keyspace)
  = ((fst (fst refreshed), snd (fst refreshed)),
     Ok (fst (outcome_of ("", 0) (snd refreshed)), snd (outcome_of ("", 0) (snd refreshed)))).
Proof. vm_compute. reflexivity. Qed.

Lemma refresh_ignores_revocation_witness :
  forallb (fun c => String.eqb (c_AuthType c) "api_key")
    (match ValidateToken t0 (fst (fst issued)) with Ok c => [c] | Err _ => [] end) = true /\
  exists c i user, ValidateToken t0 (fst (fst issued)) = Ok c /\ t_users db0 !! i = Some user /\
    u_ID user = c_UserID c.
Proof.
  split; [vm_compute; reflexivity|].
  destruct (refresh_ignores_revocation _ _ _ _ _ _ _ _ refreshed_ok) as (_ & c & i & user & Hv & Hi & Hu & _).
  exists c, i, user. split; [exact Hv|]. split; [exact Hi|exact Hu].
Defined.

Definition login := Login t0 (mkLogin "ada" "password 1") s0.
Lemma login_ok :
  Login t0 (mkLogin "ada" "password 1") (db0, empty_keyspace)
  = (fst login, Ok (fst (fst (fst (outcome_of ("", 0, ada, "") (snd login)))),
                    snd (fst (fst (outcome_of ("", 0, ada, "") (snd login)))), ada, "user")).
Proof. vm_compute. reflexivity. Qed.

Lemma Login_sound_witness : VerifyPassword "password 1" (u_Password ada) = true.
Proof.
  destruct (Login_sound _ _ _ _ _ _ _ _ _ login_ok) as (_ & _ & Hp & _). exact Hp.
Defined.

Definition request : gin_ctx := mkGin ∅ ∅.
Definition authenticated_request : gin_ctx :=
  match snd (JWTAuth t0 ("Bearer " +:+ session) request s0) with
  | Ok (Returns (Passed c)) => c | _ => request end.

Lemma authorised_request_witness :
  exists tok, ExtractTokenFromHeader ("Bearer " +:+ session) = Ok tok.
Proof.
  assert (Hj : JWTAuth t0 ("Bearer " +:+ session) request s0
               = (fst (JWTAuth t0 ("Bearer " +:+ session) request s0),
                  Ok (Returns (Passed authenticated_request)))) by (vm_compute; reflexivity).
  assert (Hp : withPermissionCheck PermissionSample.t0 (fun _ _ => Ok true) authenticated_request = Next)
    by (vm_compute; reflexivity).
  destruct (authorised_request (H6 := db_checker 100) t0 ("Bearer " +:+ session)
    (fun _ _ => Ok true) PermissionSample.t0 request authenticated_request s0 _ eq_refl Hj Hp) as (tok & Ht & _).
  exists tok. exact Ht.
Defined.
End AuthSample.
