(* ===== verification/FaultBatch.v ===== *)
(** * Fault batches ([service/consumer/fault_injection.go])

    A hybrid injection creates several resources in the cluster; the manager counts
    the ones that have finished, and the handler of the last one goes on with the
    batch.  A handler takes three separately locked steps: it counts, asks whether
    the batch is finished, and if so forgets it. *)

From S2P Require Import Prelude GoStrings.

Record FaultBatchManager := mkBatches {
  batchCounts : gmap string Z;
  batchInjections : gmap string (list string)
}.

Definition NewFaultBatchManager : FaultBatchManager := mkBatches ∅ ∅.

Definition deleteBatch (batchID : string) (bm : FaultBatchManager) : FaultBatchManager :=
  mkBatches (delete batchID (batchCounts bm)) (delete batchID (batchInjections bm)).

(** [bm.batchCounts[batchID]++]: a missing entry counts from zero. *)
Definition incrementBatchCount (batchID : string) (bm : FaultBatchManager) : FaultBatchManager :=
  mkBatches (<[batchID := default 0 (batchCounts bm !! batchID) + 1]> (batchCounts bm))
    (batchInjections bm).

Definition isFinished (batchID : string) (bm : FaultBatchManager) : bool :=
  match batchCounts bm !! batchID with
  | None => true
  | Some count =>
      match batchInjections bm !! batchID with
      | None => true
      | Some injectionNames => Z.of_nat (length injectionNames) <=? count
      end
  end.

Definition setBatchInjections (batchID : string) (injectionNames : list string) (bm : FaultBatchManager)
  : FaultBatchManager :=
  mkBatches (<[batchID := 0]> (batchCounts bm)) (<[batchID := injectionNames]> (batchInjections bm)).

(** The end of a handler, run by itself: whether it goes on with the batch. *)
Definition finish_one (batchID : string) (bm : FaultBatchManager) : FaultBatchManager * bool :=
  let bm := incrementBatchCount batchID bm in
  if isFinished batchID bm then (deleteBatch batchID bm, true) else (bm, false).

(** Several handlers, one after the other: who goes on. *)
Fixpoint finish_many (events : list string) (bm : FaultBatchManager) : FaultBatchManager * list bool :=
  match events with
  | [] => (bm, [])
  | b :: rest =>
      let '(bm1, fires) := finish_one b bm in
      let '(bm2, more) := finish_many rest bm1 in
      (bm2, fires :: more)
  end.

(** ** Interleaved handlers: each is about to count, to ask, or to forget. *)

Inductive handler_step := ToCount | ToAsk | ToForget | Done (goes_on : bool).

Definition handler_next (batchID : string) (st : handler_step) (bm : FaultBatchManager)
  : handler_step * FaultBatchManager :=
  match st with
  | ToCount => (ToAsk, incrementBatchCount batchID bm)
  | ToAsk => (if isFinished batchID bm then ToForget else Done false, bm)
  | ToForget => (Done true, deleteBatch batchID bm)
  | Done b => (Done b, bm)
  end.

(** A schedule names the handler that moves next. *)
Fixpoint run_schedule (batchID : string) (schedule : list nat) (hs : list handler_step)
    (bm : FaultBatchManager) : list handler_step * FaultBatchManager :=
  match schedule with
  | [] => (hs, bm)
  | i :: rest =>
      match hs !! i with
      | Some st =>
          let '(st', bm') := handler_next batchID st bm in
          run_schedule batchID rest (<[i := st']> hs) bm'
      | None => run_schedule batchID rest hs bm
      end
  end.

(** ** Facts *)

(** What the manager knows of one batch. *)
Definition batch (b : string) (bm : FaultBatchManager) : option Z * option (list string) :=
  (batchCounts bm !! b, batchInjections bm !! b).

Lemma batch_delete b b' bm :
  batch b (deleteBatch b' bm) = if decide (b = b') then (None, None) else batch b bm.
Proof. unfold batch, deleteBatch. simpl. case_decide; by simplify_map_eq. Qed.
Lemma batch_increment b b' bm :
  batch b (incrementBatchCount b' bm) =
  if decide (b = b') then (Some (default 0 (fst (batch b bm)) + 1), snd (batch b bm)) else batch b bm.
Proof. unfold batch, incrementBatchCount. simpl. case_decide; by simplify_map_eq. Qed.
Lemma batch_set b b' names bm :
  batch b (setBatchInjections b' names bm) = if decide (b = b') then (Some 0, Some names) else batch b bm.
Proof. unfold batch, setBatchInjections. simpl. case_decide; by simplify_map_eq. Qed.

Lemma isFinished_batch b bm :
  isFinished b bm =
  match batch b bm with
  | (Some count, Some names) => Z.of_nat (length names) <=? count
  | _ => true
  end.
Proof. unfold isFinished, batch. by destruct (batchCounts bm !! b), (batchInjections bm !! b). Qed.

#[export] Hint Rewrite batch_delete batch_increment batch_set : aegis.

Lemma finish_one_frame b b' bm : b <> b' -> batch b (fst (finish_one b' bm)) = batch b bm.
Proof.
  intros Hb. unfold finish_one. destruct (isFinished _ _); cbn [fst];
    by rewrite ?batch_delete, ?batch_increment, ?decide_False by done.
Qed.

(** One more of a registered batch. *)
Lemma finish_one_counts b bm n names :
  batch b bm = (Some n, Some names) ->
  finish_one b bm =
  (if Z.of_nat (length names) <=? n + 1 then deleteBatch b (incrementBatchCount b bm)
   else incrementBatchCount b bm, Z.of_nat (length names) <=? n + 1).
Proof.
  intros Hb. unfold finish_one. rewrite isFinished_batch, batch_increment, decide_True, Hb by done.
  cbn [fst snd default from_option id]. by destruct (_ <=? _).
Qed.

Definition count_of (b : string) (events : list string) : nat := length (List.filter (String.eqb b) events).

(** The verdicts of the events of one batch. *)
Definition verdicts (b : string) (events : list string) (fires : list bool) : list bool :=
  snd <$> List.filter (fun p => String.eqb b (fst p)) (zip events fires).

Lemma verdicts_none b events fires : count_of b events = 0%nat -> verdicts b events fires = [].
Proof.
  unfold count_of, verdicts. revert fires. induction events as [|x events IH]; intros [|f fires] Hz; try done.
  cbn [List.filter] in Hz. cbn [zip zip_with List.filter fst]. destruct (String.eqb b x); [done|]. by apply IH.
Qed.

Lemma count_of_cons b x events :
  count_of b (x :: events) = if String.eqb b x then S (count_of b events) else count_of b events.
Proof. unfold count_of. cbn [List.filter]. by destruct (String.eqb b x). Qed.

Lemma verdicts_cons b x events f fires :
  verdicts b (x :: events) (f :: fires) =
  if String.eqb b x then f :: verdicts b events fires else verdicts b events fires.
Proof. unfold verdicts. cbn [zip zip_with List.filter fst]. by destruct (String.eqb b x). Qed.

Lemma finish_many_cons b e events bm :
  verdicts b (e :: events) (snd (finish_many (e :: events) bm)) =
  if String.eqb b e
  then snd (finish_one e bm) :: verdicts b events (snd (finish_many events (fst (finish_one e bm))))
  else verdicts b events (snd (finish_many events (fst (finish_one e bm)))).
Proof.
  cbn [finish_many]. destruct (finish_one e bm) as [bm1 f]. cbn [fst snd].
  destruct (finish_many events bm1) as [bm2 fs]. apply verdicts_cons.
Qed.

(** The events of a batch of which [n] have been counted: all but the one that
    completes it stop there. *)
Lemma finish_many_counts b events bm n names :
  batch b bm = (Some n, Some names) ->
  n + Z.of_nat (count_of b events) <= Z.of_nat (length names) -> n < Z.of_nat (length names) ->
  verdicts b events (snd (finish_many events bm)) =
  match count_of b events with
  | O => []
  | S k => replicate k false ++ [n + Z.of_nat (S k) =? Z.of_nat (length names)]
  end.
Proof.
  revert bm n. induction events as [|e events IH]; intros bm n Hb Hle Hlt; [done|].
  rewrite finish_many_cons. rewrite count_of_cons in *. destruct (String.eqb_spec b e) as [<-|Hbe].
  - rewrite (finish_one_counts b bm n names Hb). cbn [fst snd].
    destruct (Z.of_nat (length names) <=? n + 1) eqn:El; bool_to_prop.
    + assert (Hz : count_of b events = 0%nat) by lia. rewrite Hz, verdicts_none by done. cbn [replicate app].
      f_equal. symmetry. apply Z.eqb_eq. lia.
    + rewrite (IH _ (n + 1)); [| |lia|lia].
      * destruct (count_of b events) as [|k]; cbn [replicate app].
        { f_equal. symmetry. apply Z.eqb_neq. lia. }
        f_equal. f_equal. f_equal. f_equal. lia.
      * rewrite batch_increment, decide_True, Hb by done. done.
  - apply IH; [|done|done]. by rewrite finish_one_frame.
Qed.

(** The last one goes on: of the handlers of a registered batch, run one after
    the other and mixed with those of other batches, none goes on before as many
    have finished as there are resources, and the one that completes the batch
    does. *)
Theorem batch_goes_on_once b names events bm :
  names <> [] -> (count_of b events <= length names)%nat ->
  verdicts b events (snd (finish_many events (setBatchInjections b names bm))) =
  match count_of b events with
  | O => []
  | S k => replicate k false ++ [(S k =? length names)%nat]
  end.
Proof.
  intros Hne Hle. assert (0 < length names)%nat by (destruct names; simpl; [done|lia]).
  rewrite (finish_many_counts b events _ 0 names); [| |lia|lia].
  - destruct (count_of b events) as [|k]; [done|]. do 2 f_equal.
    destruct (Nat.eqb_spec (S k) (length names)); [apply Z.eqb_eq|apply Z.eqb_neq]; lia.
  - by rewrite batch_set, decide_True.
Qed.

(** A handler that is faster than the registration of its batch goes on at
    once, as if it were the last, and is not counted: the remaining handlers of
    the batch, one short, never go on. *)
Theorem early_event_breaks_batch b names bm events :
  batch b bm = (None, None) -> (S (count_of b events) = length names)%nat -> (0 < count_of b events)%nat ->
  snd (finish_one b bm) = true /\
  verdicts b events (snd (finish_many events (setBatchInjections b names (fst (finish_one b bm))))) =
  replicate (count_of b events) false.
Proof.
  intros Hb Hl Hpos. split.
  - unfold finish_one. by rewrite isFinished_batch, batch_increment, decide_True, Hb by done.
  - rewrite (finish_many_counts b events _ 0 names); [|by rewrite batch_set, decide_True|lia|lia].
    destruct (count_of b events) as [|k]; [lia|].
    replace (_ =? _) with false by (symmetry; apply Z.eqb_neq; lia).
    by rewrite <- (replicate_S_end k false).
Qed.

(** The three steps of a handler are not one: for the two handlers of a batch
    of two there is an interleaving in which both go on. *)
Theorem both_handlers_go_on b names bm :
  length names = 2%nat ->
  exists schedule, fst (run_schedule b schedule [ToCount; ToCount] (setBatchInjections b names bm))
    = [Done true; Done true].
Proof.
  intros Hl. exists [0; 1; 0; 1; 0; 1]%nat.
  assert (Hfin : isFinished b (incrementBatchCount b (incrementBatchCount b (setBatchInjections b names bm)))
                 = true).
  { rewrite isFinished_batch, !batch_increment, !decide_True, batch_set, decide_True by done.
    simpl. rewrite Hl. reflexivity. }
  revert Hfin. generalize (setBatchInjections b names bm). intros bm0 Hfin.
  simpl. by rewrite Hfin.
Qed.

Module BatchSample.
Definition two : list string := ["f1"; "f2"].

Lemma batch_goes_on_once_witness :
  snd (finish_many ["x"; "b"; "x"; "b"] (setBatchInjections "b" two NewFaultBatchManager))
    = [true; false; true; true] /\
  verdicts "b" ["x"; "b"; "x"; "b"]
    (snd (finish_many ["x"; "b"; "x"; "b"] (setBatchInjections "b" two NewFaultBatchManager))) = [false; true].
Proof.
  split; [reflexivity|]. apply (batch_goes_on_once "b" two ["x"; "b"; "x"; "b"]); [discriminate|].
  vm_compute. lia.
Defined.

Lemma early_event_breaks_batch_witness :
  snd (finish_one "b" NewFaultBatchManager) = true.
Proof.
  apply (early_event_breaks_batch "b" two NewFaultBatchManager ["b"]); [reflexivity|reflexivity|].
  vm_compute. lia.
Defined.

Lemma both_handlers_go_on_witness :
  exists schedule, fst (run_schedule "b" schedule [ToCount; ToCount]
    (setBatchInjections "b" two NewFaultBatchManager)) = [Done true; Done true].
Proof. apply (both_handlers_go_on "b" two NewFaultBatchManager). reflexivity. Defined.
End BatchSample.
