(* ===== verification/EventHandler.v ===== *)
(** * The Kubernetes event handler ([service/consumer/k8s_handler.go])

    The controller calls one of six handlers when a chaos resource or a job is
    created, fails, succeeds or is deleted.  The labels on the object say which
    task it belongs to, its annotations carry the data of the next task.  A
    handler records the new state of the task and of its datapack or execution,
    gives back locks and tokens, and submits the task that continues the trace:
    a finished injection is followed by a datapack build, a built datapack by the
    detector, an executed algorithm by the collection of its results.

    The owners of injections and executions are the class [StateOwners] (the
    interfaces [InjectionOwner] and [ExecutionOwner] of the source); JSON decoding
    of the annotations is the class [AnnotationCodec]. *)

From S2P Require Import Prelude GoStrings Consts Redis Gateway Task TaskQueue TaskSubmit TaskWorker.
From S2P Require Import HelmValues NamespaceLock RateLimiter FaultBatch.

(** ** Labels and annotations *)

Definition CRDLabelBatchID : string := "batch_id".
Definition CRDLabelIsHybrid : string := "is_hybrid".
Definition JobLabelExecutionID : string := "execution_id".
Definition JobLabelDatapack : string := "datapack".
Definition K8sLabelAppID : string := "rcabench_app_id".
Definition TaskCarrierKey : string := "task_carrier".
Definition TraceCarrierKey : string := "trace_carrier".
Definition CRDAnnotationBenchmark : string := "benchmark".
Definition JobAnnotationAlgorithm : string := "algorithm".
Definition JobAnnotationDatapack : string := "datapack".

(** [strconv.ParseBool] and [strconv.FormatBool]. *)
Definition parse_bool (s : string) : option bool :=
  if existsb (String.eqb s) ["1"; "t"; "T"; "TRUE"; "true"; "True"] then Some true
  else if existsb (String.eqb s) ["0"; "f"; "F"; "FALSE"; "false"; "False"] then Some false
  else None.
Definition format_bool (b : bool) : string := if b then "true" else "false".

Record taskIdentifiers := mkIdentifiers {
  ti_taskID : string;
  ti_taskType : TaskType;
  ti_traceID : string;
  ti_groupID : string;
  ti_projectID : Z;
  ti_userID : Z
}.

Record crdLabels := mkCRDLabels { crd_ids : taskIdentifiers; crd_batchID : string; crd_IsHybrid : bool }.
Record jobLabels := mkJobLabels { job_ids : taskIdentifiers; job_ExecutionID : option Z }.

(** [missing or invalid '%s' key in k8s ...]. *)
Definition label_error (what key : string) : string :=
  "missing or invalid '" +:+ key +:+ "' key in k8s " +:+ what.

(** [v, ok := labels[key]; if !ok || v == "" { return error naming [reported] }]. *)
Definition label (what : string) (labels : gmap string string) (key reported : string) : res string :=
  match labels !! key with
  | Some v => if String.eqb v "" then Err (label_error what reported) else Ok v
  | None => Err (label_error what reported)
  end.

Definition parseTaskIdentifiers (what : string) (labels : gmap string string) : res taskIdentifiers :=
  let? taskID := label what labels JobLabelTaskID JobLabelTaskID in
  let? taskTypeStr := label what labels JobLabelTaskType JobLabelTaskType in
  let? taskType := or_error (GetTaskTypeByName taskTypeStr) (label_error what JobLabelTaskType) in
  let? traceID := label what labels JobLabelTraceID JobLabelTraceID in
  let? groupID := label what labels JobLabelGroupID JobLabelGroupID in
  let? projectIDStr := label what labels JobLabelProjectID JobLabelGroupID in
  let? projectID := or_error (atoi projectIDStr) (label_error what JobLabelProjectID) in
  let? userIDStr := label what labels JobLabelUserID JobLabelUserID in
  let? userID := or_error (atoi userIDStr) (label_error what JobLabelUserID) in
  Ok (mkIdentifiers taskID taskType traceID groupID projectID userID).

(** The test on the batch is [!ok && batchID == ""]: an empty value passes. *)
Definition parseCRDLabels (labels : gmap string string) : res crdLabels :=
  let? identifiers := res_wrap "failed to parse task identifiers: "
                        (parseTaskIdentifiers "CRD labels" labels) in
  let? batchID := or_error (labels !! CRDLabelBatchID) (label_error "CRD labels" CRDLabelBatchID) in
  let? isHybridStr := label "CRD labels" labels CRDLabelIsHybrid CRDLabelIsHybrid in
  let? isHybrid := or_error (parse_bool isHybridStr) (label_error "CRD labels" CRDLabelIsHybrid) in
  Ok (mkCRDLabels identifiers batchID isHybrid).

Definition parseJobLabels (labels : gmap string string) : res jobLabels :=
  let? identifiers := res_wrap "failed to parse task identifiers: "
                        (parseTaskIdentifiers "job labels" labels) in
  match labels !! JobLabelExecutionID with
  | Some executionIDStr =>
      let? executionID := or_error (atoi executionIDStr)
                            (label_error "job labels" JobLabelExecutionID) in
      Ok (mkJobLabels identifiers (Some executionID))
  | None => Ok (mkJobLabels identifiers None)
  end.

(** The labels [executeFaultInjection], [executeAlgorithm] and
    [executeBuildDatapack] put on what they create. *)
Definition injection_labels (appID batchID : string) (isHybrid : bool) (t : UnifiedTask)
  : gmap string string :=
  MergeSimpleMaps [GetLabels t;
    {[ K8sLabelAppID := appID; CRDLabelBatchID := batchID; CRDLabelIsHybrid := format_bool isHybrid ]}].
Definition algorithm_labels (appID datapack : string) (executionID : Z) (t : UnifiedTask)
  : gmap string string :=
  MergeSimpleMaps [GetLabels t;
    {[ K8sLabelAppID := appID; JobLabelDatapack := datapack; JobLabelExecutionID := itoa executionID ]}].

(** ** Items *)

Record ContainerVersionItem := mkVersionItem {
  cvi_ID : Z; cvi_Name : string; cvi_ImageRef : string; cvi_Command : string;
  cvi_ContainerID : Z; cvi_ContainerName : string;
  cvi_EnvVars : list ParameterItem;
  cvi_Extra : option HelmConfigItem
}.

(** The times are texts: the handler only copies them. *)
Record InjectionItem := mkInjectionItem {
  ii_ID : Z; ii_Name : string; ii_PreDuration : Z; ii_StartTime : string; ii_EndTime : string
}.

(** As values of a payload, with the JSON names of the fields. *)
Definition omit_empty (b : bool) (f : string * value) : list (string * value) := if b then [] else [f].

Definition param_value (p : ParameterItem) : value :=
  VMap ([("key", VStr (p_Key p))]
    ++ omit_empty (match p_Value p with VNil => true | _ => false end) ("value", p_Value p)
    ++ omit_empty (String.eqb (p_Template p) "") ("template_string", VStr (p_Template p))).

Definition helm_value (h : HelmConfigItem) : value :=
  VMap ([("version", VStr (hc_Version h)); ("repo_url", VStr (hc_RepoURL h)); ("repo_name", VStr (hc_RepoName h));
         ("chart_name", VStr (hc_ChartName h))]
    ++ omit_empty (String.eqb (hc_LocalPath h) "") ("local_path", VStr (hc_LocalPath h))
    ++ omit_empty (String.eqb (hc_ValueFile h) "") ("value_file", VStr (hc_ValueFile h))
    ++ omit_empty (match hc_DynamicValues h with [] => true | _ => false end)
         ("values", VList (param_value <$> hc_DynamicValues h))).

Definition item_value (i : ContainerVersionItem) : value :=
  VMap ([("id", VInt (cvi_ID i)); ("name", VStr (cvi_Name i)); ("image_ref", VStr (cvi_ImageRef i))]
    ++ omit_empty (String.eqb (cvi_Command i) "") ("command", VStr (cvi_Command i))
    ++ [("container_id", VInt (cvi_ContainerID i)); ("container_name", VStr (cvi_ContainerName i))]
    ++ omit_empty (match cvi_EnvVars i with [] => true | _ => false end)
         ("env_vars", VList (param_value <$> cvi_EnvVars i))
    ++ match cvi_Extra i with Some e => [("extra", helm_value e)] | None => [] end).

Definition datapack_value (i : InjectionItem) : value :=
  VMap [("id", VInt (ii_ID i)); ("name", VStr (ii_Name i)); ("pre_duration", VInt (ii_PreDuration i));
        ("start_time", VStr (ii_StartTime i)); ("end_time", VStr (ii_EndTime i))].

(** [parsedAnnotations.benchmark.EnvVars = ...]. *)
Definition set_env_vars (vars : list ParameterItem) (i : ContainerVersionItem) : ContainerVersionItem :=
  mkVersionItem (cvi_ID i) (cvi_Name i) (cvi_ImageRef i) (cvi_Command i) (cvi_ContainerID i)
    (cvi_ContainerName i) vars (cvi_Extra i).

Class AnnotationCodec := {
  decode_carrier : string -> res (option (gmap string string));
  decode_version_item : string -> res ContainerVersionItem;
  decode_injection_item : string -> res InjectionItem
}.

Record k8sAnnotationData := mkAnnotations {
  an_taskCarrier : option (gmap string string);
  an_traceCarrier : option (gmap string string);
  an_algorithm : option ContainerVersionItem;
  an_benchmark : option ContainerVersionItem;
  an_datapack : option InjectionItem
}.

(** An annotation that may be absent. *)
Definition optional_item {A} (annotations : gmap string string) (key : string) (decode : string -> res A)
  : res (option A) :=
  match annotations !! key with
  | Some itemJson =>
      let? item := res_wrap ("failed to unmarshal '" +:+ key +:+ "' to ContainerVersionItem: ")
                     (decode itemJson) in
      Ok (Some item)
  | None => Ok None
  end.

Definition carrier `{AnnotationCodec} (annotations : gmap string string) (key : string)
  : res (option (gmap string string)) :=
  let message := "missing or invalid '" +:+ key +:+ "' key in k8s annotations" in
  match annotations !! key with
  | Some str => match decode_carrier str with Ok c => Ok c | Err _ => Err message end
  | None => Err message
  end.

Definition parseAnnotations `{AnnotationCodec} (annotations : gmap string string) : res k8sAnnotationData :=
  let? taskCarrier := carrier annotations TaskCarrierKey in
  let? traceCarrier := carrier annotations TraceCarrierKey in
  let? benchmark := optional_item annotations CRDAnnotationBenchmark decode_version_item in
  let? algorithm := optional_item annotations JobAnnotationAlgorithm decode_version_item in
  let? datapack := optional_item annotations JobAnnotationDatapack decode_injection_item in
  Ok (mkAnnotations taskCarrier traceCarrier algorithm benchmark datapack).

(** ** The handler and its world *)

Class StateOwners (S : Type) := {
  UpdateInjectionState : string -> DatapackState -> M S unit;
  UpdateInjectionTimestamps : string -> Z -> Z -> M S InjectionItem;
  UpdateExecutionState : Z -> ExecutionState -> M S unit
}.

(** The dependencies a handler may have been built without. *)
Record k8sHandler := mkHandler {
  h_execution : bool;      (* store.execution != nil *)
  h_injection : bool;      (* store.injection != nil *)
  h_monitor : bool;
  h_algoLimiter : option TokenBucketRateLimiter;
  h_k8sGateway : bool;
  h_batchManager : bool
}.

Record hworld (D R S : Type) := mkHWorld {
  hw_worker : worker D R;
  hw_mu : bool;                    (* the mutex of the monitor is held by a writer *)
  hw_batches : FaultBatchManager;
  hw_store : S
}.
Arguments mkHWorld {D R S} _ _ _ _.
Arguments hw_worker {D R S} _.
Arguments hw_mu {D R S} _.
Arguments hw_batches {D R S} _.
Arguments hw_store {D R S} _.

(** A handler goes on, returns early, panics (a nil dereference) or hangs (on a
    mutex). *)
Inductive ending (A : Type) := Continue (a : A) | Returned | Panicked | Hangs.
Arguments Continue {A} a.
Arguments Returned {A}.
Arguments Panicked {A}.
Arguments Hangs {A}.

Definition Hd (W A : Type) : Type := W -> W * ending A.
Definition h_ret {W A} (a : A) : Hd W A := fun w => (w, Continue a).
Definition h_return {W A} : Hd W A := fun w => (w, Returned).
Definition h_panic {W A} : Hd W A := fun w => (w, Panicked).
Definition h_bind {W A B} (m : Hd W A) (f : A -> Hd W B) : Hd W B := fun w =>
  match m w with
  | (w', Continue a) => f a w'
  | (w', Returned) => (w', Returned)
  | (w', Panicked) => (w', Panicked)
  | (w', Hangs) => (w', Hangs)
  end.

Notation "'let&' x := m 'in' k" := (h_bind m (fun x => k))
  (at level 10, x pattern, m at level 100, k at level 200) : go_scope.
Notation "m ';;&' k" := (h_bind m (fun _ => k))
  (at level 100, k at level 200, right associativity) : go_scope.

(** What the environment gives to one event. *)
Record event_env := mkEventEnv {
  ev_caller : string * string * string;          (* position of the publisher *)
  ev_json : value -> res string;                 (* json.Marshal of an event payload *)
  ev_carrier : option (gmap string string) -> gmap string string;  (* Extract, then Inject *)
  ev_submit : submit_env;
  ev_monitor : monitor_env;
  ev_between : list any_cmd;                     (* other clients, during the release of the lock *)
  ev_detector : string;                          (* config.GetDetectorName *)
  (** [ResolveContainerVersions] of the detector for a user: whether the map is
      empty, and its entry for the reference. *)
  ev_resolve : string -> Z -> res (bool * option ContainerVersionItem)
}.

Section Handler.
Context {D R S : Type} `{WorkerDB D} `{TaskStore D} `{RedisServer R} `{TaskCodec}.
Context `{StateOwners S} `{AnnotationCodec}.
Context (h : k8sHandler) (env : event_env).
#[local] Abbreviation W := (hworld D R S).

(** The parts of the world, and the result of a call as a value. *)
Definition on_worker {A} (m : M (worker D R) A) : Hd W (res A) := fun w =>
  let '(k, o) := m (hw_worker w) in (mkHWorld k (hw_mu w) (hw_batches w) (hw_store w), Continue o).
Definition on_owner {A} (m : M S A) : Hd W (res A) := fun w =>
  let '(s, o) := m (hw_store w) in (mkHWorld (hw_worker w) (hw_mu w) (hw_batches w) s, Continue o).
Definition on_batches {A} (f : FaultBatchManager -> FaultBatchManager * A) : Hd W A := fun w =>
  let '(b, a) := f (hw_batches w) in (mkHWorld (hw_worker w) (hw_mu w) b (hw_store w), Continue a).
Definition set_redis (r : R) (k : worker D R) : worker D R :=
  mkWorker r (wk_db k) (wk_spawned k) (wk_cancel k).
Definition on_monitor {A} (m : B (monitor R) A) : Hd W (res A) := fun w =>
  match m (mkMonitor (hw_mu w) (wk_redis (hw_worker w))) with
  | Finished mon o =>
      (mkHWorld (set_redis (mon_redis mon) (hw_worker w)) (mu_locked mon) (hw_batches w) (hw_store w),
       Continue o)
  | Blocked mon =>
      (mkHWorld (set_redis (mon_redis mon) (hw_worker w)) (mu_locked mon) (hw_batches w) (hw_store w),
       Hangs)
  end.
Definition submit (t : UnifiedTask) : M (worker D R) UnifiedTask := fun k =>
  let '((db, redis), o) := SubmitTaskWithDB (ev_submit env) t (wk_db k, wk_redis k) in
  (mkWorker redis db (wk_spawned k) (wk_cancel k), o).

(** *** The store *)

Definition updateExecutionState (executionID : Z) (newState : ExecutionState) : Hd W (res unit) :=
  if h_execution h then on_owner (UpdateExecutionState executionID newState)
  else h_ret (Err "execution owner service is nil").
Definition updateInjectionState (injectionName : string) (newState : DatapackState) : Hd W (res unit) :=
  if h_injection h then on_owner (UpdateInjectionState injectionName newState)
  else h_ret (Err "injection owner service is nil").
Definition updateInjectionTimestamp (injectionName : string) (startTime endTime : Z)
  : Hd W (res InjectionItem) :=
  if h_injection h then on_owner (UpdateInjectionTimestamps injectionName startTime endTime)
  else h_ret (Err "injection owner service is nil").

(** *** Common steps *)

(** [updateTaskState] with or without an event. *)
Definition update_task (ids : taskIdentifiers) (st : TaskState) (message : string)
    (event : option (string * value)) : Hd W unit :=
  let u := newTaskStateUpdate (ti_traceID ids) (ti_taskID ids) (ti_taskType ids) st message in
  let u := match event with
           | Some (eventType, payload) => withEvent u eventType (ev_json env payload)
           | None => u
           end in
  on_worker (updateTaskState (ev_caller env) u) ;;& h_ret tt.

(** [errorContext.Fatal] records the task as failed; [Warn] only logs. *)
Definition Fatal (ids : taskIdentifiers) (message : string) : Hd W unit :=
  update_task ids TaskError message None.
Definition Warn : Hd W unit := h_ret tt.

Definition publish (ids : taskIdentifiers) (eventName : string) (payload : value) : Hd W unit :=
  on_worker (publishEvent (ev_caller env) (ti_traceID ids) (ti_taskID ids) (ti_taskType ids) eventName
    (ev_json env payload)) ;;& h_ret tt.

Definition warn_on_error (r : res unit) : Hd W unit :=
  match r with Ok _ => h_ret tt | Err _ => Warn end.
(** [if err != nil { errCtx.Fatal(...); return }]. *)
Definition fatal_on_error (ids : taskIdentifiers) (message : string) (r : res unit) : Hd W unit :=
  match r with Ok _ => h_ret tt | Err _ => Fatal ids message ;;& h_return end.

(** The fields of a task that continues the trace; the others keep their zero
    values. *)
Definition child_task (ids : taskIdentifiers) (ty : TaskType) (payload : gmap string value)
    (traceCarrier : option (gmap string string)) : UnifiedTask :=
  {| TaskID := ""; Type_ := ty; Immediate := true; ExecuteTime := 0; CronExpr := ""; ReStartNum := 0;
     Retry := mkRetry 0 0; Payload := payload; Level := 0; Sequence := 0;
     ParentTaskID := Some (ti_taskID ids); TraceID := ti_traceID ids; GroupID := ti_groupID ids;
     ProjectID := ti_projectID ids; UserID := ti_userID ids; State_ := TaskPending;
     TraceCarrier := Some (ev_carrier env traceCarrier); GroupCarrier := None; Extra := None |}.

Definition completed_message (ids : taskIdentifiers) : string := "Task " +:+ ti_taskID ids +:+ " completed".
Definition failed_message (ids : taskIdentifiers) : string := "Task " +:+ ti_taskID ids +:+ " failed".

(** *** Chaos resources *)

(** The two parses every handler begins with: an error ends it. *)
Definition with_parsed {L} (annotations labels : gmap string string)
    (parse : gmap string string -> res L) (f : k8sAnnotationData -> L -> Hd W unit) : Hd W unit :=
  match parseAnnotations annotations with
  | Err _ => h_return
  | Ok parsedAnnotations =>
      match parse labels with
      | Err _ => h_return
      | Ok parsedLabels => f parsedAnnotations parsedLabels
      end
  end.

Definition HandleCRDAdd (name : string) (annotations labels : gmap string string) : Hd W unit :=
  with_parsed annotations labels parseCRDLabels (fun _ pl =>
    update_task (crd_ids pl) TaskRunning ("injecting fault for task " +:+ ti_taskID (crd_ids pl))
      (Some (EventFaultInjectionStarted, VStr name))).

Definition HandleCRDDelete (namespace : string) (annotations labels : gmap string string) : Hd W unit :=
  with_parsed annotations labels parseCRDLabels (fun _ pl =>
    if h_monitor h
    then on_monitor (ReleaseLock (ev_monitor env) (ev_between env) namespace (ti_traceID (crd_ids pl)))
         ;;& h_ret tt
    else h_return).

(** The end of the two handlers below: [postprocess] at once, or when the batch is
    finished. *)
Definition for_batch (pl : crdLabels) (name : string) (postprocess : string -> Hd W unit) : Hd W unit :=
  if crd_IsHybrid pl then
    if h_batchManager h then
      let& finished := on_batches (finish_one (crd_batchID pl)) in
      if finished then postprocess (crd_batchID pl) else h_ret tt
    else Warn ;;& h_return
  else postprocess name.

Definition inject_failed (injectionName : string) : Hd W unit :=
  let& r := updateInjectionState injectionName DatapackInjectFailed in warn_on_error r.

Definition HandleCRDFailed (name : string) (annotations labels : gmap string string) (errMsg : string)
  : Hd W unit :=
  with_parsed annotations labels parseCRDLabels (fun _ pl =>
    update_task (crd_ids pl) TaskError errMsg
      (Some (EventFaultInjectionFailed,
             VMap [("task_state", VStr (GetTaskStateName (TaskState_code TaskError))); ("msg", VStr errMsg)]))
    ;;& for_batch pl name inject_failed).

(** The task submitted once a datapack can be built. *)
Definition build_task (ids : taskIdentifiers) (pa : k8sAnnotationData) (namespace : string)
    (benchmark : ContainerVersionItem) (datapack : InjectionItem) : UnifiedTask :=
  child_task ids TaskTypeBuildDatapack
    {[ "benchmark" := item_value (set_env_vars [mkParam "NAMESPACE" (VStr namespace) ""] benchmark);
       "datapack" := datapack_value datapack; "dataset_version_id" := VInt 0 ]}
    (an_traceCarrier pa).

(** The benchmark annotation is dereferenced without a test. *)
Definition inject_succeeded (ids : taskIdentifiers) (pa : k8sAnnotationData) (namespace : string)
    (startTime endTime : Z) (injectionName : string) : Hd W unit :=
  (let& r := updateInjectionState injectionName DatapackInjectSuccess in warn_on_error r) ;;&
  let& datapack := updateInjectionTimestamp injectionName startTime endTime in
  match datapack with
  | Err _ => Warn ;;& h_return
  | Ok datapack =>
      match an_benchmark pa with
      | None => h_panic
      | Some benchmark =>
          let& r := on_worker (submit (build_task ids pa namespace benchmark datapack)) in
          match r with
          | Ok _ => h_ret tt
          | Err _ => Fatal ids "failed to submit datapack build task"
          end
      end
  end.

Definition HandleCRDSucceeded (namespace name : string) (startTime endTime : Z)
    (annotations labels : gmap string string) : Hd W unit :=
  with_parsed annotations labels parseCRDLabels (fun pa pl =>
    update_task (crd_ids pl) TaskCompleted (completed_message (crd_ids pl))
      (Some (EventFaultInjectionCompleted, VStr name)) ;;&
    for_batch pl name (inject_succeeded (crd_ids pl) pa namespace startTime endTime)).

(** *** Jobs *)

Definition opt_value {A} (f : A -> value) (o : option A) : value :=
  match o with Some a => f a | None => VNil end.

(** The message and the event of a job that was created; the execution is
    dereferenced without a test. *)
Definition job_added (ids : taskIdentifiers) (executionID : option Z) (pa : k8sAnnotationData) (name : string)
  : Hd W (string * string * value) :=
  match ti_taskType ids with
  | TaskTypeBuildDatapack =>
      h_ret ("building dataset for task " +:+ ti_taskID ids, EventDatapackBuildStarted,
             VMap [("datapack", opt_value datapack_value (an_datapack pa)); ("job_name", VStr name)])
  | TaskTypeRunAlgorithm =>
      match executionID with
      | None => h_panic
      | Some e =>
          h_ret ("running algorithm for task " +:+ ti_taskID ids, EventAlgoRunStarted,
                 VMap [("algorithm", opt_value item_value (an_algorithm pa));
                       ("datapack", opt_value datapack_value (an_datapack pa));
                       ("execution_id", VInt e); ("job_name", VStr name)])
      end
  | _ => h_ret ("", "", VNil)
  end.

Definition HandleJobAdd (name : string) (annotations labels : gmap string string) : Hd W unit :=
  with_parsed annotations labels parseJobLabels (fun pa pl =>
    let& (message, eventType, payload) := job_added (job_ids pl) (job_ExecutionID pl) pa name in
    update_task (job_ids pl) TaskRunning message (Some (eventType, payload))).

(** A token that cannot be given back is only logged. *)
Definition release_token (limiter : TokenBucketRateLimiter) (ids : taskIdentifiers) : Hd W unit :=
  let& _ := on_worker (on_redis (ReleaseToken limiter (ti_taskID ids))) in h_ret tt.

Definition is_detector (algorithm : ContainerVersionItem) : bool :=
  String.eqb (cvi_ContainerName algorithm) (ev_detector env).

(** The limiter, the algorithm and the execution of an algorithm job; the token is
    given back on the way. *)
Definition algorithm_job (pa : k8sAnnotationData) (pl : jobLabels) : Hd W (ContainerVersionItem * Z) :=
  match h_algoLimiter h with
  | None => Warn ;;& h_return
  | Some rateLimiter =>
      release_token rateLimiter (job_ids pl) ;;&
      match an_algorithm pa with
      | None => Fatal (job_ids pl) "missing algorithm information in annotations" ;;& h_return
      | Some algorithm =>
          match job_ExecutionID pl with
          | None => Fatal (job_ids pl) "missing execution ID in job labels" ;;& h_return
          | Some executionID => h_ret (algorithm, executionID)
          end
      end
  end.

(** The switch of [HandleJobFailed]; [log_file] is never set. *)
Definition job_failed (jobName : string) (datapack : InjectionItem) (pa : k8sAnnotationData) (pl : jobLabels)
  : Hd W (string * value) :=
  match ti_taskType (job_ids pl) with
  | TaskTypeBuildDatapack =>
      (let& r := updateInjectionState (ii_Name datapack) DatapackBuildFailed in warn_on_error r) ;;&
      h_ret (EventDatapackBuildFailed,
             VMap [("datapack", VStr (ii_Name datapack)); ("job_name", VStr jobName)])
  | TaskTypeRunAlgorithm =>
      let& (algorithm, executionID) := algorithm_job pa pl in
      (if is_detector algorithm
       then let& r := updateInjectionState (ii_Name datapack) DatapackDetectorFailed in warn_on_error r
       else h_ret tt) ;;&
      (let& r := updateExecutionState executionID ExecutionFailed in
       fatal_on_error (job_ids pl) "update execution state failed" r) ;;&
      h_ret (EventAlgoRunFailed,
             VMap [("algorithm", VStr (cvi_ContainerName algorithm)); ("job_name", VStr jobName)])
  | _ => h_ret ("", VNil)
  end.

Definition job_message (jobName namespace : string) : value :=
  VMap [("job_name", VStr jobName); ("namespace", VStr namespace)].

Definition HandleJobFailed (jobName namespace : string) (annotations labels : gmap string string)
  : Hd W unit :=
  with_parsed annotations labels parseJobLabels (fun pa pl =>
    let ids := job_ids pl in
    match an_datapack pa with
    | None => Fatal ids "missing datapack information in annotations" ;;& h_return
    | Some datapack =>
        if h_k8sGateway h then
          publish ids EventJobFailed (job_message jobName namespace) ;;&
          let& (eventName, payload) := job_failed jobName datapack pa pl in
          update_task ids TaskError (failed_message ids) (Some (eventName, payload))
        else Warn ;;& h_return
    end).

(** The task that runs the detector on a datapack, and the one that collects the
    results of an execution. *)
Definition detect_task (ids : taskIdentifiers) (pa : k8sAnnotationData) (algorithm : ContainerVersionItem)
    (datapack : InjectionItem) : UnifiedTask :=
  child_task ids TaskTypeRunAlgorithm
    {[ "algorithm" := item_value algorithm; "datapack" := datapack_value datapack;
       "dataset_version_id" := VInt 0 ]} (an_traceCarrier pa).
Definition collect_task (ids : taskIdentifiers) (pa : k8sAnnotationData) (algorithm : ContainerVersionItem)
    (datapack : InjectionItem) (executionID : Z) : UnifiedTask :=
  child_task ids TaskTypeCollectResult
    {[ "algorithm" := item_value algorithm; "datapack" := datapack_value datapack;
       "execution_id" := VInt executionID ]} (an_traceCarrier pa).

(** A failed submission of the next task is only logged. *)
Definition submit_or_warn (t : UnifiedTask) : Hd W unit :=
  let& _ := on_worker (submit t) in h_ret tt.

Definition datapack_built (jobName : string) (datapack : InjectionItem) (pa : k8sAnnotationData)
    (ids : taskIdentifiers) : Hd W unit :=
  (let& r := updateInjectionState (ii_Name datapack) DatapackBuildSuccess in
   fatal_on_error ids "update injection state failed" r) ;;&
  update_task ids TaskCompleted (completed_message ids)
    (Some (EventDatapackBuildSucceed,
           VMap [("datapack", VStr (ii_Name datapack)); ("job_name", VStr jobName)])) ;;&
  match ev_resolve env (ev_detector env) (ti_userID ids) with
  | Err _ => Fatal ids "failed to map container refs to versions" ;;& h_return
  | Ok (true, _) => Fatal ids "no valid algorithm versions found" ;;& h_return
  | Ok (false, None) => Fatal ids "algorithm version not found for item" ;;& h_return
  | Ok (false, Some algorithm) => submit_or_warn (detect_task ids pa algorithm datapack)
  end.

Definition algorithm_run (jobName : string) (datapack : InjectionItem) (pa : k8sAnnotationData)
    (pl : jobLabels) : Hd W unit :=
  let ids := job_ids pl in
  let& (algorithm, executionID) := algorithm_job pa pl in
  (if is_detector algorithm
   then let& r := updateInjectionState (ii_Name datapack) DatapackDetectorSuccess in
        fatal_on_error ids "update injection state failed" r
   else h_ret tt) ;;&
  (let& r := updateExecutionState executionID ExecutionSuccess in
   fatal_on_error ids "update execution state failed" r) ;;&
  update_task ids TaskCompleted (completed_message ids)
    (Some (EventAlgoRunSucceed,
           VMap [("algorithm", VStr (cvi_ContainerName algorithm)); ("job_name", VStr jobName)])) ;;&
  submit_or_warn (collect_task ids pa algorithm datapack executionID).

Definition HandleJobSucceeded (jobName namespace : string) (annotations labels : gmap string string)
  : Hd W unit :=
  with_parsed annotations labels parseJobLabels (fun pa pl =>
    let ids := job_ids pl in
    match an_datapack pa with
    | None => Fatal ids "missing datapack information in annotations" ;;& h_return
    | Some datapack =>
        publish ids EventJobSucceed (job_message jobName namespace) ;;&
        match ti_taskType ids with
        | TaskTypeBuildDatapack => datapack_built jobName datapack pa ids
        | TaskTypeRunAlgorithm => algorithm_run jobName datapack pa pl
        | _ => h_ret tt
        end
    end).
End Handler.

(** ** Labels survive the cluster *)

(** The identifiers a task is known by. *)
Definition identifiers (t : UnifiedTask) : taskIdentifiers :=
  mkIdentifiers (TaskID t) (Type_ t) (TraceID t) (GroupID t) (ProjectID t) (UserID t).

(** A task that can be found again from its labels. *)
Definition identified (t : UnifiedTask) : Prop :=
  TaskID t <> "" /\ TraceID t <> "" /\ GroupID t <> "" /\
  min_int64 <= ProjectID t <= max_int64 /\ min_int64 <= UserID t <= max_int64.

Lemma label_there what labels key reported v :
  labels !! key = Some v -> v <> "" -> label what labels key reported = Ok v.
Proof. intros Hl Hv. unfold label. rewrite Hl. by rewrite (proj2 (String.eqb_neq v "") Hv). Qed.

Lemma itoa_not_empty n : min_int64 <= n <= max_int64 -> itoa n <> "".
Proof. intros Hn E. apply atoi_itoa in Hn. by rewrite E in Hn. Qed.

Lemma parse_GetLabels what t labels :
  identified t -> GetLabels t ⊆ labels -> parseTaskIdentifiers what labels = Ok (identifiers t).
Proof.
  intros (Ht & Htr & Hg & Hp & Hu) Hsub.
  assert (Hl : forall k v reported, GetLabels t !! k = Some v -> v <> "" ->
    label what labels k reported = Ok v).
  { intros k v reported Hk Hv. apply label_there; [|done]. by eapply lookup_weaken. }
  unfold parseTaskIdentifiers.
  rewrite (Hl JobLabelTaskID (TaskID t)) by done. simpl.
  rewrite (Hl JobLabelTaskType (GetTaskTypeName (enum_code (Type_ t)))) by (done || by destruct (Type_ t)).
  cbn [res_bind]. rewrite GetTaskTypeByName_Name. simpl.
  rewrite (Hl JobLabelTraceID (TraceID t)) by done. simpl.
  rewrite (Hl JobLabelGroupID (GroupID t)) by done. simpl.
  rewrite (Hl JobLabelProjectID (itoa (ProjectID t))) by (done || by apply itoa_not_empty). simpl.
  rewrite atoi_itoa by done. simpl.
  rewrite (Hl JobLabelUserID (itoa (UserID t))) by (done || by apply itoa_not_empty). simpl.
  by rewrite atoi_itoa.
Qed.

(** Merging keeps the labels whose keys are not overridden. *)
Lemma merge_keeps (m extra : gmap string string) :
  m ##ₘ extra -> m ⊆ MergeSimpleMaps [m; extra] /\ extra ⊆ MergeSimpleMaps [m; extra].
Proof.
  intros Hd. unfold MergeSimpleMaps. simpl. rewrite (right_id_L ∅ (∪)). split.
  - by apply map_union_subseteq_r.
  - apply map_union_subseteq_l.
Qed.

Lemma parse_format_bool b : parse_bool (format_bool b) = Some b.
Proof. by destruct b. Qed.

(** Labels survive the cluster: from the labels the executors put on a chaos
    resource or on a job, the handlers read back the identifiers of the task, with
    the batch and its kind, or with the execution. *)
Theorem labels_roundtrip appID batchID isHybrid datapack executionID t :
  identified t -> min_int64 <= executionID <= max_int64 ->
  parseCRDLabels (injection_labels appID batchID isHybrid t)
    = Ok (mkCRDLabels (identifiers t) batchID isHybrid) /\
  parseJobLabels (algorithm_labels appID datapack executionID t)
    = Ok (mkJobLabels (identifiers t) (Some executionID)).
Proof.
  intros Ht He. split.
  - destruct (merge_keeps (GetLabels t) {[ K8sLabelAppID := appID; CRDLabelBatchID := batchID;
      CRDLabelIsHybrid := format_bool isHybrid ]}) as [Hg Hx].
    { unfold GetLabels. solve_map_disjoint. }
    fold (injection_labels appID batchID isHybrid t) in *. unfold parseCRDLabels.
    rewrite (parse_GetLabels "CRD labels" t) by done. simpl.
    assert (injection_labels appID batchID isHybrid t !! CRDLabelBatchID = Some batchID) as ->
      by (eapply lookup_weaken; [|exact Hx]; reflexivity). simpl.
    rewrite (label_there _ _ _ _ (format_bool isHybrid));
      [|eapply lookup_weaken; [|exact Hx]; reflexivity|by destruct isHybrid].
    simpl. by rewrite parse_format_bool.
  - destruct (merge_keeps (GetLabels t) {[ K8sLabelAppID := appID; JobLabelDatapack := datapack;
      JobLabelExecutionID := itoa executionID ]}) as [Hg Hx].
    { unfold GetLabels. solve_map_disjoint. }
    fold (algorithm_labels appID datapack executionID t) in *. unfold parseJobLabels.
    rewrite (parse_GetLabels "job labels" t) by done. simpl.
    assert (algorithm_labels appID datapack executionID t !! JobLabelExecutionID = Some (itoa executionID))
      as -> by (eapply lookup_weaken; [|exact Hx]; reflexivity). simpl.
    by rewrite atoi_itoa.
Qed.

(** ** What the steps leave alone *)

Section HandlerFacts.
Context {D R S : Type} `{WorkerDB D} `{TaskStore D} `{RedisLaws R} `{TaskCodec}.
Context `{StateOwners S} `{AnnotationCodec}.
Context (h : k8sHandler) (env : event_env).
#[local] Abbreviation W := (hworld D R S).

(** The keyspace a handler leaves. *)
Definition world_keys (w : W) : keyspace := keys (wk_redis (hw_worker w)).

(** A step that keeps a part of the keyspace. *)
Definition keeps {X A} (f : keyspace -> X) (m : Hd W A) : Prop :=
  forall w, f (world_keys (fst (m w))) = f (world_keys w).

Lemma keeps_ret {X A} (f : keyspace -> X) (a : A) : keeps f (h_ret a). Proof. done. Qed.
Lemma keeps_return {X A} (f : keyspace -> X) : keeps f (@h_return W A). Proof. done. Qed.
Lemma keeps_panic {X A} (f : keyspace -> X) : keeps f (@h_panic W A). Proof. done. Qed.
Lemma keeps_bind {X A C} (f : keyspace -> X) (m : Hd W A) (k : A -> Hd W C) :
  keeps f m -> (forall a, keeps f (k a)) -> keeps f (h_bind m k).
Proof.
  intros Hm Hk w. unfold h_bind. specialize (Hm w). destruct (m w) as [w' []]; simpl in *; [|done..].
  by rewrite Hk.
Qed.

Lemma keeps_on_owner {X A} (f : keyspace -> X) (m : M S A) : keeps f (@on_owner D R S A m).
Proof. intros w. unfold on_owner, world_keys. by destruct (m (hw_store w)). Qed.
Lemma keeps_on_batches {X A} (f : keyspace -> X) (g : FaultBatchManager -> FaultBatchManager * A) :
  keeps f (@on_batches D R S A g).
Proof. intros w. unfold on_batches, world_keys. by destruct (g (hw_batches w)). Qed.
Lemma keeps_on_worker {X A} (f : keyspace -> X) (m : M (worker D R) A) :
  (forall k, f (keys (wk_redis (fst (m k)))) = f (keys (wk_redis k))) -> keeps f (@on_worker D R S A m).
Proof. intros Hm w. unfold on_worker, world_keys. specialize (Hm (hw_worker w)). by destruct (m (hw_worker w)). Qed.

(** Parts a publication does not touch. *)
Definition not_streams {X} (f : keyspace -> X) : Prop := forall k v ks, f (upd_stream k v ks) = f ks.

Lemma publishEvent_keeps {X} (f : keyspace -> X) caller tr id ty ev payload (k : worker D R) :
  not_streams f ->
  f (keys (wk_redis (fst (publishEvent caller tr id ty ev payload k)))) = f (keys (wk_redis k)).
Proof.
  intros Hf. unfold publishEvent. destruct caller as [[file line] fn], payload as [json|e]; [|done].
  unfold on_redis, ignore_err, XAdd, m_wrap. destruct (exec _ (wk_redis k)) as [r1 o1] eqn:Ex. simpl.
  apply exec_keys in Ex as [-> | ->]; [done|]. apply Hf.
Qed.

Lemma updateTaskState_keeps {X} (f : keyspace -> X) caller u (k : worker D R) :
  not_streams f ->
  f (keys (wk_redis (fst (updateTaskState caller u k)))) = f (keys (wk_redis k)).
Proof.
  intros Hf. unfold updateTaskState, ignore_err. cbn [fst].
  assert (Hdb : forall k', f (keys (wk_redis (fst ((on_db (update_state (su_taskID u) (su_taskState u)) ;;!
                 updateTraceState u) k')))) = f (keys (wk_redis k'))).
  { intros k'. unfold m_bind, on_db. destruct (update_state _ _ (wk_db k')) as [d []]; done. }
  destruct (su_event u) as [[name payload]|].
  - unfold m_bind at 1. pose proof (publishEvent_keeps f caller (su_traceID u) (su_taskID u) (su_taskType u)
      name payload k Hf) as Hp.
    destruct (publishEvent _ _ _ _ _ _ k) as [k1 []]; simpl in *; [|done]. by rewrite Hdb.
  - unfold m_bind at 1. simpl. by rewrite Hdb.
Qed.

Lemma keeps_update_task {X} (f : keyspace -> X) ids st msg ev :
  not_streams f -> keeps f (@update_task D R S _ _ env ids st msg ev).
Proof.
  intros Hf. apply keeps_bind; [|intros; apply keeps_ret]. apply keeps_on_worker.
  intros k. by apply updateTaskState_keeps.
Qed.

Lemma keeps_publish {X} (f : keyspace -> X) ids ev payload :
  not_streams f -> keeps f (@publish D R S _ env ids ev payload).
Proof.
  intros Hf. apply keeps_bind; [|intros; apply keeps_ret]. apply keeps_on_worker.
  intros k. by apply publishEvent_keeps.
Qed.

Lemma keeps_updateInjectionState {X} (f : keyspace -> X) n st : keeps f (@updateInjectionState D R S _ h n st).
Proof. unfold updateInjectionState. destruct (h_injection h); [apply keeps_on_owner|apply keeps_ret]. Qed.
Lemma keeps_updateInjectionTimestamp {X} (f : keyspace -> X) n s e :
  keeps f (@updateInjectionTimestamp D R S _ h n s e).
Proof. unfold updateInjectionTimestamp. destruct (h_injection h); [apply keeps_on_owner|apply keeps_ret]. Qed.
Lemma keeps_updateExecutionState {X} (f : keyspace -> X) n st : keeps f (@updateExecutionState D R S _ h n st).
Proof. unfold updateExecutionState. destruct (h_execution h); [apply keeps_on_owner|apply keeps_ret]. Qed.

(** Giving a token back touches the set of the bucket only. *)
Definition not_sets {X} (f : keyspace -> X) : Prop := forall k v ks, f (upd_set k v ks) = f ks.

Lemma keeps_release_token {X} (f : keyspace -> X) limiter ids :
  not_sets f -> keeps f (@release_token D R S _ limiter ids).
Proof.
  intros Hf. apply keeps_bind; [|intros; apply keeps_ret]. apply keeps_on_worker. intros k.
  unfold on_redis, ReleaseToken, store_release, SetRemove, key_error, m_bind, m_wrap.
  destruct (exec _ (wk_redis k)) as [r1 o1] eqn:Ex. apply exec_keys in Ex.
  destruct o1; simpl; destruct Ex as [-> | ->]; done || apply Hf.
Qed.

(** ** What a handler can submit *)

(** The task that follows a task with identifiers [ids]. *)
Definition follows (ids : taskIdentifiers) (ty : TaskType) (t : UnifiedTask) : Prop :=
  Type_ t = ty /\ ParentTaskID t = Some (ti_taskID ids) /\ TraceID t = ti_traceID ids /\
  GroupID t = ti_groupID ids /\ ProjectID t = ti_projectID ids /\ UserID t = ti_userID ids.

(** A step that adds at most one task to the ready queue, and which. *)
Definition adds_at_most {A} (Q : UnifiedTask -> Prop) (m : Hd W A) : Prop :=
  forall w, let q := fifo (wk_redis (hw_worker w)) in
  let q' := fifo (wk_redis (hw_worker (fst (m w)))) in
  q' = q \/ exists t data, marshal_task t = Ok data /\ Q t /\ q' = q ++ [data].

Lemma adds_nothing {A} Q (m : Hd W A) : keeps ks_list m -> adds_at_most Q m.
Proof. intros Hm w. left. unfold fifo, ready, klist. specialize (Hm w). unfold world_keys in Hm. by rewrite Hm. Qed.

Lemma adds_bind {A C} Q (m : Hd W A) (k : A -> Hd W C) :
  keeps ks_list m -> (forall a, adds_at_most Q (k a)) -> adds_at_most Q (h_bind m k).
Proof.
  intros Hm Hk w. pose proof (adds_nothing Q m Hm w) as Hn. unfold h_bind.
  specialize (Hm w). destruct (m w) as [w' [a| | |]] eqn:E; cbn [fst] in *; try exact Hn.
  specialize (Hk a w'). unfold world_keys in Hm. unfold fifo, ready, klist in *. rewrite Hm in Hk.
  exact Hk.
Qed.

Lemma adds_then {A C} Q (m : Hd W A) (k : A -> Hd W C) :
  adds_at_most Q m -> (forall a, keeps ks_list (k a)) -> adds_at_most Q (h_bind m k).
Proof.
  intros Hm Hk w. specialize (Hm w). unfold h_bind.
  destruct (m w) as [w' [a| | |]] eqn:E; cbn [fst] in *; try exact Hm.
  specialize (Hk a w'). unfold world_keys in Hk. unfold fifo, ready, klist in *. by rewrite Hk.
Qed.

Lemma prepare_owner env' (db : D) t t' trace task :
  prepare env' db t = Ok (t', trace, task) ->
  GroupID t' = GroupID t /\ ProjectID t' = ProjectID t /\ UserID t' = UserID t.
Proof.
  unfold prepare. rewrite res_bind_ok. intros (t1 & Hl & Hx).
  apply res_bind_ok in Hx as (t2 & Ht & Hx). apply res_bind_ok in Hx as (tr & _ & Hx).
  apply res_bind_ok in Hx as (row & _ & [= <- _ _]).
  assert (A : GroupID t1 = GroupID t /\ ProjectID t1 = ProjectID t /\ UserID t1 = UserID t).
  { unfold assign_level in Hl. destruct (ParentTaskID _); [|by injection Hl as <-].
    destruct (rescheduled _); [by injection Hl as <-|]. by apply res_bind_ok in Hl as (l & _ & [= <-]). }
  assert (B : GroupID t2 = GroupID t1 /\ ProjectID t2 = ProjectID t1 /\ UserID t2 = UserID t1).
  { unfold assign_time, calculateExecuteTime in Ht. destruct (Immediate t1); [by injection Ht as <-|].
    destruct (bool_decide _); simpl in Ht; [|by injection Ht as <-].
    destruct (CronNextTime _ _); simpl in Ht; [by injection Ht as <-|done]. }
  destruct A as (-> & -> & ->) in B. exact B.
Qed.

Lemma submit_adds ids ty payload c (Hid : ti_traceID ids <> "") :
  adds_at_most (follows ids ty) (@submit_or_warn D R S _ _ _ env (child_task env ids ty payload c)).
Proof.
  apply adds_then; [|intros; apply keeps_ret]. intros w. unfold on_worker, submit, SubmitTaskWithDB.
  destruct w as [[r db sp ca] mu b s]. simpl.
  destruct (prepare _ db _) as [[[t1 trace] task]|e] eqn:Ep; [|by left].
  destruct (transaction (store_rows trace task) db) as [db1 [[]|e]]; [|by left].
  destruct (marshal_task t1) as [data|e] eqn:Em; [|by left].
  destruct (enqueue (ev_submit env) t1 data r) as [r1 o1] eqn:Eq. cbn [fst hw_worker wk_redis].
  destruct (prepare_fields _ _ _ _ _ _ Ep) as (_ & _ & _ & Htr & Him & _ & Hp & Hty & _).
  destruct (prepare_owner _ _ _ _ _ _ Ep) as (Hg & Hpr & Hu). simpl in *.
  assert (Hf : fifo r1 = fifo r \/ fifo r1 = fifo r ++ [data]).
  { unfold enqueue, m_wrap in Eq. rewrite Him in Eq. unfold SubmitImmediateTask, m_bind in Eq.
    destruct (exec (LPUSH ReadyQueueKey [data]) r) as [r2 o2] eqn:E2. apply exec_keys in E2.
    destruct (exec (HSET TaskIndexKey (TaskID t1) ReadyQueueKey) r2) as [r3 o3] eqn:E3. apply exec_keys in E3.
    assert (Hk : forall x, keys x = keys r \/ keys x = fst (cmd_step (chosen r) (LPUSH ReadyQueueKey [data]) (keys r))
      -> fifo x = fifo r \/ fifo x = fifo r ++ [data]).
    { intros x [Hx|Hx]; unfold fifo, ready; rewrite Hx; [by left|right]. simpl. by rewrite klist_upd, decide_True. }
    specialize (Hk r2 E2). destruct o2 as [[]|e2].
    - assert (r1 = r3) as -> by (destruct o3; simpl in Eq; by injection Eq).
      assert (fifo r3 = fifo r2) as -> by (unfold fifo, ready; by destruct E3 as [-> | ->]). done.
    - simpl in Eq. by injection Eq as <- _. }
  destruct Hf as [Hf|Hf]; [by left|right]. exists t1, data. split; [done|]. split; [|done].
  unfold follows. rewrite Hty, Hp, Hg, Hpr, Hu, Htr. simpl.
  by rewrite (proj2 (String.eqb_neq _ _) Hid).
Qed.

Lemma keeps_Warn {X} (f : keyspace -> X) : keeps f (@Warn D R S). Proof. done. Qed.
Lemma keeps_warn_on_error {X} (f : keyspace -> X) r : keeps f (@warn_on_error D R S r).
Proof. by destruct r. Qed.
Lemma keeps_Fatal {X} (f : keyspace -> X) ids msg :
  not_streams f -> keeps f (@Fatal D R S _ _ env ids msg).
Proof. apply keeps_update_task. Qed.
Lemma keeps_fatal_on_error {X} (f : keyspace -> X) ids msg r :
  not_streams f -> keeps f (@fatal_on_error D R S _ _ env ids msg r).
Proof. intros Hf. destruct r; [apply keeps_ret|]. apply keeps_bind; [by apply keeps_Fatal|intros; apply keeps_return]. Qed.

(** *** The release of a lock *)

Definition m_keeps {X A} (f : keyspace -> X) (m : M R A) : Prop :=
  forall r, f (keys (fst (m r))) = f (keys r).

Lemma m_keeps_bind {X A C} (f : keyspace -> X) (m : M R A) (k : A -> M R C) :
  m_keeps f m -> (forall a, m_keeps f (k a)) -> m_keeps f (m_bind m k).
Proof. intros Hm Hk r. unfold m_bind. specialize (Hm r). destruct (m r) as [r' []]; simpl in *; [by rewrite Hk|done]. Qed.
Lemma m_keeps_exec {X A} (f : keyspace -> X) (c : cmd A) :
  (forall ord ks, f (fst (cmd_step ord c ks)) = f ks) -> m_keeps f (exec c).
Proof. intros Hc r. destruct (exec c r) as [r' o] eqn:E. simpl. by apply exec_keys in E as [-> | ->]. Qed.
Lemma m_keeps_attempt {X A} (f : keyspace -> X) (m : M R A) : m_keeps f m -> m_keeps f (attempt m).
Proof. intros Hm r. unfold attempt. specialize (Hm r). by destruct (m r). Qed.
Lemma m_keeps_wrap {X A} (f : keyspace -> X) p (m : M R A) : m_keeps f m -> m_keeps f (m_wrap p m).
Proof. intros Hm r. unfold m_wrap. specialize (Hm r). by destruct (m r). Qed.
Lemma m_keeps_ignore {X A} (f : keyspace -> X) (m : M R A) : m_keeps f m -> m_keeps f (ignore_err m).
Proof. intros Hm r. apply Hm. Qed.

(** Parts no hash is in. *)
Definition not_hashes {X} (f : keyspace -> X) : Prop := forall k v ks, f (upd_hash k v ks) = f ks.

Lemma release_keeps {X} (f : keyspace -> X) ns tr now :
  not_hashes f -> m_keeps f (release [] ns tr now).
Proof.
  intros Hf. assert (Hget : forall k g, m_keeps f (hget_or_empty k g)).
  { intros k g. apply m_keeps_bind.
    - apply m_keeps_attempt, m_keeps_exec. intros ord ks. by rewrite reads_HGET.
    - intros [v|e]; [done|]. by destruct (String.eqb e redis_Nil). }
  assert (Hread : m_keeps f (read ns)).
  { apply m_keeps_bind; [apply Hget|]. intros a. apply m_keeps_bind; [apply Hget|]. done. }
  assert (Hwrite : forall e t, m_keeps f (write ns e t)).
  { intros e t. apply m_keeps_wrap, m_keeps_exec. intros; apply Hf. }
  intros r. unfold release. specialize (Hread r). destruct (read ns r) as [r1 [state|e]]; simpl in *.
  - destruct (_ && _); [done|]. by rewrite Hwrite.
  - destruct (String.eqb e redis_Nil); [by rewrite Hwrite|done].
Qed.

(** A computation on the monitor that keeps a part of the keyspace. *)
Definition b_keeps {X A} (f : keyspace -> X) (m : B (monitor R) A) : Prop :=
  forall w, match m w with
            | Finished w' _ | Blocked w' => f (keys (mon_redis w')) = f (keys (mon_redis w))
            end.

Lemma b_keeps_bind {X A C} (f : keyspace -> X) (m : B (monitor R) A) (k : A -> B (monitor R) C) :
  b_keeps f m -> (forall a, b_keeps f (k a)) -> b_keeps f (b_bind m k).
Proof.
  intros Hm Hk w. unfold b_bind. specialize (Hm w). destruct (m w) as [w' [a|e]|w']; [|done..].
  specialize (Hk a w'). destruct (k a w'); congruence.
Qed.
Lemma b_keeps_wrap {X A} (f : keyspace -> X) p (m : B (monitor R) A) : b_keeps f m -> b_keeps f (b_wrap p m).
Proof. intros Hm w. unfold b_wrap. specialize (Hm w). by destruct (m w). Qed.
Lemma b_keeps_defer {X A} (f : keyspace -> X) last (m : B (monitor R) A) :
  b_keeps f m -> (forall o, b_keeps f (last o)) -> b_keeps f (b_defer last m).
Proof.
  intros Hm Hl w. unfold b_defer. specialize (Hm w). destruct (m w) as [w' o|w']; [|done].
  specialize (Hl o w'). destruct (last o w'); congruence.
Qed.
Lemma b_keeps_store {X A} (f : keyspace -> X) (m : M R A) : m_keeps f m -> b_keeps f (on_store m).
Proof. intros Hm w. unfold on_store. specialize (Hm (mon_redis w)). by destruct (m (mon_redis w)). Qed.
Lemma b_keeps_context {X} (f : keyspace -> X) : b_keeps f (currentContext (R:=R)).
Proof. intros w. unfold currentContext. by destruct (mu_locked w). Qed.

Lemma ReleaseLock_keeps {X} (f : keyspace -> X) menv ns tr :
  not_streams f -> not_hashes f -> b_keeps f (ReleaseLock menv [] ns tr).
Proof.
  intros Hs Hh.
  apply b_keeps_defer.
  - destruct (_ || _); [done|]. apply b_keeps_bind.
    + apply b_keeps_wrap, b_keeps_bind; [apply b_keeps_context|]. intros _. apply b_keeps_store.
      apply m_keeps_wrap, m_keeps_exec. done.
    + intros []; [|done]. apply b_keeps_bind; [apply b_keeps_context|]. intros _.
      by apply b_keeps_store, release_keeps.
  - intros o. unfold publish_lock. destruct (mon_caller menv) as [[file line] fn].
    destruct (lock_json _ _); [|done]. apply b_keeps_store, m_keeps_ignore, m_keeps_wrap, m_keeps_exec. intros; apply Hs.
Qed.

Lemma keeps_on_monitor {X A} (f : keyspace -> X) (m : B (monitor R) A) :
  b_keeps f m -> keeps f (@on_monitor D R S A m).
Proof.
  intros Hm w. unfold on_monitor, world_keys. specialize (Hm (mkMonitor (hw_mu w) (wk_redis (hw_worker w)))).
  by destruct (m _).
Qed.
End HandlerFacts.

Lemma lists_not_streams : not_streams ks_list. Proof. done. Qed.
Lemma lists_not_sets : not_sets ks_list. Proof. done. Qed.
Lemma sets_not_streams : not_streams ks_set. Proof. done. Qed.

#[export] Hint Resolve lists_not_streams lists_not_sets sets_not_streams keeps_ret keeps_return keeps_panic keeps_on_owner keeps_on_batches
  keeps_update_task keeps_publish keeps_updateInjectionState keeps_updateInjectionTimestamp
  keeps_updateExecutionState keeps_release_token keeps_Warn keeps_warn_on_error keeps_Fatal
  keeps_fatal_on_error : aegis.

(** Walks through the steps of a handler. *)
Ltac keep_steps :=
  repeat match goal with
  | |- keeps _ (h_bind _ _) => apply keeps_bind; [|intros]
  | |- keeps _ (let (_, _) := ?p in _) => destruct p
  | |- keeps _ (let _ := _ in _) => cbv zeta
  | |- keeps _ (match ?x with _ => _ end) => destruct x
  | |- keeps _ _ => solve [auto with aegis]
  end.

(** ** The events *)

Inductive k8s_event :=
| CRDAdd (name : string)
| CRDDelete (namespace : string)
| CRDFailed (name errMsg : string)
| CRDSucceeded (namespace name : string) (startTime endTime : Z)
| JobAdd (name : string)
| JobFailed (name namespace : string)
| JobSucceeded (name namespace : string).

(** The identifiers an event is handled with. *)
Definition event_ids (ev : k8s_event) (labels : gmap string string) : res taskIdentifiers :=
  match ev with
  | CRDAdd _ | CRDDelete _ | CRDFailed _ _ | CRDSucceeded _ _ _ _ => res_map crd_ids (parseCRDLabels labels)
  | _ => res_map job_ids (parseJobLabels labels)
  end.

(** What comes after an event of a task of a given type. *)
Definition successor (ev : k8s_event) (ty : TaskType) : option TaskType :=
  match ev, ty with
  | CRDSucceeded _ _ _ _, _ => Some TaskTypeBuildDatapack
  | JobSucceeded _ _, TaskTypeBuildDatapack => Some TaskTypeRunAlgorithm
  | JobSucceeded _ _, TaskTypeRunAlgorithm => Some TaskTypeCollectResult
  | _, _ => None
  end.

Section Events.
Context {D R S : Type} `{WorkerDB D} `{TaskStore D} `{RedisServer R} `{TaskCodec}.
Context `{StateOwners S} `{AnnotationCodec}.

Definition handle (h : k8sHandler) (env : event_env) (ev : k8s_event) (annotations labels : gmap string string)
  : Hd (hworld D R S) unit :=
  match ev with
  | CRDAdd name => HandleCRDAdd env name annotations labels
  | CRDDelete namespace => HandleCRDDelete h env namespace annotations labels
  | CRDFailed name errMsg => HandleCRDFailed h env name annotations labels errMsg
  | CRDSucceeded namespace name s e => HandleCRDSucceeded h env namespace name s e annotations labels
  | JobAdd name => HandleJobAdd env name annotations labels
  | JobFailed name namespace => HandleJobFailed h env name namespace annotations labels
  | JobSucceeded name namespace => HandleJobSucceeded h env name namespace annotations labels
  end.
End Events.

Lemma label_not_empty what labels key reported v : label what labels key reported = Ok v -> v <> "".
Proof.
  unfold label. destruct (labels !! key) as [s|]; [|done]. destruct (String.eqb_spec s ""); [done|].
  by intros [= <-].
Qed.

Lemma parse_trace_not_empty what labels ids : parseTaskIdentifiers what labels = Ok ids -> ti_traceID ids <> "".
Proof.
  unfold parseTaskIdentifiers. rewrite res_bind_ok. intros (a & _ & Hx).
  apply res_bind_ok in Hx as (b & _ & Hx). apply res_bind_ok in Hx as (c & _ & Hx).
  apply res_bind_ok in Hx as (tr & Ht & Hx). apply label_not_empty in Ht.
  apply res_bind_ok in Hx as (e & _ & Hx). apply res_bind_ok in Hx as (f & _ & Hx).
  apply res_bind_ok in Hx as (g & _ & Hx). apply res_bind_ok in Hx as (i & _ & Hx).
  apply res_bind_ok in Hx as (j & _ & [= <-]). done.
Qed.

Lemma crd_trace_not_empty labels pl : parseCRDLabels labels = Ok pl -> ti_traceID (crd_ids pl) <> "".
Proof.
  unfold parseCRDLabels. rewrite res_bind_ok. intros (ids & Hi & Hx).
  apply res_bind_ok in Hx as (b & _ & Hx). apply res_bind_ok in Hx as (c & _ & Hx).
  apply res_bind_ok in Hx as (d & _ & [= <-]). simpl.
  destruct (parseTaskIdentifiers _ labels) eqn:E; [|done]. injection Hi as <-. by eapply parse_trace_not_empty.
Qed.

Lemma job_trace_not_empty labels pl : parseJobLabels labels = Ok pl -> ti_traceID (job_ids pl) <> "".
Proof.
  unfold parseJobLabels. rewrite res_bind_ok. intros (ids & Hi & Hx).
  assert (Ht : ti_traceID ids <> "").
  { destruct (parseTaskIdentifiers _ labels) eqn:E; [|done]. injection Hi as <-. by eapply parse_trace_not_empty. }
  destruct (labels !! JobLabelExecutionID); [|by injection Hx as <-].
  by apply res_bind_ok in Hx as (e & _ & [= <-]).
Qed.

Section EventFacts.
Context {D R S : Type} `{WorkerDB D} `{TaskStore D} `{RedisLaws R} `{TaskCodec}.
Context `{StateOwners S} `{AnnotationCodec}.
Context (h : k8sHandler) (env : event_env).
#[local] Abbreviation W := (hworld D R S).

Lemma with_parsed_keeps {X L} (f : keyspace -> X) an lb parse (k : k8sAnnotationData -> L -> Hd W unit) :
  (forall pa pl, keeps f (k pa pl)) -> keeps f (with_parsed an lb parse k).
Proof. intros Hk. unfold with_parsed. destruct (parseAnnotations an), (parse lb); done. Qed.

(** Everything [algorithm_job] does besides the token. *)
Lemma keeps_algorithm_job {X} (f : keyspace -> X) pa pl :
  not_streams f -> not_sets f -> keeps f (@algorithm_job D R S _ _ h env pa pl).
Proof. intros H1' H2'. unfold algorithm_job. keep_steps. Qed.
#[local] Hint Resolve keeps_algorithm_job : aegis.

Lemma keeps_job_failed {X} (f : keyspace -> X) name dp pa pl :
  not_streams f -> not_sets f -> keeps f (@job_failed D R S _ _ _ h env name dp pa pl).
Proof. intros H1' H2'. unfold job_failed. keep_steps. Qed.
#[local] Hint Resolve keeps_job_failed : aegis.

(** Events without a successor. *)
Lemma handle_keeps_lists ev an lb :
  ev_between env = [] ->
  match ev with CRDSucceeded _ _ _ _ | JobSucceeded _ _ => False | _ => True end ->
  keeps ks_list (@handle D R S _ _ _ _ _ _ h env ev an lb).
Proof.
  intros Hb Hev. destruct ev; try done; simpl; apply with_parsed_keeps; intros pa pl.
  - keep_steps.
  - rewrite Hb. destruct (h_monitor h); [|done]. apply keeps_bind; [|done].
    apply keeps_on_monitor, ReleaseLock_keeps; done.
  - unfold for_batch, inject_failed. keep_steps.
  - unfold job_added. keep_steps.
  - keep_steps.
Qed.

(** Steps that may submit one task. *)
Lemma adds_weaken {A} (Q Q' : UnifiedTask -> Prop) (m : Hd W A) :
  (forall t, Q t -> Q' t) -> adds_at_most Q m -> adds_at_most Q' m.
Proof. intros HQ Hm w. destruct (Hm w) as [|(t & data & ? & ? & ?)]; [by left|right]. eauto 6. Qed.

Lemma for_batch_adds Q pl name post :
  (forall n, adds_at_most Q (post n)) -> adds_at_most Q (@for_batch D R S h pl name post).
Proof.
  intros Hp. unfold for_batch. destruct (crd_IsHybrid pl); [|apply Hp].
  destruct (h_batchManager h); [|by apply adds_nothing].
  apply adds_bind; [auto with aegis|]. intros []; [apply Hp|by apply adds_nothing].
Qed.

Lemma inject_succeeded_adds ids pa ns s e n :
  ti_traceID ids <> "" ->
  adds_at_most (follows ids TaskTypeBuildDatapack) (@inject_succeeded D R S _ _ _ _ _ h env ids pa ns s e n).
Proof.
  intros Hid. unfold inject_succeeded. apply adds_bind; [keep_steps|]. intros _.
  apply adds_bind; [keep_steps|]. intros [dp|err]; [|apply adds_nothing; keep_steps].
  destruct (an_benchmark pa) as [bm|]; [|by apply adds_nothing].
  intros w. pose proof (submit_adds env ids TaskTypeBuildDatapack
    {[ "benchmark" := item_value (set_env_vars [mkParam "NAMESPACE" (VStr ns) ""] bm);
       "datapack" := datapack_value dp; "dataset_version_id" := VInt 0 ]} (an_traceCarrier pa) Hid w) as Hs.
  unfold submit_or_warn, h_bind in *. fold (build_task env ids pa ns bm dp) in Hs.
  destruct (on_worker (submit env (build_task env ids pa ns bm dp)) w) as [w1 [[t|err]| | |]] eqn:E; cbn [fst] in *;
    try exact Hs.
  pose proof (keeps_Fatal env ks_list ids "failed to submit datapack build task" lists_not_streams w1) as Hk.
  unfold world_keys in Hk. unfold fifo, ready, klist in *. rewrite Hk. exact Hs.
Qed.

Lemma datapack_built_adds name dp pa ids :
  ti_traceID ids <> "" ->
  adds_at_most (follows ids TaskTypeRunAlgorithm) (@datapack_built D R S _ _ _ _ _ h env name dp pa ids).
Proof.
  intros Hid. unfold datapack_built. apply adds_bind; [keep_steps|]. intros _.
  apply adds_bind; [keep_steps|]. intros _.
  destruct (ev_resolve env _ _) as [[[] [algorithm|]]|e]; try (apply adds_nothing; solve [keep_steps]).
  by apply submit_adds.
Qed.

Lemma algorithm_run_adds name dp pa pl :
  ti_traceID (job_ids pl) <> "" ->
  adds_at_most (follows (job_ids pl) TaskTypeCollectResult) (@algorithm_run D R S _ _ _ _ _ h env name dp pa pl).
Proof.
  intros Hid. unfold algorithm_run. apply adds_bind; [keep_steps|]. intros [algorithm executionID].
  apply adds_bind; [keep_steps|]. intros _. apply adds_bind; [keep_steps|]. intros _.
  apply adds_bind; [keep_steps|]. intros _. by apply submit_adds.
Qed.

(** A task that continues the trace after an event. *)
Definition next_of (ev : k8s_event) (lb : gmap string string) (t : UnifiedTask) : Prop :=
  exists ids ty, event_ids ev lb = Ok ids /\ successor ev (ti_taskType ids) = Some ty /\ follows ids ty t.

(** C5. The pipeline advances one stage at a time: an event adds at most one task
    to the ready queue, and only an injection or a job that succeeded adds any; the
    task is of the next stage and belongs to the trace, the group, the project and
    the user of the task the event is about, as its child. *)
Theorem event_submits_successor ev an lb (w : W) :
  ev_between env = [] ->
  let q := fifo (wk_redis (hw_worker w)) in
  let q' := fifo (wk_redis (hw_worker (fst (handle h env ev an lb w)))) in
  q' = q \/ exists t data, marshal_task t = Ok data /\ next_of ev lb t /\ q' = q ++ [data].
Proof.
  intros Hb. revert w. change (adds_at_most (next_of ev lb) (handle h env ev an lb : Hd W unit)).
  assert (Hd : match ev with CRDSucceeded _ _ _ _ | JobSucceeded _ _ => False | _ => True end \/
               match ev with CRDSucceeded _ _ _ _ | JobSucceeded _ _ => True | _ => False end)
    by (destruct ev; auto).
  destruct Hd as [Hev|Hev]; [by apply adds_nothing, handle_keeps_lists|].
  destruct ev as [| | |ns name s e| | |name ns]; try done; simpl;
    unfold HandleCRDSucceeded, HandleJobSucceeded, with_parsed;
    (destruct (parseAnnotations an) as [pa|]; [|by apply adds_nothing]).
  - destruct (parseCRDLabels lb) as [pl|] eqn:El; [|by apply adds_nothing].
    apply adds_bind; [keep_steps|]. intros _. apply for_batch_adds. intros n.
    eapply adds_weaken; [|apply inject_succeeded_adds; by eapply crd_trace_not_empty].
    intros t Ht. exists (crd_ids pl), TaskTypeBuildDatapack. simpl. by rewrite El.
  - destruct (parseJobLabels lb) as [pl|] eqn:El; [|by apply adds_nothing].
    pose proof (job_trace_not_empty _ _ El) as Hid. cbv zeta.
    destruct (an_datapack pa) as [dp|]; [|apply adds_nothing; keep_steps].
    apply adds_bind; [keep_steps|]. intros _.
    assert (Hn : forall t ty, successor (JobSucceeded name ns) (ti_taskType (job_ids pl)) = Some ty ->
      follows (job_ids pl) ty t -> next_of (JobSucceeded name ns) lb t).
    { intros t ty Hs Ht. exists (job_ids pl), ty. simpl. by rewrite El. }
    destruct (ti_taskType (job_ids pl)) eqn:Ety; try (by apply adds_nothing);
      (eapply adds_weaken; [intros t; by apply Hn|]);
      (by apply datapack_built_adds) || (by apply algorithm_run_adds).
Qed.
End EventFacts.

(** ** Tokens *)

Section TokenFacts.
Context {D R S : Type} `{WorkerDB D} `{TaskStore D} `{RedisLaws R} `{!RedisReliable R} `{TaskCodec}.
Context `{StateOwners S} `{AnnotationCodec}.
Context (h : k8sHandler) (env : event_env).
#[local] Abbreviation W := (hworld D R S).

Lemma keeps_submit {X} (f : keyspace -> X) ids ty payload c :
  (forall k v ks, f (upd_list k v ks) = f ks) -> (forall k v ks, f (upd_hash k v ks) = f ks) ->
  keeps f (@submit_or_warn D R S _ _ _ env (child_task env ids ty payload c)).
Proof.
  intros Hl Hh. apply keeps_bind; [|intros; apply keeps_ret]. apply keeps_on_worker. intros [r db sp ca].
  unfold submit, SubmitTaskWithDB. simpl. destruct (prepare _ db _) as [[[t1 trace] task]|e] eqn:Ep; [|done].
  destruct (transaction (store_rows trace task) db) as [db1 [[]|e]]; [|done].
  destruct (marshal_task t1) as [data|e]; [|done].
  destruct (prepare_fields _ _ _ _ _ _ Ep) as (_ & _ & _ & _ & Him & _). simpl in Him.
  unfold enqueue. rewrite Him.
  assert (Hk : m_keeps f (m_wrap "failed to submit task to queue (task saved in DB): "
                 (SubmitImmediateTask data (TaskID t1)) : M R unit)).
  { apply m_keeps_wrap, m_keeps_bind; [|intros _]; apply m_keeps_exec; intros; [apply Hl|apply Hh]. }
  specialize (Hk r). destruct (m_wrap _ _ r). done.
Qed.

Lemma kset_not_streams k : not_streams (kset k).
Proof. done. Qed.
#[local] Hint Resolve kset_not_streams : aegis.

(** The task holds no token afterwards. *)
Definition frees {A} (limiter : TokenBucketRateLimiter) (id : string) (m : Hd W A) : Prop :=
  forall w, id ∉ kset (bucketKey limiter) (world_keys (fst (m w))).

Lemma frees_then {A C} limiter id (m : Hd W A) (k : A -> Hd W C) :
  frees limiter id m -> (forall a, keeps (kset (bucketKey limiter)) (k a)) -> frees limiter id (h_bind m k).
Proof.
  intros Hm Hk w. specialize (Hm w). unfold h_bind. destruct (m w) as [w' [a| | |]]; cbn [fst] in *; try done.
  specialize (Hk a w'). by rewrite Hk.
Qed.

(** A step that always goes on. *)
Definition goes_on {A} (m : Hd W A) : Prop := forall w, exists a, snd (m w) = Continue a.

Lemma frees_after {A C} limiter id (m : Hd W A) (k : A -> Hd W C) :
  goes_on m -> (forall a, frees limiter id (k a)) -> frees limiter id (h_bind m k).
Proof.
  intros Hm Hk w. destruct (Hm w) as [a Ha]. unfold h_bind.
  destruct (m w) as [w' o]. cbn [snd] in Ha. subst o. apply Hk.
Qed.

Lemma publish_goes_on ids name payload : goes_on (@publish D R S _ env ids name payload).
Proof. intros w. unfold publish, h_bind, on_worker. destruct (publishEvent _ _ _ _ _ _ _). by eexists. Qed.

Lemma release_token_frees limiter ids :
  frees limiter (ti_taskID ids) (@release_token D R S _ limiter ids).
Proof.
  apply frees_then; [|intros; apply keeps_ret]. intros w. unfold on_worker, on_redis, world_keys.
  destruct w as [[r db sp ca] mu b s]. cbn [hw_worker wk_redis].
  unfold ReleaseToken, store_release, SetRemove, key_error, m_bind, m_wrap.
  destruct (exec _ r) as [r1 o1] eqn:Ex. apply served in Ex. simpl in Ex. injection Ex as Hk <-. simpl.
  rewrite <- Hk, kset_upd, decide_True by done. set_solver.
Qed.

Lemma algorithm_job_frees limiter pa pl :
  h_algoLimiter h = Some limiter ->
  frees limiter (ti_taskID (job_ids pl)) (@algorithm_job D R S _ _ h env pa pl).
Proof.
  intros Hl. unfold algorithm_job. rewrite Hl. apply frees_then; [apply release_token_frees|].
  intros _. keep_steps.
Qed.

(** Tokens at the end of an algorithm job.  Whether it failed or succeeded,
    and whatever fails afterwards, the task holds no token of the limiter once the
    event is handled, when the job carries its datapack.  A job without that
    annotation is given up before the limiter is looked at: its token stays in the
    bucket. *)
Theorem job_end_token ev limiter an lb pa pl (w : W) :
  match ev with JobFailed _ _ | JobSucceeded _ _ => True | _ => False end ->
  h_k8sGateway h = true -> h_algoLimiter h = Some limiter ->
  parseAnnotations an = Ok pa -> parseJobLabels lb = Ok pl -> ti_taskType (job_ids pl) = TaskTypeRunAlgorithm ->
  let before := kset (bucketKey limiter) (world_keys w) in
  let after := kset (bucketKey limiter) (world_keys (fst (handle h env ev an lb w))) in
  match an_datapack pa with
  | Some _ => ti_taskID (job_ids pl) ∉ after
  | None => after = before
  end.
Proof.
  intros Hev Hg Hl Ha Hp Hty before after. subst before after.
  destruct ev as [| | | | |name ns|name ns]; try done; simpl;
    unfold HandleJobFailed, HandleJobSucceeded, with_parsed; rewrite Ha, Hp; cbv zeta;
    destruct (an_datapack pa) as [dp|].
  - rewrite Hg. revert w. apply frees_after; [apply publish_goes_on|]. intros _.
    apply frees_then; [|intros; keep_steps]. unfold job_failed. rewrite Hty.
    apply frees_then; [by apply algorithm_job_frees|]. intros; keep_steps.
  - assert (Hk : keeps (kset (bucketKey limiter)) (@Fatal D R S _ _ env (job_ids pl) "missing datapack information in annotations" ;;&
      @h_return W unit)) by keep_steps. by rewrite Hk.
  - rewrite Hty. revert w. apply frees_after; [apply publish_goes_on|]. intros _.
    apply frees_then; [by apply algorithm_job_frees|]. intros [algorithm executionID].
    unfold collect_task. keep_steps. by apply keeps_submit.
  - assert (Hk : keeps (kset (bucketKey limiter)) (@Fatal D R S _ _ env (job_ids pl) "missing datapack information in annotations" ;;&
      @h_return W unit)) by keep_steps. by rewrite Hk.
Qed.
End TokenFacts.

(** ** Batches and crashes *)

Section EndFacts.
Context {D R S : Type} `{WorkerDB D} `{TaskStore D} `{RedisServer R} `{TaskCodec}.
Context `{StateOwners S} `{AnnotationCodec}.
Context (h : k8sHandler) (env : event_env).
#[local] Abbreviation W := (hworld D R S).

(** A step on the worker leaves the rest of the world. *)
Lemma update_task_worker ids st msg ev (w : W) :
  exists k, update_task env ids st msg ev w = (mkHWorld k (hw_mu w) (hw_batches w) (hw_store w), Continue tt).
Proof. unfold update_task, h_bind, on_worker. destruct (updateTaskState _ _ (hw_worker w)) as [k o]. by exists k. Qed.

Lemma on_worker_rest {A} (m : M (worker D R) A) (w : W) :
  exists k o, on_worker m w = (mkHWorld k (hw_mu w) (hw_batches w) (hw_store w), Continue o).
Proof. unfold on_worker. destruct (m (hw_worker w)) as [k o]. by exists k, o. Qed.

(** What a submission or a failure to make one does to the store: nothing. *)
Lemma inject_succeeded_store ids pa ns st et n (w : W) :
  h_injection h = true ->
  hw_store (fst (inject_succeeded h env ids pa ns st et n w)) =
  fst (UpdateInjectionTimestamps n st et (fst (UpdateInjectionState n DatapackInjectSuccess (hw_store w)))).
Proof.
  intros Hi. unfold inject_succeeded, updateInjectionState, updateInjectionTimestamp. rewrite Hi.
  unfold h_bind at 1 2, on_owner at 1.
  destruct (UpdateInjectionState n DatapackInjectSuccess (hw_store w)) as [s1 o1].
  assert (Hw : forall w', warn_on_error o1 w' = (w', Continue tt) :> W * ending unit) by (by destruct o1).
  rewrite Hw. unfold h_bind at 1, on_owner. cbn [hw_store fst].
  destruct (UpdateInjectionTimestamps n st et s1) as [s2 [dp|e]]; cbn [fst]; [|done].
  destruct (an_benchmark pa) as [bm|]; [|done]. unfold h_bind.
  match goal with |- context [on_worker ?m ?x] => destruct (on_worker_rest m x) as (k & o & ->) end.
  cbn [hw_store]. destruct o as [t|e]; [done|]. unfold Fatal.
  match goal with |- context [update_task _ ?a ?b ?c ?d ?x] => by destruct (update_task_worker a b c d x) as [k' ->] end.
Qed.

(** A batch has the state of its last event: the other events of a registered
    batch leave the store alone, and the last one alone decides.  When it is a
    success the datapack is marked as injected and is built, even if another fault
    of the batch has failed. *)
Theorem batch_state_of_last_event ev an lb pa pl n names (w : W) :
  parseAnnotations an = Ok pa -> parseCRDLabels lb = Ok pl ->
  crd_IsHybrid pl = true -> h_batchManager h = true -> h_injection h = true ->
  batch (crd_batchID pl) (hw_batches w) = (Some n, Some names) ->
  let b := crd_batchID pl in
  let last := Z.of_nat (length names) <=? n + 1 in
  let after := hw_store (fst (handle h env ev an lb w)) in
  match ev with
  | CRDFailed _ _ =>
      after = if last then fst (UpdateInjectionState b DatapackInjectFailed (hw_store w)) else hw_store w
  | CRDSucceeded _ _ s e =>
      after = if last
              then fst (UpdateInjectionTimestamps b s e
                     (fst (UpdateInjectionState b DatapackInjectSuccess (hw_store w))))
              else hw_store w
  | _ => True
  end.
Proof.
  intros Ha Hp Hy Hb Hi Hn b last after. subst after.
  destruct ev as [| |name msg|ns name s e| | |]; try done; simpl;
    unfold HandleCRDFailed, HandleCRDSucceeded, with_parsed; rewrite Ha, Hp; unfold h_bind at 1;
    match goal with |- context [update_task _ ?a ?b ?c ?d ?x] => destruct (update_task_worker a b c d x) as [k ->] end;
    unfold for_batch; rewrite Hy, Hb; unfold h_bind at 1, on_batches; cbn [hw_batches hw_worker hw_mu hw_store];
    rewrite (finish_one_counts _ _ n names Hn); fold b; fold last; destruct last; try done.
  - unfold inject_failed, updateInjectionState, h_bind, on_owner. rewrite Hi. cbn [hw_store].
    destruct (UpdateInjectionState b DatapackInjectFailed (hw_store w)) as [s1 []]; done.
  - by rewrite inject_succeeded_store.
Qed.

(** A step that, with the mutex of the monitor free, leaves it free, does not hang,
    and panics only if [P]. *)
Definition ends {A} (P : Prop) (m : Hd W A) : Prop :=
  forall w, hw_mu w = false ->
    hw_mu (fst (m w)) = false /\ snd (m w) <> Hangs /\ (snd (m w) = Panicked -> P).

Lemma ends_ret {A} P (a : A) : ends P (@h_ret W A a). Proof. done. Qed.
Lemma ends_return {A} P : ends P (@h_return W A). Proof. done. Qed.
Lemma ends_panic {A} (P : Prop) : P -> ends P (@h_panic W A). Proof. done. Qed.
Lemma ends_bind {A C} P (m : Hd W A) (k : A -> Hd W C) :
  ends P m -> (forall a, ends P (k a)) -> ends P (h_bind m k).
Proof.
  intros Hm Hk w Hw. destruct (Hm w Hw) as (A1 & A2 & A3). unfold h_bind.
  destruct (m w) as [w' [a| | |]]; cbn [fst snd] in *; [by apply Hk|split_and!; done || auto..].
Qed.
Lemma ends_on_worker {A} P (m : M (worker D R) A) : ends P (@on_worker D R S A m).
Proof. intros w Hw. destruct (on_worker_rest m w) as (k & o & ->). done. Qed.
Lemma ends_on_owner {A} P (m : M S A) : ends P (@on_owner D R S A m).
Proof. intros w Hw. unfold on_owner. by destruct (m (hw_store w)). Qed.
Lemma ends_on_batches {A} P (f : FaultBatchManager -> FaultBatchManager * A) : ends P (@on_batches D R S A f).
Proof. intros w Hw. unfold on_batches. by destruct (f (hw_batches w)). Qed.

(** Computations on the monitor that take its mutex for reading only. *)
Definition b_ends {A} (m : B (monitor R) A) : Prop :=
  forall w, mu_locked w = false -> match m w with Finished w' _ => mu_locked w' = false | Blocked _ => False end.
Lemma b_ends_bind {A C} (m : B (monitor R) A) (k : A -> B (monitor R) C) :
  b_ends m -> (forall a, b_ends (k a)) -> b_ends (b_bind m k).
Proof. intros Hm Hk w Hw. unfold b_bind. specialize (Hm w Hw). destruct (m w) as [w' [a|e]|]; [by apply Hk|done..]. Qed.
Lemma b_ends_wrap {A} p (m : B (monitor R) A) : b_ends m -> b_ends (b_wrap p m).
Proof. intros Hm w Hw. unfold b_wrap. specialize (Hm w Hw). by destruct (m w). Qed.
Lemma b_ends_defer {A} last (m : B (monitor R) A) :
  b_ends m -> (forall o, b_ends (last o)) -> b_ends (b_defer last m).
Proof.
  intros Hm Hl w Hw. unfold b_defer. specialize (Hm w Hw). destruct (m w) as [w' o|]; [|done].
  specialize (Hl o w' Hm). by destruct (last o w').
Qed.
Lemma b_ends_store {A} (m : M R A) : b_ends (on_store m).
Proof. intros w Hw. unfold on_store. by destruct (m (mon_redis w)). Qed.
Lemma b_ends_ret {A} (a : A) : b_ends (b_ret a). Proof. by intros w Hw. Qed.
Lemma b_ends_err {A} e : b_ends (b_err e : B (monitor R) A). Proof. by intros w Hw. Qed.
Lemma b_ends_context : b_ends (currentContext (R:=R)).
Proof. intros w Hw. unfold currentContext. by rewrite Hw. Qed.

Lemma ReleaseLock_ends menv bt ns tr : b_ends (ReleaseLock (R:=R) menv bt ns tr).
Proof.
  apply b_ends_defer.
  - destruct (_ || _); [apply b_ends_err|]. apply b_ends_bind.
    + apply b_ends_wrap, b_ends_bind; [apply b_ends_context|]. intros _. apply b_ends_store.
    + intros []; [|apply b_ends_err]. apply b_ends_bind; [apply b_ends_context|]. intros _. apply b_ends_store.
  - intros o. unfold publish_lock. destruct (mon_caller menv) as [[file line] fn].
    destruct (lock_json _ _); [apply b_ends_store|apply b_ends_ret].
Qed.

Lemma ends_on_monitor {A} P (m : B (monitor R) A) : b_ends m -> ends P (@on_monitor D R S A m).
Proof.
  intros Hm w Hw. unfold on_monitor. specialize (Hm (mkMonitor (hw_mu w) (wk_redis (hw_worker w))) Hw).
  by destruct (m _).
Qed.

#[local] Hint Resolve ends_ret ends_return ends_on_worker ends_on_owner ends_on_batches
  ends_on_monitor ReleaseLock_ends : aegis.

#[local] Ltac end_steps :=
  repeat match goal with
  | |- ends _ (h_bind _ _) => apply ends_bind; [|intros]
  | |- ends _ (let _ := _ in _) => cbv zeta
  | |- ends _ (match ?x with _ => _ end) => destruct x eqn:?
  | |- ends _ h_panic => apply ends_panic; eauto 6
  | |- ends _ _ => solve [auto with aegis]
  | |- ends _ ?m => let m' := eval red in m in change m with m'
  end.

(** Handlers end.  With the mutex of the monitor free, no event hangs its
    handler, and the only panics are the two dereferences without a test: a job of
    an algorithm created without the label of its execution, which always panics,
    and an injection that succeeded without the annotation of its benchmark. *)
Theorem handlers_end ev an lb (w : W) :
  hw_mu w = false ->
  snd (handle h env ev an lb w) <> Hangs /\
  (snd (handle h env ev an lb w) = Panicked ->
   exists pa, parseAnnotations an = Ok pa /\
   match ev with
   | JobAdd _ => exists pl, parseJobLabels lb = Ok pl /\
       ti_taskType (job_ids pl) = TaskTypeRunAlgorithm /\ job_ExecutionID pl = None
   | CRDSucceeded _ _ _ _ => an_benchmark pa = None
   | _ => False
   end) /\
  (forall pa pl name, ev = JobAdd name -> parseAnnotations an = Ok pa -> parseJobLabels lb = Ok pl ->
   ti_taskType (job_ids pl) = TaskTypeRunAlgorithm -> job_ExecutionID pl = None ->
   handle h env ev an lb w = (w, Panicked)).
Proof.
  intros Hw. apply and_assoc. split.
  2:{ intros pa pl name -> Ha Hp Ht He. simpl. unfold HandleJobAdd, with_parsed. rewrite Ha, Hp.
      unfold h_bind, job_added. by rewrite Ht, He. }
  match goal with |- _ /\ (_ -> ?P) =>
    enough (He : ends P (handle h env ev an lb)) by (destruct (He w Hw) as (_ & ? & ?); done) end.
  destruct ev; simpl; unfold HandleCRDAdd, HandleCRDDelete, HandleCRDFailed, HandleCRDSucceeded,
    HandleJobAdd, HandleJobFailed, HandleJobSucceeded, with_parsed;
    (destruct (parseAnnotations an) as [pa|] eqn:Ha; [|done]);
    try (destruct (parseCRDLabels lb) as [pl|]; [|done]);
    try (destruct (parseJobLabels lb) as [pl|]; [|done]); end_steps.
Qed.
End EndFacts.

(** ** The theorems at concrete events *)
Module HandlerSample.
#[local] Existing Instance ToyCodec.toy.
#[local] Existing Instance SubmitSample.memory_store.
#[local] Existing Instance SubmitSample.memory_store_laws.

(** The rows again, for the updates of the state. *)
#[global] Instance rows_states : WorkerDB (task_db * bool) := {
  update_state := fun id st d =>
    (match db_tasks (fst d) !! id with
     | Some row => (upsertTask {| row_ID := id; row_Type := row_Type row; row_Immediate := row_Immediate row;
         row_ExecuteTime := row_ExecuteTime row; row_CronExpr := row_CronExpr row; row_Payload := row_Payload row;
         row_Level := row_Level row; row_Sequence := row_Sequence row; row_State := st;
         row_Status := row_Status row; row_ParentTaskID := row_ParentTaskID row;
         row_TraceID := row_TraceID row |} (fst d), snd d)
     | None => d
     end, Ok tt);
  state_of := fun d id => row_State <$> db_tasks (fst d) !! id
}.

(** The owners log what they are told. *)
Inductive told := Injection (n : string) (st : DatapackState) | Times (n : string) | Execution (e : Z) (st : ExecutionState).
#[global] Instance log_owners : StateOwners (list told) := {
  UpdateInjectionState := fun n st l => (l ++ [Injection n st], Ok tt);
  UpdateInjectionTimestamps := fun n s e l => (l ++ [Times n], Ok (mkInjectionItem 1 n 0 (itoa s) (itoa e)));
  UpdateExecutionState := fun e st l => (l ++ [Execution e st], Ok tt)
}.

#[global] Instance plain_annotations : AnnotationCodec := {
  decode_carrier := fun s => if String.eqb s "" then Err "unexpected end of JSON input" else Ok (Some ∅);
  decode_version_item := fun s => Ok (mkVersionItem 3 "v1" "image" "" 4 s [] None);
  decode_injection_item := fun s => Ok (mkInjectionItem 1 s 5 "" "")
}.

Definition limiter : TokenBucketRateLimiter := newTokenBucketRateLimiter (fun _ => 0) AlgoExecutionConfig.
Definition full_handler : k8sHandler := mkHandler true true true (Some limiter) true true.
Definition env0 : event_env :=
  mkEventEnv ("f.go", "1", "fn") (fun _ => Ok "{}") (fun _ => ∅) SubmitSample.env0 NamespaceLock.LockSample.env0 []
    "detector" (fun _ _ => Err "record not found").

Definition parent : UnifiedTask := ToyCodec.task_of "p".
Definition carriers : gmap string string := {[ TaskCarrierKey := "{}"; TraceCarrierKey := "{}" ]}.
Definition job_annotations : gmap string string :=
  {[ JobAnnotationAlgorithm := "rca"; JobAnnotationDatapack := "dp" ]} ∪ carriers.
Definition job_labels : gmap string string := algorithm_labels "app" "dp" 7 parent.
Definition crd_labels_ : gmap string string := injection_labels "app" "b" true parent.

(** The parent task is stored and holds a token. *)
Definition world0 : hworld (task_db * bool) keyspace (list told) :=
  mkHWorld (mkWorker (upd_set (bucketKey limiter) {["p"]} empty_keyspace)
              (upsertTask {| row_ID := "p"; row_Type := TaskTypeRunAlgorithm; row_Immediate := true;
                 row_ExecuteTime := 0; row_CronExpr := ""; row_Payload := "{}"; row_Level := 2; row_Sequence := 0;
                 row_State := TaskRunning; row_Status := CommonEnabled; row_ParentTaskID := None;
                 row_TraceID := "trace" |} (mkTaskDB ∅ ∅), false) [] ∅)
    false (setBatchInjections "b" ["f1"; "f2"] NewFaultBatchManager) [].

Lemma parent_identified : identified parent.
Proof. unfold identified, min_int64, max_int64. simpl. split_and!; done || lia. Qed.

Lemma labels_roundtrip_witness :
  parseCRDLabels crd_labels_ = Ok (mkCRDLabels (identifiers parent) "b" true) /\
  parseJobLabels job_labels = Ok (mkJobLabels (identifiers parent) (Some 7)).
Proof.
  apply (labels_roundtrip "app" "b" true "dp" 7 parent parent_identified).
  unfold min_int64, max_int64. lia.
Defined.

Lemma event_submits_successor_witness :
  exists t, marshal_task t = Ok "ta-1" /\ next_of (JobSucceeded "j" "ns") job_labels t.
Proof.
  destruct (event_submits_successor full_handler env0 (JobSucceeded "j" "ns") job_annotations job_labels world0
    eq_refl) as [E | (t & data & Hm & Hn & Hq)].
  - vm_compute in E. discriminate E.
  - exists t. vm_compute in Hq. injection Hq as <-. split; [exact Hm|exact Hn].
Defined.

Lemma job_end_token_witness :
  exists pa pl, parseAnnotations job_annotations = Ok pa /\ parseJobLabels job_labels = Ok pl /\
  ti_taskID (job_ids pl) ∉ kset (bucketKey limiter)
    (world_keys (fst (handle full_handler env0 (JobSucceeded "j" "ns") job_annotations job_labels world0))).
Proof.
  eexists _, _. split; [vm_compute; reflexivity|]. split; [vm_compute; reflexivity|].
  exact (job_end_token full_handler env0 (JobSucceeded "j" "ns") limiter job_annotations job_labels _ _ world0
    I eq_refl eq_refl eq_refl eq_refl eq_refl).
Defined.

(** One fault of the batch has failed before the other succeeds. *)
Lemma batch_state_of_last_event_witness :
  let w1 := fst (handle full_handler env0 (CRDFailed "f1" "boom") carriers crd_labels_ world0) in
  hw_store w1 = [] /\
  hw_store (fst (handle full_handler env0 (CRDSucceeded "ns" "f2" 1 2) carriers crd_labels_ w1))
    = [Injection "b" DatapackInjectSuccess; Times "b"].
Proof.
  intros w1. split; [reflexivity|].
  exact (batch_state_of_last_event full_handler env0 (CRDSucceeded "ns" "f2" 1 2) carriers crd_labels_ _ _ 1
    ["f1"; "f2"] w1 eq_refl eq_refl eq_refl eq_refl eq_refl eq_refl).
Defined.

Lemma handlers_end_witness :
  snd (handle full_handler env0 (JobAdd "j") job_annotations (GetLabels parent) world0) = Panicked.
Proof.
  destruct (handlers_end full_handler env0 (JobAdd "j") job_annotations (GetLabels parent) world0 eq_refl)
    as (_ & _ & Hp).
  rewrite (Hp _ _ "j" eq_refl eq_refl eq_refl eq_refl eq_refl). reflexivity.
Defined.
End HandlerSample.
