(* ===== verification/Executors.v ===== *)
(** * The executors ([service/consumer/restart_pedestal.go], [algo_execution.go],
      [build_container.go], [collect_result.go])

    What a worker runs for a task: the executors that take a token of a limiter
    before they work, reschedule the task when there is none, and leave the rest of
    the pipeline to the next task or to the handler of the cluster's events.  The
    task is a pointer: an executor assigns to it, so it is part of the state.  Helm,
    BuildKit and the creation of jobs are arguments. *)

From Stdlib Require Import QArith Qminmax Qpower.
From S2P Require Import Prelude GoStrings Consts Redis Gateway Task TaskQueue TaskSubmit TaskWorker.
From S2P Require Import HelmValues NamespaceLock RateLimiter FaultBatch EventHandler.
#[local] Open Scope Z_scope.

(** ** Payloads *)

(** [utils.ConvertToType] at the types it is used at; a missing key is a nil
    value. *)
Class PayloadCodec := {
  to_version_item : option value -> res ContainerVersionItem;
  to_injection_item : option value -> res InjectionItem;
  to_labels : option value -> res (list value);
  to_build_options : option value -> res value
}.

(** [f, ok := payload[key].(float64); ok && f > 0]. *)
Definition positive_number (payload : gmap string value) (key : string) : option Z :=
  match as_float64 (payload !! key) with
  | Some f => if Qle_bool f 0 then None else Some (int_of_float f)
  | None => None
  end.

Record restartPayload := mkRestartPayload {
  rp_pedestal : ContainerVersionItem;
  rp_interval : Z;
  rp_faultDuration : Z;
  rp_injectPayload : list (string * value)
}.

Record executionPayload := mkExecutionPayload {
  xp_algorithm : ContainerVersionItem;
  xp_datapack : InjectionItem;
  xp_datasetVersionID : option Z;
  xp_labels : list value
}.

Record containerPayload := mkContainerPayload {
  cp_imageRef : string; cp_sourcePath : string; cp_buildOptions : value
}.

Record collectionPayload := mkCollectionPayload {
  col_algorithm : ContainerVersionItem; col_datapack : InjectionItem; col_executionID : Z
}.

Section Payloads.
Context `{PayloadCodec}.

Definition parseRestartPayload (payload : gmap string value) : res restartPayload :=
  let message key := "invalid or missing '" +:+ key +:+ "' in task payload" in
  let? pedestal :=
    match to_version_item (payload !! "pedestal_version") with
    | Ok p => Ok p | Err _ => Err (message "pedestal_version")
    end in
  let? interval := or_error (positive_number payload "interval") (message "interval") in
  let? faultDuration := or_error (positive_number payload "fault_duration") (message "fault_duration") in
  let? injectPayload :=
    match payload !! "inject_payload" with
    | Some (VMap m) => Ok m | _ => Err (message "inject_payload")
    end in
  Ok (mkRestartPayload pedestal interval faultDuration injectPayload).

Definition parseExecutionPayload (payload : gmap string value) : res executionPayload :=
  let? algorithm := res_wrap "failed to convert 'algorithm' to ContainerVersionItem: "
                      (to_version_item (payload !! "algorithm")) in
  let? datapack := res_wrap "failed to convert 'datapack' to InjectionItem: "
                     (to_injection_item (payload !! "datapack")) in
  let datasetVersionID := positive_number payload "dataset_version_id" in
  let? labels := res_wrap "failed to convert 'labels' to []LabelItem: " (to_labels (payload !! "labels")) in
  Ok (mkExecutionPayload algorithm datapack datasetVersionID labels).

Definition parseContainerPayload (payload : gmap string value) : res containerPayload :=
  let message key := "missing or invalid '" +:+ key +:+ "' key in payload" in
  let text key :=
    match as_string (payload !! key) with
    | Some s => if String.eqb s "" then Err (message key) else Ok s
    | None => Err (message key)
    end in
  let? imageRef := text "image_ref" in
  let? sourcePath := text "source_path" in
  let? buildOptions := res_wrap "invalid build configuration in payload: "
                         (to_build_options (payload !! "build_options")) in
  Ok (mkContainerPayload imageRef sourcePath buildOptions).

Definition parseCollectPayload (payload : gmap string value) : res collectionPayload :=
  let? algorithm := res_wrap "failed to convert 'algorithm' to ContainerVersionItem: "
                      (to_version_item (payload !! "algorithm")) in
  let? datapack := res_wrap "failed to convert 'datapack' to InjectionItem: "
                     (to_injection_item (payload !! "datapack")) in
  let? executionID := or_error (positive_number payload "execution_id")
                        "missing or invalid 'execution_id' in collection payload: %!w(<nil>)" in
  Ok (mkCollectionPayload algorithm datapack executionID).
End Payloads.

(** ** Delays *)

Definition minDelayMinutes : Z := 1.
Definition maxDelayMinutes : Z := 5.

(** [minDelayMinutes + rand.Intn(maxDelayMinutes-minDelayMinutes+1)]; [intn] is
    the answer of [rand.Intn]. *)
Definition random_delay (intn : Z) : Z := minDelayMinutes + intn.

(** [time.Duration(min(2^n, 5) * factor)], in minutes: the conversion drops the
    fraction. *)
Definition restart_delay (reStartNum : Z) (factor : Q) : Z :=
  int_of_float (Qmin (Qpower 2 reStartNum) 5 * factor).

(** ** The state of an executor *)

Record runtime_deps := mkDeps {
  d_helm : bool; d_k8s : bool; d_buildkit : bool; d_redis : bool; d_monitor : bool; d_db : bool;
  d_executionOwner : bool;
  d_restartLimiter : option TokenBucketRateLimiter;
  d_algoLimiter : option TokenBucketRateLimiter;
  d_buildLimiter : option TokenBucketRateLimiter
}.

(** The executions a worker creates and reads, in the store of [StateOwners]. *)
Class ExecutionOwner (S : Type) := {
  CreateExecution : string -> Z -> Z -> option Z -> list value -> M S Z;
  (** The detector results, with their issues, and the granularity results. *)
  GetExecution : Z -> M S (list (string * value) * list value)
}.

Record xworld (D R S : Type) := mkXWorld { x_world : hworld D R S; x_task : UnifiedTask }.
Arguments mkXWorld {D R S} _ _.
Arguments x_world {D R S} _.
Arguments x_task {D R S} _.

Record xenv (R : Type) := mkXEnv {
  x_event : event_env;
  x_now : Z;                            (* seconds, at the start *)
  x_later : Z;                          (* seconds, when rescheduling *)
  x_factor : Q;                         (* 0.3 + rand.Float64()*0.7 *)
  x_intn : Z;
  x_between : nat -> R -> R;            (* other tasks, while waiting for a token *)
  x_ticks : nat;
  x_time : Z -> string;                 (* Time.String *)
  x_valid_system : string -> bool;      (* SystemType.IsValid *)
  x_system : string -> option (string * (string -> res Z));  (* NsPattern, ExtractNsNumber *)
  x_install : string -> Z -> HelmConfigItem -> res unit;   (* installPedestal *)
  x_annotations : res (gmap string string);       (* task.GetAnnotations *)
  x_item_json : ContainerVersionItem -> res string;
  x_datapack_json : InjectionItem -> res string;
  (** [createAlgoJob]: the name, the execution, the payload, annotations and labels. *)
  x_create_job : string -> Z -> executionPayload -> gmap string string -> gmap string string -> res unit;
  x_app_id : string;
  x_build : containerPayload -> res unit          (* buildImageAndPush *)
}.
Arguments x_event {R} _. Arguments x_now {R} _. Arguments x_later {R} _. Arguments x_factor {R} _.
Arguments x_intn {R} _. Arguments x_between {R} _. Arguments x_ticks {R} _. Arguments x_time {R} _.
Arguments x_valid_system {R} _. Arguments x_system {R} _. Arguments x_install {R} _.
Arguments x_annotations {R} _. Arguments x_item_json {R} _. Arguments x_datapack_json {R} _.
Arguments x_create_job {R} _. Arguments x_app_id {R} _. Arguments x_build {R} _.

Section Executors.
Context {D R S : Type} `{WorkerDB D} `{TaskStore D} `{RedisServer R} `{TaskCodec}.
Context `{StateOwners S} `{ExecutionOwner S} `{PayloadCodec}.
Context (env : xenv R) (deps : runtime_deps).
#[local] Abbreviation X := (xworld D R S).

(** The parts of the state. *)
Definition x_on_worker {A} (m : M (worker D R) A) : B X A := fun w =>
  let h := x_world w in
  let '(k, o) := m (hw_worker h) in
  Finished (mkXWorld (mkHWorld k (hw_mu h) (hw_batches h) (hw_store h)) (x_task w)) o.
Definition x_on_redis {A} (m : M R A) : B X A := x_on_worker (on_redis m).
Definition x_on_owner {A} (m : M S A) : B X A := fun w =>
  let h := x_world w in
  let '(s, o) := m (hw_store h) in
  Finished (mkXWorld (mkHWorld (hw_worker h) (hw_mu h) (hw_batches h) s) (x_task w)) o.
Definition x_on_monitor {A} (m : B (monitor R) A) : B X A := fun w =>
  let h := x_world w in
  let back mon := mkXWorld (mkHWorld (set_redis (mon_redis mon) (hw_worker h)) (mu_locked mon)
                              (hw_batches h) (hw_store h)) (x_task w) in
  match m (mkMonitor (hw_mu h) (wk_redis (hw_worker h))) with
  | Finished mon o => Finished (back mon) o
  | Blocked mon => Blocked (back mon)
  end.
Definition get_task : B X UnifiedTask := fun w => Finished w (Ok (x_task w)).
Definition set_task (t : UnifiedTask) : B X unit := fun w => Finished (mkXWorld (x_world w) t) (Ok tt).
(** An error that is only logged. *)
Definition x_ignore {A} (m : B X A) : B X unit := b_attempt m ;;% b_ret tt.

(** [handleExecutionError] logs and wraps. *)
Definition execution_error {A} (message err : string) : B X A := b_err (message +:+ ": " +:+ err).

(** [updateTaskState] for a task of a given type. *)
Definition x_update (ty : TaskType) (st : TaskState) (message : string) (event : option (string * value))
  : B X unit :=
  let% task := get_task in
  let u := newTaskStateUpdate (TraceID task) (TaskID task) ty st message in
  let u := match event with
           | Some (eventType, payload) => withEvent u eventType (ev_json (x_event env) payload)
           | None => u
           end in
  x_on_worker (updateTaskState (ev_caller (x_event env)) u).

Definition x_publish (ty : TaskType) (eventName : string) (payload : value) : B X unit :=
  let% task := get_task in
  x_on_worker (publishEvent (ev_caller (x_event env)) (TraceID task) (TaskID task) ty eventName
    (ev_json (x_event env) payload)).

(** The three functions that reschedule a task differ in the delay, the event and
    the message.  The task stays as [Reschedule] left it when the submission
    fails. *)
Definition reschedule (ty : TaskType) (eventName failure reason : string) (delay : Z) : B X unit :=
  let executeTime := x_later env + delay * 60 in
  x_update ty TaskRescheduled reason (Some (eventName, VStr (x_time env executeTime))) ;;%
  let% task := get_task in
  set_task (Reschedule executeTime task) ;;%
  let% task := get_task in
  let% task := b_wrap failure (x_on_worker (submit (x_event env) task)) in
  set_task task.

Definition rescheduleRestartPedestalTask (reason : string) : B X unit :=
  let% task := get_task in
  reschedule TaskTypeRestartPedestal EventNoNamespaceAvailable
    "failed to submit rescheduled restart task: " reason (restart_delay (ReStartNum task) (x_factor env)).
Definition rescheduleAlgoExecutionTask (reason : string) : B X unit :=
  reschedule TaskTypeRunAlgorithm EventNoTokenAvailable
    "failed to submit rescheduled algorithm execution task: " reason (random_delay (x_intn env)).
Definition rescheduleContainerBuildingTask (reason : string) : B X unit :=
  let% task := get_task in
  reschedule (Type_ task) EventNoTokenAvailable
    "failed to submit rescheduled container building task: " reason (random_delay (x_intn env)).

(** Acquire, or wait until the timeout. *)
Definition acquire_or_wait (limiter : TokenBucketRateLimiter) : B X bool :=
  let% task := get_task in
  let% acquired := b_wrap "failed to acquire rate limit token: "
                     (x_on_redis (AcquireToken limiter (TaskID task))) in
  if acquired then b_ret true
  else b_wrap "failed to wait for token: "
         (x_on_redis (WaitForToken limiter (TaskID task) (x_between env) (x_ticks env))).

Definition x_release_token (limiter : TokenBucketRateLimiter) : B X unit :=
  let% task := get_task in x_ignore (x_on_redis (ReleaseToken limiter (TaskID task))).
Definition x_release_lock (namespace : string) : B X unit :=
  let% task := get_task in
  x_ignore (x_on_monitor (ReleaseLock (ev_monitor (x_event env)) (ev_between (x_event env)) namespace
    (TraceID task))).

(** *** Restart of a pedestal *)

(** [common.ProduceFaultInjectionTasksWithDB]. *)
Definition fault_task (task : UnifiedTask) (injectTime : Z) (payload : gmap string value) : UnifiedTask :=
  {| TaskID := ""; Type_ := TaskTypeFaultInjection; Immediate := false; ExecuteTime := injectTime;
     CronExpr := ""; ReStartNum := 0; Retry := mkRetry 0 0; Payload := payload; Level := 0; Sequence := 0;
     ParentTaskID := Some (TaskID task); TraceID := TraceID task; GroupID := GroupID task;
     ProjectID := ProjectID task; UserID := UserID task; State_ := TaskPending;
     TraceCarrier := TraceCarrier task; GroupCarrier := GroupCarrier task; Extra := None |}.

Definition ProduceFaultInjectionTasksWithDB (injectTime : Z) (payload : gmap string value) : B X unit :=
  let% task := get_task in
  b_wrap "failed to submit fault injection task: "
    (x_on_worker (submit (x_event env) (fault_task task injectTime payload))) ;;% b_ret tt.

(** From the namespace on: whether the lock must be released, and the result. *)
Definition restart_in (payload : restartPayload) (namespace : string) (number : string -> res Z)
  : B X (bool * res unit) :=
  let system := cvi_ContainerName (rp_pedestal payload) in
  let injectTime := x_now env + (rp_interval payload - rp_faultDuration payload) * 60 in
  match number namespace with
  | Err e => b_ret (true, Err ("failed to read namespace index: " +:+ e))
  | Ok index =>
      x_update TaskTypeRestartPedestal TaskRunning ("Restarting pedestal in namespace " +:+ namespace)
        (Some (EventRestartPedestalStarted, VNil)) ;;%
      match cvi_Extra (rp_pedestal payload) with
      | None =>
          x_publish TaskTypeRestartPedestal EventRestartPedestalFailed
            (VStr "missing extra info in pedestal item") ;;%
          b_ret (true, Err "missing extra info in pedestal item: missing extra info in pedestal item")
      | Some extra =>
          match x_install env namespace index extra with
          | Err e =>
              x_publish TaskTypeRestartPedestal EventRestartPedestalFailed (VStr e) ;;%
              b_ret (true, Err ("failed to install pedestal of system " +:+ system +:+ ": " +:+ e))
          | Ok _ =>
              let message := "Injection start at " +:+ x_time env injectTime +:+ ", duration "
                             +:+ itoa (rp_faultDuration payload) +:+ "m" in
              x_update TaskTypeRestartPedestal TaskCompleted message
                (Some (EventRestartPedestalCompleted, VStr message)) ;;%
              let injectPayload :=
                <["pedestal_id" := VInt (cvi_ID (rp_pedestal payload))]>
                (<["pedestal" := VStr system]>
                (<["namespace" := VStr namespace]> (list_to_map (rp_injectPayload payload)))) in
              let% err := b_attempt (ProduceFaultInjectionTasksWithDB injectTime injectPayload) in
              match err with
              | Err e => b_ret (true, Err ("failed to submit inject task: " +:+ e))
              | Ok _ => b_ret (false, Ok tt)
              end
          end
      end
  end.

Definition b_lift {W A} (r : res A) : B W A := fun w => Finished w r.

(** The two deferred steps: the token, then the lock. *)
Definition restart_with_namespace (limiter : TokenBucketRateLimiter) (payload : restartPayload)
    (namespace : string) (number : string -> res Z) : B X unit :=
  let% (toReleased, result) := restart_in payload namespace number in
  x_release_token limiter ;;%
  (if (toReleased : bool) then x_release_lock namespace else b_ret tt) ;;%
  b_lift result.

Definition restart_with_token (limiter : TokenBucketRateLimiter) : B X unit :=
  let% task := get_task in
  match parseRestartPayload (Payload task) with
  | Err e => execution_error "failed to parse restart payload" e
  | Ok payload =>
      let system := cvi_ContainerName (rp_pedestal payload) in
      let name := cvi_Name (rp_pedestal payload) in
      if negb (x_valid_system env system) then
        execution_error ("invalid pedestal system type: " +:+ name) ("invalid pedestal system type: " +:+ name)
      else
        match x_system env system with
        | None => execution_error ("no configuration found for system type: " +:+ system)
                    ("no configuration found for system type: " +:+ system)
        | Some (nsPattern, number) =>
            if negb (d_monitor deps) then execution_error "monitor not initialized" "monitor not initialized"
            else
              let% namespace := x_on_monitor (GetNamespaceToRestart (ev_monitor (x_event env))
                (x_now env + rp_interval payload * 60) nsPattern (TraceID task)) in
              if String.eqb namespace "" then
                x_release_token limiter ;;%
                rescheduleRestartPedestalTask "failed to acquire lock for namespace, retrying"
              else restart_with_namespace limiter payload namespace number
        end
  end.

Definition executeRestartPedestal : B X unit :=
  if negb (d_helm deps) then execution_error "helm gateway not initialized" "helm gateway not initialized"
  else if negb (d_redis deps) then execution_error "redis gateway not initialized" "redis gateway not initialized"
  else
    match d_restartLimiter deps with
    | None => execution_error "restart pedestal rate limiter not initialized"
                "restart pedestal rate limiter not initialized"
    | Some limiter =>
        let% acquired := acquire_or_wait limiter in
        if acquired then restart_with_token limiter
        else rescheduleRestartPedestalTask "rate limited, retrying later"
    end.

(** *** Algorithms *)

(** [createExecution]. *)
Definition createExecution (taskID : string) (p : executionPayload) : B X Z :=
  if d_executionOwner deps
  then x_on_owner (CreateExecution taskID (cvi_ID (xp_algorithm p)) (ii_ID (xp_datapack p))
         (xp_datasetVersionID p) (xp_labels p))
  else b_err "execution owner service is nil".

(** The annotations and labels of the job, and its creation. *)
Definition algorithm_with_token : B X unit :=
  let% task := get_task in
  let% payload := b_wrap "failed to parse execution payload: " (b_lift (parseExecutionPayload (Payload task))) in
  let% executionID := b_wrap "failed to create execution result: " (createExecution (TaskID task) payload) in
  let% annotations := b_wrap "failed to get annotations: " (b_lift (x_annotations env)) in
  let% itemJson := b_wrap "failed to marshal algorithm item: " (b_lift (x_item_json env (xp_algorithm payload))) in
  let% datapackJson := b_wrap "failed to marshal datapack item: "
                         (b_lift (x_datapack_json env (xp_datapack payload))) in
  let annotations := <[JobAnnotationDatapack := datapackJson]> (<[JobAnnotationAlgorithm := itemJson]> annotations) in
  b_lift (x_create_job env (TaskID task) executionID payload annotations
            (algorithm_labels (x_app_id env) (ii_Name (xp_datapack payload)) executionID task)).

Definition executeAlgorithm : B X unit :=
  if negb (d_k8s deps) then execution_error "k8s gateway not initialized" "k8s gateway not initialized"
  else if negb (d_redis deps) then execution_error "redis gateway not initialized" "redis gateway not initialized"
  else
    match d_algoLimiter deps with
    | None => execution_error "algorithm execution rate limiter not initialized"
                "algorithm execution rate limiter not initialized"
    | Some limiter =>
        let% acquired := acquire_or_wait limiter in
        if acquired then algorithm_with_token
        else rescheduleAlgoExecutionTask
               "failed to acquire algorithm execution token within timeout, retrying later"
    end.

(** *** Container images *)

Definition build_image : B X unit :=
  let% task := get_task in
  let% payload := b_wrap "failed to parse build payload: " (b_lift (parseContainerPayload (Payload task))) in
  b_lift (x_build env payload) ;;%
  x_update (Type_ task) TaskCompleted
    ("Container image " +:+ cp_imageRef payload +:+ " built and pushed successfully")
    (Some (EventImageBuildSucceed, VStr (cp_imageRef payload))).

Definition executeBuildContainer : B X unit :=
  if negb (d_buildkit deps) then execution_error "buildkit gateway not initialized" "buildkit gateway not initialized"
  else if negb (d_redis deps) then execution_error "redis gateway not initialized" "redis gateway not initialized"
  else
    match d_buildLimiter deps with
    | None => execution_error "build container rate limiter not initialized"
                "build container rate limiter not initialized"
    | Some limiter =>
        let% acquired := acquire_or_wait limiter in
        if acquired then b_defer (fun _ => x_release_token limiter) build_image
        else rescheduleContainerBuildingTask "failed to acquire build token within timeout, retrying later"
    end.

(** *** Results *)

Definition InjectionAlgorithmsKey : string := "injection:algorithms".

(** The algorithms cached for a group, if any; [decode] is the JSON decoding. *)
Definition loadCachedInjectionAlgorithms (decode : string -> res (list value)) (groupID : string)
  : M R (list value * bool) :=
  let! cached := CheckCachedField InjectionAlgorithmsKey groupID in
  if (cached : bool) then
    let! algorithms := GetHashField decode [] InjectionAlgorithmsKey groupID in
    m_ret (algorithms, true)
  else m_ret ([], false).

Definition load_results (executionID : Z) : B X (list (string * value) * list value) :=
  if d_executionOwner deps then x_on_owner (GetExecution executionID)
  else b_err "execution owner service is nil".

Definition algorithm_task (task : UnifiedTask) (payload : gmap string value) (index : Z) : UnifiedTask :=
  {| TaskID := ""; Type_ := TaskTypeRunAlgorithm; Immediate := true; ExecuteTime := 0; CronExpr := "";
     ReStartNum := 0; Retry := mkRetry 0 0; Payload := payload; Level := 0; Sequence := index;
     ParentTaskID := Some (TaskID task); TraceID := TraceID task; GroupID := GroupID task;
     ProjectID := ProjectID task; UserID := UserID task; State_ := TaskPending;
     TraceCarrier := TraceCarrier task; GroupCarrier := None; Extra := None |}.

Definition produceAlgorithmExeuctionTask (payload : gmap string value) (index : Z) : B X unit :=
  let% task := get_task in
  b_wrap "failed to submit algorithm exectuion task: "
    (x_on_worker (submit (x_event env) (algorithm_task task payload index))) ;;% b_ret tt.

Fixpoint produce_all (datapack : value) (algorithms : list value) (index : Z) : B X unit :=
  match algorithms with
  | [] => b_ret tt
  | algorithm :: rest =>
      b_wrap "failed to submit algorithm execution task: "
        (produceAlgorithmExeuctionTask {["algorithm" := algorithm; "datapack" := datapack]} index) ;;%
      produce_all datapack rest (index + 1)
  end.

(** Whether one of the detector results reports an issue. *)
Definition has_issues (results : list (string * value)) : bool :=
  existsb (fun r => negb (String.eqb (fst r) "{}")) results.

(** The event of the detector's results: the second assignment overrides the
    first. *)
Definition detector_event (results : list (string * value)) : string :=
  let eventName := EventDatapackResultCollection in
  let eventName := if (0 <? length results)%nat then eventName else EventDatapackNoDetectorData in
  if has_issues results then eventName else EventDatapackNoAnomaly.

Definition task_completed (eventName : string) (payload : value) : B X unit :=
  let% task := get_task in
  x_on_worker (updateTaskState (ev_caller (x_event env))
    (taskCompletedWithEvent task eventName (ev_json (x_event env) payload))).

Definition collect_detector (decode : string -> res (list value)) (payload : collectionPayload) : B X unit :=
  let% (results, _) := b_wrap "failed to get detector results by execution ID: "
                         (load_results (col_executionID payload)) in
  task_completed (detector_event results) (VList (snd <$> results)) ;;%
  if has_issues results then
    let% task := get_task in
    let% (algorithms, cached) := b_wrap "failed to get algorithms from redis: "
                                   (x_on_redis (loadCachedInjectionAlgorithms decode (GroupID task))) in
    if (cached : bool) then produce_all (datapack_value (col_datapack payload)) algorithms 0 else b_ret tt
  else b_ret tt.

Definition collect_algorithm (payload : collectionPayload) : B X unit :=
  let% (_, granularity) := b_wrap "failed to get detector results by execution ID: "
                             (load_results (col_executionID payload)) in
  let eventName := if (length granularity =? 0)%nat then EventAlgoNoResultData else EventAlgoResultCollection in
  task_completed eventName (VList granularity).

Definition executeCollectResult (decode : string -> res (list value)) : B X unit :=
  if negb (d_db deps) then b_err "consumer runtime db is nil"
  else if negb (d_redis deps) then b_err "consumer redis gateway is nil"
  else
    let% task := get_task in
    let% payload := b_lift (parseCollectPayload (Payload task)) in
    if String.eqb (cvi_ContainerName (col_algorithm payload)) (ev_detector (x_event env))
    then collect_detector decode payload
    else collect_algorithm payload.
End Executors.

(** ** Delays *)

Lemma int_of_float_bounds q k : (0 <= q)%Q -> (q <= inject_Z k)%Q -> 0 <= int_of_float q <= k.
Proof.
  destruct q as [n d]. unfold Qle, int_of_float, inject_Z. simpl. intros H0 Hk.
  rewrite Z.quot_div_nonneg by lia. split; [apply Z.div_pos; lia|]. apply Z.div_le_upper_bound; lia.
Qed.

Lemma int_of_float_small q : (0 <= q)%Q -> (q < 1)%Q -> int_of_float q = 0.
Proof.
  destruct q as [n d]. unfold Qle, Qlt, int_of_float. simpl. intros H0 H1. apply Z.quot_small. lia.
Qed.

(** The delays of the executors: a restart is put off by at most five minutes,
    and the first one not at all, because the fraction of a minute is dropped; the
    others wait between one and five minutes. *)
Theorem reschedule_delays n factor intn :
  (0 <= factor)%Q -> (factor <= 1)%Q -> 0 <= intn < maxDelayMinutes - minDelayMinutes + 1 ->
  0 <= restart_delay n factor <= 5 /\
  ((factor < 1)%Q -> restart_delay 0 factor = 0) /\
  minDelayMinutes <= random_delay intn <= maxDelayMinutes.
Proof.
  intros H0 H1 Hi. split; [|split].
  - assert (Hm0 : (0 <= Qmin (Qpower 2 n) 5)%Q).
    { apply Q.min_glb; [by apply Qpower_0_le|done]. }
    unfold restart_delay. apply (int_of_float_bounds _ 5); [by apply Qmult_le_0_compat|].
    apply (Qle_trans _ (5 * 1)); [|done]. apply Qmult_le_compat_nonneg; (split; [done|]); [apply Q.le_min_r|done].
  - intros Hf. unfold restart_delay. apply int_of_float_small.
    + apply Qmult_le_0_compat; [|done]. done.
    + assert (E : (Qmin (Qpower 2 0) 5 * factor == factor)%Q).
      { assert ((Qmin (Qpower 2 0) 5 == 1)%Q) as -> by reflexivity. apply Qmult_1_l. }
      by rewrite E.
  - unfold random_delay, minDelayMinutes, maxDelayMinutes in *. lia.
Qed.

(** ** Facts on the steps *)

Section StepFacts.
Context {D R S : Type} `{WorkerDB D} `{TaskStoreLaws D} `{RedisLaws R} `{TaskCodec}.
Context `{StateOwners S} `{ExecutionOwner S} `{PayloadCodec}.
Context (env : xenv R) (deps : runtime_deps).
#[local] Abbreviation X := (xworld D R S).

Definition x_redis (w : X) : R := wk_redis (hw_worker (x_world w)).
Definition with_worker (k : worker D R) (w : X) : X :=
  mkXWorld (mkHWorld k (hw_mu (x_world w)) (hw_batches (x_world w)) (hw_store (x_world w))) (x_task w).

(** Only a recurring task has its time computed. *)
Lemma prepare_time senv (db : D) t t' trace task :
  prepare senv db t = Ok (t', trace, task) -> Type_ t <> TaskTypeCronJob -> ExecuteTime t' = ExecuteTime t.
Proof.
  unfold prepare. rewrite res_bind_ok. intros (t1 & Hl & Hx) Hty.
  apply res_bind_ok in Hx as (t2 & Ht & Hx). apply res_bind_ok in Hx as (tr & _ & Hx).
  apply res_bind_ok in Hx as (row & _ & [= <- _ _]).
  assert (A : ExecuteTime t1 = ExecuteTime t /\ Type_ t1 = Type_ t).
  { unfold assign_level in Hl. destruct (ParentTaskID _); [|by injection Hl as <-].
    destruct (rescheduled _); [by injection Hl as <-|]. by apply res_bind_ok in Hl as (l & _ & [= <-]). }
  destruct A as [<- HA]. unfold assign_time, calculateExecuteTime in Ht.
  destruct (Immediate t1); [by injection Ht as <-|].
  rewrite bool_decide_false in Ht by (by rewrite HA). by injection Ht as <-.
Qed.

(** An update of the task's state never fails, and publishes at most. *)
Lemma update_run caller u (w : X) :
  exists k, x_on_worker (updateTaskState caller u) w = Finished (with_worker k w) (Ok tt) /\
    forall A (f : keyspace -> A), not_streams f -> f (keys (wk_redis k)) = f (keys (x_redis w)).
Proof.
  unfold x_on_worker.
  pose proof (fun A f => updateTaskState_keeps (X:=A) f caller u (hw_worker (x_world w))) as Hk.
  assert (Ho : snd (updateTaskState caller u (hw_worker (x_world w))) = Ok tt) by done.
  destruct (updateTaskState _ u _) as [k o]. cbn [fst snd] in *. subst o.
  exists k. split; [done|]. intros A f Hf. by apply Hk.
Qed.
Lemma x_update_run ty st msg ev (w : X) :
  exists k, x_update env ty st msg ev w = Finished (with_worker k w) (Ok tt) /\
    forall A (f : keyspace -> A), not_streams f -> f (keys (wk_redis k)) = f (keys (x_redis w)).
Proof. apply update_run. Qed.
Lemma task_completed_run name payload (w : X) :
  exists k, task_completed env name payload w = Finished (with_worker k w) (Ok tt) /\
    forall A (f : keyspace -> A), not_streams f -> f (keys (wk_redis k)) = f (keys (x_redis w)).
Proof. apply update_run. Qed.

Lemma prepare_payload senv (db : D) t t' trace task :
  prepare senv db t = Ok (t', trace, task) -> Payload t' = Payload t /\ Sequence t' = Sequence t /\ ReStartNum t' = ReStartNum t.
Proof.
  unfold prepare. rewrite res_bind_ok. intros (t1 & Hl & Hx).
  apply res_bind_ok in Hx as (t2 & Ht & Hx). apply res_bind_ok in Hx as (tr & _ & Hx).
  apply res_bind_ok in Hx as (row & _ & [= <- _ _]).
  assert (Payload t1 = Payload t /\ Sequence t1 = Sequence t /\ ReStartNum t1 = ReStartNum t) as (<- & <- & <-).
  { unfold assign_level in Hl. destruct (ParentTaskID _); [|by injection Hl as <-].
    destruct (rescheduled _); [by injection Hl as <-|]. by apply res_bind_ok in Hl as (l & _ & [= <-]). }
  unfold assign_time, calculateExecuteTime in Ht.
  destruct (Immediate t1); [by injection Ht as <-|]. case_bool_decide; [|by injection Ht as <-].
  destruct (CronNextTime _ _); simpl in Ht; [by injection Ht as <-|done].
Qed.

(** What a submission touches: the lists, the sorted sets, the index and the
    streams. *)
Definition not_submitted {A} (f : keyspace -> A) : Prop :=
  not_streams f /\ (forall k v ks, f (upd_list k v ks) = f ks) /\ (forall k v ks, f (upd_zset k v ks) = f ks) /\
  (forall v ks, f (upd_hash TaskIndexKey v ks) = f ks).

Lemma submit_keeps {A} (f : keyspace -> A) senv t (k : worker D R) :
  not_submitted f -> f (keys (wk_redis (fst (submit senv t k)))) = f (keys (wk_redis k)).
Proof.
  intros (Hs & Hl & Hz & Hi). unfold submit, SubmitTaskWithDB.
  destruct (prepare _ (wk_db k) t) as [[[t1 trace] task]|e]; [|done].
  destruct (transaction _ (wk_db k)) as [db1 [[]|e]]; [|done]. destruct (marshal_task t1) as [data|e]; [|done].
  assert (Hk : m_keeps f (enqueue (ev_submit senv) t1 data : M R unit)).
  { apply m_keeps_wrap. destruct (Immediate t1).
    - apply m_keeps_bind; [|intros _]; apply m_keeps_exec; intros ord ks; simpl; auto.
    - apply m_keeps_bind; [apply m_keeps_bind; [|intros _]; apply m_keeps_exec; intros ord ks; simpl; auto|].
      intros _. unfold EmitTaskScheduled. destruct (String.eqb _ ""); [done|].
      apply m_keeps_ignore, m_keeps_wrap, m_keeps_exec. intros ord ks. apply Hs. }
  specialize (Hk (wk_redis k)). by destruct (enqueue _ t1 data (wk_redis k)).
Qed.

(** A submission that succeeds. *)
Lemma submit_ok senv t (k k' : worker D R) t' :
  submit senv t k = (k', Ok t') -> Type_ t <> TaskTypeCronJob ->
  Payload t' = Payload t /\ Sequence t' = Sequence t /\ Type_ t' = Type_ t /\ ParentTaskID t' = ParentTaskID t /\
  TraceID t' = TraceID (fill_ids (ev_submit senv) t) /\ State_ t' = State_ t /\
  ReStartNum t' = ReStartNum t /\
  exists data, marshal_task t' = Ok data /\
    if Immediate t
    then fifo (wk_redis k') = fifo (wk_redis k) ++ [data] /\ delayed (wk_redis k') = delayed (wk_redis k)
    else fifo (wk_redis k') = fifo (wk_redis k) /\
         delayed (wk_redis k') = <[data := ExecuteTime t]> (delayed (wk_redis k)).
Proof.
  unfold submit. destruct (SubmitTaskWithDB (ev_submit senv) t (wk_db k, wk_redis k)) as [[db r] o] eqn:Es.
  intros [= <- ->] Hty. unfold SubmitTaskWithDB in Es.
  destruct (prepare _ (wk_db k) t) as [[[t1 trace] task]|e] eqn:Ep; [|done].
  destruct (transaction _ _) as [db1 [[]|e]]; [|done]. destruct (marshal_task t1) as [data|e] eqn:Em; [|done].
  destruct (enqueue _ t1 data (wk_redis k)) as [r1 [[]|e]] eqn:Eq; [|done]. injection Es as <- <- <-.
  apply enqueue_ok in Eq as [Hq _].
  destruct (prepare_fields _ _ _ _ _ _ Ep) as (_ & _ & _ & Htr & Him & Hst & Hpa & Hty' & _).
  rewrite Him, (prepare_time _ _ _ _ _ _ Ep Hty) in Hq. destruct (prepare_payload _ _ _ _ _ _ Ep) as (Hp & Hs & Hn).
  split_and!; try done. by exists data.
Qed.

Lemma x_update_queues ty st msg ev (w : X) :
  exists k, x_update env ty st msg ev w = Finished (with_worker k w) (Ok tt) /\
    fifo (wk_redis k) = fifo (x_redis w) /\ delayed (wk_redis k) = delayed (x_redis w) /\
    forall n, khash n (keys (wk_redis k)) = khash n (keys (x_redis w)).
Proof.
  destruct (x_update_run ty st msg ev w) as (k & Hu & Hk). exists k. split; [done|].
  unfold fifo, ready, delayed, klist, kzset, khash.
  by rewrite (Hk _ ks_list lists_not_streams), (Hk _ ks_zset ltac:(done)), (Hk _ ks_hash ltac:(done)).
Qed.

(** What rescheduling does to the queues.  The delay only counts for a task
    that is not immediate, which waits in the delayed set until it has passed; an
    immediate task goes to the end of the ready queue at once. *)
Theorem reschedule_queue ty eventName failure reason delay (w w' : X) :
  reschedule env ty eventName failure reason delay w = Finished w' (Ok tt) ->
  Type_ (x_task w) <> TaskTypeCronJob ->
  exists data, marshal_task (x_task w') = Ok data /\
    if Immediate (x_task w)
    then fifo (x_redis w') = fifo (x_redis w) ++ [data] /\ delayed (x_redis w') = delayed (x_redis w)
    else fifo (x_redis w') = fifo (x_redis w) /\
         delayed (x_redis w') = <[data := x_later env + delay * 60]> (delayed (x_redis w)).
Proof.
  intros Hr Hty. unfold reschedule, b_bind at 1 in Hr.
  match type of Hr with context [x_update _ ?a ?b ?c ?d ?x] =>
    destruct (x_update_queues a b c d x) as (k & Hu & Hf & Hd & _); rewrite Hu in Hr end.
  unfold b_bind, get_task, set_task, b_wrap, x_on_worker in Hr. cbn [x_task x_world with_worker hw_worker] in Hr.
  set (t := Reschedule _ (x_task w)) in *. destruct (submit (x_event env) t k) as [k' [t'|e]] eqn:Es; [|done].
  injection Hr as <-. apply submit_ok in Es as (_ & _ & _ & _ & _ & _ & _ & data & Hm & Hq); [|done].
  rewrite Hf, Hd in Hq. by exists data.
Qed.

(** *** The hand-over of a namespace *)

Lemma x_publish_queues ty ev payload (w : X) :
  exists k, x_publish env ty ev payload w = Finished (with_worker k w) (Ok tt) /\
    forall n, khash n (keys (wk_redis k)) = khash n (keys (x_redis w)).
Proof.
  unfold x_publish, b_bind, get_task, x_on_worker.
  set (json := ev_json _ _). set (caller := ev_caller _).
  pose proof (publishEvent_keeps ks_hash caller (TraceID (x_task w)) (TaskID (x_task w)) ty ev json
    (hw_worker (x_world w)) ltac:(done)) as Hk.
  assert (Ho : snd (publishEvent caller (TraceID (x_task w)) (TaskID (x_task w)) ty ev json
    (hw_worker (x_world w))) = Ok tt).
  { unfold publishEvent. destruct caller as [[? ?] ?]. by destruct json. }
  destruct (publishEvent _ _ _ _ _ _ _) as [k o]. cbn [fst snd] in *. subst o. exists k. split; [done|].
  intros n. unfold khash. by rewrite Hk.
Qed.

(** A release of a token is not seen outside the sets. *)
Lemma x_release_token_frame limiter (w : X) :
  exists w', x_release_token limiter w = Finished w' (Ok tt) /\ x_task w' = x_task w /\
    forall A (f : keyspace -> A), (forall k v ks, f (upd_set k v ks) = f ks) ->
      f (keys (x_redis w')) = f (keys (x_redis w)).
Proof.
  unfold x_release_token, x_ignore, get_task, b_bind, b_attempt, x_on_redis, x_on_worker, on_redis.
  assert (Hk : forall A (f : keyspace -> A), (forall k v ks, f (upd_set k v ks) = f ks) ->
    m_keeps f (ReleaseToken limiter (TaskID (x_task w)) : M R unit)).
  { intros A f Hf. apply m_keeps_bind; [|done]. apply m_keeps_wrap, m_keeps_wrap, m_keeps_exec.
    intros ord ks. simpl. auto. }
  specialize (fun A f Hf => Hk A f Hf (wk_redis (hw_worker (x_world w)))).
  destruct (ReleaseToken limiter _ _) as [r1 o1]. cbn [fst] in Hk. by eexists.
Qed.

Lemma ns_hash_not_submitted ns : not_submitted (khash (ns_key ns)).
Proof. split_and!; try done. intros v ks. by rewrite khash_upd, decide_False. Qed.

(** The child a restart leaves for its namespace. *)
Definition fault_follows (task t' : UnifiedTask) (namespace : string) : Prop :=
  Type_ t' = TaskTypeFaultInjection /\ ParentTaskID t' = Some (TaskID task) /\
  (TraceID task <> "" -> TraceID t' = TraceID task) /\ Payload t' !! "namespace" = Some (VStr namespace).

Lemma ProduceFaultInjectionTasks_run injectTime payload (w : X) :
  exists w' o, ProduceFaultInjectionTasksWithDB env injectTime payload w = Finished w' o /\
    x_task w' = x_task w /\ (forall n, khash (ns_key n) (keys (x_redis w')) = khash (ns_key n) (keys (x_redis w))) /\
    (o = Ok tt -> exists t' data, marshal_task t' = Ok data /\ Payload t' = payload /\
      Type_ t' = TaskTypeFaultInjection /\ ParentTaskID t' = Some (TaskID (x_task w)) /\
      (TraceID (x_task w) <> "" -> TraceID t' = TraceID (x_task w)) /\
      delayed (x_redis w') !! data = Some injectTime).
Proof.
  unfold ProduceFaultInjectionTasksWithDB, b_bind, get_task, b_wrap, x_on_worker.
  set (t := fault_task _ _ _).
  pose proof (fun n => submit_keeps (khash (ns_key n)) (x_event env) t (hw_worker (x_world w))
    (ns_hash_not_submitted n)) as Hk.
  destruct (submit (x_event env) t (hw_worker (x_world w))) as [k [t'|e]] eqn:Es; cbn [res_wrap fst] in *.
  2:{ eexists _, _. split; [done|]. split; [done|]. split; [exact Hk|done]. }
  eexists _, _. split; [done|]. split; [done|]. split; [exact Hk|]. intros _.
  apply submit_ok in Es as (Hp & _ & Hty & Hpa & Htr & _ & _ & data & Hm & Hq); [|done]. exists t', data.
  split_and!; try done.
  - intros Hn. rewrite Htr. simpl. by destruct (String.eqb_spec (TraceID (x_task w)) "").
  - destruct Hq as [_ Hd]. unfold x_redis. cbn. rewrite Hd. by rewrite lookup_insert_eq.
Qed.

(** From the namespace on, the lock is to be released exactly when the restart
    failed. *)
Lemma restart_in_result payload ns number (w : X) :
  exists w' toRel result, restart_in env payload ns number w = Finished w' (Ok (toRel, result)) /\
    x_task w' = x_task w /\ toRel = negb (is_ok result) /\
    (forall n, khash (ns_key n) (keys (x_redis w')) = khash (ns_key n) (keys (x_redis w))) /\
    (result = Ok tt -> exists t' data, marshal_task t' = Ok data /\ fault_follows (x_task w) t' ns /\
      delayed (x_redis w') !! data = Some (x_now env + (rp_interval payload - rp_faultDuration payload) * 60)).
Proof.
  unfold restart_in. destruct (number ns) as [index|e]; [|by eexists _, _, _].
  unfold b_bind at 1.
  match goal with |- context [x_update _ ?a ?b ?c ?d ?x] =>
    destruct (x_update_queues a b c d x) as (k & -> & _ & _ & Hh) end.
  assert (Hfail : forall payload e, exists w' toRel result,
    (x_publish env TaskTypeRestartPedestal EventRestartPedestalFailed payload ;;% b_ret (true, Err e))
      (with_worker k w) = Finished w' (Ok (toRel, result)) /\ x_task w' = x_task w /\
    toRel = negb (is_ok (A:=unit) result) /\
    (forall n, khash (ns_key n) (keys (x_redis w')) = khash (ns_key n) (keys (x_redis w))) /\ result <> Ok tt).
  { intros pl e. unfold b_bind. destruct (x_publish_queues TaskTypeRestartPedestal EventRestartPedestalFailed pl
      (with_worker k w)) as (k' & -> & Hp). eexists _, _, _. split; [done|]. split; [done|]. split; [done|].
    split; [|done]. intros n. unfold x_redis in *. cbn in *. by rewrite Hp, Hh. }
  destruct (cvi_Extra _) as [extra|].
  2:{ edestruct Hfail as (w' & a & b & E & H1' & H2' & H3' & H4'). by exists w', a, b. }
  destruct (x_install _ _ _ _) as [u|e].
  2:{ edestruct Hfail as (w' & a & b & E & H1' & H2' & H3' & H4'). by exists w', a, b. }
  unfold b_bind at 1.
  match goal with |- context [x_update _ ?a ?b ?c ?d ?x] =>
    destruct (x_update_queues a b c d x) as (k2 & -> & _ & _ & Hh2) end.
  unfold b_bind at 1, b_attempt.
  match goal with |- context [ProduceFaultInjectionTasksWithDB _ ?a ?b] =>
    destruct (ProduceFaultInjectionTasks_run a b (with_worker k2 (with_worker k w))) as (w3 & o & Hx & Ht & Hk & Ho) end.
  rewrite Hx.
  assert (Hall : forall n, khash (ns_key n) (keys (x_redis w3)) = khash (ns_key n) (keys (x_redis w))).
  { intros n. rewrite Hk. unfold x_redis in *. cbn in *. by rewrite Hh2, Hh. }
  destruct o as [[]|e]; eexists _, _, _; (split; [done|]); (split; [exact Ht|]); (split; [done|]);
    (split; [exact Hall|]); [|done].
  intros _. destruct (Ho eq_refl) as (t' & data & Hm & Hp & Hty & Hpa & Htr & Hd). exists t', data.
  split; [done|]. split; [|done]. split_and!; try done. rewrite Hp. by simplify_map_eq.
Qed.

Lemma reschedule_state ty eventName failure reason delay (w w' : X) :
  reschedule env ty eventName failure reason delay w = Finished w' (Ok tt) ->
  Type_ (x_task w) <> TaskTypeCronJob ->
  State_ (x_task w') = TaskRescheduled /\ ReStartNum (x_task w') = ReStartNum (x_task w) + 1 /\
  Payload (x_task w') = Payload (x_task w).
Proof.
  intros Hr Hty. apply b_bind_ok in Hr as (w1 & ? & Hu & Hr).
  match type of Hu with x_update _ ?a ?b ?c ?d ?x = _ =>
    destruct (x_update_queues a b c d x) as (k & Hu' & _); rewrite Hu' in Hu end.
  injection Hu as <- _.
  unfold b_bind, get_task, set_task, b_wrap, x_on_worker in Hr. cbn [x_task x_world with_worker hw_worker] in Hr.
  destruct (submit _ _ k) as [k' [t'|e]] eqn:Es; [|done]. injection Hr as <-.
  apply submit_ok in Es as (Hp & _ & _ & _ & _ & Hst & Hn & _); [|done]. done.
Qed.

(** A task that was put off: it counts one more restart, and waits in its queue - the
    delayed one for [delay] minutes, unless the task is immediate. *)
Definition put_off (task : UnifiedTask) (delay : Z) (w' : X) : Prop :=
  State_ (x_task w') = TaskRescheduled /\ ReStartNum (x_task w') = ReStartNum task + 1 /\
  Payload (x_task w') = Payload task /\
  exists data, marshal_task (x_task w') = Ok data /\
    if Immediate task then exists q, fifo (x_redis w') = q ++ [data]
    else delayed (x_redis w') !! data = Some (x_later env + delay * 60).

Lemma reschedule_puts_off ty eventName failure reason delay (w w' : X) :
  reschedule env ty eventName failure reason delay w = Finished w' (Ok tt) ->
  Type_ (x_task w) <> TaskTypeCronJob -> put_off (x_task w) delay w'.
Proof.
  intros Hr Hty. destruct (reschedule_state _ _ _ _ _ _ _ Hr Hty) as (Hs & Hn & Hp).
  destruct (reschedule_queue _ _ _ _ _ _ _ Hr Hty) as (data & Hm & Hq). split_and!; try done.
  exists data. split; [done|]. destruct (Immediate (x_task w)); destruct Hq as [Hq1 Hq2]; [by eexists|].
  by rewrite Hq2, lookup_insert_eq.
Qed.

Lemma acquire_or_wait_task limiter (w w' : X) o : acquire_or_wait env limiter w = Finished w' o -> x_task w' = x_task w.
Proof.
  unfold acquire_or_wait, b_bind, get_task, b_wrap, x_on_redis, x_on_worker.
  destruct (on_redis _ _) as [k [[]|e]]; [by intros [= <- _]| |by intros [= <- _]]. cbn [res_wrap].
  destruct (on_redis _ _) as [k2 o2]. by intros [= <- _].
Qed.

Lemma monitor_task {A} (m : B (monitor R) A) (w w' : X) o : x_on_monitor m w = Finished w' o -> x_task w' = x_task w.
Proof. unfold x_on_monitor. destruct (m _); [|done]. by intros [= <- _]. Qed.

(** The lock of the namespace that was chosen. *)
Lemma restart_lock menv endTime pattern traceID (w w' : X) ns :
  x_on_monitor (GetNamespaceToRestart menv endTime pattern traceID) w = Finished w' (Ok ns) -> ns <> "" ->
  khash (ns_key ns) (keys (x_redis w')) !! "trace_id" = Some traceID /\
  khash (ns_key ns) (keys (x_redis w')) !! "end_time" = Some (itoa endTime).
Proof.
  unfold x_on_monitor. destruct (GetNamespaceToRestart _ _ _ _ _) as [mon o|] eqn:E; [|done].
  intros [= <- ->] Hns. by apply GetNamespaceToRestart_sound in E as (_ & _ & _ & ? & ?).
Qed.

(** The restart handed over: the task is as it was; the namespace is locked for its trace
    until the end of the interval, and a fault injection for it waits in the delayed queue
    for that end less the duration of the fault. *)
Definition handed_over (task : UnifiedTask) (p : restartPayload) (ns : string) (w' : X) : Prop :=
  x_task w' = task /\
  khash (ns_key ns) (keys (x_redis w')) !! "trace_id" = Some (TraceID task) /\
  khash (ns_key ns) (keys (x_redis w')) !! "end_time" = Some (itoa (x_now env + rp_interval p * 60)) /\
  exists t' data, marshal_task t' = Ok data /\ fault_follows task t' ns /\
    delayed (x_redis w') !! data = Some (x_now env + (rp_interval p - rp_faultDuration p) * 60).

(** C11. What a restart leaves behind when it returns without an error, be it the first
    attempt or a later one.  When it got no token in time, or no namespace of its system
    could be locked, it was put off: the task counts one more restart and waits in its
    queue.  Otherwise the namespace that was chosen is locked for the trace until the end
    of the interval, and a fault injection for that namespace, child of the restart in the
    same trace, waits in the delayed queue for the end of the interval less the duration of
    the fault. *)
Theorem restart_hands_over (w w' : X) :
  executeRestartPedestal env deps w = Finished w' (Ok tt) -> Type_ (x_task w) <> TaskTypeCronJob ->
  let task := x_task w in
  let delay := restart_delay (ReStartNum task) (x_factor env) in
  exists limiter w1 acquired,
    d_restartLimiter deps = Some limiter /\ acquire_or_wait env limiter w = Finished w1 (Ok acquired) /\
    if acquired then
      exists p pattern number w2 ns,
        parseRestartPayload (Payload task) = Ok p /\
        x_system env (cvi_ContainerName (rp_pedestal p)) = Some (pattern, number) /\
        x_on_monitor (GetNamespaceToRestart (ev_monitor (x_event env)) (x_now env + rp_interval p * 60) pattern
          (TraceID task)) w1 = Finished w2 (Ok ns) /\
        if String.eqb ns "" then put_off task delay w' else handed_over task p ns w'
    else put_off task delay w'.
Proof.
  intros Hx Hty task delay. unfold executeRestartPedestal in Hx. destruct (d_helm deps), (d_redis deps); try done.
  cbn [negb] in Hx. destruct (d_restartLimiter deps) as [limiter|]; [|done].
  assert (Hre : forall reason (w1 : X), rescheduleRestartPedestalTask env reason w1 = Finished w' (Ok tt) ->
    x_task w1 = task -> put_off task delay w').
  { intros reason w1 Hr Ht. unfold rescheduleRestartPedestalTask, b_bind, get_task in Hr. rewrite Ht in Hr.
    apply reschedule_puts_off in Hr; rewrite Ht in *; done. }
  apply b_bind_ok in Hx as (w1 & acq & Ha & Hx). apply acquire_or_wait_task in Ha as Ht. fold task in Ht.
  exists limiter, w1, acq. split; [done|]. split; [done|].
  destruct acq; [|by eapply Hre].
  unfold restart_with_token in Hx. apply b_bind_ok in Hx as (? & ? & [= <- <-] & Hx). rewrite Ht in Hx.
  destruct (parseRestartPayload _) as [p|e]; [|done]. destruct (x_valid_system _ _); [|done].
  destruct (x_system _ _) as [[pat number]|] eqn:Es; [|done]. destruct (d_monitor deps); [|done]. cbn [negb] in Hx.
  apply b_bind_ok in Hx as (w2 & ns & Hn & Hx). pose proof (monitor_task _ _ _ _ Hn) as Ht2.
  exists p, pat, number, w2, ns. split; [done|]. split; [done|]. split; [done|].
  destruct (String.eqb_spec ns "") as [->|Hns].
  { apply b_bind_ok in Hx as (w3 & ? & Hrel & Hx).
    destruct (x_release_token_frame limiter w2) as (w3' & Hrel' & Ht3 & _). rewrite Hrel' in Hrel.
    injection Hrel as <- _. eapply Hre; [done|]. by rewrite Ht3, Ht2. }
  apply restart_lock in Hn as [Htr Hend]; [|done].
  unfold restart_with_namespace in Hx. apply b_bind_ok in Hx as (w3 & [toRel result] & Hin & Hx).
  destruct (restart_in_result p ns number w2) as (w3' & a & b & Hin' & Ht3 & Hrel & Hk & Ho).
  rewrite Hin' in Hin. injection Hin as <- <- <-.
  apply b_bind_ok in Hx as (w4 & ? & Hrt & Hx). destruct (x_release_token_frame limiter w3') as (w4' & Hrt' & Ht4 & Hf).
  rewrite Hrt' in Hrt. injection Hrt as <- _. apply b_bind_ok in Hx as (w5 & ? & Hl & Hx).
  injection Hx as <- ->. subst a. injection Hl as <- _.
  destruct (Ho eq_refl) as (t' & data & Hm & Hfo & Hd). rewrite Ht2, Ht in Hfo.
  unfold handed_over. rewrite (Hf _ (khash (ns_key ns))) by done. rewrite Hk, Ht4, Ht3, Ht2, Ht. split_and!; try done.
  exists t', data. split; [done|]. split; [done|]. unfold delayed. by rewrite (Hf _ (kzset DelayedQueueKey)).
Qed.
End StepFacts.

(** ** Tokens *)

Section TokenFacts.
Context {D R S : Type} `{WorkerDB D} `{TaskStoreLaws D} `{RedisLaws R} `{!RedisReliable R} `{TaskCodec}.
Context `{StateOwners S} `{ExecutionOwner S} `{PayloadCodec}.
Context (env : xenv R) (deps : runtime_deps).
#[local] Abbreviation X := (xworld D R S).

(** Steps that end without touching the sets. *)
Definition x_keeps {A} (m : B X A) : Prop :=
  forall w w' o, m w = Finished w' o ->
    forall key, kset key (keys (x_redis w')) = kset key (keys (x_redis w)).

Lemma x_keeps_ret {A} (r : res A) : x_keeps (b_lift r). Proof. by intros w w' o [= <- _]. Qed.
Lemma x_keeps_get : x_keeps (@get_task D R S). Proof. by intros w w' o [= <- _]. Qed.
Lemma x_keeps_set t : x_keeps (@set_task D R S t). Proof. by intros w w' o [= <- _]. Qed.
Lemma x_keeps_bind {A C} (m : B X A) (k : A -> B X C) :
  x_keeps m -> (forall a, x_keeps (k a)) -> x_keeps (b_bind m k).
Proof.
  intros Hm Hk w w' o. unfold b_bind. destruct (m w) as [w1 [a|e]|w1] eqn:E; [|intros [= <- _]|done].
  - intros Hx key. rewrite (Hk _ _ _ _ Hx). by eapply Hm.
  - by eapply Hm.
Qed.
Lemma x_keeps_wrap {A} p (m : B X A) : x_keeps m -> x_keeps (b_wrap p m).
Proof. intros Hm w w' o. unfold b_wrap. destruct (m w) eqn:E; [|done]. intros [= <- _]. by eapply Hm. Qed.
Lemma x_keeps_attempt {A} (m : B X A) : x_keeps m -> x_keeps (b_attempt m).
Proof. intros Hm w w' o. unfold b_attempt. destruct (m w) eqn:E; [|done]. intros [= <- _]. by eapply Hm. Qed.
Lemma x_keeps_ignore {A} (m : B X A) : x_keeps m -> x_keeps (x_ignore m).
Proof. intros Hm. apply x_keeps_bind; [by apply x_keeps_attempt|]. intros _. by intros w w' o [= <- _]. Qed.
Lemma x_keeps_on_worker {A} (m : M (worker D R) A) :
  (forall k key, kset key (keys (wk_redis (fst (m k)))) = kset key (keys (wk_redis k))) -> x_keeps (@x_on_worker D R S A m).
Proof.
  intros Hm w w' o. unfold x_on_worker, x_redis. specialize (Hm (hw_worker (x_world w))).
  destruct (m _) as [k r]. by intros [= <- _].
Qed.
Lemma x_keeps_update ty st msg ev : x_keeps (@x_update D R S _ _ env ty st msg ev).
Proof.
  apply x_keeps_bind; [apply x_keeps_get|]. intros t. apply x_keeps_on_worker. intros k key.
  by apply (updateTaskState_keeps (kset key)).
Qed.

Lemma x_keeps_reschedule ty ev failure reason delay :
  x_keeps (@reschedule D R S _ _ _ _ env ty ev failure reason delay).
Proof.
  apply x_keeps_bind; [apply x_keeps_update|]. intros _. apply x_keeps_bind; [apply x_keeps_get|]. intros t.
  apply x_keeps_bind; [apply x_keeps_set|]. intros _. apply x_keeps_bind; [apply x_keeps_get|]. intros t1.
  apply x_keeps_bind; [|intros t2; apply x_keeps_set]. apply x_keeps_wrap, x_keeps_on_worker.
  intros k key. by apply (submit_keeps (kset key)).
Qed.

Lemma x_keeps_release_lock ns :
  ev_between (x_event env) = [] -> x_keeps (@x_release_lock D R S _ env ns).
Proof.
  intros Hb. apply x_keeps_bind; [apply x_keeps_get|]. intros t. apply x_keeps_ignore.
  intros w w' o. unfold x_on_monitor, x_redis. rewrite Hb. intros E key. revert E.
  pose proof (ReleaseLock_keeps (kset key) (ev_monitor (x_event env)) ns (TraceID t) ltac:(done) ltac:(done)
    (mkMonitor (hw_mu (x_world w)) (wk_redis (hw_worker (x_world w))))) as Hk.
  destruct (ReleaseLock _ _ _ _ _) as [mon r|mon]; [|done]. by intros [= <- _].
Qed.

(** Where the task stands with a limiter. *)
Definition holds (limiter : TokenBucketRateLimiter) (id : string) (w : X) : Prop :=
  id ∈ kset (bucketKey limiter) (keys (x_redis w)).

Lemma x_keeps_holds {A} (m : B X A) limiter id w w' o :
  x_keeps m -> m w = Finished w' o -> holds limiter id w' <-> holds limiter id w.
Proof. intros Hm E. unfold holds. by rewrite (Hm _ _ _ E). Qed.

(** The token is back after the release, and the task is the same. *)
Lemma x_release_token_run limiter (w : X) :
  exists w', x_release_token limiter w = Finished w' (Ok tt) /\ ~ holds limiter (TaskID (x_task w)) w' /\
    x_task w' = x_task w.
Proof.
  unfold x_release_token, x_ignore, get_task, b_bind, b_attempt, x_on_redis, x_on_worker, on_redis.
  unfold ReleaseToken, store_release, SetRemove, key_error, m_bind, m_wrap. cbv beta iota.
  destruct (exec (SREM (bucketKey limiter) [TaskID (x_task w)]) (wk_redis (hw_worker (x_world w))))
    as [r1 o1] eqn:Ex.
  apply served in Ex. simpl in Ex. injection Ex as Hk <-. simpl. eexists. split; [done|]. split; [|done]. unfold holds, x_redis. simpl.
  rewrite <- Hk, kset_upd, decide_True by done. set_solver.
Qed.

(** A reliable limiter answers. *)
Lemma AcquireToken_served limiter id (r : R) :
  exists r', AcquireToken limiter id r = (r', Ok (Z.of_nat (size (holders (bucketKey limiter) r)) <? maxTokens limiter)) /\
    holders (bucketKey limiter) r' =
      if Z.of_nat (size (holders (bucketKey limiter) r)) <? maxTokens limiter
      then {[id]} ∪ holders (bucketKey limiter) r else holders (bucketKey limiter) r.
Proof.
  destruct (AcquireToken limiter id r) as [r' o] eqn:E.
  assert (Ho : exists b, o = Ok b).
  { revert E. unfold AcquireToken, store_acquire, RunScript, m_bind, m_wrap.
    destruct (exec (EVAL _) r) as [r1 o1] eqn:Ex. apply served in Ex. simpl in Ex. unfold m_wrap in Ex.
    rewrite acquire_script_spec in Ex. destruct (_ <? _); injection Ex as _ <-; simpl; intros [= _ <-]; eauto. }
  destruct Ho as [b ->]. destruct (acquire_reply _ _ _ _ _ E) as [-> Hh]. by exists r'.
Qed.

(** Nobody else takes a token in the name of the task. *)
Definition others_keep_out (limiter : TokenBucketRateLimiter) (id : string) : Prop :=
  forall k r, id ∈ holders (bucketKey limiter) (x_between env k r) -> id ∈ holders (bucketKey limiter) r.

Lemma WaitForToken_served limiter id ticks (r : R) :
  exists r' b, WaitForToken limiter id (x_between env) ticks r = (r', Ok b) /\
    (b = false -> others_keep_out limiter id -> id ∉ holders (bucketKey limiter) r ->
     id ∉ holders (bucketKey limiter) r').
Proof.
  revert r. induction ticks as [|ticks IH]; intros r; cbn [WaitForToken]; [by exists r, false|].
  destruct (AcquireToken_served limiter id (x_between env (Datatypes.S ticks) r)) as (r1 & E & Hh). rewrite E.
  destruct (_ <? _); [by eexists _, true|]. destruct (IH r1) as (r2 & b & E2 & Hb). exists r2, b.
  split; [done|]. intros Hf Ho Hr. apply Hb; [done..|]. rewrite Hh. intros Hin. by apply Ho in Hin.
Qed.

Lemma acquire_or_wait_run limiter (w : X) :
  let id := TaskID (x_task w) in
  exists w' b, acquire_or_wait env limiter w = Finished w' (Ok b) /\ x_task w' = x_task w /\
    (b = false -> others_keep_out limiter id -> ~ holds limiter id w -> ~ holds limiter id w') /\
    (Z.of_nat (size (holders (bucketKey limiter) (x_redis w))) < maxTokens limiter ->
     b = true /\ holds limiter id w').
Proof.
  intros id. unfold acquire_or_wait, get_task, b_bind, b_wrap, x_on_redis, x_on_worker, on_redis.
  cbv beta iota. fold id.
  destruct (AcquireToken_served limiter id (wk_redis (hw_worker (x_world w)))) as (r1 & E & Hh). rewrite E.
  cbv beta iota. cbn [res_wrap]. fold (x_redis w) in *. destruct (Z.ltb_spec (Z.of_nat (size (holders (bucketKey limiter) (x_redis w)))) (maxTokens limiter)) as [Hlt|Hge].
  - eexists _, true. split; [done|]. split; [done|]. split; [done|]. intros _. split; [done|].
    unfold holds, x_redis. cbn. unfold holders in Hh. rewrite Hh. set_solver.
  - cbn [x_world hw_worker wk_redis x_task].
    destruct (WaitForToken_served limiter id (x_ticks env) r1) as (r2 & b & E2 & Hb). rewrite E2.
    eexists _, b. split; [done|]. split; [done|]. split; [|lia].
    intros Hf Ho Hn. unfold holds, x_redis. cbn. apply Hb; [done..|]. rewrite Hh. exact Hn.
Qed.

Lemma x_publish_run ty ev payload (w : X) :
  exists k, x_publish env ty ev payload w = Finished (with_worker k w) (Ok tt).
Proof.
  unfold x_publish, b_bind, get_task, x_on_worker.
  assert (Ho : snd (publishEvent (ev_caller (x_event env)) (TraceID (x_task w)) (TaskID (x_task w)) ty ev
    (ev_json (x_event env) payload) (hw_worker (x_world w))) = Ok tt).
  { unfold publishEvent. destruct (ev_caller _) as [[? ?] ?]. by destruct (ev_json _ _). }
  destruct (publishEvent _ _ _ _ _ _ _) as [k o]. cbn [snd] in Ho. subst o. by exists k.
Qed.

(** The deferred steps are reached: nothing before them fails. *)
Lemma restart_in_run payload ns number (w : X) :
  exists w' a, restart_in env payload ns number w = Finished w' (Ok a) /\ x_task w' = x_task w.
Proof.
  unfold restart_in. destruct (number ns) as [index|e]; [|by eexists _, _].
  unfold b_bind at 1.
  match goal with |- context [x_update _ ?a ?b ?c ?d ?x] => destruct (x_update_run env a b c d x) as (k & -> & _) end.
  destruct (cvi_Extra _) as [extra|].
  2:{ unfold b_bind. match goal with |- context [x_publish _ ?a ?b ?c ?x] =>
        destruct (x_publish_run a b c x) as (k' & ->) end. by eexists _, _. }
  destruct (x_install _ _ _ _) as [u|e].
  2:{ unfold b_bind. match goal with |- context [x_publish _ ?a ?b ?c ?x] =>
        destruct (x_publish_run a b c x) as (k' & ->) end. by eexists _, _. }
  unfold b_bind at 1.
  match goal with |- context [x_update _ ?a ?b ?c ?d ?x] => destruct (x_update_run env a b c d x) as (k' & -> & _) end.
  unfold b_bind at 1, b_attempt, ProduceFaultInjectionTasksWithDB, b_bind at 1, get_task, b_bind, b_wrap, x_on_worker.
  destruct (submit _ _ _) as [k2 [t|e]]; cbn [res_wrap]; by eexists _, _.
Qed.

Lemma x_keeps_restart reason :
  x_keeps (@rescheduleRestartPedestalTask D R S _ _ _ _ env reason).
Proof. apply x_keeps_bind; [apply x_keeps_get|]. intros t. apply x_keeps_reschedule. Qed.
Lemma x_keeps_build reason :
  x_keeps (@rescheduleContainerBuildingTask D R S _ _ _ _ env reason).
Proof. apply x_keeps_bind; [apply x_keeps_get|]. intros t. apply x_keeps_reschedule. Qed.

(** The choice of a namespace has no error: it reports none found. *)
Lemma first_acquired_no_error menv matches e t nss (w w' : monitor R) m :
  first_acquired menv matches e t nss w <> Finished w' (Err m).
Proof.
  revert w. induction nss as [|n nss IH]; intros w; cbn [first_acquired]; [done|].
  unfold b_bind at 1, b_attempt at 1. destruct (getNamespaceStatus n w) as [w1 st|w1]; [|done].
  destruct st as [st|?]; [|apply IH]. destruct (negb _); [apply IH|]. destruct matches as [mt|]; [|apply IH].
  destruct (mt n); [|apply IH]. unfold b_bind, b_attempt.
  destruct (AcquireLock _ _ _ _ _ _ w1) as [w2 o|w2]; [|done]. destruct (is_ok o); [done|apply IH].
Qed.

Lemma GetNamespaceToRestart_no_error menv e p t (w w' : monitor R) m :
  GetNamespaceToRestart menv e p t w <> Finished w' (Err m).
Proof.
  unfold GetNamespaceToRestart, b_bind at 1, b_attempt at 1. destruct (listNamespaces w) as [w1 [nss|?]|w1]; try done.
  destruct (String.eqb p ""); [apply first_acquired_no_error|].
  destruct (compile_pattern menv p); [apply first_acquired_no_error|done].
Qed.

Lemma x_monitor_no_error (m : B (monitor R) string) (w w' : X) e :
  (forall mon mon', m mon <> Finished mon' (Err e)) -> x_on_monitor m w <> Finished w' (Err e).
Proof.
  intros Hm. unfold x_on_monitor. destruct (m _) as [mon o|mon] eqn:E; [|done]. intros [= _ ->]. by eapply Hm.
Qed.

(** A restart gives its token back on every path, whatever fails on the way:
    when there is no namespace, when the installation fails, when the next task
    cannot be submitted.  Only what is tested before the release is armed leaks:
    a task whose payload cannot be parsed keeps the token it took. *)
Theorem restart_token limiter (w w' : X) o :
  d_helm deps && d_redis deps && d_monitor deps = true -> d_restartLimiter deps = Some limiter ->
  ev_between (x_event env) = [] -> others_keep_out limiter (TaskID (x_task w)) ->
  ~ holds limiter (TaskID (x_task w)) w ->
  executeRestartPedestal env deps w = Finished w' o ->
  match parseRestartPayload (Payload (x_task w)) with
  | Ok p =>
      x_valid_system env (cvi_ContainerName (rp_pedestal p)) = true ->
      x_system env (cvi_ContainerName (rp_pedestal p)) <> None -> ~ holds limiter (TaskID (x_task w)) w'
  | Err _ =>
      Z.of_nat (size (holders (bucketKey limiter) (x_redis w))) < maxTokens limiter ->
      holds limiter (TaskID (x_task w)) w' /\ is_ok o = false
  end.
Proof.
  rewrite !andb_true_iff. intros [[Hh Hr] Hm] Hl Hb Ho Hn. unfold executeRestartPedestal. rewrite Hh, Hr, Hl. cbn [negb].
  destruct (acquire_or_wait_run limiter w) as (w1 & acq & Ha & Ht & Hf & Hlt).
  unfold b_bind at 1. rewrite Ha. destruct acq.
  2:{ intros Hx. pose proof (x_keeps_holds _ limiter (TaskID (x_task w)) _ _ _ (x_keeps_restart _) Hx) as Hk.
      destruct (parseRestartPayload _); [intros _ _; rewrite Hk; by apply Hf|]. intros Hs. by apply Hlt in Hs as [? _]. }
  clear Hf. unfold restart_with_token. unfold b_bind at 1, get_task at 1. rewrite Ht.
  destruct (parseRestartPayload (Payload (x_task w))) as [p|e].
  2:{ unfold execution_error, b_err. intros [= <- <-] Hs. by apply Hlt in Hs as [_ ?]. }
  intros Hx Hv Hc. revert Hx. rewrite Hv, Hm. cbn [negb].
  destruct (x_system env _) as [[nsPattern number]|]; [|done].
  unfold b_bind at 1. destruct (x_on_monitor _ w1) as [w2 [ns|e]|w2] eqn:En; [|by apply x_monitor_no_error in En as []; intros; apply GetNamespaceToRestart_no_error|done].
  apply monitor_task in En. rewrite Ht in En.
  destruct (String.eqb ns "").
  - unfold b_bind at 1. destruct (x_release_token_run limiter w2) as (w3 & -> & Hrel & Ht3). rewrite En in Hrel.
    intros Hx. by rewrite (x_keeps_holds _ _ _ _ _ _ (x_keeps_restart _) Hx).
  - unfold restart_with_namespace. unfold b_bind at 1.
    destruct (restart_in_run p ns number w2) as (w3 & [toRel result] & -> & Ht3). rewrite En in Ht3.
    unfold b_bind at 1. destruct (x_release_token_run limiter w3) as (w4 & -> & Hrel & Ht4). rewrite Ht3 in Hrel.
    intros Hx. eapply x_keeps_holds in Hx; [by rewrite Hx|].
    apply x_keeps_bind; [|intros _; apply x_keeps_ret].
    destruct toRel; [by apply x_keeps_release_lock|]. apply (x_keeps_ret (Ok tt)).
Qed.

(** The other executors. *)
Lemma build_image_run (w : X) :
  exists w' o, build_image env w = Finished w' o /\ x_task w' = x_task w.
Proof.
  unfold build_image, b_bind, get_task, b_wrap, b_lift.
  destruct (parseContainerPayload _) as [p|e]; cbn [res_wrap]; [|by eexists _, _].
  destruct (x_build env p) as [u|e]; [|by eexists _, _].
  match goal with |- context [x_update _ ?a ?b ?c ?d ?x] => destruct (x_update_run env a b c d x) as (k & Hk & _) end.
  unfold b_bind in *. rewrite Hk. by eexists _, _.
Qed.

(** A build of a container image gives its token back however it ends: with an
    image, with a payload that cannot be parsed, with a failed build, or put off
    because there was no token. *)
Theorem build_returns_token limiter (w w' : X) o :
  d_buildkit deps && d_redis deps = true -> d_buildLimiter deps = Some limiter ->
  others_keep_out limiter (TaskID (x_task w)) -> ~ holds limiter (TaskID (x_task w)) w ->
  executeBuildContainer env deps w = Finished w' o -> ~ holds limiter (TaskID (x_task w)) w'.
Proof.
  rewrite andb_true_iff. intros [Hb Hr] Hl Ho Hn. unfold executeBuildContainer. rewrite Hb, Hr, Hl. cbn [negb].
  destruct (acquire_or_wait_run limiter w) as (w1 & acq & Ha & Ht & Hf & _).
  unfold b_bind at 1. rewrite Ha. destruct acq.
  - unfold b_defer. destruct (build_image_run w1) as (w2 & o2 & -> & Ht2).
    destruct (x_release_token_run limiter w2) as (w3 & -> & Hrel & _). intros [= <- _]. by rewrite Ht2, Ht in Hrel.
  - intros Hx. rewrite (x_keeps_holds _ _ _ _ _ _ (x_keeps_build _) Hx). by apply Hf.
Qed.

Lemma x_keeps_lift_wrap {A} p (r : res A) : x_keeps (b_wrap p (b_lift r)).
Proof. apply x_keeps_wrap, x_keeps_ret. Qed.
Lemma x_keeps_on_owner {A} (m : M S A) : x_keeps (@x_on_owner D R S A m).
Proof. intros w w' o. unfold x_on_owner. destruct (m _) as [s r]. by intros [= <- _]. Qed.

Lemma x_keeps_algorithm : x_keeps (@algorithm_with_token D R S _ _ env deps).
Proof.
  unfold algorithm_with_token. apply x_keeps_bind; [apply x_keeps_get|]. intros t.
  apply x_keeps_bind; [apply x_keeps_lift_wrap|]. intros p.
  apply x_keeps_bind; [apply x_keeps_wrap; unfold createExecution;
    destruct (d_executionOwner deps); [apply x_keeps_on_owner|by intros w w' o [= <- _]]|]. intros id.
  do 3 (apply x_keeps_bind; [apply x_keeps_lift_wrap|]; intros ?). apply x_keeps_ret.
Qed.

(** An algorithm task that gets a token still holds it when its executor
    returns, whatever the result.  After a success the handler of the end of the
    job gives it back; after an error (a payload that cannot be parsed, an
    execution row that cannot be created, a job that is not accepted) there is no
    job, and nothing does. *)
Theorem algorithm_keeps_token limiter (w w' : X) o :
  d_k8s deps && d_redis deps = true -> d_algoLimiter deps = Some limiter ->
  Z.of_nat (size (holders (bucketKey limiter) (x_redis w))) < maxTokens limiter ->
  executeAlgorithm env deps w = Finished w' o -> holds limiter (TaskID (x_task w)) w'.
Proof.
  rewrite andb_true_iff. intros [Hb Hr] Hl Hs. unfold executeAlgorithm. rewrite Hb, Hr, Hl. cbn [negb].
  destruct (acquire_or_wait_run limiter w) as (w1 & acq & Ha & Ht & _ & Hlt). destruct (Hlt Hs) as [-> Hh].
  unfold b_bind at 1. rewrite Ha. intros Hx. by rewrite (x_keeps_holds _ _ _ _ _ _ x_keeps_algorithm Hx).
Qed.

(** *** The children of a collection *)

Lemma loadCached_served (decode : string -> res (list value)) groupID (r r' : R) algorithms cached :
  loadCachedInjectionAlgorithms decode groupID r = (r', Ok (algorithms, cached)) ->
  keys r' = keys r /\
  match khash InjectionAlgorithmsKey (keys r) !! groupID with
  | Some json => cached = true /\ if String.eqb json "" then algorithms = [] else decode json = Ok algorithms
  | None => cached = false /\ algorithms = []
  end.
Proof.
  unfold loadCachedInjectionAlgorithms, CheckCachedField, GetHashField, m_bind, attempt, m_ret.
  destruct (exec (HGET InjectionAlgorithmsKey groupID) r) as [r1 o1] eqn:E1. apply served in E1. simpl in E1.
  destruct (khash InjectionAlgorithmsKey (keys r) !! groupID) as [json|] eqn:Ej; injection E1 as Hk <-; cbn [is_ok].
  2:{ by intros [= <- <- <-]. }
  destruct (exec (HGET InjectionAlgorithmsKey groupID) r1) as [r2 o2] eqn:E2. apply served in E2. simpl in E2.
  rewrite <- Hk, Ej in E2. injection E2 as Hk2 <-.
  destruct (String.eqb json "").
  - intros [= <- <- <-]. by rewrite <- Hk2.
  - unfold m_wrap, m_lift. destruct (decode json) as [l|e]; cbn [res_wrap]; [|done].
    intros [= <- <- <-]. by rewrite <- Hk2.
Qed.

(** One algorithm to run, as the queue holds it. *)
Definition algorithm_child (task : UnifiedTask) (datapack algorithm : value) (index : Z) (data : string) : Prop :=
  exists t', marshal_task t' = Ok data /\ Type_ t' = TaskTypeRunAlgorithm /\
    ParentTaskID t' = Some (TaskID task) /\ Sequence t' = index /\
    Payload t' = {["algorithm" := algorithm; "datapack" := datapack]}.

Fixpoint algorithm_children (task : UnifiedTask) (datapack : value) (algorithms : list value) (index : Z)
    (queued : list string) : Prop :=
  match algorithms, queued with
  | [], [] => True
  | a :: rest, d :: ds => algorithm_child task datapack a index d /\ algorithm_children task datapack rest (index + 1) ds
  | _, _ => False
  end.

Lemma produce_all_ok datapack algorithms index (w w' : X) :
  produce_all env datapack algorithms index w = Finished w' (Ok tt) ->
  exists queued, fifo (x_redis w') = fifo (x_redis w) ++ queued /\
    algorithm_children (x_task w) datapack algorithms index queued.
Proof.
  revert index w. induction algorithms as [|a rest IH]; intros index w; cbn [produce_all].
  { intros [= <-]. exists []. by rewrite app_nil_r. }
  intros Hx. apply b_bind_ok in Hx as (w1 & [] & Hp & Hx).
  unfold produceAlgorithmExeuctionTask, b_wrap, b_bind, get_task, x_on_worker in Hp.
  destruct (submit (x_event env) _ (hw_worker (x_world w))) as [k [t'|e]] eqn:Es; [|done].
  cbn [res_wrap] in Hp. injection Hp as <-.
  apply submit_ok in Es as (Hpl & Hsq & Hty & Hpa & _ & _ & _ & data & Hm & Hf & _); [|done].
  destruct (IH _ _ Hx) as (queued & Hq & Hc). exists (data :: queued). split.
  - rewrite Hq. unfold x_redis in *. cbn. by rewrite Hf, <- app_assoc.
  - split; [|exact Hc]. by exists t'.
Qed.

(** What collecting the results of the detector starts.  When no result reports
    an issue nothing is queued.  When one does, the algorithms cached for the group
    are queued, in their order, each as a child of the collection with its position
    as sequence and the same datapack; no cached algorithms means no child. *)
Theorem collect_starts_algorithms decode p (w w' : X) :
  d_db deps && d_redis deps && d_executionOwner deps = true ->
  parseCollectPayload (Payload (x_task w)) = Ok p ->
  cvi_ContainerName (col_algorithm p) = ev_detector (x_event env) ->
  executeCollectResult env deps decode w = Finished w' (Ok tt) ->
  exists s results granularity,
    GetExecution (col_executionID p) (hw_store (x_world w)) = (s, Ok (results, granularity)) /\
    if has_issues results then
      exists algorithms queued,
        match khash InjectionAlgorithmsKey (keys (x_redis w)) !! GroupID (x_task w) with
        | Some json => if String.eqb json "" then algorithms = [] else decode json = Ok algorithms
        | None => algorithms = []
        end /\
        fifo (x_redis w') = fifo (x_redis w) ++ queued /\
        algorithm_children (x_task w) (datapack_value (col_datapack p)) algorithms 0 queued
    else fifo (x_redis w') = fifo (x_redis w).
Proof.
  rewrite !andb_true_iff. intros [[Hdb Hr] Heo] Hp Hn. unfold executeCollectResult. rewrite Hdb, Hr. cbn [negb].
  unfold b_bind at 1, get_task, b_bind at 1, b_lift. rewrite Hp, Hn, String.eqb_refl.
  unfold collect_detector. intros Hx. apply b_bind_ok in Hx as (w1 & [results gran] & Hl & Hx).
  unfold load_results, b_wrap, x_on_owner in Hl. rewrite Heo in Hl.
  destruct (GetExecution _ _) as [s [[? ?]|e]] eqn:Eg; [|done]. cbn [res_wrap] in Hl. injection Hl as <- -> ->.
  exists s, results, gran. split; [done|]. apply b_bind_ok in Hx as (w2 & [] & Hc & Hx).
  match type of Hc with task_completed _ ?a ?b ?x = _ =>
    destruct (task_completed_run env a b x) as (k & Hc' & Hk); rewrite Hc' in Hc end. injection Hc as <-.
  assert (Hf : fifo (wk_redis k) = fifo (x_redis w)).
  { unfold fifo, ready, klist. by rewrite (Hk _ ks_list lists_not_streams). }
  destruct (has_issues results); [|by injection Hx as <-].
  apply b_bind_ok in Hx as (? & ? & [= <- <-] & Hx). cbn [with_worker x_task] in Hx.
  apply b_bind_ok in Hx as (w3 & [algorithms cached] & Hl & Hx).
  unfold b_wrap, x_on_redis, x_on_worker, on_redis in Hl. cbn [with_worker x_world hw_worker wk_redis] in Hl.
  destruct (loadCachedInjectionAlgorithms _ _ _) as [r [[? ?]|e]] eqn:Ec; [|done].
  cbn [res_wrap] in Hl. injection Hl as <- -> ->. apply loadCached_served in Ec as [Hkeys Hc].
  assert (Hh : khash InjectionAlgorithmsKey (keys (wk_redis k)) = khash InjectionAlgorithmsKey (keys (x_redis w))).
  { unfold khash. by rewrite (Hk _ ks_hash ltac:(done)). }
  assert (Hf3 : fifo r = fifo (x_redis w)) by (rewrite <- Hf; unfold fifo, ready; by rewrite Hkeys).
  rewrite Hh in Hc. exists algorithms. destruct cached.
  - apply produce_all_ok in Hx as (queued & Hq & Hch). exists queued. rewrite Hq. unfold x_redis. cbn. rewrite Hf3.
    split_and!; try done. destruct (_ !! _); by destruct Hc.
  - injection Hx as <-. exists []. rewrite app_nil_r. unfold x_redis. cbn. rewrite Hf3.
    destruct (_ !! _) as [json|]; destruct Hc as [? Hc]; [done|by rewrite Hc].
Qed.
End TokenFacts.

(** ** A concrete worker *)

Module ExecutorSample.
#[local] Existing Instance ToyCodec.toy.
#[local] Existing Instance SubmitSample.memory_store.
#[local] Existing Instance SubmitSample.memory_store_laws.
Import HandlerSample.

Definition chart : HelmConfigItem := mkHelmConfig "1.0" "" "" "chart" "" "" [].


#[global] Instance plain_payloads : PayloadCodec := {
  to_version_item := fun v =>
    match v with Some (VStr s) => Ok (mkVersionItem 3 "v1" "image" "" 4 s [] (Some chart)) | _ => Err "not an item" end;
  to_injection_item := fun v =>
    match v with Some (VStr s) => Ok (mkInjectionItem 1 s 5 "" "") | _ => Err "not an item" end;
  to_labels := fun v => match v with Some (VList l) => Ok l | _ => Err "not a list" end;
  to_build_options := fun v => match v with Some o => Ok o | None => Err "no options" end
}.

#[global] Instance log_executions : ExecutionOwner (list told) := {
  CreateExecution := fun _ _ _ _ _ l => (l, Ok 7);
  GetExecution := fun id l => (l, Ok ([("{}", VStr "span 1"); ("latency", VStr "span 2")], []))
}.

Definition xenv0 : xenv keyspace :=
  mkXEnv keyspace HandlerSample.env0 100 130 (1 # 2) 2 (fun _ r => r) 3 itoa (fun s => String.eqb s "ts")
    (fun s => if String.eqb s "ts" then Some ("^ts", fun _ => Ok 0) else None) (fun _ _ _ => Ok tt)
    (Ok ∅) (fun p => Ok (cvi_Name p)) (fun p => Ok (ii_Name p)) (fun _ _ _ _ _ => Ok tt) "app" (fun _ => Ok tt).
Definition deps0 : runtime_deps :=
  mkDeps true true true true true true true (Some limiter) (Some limiter) (Some limiter).

Definition task_with (ty : TaskType) (payload : gmap string value) : UnifiedTask :=
  {| TaskID := "p"; Type_ := ty; Immediate := true; ExecuteTime := 0; CronExpr := ""; ReStartNum := 0;
     Retry := mkRetry 0 0; Payload := payload; Level := 0; Sequence := 0; ParentTaskID := None;
     TraceID := "trace"; GroupID := "group"; ProjectID := 1; UserID := 1; State_ := TaskPending;
     TraceCarrier := None; GroupCarrier := None; Extra := None |}.

(** A free namespace, and the algorithms of the group. *)
Definition xworld0 (t : UnifiedTask) : xworld (task_db * bool) keyspace (list told) :=
  mkXWorld (mkHWorld (set_redis (upd_hash InjectionAlgorithmsKey {["group" := "two"]}
      (NamespaceLock.LockSample.held "" "0")) (hw_worker world0)) false (hw_batches world0) []) t.

Definition restart_payload : gmap string value :=
  {["pedestal_version" := VStr "ts"; "interval" := VFloat 15; "fault_duration" := VFloat 5;
    "inject_payload" := VMap []]}.
Definition decode_two (json : string) : res (list value) := Ok [VStr "a"; VStr "b"].

(** What a run ends in. *)
Definition outcome_of {W A} (x : run W A) : option (res A) :=
  match x with Finished _ o => Some o | Blocked _ => None end.
Lemma run_ends {W A} (x : run W A) o : outcome_of x = Some o -> exists w, x = Finished w o.
Proof. destruct x; [intros [= ->]; by eexists|done]. Qed.
Definition fails {W A} (x : run W A) : bool := match x with Finished _ (Err _) => true | _ => false end.
Lemma run_fails {W A} (x : run W A) : fails x = true -> exists w e, x = Finished w (Err e).
Proof. destruct x as [w [a|e]|]; try done. intros _. by eexists _, _. Qed.

Lemma others_idle l id : others_keep_out xenv0 l id.
Proof. intros k r Hin. exact Hin. Qed.

Definition restart_task : UnifiedTask := task_with TaskTypeRestartPedestal restart_payload.
Definition broken_task : UnifiedTask := task_with TaskTypeRestartPedestal ∅.
Lemma no_token t : TaskID t = "p" -> ~ holds limiter (TaskID (x_task (xworld0 t))) (xworld0 t).
Proof.
  intros Ht. change (x_task (xworld0 t)) with t. rewrite Ht. unfold holds. apply (bool_decide_unpack (~ _)).
  vm_compute. exact I.
Qed.

Lemma restart_token_witness :
  (exists w1, executeRestartPedestal xenv0 deps0 (xworld0 restart_task) = Finished w1 (Ok tt) /\ ~ holds limiter "p" w1) /\
  (exists w2 e, executeRestartPedestal xenv0 deps0 (xworld0 broken_task) = Finished w2 (Err e) /\ holds limiter "p" w2).
Proof.
  split.
  - assert (E : outcome_of (executeRestartPedestal xenv0 deps0 (xworld0 restart_task)) = Some (Ok tt))
    by (vm_compute; reflexivity).
  apply run_ends in E as [w1 E]. exists w1. split; [exact E|].
    pose proof (restart_token xenv0 deps0 limiter (xworld0 restart_task) w1 (Ok tt) eq_refl eq_refl eq_refl
      (others_idle _ _) (no_token restart_task eq_refl) E) as H1.
    destruct (parseRestartPayload (Payload (x_task (xworld0 restart_task)))) as [p|e] eqn:Ep;
      [|vm_compute in Ep; discriminate Ep].
    vm_compute in Ep. injection Ep as <-. apply H1; [reflexivity|discriminate].
  - assert (E : fails (executeRestartPedestal xenv0 deps0 (xworld0 broken_task)) = true) by (vm_compute; reflexivity).
  apply run_fails in E as (w2 & e & E). exists w2, e. split; [exact E|].
    pose proof (restart_token xenv0 deps0 limiter (xworld0 broken_task) w2 (Err e) eq_refl eq_refl eq_refl
      (others_idle _ _) (no_token broken_task eq_refl) E) as H2.
    destruct (parseRestartPayload (Payload (x_task (xworld0 broken_task)))) as [p|e'] eqn:Ep;
      [vm_compute in Ep; discriminate Ep|]. apply H2. vm_compute. reflexivity.
Defined.

(** A restart that had been put off before. *)
Definition retried_task : UnifiedTask := Reschedule 0 restart_task.
Definition task_of {W D R S A} (f : UnifiedTask -> W) (x : run (xworld D R S) A) : option W :=
  match x with Finished w _ => Some (f (x_task w)) | Blocked _ => None end.
Lemma restart_hands_over_witness :
  exists w' p ns, executeRestartPedestal xenv0 deps0 (xworld0 retried_task) = Finished w' (Ok tt) /\
    handed_over xenv0 retried_task p ns w'.
Proof.
  assert (E : outcome_of (executeRestartPedestal xenv0 deps0 (xworld0 retried_task)) = Some (Ok tt))
    by (vm_compute; reflexivity).
  assert (En : task_of ReStartNum (executeRestartPedestal xenv0 deps0 (xworld0 retried_task)) = Some 1)
    by (vm_compute; reflexivity).
  apply run_ends in E as [w1 E]. exists w1. rewrite E in En. injection En as En.
  destruct (restart_hands_over xenv0 deps0 (xworld0 retried_task) w1 E ltac:(discriminate)) as (l & w2 & b & _ & _ & Hx).
  assert (Hno : ~ put_off xenv0 retried_task (restart_delay (ReStartNum retried_task) (x_factor xenv0)) w1).
  { intros (_ & Hn & _). rewrite En in Hn. vm_compute in Hn. discriminate Hn. }
  destruct b; [|destruct (Hno Hx)]. destruct Hx as (p & _ & _ & _ & ns & _ & _ & _ & Hx).
  destruct (String.eqb ns ""); [destruct (Hno Hx)|]. exists p, ns. split; [exact E|exact Hx].
Defined.

Definition waiting : xworld (task_db * bool) keyspace (list told) := xworld0 (task_with TaskTypeRunAlgorithm ∅).
Lemma reschedule_queue_witness :
  exists w' data,
    reschedule xenv0 TaskTypeRunAlgorithm EventNoTokenAvailable "failure" "no token" 3 waiting = Finished w' (Ok tt) /\
    fifo (x_redis w') = fifo (x_redis waiting) ++ [data].
Proof.
  assert (E : outcome_of (reschedule xenv0 TaskTypeRunAlgorithm EventNoTokenAvailable "failure" "no token" 3 waiting)
    = Some (Ok tt)) by (vm_compute; reflexivity).
  apply run_ends in E as [w' E]. exists w'.
  destruct (reschedule_queue xenv0 TaskTypeRunAlgorithm EventNoTokenAvailable "failure" "no token" 3 waiting w' E
    ltac:(discriminate)) as (data & Hm & Hq). exists data. split; [exact E|exact (proj1 Hq)].
Defined.

Lemma algorithm_keeps_token_witness :
  exists w' e, executeAlgorithm xenv0 deps0 (xworld0 (task_with TaskTypeRunAlgorithm ∅)) = Finished w' (Err e) /\
    holds limiter "p" w'.
Proof.
  assert (E : fails (executeAlgorithm xenv0 deps0 (xworld0 (task_with TaskTypeRunAlgorithm ∅))) = true) by (vm_compute; reflexivity).
  apply run_fails in E as (w' & e & E). exists w', e. split; [exact E|].
  exact (algorithm_keeps_token xenv0 deps0 limiter (xworld0 (task_with TaskTypeRunAlgorithm ∅)) w' (Err e) eq_refl eq_refl
    eq_refl E).
Defined.

Lemma build_returns_token_witness :
  exists w' e, executeBuildContainer xenv0 deps0 (xworld0 (task_with TaskTypeBuildContainer ∅)) = Finished w' (Err e) /\
    ~ holds limiter "p" w'.
Proof.
  assert (E : fails (executeBuildContainer xenv0 deps0 (xworld0 (task_with TaskTypeBuildContainer ∅))) = true) by (vm_compute; reflexivity).
  apply run_fails in E as (w' & e & E). exists w', e. split; [exact E|].
  exact (build_returns_token xenv0 deps0 limiter (xworld0 (task_with TaskTypeBuildContainer ∅)) w' (Err e) eq_refl eq_refl
    (others_idle _ _) (no_token (task_with TaskTypeBuildContainer ∅) eq_refl) E).
Defined.

Definition collect_task : UnifiedTask :=
  task_with TaskTypeCollectResult {["algorithm" := VStr "detector"; "datapack" := VStr "dp"; "execution_id" := VFloat 7]}.
Definition collected : collectionPayload :=
  mkCollectionPayload (mkVersionItem 3 "v1" "image" "" 4 "detector" [] (Some chart)) (mkInjectionItem 1 "dp" 5 "" "") 7.
Lemma collect_starts_algorithms_witness :
  exists w' queued, executeCollectResult xenv0 deps0 decode_two (xworld0 collect_task) = Finished w' (Ok tt) /\
    fifo (x_redis w') = queued /\ length queued = 2%nat.
Proof.
  assert (E : outcome_of (executeCollectResult xenv0 deps0 decode_two (xworld0 collect_task)) = Some (Ok tt))
    by (vm_compute; reflexivity).
  apply run_ends in E as [w' E].
  assert (Hp : parseCollectPayload (Payload (x_task (xworld0 collect_task))) = Ok collected) by (vm_compute; reflexivity).
  destruct (collect_starts_algorithms xenv0 deps0 decode_two collected (xworld0 collect_task) w' eq_refl Hp eq_refl E)
    as (s & results & gran & Hg & Hq).
  vm_compute in Hg. injection Hg as <- <- <-. destruct Hq as (algorithms & queued & Ha & Hf & Hc).
  vm_compute in Ha. injection Ha as <-. exists w', queued. split; [exact E|]. split; [exact Hf|].
  destruct queued as [|a [|b [|]]]; simpl in Hc; first [reflexivity|tauto].
Defined.

Lemma reschedule_delays_witness : restart_delay 0 (9 # 10) = 0 /\ 0 <= restart_delay 7 (9 # 10) <= 5.
Proof.
  split; [apply (reschedule_delays 0 (9 # 10) 2); done|apply (reschedule_delays 7 (9 # 10) 2); done].
Defined.
End ExecutorSample.
