(* ===== verification/Partial.v ===== *)
(** * Calls that may return an error or panic

    The monad of [outcome (res A)]: a call returns a value, returns an error, or
    panics (a nil pointer, an index out of range). *)

From S2P Require Import Prelude.

Definition P (A : Type) : Type := outcome (res A).
Definition p_ret {A} (a : A) : P A := Returns (Ok a).
Definition p_err {A} (e : string) : P A := Returns (Err e).
Definition p_lift {A} (r : res A) : P A := Returns r.
Definition p_bind {A B} (m : P A) (f : A -> P B) : P B :=
  match m with
  | Returns (Ok a) => f a
  | Returns (Err e) => Returns (Err e)
  | Panics => Panics
  end.
Definition p_wrap {A} (prefix : string) (m : P A) : P A :=
  match m with
  | Returns r => Returns (res_wrap prefix r)
  | Panics => Panics
  end.
(** A dereference or an index: panics when there is nothing. *)
Definition p_get {A} (o : option A) : P A :=
  match o with Some a => p_ret a | None => Panics end.
(** [if !cond { return err }]. *)
Definition p_require (cond : bool) (e : string) : P unit := if cond then p_ret tt else p_err e.

Notation "'let>' x := m 'in' k" := (p_bind m (fun x => k))
  (at level 10, x pattern, m at level 100, k at level 200) : go_scope.
Notation "m ';;>' k" := (p_bind m (fun _ => k))
  (at level 100, k at level 200, right associativity) : go_scope.

(** A loop that threads a state. *)
Fixpoint p_fold {A S} (f : nat -> S -> A -> P S) (i : nat) (s : S) (l : list A) : P S :=
  match l with
  | [] => p_ret s
  | x :: rest => let> s := f i s x in p_fold f (Datatypes.S i) s rest
  end.

Lemma p_bind_ok {A B} (m : P A) (f : A -> P B) b :
  p_bind m f = Returns (Ok b) <-> exists a, m = Returns (Ok a) /\ f a = Returns (Ok b).
Proof.
  unfold p_bind. destruct m as [[a|e]|].
  - split; [by eexists|]. by intros (? & [= <-] & ?).
  - split; [done|]. by intros (? & ? & _).
  - split; [done|]. by intros (? & ? & _).
Qed.

Lemma p_wrap_ok {A} p (m : P A) a : p_wrap p m = Returns (Ok a) <-> m = Returns (Ok a).
Proof. destruct m as [[?|?]|]; simpl; split; congruence. Qed.

Lemma p_get_ok {A} (o : option A) a : p_get o = Returns (Ok a) <-> o = Some a.
Proof. destruct o; unfold p_get, p_ret; split; congruence. Qed.

Lemma p_require_ok c e u : p_require c e = Returns (Ok u) <-> c = true.
Proof. destruct c, u; unfold p_require, p_ret, p_err; split; congruence. Qed.

(** What holds of the state at each step of a loop that ends well. *)
Lemma p_fold_inv {A S} (I : nat -> S -> list A -> Prop) f i s l s' :
  I i s l ->
  (forall j t x rest t', I j t (x :: rest) -> f j t x = Returns (Ok t') -> I (Datatypes.S j) t' rest) ->
  p_fold f i s l = Returns (Ok s') -> I (i + length l)%nat s' [].
Proof.
  intros Hi Hf. revert i s Hi. induction l as [|x rest IH]; intros i s Hi; cbn [p_fold].
  - intros [= <-]. cbn [length]. by rewrite Nat.add_0_r.
  - rewrite p_bind_ok. intros (t & Ht & Hr). cbn [length]. rewrite Nat.add_succ_r.
    apply (IH (Datatypes.S i) t); [|done]. by eapply Hf.
Qed.

(** A loop none of whose steps panics does not panic. *)
Lemma p_fold_total {A S} (f : nat -> S -> A -> P S) i s l :
  (forall j t x, x ∈ l -> f j t x <> Panics) -> p_fold f i s l <> Panics.
Proof.
  revert i s. induction l as [|x rest IH]; intros i s Hf; cbn [p_fold]; [done|].
  assert (Hx := Hf i s x (list_elem_of_here _ _)). destruct (f i s x) as [[t|e]|]; [|done..]. simpl.
  apply IH. intros j t' y Hy. apply Hf. by apply list_elem_of_further.
Qed.
