(* ===== verification/GoTime.v ===== *)
(** * Durations

    [time.ParseDuration] of the Go library, with the durations of the code in
    nanoseconds, and a regular expression of the form [^(\d+)([units])$].  The
    arithmetic is exact: Go computes the fraction of a number in floating point,
    which differs by at most a nanosecond. *)

From S2P Require Import Prelude GoStrings.
#[local] Open Scope Z_scope.

Definition Nanosecond : Z := 1.
Definition Second : Z := 10 ^ 9.
Definition Minute : Z := 60 * Second.
Definition Hour : Z := 60 * Minute.
Definition Day : Z := 24 * Hour.

Definition unit_of (u : list ascii) : option Z :=
  let name := of_chars u in
  if String.eqb name "ns" then Some Nanosecond
  else if String.eqb name "us" then Some (10 ^ 3)
  else if String.eqb name (of_chars ["194"; "181"; "s"]%char) then Some (10 ^ 3)   (* U+00B5 *)
  else if String.eqb name (of_chars ["206"; "188"; "s"]%char) then Some (10 ^ 3)   (* U+03BC *)
  else if String.eqb name "ms" then Some (10 ^ 6)
  else if String.eqb name "s" then Some Second
  else if String.eqb name "m" then Some Minute
  else if String.eqb name "h" then Some Hour
  else None.

(** [leadingInt]: [None] on overflow. *)
Fixpoint leading_int (x : Z) (l : list ascii) : option (Z * list ascii) :=
  match l with
  | c :: rest =>
      if is_digit c then
        if 2 ^ 63 / 10 <? x then None
        else let x := x * 10 + digit_val c in
             if 2 ^ 63 <? x then None else leading_int x rest
      else Some (x, l)
  | [] => Some (x, [])
  end.

(** [leadingFraction]: the digits that would overflow are dropped. *)
Fixpoint leading_fraction (x scale : Z) (overflow : bool) (l : list ascii) : Z * Z * list ascii :=
  match l with
  | c :: rest =>
      if is_digit c then
        if overflow then leading_fraction x scale true rest
        else if (2 ^ 63 - 1) / 10 <? x then leading_fraction x scale true rest
        else let y := x * 10 + digit_val c in
             if 2 ^ 63 <? y then leading_fraction x scale true rest
             else leading_fraction y (scale * 10) false rest
      else (x, scale, l)
  | [] => (x, scale, [])
  end.

Definition unit_char (c : ascii) : bool := negb (Ascii.eqb c "." || is_digit c).
Fixpoint take_unit (l : list ascii) : list ascii * list ascii :=
  match l with
  | c :: rest => if unit_char c then let '(u, r) := take_unit rest in (c :: u, r) else ([], l)
  | [] => ([], [])
  end.

(** One number with its unit: its value, and the rest. *)
Definition duration_term (l : list ascii) : option (Z * list ascii) :=
  match l with
  | [] => None
  | c :: _ =>
      if negb (Ascii.eqb c "." || is_digit c) then None
      else
        match leading_int 0 l with
        | None => None
        | Some (v, l1) =>
            let pre := negb (length l =? length l1)%nat in
            let '(f, scale, l2, post) :=
              match l1 with
              | "."%char :: l1' =>
                  let '(f, scale, l2) := leading_fraction 0 1 false l1' in
                  (f, scale, l2, negb (length l1' =? length l2)%nat)
              | _ => (0, 1, l1, false)
              end in
            if negb pre && negb post then None
            else
              match take_unit l2 with
              | ([], _) => None
              | (u, l3) =>
                  match unit_of u with
                  | None => None
                  | Some unit =>
                      if 2 ^ 63 / unit <? v then None
                      else
                        let v := v * unit + f * unit / scale in
                        if 2 ^ 63 <? v then None else Some (v, l3)
                  end
              end
        end
  end.

(** The terms are added up; each one shortens the text, so that its length bounds
    their number. *)
Fixpoint duration_terms (fuel : nat) (d : Z) (l : list ascii) : option Z :=
  match l, fuel with
  | [], _ => Some d
  | _, O => None
  | _, S fuel =>
      match duration_term l with
      | None => None
      | Some (v, rest) => if 2 ^ 63 <? d + v then None else duration_terms fuel (d + v) rest
      end
  end.

Definition ParseDuration (s : string) : option Z :=
  let '(neg, l) :=
    match chars s with
    | "-"%char :: l => (true, l)
    | "+"%char :: l => (false, l)
    | l => (false, l)
    end in
  match l with
  | [] => None
  | ["0"%char] => Some 0
  | _ =>
      match duration_terms (length l) 0 l with
      | None => None
      | Some d => if neg then Some (- d) else if 2 ^ 63 - 1 <? d then None else Some d
      end
  end.

Example parse_90s : ParseDuration "1m30s" = Some (90 * Second). Proof. reflexivity. Qed.
Example parse_fraction : ParseDuration "1.5h" = Some (90 * Minute). Proof. reflexivity. Qed.
Example parse_negative : ParseDuration "-.5m" = Some (- 30 * Second). Proof. reflexivity. Qed.
Example parse_plain : ParseDuration "5" = None. Proof. reflexivity. Qed.

(** *** Termination: enough steps *)

Lemma leading_int_shorter x l v rest : leading_int x l = Some (v, rest) -> (length rest <= length l)%nat.
Proof.
  revert x. induction l as [|c l IH]; intros x; simpl; [by intros [= _ <-]|].
  destruct (is_digit c); [|by intros [= _ <-]]. destruct (_ <? _); [done|]. destruct (_ <? _); [done|].
  intros Hx. apply IH in Hx. lia.
Qed.
Lemma leading_fraction_shorter x s o l f sc rest :
  leading_fraction x s o l = (f, sc, rest) -> (length rest <= length l)%nat.
Proof.
  revert x s o. induction l as [|c l IH]; intros x s o; simpl; [by intros [= _ _ <-]|].
  destruct (is_digit c); [|by intros [= _ _ <-]].
  destruct o; [intros Hx; apply IH in Hx; lia|]. destruct (_ <? _); [intros Hx; apply IH in Hx; lia|].
  destruct (_ <? _); intros Hx; apply IH in Hx; lia.
Qed.
Lemma take_unit_shorter l u rest : take_unit l = (u, rest) -> (length u + length rest = length l)%nat.
Proof.
  revert u rest. induction l as [|c l IH]; intros u rest; simpl; [by intros [= <- <-]|].
  destruct (unit_char c); [|by intros [= <- <-]]. destruct (take_unit l) as [u' r'] eqn:E.
  intros [= <- <-]. simpl. by rewrite (IH _ _ eq_refl).
Qed.

Lemma duration_term_shorter l v rest : duration_term l = Some (v, rest) -> (length rest < length l)%nat.
Proof.
  unfold duration_term. destruct l as [|c l]; [done|]. destruct (negb (_ || _)); [done|].
  destruct (leading_int 0 (c :: l)) as [[v1 l1]|] eqn:E1; [|done]. apply leading_int_shorter in E1.
  set (q := match l1 with "."%char :: l1' => _ | _ => _ end).
  assert (Hq : (length (snd (fst q)) <= length l1)%nat).
  { subst q. destruct l1 as [|d l1']; [done|].
    destruct (leading_fraction 0 1 false l1') as [[f sc] l2] eqn:E2. apply leading_fraction_shorter in E2.
    destruct d as [[] [] [] [] [] [] [] []]; simpl; lia. }
  destruct q as [[[f sc] l2] post]. simpl in Hq. destruct (negb _ && negb post); [done|].
  destruct (take_unit l2) as [[|u0 u] l3] eqn:E3; [done|]. apply take_unit_shorter in E3. simpl in E3.
  destruct (unit_of _); [|done]. destruct (_ <? _); [done|]. destruct (_ <? _); [done|].
  intros [= _ <-]. simpl in *. lia.
Qed.

(** More steps than characters change nothing: a failure is never for lack of
    steps. *)
Lemma duration_terms_fuel n m d l :
  (length l <= n)%nat -> (length l <= m)%nat -> duration_terms n d l = duration_terms m d l.
Proof.
  revert m d l. induction n as [|n IH]; intros [|m] d [|c l] Hn Hm; simpl in Hn, Hm; try done; try lia.
  cbn [duration_terms]. destruct (duration_term (c :: l)) as [[v rest]|] eqn:E; [|done].
  apply duration_term_shorter in E. simpl in E. destruct (_ <? _); [done|]. apply IH; lia.
Qed.

(** ** A number and a unit *)

(** The groups of [^(\d+)([units])$]. *)
Definition number_and_unit (units : list ascii) (s : string) : option (string * ascii) :=
  match rev (chars s) with
  | u :: ds =>
      if bool_decide (u ∈ units) && negb (length ds =? 0)%nat && forallb is_digit ds
      then Some (of_chars (rev ds), u) else None
  | [] => None
  end.
