(* ===== verification/InjectionSpec.v ===== *)
(** * Fault specifications ([module/injection/submit.go], [spec_convert.go],
      [time_range.go], and [ResolveSpecs] of [api_types.go])

    What a request for an injection says: batches of faults, as nodes of the chaos
    library, as friendly specifications that are converted to nodes, or as guided
    configurations.  A batch is checked, ordered and compared with the other
    batches of the request and with those of the database.  The types and functions
    of the chaos library are the class [ChaosLib]; JSON is an argument. *)

From Stdlib Require Import QArith.
From S2P Require Import Prelude GoStrings Consts Task Partial.
#[local] Open Scope Z_scope.

(** ** Nodes *)

(** [chaos.Node]; a pointer of [Children] may be nil. *)
#[warnings="-register-all"] Inductive Node : Type := mkNode (Value : Z) (Children : gmap string (option Node)).
Definition Value (n : Node) : Z := let '(mkNode v _) := n in v.
Definition Children (n : Node) : gmap string (option Node) := let '(mkNode _ c) := n in c.
(** [n.Children[key]], nil when missing. *)
Definition child (n : Node) (key : string) : option Node := mjoin (Children n !! key).

Definition DurationNodeKey : string := "0".
Definition SystemNodeKey : string := "1".

(** The chaos library: how a node or a guided configuration is read, the services
    of its ground truth, the registered systems and fault types, and the fields of
    the specification of a type. *)
Class ChaosLib := {
  GuidedConfig : Type;
  InjectionConf : Type;
  NodeToStruct : Node -> res InjectionConf;
  GroundtruthServices : InjectionConf -> res (list string);
  BuildInjection : GuidedConfig -> res (InjectionConf * string);
  cfg_Duration : GuidedConfig -> option Z;
  AllSystemTypes : list string;
  ChaosTypeMap : list (Z * string);      (* in the order of an iteration *)
  SpecFields : Z -> option (list string);
  node_json : Node -> string;            (* empty when it fails *)
  nodes_json : list Node -> res string;
  guided_json : list GuidedConfig -> res string
}.

(** ** A batch *)

Section Batch.
Context `{ChaosLib}.

Record injectionProcessItem := mkItem {
  index : Z;
  faultDuration : Z;
  nodes : list Node;
  guidedConfigs : list GuidedConfig;
  executeTime : Z                        (* nanoseconds *)
}.

(** The checks of one node; the result is its duration. *)
Definition check_node (pedestal : string) (idx : nat) (maxDuration : Z) (spec : Node) : P Z :=
  match Children spec !! itoa (Value spec) with
  | None => p_err ("failed to find key " +:+ itoa (Value spec) +:+ " in the children at index "
                   +:+ itoa (Z.of_nat idx))
  | Some childNode =>
      let> childNode := p_get childNode in
      p_require (3 <=? size (Children childNode))%nat
        ("no child nodes found for fault spec at index " +:+ itoa (Z.of_nat idx)) ;;>
      let> duration := p_get (child childNode DurationNodeKey) in
      let maxDuration := Z.max (Value duration) maxDuration in
      let> system := p_get (child childNode SystemNodeKey) in
      let> system := p_get (if Value system <? 0 then None else AllSystemTypes !! Z.to_nat (Value system)) in
      p_require (String.eqb pedestal system)
        ("mismatched system type " +:+ system +:+ " for pedestal " +:+ pedestal +:+ " at index "
         +:+ itoa (Z.of_nat idx)) ;;>
      p_ret maxDuration
  end.

(** The services of the batch so far, with the position of each, and the
    warnings. *)
Definition services_seen : Type := gmap string nat * list string.

Fixpoint note_services (idx : nat) (seen : services_seen) (services : list string) : services_seen :=
  match services with
  | [] => seen
  | service :: rest =>
      if String.eqb service "" then note_services idx seen rest
      else
        let '(unique, warnings) := seen in
        match unique !! service with
        | Some oldIdx =>
            note_services idx (unique, warnings ++ ["service '" +:+ service +:+ "' at positions "
              +:+ itoa (Z.of_nat oldIdx) +:+ " and " +:+ itoa (Z.of_nat idx)]) rest
        | None => note_services idx (<[service := idx]> unique, warnings) rest
        end
  end.

Definition note_node (idx : nat) (seen : services_seen) (node : Node) : P services_seen :=
  let> conf := p_wrap ("failed to convert node to InjectionConf at index " +:+ itoa (Z.of_nat idx) +:+ ": ")
                 (p_lift (NodeToStruct node)) in
  let> services := p_wrap ("failed to get groundtruth from InjectionConf at index "
                           +:+ itoa (Z.of_nat idx) +:+ ": ") (p_lift (GroundtruthServices conf)) in
  p_ret (note_services idx seen services).

Definition warning_of (batchIndex : Z) (warnings : list string) : string :=
  match warnings with
  | [] => ""
  | _ => "Batch " +:+ itoa batchIndex +:+ " contains duplicate service injections: " +:+ join "; " warnings
  end.

(** *** Order of the nodes *)

(** The order of Go strings: bytewise, a prefix first. *)
Fixpoint chars_gtb (a b : list ascii) : bool :=
  match a, b with
  | [], _ => false
  | _ :: _, [] => true
  | x :: a', y :: b' =>
      if code y <? code x then true else if code x <? code y then false else chars_gtb a' b'
  end.
Definition str_gtb (a b : string) : bool := chars_gtb (chars a) (chars b).

(** The test of the inner loop. *)
Definition exchanged (a b : Node) : bool :=
  if Value b <? Value a then true
  else if Value a =? Value b then str_gtb (node_json a) (node_json b)
  else false.

(** The inner loop: [a] is at position [i], the list what follows it. *)
Fixpoint sweep (a : Node) (rest : list Node) : Node * list Node :=
  match rest with
  | [] => (a, [])
  | b :: rest =>
      if exchanged a b
      then let '(m, rest) := sweep b rest in (m, a :: rest)
      else let '(m, rest) := sweep a rest in (m, b :: rest)
  end.

(** The outer loop; [n] is the number of positions left. *)
Fixpoint sort_positions (n : nat) (l : list Node) : list Node :=
  match n, l with
  | Datatypes.S n, a :: rest => let '(m, rest) := sweep a rest in m :: sort_positions n rest
  | _, _ => l
  end.

Definition sortNodes (nodes : list Node) : list Node :=
  if (length nodes <=? 1)%nat then nodes else sort_positions (length nodes) nodes.

(** *** The two parsers *)

Definition parseBatchInjectionSpecs (pedestal : string) (batchIndex : Z) (specs : list Node)
  : P (injectionProcessItem * string) :=
  p_require (negb (length specs =? 0)%nat)
    ("empty fault injection batch at index " +:+ itoa batchIndex) ;;>
  let> maxDuration := p_fold (check_node pedestal) 0 0 specs in
  let> (_, warnings) := p_fold note_node 0 (∅, []) specs in
  p_ret (mkItem batchIndex maxDuration (sortNodes specs) [] 0, warning_of batchIndex warnings).

Definition check_guided (pedestal : string) (idx : nat) (state : Z * services_seen) (cfg : GuidedConfig)
  : P (Z * services_seen) :=
  let '(maxDuration, seen) := state in
  let at_ := itoa (Z.of_nat idx) in
  let> (conf, systemType) := p_wrap ("failed to build injection from guided config at index " +:+ at_ +:+ ": ")
                               (p_lift (BuildInjection cfg)) in
  p_require (String.eqb pedestal systemType)
    ("mismatched system type " +:+ systemType +:+ " for pedestal " +:+ pedestal +:+ " at index " +:+ at_) ;;>
  let maxDuration := Z.max (default 0 (cfg_Duration cfg)) maxDuration in
  let> services := p_wrap ("failed to get groundtruth from guided config at index " +:+ at_ +:+ ": ")
                     (p_lift (GroundtruthServices conf)) in
  p_ret (maxDuration, note_services idx seen services).

Definition parseBatchGuidedSpecs (pedestal : string) (batchIndex : Z) (configs : list GuidedConfig)
  : P (injectionProcessItem * string) :=
  p_require (negb (length configs =? 0)%nat)
    ("empty guided fault batch at index " +:+ itoa batchIndex) ;;>
  let> (maxDuration, (_, warnings)) := p_fold (check_guided pedestal) 0 (0, (∅, [])) configs in
  p_ret (mkItem batchIndex maxDuration [] configs 0, warning_of batchIndex warnings).

(** *** Duplicates *)

(** The engine configuration of an item, empty when it has none. *)
Definition engine_config (i : nat) (item : injectionProcessItem) : res string :=
  let marshalled := res_wrap ("failed to marshal engine config at batch index " +:+ itoa (Z.of_nat i) +:+ ": ") in
  if (0 <? length (guidedConfigs item))%nat then marshalled (guided_json (guidedConfigs item))
  else if (0 <? length (nodes item))%nat then marshalled (nodes_json (nodes item))
  else Ok "".

Fixpoint engine_configs (i : nat) (items : list injectionProcessItem) : res (list string) :=
  match items with
  | [] => Ok []
  | item :: rest =>
      let? key := engine_config i item in
      let? keys := engine_configs (Datatypes.S i) rest in
      Ok (key :: keys)
  end.

(** The positions kept, the keys seen and the indexes of the duplicates. *)
Fixpoint first_occurrences (i : nat) (seen : gset string) (items : list (string * injectionProcessItem))
  : list nat * gset string * list Z :=
  match items with
  | [] => ([], seen, [])
  | (key, item) :: rest =>
      if String.eqb key "" then
        let '(unique, seen, dup) := first_occurrences (Datatypes.S i) seen rest in (i :: unique, seen, dup)
      else if bool_decide (key ∈ seen) then
        let '(unique, seen, dup) := first_occurrences (Datatypes.S i) seen rest in
        (unique, seen, index item :: dup)
      else
        let '(unique, seen, dup) := first_occurrences (Datatypes.S i) ({[key]} ∪ seen) rest in
        (i :: unique, seen, dup)
  end.

Context (order : gset string -> list string).           (* of an iteration over a map *)
Context (listExistingEngineConfigs : list string -> res (list string)).
Context (now : nat -> Z).                                (* nanoseconds, at each position *)

(** One query for each hundred keys; [fuel] bounds the number of queries. *)
Fixpoint existing_configs (fuel : nat) (keys : list string) : res (gset string) :=
  match fuel, keys with
  | _, [] => Ok ∅
  | O, _ => Ok ∅
  | Datatypes.S fuel, _ =>
      let? existing := listExistingEngineConfigs (take 100 keys) in
      let? rest := existing_configs fuel (drop 100 keys) in
      Ok (list_to_set existing ∪ rest)
  end.

Definition scheduled (i : nat) (item : injectionProcessItem) : injectionProcessItem :=
  mkItem (index item) (faultDuration item) (nodes item) (guidedConfigs item)
    (now i + Z.of_nat i * 2 * 10 ^ 9).

(** The items that are new, and the indexes of those that are not. *)
Fixpoint keep_new (existed : gset string) (items : list (string * injectionProcessItem)) (unique : list nat)
  : list injectionProcessItem * list Z :=
  match unique with
  | [] => ([], [])
  | i :: rest =>
      let '(out, old) := keep_new existed items rest in
      match items !! i with
      | Some (key, item) =>
          if negb (String.eqb key "") && bool_decide (key ∈ existed) then (out, index item :: old)
          else (scheduled i item :: out, old)
      | None => (out, old)
      end
  end.

Definition removeDuplicated (items : list injectionProcessItem)
  : res (list injectionProcessItem * list Z * list Z) :=
  let? keys := engine_configs 0 items in
  let keyed := zip keys items in
  let '(unique, seen, duplicatedInRequest) := first_occurrences 0 ∅ keyed in
  let? existed := existing_configs (length (order seen)) (order seen) in
  let '(out, alreadyExisted) := keep_new existed keyed unique in
  Ok (out, duplicatedInRequest, alreadyExisted).
End Batch.
Arguments mkItem {H} _ _ _ _ _.

(** ** The order of strings and nodes *)

Lemma chars_gtb_irrefl a : chars_gtb a a = false.
Proof. induction a as [|x a IH]; simpl; [done|]. by rewrite Z.ltb_irrefl. Qed.

Lemma chars_gtb_trans a b c : chars_gtb a b = true -> chars_gtb b c = true -> chars_gtb a c = true.
Proof.
  revert b c. induction a as [|x a IH]; intros [|y b] [|z c]; simpl; try done.
  destruct (Z.ltb_spec (code y) (code x)), (Z.ltb_spec (code x) (code y)),
    (Z.ltb_spec (code z) (code y)), (Z.ltb_spec (code y) (code z)),
    (Z.ltb_spec (code z) (code x)), (Z.ltb_spec (code x) (code z)); try done; try lia. apply IH.
Qed.

Lemma char_code_inj x y : code x = code y -> x = y.
Proof. unfold code. intros Hx. rewrite <- (ascii_N_embedding x), <- (ascii_N_embedding y). f_equal. lia. Qed.

Lemma chars_gtb_total a b : chars_gtb a b = false -> chars_gtb b a = false -> a = b.
Proof.
  revert b. induction a as [|x a IH]; intros [|y b]; simpl; try done.
  destruct (Z.ltb_spec (code y) (code x)), (Z.ltb_spec (code x) (code y)); try done.
  intros H1 H2. f_equal; [apply char_code_inj; lia|by apply IH].
Qed.

Lemma str_gtb_total a b : str_gtb a b = false -> str_gtb b a = false -> a = b.
Proof. intros H1 H2. apply chars_inj. by apply chars_gtb_total. Qed.

Section Sorting.
Context `{ChaosLib}.

(** What the loop leaves in place. *)
Definition node_le (a b : Node) : Prop := exchanged a b = false.

Lemma exchanged_asym a b : exchanged a b = true -> node_le b a.
Proof.
  unfold node_le, exchanged. destruct (Z.ltb_spec (Value b) (Value a)), (Z.ltb_spec (Value a) (Value b)),
    (Z.eqb_spec (Value a) (Value b)), (Z.eqb_spec (Value b) (Value a)); try done; try lia.
  intros Hx1. destruct (str_gtb (node_json b) (node_json a)) eqn:Hx2; [|done].
  assert (Hx := chars_gtb_trans _ _ _ Hx1 Hx2). by rewrite chars_gtb_irrefl in Hx.
Qed.

#[export] Instance node_le_trans : Transitive node_le.
Proof.
  intros a b c. unfold node_le, exchanged.
  destruct (Z.ltb_spec (Value b) (Value a)), (Z.eqb_spec (Value a) (Value b)),
    (Z.ltb_spec (Value c) (Value b)), (Z.eqb_spec (Value b) (Value c)),
    (Z.ltb_spec (Value c) (Value a)), (Z.eqb_spec (Value a) (Value c)); try done; try lia.
  unfold str_gtb. set (x := chars (node_json a)); set (y := chars (node_json b)); set (z := chars (node_json c)).
  intros Hx1 Hx2. destruct (chars_gtb x z) eqn:Hx3; [|done]. destruct (chars_gtb y x) eqn:Hx4.
  - by rewrite (chars_gtb_trans _ _ _ Hx4 Hx3) in Hx2.
  - assert (x = y) as E by (by apply chars_gtb_total). by rewrite <- E, Hx3 in Hx2.
Qed.

Lemma sweep_spec a rest m rest' :
  sweep a rest = (m, rest') -> m :: rest' ≡ₚ a :: rest /\ node_le m a /\ Forall (node_le m) rest' /\
    length rest' = length rest.
Proof.
  revert a m rest'. induction rest as [|b rest IH]; intros a m rest'; cbn [sweep].
  { intros [= <- <-]. split_and!; try done. unfold node_le, exchanged. rewrite Z.ltb_irrefl, Z.eqb_refl.
    apply chars_gtb_irrefl. }
  destruct (exchanged a b) eqn:E.
  - destruct (sweep b rest) as [m1 r1] eqn:Es. intros [= <- <-].
    destruct (IH _ _ _ Es) as (Hp & Hm & Hf & Hl). apply exchanged_asym in E.
    assert (node_le m1 a) by (etrans; eassumption).
    split_and!; [|done|by constructor|by simpl; rewrite Hl]. rewrite Permutation_swap, Hp. done.
  - destruct (sweep a rest) as [m1 r1] eqn:Es. intros [= <- <-].
    destruct (IH _ _ _ Es) as (Hp & Hm & Hf & Hl).
    assert (node_le m1 b) by (by transitivity a).
    split_and!; [|done|by constructor|by simpl; rewrite Hl]. rewrite Permutation_swap, Hp. apply Permutation_swap.
Qed.

Lemma sort_positions_spec n l :
  (length l <= n)%nat -> sort_positions n l ≡ₚ l /\ StronglySorted node_le (sort_positions n l).
Proof.
  revert l. induction n as [|n IH]; intros [|a rest]; cbn [sort_positions length]; intros Hn; [by split; constructor|lia|by split; constructor|].
  destruct (sweep a rest) as [m rest'] eqn:Es. destruct (sweep_spec _ _ _ _ Es) as (Hp & _ & Hf & Hl).
  destruct (IH rest') as [Hp' Hs]; [lia|]. split; [by rewrite Hp'|].
  constructor; [done|]. by rewrite Hp'.
Qed.

Lemma sortNodes_sorted l : sortNodes l ≡ₚ l /\ StronglySorted node_le (sortNodes l).
Proof.
  unfold sortNodes. destruct (Nat.leb_spec (length l) 1) as [Hl|Hl]; [|by apply sort_positions_spec].
  split; [done|]. destruct l as [|a [|b l]]; [constructor|repeat constructor|simpl in Hl; lia].
Qed.

(** The order of the faults of a batch does not matter: two batches with the
    same nodes are sorted into the same list, as long as the JSON text tells the
    nodes apart. *)
Theorem sortNodes_canonical l1 l2 :
  l1 ≡ₚ l2 -> (forall a b, a ∈ l1 -> b ∈ l1 -> node_json a = node_json b -> a = b) ->
  sortNodes l1 = sortNodes l2 /\ sortNodes l1 ≡ₚ l1 /\ StronglySorted node_le (sortNodes l1).
Proof.
  intros Hl Hj. destruct (sortNodes_sorted l1) as [Hp1 Hs1], (sortNodes_sorted l2) as [Hp2 Hs2].
  split; [|done]. apply (StronglySorted_unique_strong node_le); try done; [|by rewrite Hp1, Hp2].
  intros a b Ha Hb Hab Hba. rewrite Hp1 in Ha. rewrite Hp2, <- Hl in Hb.
  apply Hj; [done..|]. unfold node_le, exchanged in Hab, Hba.
  destruct (Z.ltb_spec (Value b) (Value a)), (Z.ltb_spec (Value a) (Value b)),
    (Z.eqb_spec (Value a) (Value b)), (Z.eqb_spec (Value b) (Value a)); try done; try lia.
  by apply str_gtb_total.
Qed.
End Sorting.

(** ** Duplicates *)

Section Duplicates.
Context `{ChaosLib}.
Context (order : gset string -> list string) (listExisting : list string -> res (list string)) (now : nat -> Z).

(** One pass that says what becomes of each item. *)
Inductive verdict := Fresh | RepeatsRequest | InDatabase.

Definition judge_key (stored earlier : gset string) (key : string) : verdict :=
  if String.eqb key "" then Fresh
  else if bool_decide (key ∈ earlier) then RepeatsRequest
  else if bool_decide (key ∈ stored) then InDatabase
  else Fresh.

Fixpoint judge (stored earlier : gset string) (i : nat) (items : list (string * injectionProcessItem))
  : list (verdict * nat * injectionProcessItem) :=
  match items with
  | [] => []
  | (key, item) :: rest => (judge_key stored earlier key, i, item) :: judge stored ({[key]} ∪ earlier) (Datatypes.S i) rest
  end.

Definition kept_item (j : verdict * nat * injectionProcessItem) : option injectionProcessItem :=
  match j with (Fresh, i, item) => Some (scheduled now i item) | _ => None end.
Definition repeated_index (j : verdict * nat * injectionProcessItem) : option Z :=
  match j with (RepeatsRequest, _, item) => Some (index item) | _ => None end.
Definition stored_index (j : verdict * nat * injectionProcessItem) : option Z :=
  match j with (InDatabase, _, item) => Some (index item) | _ => None end.

Lemma judge_agree stored b1 b2 i items :
  (forall k, k <> "" -> k ∈ b1 <-> k ∈ b2) -> judge stored b1 i items = judge stored b2 i items.
Proof.
  revert i b1 b2. induction items as [|[k it] rest IH]; intros i b1 b2 Hb; simpl; [done|]. f_equal.
  - unfold judge_key. destruct (String.eqb_spec k ""); [done|]. rewrite (bool_decide_ext _ _ (Hb k ltac:(done))). done.
  - apply IH. intros k' Hk'. specialize (Hb k' Hk'). set_solver.
Qed.

Lemma first_occurrences_judge stored i seen items all unique seen' dup :
  first_occurrences i seen items = (unique, seen', dup) -> drop i all = items ->
  (forall k, k ∈ seen -> k <> "") ->
  omap repeated_index (judge stored seen i items) = dup /\
  keep_new now stored all unique =
    (omap kept_item (judge stored seen i items), omap stored_index (judge stored seen i items)) /\
  (forall k, k ∈ seen' <-> k ∈ seen \/ (k <> "" /\ k ∈ items.*1)).
Proof.
  revert i seen unique seen' dup. induction items as [|[key it] rest IH]; intros i seen unique seen' dup.
  { simpl. intros [= <- <- <-] _ _. split_and!; try done. set_solver. }
  intros Hf Hd Hne. assert (Hi : all !! i = Some (key, it)).
  { rewrite <- (Nat.add_0_r i), <- lookup_drop, Hd. done. }
  assert (Hrest : drop (Datatypes.S i) all = rest).
  { replace (Datatypes.S i) with (i + 1)%nat by lia. rewrite <- drop_drop, Hd. done. }
  cbn [first_occurrences] in Hf. cbn [judge]. unfold judge_key.
  destruct (String.eqb_spec key "") as [->|Hkey].
  - destruct (first_occurrences _ seen rest) as [[u s] d] eqn:Ef. injection Hf as <- <- <-.
    rewrite (judge_agree stored ({[""]} ∪ seen) seen) by set_solver.
    destruct (IH _ _ _ _ _ Ef Hrest Hne) as (Hr & Hk & Hs). split; [exact Hr|]. split.
    + cbn [keep_new]. by rewrite Hk, Hi.
    + intros k. rewrite Hs. set_solver.
  - case_bool_decide as Hin.
    + destruct (first_occurrences _ seen rest) as [[u s] d] eqn:Ef. injection Hf as <- <- <-.
      rewrite (judge_agree stored ({[key]} ∪ seen) seen) by set_solver.
      destruct (IH _ _ _ _ _ Ef Hrest Hne) as (Hr & Hk & Hs). split; [exact (f_equal (cons _) Hr)|]. split; [exact Hk|].
      intros k. rewrite Hs. set_solver.
    + destruct (first_occurrences _ ({[key]} ∪ seen) rest) as [[u s] d] eqn:Ef. injection Hf as <- <- <-.
      destruct (IH _ _ _ _ _ Ef Hrest) as (Hr & Hk & Hs); [set_solver|]. split; [|split].
      * case_bool_decide; exact Hr.
      * cbn [keep_new]. rewrite Hk, Hi. destruct (String.eqb_spec key ""); [done|]. by case_bool_decide.
      * intros k. rewrite Hs. set_solver.
Qed.

(** The queries find what is stored of the keys, whatever their number. *)
Definition answers (stored : gset string) : Prop :=
  forall ks, exists l, listExisting ks = Ok l /\ forall k, k ∈ l <-> k ∈ ks /\ k ∈ stored.

Lemma existing_configs_spec (stored : gset string) fuel keys :
  answers stored ->
  (length keys <= fuel)%nat ->
  exists e : gset string, existing_configs listExisting fuel keys = Ok e /\ forall k, k ∈ e <-> k ∈ keys /\ k ∈ stored.
Proof.
  intros Hq. revert keys. induction fuel as [|fuel IH]; intros keys Hl.
  { destruct keys; [|simpl in Hl; lia]. exists ∅. split; [done|]. set_solver. }
  destruct keys as [|k0 ks]; [exists ∅; split; [done|]; set_solver|]. cbn [existing_configs].
  destruct (Hq (take 100 (k0 :: ks))) as (l & -> & Hin). cbn [res_bind].
  destruct (IH (drop 100 (k0 :: ks))) as (e & -> & He); [rewrite length_drop; simpl in *; lia|]. cbn [res_bind].
  eexists. split; [done|]. intros k. rewrite elem_of_union, elem_of_list_to_set, Hin, He.
  rewrite <- (take_drop 100 (k0 :: ks)) at 3. rewrite elem_of_app. tauto.
Qed.

Lemma judge_stored (e stored earlier : gset string) i items :
  (forall k, k ∈ items.*1 -> k <> "" -> k ∈ e <-> k ∈ stored) -> judge e earlier i items = judge stored earlier i items.
Proof.
  revert earlier i. induction items as [|[k it] rest IH]; intros earlier i He; simpl; [done|]. f_equal.
  - unfold judge_key. destruct (String.eqb_spec k ""); [done|].
    assert (k ∈ e <-> k ∈ stored) as Hk by (apply He; set_solver). by rewrite (bool_decide_ext _ _ Hk).
  - apply IH. intros k' Hk'. apply He. set_solver.
Qed.

(** The removal of duplicates, against a single pass over the batches: a batch
    whose configuration occurs earlier in the request is reported as such, one
    whose configuration is stored already is reported as such, every other one is
    kept, in order, two seconds per position apart.  Neither the order in which the
    keys are asked for nor their division into queries matters. *)
Theorem removeDuplicated_spec items keys (stored : gset string) :
  answers stored -> (forall s, order s ≡ₚ elements s) -> engine_configs 0 items = Ok keys ->
  removeDuplicated order listExisting now items =
    let js := judge stored ∅ 0 (zip keys items) in
    Ok (omap kept_item js, omap repeated_index js, omap stored_index js).
Proof.
  intros Hq Ho Hk. unfold removeDuplicated. rewrite Hk. cbn [res_bind].
  destruct (first_occurrences 0 ∅ (zip keys items)) as [[unique seen] dup] eqn:Ef.
  destruct (existing_configs_spec stored (length (order seen)) (order seen)) as (e & -> & He); [done..|].
  cbn [res_bind].
  destruct (first_occurrences_judge e _ _ _ (zip keys items) _ _ _ Ef) as (Hd & Hn & Hs); [done|set_solver|].
  rewrite Hn. rewrite <- Hd. rewrite (judge_stored e stored); [done|].
  intros k Hin Hne. rewrite He, Ho, elem_of_elements, Hs. set_solver.
Qed.

(** The configuration of a batch. *)
Definition config_of (item : injectionProcessItem) : string :=
  match engine_config 0 item with Ok k => k | Err _ => "" end.

Lemma engine_config_of i item k : engine_config i item = Ok k -> config_of item = k.
Proof.
  unfold config_of, engine_config. destruct (0 <? length (guidedConfigs item))%nat.
  - by destruct (guided_json _); [intros [= <-]|].
  - destruct (0 <? length (nodes item))%nat; [by destruct (nodes_json _); [intros [= <-]|]|by intros [= <-]].
Qed.

Lemma engine_configs_of i items keys :
  engine_configs i items = Ok keys -> keys = config_of <$> items.
Proof.
  revert i keys. induction items as [|it rest IH]; intros i keys; cbn [engine_configs]; [by intros [= <-]|].
  rewrite res_bind_ok. intros (k & Hk & Hr). apply res_bind_ok in Hr as (ks & Hr & [= <-]).
  cbn [fmap list_fmap]. by rewrite (engine_config_of _ _ _ Hk), (IH _ _ Hr).
Qed.

Lemma fresh_configs stored earlier i items k :
  k <> "" ->
  k ∈ (config_of <$> (omap kept_item (judge stored earlier i (zip (config_of <$> items) items)))) <->
  (k ∈ (config_of <$> items)) /\ (k ∉ earlier) /\ (k ∉ stored).
Proof.
  intros Hk. revert earlier i. induction items as [|it rest IH]; intros earlier i; [set_solver|].
  cbn [fmap list_fmap zip zip_with judge]. rewrite elem_of_cons. unfold judge_key.
  destruct (String.eqb_spec (config_of it) "") as [E|E].
  - cbn [omap list_omap kept_item fmap list_fmap]. change (config_of (scheduled now i it)) with (config_of it).
    rewrite elem_of_cons, IH, not_elem_of_union, not_elem_of_singleton. naive_solver congruence.
  - case_bool_decide as Hb; [|case_bool_decide as Hs]; cbn [omap list_omap kept_item fmap list_fmap].
    + rewrite IH, not_elem_of_union, not_elem_of_singleton. split; [naive_solver|].
      intros ([->|Hin] & Hnb & Hns); [done|]. split_and!; try done. by intros ->.
    + rewrite IH, not_elem_of_union, not_elem_of_singleton. split; [naive_solver|].
      intros ([->|Hin] & Hnb & Hns); [done|]. split_and!; try done. by intros ->.
    + change (config_of (scheduled now i it)) with (config_of it).
      rewrite elem_of_cons, IH, not_elem_of_union, not_elem_of_singleton.
      destruct (decide (k = config_of it)) as [->|Hne]; naive_solver.
Qed.

Lemma fresh_nodup stored earlier i items :
  NoDup (filter (fun k => k <> "") (config_of <$> (omap kept_item (judge stored earlier i (zip (config_of <$> items) items))))).
Proof.
  revert earlier i. induction items as [|it rest IH]; intros earlier i; [constructor|].
  cbn [fmap list_fmap zip zip_with judge]. unfold judge_key.
  destruct (String.eqb_spec (config_of it) "") as [E|E].
  - cbn [omap list_omap kept_item fmap list_fmap]. change (config_of (scheduled now i it)) with (config_of it).
    rewrite filter_cons_False by (by rewrite E; auto). apply IH.
  - case_bool_decide; [apply IH|]. case_bool_decide; [apply IH|].
    cbn [omap list_omap kept_item fmap list_fmap]. change (config_of (scheduled now i it)) with (config_of it).
    rewrite filter_cons_True by done. constructor; [|apply IH].
    rewrite list_elem_of_filter, fresh_configs by done. set_solver.
Qed.

(** What is left after the removal of duplicates: no two batches with the same
    configuration, none that is stored already, and for each configuration of the
    request that is not stored, a batch that has it. *)
Theorem kept_batches_are_new items (stored : gset string) out dup old :
  answers stored -> (forall s, order s ≡ₚ elements s) ->
  removeDuplicated order listExisting now items = Ok (out, dup, old) ->
  NoDup (filter (fun k => k <> "") (config_of <$> out)) /\
  forall k, k <> "" -> k ∈ (config_of <$> out) <-> k ∈ (config_of <$> items) /\ k ∉ stored.
Proof.
  intros Hq Ho Hr. destruct (engine_configs 0 items) as [keys|e] eqn:Ek.
  2:{ unfold removeDuplicated in Hr. by rewrite Ek in Hr. }
  rewrite (removeDuplicated_spec items keys stored Hq Ho Ek) in Hr. injection Hr as <- _ _.
  apply engine_configs_of in Ek as ->. split; [apply fresh_nodup|].
  intros k Hk. rewrite fresh_configs by done. set_solver.
Qed.
End Duplicates.

(** ** What a parsed batch says *)

Section Parsed.
Context `{ChaosLib}.

(** A node that passes the checks, with its duration. *)
Definition node_ok (pedestal : string) (spec : Node) (duration : Z) : Prop :=
  exists c d s, Children spec !! itoa (Value spec) = Some (Some c) /\ (3 <= size (Children c))%nat /\
    child c DurationNodeKey = Some d /\ Value d = duration /\
    child c SystemNodeKey = Some s /\ 0 <= Value s /\ AllSystemTypes !! Z.to_nat (Value s) = Some pedestal.

Lemma check_node_ok pedestal idx m spec m' :
  check_node pedestal idx m spec = Returns (Ok m') -> exists d, node_ok pedestal spec d /\ m' = Z.max d m.
Proof.
  unfold check_node, node_ok. destruct (Children spec !! _) as [oc|]; [|done].
  rewrite p_bind_ok. intros (c & Hc & Hx). apply p_get_ok in Hc as ->.
  apply p_bind_ok in Hx as (u & Hl & Hx). apply p_require_ok, Nat.leb_le in Hl.
  apply p_bind_ok in Hx as (d & Hd & Hx). apply p_get_ok in Hd.
  apply p_bind_ok in Hx as (s & Hs & Hx). apply p_get_ok in Hs.
  apply p_bind_ok in Hx as (sys & Hy & Hx). apply p_get_ok in Hy.
  apply p_bind_ok in Hx as (u' & Hp & Hx). apply p_require_ok, String.eqb_eq in Hp as <-. injection Hx as <-.
  destruct (Z.ltb_spec (Value s) 0) as [|Hv]; [done|]. exists (Value d). split; [|done].
  exists c, d, s. split_and!; done.
Qed.

(** The parts of a node that are read without a test: a missing or null child, a
    child with three or more children but no duration or no system, a system index
    out of the range of the registered systems.  These, and nothing else, make the
    checks of a node panic. *)
Theorem check_node_panics pedestal idx m spec :
  check_node pedestal idx m spec = Panics <->
  exists oc, Children spec !! itoa (Value spec) = Some oc /\
    (oc = None \/ exists c, oc = Some c /\ (3 <= size (Children c))%nat /\
      (child c DurationNodeKey = None \/ child c SystemNodeKey = None \/
       exists s, child c SystemNodeKey = Some s /\ (Value s < 0 \/ AllSystemTypes !! Z.to_nat (Value s) = None))).
Proof.
  unfold check_node. destruct (Children spec !! _) as [oc|]; [|split; [done|by intros (? & ? & _)]].
  destruct oc as [c|]; cbn [p_get p_bind p_ret]; [|split; [intros _; eauto|done]].
  unfold p_require. destruct (Nat.leb_spec 3 (size (Children c))) as [Hl|Hl]; cbn [p_bind p_ret p_err].
  2:{ split; [done|]. intros (oc & Hoc & [->|(c' & -> & ? & _)]); [done|]. injection Hoc as ->. lia. }
  destruct (child c DurationNodeKey) as [d|] eqn:Ed; cbn [p_get p_bind p_ret].
  2:{ split; [|done]. intros _. eexists. split; [done|]. right. exists c. eauto. }
  destruct (child c SystemNodeKey) as [s|] eqn:Es; cbn [p_get p_bind p_ret].
  2:{ split; [|done]. intros _. eexists. split; [done|]. right. exists c. eauto. }
  destruct (Z.ltb_spec (Value s) 0) as [Hv|Hv]; cbn [p_get p_bind p_ret].
  { split; [|done]. intros _. eexists. split; [done|]. right. exists c. eauto 10. }
  destruct (AllSystemTypes !! Z.to_nat (Value s)) as [sys|] eqn:Ey; cbn [p_get p_bind p_ret].
  2:{ split; [|done]. intros _. eexists. split; [done|]. right. exists c. eauto 10. }
  split; [by destruct (String.eqb pedestal sys)|].
  intros (oc & Hoc & [->|(c' & -> & _ & Hp)]); [done|]. injection Hoc as ->.
  destruct Hp as [?|[?|(s' & Hs' & [?|?])]]; congruence || (simplify_eq; lia).
Qed.

(** The positions of the services, and whether one occurs twice. *)
Lemma note_services_spec idx unique warnings services unique' warnings' seen :
  note_services idx (unique, warnings) services = (unique', warnings') ->
  (forall s, is_Some (unique !! s) <-> s ∈ seen) ->
  (forall s, is_Some (unique' !! s) <-> s ∈ seen ++ filter (fun x => x <> "") services) /\
  (warnings' = [] <-> warnings = [] /\ NoDup (filter (fun x => x <> "") services) /\
     forall s, s ∈ filter (fun x => x <> "") services -> s ∉ seen).
Proof.
  revert unique warnings seen. induction services as [|s rest IH]; intros unique warnings seen; cbn [note_services].
  { intros [= <- <-] Hs. rewrite app_nil_r. split; [done|]. split; [|tauto]. intros ->. split_and!; [done|constructor|].
    intros s Hin. by apply not_elem_of_nil in Hin. }
  destruct (String.eqb_spec s "") as [->|Hne].
  { intros Hx Hs. rewrite filter_cons_False by auto. exact (IH _ _ _ Hx Hs). }
  rewrite filter_cons_True by done. destruct (unique !! s) as [old|] eqn:Eu; intros Hx Hs.
  - assert (Hin : s ∈ seen) by (apply Hs; by eexists). destruct (IH _ _ seen Hx Hs) as [Hk Hw]. split.
    + intros x. rewrite Hk. set_solver.
    + rewrite Hw. split; [intros (Hn & _); by destruct warnings|]. intros (_ & _ & Hnew).
      exfalso. apply (Hnew s); [apply list_elem_of_here|done].
  - assert (Hnin : s ∉ seen) by (rewrite <- Hs, Eu; by intros []).
    destruct (IH _ _ (s :: seen) Hx) as [Hk Hw].
    { intros x. rewrite elem_of_cons, <- Hs. destruct (decide (x = s)) as [->|Hxs].
      - rewrite lookup_insert_eq. split; [by left|by eexists].
      - rewrite lookup_insert_ne by done. split; [by right|]. by intros [|]. }
    split; [intros x; rewrite Hk; set_solver|]. rewrite Hw, NoDup_cons. split.
    + intros (-> & Hnd & Hnew). split_and!; try done.
      * intros Hin. apply (Hnew s Hin). apply list_elem_of_here.
      * intros x [->|Hin]%elem_of_cons; [done|]. specialize (Hnew x Hin). set_solver.
    + intros (-> & [Hns Hnd] & Hnew). split_and!; try done. intros x Hin. specialize (Hnew x). set_solver.
Qed.

Definition services_of (node : Node) : list string :=
  match NodeToStruct node with
  | Ok conf => match GroundtruthServices conf with Ok s => filter (fun x => x <> "") s | Err _ => [] end
  | Err _ => []
  end.

Lemma note_nodes_spec idx unique warnings specs unique' warnings' (seen : list string) :
  p_fold note_node idx (unique, warnings) specs = Returns (Ok (unique', warnings')) ->
  (forall s, is_Some (unique !! s) <-> s ∈ seen) ->
  (warnings' = [] <-> warnings = [] /\ NoDup (specs ≫= services_of) /\
     forall s, s ∈ (specs ≫= services_of) -> s ∉ seen).
Proof.
  revert idx unique warnings seen. induction specs as [|node rest IH]; intros idx unique warnings seen; cbn [p_fold].
  { intros [= <- <-] _. split; [|tauto]. intros ->. split_and!; [done|constructor|]. intros s Hs. by apply not_elem_of_nil in Hs. }
  rewrite p_bind_ok. intros ([u w] & Hn & Hx) Hs. unfold note_node in Hn.
  apply p_bind_ok in Hn as (conf & Hc & Hn). apply p_wrap_ok in Hc. injection Hc as Hc.
  apply p_bind_ok in Hn as (services & Hg & Hn). apply p_wrap_ok in Hg. injection Hg as Hg. injection Hn as Hn.
  assert (Hso : services_of node = filter (fun x => x <> "") services) by (unfold services_of; by rewrite Hc, Hg).
  destruct (note_services_spec _ _ _ _ _ _ _ Hn Hs) as [Hk Hw].
  rewrite (IH _ _ _ _ Hx Hk), Hw, <- Hso. cbn [mbind list_bind]. rewrite NoDup_app. set_solver.
Qed.

Lemma check_nodes_spec pedestal idx m specs m' :
  p_fold (check_node pedestal) idx m specs = Returns (Ok m') ->
  exists ds, Forall2 (node_ok pedestal) specs ds /\ m' = foldr Z.max m ds.
Proof.
  revert idx m. induction specs as [|spec rest IH]; intros idx m; cbn [p_fold]; [intros [= <-]; by exists []|].
  rewrite p_bind_ok. intros (m1 & Hc & Hx). apply check_node_ok in Hc as (d & Hd & ->).
  destruct (IH _ _ Hx) as (ds & Hf & ->). exists (d :: ds). split; [by constructor|]. simpl. clear.
  induction ds as [|x ds IH]; simpl; [done|]. rewrite IH. lia.
Qed.

(** A batch of nodes that is accepted: it is not empty, every node has a duration
    and belongs to the system of the pedestal, the batch lasts as long as its
    longest fault, its nodes are those of the request, and there is a warning
    exactly when some service is hit more than once. *)
Theorem parseBatchInjectionSpecs_spec pedestal i specs item warning :
  parseBatchInjectionSpecs pedestal i specs = Returns (Ok (item, warning)) ->
  specs <> [] /\ index item = i /\ guidedConfigs item = [] /\ nodes item ≡ₚ specs /\
  (exists ds, Forall2 (node_ok pedestal) specs ds /\ faultDuration item = foldr Z.max 0 ds) /\
  (warning = "" <-> NoDup (specs ≫= services_of)).
Proof.
  unfold parseBatchInjectionSpecs. rewrite p_bind_ok. intros (u & Hl & Hx). apply p_require_ok in Hl.
  apply p_bind_ok in Hx as (m & Hm & Hx). apply p_bind_ok in Hx as ([u' w] & Hw & Hx). injection Hx as <- <-.
  cbn [index guidedConfigs nodes faultDuration].
  split; [by destruct specs|]. split; [done|]. split; [done|]. split; [apply sortNodes_sorted|].
  split; [by eapply check_nodes_spec|].
  assert (Hw' : w = [] <-> NoDup (specs ≫= services_of)).
  { rewrite (note_nodes_spec _ _ _ _ _ _ [] Hw); [set_solver|].
    intros s. rewrite lookup_empty. split; [by intros []|]. intros Hs. by apply not_elem_of_nil in Hs. }
  rewrite <- Hw'. unfold warning_of. by destruct w.
Qed.
End Parsed.

(** ** A concrete library *)

Module SpecSample.
(** A guided configuration is a text and a duration; its services are its text. *)
#[global] Instance sample_lib : ChaosLib := {
  GuidedConfig := string * Z;
  InjectionConf := string;
  NodeToStruct := fun n => Ok (itoa (Value n));
  GroundtruthServices := fun c => Ok [c];
  BuildInjection := fun c => Ok (fst c, "ts");
  cfg_Duration := fun c => Some (snd c);
  AllSystemTypes := ["ts"; "hs"];
  ChaosTypeMap := [(0, "PodKill"); (4, "CPUStress")];
  SpecFields := fun t => if t =? 4 then Some ["Duration"; "Namespace"; "ContainerIdx"; "CPULoad"; "NamespaceTarget"] else None;
  node_json := fun n => itoa (Value n);
  nodes_json := fun l => Ok (join "," (map (fun n => itoa (Value n)) l));
  guided_json := fun l => Ok (join "," (map fst l))
}.

Definition leaf (v : Z) : Node := mkNode v ∅.
Definition fault (ty duration : Z) : Node :=
  mkNode ty {[itoa ty := Some (mkNode 0 {["0" := Some (leaf duration); "1" := Some (leaf 0); "2" := Some (leaf 3)]})]}.
(** Three children, none of them the duration. *)
Definition headless : Node :=
  mkNode 4 {["4" := Some (mkNode 0 {["1" := Some (leaf 0); "2" := Some (leaf 0); "3" := Some (leaf 0)]})]}.

(** The duration, the types of the faults in order, and the warning. *)
Definition summary (r : P (injectionProcessItem * string)) : option (Z * list Z * string) :=
  match r with Returns (Ok (it, w)) => Some (faultDuration it, Value <$> nodes it, w) | _ => None end.

Example two_faults : summary (parseBatchInjectionSpecs "ts" 0 [fault 4 5; fault 0 7]) = Some (7, [0; 4], "").
Proof. vm_compute. reflexivity. Qed.
Example same_service_twice :
  summary (parseBatchInjectionSpecs "ts" 2 [fault 4 5; fault 4 7]) =
    Some (7, [4; 4], "Batch 2 contains duplicate service injections: service '4' at positions 0 and 1").
Proof. vm_compute. reflexivity. Qed.
Example headless_panics :
  match parseBatchInjectionSpecs "ts" 0 [headless] with Panics => true | Returns _ => false end = true.
Proof. vm_compute. reflexivity. Qed.

Definition batches : list injectionProcessItem :=
  [mkItem 0 5 [fault 4 5] [] 0; mkItem 1 5 [fault 4 5] [] 0; mkItem 2 5 [fault 0 5] [] 0].
Definition stored_zero (ks : list string) : res (list string) := Ok (filter (fun k => k = "0") ks).

Lemma answers_zero : answers stored_zero {["0"]}.
Proof. intros ks. eexists. split; [done|]. intros k. rewrite list_elem_of_filter, elem_of_singleton. tauto. Qed.

Definition kept (r : res (list injectionProcessItem * list Z * list Z)) : option (list Z * list Z * list Z) :=
  match r with Ok (out, dup, old) => Some (index <$> out, dup, old) | Err _ => None end.
Example three_batches : kept (removeDuplicated elements stored_zero (fun _ => 0) batches) = Some ([0], [1], [2]).
Proof. vm_compute. reflexivity. Qed.

Lemma kept_batches_are_new_witness :
  exists out dup old, removeDuplicated elements stored_zero (fun _ => 0) batches = Ok (out, dup, old) /\
    NoDup (filter (fun k => k <> "") (config_of <$> out)).
Proof.
  destruct (removeDuplicated elements stored_zero (fun _ => 0) batches) as [[[out dup] old]|e] eqn:E.
  - exists out, dup, old. split; [reflexivity|].
    exact (proj1 (kept_batches_are_new elements stored_zero (fun _ => 0) batches {["0"]} out dup old
      answers_zero (fun s => reflexivity _) E)).
  - exfalso. assert (Hk := three_batches). rewrite E in Hk. discriminate Hk.
Defined.

Lemma sortNodes_canonical_witness : sortNodes [fault 4 5; fault 0 7] = sortNodes [fault 0 7; fault 4 5].
Proof.
  apply (sortNodes_canonical [fault 4 5; fault 0 7] [fault 0 7; fault 4 5]); [apply Permutation_swap|].
  intros a b Ha Hb. apply elem_of_cons in Ha as [->|Ha]; [|apply list_elem_of_singleton in Ha as ->];
    (apply elem_of_cons in Hb as [->|Hb]; [|apply list_elem_of_singleton in Hb as ->]); done.
Defined.

Lemma parseBatchInjectionSpecs_spec_witness : NoDup ([fault 4 5; fault 0 7] ≫= services_of).
Proof.
  assert (Hs := two_faults).
  destruct (parseBatchInjectionSpecs "ts" 0 [fault 4 5; fault 0 7]) as [[[it w]|e]|] eqn:E; try discriminate Hs.
  injection Hs as _ _ ->.
  destruct (parseBatchInjectionSpecs_spec "ts" 0 _ _ _ E) as (_ & _ & _ & _ & _ & Hw). apply Hw. reflexivity.
Defined.
End SpecSample.
