(* ===== verification/FriendlySpec.v ===== *)
(** * Friendly specifications, time ranges and the routing of a request
      ([module/injection/spec_convert.go], [time_range.go], [ResolveSpecs] of
      [api_types.go], [resolve.go])

    A friendly specification names a fault type, a duration, a namespace and a
    target; it is converted to a node of the chaos library, which [InjectionSpec]
    then checks.  A request is routed by the shape of its elements; a datapack or a
    dataset is resolved to datapacks in a state the task accepts. *)

From Stdlib Require Import QArith.
From S2P Require Import Prelude GoStrings Consts Task Partial GoTime InjectionSpec.
#[local] Open Scope Z_scope.

(** ** Conversion *)

Record FriendlyFaultSpec := mkFriendly {
  fs_Type : string; fs_Namespace : string; fs_Target : string; fs_Duration : string;
  fs_Params : list (string * value)      (* in the order of an iteration *)
}.

(** [%T] of a value. *)
Definition type_name (v : value) : string :=
  match v with
  | VNil => "<nil>" | VBool _ => "bool" | VInt _ => "int" | VFloat _ => "float64" | VStr _ => "string"
  | VList _ => "[]interface {}" | VMap _ => "map[string]interface {}"
  end.

(** [%q] of a text without characters to escape. *)
Definition quoted (s : string) : string := String "034" (s +:+ String "034" "").

Definition atoi_error (s : string) : string :=
  "strconv.Atoi: parsing " +:+ quoted s +:+ ": invalid syntax".

Definition toInt (v : value) : res Z :=
  match v with
  | VInt z => Ok z
  | VFloat q => Ok (int_of_float q)
  | VStr s => match atoi s with Some z => Ok z | None => Err (atoi_error s) end
  | _ => Err ("cannot convert " +:+ type_name v +:+ " to int")
  end.

Definition toSnakeCase (s : string) : string :=
  of_chars (concat (imap (fun i r =>
    if is_upper r then (if (0 <? i)%nat then ["_"%char] else []) ++ [lower_char r] else [r]) (chars s))).

(** [int(math.Ceil(d.Minutes()))], for a duration in nanoseconds. *)
Definition ceil_minutes (d : Z) : Z := - ((- d) / Minute).

Definition parseDurationToMinutes (duration : string) : res Z :=
  let unparsed := Err ("cannot parse duration " +:+ quoted duration +:+ ": expected Go duration (e.g., "
                       +:+ quoted "60s" +:+ ", " +:+ quoted "5m" +:+ ") or integer minutes") in
  if String.eqb duration "" then Err "duration is required"
  else
    match ParseDuration duration with
    | Some d => Ok (Z.max (ceil_minutes d) 1)
    | None =>
        match atoi duration with
        | Some mins =>
            if 0 <? mins then Ok mins
            else unparsed
        | None => unparsed
        end
    end.

(** A number is an index, everything else is zero. *)
Definition index_or_zero (s : string) : Z :=
  if String.eqb s "" then 0 else default 0 (atoi s).
Definition resolveNamespaceIndex (namespace : string) : res Z := Ok (index_or_zero namespace).
Definition resolveTargetIndex (target : string) : res Z := Ok (index_or_zero target).

Section Convert.
Context `{ChaosLib}.

(** The map built by [init]: the names and their lower case, later types override. *)
Definition chaosTypeNameToIndex : gmap string Z :=
  fold_left (fun m '(ct, name) => <[to_lower name := ct]> (<[name := ct]> m)) ChaosTypeMap ∅.

Definition lookup_type (name : string) : option Z :=
  match chaosTypeNameToIndex !! name with
  | Some i => Some i
  | None => chaosTypeNameToIndex !! to_lower name
  end.

(** The names under which the fields from the third on are known. *)
Fixpoint field_names (i : Z) (fields : list string) (m : gmap string Z) : gmap string Z :=
  match fields with
  | [] => m
  | f :: rest =>
      field_names (i + 1) rest
        (if String.eqb f "NamespaceTarget" then m
         else <[toSnakeCase f := i]> (<[to_lower f := i]> (<[f := i]> m)))
  end.

Fixpoint mapParamsToFieldIndices (nameToIdx : gmap string Z) (params : list (string * value))
    (children : gmap string (option Node)) : res (gmap string (option Node)) :=
  match params with
  | [] => Ok children
  | (key, val) :: rest =>
      match (match nameToIdx !! key with Some i => Some i | None => nameToIdx !! to_lower key end) with
      | None => mapParamsToFieldIndices nameToIdx rest children
      | Some idx =>
          let? intVal := res_wrap ("param " +:+ quoted key +:+ ": ") (toInt val) in
          mapParamsToFieldIndices nameToIdx rest (<[itoa idx := Some (mkNode intVal ∅)]> children)
      end
  end.

Definition FriendlySpecToNode (spec : FriendlyFaultSpec) : res Node :=
  if String.eqb (fs_Type spec) "" then Err "fault type is required"
  else
    match lookup_type (fs_Type spec) with
    | None => Err ("unknown fault type " +:+ quoted (fs_Type spec) +:+ ", available: [" +:+ join " " ChaosTypeMap.*2 +:+ "]")
    | Some typeIdx =>
        let? durationMinutes := res_wrap ("invalid duration " +:+ quoted (fs_Duration spec) +:+ ": ")
                                  (parseDurationToMinutes (fs_Duration spec)) in
        let? namespaceIdx := res_wrap ("failed to resolve namespace " +:+ quoted (fs_Namespace spec) +:+ ": ")
                               (resolveNamespaceIndex (fs_Namespace spec)) in
        let? targetIdx := res_wrap ("failed to resolve target " +:+ quoted (fs_Target spec) +:+ ": ")
                            (resolveTargetIndex (fs_Target spec)) in
        let children : gmap string (option Node) :=
          {["0" := Some (mkNode durationMinutes ∅); "1" := Some (mkNode namespaceIdx ∅);
            "2" := Some (mkNode targetIdx ∅)]} in
        let? children :=
          match fs_Params spec, SpecFields typeIdx with
          | _ :: _, Some fields =>
              res_wrap "failed to map params: "
                (mapParamsToFieldIndices (field_names 3 (drop 3 fields) ∅) (fs_Params spec) children)
          | _, _ => Ok children
          end in
        Ok (mkNode typeIdx {[itoa typeIdx := Some (mkNode 0 children)]})
    end.
End Convert.

(** ** Routing *)

Section Resolve.
Context `{ChaosLib} {raw : Type}.
(** How the JSON text of an element is read. *)
Record spec_codec := mkCodec {
  has_key : raw -> string -> res bool;            (* of the object, when it is one *)
  type_is_string : raw -> bool;
  as_guided : raw -> res GuidedConfig;
  as_friendly : raw -> res FriendlyFaultSpec;
  as_node : raw -> res Node
}.
Context (codec : spec_codec) (converter : FriendlyFaultSpec -> res Node).

Inductive resolved := ResolvedGuidedConfigs (g : list (list GuidedConfig)) | ResolvedSpecs (n : list (list Node)).

Definition position (i j : nat) : string :=
  "specs[" +:+ itoa (Z.of_nat i) +:+ "][" +:+ itoa (Z.of_nat j) +:+ "]: ".

(** The two counters over a batch, then over the batches. *)
Fixpoint count_batch (i j : nat) (counts : nat * nat) (batch : list raw) : res (nat * nat) :=
  match batch with
  | [] => Ok counts
  | r :: rest =>
      let? guided := res_wrap (position i j +:+ "invalid JSON: ") (has_key codec r "chaos_type") in
      let '(g, l) := counts in
      count_batch i (Datatypes.S j) (if (guided : bool) then (Datatypes.S g, l) else (g, Datatypes.S l)) rest
  end.
Fixpoint count_specs (i : nat) (counts : nat * nat) (specs : list (list raw)) : res (nat * nat) :=
  match specs with
  | [] => Ok counts
  | batch :: rest =>
      let? counts := count_batch i 0 counts batch in count_specs (Datatypes.S i) counts rest
  end.

(** [f] on every element, in order, with its position. *)
Fixpoint map_batch {A} (f : nat -> nat -> raw -> res A) (i j : nat) (batch : list raw) : res (list A) :=
  match batch with
  | [] => Ok []
  | r :: rest => let? a := f i j r in let? l := map_batch f i (Datatypes.S j) rest in Ok (a :: l)
  end.
Fixpoint map_specs {A} (f : nat -> nat -> raw -> res A) (i : nat) (specs : list (list raw)) : res (list (list A)) :=
  match specs with
  | [] => Ok []
  | b :: rest => let? a := map_batch f i 0 b in let? l := map_specs f (Datatypes.S i) rest in Ok (a :: l)
  end.

Definition guided_spec (i j : nat) (r : raw) : res GuidedConfig :=
  res_wrap (position i j +:+ "failed to parse guided config: ") (as_guided codec r).
Definition legacy_spec (i j : nat) (r : raw) : res Node :=
  let? typed := res_wrap (position i j +:+ "invalid JSON: ") (has_key codec r "type") in
  if (typed : bool) && type_is_string codec r then
    let? friendly := res_wrap (position i j +:+ "failed to parse friendly spec: ") (as_friendly codec r) in
    res_wrap (position i j +:+ "failed to convert friendly spec: ") (converter friendly)
  else res_wrap (position i j +:+ "failed to parse node spec: ") (as_node codec r).

Definition ResolveSpecs (specs : list (list raw)) : res resolved :=
  let? (guidedCount, legacyCount) := count_specs 0 (0, 0)%nat specs in
  if (0 <? guidedCount)%nat && (0 <? legacyCount)%nat then
    Err "specs mix guided (chaos_type) and legacy (type/value) entries; please submit them in separate requests"
  else if (0 <? guidedCount)%nat then let? g := map_specs guided_spec 0 specs in Ok (ResolvedGuidedConfigs g)
  else let? n := map_specs legacy_spec 0 specs in Ok (ResolvedSpecs n).
End Resolve.

(** ** Time ranges *)

Record TimeRangeQuery := mkRange { Lookback_ : string; CustomStartStr : string; CustomEndStr : string }.
(** Times and durations in nanoseconds; [None] is the zero time. *)
Record TimeFilterOptions := mkFilter {
  Lookback : Z; UseCustomRange : bool; CustomStartTime : Z; CustomEndTime : Z
}.

Definition parseLookbackDuration (lookback : string) : res Z :=
  if String.eqb lookback "" then Ok 0
  else
    match number_and_unit ["m"; "h"; "d"]%char lookback with
    | None => Err ("invalid duration format: " +:+ lookback +:+ " (expected format: 5m, 2h, 1d)")
    | Some (digits, u) =>
        match atoi digits with
        | None => Err ("invalid duration value: " +:+ digits)
        | Some value =>
            if value <=? 0 then Err ("duration value must be a positive integer: " +:+ digits)
            else Ok (wrap64 (value * (if Ascii.eqb u "m" then Minute else if Ascii.eqb u "h" then Hour else Day)))
        end
    end.

Section Range.
(** [time.Parse(time.RFC3339, s)]. *)
Context (parse_rfc3339 : string -> res Z).

Definition TimeRange_Convert (req : TimeRangeQuery) : res TimeFilterOptions :=
  if negb (String.eqb (Lookback_ req) "custom") then
    let? duration := res_wrap "invalid lookback value: " (parseLookbackDuration (Lookback_ req)) in
    Ok (mkFilter duration false 0 0)
  else
    let? customStart := res_wrap "invalid custom start time: " (parse_rfc3339 (CustomStartStr req)) in
    let? customEnd := res_wrap "invalid custom end time: " (parse_rfc3339 (CustomEndStr req)) in
    Ok (mkFilter 0 true customStart customEnd).

Definition TimeRange_Validate (req : TimeRangeQuery) : res unit :=
  if negb (String.eqb (Lookback_ req) "custom") then
    if is_ok (parseLookbackDuration (Lookback_ req)) then Ok tt
    else Err ("invalid lookback value: " +:+ Lookback_ req)
  else if String.eqb (CustomStartStr req) "" || String.eqb (CustomEndStr req) "" then
    Err "custom start and end times are required for custom lookback"
  else
    let? startTime := res_wrap "invalid custom start time: " (parse_rfc3339 (CustomStartStr req)) in
    let? endTime := res_wrap "invalid custom end time: " (parse_rfc3339 (CustomEndStr req)) in
    require (startTime <=? endTime) "custom start time cannot be after custom end time".

Definition GetTimeRange (now : Z) (opts : TimeFilterOptions) : option Z * Z :=
  if UseCustomRange opts then (Some (CustomStartTime opts), CustomEndTime opts)
  else if negb (Lookback opts =? 0) then (Some (now + wrap64 (- Lookback opts)), now)
  else (None, now).
End Range.

(** ** Datapacks of a request *)

Record Datapack := mkDatapack {
  dp_Name : string; dp_State : DatapackState; dp_Labels : list (string * string);
  dp_ID : Z; dp_PreDuration : Z; dp_StartTime : option Z; dp_EndTime : option Z
}.

Definition LabelKeyTag : string := "tag".
Definition DetectorNoAnomaly : string := "no_anomaly".

(** The states a task accepts. *)
Definition taskTypeDatapackStates (taskType : TaskType) : option (list DatapackState) :=
  match taskType with
  | TaskTypeBuildDatapack =>
      Some [DatapackInjectSuccess; DatapackBuildFailed; DatapackBuildSuccess; DatapackDetectorFailed;
            DatapackDetectorSuccess]
  | TaskTypeRunAlgorithm => Some [DatapackDetectorSuccess]
  | _ => None
  end.

Definition hasLabelKeyValue (labels : list (string * string)) (key val : string) : bool :=
  existsb (fun l => String.eqb (fst l) key && String.eqb (snd l) val) labels.

Definition validateDatapack (taskType : TaskType) (states : list DatapackState) (datapack : Datapack) : res unit :=
  require (bool_decide (dp_State datapack ∈ states))
    ("datapack " +:+ dp_Name datapack +:+ " is not in a valid state for execution") ;;?
  require (negb ((0 <? length (dp_Labels datapack))%nat && bool_decide (taskType = TaskTypeRunAlgorithm)
                 && hasLabelKeyValue (dp_Labels datapack) LabelKeyTag DetectorNoAnomaly))
    ("cannot execute detector algorithm on no_anomaly datapack: " +:+ dp_Name datapack).

Section Datapacks.
Context {DatasetRef : Type}.
(** The repositories: a datapack by name, the version of a dataset, its datapacks. *)
Context (findInjectionByName : string -> res Datapack).
Context (ResolveDatasetVersion : DatasetRef -> res (option Z)).
Context (ListInjectionsByDatasetVersionID : Z -> res (list Datapack)).

Definition ResolveDatapacks (datapackName : option string) (datasetRef : option DatasetRef) (taskType : TaskType)
  : res (list Datapack * option Z) :=
  let? states := or_error (taskTypeDatapackStates taskType)
                   ("unsupported task type: " +:+ GetTaskTypeName (enum_code taskType)) in
  match datapackName, datasetRef with
  | Some name, _ =>
      let? datapack := res_wrap "failed to get datapack: " (findInjectionByName name) in
      validateDatapack taskType states datapack ;;?
      Ok ([datapack], None)
  | None, Some ref =>
      let? version := res_wrap "failed to get dataset versions: " (ResolveDatasetVersion ref) in
      let? version := or_error version "dataset version not found" in
      let? datapacks := res_wrap "failed to get dataset datapacks: " (ListInjectionsByDatasetVersionID version) in
      require (negb (length datapacks =? 0)%nat) "dataset contains no datapacks" ;;?
      for_each (fun _ => validateDatapack taskType states) datapacks ;;?
      Ok (datapacks, Some version)
  | None, None => Err "either datapack or dataset must be specified"
  end.
End Datapacks.

(** ** Durations *)

Lemma ceil_minutes_spec d : (ceil_minutes d - 1) * Minute < d <= ceil_minutes d * Minute.
Proof.
  unfold ceil_minutes. assert (Hm : 0 < Minute) by (vm_compute; reflexivity).
  pose proof (Z.div_mod (- d) Minute ltac:(lia)). pose proof (Z.mod_pos_bound (- d) Minute Hm). lia.
Qed.

(** The duration of a fault in minutes.  What is accepted is at least one
    minute.  A Go duration is rounded up to the next minute, and one that is not
    positive is taken as one minute; a plain number is a number of minutes and must
    be positive. *)
Theorem parseDurationToMinutes_spec s n :
  parseDurationToMinutes s = Ok n ->
  1 <= n /\
  match ParseDuration s with
  | Some d => if 0 <? d then (n - 1) * Minute < d <= n * Minute else n = 1
  | None => atoi s = Some n
  end.
Proof.
  unfold parseDurationToMinutes. destruct (String.eqb s ""); [done|].
  destruct (ParseDuration s) as [d|].
  - intros [= <-]. split; [lia|]. pose proof (ceil_minutes_spec d) as Hc.
    assert (Hm : 0 < Minute) by (vm_compute; reflexivity). destruct (Z.ltb_spec 0 d); [|nia].
    rewrite Z.max_l by nia. exact Hc.
  - destruct (atoi s) as [m|]; [|done]. destruct (Z.ltb_spec 0 m); [|done]. intros [= <-]. split; [lia|done].
Qed.

(** ** From a friendly specification to a checked node *)

Section ConvertFacts.
Context `{ChaosLib}.

Lemma field_names_range i fields m name v :
  field_names i fields m !! name = Some v ->
  (i <= v < i + Z.of_nat (length fields)) \/ m !! name = Some v.
Proof.
  revert i m. induction fields as [|f rest IH]; intros i m; cbn [field_names length]; [by right|].
  intros Hl. apply IH in Hl as [Hr|Hm]; [left; lia|]. destruct (String.eqb f "NamespaceTarget"); [by right|].
  revert Hm. rewrite !lookup_insert_Some. intros [[_ <-]|[_ [[_ <-]|[_ [[_ <-]|[_ ?]]]]]]; [left; lia..|by right].
Qed.

Lemma mapParams_keeps nameToIdx params children children' k :
  mapParamsToFieldIndices nameToIdx params children = Ok children' ->
  (forall name v, nameToIdx !! name = Some v -> itoa v <> k) -> children' !! k = children !! k.
Proof.
  revert children. induction params as [|[key val] rest IH]; intros children; cbn [mapParamsToFieldIndices].
  { by intros [= <-]. }
  intros Hx Hk.
  destruct (match nameToIdx !! key with Some _ => _ | None => _ end) as [idx|] eqn:E; [|by apply IH].
  apply res_bind_ok in Hx as (v & _ & Hx). rewrite (IH _ Hx Hk). rewrite lookup_insert_ne; [done|].
  destruct (nameToIdx !! key) eqn:E1; [injection E as <-|]; by eapply Hk.
Qed.

Lemma mapParams_size nameToIdx params children children' :
  mapParamsToFieldIndices nameToIdx params children = Ok children' -> (size children <= size children')%nat.
Proof.
  revert children. induction params as [|[key val] rest IH]; intros children; cbn [mapParamsToFieldIndices].
  { intros [= <-]. done. }
  destruct (match nameToIdx !! key with Some _ => _ | None => _ end) as [idx|]; [|by apply IH].
  intros Hx. apply res_bind_ok in Hx as (v & _ & Hx). apply IH in Hx. etrans; [|exact Hx].
  destruct (children !! itoa idx) eqn:E; [rewrite map_size_insert_Some by (by eexists); done|].
  rewrite map_size_insert_None by done. lia.
Qed.

Lemma itoa_small_ne v k : 3 <= v <= max_int64 -> 0 <= k < 3 -> itoa v <> itoa k.
Proof.
  intros Hv Hk E. apply (f_equal atoi) in E.
  rewrite !atoi_itoa in E by (unfold min_int64, max_int64 in *; lia). injection E. lia.
Qed.

(** The shape of what the conversion returns. *)
Lemma FriendlySpecToNode_shape spec n :
  FriendlySpecToNode spec = Ok n ->
  (forall t fields, SpecFields t = Some fields -> Z.of_nat (length fields) <= 2 ^ 32) ->
  exists c d, Children n !! itoa (Value n) = Some (Some (mkNode 0 c)) /\ (3 <= size c)%nat /\
    parseDurationToMinutes (fs_Duration spec) = Ok d /\
    c !! "0" = Some (Some (mkNode d ∅)) /\
    c !! "1" = Some (Some (mkNode (index_or_zero (fs_Namespace spec)) ∅)) /\
    c !! "2" = Some (Some (mkNode (index_or_zero (fs_Target spec)) ∅)) /\
    lookup_type (fs_Type spec) = Some (Value n).
Proof.
  unfold FriendlySpecToNode. destruct (String.eqb _ ""); [done|]. destruct (lookup_type _) as [ty|]; [|done].
  intros Hx Hf. apply res_bind_ok in Hx as (d & Hd & Hx). apply res_bind_ok in Hx as (? & [= <-] & Hx).
  apply res_bind_ok in Hx as (? & [= <-] & Hx). apply res_bind_ok in Hx as (c & Hc & [= <-]).
  exists c, d. assert (Hd' : parseDurationToMinutes (fs_Duration spec) = Ok d).
  { revert Hd. by destruct (parseDurationToMinutes _); simpl. }
  cbn [Value Children]. rewrite lookup_singleton_eq.
  set (c0 := {["0" := Some (mkNode d ∅); "1" := _; "2" := _]}) in Hc.
  assert (Hkeep : (size c0 <= size c)%nat /\ forall k, 0 <= k < 3 -> c !! itoa k = c0 !! itoa k).
  { destruct (fs_Params spec) as [|p ps]; [by injection Hc as <-|].
    destruct (SpecFields ty) as [fields|] eqn:Ef; [|by injection Hc as <-].
    destruct (mapParamsToFieldIndices _ _ _) as [c'|e] eqn:Em; [|done]. injection Hc as <-.
    split; [by eapply mapParams_size|]. intros k Hk. eapply mapParams_keeps; [exact Em|].
    intros name v Hv. apply field_names_range in Hv as [Hv|Hv]; [|by rewrite lookup_empty in Hv].
    apply itoa_small_ne; [|done]. apply Hf in Ef. rewrite length_drop in Hv. unfold max_int64. lia. }
  destruct Hkeep as [Hsize Hkeep].
  split; [done|]. split; [etrans; [|exact Hsize]; vm_compute; lia|]. split; [done|].
  pose proof (Hkeep 0 ltac:(lia)) as K0. pose proof (Hkeep 1 ltac:(lia)) as K1. pose proof (Hkeep 2 ltac:(lia)) as K2.
  change (itoa 0) with "0" in K0. change (itoa 1) with "1" in K1. change (itoa 2) with "2" in K2.
  rewrite K0, K1, K2. done.
Qed.

(** A friendly specification that is converted, then checked against the
    pedestal.  What the conversion calls the namespace is what the check takes as
    the index of a system: a namespace that is a name always means the first
    system, one that is a number out of the range of the systems makes the check
    panic, and only a number in range can select another system. *)
Theorem friendly_then_checked spec n pedestal idx m :
  FriendlySpecToNode spec = Ok n ->
  (forall t fields, SpecFields t = Some fields -> Z.of_nat (length fields) <= 2 ^ 32) ->
  let i := index_or_zero (fs_Namespace spec) in
  match (if i <? 0 then None else AllSystemTypes !! Z.to_nat i) with
  | None => check_node pedestal idx m n = Panics
  | Some system =>
      if String.eqb pedestal system
      then exists d, parseDurationToMinutes (fs_Duration spec) = Ok d /\ check_node pedestal idx m n = Returns (Ok (Z.max d m))
      else exists e, check_node pedestal idx m n = Returns (Err e)
  end.
Proof.
  intros Hc Hf i. destruct (FriendlySpecToNode_shape _ _ Hc Hf) as (c & d & Hn & Hs & Hd & H0' & H1' & _ & _).
  unfold check_node. rewrite Hn. cbn [p_get p_bind p_ret Children]. apply Nat.leb_le in Hs. rewrite Hs.
  unfold child. cbn [Children]. unfold DurationNodeKey, SystemNodeKey. rewrite H0', H1'.
  cbn [mjoin option_join p_require p_bind p_ret p_get Value]. fold i.
  destruct (if i <? 0 then None else AllSystemTypes !! Z.to_nat i) as [system|]; [|done].
  cbn [p_get p_bind p_ret]. unfold p_require. destruct (String.eqb pedestal system); [by exists d|by eexists].
Qed.
End ConvertFacts.

(** ** Routing *)

Section ResolveFacts.
Context `{ChaosLib} {raw : Type} (codec : @spec_codec _ raw) (converter : FriendlyFaultSpec -> res Node).

Definition is_guided (r : raw) : Prop := has_key codec r "chaos_type" = Ok true.
Definition is_legacy (r : raw) : Prop := has_key codec r "chaos_type" = Ok false.

Lemma count_batch_spec i j counts batch counts' :
  count_batch codec i j counts batch = Ok counts' ->
  exists g l, counts' = (counts.1 + g, counts.2 + l)%nat /\ (g + l = length batch)%nat /\
    (l = 0%nat -> Forall is_guided batch) /\ (g = 0%nat -> Forall is_legacy batch).
Proof.
  revert j counts. induction batch as [|r rest IH]; intros j counts; cbn [count_batch].
  { intros [= <-]. exists 0%nat, 0%nat. rewrite !Nat.add_0_r. by destruct counts. }
  rewrite res_bind_ok. intros (b & Hb & Hx). destruct counts as [g0 l0].
  assert (Hr : has_key codec r "chaos_type" = Ok b) by (revert Hb; by destruct (has_key _ _ _)).
  destruct b; destruct (IH _ _ Hx) as (g & l & -> & Hl & Hg & Hn); cbn [fst snd].
  - exists (Datatypes.S g), l. split; [f_equal; lia|]. split; [simpl; lia|].
    split; [intros Hz; constructor; [done|by apply Hg]|done].
  - exists g, (Datatypes.S l). split; [f_equal; lia|]. split; [simpl; lia|].
    split; [done|intros Hz; constructor; [done|by apply Hn]].
Qed.

Lemma count_specs_spec i counts specs counts' :
  count_specs codec i counts specs = Ok counts' ->
  exists g l, counts' = (counts.1 + g, counts.2 + l)%nat /\
    (l = 0%nat -> Forall (Forall is_guided) specs) /\ (g = 0%nat -> Forall (Forall is_legacy) specs).
Proof.
  revert i counts. induction specs as [|b rest IH]; intros i counts; cbn [count_specs].
  { intros [= <-]. exists 0%nat, 0%nat. rewrite !Nat.add_0_r. by destruct counts. }
  rewrite res_bind_ok. intros (c & Hb & Hx). apply count_batch_spec in Hb as (g1 & l1 & -> & _ & Hg1 & Hn1).
  destruct (IH _ _ Hx) as (g2 & l2 & -> & Hg2 & Hn2). cbn [fst snd].
  exists (g1 + g2)%nat, (l1 + l2)%nat. split; [f_equal; lia|].
  split; intros Hz; constructor; (apply Hg1 || apply Hn1 || apply Hg2 || apply Hn2); lia.
Qed.

Lemma map_batch_spec {A} (f : nat -> nat -> raw -> res A) i j batch l :
  map_batch f i j batch = Ok l -> Forall2 (fun r a => exists j', f i j' r = Ok a) batch l.
Proof.
  revert j l. induction batch as [|r rest IH]; intros j l; cbn [map_batch]; [by intros [= <-]; constructor|].
  rewrite res_bind_ok. intros (a & Ha & Hx). apply res_bind_ok in Hx as (l' & Hl & [= <-]).
  constructor; [by eexists|by eapply IH].
Qed.
Lemma map_specs_spec {A} (f : nat -> nat -> raw -> res A) i specs l :
  map_specs f i specs = Ok l -> Forall2 (Forall2 (fun r a => exists i' j', f i' j' r = Ok a)) specs l.
Proof.
  revert i l. induction specs as [|b rest IH]; intros i l; cbn [map_specs]; [by intros [= <-]; constructor|].
  rewrite res_bind_ok. intros (a & Ha & Hx). apply res_bind_ok in Hx as (l' & Hl & [= <-]).
  constructor; [|by eapply IH]. eapply Forall2_impl; [by eapply map_batch_spec|]. naive_solver.
Qed.

(** How one element becomes a node. *)
Definition legacy_read (r : raw) (n : Node) : Prop :=
  (has_key codec r "type" = Ok true /\ type_is_string codec r = true /\
   exists f, as_friendly codec r = Ok f /\ converter f = Ok n) \/
  ((has_key codec r "type" = Ok false \/ type_is_string codec r = false) /\ as_node codec r = Ok n).

Lemma legacy_spec_read i j r n : legacy_spec codec converter i j r = Ok n -> legacy_read r n.
Proof.
  unfold legacy_spec, legacy_read. rewrite res_bind_ok. intros (b & Hb & Hx).
  assert (Hr : has_key codec r "type" = Ok b) by (revert Hb; by destruct (has_key _ _ _)).
  destruct (b && type_is_string codec r) eqn:E.
  - apply andb_true_iff in E as [-> Ht]. left. split; [done|]. split; [done|].
    apply res_bind_ok in Hx as (f & Hf & Hx). exists f.
    destruct (as_friendly codec r) as [f'|]; [|done]. injection Hf as <-.
    split; [done|]. by destruct (converter f'); [injection Hx as <-|].
  - right. split; [destruct b; [by right|by left]|].
    by destruct (as_node codec r); [injection Hx as <-|].
Qed.

(** A request that is routed is homogeneous: either every element has a chaos
    type and all are read as guided configurations, or none has and each is read as
    a friendly specification, when its type is a text, or as a node.  The batches
    and the positions in them are kept. *)
Theorem ResolveSpecs_spec specs r :
  ResolveSpecs codec converter specs = Ok r ->
  match r with
  | ResolvedGuidedConfigs g =>
      Forall (Forall is_guided) specs /\ Forall2 (Forall2 (fun e c => as_guided codec e = Ok c)) specs g
  | ResolvedSpecs n =>
      Forall (Forall is_legacy) specs /\ Forall2 (Forall2 legacy_read) specs n
  end.
Proof.
  unfold ResolveSpecs. rewrite res_bind_ok. intros ([g l] & Hc & Hx).
  apply count_specs_spec in Hc as (g' & l' & [= -> ->] & Hg & Hl). cbn [fst snd Nat.add] in *.
  destruct (Nat.ltb_spec 0 g') as [Hgp|Hgp], (Nat.ltb_spec 0 l') as [Hlp|Hlp]; cbn [andb] in Hx; try done.
  - apply res_bind_ok in Hx as (gs & Hm & [= <-]). split; [apply Hg; lia|].
    apply map_specs_spec in Hm. eapply Forall2_impl; [exact Hm|]. intros b c Hb.
    eapply Forall2_impl; [exact Hb|]. intros e cfg (i & j & He). unfold guided_spec in He.
    by destruct (as_guided codec e); [injection He as <-|].
  - apply res_bind_ok in Hx as (ns & Hm & [= <-]). split; [apply Hl; lia|].
    apply map_specs_spec in Hm. eapply Forall2_impl; [exact Hm|]. intros b c Hb.
    eapply Forall2_impl; [exact Hb|]. intros e n (i & j & He). by eapply legacy_spec_read.
  - apply res_bind_ok in Hx as (ns & Hm & [= <-]). split; [apply Hl; lia|].
    apply map_specs_spec in Hm. eapply Forall2_impl; [exact Hm|]. intros b c Hb.
    eapply Forall2_impl; [exact Hb|]. intros e n (i & j & He). by eapply legacy_spec_read.
Qed.
End ResolveFacts.

(** ** Time ranges *)

Section RangeFacts.
Context (parse_rfc3339 : string -> res Z).

Lemma parseLookback_bounds s d : parseLookbackDuration s = Ok d -> min_int64 <= d <= max_int64.
Proof.
  unfold parseLookbackDuration. destruct (String.eqb s ""); [intros [= <-]; unfold min_int64, max_int64; lia|].
  destruct (number_and_unit _ s) as [[ds u]|]; [|done]. destruct (atoi ds) as [v|]; [|done].
  destruct (v <=? 0); [done|]. intros [= <-]. apply wrap64_bounds.
Qed.

(** A time range that is valid can be converted, and the range it stands for
    ends at or after its start unless the lookback has overflowed: the number of
    units is not bounded, so that the product can wrap to a negative duration,
    whose range starts in the future. *)
Theorem valid_range_converts req now :
  TimeRange_Validate parse_rfc3339 req = Ok tt ->
  exists opts, TimeRange_Convert parse_rfc3339 req = Ok opts /\
    match GetTimeRange now opts with
    | (Some from, to) => from <= to <-> UseCustomRange opts = true \/ 0 <= Lookback opts \/ Lookback opts = min_int64
    | (None, to) => to = now
    end.
Proof.
  unfold TimeRange_Validate, TimeRange_Convert. destruct (negb (String.eqb (Lookback_ req) "custom")).
  - destruct (parseLookbackDuration (Lookback_ req)) as [d|e] eqn:E; [|done]. intros _. eexists. split; [done|].
    unfold GetTimeRange. cbn [UseCustomRange Lookback]. destruct (Z.eqb_spec d 0) as [->|Hd]; cbn [negb]; [done|].
    apply parseLookback_bounds in E. destruct (decide (d = min_int64)) as [->|Hmin].
    + assert (wrap64 (- min_int64) = min_int64) as -> by reflexivity. unfold min_int64. intuition lia.
    + rewrite wrap64_id by (unfold min_int64, max_int64 in *; lia).
      split; [intros; right; left; lia|]. intros [?|[?|?]]; [done|lia|done].
  - destruct (_ || _); [done|]. intros Hx. apply res_bind_ok in Hx as (st & Hs & Hx).
    apply res_bind_ok in Hx as (en & He & Hx). rewrite Hs. cbn [res_bind]. rewrite He. cbn [res_bind].
    eexists. split; [done|]. unfold GetTimeRange. cbn [UseCustomRange CustomStartTime CustomEndTime].
    unfold require in Hx. destruct (Z.leb_spec st en); [|done]. split; [by left|done].
Qed.
End RangeFacts.

Example lookback_wraps :
  parseLookbackDuration "200000d" = Ok (-1166744073709551616) /\
  GetTimeRange 0 (mkFilter (-1166744073709551616) false 0 0) = (Some 1166744073709551616, 0).
Proof. split; reflexivity. Qed.

(** ** Datapacks *)

Lemma for_each_in {A} (f : nat -> A -> res unit) l :
  for_each f l = Ok tt -> forall x, x ∈ l -> exists i, f i x = Ok tt.
Proof.
  unfold for_each. generalize 0%nat. induction l as [|y l IH]; intros i; cbn [for_each_from].
  { intros _ x Hx. by apply not_elem_of_nil in Hx. }
  rewrite res_bind_ok. intros ([] & Hy & Hl) x [->|Hx]%elem_of_cons; [by exists i|by eapply IH].
Qed.

(** The datapacks a request resolves to: at least one, each in a state the task
    accepts, and for an algorithm none that is labelled as free of anomalies; a
    name wins over a dataset. *)
Theorem ResolveDatapacks_spec {DatasetRef : Type} find resolve listVersions name (ref : option DatasetRef) taskType dps version :
  ResolveDatapacks find resolve listVersions name ref taskType = Ok (dps, version) ->
  exists states, taskTypeDatapackStates taskType = Some states /\ dps <> [] /\
    (forall d, d ∈ dps -> dp_State d ∈ states /\
       (taskType = TaskTypeRunAlgorithm -> (LabelKeyTag, DetectorNoAnomaly) ∉ dp_Labels d)) /\
    match name with
    | Some n => version = None /\ exists d, find n = Ok d /\ dps = [d]
    | None => exists r v, ref = Some r /\ resolve r = Ok (Some v) /\ version = Some v /\ listVersions v = Ok dps
    end.
Proof.
  unfold ResolveDatapacks. rewrite res_bind_ok. intros (states & Hs & Hx). exists states.
  assert (Hst : taskTypeDatapackStates taskType = Some states) by (by destruct (taskTypeDatapackStates _); [injection Hs as ->|]).
  split; [done|].
  assert (Hv : forall d, validateDatapack taskType states d = Ok tt -> dp_State d ∈ states /\
    (taskType = TaskTypeRunAlgorithm -> (LabelKeyTag, DetectorNoAnomaly) ∉ dp_Labels d)).
  { intros d. unfold validateDatapack, require. case_bool_decide as Hd; [|done]. cbn [res_bind].
    destruct (negb _) eqn:E; [|done]. intros _. split; [done|]. intros Ht Hin. apply negb_true_iff in E.
    rewrite bool_decide_true in E by done. rewrite andb_true_r in E. apply andb_false_iff in E as [E|E].
    - destruct (dp_Labels d); [by apply not_elem_of_nil in Hin|done].
    - assert (Ht' : hasLabelKeyValue (dp_Labels d) LabelKeyTag DetectorNoAnomaly = true); [|by rewrite Ht' in E].
      apply existsb_exists. exists (LabelKeyTag, DetectorNoAnomaly). split; [by apply list_elem_of_In|].
      by rewrite !String.eqb_refl. }
  destruct name as [n|].
  - apply res_bind_ok in Hx as (d & Hf & Hx). apply res_bind_ok in Hx as ([] & Hvd & [= <- <-]).
    assert (find n = Ok d) by (by destruct (find n); [injection Hf as ->|]).
    split; [done|]. split; [|split; [done|by exists d]]. intros d' ->%list_elem_of_singleton. by apply Hv.
  - destruct ref as [r|]; [|done].
    apply res_bind_ok in Hx as (ov & Hr & Hx). apply res_bind_ok in Hx as (v & Hov & Hx).
    apply res_bind_ok in Hx as (l & Hl & Hx). apply res_bind_ok in Hx as ([] & Hne & Hx).
    apply res_bind_ok in Hx as ([] & Hall & [= <- <-]).
    destruct ov as [v'|]; [injection Hov as ->|done].
    assert (resolve r = Ok (Some v)) by (by destruct (resolve r); [injection Hr as ->|]).
    assert (listVersions v = Ok l) by (by destruct (listVersions v); [injection Hl as ->|]).
    split; [by destruct l|]. split; [|by exists r, v]. intros d Hd. destruct (for_each_in _ _ Hall d Hd) as [_ Hok].
    by apply Hv.
Qed.

(** ** Concrete requests *)

Module FriendlySample.
Import SpecSample.

Definition stress (ns : string) : FriendlyFaultSpec :=
  mkFriendly "cpustress" ns "3" "90s" [("CPULoad", VFloat 80); ("unknown", VStr "x")].
(** The duration, the namespace, the target and the parameter of the converted node. *)
Definition parts (r : res Node) : option (Z * list (option Z)) :=
  match r with
  | Ok n => match mjoin (Children n !! itoa (Value n)) with
            | Some c => Some (Value n, (fun k => Value <$> child c k) <$> ["0"; "1"; "2"; "3"])
            | None => None
            end
  | Err _ => None
  end.
Example stress_converted : parts (FriendlySpecToNode (stress "exp")) = Some (4, [Some 2; Some 0; Some 3; Some 80]).
Proof. vm_compute. reflexivity. Qed.

Lemma sample_fields t fields : SpecFields t = Some fields -> Z.of_nat (length fields) <= 2 ^ 32.
Proof. simpl. destruct (t =? 4); [intros [= <-]; vm_compute; discriminate|done]. Qed.

(** A namespace that is a name, one that is out of range, one that is another
    system. *)
Definition checked (ns : string) : option bool :=
  match FriendlySpecToNode (stress ns) with
  | Ok n => match check_node "ts" 0 0 n with Returns r => Some (is_ok r) | Panics => None end
  | Err _ => Some false
  end.
Example checked_namespaces : checked <$> ["exp"; "7"; "1"] = [Some true; None; Some false].
Proof. vm_compute. reflexivity. Qed.

Example checked_seven : checked "7" = None.
Proof. vm_compute. reflexivity. Qed.

Lemma friendly_then_checked_witness :
  exists n, FriendlySpecToNode (stress "7") = Ok n /\ check_node "ts" 0 0 n = Panics.
Proof.
  destruct (FriendlySpecToNode (stress "7")) as [n|e] eqn:E.
  - exists n. split; [reflexivity|]. exact (friendly_then_checked (stress "7") n "ts" 0 0 E sample_fields).
  - exfalso. assert (H := checked_seven). unfold checked in H. rewrite E in H. discriminate H.
Defined.

Lemma parseDurationToMinutes_spec_witness : 1 <= 2 /\ (2 - 1) * Minute < 90 * Second <= 2 * Minute.
Proof. exact (parseDurationToMinutes_spec "90s" 2 eq_refl). Defined.
Example negative_duration : parseDurationToMinutes "-1h" = Ok 1. Proof. reflexivity. Qed.

(** Elements that are their own reading. *)
Inductive element := Guided (s : string) | Friendly (ns : string) | Plain (v : Z).
Definition codec : @spec_codec sample_lib element := {|
  has_key := fun r k => Ok (match r with
    | Guided _ => String.eqb k "chaos_type" | Friendly _ => String.eqb k "type" | Plain _ => false end);
  type_is_string := fun _ => true;
  as_guided := fun r => match r with Guided s => Ok (s, 1) | _ => Err "not guided" end;
  as_friendly := fun r => match r with Friendly ns => Ok (stress ns) | _ => Err "not friendly" end;
  as_node := fun r => match r with Plain v => Ok (leaf v) | _ => Err "not a node" end
|}.

Definition routed (r : res resolved) : option (nat * nat) :=
  match r with
  | Ok (ResolvedGuidedConfigs g) => Some (length (concat g), 0%nat)
  | Ok (ResolvedSpecs n) => Some (0%nat, length (concat n))
  | Err _ => None
  end.
Example routed_requests :
  routed <$> [ResolveSpecs codec FriendlySpecToNode [[Guided "a"; Guided "b"]; [Guided "c"]];
              ResolveSpecs codec FriendlySpecToNode [[Friendly "x"; Plain 3]];
              ResolveSpecs codec FriendlySpecToNode [[Guided "a"; Plain 3]]]
  = [Some (3, 0)%nat; Some (0, 2)%nat; None].
Proof. vm_compute. reflexivity. Qed.

Definition two_guided : list (list (@GuidedConfig sample_lib)) := [[("a", 1) : string * Z; ("b", 1) : string * Z]].
Lemma ResolveSpecs_spec_witness :
  exists r, ResolveSpecs codec FriendlySpecToNode [[Guided "a"; Guided "b"]] = Ok r /\
    match r with
    | ResolvedGuidedConfigs _ => Forall (Forall (is_guided codec)) [[Guided "a"; Guided "b"]]
    | ResolvedSpecs _ => False
    end.
Proof.
  exists (ResolvedGuidedConfigs two_guided). split; [reflexivity|].
  exact (proj1 (ResolveSpecs_spec codec FriendlySpecToNode [[Guided "a"; Guided "b"]]
    (ResolvedGuidedConfigs two_guided) eq_refl)).
Defined.

Lemma valid_range_converts_witness :
  exists opts, TimeRange_Convert (fun _ => Err "bad time") (mkRange "200000d" "" "") = Ok opts /\
    Lookback opts = -1166744073709551616.
Proof.
  destruct (valid_range_converts (fun _ => Err "bad time") (mkRange "200000d" "" "") 0 eq_refl) as (opts & Hc & _).
  exists opts. split; [exact Hc|]. injection Hc as <-. reflexivity.
Defined.

Lemma ResolveDatapacks_spec_witness :
  let dps := [mkDatapack "a" DatapackDetectorSuccess [("tag", "anomaly")] 1 4 (Some 0) (Some 60)] in
  ResolveDatapacks (DatasetRef:=unit) (fun _ => Err "none") (fun _ => Ok (Some 3)) (fun _ => Ok dps) None (Some tt)
    TaskTypeRunAlgorithm = Ok (dps, Some 3) /\ (LabelKeyTag, DetectorNoAnomaly) ∉ [("tag", "anomaly")].
Proof.
  intros dps. split; [reflexivity|].
  destruct (ResolveDatapacks_spec (DatasetRef:=unit) (fun _ => Err "none") (fun _ => Ok (Some 3)) (fun _ => Ok dps) None
    (Some tt) TaskTypeRunAlgorithm dps (Some 3) eq_refl) as (states & _ & _ & Hd & _).
  exact (proj2 (Hd (mkDatapack "a" DatapackDetectorSuccess [("tag", "anomaly")] 1 4 (Some 0) (Some 60)) (list_elem_of_here _ _)) eq_refl).
Defined.
End FriendlySample.
