(* ===== verification/Parameters.v ===== *)
(** * Parameters ([utils/string.go], [module/container/resolve.go])

    The parameters of a container version (environment variables) and of a chart
    (values): simple values and their texts, the check of keys, the rendering of
    templates over the fields of the version, and the list of items that a request's
    specs and the configured parameters give. *)

From Stdlib Require Import QArith.QArith_base.
From S2P Require Import Prelude GoStrings Consts Task Partial HelmValues.
#[local] Open Scope Z_scope.

(** ** Simple values and texts *)

(** [strconv.ParseFloat] and [strconv.FormatFloat]; a text that is no finite number has
    no value. *)
Class FloatText := {
  ParseFloat : string -> option Q;
  FormatFloat : Q -> string
}.

(** A finite number has a digit in its text. *)
Class FloatTextLaws `{FloatText} := {
  ParseFloat_digit s q : ParseFloat s = Some q -> any_char is_digit s = true
}.

(** [strconv.ParseBool] and [strconv.FormatBool]. *)
Definition ParseBool (s : string) : option bool :=
  if existsb (String.eqb s) ["1"; "t"; "T"; "TRUE"; "true"; "True"] then Some true
  else if existsb (String.eqb s) ["0"; "f"; "F"; "FALSE"; "false"; "False"] then Some false
  else None.
Definition FormatBool (b : bool) : string := if b then "true" else "false".

Section Texts.
Context `{FloatText}.

Definition ConvertSimpleTypeToString (a : value) : res string :=
  match a with
  | VStr v => Ok v
  | VInt v => Ok (itoa v)
  | VFloat v => Ok (FormatFloat v)
  | VBool v => Ok (FormatBool v)
  | VNil => Ok ""
  | VList _ | VMap _ => Err "unsupported type for conversion to string"
  end.

(** A digit after a leading zero. *)
Definition leading_zero (l : list ascii) : bool :=
  match l with
  | "0"%char :: c :: _ => is_digit c
  | "-"%char :: "0"%char :: c :: _ => is_digit c
  | _ => false
  end.

Definition ConvertStringToSimpleType (s : string) : value :=
  if String.eqb s "" then VStr s
  else if leading_zero (chars s) then VStr s
  else
    match atoi s with
    | Some i => VInt i
    | None =>
        match ParseFloat s with
        | Some f => VFloat f
        | None => match ParseBool s with Some b => VBool b | None => VStr s end
        end
    end.
End Texts.

(** ** Keys *)

(** [^[A-Z_][A-Z0-9_]*$], at most 128 bytes. *)
Definition env_var_chars (l : list ascii) : bool :=
  match l with
  | [] => false
  | c :: rest =>
      (is_upper c || Ascii.eqb c "_") &&
      forallb (fun c => is_upper c || is_digit c || Ascii.eqb c "_") rest
  end.
Definition IsValidEnvVar (envVar : string) : res unit :=
  if String.eqb envVar "" then Err "environment variable cannot be empty"
  else if 128 <? str_len envVar then Err "environment variable name too long (max 128 characters)"
  else if negb (env_var_chars (chars envVar)) then Err "environment variable contains invalid characters"
  else Ok tt.

(** The parts of the pattern of a chart's key between the dots: a name, then maybe
    digits in brackets. *)
Definition helm_name (s : string) : bool :=
  match chars s with
  | [] => false
  | c :: rest => (is_alpha c || Ascii.eqb c "_" || Ascii.eqb c "-") && forallb name_char rest
  end.
Definition helm_part (s : string) : bool :=
  match array_index s with
  | Some (name, _) => helm_name name
  | None => helm_name s
  end.
Definition IsValidHelmValueKey (key : string) : res unit :=
  if String.eqb key "" then Err "helm value key cannot be empty"
  else if negb (forallb helm_part (split "." key)) then Err "helm value key contains invalid characters"
  else Ok tt.

(** ** The configured parameters *)

Record ParameterConfig := mkParameterConfig {
  pc_ID : Z;
  pc_Key : string;
  pc_Type : Z;
  pc_Category : Z;
  pc_DefaultValue : option string;
  pc_TemplateString : option string;
  pc_Required : bool;
  pc_Overridable : bool
}.

(** The hook before a row is written. *)
Definition ParameterConfig_BeforeCreate (p : ParameterConfig) : res unit :=
  (if pc_Type p =? ParameterType_code ParameterTypeFixed then
     require (negb (pc_Required p && match pc_DefaultValue p with None => true | Some _ => false end))
       "default value is required for fixed parameters"
   else if pc_Type p =? ParameterType_code ParameterTypeDynamic then
     require (match pc_TemplateString p with None => false | Some t => negb (String.eqb t "") end)
       "template string is required for dynamic parameters"
   else Ok tt) ;;?
  (if pc_Category p =? ParameterCategory_code ParameterCategoryEnvVars then
     res_wrap "invalid environment variable key: " (IsValidEnvVar (pc_Key p))
   else if pc_Category p =? ParameterCategory_code ParameterCategoryHelmValues then
     res_wrap "invalid helm value key: " (IsValidHelmValueKey (pc_Key p))
   else Ok tt).

(** ** Templates *)

Definition var_char (c : ascii) : bool := is_alnum c || Ascii.eqb c "_".
(** [\s] of the regular expressions. *)
Definition re_space (c : ascii) : bool :=
  existsb (Ascii.eqb c) [" "%char; "009"%char; "010"%char; "012"%char; "013"%char].

Fixpoint span (p : ascii -> bool) (l : list ascii) : list ascii * list ascii :=
  match l with
  | c :: rest => if p c then let '(a, b) := span p rest in (c :: a, b) else ([], l)
  | [] => ([], [])
  end.

(** The pattern [{{\s*\.([a-zA-Z0-9_]+)\s*}}] at the start of a text: the name and the
    length of the match. *)
Definition template_at (l : list ascii) : option (string * nat) :=
  match l with
  | "{"%char :: "{"%char :: l1 =>
      let '(s1, l2) := span re_space l1 in
      match l2 with
      | "."%char :: l3 =>
          let '(name, l4) := span var_char l3 in
          let '(s2, l5) := span re_space l4 in
          match name, l5 with
          | _ :: _, "}"%char :: "}"%char :: _ =>
              Some (of_chars name, (2 + length s1 + 1 + length name + length s2 + 2)%nat)
          | _, _ => None
          end
      | _ => None
      end
  | _ => None
  end.

(** [FindAllStringSubmatch]: the matches from left to right, none inside another;
    [skip] characters belong to the last match. *)
Fixpoint template_scan (skip : nat) (l : list ascii) : list string :=
  match l with
  | [] => []
  | _ :: rest =>
      match skip with
      | S skip => template_scan skip rest
      | O =>
          match template_at l with
          | Some (name, n) => name :: template_scan (n - 1) rest
          | None => template_scan 0 rest
          end
      end
  end.
Definition extractTemplateVars (templateString : string) : list string :=
  template_scan 0 (chars templateString).

(** [strings.ReplaceAll] for a pattern that is not empty. *)
Fixpoint replace_scan (old new : list ascii) (skip : nat) (l : list ascii) : list ascii :=
  match l with
  | [] => []
  | c :: rest =>
      match skip with
      | S skip => replace_scan old new skip rest
      | O =>
          if prefix_chars old l then new ++ replace_scan old new (length old - 1) rest
          else c :: replace_scan old new 0 rest
      end
  end.
Definition ReplaceAll (s old new : string) : string :=
  of_chars (replace_scan (chars old) (chars new) 0 (chars s)).

(** The version a template is rendered over, with the fields that have a text. *)
Record ContainerVersion := mkVersion {
  cv_ID : Z;
  cv_Name : string;
  cv_NameMajor : Z;
  cv_NameMinor : Z;
  cv_NamePatch : Z;
  cv_GithubLink : string;
  cv_Registry : string;
  cv_Namespace : string;
  cv_Repository : string;
  cv_Tag : string;
  cv_Command : string;
  cv_Usage : Z;
  cv_ContainerID : Z;
  cv_UserID : Z;
  cv_Status : Z;
  cv_ActiveVersionKey : string
}.

(** [AfterFind] fills the image. *)
Definition ImageRef (c : ContainerVersion) : string :=
  if String.eqb (cv_Namespace c) "" then
    cv_Registry c +:+ "/" +:+ cv_Repository c +:+ ":" +:+ cv_Tag c
  else cv_Registry c +:+ "/" +:+ cv_Namespace c +:+ "/" +:+ cv_Repository c +:+ ":" +:+ cv_Tag c.

(** [FieldByName]: a field of type [string] or [int], one of another type, or none. *)
Inductive field :=
| FString (s : string)
| FInt (z : Z)
| FOther.
Definition FieldByName (c : ContainerVersion) (name : string) : option field :=
  let fields := [
    ("ID", FInt (cv_ID c)); ("Name", FString (cv_Name c));
    ("NameMajor", FInt (cv_NameMajor c)); ("NameMinor", FInt (cv_NameMinor c));
    ("NamePatch", FInt (cv_NamePatch c)); ("GithubLink", FString (cv_GithubLink c));
    ("Registry", FString (cv_Registry c)); ("Namespace", FString (cv_Namespace c));
    ("Repository", FString (cv_Repository c)); ("Tag", FString (cv_Tag c));
    ("Command", FString (cv_Command c)); ("Usage", FInt (cv_Usage c));
    ("ContainerID", FInt (cv_ContainerID c)); ("UserID", FInt (cv_UserID c));
    ("Status", FOther); ("CreatedAt", FOther); ("UpdatedAt", FOther);
    ("ActiveVersionKey", FString (cv_ActiveVersionKey c)); ("ImageRef", FString (ImageRef c));
    ("Container", FOther); ("User", FOther); ("HelmConfig", FOther); ("EnvVars", FOther)] in
  option_map snd (find (fun kf => String.eqb kf.1 name) fields).

Definition field_text (f : field) : res string :=
  match f with
  | FString s => Ok s
  | FInt z => Ok (itoa z)
  | FOther => Err "unsupported type for conversion to string"
  end.

Definition render_var (context : ContainerVersion) (rendered varName : string) : res string :=
  let? f := or_error (FieldByName context varName)
              ("variable '" +:+ varName +:+ "' not found in context structure") in
  let? strValue := res_wrap ("failed to convert context value for " +:+ varName +:+ ": ") (field_text f) in
  Ok (ReplaceAll
        (ReplaceAll rendered ("{{ ." +:+ varName +:+ " }}") strValue)
        ("{{." +:+ varName +:+ "}}") strValue).
Fixpoint render_vars (context : ContainerVersion) (rendered : string) (vars : list string) : res string :=
  match vars with
  | [] => Ok rendered
  | v :: rest => let? r := render_var context rendered v in render_vars context r rest
  end.
(** [renderTemplate]: a nil context has no type to look at. *)
Definition renderTemplate (templateStr : string) (vars : list string)
    (context : option ContainerVersion) : P string :=
  let> c := p_get context in p_lift (render_vars c templateStr vars).

(** ** Items *)

Record ParameterSpec := mkSpec { s_Key : string; s_Value : value }.

Section Items.
Context `{FloatText}.

(** [processParameterConfig]; an item or none. *)
Definition processParameterConfig (config : ParameterConfig) (userValue : value)
    (contextCfg : option ContainerVersion) : P (option ParameterItem) :=
  if pc_Type config =? ParameterType_code ParameterTypeFixed then
    match userValue with
    | VNil =>
        match pc_DefaultValue config with
        | None =>
            p_require (negb (pc_Required config))
              ("required fixed parameter " +:+ pc_Key config +:+ " is missing a value and has no default") ;;>
            p_ret (Some (mkParam (pc_Key config) VNil ""))
        | Some d => p_ret (Some (mkParam (pc_Key config) (ConvertStringToSimpleType d) ""))
        end
    | _ => p_ret (Some (mkParam (pc_Key config) userValue ""))
    end
  else if pc_Type config =? ParameterType_code ParameterTypeDynamic then
    let template := default "" (pc_TemplateString config) in
    p_require (negb (String.eqb template ""))
      ("dynamic parameter " +:+ pc_Key config +:+ " is missing a template string") ;;>
    match extractTemplateVars template with
    | [] => p_ret (Some (mkParam (pc_Key config) VNil template))
    | templateVars =>
        let> renderedValue :=
          p_wrap ("failed to render dynamic parameter " +:+ pc_Key config +:+ ": ")
            (renderTemplate template templateVars contextCfg) in
        p_require (negb (pc_Required config && String.eqb renderedValue ""))
          ("required dynamic parameter " +:+ pc_Key config +:+ " rendered to an empty string") ;;>
        p_ret (if negb (String.eqb renderedValue "")
               then Some (mkParam (pc_Key config) (VStr renderedValue) "") else None)
    end
  else p_err "unsupported parameter type".

Definition process_key (config : ParameterConfig) (userValue : value)
    (contextCfg : option ContainerVersion) : P (option ParameterItem) :=
  p_wrap ("failed to process parameter config for key " +:+ pc_Key config +:+ ": ")
    (processParameterConfig config userValue contextCfg).

Definition add_item (items : list ParameterItem) (item : option ParameterItem) : list ParameterItem :=
  items ++ match item with Some i => [i] | None => [] end.

(** The parameters as the map the code makes of them: the last one of a key. *)
Definition config_map (paramConfigs : list ParameterConfig) : gmap string ParameterConfig :=
  fold_left (fun m c => <[pc_Key c := c]> m) paramConfigs ∅.

Fixpoint items_of_specs (paramConfigMap : gmap string ParameterConfig) (contextCfg : option ContainerVersion)
    (items : list ParameterItem) (specs : list ParameterSpec) : P (list ParameterItem) :=
  match specs with
  | [] => p_ret items
  | spec :: rest =>
      let> config := p_lift (or_error (paramConfigMap !! s_Key spec)
                               ("configuration not found for key: " +:+ s_Key spec)) in
      let> item := process_key config (s_Value spec) contextCfg in
      items_of_specs paramConfigMap contextCfg (add_item items item) rest
  end.
Fixpoint items_of_rest (processed : gset string) (contextCfg : option ContainerVersion)
    (items : list ParameterItem) (configs : list ParameterConfig) : P (list ParameterItem) :=
  match configs with
  | [] => p_ret items
  | config :: rest =>
      if bool_decide (pc_Key config ∈ processed) then items_of_rest processed contextCfg items rest
      else
        let> item := process_key config VNil contextCfg in
        items_of_rest processed contextCfg (add_item items item) rest
  end.

(** [listParameterItemsWithDB]: [fetcher] is the query for the parameters of the
    version or of the chart. *)
Definition listParameterItemsWithDB (specs : list ParameterSpec)
    (fetcher : list string -> res (list ParameterConfig)) (contextCfg : option ContainerVersion)
  : P (list ParameterItem) :=
  let keys := map s_Key specs in
  let> paramConfigs := p_wrap "failed to list configurations: " (p_lift (fetcher keys)) in
  p_require (negb ((length paramConfigs =? 0)%nat && (0 <? length specs)%nat))
    "no configurations found for the provided specs" ;;>
  let paramConfigMap := config_map paramConfigs in
  let> items := items_of_specs paramConfigMap contextCfg [] specs in
  items_of_rest (list_to_set keys) contextCfg items (map_to_list paramConfigMap).*2.
End Items.

(** The queries: the parameters linked to a version or to a chart, those with one of
    the keys when there are keys. *)
Record Link := mkLink { l_Owner : Z; l_Param : Z }.
Definition linked (links : list Link) (owner : Z) (p : ParameterConfig) : bool :=
  existsb (fun l => (l_Owner l =? owner) && (l_Param l =? pc_ID p)) links.
Definition key_filter (keys : list string) (p : ParameterConfig) : bool :=
  match keys with [] => true | _ => existsb (String.eqb (pc_Key p)) keys end.
Definition listContainerVersionEnvVars (params : list ParameterConfig) (links : list Link)
    (containerVersionID : Z) (keys : list string) : list ParameterConfig :=
  filter (fun p => linked links containerVersionID p &&
                   (pc_Category p =? ParameterCategory_code ParameterCategoryEnvVars) &&
                   key_filter keys p) params.
Definition listHelmConfigValues (params : list ParameterConfig) (links : list Link)
    (helmConfigID : Z) (keys : list string) : list ParameterConfig :=
  filter (fun p => linked links helmConfigID p && key_filter keys p) params.

(** ** Values and their texts *)

Lemma pos_digits_lead fuel n acc :
  0 < n < 10 ^ Z.of_nat fuel ->
  exists m l, pos_digits fuel n acc = digit_char m :: l /\ 1 <= m <= 9.
Proof.
  revert n acc. induction fuel as [|fuel IH]; intros n acc Hn; [simpl in Hn; lia|].
  cbn [pos_digits]. rewrite Nat2Z.inj_succ, Z.pow_succ_r in Hn by lia.
  pose proof (Z.div_mod n 10 ltac:(lia)) as Hdm. pose proof (Z.mod_pos_bound n 10 ltac:(lia)) as Hm.
  destruct (n / 10 =? 0) eqn:E; bool_to_prop.
  - exists (n mod 10), acc. split; [done|lia].
  - apply IH. assert (0 <= n / 10) by (apply Z.div_pos; lia).
    assert (n / 10 < 10 ^ Z.of_nat fuel) by (apply Z.div_lt_upper_bound; lia). lia.
Qed.

Lemma digit_char_no_zero m l : 1 <= m <= 9 -> leading_zero (digit_char m :: l) = false.
Proof.
  intros H. assert (Hd : m = 1 \/ m = 2 \/ m = 3 \/ m = 4 \/ m = 5 \/ m = 6 \/ m = 7 \/ m = 8 \/ m = 9) by lia.
  repeat destruct Hd as [->|Hd]; subst; done.
Qed.

Lemma digit_char_neg_no_zero m l : 1 <= m <= 9 -> leading_zero ("-"%char :: digit_char m :: l) = false.
Proof.
  intros H. assert (Hd : m = 1 \/ m = 2 \/ m = 3 \/ m = 4 \/ m = 5 \/ m = 6 \/ m = 7 \/ m = 8 \/ m = 9) by lia.
  repeat destruct Hd as [->|Hd]; subst; done.
Qed.

Lemma itoa_no_leading_zero n : min_int64 <= n <= max_int64 -> leading_zero (chars (itoa n)) = false.
Proof.
  unfold min_int64, max_int64. intros Hn. unfold itoa. rewrite chars_of_chars.
  assert (Hb : 10 ^ Z.of_nat 20 = 100000000000000000000) by reflexivity.
  destruct (n <? 0) eqn:E; bool_to_prop.
  - destruct (pos_digits_lead 20 (- n) [] ltac:(lia)) as (m & l & -> & Hm). by apply digit_char_neg_no_zero.
  - destruct (decide (n = 0)) as [->|]; [done|].
    destruct (pos_digits_lead 20 n [] ltac:(lia)) as (m & l & -> & Hm). by apply digit_char_no_zero.
Qed.

Lemma itoa_nonempty n : min_int64 <= n <= max_int64 -> String.eqb (itoa n) "" = false.
Proof.
  intros Hn. destruct (String.eqb_spec (itoa n) "") as [E|]; [|done].
  pose proof (atoi_itoa n Hn) as H. by rewrite E in H.
Qed.

Lemma digits_val_digit acc l v :
  digits_val acc l = Some v -> Forall (fun c => is_digit c = true) l.
Proof.
  revert acc. induction l as [|c l IH]; intros acc H; [done|]. cbn [digits_val] in H.
  destruct (is_digit c) eqn:E; [|done]. constructor; [done|]. by eapply IH.
Qed.

Lemma atoi_digit s z : atoi s = Some z -> any_char is_digit s = true.
Proof.
  unfold atoi, any_char. intros H. apply existsb_elem.
  assert (Hl : exists l v, digits_val 0 l = Some v /\ l <> [] /\ l ⊆ chars s).
  { revert H. generalize (chars s) as l. intros l H.
    destruct l as [|c l]; [done|].
    assert (Hcase : (exists v, l <> [] /\ digits_val 0 l = Some v) \/ (exists v, digits_val 0 (c :: l) = Some v)).
    { destruct c as [[] [] [] [] [] [] [] []]; try (destruct (digits_val 0 (_ :: l)) eqn:E; eauto; done);
        destruct l as [|c' l]; try done; destruct (digits_val 0 (c' :: l)) eqn:E; eauto; done. }
    destruct Hcase as [(v & Hne & Hv)|(v & Hv)].
    - exists l, v. split; [done|]. split; [done|]. intros x Hx. by right.
    - exists (c :: l), v. by split. }
  destruct Hl as (l & v & Hv & Hne & Hsub). apply digits_val_digit in Hv.
  destruct l as [|c l]; [done|]. inversion Hv; subst. exists c. split; [apply Hsub; by left|done].
Qed.

(** The values whose texts are read back. *)
Definition readable (v : value) : bool :=
  match v with
  | VInt z => in_int64 z
  | VBool _ => true
  | VStr s => leading_zero (chars s) ||
      (negb (any_char is_digit s) && match ParseBool s with None => true | Some _ => false end)
  | _ => false
  end.

(** The texts of simple values: an integer of the machine, a boolean, and a text
    that keeps a leading zero or has no digit and names no boolean, are read back from
    the text they are written as. *)
Theorem simple_text_roundtrip `{FloatTextLaws} v s :
  readable v = true -> ConvertSimpleTypeToString v = Ok s -> ConvertStringToSimpleType s = v.
Proof.
  intros Hr Hs.
  assert (Hnofloat : forall t, any_char is_digit t = false -> ParseFloat t = None).
  { intros t Ht. destruct (ParseFloat t) eqn:E; [|done]. apply ParseFloat_digit in E. congruence. }
  assert (Hnoint : forall t, any_char is_digit t = false -> atoi t = None).
  { intros t Ht. destruct (atoi t) eqn:E; [|done]. apply atoi_digit in E. congruence. }
  unfold ConvertStringToSimpleType.
  destruct v as [|b|z|q|t|l|m]; try done; injection Hs as <-; simpl in Hr.
  - destruct b; simpl; rewrite ?Hnofloat by done; done.
  - unfold in_int64 in Hr. bool_to_prop. rewrite itoa_nonempty, itoa_no_leading_zero, atoi_itoa by lia. done.
  - destruct (String.eqb t ""); [done|]. destruct (leading_zero (chars t)); [done|].
    simpl in Hr. bool_to_prop. rewrite Hnofloat, Hnoint by done. by destruct (ParseBool t).
Qed.

(** ** Templates *)

(** A template as text and variables; a variable may be written with a space on both
    sides or with none. *)
Inductive token :=
| Lit (s : string)
| Var (spaced : bool) (name : string).
Definition var_chars (spaced : bool) (name : string) : list ascii :=
  if spaced then chars "{{ ." ++ chars name ++ chars " }}" else chars "{{." ++ chars name ++ chars "}}".
Definition token_chars (t : token) : list ascii :=
  match t with Lit s => chars s | Var spaced name => var_chars spaced name end.
Definition text_chars (ts : list token) : list ascii := concat (map token_chars ts).
Definition template_of (ts : list token) : string := of_chars (text_chars ts).

Definition no_brace (s : string) : bool := negb (any_char (Ascii.eqb "{") s).
Definition var_name (s : string) : bool := negb (String.eqb s "") && all_chars var_char s.
Definition good_token (t : token) : bool :=
  match t with Lit s => no_brace s | Var _ name => var_name name end.
Definition token_vars (ts : list token) : list string :=
  concat (map (fun t => match t with Var _ name => [name] | Lit _ => [] end) ts).

(** The text with the values in place of the variables. *)
Definition fill (val : string -> string) (ts : list token) : string :=
  of_chars (concat (map (fun t => match t with Lit s => chars s | Var _ name => chars (val name) end) ts)).

Lemma no_brace_chars s : no_brace s = true -> Forall (fun c => c <> "{"%char) (chars s).
Proof.
  unfold no_brace, any_char. intros H%negb_true_iff. apply Forall_forall. intros c Hc ->.
  enough (existsb (Ascii.eqb "{") (chars s) = true) by congruence.
  apply existsb_elem. by exists "{"%char.
Qed.

Lemma replace_skip old new a l : replace_scan old new (length a) (a ++ l) = replace_scan old new 0 l.
Proof. induction a as [|c a IH]; [done|]. cbn [length app replace_scan]. apply IH. Qed.

Lemma replace_no_brace old new l1 l2 :
  Forall (fun c => c <> "{"%char) l1 ->
  replace_scan ("{"%char :: old) new 0 (l1 ++ l2) = l1 ++ replace_scan ("{"%char :: old) new 0 l2.
Proof.
  intros H. induction H as [|c l1 Hc _ IH]; [done|]. cbn [app replace_scan prefix_chars].
  destruct (Ascii.eqb_spec "{" c); [congruence|]. cbn [andb]. by rewrite IH.
Qed.

Lemma prefix_chars_app p l : prefix_chars p (p ++ l) = true.
Proof. induction p as [|c p IH]; [done|]. simpl. by rewrite Ascii.eqb_refl. Qed.

Lemma replace_match c old new l :
  replace_scan (c :: old) new 0 ((c :: old) ++ l) = new ++ replace_scan (c :: old) new 0 l.
Proof.
  cbn [app replace_scan].
  assert (E : prefix_chars (c :: old) (c :: old ++ l) = true) by apply (prefix_chars_app (c :: old)).
  rewrite E. cbn [length]. simpl (S _ - 1)%nat.
  by rewrite Nat.sub_0_r, replace_skip.
Qed.

(** Two names before the same end differ as prefixes. *)
Lemma prefix_names x y d r r' :
  var_char d = false -> Forall (fun c => var_char c = true) x -> Forall (fun c => var_char c = true) y ->
  x <> y -> prefix_chars (x ++ d :: r) (y ++ d :: r') = false.
Proof.
  intros Hd Hx. revert y. induction Hx as [|c x Hc Hx IH]; intros y Hy Hne.
  - inversion Hy as [|e y' He Hy']; subst; [done|]. simpl.
    destruct (Ascii.eqb_spec d e); [congruence|done].
  - inversion Hy as [|e y' He Hy']; subst; simpl.
    + destruct (Ascii.eqb_spec c d); [congruence|done].
    + destruct (Ascii.eqb_spec c e); [|done]. simpl. apply IH; [done|congruence].
Qed.

Lemma var_name_chars s : var_name s = true -> chars s <> [] /\ Forall (fun c => var_char c = true) (chars s).
Proof.
  unfold var_name, all_chars. intros [H1 H2]%andb_true_iff. split.
  - intros H. destruct s; done.
  - rewrite forallb_elem in H2. by apply Forall_forall.
Qed.

Lemma var_char_no_brace l : Forall (fun c => var_char c = true) l -> Forall (fun c => c <> "{"%char) l.
Proof. intros H. eapply Forall_impl; [exact H|]. by intros c Hc ->. Qed.

Lemma replace_other_var sp sp' x y new l :
  var_name x = true -> var_name y = true -> (x <> y \/ sp <> sp') ->
  replace_scan (var_chars sp x) new 0 (var_chars sp' y ++ l)
    = var_chars sp' y ++ replace_scan (var_chars sp x) new 0 l.
Proof.
  intros Hx Hy Hne. destruct (var_name_chars x Hx) as [Hx1 Hx2]. destruct (var_name_chars y Hy) as [Hy1 Hy2].
  assert (Htail : Forall (fun c => c <> "{"%char) (tail (tail (var_chars sp' y)))).
  { destruct sp'; simpl; rewrite ?Forall_cons, Forall_app; repeat split; try done;
      try (by apply var_char_no_brace); repeat constructor; done. }
  assert (Hxy : chars x <> chars y \/ sp <> sp').
  { destruct Hne as [Hne|]; [left; contradict Hne; by apply chars_inj|by right]. }
  assert (Hp : prefix_chars (var_chars sp x) (var_chars sp' y ++ l) = false).
  { destruct sp, sp'; cbn [var_chars chars list_ascii_of_string app]; rewrite <- app_assoc;
      cbn [prefix_chars]; rewrite ?Ascii.eqb_refl; cbn [andb]; try done;
      (destruct Hxy as [Hxy|Hxy]; [|done]); cbn [app].
    - apply (prefix_names (chars x) (chars y) " " ["}"; "}"]%char); done.
    - apply (prefix_names (chars x) (chars y) "}" ["}"]%char); done. }
  assert (Hold : exists o, var_chars sp x = "{"%char :: "{"%char :: o) by (destruct sp; by eexists).
  destruct Hold as (o & Ho). rewrite Ho in *.
  assert (Htok : exists c t, var_chars sp' y = "{"%char :: "{"%char :: c :: t /\ c <> "{"%char).
  { destruct sp'; do 2 eexists; (split; [reflexivity|done]). }
  destruct Htok as (c & t & Ht & Hc). rewrite Ht in *. cbn [app replace_scan] in *.
  rewrite Hp. cbn [prefix_chars]. rewrite !Ascii.eqb_refl. cbn [andb].
  destruct (Ascii.eqb_spec "{" c); [congruence|]. cbn [andb]. do 3 f_equal.
  apply replace_no_brace. by inversion Htail.
Qed.

(** One variable set in a template. *)
Definition sub (sp : bool) (x val : string) (t : token) : token :=
  match t with
  | Var sp' y => if Bool.eqb sp sp' && String.eqb x y then Lit val else t
  | Lit _ => t
  end.

Lemma replace_pass sp x val ts :
  var_name x = true -> forallb good_token ts = true ->
  replace_scan (var_chars sp x) (chars val) 0 (text_chars ts) = text_chars (map (sub sp x val) ts).
Proof.
  intros Hx Hg. induction ts as [|t ts IH]; [done|]. simpl in Hg. apply andb_true_iff in Hg as [Ht Hts].
  change (text_chars (t :: ts)) with (token_chars t ++ text_chars ts).
  change (text_chars (map (sub sp x val) (t :: ts)))
    with (token_chars (sub sp x val t) ++ text_chars (map (sub sp x val) ts)).
  rewrite <- IH by done. destruct t as [s|sp' y]; cbn [token_chars sub good_token] in *.
  - assert (Hold : exists o, var_chars sp x = "{"%char :: o) by (destruct sp; by eexists).
    destruct Hold as (o & ->). apply replace_no_brace. by apply no_brace_chars.
  - destruct (Bool.eqb sp sp') eqn:Esp; cbn [andb]; [|apply replace_other_var; [done..|]; right; by apply eqb_false_iff].
    apply eqb_true_iff in Esp as <-. destruct (String.eqb_spec x y) as [<-|Hxy].
    + assert (Hold : exists c o, var_chars sp x = c :: o) by (destruct sp; by do 2 eexists).
      destruct Hold as (c & o & ->). apply replace_match.
    + apply replace_other_var; [done..|by left].
Qed.

Definition both (x val : string) (ts : list token) : list token :=
  map (sub false x val) (map (sub true x val) ts).

Lemma sub_good sp x val ts :
  no_brace val = true -> forallb good_token ts = true -> forallb good_token (map (sub sp x val) ts) = true.
Proof.
  intros Hv Hg. rewrite forallb_elem in Hg |- *. intros t (u & -> & Hu)%list_elem_of_fmap.
  specialize (Hg u Hu). destruct u as [s|sp' y]; [done|]. simpl. by destruct (_ && _).
Qed.

Lemma var_text (sp : bool) (x : string) :
  chars (if sp then "{{ ." +:+ x +:+ " }}" else "{{." +:+ x +:+ "}}") = var_chars sp x.
Proof. destruct sp; by rewrite !chars_app. Qed.

Lemma render_both x val ts :
  var_name x = true -> no_brace val = true -> forallb good_token ts = true ->
  ReplaceAll (ReplaceAll (template_of ts) ("{{ ." +:+ x +:+ " }}") val) ("{{." +:+ x +:+ "}}") val
    = template_of (both x val ts).
Proof.
  intros Hx Hv Hg. unfold ReplaceAll. rewrite (var_text true x), (var_text false x). unfold template_of.
  rewrite !chars_of_chars, replace_pass by done. rewrite replace_pass; [done..|]. by apply sub_good.
Qed.

Lemma both_fill x val ts :
  both x val ts = map (fun t => match t with
                               | Var _ y => if String.eqb x y then Lit val else t
                               | Lit _ => t end) ts.
Proof.
  unfold both. rewrite map_map. apply map_ext. intros [s|[] y]; simpl; [done| |]; by destruct (String.eqb x y).
Qed.

Lemma render_vars_ok context val vars ts :
  Forall (fun x => var_name x = true /\ no_brace (val x) = true /\
                   exists f, FieldByName context x = Some f /\ field_text f = Ok (val x)) vars ->
  forallb good_token ts = true ->
  render_vars context (template_of ts) vars
    = Ok (template_of (fold_left (fun ts x => both x (val x) ts) vars ts)).
Proof.
  intros Hv. revert ts. induction Hv as [|x vars (Hx & Hb & f & Hf & Ht) Hv IH]; intros ts Hg; [done|].
  cbn [render_vars fold_left]. unfold render_var. rewrite Hf. cbn [or_error res_bind]. rewrite Ht.
  cbn [res_wrap res_bind]. rewrite render_both by done. apply IH. unfold both. by apply sub_good, sub_good.
Qed.

Lemma fold_both val vars ts :
  fold_left (fun ts x => both x (val x) ts) vars ts
    = map (fun t => match t with
                    | Var _ y => if existsb (String.eqb y) vars then Lit (val y) else t
                    | Lit _ => t end) ts.
Proof.
  revert ts. induction vars as [|x vars IH]; intros ts; cbn [fold_left existsb].
  - symmetry. etransitivity; [|apply map_id]. apply map_ext. by intros [s|sp y].
  - rewrite IH, both_fill, map_map. apply map_ext. intros [s|sp y]; [done|].
    rewrite (String.eqb_sym y x). destruct (String.eqb_spec x y) as [->|]; done.
Qed.

Lemma template_skip a l : template_scan (length a) (a ++ l) = template_scan 0 l.
Proof. induction a as [|c a IH]; [done|]. cbn [length app template_scan]. apply IH. Qed.

Lemma span_app p a c l :
  Forall (fun c => p c = true) a -> p c = false -> span p (a ++ c :: l) = (a, c :: l).
Proof. intros Ha Hc. induction Ha as [|x a Hx _ IH]; simpl; [by rewrite Hc|]. by rewrite Hx, IH. Qed.

Lemma template_at_var sp x l :
  var_name x = true -> template_at (var_chars sp x ++ l) = Some (x, length (var_chars sp x)).
Proof.
  intros Hx. destruct (var_name_chars x Hx) as [Hne Hc].
  destruct sp.
  - assert (El : var_chars true x ++ l
              = "{"%char :: "{"%char :: " "%char :: "."%char :: chars x ++ " "%char :: "}"%char :: "}"%char :: l)
      by (unfold var_chars; rewrite <- !app_assoc; reflexivity).
    rewrite El. unfold template_at. cbn [span re_space existsb Ascii.eqb Bool.eqb orb].
    rewrite (span_app var_char) by done. cbn [span re_space existsb Ascii.eqb Bool.eqb orb].
    unfold var_chars. destruct (chars x) as [|c r] eqn:E; [done|].
    f_equal. f_equal; [by rewrite <- E, of_chars_chars|].
    rewrite !length_app. simpl. lia.
  - assert (El : var_chars false x ++ l
              = "{"%char :: "{"%char :: "."%char :: chars x ++ "}"%char :: "}"%char :: l)
      by (unfold var_chars; rewrite <- !app_assoc; reflexivity).
    rewrite El. unfold template_at. cbn [span re_space existsb Ascii.eqb Bool.eqb orb].
    rewrite (span_app var_char) by done. cbn [span re_space existsb Ascii.eqb Bool.eqb orb].
    unfold var_chars. destruct (chars x) as [|c r] eqn:E; [done|].
    f_equal. f_equal; [by rewrite <- E, of_chars_chars|].
    rewrite !length_app. simpl. lia.
Qed.

Lemma template_no_brace l1 l2 :
  Forall (fun c => c <> "{"%char) l1 -> template_scan 0 (l1 ++ l2) = template_scan 0 l2.
Proof.
  intros H. induction H as [|c l1 Hc _ IH]; [done|]. cbn [app template_scan].
  assert (Hn : template_at (c :: l1 ++ l2) = None).
  { destruct (Ascii.eqb_spec c "{"); [done|]. destruct c as [[] [] [] [] [] [] [] []]; done. }
  by rewrite Hn.
Qed.

Lemma extract_vars ts :
  forallb good_token ts = true -> template_scan 0 (text_chars ts) = token_vars ts.
Proof.
  induction ts as [|t ts IH]; intros Hg; [done|]. simpl in Hg. bool_to_prop.
  change (text_chars (t :: ts)) with (token_chars t ++ text_chars ts).
  change (token_vars (t :: ts))
    with ((match t with Var _ name => [name] | Lit _ => [] end) ++ token_vars ts).
  rewrite <- IH by done. destruct t as [s|sp y]; cbn [token_chars good_token app] in *.
  - apply template_no_brace. by apply no_brace_chars.
  - pose proof (template_at_var sp y (text_chars ts) ltac:(done)) as Hat.
    assert (Hne : exists c o, var_chars sp y = c :: o) by (destruct sp; by do 2 eexists).
    destruct Hne as (c & o & E). rewrite E in *. cbn [app template_scan] in *. rewrite Hat.
    cbn [length]. simpl (S _ - 1)%nat. by rewrite Nat.sub_0_r, template_skip.
Qed.

(** Rendering: of a template made of text without braces and of variables written
    [{{ .Name }}] or [{{.Name}}], the variables found are its own in order, and when
    each is a field with a text that has no brace the rendered text is the template
    with the values in place of the variables. *)
Theorem renderTemplate_fills context val ts :
  forallb good_token ts = true ->
  Forall (fun x => no_brace (val x) = true /\
                   exists f, FieldByName context x = Some f /\ field_text f = Ok (val x)) (token_vars ts) ->
  extractTemplateVars (template_of ts) = token_vars ts /\
  renderTemplate (template_of ts) (extractTemplateVars (template_of ts)) (Some context)
    = Returns (Ok (fill val ts)).
Proof.
  intros Hg Hv.
  assert (Hx : extractTemplateVars (template_of ts) = token_vars ts).
  { unfold extractTemplateVars, template_of. rewrite chars_of_chars. by apply extract_vars. }
  split; [done|]. rewrite Hx. unfold renderTemplate, p_get, p_ret, p_lift. cbn [p_bind].
  assert (Hin : forall sp y, Var sp y ∈ ts -> y ∈ token_vars ts).
  { intros sp y Hy. unfold token_vars. apply list_elem_of_In, in_concat. exists [y].
    split; [|by left]. apply in_map_iff. exists (Var sp y). split; [done|]. by apply list_elem_of_In. }
  assert (Hnames : forall y, y ∈ token_vars ts -> var_name y = true).
  { intros y Hy. apply list_elem_of_In, in_concat in Hy as (l & Hl & Hy).
    apply in_map_iff in Hl as (t & <- & Ht). destruct t as [s|sp y']; [done|].
    destruct Hy as [<-|[]]. rewrite forallb_elem in Hg. apply list_elem_of_In in Ht. exact (Hg _ Ht). }
  rewrite (render_vars_ok context val); [|apply Forall_forall; rewrite Forall_forall in Hv; eauto|done].
  f_equal. f_equal. rewrite fold_both. unfold fill, template_of, text_chars. rewrite map_map.
  f_equal. f_equal. apply map_ext_in. intros t Ht. destruct t as [s|sp y]; [done|].
  assert (He : existsb (String.eqb y) (token_vars ts) = true).
  { apply existsb_elem. exists y. split; [|by apply String.eqb_refl]. apply (Hin sp). by apply list_elem_of_In. }
  by rewrite He.
Qed.

(** ** Items *)

Section ItemFacts.
Context `{FloatText}.

Lemma processParameterConfig_key config v ctx it :
  processParameterConfig config v ctx = Returns (Ok (Some it)) -> p_Key it = pc_Key config.
Proof.
  unfold processParameterConfig. destruct (_ =? _).
  - destruct v; try (intros [= <-]; done). destruct (pc_DefaultValue config); [by intros [= <-]|].
    rewrite p_bind_ok. intros (u & _ & [= <-]). done.
  - destruct (_ =? _); [|done]. rewrite p_bind_ok. intros (u & _ & Hr).
    destruct (extractTemplateVars _); [by injection Hr as <-|].
    rewrite p_bind_ok in Hr. destruct Hr as (r & _ & Hr). rewrite p_bind_ok in Hr.
    destruct Hr as (u' & _ & Hr). destruct (negb _); [by injection Hr as <-|done].
Qed.

Lemma process_key_ok config v ctx r :
  process_key config v ctx = Returns (Ok r) <-> processParameterConfig config v ctx = Returns (Ok r).
Proof. apply p_wrap_ok. Qed.

Lemma config_map_from (m0 : gmap string ParameterConfig) configs key c :
  fold_left (fun m c => <[pc_Key c := c]> m) configs m0 !! key = Some c ->
  (c ∈ configs /\ pc_Key c = key) \/ m0 !! key = Some c.
Proof.
  revert m0. induction configs as [|x configs IH]; intros m0; cbn [fold_left]; [by right|].
  intros H1. apply IH in H1 as [[H1 Hk]|H1]; [left; split; [by right|done]|].
  apply lookup_insert_Some in H1 as [[<- <-]|[_ H1]]; [left; split; [by left|done]|by right].
Qed.

Lemma config_map_in configs key c :
  config_map configs !! key = Some c -> c ∈ configs /\ pc_Key c = key.
Proof. intros Hc. apply config_map_from in Hc as [|Hc]; [done|]. by rewrite lookup_empty in Hc. Qed.

(** What an item comes from. *)
Definition comes_from (m : gmap string ParameterConfig) (ctx : option ContainerVersion)
    (sources : string -> value -> Prop) (it : ParameterItem) : Prop :=
  exists c v, m !! pc_Key c = Some c /\ sources (pc_Key c) v /\
    processParameterConfig c v ctx = Returns (Ok (Some it)).

Lemma elem_of_add_item it items item :
  it ∈ add_item items item <-> it ∈ items \/ item = Some it.
Proof.
  unfold add_item. rewrite elem_of_app. destruct item as [i|].
  - rewrite list_elem_of_singleton. split; intros [?|?]; auto; right; congruence.
  - split; [intros [?|?%not_elem_of_nil]; [by left|done]|intros [?|?]; [by left|done]].
Qed.

Lemma items_of_specs_ok m ctx items specs items' :
  (forall key c, m !! key = Some c -> pc_Key c = key) ->
  items_of_specs m ctx items specs = Returns (Ok items') ->
  (forall it, it ∈ items' -> it ∈ items \/ comes_from m ctx (fun k v => mkSpec k v ∈ specs) it) /\
  (forall spec, spec ∈ specs -> exists c r, m !! s_Key spec = Some c /\
     processParameterConfig c (s_Value spec) ctx = Returns (Ok r) /\
     forall it, r = Some it -> it ∈ items') /\
  (forall it, it ∈ items -> it ∈ items').
Proof.
  intros Hm. revert items. induction specs as [|spec specs IH]; intros items; cbn [items_of_specs].
  - intros [= <-]. split; [by left|]. split; [|done]. by intros spec ?%not_elem_of_nil.
  - rewrite p_bind_ok. intros (c & Hc & Hr). rewrite p_bind_ok in Hr. destruct Hr as (r & Hr & Hrest).
    apply process_key_ok in Hr. unfold p_lift in Hc. injection Hc as Hc.
    assert (Hlook : m !! s_Key spec = Some c) by (destruct (m !! s_Key spec); [by injection Hc as ->|done]).
    pose proof (Hm _ _ Hlook) as Hkey.
    destruct (IH _ Hrest) as (H1 & H2 & H3). repeat split.
    + intros it Hit. destruct (H1 it Hit) as [Hin|(c' & v & Hc' & Hs & Hp)].
      * apply elem_of_add_item in Hin as [Hl| ->]; [by left|]. right. exists c, (s_Value spec).
        rewrite Hkey. split; [done|]. split; [|done]. destruct spec; by left.
      * right. exists c', v. split; [done|]. split; [by right|done].
    + intros sp [->|Hsp]%elem_of_cons; [|by apply H2].
      exists c, r. split; [done|]. split; [done|]. intros it ->. apply H3, elem_of_add_item. by right.
    + intros it Hit. apply H3, elem_of_add_item. by left.
Qed.

Lemma items_of_rest_ok processed ctx items configs items' :
  items_of_rest processed ctx items configs = Returns (Ok items') ->
  (forall it, it ∈ items' -> it ∈ items \/
     exists c, c ∈ configs /\ (pc_Key c ∉ processed) /\ processParameterConfig c VNil ctx = Returns (Ok (Some it))) /\
  (forall c, c ∈ configs -> (pc_Key c ∉ processed) -> exists r,
     processParameterConfig c VNil ctx = Returns (Ok r) /\ forall it, r = Some it -> it ∈ items') /\
  (forall it, it ∈ items -> it ∈ items').
Proof.
  revert items. induction configs as [|c configs IH]; intros items; cbn [items_of_rest].
  - intros [= <-]. split; [by left|]. split; [|done]. by intros c ?%not_elem_of_nil.
  - case_bool_decide as Hc.
    + intros Hr. destruct (IH _ Hr) as (H1 & H2 & H3). repeat split; [| |done].
      * intros it Hit. destruct (H1 it Hit) as [Hl|(c' & ? & ?)]; [by left|]. right. exists c'. split; [by right|done].
      * intros c' [->|Hc']%elem_of_cons Hn; [done|by apply H2].
    + rewrite p_bind_ok. intros (r & Hr & Hrest). apply process_key_ok in Hr.
      destruct (IH _ Hrest) as (H1 & H2 & H3). repeat split.
      * intros it Hit. destruct (H1 it Hit) as [Hin|(c' & ? & ?)].
        -- apply elem_of_add_item in Hin as [Hl| ->]; [by left|]. right. exists c. split; [by left|done].
        -- right. exists c'. split; [by right|done].
      * intros c' [->|Hc']%elem_of_cons Hn; [|by apply H2].
        exists r. split; [done|]. intros it ->. apply H3, elem_of_add_item. by right.
      * intros it Hit. apply H3, elem_of_add_item. by left.
Qed.

Lemma listParameterItems_ok specs fetcher ctx items :
  listParameterItemsWithDB specs fetcher ctx = Returns (Ok items) ->
  exists configs, fetcher (map s_Key specs) = Ok configs /\
    let m := config_map configs in
    (forall it, it ∈ items ->
       comes_from m ctx (fun k v => mkSpec k v ∈ specs \/ (v = VNil /\ k ∉ map s_Key specs)) it) /\
    (forall spec, spec ∈ specs -> exists c r, m !! s_Key spec = Some c /\
       processParameterConfig c (s_Value spec) ctx = Returns (Ok r) /\
       forall it, r = Some it -> it ∈ items) /\
    (forall key c, m !! key = Some c -> key ∉ map s_Key specs -> exists r,
       processParameterConfig c VNil ctx = Returns (Ok r) /\ forall it, r = Some it -> it ∈ items).
Proof.
  unfold listParameterItemsWithDB. cbn zeta. rewrite p_bind_ok. intros (configs & Hf & Hr).
  apply p_wrap_ok in Hf. injection Hf as Hf. exists configs. split; [done|].
  rewrite p_bind_ok in Hr. destruct Hr as (u & _ & Hr). rewrite p_bind_ok in Hr. destruct Hr as (its & Hs & Hr).
  assert (Hm : forall key c, config_map configs !! key = Some c -> pc_Key c = key)
    by (intros key c Hc; by apply config_map_in in Hc as [_ ?]).
  destruct (items_of_specs_ok _ _ _ _ _ Hm Hs) as (S1 & S2 & _).
  destruct (items_of_rest_ok _ _ _ _ _ Hr) as (R1 & R2 & R3).
  assert (Hconf : forall c, c ∈ (map_to_list (config_map configs)).*2 -> config_map configs !! pc_Key c = Some c).
  { intros c ([k c'] & -> & Hin)%list_elem_of_fmap. apply elem_of_map_to_list in Hin.
    simpl. by rewrite (Hm _ _ Hin). }
  repeat split.
  - intros it Hit. destruct (R1 it Hit) as [Hin|(c & Hc & Hk & Hp)].
    + destruct (S1 it Hin) as [?%not_elem_of_nil|(c & v & Hc & Hk & Hp)]; [done|].
      exists c, v. split; [done|]. split; [by left|done].
    + exists c, VNil. split; [by apply Hconf|]. split; [|done]. right. split; [done|].
      by rewrite elem_of_list_to_set in Hk.
  - intros spec Hspec. destruct (S2 spec Hspec) as (c & r & Hc & Hp & Hi). exists c, r.
    split; [done|]. split; [done|]. intros it Hit. by apply R3, Hi.
  - intros key c Hc Hk. apply R2.
    + apply list_elem_of_fmap. exists (key, c). split; [done|]. by apply elem_of_map_to_list.
    + rewrite elem_of_list_to_set. by rewrite (Hm _ _ Hc).
Qed.
End ItemFacts.

Lemma key_filter_spec keys p : keys <> [] -> key_filter keys p = true -> pc_Key p ∈ keys.
Proof.
  destruct keys as [|k keys]; [done|]. intros _ H. unfold key_filter in H. rewrite existsb_elem in H.
  destruct H as (x & Hx & E%String.eqb_eq). by subst.
Qed.

(** The environment of a container version: every variable is a configured one of
    the version; a value the request gives for a fixed parameter is kept as it is; and
    when the request names any parameter, the result has the named ones only - the
    defaults and the templates of the others are not added. *)
Theorem env_vars_of_specs `{FloatText} params links version specs ctx items :
  listParameterItemsWithDB specs (fun keys => Ok (listContainerVersionEnvVars params links version keys)) ctx
    = Returns (Ok items) ->
  (forall it, it ∈ items -> exists p, p ∈ params /\ linked links version p = true /\ pc_Key p = p_Key it) /\
  (forall spec, spec ∈ specs -> s_Value spec <> VNil -> exists p, p ∈ params /\ pc_Key p = s_Key spec /\
     (pc_Type p = ParameterType_code ParameterTypeFixed ->
      mkParam (s_Key spec) (s_Value spec) "" ∈ items)) /\
  (specs <> [] -> forall it, it ∈ items -> p_Key it ∈ map s_Key specs).
Proof.
  intros Hl. apply listParameterItems_ok in Hl as (configs & [= <-] & Hitems & Hspecs & _).
  assert (Hconf : forall key c,
            config_map (listContainerVersionEnvVars params links version (map s_Key specs)) !! key = Some c ->
            c ∈ params /\ linked links version c = true /\ pc_Key c = key /\ key_filter (map s_Key specs) c = true).
  { intros key c Hc. apply config_map_in in Hc as [Hin Hk]. unfold listContainerVersionEnvVars in Hin.
    apply list_elem_of_filter in Hin as [Hf Hin]. apply Is_true_true in Hf. by bool_to_prop. }
  split; [|split].
  - intros it Hit. destruct (Hitems it Hit) as (c & v & Hc & _ & Hp).
    apply processParameterConfig_key in Hp. destruct (Hconf _ _ Hc) as (? & ? & _). by exists c.
  - intros spec Hspec Hv. destruct (Hspecs spec Hspec) as (c & r & Hc & Hp & Hi).
    destruct (Hconf _ _ Hc) as (? & _ & Hk & _). exists c. split; [done|]. split; [done|]. intros Ht.
    apply Hi. unfold processParameterConfig in Hp. rewrite Ht, Z.eqb_refl, Hk in Hp.
    destruct (s_Value spec); try done; by injection Hp as <-.
  - intros Hne it Hit. destruct (Hitems it Hit) as (c & v & Hc & _ & Hp).
    apply processParameterConfig_key in Hp. destruct (Hconf _ _ Hc) as (_ & _ & _ & Hkf).
    rewrite Hp. apply key_filter_spec; [|done]. by destruct specs.
Qed.

(** A parameter that may be written ([BeforeCreate]) is always processed when it is
    fixed, whatever the request gives and with a value when one is required; when it is
    dynamic only its template can fail. *)
Theorem created_parameters_process `{FloatText} p v ctx :
  ParameterConfig_BeforeCreate p = Ok tt ->
  (pc_Type p = ParameterType_code ParameterTypeFixed ->
   exists it, processParameterConfig p v ctx = Returns (Ok (Some it)) /\ p_Key it = pc_Key p /\
     (pc_Required p = true -> p_Value it = VNil -> False)) /\
  (pc_Type p = ParameterType_code ParameterTypeDynamic -> exists t,
   pc_TemplateString p = Some t /\ t <> "" /\
   (extractTemplateVars t = [] ->
    processParameterConfig p v ctx = Returns (Ok (Some (mkParam (pc_Key p) VNil t))))).
Proof.
  unfold ParameterConfig_BeforeCreate. rewrite res_bind_ok. intros ([] & Hty & _). split.
  - intros Ht. unfold processParameterConfig. rewrite Ht, Z.eqb_refl in *. apply require_ok in Hty.
    destruct (pc_DefaultValue p) as [d|] eqn:Hd.
    + destruct v; eexists; (split; [reflexivity|]); (split; [done|]); intros _ Hn; try done. simpl in Hn.
      unfold ConvertStringToSimpleType in Hn. by repeat case_match.
    + destruct v; try (eexists; split; [reflexivity|]; split; [done|]; intros _ Hn; done).
      destruct (pc_Required p) eqn:Hr; [done|].
      eexists. split; [reflexivity|]. split; [done|]. congruence.
  - intros Ht. rewrite Ht in Hty. simpl in Hty. apply require_ok in Hty.
    destruct (pc_TemplateString p) as [t|] eqn:E; [|done]. exists t. split; [done|].
    destruct (String.eqb_spec t ""); [done|]. split; [done|]. intros Hx.
    unfold processParameterConfig. rewrite Ht, E. simpl.
    destruct (String.eqb_spec t ""); [done|]. simpl. unfold p_require, p_bind, p_ret. by rewrite Hx.
Qed.

(** A variable with a space on one side only is found but never replaced. *)
Example one_space_is_kept :
  let c := mkVersion 7 "1.0.0" 1 0 0 "" "docker.io" "lib" "nginx" "v2" "" 0 3 1 1 "3:1.0.0" in
  extractTemplateVars "tag-{{ .Tag}}" = ["Tag"] /\
  renderTemplate "tag-{{ .Tag}}" ["Tag"] (Some c) = Returns (Ok "tag-{{ .Tag}}").
Proof. split; vm_compute; reflexivity. Qed.

Module ParameterSample.
#[export] Instance texts : FloatText := {|
  ParseFloat s :=
    if any_char is_digit s then
      match split "." s with
      | [a; b] =>
          match atoi a, digits_val 0 (chars b) with
          | Some i, Some f => Some (inject_Z i + Qmake f (Pos.of_nat (10 ^ String.length b)))%Q
          | _, _ => None
          end
      | _ => None
      end
    else None;
  FormatFloat q := itoa (int_of_float q)
|}.
#[export] Instance texts_laws : FloatTextLaws.
Proof. constructor. intros s q. simpl. by destruct (any_char is_digit s). Qed.

Lemma simple_text_roundtrip_witness :
  ConvertStringToSimpleType "-42" = VInt (-42) /\ ConvertStringToSimpleType "007" = VStr "007".
Proof.
  split; [exact (simple_text_roundtrip (VInt (-42)) "-42" eq_refl eq_refl)|].
  exact (simple_text_roundtrip (VStr "007") "007" eq_refl eq_refl).
Defined.

Definition version : ContainerVersion :=
  mkVersion 7 "1.0.0" 1 0 0 "" "docker.io" "lib" "nginx" "v2" "" 0 3 1 1 "3:1.0.0".
Definition tokens : list token := [Var true "ImageRef"; Lit " #"; Var false "ID"; Lit "!"].
Definition val (x : string) : string := if String.eqb x "ID" then "7" else "docker.io/lib/nginx:v2".

Lemma renderTemplate_fills_witness :
  renderTemplate "{{ .ImageRef }} #{{.ID}}!" ["ImageRef"; "ID"] (Some version)
    = Returns (Ok "docker.io/lib/nginx:v2 #7!").
Proof.
  destruct (renderTemplate_fills version val tokens) as [He Hr]; [vm_compute; reflexivity| |].
  - apply Forall_cons; split; [|apply Forall_cons; split; [|by apply Forall_nil]];
      (split; [vm_compute; reflexivity|]).
    + exists (FString "docker.io/lib/nginx:v2"). split; vm_compute; reflexivity.
    + exists (FInt 7). split; vm_compute; reflexivity.
  - rewrite He in Hr. vm_compute in Hr. vm_compute. exact Hr.
Defined.

Definition fixed (id : Z) (key : string) (d : option string) : ParameterConfig :=
  mkParameterConfig id key 0 0 d None false true.
Definition params : list ParameterConfig :=
  [fixed 1 "WORKERS" (Some "4"); fixed 2 "MODE" (Some "fast");
   mkParameterConfig 3 "IMAGE" 1 0 None (Some "{{ .ImageRef }}") true true].
Definition links : list Link := [mkLink 7 1; mkLink 7 2; mkLink 7 3].
Definition specs : list ParameterSpec := [mkSpec "WORKERS" (VInt 8)].

Lemma env_vars_of_specs_witness :
  (exists p, p ∈ params /\ linked links 7 p = true /\ pc_Key p = "WORKERS") /\ "WORKERS" ∈ ["WORKERS"].
Proof.
  assert (Hrun : listParameterItemsWithDB specs
                   (fun keys => Ok (listContainerVersionEnvVars params links 7 keys)) (Some version)
                 = Returns (Ok [mkParam "WORKERS" (VInt 8) ""])) by (vm_compute; reflexivity).
  destruct (env_vars_of_specs params links 7 specs (Some version) _ Hrun) as (Hp & _ & Hk).
  assert (Hin : mkParam "WORKERS" (VInt 8) "" ∈ [mkParam "WORKERS" (VInt 8) ""]) by apply list_elem_of_here.
  split; [exact (Hp _ Hin)|].
  assert (Hne : specs <> []) by discriminate. exact (Hk Hne _ Hin).
Defined.

Lemma created_parameters_process_witness :
  exists it, processParameterConfig (fixed 1 "WORKERS" (Some "4")) VNil None = Returns (Ok (Some it)) /\
    p_Key it = "WORKERS".
Proof.
  destruct (created_parameters_process (fixed 1 "WORKERS" (Some "4")) VNil None) as [H _];
    [vm_compute; reflexivity|].
  destruct (H eq_refl) as (it & Hp & Hk & _). exists it. split; [exact Hp|exact Hk].
Defined.
End ParameterSample.
