(* ===== verification/Tables.v ===== *)
(** * Errors, transactions and tables ([consts/errors.go], [utils/error.go],
      [httpx/common.go], and what gorm does with a table)

    The services of [module/] return wrapped errors, which the HTTP side takes apart to
    choose a status; they run in transactions over tables with unique keys.  A call of
    gorm is one statement: it changes the tables or fails and changes nothing.  The
    texts of a table are compared as they are (a case-sensitive collation). *)

From S2P Require Import Prelude GoStrings.
#[local] Open Scope Z_scope.

(** ** Errors *)

(** The values of [consts] and of gorm that callers compare with. *)
Inductive sentinel :=
| AuthenticationFailed | PermissionDenied | NotFound | AlreadyExists | BadRequest | Internal
| RecordNotFound | DuplicatedKey.
#[export] Instance sentinel_eq_dec : EqDecision sentinel.
Proof. solve_decision. Defined.

Definition sentinel_text (s : sentinel) : string :=
  match s with
  | AuthenticationFailed => "authentication failed"
  | PermissionDenied => "permission denied"
  | NotFound => "record not found"
  | AlreadyExists => "record already exists"
  | BadRequest => "bad request"
  | Internal => "internal server error"
  | RecordNotFound => "record not found"
  | DuplicatedKey => "duplicated key not allowed"
  end.

(** [errors.New], a sentinel, and [fmt.Errorf] with one [%w] between two texts. *)
Inductive goerr :=
| New (text : string)
| Is (s : sentinel)
| Wrap (pre : string) (e : goerr) (post : string).

Fixpoint err_text (e : goerr) : string :=
  match e with
  | New t => t
  | Is s => sentinel_text s
  | Wrap pre e post => pre +:+ err_text e +:+ post
  end.
Definition Unwrap (e : goerr) : option goerr := match e with Wrap _ e _ => Some e | _ => None end.
(** [errors.Is(e, s)]. *)
Fixpoint errors_Is (s : sentinel) (e : goerr) : bool :=
  match e with
  | New _ => false
  | Is s' => bool_decide (s = s')
  | Wrap _ e _ => errors_Is s e
  end.
(** [fmt.Errorf] with [%v] or [%s] keeps the text only. *)
Definition Flat (pre : string) (e : goerr) : goerr := New (pre +:+ err_text e).
(** [fmt.Errorf("%w: ...", sentinel, ...)] *)
Definition tagged (s : sentinel) (text : string) : goerr := Wrap "" (Is s) (": " +:+ text).

(** [getAllErrorsFromChain]: from the outermost to the innermost. *)
Fixpoint getAllErrorsFromChain (e : goerr) : list goerr :=
  e :: match e with Wrap _ e' _ => getAllErrorsFromChain e' | _ => [] end.
Definition GetErrorByLevel (e : goerr) (level : Z) : option goerr :=
  let chain := getAllErrorsFromChain e in
  let index := if 0 <=? level then level else Z.of_nat (length chain) + level in
  if (index <? 0) || (Z.of_nat (length chain) <=? index) then None else chain !! Z.to_nat index.

(** [HandleServiceError]: the status and the message of the response, nothing when there
    is no error. *)
Definition status_of (innermost : goerr) : Z :=
  match innermost with
  | Is AuthenticationFailed => 401
  | Is PermissionDenied => 403
  | Is BadRequest => 400
  | Is NotFound => 404
  | Is AlreadyExists => 409
  | _ => 500
  end.
Definition HandleServiceError (err : option goerr) : option (Z * string) :=
  err ≫= fun e =>
  GetErrorByLevel e (-1) ≫= fun innermostErr =>
  let msg := match GetErrorByLevel e (-2) with
             | Some userFriendlyErr => err_text userFriendlyErr
             | None => err_text innermostErr
             end in
  Some (status_of innermostErr,
        match innermostErr with
        | Is Internal => "Internal server error"
        | Is RecordNotFound | Is DuplicatedKey | New _ | Wrap _ _ _ => "An unexpected error occurred"
        | Is _ => msg
        end).

(** [ParsePositiveID]: the identifier, or the message of the 400. *)
Definition ParsePositiveID (idStr fieldName : string) : Z + string :=
  match atoi idStr with
  | Some id => if id <=? 0 then inr ("Invalid " +:+ fieldName +:+ ": " +:+ idStr) else inl id
  | None => inr ("Invalid " +:+ fieldName +:+ ": " +:+ idStr)
  end.

(** ** Transactions *)

(** A computation in a transaction: a value and the tables after it, or an error. *)
Definition Tx (S A : Type) : Type := S -> (A * S) + goerr.
Definition tx_ret {S A} (a : A) : Tx S A := fun s => inl (a, s).
Definition tx_err {S A} (e : goerr) : Tx S A := fun _ => inr e.
Definition tx_bind {S A B} (m : Tx S A) (k : A -> Tx S B) : Tx S B := fun s =>
  match m s with
  | inl (a, s') => k a s'
  | inr e => inr e
  end.
(** A query and a statement that cannot fail. *)
Definition tx_get {S A} (f : S -> A) : Tx S A := fun s => inl (f s, s).
Definition tx_do {S} (f : S -> S) : Tx S unit := fun s => inl (tt, f s).
(** What callers do to an error. *)
Definition tx_on_err {S A} (f : goerr -> goerr) (m : Tx S A) : Tx S A := fun s =>
  match m s with
  | inl r => inl r
  | inr e => inr (f e)
  end.
Definition tx_wrap {S A} (pre : string) (m : Tx S A) : Tx S A := tx_on_err (fun e => Wrap pre e "") m.
(** The first row of a query, [gorm.ErrRecordNotFound] when there is none. *)
Definition tx_first {S A} (f : S -> option A) : Tx S A := fun s =>
  match f s with
  | Some a => inl (a, s)
  | None => inr (Is RecordNotFound)
  end.
Definition tx_require {S} (cond : bool) (e : goerr) : Tx S unit := if cond then tx_ret tt else tx_err e.
Definition tx_when {S} (cond : bool) (m : Tx S unit) : Tx S unit := if cond then m else tx_ret tt.
(** [if err := m; err != nil { ... }] that goes on: a statement that failed changed nothing. *)
Definition tx_attempt {S A} (m : Tx S A) : Tx S (A + goerr) := fun s =>
  match m s with
  | inl (a, s') => inl (inl a, s')
  | inr e => inl (inr e, s)
  end.
(** A computation on a part of the tables. *)
Definition tx_on {S T A} (get : S -> T) (put : T -> S -> S) (m : Tx T A) : Tx S A := fun s =>
  match m (get s) with
  | inl (a, t) => inl (a, put t s)
  | inr e => inr e
  end.

Notation "'let^' x := m 'in' k" := (tx_bind m (fun x => k))
  (at level 10, x pattern, m at level 100, k at level 200) : go_scope.
Notation "m ';;^' k" := (tx_bind m (fun _ => k))
  (at level 100, k at level 200, right associativity) : go_scope.

Fixpoint tx_each {S A} (f : A -> Tx S unit) (l : list A) : Tx S unit :=
  match l with
  | [] => tx_ret tt
  | x :: rest => f x ;;^ tx_each f rest
  end.

(** [db.Transaction]: an error undoes everything. *)
Definition transaction {S A} (m : Tx S A) (s : S) : (A + goerr) * S :=
  match m s with
  | inl (a, s') => (inl a, s')
  | inr e => (inr e, s)
  end.

(** ** Tables *)

(** A row may be added when no row has its key; a null key is no key. *)
Definition key_free {A K} `{EqDecision K} (key : A -> option K) (rows : list A) (x : A) : bool :=
  match key x with
  | None => true
  | Some k => negb (existsb (fun y => bool_decide (key y = Some k)) rows)
  end.


(** [Save] writes all columns of a row; its status may bring an active key back. *)
Definition save_row {A} (id : A -> Z) (x : A) (rows : list A) : list A :=
  map (fun y => if id y =? id x then x else y) rows.

(** A soft deletion of the rows that match and are not deleted: their number and the rows. *)
Definition soft_delete {A} (matches : A -> bool) (kill : A -> A) (rows : list A) : Z * list A :=
  (Z.of_nat (length (List.filter matches rows)), map (fun x => if matches x then kill x else x) rows).

(** ** Facts on errors *)

Lemma chain_last e : exists l x, getAllErrorsFromChain e = l ++ [x] /\ Unwrap x = None /\
  forall s, errors_Is s e = errors_Is s x.
Proof.
  induction e as [t|s|pre e (l & x & E & Hx & Hs) post].
  - by exists [], (New t).
  - by exists [], (Is s).
  - exists (Wrap pre e post :: l), x. simpl. by rewrite E.
Qed.

Lemma innermost_level e l x : getAllErrorsFromChain e = l ++ [x] -> GetErrorByLevel e (-1) = Some x.
Proof.
  intros E. unfold GetErrorByLevel. rewrite E, length_app. simpl.
  replace (Z.of_nat (length l + 1) + -1) with (Z.of_nat (length l)) by lia.
  destruct (Z.ltb_spec (Z.of_nat (length l)) 0); [lia|].
  destruct (Z.leb_spec (Z.of_nat (length l + 1)) (Z.of_nat (length l))); [lia|]. simpl.
  by rewrite Nat2Z.id, lookup_app_r, Nat.sub_diag by lia.
Qed.

(** The status of a response is decided by what the error wraps at its core: each
    sentinel of [consts] has its own, everything else - gorm's own "record not found"
    included - is a 500. *)
Lemma status_by_sentinel e :
  exists status msg, HandleServiceError (Some e) = Some (status, msg) /\
    (status = 401 <-> errors_Is AuthenticationFailed e = true) /\
    (status = 403 <-> errors_Is PermissionDenied e = true) /\
    (status = 400 <-> errors_Is BadRequest e = true) /\
    (status = 404 <-> errors_Is NotFound e = true) /\
    (status = 409 <-> errors_Is AlreadyExists e = true) /\
    (status ∈ [401; 403; 400; 404; 409; 500]).
Proof.
  destruct (chain_last e) as (l & x & E & Hx & Hs). unfold HandleServiceError. cbn [mbind option_bind].
  rewrite (innermost_level e l x E). cbn [mbind option_bind]. eexists _, _. split; [done|].
  rewrite !Hs. destruct x as [t|[]|? ? ?]; [..|done]; simpl; repeat split; try done; set_solver.
Qed.

Lemma status_wrap pre e post : option_map fst (HandleServiceError (Some (Wrap pre e post)))
  = option_map fst (HandleServiceError (Some e)).
Proof.
  destruct (chain_last e) as (l & x & E & _). unfold HandleServiceError. cbn [mbind option_bind].
  rewrite (innermost_level e l x E), (innermost_level (Wrap pre e post) (Wrap pre e post :: l) x); [done|].
  simpl. by rewrite E.
Qed.

(** ** Facts on transactions *)

Section TxFacts.
Context {S : Type}.

Lemma tx_bind_inl {A B} (m : Tx S A) (k : A -> Tx S B) s b s' :
  tx_bind m k s = inl (b, s') <-> exists a s1, m s = inl (a, s1) /\ k a s1 = inl (b, s').
Proof.
  unfold tx_bind. destruct (m s) as [[a s1]|e]; split; try done.
  - by exists a, s1.
  - by intros (? & ? & [= <- <-] & ?).
  - by intros (? & ? & ? & _).
Qed.
Lemma tx_wrap_inl {A} f (m : Tx S A) s r : tx_on_err f m s = inl r <-> m s = inl r.
Proof. unfold tx_on_err. destruct (m s); split; congruence. Qed.
Lemma tx_first_inl {A} (f : S -> option A) s a s' : tx_first f s = inl (a, s') <-> f s = Some a /\ s' = s.
Proof. unfold tx_first. destruct (f s); split; try done; [by intros [= <- <-]|by intros [[= <-] ->]|by intros [? _]]. Qed.
Lemma tx_require_inl c e s u s' : @tx_require S c e s = inl (u, s') <-> c = true /\ s' = s.
Proof. destruct c, u; simpl; split; try done; [by intros [= <-]|by intros [_ ->]|by intros [? _]]. Qed.
Lemma transaction_inl {A} (m : Tx S A) s a s' : transaction m s = (inl a, s') <-> m s = inl (a, s').
Proof. unfold transaction. destruct (m s) as [[? ?]|?]; split; congruence. Qed.
(** A transaction that fails leaves the tables as they were. *)
Lemma transaction_inr {A} (m : Tx S A) s e s' : transaction m s = (inr e, s') <-> m s = inr e /\ s' = s.
Proof. unfold transaction. destruct (m s) as [[? ?]|?]; split; try done; [by intros [? _]|by intros [= -> ->]|by intros [[= ->] ->]]. Qed.

(** A property of the tables that every part of a transaction keeps. *)
Definition tx_keeps {A} (I : S -> Prop) (m : Tx S A) : Prop := forall s a s', I s -> m s = inl (a, s') -> I s'.
Lemma tx_keeps_ret {A} I (a : A) : tx_keeps I (tx_ret a).
Proof. by intros s ? ? ? [= <- <-]. Qed.
Lemma tx_keeps_err {A} I e : @tx_keeps A I (tx_err e).
Proof. by intros s ? ? ? ?. Qed.
Lemma tx_keeps_get {A} I (f : S -> A) : tx_keeps I (tx_get f).
Proof. by intros s ? ? ? [= <- <-]. Qed.
Lemma tx_keeps_do I (f : S -> S) : (forall s, I s -> I (f s)) -> tx_keeps I (tx_do f).
Proof. intros Hf s ? ? Hs [= <- <-]. by apply Hf. Qed.
Lemma tx_keeps_first {A} I (f : S -> option A) : tx_keeps I (tx_first f).
Proof. intros s ? ? ? [_ ->]%tx_first_inl. done. Qed.
Lemma tx_keeps_require I c e : tx_keeps I (tx_require c e).
Proof. intros s ? ? ? [_ ->]%tx_require_inl. done. Qed.
Lemma tx_keeps_bind {A B} I (m : Tx S A) (k : A -> Tx S B) :
  tx_keeps I m -> (forall a, tx_keeps I (k a)) -> tx_keeps I (tx_bind m k).
Proof. intros Hm Hk s b s' Hs (a & s1 & E1 & E2)%tx_bind_inl. eapply Hk; [|exact E2]. by eapply Hm. Qed.
Lemma tx_keeps_on_err {A} I f (m : Tx S A) : tx_keeps I m -> tx_keeps I (tx_on_err f m).
Proof. intros Hm s a s' Hs E%tx_wrap_inl. by eapply Hm. Qed.
Lemma tx_keeps_attempt {A} I (m : Tx S A) : tx_keeps I m -> tx_keeps I (tx_attempt m).
Proof.
  intros Hm s a s' Hs. unfold tx_attempt. destruct (m s) as [[b s1]|e] eqn:E; [|by intros [= <- <-]].
  intros [= <- <-]. by eapply Hm.
Qed.
Lemma tx_keeps_when I c (m : Tx S unit) : tx_keeps I m -> tx_keeps I (tx_when c m).
Proof. destruct c; [done|]. intros _. apply tx_keeps_ret. Qed.
Lemma tx_keeps_each {A} I (f : A -> Tx S unit) l : (forall x, x ∈ l -> tx_keeps I (f x)) -> tx_keeps I (tx_each f l).
Proof.
  induction l as [|x l IH]; intros Hf; [apply tx_keeps_ret|]. apply tx_keeps_bind; [apply Hf; by left|].
  intros _. apply IH. intros y Hy. apply Hf. by right.
Qed.
Lemma tx_keeps_transaction {A} I (m : Tx S A) s : tx_keeps I m -> I s -> I (transaction m s).2.
Proof.
  intros Hm Hs. unfold transaction. destruct (m s) as [[a s']|e] eqn:E; [|done]. by eapply Hm.
Qed.
End TxFacts.
Lemma tx_keeps_on {S T A} (I : T -> Prop) (get : S -> T) (put : T -> S -> S) (m : Tx T A) :
  (forall t s, get (put t s) = t) -> tx_keeps I m -> tx_keeps (fun s => I (get s)) (tx_on get put m).
Proof.
  intros Hg Hm s a s' Hs. unfold tx_on. destruct (m (get s)) as [[b t]|e] eqn:E; [|done].
  intros [= <- <-]. rewrite Hg. by eapply Hm.
Qed.
#[export] Hint Resolve tx_keeps_ret tx_keeps_err tx_keeps_get tx_keeps_do tx_keeps_first tx_keeps_require tx_keeps_bind tx_keeps_on_err
  tx_keeps_attempt tx_keeps_when tx_keeps_each : aegis.

(** ** Facts on tables *)

Lemma res_wrap_ok {A} p (m : res A) a : res_wrap p m = Ok a <-> m = Ok a.
Proof. destruct m; simpl; split; congruence. Qed.
Lemma or_error_ok {A} (o : option A) e a : or_error o e = Ok a <-> o = Some a.
Proof. destruct o; simpl; split; congruence. Qed.


Lemma elem_of_concat_map {A B} (f : A -> list B) (l : list A) y :
  y ∈ concat (map f l) <-> exists x, x ∈ l /\ y ∈ f x.
Proof.
  rewrite list_elem_of_In, in_concat. split.
  - intros (l' & Hl & Hy). apply in_map_iff in Hl as (x & <- & Hx). exists x. by rewrite !list_elem_of_In.
  - intros (x & Hx & Hy). exists (f x). rewrite in_map_iff. rewrite <- !list_elem_of_In. split; [|done].
    exists x. by rewrite <- list_elem_of_In.
Qed.


(** ** Keys of tables *)

Section Keys.
Context {A K : Type} `{EqDecision K} (key : A -> option K).

Lemma keys_cons x (rows : list A) :
  omap key (x :: rows) = match key x with Some k => k :: omap key rows | None => omap key rows end.
Proof. done. Qed.

Lemma elem_of_keys k (rows : list A) : k ∈ omap key rows <-> exists x, x ∈ rows /\ key x = Some k.
Proof. apply list_elem_of_omap. Qed.

Lemma key_free_spec (rows : list A) x :
  key_free key rows x = true <-> forall k, key x = Some k -> k ∉ omap key rows.
Proof.
  unfold key_free. destruct (key x) as [k|]; [|split; done].
  rewrite negb_true_iff, <- not_true_iff_false, existsb_elem. split.
  - intros H k' [= <-] (y & Hy & E)%elem_of_keys. apply H. exists y. split; [done|]. by apply bool_decide_eq_true.
  - intros H (y & Hy & E%bool_decide_eq_true). apply (H k eq_refl), elem_of_keys. by exists y.
Qed.

Lemma keys_add (rows : list A) x :
  key_free key rows x = true -> NoDup (omap key rows) -> NoDup (omap key (rows ++ [x])).
Proof.
  rewrite key_free_spec. intros Hf Hnd. rewrite omap_app. simpl. destruct (key x) as [k|]; [|by rewrite app_nil_r].
  apply NoDup_app. split; [done|]. split; [|apply NoDup_singleton].
  intros k' Hk' ->%list_elem_of_singleton. by apply (Hf k).
Qed.

Lemma keys_kill (m : A -> bool) (kill : A -> A) (rows : list A) :
  (forall x, key (kill x) = None) -> NoDup (omap key rows) ->
  NoDup (omap key (map (fun x => if m x then kill x else x) rows)).
Proof.
  intros Hk Hnd. eapply sublist_NoDup; [exact Hnd|]. clear Hnd.
  induction rows as [|x rows IH]; [done|]. cbn [map]. rewrite !keys_cons.
  destruct (m x); [rewrite Hk; by destruct (key x); [apply sublist_cons|]|].
  destruct (key x); [by apply sublist_skip|done].
Qed.

Lemma keys_map (f : A -> A) (rows : list A) :
  (forall x, key (f x) = key x) -> omap key (map f rows) = omap key rows.
Proof.
  intros Hf. induction rows as [|x rows IH]; [done|]. cbn [map]. by rewrite !keys_cons, Hf, IH.
Qed.

Lemma save_row_absent (id : A -> Z) x (rows : list A) : id x ∉ map id rows -> save_row id x rows = rows.
Proof.
  induction rows as [|y rows IH]; intros Hn; [done|]. cbn [map save_row] in *.
  apply not_elem_of_cons in Hn as [Hy Hn]. destruct (Z.eqb_spec (id y) (id x)); [congruence|].
  f_equal. by apply IH.
Qed.

Lemma keys_save (id : A -> Z) x (rows : list A) :
  NoDup (map id rows) -> NoDup (omap key rows) ->
  key_free key (List.filter (fun y => negb (id y =? id x)) rows) x = true ->
  NoDup (omap key (save_row id x rows)).
Proof.
  rewrite key_free_spec. intros Hid Hnd Hf. induction rows as [|y rows IH]; [done|].
  cbn [map save_row List.filter] in *. apply NoDup_cons in Hid as [Hy Hid].
  assert (Hrest : NoDup (omap key rows)) by (rewrite keys_cons in Hnd; destruct (key y); [by apply NoDup_cons in Hnd as [_ ?]|done]).
  destruct (Z.eqb_spec (id y) (id x)) as [E|E]; cbn [negb] in Hf.
  - rewrite E in Hy. assert (Hs := save_row_absent id x rows Hy). unfold save_row in Hs. rewrite Hs.
    assert (Hfl : List.filter (fun z => negb (id z =? id x)) rows = rows).
    { clear -Hy. induction rows as [|z rows IH]; [done|]. simpl in *. apply not_elem_of_cons in Hy as [Hz Hy].
      destruct (Z.eqb_spec (id z) (id x)); [congruence|]. simpl. by rewrite IH. }
    rewrite Hfl in Hf. rewrite keys_cons. destruct (key x) as [k|]; [|done]. apply NoDup_cons. split; [by apply Hf|done].
  - assert (Hf' : forall k, key x = Some k -> key y <> Some k /\
              k ∉ omap key (List.filter (fun z => negb (id z =? id x)) rows)).
    { intros k Hk. specialize (Hf k Hk). rewrite keys_cons in Hf. destruct (key y) as [k'|]; [|done].
      apply not_elem_of_cons in Hf as [? ?]. split; [congruence|done]. }
    rewrite keys_cons. assert (Hsave : NoDup (omap key (save_row id x rows))) by (apply IH; [done..|]; intros k Hk; by apply Hf').
    rewrite keys_cons in Hnd. destruct (key y) as [k|] eqn:Ey; [|done]. apply NoDup_cons in Hnd as [Hk _].
    apply NoDup_cons. split; [|done]. intros (z & Hz & Ez)%elem_of_keys. unfold save_row in Hz.
    apply list_elem_of_fmap in Hz as (w & -> & Hw). destruct (id w =? id x).
    + destruct (Hf' k Ez) as [? _]. congruence.
    + apply Hk, elem_of_keys. by exists w.
Qed.

Lemma save_row_ids (id : A -> Z) x (rows : list A) : map id (save_row id x rows) = map id rows.
Proof.
  unfold save_row. rewrite map_map. apply map_ext. intros y. by destruct (Z.eqb_spec (id y) (id x)).
Qed.
End Keys.


Lemma nodup_key_inj {A K} `{EqDecision K} (key : A -> option K) (rows : list A) x y k :
  NoDup (omap key rows) -> x ∈ rows -> y ∈ rows -> key x = Some k -> key y = Some k -> x = y.
Proof.
  induction rows as [|z rows IH]; intros Hnd Hx Hy Ex Ey; [by apply not_elem_of_nil in Hx|].
  rewrite keys_cons in Hnd.
  assert (Hz : forall w, w ∈ rows -> key w = Some k -> key z = Some k -> False).
  { intros w Hw Ew Ez. rewrite Ez in Hnd. apply NoDup_cons in Hnd as [Hnd _]. apply Hnd, elem_of_keys. by exists w. }
  assert (Hrest : NoDup (omap key rows)) by (destruct (key z); [by apply NoDup_cons in Hnd as [_ ?]|done]).
  apply elem_of_cons in Hx as [->|Hx], Hy as [->|Hy]; [done|..]; try (exfalso; eauto; fail).
  by apply IH.
Qed.


Lemma nodup_map_inj {A B} (f : A -> B) l x y : NoDup (map f l) -> x ∈ l -> y ∈ l -> f x = f y -> x = y.
Proof.
  induction l as [|z l IH]; [by intros _ ?%not_elem_of_nil|]. cbn [map]. intros [Hz Hnd]%NoDup_cons Hx Hy E.
  apply elem_of_cons in Hx as [->|Hx], Hy as [->|Hy]; [done|..|by apply IH];
    exfalso; apply Hz; [rewrite E|rewrite <- E]; by apply list_elem_of_fmap_2.
Qed.

Lemma filter_twice {A} (p q : A -> bool) l : List.filter p (List.filter q l) = List.filter (fun x => q x && p x) l.
Proof. induction l as [|x l IH]; [done|]. simpl. destruct (q x); simpl; [destruct (p x)|]; by rewrite ?IH. Qed.

Lemma filter_split_length {A} (p : A -> bool) l :
  (length (List.filter p l) + length (List.filter (fun x => negb (p x)) l) = length l)%nat.
Proof. induction l as [|x l IH]; [done|]. simpl. destruct (p x); simpl; lia. Qed.

Lemma nodup_map_filter {A B} (f : A -> B) (p : A -> bool) l : NoDup (map f l) -> NoDup (map f (List.filter p l)).
Proof.
  induction l as [|x l IH]; [constructor|]. cbn [map List.filter]. intros [Hx Hnd]%NoDup_cons.
  destruct (p x); [|by apply IH]. cbn [map]. apply NoDup_cons. split; [|by apply IH].
  intros (y & E & Hy)%list_elem_of_fmap. apply Hx. rewrite E. apply list_elem_of_fmap_2.
  rewrite list_elem_of_In in Hy |- *. by apply filter_In in Hy as [? _].
Qed.

Lemma nodup_filter {A} (p : A -> bool) (l : list A) : NoDup l -> NoDup (List.filter p l).
Proof.
  induction 1 as [|x l Hx _ IH]; [constructor|]. simpl. destruct (p x); [|done]. apply NoDup_cons. split; [|done].
  rewrite list_elem_of_In, filter_In, <- list_elem_of_In. by intros [? _].
Qed.

Lemma filter_strongly_sorted {A} (R : A -> A -> Prop) (f : A -> bool) l :
  StronglySorted R l -> StronglySorted R (List.filter f l).
Proof.
  induction 1 as [|x l Hl IH Hx]; [constructor|]. simpl. destruct (f x); [|done]. constructor; [done|].
  rewrite Forall_forall in Hx |- *. intros y Hy. apply Hx. rewrite list_elem_of_In in Hy |- *.
  by apply filter_In in Hy as [? _].
Qed.
