(* ===== verification/Resolve.v ===== *)
(** * References by name and version ([module/container/resolve.go],
      [module/dataset/resolve.go])

    What the resolution of containers and the resolution of datasets share: the two maps
    that are built over the rows of a query, and the rows a user sees. *)

From S2P Require Import Prelude GoStrings Tables.
#[local] Open Scope Z_scope.

Section Maps.
Context {R A : Type} (name key : R -> string) (val : R -> A).

(** [flatMap]: the values under a name, in the order of the rows. *)
Definition flat_map_of (rows : list R) : gmap string (list A) :=
  fold_left (fun m r => <[name r := default [] (m !! name r) ++ [val r]]> m) rows ∅.
(** [hierarchicalMap]: under a name, the last value of a key. *)
Definition hierarchical_map_of (rows : list R) : gmap string (gmap string A) :=
  fold_left (fun m r => <[name r := <[key r := val r]> (default ∅ (m !! name r))]> m) rows ∅.

Lemma flat_map_from rows (m0 : gmap string (list A)) n :
  fold_left (fun m r => <[name r := default [] (m !! name r) ++ [val r]]> m) rows m0 !! n =
    match map val (List.filter (fun r => String.eqb (name r) n) rows) with
    | [] => m0 !! n
    | l => Some (default [] (m0 !! n) ++ l)
    end.
Proof.
  revert m0. induction rows as [|r rows IH]; intros m0; [done|]. cbn [fold_left List.filter].
  rewrite IH. destruct (String.eqb_spec (name r) n) as [<-|Hn].
  - rewrite lookup_insert_eq. cbn [map default from_option id].
    destruct (map val _) as [|x l]; [done|]. simpl. by rewrite <- app_assoc.
  - by rewrite lookup_insert_ne.
Qed.
Lemma flat_map_lookup rows n :
  flat_map_of rows !! n =
    match map val (List.filter (fun r => String.eqb (name r) n) rows) with [] => None | l => Some l end.
Proof. unfold flat_map_of. rewrite flat_map_from, lookup_empty. by destruct (map val _). Qed.

(** The first value is the one of the first row of the name. *)
Lemma flat_map_head (before : R -> R -> Prop) `{!Total before} rows n v l :
  flat_map_of rows !! n = Some (v :: l) ->
  exists r, r ∈ rows /\ val r = v /\ name r = n /\
    (StronglySorted before rows -> forall r', r' ∈ rows -> name r' = n -> before r r').
Proof.
  rewrite flat_map_lookup. set (fl := List.filter _ rows).
  assert (Hfl : forall r, r ∈ fl <-> r ∈ rows /\ name r = n).
  { intros r. subst fl. by rewrite !list_elem_of_In, filter_In, String.eqb_eq. }
  destruct fl as [|r fl'] eqn:E; simpl; [done|]. intros [= <- _].
  destruct (proj1 (Hfl r) ltac:(by left)) as [Hin Hn]. exists r. do 3 (split; [done|]).
  intros Hs r' Hin' Hn'. apply (filter_strongly_sorted _ (fun r => String.eqb (name r) n)) in Hs.
  fold fl in Hs. assert (Hm : r' ∈ r :: fl') by by apply Hfl. subst fl. rewrite E in Hs.
  inversion Hs as [|? ? _ Hall]; subst. apply elem_of_cons in Hm as [->|Hm].
  - by destruct (total before r r).
  - rewrite Forall_forall in Hall. by apply Hall.
Qed.

Definition in_hierarchy (m : gmap string (gmap string A)) n ver v : Prop :=
  exists vs, m !! n = Some vs /\ vs !! ver = Some v.
Lemma hierarchical_from rows (m0 : gmap string (gmap string A)) n ver v :
  in_hierarchy (fold_left (fun m r => <[name r := <[key r := val r]> (default ∅ (m !! name r))]> m) rows m0) n ver v ->
  (exists r, r ∈ rows /\ val r = v /\ name r = n /\ key r = ver) \/ in_hierarchy m0 n ver v.
Proof.
  revert m0. induction rows as [|w rows IH]; intros m0; cbn [fold_left]; [by right|].
  intros H. apply IH in H as [(r & Hin & Hc)|(vs & Hm & Hv)]; [left; exists r; split; [by right|done]|].
  apply lookup_insert_Some in Hm as [[<- <-]|[Hne Hm]]; [|right; by exists vs].
  apply lookup_insert_Some in Hv as [[<- <-]|[Hne Hv]]; [left; exists w; split; [by left|done]|].
  right. destruct (m0 !! name w) as [vs|] eqn:E; [by exists vs|]. simpl in Hv. by rewrite lookup_empty in Hv.
Qed.
Lemma hierarchical_sound rows n ver v :
  in_hierarchy (hierarchical_map_of rows) n ver v -> exists r, r ∈ rows /\ val r = v /\ name r = n /\ key r = ver.
Proof. intros [H|(vs & Hm & _)]%hierarchical_from; [done|]. by rewrite lookup_empty in Hm. Qed.
Lemma hierarchical_keeps rows (m0 : gmap string (gmap string A)) n ver :
  (exists v, in_hierarchy m0 n ver v) ->
  exists v, in_hierarchy (fold_left (fun m r => <[name r := <[key r := val r]> (default ∅ (m !! name r))]> m) rows m0) n ver v.
Proof.
  revert m0. induction rows as [|w rows IH]; intros m0 H; [done|]. cbn [fold_left]. apply IH.
  destruct H as (v & vs & Hm & Hv). destruct (decide (name w = n)) as [<-|Hn].
  - destruct (decide (key w = ver)) as [<-|Hw].
    + eexists (val w), _. rewrite lookup_insert_eq. split; [done|]. apply lookup_insert_eq.
    + eexists v, _. rewrite lookup_insert_eq. split; [done|]. rewrite lookup_insert_ne by done. by rewrite Hm.
  - exists v, vs. by rewrite lookup_insert_ne.
Qed.
Lemma hierarchical_complete rows r :
  r ∈ rows -> exists v, in_hierarchy (hierarchical_map_of rows) (name r) (key r) v.
Proof.
  unfold hierarchical_map_of. generalize (∅ : gmap string (gmap string A)) as m0.
  induction rows as [|w rows IH]; intros m0; [by intros ?%not_elem_of_nil|].
  intros [<-|Hin]%elem_of_cons; cbn [fold_left]; [|by apply IH].
  apply hierarchical_keeps. eexists (val r), _. rewrite lookup_insert_eq. split; [done|]. apply lookup_insert_eq.
Qed.
End Maps.

(** ** The rows a user sees *)

(** No user sees all rows, a user the public ones and those of a membership; the left join
    gives a row for each membership. *)
Definition seen_rows {U A} (userID : Z) (public : bool) (memberships : list U) (row : A) : list A :=
  if userID <=? 0 then [row]
  else match memberships with
       | [] => if public then [row] else []
       | l => map (fun _ => row) l
       end.
Lemma elem_of_seen_rows {U A} userID public (memberships : list U) (row x : A) :
  x ∈ seen_rows userID public memberships row <->
  x = row /\ (userID <= 0 \/ public = true \/ exists u, u ∈ memberships).
Proof.
  unfold seen_rows. destruct (Z.leb_spec userID 0).
  { rewrite list_elem_of_singleton. tauto. }
  destruct memberships as [|u l].
  - assert (Hn : ~ exists u : U, u ∈ []) by by intros (? & ?%not_elem_of_nil).
    destruct public; [rewrite list_elem_of_singleton|rewrite list_elem_of_In; simpl]; intuition (done || lia).
  - split.
    + intros (y & -> & Hy)%list_elem_of_fmap. split; [done|]. right; right. by exists y.
    + intros [-> _]. simpl. by left.
Qed.
