(* ===== verification/Containers.v ===== *)
(** * Containers ([module/container], [dto/container.go], [utils/version.go],
      [utils/docker.go], the hooks of [model/entity.go])

    The registry of containers and their versions: the tables with their unique keys,
    creation, update and deletion, the versions a user may use, and the resolution of
    the references of a request to versions.  A query that the server of the database
    refuses aborts its transaction and changes nothing, so that failure is not a case
    of its own here; the errors are those of the rows and of the unique keys. *)

From S2P Require Import Prelude GoStrings Consts PermissionTables Task Partial HelmValues Parameters Tables Resolve.
#[local] Open Scope Z_scope.

Definition enabled : Z := StatusType_code CommonEnabled.
Definition deleted : Z := StatusType_code CommonDeleted.

(** ** Versions and images *)

(** One [%d] of [fmt.Sscanf]: blanks, a sign, digits that fit an [int]. *)
Definition scan_int (l : list ascii) : option (Z * list ascii) :=
  let l := drop_while (fun c => Ascii.eqb c " " || Ascii.eqb c "009") l in
  let '(sign, l) := match l with
                    | "-"%char :: l => ("-"%char :: nil, l)
                    | "+"%char :: l => (nil, l)
                    | _ => (nil, l)
                    end in
  let '(digits, rest) := span is_digit l in
  match digits with
  | [] => None
  | _ => option_map (fun n => (n, rest)) (atoi (of_chars (sign ++ digits)))
  end.
Definition scan_char (c : ascii) (l : list ascii) : option (list ascii) :=
  match l with
  | c' :: rest => if Ascii.eqb c c' then Some rest else None
  | [] => None
  end.
(** [ParseSemanticVersion]: what follows the three numbers is not looked at. *)
Definition ParseSemanticVersion (version : string) : res (Z * Z * Z) :=
  or_error
    (scan_int (chars version) ≫= fun '(major, l) =>
     scan_char "." l ≫= fun l => scan_int l ≫= fun '(minor, l) =>
     scan_char "." l ≫= fun l => scan_int l ≫= fun '(patch, _) =>
     Some (major, minor, patch)) "input does not match format".

(** [reference.ParseNamed] of the distribution library: domain, path and tag. *)
Class ImageNames := {
  ParseNamed : string -> option (string * string * option string)
}.
(** The path of a reference is not empty and starts with a component. *)
Class ImageNamesLaws `{ImageNames} := {
  ParseNamed_path s d p t : ParseNamed s = Some (d, p, t) ->
    exists c rest, split "/" p = c :: rest /\ c <> ""
}.

Record image := mkImage { i_Registry : string; i_Namespace : string; i_Repository : string; i_Tag : string }.

Definition ParseFullImageRefernce `{ImageNames} (fullRef : string) : res image :=
  let? named := or_error (ParseNamed fullRef) "invalid image reference format" in
  let '(registry, path, tagged) := named in
  let tag := default "latest" tagged in
  match split "/" path with
  | [repository] => Ok (mkImage registry "" repository tag)
  | namespace :: rest => Ok (mkImage registry namespace (join "/" rest) tag)
  | [] => Ok (mkImage registry "" "" tag)        (* not reached: a split is never empty *)
  end.

(** ** Tables *)

Record Container := mkContainer {
  c_ID : Z; c_Name : string; c_Type : Z; c_README : string; c_IsPublic : bool; c_Status : Z
}.
Record UserContainer := mkUserContainer {
  uc_UserID : Z; uc_ContainerID : Z; uc_RoleID : Z; uc_Status : Z
}.
Record RoleRow := mkRoleRow { ro_ID : Z; ro_Name : string; ro_Status : Z }.

Record cdb := mkCdb {
  t_containers : list Container;
  t_versions : list ContainerVersion;
  t_user_containers : list UserContainer;
  t_roles : list RoleRow;
  t_params : list ParameterConfig;
  t_env_links : list Link;              (* version, parameter *)
  t_container_labels : list (Z * Z);    (* container, label *)
  t_next : Z                            (* the next identifier *)
}.
Definition set_containers (l : list Container) (d : cdb) : cdb :=
  mkCdb l (t_versions d) (t_user_containers d) (t_roles d) (t_params d) (t_env_links d) (t_container_labels d) (t_next d).
Definition set_versions (l : list ContainerVersion) (d : cdb) : cdb :=
  mkCdb (t_containers d) l (t_user_containers d) (t_roles d) (t_params d) (t_env_links d) (t_container_labels d) (t_next d).
Definition set_user_containers (l : list UserContainer) (d : cdb) : cdb :=
  mkCdb (t_containers d) (t_versions d) l (t_roles d) (t_params d) (t_env_links d) (t_container_labels d) (t_next d).
Definition set_params (l : list ParameterConfig) (d : cdb) : cdb :=
  mkCdb (t_containers d) (t_versions d) (t_user_containers d) (t_roles d) l (t_env_links d) (t_container_labels d) (t_next d).
Definition set_env_links (l : list Link) (d : cdb) : cdb :=
  mkCdb (t_containers d) (t_versions d) (t_user_containers d) (t_roles d) (t_params d) l (t_container_labels d) (t_next d).
Definition set_container_labels (l : list (Z * Z)) (d : cdb) : cdb :=
  mkCdb (t_containers d) (t_versions d) (t_user_containers d) (t_roles d) (t_params d) (t_env_links d) l (t_next d).
Definition take_id (d : cdb) : Z * cdb :=
  (t_next d, mkCdb (t_containers d) (t_versions d) (t_user_containers d) (t_roles d) (t_params d)
               (t_env_links d) (t_container_labels d) (t_next d + 1)).

(** Rows with other fields. *)
Definition c_with_id (id : Z) (c : Container) : Container :=
  mkContainer id (c_Name c) (c_Type c) (c_README c) (c_IsPublic c) (c_Status c).
Definition c_with_status (s : Z) (c : Container) : Container :=
  mkContainer (c_ID c) (c_Name c) (c_Type c) (c_README c) (c_IsPublic c) s.
Definition uc_with_status (s : Z) (u : UserContainer) : UserContainer :=
  mkUserContainer (uc_UserID u) (uc_ContainerID u) (uc_RoleID u) s.
Definition cv_with_status (s : Z) (v : ContainerVersion) : ContainerVersion :=
  mkVersion (cv_ID v) (cv_Name v) (cv_NameMajor v) (cv_NameMinor v) (cv_NamePatch v) (cv_GithubLink v)
    (cv_Registry v) (cv_Namespace v) (cv_Repository v) (cv_Tag v) (cv_Command v) (cv_Usage v)
    (cv_ContainerID v) (cv_UserID v) s (cv_ActiveVersionKey v).
Definition cv_with_image (i : image) (v : ContainerVersion) : ContainerVersion :=
  mkVersion (cv_ID v) (cv_Name v) (cv_NameMajor v) (cv_NameMinor v) (cv_NamePatch v) (cv_GithubLink v)
    (i_Registry i) (i_Namespace i) (i_Repository i) (i_Tag i) (cv_Command v) (cv_Usage v)
    (cv_ContainerID v) (cv_UserID v) (cv_Status v) (cv_ActiveVersionKey v).

(** The generated columns of the unique keys. *)
Definition active_name (c : Container) : option string :=
  if 0 <=? c_Status c then Some (c_Name c) else None.
Definition active_version_key (v : ContainerVersion) : option (Z * string) :=
  if 0 <=? cv_Status v then Some (cv_ContainerID v, cv_Name v) else None.
Definition active_user_container (u : UserContainer) : option (Z * Z * Z) :=
  if 0 <=? uc_Status u then Some (uc_UserID u, uc_ContainerID u, uc_RoleID u) else None.
(** ** Queries *)

Definition getRoleByName (d : cdb) (name : string) : option RoleRow :=
  find (fun r => String.eqb (ro_Name r) name && negb (ro_Status r =? deleted)) (t_roles d).
Definition getContainerByID (d : cdb) (id : Z) : option Container :=
  find (fun c => (c_ID c =? id) && negb (c_Status c =? deleted)) (t_containers d).
Definition getContainerVersionByID (d : cdb) (id : Z) : option ContainerVersion :=
  find (fun v => cv_ID v =? id) (t_versions d).

(** The rows a user sees: no user sees them all, a user the public ones and those of
    an enabled membership.  The left join gives a row for each membership. *)
Definition memberships (d : cdb) (userID : Z) (c : Container) : list UserContainer :=
  List.filter (fun u => (uc_ContainerID u =? c_ID c) && (uc_UserID u =? userID) && (uc_Status u =? enabled))
    (t_user_containers d).
Definition visible_rows {A} (d : cdb) (userID : Z) (c : Container) (row : A) : list A :=
  seen_rows userID (c_IsPublic c) (memberships d userID c) row.

Definition newer_or_same (a b : ContainerVersion * Container) : bool :=
  let ka := (cv_ContainerID a.1, cv_NameMajor a.1, cv_NameMinor a.1, cv_NamePatch a.1) in
  let kb := (cv_ContainerID b.1, cv_NameMajor b.1, cv_NameMinor b.1, cv_NamePatch b.1) in
  let '(i, x, y, z) := ka in let '(j, u, v, w) := kb in
  if i =? j then if x =? u then if y =? v then w <=? z else v <? y else u <? x else j <? i.
Definition row_before (a b : ContainerVersion * Container) : Prop := newer_or_same a b = true.
#[export] Instance row_before_dec a b : Decision (row_before a b).
Proof. unfold row_before. apply _. Defined.

(** [batchGetContainerVersions]: the rows of the join, newest versions of a container
    first. *)
Definition version_rows (d : cdb) (containerType : Z) (names : list string) (userID : Z)
  : list (ContainerVersion * Container) :=
  concat (map (fun v =>
    if cv_Status v =? enabled then
      concat (map (fun c =>
        if (c_ID c =? cv_ContainerID v) && (c_Type c =? containerType)
           && existsb (String.eqb (c_Name c)) names && (c_Status c =? enabled)
        then visible_rows d userID c (v, c) else []) (t_containers d))
    else []) (t_versions d)).
Definition batchGetContainerVersions (d : cdb) (containerType : Z) (containerNames : list string) (userID : Z)
  : list (ContainerVersion * Container) :=
  match containerNames with
  | [] => []
  | _ => merge_sort row_before (version_rows d containerType containerNames userID)
  end.

Definition checkContainerExistsWithDifferentType (d : cdb) (containerName : string) (requestedType userID : Z)
  : option Z :=
  head (concat (map (fun c =>
    if String.eqb (c_Name c) containerName && negb (c_Type c =? requestedType) && (c_Status c =? enabled)
    then visible_rows d userID c (c_Type c) else []) (t_containers d))).

(** ** References *)

Record ContainerRef := mkRef { rf_Name : string; rf_Version : string }.

Definition ContainerRef_Validate (ref : ContainerRef) : res unit :=
  require (negb (String.eqb (rf_Name ref) "")) "algorithm name is required" ;;?
  (if negb (String.eqb (rf_Version ref) "") then
     let? v := res_wrap ("invalid semantic version: " +:+ rf_Version ref +:+ ", ")
                 (ParseSemanticVersion (rf_Version ref)) in Ok tt
   else Ok tt).
Definition ContainerSpec_Validate (ref : ContainerRef) (envVars : list ParameterSpec) : res unit :=
  ContainerRef_Validate ref ;;?
  for_each (fun _ spec =>
    res_wrap ("invalid environment variable key " +:+ s_Key spec +:+ ": ") (IsValidEnvVar (s_Key spec))) envVars.

(** ** Resolution *)

Definition quoted (s : string) : string := "'" +:+ s +:+ "'".
Definition go_names (l : list string) : string := "[" +:+ join " " l +:+ "]".

(** The versions of a container under its name: all of them in the order of the query,
    and by the name of the version (the last one of a name). *)
Definition flatMap (rows : list (ContainerVersion * Container)) : gmap string (list ContainerVersion) :=
  flat_map_of (fun r => c_Name r.2) fst rows.
Definition hierarchicalMap (rows : list (ContainerVersion * Container))
  : gmap string (gmap string ContainerVersion) :=
  hierarchical_map_of (fun r => c_Name r.2) (fun r => cv_Name r.1) fst rows.

Definition not_found {A} (d : cdb) (containerType userID : Z) (ref : ContainerRef)
    (availableContainers : list string) : res A :=
  let typeName := GetContainerTypeName containerType in
  Err (typeName +:+ " container " +:+ quoted (rf_Name ref) +:+ " not found" +:+
       match availableContainers with
       | [] =>
           match checkContainerExistsWithDifferentType d (rf_Name ref) containerType userID with
           | Some actualType =>
               ": container exists but has type " +:+ quoted (GetContainerTypeName actualType)
                 +:+ ", not " +:+ quoted typeName
           | None => ": no " +:+ typeName +:+ " containers available in database for user " +:+ itoa userID
           end
       | _ => " (available containers: " +:+ go_names availableContainers +:+ ")"
       end).

Definition resolve_ref (d : cdb) (containerType userID : Z)
    (flat : gmap string (list ContainerVersion)) (hierarchical : gmap string (gmap string ContainerVersion))
    (ref : ContainerRef) : P ContainerVersion :=
  let available := (map_to_list hierarchical).*1 in
  if negb (String.eqb (rf_Version ref) "") then
    match hierarchical !! rf_Name ref with
    | None => p_lift (not_found d containerType userID ref available)
    | Some versions =>
        p_lift (or_error (versions !! rf_Version ref)
          (GetContainerTypeName containerType +:+ " container version not found: " +:+ rf_Name ref +:+ ":" +:+
           rf_Version ref +:+ " (available versions for " +:+ rf_Name ref +:+ ": " +:+
           go_names (map_to_list versions).*1 +:+ ")"))
    end
  else
    match flat !! rf_Name ref with
    | None => p_lift (not_found d containerType userID ref available)
    | Some versions => p_get (head versions)
    end.

(** [ResolveContainerVersions]: the result for each reference, in order. *)
Definition required_names (refs : list ContainerRef) : list string :=
  elements (list_to_set (C := gset string) (filter (fun n => n <> "") (map rf_Name refs))).
Fixpoint resolve_all (f : ContainerRef -> P ContainerVersion) (refs : list ContainerRef)
  : P (list (ContainerRef * ContainerVersion)) :=
  match refs with
  | [] => p_ret []
  | ref :: rest => let> v := f ref in let> l := resolve_all f rest in p_ret ((ref, v) :: l)
  end.
Definition ResolveContainerVersions (d : cdb) (refs : list ContainerRef) (containerType userID : Z)
  : P (list (ContainerRef * ContainerVersion)) :=
  let rows := batchGetContainerVersions d containerType (required_names refs) userID in
  resolve_all (resolve_ref d containerType userID (flatMap rows) (hierarchicalMap rows)) refs.

(** ** Creation *)

Section Create.
Context `{ImageNames} (system_is_valid : string -> bool).

Definition Container_BeforeCreate (c : Container) : res unit :=
  if c_Type c =? ContainerType_code ContainerTypePedestal then
    require (system_is_valid (c_Name c)) ("invalid pedestal name: " +:+ c_Name c)
  else Ok tt.

(** A version as a request gives it: with an image, not yet taken apart, and its
    environment variables. *)
Record NewVersion := mkNewVersion {
  nv_Name : string; nv_ImageRef : string; nv_Command : string; nv_EnvVars : list ParameterConfig
}.

(** The hook that fills the columns of the name and of the image. *)
Definition ContainerVersion_BeforeCreate (containerID userID : Z) (nv : NewVersion) : res ContainerVersion :=
  let? numbers :=
    if negb (String.eqb (nv_Name nv) "") then
      res_wrap "invalid semantic version: " (ParseSemanticVersion (nv_Name nv))
    else Ok (0, 0, 0) in
  let? img :=
    if negb (String.eqb (nv_ImageRef nv) "") then
      res_wrap "invalid image reference: " (ParseFullImageRefernce (nv_ImageRef nv))
    else Ok (mkImage "" "" "" "") in
  let '(major, minor, patch) := numbers in
  Ok (mkVersion 0 (nv_Name nv) major minor patch "" (i_Registry img) (i_Namespace img) (i_Repository img)
        (i_Tag img) (nv_Command nv) 0 containerID userID enabled "").

Definition v_with_id (id : Z) (v : ContainerVersion) : ContainerVersion :=
  mkVersion id (cv_Name v) (cv_NameMajor v) (cv_NameMinor v) (cv_NamePatch v) (cv_GithubLink v)
    (cv_Registry v) (cv_Namespace v) (cv_Repository v) (cv_Tag v) (cv_Command v) (cv_Usage v)
    (cv_ContainerID v) (cv_UserID v) (cv_Status v) (cv_ActiveVersionKey v).

(** [createContainer] and [createUserContainer]: one row each. *)
Definition createContainer (d : cdb) (c : Container) : res (Z * cdb) :=
  Container_BeforeCreate c ;;?
  require (key_free active_name (t_containers d) c) "duplicated key" ;;?
  let '(id, d) := take_id d in
  Ok (id, set_containers (t_containers d ++ [c_with_id id c]) d).
Definition createUserContainer (d : cdb) (u : UserContainer) : res cdb :=
  require (key_free active_user_container (t_user_containers d) u) "duplicated key" ;;?
  Ok (set_user_containers (t_user_containers d ++ [u]) d).

(** [batchCreateContainerVersions]: the hooks of all rows, then the rows. *)
Fixpoint before_create_all (containerID userID : Z) (nvs : list NewVersion) : res (list ContainerVersion) :=
  match nvs with
  | [] => Ok []
  | nv :: rest =>
      let? v := ContainerVersion_BeforeCreate containerID userID nv in
      let? l := before_create_all containerID userID rest in
      Ok (v :: l)
  end.
Fixpoint insert_versions (d : cdb) (vs : list ContainerVersion) : res (list Z * cdb) :=
  match vs with
  | [] => Ok ([], d)
  | v :: rest =>
      require (key_free active_version_key (t_versions d) v) "duplicated key" ;;?
      let '(id, d) := take_id d in
      let? r := insert_versions (set_versions (t_versions d ++ [v_with_id id v]) d) rest in
      Ok (id :: r.1, r.2)
  end.
Definition batchCreateContainerVersions (d : cdb) (containerID userID : Z) (nvs : list NewVersion)
  : res (list Z * cdb) :=
  require (negb (length nvs =? 0)%nat) "no container versions to create" ;;?
  let? vs := before_create_all containerID userID nvs in
  insert_versions d vs.

(** Parameters are shared: one is added when none has its key, type and category. *)
Definition same_config (p q : ParameterConfig) : bool :=
  String.eqb (pc_Key p) (pc_Key q) && (pc_Type p =? pc_Type q) && (pc_Category p =? pc_Category q).
Definition pc_with_id (id : Z) (p : ParameterConfig) : ParameterConfig :=
  mkParameterConfig id (pc_Key p) (pc_Type p) (pc_Category p) (pc_DefaultValue p) (pc_TemplateString p)
    (pc_Required p) (pc_Overridable p).
Definition insert_param (d : cdb) (p : ParameterConfig) : cdb :=
  if existsb (same_config p) (t_params d) then d
  else let '(id, d) := take_id d in set_params (t_params d ++ [pc_with_id id p]) d.
Definition batchCreateOrFindParameterConfigs (d : cdb) (params : list ParameterConfig) : res cdb :=
  for_each (fun _ => ParameterConfig_BeforeCreate) params ;;?
  Ok (fold_left insert_param params d).
Definition listParameterConfigsByKeys (d : cdb) (configs : list ParameterConfig) : list ParameterConfig :=
  List.filter (fun p => existsb (same_config p) configs) (t_params d).

(** The key of the map from parameters to identifiers. *)
Definition config_key (p : ParameterConfig) : string :=
  pc_Key p +:+ ":" +:+ itoa (pc_Type p) +:+ ":" +:+ itoa (pc_Category p).
Definition configMap (configs : list ParameterConfig) : gmap string Z :=
  fold_left (fun m c => <[config_key c := pc_ID c]> m) configs ∅.

(** [OnConflict{DoNothing: true}]: a link that is there is not added again. *)
Definition insert_link (links : list Link) (l : Link) : list Link :=
  if existsb (fun l' => (l_Owner l' =? l_Owner l) && (l_Param l' =? l_Param l)) links then links else links ++ [l].
Fixpoint env_relations (configs : gmap string Z) (items : list (Z * ParameterConfig)) : res (list Link) :=
  match items with
  | [] => Ok []
  | (versionID, cfg) :: rest =>
      let? paramID := or_error (configs !! config_key cfg)
                        ("parameter config not found after creation: " +:+ config_key cfg) in
      let? l := env_relations configs rest in
      Ok (mkLink versionID paramID :: l)
  end.

(** [createContainerVersionsCore] for versions without a chart. *)
Definition env_items (ids : list Z) (nvs : list NewVersion) : list (Z * ParameterConfig) :=
  concat (zip_with (fun id nv => map (fun p => (id, p)) (nv_EnvVars nv)) ids nvs).
Definition createContainerVersionsCore (d : cdb) (containerID userID : Z) (nvs : list NewVersion)
  : res (list Z * cdb) :=
  match nvs with
  | [] => Ok ([], d)
  | _ =>
      let? r := res_wrap "failed to create container versions: "
                  (batchCreateContainerVersions d containerID userID nvs) in
      let '(ids, d) := r in
      let items := env_items ids nvs in
      match items with
      | [] => Ok (ids, d)
      | _ =>
          let envVars := items.*2 in
          let? d := res_wrap "failed to create parameter configs: " (batchCreateOrFindParameterConfigs d envVars) in
          let configs := configMap (listParameterConfigsByKeys d envVars) in
          let? relations := env_relations configs items in
          Ok (ids, set_env_links (fold_left insert_link relations (t_env_links d)) d)
      end
  end.

(** [createContainerCore]. *)
Definition ErrAlreadyExists : string := "record already exists".
Definition createContainerCore (d : cdb) (container : Container) (nvs : list NewVersion) (userID : Z)
  : res (Z * cdb) :=
  let? role := or_error (getRoleByName d RoleContainerAdmin) "role not found" in
  let? r := match createContainer d container with
            | Ok r => Ok r
            | Err e => if String.eqb e "duplicated key" then Err ErrAlreadyExists
                       else Err ("failed to create container: " +:+ e)
            end in
  let '(containerID, d) := r in
  let? d := res_wrap "failed to associate container with user: "
              (createUserContainer d (mkUserContainer userID containerID (ro_ID role) enabled)) in
  match nvs with
  | [] => Ok (containerID, d)
  | _ =>
      let? r := res_wrap "failed to create container versions: "
                  (createContainerVersionsCore d containerID userID nvs) in
      Ok (containerID, r.2)
  end.

(** The operations of the service: a transaction keeps its changes when it ends without
    an error. *)
Definition in_transaction {A} (d : cdb) (r : res (A * cdb)) : res A * cdb :=
  match r with
  | Ok (a, d') => (Ok a, d')
  | Err e => (Err e, d)
  end.

Definition CreateContainer (d : cdb) (container : Container) (nvs : list NewVersion) (userID : Z) : res Z * cdb :=
  in_transaction d (res_wrap "failed to create container: " (createContainerCore d container nvs userID)).

Definition CreateContainerVersion (d : cdb) (nv : NewVersion) (containerID userID : Z) : res Z * cdb :=
  in_transaction d
    (let? r := res_wrap "failed to create container version: "
                 (createContainerVersionsCore d containerID userID [nv]) in
     let? id := or_error (head r.1) "no version" in
     Ok (id, r.2)).
End Create.

(** ** Update and deletion *)

Definition batchDeleteContainerVersions (d : cdb) (containerID : Z) : Z * cdb :=
  let '(n, l) := soft_delete (fun v => (cv_ContainerID v =? containerID) && negb (cv_Status v =? deleted))
                   (cv_with_status deleted) (t_versions d) in (n, set_versions l d).
Definition removeUsersFromContainer (d : cdb) (containerID : Z) : Z * cdb :=
  let '(n, l) := soft_delete (fun u => (uc_ContainerID u =? containerID) && negb (uc_Status u =? deleted))
                   (uc_with_status deleted) (t_user_containers d) in (n, set_user_containers l d).
Definition clearContainerLabels (d : cdb) (containerIDs labelIDs : list Z) : cdb :=
  match containerIDs with
  | [] => d
  | _ =>
      set_container_labels
        (List.filter (fun l => negb (existsb (Z.eqb l.1) containerIDs &&
                                match labelIDs with [] => true | _ => existsb (Z.eqb l.2) labelIDs end))
           (t_container_labels d)) d
  end.
Definition deleteContainer (d : cdb) (containerID : Z) : Z * cdb :=
  let '(n, l) := soft_delete (fun c => (c_ID c =? containerID) && negb (c_Status c =? deleted))
                   (c_with_status deleted) (t_containers d) in (n, set_containers l d).
Definition deleteContainerVersion (d : cdb) (versionID : Z) : Z * cdb :=
  let '(n, l) := soft_delete (fun v => (cv_ID v =? versionID) && negb (cv_Status v =? deleted))
                   (cv_with_status deleted) (t_versions d) in (n, set_versions l d).

Definition ErrNotFound : string := "record not found".

Definition DeleteContainer (d : cdb) (containerID : Z) : res unit * cdb :=
  in_transaction d
    (let '(_, d) := batchDeleteContainerVersions d containerID in
     let '(_, d) := removeUsersFromContainer d containerID in
     let d := clearContainerLabels d [containerID] [] in
     let '(rows, d) := deleteContainer d containerID in
     require (negb (rows =? 0)) ErrNotFound ;;?
     Ok (tt, d)).
Definition DeleteContainerVersion (d : cdb) (versionID : Z) : res unit * cdb :=
  let '(rows, d) := deleteContainerVersion d versionID in
  (require (negb (rows =? 0)) ErrNotFound, d).

Definition updateContainer (d : cdb) (c : Container) : res cdb :=
  require (key_free active_name (List.filter (fun y => negb (c_ID y =? c_ID c)) (t_containers d)) c)
    "duplicated key" ;;?
  Ok (set_containers (save_row c_ID c (t_containers d)) d).

Record UpdateContainerReq := mkUpdateContainer {
  up_README : option string; up_IsPublic : option bool; up_Status : option Z
}.
Definition validateStatus (statusPtr : option Z) (isMutation : bool) : res unit :=
  match statusPtr with
  | None => Ok tt
  | Some status =>
      require (existsb (fun s => StatusType_code s =? status) ValidStatuses) "invalid status value" ;;?
      require (negb (isMutation && (status =? deleted)))
        "status value cannot be set to deleted directly through this update/create operation"
  end.
Definition UpdateContainerReq_Validate (req : UpdateContainerReq) : res unit := validateStatus (up_Status req) true.
Definition PatchContainerModel (req : UpdateContainerReq) (target : Container) : Container :=
  mkContainer (c_ID target) (c_Name target) (c_Type target) (default (c_README target) (up_README req))
    (default (c_IsPublic target) (up_IsPublic req)) (default (c_Status target) (up_Status req)).
Definition UpdateContainer (d : cdb) (req : UpdateContainerReq) (containerID : Z) : res Container * cdb :=
  in_transaction d
    (let? c := or_error (getContainerByID d containerID) ErrNotFound in
     let c := PatchContainerModel req c in
     let? d := res_wrap "failed to update container: " (updateContainer d c) in
     Ok (c, d)).

(** [SetContainerVersionImage]. *)
Definition SetContainerVersionImageReq_Validate (req : image) : res image :=
  let req := mkImage (trim_space (i_Registry req)) (trim_space (i_Namespace req))
               (trim_space (i_Repository req)) (trim_space (i_Tag req)) in
  let req := if String.eqb (i_Registry req) ""
             then mkImage "docker.io" (i_Namespace req) (i_Repository req) (i_Tag req) else req in
  require (negb (String.eqb (i_Repository req) "")) "repository is required" ;;?
  require (negb (String.eqb (i_Tag req) "")) "tag is required" ;;?
  Ok req.
Definition updateContainerVersionImageColumns (d : cdb) (versionID : Z) (req : image) : Z * cdb :=
  (Z.of_nat (length (List.filter (fun v => cv_ID v =? versionID) (t_versions d))),
   set_versions (map (fun v => if cv_ID v =? versionID then cv_with_image req v else v) (t_versions d)) d).
Definition SetContainerVersionImage (d : cdb) (req : image) (versionID : Z) : res ContainerVersion * cdb :=
  in_transaction d
    (let? v := or_error (getContainerVersionByID d versionID) ErrNotFound in
     let '(rows, d) := updateContainerVersionImageColumns d versionID req in
     require (negb (rows =? 0)) ErrNotFound ;;?
     let? refreshed := or_error (getContainerVersionByID d versionID) ErrNotFound in
     Ok (refreshed, d)).

(** ** The rows of the query *)

Definition visible (d : cdb) (userID : Z) (c : Container) : Prop :=
  userID <= 0 \/ c_IsPublic c = true \/
  exists u, u ∈ t_user_containers d /\ uc_ContainerID u = c_ID c /\ uc_UserID u = userID /\ uc_Status u = enabled.

Lemma elem_of_visible_rows {A} d userID c (row x : A) :
  x ∈ visible_rows d userID c row <-> x = row /\ visible d userID c.
Proof.
  unfold visible_rows, visible. rewrite elem_of_seen_rows.
  assert (Hm : (exists u, u ∈ t_user_containers d /\ uc_ContainerID u = c_ID c /\ uc_UserID u = userID
                          /\ uc_Status u = enabled) <-> exists u, u ∈ memberships d userID c).
  { split; intros (u & Hu); exists u; revert Hu; unfold memberships;
      rewrite (list_elem_of_In (List.filter _ _) u), filter_In, <- list_elem_of_In, !andb_true_iff, !Z.eqb_eq; tauto. }
  by rewrite Hm.
Qed.

(** A row of the query: an enabled version with its enabled container of the type and
    of one of the names, which the user sees. *)
Definition usable (d : cdb) (containerType userID : Z) (v : ContainerVersion) (c : Container) : Prop :=
  v ∈ t_versions d /\ cv_Status v = enabled /\ c ∈ t_containers d /\ c_ID c = cv_ContainerID v /\
  c_Type c = containerType /\ c_Status c = enabled /\ visible d userID c.

Lemma elem_of_version_rows d ty names userID v c :
  (v, c) ∈ version_rows d ty names userID <-> usable d ty userID v c /\ c_Name c ∈ names.
Proof.
  unfold version_rows, usable. rewrite elem_of_concat_map. split.
  - intros (v' & Hv & Hr). destruct (cv_Status v' =? enabled) eqn:Es; [|by apply not_elem_of_nil in Hr].
    apply elem_of_concat_map in Hr as (c' & Hc & Hr).
    destruct (_ && _) eqn:E in Hr; [|by apply not_elem_of_nil in Hr]. bool_to_prop.
    apply elem_of_visible_rows in Hr as [[= -> ->] Hvis].
    match goal with H : existsb _ _ = true |- _ => apply existsb_elem in H as (n & Hn & En) end.
    apply String.eqb_eq in En as ->. done.
  - intros [(Hv & Hs & Hc & Hid & Hty & Hcs & Hvis) Hn]. exists v. split; [done|].
    rewrite Hs, Z.eqb_refl. apply elem_of_concat_map. exists c. split; [done|].
    assert (Hex : existsb (String.eqb (c_Name c)) names = true).
    { apply existsb_elem. exists (c_Name c). split; [done|apply String.eqb_refl]. }
    rewrite Hid, Hty, Hcs, Hex, !Z.eqb_refl. simpl. by apply elem_of_visible_rows.
Qed.

Lemma elem_of_batch d ty names userID v c :
  (v, c) ∈ batchGetContainerVersions d ty names userID <-> usable d ty userID v c /\ c_Name c ∈ names.
Proof.
  unfold batchGetContainerVersions. destruct names as [|n names].
  - split; [by intros ?%not_elem_of_nil|]. by intros [_ ?%not_elem_of_nil].
  - rewrite merge_sort_Permutation. apply elem_of_version_rows.
Qed.

(** *** The maps of the resolution *)

(** *** The order of the query *)

#[export] Instance row_before_trans : Transitive row_before.
Proof.
  intros [a ca] [b cb] [c cc]. unfold row_before, newer_or_same. cbn [fst].
  intros H1 H2. repeat case_match; bool_to_prop; try done; lia.
Qed.
#[export] Instance row_before_total : Total row_before.
Proof.
  intros [a ca] [b cb]. unfold row_before, newer_or_same. cbn [fst].
  repeat case_match; bool_to_prop; try lia; rewrite ?Z.leb_le, ?Z.ltb_lt; lia.
Qed.

Lemma batch_sorted d ty names userID : StronglySorted row_before (batchGetContainerVersions d ty names userID).
Proof. unfold batchGetContainerVersions. destruct names; [constructor|]. apply StronglySorted_merge_sort; apply _. Qed.

Lemma elem_of_required n refs :
  n ∈ required_names refs <-> n <> "" /\ exists ref, ref ∈ refs /\ rf_Name ref = n.
Proof.
  unfold required_names. rewrite elem_of_elements, elem_of_list_to_set, list_elem_of_filter. split.
  - intros [Hn (ref & -> & Hr)%list_elem_of_fmap]. eauto.
  - intros [Hn (ref & Hr & <-)]. split; [done|]. by apply list_elem_of_fmap_2.
Qed.

Lemma resolve_all_ok f refs l :
  resolve_all f refs = Returns (Ok l) <-> Forall2 (fun ref r => r.1 = ref /\ f ref = Returns (Ok r.2)) refs l.
Proof.
  revert l. induction refs as [|ref refs IH]; intros l; cbn [resolve_all].
  - split; [intros [= <-]; constructor|by intros ->%Forall2_nil_inv_l].
  - rewrite p_bind_ok. split.
    + intros (v & Hv & Hr). rewrite p_bind_ok in Hr. destruct Hr as (l' & Hl & [= <-]).
      constructor; [done|]. by apply IH.
    + intros H. inversion H as [|? [ref' v] ? l' [Hr Hv] Hl]; subst. simpl in *. subst. exists v. split; [done|].
      rewrite p_bind_ok. exists l'. split; [|done]. by apply IH.
Qed.

(** What one reference resolves to. *)
Lemma resolve_ref_ok d ty userID refs ref v :
  let rows := batchGetContainerVersions d ty (required_names refs) userID in
  resolve_ref d ty userID (flatMap rows) (hierarchicalMap rows) ref = Returns (Ok v) ->
  exists c, (v, c) ∈ rows /\ c_Name c = rf_Name ref /\
    (rf_Version ref <> "" -> cv_Name v = rf_Version ref) /\
    (rf_Version ref = "" -> forall v' c', (v', c') ∈ rows -> c_Name c' = rf_Name ref -> row_before (v, c) (v', c')).
Proof.
  intros rows. unfold resolve_ref. destruct (String.eqb_spec (rf_Version ref) "") as [E|E]; simpl.
  - destruct (flatMap rows !! rf_Name ref) as [[|w l]|] eqn:Ef; [done| |done]. intros [= ->].
    apply (flat_map_head _ _ row_before) in Ef as ([w c] & Hc & Hv & Hn & Hs). simpl in Hv, Hn. subst w.
    exists c. split; [done|]. split; [done|]. split; [done|]. intros _ v' c' Hin Hn'. by apply (Hs (batch_sorted _ _ _ _) (v', c')).
  - destruct (hierarchicalMap rows !! rf_Name ref) as [vs|] eqn:Eh; [|done].
    destruct (vs !! rf_Version ref) as [w|] eqn:Ev; [|done]. intros [= ->].
    destruct (hierarchical_sound (fun r : ContainerVersion * Container => c_Name r.2) (fun r => cv_Name r.1) fst rows (rf_Name ref) (rf_Version ref) v) as ([w c] & Hc & Hw & Hn & Hv); [by exists vs|].
    simpl in Hw, Hn, Hv. subst w. by exists c.
Qed.

Lemma resolve_ref_found d ty userID refs ref v c :
  let rows := batchGetContainerVersions d ty (required_names refs) userID in
  (v, c) ∈ rows -> c_Name c = rf_Name ref -> rf_Version ref = "" \/ cv_Name v = rf_Version ref ->
  exists w, resolve_ref d ty userID (flatMap rows) (hierarchicalMap rows) ref = Returns (Ok w).
Proof.
  intros rows Hin Hn Hv. unfold resolve_ref. destruct (String.eqb_spec (rf_Version ref) "") as [E|E]; simpl.
  - unfold flatMap. rewrite flat_map_lookup. destruct (map fst _) as [|w l] eqn:Ef; [|by exists w].
    apply map_eq_nil in Ef. exfalso. assert (Hf : In (v, c) []) by
      (rewrite <- Ef; apply filter_In; split; [by apply list_elem_of_In|by apply String.eqb_eq]). done.
  - destruct Hv as [|Hv]; [done|].
    destruct (hierarchical_complete (fun r => c_Name r.2) (fun r => cv_Name r.1) fst rows (v, c) Hin) as (w & vs & Hvs & Hw).
    simpl in Hvs, Hw. unfold hierarchicalMap. rewrite <- Hn, Hvs, <- Hv, Hw. by exists w.
Qed.

Lemma resolve_ref_no_panic d ty userID rows ref :
  resolve_ref d ty userID (flatMap rows) (hierarchicalMap rows) ref <> Panics.
Proof.
  unfold resolve_ref. destruct (negb _); [by destruct (_ !! _)|].
  destruct (flatMap rows !! rf_Name ref) as [[|w l]|] eqn:E; [|done..].
  unfold flatMap in E. rewrite flat_map_lookup in E. by destruct (map fst _).
Qed.

Lemma resolve_all_no_panic f refs : (forall ref, f ref <> Panics) -> resolve_all f refs <> Panics.
Proof.
  intros Hf. induction refs as [|ref refs IH]; [done|]. cbn [resolve_all].
  specialize (Hf ref). destruct (f ref) as [[v|e]|]; [|done..]. simpl.
  by destruct (resolve_all f refs) as [[l|e]|].
Qed.

(** ** Properties of the resolution *)

(** C34. What a resolution gives.  There is one version for each reference, in their order; it is
    an enabled version of an enabled container of the type asked for and of the name of the
    reference, which the user may see: the version named or, when none is named, the newest
    one that the user could have named (of several containers of the name, the latest one
    comes first).  The queries are taken not to fail. *)
Theorem ResolveContainerVersions_sound d refs ty userID l :
  ResolveContainerVersions d refs ty userID = Returns (Ok l) ->
  map fst l = refs /\
  forall ref v, (ref, v) ∈ l -> exists c,
    usable d ty userID v c /\ c_Name c = rf_Name ref /\
    (rf_Version ref <> "" -> cv_Name v = rf_Version ref) /\
    (rf_Version ref = "" -> forall v' c',
       usable d ty userID v' c' -> c_Name c' = rf_Name ref -> row_before (v, c) (v', c')).
Proof.
  unfold ResolveContainerVersions. rewrite resolve_all_ok. intros H. split.
  - induction H as [|ref r refs' l [Hr _] _ IH]; [done|]. simpl. by rewrite Hr, IH.
  - intros ref v Hin. apply list_elem_of_lookup in Hin as (i & Hi).
    destruct (Forall2_lookup_r _ _ _ _ _ H Hi) as (ref' & Href & Heq & Hv). simpl in Heq, Hv. subst ref'.
    apply resolve_ref_ok in Hv as (c & Hc & Hn & Hver & Hnew). apply elem_of_batch in Hc as [Hu Hreq].
    exists c. split; [done|]. split; [done|]. split; [done|].
    intros E v' c' Hu' Hn'. apply Hnew; [done| |done]. apply elem_of_batch. split; [done|]. by rewrite Hn', <- Hn.
Qed.

(** The resolution never panics, and it succeeds exactly when every reference has
    a name and a version that the user may use. *)
Theorem ResolveContainerVersions_total d refs ty userID :
  ResolveContainerVersions d refs ty userID <> Panics /\
  ((exists l, ResolveContainerVersions d refs ty userID = Returns (Ok l)) <->
   forall ref, ref ∈ refs -> rf_Name ref <> "" /\ exists v c,
     usable d ty userID v c /\ c_Name c = rf_Name ref /\ (rf_Version ref = "" \/ cv_Name v = rf_Version ref)).
Proof.
  split; [apply resolve_all_no_panic; intros ref; apply resolve_ref_no_panic|].
  unfold ResolveContainerVersions. split.
  - intros (l & Hl) ref Href. apply resolve_all_ok in Hl. apply list_elem_of_lookup in Href as (i & Hi).
    destruct (Forall2_lookup_l _ _ _ _ _ Hl Hi) as ([ref' v] & _ & _ & Hv). simpl in Hv.
    apply resolve_ref_ok in Hv as (c & Hc & Hn & Hver & _). apply elem_of_batch in Hc as [Hu Hreq].
    rewrite Hn in Hreq. apply elem_of_required in Hreq as [Hne _]. split; [done|]. exists v, c.
    split; [done|]. split; [done|]. destruct (decide (rf_Version ref = "")); auto.
  - intros H.
    assert (Hall : forall ref, ref ∈ refs -> exists w,
              let rows := batchGetContainerVersions d ty (required_names refs) userID in
              resolve_ref d ty userID (flatMap rows) (hierarchicalMap rows) ref = Returns (Ok w)).
    { intros ref Href. destruct (H ref Href) as (Hne & v & c & Hu & Hn & Hv).
      apply (resolve_ref_found d ty userID refs ref v c); [|done|done]. apply elem_of_batch. split; [done|].
      rewrite Hn. apply elem_of_required. eauto. }
    cbn zeta in Hall. set (f := resolve_ref _ _ _ _ _) in *. clearbody f. clear H.
    induction refs as [|ref refs IH]; [by exists []|].
    destruct (Hall ref ltac:(by left)) as (w & Hw). destruct IH as (l & Hl); [intros r Hr; apply Hall; by right|].
    exists ((ref, w) :: l). cbn [resolve_all]. by rewrite Hw, Hl.
Qed.

(** ** The invariant of the registry *)

Record registry_ok (d : cdb) : Prop := {
  ok_container_ids : NoDup (map c_ID (t_containers d)) /\ Forall (fun i => i < t_next d) (map c_ID (t_containers d));
  ok_version_ids : NoDup (map cv_ID (t_versions d)) /\ Forall (fun i => i < t_next d) (map cv_ID (t_versions d));
  ok_param_ids : NoDup (map pc_ID (t_params d)) /\ Forall (fun i => i < t_next d) (map pc_ID (t_params d));
  ok_names : NoDup (omap active_name (t_containers d));
  ok_version_keys : NoDup (omap active_version_key (t_versions d));
  ok_params : NoDup (map (fun p => (pc_Key p, pc_Type p, pc_Category p)) (t_params d));
  ok_links : Forall (fun l => l_Owner l < t_next d) (t_env_links d)
}.

Lemma fresh_id (d : cdb) (ids : list Z) :
  NoDup ids /\ Forall (fun i => i < t_next d) ids ->
  NoDup (ids ++ [t_next d]) /\ Forall (fun i => i < t_next d + 1) (ids ++ [t_next d]).
Proof.
  intros [Hnd Hlt]. split.
  - apply NoDup_app. split; [done|]. split; [|apply NoDup_singleton].
    intros i Hi ->%list_elem_of_singleton. rewrite Forall_forall in Hlt. specialize (Hlt _ Hi). lia.
  - apply Forall_app. split; [eapply Forall_impl; [exact Hlt|simpl; lia]|repeat constructor; lia].
Qed.

Lemma later_ids (d : cdb) (ids : list Z) :
  NoDup ids /\ Forall (fun i => i < t_next d) ids -> NoDup ids /\ Forall (fun i => i < t_next d + 1) ids.
Proof. intros [Hnd Hlt]. split; [done|]. eapply Forall_impl; [exact Hlt|simpl; lia]. Qed.

Lemma later_links (d : cdb) (l : list Link) :
  Forall (fun x => l_Owner x < t_next d) l -> Forall (fun x => l_Owner x < t_next d + 1) l.
Proof. intros H. eapply Forall_impl; [exact H|simpl; lia]. Qed.

#[export] Hint Resolve later_ids later_links : aegis.

(** *** The operations keep it *)

Section Keep.
Context `{ImageNames} (system_is_valid : string -> bool).

Ltac keep := constructor; cbn [t_containers t_versions t_user_containers t_roles t_params t_env_links
  t_container_labels t_next set_containers set_versions set_user_containers set_params set_env_links
  set_container_labels]; try done; eauto with aegis.

Lemma createContainer_keeps d c id d' :
  registry_ok d -> createContainer system_is_valid d c = Ok (id, d') -> registry_ok d' /\ t_next d <= t_next d'.
Proof.
  intros [Hc Hv Hp Hn Hk Hpp Hl]. unfold createContainer. rewrite !res_bind_ok. intros (u & _ & Hr).
  rewrite res_bind_ok in Hr. destruct Hr as (u' & Hfree & [= <- <-]). apply require_ok in Hfree.
  split; [|simpl; lia]. keep.
  - rewrite map_app. by apply fresh_id.
  - by apply keys_add.
Qed.

Lemma createUserContainer_keeps d u d' :
  registry_ok d -> createUserContainer d u = Ok d' ->
  registry_ok d' /\ t_next d' = t_next d /\ t_versions d' = t_versions d /\ t_params d' = t_params d
    /\ t_env_links d' = t_env_links d /\ t_containers d' = t_containers d.
Proof.
  intros [Hc Hv Hp Hn Hk Hpp Hl]. unfold createUserContainer. rewrite res_bind_ok. intros (v & _ & [= <-]).
  split; [|done]. keep.
Qed.

Lemma insert_versions_keeps d vs ids d' :
  registry_ok d -> insert_versions d vs = Ok (ids, d') ->
  registry_ok d' /\ t_next d <= t_next d' /\ t_params d' = t_params d /\ t_env_links d' = t_env_links d /\
  length ids = length vs /\ NoDup ids /\ Forall (fun i => t_next d <= i < t_next d') ids /\
  t_containers d' = t_containers d /\ t_user_containers d' = t_user_containers d /\ t_roles d' = t_roles d /\
  t_versions d' = t_versions d ++ zip_with v_with_id ids vs.
Proof.
  revert d ids d'. induction vs as [|v vs IH]; intros d ids d' Hok; cbn [insert_versions].
  - intros [= <- <-]. repeat split; try done; try apply Hok; try lia; [constructor|by rewrite app_nil_r].
  - rewrite res_bind_ok. intros (u & Hfree & Hr). apply require_ok in Hfree. unfold take_id in Hr.
    rewrite res_bind_ok in Hr. destruct Hr as ([ids0 d0] & Hr & [= <- <-]). cbn [fst snd].
    apply IH in Hr as (Hok' & Hnx & Hps & Hls & Hlen & Hnd & Hall & Hcs & Hus & Hrs & Hvs).
    + cbn [t_next t_params t_env_links t_containers t_user_containers t_roles t_versions set_versions] in *.
      split; [done|]. split; [lia|]. split; [done|]. split; [done|]. split; [simpl; by rewrite Hlen|].
      split; [|split; [|split; [done|split; [done|split; [done|]]]]].
      * apply NoDup_cons. split; [|done]. rewrite Forall_forall in Hall. intros Hin. specialize (Hall _ Hin). lia.
      * constructor; [lia|]. eapply Forall_impl; [exact Hall|simpl; lia].
      * rewrite Hvs. cbn [zip_with]. by rewrite <- app_assoc.
    + destruct Hok as [Hc Hv Hp Hn Hk Hpp Hl]. keep.
      * rewrite map_app. by apply fresh_id.
      * by apply keys_add.
Qed.

Lemma batchCreateContainerVersions_keeps d cid uid nvs ids d' :
  registry_ok d -> batchCreateContainerVersions d cid uid nvs = Ok (ids, d') ->
  registry_ok d' /\ t_next d <= t_next d' /\ t_params d' = t_params d /\ t_env_links d' = t_env_links d /\
  length ids = length nvs /\ NoDup ids /\ Forall (fun i => t_next d <= i < t_next d') ids.
Proof.
  intros Hok. unfold batchCreateContainerVersions. rewrite res_bind_ok. intros (u & _ & Hr).
  rewrite res_bind_ok in Hr. destruct Hr as (vs & Hvs & Hr).
  assert (Hlen : length vs = length nvs).
  { clear -Hvs. revert vs Hvs. induction nvs as [|nv nvs IH]; intros vs; cbn [before_create_all]; [by intros [= <-]|].
    rewrite res_bind_ok. intros (v & _ & Hr). rewrite res_bind_ok in Hr. destruct Hr as (l & Hl & [= <-]).
    simpl. by rewrite (IH l Hl). }
  apply insert_versions_keeps in Hr as (? & ? & ? & ? & Hl & ? & ? & _); [|done]. rewrite <- Hlen. tauto.
Qed.

Lemma insert_param_keeps d p :
  registry_ok d -> registry_ok (insert_param d p) /\ t_next d <= t_next (insert_param d p) /\
  t_env_links (insert_param d p) = t_env_links d.
Proof.
  intros Hok. unfold insert_param. destruct (existsb (same_config p) (t_params d)) eqn:E; [done|].
  cbn [take_id]. split; [|split; [simpl; lia|done]]. destruct Hok as [Hc Hv Hp Hn Hk Hpp Hl]. keep.
  - rewrite map_app. by apply fresh_id.
  - rewrite map_app. apply NoDup_app. split; [done|]. split; [|apply NoDup_singleton].
    intros k (q & -> & Hq)%list_elem_of_fmap Hs%list_elem_of_singleton. simpl in Hs. injection Hs as Hk1 Hk2 Hk3.
    rewrite <- not_true_iff_false, existsb_elem in E. apply E. exists q. split; [done|].
    unfold same_config. by rewrite Hk1, Hk2, Hk3, String.eqb_refl, !Z.eqb_refl.
Qed.

Lemma insert_params_keeps ps d :
  registry_ok d -> registry_ok (fold_left insert_param ps d) /\ t_next d <= t_next (fold_left insert_param ps d) /\
  t_env_links (fold_left insert_param ps d) = t_env_links d.
Proof.
  revert d. induction ps as [|p ps IH]; intros d Hok; [done|]. cbn [fold_left].
  destruct (insert_param_keeps d p Hok) as (H1 & H2 & H3). destruct (IH _ H1) as (H4 & H5 & H6).
  split; [done|]. split; [lia|congruence].
Qed.

Lemma elem_of_insert_links ls links l :
  l ∈ fold_left insert_link ls links <-> l ∈ links \/ l ∈ ls.
Proof.
  revert links. induction ls as [|x ls IH]; intros links; cbn [fold_left].
  - split; [by left|]. intros [Hl|Hl%not_elem_of_nil]; done.
  - rewrite IH, elem_of_cons. unfold insert_link. destruct (existsb _ links) eqn:E.
    + apply existsb_elem in E as (y & Hy & Hxy). bool_to_prop.
      assert (y = x) as -> by (destruct x, y; simpl in *; congruence).
      split; [tauto|]. intros [?|[->|?]]; tauto.
    + rewrite elem_of_app, list_elem_of_singleton. tauto.
Qed.

Lemma env_relations_owners configs items ls l :
  env_relations configs items = Ok ls -> l ∈ ls -> l_Owner l ∈ items.*1.
Proof.
  revert ls. induction items as [|[vid cfg] items IH]; intros ls; cbn [env_relations].
  - intros [= <-] ?%not_elem_of_nil. done.
  - rewrite res_bind_ok. intros (pid & _ & Hr). rewrite res_bind_ok in Hr. destruct Hr as (l' & Hl & [= <-]).
    intros [->|Hin]%elem_of_cons; [by left|right; by apply (IH l')].
Qed.

Lemma elem_of_env_items ids nvs vid p :
  (vid, p) ∈ env_items ids nvs <-> exists i nv, ids !! i = Some vid /\ nvs !! i = Some nv /\ p ∈ nv_EnvVars nv.
Proof.
  unfold env_items. split.
  - rewrite list_elem_of_In, in_concat. intros (l & Hl & Hp). apply list_elem_of_In in Hl.
    apply list_elem_of_lookup in Hl as (i & Hi). apply lookup_zip_with_Some in Hi as (id & nv & -> & H1 & H2).
    apply in_map_iff in Hp as (q & [= <- <-] & Hq). exists i, nv. by rewrite list_elem_of_In.
  - intros (i & nv & H1 & H2 & Hp). rewrite list_elem_of_In, in_concat.
    exists (map (fun p => (vid, p)) (nv_EnvVars nv)). split.
    + apply list_elem_of_In, list_elem_of_lookup. exists i. apply lookup_zip_with_Some. by exists vid, nv.
    + apply in_map_iff. exists p. by rewrite <- list_elem_of_In.
Qed.

Lemma createContainerVersionsCore_keeps d cid uid nvs ids d' :
  registry_ok d -> createContainerVersionsCore d cid uid nvs = Ok (ids, d') -> registry_ok d'.
Proof.
  intros Hok. unfold createContainerVersionsCore. destruct nvs as [|nv nvs]; [by intros [= <- <-]|].
  set (all := nv :: nvs). rewrite res_bind_ok. intros ([ids0 d0] & Hb & Hr).
  apply res_wrap_ok in Hb. destruct (batchCreateContainerVersions_keeps _ _ _ _ _ _ Hok Hb) as (Hok0 & Hn0 & _ & _ & _ & _ & Hids).
  destruct (env_items ids0 all) as [|x items] eqn:Ei; [by injection Hr as <- <-|]. rewrite <- Ei in Hr.
  rewrite res_bind_ok in Hr. destruct Hr as (d1 & Hd1 & Hr). rewrite res_bind_ok in Hr.
  destruct Hr as (rel & Hrel & [= <- <-]).
  assert (Hd1' : exists u, Ok (fold_left insert_param (env_items ids0 all).*2 d0) = Ok d1 /\ u = tt).
  { unfold batchCreateOrFindParameterConfigs in Hd1. destruct (for_each _ _); [|done]. simpl in Hd1. by exists tt. }
  destruct Hd1' as (_ & [= <-] & _). destruct (insert_params_keeps (env_items ids0 all).*2 d0 Hok0) as (Hok1 & Hn1 & _).
  destruct Hok1 as [Hc Hv Hp Hn Hk Hpp Hl]. keep. apply Forall_forall. intros l Hlin.
  apply elem_of_insert_links in Hlin as [Hlin|Hlin]; [by rewrite Forall_forall in Hl; apply Hl|].
  apply (env_relations_owners _ _ _ _ Hrel) in Hlin. apply list_elem_of_fmap in Hlin as ([vid p] & Ho & Hin).
  rewrite Ho. cbn [fst]. apply elem_of_env_items in Hin as (i & nv' & Hi & _).
  rewrite Forall_forall in Hids. assert (vid ∈ ids0) by by eapply list_elem_of_lookup_2.
  specialize (Hids vid ltac:(done)). lia.
Qed.

Lemma CreateContainer_keeps d c nvs uid :
  registry_ok d -> registry_ok (CreateContainer system_is_valid d c nvs uid).2.
Proof.
  intros Hok. unfold CreateContainer, in_transaction.
  destruct (res_wrap _ _) as [[id d']|e] eqn:Hr; [|done]. cbn [snd]. apply res_wrap_ok in Hr.
  unfold createContainerCore in Hr. rewrite res_bind_ok in Hr. destruct Hr as (role & _ & Hr).
  rewrite res_bind_ok in Hr. destruct Hr as ([cid d1] & H1 & Hr).
  assert (H1' : createContainer system_is_valid d c = Ok (cid, d1)).
  { destruct (createContainer _ d c) as [[? ?]|e]; [done|]. by destruct (String.eqb e _). }
  destruct (createContainer_keeps _ _ _ _ Hok H1') as [Hok1 _].
  rewrite res_bind_ok in Hr. destruct Hr as (d2 & H2 & Hr).
  apply res_wrap_ok in H2. destruct (createUserContainer_keeps _ _ _ Hok1 H2) as [Hok2 _].
  destruct nvs as [|nv nvs]; [by injection Hr as <- <-|].
  rewrite res_bind_ok in Hr. destruct Hr as ([ids d3] & H3 & [= <- <-]). cbn [snd].
  apply res_wrap_ok in H3. by eapply createContainerVersionsCore_keeps.
Qed.

Lemma CreateContainerVersion_keeps d nv cid uid :
  registry_ok d -> registry_ok (CreateContainerVersion d nv cid uid).2.
Proof.
  intros Hok. unfold CreateContainerVersion, in_transaction.
  destruct (res_bind _ _) as [[id d']|e] eqn:E; [|done]. cbn [snd].
  rewrite res_bind_ok in E. destruct E as ([ids d1] & H1 & Hr). rewrite res_bind_ok in Hr.
  destruct Hr as (x & _ & [= <- <-]). cbn [snd].
  apply res_wrap_ok in H1. by eapply createContainerVersionsCore_keeps.
Qed.
End Keep.

Section KeepUpdates.

Ltac keep := constructor; cbn [t_containers t_versions t_user_containers t_roles t_params t_env_links
  t_container_labels t_next set_containers set_versions set_user_containers set_params set_env_links
  set_container_labels]; try done; eauto with aegis.

Lemma map_kill_ids {A} (id : A -> Z) (m : A -> bool) (kill : A -> A) (rows : list A) :
  (forall x, id (kill x) = id x) -> map id (map (fun x => if m x then kill x else x) rows) = map id rows.
Proof. intros H. rewrite map_map. apply map_ext. intros x. by destruct (m x). Qed.

Lemma kill_versions_keeps (m : ContainerVersion -> bool) d :
  registry_ok d ->
  registry_ok (set_versions (map (fun v => if m v then cv_with_status deleted v else v) (t_versions d)) d).
Proof.
  intros [Hc Hv Hp Hn Hk Hpp Hl]. keep.
  - by rewrite map_kill_ids.
  - by apply keys_kill.
Qed.

Lemma DeleteContainer_keeps d cid : registry_ok d -> registry_ok (DeleteContainer d cid).2.
Proof.
  intros Hok. unfold DeleteContainer, in_transaction, batchDeleteContainerVersions, removeUsersFromContainer,
    deleteContainer, soft_delete. cbn [t_containers set_versions set_user_containers clearContainerLabels
      set_container_labels t_versions t_user_containers].
  destruct (res_bind _ _) as [[u d']|e] eqn:E; [|done]. rewrite res_bind_ok in E. destruct E as (u' & _ & [= _ <-]).
  cbn [snd]. pose proof (kill_versions_keeps (fun v => (cv_ContainerID v =? cid) && negb (cv_Status v =? deleted)) d Hok)
    as [Hc Hv Hp Hn Hk Hpp Hl].
  keep.
  - by rewrite map_kill_ids.
  - by apply keys_kill.
Qed.

Lemma DeleteContainerVersion_keeps d vid : registry_ok d -> registry_ok (DeleteContainerVersion d vid).2.
Proof. intros Hok. by apply kill_versions_keeps. Qed.

Lemma UpdateContainer_keeps d req cid : registry_ok d -> registry_ok (UpdateContainer d req cid).2.
Proof.
  intros Hok. unfold UpdateContainer, in_transaction.
  destruct (res_bind _ _) as [[c d']|e] eqn:E; [|done]. cbn [snd]. rewrite res_bind_ok in E.
  destruct E as (c0 & _ & Hr). rewrite res_bind_ok in Hr. destruct Hr as (d1 & H1 & [= _ <-]).
  apply res_wrap_ok in H1. unfold updateContainer in H1. rewrite res_bind_ok in H1.
  destruct H1 as (u & Hfree & [= <-]). apply require_ok in Hfree.
  destruct Hok as [Hc Hv Hp Hn Hk Hpp Hl]. keep.
  - by rewrite save_row_ids.
  - apply keys_save; [apply Hc|done|done].
Qed.

Lemma SetContainerVersionImage_keeps d req vid : registry_ok d -> registry_ok (SetContainerVersionImage d req vid).2.
Proof.
  intros Hok. unfold SetContainerVersionImage, in_transaction.
  destruct (res_bind _ _) as [[c d']|e] eqn:E; [|done]. cbn [snd]. rewrite res_bind_ok in E.
  destruct E as (c0 & _ & Hr). cbn [updateContainerVersionImageColumns] in Hr. rewrite res_bind_ok in Hr.
  destruct Hr as (u & _ & Hr). rewrite res_bind_ok in Hr. destruct Hr as (c1 & _ & [= _ <-]).
  destruct Hok as [Hc Hv Hp Hn Hk Hpp Hl]. keep.
  - by rewrite map_kill_ids.
  - rewrite (keys_map active_version_key); [done|]. intros v. by destruct (_ =? _).
Qed.
End KeepUpdates.

(** The registry as the operations of the service change it. *)
Inductive registry_step `{ImageNames} (valid : string -> bool) : cdb -> cdb -> Prop :=
| step_create d c nvs uid : registry_step valid d (CreateContainer valid d c nvs uid).2
| step_create_version d nv cid uid : registry_step valid d (CreateContainerVersion d nv cid uid).2
| step_delete d cid : registry_step valid d (DeleteContainer d cid).2
| step_delete_version d vid : registry_step valid d (DeleteContainerVersion d vid).2
| step_update d req cid : registry_step valid d (UpdateContainer d req cid).2
| step_image d req vid : registry_step valid d (SetContainerVersionImage d req vid).2.

(** The unique keys of the registry: whatever the operations of the service do one
    after the other, identifiers stay unique and new ones fresh, no two containers that
    are not deleted share a name, and no two versions of a container that are not
    deleted share a name; so a container's and a version's name together name one
    usable version. *)
Theorem registry_names_one_version `{ImageNames} valid d0 d :
  registry_ok d0 -> rtc (registry_step valid) d0 d ->
  registry_ok d /\
  forall ty userID ty' userID' v c v' c',
    usable d ty userID v c -> usable d ty' userID' v' c' ->
    c_Name c = c_Name c' -> cv_Name v = cv_Name v' -> v = v' /\ c = c'.
Proof.
  intros Hok Hsteps. assert (Hd : registry_ok d).
  { induction Hsteps as [|x y z Hxy _ IH]; [done|]. apply IH. destruct Hxy.
    - by apply CreateContainer_keeps.
    - by apply CreateContainerVersion_keeps.
    - by apply DeleteContainer_keeps.
    - by apply DeleteContainerVersion_keeps.
    - by apply UpdateContainer_keeps.
    - by apply SetContainerVersionImage_keeps. }
  split; [done|]. intros ty userID ty' userID' v c v' c' (Hv & Hs & Hc & Hid & _ & Hcs & _)
    (Hv' & Hs' & Hc' & Hid' & _ & Hcs' & _) Hn Hvn.
  assert (Hcc : c = c').
  { apply (nodup_key_inj active_name (t_containers d) c c' (c_Name c)); [apply Hd|done|done|..];
      unfold active_name; [by rewrite Hcs|by rewrite Hcs', Hn]. }
  subst c'. split; [|done].
  apply (nodup_key_inj active_version_key (t_versions d) v v' (c_ID c, cv_Name v)); [apply Hd|done|done|..];
    unfold active_version_key; [by rewrite Hs, <- Hid|by rewrite Hs', <- Hid', <- Hvn].
Qed.

(** A container that was deleted is not resolved: after a deletion that succeeds no
    reference resolves to one of its versions, for no user, and its members have no
    membership left. *)
Theorem deleted_container_unresolved d cid d' refs ty userID l :
  DeleteContainer d cid = (Ok tt, d') ->
  ResolveContainerVersions d' refs ty userID = Returns (Ok l) ->
  (forall ref v, (ref, v) ∈ l -> cv_ContainerID v <> cid) /\
  (forall u, u ∈ t_user_containers d' -> uc_ContainerID u = cid -> uc_Status u = deleted).
Proof.
  unfold DeleteContainer, in_transaction, batchDeleteContainerVersions, removeUsersFromContainer,
    deleteContainer, soft_delete. cbn [t_containers set_versions set_user_containers clearContainerLabels
      set_container_labels t_versions t_user_containers].
  destruct (res_bind _ _) as [[u d1]|e] eqn:E; [|done]. rewrite res_bind_ok in E. destruct E as (u' & _ & [= _ <-]).
  intros [= _ <-] Hr. cbn [t_user_containers set_containers set_container_labels set_user_containers] in *. split.
  - intros ref v Hin Hcid. unfold ResolveContainerVersions in Hr. apply resolve_all_ok in Hr.
    apply list_elem_of_lookup in Hin as (i & Hi).
    destruct (Forall2_lookup_r _ _ _ _ _ Hr Hi) as (ref' & _ & _ & Hv). cbn [snd] in Hv.
    apply resolve_ref_ok in Hv as (c & Hc & _). apply elem_of_batch in Hc as [(Hv & Hs & _) _].
    cbn [t_versions set_versions set_containers set_container_labels set_user_containers] in Hv.
    apply list_elem_of_fmap in Hv as (w & -> & Hw).
    destruct (_ && negb _) eqn:Em; [done|]. rewrite Hcid, Z.eqb_refl, Hs in Em. done.
  - intros x (w & -> & Hw)%list_elem_of_fmap. destruct (_ && negb _) eqn:Em; [done|]. intros Hx.
    rewrite Hx, Z.eqb_refl in Em. cbn [andb] in Em. apply negb_false_iff, Z.eqb_eq in Em. done.
Qed.

(** ** The environment of a created version *)

(** A Go [int] always is one. *)
Definition param_in_range (p : ParameterConfig) : Prop :=
  min_int64 <= pc_Type p <= max_int64 /\ min_int64 <= pc_Category p <= max_int64.
Definition param_key (p : ParameterConfig) : string * Z * Z := (pc_Key p, pc_Type p, pc_Category p).

Lemma itoa_no_colon z : min_int64 <= z <= max_int64 -> ":"%char ∉ chars (itoa z).
Proof.
  intros Hz Hin. destruct (decide (0 <= z)) as [Hp|Hp].
  - destruct (itoa_digits z Hp) as (d & l & Hd & Hall). rewrite <- Hd in Hall.
    rewrite Forall_forall in Hall. by specialize (Hall _ Hin).
  - unfold itoa in Hin. destruct (z <? 0) eqn:E; [|bool_to_prop; lia]. rewrite chars_of_chars in Hin.
    apply elem_of_cons in Hin as [|Hin]; [done|].
    assert (Hall : Forall (fun c => is_digit c = true) (pos_digits 20 (- z) [])) by (apply pos_digits_digits; [lia|done]).
    rewrite Forall_forall in Hall. by specialize (Hall _ Hin).
Qed.

Lemma last_sep_inj {A} (sep : A) (a b x y : list A) :
  sep ∉ x -> sep ∉ y -> a ++ sep :: x = b ++ sep :: y -> a = b /\ x = y.
Proof.
  intros Hx Hy H. apply app_eq_inv in H as [(k & -> & Hk)|(k & -> & Hk)]; destruct k as [|z k]; simpl in Hk.
  - injection Hk as ->. by rewrite app_nil_r.
  - injection Hk as <- ->. exfalso. apply Hy, elem_of_app. right. by left.
  - injection Hk as ->. by rewrite app_nil_r.
  - injection Hk as <- ->. exfalso. apply Hx, elem_of_app. right. by left.
Qed.

Lemma itoa_inj a b : min_int64 <= a <= max_int64 -> min_int64 <= b <= max_int64 -> chars (itoa a) = chars (itoa b) -> a = b.
Proof.
  intros Ha Hb E%chars_inj. pose proof (atoi_itoa a Ha) as H. rewrite E, (atoi_itoa b Hb) in H. congruence.
Qed.

Lemma config_key_inj p q :
  param_in_range p -> param_in_range q -> config_key p = config_key q -> param_key p = param_key q.
Proof.
  intros [Hp1 Hp2] [Hq1 Hq2] E. apply (f_equal chars) in E. unfold config_key in E. rewrite !chars_app in E.
  change (chars ":") with [":"%char] in E. cbn [app] in E.
  assert (E' : (chars (pc_Key p) ++ ":"%char :: chars (itoa (pc_Type p))) ++ ":"%char :: chars (itoa (pc_Category p))
             = (chars (pc_Key q) ++ ":"%char :: chars (itoa (pc_Type q))) ++ ":"%char :: chars (itoa (pc_Category q)))
    by by rewrite <- !app_assoc.
  apply last_sep_inj in E' as [E1 E2]; [|by apply itoa_no_colon..].
  apply last_sep_inj in E1 as [E0 E1]; [|by apply itoa_no_colon..].
  unfold param_key. rewrite (chars_inj _ _ E0), (itoa_inj _ _ Hp1 Hq1 E1), (itoa_inj _ _ Hp2 Hq2 E2). done.
Qed.

Lemma same_config_key p q : same_config p q = true <-> param_key p = param_key q.
Proof.
  unfold same_config, param_key. rewrite !andb_true_iff, String.eqb_eq, !Z.eqb_eq. split.
  - by intros [[-> ->] ->].
  - by intros [= -> -> ->].
Qed.

Lemma insert_params_elem ps d p :
  p ∈ t_params (fold_left insert_param ps d) ->
  p ∈ t_params d \/ exists q, q ∈ ps /\ param_key p = param_key q.
Proof.
  revert d. induction ps as [|q ps IH]; intros d; cbn [fold_left]; [by left|].
  intros [Hp|(q' & Hq' & E)]%IH; [|right; exists q'; split; [by right|done]].
  unfold insert_param in Hp. destruct (existsb _ _); [by left|]. cbn in Hp.
  apply elem_of_app in Hp as [Hp| ->%list_elem_of_singleton]; [by left|]. right. exists q. split; [by left|done].
Qed.

Lemma configMap_in configs k id :
  configMap configs !! k = Some id -> exists c, c ∈ configs /\ config_key c = k /\ pc_ID c = id.
Proof.
  assert (H : forall m0 : gmap string Z, fold_left (fun m c => <[config_key c := pc_ID c]> m) configs m0 !! k = Some id ->
            (exists c, c ∈ configs /\ config_key c = k /\ pc_ID c = id) \/ m0 !! k = Some id).
  { induction configs as [|c configs IH]; intros m0; cbn [fold_left]; [by right|].
    intros [(c' & Hc' & H)|H]%IH; [left; exists c'; split; [by right|done]|].
    apply lookup_insert_Some in H as [[Hk Hid]|[_ H]]; [left; exists c; split; [by left|done]|by right]. }
  intros Hk. apply H in Hk as [|Hk]; [done|]. by rewrite lookup_empty in Hk.
Qed.

Lemma env_relations_ok configs items ls :
  env_relations configs items = Ok ls ->
  (forall vid cfg, (vid, cfg) ∈ items -> exists id, configs !! config_key cfg = Some id /\ mkLink vid id ∈ ls) /\
  (forall l, l ∈ ls -> exists cfg, (l_Owner l, cfg) ∈ items /\ configs !! config_key cfg = Some (l_Param l)).
Proof.
  revert ls. induction items as [|[vid cfg] items IH]; intros ls; cbn [env_relations].
  - intros [= <-]. split; [by intros ? ? ?%not_elem_of_nil|by intros ? ?%not_elem_of_nil].
  - rewrite res_bind_ok. intros (pid & Hpid & Hr). rewrite res_bind_ok in Hr. destruct Hr as (l' & Hl & [= <-]).
    apply or_error_ok in Hpid. destruct (IH _ Hl) as [H1 H2]. split.
    + intros v c [[= -> ->]|Hin]%elem_of_cons; [exists pid; split; [done|by left]|].
      destruct (H1 v c Hin) as (id & Hid & Hlk). exists id. split; [done|by right].
    + intros l [->|Hin]%elem_of_cons; [exists cfg; split; [by left|done]|].
      destruct (H2 l Hin) as (c & Hc & Hid). exists c. split; [by right|done].
Qed.

Lemma linked_spec links owner p : linked links owner p = true <-> mkLink owner (pc_ID p) ∈ links.
Proof.
  unfold linked. rewrite existsb_elem. split.
  - intros ([o q] & Hl & [E1%Z.eqb_eq E2%Z.eqb_eq]%andb_true_iff). simpl in *. by subst.
  - intros Hl. exists (mkLink owner (pc_ID p)). split; [done|]. simpl. by rewrite !Z.eqb_refl.
Qed.

(** The environment of a created version is the one asked for: the parameters
    linked to it are, key, type and category, those of its request - parameters that
    other versions already had are shared, and nothing else is linked. *)
Theorem created_env_vars `{ImageNames} d cid uid nvs ids d' :
  registry_ok d -> Forall param_in_range (t_params d) ->
  Forall (fun nv => Forall param_in_range (nv_EnvVars nv)) nvs ->
  createContainerVersionsCore d cid uid nvs = Ok (ids, d') ->
  forall i nv vid, nvs !! i = Some nv -> ids !! i = Some vid -> forall k,
    (exists p, p ∈ t_params d' /\ linked (t_env_links d') vid p = true /\ param_key p = k) <->
    (exists p, p ∈ nv_EnvVars nv /\ param_key p = k).
Proof.
  intros Hok Hrange Hnvs. unfold createContainerVersionsCore. destruct nvs as [|nv0 nvs0]; [done|].
  set (nvs := nv0 :: nvs0) in *. rewrite res_bind_ok. intros ([ids0 d0] & Hb & Hr). apply res_wrap_ok in Hb.
  destruct (batchCreateContainerVersions_keeps _ _ _ _ _ _ Hok Hb) as (Hok0 & Hn0 & Hps0 & Hls0 & Hlen & Hnd & Hids).
  assert (Hold : forall l vid, l ∈ t_env_links d -> vid ∈ ids0 -> l_Owner l <> vid).
  { intros l vid Hl Hvid. destruct Hok as [_ _ _ _ _ _ Hl0]. rewrite Forall_forall in Hl0. rewrite Forall_forall in Hids.
    specialize (Hl0 l Hl). specialize (Hids vid Hvid). lia. }
  intros i nv vid Hi. destruct (env_items ids0 nvs) as [|x items] eqn:Ei.
  { injection Hr as <- <-. intros Hvid k. split.
    - intros (p & _ & Hl & _). apply linked_spec in Hl. rewrite Hls0 in Hl. exfalso.
      eapply (Hold _ vid Hl); [by eapply list_elem_of_lookup_2|done].
    - intros (p & Hp & _). exfalso. assert (Hin : (vid, p) ∈ env_items ids0 nvs)
        by (apply elem_of_env_items; by exists i, nv). rewrite Ei in Hin. by apply not_elem_of_nil in Hin. }
  rewrite <- Ei in Hr. rewrite res_bind_ok in Hr. destruct Hr as (d1 & Hd1 & Hr). rewrite res_bind_ok in Hr.
  destruct Hr as (rel & Hrel & [= <- <-]). intros Hvid k. apply res_wrap_ok in Hd1.
  unfold batchCreateOrFindParameterConfigs in Hd1. rewrite res_bind_ok in Hd1. destruct Hd1 as (u & _ & [= <-]).
  set (envVars := (env_items ids0 nvs).*2) in *.
  destruct (insert_params_keeps envVars d0 Hok0) as (Hok1 & _ & Hls1). set (d1 := fold_left insert_param envVars d0) in *.
  apply env_relations_ok in Hrel as [Hrel1 Hrel2].
  assert (Hvars : forall v p, (v, p) ∈ env_items ids0 nvs -> p ∈ envVars /\ param_in_range p).
  { intros v p Hin. split; [by apply (list_elem_of_fmap_2 snd) in Hin|].
    apply elem_of_env_items in Hin as (j & nv' & _ & Hj & Hp). rewrite Forall_forall in Hnvs.
    specialize (Hnvs nv' (list_elem_of_lookup_2 _ _ _ Hj)). rewrite Forall_forall in Hnvs. auto. }
  assert (Hin_range : forall p, p ∈ t_params d1 -> param_in_range p).
  { intros p Hp. apply insert_params_elem in Hp as [Hp|(q & Hq & E)].
    - rewrite Hps0 in Hp. rewrite Forall_forall in Hrange. auto.
    - apply list_elem_of_fmap in Hq as ([v q'] & -> & Hq). destruct (Hvars v q' Hq) as [_ [H1 H2]].
      injection E as _ E1 E2. unfold param_in_range. by rewrite E1, E2. }
  (* an item's parameter and the row its link points to *)
  assert (Hrow : forall v cfg id, (v, cfg) ∈ env_items ids0 nvs ->
            configMap (listParameterConfigsByKeys d1 envVars) !! config_key cfg = Some id ->
            exists c, c ∈ t_params d1 /\ pc_ID c = id /\ param_key c = param_key cfg).
  { intros v cfg id Hin Hc. apply configMap_in in Hc as (c & Hc & Hk & Hid).
    unfold listParameterConfigsByKeys in Hc. apply list_elem_of_In, filter_In in Hc as [Hc _].
    apply list_elem_of_In in Hc. exists c. split; [done|]. split; [done|].
    apply config_key_inj; [by apply Hin_range|by eapply Hvars|done]. }
  cbn [t_params t_env_links set_env_links]. split.
  - intros (p & Hp & Hl & <-). apply linked_spec, elem_of_insert_links in Hl as [Hl|Hl].
    { exfalso. rewrite Hls1, Hls0 in Hl. eapply (Hold _ vid Hl); [by eapply list_elem_of_lookup_2|done]. }
    destruct (Hrel2 _ Hl) as (cfg & Hcfg & Hid). cbn [l_Owner l_Param] in *.
    destruct (Hrow _ _ _ Hcfg Hid) as (c & Hc & Ec & Ek).
    assert (p = c) as <- by (eapply (nodup_map_inj pc_ID (t_params d1)); [apply Hok1|done..]).
    apply elem_of_env_items in Hcfg as (j & nv' & Hj & Hnv' & Hin).
    assert (j = i) as -> by (by eapply NoDup_lookup). rewrite Hi in Hnv'. injection Hnv' as <-.
    exists cfg. by split.
  - intros (p & Hp & <-). assert (Hin : (vid, p) ∈ env_items ids0 nvs) by (apply elem_of_env_items; by exists i, nv).
    destruct (Hrel1 _ _ Hin) as (id & Hid & Hl). destruct (Hrow _ _ _ Hin Hid) as (c & Hc & Ec & Ek).
    exists c. split; [done|]. split; [|done]. apply linked_spec. rewrite Ec. apply elem_of_insert_links. by right.
Qed.

(** ** Versions and images as texts *)

Lemma span_all p a l :
  Forall (fun c => p c = true) a -> match l with [] => True | c :: _ => p c = false end -> span p (a ++ l) = (a, l).
Proof.
  intros Ha Hl. destruct l as [|c l]; [|by apply span_app]. rewrite app_nil_r.
  induction Ha as [|x a Hx _ IH]; [done|]. simpl. by rewrite Hx, IH.
Qed.

Lemma digit_plain c :
  is_digit c = true -> (Ascii.eqb c " " || Ascii.eqb c "009") = false /\ c <> "-"%char /\ c <> "+"%char.
Proof.
  intros H. split; [|split]; [|by intros ->|by intros ->].
  destruct (Ascii.eqb_spec c " ") as [->|]; [done|]. by destruct (Ascii.eqb_spec c "009") as [->|].
Qed.

Lemma scan_int_itoa n l :
  0 <= n <= max_int64 -> match l with [] => True | c :: _ => is_digit c = false end ->
  scan_int (chars (itoa n) ++ l) = Some (n, l).
Proof.
  intros Hn Hl. destruct (itoa_digits n ltac:(lia)) as (d & r & E & Hall).
  assert (Hd : is_digit d = true) by by inversion Hall.
  destruct (digit_plain d Hd) as (Hsp & Hm & Hp). unfold scan_int. rewrite E in *. cbn [app drop_while].
  rewrite Hsp. assert (Hs : match d :: r ++ l with
                            | "-"%char :: l => ("-"%char :: nil, l)
                            | "+"%char :: l => (nil, l)
                            | _ => (nil, d :: r ++ l)
                            end = (@nil ascii, d :: r ++ l)).
  { destruct d as [[] [] [] [] [] [] [] []]; done. }
  rewrite Hs. assert (Hspan : span is_digit (d :: r ++ l) = (d :: r, l)) by (apply (span_all is_digit (d :: r)); done).
  rewrite Hspan. cbn [app]. rewrite <- E, of_chars_chars, atoi_itoa by (unfold min_int64; lia). done.
Qed.

Definition print_version (major minor patch : Z) : string :=
  itoa major +:+ "." +:+ itoa minor +:+ "." +:+ itoa patch.

(** Semantic versions are read as they are written: three numbers of the machine,
    printed with dots between them, are parsed back. *)
Theorem semantic_version_roundtrip major minor patch :
  0 <= major <= max_int64 -> 0 <= minor <= max_int64 -> 0 <= patch <= max_int64 ->
  ParseSemanticVersion (print_version major minor patch) = Ok (major, minor, patch).
Proof.
  intros H1 H2 H3. unfold ParseSemanticVersion, print_version. rewrite !chars_app.
  change (chars ".") with ["."%char]. cbn [app]. rewrite scan_int_itoa by done. cbn.
  rewrite scan_int_itoa by done. cbn. rewrite <- (app_nil_r (chars (itoa patch))).
  by rewrite scan_int_itoa.
Qed.

(** What follows the third number is not looked at, and a number may have a sign. *)
Example version_with_a_tail : ParseSemanticVersion "1.-2.3-rc1 anything" = Ok (1, -2, 3).
Proof. vm_compute. reflexivity. Qed.

(** The image of a version: the columns that the hook of the creation fills from a
    reference give, when the version is read, the reference in its normal form - its
    domain, its path and its tag, or [latest] when it has none. *)
Theorem image_ref_roundtrip `{ImageNamesLaws} cid uid nv v registry path tag :
  nv_ImageRef nv <> "" -> ParseNamed (nv_ImageRef nv) = Some (registry, path, tag) ->
  ContainerVersion_BeforeCreate cid uid nv = Ok v ->
  ImageRef v = registry +:+ "/" +:+ path +:+ ":" +:+ default "latest" tag.
Proof.
  intros Hne Hp. unfold ContainerVersion_BeforeCreate. rewrite res_bind_ok. intros ([[a b] c] & _ & Hr).
  rewrite res_bind_ok in Hr. destruct Hr as (img & Hi & [= <-]).
  destruct (String.eqb_spec (nv_ImageRef nv) "") as [|_]; [done|]. apply res_wrap_ok in Hi.
  unfold ParseFullImageRefernce in Hi. rewrite Hp in Hi. cbn [or_error res_bind] in Hi.
  destruct (ParseNamed_path _ _ _ _ Hp) as (ns & rest & Hs & Hns). rewrite Hs in Hi.
  rewrite <- (join_split "/" path), Hs.
  destruct rest as [|r rest]; injection Hi as <-; unfold ImageRef; cbn.
  - done.
  - destruct (String.eqb_spec ns ""); [done|]. by rewrite <- !str_app_assoc.
Qed.

Module RegistrySample.
#[export] Instance names : ImageNames := {|
  ParseNamed s :=
    match split "/" s with
    | domain :: rest =>
        let '(path, tag) := match split ":" (join "/" rest) with
                            | [path; tag] => (path, Some tag)
                            | _ => (join "/" rest, None)
                            end in
        match split "/" path with
        | c :: _ => if String.eqb c "" then None else Some (domain, path, tag)
        | [] => None
        end
    | [] => None
    end
|}.
#[export] Instance names_laws : ImageNamesLaws.
Proof.
  constructor. intros s d p t. simpl. destruct (split "/" s) as [|dom rest]; [done|].
  destruct (match split ":" (join "/" rest) with [path; tag] => (path, Some tag) | _ => (join "/" rest, None) end)
    as [path tag]. destruct (split "/" path) as [|c l] eqn:E; [done|].
  destruct (String.eqb_spec c ""); [done|]. intros [= <- <- <-]. exists c, l. by rewrite E.
Defined.

Definition valid (s : string) : bool := String.eqb s "ts".
Definition empty : cdb := mkCdb [] [] [] [mkRoleRow 1 RoleContainerAdmin enabled] [] [] [] 10.
Lemma empty_ok : registry_ok empty.
Proof. by repeat constructor. Qed.

Definition env (key : string) : ParameterConfig := mkParameterConfig 0 key 0 0 (Some "1") None false true.
Definition one : NewVersion := mkNewVersion "1.0.0" "docker.io/lib/algo:v1" "run" [env "WORKERS"; env "MODE"].
Definition two : NewVersion := mkNewVersion "1.2.0" "docker.io/lib/algo" "run" [env "WORKERS"].
Definition algo : Container := mkContainer 0 "algo" 0 "" false enabled.
Definition d1 : cdb := (CreateContainer valid empty algo [one; two] 5).2.
Definition refs : list ContainerRef := [mkRef "algo" ""; mkRef "algo" "1.0.0"].
Definition resolved : P (list (ContainerRef * ContainerVersion)) := ResolveContainerVersions d1 refs 0 5.
Definition summary (r : P (list (ContainerRef * ContainerVersion))) : list (string * string) :=
  match r with Returns (Ok l) => map (fun x => (cv_Name x.2, ImageRef x.2)) l | _ => [] end.
Example resolved_versions :
  summary resolved = [("1.2.0", "docker.io/lib/algo:latest"); ("1.0.0", "docker.io/lib/algo:v1")].
Proof. vm_compute. reflexivity. Qed.
Definition list_of (r : P (list (ContainerRef * ContainerVersion))) : list (ContainerRef * ContainerVersion) :=
  match r with Returns (Ok l) => l | _ => [] end.
Lemma resolved_ok : ResolveContainerVersions d1 refs 0 5 = Returns (Ok (list_of resolved)).
Proof. vm_compute. reflexivity. Qed.

Lemma ResolveContainerVersions_sound_witness :
  map fst (list_of resolved) = refs /\
  forall ref v, (ref, v) ∈ list_of resolved -> exists c, usable d1 0 5 v c /\ c_Name c = rf_Name ref.
Proof.
  destruct (ResolveContainerVersions_sound d1 refs 0 5 _ resolved_ok) as [Hr Hv]. split; [exact Hr|].
  intros ref v Hin. destruct (Hv ref v Hin) as (c & Hu & Hn & _). exists c. split; [exact Hu|exact Hn].
Defined.

Lemma registry_names_one_version_witness : registry_ok d1.
Proof.
  exact (proj1 (registry_names_one_version valid empty d1 empty_ok
           (rtc_once _ _ (step_create valid empty algo [one; two] 5)))).
Defined.

Definition d2 : cdb := (DeleteContainer d1 10).2.
Lemma deleted_container_unresolved_witness :
  (forall u, u ∈ t_user_containers d2 -> uc_ContainerID u = 10 -> uc_Status u = deleted).
Proof.
  assert (Hd : DeleteContainer d1 10 = (Ok tt, d2)) by (vm_compute; reflexivity).
  assert (Hr : ResolveContainerVersions d2 [] 0 5 = Returns (Ok [])) by (vm_compute; reflexivity).
  exact (proj2 (deleted_container_unresolved d1 10 d2 [] 0 5 [] Hd Hr)).
Defined.

Lemma created_env_vars_witness :
  exists ids d', createContainerVersionsCore empty 3 5 [one; two] = Ok (ids, d') /\
    forall vid, ids !! 1%nat = Some vid ->
      exists p, p ∈ t_params d' /\ linked (t_env_links d') vid p = true /\ param_key p = ("WORKERS", 0, 0).
Proof.
  destruct (createContainerVersionsCore empty 3 5 [one; two]) as [[ids d']|e] eqn:E;
    [|exfalso; vm_compute in E; discriminate].
  exists ids, d'. split; [reflexivity|]. intros vid Hvid.
  apply (created_env_vars empty 3 5 [one; two] ids d' empty_ok (Forall_nil_2 _)
           ltac:(repeat constructor; discriminate) E 1%nat two vid eq_refl Hvid ("WORKERS", 0, 0)).
  exists (env "WORKERS"). split; [left|reflexivity].
Defined.

Lemma semantic_version_roundtrip_witness :
  print_version 1 20 3 = "1.20.3" /\ ParseSemanticVersion (print_version 1 20 3) = Ok (1, 20, 3).
Proof.
  split; [vm_compute; reflexivity|]. apply semantic_version_roundtrip; split; discriminate.
Defined.

Lemma image_ref_roundtrip_witness :
  exists v, ContainerVersion_BeforeCreate 3 5 two = Ok v /\ ImageRef v = "docker.io/lib/algo:latest".
Proof.
  destruct (ContainerVersion_BeforeCreate 3 5 two) as [v|e] eqn:E; [|exfalso; vm_compute in E; discriminate].
  exists v. split; [reflexivity|].
  exact (image_ref_roundtrip 3 5 two v "docker.io" "lib/algo" None ltac:(discriminate) eq_refl E).
Defined.
End RegistrySample.
