(* ===== verification/Labels.v ===== *)
(** * Labels ([module/label/], [dto/label.go], [utils/color.go], [utils/string.go])

    The table of labels with its five tables of links, how a request's labels are found or
    created, and the operations of the service on labels.  The link tables are one list,
    tagged by the kind of the owner. *)

From S2P Require Import Prelude GoStrings Consts Tables.
#[local] Open Scope Z_scope.

(** ** Colours *)

(** The regular expression of [IsValidHexColor]. *)
Definition IsValidHexColor (hex : string) : bool :=
  match chars hex with
  | "#"%char :: digits =>
      ((length digits =? 3)%nat || (length digits =? 6)%nat) && forallb is_hex digits
  | _ => false
  end.

(** The runes of a [range] over a string: UTF-8, with U+FFFD for a byte that starts no
    valid encoding. *)
Definition in_bytes (lo hi b : Z) : bool := (lo <=? b) && (b <=? hi).
Definition cont_byte : Z -> bool := in_bytes 128 191.
Definition rune2 (b0 b1 : Z) : option Z :=
  if in_bytes 194 223 b0 && cont_byte b1
  then Some (Z.lor (Z.shiftl (Z.land b0 31) 6) (Z.land b1 63)) else None.
Definition rune3 (b0 b1 b2 : Z) : option Z :=
  if in_bytes 224 239 b0
     && in_bytes (if b0 =? 224 then 160 else 128) (if b0 =? 237 then 159 else 191) b1 && cont_byte b2
  then Some (Z.lor (Z.lor (Z.shiftl (Z.land b0 15) 12) (Z.shiftl (Z.land b1 63) 6)) (Z.land b2 63)) else None.
Definition rune4 (b0 b1 b2 b3 : Z) : option Z :=
  if in_bytes 240 244 b0
     && in_bytes (if b0 =? 240 then 144 else 128) (if b0 =? 244 then 143 else 191) b1
     && cont_byte b2 && cont_byte b3
  then Some (Z.lor (Z.lor (Z.shiftl (Z.land b0 7) 18) (Z.shiftl (Z.land b1 63) 12))
                   (Z.lor (Z.shiftl (Z.land b2 63) 6) (Z.land b3 63))) else None.
Definition RuneError : Z := 65533.
Fixpoint runes (l : list Z) : list Z :=
  match l with
  | [] => []
  | b0 :: l1 =>
      if b0 <? 128 then b0 :: runes l1
      else match l1 with
           | [] => RuneError :: runes l1
           | b1 :: l2 =>
               match rune2 b0 b1 with
               | Some r => r :: runes l2
               | None =>
                   match l2 with
                   | [] => RuneError :: runes l1
                   | b2 :: l3 =>
                       match rune3 b0 b1 b2 with
                       | Some r => r :: runes l3
                       | None =>
                           match l3 with
                           | [] => RuneError :: runes l1
                           | b3 :: l4 =>
                               match rune4 b0 b1 b2 b3 with
                               | Some r => r :: runes l4
                               | None => RuneError :: runes l1
                               end
                           end
                       end
                   end
               end
           end
  end.

Definition color_palette : list string :=
  ["#f44336"; "#e91e63"; "#9c27b0"; "#673ab7"; "#3f51b5"; "#2196f3"; "#03a9f4"; "#00bcd4"; "#009688";
   "#4caf50"; "#8bc34a"; "#cddc39"; "#ffeb3b"; "#ffc107"; "#ff9800"; "#ff5722"; "#795548"; "#607d8b"].
Definition color_hash (l : list Z) : Z :=
  fold_left (fun hash char => Z.rem (hash * 31 + char) (Z.of_nat (length color_palette))) l 0.
Definition GenerateColorFromKey (key : string) : string :=
  nth (Z.to_nat (color_hash (runes (map code (chars key))))) color_palette "".

(** ** Tables *)

Record Label := mkLabel {
  l_ID : Z; l_Key : string; l_Value : string; l_Category : Z; l_Description : string; l_Color : string;
  l_Usage : Z; l_IsSystem : bool; l_Status : Z
}.
Definition enabled : Z := StatusType_code CommonEnabled.
Definition deleted : Z := StatusType_code CommonDeleted.

Definition l_with_id (id : Z) (l : Label) : Label :=
  mkLabel id (l_Key l) (l_Value l) (l_Category l) (l_Description l) (l_Color l) (l_Usage l) (l_IsSystem l) (l_Status l).
Definition l_with_usage (n : Z) (l : Label) : Label :=
  mkLabel (l_ID l) (l_Key l) (l_Value l) (l_Category l) (l_Description l) (l_Color l) n (l_IsSystem l) (l_Status l).
Definition l_with_status (s : Z) (l : Label) : Label :=
  mkLabel (l_ID l) (l_Key l) (l_Value l) (l_Category l) (l_Description l) (l_Color l) (l_Usage l) (l_IsSystem l) s.

(** The owners a label can be linked to. *)
Inductive owner_kind := Containers_ | Datasets_ | Projects_ | Injections_ | Executions_.
#[export] Instance owner_kind_eq_dec : EqDecision owner_kind.
Proof. solve_decision. Defined.
Definition owner_kinds : list owner_kind := [Containers_; Datasets_; Projects_; Injections_; Executions_].

(** A row of one of the five link tables; (owner, label) is its primary key. *)
Record LabelLink := mkLabelLink { k_Kind : owner_kind; k_Owner : Z; k_Label : Z }.
#[export] Instance LabelLink_eq_dec : EqDecision LabelLink.
Proof. solve_decision. Defined.

Record ldb := mkLdb { t_labels : list Label; t_links : list LabelLink; t_label_id : Z }.
Definition set_labels (l : list Label) (d : ldb) : ldb := mkLdb l (t_links d) (t_label_id d).
Definition set_links (l : list LabelLink) (d : ldb) : ldb := mkLdb (t_labels d) l (t_label_id d).

(** The generated column of the unique key. *)
Definition kv_text (key value : string) : string := key +:+ ":" +:+ value.
Definition active_key_value (l : Label) : option string :=
  if 0 <=? l_Status l then Some (kv_text (l_Key l) (l_Value l)) else None.

(** ** The repository *)

Definition not_deleted (l : Label) : bool := negb (l_Status l =? deleted).
Definition has_id (ids : list Z) (l : Label) : bool := existsb (Z.eqb (l_ID l)) ids.
Definition has_kv (key value : string) (l : Label) : bool :=
  String.eqb (l_Key l) key && String.eqb (l_Value l) value.

Definition ListLabelsByID (ids : list Z) (d : ldb) : list Label :=
  List.filter (fun l => has_id ids l && not_deleted l) (t_labels d).
(** Any label, deleted or not; the error does not wrap gorm's. *)
Definition GetLabelByID (id : Z) : Tx ldb Label :=
  tx_on_err (fun _ => New ("label with id " +:+ itoa id +:+ " not found"))
    (tx_first (fun d => find (fun l => l_ID l =? id) (t_labels d))).

(** A column whose value is zero takes the default of the table. *)
Definition with_defaults (l : Label) : Label :=
  mkLabel (l_ID l) (l_Key l) (l_Value l) (l_Category l) (l_Description l)
    (if String.eqb (l_Color l) "" then "#1890ff" else l_Color l) (l_Usage l) (l_IsSystem l)
    (if l_Status l =? 0 then enabled else l_Status l).
Definition insert_label (l : Label) : Tx ldb Label := fun d =>
  let l := l_with_id (t_label_id d) (with_defaults l) in
  if key_free active_key_value (t_labels d) l
  then inl (l, mkLdb (t_labels d ++ [l]) (t_links d) (t_label_id d + 1))
  else inr (Is DuplicatedKey).
(** [Save]: all columns of the row. *)
Definition save_label (l : Label) : Tx ldb unit := fun d =>
  if key_free active_key_value (List.filter (fun y => negb (l_ID y =? l_ID l)) (t_labels d)) l
  then inl (tt, set_labels (save_row l_ID l (t_labels d)) d)
  else inr (Is DuplicatedKey).
Definition UpdateLabel (l : Label) : Tx ldb unit := tx_wrap "failed to update label: " (save_label l).

Definition update_labels (p : Label -> bool) (f : Label -> Label) (d : ldb) : ldb :=
  set_labels (map (fun l => if p l then f l else l) (t_labels d)) d.
Definition batchIncreaseLabelUsages (ids : list Z) (increment : Z) : Tx ldb unit :=
  tx_when (negb (length ids =? 0)%nat)
    (tx_do (update_labels (has_id ids) (fun l => l_with_usage (l_Usage l + increment) l))).
Definition BatchDecreaseLabelUsages (ids : list Z) (decrement : Z) : Tx ldb unit :=
  tx_when (negb (length ids =? 0)%nat)
    (tx_do (update_labels (has_id ids) (fun l => l_with_usage (Z.max 0 (l_Usage l - decrement)) l))).
Definition BatchDeleteLabels (ids : list Z) : Tx ldb unit :=
  tx_when (negb (length ids =? 0)%nat)
    (tx_do (update_labels (fun l => has_id ids l && not_deleted l) (l_with_status deleted))).
(** The number of rows it marks. *)
Definition DeleteLabel (id : Z) : Tx ldb Z := fun d =>
  let '(n, rows) := soft_delete (fun l => (l_ID l =? id) && not_deleted l) (l_with_status deleted) (t_labels d) in
  inl (n, set_labels rows d).

Fixpoint insert_labels (ls : list Label) : Tx ldb (list Label) :=
  match ls with
  | [] => tx_ret []
  | l :: rest => let^ l := insert_label l in let^ rest := insert_labels rest in tx_ret (l :: rest)
  end.
Definition batchCreateLabels (ls : list Label) : Tx ldb (list Label) :=
  tx_wrap "failed to batch upsert labels: " (insert_labels ls).

(** ** Labels of a request *)

Record LabelItem := mkLabelItem { li_Key : string; li_Value : string; li_IsSystem : bool }.

Definition ConvertLabelItemsToConditions (items : list LabelItem) : list (string * string) :=
  map (fun i => (li_Key i, li_Value i)) items.
(** Deleted labels too. *)
Definition listLabelsByConditions (conditions : list (string * string)) (d : ldb) : list Label :=
  match conditions with
  | [] => []
  | _ => List.filter (fun l => existsb (fun c => has_kv c.1 c.2 l) conditions) (t_labels d)
  end.

(** [kvMap]: the last item of a key. *)
Definition kvMap (items : list LabelItem) : gmap string LabelItem :=
  fold_left (fun m i => <[li_Key i := i]> m) items ∅.
(** The loop over the labels found: those taken, and the keys left. *)
Fixpoint take_existing (m : gmap string LabelItem) (existing : list Label)
  : list Label * gmap string LabelItem :=
  match existing with
  | [] => ([], m)
  | l :: rest =>
      match m !! l_Key l with
      | Some item =>
          if String.eqb (li_Value item) (l_Value l)
          then let '(taken, m) := take_existing (delete (l_Key l) m) rest in (l :: taken, m)
          else take_existing m rest
      | None => take_existing m rest
      end
  end.

Definition DefaultLabelUsage : Z := 1.
Definition new_label (category : Z) (kv : string * LabelItem) : Label :=
  mkLabel 0 kv.1 (li_Value kv.2) category
    ("Custom label '" +:+ kv.1 +:+ "' created " +:+ GetLabelCategoryName category)
    (GenerateColorFromKey kv.1) DefaultLabelUsage (li_IsSystem kv.2) enabled.

Definition label_before (a b : Label) : Prop := l_ID a <= l_ID b.
#[export] Instance label_before_dec a b : Decision (label_before a b).
Proof. unfold label_before. apply _. Defined.

Section Items.
Context (order : gmap string LabelItem -> list (string * LabelItem)).   (* of an iteration over a map *)

Definition CreateOrUpdateLabelsFromItems (items : list LabelItem) (category : Z) : Tx ldb (list Label) :=
  match items with
  | [] => tx_ret []
  | _ =>
      let^ existing := tx_get (listLabelsByConditions (ConvertLabelItemsToConditions items)) in
      let '(taken, missing) := take_existing (kvMap items) existing in
      tx_wrap "failed to increase usage for existing labels: " (batchIncreaseLabelUsages (map l_ID taken) 1) ;;^
      let^ created := tx_wrap "failed to create new labels: "
                        (batchCreateLabels (map (new_label category) (order missing))) in
      tx_ret (merge_sort label_before (taken ++ created))
  end.
End Items.

(** [CreateLabelCore]: a label with the key and the value is brought up to date. *)
Definition CreateLabelCore (label : Label) : Tx ldb Label := fun d =>
  match find (fun l => has_kv (l_Key label) (l_Value label) l && not_deleted l) (t_labels d) with
  | None =>
      tx_on_err (fun e => if errors_Is DuplicatedKey e
                          then Wrap "" (Is AlreadyExists) (": label with key " +:+ l_Key label +:+ " and value "
                                 +:+ l_Value label +:+ " already exists")
                          else Wrap "failed to create label: " e "") (insert_label label) d
  | Some existing =>
      let l := mkLabel (l_ID existing) (l_Key existing) (l_Value existing) (l_Category label)
                 (l_Description label) (l_Color label) (l_Usage existing) (l_IsSystem existing) enabled in
      (tx_wrap "failed to update existing label: " (save_label l) ;;^ tx_ret l) d
  end.

(** ** Requests *)

Definition validateKeyAndValue (key value : string) : res unit :=
  if String.eqb key "" && String.eqb value "" then Ok tt
  else require (negb (String.eqb key "")) "label key cannot be empty when value is provided" ;;?
       require (negb (String.eqb value "")) "label value cannot be empty when key is provided".
Definition validateLabelCategory (category : Z) : res unit :=
  require (existsb (fun c => LabelCategory_code c =? category) ValidLabelCategories)
    ("invalid label category: " +:+ itoa category).
Definition validateColor (color : option string) : res unit :=
  match color with
  | None => Ok tt
  | Some c => require (IsValidHexColor c) ("invalid color format: " +:+ c)
  end.
Definition validateStatus (statusPtr : option Z) (isMutation : bool) : res unit :=
  match statusPtr with
  | None => Ok tt
  | Some status =>
      require (existsb (fun s => StatusType_code s =? status) ValidStatuses) ("invalid status value: " +:+ itoa status) ;;?
      require (negb (isMutation && (status =? deleted)))
        ("status value cannot be set to deleted (" +:+ itoa deleted +:+
         ") directly through this update/create operation")
  end.

Record CreateLabelReq := mkCreateLabel {
  cl_Key : string; cl_Value : string; cl_Category : Z; cl_Description : string; cl_Color : option string
}.
Definition CreateLabelReq_Validate (req : CreateLabelReq) : res unit :=
  validateKeyAndValue (cl_Key req) (cl_Value req) ;;?
  validateLabelCategory (cl_Category req) ;;?
  validateColor (cl_Color req).
(** The status is left at zero. *)
Definition ConvertToLabel (req : CreateLabelReq) : Label :=
  mkLabel 0 (cl_Key req) (cl_Value req) (cl_Category req) (cl_Description req)
    (default "#1890ff" (cl_Color req)) DefaultLabelUsage false 0.

Record UpdateLabelReq := mkUpdateLabel {
  ul_Description : option string; ul_Color : option string; ul_Status : option Z
}.
Definition UpdateLabelReq_Validate (req : UpdateLabelReq) : res unit :=
  validateColor (ul_Color req) ;;? validateStatus (ul_Status req) true.
Definition PatchLabelModel (req : UpdateLabelReq) (l : Label) : Label :=
  mkLabel (l_ID l) (l_Key l) (l_Value l) (l_Category l) (default (l_Description l) (ul_Description req))
    (default (l_Color l) (ul_Color req)) (l_Usage l) (l_IsSystem l) (default (l_Status l) (ul_Status req)).

Definition BatchDeleteLabelReq_Validate (ids : list Z) : res unit :=
  require (negb (length ids =? 0)%nat) "ids cannot be empty" ;;?
  for_each (fun i id => require (negb (id <=? 0))
    ("invalid id at index " +:+ itoa (Z.of_nat i) +:+ ": " +:+ itoa id)) ids.

(** A validation that fails, in a service. *)
Definition tx_check {S} (pre : string) (r : res unit) : Tx S unit :=
  match r with
  | Ok _ => tx_ret tt
  | Err e => tx_err (Wrap pre (New e) "")
  end.

(** ** The service *)

(** [removeAssociationsFromLabel]: the rows of one table, their number. *)
Definition links_of (kind : owner_kind) (ids : list Z) (d : ldb) : list LabelLink :=
  List.filter (fun k => bool_decide (k_Kind k = kind) && existsb (Z.eqb (k_Label k)) ids) (t_links d).
Definition removeAssociationsFromLabels (kind : owner_kind) (ids : list Z) : Tx ldb Z := fun d =>
  inl (Z.of_nat (length (links_of kind ids d)),
       set_links (List.filter (fun k => negb (bool_decide (k_Kind k = kind) && existsb (Z.eqb (k_Label k)) ids))
                    (t_links d)) d).
(** [listAssociationCounts] of one label. *)
Definition association_count (kind : owner_kind) (id : Z) (d : ldb) : Z :=
  Z.of_nat (length (links_of kind [id] d)).

Fixpoint remove_all_kinds (kinds : list owner_kind) (ids : list Z) : Tx ldb Z :=
  match kinds with
  | [] => tx_ret 0
  | kind :: rest =>
      let^ n := removeAssociationsFromLabels kind ids in
      let^ m := remove_all_kinds rest ids in
      tx_ret (n + m)
  end.

Definition Delete (id : Z) : Tx ldb unit :=
  let^ label := tx_on_err (fun e => if errors_Is NotFound e
                                    then Wrap "" (Is NotFound) (": label with id " +:+ itoa id +:+ " not found")
                                    else Flat "failed to get label: " e) (GetLabelByID id) in
  let^ totalRows := remove_all_kinds owner_kinds [l_ID label] in
  BatchDecreaseLabelUsages [l_ID label] totalRows ;;^
  let^ rows := DeleteLabel id in
  tx_require (negb (rows =? 0)) (Wrap "" (Is NotFound) (": label id " +:+ itoa id +:+ " not found")).
Definition Service_Delete (id : Z) (d : ldb) : (unit + goerr) * ldb := transaction (Delete id) d.

(** The removal of the links of one kind, with the count of each label before it. *)
Definition removeFromLabels (kind : owner_kind) (ids : list Z) : Tx ldb (Z -> Z) := fun d =>
  let counts := fun id => association_count kind id d in
  if forallb (fun id => counts id =? 0) ids then inl (fun _ => 0, d)
  else match removeAssociationsFromLabels kind ids d with
       | inl (rows, d) => inl (if rows =? 0 then fun _ => 0 else counts, d)
       | inr e => inr e
       end.
Fixpoint remove_counting (kinds : list owner_kind) (ids : list Z) : Tx ldb (Z -> Z) :=
  match kinds with
  | [] => tx_ret (fun _ => 0)
  | kind :: rest =>
      let^ counts := removeFromLabels kind ids in
      let^ others := remove_counting rest ids in
      tx_ret (fun id => counts id + others id)
  end.
Definition BatchDelete (ids : list Z) : Tx ldb unit :=
  match ids with
  | [] => tx_ret tt
  | _ =>
      let^ labels := tx_get (ListLabelsByID ids) in
      tx_require (negb (length labels =? 0)%nat) (New "no labels found for the provided IDs") ;;^
      tx_require (length labels =? length ids)%nat (New "some labels not found for the provided IDs") ;;^
      let^ decrement := remove_counting owner_kinds ids in
      tx_on_err (Flat "failed to update label usages: ")
        (tx_each (fun l => save_label (l_with_usage (Z.max (l_Usage l - decrement (l_ID l)) 0) l)) labels) ;;^
      BatchDeleteLabels ids
  end.
Definition Service_BatchDelete (ids : list Z) (d : ldb) : (unit + goerr) * ldb := transaction (BatchDelete ids) d.

Definition Service_Create (req : CreateLabelReq) (d : ldb) : (Label + goerr) * ldb :=
  transaction (tx_check "label validation failed: " (CreateLabelReq_Validate req) ;;^
               tx_wrap "failed to create label: " (CreateLabelCore (ConvertToLabel req))) d.

Definition GetDetail (id : Z) : Tx ldb Label :=
  tx_on_err (fun e => if errors_Is RecordNotFound e
                      then Wrap "" (Is NotFound) (": label with ID " +:+ itoa id +:+ " not found")
                      else Wrap "failed to get label: " e "") (GetLabelByID id).
Definition Service_Update (req : UpdateLabelReq) (id : Z) (d : ldb) : (Label + goerr) * ldb :=
  transaction (tx_check "validation failed: " (UpdateLabelReq_Validate req) ;;^
               let^ existing := GetDetail id in
               let updated := PatchLabelModel req existing in
               tx_wrap "failed to update label: " (UpdateLabel updated) ;;^
               tx_ret updated) d.

(** *** Links *)

(** One INSERT of several rows: a row that is there refuses them all... *)
Fixpoint insert_links (ls : list LabelLink) : Tx ldb unit :=
  match ls with
  | [] => tx_ret tt
  | k :: rest => fun d =>
      if bool_decide (k ∈ t_links d) then inr (Is DuplicatedKey)
      else insert_links rest (set_links (t_links d ++ [k]) d)
  end.
(** ... or, with [OnConflict{DoNothing: true}], is left alone. *)
Definition insert_missing_links (ls : list LabelLink) : Tx ldb unit :=
  tx_do (fun d => set_links (fold_left (fun l k => if bool_decide (k ∈ l) then l else l ++ [k]) ls (t_links d)) d).
Definition links_to (kind : owner_kind) (owner : Z) (ids : list Z) : list LabelLink := map (mkLabelLink kind owner) ids.
(** [clear...Labels]: the links of the owners, to the labels or to all of them. *)
Definition clear_links (kind : owner_kind) (owners ids : list Z) : Tx ldb unit :=
  match owners with
  | [] => tx_ret tt
  | _ => tx_do (fun d =>
      set_links (List.filter (fun k => negb (bool_decide (k_Kind k = kind) && existsb (Z.eqb (k_Owner k)) owners &&
                                match ids with [] => true | _ => existsb (Z.eqb (k_Label k)) ids end))
                   (t_links d)) d)
  end.
(** The labels of an owner, as the join with the table of labels reads them. *)
Definition labels_of (kind : owner_kind) (owner : Z) (d : ldb) : list Label :=
  List.filter (fun l => bool_decide (mkLabelLink kind owner (l_ID l) ∈ t_links d)) (t_labels d).

(** ** The invariant *)

Record labels_ok (d : ldb) : Prop := {
  ok_ids : NoDup (map l_ID (t_labels d)) /\ Forall (fun i => i < t_label_id d) (map l_ID (t_labels d));
  ok_keys : NoDup (omap active_key_value (t_labels d));
  ok_usage : Forall (fun l => 0 <= l_Usage l) (t_labels d);
  ok_links : NoDup (t_links d) /\ Forall (fun k => k_Label k ∈ map l_ID (t_labels d)) (t_links d)
}.

Lemma insert_label_inl l d l' d' :
  insert_label l d = inl (l', d') ->
  key_free active_key_value (t_labels d) l' = true /\ l_ID l' = t_label_id d /\
  l' = l_with_id (t_label_id d) (with_defaults l) /\
  d' = mkLdb (t_labels d ++ [l']) (t_links d) (t_label_id d + 1).
Proof. unfold insert_label. destruct (key_free _ _ _) eqn:E; [|done]. by intros [= <- <-]. Qed.

Lemma insert_label_keeps l : 0 <= l_Usage l -> tx_keeps labels_ok (insert_label l).
Proof.
  intros Hu d l' d' [[Hid Hlt] Hk Hus [Hl Hf]] (Hfree & _ & E & ->)%insert_label_inl. split; simpl.
  - rewrite map_app. subst l'. simpl. split.
    + apply NoDup_app. split; [done|]. split; [|apply NoDup_singleton].
      intros i Hi ->%list_elem_of_singleton. rewrite Forall_forall in Hlt. specialize (Hlt _ Hi). lia.
    + apply Forall_app. split; [|repeat constructor; lia]. eapply Forall_impl; [exact Hlt|]. simpl. lia.
  - by apply keys_add.
  - apply Forall_app. split; [done|]. subst l'. repeat constructor. done.
  - split; [done|]. rewrite map_app. eapply Forall_impl; [exact Hf|]. simpl. intros k ?. apply elem_of_app. by left.
Qed.

Lemma save_label_inl l d d' u :
  save_label l d = inl (u, d') ->
  key_free active_key_value (List.filter (fun y => negb (l_ID y =? l_ID l)) (t_labels d)) l = true /\
  d' = set_labels (save_row l_ID l (t_labels d)) d.
Proof. unfold save_label. destruct (key_free _ _ _) eqn:E; [|done]. by intros [= _ <-]. Qed.

Lemma save_label_keeps l : 0 <= l_Usage l -> tx_keeps labels_ok (save_label l).
Proof.
  intros Hu d u d' [[Hid Hlt] Hk Hus [Hl Hf]] (Hfree & ->)%save_label_inl. split; simpl.
  - by rewrite save_row_ids.
  - by apply keys_save.
  - unfold save_row. apply Forall_map. eapply Forall_impl; [exact Hus|]. intros y Hy. by case_match.
  - by rewrite save_row_ids.
Qed.

(** An update of rows that leaves identifiers and keys, or takes the key away. *)
Lemma update_labels_keeps p f :
  (forall l, l_ID (f l) = l_ID l) -> (forall l, 0 <= l_Usage l -> 0 <= l_Usage (f l)) ->
  (forall l, active_key_value (f l) = active_key_value l) \/ (forall l, active_key_value (f l) = None) ->
  forall d, labels_ok d -> labels_ok (update_labels p f d).
Proof.
  intros Hi Hu Hk d [[Hid Hlt] Hkeys Hus [Hl Hf]].
  assert (Hids : map l_ID (map (fun l => if p l then f l else l) (t_labels d)) = map l_ID (t_labels d)).
  { rewrite map_map. apply map_ext. intros l. by destruct (p l); rewrite ?Hi. }
  split; simpl; rewrite ?Hids; try done.
  - destruct Hk as [Hk|Hk]; [|by apply keys_kill]. rewrite keys_map; [done|]. intros l. by destruct (p l).
  - apply Forall_map. eapply Forall_impl; [exact Hus|]. intros y Hy. destruct (p y); [by apply Hu|done].
Qed.

Lemma filter_links_keeps (p : LabelLink -> bool) d : labels_ok d -> labels_ok (set_links (List.filter p (t_links d)) d).
Proof.
  intros [Hid Hk Hu [Hnd Hf]]. split; try done. simpl. split.
  - apply NoDup_ListNoDup, List.NoDup_filter, NoDup_ListNoDup, Hnd.
  - rewrite Forall_forall in Hf |- *. intros k Hin. apply Hf. rewrite list_elem_of_In in Hin |- *.
    by apply filter_In in Hin as [? _].
Qed.

Lemma increase_keeps ids n : 0 <= n -> tx_keeps labels_ok (batchIncreaseLabelUsages ids n).
Proof.
  intros Hn. apply tx_keeps_when, tx_keeps_do. apply update_labels_keeps; [done|simpl; lia|by left].
Qed.
Lemma decrease_keeps ids n : tx_keeps labels_ok (BatchDecreaseLabelUsages ids n).
Proof. apply tx_keeps_when, tx_keeps_do. apply update_labels_keeps; [done|simpl; lia|by left]. Qed.
Lemma batch_delete_keeps ids : tx_keeps labels_ok (BatchDeleteLabels ids).
Proof. apply tx_keeps_when, tx_keeps_do. apply update_labels_keeps; [done|done|by right]. Qed.
Lemma delete_label_keeps id : tx_keeps labels_ok (DeleteLabel id).
Proof.
  intros d n d' Hd [= _ <-]. by apply (update_labels_keeps (fun l => (l_ID l =? id) && not_deleted l) (l_with_status deleted));
    [..|right|].
Qed.
Lemma remove_links_keeps kind ids : tx_keeps labels_ok (removeAssociationsFromLabels kind ids).
Proof. intros d n d' Hd [= _ <-]. by apply filter_links_keeps. Qed.
Lemma clear_links_keeps kind owners ids : tx_keeps labels_ok (clear_links kind owners ids).
Proof. destruct owners; [apply tx_keeps_ret|]. apply tx_keeps_do. intros d. apply filter_links_keeps. Qed.
#[export] Hint Resolve increase_keeps decrease_keeps batch_delete_keeps delete_label_keeps remove_links_keeps
  clear_links_keeps : aegis.

(** ** Found or created *)

Lemma runes_nonneg l : Forall (fun b => 0 <= b) l -> Forall (fun r => 0 <= r) (runes l).
Proof.
  intros Hl. remember (length l) as n eqn:En. assert (Hn : (length l <= n)%nat) by lia. clear En.
  revert l Hl Hn. induction n as [|n IH]; intros [|b0 l1] Hl Hn; simpl in *; try constructor; try lia.
  apply Forall_cons in Hl as [H0 Hl].
  assert (Hrest : forall x l', 0 <= x -> Forall (fun b => 0 <= b) l' -> (length l' <= n)%nat ->
            Forall (fun r => 0 <= r) (x :: runes l')) by (intros; constructor; [done|by apply IH]).
  assert (HE : 0 <= RuneError) by done.
  destruct (b0 <? 128); [by apply Hrest; [..|lia]|]. destruct l1 as [|b1 l2]; [by apply Hrest; [..|simpl; lia]|].
  apply Forall_cons in Hl as Hl'. destruct Hl' as [H1 Hl2]. cbn [length] in Hn.
  destruct (rune2 b0 b1) as [r|] eqn:E2.
  { apply Hrest; [|done|lia]. unfold rune2 in E2. destruct (_ && _); [|done]. injection E2 as <-.
    apply Z.lor_nonneg. split; [apply Z.shiftl_nonneg|]; apply Z.land_nonneg; by left. }
  destruct l2 as [|b2 l3]; [by apply Hrest; [..|simpl; lia]|].
  apply Forall_cons in Hl2 as Hl'. destruct Hl' as [H2 Hl3]. cbn [length] in Hn.
  destruct (rune3 b0 b1 b2) as [r|] eqn:E3.
  { apply Hrest; [|done|lia]. unfold rune3 in E3. destruct (_ && _); [|done]. injection E3 as <-.
    rewrite !Z.lor_nonneg, !Z.shiftl_nonneg, !Z.land_nonneg. lia. }
  destruct l3 as [|b3 l4]; [by apply Hrest; [..|simpl; lia]|].
  apply Forall_cons in Hl3 as Hl'. destruct Hl' as [H3 Hl4]. cbn [length] in Hn.
  destruct (rune4 b0 b1 b2 b3) as [r|] eqn:E4; [|by apply Hrest; [..|simpl; lia]].
  apply Hrest; [|done|lia]. unfold rune4 in E4. destruct (_ && _); [|done]. injection E4 as <-.
  rewrite !Z.lor_nonneg, !Z.shiftl_nonneg, !Z.land_nonneg. lia.
Qed.

Lemma color_hash_bounds l : Forall (fun r => 0 <= r) l -> 0 <= color_hash l < Z.of_nat (length color_palette).
Proof.
  unfold color_hash. intros Hl.
  enough (Hh : forall h, 0 <= h < Z.of_nat (length color_palette) ->
    0 <= fold_left (fun hash char => Z.rem (hash * 31 + char) (Z.of_nat (length color_palette))) l h
      < Z.of_nat (length color_palette)) by (apply Hh; simpl; lia).
  induction Hl as [|r l Hr Hl IH]; intros h Hh; [done|]. cbn [fold_left]. apply IH.
  apply Z.rem_bound_pos; [lia|simpl; lia].
Qed.

(** The colour given to a new label passes the check of colours. *)
Lemma generated_color_valid key : IsValidHexColor (GenerateColorFromKey key) = true.
Proof.
  unfold GenerateColorFromKey. set (n := Z.to_nat _).
  assert (Hn : (n < length color_palette)%nat).
  { assert (Hb := color_hash_bounds (runes (map code (chars key)))). subst n.
    destruct Hb as [? ?]; [|lia]. apply runes_nonneg, Forall_map, Forall_forall.
    intros c _. unfold code. lia. }
  clearbody n. assert (Hall : forallb IsValidHexColor color_palette = true) by reflexivity.
  rewrite forallb_forall in Hall. apply Hall, nth_In, Hn.
Qed.

Lemma new_label_defaults category kv : with_defaults (new_label category kv) = new_label category kv.
Proof.
  unfold with_defaults, new_label. cbn [l_Color l_Status l_ID l_Key l_Value l_Category l_Description l_Usage l_IsSystem].
  assert (Hc := generated_color_valid kv.1). destruct (String.eqb_spec (GenerateColorFromKey kv.1) "") as [E|_]; [|done].
  by rewrite E in Hc.
Qed.

Lemma kvMap_spec items k : kvMap items !! k = last (List.filter (fun i => String.eqb (li_Key i) k) items).
Proof.
  unfold kvMap. induction items as [|i items IH] using rev_ind; [done|].
  rewrite fold_left_app, List.filter_app. cbn [fold_left List.filter].
  destruct (String.eqb_spec (li_Key i) k) as [<-|Hk].
  - by rewrite lookup_insert_eq, last_snoc.
  - by rewrite lookup_insert_ne, app_nil_r.
Qed.
Lemma kvMap_key items k i : kvMap items !! k = Some i -> li_Key i = k /\ i ∈ items.
Proof.
  rewrite kvMap_spec. intros Hl%last_Some_elem_of. rewrite list_elem_of_In in Hl.
  apply filter_In in Hl as [? ?%String.eqb_eq]. by rewrite list_elem_of_In.
Qed.

Lemma take_existing_spec m existing taken rest :
  take_existing m existing = (taken, rest) ->
  (forall l, l ∈ taken -> l ∈ existing /\ exists i, m !! l_Key l = Some i /\ li_Value i = l_Value l) /\
  NoDup (map l_Key taken) /\
  (forall k, rest !! k = if bool_decide (k ∈ map l_Key taken) then None else m !! k) /\
  (forall k i, rest !! k = Some i -> forall l, l ∈ existing -> l_Key l = k -> l_Value l <> li_Value i).
Proof.
  revert m taken rest. induction existing as [|l0 existing IH]; intros m taken rest; cbn [take_existing].
  { intros [= <- <-]. split; [by intros ? ?%not_elem_of_nil|]. split; [constructor|]. split; [done|].
    by intros ? ? ? ? ?%not_elem_of_nil. }
  assert (Hskip : (forall i, m !! l_Key l0 = Some i -> li_Value i <> l_Value l0) ->
            take_existing m existing = (taken, rest) ->
            (forall l, l ∈ taken -> l ∈ l0 :: existing /\ exists i, m !! l_Key l = Some i /\ li_Value i = l_Value l) /\
            NoDup (map l_Key taken) /\
            (forall k, rest !! k = if bool_decide (k ∈ map l_Key taken) then None else m !! k) /\
            (forall k i, rest !! k = Some i -> forall l, l ∈ l0 :: existing -> l_Key l = k -> l_Value l <> li_Value i)).
  { intros Hne Et. destruct (IH _ _ _ Et) as (H1 & H2 & H3 & H4). split_and!; try done.
    - intros l Hl. destruct (H1 l Hl) as [? ?]. split; [by right|done].
    - intros k i Hr l [->|Hl]%elem_of_cons Hk; [|by eapply H4]. subst k. rewrite H3 in Hr. case_bool_decide; [done|].
      intros E. by apply (Hne i). }
  destruct (m !! l_Key l0) as [item|] eqn:Em; [|apply Hskip; naive_solver].
  destruct (String.eqb_spec (li_Value item) (l_Value l0)) as [Ev|Ev]; [|apply Hskip; naive_solver].
  clear Hskip. destruct (take_existing (delete (l_Key l0) m) existing) as [t r] eqn:Et.
  intros Heq. apply pair_equal_spec in Heq as [<- <-].
  destruct (IH _ _ _ Et) as (H1 & H2 & H3 & H4). cbn [map].
  assert (Hnot : l_Key l0 ∉ map l_Key t).
  { intros (l & E & Hl)%list_elem_of_fmap. destruct (H1 l Hl) as (_ & i & Hi & _).
    rewrite <- E, lookup_delete_eq in Hi. done. }
  split_and!.
  - intros l [->|Hl]%elem_of_cons; [split; [by left|by exists item]|]. destruct (H1 l Hl) as (Hin & i & Hi & Hv).
    split; [by right|]. exists i. by apply lookup_delete_Some in Hi as [_ ?].
  - by constructor.
  - intros k. rewrite H3. destruct (decide (k = l_Key l0)) as [->|Hk].
    + rewrite lookup_delete_eq, (bool_decide_eq_true_2 (l_Key l0 ∈ l_Key l0 :: _)) by by left. by case_bool_decide.
    + rewrite lookup_delete_ne by done. rewrite (bool_decide_ext (k ∈ l_Key l0 :: map l_Key t) (k ∈ map l_Key t)); [done|].
      set_solver.
  - intros k i Hr l [->|Hl]%elem_of_cons Hk; [|by eapply H4]. subst k. rewrite H3 in Hr.
    case_bool_decide; [done|]. by rewrite lookup_delete_eq in Hr.
Qed.

Lemma insert_labels_inl ls d cs d' :
  insert_labels ls d = inl (cs, d') ->
  d' = mkLdb (t_labels d ++ cs) (t_links d) (t_label_id d + Z.of_nat (length ls)) /\
  Forall2 (fun l c => exists id, t_label_id d <= id < t_label_id d + Z.of_nat (length ls) /\
             c = l_with_id id (with_defaults l)) ls cs /\
  StronglySorted (fun a b => l_ID a < l_ID b) cs.
Proof.
  revert d cs. induction ls as [|l ls IH]; intros d cs; cbn [insert_labels].
  { intros [= <- <-]. rewrite app_nil_r, Z.add_0_r. split; [by destruct d|]. split; constructor. }
  rewrite tx_bind_inl. intros (c & d1 & Hi & Hr). rewrite tx_bind_inl in Hr. destruct Hr as (cs' & d2 & Hr & [= <- <-]).
  apply insert_label_inl in Hi as (_ & _ & -> & ->). apply IH in Hr as (-> & Hf & Hs).
  cbn [t_labels t_links t_label_id length] in *. rewrite <- app_assoc. split; [f_equal; lia|]. split.
  - constructor; [exists (t_label_id d); split; [lia|done]|]. eapply Forall2_impl; [exact Hf|].
    intros ? ? (id & ? & ->). exists id. split; [lia|done].
  - constructor; [done|]. apply Forall_forall. intros x Hx. apply list_elem_of_lookup in Hx as (i & Hx).
    destruct (Forall2_lookup_r _ _ _ _ _ Hf Hx) as (y & _ & id & Hid & ->). simpl. lia.
Qed.

Definition wanted (items : list LabelItem) (k v : string) : Prop :=
  exists i, kvMap items !! k = Some i /\ li_Value i = v.
Definition used_once_more (ids : list Z) (l : Label) : Label :=
  if has_id ids l then l_with_usage (l_Usage l + 1) l else l.
Definition as_created (category : Z) (kv : string * LabelItem) (l : Label) : Prop :=
  exists id, l = l_with_id id (new_label category kv).

#[export] Instance label_before_trans : Transitive label_before.
Proof. intros a b c. unfold label_before. lia. Qed.
#[export] Instance label_before_total : Total label_before.
Proof. intros a b. unfold label_before. lia. Qed.

Lemma has_id_spec ids l : has_id ids l = true <-> l_ID l ∈ ids.
Proof.
  unfold has_id. rewrite existsb_elem. split; [by intros (x & Hx & ->%Z.eqb_eq)|]. intros Hi. exists (l_ID l).
  split; [done|apply Z.eqb_refl].
Qed.
Lemma has_kv_spec k v l : has_kv k v l = true <-> l_Key l = k /\ l_Value l = v.
Proof. unfold has_kv. by rewrite andb_true_iff, !String.eqb_eq. Qed.

Section Found.
Context (order : gmap string LabelItem -> list (string * LabelItem)) (Horder : forall m, order m ≡ₚ map_to_list m).

(** What the call does: the labels taken are used once more, the others created. *)
Lemma createOrUpdate_shape items category d ls d' :
  CreateOrUpdateLabelsFromItems order items category d = inl (ls, d') ->
  exists taken missing created,
    ls ≡ₚ taken ++ created /\ StronglySorted label_before ls /\
    (forall l, l ∈ taken -> l ∈ t_labels d /\ wanted items (l_Key l) (l_Value l)) /\ NoDup (map l_Key taken) /\
    (forall k, missing !! k = if bool_decide (k ∈ map l_Key taken) then None else kvMap items !! k) /\
    Forall2 (as_created category) (order missing) created /\
    Forall (fun l => t_label_id d <= l_ID l < t_label_id d') created /\
    StronglySorted (fun a b => l_ID a < l_ID b) created /\
    d' = mkLdb (map (used_once_more (map l_ID taken)) (t_labels d) ++ created) (t_links d)
           (t_label_id d + Z.of_nat (length created)).
Proof.
  unfold CreateOrUpdateLabelsFromItems. destruct items as [|i items].
  { intros [= <- <-]. exists [], ∅, []. split; [done|]. split; [constructor|]. split; [by intros ? ?%not_elem_of_nil|].
    split; [constructor|]. split; [done|]. rewrite app_nil_r, Z.add_0_r.
    assert (Hnil : order ∅ = []) by (apply Permutation_nil; by rewrite Horder, map_to_list_empty).
    rewrite Hnil. split; [constructor|]. split; [constructor|]. split; [constructor|].
    rewrite (map_ext _ id), map_id by done. by destruct d. }
  set (all := i :: items). cbv beta iota. rewrite tx_bind_inl. intros (existing & d0 & [= <- <-] & Hr).
  destruct (take_existing (kvMap all) _) as [taken missing] eqn:Et.
  rewrite tx_bind_inl in Hr. destruct Hr as (u & d1 & Hinc%tx_wrap_inl & Hr).
  rewrite tx_bind_inl in Hr. destruct Hr as (created & d2 & Hc%tx_wrap_inl & [= <- <-]).
  apply take_existing_spec in Et as (Ht & Hnd & Hm & _).
  apply tx_wrap_inl, insert_labels_inl in Hc as (-> & Hf & Hs).
  assert (Hlen : length created = length (order missing)).
  { apply Forall2_length in Hf. by rewrite length_map in Hf. }
  assert (Hd1 : d1 = mkLdb (map (used_once_more (map l_ID taken)) (t_labels d)) (t_links d) (t_label_id d)).
  { unfold batchIncreaseLabelUsages, tx_when in Hinc. destruct taken as [|l taken]; simpl in Hinc.
    - injection Hinc as _ <-. rewrite (map_ext _ id), map_id by done. by destruct d.
    - injection Hinc as _ <-. done. }
  subst d1. cbn [t_labels t_links t_label_id] in *. rewrite length_map in Hf.
  exists taken, missing, created. split; [by rewrite merge_sort_Permutation|].
  split; [apply StronglySorted_merge_sort; apply _|]. split_and!; try done.
  - intros l Hl. destruct (Ht l Hl) as [Hin ?]. split; [|done]. unfold listLabelsByConditions in Hin.
    rewrite list_elem_of_In in Hin |- *. by apply filter_In in Hin as [? _].
  - rewrite Forall2_fmap_l in Hf. eapply Forall2_impl; [exact Hf|]. intros kv c (id & _ & ->).
    rewrite new_label_defaults. by exists id.
  - apply Forall_forall. intros l Hl. apply list_elem_of_lookup in Hl as (j & Hl).
    destruct (Forall2_lookup_r _ _ _ _ _ Hf Hl) as (y & _ & id & Hid & ->). simpl. rewrite length_map. lia.
  - f_equal. rewrite length_map. lia.
Qed.
End Found.

Section FoundSpec.
Context (order : gmap string LabelItem -> list (string * LabelItem)) (Horder : forall m, order m ≡ₚ map_to_list m).

Lemma order_elem m k i : (k, i) ∈ order m <-> m !! k = Some i.
Proof. by rewrite Horder, elem_of_map_to_list. Qed.

(** The labels of a request: the call gives one label for each key that is asked for,
    with the value of the last item of that key, in the order of their identifiers.  Each
    was there and counts one use more, or is new, enabled, of the category and used once.
    Every other label, and every link, is as before. *)
Theorem request_labels items category d ls d' :
  labels_ok d -> CreateOrUpdateLabelsFromItems order items category d = inl (ls, d') ->
  StronglySorted label_before ls /\ NoDup (map l_ID ls) /\ NoDup (map l_Key ls) /\
  (forall k v, (exists l, l ∈ ls /\ l_Key l = k /\ l_Value l = v) <-> wanted items k v) /\
  (forall l, l ∈ ls ->
     (l ∈ t_labels d /\ l_with_usage (l_Usage l + 1) l ∈ t_labels d') \/
     (l ∈ t_labels d' /\ (l_ID l ∉ map l_ID (t_labels d)) /\ l_Usage l = 1 /\ l_Status l = enabled /\
      l_Category l = category)) /\
  (forall l, l ∈ t_labels d -> l_ID l ∉ map l_ID ls -> l ∈ t_labels d') /\
  t_links d' = t_links d.
Proof.
  intros [[Hid Hlt] _ _ _] (taken & missing & created & Hls & Hso & Ht & Hnd & Hm & Hf & Hr & Hcs & ->)%createOrUpdate_shape;
    [|done]. cbn [t_labels t_links].
  assert (Hold : forall l, l ∈ taken -> l_ID l < t_label_id d).
  { intros l Hl. destruct (Ht l Hl) as [Hin _]. rewrite Forall_forall in Hlt. apply Hlt. by apply list_elem_of_fmap_2. }
  assert (Hcr : forall l, l ∈ created -> exists k i, missing !! k = Some i /\ as_created category (k, i) l).
  { intros l Hl. apply list_elem_of_lookup in Hl as (j & Hj). destruct (Forall2_lookup_r _ _ _ _ _ Hf Hj) as ([k i] & Hk & Ha).
    exists k, i. split; [|done]. apply order_elem. by eapply list_elem_of_lookup_2. }
  assert (Hmiss : forall k i, missing !! k = Some i -> (k ∉ map l_Key taken) /\ kvMap items !! k = Some i).
  { intros k i. rewrite Hm. case_bool_decide; [done|]. done. }
  split; [done|]. split; [|split; [|split; [|split; [|split]]]].
  - rewrite Hls, map_app. apply NoDup_app. split; [|split].
    + assert (Hinj : forall x y, x ∈ taken -> y ∈ taken -> l_ID x = l_ID y -> x = y).
      { intros x y Hx Hy E. destruct (Ht x Hx) as [Hx1 _], (Ht y Hy) as [Hy1 _]. exact (nodup_map_inj l_ID _ x y Hid Hx1 Hy1 E). }
      apply NoDup_fmap_2_strong; [done|]. by eapply NoDup_fmap_1.
    + intros n (x & -> & Hx)%list_elem_of_fmap (y & E & Hy)%list_elem_of_fmap.
      rewrite Forall_forall in Hr. specialize (Hr y Hy). specialize (Hold x Hx). lia.
    + clear -Hcs. induction Hcs as [|x l Hl IH Hx]; [constructor|]. constructor; [|done].
      intros (y & E & Hy)%list_elem_of_fmap. rewrite Forall_forall in Hx. specialize (Hx y Hy). lia.
  - rewrite Hls, map_app. apply NoDup_app. split; [done|].
    assert (Hkeys : map l_Key created = map fst (order missing)).
    { clear -Hf. induction Hf as [|[k i] l lo lc (id & ->) _ IH]; [done|]. simpl. by rewrite IH. }
    split.
    + intros k Hk. rewrite Hkeys. intros ([k' i] & -> & Hi)%list_elem_of_fmap. apply order_elem, Hmiss in Hi as [? _]. done.
    + rewrite Hkeys, Horder. apply NoDup_fst_map_to_list.
  - intros k v. split.
    + intros (l & Hl & <- & <-). rewrite Hls in Hl. apply elem_of_app in Hl as [Hl|Hl]; [by apply Ht|].
      apply Hcr in Hl as (k & i & Hi & id & ->). simpl. apply Hmiss in Hi as [_ Hi]. by exists i.
    + intros (i & Hi & <-). destruct (decide (k ∈ map l_Key taken)) as [Hk|Hk].
      * apply list_elem_of_fmap in Hk as (l & -> & Hl). exists l. split; [rewrite Hls; apply elem_of_app; by left|].
        split; [done|]. destruct (Ht l Hl) as (_ & i' & Hi' & Hv). congruence.
      * assert (Hi' : missing !! k = Some i) by (rewrite Hm; by case_bool_decide). apply order_elem in Hi'.
        apply list_elem_of_lookup in Hi' as (j & Hj). destruct (Forall2_lookup_l _ _ _ _ _ Hf Hj) as (l & Hl & id & ->).
        eexists. split; [rewrite Hls; apply elem_of_app; right; by eapply list_elem_of_lookup_2|]. done.
  - intros l Hl. rewrite Hls in Hl. apply elem_of_app in Hl as [Hl|Hl].
    + left. split; [by apply Ht|]. apply elem_of_app. left. apply list_elem_of_fmap. exists l. split; [|by apply Ht].
      unfold used_once_more. assert (has_id (map l_ID taken) l = true) as -> by (apply has_id_spec; by apply list_elem_of_fmap_2).
      done.
    + right. split; [apply elem_of_app; by right|]. split.
      { intros Hin. rewrite Forall_forall in Hlt. rewrite Forall_forall in Hr. specialize (Hlt _ Hin). specialize (Hr l Hl). lia. }
      apply Hcr in Hl as (k & i & _ & id & ->). done.
  - intros l Hl Hn. apply elem_of_app. left. apply list_elem_of_fmap. exists l. split; [|done].
    unfold used_once_more. destruct (has_id (map l_ID taken) l) eqn:E; [|done]. apply has_id_spec in E.
    exfalso. apply Hn. rewrite Hls, map_app. apply elem_of_app. by left.
  - done.
Qed.
End FoundSpec.

(** *** When it succeeds *)

Lemma colon_split_inj (a b x y : list ascii) :
  ":"%char ∉ a -> ":"%char ∉ b -> a ++ ":"%char :: x = b ++ ":"%char :: y -> a = b /\ x = y.
Proof.
  revert b. induction a as [|c a IH]; intros [|d b] Ha Hb E; simpl in E.
  - by injection E.
  - injection E as <- _. exfalso. apply Hb. by left.
  - injection E as -> _. exfalso. apply Ha. by left.
  - injection E as <- E. apply not_elem_of_cons in Ha as [_ Ha], Hb as [_ Hb]. by destruct (IH b Ha Hb E) as [-> ->].
Qed.

(** Without a colon in the keys the generated column tells the pairs apart. *)
Lemma kv_text_inj k v k' v' :
  free_of ":" k -> free_of ":" k' -> kv_text k v = kv_text k' v' -> k = k' /\ v = v'.
Proof.
  unfold free_of, kv_text. intros Hk Hk' E.
  assert (Hc : chars k ++ ":"%char :: chars v = chars k' ++ ":"%char :: chars v').
  { apply (f_equal chars) in E. by rewrite !chars_app in E. }
  apply colon_split_inj in Hc as [E1 E2]; [|done|done]. split; by apply chars_inj.
Qed.

Lemma insert_labels_succeeds ls d :
  NoDup (map (fun l => (l_Key l, l_Value l)) ls) ->
  (forall l, l ∈ ls -> l_Status l = enabled /\ free_of ":" (l_Key l) /\ with_defaults l = l) ->
  (forall l l', l ∈ ls -> l' ∈ t_labels d -> free_of ":" (l_Key l') /\ ~ (l_Key l' = l_Key l /\ l_Value l' = l_Value l)) ->
  exists r, insert_labels ls d = inl r.
Proof.
  revert d. induction ls as [|l ls IH]; intros d Hnd Hl Hd; [by eexists|].
  apply NoDup_cons in Hnd as [Hnot Hnd]. destruct (Hl l) as (Hs & Hk & Hdef); [by left|]. cbn [insert_labels].
  assert (Hfree : key_free active_key_value (t_labels d) (l_with_id (t_label_id d) (with_defaults l)) = true).
  { apply key_free_spec. rewrite Hdef. unfold active_key_value at 1. cbn [l_Status l_with_id l_Key l_Value]. rewrite Hs.
    cbn. intros k [= <-] (y & Hy & E)%elem_of_keys. unfold active_key_value in E.
    destruct (0 <=? l_Status y); [|done]. injection E as E. destruct (Hd l y) as [Hf Hne]; [by left|done|].
    apply kv_text_inj in E as [? ?]; [|done|done]. by apply Hne. }
  unfold tx_bind at 1, insert_label. rewrite Hfree.
  destruct (IH (mkLdb (t_labels d ++ [l_with_id (t_label_id d) (with_defaults l)]) (t_links d) (t_label_id d + 1)))
    as ([cs d'] & E); [done|by intros; apply Hl; right|..|].
  - intros x y Hx Hy. cbn [t_labels] in Hy. apply elem_of_app in Hy as [Hy|Hy%list_elem_of_singleton]; [apply Hd; [by right|done]|].
    subst y. rewrite Hdef. simpl. split; [done|]. intros [Ek Ev]. apply Hnot. apply list_elem_of_fmap. exists x.
    split; [by rewrite Ek, Ev|done].
  - unfold tx_bind. rewrite E. by eexists.
Qed.

Section Succeeds.
Context (order : gmap string LabelItem -> list (string * LabelItem)) (Horder : forall m, order m ≡ₚ map_to_list m).

(** When no key has a colon, the labels of a request can always be found or created. *)
Theorem request_labels_total items category d :
  Forall (fun i => free_of ":" (li_Key i)) items -> Forall (fun l => free_of ":" (l_Key l)) (t_labels d) ->
  exists ls d', CreateOrUpdateLabelsFromItems order items category d = inl (ls, d').
Proof.
  intros Hi Hl. unfold CreateOrUpdateLabelsFromItems. destruct items as [|i items]; [by eexists _, _|].
  set (all := i :: items) in *. unfold tx_bind at 1, tx_get.
  set (existing := listLabelsByConditions _ d).
  destruct (take_existing (kvMap all) existing) as [taken missing] eqn:Et.
  apply take_existing_spec in Et as (_ & _ & Hm & Hnew).
  unfold tx_bind, tx_on_err, batchIncreaseLabelUsages, tx_when, tx_wrap, tx_on_err.
  assert (Hd1 : exists d1, (if negb (length (map l_ID taken) =? 0)%nat
      then tx_do (update_labels (has_id (map l_ID taken)) (fun l => l_with_usage (l_Usage l + 1) l)) else tx_ret tt) d = inl (tt, d1) /\
      map (fun l => (l_Key l, l_Value l)) (t_labels d1) = map (fun l => (l_Key l, l_Value l)) (t_labels d)).
  { destruct (negb _); eexists; (split; [done|]); [|done]. cbn [update_labels set_labels t_labels]. rewrite map_map.
    apply map_ext. intros l. by destruct (has_id _ l). }
  destruct Hd1 as (d1 & -> & Hkv).
  destruct (insert_labels_succeeds (map (new_label category) (order missing)) d1) as ([cs d2] & E).
  - rewrite map_map. apply (NoDup_fmap_1 fst). rewrite <- list_fmap_compose.
    assert (Hfst : (fst ∘ (fun kv : string * LabelItem => (l_Key (new_label category kv), l_Value (new_label category kv)))) <$> order missing
              = fst <$> order missing) by done.
    rewrite Hfst, Horder. apply NoDup_fst_map_to_list.
  - intros l ([k it] & -> & Hin)%list_elem_of_fmap. split; [done|]. split; [|apply new_label_defaults]. simpl.
    rewrite Horder, elem_of_map_to_list, Hm in Hin. case_bool_decide; [done|]. apply kvMap_key in Hin as [<- Hin].
    rewrite Forall_forall in Hi. by apply Hi.
  - intros l l' ([k it] & -> & Hin)%list_elem_of_fmap Hl'. simpl.
    assert (Hl0 : exists l0, l0 ∈ t_labels d /\ l_Key l0 = l_Key l' /\ l_Value l0 = l_Value l').
    { assert (Hp : (l_Key l', l_Value l') ∈ map (fun l => (l_Key l, l_Value l)) (t_labels d1)).
      { apply list_elem_of_fmap. by exists l'. }
      rewrite Hkv in Hp. apply list_elem_of_fmap in Hp as (l0 & [= -> ->] & ?). by exists l0. }
    destruct Hl0 as (l0 & Hl0 & Ek & Ev). split; [rewrite <- Ek; rewrite Forall_forall in Hl; by apply Hl|].
    intros [Hk Hv]. rewrite <- Ek in Hk. rewrite <- Ev in Hv. rewrite Horder, elem_of_map_to_list in Hin.
    apply (Hnew k it Hin l0); [|done|done]. subst existing. unfold listLabelsByConditions. cbn [ConvertLabelItemsToConditions map all].
    rewrite Hm in Hin. case_bool_decide; [done|]. apply kvMap_key in Hin as [Hit Hin].
    rewrite list_elem_of_In. apply filter_In. rewrite <- list_elem_of_In. split; [done|].
    apply existsb_elem. exists (li_Key it, li_Value it). split.
    + change ((li_Key it, li_Value it) ∈ map (fun i => (li_Key i, li_Value i)) all). apply list_elem_of_fmap. by exists it.
    + apply has_kv_spec. simpl. by rewrite Hit.
  - unfold batchCreateLabels, tx_wrap, tx_on_err. rewrite E. by eexists _, _.
Qed.
End Succeeds.

(** ** The service keeps the invariant *)

Lemma insert_labels_keeps ls : Forall (fun l => 0 <= l_Usage l) ls -> tx_keeps labels_ok (insert_labels ls).
Proof.
  induction 1 as [|l ls Hl _ IH]; [apply tx_keeps_ret|]. apply tx_keeps_bind; [by apply insert_label_keeps|].
  intros c. apply tx_keeps_bind; [done|]. intros cs. apply tx_keeps_ret.
Qed.
Lemma request_labels_keeps order items category :
  tx_keeps labels_ok (CreateOrUpdateLabelsFromItems order items category).
Proof.
  unfold CreateOrUpdateLabelsFromItems. destruct items as [|i items]; [apply tx_keeps_ret|].
  apply tx_keeps_bind; [apply tx_keeps_get|]. intros existing. destruct (take_existing _ existing) as [taken missing].
  apply tx_keeps_bind; [apply tx_keeps_on_err, increase_keeps; lia|]. intros _.
  apply tx_keeps_bind; [|intros; apply tx_keeps_ret]. apply tx_keeps_on_err, tx_keeps_on_err, insert_labels_keeps.
  apply Forall_map, Forall_forall. intros kv _. simpl. unfold DefaultLabelUsage. lia.
Qed.

Lemma CreateLabelCore_keeps l : 0 <= l_Usage l -> tx_keeps labels_ok (CreateLabelCore l).
Proof.
  intros Hu d r d' Hd. unfold CreateLabelCore. destruct (find _ _) as [e|] eqn:E.
  - apply find_some in E as [Hin _]. intros Hr. refine (tx_keeps_bind labels_ok _ _ _ _ d r d' Hd Hr).
    + apply tx_keeps_on_err, save_label_keeps. simpl. destruct Hd as [_ _ Hus _]. rewrite Forall_forall in Hus.
      apply Hus. by apply list_elem_of_In.
    + intros. apply tx_keeps_ret.
  - intros Hr. refine (tx_keeps_on_err labels_ok _ _ _ d r d' Hd Hr). by apply insert_label_keeps.
Qed.

Lemma remove_all_kinds_keeps kinds ids : tx_keeps labels_ok (remove_all_kinds kinds ids).
Proof.
  induction kinds as [|k kinds IH]; [apply tx_keeps_ret|]. apply tx_keeps_bind; [auto with aegis|]. intros n.
  apply tx_keeps_bind; [done|]. intros m. apply tx_keeps_ret.
Qed.
Lemma Delete_keeps id : tx_keeps labels_ok (Delete id).
Proof.
  apply tx_keeps_bind; [apply tx_keeps_on_err, tx_keeps_on_err, tx_keeps_first|]. intros l.
  apply tx_keeps_bind; [apply remove_all_kinds_keeps|]. intros n.
  apply tx_keeps_bind; [auto with aegis|]. intros _.
  apply tx_keeps_bind; [auto with aegis|]. intros rows. apply tx_keeps_require.
Qed.

Lemma removeFromLabels_keeps kind ids : tx_keeps labels_ok (removeFromLabels kind ids).
Proof.
  intros d f d' Hd. unfold removeFromLabels. destruct (forallb _ ids); [by intros [= _ <-]|].
  intros [= _ <-]. by apply filter_links_keeps.
Qed.
Lemma remove_counting_keeps kinds ids : tx_keeps labels_ok (remove_counting kinds ids).
Proof.
  induction kinds as [|k kinds IH]; [apply tx_keeps_ret|]. apply tx_keeps_bind; [apply removeFromLabels_keeps|]. intros n.
  apply tx_keeps_bind; [done|]. intros m. apply tx_keeps_ret.
Qed.
Lemma BatchDelete_keeps ids : tx_keeps labels_ok (BatchDelete ids).
Proof.
  unfold BatchDelete. destruct ids as [|i ids]; [apply tx_keeps_ret|].
  apply tx_keeps_bind; [apply tx_keeps_get|]. intros labels.
  apply tx_keeps_bind; [apply tx_keeps_require|]. intros _. apply tx_keeps_bind; [apply tx_keeps_require|]. intros _.
  apply tx_keeps_bind; [apply remove_counting_keeps|]. intros decrement.
  apply tx_keeps_bind; [|intros; auto with aegis]. apply tx_keeps_on_err, tx_keeps_each. intros l _.
  apply save_label_keeps. simpl. lia.
Qed.
Lemma Service_Create_keeps req d : labels_ok d -> labels_ok (Service_Create req d).2.
Proof.
  apply tx_keeps_transaction, tx_keeps_bind; [by destruct (CreateLabelReq_Validate req); [apply tx_keeps_ret|apply tx_keeps_err]|].
  intros _. apply tx_keeps_on_err, CreateLabelCore_keeps. simpl. unfold DefaultLabelUsage. lia.
Qed.
Lemma Service_Update_keeps req id d : labels_ok d -> labels_ok (Service_Update req id d).2.
Proof.
  intros Hd. unfold Service_Update, transaction. destruct (tx_bind _ _ d) as [[l d']|e] eqn:E; [|done].
  apply tx_bind_inl in E as (u & d1 & E1 & E). assert (d1 = d) as ->.
  { unfold tx_check in E1. destruct (UpdateLabelReq_Validate req); [by injection E1|done]. }
  apply tx_bind_inl in E as (l0 & d1 & E2 & E). unfold GetDetail, GetLabelByID in E2.
  apply tx_wrap_inl, tx_wrap_inl, tx_first_inl in E2 as [Hf ->].
  apply find_some in Hf as [Hin _]. refine (tx_keeps_bind labels_ok _ _ _ _ d l d' Hd E).
  - apply tx_keeps_on_err, tx_keeps_on_err, save_label_keeps. simpl. destruct Hd as [_ _ Hus _]. rewrite Forall_forall in Hus.
    apply Hus. by apply list_elem_of_In.
  - intros. apply tx_keeps_ret.
Qed.

(** Links to labels that are there. *)
Lemma insert_links_inl ls d u d' :
  insert_links ls d = inl (u, d') ->
  d' = set_links (t_links d ++ ls) d /\ NoDup ls /\ (forall k, k ∈ ls -> k ∉ t_links d).
Proof.
  revert d. induction ls as [|k ls IH]; intros d; cbn [insert_links].
  { intros [= _ <-]. rewrite app_nil_r. split; [by destruct d|]. split; [constructor|]. by intros k ?%not_elem_of_nil. }
  case_bool_decide as Hk; [done|]. intros (-> & Hnd & Hnew)%IH. cbn [t_links set_links t_labels t_label_id] in *.
  split; [unfold set_links; cbn [t_links t_labels t_label_id]; by rewrite <- app_assoc|]. split.
  - constructor; [|done]. intros Hin. apply (Hnew k Hin). apply elem_of_app. right. by left.
  - intros x [->|Hx]%elem_of_cons; [done|]. intros Hin. apply (Hnew x Hx). apply elem_of_app. by left.
Qed.
Lemma insert_links_ok ls d d' u :
  labels_ok d -> Forall (fun k => k_Label k ∈ map l_ID (t_labels d)) ls -> insert_links ls d = inl (u, d') -> labels_ok d'.
Proof.
  intros [Hid Hk Hu [Hnd Hf]] Hls (-> & Hnd' & Hnew)%insert_links_inl. split; try done. simpl. split; [|by apply Forall_app].
  apply NoDup_app. split; [done|]. split; [|done]. intros x Hx Hx'. by apply (Hnew x).
Qed.
Lemma insert_missing_ok ls d d' u :
  labels_ok d -> Forall (fun k => k_Label k ∈ map l_ID (t_labels d)) ls -> insert_missing_links ls d = inl (u, d') ->
  labels_ok d' /\ (forall k, k ∈ t_links d' <-> k ∈ t_links d \/ k ∈ ls).
Proof.
  intros [Hid Hk Hu Hl] Hls [= _ <-]. cbn [t_links set_links].
  enough (H : forall base, NoDup base /\ Forall (fun k => k_Label k ∈ map l_ID (t_labels d)) base ->
    let l := fold_left (fun l k => if bool_decide (k ∈ l) then l else l ++ [k]) ls base in
    (NoDup l /\ Forall (fun k => k_Label k ∈ map l_ID (t_labels d)) l) /\ forall k, k ∈ l <-> k ∈ base \/ k ∈ ls).
  { destruct (H _ Hl) as [H1 H2]. split; [by split|done]. }
  clear Hl. induction Hls as [|k ls Hk1 _ IH]; intros base [Hnd Hf]; simpl; [split; [done|]; set_solver|].
  case_bool_decide as E; (destruct (IH (if bool_decide (k ∈ base) then base else base ++ [k])) as [H1 H2]; [|rewrite ?bool_decide_eq_true_2, ?bool_decide_eq_false_2 in H1, H2 by done; split; [done|]; intros x; rewrite H2; set_solver]).
  - by rewrite bool_decide_eq_true_2.
  - rewrite bool_decide_eq_false_2 by done. split; [|apply Forall_app; split; [done|by constructor]].
    apply NoDup_app. split; [done|]. split; [|apply NoDup_singleton]. by intros x Hx ->%list_elem_of_singleton.
Qed.

Lemma request_labels_ids order (Horder : forall m, order m ≡ₚ map_to_list m) items category d ls d' kind owner :
  CreateOrUpdateLabelsFromItems order items category d = inl (ls, d') ->
  Forall (fun k => k_Label k ∈ map l_ID (t_labels d')) (links_to kind owner (map l_ID ls)).
Proof.
  intros (taken & missing & created & Hls & _ & Ht & _ & _ & _ & _ & _ & ->)%createOrUpdate_shape; [|done].
  unfold links_to. apply Forall_forall. intros k (i & -> & Hi)%list_elem_of_fmap. simpl.
  rewrite Hls, map_app in Hi. rewrite map_app, map_map. apply elem_of_app. apply elem_of_app in Hi as [Hi|Hi]; [left|by right].
  apply list_elem_of_fmap in Hi as (l & -> & Hl). apply list_elem_of_fmap. exists l. split; [|by apply Ht].
  unfold used_once_more. by case_match.
Qed.

(** ** Attaching labels to an owner *)

(** What the services do with the labels of a request: the labels, then the links - an
    existing link is an error ([strict]) or is left alone. *)
Definition attach_labels (order : gmap string LabelItem -> list (string * LabelItem)) (strict : bool)
    (kind : owner_kind) (owner : Z) (items : list LabelItem) (category : Z) : Tx ldb unit :=
  let^ labels := tx_wrap "failed to create or update labels: "
                   (CreateOrUpdateLabelsFromItems order items category) in
  let links := links_to kind owner (map l_ID labels) in
  if strict then insert_links links else insert_missing_links links.
(** Detaching: the labels of the owner whose key is named. *)
Definition detach_labels (kind : owner_kind) (owner : Z) (keys : list string) : Tx ldb unit :=
  let^ ids := tx_get (fun d => map l_ID (List.filter (fun l => existsb (String.eqb (l_Key l)) keys) (labels_of kind owner d))) in
  match ids with
  | [] => tx_ret tt
  | _ => clear_links kind [owner] ids ;;^ BatchDecreaseLabelUsages ids 1
  end.

Lemma attach_labels_keeps order (Horder : forall m, order m ≡ₚ map_to_list m) strict kind owner items category :
  tx_keeps labels_ok (attach_labels order strict kind owner items category).
Proof.
  intros d u d' Hd (ls & d1 & Hc%tx_wrap_inl & Hl)%tx_bind_inl.
  assert (Hd1 : labels_ok d1) by (by eapply request_labels_keeps). assert (Hids := Hc).
  apply (request_labels_ids order Horder _ _ _ _ _ kind owner) in Hids.
  destruct strict; [by eapply insert_links_ok|]. by eapply insert_missing_ok in Hl as [? _].
Qed.
Lemma detach_labels_keeps kind owner keys : tx_keeps labels_ok (detach_labels kind owner keys).
Proof.
  apply tx_keeps_bind; [apply tx_keeps_get|]. intros [|i ids]; [apply tx_keeps_ret|].
  apply tx_keeps_bind; [apply clear_links_keeps|]. intros _. apply decrease_keeps.
Qed.

(** One operation of the backend on labels. *)
Inductive label_step : ldb -> ldb -> Prop :=
| step_create req d : label_step d (Service_Create req d).2
| step_update req id d : label_step d (Service_Update req id d).2
| step_delete id d : label_step d (Service_Delete id d).2
| step_batch_delete ids d : label_step d (Service_BatchDelete ids d).2
| step_attach order strict kind owner items category d :
    (forall m, order m ≡ₚ map_to_list m) ->
    label_step d (transaction (attach_labels order strict kind owner items category) d).2
| step_detach kind owner keys d : label_step d (transaction (detach_labels kind owner keys) d).2
| step_clear kind owners ids d : label_step d (transaction (clear_links kind owners ids) d).2.

(** The unique keys of labels: whatever the operations do one after the other,
    identifiers stay unique and new ones fresh, counts of uses do not become negative, no
    link is stored twice or names a label that does not exist, and no two labels that are
    not deleted have the same text [key:value]. *)
Theorem labels_stay_unique d0 d :
  labels_ok d0 -> rtc label_step d0 d ->
  labels_ok d /\
  forall l l', l ∈ t_labels d -> l' ∈ t_labels d -> 0 <= l_Status l -> 0 <= l_Status l' ->
    l_Key l = l_Key l' -> l_Value l = l_Value l' -> l = l'.
Proof.
  intros Hok Hsteps. assert (Hd : labels_ok d).
  { induction Hsteps as [|x y z Hxy _ IH]; [done|]. apply IH. destruct Hxy.
    - by apply Service_Create_keeps.
    - by apply Service_Update_keeps.
    - unfold Service_Delete. by apply tx_keeps_transaction; [apply Delete_keeps|].
    - unfold Service_BatchDelete. by apply tx_keeps_transaction; [apply BatchDelete_keeps|].
    - by apply tx_keeps_transaction; [apply attach_labels_keeps|].
    - by apply tx_keeps_transaction; [apply detach_labels_keeps|].
    - by apply tx_keeps_transaction; [apply clear_links_keeps|]. }
  split; [done|]. intros l l' Hl Hl' Hs Hs' Hk Hv.
  apply (nodup_key_inj active_key_value (t_labels d) l l' (kv_text (l_Key l) (l_Value l))); [apply Hd|done|done|..];
    unfold active_key_value; [by destruct (Z.leb_spec 0 (l_Status l)); [|lia]|].
  rewrite Hk, Hv. by destruct (Z.leb_spec 0 (l_Status l')); [|lia].
Qed.

(** ** Deletion *)

Lemma remove_all_kinds_inl kinds id d n d' :
  remove_all_kinds kinds [id] d = inl (n, d') ->
  t_labels d' = t_labels d /\ t_label_id d' = t_label_id d /\
  t_links d' = List.filter (fun k => negb (bool_decide (k_Kind k ∈ kinds) && (k_Label k =? id))) (t_links d) /\
  n = Z.of_nat (length (t_links d)) - Z.of_nat (length (t_links d')).
Proof.
  revert d n. induction kinds as [|kind kinds IH]; intros d n; cbn [remove_all_kinds].
  { intros [= <- <-]. split_and!; try done; [|lia]. induction (t_links d) as [|k l IHl]; [done|].
    cbn [List.filter]. rewrite bool_decide_eq_false_2 by apply not_elem_of_nil. cbn [andb negb]. by rewrite <- IHl. }
  rewrite tx_bind_inl. intros (a & d1 & [= <- <-] & Hr). rewrite tx_bind_inl in Hr.
  destruct Hr as (m & d2 & Hr & [= <- <-]). apply IH in Hr as (-> & -> & -> & ->). cbn [t_labels t_label_id t_links set_links].
  split; [done|]. split; [done|].
  assert (Hff : forall l, List.filter (fun k => negb (bool_decide (k_Kind k ∈ kinds) && (k_Label k =? id)))
            (List.filter (fun k => negb (bool_decide (k_Kind k = kind) && existsb (Z.eqb (k_Label k)) [id])) l) =
          List.filter (fun k => negb (bool_decide (k_Kind k ∈ kind :: kinds) && (k_Label k =? id))) l).
  { intros l. rewrite filter_twice. apply filter_ext. intros k. cbn [existsb]. rewrite orb_false_r.
    assert (bool_decide (k_Kind k ∈ kind :: kinds) = bool_decide (k_Kind k = kind) || bool_decide (k_Kind k ∈ kinds)) as ->.
    { rewrite <- bool_decide_or. apply bool_decide_ext. by rewrite elem_of_cons. }
    by destruct (bool_decide (k_Kind k = kind)), (bool_decide (k_Kind k ∈ kinds)), (k_Label k =? id). }
  rewrite Hff. split; [done|].
  unfold links_of. assert (Hsum := filter_split_length (fun k => bool_decide (k_Kind k = kind) && existsb (Z.eqb (k_Label k)) [id]) (t_links d)).
  simpl in Hsum |- *. lia.
Qed.

Lemma all_kinds kind : kind ∈ owner_kinds.
Proof. destruct kind; repeat constructor. Qed.

(** The deletion of a label: when it succeeds, the label was there and is marked
    deleted, its count is lowered by the number of its links and not below zero, no link to
    it of any kind is left and every other link and label is as before; when it fails,
    nothing is changed. *)
Theorem Service_Delete_spec id d r d' :
  labels_ok d -> Service_Delete id d = (r, d') ->
  match r with
  | inl _ => exists l, l ∈ t_labels d /\ l_ID l = id /\ l_Status l <> deleted /\
      t_links d' = List.filter (fun k => negb (k_Label k =? id)) (t_links d) /\
      (forall l', l' ∈ t_labels d' <->
         l' = l_with_status deleted (l_with_usage (Z.max 0 (l_Usage l - (Z.of_nat (length (t_links d)) - Z.of_nat (length (t_links d'))))) l) \/
         (l' ∈ t_labels d /\ l_ID l' <> id))
  | inr _ => d' = d
  end.
Proof.
  intros [[Hid _] _ _ _]. unfold Service_Delete. destruct r as [u|e]; [|by intros [_ ->]%transaction_inr].
  intros Ht%transaction_inl. apply tx_bind_inl in Ht as (l & d1 & Hg & Ht).
  unfold GetLabelByID in Hg. apply tx_wrap_inl, tx_wrap_inl, tx_first_inl in Hg as [Hg ->].
  apply find_some in Hg as [Hin Eid%Z.eqb_eq]. apply list_elem_of_In in Hin.
  apply tx_bind_inl in Ht as (n & d1 & Hr & Ht). rewrite Eid in Hr.
  apply remove_all_kinds_inl in Hr as (Hl1 & Hn1 & Hk1 & ->).
  apply tx_bind_inl in Ht as (u1 & d2 & Hdec & Ht). injection Hdec as _ <-.
  apply tx_bind_inl in Ht as (rows & d3 & Hdel & Ht). injection Hdel as <- <-. apply tx_require_inl in Ht as [Hrows ->].
  cbn [t_labels t_links set_labels update_labels] in *. rewrite Hl1 in *.
  assert (Hlinks : t_links d1 = List.filter (fun k => negb (k_Label k =? id)) (t_links d)).
  { rewrite Hk1. apply filter_ext. intros k. by rewrite bool_decide_eq_true_2 by apply all_kinds. }
  assert (Hlive : l_Status l <> deleted).
  { intros Hs. apply negb_true_iff, Z.eqb_neq in Hrows. apply Hrows.
    match goal with |- context [length ?f] => destruct f as [|x xs] eqn:Ef end; [done|]. exfalso.
    assert (Hx : In x (x :: xs)) by by left. rewrite <- Ef in Hx. apply filter_In in Hx as [Hx Hp].
    apply in_map_iff in Hx as (y & <- & Hy). apply andb_true_iff in Hp as [Hp1 Hp2].
    assert (Hyl : l_ID y = id) by (destruct (_ || false) in Hp1; by apply Z.eqb_eq in Hp1).
    assert (y = l) as -> by (apply (nodup_map_inj l_ID (t_labels d)); [done|by apply list_elem_of_In|done|congruence]).
    unfold not_deleted in Hp2. destruct (_ || false) in Hp2; simpl in Hp2; rewrite Hs in Hp2; done. }
  exists l. split; [done|]. split; [done|]. split; [done|]. split; [done|].
  set (used := Z.max 0 _). intros l'. rewrite !list_elem_of_fmap. split.
  - intros (y & -> & (z & -> & Hz)%list_elem_of_fmap). destruct (decide (l_ID z = id)) as [E|E].
    + left. assert (z = l) as -> by (apply (nodup_map_inj l_ID (t_labels d)); [done|done|done|congruence]).
      rewrite Z.eqb_refl. simpl. rewrite Eid, Z.eqb_refl. unfold not_deleted. simpl. by destruct (Z.eqb_spec (l_Status l) deleted).
    + right. destruct (Z.eqb_spec (l_ID z) (l_ID l)) as [|_]; [congruence|]. simpl.
      destruct (Z.eqb_spec (l_ID z) id); [done|]. done.
  - intros [->|[Hin' Hne]].
    + eexists. split; [|apply list_elem_of_fmap; exists l; split; [done|done]].
      rewrite Z.eqb_refl. simpl. rewrite Eid, Z.eqb_refl. unfold not_deleted. simpl. by destruct (Z.eqb_spec (l_Status l) deleted).
    + eexists. split; [|apply list_elem_of_fmap; exists l'; split; [done|done]].
      destruct (Z.eqb_spec (l_ID l') (l_ID l)) as [|_]; [congruence|]. simpl.
      by destruct (Z.eqb_spec (l_ID l') id).
Qed.

(** A label that does not exist is documented to be answered with 404; the error of the
    query is made anew without what it wraps, so the answer is a 500 for all three calls. *)
Theorem missing_label_is_500 id req d :
  (forall l, l ∈ t_labels d -> l_ID l <> id) -> UpdateLabelReq_Validate req = Ok tt ->
  exists e1 e2 e3 msg,
    GetDetail id d = inr e1 /\ (Service_Delete id d).1 = inr e2 /\ (Service_Update req id d).1 = inr e3 /\
    Forall (fun e => HandleServiceError (Some e) = Some (500, msg)) [e1; e2; e3].
Proof.
  intros Hid Hreq. assert (Hf : find (fun l => l_ID l =? id) (t_labels d) = None).
  { destruct (find _ _) as [l|] eqn:E; [|done]. apply find_some in E as [Hin E%Z.eqb_eq]. by apply list_elem_of_In, Hid in Hin. }
  assert (Hg : GetLabelByID id d = inr (New ("label with id " +:+ itoa id +:+ " not found"))).
  { unfold GetLabelByID, tx_on_err, tx_first. by rewrite Hf. }
  assert (Hdet : GetDetail id d = inr (Wrap "failed to get label: " (New ("label with id " +:+ itoa id +:+ " not found")) "")).
  { unfold GetDetail, tx_on_err. by rewrite Hg. }
  assert (Hdel : Delete id d = inr (Flat "failed to get label: " (New ("label with id " +:+ itoa id +:+ " not found")))).
  { unfold Delete, tx_bind at 1, tx_on_err. by rewrite Hg. }
  eexists _, _, _, _. split; [exact Hdet|]. unfold Service_Delete, Service_Update, transaction.
  rewrite Hdel, Hreq. unfold tx_check, tx_bind at 1, tx_ret. unfold tx_bind at 1. rewrite Hdet. repeat constructor.
Qed.

(** ** What attaching and detaching do to the labels of an owner *)

Definition has_label (kind : owner_kind) (owner : Z) (k v : string) (d : ldb) : Prop :=
  exists l, l ∈ labels_of kind owner d /\ l_Key l = k /\ l_Value l = v.

Lemma elem_labels_of kind owner d l :
  l ∈ labels_of kind owner d <-> l ∈ t_labels d /\ mkLabelLink kind owner (l_ID l) ∈ t_links d.
Proof.
  unfold labels_of. rewrite list_elem_of_In, filter_In, <- list_elem_of_In. split; intros [? ?]; (split; [done|]).
  - by apply bool_decide_eq_true in H0.
  - by apply bool_decide_eq_true.
Qed.

(** A label at two times, with another count of uses. *)
Definition same_label (l l' : Label) : Prop := l_ID l = l_ID l' /\ l_Key l = l_Key l' /\ l_Value l = l_Value l'.
(** The labels are there and keep key and value. *)
Definition labels_extend (d d' : ldb) : Prop := forall l, l ∈ t_labels d -> exists l', l' ∈ t_labels d' /\ same_label l l'.

(** Where labels are kept, the labels of an owner follow the links. *)
Lemma has_label_links kind owner k v d d' (new : list Label) :
  labels_ok d -> labels_ok d' -> labels_extend d d' ->
  (forall l, l ∈ new -> exists l', l' ∈ t_labels d' /\ same_label l l') ->
  (forall n, mkLabelLink kind owner n ∈ t_links d' <-> mkLabelLink kind owner n ∈ t_links d \/ n ∈ map l_ID new) ->
  has_label kind owner k v d' <-> has_label kind owner k v d \/ exists l, l ∈ new /\ l_Key l = k /\ l_Value l = v.
Proof.
  intros Hd [[Hid' _] _ _ _] Hext Hnew Hlinks.
  assert (Huniq : forall l x y, x ∈ t_labels d' -> y ∈ t_labels d' -> same_label l x -> l_ID l = l_ID y -> l_Key y = l_Key l /\ l_Value y = l_Value l).
  { intros l x y Hx Hy (E1 & E2 & E3) E. rewrite (nodup_map_inj l_ID _ y x Hid' Hy Hx) by congruence. done. }
  split.
  - intros (l & [Hl [Hk|Hk]%Hlinks]%elem_labels_of & <- & <-).
    + destruct Hd as [_ _ _ [_ Hf]]. rewrite Forall_forall in Hf. specialize (Hf _ Hk). cbn [k_Label] in Hf. apply list_elem_of_fmap in Hf as (y & Ey & Hy). left. exists y.
      split; [apply elem_labels_of; split; [done|by rewrite <- Ey]|]. destruct (Hext y Hy) as (y' & Hy' & Hs).
      destruct (Huniq y y' l) as [-> ->]; done.
    + apply list_elem_of_fmap in Hk as (y & Ey & Hy). right. exists y. split; [done|]. destruct (Hnew y Hy) as (y' & Hy' & Hs).
      destruct (Huniq y y' l) as [-> ->]; done.
  - intros [(l & [Hl Hk]%elem_labels_of & <- & <-)|(l & Hl & <- & <-)].
    + destruct (Hext l Hl) as (l' & Hl' & E1 & E2 & E3). exists l'. split; [|done]. apply elem_labels_of. split; [done|].
      apply Hlinks. left. by rewrite <- E1.
    + destruct (Hnew l Hl) as (l' & Hl' & E1 & E2 & E3). exists l'. split; [|done]. apply elem_labels_of. split; [done|].
      apply Hlinks. right. rewrite <- E1. by apply list_elem_of_fmap_2.
Qed.

Section Attached.
Context (order : gmap string LabelItem -> list (string * LabelItem)) (Horder : forall m, order m ≡ₚ map_to_list m).

Lemma request_labels_extend items category d ls d' :
  labels_ok d -> CreateOrUpdateLabelsFromItems order items category d = inl (ls, d') ->
  labels_extend d d' /\ (forall l, l ∈ ls -> exists l', l' ∈ t_labels d' /\ same_label l l').
Proof.
  intros Hd E. apply (request_labels order Horder) in E as (_ & _ & _ & _ & Hls & Hrest & _); [|done].
  assert (Hnew : forall l, l ∈ ls -> exists l', l' ∈ t_labels d' /\ same_label l l').
  { intros l [[_ H]|[H _]]%Hls; eexists; by split. }
  split; [|done]. intros l Hl. destruct (decide (l_ID l ∈ map l_ID ls)) as [Hin|Hin]; [|exists l; split; [by apply Hrest|done]].
  apply list_elem_of_fmap in Hin as (y & Ey & Hy). destruct (Hls y Hy) as [[Hy' H]|(_ & H & _)].
  - exists (l_with_usage (l_Usage y + 1) y). split; [done|]. destruct Hd as [[Hid _] _ _ _].
    by rewrite (nodup_map_inj l_ID _ l y Hid Hl Hy' Ey).
  - exfalso. apply H. rewrite <- Ey. by apply list_elem_of_fmap_2.
Qed.

(** After attaching, the owner has what it had and what was asked for; the others have
    what they had. *)
Lemma attach_labels_spec strict kind owner items category d u d' :
  labels_ok d -> attach_labels order strict kind owner items category d = inl (u, d') ->
  (forall k v, has_label kind owner k v d' <-> has_label kind owner k v d \/ wanted items k v) /\
  (forall kind' owner' k v, (kind', owner') <> (kind, owner) -> has_label kind' owner' k v d' <-> has_label kind' owner' k v d).
Proof.
  intros Hd E. assert (Hd' := attach_labels_keeps order Horder strict kind owner items category d u d' Hd E).
  apply tx_bind_inl in E as (ls & d1 & Hc%tx_wrap_inl & Hl).
  assert (Hd1 := request_labels_keeps order items category _ _ _ Hd Hc).
  assert (Hids := request_labels_ids order Horder items category d ls d1 kind owner Hc).
  destruct (request_labels_extend _ _ _ _ _ Hd Hc) as [Hext Hnew].
  apply (request_labels order Horder) in Hc as (_ & _ & _ & Hw & _ & _ & Hsame); [|done].
  assert (Hlinks : t_labels d' = t_labels d1 /\ forall x, x ∈ t_links d' <-> x ∈ t_links d \/ x ∈ links_to kind owner (map l_ID ls)).
  { rewrite <- Hsame. destruct strict.
    - apply insert_links_inl in Hl as (-> & _ & _). split; [done|]. intros x. cbn [t_links set_links]. apply elem_of_app.
    - split; [by injection Hl as _ <-|]. by apply insert_missing_ok in Hl as [_ ?]. }
  destruct Hlinks as [Hlab Hlinks].
  assert (Hext' : labels_extend d d') by (intros l Hl0; destruct (Hext l Hl0) as (l' & ? & ?); exists l'; by rewrite Hlab).
  split.
  - intros k v. rewrite <- Hw. apply has_label_links; [done..| |].
    + intros l Hin. rewrite Hlab. by apply Hnew.
    + intros n. rewrite Hlinks. unfold links_to. split; (intros [?|H]; [by left|right]).
      * apply list_elem_of_fmap in H as (i & [= ->] & ?). done.
      * apply list_elem_of_fmap. by exists n.
  - intros kind' owner' k v Hne. rewrite (has_label_links kind' owner' k v d d' []); [|done..|by intros ? ?%not_elem_of_nil|].
    + split; [intros [?|(? & ?%not_elem_of_nil & _)]; done|by left].
    + intros n. rewrite Hlinks. simpl. split; [intros [?|H]; [by left|]|intros [?|?%not_elem_of_nil]; [by left|done]].
      apply list_elem_of_fmap in H as (i & [= -> -> _] & _). done.
Qed.
End Attached.

(** After detaching, the owner has its labels of the other keys. *)
Lemma detach_labels_spec kind owner keys d u d' :
  labels_ok d -> detach_labels kind owner keys d = inl (u, d') ->
  (forall k v, has_label kind owner k v d' <-> has_label kind owner k v d /\ k ∉ keys) /\
  (forall kind' owner' k v, (kind', owner') <> (kind, owner) -> has_label kind' owner' k v d' <-> has_label kind' owner' k v d).
Proof.
  intros Hd E. assert (Hd' := detach_labels_keeps _ _ _ _ _ _ Hd E). apply tx_bind_inl in E as (ids & d0 & [= <- <-] & E).
  set (ids := map l_ID _) in E.
  assert (Hids : forall l, l ∈ labels_of kind owner d -> l_ID l ∈ ids <-> l_Key l ∈ keys).
  { intros l Hl. unfold ids. split.
    - intros (y & Ey & [Hy Hk]%list_elem_of_In%filter_In)%list_elem_of_fmap. rewrite <- list_elem_of_In in Hy.
      assert (y = l) as ->.
      { destruct Hd as [[Hid _] _ _ _]. apply elem_labels_of in Hy as [Hy _], Hl as [Hl _].
        exact (nodup_map_inj l_ID _ y l Hid Hy Hl (eq_sym Ey)). }
      apply existsb_elem in Hk as (k & Hk & ->%String.eqb_eq). done.
    - intros Hk. apply list_elem_of_fmap_2. apply list_elem_of_In, filter_In. rewrite <- list_elem_of_In. split; [done|].
      apply existsb_elem. exists (l_Key l). split; [done|apply String.eqb_refl]. }
  assert (Hst : labels_extend d d' /\ forall x, x ∈ t_links d' <-> x ∈ t_links d /\ ~ (k_Kind x = kind /\ k_Owner x = owner /\ k_Label x ∈ ids)).
  { clearbody ids. destruct ids as [|i ids].
    { injection E as _ <-. split; [intros l Hl; by exists l|]. intros x. split; [|by intros [? _]]. intros ?. split; [done|].
      by intros (_ & _ & ?%not_elem_of_nil). }
    apply tx_bind_inl in E as (v & d1 & Hc & Hdec). assert (Hlk := Hdec).
    unfold BatchDecreaseLabelUsages, tx_when in Hdec. cbn [length negb Nat.eqb] in Hdec. injection Hdec as _ <-.
    injection Hc as _ <-. split.
    - intros l Hl. eexists. split; [cbn [t_labels update_labels set_labels set_links]; by apply list_elem_of_fmap_2|]. by case_match.
    - intros x. cbn [t_links update_labels set_labels set_links]. rewrite list_elem_of_In, filter_In, <- list_elem_of_In.
      assert (Hex : existsb (Z.eqb (k_Label x)) (i :: ids) = true <-> k_Label x ∈ i :: ids).
      { rewrite existsb_elem. split; [by intros (? & ? & ->%Z.eqb_eq)|]. intros ?. exists (k_Label x). by rewrite Z.eqb_refl. }
      rewrite negb_true_iff, <- not_true_iff_false, !andb_true_iff, bool_decide_eq_true, Hex. cbn [existsb].
      rewrite orb_false_r, Z.eqb_eq. tauto. }
  destruct Hst as [Hext Hlinks].
  assert (Hback : forall l, l ∈ t_labels d' -> forall kk oo, mkLabelLink kk oo (l_ID l) ∈ t_links d ->
     exists y, y ∈ labels_of kk oo d /\ same_label y l).
  { intros l Hl kk oo Hk. destruct Hd as [_ _ _ [_ Hf]]. rewrite Forall_forall in Hf. specialize (Hf _ Hk). cbn [k_Label] in Hf.
    apply list_elem_of_fmap in Hf as (y & Ey & Hy). exists y. split; [apply elem_labels_of; by rewrite <- Ey|].
    destruct (Hext y Hy) as (y' & Hy' & Hs). destruct Hd' as [[Hid' _] _ _ _].
    rewrite (nodup_map_inj l_ID _ l y' Hid' Hl Hy'); [done|]. rewrite Ey. apply Hs. }
  split.
  - intros k v. split.
    + intros (l & [Hl [Hk Hn]%Hlinks]%elem_labels_of & <- & <-). destruct (Hback l Hl _ _ Hk) as (y & Hy & E1 & E2 & E3).
      split; [exists y; by rewrite E2, E3|]. intros Hin. apply Hn. cbn [k_Kind k_Owner k_Label]. split; [done|]. split; [done|].
      rewrite <- E1. apply Hids; [done|]. by rewrite E2.
    + intros [(l & Hl & <- & <-) Hn]. assert (Hl' := Hl). apply elem_labels_of in Hl' as [Hin Hk].
      destruct (Hext l Hin) as (l' & Hl' & E1 & E2 & E3). exists l'. split; [|by rewrite E2, E3]. apply elem_labels_of.
      split; [done|]. rewrite <- E1. apply Hlinks. split; [done|]. cbn [k_Kind k_Owner k_Label]. intros (_ & _ & Hi).
      by apply Hn, Hids.
  - intros kk oo k v Hne. split.
    + intros (l & [Hl [Hk Hn]%Hlinks]%elem_labels_of & <- & <-). destruct (Hback l Hl _ _ Hk) as (y & Hy & E1 & E2 & E3).
      exists y. by rewrite E2, E3.
    + intros (l & [Hin Hk]%elem_labels_of & <- & <-). destruct (Hext l Hin) as (l' & Hl' & E1 & E2 & E3). exists l'.
      split; [|by rewrite E2, E3]. apply elem_labels_of. split; [done|]. rewrite <- E1. apply Hlinks. split; [done|].
      cbn [k_Kind k_Owner k_Label]. intros (-> & -> & _). done.
Qed.

Module LabelSample.
Definition order (m : gmap string LabelItem) : list (string * LabelItem) := map_to_list m.
Definition empty : ldb := mkLdb [] [] 1.
Definition item (k v : string) : LabelItem := mkLabelItem k v false.
Definition req : CreateLabelReq := mkCreateLabel "team" "red" 5 "" None.
Definition d1 : ldb := (Service_Create req empty).2.
Definition d2 : ldb := (transaction (attach_labels order true Injections_ 7 [item "env" "old"; item "team" "red"; item "env" "prod"] 5) d1).2.

Lemma no_labels_ok : labels_ok empty.
Proof. split; simpl; repeat constructor. Qed.
Lemma label_steps : rtc label_step empty d2.
Proof.
  eapply rtc_l; [exact (step_create req empty)|]. eapply rtc_l; [|apply rtc_refl].
  apply (step_attach order true Injections_ 7 [item "env" "old"; item "team" "red"; item "env" "prod"] 5 d1). done.
Qed.
Lemma labels_stay_unique_witness : labels_ok d2 /\ map (fun l => (l_Key l, l_Value l, l_Usage l)) (t_labels d2) = [("team", "red", 2); ("env", "prod", 1)].
Proof. split; [exact (proj1 (labels_stay_unique empty d2 no_labels_ok label_steps))|vm_compute; reflexivity]. Defined.

Definition found : list Label * ldb :=
  match CreateOrUpdateLabelsFromItems order [item "env" "old"; item "team" "red"; item "env" "prod"] 5 d1 with
  | inl r => r
  | inr _ => ([], d1)
  end.
Lemma d1_ok : labels_ok d1.
Proof. apply (Service_Create_keeps req empty no_labels_ok). Qed.
Lemma request_labels_witness :
  map (fun l => (l_Key l, l_Value l)) (fst found) = [("team", "red"); ("env", "prod")] /\
  NoDup (map l_Key (fst found)).
Proof.
  assert (Hf : CreateOrUpdateLabelsFromItems order [item "env" "old"; item "team" "red"; item "env" "prod"] 5 d1
               = inl (fst found, snd found)) by (vm_compute; reflexivity).
  split; [vm_compute; reflexivity|].
  exact (proj1 (proj2 (proj2 (request_labels order (fun m => reflexivity _) _ 5 d1 _ _ d1_ok Hf)))).
Defined.

Lemma d2_ok : labels_ok d2.
Proof. exact (proj1 (labels_stay_unique empty d2 no_labels_ok label_steps)). Qed.
Lemma Service_Delete_spec_witness : t_links (Service_Delete 1 d2).2 = [mkLabelLink Injections_ 7 2].
Proof.
  assert (Hr : Service_Delete 1 d2 = (inl tt, (Service_Delete 1 d2).2)) by (vm_compute; reflexivity).
  destruct (Service_Delete_spec 1 d2 (inl tt) _ d2_ok Hr) as (l & _ & _ & _ & Hl & _).
  rewrite Hl. vm_compute. reflexivity.
Defined.

(** A label that was deleted is found again by its text: what asks for it is linked to the
    deleted row, and no new label is made. *)
Example deleted_label_is_attached :
  let d3 := (Service_Delete 1 d2).2 in
  let d4 := (transaction (attach_labels order true Injections_ 8 [item "team" "red"] 5) d3).2 in
  map (fun l => (l_ID l, l_Status l)) (labels_of Injections_ 8 d4) = [(1, deleted)].
Proof. vm_compute. reflexivity. Qed.

(** Two pairs that read the same with their colon cannot both be labels. *)
Example colon_in_a_key_conflicts :
  is_ok (match CreateOrUpdateLabelsFromItems order [item "a" "b:c"; item "a:b" "c"] 5 empty with
         | inl _ => Ok tt
         | inr _ => Err ""
         end) = false.
Proof. vm_compute. reflexivity. Qed.
End LabelSample.
