(* ===== verification/Search.v ===== *)
(** * Search and lists ([dto/common.go], [dto/search.go], [searchx/query_builder.go],
      [consts/search_fields.go], the search of [module/injection] and [module/dataset])

    A search request becomes filters, the filters become the conditions of a query,
    and the rows come back in pages or as a tree of groups.  A condition is kept as
    the code gives it to gorm: a text of SQL and its arguments. *)

From S2P Require Import Prelude GoStrings Consts.
#[local] Open Scope Z_scope.

(** ** Pages *)

Record PaginationReq := mkPagination { Page : Z; Size : Z }.
Record PaginationInfo := mkPageInfo { pi_Page : Z; pi_Size : Z; pi_Total : Z; pi_TotalPages : Z }.

(** Fills the defaults, then checks. *)
Definition PaginationReq_Validate (p : PaginationReq) : res PaginationReq :=
  let p := if Page p =? 0 then mkPagination 1 (Size p) else p in
  let p := if Size p =? 0 then mkPagination (Page p) (PageSize_code PageSizeMedium) else p in
  require (negb (Page p <? 1)) "page must be at least 1" ;;?
  require (existsb (fun s => PageSize_code s =? Size p) ValidPageSizes) ("invalid page size: " +:+ itoa (Size p)) ;;?
  Ok p.
Definition ToGormParams (p : PaginationReq) : Z * Z :=
  let limit := if Size p =? 0 then 20 else Size p in
  let page := Z.max (Page p) 1 in
  (limit, wrap64 (wrap64 (page - 1) * limit)).
Definition ConvertToPaginationInfo (p : PaginationReq) (total : Z) : PaginationInfo :=
  let totalPages := if Size p =? 0 then 0 else Z.quot (wrap64 (wrap64 (total + Size p) - 1)) (Size p) in
  mkPageInfo (Page p) (Size p) total totalPages.

(** What a query gives with a limit and an offset. *)
Definition page_rows {A} (limit offset : Z) (rows : list A) : list A :=
  take (Z.to_nat limit) (drop (Z.to_nat offset) rows).

(** ** Requests *)

Definition OpEqual : string := "eq".
Definition OpNotEqual : string := "ne".
Definition OpGreater : string := "gt".
Definition OpGreaterEq : string := "gte".
Definition OpLess : string := "lt".
Definition OpLessEq : string := "lte".
Definition OpLike : string := "like".
Definition OpStartsWith : string := "starts".
Definition OpEndsWith : string := "ends".
Definition OpNotLike : string := "nlike".
Definition OpIn : string := "in".
Definition OpNotIn : string := "nin".
Definition OpIsNull : string := "null".
Definition OpIsNotNull : string := "nnull".
Definition OpDateEqual : string := "deq".
Definition OpDateAfter : string := "dafter".
Definition OpDateBefore : string := "dbefore".
Definition OpDateBetween : string := "dbetween".

Record SearchFilter := mkFilter { f_Field : string; f_Operator : string; f_Value : string; f_Values : list string }.
Record TypedSortOption := mkSort { so_Field : string; so_Direction : string }.

Definition SortOption_Validate (so : TypedSortOption) : res unit :=
  require (existsb (String.eqb (so_Direction so)) ["asc"; "desc"])
    ("invalid sort direction: " +:+ so_Direction so).

Record SearchReq := mkSearch {
  sr_Page : PaginationReq;
  sr_Filters : list SearchFilter;
  sr_Sort : list TypedSortOption;
  sr_GroupBy : list string;
  sr_Keyword : string;
  sr_IncludeFields : list string;
  sr_ExcludeFields : list string;
  sr_Includes : list string
}.
Definition with_filters (l : list SearchFilter) (sr : SearchReq) : SearchReq :=
  mkSearch (sr_Page sr) l (sr_Sort sr) (sr_GroupBy sr) (sr_Keyword sr) (sr_IncludeFields sr) (sr_ExcludeFields sr) (sr_Includes sr).

Definition GetOffset (sr : SearchReq) : Z := wrap64 (wrap64 (Page (sr_Page sr) - 1) * Size (sr_Page sr)).
Definition HasFilter (sr : SearchReq) (field : string) : bool :=
  existsb (fun f => String.eqb (f_Field f) field) (sr_Filters sr).
Definition GetFilter (sr : SearchReq) (field : string) : option SearchFilter :=
  find (fun f => String.eqb (f_Field f) field) (sr_Filters sr).

(** A value of a filter as [%v] prints it: one value, or a slice. *)
Inductive filter_value :=
| One (text : string)
| Slice (texts : list string).
Definition print_value (v : filter_value) : string :=
  match v with One s => s | Slice l => "[" +:+ join " " l +:+ "]" end.

Definition AddFilter (field operator : string) (v : filter_value) (sr : SearchReq) : SearchReq :=
  let is_in := String.eqb operator OpIn || String.eqb operator OpNotIn in
  let filter := match is_in, v with
                | true, Slice values => mkFilter field operator "" values
                | _, _ => mkFilter field operator (print_value v) []
                end in
  with_filters (sr_Filters sr ++ [filter]) sr.
Definition AddInclude (field : string) (sr : SearchReq) : SearchReq :=
  mkSearch (sr_Page sr) (sr_Filters sr) (sr_Sort sr) (sr_GroupBy sr) (sr_Keyword sr) (sr_IncludeFields sr)
    (sr_ExcludeFields sr) (sr_Includes sr ++ [field]).

(** A time is an instant with its text. *)
Record stamp := mkStamp { st_ns : Z; st_text : string }.
Record DateRange := mkDateRange { dr_From : option stamp; dr_To : option stamp }.
Definition DateRange_Validate (dr : DateRange) : res unit :=
  match dr_From dr, dr_To dr with
  | Some from, Some to =>
      require (negb (st_ns to <? st_ns from)) "invalid date range: 'from' date is after 'to' date"
  | _, _ => Ok tt
  end.

Record AdvancedSearchReq := mkAdvanced {
  as_Page : PaginationReq;
  as_Sort : list TypedSortOption;
  as_GroupBy : list string;
  as_Statuses : list Z;
  as_CreatedAt : option DateRange;
  as_UpdatedAt : option DateRange
}.
Definition opt_check {A} (f : A -> res unit) (o : option A) : res unit :=
  match o with Some x => f x | None => Ok tt end.
Definition AdvancedSearchReq_Validate (req : AdvancedSearchReq) : res AdvancedSearchReq :=
  let? page := PaginationReq_Validate (as_Page req) in
  for_each (fun i so => res_wrap ("invalid sort option at index " +:+ itoa (Z.of_nat i) +:+ ": ") (SortOption_Validate so))
    (as_Sort req) ;;?
  for_each (fun i field => require (negb (String.eqb (trim_space field) ""))
                             ("empty group_by field at index " +:+ itoa (Z.of_nat i))) (as_GroupBy req) ;;?
  for_each (fun i status => require (existsb (fun s => StatusType_code s =? status) ValidStatuses)
                              ("invalid status value at index " +:+ itoa (Z.of_nat i))) (as_Statuses req) ;;?
  opt_check (fun r => res_wrap "invalid created_at range: " (DateRange_Validate r)) (as_CreatedAt req) ;;?
  opt_check (fun r => res_wrap "invalid updated_at range: " (DateRange_Validate r)) (as_UpdatedAt req) ;;?
  Ok (mkAdvanced page (as_Sort req) (as_GroupBy req) (as_Statuses req) (as_CreatedAt req) (as_UpdatedAt req)).

Definition add_range (field : string) (r : option DateRange) (sr : SearchReq) : SearchReq :=
  match r with
  | None => sr
  | Some r =>
      match dr_From r, dr_To r with
      | Some from, Some to => AddFilter field OpDateBetween (Slice [st_text from; st_text to]) sr
      | Some from, None => AddFilter field OpDateAfter (One (st_text from)) sr
      | None, Some to => AddFilter field OpDateBefore (One (st_text to)) sr
      | None, None => sr
      end
  end.
Definition status_filter (statuses : list Z) : SearchFilter :=
  match statuses with
  | [] => mkFilter "status" OpNotEqual (itoa (StatusType_code CommonDeleted)) []
  | _ => mkFilter "status" OpIn "" (map itoa statuses)
  end.
Definition ConvertAdvancedToSearch (req : AdvancedSearchReq) : SearchReq :=
  let sr := mkSearch (as_Page req) [status_filter (as_Statuses req)] (as_Sort req) (as_GroupBy req) "" [] [] [] in
  add_range "updated_at" (as_UpdatedAt req) (add_range "created_at" (as_CreatedAt req) sr).

(** *** The requests of the modules *)

Definition add_opt (field operator : string) (o : option string) (sr : SearchReq) : SearchReq :=
  match o with Some v => AddFilter field operator (One v) sr | None => sr end.
Definition add_in (field : string) (l : list string) (sr : SearchReq) : SearchReq :=
  match l with [] => sr | _ => AddFilter field OpIn (Slice l) sr end.
Definition add_like (field pattern : string) (sr : SearchReq) : SearchReq :=
  if negb (String.eqb pattern "") then AddFilter field OpLike (One pattern) sr else sr.

Record AlgorithmSearchReq := mkAlgorithmSearch {
  al_Advanced : AdvancedSearchReq; al_Name : option string; al_Image : option string;
  al_Tag : option string; al_Type : option string
}.
Definition AlgorithmSearch_ConvertToSearchRequest (req : AlgorithmSearchReq) : SearchReq :=
  let sr := ConvertAdvancedToSearch (al_Advanced req) in
  let sr := add_opt "name" OpLike (al_Name req) sr in
  let sr := add_opt "image" OpLike (al_Image req) sr in
  let sr := add_opt "tag" OpEqual (al_Tag req) sr in
  let sr := add_opt "type" OpEqual (al_Type req) sr in
  if negb (HasFilter sr "status") then
    AddFilter "status" OpEqual (One (itoa (StatusType_code CommonEnabled))) sr
  else sr.

Definition InjectionAllowedFields : list (string * string) :=
  [("name", "name"); ("fault_type", "fault_type"); ("category", "category"); ("state", "state");
   ("start_time", "start_time"); ("end_time", "end_time"); ("created_at", "created_at"); ("updated_at", "updated_at")].
Definition DatasetAllowedFields : list (string * string) :=
  [("name", "name"); ("is_public", "is_public"); ("created_at", "created_at"); ("updated_at", "updated_at")].

Definition allowed (fields : list (string * string)) (f : string) : option string :=
  option_map snd (find (fun kv => String.eqb kv.1 f) fields).
Definition is_allowed (fields : list (string * string)) (f : string) : bool :=
  match allowed fields f with Some _ => true | None => false end.
Definition check_fields (fields : list (string * string)) (sort : list TypedSortOption) (groupBy : list string) : res unit :=
  for_each (fun i so => require (is_allowed fields (so_Field so))
    ("invalid sort_by field at index " +:+ itoa (Z.of_nat i) +:+ ": " +:+ so_Field so)) sort ;;?
  for_each (fun i f => require (is_allowed fields f)
    ("invalid group_by field at index " +:+ itoa (Z.of_nat i) +:+ ": " +:+ f)) groupBy.

Record SearchDatasetReq := mkSearchDataset {
  sd_Advanced : AdvancedSearchReq; sd_NamePattern : string; sd_IncludeVersions : bool
}.
Definition SearchDatasetReq_Validate (req : SearchDatasetReq) : res SearchDatasetReq :=
  let? a := AdvancedSearchReq_Validate (sd_Advanced req) in
  check_fields DatasetAllowedFields (as_Sort a) (as_GroupBy a) ;;?
  Ok (mkSearchDataset a (sd_NamePattern req) (sd_IncludeVersions req)).
Definition SearchDataset_ConvertToSearchReq (req : SearchDatasetReq) : SearchReq :=
  let sr := add_like "name" (sd_NamePattern req) (ConvertAdvancedToSearch (sd_Advanced req)) in
  if sd_IncludeVersions req then AddInclude "Versions" sr else sr.

Record SearchInjectionReq := mkSearchInjection {
  si_Advanced : AdvancedSearchReq;
  si_TaskIDs : list string;
  si_Names : list string;
  si_NamePattern : string;
  si_FaultTypes : list Z;
  si_Categories : list string;
  si_States : list Z;
  si_Benchmarks : list string;
  si_Labels : list (string * string);
  si_StartTime : option DateRange;
  si_EndTime : option DateRange;
  si_IncludeLabels : bool;
  si_IncludeTask : bool
}.
Definition validateInjectionLabelItems (items : list (string * string)) : res unit :=
  for_each (fun i label =>
    require (negb (String.eqb (trim_space label.1) "")) ("empty label key at index " +:+ itoa (Z.of_nat i)) ;;?
    require (negb (String.eqb (trim_space label.2) "")) ("empty label value at index " +:+ itoa (Z.of_nat i))) items.

Section InjectionSearch.
Context (IsValidUUID : string -> bool).

Definition SearchInjectionReq_Validate (req : SearchInjectionReq) : res SearchInjectionReq :=
  let? a := AdvancedSearchReq_Validate (si_Advanced req) in
  for_each (fun i id =>
    require (negb (String.eqb (trim_space id) "")) ("empty task ID at index " +:+ itoa (Z.of_nat i)) ;;?
    require (IsValidUUID id) ("invalid task ID format at index " +:+ itoa (Z.of_nat i) +:+ ": " +:+ id)) (si_TaskIDs req) ;;?
  require (negb ((0 <? length (si_Names req))%nat && negb (String.eqb (si_NamePattern req) "")))
    "can only specify one of names or name_pattern for filtering" ;;?
  for_each (fun i name => require (negb (String.eqb (trim_space name) ""))
                            ("empty injection name at index " +:+ itoa (Z.of_nat i))) (si_Names req) ;;?
  validateInjectionLabelItems (si_Labels req) ;;?
  opt_check (fun r => res_wrap "invalid start_time: " (DateRange_Validate r)) (si_StartTime req) ;;?
  opt_check (fun r => res_wrap "invalid end_time: " (DateRange_Validate r)) (si_EndTime req) ;;?
  check_fields InjectionAllowedFields (as_Sort a) (as_GroupBy a) ;;?
  Ok (mkSearchInjection a (si_TaskIDs req) (si_Names req) (si_NamePattern req) (si_FaultTypes req)
        (si_Categories req) (si_States req) (si_Benchmarks req) (si_Labels req) (si_StartTime req)
        (si_EndTime req) (si_IncludeLabels req) (si_IncludeTask req)).
End InjectionSearch.

(** The ranges of the times of the fault are put on [created_at]. *)
Definition SearchInjection_ConvertToSearchReq (req : SearchInjectionReq) : SearchReq :=
  let sr := ConvertAdvancedToSearch (si_Advanced req) in
  let sr := add_in "task_id" (si_TaskIDs req) sr in
  let sr := add_in "name" (si_Names req) sr in
  let sr := add_like "name" (si_NamePattern req) sr in
  let sr := add_in "benchmark" (si_Benchmarks req) sr in
  let sr := add_in "fault_type" (map itoa (si_FaultTypes req)) sr in
  let sr := add_in "category" (si_Categories req) sr in
  let sr := add_in "state" (map itoa (si_States req)) sr in
  let sr := add_range "created_at" (si_StartTime req) sr in
  let sr := add_range "created_at" (si_EndTime req) sr in
  let sr := if si_IncludeLabels req then AddInclude "Labels" sr else sr in
  if si_IncludeTask req then AddInclude "Task" sr else sr.

(** ** The query *)

Inductive sql_arg :=
| AText (s : string)
| AList (l : list string).
Record condition := mkCond { w_sql : string; w_args : list sql_arg }.

(** The calls on gorm, in order: conditions, orders, selections, preloads. *)
Record query := mkQuery {
  q_where : list condition; q_order : list string; q_select : list string; q_preload : list string
}.
Definition no_query : query := mkQuery [] [] [] [].
Definition add_where (c : condition) (q : query) : query :=
  mkQuery (q_where q ++ [c]) (q_order q) (q_select q) (q_preload q).
Definition add_order (o : string) (q : query) : query :=
  mkQuery (q_where q) (q_order q ++ [o]) (q_select q) (q_preload q).
Definition add_select (s : string) (q : query) : query :=
  mkQuery (q_where q) (q_order q) (q_select q ++ [s]) (q_preload q).

Definition field_char (c : ascii) : bool := is_alnum c || Ascii.eqb c "_" || Ascii.eqb c ".".
Definition sanitizeFieldName (field : string) : string :=
  if String.eqb field "" then "" else if all_chars field_char field then field else "".

(** [json.Unmarshal] of a list of texts. *)
Class TextLists := { unmarshal_texts : string -> option (list string) }.

Section Builder.
Context `{TextLists}.

Definition resolveMultiValues (filter : SearchFilter) : list string :=
  match f_Values filter with
  | _ :: _ => f_Values filter
  | [] =>
      if String.eqb (trim_space (f_Value filter)) "" then []
      else
        match (if has_prefix (trim_space (f_Value filter)) "[" then unmarshal_texts (f_Value filter) else None) with
        | Some items => items
        | None => [f_Value filter]
        end
  end.

(** The condition of a filter on a field that is sanitized, when there is one. *)
Definition filter_condition (field : string) (filter : SearchFilter) : option condition :=
  let op := f_Operator filter in
  let v := f_Value filter in
  let cmp sql := Some (mkCond (field +:+ sql) [AText v]) in
  let date sql := Some (mkCond ("DATE(" +:+ field +:+ ")" +:+ sql) [AText v]) in
  let like sql pattern := Some (mkCond (field +:+ sql) [AText pattern]) in
  let among sql := match resolveMultiValues filter with
                   | [] => None
                   | values => Some (mkCond (field +:+ sql) [AList values])
                   end in
  if String.eqb op OpEqual then cmp " = ?"
  else if String.eqb op OpNotEqual then cmp " != ?"
  else if String.eqb op OpGreater then cmp " > ?"
  else if String.eqb op OpGreaterEq then cmp " >= ?"
  else if String.eqb op OpLess then cmp " < ?"
  else if String.eqb op OpLessEq then cmp " <= ?"
  else if String.eqb op OpLike then like " LIKE ?" ("%" +:+ v +:+ "%")
  else if String.eqb op OpStartsWith then like " LIKE ?" (v +:+ "%")
  else if String.eqb op OpEndsWith then like " LIKE ?" ("%" +:+ v)
  else if String.eqb op OpNotLike then like " NOT LIKE ?" ("%" +:+ v +:+ "%")
  else if String.eqb op OpIn then among " IN (?)"
  else if String.eqb op OpNotIn then among " NOT IN (?)"
  else if String.eqb op OpIsNull then Some (mkCond (field +:+ " IS NULL") [])
  else if String.eqb op OpIsNotNull then Some (mkCond (field +:+ " IS NOT NULL") [])
  else if String.eqb op OpDateEqual then date " = DATE(?)"
  else if String.eqb op OpDateAfter then date " > DATE(?)"
  else if String.eqb op OpDateBefore then date " < DATE(?)"
  else if String.eqb op OpDateBetween then
    match f_Values filter with
    | [a; b] => Some (mkCond ("DATE(" +:+ field +:+ ") BETWEEN DATE(?) AND DATE(?)") [AText a; AText b])
    | _ => None
    end
  else None.
Definition applySingleFilter (q : query) (filter : SearchFilter) : query :=
  let field := sanitizeFieldName (f_Field filter) in
  if String.eqb field "" then q
  else match filter_condition field filter with
       | Some c => add_where c q
       | None => q
       end.
Definition applyFilters (q : query) (filters : list SearchFilter) : query := fold_left applySingleFilter filters q.

Definition getSearchableFields (typeName : string) : list string :=
  let searchableFields := [
    ("User", ["username"; "email"; "full_name"]); ("Role", ["name"; "display_name"; "description"]);
    ("Permission", ["name"; "display_name"; "description"]); ("Project", ["name"; "description"]);
    ("Task", ["name"; "description"]); ("Dataset", ["name"; "description"]); ("Container", ["name"])] in
  match find (fun kv => String.eqb kv.1 typeName) searchableFields with Some (_, l) => l | None => [] end.
Definition applyKeywordSearch (keyword typeName : string) (q : query) : query :=
  match getSearchableFields typeName with
  | [] => q
  | fields =>
      add_where (mkCond (join " OR " (map (fun f => f +:+ " LIKE ?") fields))
                   (map (fun _ => AText ("%" +:+ keyword +:+ "%")) fields)) q
  end.

Definition order_of (allowedSortFields : list (string * string)) (sort : TypedSortOption) : option string :=
  option_map (fun dbField => dbField +:+ " " +:+
                if String.eqb (to_upper (so_Direction sort)) "DESC" then "DESC" else "ASC")
    (allowed allowedSortFields (so_Field sort)).
Definition applySorting (allowedSortFields : list (string * string)) (sortOptions : list TypedSortOption)
    (groupBy : list string) (q : query) : query :=
  let orders :=
    omap (fun f => option_map (fun dbField => dbField +:+ " ASC") (allowed allowedSortFields f)) groupBy
      ++ omap (order_of allowedSortFields) sortOptions in
  match orders with
  | [] => add_order "id DESC" q
  | _ => fold_left (fun q o => add_order o q) orders q
  end.

(** A model type: its name and its fields with their gorm tags. *)
Record model_type := mkModelType { mt_Name : string; mt_Fields : list (string * string) }.

Definition ApplySearchReq (allowedSortFields : list (string * string)) (modelType : model_type) (sr : SearchReq) : query :=
  let q := applyFilters no_query (sr_Filters sr) in
  let q := if negb (String.eqb (sr_Keyword sr) "") then applyKeywordSearch (sr_Keyword sr) (mt_Name modelType) q else q in
  applySorting allowedSortFields (sr_Sort sr) (sr_GroupBy sr) q.

(** The fields to select are the first parts of the tags, or the names of the fields
    without a tag. *)
Definition exclude_columns (modelType : model_type) : list string :=
  map (fun ft => if negb (String.eqb ft.2 "") then hd "" (split ";" ft.2) else ft.1) (mt_Fields modelType).
Definition ApplyExcludeFields (excludeFields : list string) (modelType : model_type) (q : query) : query :=
  let fieldsToSelect :=
    List.filter (fun f => negb (existsb (String.eqb f) excludeFields)) (exclude_columns modelType) in
  match fieldsToSelect with
  | [] => q
  | _ => add_select (join ", " fieldsToSelect) q
  end.
Definition ApplyIncludes (includes : list string) (q : query) : query :=
  mkQuery (q_where q) (q_order q) (q_select q) (q_preload q ++ includes).
Definition ApplyIncludeFields (includeFields : list string) (q : query) : query :=
  fold_left (fun q f => add_select f q) includeFields q.

(** The query of a search, before the page is cut. *)
Definition search_query (allowedSortFields : list (string * string)) (modelType : model_type) (sr : SearchReq) : query :=
  ApplyExcludeFields (sr_ExcludeFields sr) modelType
    (ApplyIncludeFields (sr_IncludeFields sr)
       (ApplyIncludes (sr_Includes sr) (ApplySearchReq allowedSortFields modelType sr))).

(** The page, when the request has one. *)
Definition search_page {A} (sr : SearchReq) (rows : list A) : list A :=
  if negb (Size (sr_Page sr) =? 0) && negb (Page (sr_Page sr) =? 0) then
    page_rows (Size (sr_Page sr)) (GetOffset sr) rows
  else rows.

(** [searchInjections]: the rows of the database and the identifiers with the labels
    are what the database gives; the labels are looked at after the page is cut. *)
Definition searchInjections {A} (row_id : A -> Z) (run : query -> list A) (ids_by_labels : list (string * string) -> list Z)
    (modelType : model_type) (req : SearchInjectionReq) (projectID : option Z) : list A * Z :=
  let sr := SearchInjection_ConvertToSearchReq req in
  let sr := match projectID with Some p => AddFilter "project_id" OpEqual (One (itoa p)) sr | None => sr end in
  let rows := run (search_query InjectionAllowedFields modelType sr) in
  let total := Z.of_nat (length rows) in
  let injections := search_page sr rows in
  match si_Labels req with
  | [] => (injections, total)
  | labels =>
      let ids := ids_by_labels labels in
      (List.filter (fun r => existsb (Z.eqb (row_id r)) ids) injections, total)
  end.
Definition searchDatasets {A} (run : query -> list A) (modelType : model_type) (sr : SearchReq) : list A * Z :=
  let rows := run (search_query DatasetAllowedFields modelType sr) in
  (search_page sr rows, Z.of_nat (length rows)).
End Builder.

(** ** Groups *)

Inductive SearchGroupNode (T : Type) : Type :=
| GroupNode (field value : string) (count : Z) (children : list (SearchGroupNode T)) (items : list T).
Arguments GroupNode {T} field value count children items.

Section Groups.
(** The text of the field of an item with a JSON name, [<nil>] when it has none. *)
Context {T : Type} (field_text : T -> string -> string).

(** The groups of a level, in the order of their first items. *)
Fixpoint add_to_group (key : string) (item : T) (groups : list (string * list T)) : list (string * list T) :=
  match groups with
  | [] => [(key, [item])]
  | (k, l) :: rest =>
      if String.eqb k key then (k, l ++ [item]) :: rest else (k, l) :: add_to_group key item rest
  end.
Definition group_items (field : string) (items : list T) : list (string * list T) :=
  fold_left (fun groups item => add_to_group (field_text item field) item groups) items [].

(** The recursion over the levels. *)
Fixpoint buildGroupLevel (groupBy : list string) (items : list T) : list (SearchGroupNode T) :=
  match groupBy with
  | [] => []
  | field :: rest =>
      map (fun g =>
             match rest with
             | [] => GroupNode field g.1 (Z.of_nat (length g.2)) [] g.2
             | _ => GroupNode field g.1 (Z.of_nat (length g.2)) (buildGroupLevel rest g.2) []
             end) (group_items field items)
  end.
Definition BuildGroupTree (items : list T) (groupBy : list string) : list (SearchGroupNode T) :=
  match items with [] => [] | _ => buildGroupLevel groupBy items end.
End Groups.

(** ** Model types: fields and gorm tags as [model/entity.go] has them *)

Definition FaultInjection_type : model_type := mkModelType "FaultInjection" [
  ("ID", "primaryKey;autoIncrement"); ("Name", "size:128;not null");
  ("Source", "size:32;not null;default:'injection'"); ("FaultType", "not null;index:idx_fault_type_state");
  ("Category", "not null"); ("Description", "type:text"); ("DisplayConfig", "type:longtext");
  ("EngineConfig", "type:longtext;not null"); ("Groundtruths", "type:json;serializer:json");
  ("GroundtruthSource", "size:32;not null;default:'auto'"); ("PreDuration", "not null");
  ("StartTime", "check:start_time IS NULL OR end_time IS NULL OR start_time < end_time"); ("EndTime", "");
  ("BenchmarkID", "index:idx_fault_bench_ped"); ("PedestalID", "index:idx_fault_bench_ped");
  ("TaskID", "index;size:64"); ("State", "not null;default:0;index:idx_fault_type_state");
  ("Status", "not null;default:1;index"); ("CreatedAt", "autoCreateTime"); ("UpdatedAt", "autoUpdateTime");
  ("Benchmark", "foreignKey:BenchmarkID;constraint:OnDelete:SET NULL");
  ("Pedestal", "foreignKey:PedestalID;constraint:OnDelete:SET NULL");
  ("Task", "foreignKey:TaskID;constraint:OnDelete:CASCADE"); ("Labels", "many2many:fault_injection_labels")].
Definition Dataset_type : model_type := mkModelType "Dataset" [
  ("ID", "primaryKey;autoIncrement"); ("Name", "not null;size:128"); ("Type", "not null;size:64");
  ("Description", "type:mediumtext"); ("IsPublic", "not null;default:false"); ("Status", "not null;default:1;index");
  ("CreatedAt", "autoCreateTime"); ("UpdatedAt", "autoUpdateTime");
  ("ActiveName", "type:varchar(150) GENERATED ALWAYS AS (CASE WHEN status >= 0 THEN name ELSE NULL END) VIRTUAL;uniqueIndex:idx_active_dataset_name");
  ("Versions", "foreignKey:DatasetID"); ("Labels", "many2many:dataset_labels")].

(** ** The text of the query *)

(** Bytes a text of SQL may have: those of a sanitized field and of the templates.  No
    quote, semicolon, dash, comment or backslash is among them. *)
Definition sql_char (c : ascii) : bool :=
  field_char c || existsb (Ascii.eqb c) [" "; "="; "!"; "<"; ">"; "("; ")"; "?"; ","]%char.
Definition sql_text (s : string) : bool := all_chars sql_char s.
Definition placeholders (s : string) : nat := length (List.filter (Ascii.eqb "?") (chars s)).

Lemma sql_text_app s t : sql_text (s +:+ t) = sql_text s && sql_text t.
Proof. unfold sql_text, all_chars. by rewrite chars_app, forallb_app. Qed.

Lemma placeholders_app s t : placeholders (s +:+ t) = (placeholders s + placeholders t)%nat.
Proof. unfold placeholders. by rewrite chars_app, List.filter_app, length_app. Qed.

Lemma sanitized f : sanitizeFieldName f <> "" -> all_chars field_char (sanitizeFieldName f) = true.
Proof. unfold sanitizeFieldName. destruct (String.eqb f ""); [done|]. by destruct (all_chars field_char f) eqn:E. Qed.

Lemma field_sql f : all_chars field_char f = true -> sql_text f = true /\ placeholders f = 0%nat.
Proof.
  unfold all_chars, sql_text, placeholders. intros H. rewrite forallb_elem in H. split.
  - apply forallb_elem. intros c Hc. unfold sql_char. by rewrite (H c Hc).
  - destruct (List.filter (Ascii.eqb "?") (chars f)) as [|c l] eqn:E; [done|]. exfalso.
    assert (Hin : In c (List.filter (Ascii.eqb "?") (chars f))) by (rewrite E; by left).
    apply filter_In in Hin as [Hc Hq]. apply Ascii.eqb_eq in Hq as <-.
    apply list_elem_of_In in Hc. by specialize (H _ Hc).
Qed.

(** A condition whose text is closed and whose places have their arguments. *)
Definition sound_condition (c : condition) : Prop :=
  sql_text (w_sql c) = true /\ placeholders (w_sql c) = length (w_args c).

Section Clauses.
Context `{TextLists}.

Lemma filter_condition_sound field filter c :
  all_chars field_char field = true -> filter_condition field filter = Some c -> sound_condition c.
Proof.
  intros Hf. destruct (field_sql field Hf) as [Ht Hp]. unfold filter_condition. intros Hc.
  assert (Hs : forall pre post args,
            sql_text pre = true -> sql_text post = true -> (placeholders pre + placeholders post)%nat = length args ->
            sound_condition (mkCond (pre +:+ field +:+ post) args)).
  { intros pre post args H1 H2 H3. split; cbn [w_sql w_args].
    - by rewrite !sql_text_app, H1, Ht, H2.
    - rewrite !placeholders_app, Hp. lia. }
  assert (Hs0 : forall post args, sql_text post = true -> placeholders post = length args ->
            sound_condition (mkCond (field +:+ post) args)) by (intros post args H1 H2; by apply (Hs "" post args)).
  repeat match type of Hc with
  | (if ?b then _ else _) = _ =>
      destruct b; [repeat case_match; try done; injection Hc as <-; first [by apply Hs0 | by apply (Hs "DATE(")]|]
  end; done.
Qed.

Lemma applyFilters_where q filters c :
  c ∈ q_where (applyFilters q filters) <->
  c ∈ q_where q \/ exists f, f ∈ filters /\ sanitizeFieldName (f_Field f) <> "" /\
                            filter_condition (sanitizeFieldName (f_Field f)) f = Some c.
Proof.
  unfold applyFilters. revert q. induction filters as [|f filters IH]; intros q; cbn [fold_left].
  - split; [by left|]. by intros [?|(f & ?%not_elem_of_nil & _)].
  - rewrite IH. unfold applySingleFilter.
    assert (Hq : c ∈ q_where (if String.eqb (sanitizeFieldName (f_Field f)) "" then q
                 else match filter_condition (sanitizeFieldName (f_Field f)) f with
                      | Some c => add_where c q | None => q end) <->
               c ∈ q_where q \/ (sanitizeFieldName (f_Field f) <> "" /\
                                 filter_condition (sanitizeFieldName (f_Field f)) f = Some c)).
    { destruct (String.eqb_spec (sanitizeFieldName (f_Field f)) ""); [tauto|].
      destruct (filter_condition _ f) as [c'|].
      - cbn [q_where add_where]. rewrite elem_of_app, list_elem_of_singleton. intuition congruence.
      - intuition congruence. }
    rewrite Hq. split.
    + intros [[?|?]|(g & ? & ?)]; [by left|right; exists f; split; [by left|done]|right; exists g; split; [by right|done]].
    + intros [?|(g & [->|Hg]%elem_of_cons & ?)]; [by left; left|by left; right|right; by exists g].
Qed.

Lemma fold_order_fields os q :
  q_where (fold_left (fun q o => add_order o q) os q) = q_where q /\
  q_select (fold_left (fun q o => add_order o q) os q) = q_select q /\
  q_order (fold_left (fun q o => add_order o q) os q) = q_order q ++ os.
Proof.
  revert q. induction os as [|o os IH]; intros q; cbn [fold_left]; [by rewrite app_nil_r|].
  destruct (IH (add_order o q)) as (-> & -> & ->). cbn. by rewrite <- app_assoc.
Qed.

Lemma applySorting_fields fields sorts groups q :
  q_where (applySorting fields sorts groups q) = q_where q /\
  q_select (applySorting fields sorts groups q) = q_select q.
Proof.
  unfold applySorting. destruct (_ ++ _) as [|o os]; [done|]. by destruct (fold_order_fields (o :: os) q) as (-> & -> & _).
Qed.

Lemma include_fields l q :
  q_where (ApplyIncludeFields l q) = q_where q /\ q_order (ApplyIncludeFields l q) = q_order q /\
  q_select (ApplyIncludeFields l q) = q_select q ++ l.
Proof.
  unfold ApplyIncludeFields. revert q. induction l as [|f l IH]; intros q; cbn [fold_left]; [by rewrite app_nil_r|].
  destruct (IH (add_select f q)) as (-> & -> & ->). cbn. by rewrite <- app_assoc.
Qed.

Lemma exclude_fields l mt q :
  q_where (ApplyExcludeFields l mt q) = q_where q /\ q_order (ApplyExcludeFields l mt q) = q_order q.
Proof. unfold ApplyExcludeFields. by destruct (List.filter _ _). Qed.

Lemma search_query_where fields mt sr :
  q_where (search_query fields mt sr) = q_where (ApplySearchReq fields mt sr) /\
  q_order (search_query fields mt sr) = q_order (ApplySearchReq fields mt sr).
Proof.
  unfold search_query. destruct (exclude_fields (sr_ExcludeFields sr) mt
    (ApplyIncludeFields (sr_IncludeFields sr) (ApplyIncludes (sr_Includes sr) (ApplySearchReq fields mt sr)))) as [-> ->].
  by destruct (include_fields (sr_IncludeFields sr) (ApplyIncludes (sr_Includes sr) (ApplySearchReq fields mt sr))) as (-> & -> & _).
Qed.

(** The conditions: those of the filters, and the one of the keyword. *)
Lemma search_where fields mt sr c :
  c ∈ q_where (search_query fields mt sr) <->
  (exists f, f ∈ sr_Filters sr /\ sanitizeFieldName (f_Field f) <> "" /\
             filter_condition (sanitizeFieldName (f_Field f)) f = Some c) \/
  (sr_Keyword sr <> "" /\ exists f fs, getSearchableFields (mt_Name mt) = f :: fs /\
     c = mkCond (join " OR " (map (fun f => f +:+ " LIKE ?") (f :: fs)))
           (map (fun _ => AText ("%" +:+ sr_Keyword sr +:+ "%")) (f :: fs))).
Proof.
  destruct (search_query_where fields mt sr) as [-> _]. unfold ApplySearchReq.
  destruct (applySorting_fields fields (sr_Sort sr) (sr_GroupBy sr)
    (if negb (String.eqb (sr_Keyword sr) "") then applyKeywordSearch (sr_Keyword sr) (mt_Name mt)
       (applyFilters no_query (sr_Filters sr)) else applyFilters no_query (sr_Filters sr))) as [-> _].
  assert (Hbase : c ∈ q_where (applyFilters no_query (sr_Filters sr)) <->
    exists f, f ∈ sr_Filters sr /\ sanitizeFieldName (f_Field f) <> "" /\
              filter_condition (sanitizeFieldName (f_Field f)) f = Some c).
  { rewrite applyFilters_where. split; [by intros [?%not_elem_of_nil|?]|by right]. }
  destruct (String.eqb_spec (sr_Keyword sr) "") as [E|E]; cbn [negb].
  - rewrite Hbase. tauto.
  - unfold applyKeywordSearch. destruct (getSearchableFields (mt_Name mt)) as [|f fs] eqn:Ef.
    + rewrite Hbase. split; [by left|]. intros [?|(_ & f & fs & ? & _)]; [done|congruence].
    + cbn [q_where add_where]. rewrite elem_of_app, list_elem_of_singleton, Hbase. split.
      * intros [?| ->]; [by left|]. right. split; [done|]. by exists f, fs.
      * intros [?|(_ & f' & fs' & [= <- <-] & ->)]; [by left|by right].
Qed.
End Clauses.

Section SearchProperties.
Context `{TextLists}.

Lemma keyword_condition_sound typeName f fs (args : list sql_arg) :
  getSearchableFields typeName = f :: fs -> length args = length (f :: fs) ->
  sound_condition (mkCond (join " OR " (map (fun f => f +:+ " LIKE ?") (f :: fs))) args).
Proof.
  unfold getSearchableFields. cbn [find fst]. intros Hf Hl.
  repeat match type of Hf with
  | context [String.eqb ?a typeName] => destruct (String.eqb a typeName)
  end; try done; injection Hf as <- <-; (split; [vm_compute; reflexivity|]); cbn [w_args w_sql]; rewrite Hl; reflexivity.
Qed.

Lemma search_order fields mt sr o :
  o ∈ q_order (search_query fields mt sr) ->
  o = "id DESC" \/ exists col, (exists f, allowed fields f = Some col) /\ (o = col +:+ " ASC" \/ o = col +:+ " DESC").
Proof.
  destruct (search_query_where fields mt sr) as [_ ->]. unfold ApplySearchReq.
  set (q := if negb _ then _ else _).
  assert (Hq : q_order q = []).
  { subst q. assert (Ha : forall fs q0, q_order (applyFilters q0 fs) = q_order q0).
    { unfold applyFilters. induction fs as [|f fs IH]; intros q0; cbn [fold_left]; [done|]. rewrite IH.
      unfold applySingleFilter. destruct (String.eqb _ ""); [done|]. by destruct (filter_condition _ f). }
    destruct (negb _); [|by rewrite Ha]. unfold applyKeywordSearch.
    destruct (getSearchableFields _); cbn; by rewrite Ha. }
  unfold applySorting. set (orders := _ ++ _).
  assert (Ho : forall x, x ∈ orders -> exists col, (exists f, allowed fields f = Some col) /\
                (x = col +:+ " ASC" \/ x = col +:+ " DESC")).
  { intros x [Hx|Hx]%elem_of_app; apply list_elem_of_omap in Hx as (y & _ & Hy).
    - destruct (allowed fields y) as [col|] eqn:E; [|done]. injection Hy as <-. eauto.
    - unfold order_of in Hy. destruct (allowed fields (so_Field y)) as [col|] eqn:E; [|done]. simpl in Hy.
      injection Hy as <-. exists col. split; [by eexists|]. destruct (String.eqb _ "DESC"); [by right|by left]. }
  destruct orders as [|x xs] eqn:Eo; cbn [q_order add_order].
  - rewrite Hq. intros ->%list_elem_of_singleton. by left.
  - destruct (fold_order_fields (x :: xs) q) as (_ & _ & ->). rewrite Hq. intros Hin. right. by apply Ho.
Qed.

(** The conditions and the order do not touch the selection and the preloads. *)
Definition outline (q : query) : list string * list string := (q_select q, q_preload q).

Lemma applyFilters_outline q filters : outline (applyFilters q filters) = outline q.
Proof.
  unfold applyFilters. revert q. induction filters as [|f fs IH]; intros q; cbn [fold_left]; [done|]. rewrite IH.
  unfold applySingleFilter. destruct (String.eqb _ ""); [done|]. by destruct (filter_condition _ f).
Qed.
Lemma applySorting_outline fields sorts groups q : outline (applySorting fields sorts groups q) = outline q.
Proof.
  unfold applySorting. set (orders := _ ++ _). clearbody orders.
  assert (Hf : forall os q0, outline (fold_left (fun q o => add_order o q) os q0) = outline q0)
    by (induction os as [|o os IH]; intros q0; simpl; [done|by rewrite IH]).
  destruct orders; [done|apply Hf].
Qed.
Lemma search_outline fields mt sr :
  outline (search_query fields mt sr) =
  (sr_IncludeFields sr ++
     match List.filter (fun f => negb (existsb (String.eqb f) (sr_ExcludeFields sr))) (exclude_columns mt) with
     | [] => []
     | l => [join ", " l]
     end, sr_Includes sr).
Proof.
  assert (Happ : outline (ApplySearchReq fields mt sr) = ([], [])).
  { unfold ApplySearchReq. rewrite applySorting_outline. destruct (negb _); [|by rewrite applyFilters_outline].
    unfold applyKeywordSearch. destruct (getSearchableFields _); [|unfold outline; cbn; fold (outline (applyFilters no_query (sr_Filters sr)))];
      by rewrite applyFilters_outline. }
  unfold outline in *. injection Happ as Hs Hp. unfold search_query, ApplyExcludeFields.
  assert (Hi : forall l q, q_preload (ApplyIncludeFields l q) = q_preload q)
    by (unfold ApplyIncludeFields; induction l as [|x l IH]; intros q; simpl; [done|by rewrite IH]).
  destruct (include_fields (sr_IncludeFields sr) (ApplyIncludes (sr_Includes sr) (ApplySearchReq fields mt sr))) as (_ & _ & Hsel).
  destruct (List.filter _ _) as [|x xs]; cbn [q_select q_preload add_select]; rewrite Hsel, Hi; cbn [ApplyIncludes q_select q_preload];
    rewrite Hs, Hp; by rewrite ?app_nil_r.
Qed.

(** The searches the handlers make name no fields of the request to select or leave out,
    and preload fixed relations. *)
Definition plain (sr : SearchReq) : Prop := sr_IncludeFields sr = [] /\ sr_ExcludeFields sr = [].
Lemma plain_add_range field r sr : plain (add_range field r sr) <-> plain sr.
Proof. unfold add_range. by destruct r as [[[] []]|]. Qed.
Lemma plain_add_in field l sr : plain (add_in field l sr) <-> plain sr.
Proof. by destruct l. Qed.
Lemma plain_add_like field p sr : plain (add_like field p sr) <-> plain sr.
Proof. unfold add_like. by destruct (negb _). Qed.
Lemma plain_advanced req : plain (ConvertAdvancedToSearch req).
Proof. unfold ConvertAdvancedToSearch. by rewrite !plain_add_range. Qed.
Lemma plain_injection req : plain (SearchInjection_ConvertToSearchReq req).
Proof.
  unfold SearchInjection_ConvertToSearchReq.
  assert (Ha : forall f sr, plain (AddInclude f sr) <-> plain sr) by done.
  destruct (si_IncludeTask req), (si_IncludeLabels req); rewrite ?Ha, !plain_add_range, !plain_add_in, plain_add_like, !plain_add_in;
    apply plain_advanced.
Qed.
Lemma plain_dataset req : plain (SearchDataset_ConvertToSearchReq req).
Proof.
  unfold SearchDataset_ConvertToSearchReq.
  destruct (sd_IncludeVersions req); [change (plain (AddInclude ?f ?sr)) with (plain sr)|]; rewrite plain_add_like; apply plain_advanced.
Qed.

(** C15. No request writes SQL.  Whatever the filters, the keyword, the sorting and the
    grouping of a search are: the text of every condition has only the bytes of names and of
    the templates - no quote, semicolon, dash or backslash - and every place of it has its
    argument; and every order is by the identifier or by a column of the fixed list, up or
    down.  What the searches for injections and for datasets select is one fixed text. *)
Theorem search_text_is_closed fields mt sr :
  (forall c, c ∈ q_where (search_query fields mt sr) -> sound_condition c) /\
  (forall o, o ∈ q_order (search_query fields mt sr) ->
     o = "id DESC" \/ exists kv, kv ∈ fields /\ (o = kv.2 +:+ " ASC" \/ o = kv.2 +:+ " DESC")) /\
  (forall req, q_select (search_query InjectionAllowedFields FaultInjection_type (SearchInjection_ConvertToSearchReq req)) =
     [join ", " (exclude_columns FaultInjection_type)]) /\
  (forall req, q_select (search_query DatasetAllowedFields Dataset_type (SearchDataset_ConvertToSearchReq req)) =
     [join ", " (exclude_columns Dataset_type)]).
Proof.
  assert (Hsel : forall fields mt sr, plain sr -> q_select (search_query fields mt sr) =
    match List.filter (fun f => negb (existsb (String.eqb f) [])) (exclude_columns mt) with [] => [] | l => [join ", " l] end).
  { intros fields' mt' sr' [Hi He]. pose proof (search_outline fields' mt' sr') as Ho. unfold outline in Ho.
    injection Ho as -> _. by rewrite Hi, He. }
  split_and!.
  - intros c Hc. apply search_where in Hc as [(f & _ & Hs & Hf)|(_ & f & fs & Hf & ->)].
    + eapply filter_condition_sound; [by apply sanitized|exact Hf].
    + eapply keyword_condition_sound; [exact Hf|]. by rewrite length_map.
  - intros o [->|(col & (f & Hf) & Ho)]%search_order; [by left|right].
    unfold allowed in Hf. destruct (find _ fields) as [kv|] eqn:E; [|done]. injection Hf as <-.
    apply find_some in E as [Hin _]. exists kv. split; [by apply list_elem_of_In|done].
  - intros req. by rewrite Hsel by apply plain_injection.
  - intros req. by rewrite Hsel by apply plain_dataset.
Qed.

(** ** What a search asks for *)

Lemma add_filters_mono f sr field op v : f ∈ sr_Filters sr -> f ∈ sr_Filters (AddFilter field op v sr).
Proof. intros Hf. cbn. apply elem_of_app. by left. Qed.

Lemma add_range_mono f field r sr : f ∈ sr_Filters sr -> f ∈ sr_Filters (add_range field r sr).
Proof.
  intros Hf. unfold add_range. destruct r as [[[from|] [to|]]|]; cbn [dr_From dr_To]; try done; by apply add_filters_mono.
Qed.

Lemma add_in_mono f field l sr : f ∈ sr_Filters sr -> f ∈ sr_Filters (add_in field l sr).
Proof. intros Hf. destruct l; [done|by apply add_filters_mono]. Qed.

Lemma add_like_mono f field p sr : f ∈ sr_Filters sr -> f ∈ sr_Filters (add_like field p sr).
Proof. intros Hf. unfold add_like. destruct (negb _); [by apply add_filters_mono|done]. Qed.

Lemma add_opt_mono f field op o sr : f ∈ sr_Filters sr -> f ∈ sr_Filters (add_opt field op o sr).
Proof. intros Hf. destruct o; [by apply add_filters_mono|done]. Qed.

Lemma status_in_advanced req : status_filter (as_Statuses req) ∈ sr_Filters (ConvertAdvancedToSearch req).
Proof. unfold ConvertAdvancedToSearch. do 2 apply add_range_mono. by left. Qed.

Lemma status_in_injection req :
  status_filter (as_Statuses (si_Advanced req)) ∈ sr_Filters (SearchInjection_ConvertToSearchReq req).
Proof.
  unfold SearchInjection_ConvertToSearchReq.
  destruct (si_IncludeTask req), (si_IncludeLabels req); cbn [sr_Filters AddInclude];
    do 2 apply add_range_mono; do 4 apply add_in_mono; apply add_like_mono; do 2 apply add_in_mono;
    apply status_in_advanced.
Qed.

Lemma status_in_dataset req :
  status_filter (as_Statuses (sd_Advanced req)) ∈ sr_Filters (SearchDataset_ConvertToSearchReq req).
Proof.
  unfold SearchDataset_ConvertToSearchReq.
  destruct (sd_IncludeVersions req); cbn [sr_Filters AddInclude]; apply add_like_mono, status_in_advanced.
Qed.

(** The condition on the status of the rows. *)
Definition status_condition (statuses : list Z) : condition :=
  match statuses with
  | [] => mkCond "status != ?" [AText "-1"]
  | _ => mkCond "status IN (?)" [AList (map itoa statuses)]
  end.

Lemma status_where fields mt sr statuses :
  status_filter statuses ∈ sr_Filters sr -> status_condition statuses ∈ q_where (search_query fields mt sr).
Proof.
  intros Hin. apply search_where. left. exists (status_filter statuses). split; [done|].
  destruct statuses as [|s l]; [by split|]. split; [done|]. by simpl.
Qed.

(** Deleted rows stay hidden: the query of every search of injections and of
    datasets, and of algorithms, asks for rows of the statuses of the request, and for
    rows that are not deleted when it names none - so the search for algorithms never
    adds its own default of enabled ones. *)
Theorem search_hides_deleted fields mt :
  (forall req, status_condition (as_Statuses (si_Advanced req))
                 ∈ q_where (search_query fields mt (SearchInjection_ConvertToSearchReq req))) /\
  (forall req, status_condition (as_Statuses (sd_Advanced req))
                 ∈ q_where (search_query fields mt (SearchDataset_ConvertToSearchReq req))) /\
  (forall req, status_condition (as_Statuses (al_Advanced req))
                 ∈ q_where (search_query fields mt (AlgorithmSearch_ConvertToSearchRequest req)) /\
     forall f, f ∈ sr_Filters (AlgorithmSearch_ConvertToSearchRequest req) -> f_Field f = "status" ->
       f_Operator f <> OpEqual).
Proof.
  split; [|split].
  - intros req. apply status_where, status_in_injection.
  - intros req. apply status_where, status_in_dataset.
  - intros req. unfold AlgorithmSearch_ConvertToSearchRequest.
    set (sr := add_opt "type" _ _ _).
    assert (Hin : status_filter (as_Statuses (al_Advanced req)) ∈ sr_Filters sr).
    { subst sr. do 4 apply add_opt_mono. apply status_in_advanced. }
    assert (Hhas : HasFilter sr "status" = true).
    { unfold HasFilter. apply existsb_elem. eexists. split; [exact Hin|]. by destruct (as_Statuses _). }
    rewrite Hhas. cbn [negb]. split; [by apply status_where|].
    assert (Hopt : forall field op o s, field <> "status" ->
              (forall f, f ∈ sr_Filters s -> f_Field f = "status" -> f_Operator f <> OpEqual) ->
              forall f, f ∈ sr_Filters (add_opt field op o s) -> f_Field f = "status" -> f_Operator f <> OpEqual).
    { intros field op [v|] s Hne Hs f Hf Hst; [|by apply (Hs f)]. cbn in Hf.
      apply elem_of_app in Hf as [Hf|Hf]; [by apply (Hs f)|]. apply list_elem_of_singleton in Hf as ->.
      exfalso. revert Hst. by destruct (_ || _). }
    subst sr. do 4 (apply Hopt; [done|]). unfold ConvertAdvancedToSearch.
    assert (Hrange : forall field r s, field <> "status" ->
              (forall f, f ∈ sr_Filters s -> f_Field f = "status" -> f_Operator f <> OpEqual) ->
              forall f, f ∈ sr_Filters (add_range field r s) -> f_Field f = "status" -> f_Operator f <> OpEqual).
    { intros field r s Hne Hs f Hf Hst. destruct r as [[[a|] [b|]]|]; cbn in Hf; try (by apply (Hs f));
        (apply elem_of_app in Hf as [Hf|Hf]; [by apply (Hs f)|]; by apply list_elem_of_singleton in Hf as ->). }
    do 2 (apply Hrange; [done|]). intros f ->%list_elem_of_singleton _. by destruct (as_Statuses _).
Qed.

(** The conversions only add filters to the ones there are. *)
Definition appends (g : SearchReq -> SearchReq) : Prop :=
  exists l, forall sr, sr_Filters (g sr) = sr_Filters sr ++ l.
Definition range_filters (field : string) (r : option DateRange) : list SearchFilter :=
  match r with
  | None => []
  | Some r =>
      match dr_From r, dr_To r with
      | Some from, Some to => [mkFilter field OpDateBetween (print_value (Slice [st_text from; st_text to])) []]
      | Some from, None => [mkFilter field OpDateAfter (st_text from) []]
      | None, Some to => [mkFilter field OpDateBefore (st_text to) []]
      | None, None => []
      end
  end.

Definition in_filters (field : string) (l : list string) : list SearchFilter :=
  match l with [] => [] | _ => [mkFilter field OpIn "" l] end.
Definition like_filters (field pattern : string) : list SearchFilter :=
  if negb (String.eqb pattern "") then [mkFilter field OpLike pattern []] else [].

Lemma add_in_filters field l sr : sr_Filters (add_in field l sr) = sr_Filters sr ++ in_filters field l.
Proof. destruct l; cbn; by rewrite ?app_nil_r. Qed.
Lemma add_like_filters field p sr : sr_Filters (add_like field p sr) = sr_Filters sr ++ like_filters field p.
Proof. unfold add_like, like_filters. destruct (negb _); cbn; by rewrite ?app_nil_r. Qed.
Lemma add_range_filters field r sr : sr_Filters (add_range field r sr) = sr_Filters sr ++ range_filters field r.
Proof. destruct r as [[[from|] [to|]]|]; cbn; by rewrite ?app_nil_r. Qed.
Lemma add_range_keyword field r sr : sr_Keyword (add_range field r sr) = sr_Keyword sr.
Proof. by destruct r as [[[from|] [to|]]|]. Qed.

(** What the conversion of a search of injections does after the range of creation. *)
Definition injection_tail (req : SearchInjectionReq) (sr : SearchReq) : SearchReq :=
  let sr := add_range "updated_at" (as_UpdatedAt (si_Advanced req)) sr in
  let sr := add_in "task_id" (si_TaskIDs req) sr in
  let sr := add_in "name" (si_Names req) sr in
  let sr := add_like "name" (si_NamePattern req) sr in
  let sr := add_in "benchmark" (si_Benchmarks req) sr in
  let sr := add_in "fault_type" (map itoa (si_FaultTypes req)) sr in
  let sr := add_in "category" (si_Categories req) sr in
  let sr := add_in "state" (map itoa (si_States req)) sr in
  let sr := add_range "created_at" (si_StartTime req) sr in
  let sr := add_range "created_at" (si_EndTime req) sr in
  let sr := if si_IncludeLabels req then AddInclude "Labels" sr else sr in
  if si_IncludeTask req then AddInclude "Task" sr else sr.

Lemma injection_tail_appends req : appends (injection_tail req).
Proof.
  eexists. intros sr. unfold injection_tail.
  destruct (si_IncludeTask req), (si_IncludeLabels req); cbn [sr_Filters AddInclude];
    rewrite !add_range_filters, !add_in_filters, add_like_filters, !add_in_filters, add_range_filters, <- !app_assoc;
    reflexivity.
Qed.

Lemma injection_tail_keyword req sr : sr_Keyword (injection_tail req sr) = sr_Keyword sr.
Proof.
  unfold injection_tail.
  assert (Hin : forall field l s, sr_Keyword (add_in field l s) = sr_Keyword s) by (intros field [|x l] s; done).
  assert (Hlike : forall field p s, sr_Keyword (add_like field p s) = sr_Keyword s)
    by (intros field p s; unfold add_like; by destruct (negb _)).
  destruct (si_IncludeTask req), (si_IncludeLabels req); cbn [sr_Keyword AddInclude];
    by rewrite !add_range_keyword, !Hin, Hlike, !Hin, add_range_keyword.
Qed.

(** A range with two ends is not looked at: a search of injections between two
    times of creation asks the same of the database as the search without the range,
    while a range with one end is a condition. *)
Theorem two_ended_range_is_dropped fields mt req from to :
  let with_range r := mkSearchInjection
    (mkAdvanced (as_Page (si_Advanced req)) (as_Sort (si_Advanced req)) (as_GroupBy (si_Advanced req))
       (as_Statuses (si_Advanced req)) r (as_UpdatedAt (si_Advanced req)))
    (si_TaskIDs req) (si_Names req) (si_NamePattern req) (si_FaultTypes req) (si_Categories req) (si_States req)
    (si_Benchmarks req) (si_Labels req) (si_StartTime req) (si_EndTime req) (si_IncludeLabels req) (si_IncludeTask req) in
  let conditions r := q_where (search_query fields mt (SearchInjection_ConvertToSearchReq (with_range r))) in
  (forall c, c ∈ conditions (Some (mkDateRange (Some from) (Some to))) <-> c ∈ conditions None) /\
  mkCond "DATE(created_at) > DATE(?)" [AText (st_text from)] ∈ conditions (Some (mkDateRange (Some from) None)).
Proof.
  intros with_range conditions.
  destruct (injection_tail_appends (with_range None)) as (l & Hl).
  assert (Hf : forall r, sr_Filters (SearchInjection_ConvertToSearchReq (with_range r))
                 = status_filter (as_Statuses (si_Advanced req)) :: range_filters "created_at" r ++ l).
  { intros r. change (SearchInjection_ConvertToSearchReq (with_range r))
      with (injection_tail (with_range None) (add_range "created_at" r
              (mkSearch (as_Page (si_Advanced req)) [status_filter (as_Statuses (si_Advanced req))]
                 (as_Sort (si_Advanced req)) (as_GroupBy (si_Advanced req)) "" [] [] []))).
    by rewrite Hl, add_range_filters. }
  assert (Hk : forall r, sr_Keyword (SearchInjection_ConvertToSearchReq (with_range r)) = "").
  { intros r. change (SearchInjection_ConvertToSearchReq (with_range r))
      with (injection_tail (with_range None) (add_range "created_at" r
              (mkSearch (as_Page (si_Advanced req)) [status_filter (as_Statuses (si_Advanced req))]
                 (as_Sort (si_Advanced req)) (as_GroupBy (si_Advanced req)) "" [] [] []))).
    by rewrite injection_tail_keyword, add_range_keyword. }
  split.
  - intros c. unfold conditions. rewrite !search_where, !Hf, !Hk. cbn [range_filters dr_From dr_To app].
    split; (intros [(f & Hin & Hs & Hc)|[Hne _]]; [|done]); left; exists f; (split; [|done]).
    + apply elem_of_cons in Hin as [->|Hin]; [by left|]. apply elem_of_cons in Hin as [->|Hin]; [done|by right].
    + apply elem_of_cons in Hin as [->|Hin]; [by left|]. right. by right.
  - unfold conditions. apply search_where. left.
    exists (mkFilter "created_at" OpDateAfter (st_text from) []). rewrite Hf. split; [right; by left|done].
Qed.
End SearchProperties.

(** ** What the conversions leave as it is *)

Definition request_rest (sr : SearchReq) : string * list TypedSortOption * list string * list string * list string :=
  (sr_Keyword sr, sr_Sort sr, sr_GroupBy sr, sr_IncludeFields sr, sr_ExcludeFields sr).

Lemma rest_range field r sr : request_rest (add_range field r sr) = request_rest sr.
Proof. by destruct r as [[[a|] [b|]]|]. Qed.
Lemma rest_in field l sr : request_rest (add_in field l sr) = request_rest sr.
Proof. by destruct l. Qed.
Lemma rest_like field p sr : request_rest (add_like field p sr) = request_rest sr.
Proof. unfold add_like. by destruct (negb _). Qed.
Lemma rest_filter field op v sr : request_rest (AddFilter field op v sr) = request_rest sr.
Proof. done. Qed.
Lemma rest_include b s sr : request_rest (if b : bool then AddInclude s sr else sr) = request_rest sr.
Proof. by destruct b. Qed.

Lemma rest_advanced req :
  request_rest (ConvertAdvancedToSearch req) = ("", as_Sort req, as_GroupBy req, [], []).
Proof. unfold ConvertAdvancedToSearch. by rewrite !rest_range. Qed.

Lemma rest_injection req :
  request_rest (SearchInjection_ConvertToSearchReq req)
    = ("", as_Sort (si_Advanced req), as_GroupBy (si_Advanced req), [], []).
Proof.
  unfold SearchInjection_ConvertToSearchReq.
  by rewrite !rest_include, !rest_range, !rest_in, rest_like, !rest_in, rest_advanced.
Qed.

Lemma rest_dataset req :
  request_rest (SearchDataset_ConvertToSearchReq req)
    = ("", as_Sort (sd_Advanced req), as_GroupBy (sd_Advanced req), [], []).
Proof. unfold SearchDataset_ConvertToSearchReq. by rewrite rest_include, rest_like, rest_advanced. Qed.

Section QueryRest.
Context `{TextLists}.

Lemma applyFilters_rest q l :
  q_order (applyFilters q l) = q_order q /\ q_select (applyFilters q l) = q_select q.
Proof.
  unfold applyFilters. revert q. induction l as [|f l IH]; intros q; cbn [fold_left]; [done|].
  destruct (IH (applySingleFilter q f)) as [-> ->]. unfold applySingleFilter.
  destruct (String.eqb _ ""); [done|]. by destruct (filter_condition _ f).
Qed.

(** Without a keyword the rest of the query is the sorting and the selections. *)
Lemma search_query_rest fields mt sr sorts groups :
  request_rest sr = ("", sorts, groups, [], []) ->
  q_select (search_query fields mt sr) = q_select (ApplyExcludeFields [] mt no_query) /\
  q_order (search_query fields mt sr) = q_order (applySorting fields sorts groups no_query).
Proof.
  intros [= Hk Hs Hg Hi He]. destruct (search_query_where fields mt sr) as [_ ->].
  unfold search_query, ApplySearchReq. rewrite Hk, Hs, Hg, Hi, He. cbn [negb String.eqb].
  destruct (applyFilters_rest no_query (sr_Filters sr)) as [Ho Hsel].
  destruct (applySorting_fields fields sorts groups (applyFilters no_query (sr_Filters sr))) as [_ Hss]. split.
  - unfold ApplyExcludeFields. destruct (List.filter _ _); cbn [q_select add_select ApplyIncludeFields fold_left ApplyIncludes no_query];
      by rewrite Hss, Hsel.
  - unfold applySorting. destruct (_ ++ _) as [|o os]; [cbn [q_order add_order]; by rewrite Ho|].
    destruct (fold_order_fields (o :: os) (applyFilters no_query (sr_Filters sr))) as (_ & _ & ->).
    destruct (fold_order_fields (o :: os) no_query) as (_ & _ & ->). by rewrite Ho.
Qed.

(** The columns of a search: with no field excluded, the query selects the first
    parts of the gorm tags of the model - [primaryKey], [not null] and the like - which
    are no columns, whatever the search asks for. *)
Theorem search_selects_tags req projectID :
  let sr := SearchInjection_ConvertToSearchReq req in
  let sr := match projectID with Some p => AddFilter "project_id" OpEqual (One (itoa p)) sr | None => sr end in
  exists rest, q_select (search_query InjectionAllowedFields FaultInjection_type sr)
                 = ["primaryKey, size:128, size:32, not null, not null, type:text" +:+ rest].
Proof.
  intros sr0 sr. assert (Hr : request_rest sr = ("", as_Sort (si_Advanced req), as_GroupBy (si_Advanced req), [], [])).
  { subst sr sr0. destruct projectID; [rewrite rest_filter|]; apply rest_injection. }
  destruct (search_query_rest InjectionAllowedFields FaultInjection_type sr _ _ Hr) as [-> _].
  exists (str_drop (String.length "primaryKey, size:128, size:32, not null, not null, type:text")
            (join ", " (exclude_columns FaultInjection_type))).
  vm_compute. reflexivity.
Qed.

(** *** Sorting *)

Lemma dataset_allowed f : is_allowed DatasetAllowedFields f = true -> allowed DatasetAllowedFields f = Some f.
Proof.
  unfold is_allowed, allowed, DatasetAllowedFields. cbn [find fst].
  repeat match goal with |- context [String.eqb ?x f] => destruct (String.eqb_spec x f) as [<-|]; [done|] end. done.
Qed.

Definition group_order (f : string) : string := f +:+ " ASC".
Definition sort_order (so : TypedSortOption) : string :=
  so_Field so +:+ (if String.eqb (so_Direction so) "desc" then " DESC" else " ASC").

Lemma group_orders l :
  Forall (fun f => is_allowed DatasetAllowedFields f = true) l ->
  omap (fun f => option_map (fun dbField => dbField +:+ " ASC") (allowed DatasetAllowedFields f)) l = map group_order l.
Proof. induction 1 as [|f l Hf _ IH]; [done|]. cbn. rewrite (dataset_allowed _ Hf). cbn. by rewrite IH. Qed.

Lemma sort_orders l :
  Forall (fun so => is_allowed DatasetAllowedFields (so_Field so) = true /\ SortOption_Validate so = Ok tt) l ->
  omap (order_of DatasetAllowedFields) l = map sort_order l.
Proof.
  induction 1 as [|so l [Hf Hd] _ IH]; [done|]. cbn. unfold order_of at 1. rewrite (dataset_allowed _ Hf).
  cbn [option_map]. rewrite IH. unfold sort_order. apply require_ok in Hd. cbn [existsb] in Hd.
  destruct (String.eqb_spec (so_Direction so) "asc") as [->|]; [done|].
  by destruct (String.eqb_spec (so_Direction so) "desc") as [->|].
Qed.

Lemma for_each_forall {A} (f : nat -> A -> res unit) (Q : A -> Prop) l :
  for_each f l = Ok tt -> (forall i x, f i x = Ok tt -> Q x) -> Forall Q l.
Proof. rewrite for_each_ok. intros Hl HQ. apply Forall_lookup. intros i x Hi. eapply HQ, Hl, Hi. Qed.

Lemma AdvancedSearchReq_Validate_sort req a :
  AdvancedSearchReq_Validate req = Ok a -> Forall (fun so => SortOption_Validate so = Ok tt) (as_Sort a).
Proof.
  unfold AdvancedSearchReq_Validate. rewrite res_bind_ok. intros (page & _ & Ha).
  rewrite res_bind_ok in Ha. destruct Ha as ([] & Hsort & Ha).
  repeat (rewrite res_bind_ok in Ha; destruct Ha as (? & _ & Ha)). injection Ha as <-. cbn [as_Sort].
  eapply for_each_forall; [exact Hsort|]. intros i so Hso. simpl in Hso. by destruct (SortOption_Validate so) as [[]|].
Qed.

(** A search of datasets that passes its checks is ordered by everything it asks
    for: first by the fields it groups by, ascending, then by its sort fields in their
    directions, none left out; by identifier when it asks for no order. *)
Theorem valid_search_is_sorted req req' :
  SearchDatasetReq_Validate req = Ok req' ->
  let a := sd_Advanced req' in
  q_order (search_query DatasetAllowedFields Dataset_type (SearchDataset_ConvertToSearchReq req'))
    = match map group_order (as_GroupBy a) ++ map sort_order (as_Sort a) with [] => ["id DESC"] | asked => asked end.
Proof.
  unfold SearchDatasetReq_Validate. rewrite res_bind_ok. intros (a & Ha & Hr). rewrite res_bind_ok in Hr.
  destruct Hr as (u & Hc & [= <-]). cbn [sd_Advanced]. apply AdvancedSearchReq_Validate_sort in Ha.
  unfold check_fields in Hc. rewrite res_bind_ok in Hc. destruct Hc as ([] & Hf & Hg). destruct u.
  assert (Hf' : Forall (fun so => is_allowed DatasetAllowedFields (so_Field so) = true) (as_Sort a))
    by (eapply for_each_forall; [exact Hf|]; intros i so; apply require_ok).
  assert (Hg' : Forall (fun f => is_allowed DatasetAllowedFields f = true) (as_GroupBy a))
    by (eapply for_each_forall; [exact Hg|]; intros i f; apply require_ok).
  destruct (search_query_rest DatasetAllowedFields Dataset_type _ _ _
    (rest_dataset (mkSearchDataset a (sd_NamePattern req) (sd_IncludeVersions req)))) as [_ ->].
  cbn [sd_Advanced]. unfold applySorting. rewrite group_orders by done.
  rewrite sort_orders by (apply Forall_and; by split).
  destruct (_ ++ _) as [|o os]; [done|]. by destruct (fold_order_fields (o :: os) no_query) as (_ & _ & ->).
Qed.
End QueryRest.

(** ** Pages *)

Lemma pages_take {A} (s m : nat) (rows : list A) :
  concat (map (fun k => take s (drop (k * s) rows)) (seq 0 m)) = take (m * s) rows.
Proof.
  induction m as [|m IH]; [done|]. rewrite seq_S, map_app, concat_app, IH. cbn [map concat]. rewrite app_nil_r, Nat.add_0_l.
  rewrite take_take_drop. f_equal. lia.
Qed.

Lemma valid_size s : existsb (fun x => PageSize_code x =? s) ValidPageSizes = true -> 5 <= s <= 100.
Proof. intros (x & _ & E%Z.eqb_eq)%existsb_elem. destruct x; simpl in E; lia. Qed.

Lemma PaginationReq_Validate_size p p' : PaginationReq_Validate p = Ok p' -> 5 <= Size p' <= 100.
Proof.
  unfold PaginationReq_Validate. cbn zeta. rewrite res_bind_ok. intros (u & _ & Hv).
  rewrite res_bind_ok in Hv. destruct Hv as (u' & Hs & [= <-]). apply require_ok in Hs. by apply valid_size in Hs.
Qed.

(** Pages: for a request that passes its checks, the pages that its answer announces
    hold every row once and in order - page after page they are the rows of the query -
    and a page has at most [Size] rows. *)
Theorem pages_cover {A} p p' (rows : list A) :
  PaginationReq_Validate p = Ok p' -> Z.of_nat (length rows) < 2 ^ 62 ->
  let page k := let '(limit, offset) := ToGormParams (mkPagination (Z.of_nat k + 1) (Size p')) in
                page_rows limit offset rows in
  concat (map page (seq 0 (Z.to_nat (pi_TotalPages (ConvertToPaginationInfo p' (Z.of_nat (length rows)))))))
    = rows /\
  forall k, Z.of_nat (length (page k)) <= Size p'.
Proof.
  intros Hs%PaginationReq_Validate_size Hlen page. set (s := Size p') in *. assert (Hsz : (s =? 0) = false) by (apply Z.eqb_neq; lia).
  split.
  - set (m := Z.quot (Z.of_nat (length rows) + s - 1) s).
    assert (Hm : pi_TotalPages (ConvertToPaginationInfo p' (Z.of_nat (length rows))) = m).
    { unfold ConvertToPaginationInfo. cbn [pi_TotalPages]. fold s. rewrite Hsz. unfold m.
      rewrite !wrap64_id; [done|..]; rewrite ?wrap64_id; unfold min_int64, max_int64; lia. }
    assert (Hq : 0 <= m /\ Z.of_nat (length rows) <= m * s /\ m * s <= Z.of_nat (length rows) + s - 1).
    { unfold m. rewrite Z.quot_div_nonneg by lia.
      pose proof (Z.div_mod (Z.of_nat (length rows) + s - 1) s ltac:(lia)) as Hd.
      pose proof (Z.mod_pos_bound (Z.of_nat (length rows) + s - 1) s ltac:(lia)) as Hb.
      assert (0 <= (Z.of_nat (length rows) + s - 1) / s) by (apply Z.div_pos; lia). lia. }
    rewrite Hm. transitivity (concat (map (fun k => take (Z.to_nat s) (drop (k * Z.to_nat s) rows)) (seq 0 (Z.to_nat m)))).
    + f_equal. apply map_ext_in. intros k Hk. apply in_seq in Hk. unfold page, ToGormParams, page_rows.
      cbn [Page Size]. rewrite Hsz. f_equal. f_equal.
      assert (Hks : 0 <= Z.of_nat k * s <= m * s) by nia.
      assert (Hk1 : Z.of_nat k <= Z.of_nat k * s) by nia.
      rewrite Z.max_l by lia. replace (Z.of_nat k + 1 - 1) with (Z.of_nat k) by lia.
      rewrite (wrap64_id (Z.of_nat k)) by (unfold min_int64, max_int64; lia).
      rewrite wrap64_id by (unfold min_int64, max_int64; lia). lia.
    + rewrite pages_take. apply take_ge. lia.
  - intros k. unfold page, ToGormParams, page_rows. cbn [Page Size]. rewrite Hsz, length_take. lia.
Qed.

(** ** Groups *)

Section GroupFacts.
Context {T : Type} (field_text : T -> string -> string).

Definition node_field (n : SearchGroupNode T) : string := match n with GroupNode f _ _ _ _ => f end.
Definition node_value (n : SearchGroupNode T) : string := match n with GroupNode _ v _ _ _ => v end.
Definition node_count (n : SearchGroupNode T) : Z := match n with GroupNode _ _ c _ _ => c end.
Definition node_children (n : SearchGroupNode T) : list (SearchGroupNode T) := match n with GroupNode _ _ _ l _ => l end.
Definition node_items (n : SearchGroupNode T) : list T := match n with GroupNode _ _ _ _ l => l end.

(** The items below a node. *)
Fixpoint below (n : SearchGroupNode T) : list T :=
  match n with GroupNode _ _ _ children items => items ++ concat (map below children) end.

(** A level that is grouped well: the values differ, a node counts the items below it,
    which have its value, and its children are grouped by the rest of the fields. *)
Fixpoint well_grouped (groupBy : list string) (nodes : list (SearchGroupNode T)) : Prop :=
  match groupBy with
  | [] => nodes = []
  | field :: rest =>
      NoDup (map node_value nodes) /\
      Forall (fun n =>
        node_field n = field /\ node_count n = Z.of_nat (length (below n)) /\ below n <> [] /\
        Forall (fun x => field_text x field = node_value n) (below n) /\
        (rest <> [] -> node_items n = []) /\ well_grouped rest (node_children n)) nodes
  end.

Definition good_groups (field : string) (groups : list (string * list T)) : Prop :=
  NoDup (map fst groups) /\
  Forall (fun g => g.2 <> [] /\ Forall (fun x => field_text x field = g.1) g.2) groups.

Lemma add_to_group_keys key item (groups : list (string * list T)) k :
  k ∈ map fst (add_to_group key item groups) <-> k = key \/ k ∈ map fst groups.
Proof.
  induction groups as [|[k' l] groups IH]; cbn [add_to_group].
  - cbn. rewrite list_elem_of_singleton. split; [by left|]. intros [?|?%not_elem_of_nil]; done.
  - destruct (String.eqb_spec k' key) as [->|]; cbn [map fst]; rewrite !elem_of_cons; [tauto|]. rewrite IH. tauto.
Qed.

Lemma add_to_group_good field item groups :
  good_groups field groups -> good_groups field (add_to_group (field_text item field) item groups).
Proof.
  intros [Hnd Hall]. set (key := field_text item field). split.
  - induction groups as [|[k' l] groups IH]; cbn [add_to_group]; [by apply NoDup_singleton|].
    cbn [map fst] in Hnd. apply NoDup_cons in Hnd as [Hk Hnd]. inversion Hall; subst.
    destruct (String.eqb_spec k' key) as [->|Hne]; cbn [map fst]; apply NoDup_cons; (split; [|by auto]); [done|].
    rewrite add_to_group_keys. intros [?|?]; done.
  - clear Hnd. induction Hall as [|[k' l] groups [Hne Hl] Hall IH]; cbn [add_to_group].
    + constructor; [|constructor]. split; [done|]. by repeat constructor.
    + destruct (String.eqb_spec k' key) as [->|]; constructor; try done. cbn [fst snd] in *. split; [by destruct l|].
      apply Forall_app. split; [done|]. by repeat constructor.
Qed.

Lemma add_to_group_perm key item (groups : list (string * list T)) :
  concat (map snd (add_to_group key item groups)) ≡ₚ item :: concat (map snd groups).
Proof.
  induction groups as [|[k' l] groups IH]; cbn [add_to_group]; [done|].
  destruct (String.eqb k' key); cbn [map snd concat].
  - rewrite <- app_assoc. by rewrite Permutation_middle.
  - rewrite IH. by rewrite Permutation_middle.
Qed.

Lemma group_items_ok field items :
  good_groups field (group_items field_text field items) /\
  concat (map snd (group_items field_text field items)) ≡ₚ items.
Proof.
  unfold group_items.
  assert (H : forall groups, good_groups field groups ->
    let groups' := fold_left (fun groups item => add_to_group (field_text item field) item groups) items groups in
    good_groups field groups' /\ concat (map snd groups') ≡ₚ concat (map snd groups) ++ items).
  { induction items as [|x items IH]; intros groups Hg; cbn [fold_left]; [by rewrite app_nil_r|].
    destruct (IH _ (add_to_group_good field x groups Hg)) as [H1 H2]. split; [done|]. rewrite H2, add_to_group_perm.
    by rewrite <- Permutation_middle. }
  apply (H []). split; constructor.
Qed.

Lemma buildGroupLevel_ok groupBy items :
  well_grouped groupBy (buildGroupLevel field_text groupBy items) /\
  (groupBy <> [] -> concat (map below (buildGroupLevel field_text groupBy items)) ≡ₚ items).
Proof.
  revert items. induction groupBy as [|field rest IH]; intros items; [done|].
  destruct (group_items_ok field items) as [[Hnd Hall] Hperm]. cbn [buildGroupLevel].
  set (node := fun g : string * list T => match rest with
                | [] => GroupNode field g.1 (Z.of_nat (length g.2)) [] g.2
                | _ => GroupNode field g.1 (Z.of_nat (length g.2)) (buildGroupLevel field_text rest g.2) [] end).
  assert (Hbelow : forall g, below (node g) ≡ₚ g.2).
  { intros g. unfold node. destruct rest as [|f rest']; cbn [below]; [by rewrite app_nil_r|]. by apply IH. }
  split.
  - cbn [well_grouped]. split.
    + rewrite map_map. replace (map (fun x => node_value (node x)) (group_items field_text field items))
        with (map fst (group_items field_text field items)); [done|]. apply map_ext. intros g. unfold node. by destruct rest.
    + apply Forall_forall. intros n (g & -> & Hg)%list_elem_of_fmap. rewrite Forall_forall in Hall.
      destruct (Hall g Hg) as [Hne Hkey]. split; [unfold node; by destruct rest|].
      split; [rewrite (Permutation_length (Hbelow g)); unfold node; by destruct rest|].
      split; [intros E; apply Hne; pose proof (Hbelow g) as Hb; rewrite E in Hb; by apply Permutation_nil in Hb|].
      split; [|split; [intros Hr; unfold node; by destruct rest|]].
      * rewrite (Hbelow g). replace (node_value (node g)) with g.1; [done|]. unfold node. by destruct rest.
      * unfold node. destruct rest as [|f rest']; [done|]. cbn [node_children]. apply IH.
  - intros _. etransitivity; [|exact Hperm]. rewrite map_map. clear -Hbelow.
    induction (group_items field_text field items) as [|g l IHl]; [done|]. cbn [map concat].
    apply Permutation_app; [apply Hbelow|exact IHl].
Qed.

(** The tree of groups is a partition: grouping the items of a search by fields
    loses and repeats none, the values on a level differ, and each node counts the items
    below it, which all have the values on their path. *)
Theorem BuildGroupTree_partition items groupBy :
  groupBy <> [] ->
  concat (map below (BuildGroupTree field_text items groupBy)) ≡ₚ items /\
  (items <> [] -> well_grouped groupBy (BuildGroupTree field_text items groupBy)).
Proof.
  intros Hne. destruct items as [|x items]; [done|]. unfold BuildGroupTree.
  destruct (buildGroupLevel_ok groupBy (x :: items)) as [H1 H2]. auto.
Qed.
End GroupFacts.

Module SearchSample.
#[export] Instance texts : TextLists := {| unmarshal_texts _ := None |}.

Definition req : SearchReq :=
  mkSearch (mkPagination 1 20) [mkFilter "name" OpLike "' OR 1=1; --" []; mkFilter "a;b" OpEqual "x" []]
    [mkSort "created_at" "desc"; mkSort "1; DROP" "asc"] ["state"] "" [] [] [].

Lemma search_text_is_closed_witness :
  q_where (search_query InjectionAllowedFields FaultInjection_type req)
    = [mkCond "name LIKE ?" [AText "%' OR 1=1; --%"]] /\
  forall c, c ∈ q_where (search_query InjectionAllowedFields FaultInjection_type req) -> sound_condition c.
Proof.
  split; [vm_compute; reflexivity|].
  exact (proj1 (search_text_is_closed InjectionAllowedFields FaultInjection_type req)).
Defined.

Definition dataset_req : SearchDatasetReq :=
  mkSearchDataset (mkAdvanced (mkPagination 0 0) [mkSort "name" "desc"] ["is_public"] [] None None) "ts" true.
Definition dataset_req' : SearchDatasetReq :=
  mkSearchDataset (mkAdvanced (mkPagination 1 20) [mkSort "name" "desc"] ["is_public"] [] None None) "ts" true.
Lemma valid_search_is_sorted_witness :
  q_order (search_query DatasetAllowedFields Dataset_type (SearchDataset_ConvertToSearchReq dataset_req'))
    = ["is_public ASC"; "name DESC"].
Proof. exact (valid_search_is_sorted dataset_req dataset_req' eq_refl). Defined.

Lemma pages_cover_witness :
  let page k := let '(limit, offset) := ToGormParams (mkPagination (Z.of_nat k + 1) 5) in
                page_rows limit offset (seq 0 12) in
  concat (map page (seq 0 3)) = seq 0 12.
Proof. exact (proj1 (pages_cover (mkPagination 0 5) (mkPagination 1 5) (seq 0 12) eq_refl eq_refl)). Defined.

Definition field (x : string * string) (f : string) : string := if String.eqb f "kind" then x.1 else x.2.
Lemma BuildGroupTree_partition_witness :
  concat (map below (BuildGroupTree field [("a", "1"); ("b", "1"); ("a", "2")] ["kind"; "level"]))
    ≡ₚ [("a", "1"); ("b", "1"); ("a", "2")].
Proof. exact (proj1 (BuildGroupTree_partition field [("a", "1"); ("b", "1"); ("a", "2")] ["kind"; "level"] ltac:(discriminate))). Defined.
End SearchSample.
