(* ===== verification/FaultInjection.v ===== *)
(** * The fault injection executor ([service/consumer/fault_injection.go])

    What a worker runs for a fault injection: it takes the namespace that the restart
    left locked for the trace, turns the faults of the payload into configurations of
    the chaos library, creates the resources of the whole batch at once, registers a
    batch of several resources with the manager and stores one row for it.  The
    chaos library and the owner of the rows are the classes [ChaosFault] and
    [FaultOwner]; the lock, the batches and the labels are those of [NamespaceLock],
    [FaultBatch] and [EventHandler]. *)

From Stdlib Require Import QArith.QArith_base.
From S2P Require Import Prelude GoStrings Consts Redis Gateway Task TaskQueue TaskSubmit TaskWorker.
From S2P Require Import HelmValues NamespaceLock RateLimiter FaultBatch EventHandler Executors Partial InjectionSpec.
#[local] Open Scope Z_scope.

(** ** Ground truths *)

(** [chaos.Groundtruth], and the row of the same fields. *)
Record ChaosGroundtruth := mkChaosGroundtruth {
  cg_Service : list string; cg_Pod : list string; cg_Container : list string;
  cg_Metric : list string; cg_Function : list string; cg_Span : list string
}.
Record Groundtruth := mkGroundtruth {
  g_Service : list string; g_Pod : list string; g_Container : list string;
  g_Metric : list string; g_Function : list string; g_Span : list string
}.

Definition db_groundtruth (g : ChaosGroundtruth) : Groundtruth :=
  mkGroundtruth (cg_Service g) (cg_Pod g) (cg_Container g) (cg_Metric g) (cg_Function g) (cg_Span g).
Definition NewDBGroundtruth (gt : option ChaosGroundtruth) : option Groundtruth := db_groundtruth <$> gt.
Definition ConvertToChaosGroundtruth (g : option Groundtruth) : option ChaosGroundtruth :=
  (fun g => mkChaosGroundtruth (g_Service g) (g_Pod g) (g_Container g) (g_Metric g) (g_Function g) (g_Span g))
    <$> g.

(** ** The libraries *)

Definition Hybrid : Z := -1.

(** What the executor asks of a configuration, and the names of the fault types. *)
Class ChaosFault `{ChaosLib} := {
  GetDisplayConfig : InjectionConf -> res value;
  GetGroundtruth : InjectionConf -> res ChaosGroundtruth;
  display_json : list value -> res string;
  ChaosType_of : GuidedConfig -> string;
  ChaosNameMap : gmap string Z
}.

(** [utils.ConvertToType] at the types of the payload. *)
Class InjectionCodec `{ChaosLib} := {
  to_guided : value -> res (list GuidedConfig);
  to_nodes : option value -> res (list Node);
  to_system : option value -> res string
}.

(** [injection.RuntimeCreateInjectionReq]. *)
Record RuntimeCreateInjectionReq := mkCreateInjection {
  ri_Name : string;
  ri_FaultType : Z;
  ri_Category : string;
  ri_Description : string;
  ri_DisplayConfig : string;
  ri_EngineConfig : string;
  ri_Groundtruths : list Groundtruth;
  ri_GroundtruthSource : string;
  ri_PreDuration : Z;
  ri_TaskID : string;
  ri_BenchmarkID : option Z;
  ri_PedestalID : option Z;
  ri_Labels : list value;
  ri_State : DatapackState
}.

(** The cluster and the owner of the rows. *)
Class FaultOwner (S : Type) `{ChaosLib} := {
  BatchCreate : list InjectionConf -> string -> string -> gmap string string -> gmap string string
                -> M S (list string);
  CreateInjection : RuntimeCreateInjectionReq -> M S Z
}.

(** ** The payload *)

Section Payload.
Context `{ChaosLib} `{PayloadCodec} `{!InjectionCodec}.

Record injectionPayload := mkInjection {
  ip_benchmark : ContainerVersionItem;
  ip_preDuration : Z;
  ip_nodes : list Node;
  ip_guidedConfigs : list GuidedConfig;
  ip_namespace : string;
  ip_pedestal : string;
  ip_pedestalID : Z;
  ip_labels : list value;
  ip_system : string
}.

Definition payload_message (key : string) : string := "invalid or missing '" +:+ key +:+ "' in task payload".

(** A text that is there and not empty. *)
Definition payload_text (payload : gmap string value) (key : string) : res string :=
  match payload !! key with
  | Some (VStr s) => if String.eqb s "" then Err (payload_message key) else Ok s
  | _ => Err (payload_message key)
  end.

(** The guided configurations when there are any, the nodes otherwise. *)
Definition parse_faults (payload : gmap string value) : res (list Node * list GuidedConfig) :=
  match payload !! "guided_configs" with
  | None | Some VNil =>
      match to_nodes (payload !! "nodes") with
      | Err _ => Err (payload_message "nodes")
      | Ok [] => Err "at least one fault node is required in nodes"
      | Ok nodes => Ok (nodes, [])
      end
  | Some rawGuided =>
      match to_guided rawGuided with
      | Err _ => Err (payload_message "guided_configs")
      | Ok [] => Err "at least one guided config is required in guided_configs"
      | Ok guidedConfigs => Ok ([], guidedConfigs)
      end
  end.

Definition parseInjectionPayload (valid_system : string -> bool) (payload : gmap string value)
  : res injectionPayload :=
  let? benchmark := res_wrap "failed to convert benchmark: " (to_version_item (payload !! "benchmark_version")) in
  let? preDuration := or_error (positive_number payload "pre_duration") (payload_message "pre_duration") in
  let? (nodes, guidedConfigs) := parse_faults payload in
  let? namespace := payload_text payload "namespace" in
  let? pedestalStr := payload_text payload "pedestal" in
  require (valid_system pedestalStr) ("invalid pedestal type: " +:+ pedestalStr) ;;?
  let? pedestalID := or_error (positive_number payload "pedestal_id") (payload_message "pedestal_id") in
  let? labels := match to_labels (payload !! "labels") with
                 | Ok l => Ok l | Err _ => Err (payload_message "labels") end in
  let? system := match to_system (payload !! "system") with
                 | Ok s => Ok s | Err _ => Err (payload_message "system") end in
  Ok (mkInjection benchmark preDuration nodes guidedConfigs namespace pedestalStr pedestalID labels system).
End Payload.

(** ** The executor *)

Record inject_env := mkInjectEnv {
  j_batchManager : bool;           (* deps.FaultBatchManager != nil *)
  j_injectionOwner : bool;         (* deps.InjectionOwner != nil *)
  j_watch : watch_env;             (* other clients, while the lock is taken *)
  j_ulid : string                  (* utils.GenerateULID(nil) *)
}.

Section Inject.
Context {D R S : Type} `{WorkerDB D} `{TaskStore D} `{RedisServer R} `{TaskCodec}.
Context `{ChaosLib} `{!ChaosFault} `{PayloadCodec} `{!InjectionCodec} `{!FaultOwner S}.
Context (env : xenv R) (deps : runtime_deps) (jenv : inject_env).
#[local] Abbreviation X := (xworld D R S).

Definition x_on_batches (f : FaultBatchManager -> FaultBatchManager) : B X unit := fun w =>
  let h := x_world w in
  Finished (mkXWorld (mkHWorld (hw_worker h) (hw_mu h) (f (hw_batches h)) (hw_store h)) (x_task w)) (Ok tt).

Record fault := mkFault { fl_conf : InjectionConf; fl_display : value; fl_groundtruth : Groundtruth }.

(** Both loops over the faults: [built] is the message of the conversion, [what] the
    name of an element in the others. *)
Fixpoint build_faults {A} (build : A -> res InjectionConf) (built : string -> string) (what : string) (i : nat)
    (l : list A) : res (list fault) :=
  match l with
  | [] => Ok []
  | x :: rest =>
      let at_ := itoa (Z.of_nat i) in
      let? conf := res_wrap ("failed to " +:+ built at_ +:+ ": ") (build x) in
      let? displayMap := res_wrap ("failed to get display config for " +:+ what +:+ at_ +:+ ": ")
                           (GetDisplayConfig conf) in
      let? chaosGroundtruth := res_wrap ("failed to get groundtruth for " +:+ what +:+ at_ +:+ ": ")
                                 (GetGroundtruth conf) in
      let? rest := build_faults build built what (Datatypes.S i) rest in
      Ok (mkFault conf displayMap (db_groundtruth chaosGroundtruth) :: rest)
  end.

Definition faults_of (payload : injectionPayload) : res (list fault) :=
  match ip_guidedConfigs payload with
  | [] => build_faults NodeToStruct (fun i => "convert node " +:+ i +:+ " to injection conf") "node " 0
            (ip_nodes payload)
  | configs => build_faults (fun cfg => res_map fst (BuildInjection cfg))
                 (fun i => "build guided injection " +:+ i) "guided config " 0 configs
  end.

(** What is computed before anything is created: the faults, their display and engine
    configurations, and the annotations. *)
Record prepared := mkPrepared {
  pr_faults : list fault; pr_display : string; pr_engine : string; pr_annotations : gmap string string
}.

Definition prepare_injection (payload : injectionPayload) : res prepared :=
  let? faults := faults_of payload in
  let? displayData := res_wrap "failed to marshal injection specs to display config: "
                        (display_json (map fl_display faults)) in
  let? engineData := res_wrap "failed to marshal injection specs to engine config: "
                       match ip_guidedConfigs payload with
                       | [] => nodes_json (ip_nodes payload)
                       | configs => guided_json configs
                       end in
  let? annotations := res_wrap "failed to get annotations: " (x_annotations env) in
  let? itemJson := res_wrap "failed to marshal benchmark item: " (x_item_json env (ip_benchmark payload)) in
  Ok (mkPrepared faults displayData engineData (<[CRDAnnotationBenchmark := itemJson]> annotations)).

Definition batch_id : string := "batch-" +:+ j_ulid jenv.
Definition is_hybrid (payload : injectionPayload) : bool :=
  (1 <? length (ip_nodes payload))%nat || (1 <? length (ip_guidedConfigs payload))%nat.

(** The type of a batch of one resource. *)
Definition single_fault_type (payload : injectionPayload) : Z :=
  match ip_guidedConfigs payload, ip_nodes payload with
  | cfg :: _, _ => default Hybrid (ChaosNameMap !! ChaosType_of cfg)
  | [], node :: _ => Value node
  | [], [] => 0
  end.

Definition injection_request (task : UnifiedTask) (payload : injectionPayload) (p : prepared)
    (name : string) (faultType : Z) : RuntimeCreateInjectionReq :=
  {| ri_Name := name; ri_FaultType := faultType; ri_Category := ip_pedestal payload;
     ri_Description := "Fault batch for task " +:+ TaskID task +:+ " ("
                       +:+ itoa (Z.of_nat (length (ip_nodes payload))) +:+ " faults)";
     ri_DisplayConfig := pr_display p; ri_EngineConfig := pr_engine p;
     ri_Groundtruths := map fl_groundtruth (pr_faults p); ri_GroundtruthSource := "auto";
     ri_PreDuration := ip_preDuration payload; ri_TaskID := TaskID task;
     ri_BenchmarkID := Some (cvi_ID (ip_benchmark payload)); ri_PedestalID := Some (ip_pedestalID payload);
     ri_Labels := ip_labels payload; ri_State := DatapackInitial |}.

(** The row of the batch. *)
Definition record_injection (payload : injectionPayload) (p : prepared) (name : string) (faultType : Z)
  : B X (res unit) :=
  if negb (j_injectionOwner jenv)
  then b_ret (Err "injection owner service is nil: missing injection owner service")
  else
    let% task := get_task in
    let% err := b_attempt (x_on_owner (CreateInjection (injection_request task payload p name faultType))) in
    b_ret (res_wrap "failed to write fault injection schedule to owner service: " (res_map (fun _ => tt) err)).

(** From the lock on: whether it must be released, and how the function ends. *)
Definition inject_in (payload : injectionPayload) : B X (bool * outcome (res unit)) :=
  match prepare_injection payload with
  | Err e => b_ret (false, Returns (Err e))
  | Ok p =>
      let% task := get_task in
      let crdLabels := injection_labels (x_app_id env) batch_id (is_hybrid payload) task in
      let% names := b_attempt (x_on_owner (BatchCreate (map fl_conf (pr_faults p)) (ip_system payload)
                      (ip_namespace payload) (pr_annotations p) crdLabels)) in
      match names with
      | Err e => b_ret (true, Returns (Err ("failed to inject faults: " +:+ e)))
      | Ok [] => b_ret (false, Panics)                (* names[0] *)
      | Ok [name] =>
          let% result := record_injection payload p name (single_fault_type payload) in
          b_ret (false, Returns result)
      | Ok names =>
          x_on_batches (setBatchInjections batch_id names) ;;%
          let% result := record_injection payload p batch_id Hybrid in
          b_ret (false, Returns result)
      end
  end.

Definition check_namespace (payload : injectionPayload) : B X unit :=
  let% task := get_task in
  x_on_monitor (CheckNamespaceToInject (ev_monitor (x_event env)) (j_watch jenv) (ip_namespace payload)
    (x_now env) (TraceID task)).

(** The release is deferred only after the lock was taken. *)
Definition executeFaultInjection : B X (outcome (res unit)) :=
  if negb (j_batchManager jenv) then b_ret (Returns (Err "fault batch manager is nil"))
  else
    let% task := get_task in
    match parseInjectionPayload (x_valid_system env) (Payload task) with
    | Err e => b_ret (Returns (Err ("failed to parse injection payload: " +:+ e)))
    | Ok payload =>
        if negb (d_monitor deps) then b_ret (Returns (Err "monitor not initialized: monitor not initialized"))
        else
          let% err := b_attempt (check_namespace payload) in
          match err with
          | Err e => b_ret (Returns (Err ("failed to get namespace to inject fault: " +:+ e)))
          | Ok _ =>
              let% (toReleased, result) := inject_in payload in
              (if (toReleased : bool) then x_release_lock env (ip_namespace payload) else b_ret tt) ;;%
              b_ret result
          end
    end.
End Inject.

(** ** The lock *)

Section LockRelease.
Context {R : Type} `{RedisLaws R} `{!RedisReliable R}.
Context (menv : monitor_env).

Lemma hget_served key f (r : R) :
  exists r', hget_or_empty key f r = (r', Ok (default "" (khash key (keys r) !! f))) /\ keys r' = keys r.
Proof.
  unfold hget_or_empty, m_bind, attempt.
  destruct (exec (HGET key f) r) as [r' o] eqn:Ex. apply served in Ex. simpl in Ex.
  destruct (khash key (keys r) !! f); injection Ex as Hk <-; by exists r'.
Qed.

(** A namespace that is not held is acquired. *)
Lemma acquire_free ns e t now st (r : R) :
  lock_of (khash (ns_key ns) (keys r)) = Ok st -> held_by_other t now st = false ->
  exists r', acquire undisturbed ns e t now r = (r', Ok tt).
Proof.
  intros Hl Hh. unfold acquire. simpl.
  destruct (hget_served (ns_key ns) "end_time" r) as (r1 & -> & K1).
  destruct (hget_served (ns_key ns) "trace_id" r1) as (r2 & -> & K2). rewrite K1. simpl.
  unfold lock_of in Hl. rewrite Hl, Hh.
  destruct (exec (MULTI _ _) r2) as [r3 o] eqn:Ex. apply served in Ex. simpl in Ex. injection Ex as Hk <-.
  by exists r3.
Qed.

(** A release by the owner leaves the namespace free. *)
Lemma ReleaseLock_frees ns t e (w : monitor R) :
  ns <> "" -> t <> "" -> mu_locked w = false -> kexists (ns_key ns) (keys (mon_redis w)) = true ->
  lock_of (khash (ns_key ns) (keys (mon_redis w))) = Ok (mkLock e t) ->
  exists w', ReleaseLock menv [] ns t w = Finished w' (Ok tt) /\
    khash (ns_key ns) (keys (mon_redis w')) !! "trace_id" = Some "".
Proof.
  destruct w as [mu r]. simpl. intros Hns Ht -> Hex Hl. unfold ReleaseLock, b_defer.
  rewrite (proj2 (String.eqb_neq ns "")), (proj2 (String.eqb_neq t "")) by done. cbn [orb].
  unfold b_bind, b_wrap, namespaceExists, currentContext, b_bind, on_store. cbn [mu_locked mon_redis].
  unfold catalog_exists, Exists, m_wrap.
  destruct (exec (EXISTS (ns_key ns)) r) as [r1 o1] eqn:Ex. apply served in Ex. simpl in Ex.
  rewrite Hex in Ex. injection Ex as Hk1 <-. cbn [res_wrap mu_locked mon_redis]. unfold release.
  destruct (read_served ns (mkLock e t) r1 ltac:(by rewrite <- Hk1)) as (r2 & -> & K2).
  cbn [LockTraceID]. rewrite String.eqb_refl. cbn [negb andb others fst].
  unfold write, HashSet, key_error, m_wrap.
  change (length [("end_time", itoa (mon_now menv)); ("trace_id", "")] =? 0)%nat with false. cbv iota beta.
  destruct (exec (HMSET _ _) r2) as [r3 o3] eqn:Ew. apply served in Ew. simpl in Ew. injection Ew as Hk3 <-.
  cbn [res_wrap].
  set (w3 := mkMonitor false r3).
  assert (Hf : khash (ns_key ns) (keys r3) !! "trace_id" = Some "").
  { rewrite <- Hk3, khash_upd, decide_True by done. by rewrite lookup_insert_eq. }
  destruct (publish_lock _ _ _ _ _ w3) as [w4 o4|w4] eqn:Ep.
  - apply (publish_lock_hash menv _ _ _ _ (ns_key ns)) in Ep as [Hp _]. exists w4. split; [done|]. by rewrite Hp.
  - exfalso. unfold publish_lock in Ep. destruct (mon_caller menv) as [[? ?] ?]. destruct (lock_json _ _); [|done].
    unfold on_store in Ep. by destruct (ignore_err _ _).
Qed.
End LockRelease.

Section AcquireFacts.
Context {R : Type} `{RedisLaws R}.
Context (menv : monitor_env).

(** What a check for an injection leaves: the lock until five minutes later, and the
    mutex free. *)
Lemma CheckNamespaceToInject_ok wenv ns at_ t (w w' : monitor R) :
  CheckNamespaceToInject menv wenv ns at_ t w = Finished w' (Ok tt) ->
  mu_locked w' = false /\
  khash (ns_key ns) (keys (mon_redis w')) !! "trace_id" = Some t /\
  khash (ns_key ns) (keys (mon_redis w')) !! "end_time" = Some (itoa (at_ + 300)).
Proof.
  unfold CheckNamespaceToInject. rewrite b_bind_ok. intros (w1 & err & Ha & Hx).
  destruct err as [[]|e]; [|by destruct (String.eqb e TxFailedErr)]. injection Hx as <-.
  unfold b_attempt in Ha. destruct (AcquireLock _ _ _ _ _ _ w) as [w2 o|] eqn:E; [|done]. injection Ha as -> ->.
  split; [|by apply AcquireLock_holds in E as (_ & _ & ? & ?)].
  unfold AcquireLock in E. apply b_defer_ok in E as (w3 & o & _ & Hpub).
  unfold b_bind, currentContext in Hpub. destruct (mu_locked w3) eqn:Em; [done|].
  by apply (publish_lock_hash menv _ _ _ _ (ns_key ns)) in Hpub as [_ ->].
Qed.
End AcquireFacts.

Section InjectFacts.
Context {D R S : Type} `{WorkerDB D} `{TaskStore D} `{RedisLaws R} `{!RedisReliable R} `{TaskCodec}.
Context `{ChaosLib} `{!ChaosFault} `{PayloadCodec} `{!InjectionCodec} `{!FaultOwner S}.
Context (env : xenv R) (deps : runtime_deps) (jenv : inject_env).
#[local] Abbreviation X := (xworld D R S).

(** The namespace is the trace's until [e]; it is free. *)
Definition locked_until (ns t : string) (e : Z) (w : X) : Prop :=
  khash (ns_key ns) (keys (x_redis w)) !! "trace_id" = Some t /\
  khash (ns_key ns) (keys (x_redis w)) !! "end_time" = Some (itoa e).
Definition set_free (ns : string) (w : X) : Prop := khash (ns_key ns) (keys (x_redis w)) !! "trace_id" = Some "".

Lemma locked_lock ns t e (w : X) :
  min_int64 <= e <= max_int64 -> locked_until ns t e w -> lock_of (khash (ns_key ns) (keys (x_redis w))) = Ok (mkLock e t).
Proof.
  intros He [Ht Hend]. unfold lock_of, parse_lock. rewrite Ht, Hend. cbn [default from_option id].
  destruct (String.eqb_spec (itoa e) "") as [Hx|_]; [by apply itoa_not_empty in Hx|]. by rewrite atoi_itoa.
Qed.

(** The parts of the world the creation of the batch touches. *)
Definition same_redis (w w' : X) : Prop :=
  x_redis w' = x_redis w /\ hw_mu (x_world w') = hw_mu (x_world w) /\ x_task w' = x_task w.

Lemma x_on_owner_run {A} (m : M S A) (w : X) :
  exists w', x_on_owner m w = Finished w' (snd (m (hw_store (x_world w)))) /\
    hw_store (x_world w') = fst (m (hw_store (x_world w))) /\ same_redis w w' /\
    hw_batches (x_world w') = hw_batches (x_world w).
Proof.
  unfold x_on_owner. destruct (m (hw_store (x_world w))) as [s o]. eexists. split; [done|]. by repeat split.
Qed.

(** What [record_injection] does with the store. *)
Definition recorded (req : RuntimeCreateInjectionReq) (s s' : S) (result : res unit) : Prop :=
  if j_injectionOwner jenv
  then s' = fst (CreateInjection req s) /\
       result = res_wrap "failed to write fault injection schedule to owner service: "
                  (res_map (fun _ => tt) (snd (CreateInjection req s)))
  else s' = s /\ result = Err "injection owner service is nil: missing injection owner service".

Lemma record_injection_run payload p name ty (w : X) :
  exists w' result, record_injection jenv payload p name ty w = Finished w' (Ok result) /\
    same_redis w w' /\ hw_batches (x_world w') = hw_batches (x_world w) /\
    recorded (injection_request (x_task w) payload p name ty) (hw_store (x_world w)) (hw_store (x_world w')) result.
Proof.
  unfold record_injection, recorded. destruct (j_injectionOwner jenv); cbn [negb]; [|by eexists _, _].
  unfold b_bind at 1, get_task. unfold b_bind, b_attempt.
  destruct (x_on_owner_run (CreateInjection (injection_request (x_task w) payload p name ty)) w)
    as (w1 & -> & Hs & Hr & Hb). eexists w1, _. split; [done|]. by rewrite Hs.
Qed.

(** How the creation of the batch ends, for each answer of the cluster. *)
Definition name_of (names : list string) : string :=
  match names with [name] => name | _ => batch_id jenv end.
Definition type_of (payload : injectionPayload) (names : list string) : Z :=
  match names with [_] => single_fault_type payload | _ => Hybrid end.
Definition batches_after (names : list string) (bm : FaultBatchManager) : FaultBatchManager :=
  if (1 <? length names)%nat then setBatchInjections (batch_id jenv) names bm else bm.

Definition crd_labels_of (payload : injectionPayload) (task : UnifiedTask) : gmap string string :=
  injection_labels (x_app_id env) (batch_id jenv) (is_hybrid payload) task.
Definition create_batch (payload : injectionPayload) (p : prepared) (task : UnifiedTask) : M S (list string) :=
  BatchCreate (map fl_conf (pr_faults p)) (ip_system payload) (ip_namespace payload) (pr_annotations p)
    (crd_labels_of payload task).

Lemma inject_in_run payload (w : X) :
  exists w' released o, inject_in env jenv payload w = Finished w' (Ok (released, o)) /\ same_redis w w' /\
    match prepare_injection env payload with
    | Err e => released = false /\ o = Returns (Err e) /\ w' = w
    | Ok p =>
        let '(s1, names) := create_batch payload p (x_task w) (hw_store (x_world w)) in
        match names with
        | Err e => released = true /\ o = Returns (Err ("failed to inject faults: " +:+ e)) /\
                   hw_batches (x_world w') = hw_batches (x_world w)
        | Ok [] => released = false /\ o = Panics
        | Ok names =>
            released = false /\ hw_batches (x_world w') = batches_after names (hw_batches (x_world w)) /\
            exists result, o = Returns result /\
              recorded (injection_request (x_task w) payload p (name_of names) (type_of payload names))
                s1 (hw_store (x_world w')) result
        end
    end.
Proof.
  unfold inject_in. destruct (prepare_injection env payload) as [p|e]; [|by eexists _, _, _].
  unfold b_bind at 1, get_task. unfold b_bind at 1, b_attempt at 1. fold (crd_labels_of payload (x_task w)).
  fold (create_batch payload p (x_task w)).
  destruct (x_on_owner_run (create_batch payload p (x_task w)) w) as (w1 & -> & Hs & Hr & Hb).
  destruct (create_batch payload p (x_task w) (hw_store (x_world w))) as [s1 names]. cbn [fst snd] in *.
  destruct names as [names|e]; [|by eexists _, _, _]. destruct names as [|n [|n2 names]]; [by eexists _, _, _| |].
  - destruct (record_injection_run payload p n (single_fault_type payload) w1) as (w2 & result & E & Hr2 & Hb2 & Hrec).
    unfold b_bind. rewrite E. eexists w2, _, _. split; [done|].
    destruct Hr as (? & ? & Ht), Hr2 as (? & ? & ?). split; [repeat split; congruence|].
    split; [done|]. split; [by rewrite Hb2, Hb|]. exists result. split; [done|]. by rewrite Hs, Ht in Hrec.
  - set (w2 := mkXWorld (mkHWorld (hw_worker (x_world w1)) (hw_mu (x_world w1))
      (setBatchInjections (batch_id jenv) (n :: n2 :: names) (hw_batches (x_world w1))) (hw_store (x_world w1)))
      (x_task w1)).
    destruct (record_injection_run payload p (batch_id jenv) Hybrid w2) as (w3 & result & E & Hr2 & Hb2 & Hrec).
    unfold b_bind, x_on_batches. fold w2. rewrite E. eexists w3, _, _. split; [done|].
    change (same_redis w1 w3) in Hr2. destruct Hr as (? & ? & Ht), Hr2 as (? & ? & ?). split; [repeat split; congruence|].
    split; [done|]. split; [rewrite Hb2; cbn; by rewrite Hb|]. exists result. split; [done|].
    cbn in Hrec. by rewrite Hs, Ht in Hrec.
Qed.

(** The check on the namespace, at the executor. *)
Definition namespace_taken (payload : injectionPayload) (w w1 : X) : Prop :=
  check_namespace env jenv payload w = Finished w1 (Ok tt).

Lemma namespace_taken_ok payload (w w1 : X) :
  namespace_taken payload w w1 ->
  hw_mu (x_world w1) = false /\ x_task w1 = x_task w /\ hw_store (x_world w1) = hw_store (x_world w) /\
  hw_batches (x_world w1) = hw_batches (x_world w) /\
  locked_until (ip_namespace payload) (TraceID (x_task w)) (x_now env + 300) w1.
Proof.
  unfold namespace_taken, check_namespace, b_bind, get_task, x_on_monitor, locked_until, x_redis.
  destruct (CheckNamespaceToInject _ _ _ _ _ _) as [mon o|mon] eqn:E; [|done]. intros [= <- ->].
  apply CheckNamespaceToInject_ok in E as (Hm & Ht & He). done.
Qed.

Lemma x_release_lock_frees ns e (w : X) :
  ev_between (x_event env) = [] -> ns <> "" -> TraceID (x_task w) <> "" -> hw_mu (x_world w) = false ->
  min_int64 <= e <= max_int64 -> locked_until ns (TraceID (x_task w)) e w ->
  exists w', x_release_lock env ns w = Finished w' (Ok tt) /\ set_free ns w' /\
    x_task w' = x_task w /\ hw_store (x_world w') = hw_store (x_world w) /\
    hw_batches (x_world w') = hw_batches (x_world w).
Proof.
  intros Hb Hns Ht Hm He Hl. pose proof (locked_lock _ _ _ _ He Hl) as Hlock.
  unfold x_release_lock, x_ignore, b_bind, get_task, b_attempt, x_on_monitor. rewrite Hb.
  destruct (ReleaseLock_frees (ev_monitor (x_event env)) ns (TraceID (x_task w)) e
    (mkMonitor (hw_mu (x_world w)) (wk_redis (hw_worker (x_world w)))) Hns Ht Hm) as (mon & -> & Hf); [|done|].
  - cbn [mon_redis]. unfold kexists. destruct Hl as [Hl _]. unfold x_redis in Hl.
    rewrite bool_decide_false; [done|]. intros E. by rewrite E in Hl.
  - eexists. split; [done|]. by unfold set_free, x_redis.
Qed.

Lemma parse_namespace payload valid m :
  parseInjectionPayload valid m = Ok payload -> ip_namespace payload <> "".
Proof.
  unfold parseInjectionPayload. rewrite res_bind_ok. intros (b & _ & Hx).
  apply res_bind_ok in Hx as (pd & _ & Hx). apply res_bind_ok in Hx as ([nodes gs] & _ & Hx).
  apply res_bind_ok in Hx as (ns & Hns & Hx). apply res_bind_ok in Hx as (ps & _ & Hx).
  apply res_bind_ok in Hx as (? & _ & Hx). apply res_bind_ok in Hx as (? & _ & Hx).
  apply res_bind_ok in Hx as (? & _ & Hx). apply res_bind_ok in Hx as (? & _ & [= <-]). simpl.
  unfold payload_text in Hns. destruct (m !! "namespace") as [[]|]; try done.
  by destruct (String.eqb_spec s ""); [|injection Hns as <-].
Qed.

(** What an execution that has taken its namespace does, on every path. *)
Lemma executeFaultInjection_run payload (w w1 : X) :
  j_batchManager jenv = true -> d_monitor deps = true -> ev_between (x_event env) = [] ->
  TraceID (x_task w) <> "" -> min_int64 <= x_now env + 300 <= max_int64 ->
  parseInjectionPayload (x_valid_system env) (Payload (x_task w)) = Ok payload ->
  namespace_taken payload w w1 ->
  exists w' o, executeFaultInjection env deps jenv w = Finished w' (Ok o) /\
    let kept := locked_until (ip_namespace payload) (TraceID (x_task w)) (x_now env + 300) w' in
    match prepare_injection env payload with
    | Err e => o = Returns (Err e) /\ kept
    | Ok p =>
        let '(s1, names) := create_batch payload p (x_task w) (hw_store (x_world w)) in
        match names with
        | Err e => o = Returns (Err ("failed to inject faults: " +:+ e)) /\ set_free (ip_namespace payload) w' /\
                   hw_batches (x_world w') = hw_batches (x_world w)
        | Ok [] => o = Panics /\ kept
        | Ok names =>
            kept /\ hw_batches (x_world w') = batches_after names (hw_batches (x_world w)) /\
            exists result, o = Returns result /\
              recorded (injection_request (x_task w) payload p (name_of names) (type_of payload names))
                s1 (hw_store (x_world w')) result
        end
    end.
Proof.
  intros Hbm Hmon Hbt Htr Hnow Hp Hn. unfold executeFaultInjection. rewrite Hbm. cbn [negb].
  unfold b_bind at 1, get_task at 1. rewrite Hp, Hmon. cbn [negb].
  unfold b_bind at 1, b_attempt at 1. rewrite Hn.
  apply namespace_taken_ok in Hn as (Hm1 & Ht1 & Hs1 & Hb1 & Hl1).
  destruct (inject_in_run payload w1) as (w2 & released & o & E & Hsame & Hspec).
  unfold b_bind at 1. rewrite E. rewrite Ht1, Hs1, Hb1 in Hspec. destruct Hsame as (Hr2 & Hm2 & Ht2).
  assert (Hl2 : locked_until (ip_namespace payload) (TraceID (x_task w)) (x_now env + 300) w2).
  { unfold locked_until. by rewrite Hr2. }
  assert (Hkeep : released = false -> exists w', b_bind (if released then x_release_lock env (ip_namespace payload) else b_ret tt)
    (fun _ => b_ret o) w2 = Finished w' (Ok o) /\ w' = w2) by (intros ->; by exists w2).
  destruct (prepare_injection env payload) as [p|e].
  2:{ destruct Hspec as (Hrel & -> & _). destruct (Hkeep Hrel) as (w' & -> & ->). by eexists _, _. }
  destruct (create_batch payload p (x_task w) (hw_store (x_world w))) as [s1 names].
  destruct names as [names|e].
  2:{ destruct Hspec as (-> & -> & Hb2).
      destruct (x_release_lock_frees (ip_namespace payload) (x_now env + 300) w2) as (w3 & E3 & Hf & _ & _ & Hb3);
        rewrite ?Ht2, ?Ht1; try done; [by apply parse_namespace in Hp|by rewrite Hm2|].
      unfold b_bind. rewrite E3. eexists w3, _. split; [done|]. split; [done|]. split; [done|]. by rewrite Hb3. }
  destruct names as [|n names].
  - destruct Hspec as (Hrel & ->). destruct (Hkeep Hrel) as (w' & -> & ->). by eexists _, _.
  - destruct Hspec as (Hrel & Hb2 & result & -> & Hrec). destruct (Hkeep Hrel) as (w' & -> & ->).
    eexists _, _. split; [done|]. split; [done|]. split; [done|]. by exists result.
Qed.

(** Whether the cluster refuses the batch. *)
Definition refused (payload : injectionPayload) (w : X) : bool :=
  match prepare_injection env payload with
  | Ok p => negb (is_ok (snd (create_batch payload p (x_task w) (hw_store (x_world w)))))
  | Err _ => false
  end.

(** C12. The lock of an injection.  An execution that has taken its namespace ends, and
    it gives the namespace back exactly when the cluster refuses the batch; on every
    other path - a fault that cannot be converted, annotations that cannot be read, no
    name in the answer, a row that cannot be stored - the trace keeps the namespace
    until five minutes after the start, although no fault may be there.  (Redis is taken to
    answer, and nobody else to write the lock meanwhile.) *)
Theorem injection_lock payload (w w1 : X) :
  j_batchManager jenv = true -> d_monitor deps = true -> ev_between (x_event env) = [] ->
  TraceID (x_task w) <> "" -> min_int64 <= x_now env + 300 <= max_int64 ->
  parseInjectionPayload (x_valid_system env) (Payload (x_task w)) = Ok payload ->
  namespace_taken payload w w1 ->
  exists w' o, executeFaultInjection env deps jenv w = Finished w' (Ok o) /\
    if refused payload w then set_free (ip_namespace payload) w'
    else locked_until (ip_namespace payload) (TraceID (x_task w)) (x_now env + 300) w'.
Proof.
  intros Hbm Hmon Hbt Htr Hnow Hp Hn.
  destruct (executeFaultInjection_run payload w w1) as (w' & o & E & Hspec); try done. exists w', o. split; [done|].
  unfold refused. destruct (prepare_injection env payload) as [p|e]; [|by destruct Hspec].
  destruct (create_batch payload p (x_task w) (hw_store (x_world w))) as [s1 [names|e]]; cbn [snd is_ok negb];
    [|by destruct Hspec as (_ & ? & _)]. destruct names; by destruct Hspec.
Qed.

(** An injection that succeeds.  The resources were created with the faults of the
    payload in order and with labels from which the event handlers read the task, the
    batch and its kind; the row stored has the name of the only resource, or that of
    the batch when there are several, one ground truth for each fault and the initial
    state; and a batch of several resources is registered, none of them counted. *)
Theorem injection_recorded payload (w w1 w' : X) :
  j_batchManager jenv = true -> d_monitor deps = true -> ev_between (x_event env) = [] ->
  min_int64 <= x_now env + 300 <= max_int64 -> identified (x_task w) ->
  parseInjectionPayload (x_valid_system env) (Payload (x_task w)) = Ok payload ->
  namespace_taken payload w w1 ->
  executeFaultInjection env deps jenv w = Finished w' (Ok (Returns (Ok tt))) ->
  exists p names s1 id req, prepare_injection env payload = Ok p /\ names <> [] /\
    BatchCreate (map fl_conf (pr_faults p)) (ip_system payload) (ip_namespace payload) (pr_annotations p)
      (crd_labels_of payload (x_task w)) (hw_store (x_world w)) = (s1, Ok names) /\
    parseCRDLabels (crd_labels_of payload (x_task w))
      = Ok (mkCRDLabels (identifiers (x_task w)) (batch_id jenv) (is_hybrid payload)) /\
    CreateInjection req s1 = (hw_store (x_world w'), Ok id) /\
    ri_Name req = name_of names /\ ri_State req = DatapackInitial /\
    ri_Groundtruths req = map fl_groundtruth (pr_faults p) /\
    (if (1 <? length names)%nat
     then batch (batch_id jenv) (hw_batches (x_world w')) = (Some 0, Some names)
     else hw_batches (x_world w') = hw_batches (x_world w)).
Proof.
  intros Hbm Hmon Hbt Hnow Hid Hp Hn Hx.
  assert (Htr : TraceID (x_task w) <> "") by apply Hid.
  destruct (executeFaultInjection_run payload w w1) as (w2 & o & E & Hspec); try done.
  rewrite Hx in E. injection E as -> <-. destruct (prepare_injection env payload) as [p|e]; [|by destruct Hspec].
  destruct (create_batch payload p (x_task w) (hw_store (x_world w))) as [s1 [names|e]] eqn:Ec;
    [|by destruct Hspec as (? & _)].
  destruct names as [|n names]; [by destruct Hspec|]. destruct Hspec as (_ & Hb & result & [= <-] & Hrec).
  unfold recorded in Hrec. destruct (j_injectionOwner jenv); [|by destruct Hrec].
  destruct (CreateInjection _ s1) as [s2 [id|e]] eqn:Ei; cbn [fst snd res_map res_wrap] in Hrec; [|by destruct Hrec].
  destruct Hrec as [Hs2 _]. eexists p, (n :: names), s1, id, _.
  split; [done|]. split; [done|]. split; [exact Ec|].
  split; [by apply (labels_roundtrip (x_app_id env) (batch_id jenv) (is_hybrid payload) "" 0)|].
  split; [by rewrite Hs2|]. split; [done|]. split; [done|]. split; [done|]. rewrite Hb. unfold batches_after.
  destruct (1 <? _)%nat; [|done]. by rewrite batch_set, decide_True.
Qed.

(** A lock ends five minutes after the check of the injection, however long the fault
    lasts: when Redis answers, another trace takes the namespace from then on.  (The
    restart had locked it until the end of the interval.) *)
Theorem fault_outlives_lock payload (w w1 w' : X) o :
  j_batchManager jenv = true -> d_monitor deps = true -> ev_between (x_event env) = [] ->
  TraceID (x_task w) <> "" -> min_int64 <= x_now env + 300 <= max_int64 ->
  parseInjectionPayload (x_valid_system env) (Payload (x_task w)) = Ok payload ->
  namespace_taken payload w w1 -> refused payload w = false ->
  executeFaultInjection env deps jenv w = Finished w' (Ok o) ->
  forall other endTime t, x_now env + 300 <= t ->
    exists r', acquire undisturbed (ip_namespace payload) endTime other t (x_redis w') = (r', Ok tt).
Proof.
  intros Hbm Hmon Hbt Htr Hnow Hp Hn Href Hx other endTime t Ht.
  assert (Hl : locked_until (ip_namespace payload) (TraceID (x_task w)) (x_now env + 300) w').
  { destruct (executeFaultInjection_run payload w w1) as (w2 & o2 & E & Hspec); try done.
    rewrite Hx in E. injection E as -> <-. unfold refused in Href.
    destruct (prepare_injection env payload) as [p|e]; [|by destruct Hspec].
    destruct (create_batch payload p (x_task w) (hw_store (x_world w))) as [s1 [names|e]]; [|done].
    destruct names; by destruct Hspec. }
  apply locked_lock in Hl; [|done]. eapply acquire_free; [exact Hl|].
  unfold held_by_other. cbn. destruct (Z.ltb_spec t (x_now env + 300)); [lia|].
  by rewrite ?andb_false_r.
Qed.
End InjectFacts.

(** ** A concrete batch *)

Module InjectSample.
#[local] Existing Instance ToyCodec.toy.
#[local] Existing Instance SubmitSample.memory_store.
Import HandlerSample ExecutorSample SpecSample.

#[global] Instance plain_faults : ChaosFault := {
  GetDisplayConfig := fun c => Ok (VStr c);
  GetGroundtruth := fun c => Ok (mkChaosGroundtruth [c] [] [] [] [] []);
  display_json := fun l => Ok "[]";
  ChaosType_of := fst;
  ChaosNameMap := {["pod" := 0]}
}.
#[global] Instance plain_fault_codec : InjectionCodec := {
  to_guided := fun v => match v with VStr s => Ok [(s, 5)] | _ => Err "not a list" end;
  to_nodes := fun v => match v with Some (VInt n) => Ok (replicate (Z.to_nat n) (leaf 4)) | _ => Err "not a list" end;
  to_system := fun v => match v with Some (VStr s) => Ok s | _ => Err "not a text" end
}.
(** The cluster makes a resource of each fault, and refuses a batch of three. *)
#[global] Instance log_faults : FaultOwner (list told) := {
  BatchCreate := fun confs system ns _ _ l =>
    (l, if (length confs =? 3)%nat then Err "no quota" else Ok (map (fun c => ns +:+ c) confs));
  CreateInjection := fun req l => (l ++ [Injection (ri_Name req) (ri_State req)], Ok 1)
}.

Definition inject_payload (n : Z) : gmap string value :=
  {["benchmark_version" := VStr "clickhouse"; "pre_duration" := VFloat 5; "nodes" := VInt n;
    "namespace" := VStr "ts0"; "pedestal" := VStr "ts"; "pedestal_id" := VFloat 3; "labels" := VList [];
    "system" := VStr "ts"]}.
Definition inject_task (n : Z) : UnifiedTask := task_with TaskTypeFaultInjection (inject_payload n).
Definition jenv0 : inject_env := mkInjectEnv true true undisturbed "01".
(** The world with the namespace locked for the trace until 1000. *)
Definition iworld (n : Z) : xworld (task_db * bool) keyspace (list told) :=
  mkXWorld (mkHWorld (set_redis (NamespaceLock.LockSample.held "trace" "1000") (hw_worker world0)) false
    (hw_batches world0) []) (inject_task n).
Definition ipayload (n : Z) : injectionPayload :=
  mkInjection (mkVersionItem 3 "v1" "image" "" 4 "clickhouse" [] (Some chart)) 5
    (replicate (Z.to_nat n) (leaf 4)) [] "ts0" "ts" 3 [] "ts".

(** How an execution of [n] faults ends: with which result, under which lock, with
    which rows told to the owner. *)
Definition ends_with (n : Z) : option (outcome (res unit) * option string * list told) :=
  match executeFaultInjection xenv0 deps0 jenv0 (iworld n) with
  | Finished w' (Ok o) => Some (o, khash (ns_key "ts0") (keys (x_redis w')) !! "trace_id", hw_store (x_world w'))
  | _ => None
  end.

Example one_fault : ends_with 1 = Some (Returns (Ok tt), Some "trace", [Injection "ts04" DatapackInitial]).
Proof. vm_compute. reflexivity. Qed.
Example two_faults_recorded : ends_with 2 = Some (Returns (Ok tt), Some "trace", [Injection "batch-01" DatapackInitial]).
Proof. vm_compute. reflexivity. Qed.
Example three_faults :
  ends_with 3 = Some (Returns (Err "failed to inject faults: no quota"), Some "", []).
Proof. vm_compute. reflexivity. Qed.

Lemma taken n : is_ok (match check_namespace xenv0 jenv0 (ipayload n) (iworld n) with
                       | Finished _ o => o | Blocked _ => Err "" end) = true ->
  exists w1, namespace_taken xenv0 jenv0 (ipayload n) (iworld n) w1.
Proof.
  unfold namespace_taken. destruct (check_namespace _ _ _ _) as [w1 [[]|e]|w1]; [|done..]. intros _. by exists w1.
Qed.
Lemma in_range_now : min_int64 <= x_now xenv0 + 300 <= max_int64.
Proof. unfold min_int64, max_int64. simpl. lia. Qed.

Lemma parsed n : 0 < n -> parseInjectionPayload (x_valid_system xenv0) (Payload (x_task (iworld n))) = Ok (ipayload n).
Proof.
  intros Hn. change (Payload (x_task (iworld n))) with (inject_payload n). unfold ipayload.
  assert (E : to_nodes (inject_payload n !! "nodes") = Ok (replicate (Z.to_nat n) (leaf 4))) by done.
  assert (Eg : inject_payload n !! "guided_configs" = None) by done.
  unfold parseInjectionPayload, parse_faults. rewrite E, Eg.
  destruct (Z.to_nat n) eqn:Ez; [lia|]. reflexivity.
Qed.
Lemma identified_task n : identified (x_task (iworld n)).
Proof. unfold identified, min_int64, max_int64. simpl. split_and!; (discriminate || lia). Qed.
Lemma trace_there n : TraceID (x_task (iworld n)) <> "".
Proof. apply identified_task. Qed.
Lemma two_fit : 0 < 2 /\ 0 < 1 /\ 0 < 3. Proof. lia. Qed.

Lemma injection_lock_witness :
  exists w' o, executeFaultInjection xenv0 deps0 jenv0 (iworld 3) = Finished w' (Ok o) /\
    set_free "ts0" w'.
Proof.
  destruct (taken 3 ltac:(vm_compute; reflexivity)) as [w1 Hw].
  pose proof (parsed 3 (proj2 (proj2 two_fit))) as Hp.
  pose proof (injection_lock xenv0 deps0 jenv0 (ipayload 3) (iworld 3) w1 eq_refl eq_refl eq_refl
    (trace_there 3) in_range_now Hp Hw) as (w' & o & E & Hl).
  assert (Er : refused xenv0 jenv0 (ipayload 3) (iworld 3) = true) by (vm_compute; reflexivity).
  rewrite Er in Hl. exists w', o. split; [exact E|exact Hl].
Defined.

Definition succeeds (n : Z) : bool :=
  match executeFaultInjection xenv0 deps0 jenv0 (iworld n) with Finished _ (Ok (Returns (Ok _))) => true | _ => false end.
Lemma finished n : succeeds n = true ->
  exists w', executeFaultInjection xenv0 deps0 jenv0 (iworld n) = Finished w' (Ok (Returns (Ok tt))).
Proof. unfold succeeds. destruct (executeFaultInjection _ _ _ _) as [w [[[[]|]|]|]|]; try done. intros _. by exists w. Qed.
Lemma both_succeed : succeeds 1 = true /\ succeeds 2 = true.
Proof. vm_compute. done. Qed.

Lemma injection_recorded_witness :
  exists w' names, executeFaultInjection xenv0 deps0 jenv0 (iworld 2) = Finished w' (Ok (Returns (Ok tt))) /\
    names <> [] /\ (if (1 <? length names)%nat
      then batch "batch-01" (hw_batches (x_world w')) = (Some 0, Some names) else True).
Proof.
  destruct (taken 2 ltac:(vm_compute; reflexivity)) as [w1 Hw].
  destruct (finished 2 (proj2 both_succeed)) as [w' E].
  destruct (injection_recorded xenv0 deps0 jenv0 (ipayload 2) (iworld 2) w1 w' eq_refl eq_refl eq_refl in_range_now
    (identified_task 2) (parsed 2 (proj1 two_fit)) Hw E) as (p & names & s1 & id & req & _ & Hn & _ & _ & _ & _ & _ & _ & Hb).
  exists w', names. split; [exact E|]. split; [exact Hn|]. destruct (1 <? length names)%nat; [exact Hb|exact I].
Defined.

Lemma fault_outlives_lock_witness :
  exists w' r', executeFaultInjection xenv0 deps0 jenv0 (iworld 1) = Finished w' (Ok (Returns (Ok tt))) /\
    acquire undisturbed "ts0" 9000 "other" 400 (x_redis w') = (r', Ok tt).
Proof.
  destruct (taken 1 ltac:(vm_compute; reflexivity)) as [w1 Hw].
  destruct (finished 1 (proj1 both_succeed)) as [w' E].
  assert (Er : refused xenv0 jenv0 (ipayload 1) (iworld 1) = false) by (vm_compute; reflexivity).
  destruct (fault_outlives_lock xenv0 deps0 jenv0 (ipayload 1) (iworld 1) w1 w' (Returns (Ok tt))
    eq_refl eq_refl eq_refl (trace_there 1) in_range_now (parsed 1 (proj1 (proj2 two_fit))) Hw Er E "other" 9000 400 ltac:(simpl; lia)) as [r' Hr].
  exists w', r'. split; [exact E|exact Hr].
Defined.
End InjectSample.
