(* ===== verification/Payloads.v ===== *)
(** * Payloads from one stage to the next ([utils/type.go], [utils/map.go], the
      items of [dto/], [service/consumer/build_datapack.go])

    A task's payload is a JSON object: a stage builds it from items of [dto/], the
    queue stores its text, and the executor of the next stage reads the items back
    with [utils.ConvertToType], which prints the value it finds and decodes the text
    at the type it wants.  This file has that decoding, an instance of
    [PayloadCodec], and shows that every payload a stage builds is one the next stage
    accepts. *)

From Stdlib Require Import QArith.QArith_base.
From S2P Require Import Prelude GoStrings Consts Redis Gateway Task TaskQueue TaskSubmit TaskWorker.
From S2P Require Import HelmValues NamespaceLock RateLimiter FaultBatch EventHandler Executors Partial Parameters Containers.
#[local] Open Scope Z_scope.

(** ** Decoding *)

(** What a value is after it was printed and read back as [any]: every number is a
    [float64].  It is exact for the integers a [float64] holds, those below [2^53]. *)
Fixpoint json_any (v : value) : value :=
  match v with
  | VInt z => VFloat (inject_Z z)
  | VList l => VList (map json_any l)
  | VMap m => VMap (map (fun kv => (fst kv, json_any (snd kv))) m)
  | _ => v
  end.
Definition max_float_int : Z := 2 ^ 53.

(** A member is found under its name in any case; the last one counts. *)
Definition json_member (name : string) (m : list (string * value)) : option value :=
  fold_left (fun o kv => if String.eqb (to_lower (fst kv)) (to_lower name) then Some (snd kv) else o) m None.

(** A member that is missing or null leaves the zero value. *)
Definition json_string (o : option value) : res string :=
  match o with
  | None | Some VNil => Ok ""
  | Some (VStr s) => Ok s
  | _ => Err "json: cannot unmarshal into Go value of type string"
  end.
Definition json_bool (o : option value) : res bool :=
  match o with
  | None | Some VNil => Ok false
  | Some (VBool b) => Ok b
  | _ => Err "json: cannot unmarshal into Go value of type bool"
  end.
Definition json_int (o : option value) : res Z :=
  match o with
  | None | Some VNil => Ok 0
  | Some (VInt z) => Ok z
  | Some (VFloat q) =>
      if Qeq_bool q (inject_Z (int_of_float q)) && in_int64 (int_of_float q) then Ok (int_of_float q)
      else Err "json: cannot unmarshal number into Go value of type int"
  | _ => Err "json: cannot unmarshal into Go value of type int"
  end.
Definition json_object (v : value) : res (list (string * value)) :=
  match v with
  | VMap m => Ok m
  | VNil => Ok []
  | _ => Err "json: cannot unmarshal into Go value of a struct type"
  end.
Fixpoint json_elements {A} (decode : value -> res A) (l : list value) : res (list A) :=
  match l with
  | [] => Ok []
  | v :: rest =>
      let? a := decode v in
      let? rest := json_elements decode rest in
      Ok (a :: rest)
  end.
Definition json_list {A} (decode : value -> res A) (o : option value) : res (list A) :=
  match o with
  | None | Some VNil => Ok []
  | Some (VList l) => json_elements decode l
  | _ => Err "json: cannot unmarshal into Go value of a slice type"
  end.
(** A pointer to a struct: nil when missing or null. *)
Definition json_pointer {A} (decode : value -> res A) (o : option value) : res (option A) :=
  match o with
  | None | Some VNil => Ok None
  | Some v => res_map Some (decode v)
  end.

Definition decode_param (v : value) : res ParameterItem :=
  let? m := json_object v in
  let? key := json_string (json_member "key" m) in
  let? template := json_string (json_member "template_string" m) in
  Ok (mkParam key (default VNil (json_member "value" m)) template).

Definition decode_helm (v : value) : res HelmConfigItem :=
  let? m := json_object v in
  let? version := json_string (json_member "version" m) in
  let? repoURL := json_string (json_member "repo_url" m) in
  let? repoName := json_string (json_member "repo_name" m) in
  let? chartName := json_string (json_member "chart_name" m) in
  let? localPath := json_string (json_member "local_path" m) in
  let? valueFile := json_string (json_member "value_file" m) in
  let? values := json_list decode_param (json_member "values" m) in
  Ok (mkHelmConfig version repoURL repoName chartName localPath valueFile values).

Definition decode_item (v : value) : res ContainerVersionItem :=
  let? m := json_object v in
  let? id := json_int (json_member "id" m) in
  let? name := json_string (json_member "name" m) in
  let? imageRef := json_string (json_member "image_ref" m) in
  let? command := json_string (json_member "command" m) in
  let? containerID := json_int (json_member "container_id" m) in
  let? containerName := json_string (json_member "container_name" m) in
  let? envVars := json_list decode_param (json_member "env_vars" m) in
  let? extra := json_pointer decode_helm (json_member "extra" m) in
  Ok (mkVersionItem id name imageRef command containerID containerName envVars extra).

Section Times.
(** Whether a text is a time of RFC 3339. *)
Context (valid_time : string -> bool).

(** The zero time stands for a missing one. *)
Definition json_time (o : option value) : res string :=
  match o with
  | None | Some VNil => Ok "0001-01-01T00:00:00Z"
  | Some (VStr s) => if valid_time s then Ok s else Err ("parsing time " +:+ s)
  | _ => Err "Time.UnmarshalJSON: input is not a JSON string"
  end.

Definition decode_datapack (v : value) : res InjectionItem :=
  let? m := json_object v in
  let? id := json_int (json_member "id" m) in
  let? name := json_string (json_member "name" m) in
  let? preDuration := json_int (json_member "pre_duration" m) in
  let? startTime := json_time (json_member "start_time" m) in
  let? endTime := json_time (json_member "end_time" m) in
  Ok (mkInjectionItem id name preDuration startTime endTime).
End Times.

(** [dto.LabelItem], kept as the value it prints to. *)
Definition decode_label (v : value) : res value :=
  let? m := json_object v in
  let? key := json_string (json_member "key" m) in
  let? val := json_string (json_member "value" m) in
  let? isSystem := json_bool (json_member "is_system" m) in
  Ok (VMap ([("key", VStr key); ("value", VStr val)] ++ omit_empty (negb isSystem) ("is_system", VBool isSystem))).

(** [ConvertToType] at these types: what is missing in the payload is nil. *)
#[local] Instance json_payloads (valid_time : string -> bool) (to_options : option value -> res value)
  : PayloadCodec := {
  to_version_item := fun o => decode_item (default VNil o);
  to_injection_item := fun o => decode_datapack valid_time (default VNil o);
  to_labels := fun o => json_list decode_label o;
  to_build_options := to_options
}.

(** ** The payload of a datapack build *)

(** [utils.GetPointerIntFromMap]. *)
Definition GetPointerIntFromMap (payload : gmap string value) (key : string) : res (option Z) :=
  match payload !! key with
  | None | Some VNil => Ok None
  | Some (VInt z) => Ok (Some z)
  | Some (VFloat q) =>
      if Qeq_bool q (inject_Z (int_of_float q)) then Ok (Some (int_of_float q))
      else Err ("value for key '" +:+ key +:+ "' is not a valid integer type")
  | Some (VStr s) =>
      match scan_int (chars s) with
      | Some (z, _) => Ok (Some z)
      | None => Err ("value for key '" +:+ key +:+ "' is not a valid integer type")
      end
  | Some _ => Err ("value for key '" +:+ key +:+ "' is not a valid integer type")
  end.

Record datapackPayload := mkDatapackPayload {
  dpp_benchmark : ContainerVersionItem;
  dpp_datapack : InjectionItem;
  dpp_datasetVersionID : option Z;
  dpp_labels : list value
}.

Definition parseDatapackPayload `{PayloadCodec} (payload : gmap string value) : res datapackPayload :=
  let? benchmark := res_wrap "failed to convert 'benchmark' to ContainerVersion: "
                      (to_version_item (payload !! "benchmark")) in
  let? datapack := res_wrap "failed to convert 'datapack' to InjectionItem: "
                     (to_injection_item (payload !! "datapack")) in
  let? datasetID := res_wrap "failed to get 'dataset_version_id' from payload: "
                      (GetPointerIntFromMap payload "dataset_version_id") in
  let? labels := res_wrap "failed to convert 'labels' to []LabelItem: " (to_labels (payload !! "labels")) in
  Ok (mkDatapackPayload benchmark datapack datasetID labels).

(** ** What is written is read *)

Lemma int_of_inject z : int_of_float (inject_Z z) = z.
Proof. unfold int_of_float, inject_Z. simpl. apply Z.quot_1_r. Qed.
Lemma json_int_any z : in_int64 z = true -> json_int (Some (json_any (VInt z))) = Ok z.
Proof. intros Hz. cbn [json_any json_int]. by rewrite int_of_inject, Qeq_bool_refl, Hz. Qed.

(** A payload and an item as the next stage finds them: the values of the parameters
    went through JSON. *)
Definition json_payload (payload : gmap string value) : gmap string value := json_any <$> payload.
Definition json_param (p : ParameterItem) : ParameterItem := mkParam (p_Key p) (json_any (p_Value p)) (p_Template p).
Definition json_helm (h : HelmConfigItem) : HelmConfigItem :=
  mkHelmConfig (hc_Version h) (hc_RepoURL h) (hc_RepoName h) (hc_ChartName h) (hc_LocalPath h) (hc_ValueFile h)
    (map json_param (hc_DynamicValues h)).
Definition json_item (i : ContainerVersionItem) : ContainerVersionItem :=
  mkVersionItem (cvi_ID i) (cvi_Name i) (cvi_ImageRef i) (cvi_Command i) (cvi_ContainerID i) (cvi_ContainerName i)
    (map json_param (cvi_EnvVars i)) (json_helm <$> cvi_Extra i).

Lemma decode_param_json p : decode_param (json_any (param_value p)) = Ok (json_param p).
Proof.
  destruct p as [k v t]. unfold decode_param, param_value, json_param. cbn [json_any json_object p_Key p_Value p_Template].
  destruct (String.eqb_spec t "") as [->|Ht]; destruct v; reflexivity.
Qed.

Lemma json_params l : json_elements decode_param (map json_any (param_value <$> l)) = Ok (map json_param l).
Proof.
  induction l as [|p l IH]; [done|]. cbn [fmap list_fmap map json_elements]. rewrite decode_param_json.
  cbn [res_bind]. by rewrite IH.
Qed.

Lemma bind_step {A B} (m : res A) a (f : A -> res B) r : m = Ok a -> f a = r -> res_bind m f = r.
Proof. by intros -> <-. Qed.

(** Reads one member after the other. *)
#[local] Ltac read_members facts :=
  repeat (eapply bind_step; [first [facts | reflexivity]|cbv beta]).

Lemma decode_helm_json h : decode_helm (json_any (helm_value h)) = Ok (json_helm h).
Proof.
  destruct h as [ver url repo chart lp vf vals]. unfold decode_helm.
  pose proof (json_params vals) as E. unfold helm_value. cbn [hc_LocalPath hc_ValueFile hc_DynamicValues].
  destruct (String.eqb_spec lp "") as [->|Hl]; destruct (String.eqb_spec vf "") as [->|Hv]; destruct vals as [|p vals];
    read_members ltac:(exact E); reflexivity.
Qed.

Lemma decode_item_json i :
  in_int64 (cvi_ID i) = true -> in_int64 (cvi_ContainerID i) = true ->
  decode_item (json_any (item_value i)) = Ok (json_item i).
Proof.
  destruct i as [id name im cmd cid cname env extra]. cbn [cvi_ID cvi_ContainerID]. intros Hid Hcid.
  pose proof (json_int_any id Hid) as E1. pose proof (json_int_any cid Hcid) as E2. pose proof (json_params env) as E3.
  assert (E4 : forall h, res_map Some (decode_helm (json_any (helm_value h))) = Ok (Some (json_helm h)))
    by (intros h; by rewrite decode_helm_json).
  unfold decode_item, item_value. cbn [cvi_Command cvi_EnvVars cvi_Extra].
  destruct (String.eqb_spec cmd "") as [->|Hc]; destruct env as [|p env]; destruct extra as [h|];
    read_members ltac:(first [exact E1 | exact E2 | exact E3 | exact (E4 _)]); reflexivity.
Qed.

(** ** The stages of a trace *)

Section Stages.
Context (valid_time : string -> bool) (to_options : option value -> res value).
#[local] Existing Instance json_payloads.
#[local] Abbreviation codec := (json_payloads valid_time to_options).

(** What an item must be to go through JSON: its identifiers are exact as [float64],
    its times are times. *)
Definition exact_int (z : Z) : Prop := - max_float_int <= z <= max_float_int.
Definition item_exact (i : ContainerVersionItem) : Prop := exact_int (cvi_ID i) /\ exact_int (cvi_ContainerID i).
Definition datapack_exact (i : InjectionItem) : Prop :=
  exact_int (ii_ID i) /\ exact_int (ii_PreDuration i) /\
  valid_time (ii_StartTime i) = true /\ valid_time (ii_EndTime i) = true.

Lemma exact_in_int64 z : exact_int z -> in_int64 z = true.
Proof.
  unfold exact_int, max_float_int, in_int64, min_int64, max_int64. intros [? ?].
  apply andb_true_iff. split; apply Z.leb_le; lia.
Qed.

Lemma decode_datapack_json i : datapack_exact i -> decode_datapack valid_time (json_any (datapack_value i)) = Ok i.
Proof.
  destruct i as [id name pre s e]. intros (Hid & Hpre & Hs & He). cbn [ii_ID ii_PreDuration ii_StartTime ii_EndTime] in *.
  pose proof (json_int_any id (exact_in_int64 _ Hid)) as E1. pose proof (json_int_any pre (exact_in_int64 _ Hpre)) as E2.
  assert (E3 : json_time valid_time (Some (VStr s)) = Ok s) by (simpl; by rewrite Hs).
  assert (E4 : json_time valid_time (Some (VStr e)) = Ok e) by (simpl; by rewrite He).
  unfold decode_datapack, datapack_value.
  read_members ltac:(first [exact E1 | exact E2 | exact E3 | exact E4]); reflexivity.
Qed.

Lemma item_read i : item_exact i -> @to_version_item codec (Some (json_any (item_value i))) = Ok (json_item i).
Proof. intros [Hi Hc]. apply decode_item_json; by apply exact_in_int64. Qed.
Lemma datapack_read i : datapack_exact i -> @to_injection_item codec (Some (json_any (datapack_value i))) = Ok i.
Proof. apply decode_datapack_json. Qed.

(** Reading a key of a payload. *)
Lemma payload_key (m : gmap string value) k v :
  m !! k = Some v -> json_payload m !! k = Some (json_any v).
Proof. intros Hk. unfold json_payload. by rewrite lookup_fmap, Hk. Qed.
Lemma payload_no_key (m : gmap string value) k : m !! k = None -> json_payload m !! k = None.
Proof. intros Hk. unfold json_payload. by rewrite lookup_fmap, Hk. Qed.

Lemma positive_json (m : gmap string value) k z :
  m !! k = Some (VInt z) -> positive_number (json_payload m) k = if z <=? 0 then None else Some z.
Proof.
  intros Hk. unfold positive_number. rewrite (payload_key _ _ _ Hk). cbn [json_any as_float64].
  change (Qle_bool (inject_Z z) 0) with (z * 1 <=? 0 * 1). rewrite Z.mul_1_r. change (0 * 1) with 0.
  destruct (z <=? 0); [done|]. f_equal. apply int_of_inject.
Qed.

Definition exact_payload (algorithm : ContainerVersionItem) (datapack : InjectionItem) : Prop :=
  item_exact algorithm /\ datapack_exact datapack.

Lemma execution_parsed (m : gmap string value) a dp :
  exact_payload a dp -> m !! "algorithm" = Some (item_value a) -> m !! "datapack" = Some (datapack_value dp) ->
  m !! "labels" = None ->
  @parseExecutionPayload codec (json_payload m)
    = Ok (mkExecutionPayload (json_item a) dp (positive_number (json_payload m) "dataset_version_id") []).
Proof.
  intros [Ha Hd] Ka Kd Kl. unfold parseExecutionPayload.
  rewrite (payload_key _ _ _ Ka), (payload_key _ _ _ Kd), (payload_no_key _ _ Kl).
  rewrite (item_read a Ha). cbn [res_wrap res_bind]. rewrite (datapack_read dp Hd). reflexivity.
Qed.

Lemma build_task_parsed env ids pa ns bm dp :
  item_exact bm -> datapack_exact dp ->
  @parseDatapackPayload codec (json_payload (Payload (build_task env ids pa ns bm dp)))
    = Ok (mkDatapackPayload (json_item (set_env_vars [mkParam "NAMESPACE" (VStr ns) ""] bm)) dp (Some 0) []).
Proof.
  intros Hbm Hd.
  change (Payload (build_task env ids pa ns bm dp)) with
    ({[ "benchmark" := item_value (set_env_vars [mkParam "NAMESPACE" (VStr ns) ""] bm);
        "datapack" := datapack_value dp; "dataset_version_id" := VInt 0 ]} : gmap string value).
  set (m := {[ "benchmark" := _; "datapack" := _; "dataset_version_id" := _ ]} : gmap string value).
  unfold parseDatapackPayload, GetPointerIntFromMap.
  rewrite (payload_key m "benchmark" _ eq_refl), (payload_key m "datapack" _ eq_refl),
    (payload_key m "dataset_version_id" _ eq_refl), (payload_no_key m "labels" eq_refl).
  rewrite item_read by exact Hbm. cbn [res_wrap res_bind]. rewrite datapack_read by done. reflexivity.
Qed.

(** C14. Payloads are well typed from stage to stage: what the handler of the cluster's
    events submits for a finished injection, a built datapack and an executed algorithm,
    and what the collection of the detector's results submits, is read by the parser of
    the executor that will run it as the items it was made of, with numbers of parameters
    as floats.  The identifier zero the handler gives for the dataset is kept as zero by the
    build, and is no dataset for the execution.  A collection is only accepted with a
    positive execution.  The identifiers are exact as floats. *)
Theorem stage_payloads_accepted env ids pa ns bm a dp executionID task index :
  item_exact bm -> exact_payload a dp -> exact_int executionID ->
  @parseDatapackPayload codec (json_payload (Payload (build_task env ids pa ns bm dp)))
    = Ok (mkDatapackPayload (json_item (set_env_vars [mkParam "NAMESPACE" (VStr ns) ""] bm)) dp (Some 0) []) /\
  @parseExecutionPayload codec (json_payload (Payload (detect_task env ids pa a dp)))
    = Ok (mkExecutionPayload (json_item a) dp None []) /\
  @parseExecutionPayload codec (json_payload (Payload (algorithm_task task
      {["algorithm" := item_value a; "datapack" := datapack_value dp]} index)))
    = Ok (mkExecutionPayload (json_item a) dp None []) /\
  match @parseCollectPayload codec (json_payload (Payload (collect_task env ids pa a dp executionID))) with
  | Ok p => 0 < executionID /\ p = mkCollectionPayload (json_item a) dp executionID
  | Err _ => executionID <= 0
  end.
Proof.
  intros Hbm Hx He. destruct (Hx) as [Ha Hd]. split; [|split; [|split]].
  - by apply build_task_parsed.
  - change (Payload (detect_task env ids pa a dp)) with
      ({[ "algorithm" := item_value a; "datapack" := datapack_value dp; "dataset_version_id" := VInt 0 ]}
        : gmap string value).
    rewrite (execution_parsed _ a dp) by done. by rewrite (positive_json _ _ 0).
  - cbn [algorithm_task Payload]. rewrite (execution_parsed _ a dp) by done. unfold positive_number.
    by rewrite payload_no_key.
  - change (Payload (collect_task env ids pa a dp executionID)) with
      ({[ "algorithm" := item_value a; "datapack" := datapack_value dp; "execution_id" := VInt executionID ]}
        : gmap string value).
    set (m := {[ "algorithm" := _; "datapack" := _; "execution_id" := _ ]} : gmap string value).
    unfold parseCollectPayload. rewrite (payload_key m "algorithm" _ eq_refl), (payload_key m "datapack" _ eq_refl).
    rewrite item_read by done. cbn [res_wrap res_bind]. rewrite datapack_read by done. cbn [res_wrap res_bind].
    rewrite (positive_json m "execution_id" executionID eq_refl).
    destruct (Z.leb_spec executionID 0); cbn [or_error res_bind]; [done|]. by split; [lia|].
Qed.
End Stages.

(** ** A concrete trace *)

Module PayloadSample.
Definition detector : ContainerVersionItem :=
  mkVersionItem 3 "v1" "registry/detector:v1" "python main.py" 4 "detector" [mkParam "DEPTH" (VInt 3) ""]
    (Some (mkHelmConfig "1.0" "" "" "chart" "" "" [mkParam "replicas" (VInt 2) ""])).
Definition datapack0 : InjectionItem := mkInjectionItem 1 "ts0-cpu" 5 "2025-01-01T00:00:00Z" "2025-01-01T00:05:00Z".
Definition no_annotations : k8sAnnotationData := mkAnnotations None None None None None.

(** The parameter is a float when it comes back. *)
Example detector_read :
  decode_item (json_any (item_value detector)) = Ok (json_item detector) /\
  cvi_EnvVars (json_item detector) = [mkParam "DEPTH" (VFloat 3) ""].
Proof. vm_compute. done. Qed.

Lemma stage_payloads_accepted_witness :
  parseExecutionPayload (H := json_payloads (fun _ => true) (fun _ => Err ""))
    (json_payload (Payload (detect_task HandlerSample.env0 (identifiers HandlerSample.parent) no_annotations
      detector datapack0))) = Ok (mkExecutionPayload (json_item detector) datapack0 None []).
Proof.
  assert (Hi : item_exact detector) by (unfold item_exact, exact_int, max_float_int; simpl; lia).
  assert (Hd : datapack_exact (fun _ => true) datapack0)
    by (unfold datapack_exact, exact_int, max_float_int; simpl; lia).
  assert (Hz : exact_int 7) by (unfold exact_int, max_float_int; lia).
  apply (stage_payloads_accepted (fun _ => true) (fun _ => Err "") HandlerSample.env0
    (identifiers HandlerSample.parent) no_annotations "ts0" detector detector datapack0 7 HandlerSample.parent 0
    Hi (conj Hi Hd) Hz).
Defined.
End PayloadSample.
