(* ===== verification/Jobs.v ===== *)
(** * Jobs and charts ([service/consumer/build_datapack.go], the job of
      [algo_execution.go], [common.go], [installPedestal] of [restart_pedestal.go])

    What the executors ask of the cluster: the specification of a job, with the
    environment its container runs in, and the installation of a chart with its
    values.  The cluster and Helm are the classes [JobCluster] and [HelmGateway]; the
    configuration, the clock and tokens are in [job_env]. *)

From S2P Require Import Prelude GoStrings Consts Redis Gateway Task TaskQueue TaskSubmit TaskWorker Tokens.
From S2P Require Import HelmValues NamespaceLock RateLimiter FaultBatch EventHandler Executors Partial Parameters Containers Payloads.
#[local] Open Scope Z_scope.

(** ** Paths *)

(** [filepath.Clean], on the parts of a path between the slashes: empty parts and dots
    are dropped, two dots take the part before them away. *)
Fixpoint clean_parts (rooted : bool) (out parts : list string) : list string :=
  match parts with
  | [] => out
  | p :: rest =>
      if String.eqb p "" || String.eqb p "." then clean_parts rooted out rest
      else if String.eqb p ".." then
        match rev out with
        | last :: before => if String.eqb last ".." then clean_parts rooted (out ++ [".."]) rest
                            else clean_parts rooted (rev before) rest
        | [] => clean_parts rooted (if rooted then [] else [".."]) rest
        end
      else clean_parts rooted (out ++ [p]) rest
  end.
Definition Clean (path : string) : string :=
  let rooted := has_prefix path "/" in
  let body := join "/" (clean_parts rooted [] (split "/" path)) in
  if rooted then "/" +:+ body else if String.eqb body "" then "." else body.
(** [filepath.Join]: the empty elements are left out. *)
Definition path_join (elements : list string) : string :=
  match List.filter (fun e => negb (String.eqb e "")) elements with
  | [] => ""
  | elements => Clean (join "/" elements)
  end.

Example joined :
  path_join ["/data"; "ts0-cpu"] = "/data/ts0-cpu" /\ path_join ["/data/"; ""; "./x"] = "/data/x" /\
  path_join ["/data"; "../etc"] = "/etc".
Proof. vm_compute. done. Qed.

(** ** Volumes *)

Record VolumeMountConfig := mkVolume { vm_Name : string; vm_MountPath : string }.

Fixpoint required_volumes (volumeMountConfigMap : gmap string VolumeMountConfig) (requiredKeys : list string)
  : res (list VolumeMountConfig) :=
  match requiredKeys with
  | [] => Ok []
  | vmName :: rest =>
      let? cfg := or_error (volumeMountConfigMap !! vmName)
                    ("volume mount configuration " +:+ vmName +:+ " not found") in
      let? rest := required_volumes volumeMountConfigMap rest in
      Ok (cfg :: rest)
  end.
Definition getRequiredVolumeMountConfigs (config : res (gmap string VolumeMountConfig)) (requiredKeys : list string)
  : res (list VolumeMountConfig) :=
  let? volumeMountConfigMap := res_wrap "failed to get volume mount configuration map: " config in
  required_volumes volumeMountConfigMap requiredKeys.

(** ** Jobs *)

Definition EnvVar : Type := string * string.
Record init_container := mkInit { in_Name : string; in_Image : string; in_Command : list string; in_Args : list string }.
Record JobConfig := mkJob {
  jc_JobName : string;
  jc_Image : string;
  jc_Command : list string;
  jc_EnvVars : list EnvVar;
  jc_Annotations : gmap string string;
  jc_Labels : gmap string string;
  jc_InitContainers : list init_container;
  jc_VolumeMountConfigs : list VolumeMountConfig;
  jc_ServiceAccountName : string
}.

Record DatabaseConfig := mkDatabase {
  db_Host : string; db_Port : Z; db_User : string; db_Password : string; db_Database : string; db_Timezone : string
}.

(** The configuration, the clock and the tokens. *)
Record job_env := mkJobEnv {
  je_timezone : string;                              (* system.timezone *)
  je_local : string;                                 (* time.Local.String() *)
  je_timestamp : string;                             (* now.Format(customTimeFormat) *)
  je_nanos : string -> Z;                            (* the instant of a time of an item *)
  je_internal_url : string;                          (* k8s.service.internal_url *)
  je_service_account : string;                       (* k8s.job.service_account.name *)
  je_busybox : string;                               (* k8s.init_container.busybox_image *)
  je_detector : string;                              (* config.GetDetectorName *)
  je_token : string -> res (string * Z);             (* utils.GenerateServiceToken *)
  je_volumes : res (gmap string VolumeMountConfig);  (* GetVolumeMountConfigMap *)
  je_clickhouse : DatabaseConfig                     (* NewDatabaseConfig("clickhouse") *)
}.

Section Env.
Context (env : job_env).

(** [t.Unix()] and [t.Add(-d).Unix()] for [d] minutes. *)
Definition unix (t : string) : Z := je_nanos env t / 10 ^ 9.
Definition unix_before (t : string) (minutes : Z) : Z :=
  (je_nanos env t - wrap64 (minutes * (60 * 10 ^ 9))) / 10 ^ 9.

(** The parameters that become variables: not one of the job's own, no template left to
    fill, and a value that is a text. *)
Definition exported (reserved : list string) (item : ParameterItem) : option EnvVar :=
  if bool_decide (p_Key item ∈ reserved) then None
  else if negb (String.eqb (p_Template item) "") then None
  else match p_Value item with VStr valueStr => Some (p_Key item, valueStr) | _ => None end.
Definition add_env_vars (jobEnvVars : list EnvVar) (items : list ParameterItem) : list EnvVar :=
  jobEnvVars ++ omap (exported (map fst jobEnvVars)) items.

(** What both kinds of jobs have. *)
Definition common_env_vars (datapack : InjectionItem) (inputPath outputPath serviceToken : string) : list EnvVar :=
  [("TIMEZONE", if String.eqb (je_timezone env) "" then je_local env else je_timezone env);
   ("TIMESTAMP", je_timestamp env);
   ("NORMAL_START", itoa (unix_before (ii_StartTime datapack) (ii_PreDuration datapack)));
   ("NORMAL_END", itoa (unix (ii_StartTime datapack)));
   ("ABNORMAL_START", itoa (unix (ii_StartTime datapack)));
   ("ABNORMAL_END", itoa (unix (ii_EndTime datapack)));
   ("WORKSPACE", "/app"); ("INPUT_PATH", inputPath); ("OUTPUT_PATH", outputPath);
   ("RCABENCH_BASE_URL", je_internal_url env); ("RCABENCH_TOKEN", serviceToken)].

Definition algo_output_path (datapackPathPrefix expPathPrefix : string) (payload : executionPayload) : string :=
  if String.eqb (cvi_ContainerName (xp_algorithm payload)) (je_detector env)
  then path_join [datapackPathPrefix; ii_Name (xp_datapack payload)]
  else path_join [expPathPrefix; cvi_ContainerName (xp_algorithm payload); cvi_Name (xp_algorithm payload);
                  je_timestamp env].

Definition getAlgoJobEnvVars (taskID : string) (executionID : Z) (datapackPathPrefix expPathPrefix : string)
    (payload : executionPayload) : res (list EnvVar) :=
  let outputPath := algo_output_path datapackPathPrefix expPathPrefix payload in
  let? (serviceToken, _) := res_wrap "failed to generate service token: " (je_token env taskID) in
  let datapack := xp_datapack payload in
  Ok (add_env_vars
        (common_env_vars datapack (path_join [datapackPathPrefix; ii_Name datapack]) outputPath serviceToken
         ++ [("DATAPACK_ID", itoa (ii_ID datapack)); ("EXECUTION_ID", itoa executionID)])
        (cvi_EnvVars (xp_algorithm payload))).

Definition getDatapackJobEnvVars (taskID datapackPathPrefix : string) (payload : datapackPayload)
    (dbConfig : DatabaseConfig) : res (list EnvVar) :=
  let? (serviceToken, _) := res_wrap "failed to generate service token: " (je_token env taskID) in
  let datapack := dpp_datapack payload in
  let path := path_join [datapackPathPrefix; ii_Name datapack] in
  Ok (add_env_vars
        (common_env_vars datapack path path serviceToken
         ++ [("DB_HOST", db_Host dbConfig); ("DB_PORT", itoa (db_Port dbConfig)); ("DB_USER", db_User dbConfig);
             ("DB_PASSWORD", db_Password dbConfig); ("DB_DATABASE", db_Database dbConfig);
             ("DB_TIMEZONE", db_Timezone dbConfig)])
        (cvi_EnvVars (dpp_benchmark payload))).

(** The last value of a name, as a map made of the list has it. *)
Definition env_map (vars : list EnvVar) : gmap string string :=
  fold_left (fun m kv => <[fst kv := snd kv]> m) vars ∅.

Definition nl : string := String "010" "".
Definition in_quotes (s : string) : string := String "034" (s +:+ String "034" "").
(** The arguments of the container that makes the output directory. *)
Definition mkdir_args (outputPath : string) : string :=
  nl +:+ "                        mkdir -p " +:+ in_quotes outputPath +:+ nl
  +:+ "                        chmod 755 " +:+ in_quotes outputPath +:+ nl +:+ "                    ".

(** [createAlgoJob]: the configuration given to the cluster. *)
Definition algo_job (jobName : string) (executionID : Z) (payload : executionPayload)
    (annotations labels : gmap string string) : res JobConfig :=
  let? volumeMountConfigs := res_wrap "failed to get volume mount configurations: "
    (getRequiredVolumeMountConfigs (je_volumes env) ["dataset"; "experiment_storage"]) in
  let mount i := default "" (vm_MountPath <$> volumeMountConfigs !! i) in
  let? jobEnvVars := res_wrap "failed to get job environment variables: "
    (getAlgoJobEnvVars jobName executionID (mount 0%nat) (mount 1%nat) payload) in
  let envVarMap := env_map jobEnvVars in
  let outputPath := default "" (envVarMap !! "OUTPUT_PATH") in
  Ok {| jc_JobName := jobName; jc_Image := cvi_ImageRef (xp_algorithm payload);
        jc_Command := split " " (cvi_Command (xp_algorithm payload)); jc_EnvVars := jobEnvVars;
        jc_Annotations := annotations;
        jc_Labels := <["timestamp" := default "" (envVarMap !! "TIMESTAMP")]> labels;
        jc_InitContainers := [mkInit "create-output-dir" (je_busybox env) ["sh"; "-c"] [mkdir_args outputPath]];
        jc_VolumeMountConfigs := volumeMountConfigs; jc_ServiceAccountName := je_service_account env |}.

Definition datapack_job (jobName : string) (payload : datapackPayload) (annotations labels : gmap string string)
  : res JobConfig :=
  let? volumeMountConfigs := res_wrap "failed to get volume mount configurations: "
    (getRequiredVolumeMountConfigs (je_volumes env) ["dataset"]) in
  let datapackPathPrefix := default "" (vm_MountPath <$> volumeMountConfigs !! 0%nat) in
  let? jobEnvVars := res_wrap "failed to get job environment variables: "
    (getDatapackJobEnvVars jobName datapackPathPrefix payload (je_clickhouse env)) in
  Ok {| jc_JobName := jobName; jc_Image := cvi_ImageRef (dpp_benchmark payload);
        jc_Command := split " " (cvi_Command (dpp_benchmark payload)); jc_EnvVars := jobEnvVars;
        jc_Annotations := annotations; jc_Labels := labels; jc_InitContainers := [];
        jc_VolumeMountConfigs := volumeMountConfigs; jc_ServiceAccountName := je_service_account env |}.

Definition createAlgoJob (CreateJob : JobConfig -> res unit) (jobName : string) (executionID : Z)
    (payload : executionPayload) (annotations labels : gmap string string) : res unit :=
  let? job := algo_job jobName executionID payload annotations labels in CreateJob job.
Definition createDatapackJob (CreateJob : JobConfig -> res unit) (jobName : string) (payload : datapackPayload)
    (annotations labels : gmap string string) : res unit :=
  let? job := datapack_job jobName payload annotations labels in CreateJob job.
End Env.

(** ** The build of a datapack *)

Definition JobLabelDatasetID : string := "dataset_id".
Definition datapack_labels (appID datapack : string) (datasetVersionID : option Z) (t : UnifiedTask)
  : gmap string string :=
  MergeSimpleMaps [GetLabels t;
    {[ K8sLabelAppID := appID; JobLabelDatapack := datapack;
       JobLabelDatasetID := itoa (default 0 datasetVersionID) ]}].

Section Build.
Context {D R S : Type} `{PayloadCodec}.
Context (env : xenv R) (deps : runtime_deps) (jenv : job_env) (CreateJob : JobConfig -> res unit).
#[local] Abbreviation X := (xworld D R S).

Definition executeBuildDatapackWithDeps : B X unit :=
  if negb (d_k8s deps) then execution_error "k8s gateway not initialized" "k8s gateway not initialized"
  else
    let% task := get_task in
    let% payload := b_wrap "failed to parse datapack payload: " (b_lift (parseDatapackPayload (Payload task))) in
    let% annotations := b_wrap "failed to get annotations: " (b_lift (x_annotations env)) in
    let% itemJson := b_wrap "failed to marshal datapack item: "
                       (b_lift (x_datapack_json env (dpp_datapack payload))) in
    b_lift (createDatapackJob jenv CreateJob (TaskID task) payload (<[JobAnnotationDatapack := itemJson]> annotations)
              (datapack_labels (x_app_id env) (ii_Name (dpp_datapack payload)) (dpp_datasetVersionID payload) task)).
End Build.

(** ** Charts *)

Section Install.
(** Helm, the YAML files, and [fmt.Sprintf] with one number. *)
Context (AddRepo : string -> string -> string -> res unit) (UpdateRepo : string -> string -> res unit).
Context (Install : string -> string -> string -> vmap -> res unit).  (* release, chart, version, values *)
Context (LoadYAMLFile : string -> res (option vmap)) (sprintf : string -> Z -> string).

(** The templates are filled with the number of the namespace, in the item itself. *)
Definition fill_template (namespaceIdx : Z) (p : ParameterItem) : ParameterItem :=
  if negb (String.eqb (p_Template p) "")
  then mkParam (p_Key p) (VStr (sprintf (p_Template p) namespaceIdx)) (p_Template p) else p.
Definition filled (namespaceIdx : Z) (item : HelmConfigItem) : HelmConfigItem :=
  mkHelmConfig (hc_Version item) (hc_RepoURL item) (hc_RepoName item) (hc_ChartName item) (hc_LocalPath item)
    (hc_ValueFile item) (map (fill_template namespaceIdx) (hc_DynamicValues item)).

(** The attempt with the repository, when there is one: [None], or its result. *)
Definition install_remote (releaseName : string) (item : HelmConfigItem) (helmValues : vmap) : option (res unit) :=
  if negb (String.eqb (hc_RepoURL item) "") && negb (String.eqb (hc_RepoName item) "") then
    Some (let? _ := AddRepo releaseName (hc_RepoName item) (hc_RepoURL item) in
          let? _ := UpdateRepo releaseName (hc_RepoName item) in
          Install releaseName (hc_RepoName item +:+ "/" +:+ hc_ChartName item) (hc_Version item) helmValues)
  else None.

Definition installPedestal (releaseName : string) (namespaceIdx : Z) (item : option HelmConfigItem) : P unit :=
  match item with
  | None => p_err "missing helm config in container extra info: missing helm config in container extra info"
  | Some item =>
      match GetValuesMap LoadYAMLFile (filled namespaceIdx item) with
      | Panics => Panics
      | Returns helmValues =>
          let remote := install_remote releaseName item helmValues in
          match remote with
          | Some (Ok _) => p_ret tt
          | _ =>
              if negb (String.eqb (hc_LocalPath item) "") then
                p_wrap ("failed to install chart from local path " +:+ hc_LocalPath item +:+ ": ")
                  (p_lift (Install releaseName (hc_LocalPath item) (hc_Version item) helmValues))
              else
                match remote with
                | Some (Err e) => p_err ("failed to install chart: remote installation failed and no local fallback available: " +:+ e)
                | _ => p_err "no chart source configured (neither remote nor local)"
                end
          end
      end
  end.
End Install.

(** ** The environment of a job *)

Definition names (vars : list EnvVar) : list string := map fst vars.

Lemma exported_some reserved item k v :
  exported reserved item = Some (k, v) <->
  p_Key item = k /\ (k ∉ reserved) /\ p_Template item = "" /\ p_Value item = VStr v.
Proof.
  unfold exported. case_bool_decide as Hin; [split; [done|]; intros (<- & ? & _); done|].
  destruct (String.eqb_spec (p_Template item) "") as [->|Ht]; cbn [negb]; [|split; [done|]; by intros (_ & _ & ? & _)].
  destruct (p_Value item) as [| | | |v'| |]; (split; [|intros (<- & _ & _ & E)]); try done.
  - by intros [= <- <-].
  - by injection E as ->.
Qed.

Lemma exported_json reserved item : exported reserved (json_param item) = exported reserved item.
Proof. unfold exported, json_param. cbn. by destruct (p_Value item). Qed.

Definition set_var (m : gmap string string) (kv : EnvVar) : gmap string string := <[fst kv := snd kv]> m.
Lemma set_vars_union b m : fold_left set_var b m = fold_left set_var b ∅ ∪ m.
Proof.
  revert m. induction b as [|[k v] b IH] using rev_ind; intros m; [cbn; by rewrite (left_id_L ∅ (∪))|].
  rewrite !fold_left_app. cbn [fold_left]. unfold set_var at 1 3. by rewrite IH, insert_union_l.
Qed.
Lemma env_map_app a b : env_map (a ++ b) = env_map b ∪ env_map a.
Proof. unfold env_map. rewrite fold_left_app. apply set_vars_union. Qed.

Lemma env_map_none vars k : k ∉ names vars -> env_map vars !! k = None.
Proof.
  unfold env_map, names. induction vars as [|[k' v] vars IH] using rev_ind; [done|].
  rewrite map_app, fold_left_app. cbn [map fold_left fst snd]. rewrite not_elem_of_app. intros [Hk Hk'].
  rewrite lookup_insert_ne; [by apply IH|]. set_solver.
Qed.

Lemma added_names base items k v :
  (k, v) ∈ add_env_vars base items <->
  (k, v) ∈ base \/ exists item, item ∈ items /\ p_Key item = k /\ (k ∉ names base) /\ p_Template item = "" /\ p_Value item = VStr v.
Proof.
  unfold add_env_vars. rewrite elem_of_app, list_elem_of_omap.
  split; (intros [?|(item & Hi & Hx)]; [by left|right; exists item; split; [done|]]); by apply exported_some.
Qed.

(** The job's own variables stay what they are. *)
Lemma own_variables base items k : k ∈ names base -> env_map (add_env_vars base items) !! k = env_map base !! k.
Proof.
  intros Hk. unfold add_env_vars. rewrite env_map_app, lookup_union_r; [done|]. apply env_map_none.
  unfold names. rewrite list_elem_of_In, in_map_iff. intros ([k' v] & E & Hin). cbn in E. subst k'.
  apply list_elem_of_In, list_elem_of_omap in Hin as (item & _ & Hx). by apply exported_some in Hx as (_ & ? & _).
Qed.

Definition own_names : list string :=
  ["TIMEZONE"; "TIMESTAMP"; "NORMAL_START"; "NORMAL_END"; "ABNORMAL_START"; "ABNORMAL_END"; "WORKSPACE";
   "INPUT_PATH"; "OUTPUT_PATH"; "RCABENCH_BASE_URL"; "RCABENCH_TOKEN"].

Lemma own_has env dp a b token rest k :
  k ∈ own_names -> k ∈ names (common_env_vars env dp a b token ++ rest).
Proof. intros Hk. unfold names. rewrite map_app, elem_of_app. by left. Qed.
Lemma token_own : "RCABENCH_TOKEN" ∈ own_names. Proof. apply (bool_decide_unpack (_ ∈ _)). vm_compute. exact I. Qed.

(** The environment of an algorithm's job.  The variables of the platform are set
    once and the configuration of the algorithm cannot change them: the token is the
    one made for the task, the result goes where the datapack is for the detector and
    to a directory of its own for other algorithms.  Every other variable is a
    configured parameter with a text for a value and no template, and all those are
    there. *)
Theorem algorithm_job_env env taskID executionID dp ep payload vars :
  getAlgoJobEnvVars env taskID executionID dp ep payload = Ok vars ->
  exists own token expiry, je_token env taskID = Ok (token, expiry) /\
    names own = own_names ++ ["DATAPACK_ID"; "EXECUTION_ID"] /\ NoDup (names own) /\
    (forall k v, (k, v) ∈ vars <-> (k, v) ∈ own \/
       exists item, item ∈ cvi_EnvVars (xp_algorithm payload) /\ p_Key item = k /\ (k ∉ names own) /\
         p_Template item = "" /\ p_Value item = VStr v) /\
    env_map vars !! "RCABENCH_TOKEN" = Some token /\
    env_map vars !! "OUTPUT_PATH" = Some (algo_output_path env dp ep payload) /\
    env_map vars !! "EXECUTION_ID" = Some (itoa executionID).
Proof.
  unfold getAlgoJobEnvVars. rewrite res_bind_ok. intros ([token expiry] & Ht & [= <-]).
  destruct (je_token env taskID) as [[t e]|] eqn:E; [|done]. injection Ht as -> ->.
  match goal with |- context [add_env_vars ?o _] => set (own := o) end. exists own, token, expiry. split; [done|]. split; [done|].
  assert (Hnd : NoDup (names own)) by (apply (bool_decide_unpack (NoDup _)); vm_compute; exact I).
  split; [done|]. split; [intros k v; apply added_names|].
  rewrite !own_variables by (apply (bool_decide_unpack (_ ∈ _)); vm_compute; exact I). by split_and!.
Qed.

(** The job that builds the datapack of a finished injection, from the task the
    handler submits to the environment of its container: next to the variables of the
    platform it has the namespace of the injection and nothing else, so that the
    variables configured for the benchmark, which the handler overwrites, never reach
    it. *)
Theorem datapack_job_env valid_time to_options henv env ids pa ns bm dp path vars :
  item_exact bm -> datapack_exact valid_time dp ->
  (let? payload := @parseDatapackPayload (json_payloads valid_time to_options)
                     (json_payload (Payload (build_task henv ids pa ns bm dp))) in
   getDatapackJobEnvVars env (ti_taskID ids) path payload (je_clickhouse env)) = Ok vars ->
  exists own, names own = own_names ++ ["DB_HOST"; "DB_PORT"; "DB_USER"; "DB_PASSWORD"; "DB_DATABASE"; "DB_TIMEZONE"] /\
    vars = own ++ [("NAMESPACE", ns)] /\
    env_map vars !! "NAMESPACE" = Some ns /\
    env_map vars !! "INPUT_PATH" = Some (path_join [path; ii_Name dp]).
Proof.
  intros Hbm Hd. rewrite (build_task_parsed valid_time to_options henv ids pa ns bm dp Hbm Hd). cbn [res_bind].
  unfold getDatapackJobEnvVars. rewrite res_bind_ok. intros ([token expiry] & _ & [= <-]).
  match goal with |- context [add_env_vars ?o _] => set (own := o) end.
  match goal with |- context [add_env_vars own ?items] =>
    assert (E : add_env_vars own items = own ++ [("NAMESPACE", ns)]) by (unfold add_env_vars; f_equal)
  end.
  rewrite E. exists own. split; [done|]. split; [done|]. split; [by rewrite env_map_app|].
  by rewrite env_map_app.
Qed.

(** ** From the configuration of a version to the variables *)

Section Configured.
Context `{FloatText}.

(** What becomes of a configured parameter that the request gives no value for, on
    its way through the resolution, the queue and the job: a fixed one is a variable
    only if its default is not read as a boolean or a number; a template is one only
    if it has variables, and then with its rendered text. *)
Theorem configured_env_var c ctx reserved i :
  processParameterConfig c VNil ctx = Returns (Ok (Some i)) ->
  exported reserved (json_param i) =
    if bool_decide (pc_Key c ∈ reserved) then None
    else if pc_Type c =? ParameterType_code ParameterTypeFixed then
      match ConvertStringToSimpleType <$> pc_DefaultValue c with
      | Some (VStr s) => Some (pc_Key c, s)
      | _ => None
      end
    else
      match extractTemplateVars (default "" (pc_TemplateString c)) with
      | [] => None
      | vars => match renderTemplate (default "" (pc_TemplateString c)) vars ctx with
                | Returns (Ok rendered) => Some (pc_Key c, rendered)
                | _ => None
                end
      end.
Proof.
  rewrite exported_json. unfold processParameterConfig. destruct (pc_Type c =? ParameterType_code ParameterTypeFixed).
  - destruct (pc_DefaultValue c) as [d|].
    + intros [= <-]. cbn [fmap option_fmap option_map]. unfold exported. cbn [p_Key p_Value p_Template].
      rewrite String.eqb_refl. cbn [negb]. by destruct (bool_decide _), (ConvertStringToSimpleType d).
    + destruct (p_require _ _) as [[u|?]|]; try done. intros [= <-]. unfold exported. cbn. by destruct (bool_decide _).
  - destruct (_ =? _); [|done]. set (t := default "" (pc_TemplateString c)).
    destruct (String.eqb_spec t "") as [->|Ht]; [done|]. cbn [negb p_require p_bind p_ret].
    destruct (extractTemplateVars t) as [|v vars].
    + intros [= <-]. unfold exported. cbn [p_Key p_Value p_Template].
      rewrite (proj2 (String.eqb_neq t "")) by done. cbn [negb]. by destruct (bool_decide _).
    + destruct (renderTemplate t (v :: vars) ctx) as [[rendered|e]|]; try done. cbn [p_wrap p_bind res_wrap].
      destruct (p_require _ _) as [[u|?]|]; try done. destruct (negb _); [|done]. intros [= <-].
      unfold exported. cbn. by destruct (bool_decide _).
Qed.

End Configured.

(** ** Labels *)

Lemma parse_task_labels t l : identified t -> GetLabels t ⊆ l -> parseTaskIdentifiers "job labels" l = Ok (identifiers t).
Proof. intros Ht Hl. by apply parse_GetLabels. Qed.
Lemma datapack_labels_read appID datapack dsid t :
  identified t -> parseJobLabels (datapack_labels appID datapack dsid t) = Ok (mkJobLabels (identifiers t) None).
Proof.
  intros Ht. unfold parseJobLabels.
  destruct (merge_keeps (GetLabels t) {[ K8sLabelAppID := appID; JobLabelDatapack := datapack;
    JobLabelDatasetID := itoa (default 0 dsid) ]}) as [Hg _]; [unfold GetLabels; solve_map_disjoint|].
  rewrite (parse_task_labels t) by done. reflexivity.
Qed.

(** Labels of jobs survive the cluster: from those of a datapack's job the handlers
    read the task and no execution, from those of an algorithm's job, with the time
    that its creation adds, the task and its execution. *)
Theorem job_labels_read appID datapack dsid executionID t timestamp :
  identified t -> min_int64 <= executionID <= max_int64 ->
  parseJobLabels (datapack_labels appID datapack dsid t) = Ok (mkJobLabels (identifiers t) None) /\
  parseJobLabels (<["timestamp" := timestamp]> (algorithm_labels appID datapack executionID t))
    = Ok (mkJobLabels (identifiers t) (Some executionID)).
Proof.
  intros Ht He.
  split; [by apply datapack_labels_read|].
  destruct (merge_keeps (GetLabels t) {[ K8sLabelAppID := appID; JobLabelDatapack := datapack;
      JobLabelExecutionID := itoa executionID ]}) as [Hg Hx]; [unfold GetLabels; solve_map_disjoint|].
  fold (algorithm_labels appID datapack executionID t) in *. unfold parseJobLabels.
  rewrite (parse_task_labels t); [|done|].
  2:{ etransitivity; [exact Hg|]. apply insert_subseteq. reflexivity. }
  cbn [res_wrap res_bind]. rewrite lookup_insert_ne by done.
  assert (algorithm_labels appID datapack executionID t !! JobLabelExecutionID = Some (itoa executionID)) as ->
    by (eapply lookup_weaken; [|exact Hx]; reflexivity).
  rewrite atoi_itoa by done. reflexivity.
Qed.

(** ** Charts *)

(** A pedestal is installed exactly when one of its sources works: the repository,
    when it is configured, could be added and updated and its chart installed; failing
    that, the local chart.  Both are given the values of the file and of the
    parameters, in which the templates are filled with the number of the namespace. *)
Theorem installPedestal_spec AddRepo UpdateRepo Install LoadYAMLFile sprintf release idx item helmValues :
  GetValuesMap LoadYAMLFile (filled sprintf idx item) = Returns helmValues ->
  installPedestal AddRepo UpdateRepo Install LoadYAMLFile sprintf release idx (Some item) = Returns (Ok tt) <->
  (hc_RepoURL item <> "" /\ hc_RepoName item <> "" /\
   is_ok (AddRepo release (hc_RepoName item) (hc_RepoURL item)) = true /\
   is_ok (UpdateRepo release (hc_RepoName item)) = true /\
   is_ok (Install release (hc_RepoName item +:+ "/" +:+ hc_ChartName item) (hc_Version item) helmValues) = true) \/
  (hc_LocalPath item <> "" /\ is_ok (Install release (hc_LocalPath item) (hc_Version item) helmValues) = true).
Proof.
  intros Hv. unfold installPedestal. rewrite Hv.
  assert (Hr : match install_remote AddRepo UpdateRepo Install release item helmValues with Some (Ok _) => true | _ => false end = true <->
    hc_RepoURL item <> "" /\ hc_RepoName item <> "" /\
    is_ok (AddRepo release (hc_RepoName item) (hc_RepoURL item)) = true /\
    is_ok (UpdateRepo release (hc_RepoName item)) = true /\
    is_ok (Install release (hc_RepoName item +:+ "/" +:+ hc_ChartName item) (hc_Version item) helmValues) = true).
  { unfold install_remote. destruct (String.eqb_spec (hc_RepoURL item) "") as [->|Hu]; cbn [negb andb]; [by split; [|intros (? & _)]|].
    destruct (String.eqb_spec (hc_RepoName item) "") as [E|Hn]; cbn [negb andb]; [by split; [|intros (_ & ? & _)]|].
    destruct (AddRepo _ _ _); cbn [res_bind is_ok]; [|by split; [|intros (_ & _ & ? & _)]].
    destruct (UpdateRepo _ _); cbn [res_bind is_ok]; [|by split; [|intros (_ & _ & _ & ? & _)]].
    destruct (Install _ _ _ _); cbn [is_ok]; [by split|by split; [|intros (_ & _ & _ & _ & ?)]]. }
  rewrite <- Hr. clear Hr.
  assert (Hl : (if negb (String.eqb (hc_LocalPath item) "") then
      p_wrap ("failed to install chart from local path " +:+ hc_LocalPath item +:+ ": ")
        (p_lift (Install release (hc_LocalPath item) (hc_Version item) helmValues))
      else p_err "") = Returns (Ok tt) <->
    hc_LocalPath item <> "" /\ is_ok (Install release (hc_LocalPath item) (hc_Version item) helmValues) = true).
  { destruct (String.eqb_spec (hc_LocalPath item) "") as [E|Hn]; cbn [negb]; [by split; [|intros (? & _)]|].
    destruct (Install _ _ _ _) as [[]|e]; cbn [p_wrap p_lift res_wrap is_ok]; by split; [|intros (_ & ?)]. }
  rewrite <- Hl. clear Hl. destruct (install_remote _ _ _ _ _ _) as [[[]|e]|]; [split; [by left|done]| |];
    destruct (negb _); (split; [intros Hx; right; exact Hx || done|intros [?|?]; done]).
Qed.

(** ** The build of a datapack *)

(** A build that succeeds has changed nothing here: it has given the cluster one job,
    named after the task, with the image of the benchmark, the token made for the task
    in its environment, and labels from which the end of the job is traced back to the
    task. *)
Theorem build_starts_job {D R S : Type} `{PayloadCodec} (env : xenv R) deps jenv CreateJob
    (w w' : xworld D R S) :
  identified (x_task w) ->
  executeBuildDatapackWithDeps env deps jenv CreateJob w = Finished w' (Ok tt) ->
  w' = w /\
  exists payload job token expiry, parseDatapackPayload (Payload (x_task w)) = Ok payload /\
    CreateJob job = Ok tt /\ jc_JobName job = TaskID (x_task w) /\
    jc_Image job = cvi_ImageRef (dpp_benchmark payload) /\
    je_token jenv (TaskID (x_task w)) = Ok (token, expiry) /\
    env_map (jc_EnvVars job) !! "RCABENCH_TOKEN" = Some token /\
    parseJobLabels (jc_Labels job) = Ok (mkJobLabels (identifiers (x_task w)) None).
Proof.
  intros Hid. unfold executeBuildDatapackWithDeps. destruct (negb (d_k8s deps)); [done|].
  unfold b_bind at 1, get_task. unfold b_wrap, b_lift, b_bind.
  destruct (parseDatapackPayload (Payload (x_task w))) as [payload|e] eqn:Ep; cbn [res_wrap]; [|done].
  destruct (x_annotations env) as [annotations|e]; cbn [res_wrap]; [|done].
  destruct (x_datapack_json env (dpp_datapack payload)) as [itemJson|e]; cbn [res_wrap]; [|done].
  intros Hx. injection Hx as <- Hc. split; [done|].
  unfold createDatapackJob in Hc. apply res_bind_ok in Hc as (job & Hj & Hc). unfold datapack_job in Hj.
  apply res_bind_ok in Hj as (volumes & _ & Hj). apply res_bind_ok in Hj as (vars & Hv & Hj). injection Hj as <-.
  unfold getDatapackJobEnvVars in Hv. destruct (je_token jenv (TaskID (x_task w))) as [[token expiry]|e] eqn:Et;
    cbn [res_wrap res_bind] in Hv; [|done]. injection Hv as <-.
  eexists payload, _, token, expiry. split; [done|]. split; [exact Hc|]. cbn [jc_JobName jc_Image jc_EnvVars jc_Labels].
  split; [done|]. split; [done|]. split; [done|].
  rewrite own_variables by apply own_has, token_own. split; [done|]. by apply datapack_labels_read.
Qed.

(** ** Concrete jobs *)

Module JobSample.
#[local] Existing Instance ParameterSample.texts.

Definition jenv0 : job_env := {|
  je_timezone := ""; je_local := "UTC"; je_timestamp := "20250101_000000";
  je_nanos := fun s => if String.eqb s "2025-01-01T00:00:00Z" then 1735689600 * 10 ^ 9 else 1735689900 * 10 ^ 9;
  je_internal_url := "http://api"; je_service_account := "sa"; je_busybox := "busybox"; je_detector := "detector";
  je_token := fun task => Ok ("token-" +:+ task, 0);
  je_volumes := Ok {["dataset" := mkVolume "dataset" "/data"; "experiment_storage" := mkVolume "exp" "/exp"]};
  je_clickhouse := mkDatabase "ch" 9000 "u" "p" "otel" "UTC" |}.
Definition rca : ContainerVersionItem :=
  mkVersionItem 3 "v1" "registry/rca:v1" "python main.py" 4 "rca"
    [mkParam "MODE" (VStr "fast") ""; mkParam "DEPTH" (VInt 3) ""; mkParam "RCABENCH_TOKEN" (VStr "mine") "";
     mkParam "NS" VNil "ts%d"] None.
Definition run_payload : executionPayload := mkExecutionPayload rca PayloadSample.datapack0 None [].

(** The number is left out, and so are the template and the attempt on the token. *)
Example rca_env :
  (fun vars => (env_map vars !! "MODE", env_map vars !! "DEPTH", env_map vars !! "NS", env_map vars !! "RCABENCH_TOKEN",
     env_map vars !! "OUTPUT_PATH", env_map vars !! "NORMAL_START"))
    <$> (match getAlgoJobEnvVars jenv0 "task" 7 "/data" "/exp" run_payload with Ok v => Some v | Err _ => None end)
  = Some (Some "fast", None, None, Some "token-task", Some "/exp/rca/v1/20250101_000000", Some "1735689300").
Proof. vm_compute. reflexivity. Qed.

Lemma algorithm_job_env_witness :
  exists vars, getAlgoJobEnvVars jenv0 "task" 7 "/data" "/exp" run_payload = Ok vars /\
    env_map vars !! "EXECUTION_ID" = Some "7".
Proof.
  eexists. split; [reflexivity|].
  destruct (algorithm_job_env jenv0 "task" 7 "/data" "/exp" run_payload _ eq_refl)
    as (own & token & expiry & _ & _ & _ & _ & _ & _ & He). exact He.
Defined.

Lemma detector_exact : item_exact PayloadSample.detector.
Proof. unfold item_exact, exact_int, max_float_int. simpl. lia. Qed.
Lemma datapack0_exact : datapack_exact (fun _ => true) PayloadSample.datapack0.
Proof. unfold datapack_exact, exact_int, max_float_int. simpl. lia. Qed.

Definition built : res (list EnvVar) :=
  let? payload := @parseDatapackPayload (json_payloads (fun _ => true) (fun _ => Err ""))
                    (json_payload (Payload (build_task HandlerSample.env0 (identifiers HandlerSample.parent)
                       PayloadSample.no_annotations "ts0" PayloadSample.detector PayloadSample.datapack0))) in
  getDatapackJobEnvVars jenv0 (ti_taskID (identifiers HandlerSample.parent)) "/data" payload (je_clickhouse jenv0).
Lemma built_ok : is_ok built = true. Proof. vm_compute. reflexivity. Qed.

Lemma datapack_job_env_witness :
  exists vars own, built = Ok vars /\ vars = own ++ [("NAMESPACE", "ts0")].
Proof.
  pose proof built_ok as Hok. destruct built as [vars|e] eqn:E; [|discriminate Hok].
  destruct (datapack_job_env (fun _ => true) (fun _ => Err "") HandlerSample.env0 jenv0
    (identifiers HandlerSample.parent) PayloadSample.no_annotations "ts0" PayloadSample.detector
    PayloadSample.datapack0 "/data" vars detector_exact datapack0_exact E) as (own & _ & Hv & _).
  exists vars, own. split; [reflexivity|exact Hv].
Defined.

(** The port of a service, by default. *)
Definition port : ParameterConfig :=
  mkParameterConfig 1 "PORT" (ParameterType_code ParameterTypeFixed) 0 (Some "8080") None false true.

Lemma configured_env_var_witness :
  exported own_names (json_param (mkParam "PORT" (VInt 8080) "")) = None.
Proof. exact (configured_env_var port None own_names (mkParam "PORT" (VInt 8080) "") eq_refl). Defined.

Lemma job_labels_read_witness :
  parseJobLabels (datapack_labels "app" "dp" None HandlerSample.parent)
    = Ok (mkJobLabels (identifiers HandlerSample.parent) None).
Proof.
  apply (job_labels_read "app" "dp" None 7 HandlerSample.parent "t" HandlerSample.parent_identified).
  unfold min_int64, max_int64. lia.
Defined.

(** A repository that cannot be reached, and a local chart. *)
Definition two_sources : HelmConfigItem :=
  mkHelmConfig "1.0" "https://charts" "repo" "ts" "/charts/ts" "" [mkParam "ns" VNil "ts%d"].
Definition install0 (release chart version : string) (values : vmap) : res unit := Ok tt.

Lemma installPedestal_spec_witness :
  installPedestal (fun _ _ _ => Err "no route") (fun _ _ => Ok tt) install0 (fun _ => Err "") (fun t n => t +:+ itoa n)
    "ts0" 0 (Some two_sources) = Returns (Ok tt).
Proof.
  apply (installPedestal_spec (fun _ _ _ => Err "no route") (fun _ _ => Ok tt) install0 (fun _ => Err "")
    (fun t n => t +:+ itoa n) "ts0" 0 two_sources [("ns", VStr "ts%d0")]); [reflexivity|].
  right. split; [discriminate|reflexivity].
Defined.

#[local] Instance payloads0 : PayloadCodec := json_payloads (fun _ => true) (fun _ => Err "").
Definition build_world : xworld (task_db * bool) keyspace (list HandlerSample.told) :=
  mkXWorld HandlerSample.world0 (ExecutorSample.task_with TaskTypeBuildDatapack
    (json_payload (Payload (build_task HandlerSample.env0 (identifiers HandlerSample.parent)
       PayloadSample.no_annotations "ts0" PayloadSample.detector PayloadSample.datapack0)))).

Lemma build_identified : identified (x_task build_world).
Proof. unfold identified, min_int64, max_int64. simpl. split_and!; (discriminate || lia). Qed.
Lemma build_ends :
  match executeBuildDatapackWithDeps ExecutorSample.xenv0 ExecutorSample.deps0 jenv0 (fun _ => Ok tt) build_world with
  | Finished _ (Ok _) => true | _ => false end = true.
Proof. vm_compute. reflexivity. Qed.

Lemma build_starts_job_witness :
  exists w', executeBuildDatapackWithDeps ExecutorSample.xenv0 ExecutorSample.deps0 jenv0 (fun _ => Ok tt) build_world
    = Finished w' (Ok tt) /\ w' = build_world.
Proof.
  pose proof build_ends as Hok.
  destruct (executeBuildDatapackWithDeps _ _ _ _ build_world) as [w' [[]|e]|w'] eqn:E; try discriminate Hok.
  exists w'. split; [reflexivity|].
  apply (build_starts_job ExecutorSample.xenv0 ExecutorSample.deps0 jenv0 (fun _ => Ok tt) build_world w'
    build_identified E).
Defined.
End JobSample.
