(* ===== verification/Injections.v ===== *)
(** * The service of injections ([module/injection/service.go], [repository.go],
      [api_types.go])

    The rows of injections and executions with the links of their labels, and the
    operations of the service on them: creation, state and time updates by the runtime,
    labels, clones, ground truths and deletion with what hangs on an injection.  Tasks and
    container versions are rows of other parts: foreign keys into their tables are taken to
    hold, and what is preloaded from them only shows in responses.  The statements of a
    deletion may be refused by the database; those of the other operations fail where the
    tables say so. *)

From Stdlib Require Import QArith.
From S2P Require Import Prelude GoStrings Consts Task Search EventHandler InjectionSpec FaultInjection Tables Labels.
#[local] Open Scope Z_scope.

(** ** Rows *)

Record InjectionRow := mkInjectionRow {
  fi_ID : Z; fi_Name : string; fi_Source : string; fi_FaultType : Z; fi_Category : string;
  fi_Description : string; fi_DisplayConfig : option string; fi_EngineConfig : string;
  fi_Groundtruths : list Groundtruth; fi_GroundtruthSource : string; fi_PreDuration : Z;
  fi_StartTime : option Z; fi_EndTime : option Z; fi_BenchmarkID : option Z; fi_PedestalID : option Z;
  fi_TaskID : option string; fi_State : DatapackState; fi_Status : Z
}.
Record ExecutionRow := mkExecutionRow {
  ex_ID : Z; ex_Duration : Q; ex_TaskID : option string; ex_AlgorithmVersionID : Z; ex_DatapackID : Z;
  ex_DatasetVersionID : option Z; ex_State : ExecutionState; ex_Status : Z
}.
(** The results of an execution, as they are uploaded and stored. *)
Record DetectorResultItem := mkDetectorItem {
  di_SpanName : string; di_Issues : string;
  di_AbnormalAvgDuration : option Q; di_NormalAvgDuration : option Q;
  di_AbnormalSuccRate : option Q; di_NormalSuccRate : option Q;
  di_AbnormalP90 : option Q; di_NormalP90 : option Q; di_AbnormalP95 : option Q; di_NormalP95 : option Q;
  di_AbnormalP99 : option Q; di_NormalP99 : option Q
}.
Record GranularityResultItem := mkGranularityItem { gi_Level : string; gi_Result : string; gi_Rank : Z; gi_Confidence : Q }.
Record DetectorResult := mkDetectorResult { dr_Item : DetectorResultItem; dr_ExecutionID : Z }.
Record GranularityResult := mkGranularityResult { gr_Item : GranularityResultItem; gr_ExecutionID : Z }.

Record idb := mkIdb {
  i_labels : ldb;
  t_injections : list InjectionRow;
  t_executions : list ExecutionRow;
  t_detector : list DetectorResult;
  t_granularity : list GranularityResult;
  i_next_injection : Z;
  i_next_execution : Z
}.
Definition set_i_labels (l : ldb) (d : idb) : idb :=
  mkIdb l (t_injections d) (t_executions d) (t_detector d) (t_granularity d) (i_next_injection d) (i_next_execution d).
Definition set_injections (l : list InjectionRow) (d : idb) : idb :=
  mkIdb (i_labels d) l (t_executions d) (t_detector d) (t_granularity d) (i_next_injection d) (i_next_execution d).
Definition set_executions (l : list ExecutionRow) (d : idb) : idb :=
  mkIdb (i_labels d) (t_injections d) l (t_detector d) (t_granularity d) (i_next_injection d) (i_next_execution d).
Definition set_results (dr : list DetectorResult) (gr : list GranularityResult) (d : idb) : idb :=
  mkIdb (i_labels d) (t_injections d) (t_executions d) dr gr (i_next_injection d) (i_next_execution d).
Definition on_labels {A} (m : Tx ldb A) : Tx idb A := tx_on i_labels set_i_labels m.

(** Rows with other fields. *)
Definition fi_with_id (id : Z) (r : InjectionRow) : InjectionRow :=
  mkInjectionRow id (fi_Name r) (fi_Source r) (fi_FaultType r) (fi_Category r) (fi_Description r) (fi_DisplayConfig r)
    (fi_EngineConfig r) (fi_Groundtruths r) (fi_GroundtruthSource r) (fi_PreDuration r) (fi_StartTime r) (fi_EndTime r)
    (fi_BenchmarkID r) (fi_PedestalID r) (fi_TaskID r) (fi_State r) (fi_Status r).
Definition fi_with_truth (g : list Groundtruth) (source : string) (r : InjectionRow) : InjectionRow :=
  mkInjectionRow (fi_ID r) (fi_Name r) (fi_Source r) (fi_FaultType r) (fi_Category r) (fi_Description r) (fi_DisplayConfig r)
    (fi_EngineConfig r) g source (fi_PreDuration r) (fi_StartTime r) (fi_EndTime r)
    (fi_BenchmarkID r) (fi_PedestalID r) (fi_TaskID r) (fi_State r) (fi_Status r).
Definition fi_with_times (s e : option Z) (r : InjectionRow) : InjectionRow :=
  mkInjectionRow (fi_ID r) (fi_Name r) (fi_Source r) (fi_FaultType r) (fi_Category r) (fi_Description r) (fi_DisplayConfig r)
    (fi_EngineConfig r) (fi_Groundtruths r) (fi_GroundtruthSource r) (fi_PreDuration r) s e
    (fi_BenchmarkID r) (fi_PedestalID r) (fi_TaskID r) (fi_State r) (fi_Status r).
Definition fi_with_state (s : DatapackState) (r : InjectionRow) : InjectionRow :=
  mkInjectionRow (fi_ID r) (fi_Name r) (fi_Source r) (fi_FaultType r) (fi_Category r) (fi_Description r) (fi_DisplayConfig r)
    (fi_EngineConfig r) (fi_Groundtruths r) (fi_GroundtruthSource r) (fi_PreDuration r) (fi_StartTime r) (fi_EndTime r)
    (fi_BenchmarkID r) (fi_PedestalID r) (fi_TaskID r) s (fi_Status r).
Definition fi_with_status (s : Z) (r : InjectionRow) : InjectionRow :=
  mkInjectionRow (fi_ID r) (fi_Name r) (fi_Source r) (fi_FaultType r) (fi_Category r) (fi_Description r) (fi_DisplayConfig r)
    (fi_EngineConfig r) (fi_Groundtruths r) (fi_GroundtruthSource r) (fi_PreDuration r) (fi_StartTime r) (fi_EndTime r)
    (fi_BenchmarkID r) (fi_PedestalID r) (fi_TaskID r) (fi_State r) s.
Definition ex_with (duration : Q) (state : ExecutionState) (status : Z) (x : ExecutionRow) : ExecutionRow :=
  mkExecutionRow (ex_ID x) duration (ex_TaskID x) (ex_AlgorithmVersionID x) (ex_DatapackID x) (ex_DatasetVersionID x)
    state status.

(** The CHECK of the table: a start that is known is before an end that is known. *)
Definition times_ok (r : InjectionRow) : bool :=
  match fi_StartTime r, fi_EndTime r with
  | Some s, Some e => s <? e
  | _, _ => true
  end.
Definition live (r : InjectionRow) : bool := negb (fi_Status r =? deleted).
Definition check_violated : goerr := New "Check constraint 'chk_fault_injections_start_time' is violated.".

(** ** The repository *)

(** Deleted or not. *)
Definition loadInjection (id : Z) : Tx idb InjectionRow :=
  tx_wrap ("failed to find injection with id " +:+ itoa id +:+ ": ")
    (tx_first (fun d => find (fun r => fi_ID r =? id) (t_injections d))).
Definition findInjectionByName (name : string) : Tx idb InjectionRow :=
  tx_wrap ("failed to find injection with name " +:+ name +:+ ": ")
    (tx_first (fun d => find (fun r => String.eqb (fi_Name r) name && live r) (t_injections d))).

(** Columns left empty take the defaults of the table. *)
Definition injection_defaults (r : InjectionRow) : InjectionRow :=
  let r := if String.eqb (fi_GroundtruthSource r) "" then fi_with_truth (fi_Groundtruths r) "auto" r else r in
  mkInjectionRow (fi_ID r) (fi_Name r) (if String.eqb (fi_Source r) "" then "injection" else fi_Source r) (fi_FaultType r)
    (fi_Category r) (fi_Description r) (fi_DisplayConfig r)
    (fi_EngineConfig r) (fi_Groundtruths r) (fi_GroundtruthSource r) (fi_PreDuration r) (fi_StartTime r) (fi_EndTime r)
    (fi_BenchmarkID r) (fi_PedestalID r) (fi_TaskID r) (fi_State r) (if fi_Status r =? 0 then enabled else fi_Status r).
Definition createInjectionRecord (r : InjectionRow) : Tx idb InjectionRow :=
  tx_wrap "failed to create injection: " (fun d =>
    let r := fi_with_id (i_next_injection d) (injection_defaults r) in
    if times_ok r then
      inl (r, mkIdb (i_labels d) (t_injections d ++ [r]) (t_executions d) (t_detector d) (t_granularity d)
                (i_next_injection d + 1) (i_next_execution d))
    else inr check_violated).

(** An UPDATE of the live rows that match: their number; a row that breaks the CHECK
    refuses it. *)
Definition update_injections (p : InjectionRow -> bool) (f : InjectionRow -> InjectionRow) : Tx idb Z := fun d =>
  let hit := fun r => p r && live r in
  let rows := map (fun r => if hit r then f r else r) (t_injections d) in
  if forallb (fun r => negb (hit r) || times_ok (f r)) (t_injections d)
  then inl (Z.of_nat (length (List.filter hit (t_injections d))), set_injections rows d)
  else inr check_violated.
Definition not_found (text : string) : goerr := Wrap "" (Is NotFound) text.
Definition updateGroundtruth (id : Z) (g : list Groundtruth) (source : string) : Tx idb unit :=
  let^ rows := tx_wrap ("failed to update groundtruth for injection " +:+ itoa id +:+ ": ")
                 (update_injections (fun r => fi_ID r =? id) (fi_with_truth g source)) in
  tx_require (negb (rows =? 0)) (Wrap ("injection with id " +:+ itoa id +:+ ": ") (Is NotFound) "").
Definition updateInjectionFields (id : Z) (f : InjectionRow -> InjectionRow) : Tx idb unit :=
  let^ rows := tx_wrap ("failed to update injection " +:+ itoa id +:+ ": ")
                 (update_injections (fun r => fi_ID r =? id) f) in
  tx_require (negb (rows =? 0)) (not_found (": injection " +:+ itoa id +:+ " not found")).

Definition addInjectionLabels (injectionID : Z) (labelIDs : list Z) : Tx idb unit :=
  tx_wrap "failed to add injection labels: " (on_labels (insert_links (links_to Injections_ injectionID labelIDs))).
Definition resolve_names (conditions : list (string * string)) (category : Z) (d : idb) : list Label :=
  List.filter (fun l => not_deleted l && (l_Category l =? category) && existsb (fun c => has_kv c.1 c.2 l) conditions)
    (t_labels (i_labels d)).
(** From the text [key:value] to the identifier. *)
Definition label_map (ls : list Label) : gmap string Z :=
  fold_left (fun m l => <[kv_text (l_Key l) (l_Value l) := l_ID l]> m) ls ∅.
Definition loadInjectionLabelIDsByItems (conditions : list (string * string)) (category : Z) (d : idb) : gmap string Z :=
  match conditions with
  | [] => ∅
  | _ => label_map (resolve_names conditions category d)
  end.

Definition in_ids (ids : list Z) (n : Z) : bool := existsb (Z.eqb n) ids.
Definition listFaultInjectionsByID (ids : list Z) (d : idb) : list InjectionRow :=
  List.filter (fun r => in_ids ids (fi_ID r) && live r) (t_injections d).

(** *** Deletion *)

Definition listExecutionsByDatapackIDs (ids : list Z) (d : idb) : list ExecutionRow :=
  List.filter (fun x => in_ids ids (ex_DatapackID x) && negb (ex_Status x =? deleted)) (t_executions d).
Definition delete_executions (ids : list Z) : Tx idb unit :=
  tx_do (fun d => set_executions
    (map (fun x => if in_ids ids (ex_ID x) && negb (ex_Status x =? deleted)
                   then ex_with (ex_Duration x) (ex_State x) deleted x else x) (t_executions d)) d).
Definition delete_injections (ids : list Z) : Tx idb unit :=
  tx_do (fun d => set_injections
    (map (fun r => if in_ids ids (fi_ID r) && live r then fi_with_status deleted r else r) (t_injections d)) d).

(** What a deletion asks of the database, each of which it may refuse with an error. *)
Inductive deletion_statement :=
| ListInjections | BeginDeletion | ListExecutions | ClearExecutionLabels | DeleteExecutions | ClearInjectionLabels | DeleteInjections
| CommitDeletion.
#[export] Instance deletion_statement_eq_dec : EqDecision deletion_statement.
Proof. solve_decision. Defined.
(** The errors with which the database answers. *)
Abbreviation refusals := (deletion_statement -> option string).
Definition statement {A} (refused : option string) (m : Tx idb A) : Tx idb A :=
  match refused with Some e => tx_err (New e) | None => m end.
Definition go_ids (ids : list Z) : string := "[" +:+ join " " (map itoa ids) +:+ "]".

Section Deletion.
Context (refused : refusals).

Definition repo_listExecutionsByDatapackIDs (ids : list Z) : Tx idb (list ExecutionRow) :=
  match ids with
  | [] => tx_ret []
  | _ => tx_wrap "failed to list executions by datapack IDs: "
           (statement (refused ListExecutions) (tx_get (listExecutionsByDatapackIDs ids)))
  end.
Definition removeLabelsFromExecutions (ids : list Z) : Tx idb unit :=
  match ids with
  | [] => tx_ret tt
  | _ => tx_wrap ("failed to remove all labels from executions " +:+ go_ids ids +:+ ": ")
           (statement (refused ClearExecutionLabels) (on_labels (clear_links Executions_ ids [])))
  end.
Definition batchDeleteExecutions (ids : list Z) : Tx idb unit :=
  match ids with
  | [] => tx_ret tt
  | _ => tx_wrap "failed to batch delete executions: " (statement (refused DeleteExecutions) (delete_executions ids))
  end.
Definition clearInjectionLabels (ids : list Z) : Tx idb unit :=
  match ids with
  | [] => tx_ret tt
  | _ => tx_wrap "failed to clear injection labels: "
           (statement (refused ClearInjectionLabels) (on_labels (clear_links Injections_ ids [])))
  end.
Definition batchDeleteInjections (ids : list Z) : Tx idb unit :=
  match ids with
  | [] => tx_ret tt
  | _ => tx_wrap "failed to batch delete injections: " (statement (refused DeleteInjections) (delete_injections ids))
  end.
Definition deleteInjectionsCascade (ids : list Z) : Tx idb unit :=
  let^ executions := tx_wrap "failed to list executions by datapack ids: " (repo_listExecutionsByDatapackIDs ids) in
  let executionIDs := map ex_ID executions in
  tx_when (negb (length executionIDs =? 0)%nat)
    (tx_wrap "failed to remove execution labels: " (removeLabelsFromExecutions executionIDs) ;;^
     tx_wrap "failed to delete executions: " (batchDeleteExecutions executionIDs)) ;;^
  tx_wrap "failed to clear injection labels: " (clearInjectionLabels ids) ;;^
  tx_wrap "failed to delete injections: " (batchDeleteInjections ids).
End Deletion.

(** The live injections that have one of the labels, any of them without labels. *)
Definition listInjectionIDsByLabels (conditions : list (string * string)) (d : idb) : list Z :=
  map fi_ID (List.filter (fun r => live r &&
    match conditions with
    | [] => negb (length (labels_of Injections_ (fi_ID r) (i_labels d)) =? 0)%nat
    | _ => existsb (fun l => existsb (fun c => has_kv c.1 c.2 l) conditions) (labels_of Injections_ (fi_ID r) (i_labels d))
    end) (t_injections d)).

(** ** The service *)

Definition injection_category : Z := LabelCategory_code InjectionCategory.
(** [errors.Is(err, tag)] turns an error into one of the service, others are wrapped. *)
Definition known_as {S} (tag : goerr -> bool) (known : goerr) (pre : string) {A} (m : Tx S A) : Tx S A :=
  tx_on_err (fun e => if tag e then known else Wrap pre e "") m.
Definition missing_injection (id : Z) : goerr := tagged NotFound ("injection id: " +:+ itoa id).
Definition existing_injection (id : Z) : Tx idb InjectionRow :=
  known_as (errors_Is NotFound) (missing_injection id) "failed to get injection: " (loadInjection id).
Definition either_not_found (e : goerr) : bool := errors_Is NotFound e || errors_Is RecordNotFound e.

(** A row with the labels that are linked to it. *)
Definition labelled : Type := InjectionRow * list Label.
Definition getInjectionWithLabels (id : Z) : Tx idb labelled :=
  let^ injection := loadInjection id in
  tx_get (fun d => (injection, labels_of Injections_ (fi_ID injection) (i_labels d))).
Definition GetInjection (id : Z) : Tx idb labelled :=
  known_as (errors_Is NotFound) (missing_injection id) "failed to get injection: " (getInjectionWithLabels id).

(** What can be downloaded: a datapack that is built, or further. *)
Definition ready (r : InjectionRow) : bool :=
  negb (DatapackState_code (fi_State r) <? DatapackState_code DatapackBuildSuccess).
Definition ready_injection (id : Z) (unready : string) : Tx idb InjectionRow :=
  let^ injection := known_as either_not_found (missing_injection id) "failed to get injection: " (loadInjection id) in
  tx_require (ready injection) (New unready) ;;^
  tx_ret injection.
Definition getReadyDatapack (id : Z) : Tx idb InjectionRow :=
  ready_injection id ("datapack " +:+ itoa id +:+ " is not ready").
Definition GetDatapackFilename (id : Z) : Tx idb string :=
  let^ injection := ready_injection id ("datapack for injection id " +:+ itoa id +:+ " is not ready for download") in
  tx_ret (fi_Name injection).

Definition GroundtruthSourceManual : string := "manual".
Definition UpdateGroundtruth (id : Z) (g : list Groundtruth) : Tx idb unit :=
  loadInjection id ;;^ updateGroundtruth id g GroundtruthSourceManual.

(** *** Updates by the runtime *)

Definition named_injection (name : string) : Tx idb InjectionRow :=
  tx_on_err (fun e => if errors_Is RecordNotFound e then tagged NotFound ("injection " +:+ name +:+ " not found") else e)
    (findInjectionByName name).
Definition name_required : goerr := tagged BadRequest "name is required".
Definition update_state (name : string) (state : DatapackState) : Tx idb unit :=
  tx_require (negb (String.eqb name "")) name_required ;;^
  let^ injection := named_injection name in
  updateInjectionFields (fi_ID injection) (fi_with_state state).
Definition Service_UpdateInjectionState (name : string) (state : DatapackState) (d : idb) : (unit + goerr) * idb :=
  transaction (update_state name state) d.
Definition update_times (name : string) (s e : Z) : Tx idb InjectionRow :=
  tx_require (negb (String.eqb name "")) name_required ;;^
  let^ injection := named_injection name in
  updateInjectionFields (fi_ID injection) (fi_with_times (Some s) (Some e)) ;;^
  loadInjection (fi_ID injection).
Definition Service_UpdateInjectionTimestamps (name : string) (s e : Z) (d : idb) : (InjectionRow + goerr) * idb :=
  transaction (update_times name s e) d.

(** *** Deletion *)

(** A transaction that cannot be opened or committed has changed nothing. *)
Definition deletion_transaction (refused : refusals) (m : Tx idb unit) (d : idb) : (unit + goerr) * idb :=
  transaction (statement (refused BeginDeletion) (tx_ret tt) ;;^ m ;;^ statement (refused CommitDeletion) (tx_ret tt)) d.
Definition batchDeleteByIDs (refused : refusals) (ids : list Z) (d : idb) : (unit + goerr) * idb :=
  match ids with
  | [] => (inl tt, d)
  | _ => deletion_transaction refused (deleteInjectionsCascade refused ids) d
  end.
Definition batchDeleteByLabels (refused : refusals) (items : list LabelItem) (d : idb) : (unit + goerr) * idb :=
  match items with
  | [] => (inl tt, d)
  | _ => match refused ListInjections with
         | Some e => (inr (Wrap "failed to list injection ids by labels: " (New ("failed to list injection IDs by labels: " +:+ e)) ""), d)
         | None => batchDeleteByIDs refused (listInjectionIDsByLabels (ConvertLabelItemsToConditions items) d) d
         end
  end.
Definition Service_BatchDelete_injections (refused : refusals) (ids : list Z) (items : list LabelItem) (d : idb)
    : (unit + goerr) * idb :=
  match ids with
  | [] => batchDeleteByLabels refused items d
  | _ => batchDeleteByIDs refused ids d
  end.

(** *** Labels *)

Record InjectionLabelOperation := mkLabelOperation { lo_ID : Z; lo_Add : list LabelItem; lo_Remove : list LabelItem }.
Record BatchManageInjectionLabelResp := mkBatchResp {
  br_FailedCount : Z; br_FailedItems : list string; br_SuccessCount : Z; br_SuccessItems : list labelled
}.
Definition br_fail (text : string) (r : BatchManageInjectionLabelResp) : BatchManageInjectionLabelResp :=
  mkBatchResp (br_FailedCount r + 1) (br_FailedItems r ++ [text]) (br_SuccessCount r) (br_SuccessItems r).
Definition br_succeed (l : labelled) (r : BatchManageInjectionLabelResp) : BatchManageInjectionLabelResp :=
  mkBatchResp (br_FailedCount r) (br_FailedItems r) (br_SuccessCount r + 1) (br_SuccessItems r ++ [l]).
Definition item_text (i : LabelItem) : string := kv_text (li_Key i) (li_Value i).

(** The labels of an operation that are new to the set of texts. *)
Fixpoint fresh_items (items : list LabelItem) (seen : gset string) (acc : list LabelItem) : gset string * list LabelItem :=
  match items with
  | [] => (seen, acc)
  | i :: rest =>
      if bool_decide (item_text i ∈ seen) then fresh_items rest seen acc
      else fresh_items rest ({[item_text i]} ∪ seen) (acc ++ [i])
  end.
(** The labels to add and to remove, over all operations, with one set of texts. *)
Fixpoint collect_items (ops : list (Z * InjectionLabelOperation)) (seen : gset string) (adds removes : list LabelItem)
  : list LabelItem * list LabelItem :=
  match ops with
  | [] => (adds, removes)
  | (_, op) :: rest =>
      let '(seen, adds) := fresh_items (lo_Add op) seen adds in
      let '(seen, removes) := fresh_items (lo_Remove op) seen removes in
      collect_items rest seen adds removes
  end.
(** The identifiers a map gives to labels, without those it does not have. *)
Definition known_ids (m : gmap string Z) (items : list LabelItem) : list Z := omap (fun i => m !! item_text i) items.

Record batch := mkBatch { b_resp : BatchManageInjectionLabelResp; b_found : list Z; b_db : idb }.
Definition batch_fail (id : Z) (what : string) (e : goerr) (b : batch) : batch :=
  mkBatch (br_fail ("Injection ID " +:+ itoa id +:+ ": failed to " +:+ what +:+ " labels - " +:+ err_text e) (b_resp b))
    (List.filter (fun n => negb (n =? id)) (b_found b)) (b_db b).
(** One injection of the batch: what is added, then what is removed. *)
Definition batch_one (addMap removeMap : gmap string Z) (ops : gmap Z InjectionLabelOperation) (id : Z) (b : batch) : batch :=
  match ops !! id with
  | None => b
  | Some op =>
      let adds := known_ids addMap (lo_Add op) in
      let added := match adds with
                   | [] => inl (tt, b_db b)
                   | _ => addInjectionLabels id adds (b_db b)
                   end in
      match added with
      | inr e => batch_fail id "add" e b
      | inl (_, d) =>
          let removes := known_ids removeMap (lo_Remove op) in
          match (match removes with
                 | [] => inl (tt, d)
                 | _ => on_labels (clear_links Injections_ [id] removes) d
                 end) with
          | inr e => batch_fail id "remove" e (mkBatch (b_resp b) (b_found b) d)
          | inl (_, d) => mkBatch (b_resp b) (b_found b) d
          end
      end
  end.
Definition succeed_all (b : batch) : batch :=
  mkBatch (fold_left (fun r row => br_succeed (row, labels_of Injections_ (fi_ID row) (i_labels (b_db b))) r)
             (listFaultInjectionsByID (b_found b) (b_db b)) (b_resp b)) (b_found b) (b_db b).

Section Orders.
(** The iterations over a map of labels and over the map of operations. *)
Context (order : gmap string LabelItem -> list (string * LabelItem)).
Context (op_order : gmap Z InjectionLabelOperation -> list (Z * InjectionLabelOperation)).

Definition attach_injection_labels (id : Z) (items : list LabelItem) : Tx idb unit :=
  match items with
  | [] => tx_ret tt
  | _ =>
      let^ labels := tx_wrap "failed to create or update labels: "
                       (on_labels (CreateOrUpdateLabelsFromItems order items injection_category)) in
      tx_wrap "failed to add injection labels: " (addInjectionLabels id (map l_ID labels))
  end.

Definition manage_labels (add : list LabelItem) (remove : list string) (id : Z) : Tx idb labelled :=
  let^ injection := existing_injection id in
  attach_injection_labels (fi_ID injection) add ;;^
  tx_when (negb (length remove =? 0)%nat) (on_labels (detach_labels Injections_ id remove)) ;;^
  tx_wrap "failed to reload injection labels: " (getInjectionWithLabels id).
Definition ManageLabels (add : list LabelItem) (remove : list string) (id : Z) (d : idb) : (labelled + goerr) * idb :=
  transaction (manage_labels add remove id) d.

(** The response is filled outside of the transaction: it stays when that fails. *)
Definition BatchManageLabels (items : list InjectionLabelOperation) (d : idb)
  : BatchManageInjectionLabelResp * option goerr * idb :=
  let resp := mkBatchResp 0 [] 0 [] in
  match items with
  | [] => (resp, None, d)
  | _ =>
      let ids := map lo_ID items in
      let ops := fold_left (fun m i => <[lo_ID i := i]> m) items (∅ : gmap Z InjectionLabelOperation) in
      let found := map fi_ID (listFaultInjectionsByID ids d) in
      let lost := List.filter (fun id => negb (in_ids found id)) ids in
      let resp := fold_left (fun r id => br_fail ("Injection ID " +:+ itoa id +:+ " not found") r) lost resp in
      let ops := fold_left (fun m id => delete id m) lost ops in
      let valid := List.filter (in_ids found) ids in
      match valid with
      | [] => (resp, Some (New "no valid injection IDs found"), d)
      | _ =>
          let '(adds, removes) := collect_items (op_order ops) ∅ [] [] in
          let created : (list Label * idb) + goerr :=
            match adds with
            | [] => inl ([], d)
            | _ => tx_wrap "failed to create or update labels: "
                     (on_labels (CreateOrUpdateLabelsFromItems order adds injection_category)) d
            end in
          match created with
          | inr e => (resp, Some e, d)
          | inl (labels, d1) =>
              let removeMap := loadInjectionLabelIDsByItems (ConvertLabelItemsToConditions removes) injection_category d1 in
              let b := fold_left (fun b id => batch_one (label_map labels) removeMap ops id b) valid (mkBatch resp found d1) in
              let b := match b_found b with [] => b | _ => succeed_all b end in
              (b_resp b, None, b_db b)
          end
      end
  end.

(** *** Creation *)

Definition clone_of (name : string) (r : InjectionRow) : InjectionRow :=
  mkInjectionRow 0 name "" (fi_FaultType r) (fi_Category r) (fi_Description r) (fi_DisplayConfig r) (fi_EngineConfig r)
    (fi_Groundtruths r) "" (fi_PreDuration r) (fi_StartTime r) (fi_EndTime r) (fi_BenchmarkID r) (fi_PedestalID r)
    None DatapackInitial enabled.
Definition Clone (id : Z) (name : string) (labels : list LabelItem) (d : idb) : (labelled + goerr) * idb :=
  match existing_injection id d with
  | inr e => (inr e, d)
  | inl (original, _) =>
      let create :=
        let^ cloned := known_as (errors_Is DuplicatedKey) (tagged AlreadyExists ("injection with name " +:+ name +:+ " already exists"))
                         "failed to create injection: " (createInjectionRecord (clone_of name original)) in
        attach_injection_labels (fi_ID cloned) labels ;;^
        tx_ret (fi_ID cloned) in
      match transaction create d with
      | (inr e, d') => (inr e, d')
      | (inl cloned, d') =>
          match tx_wrap "failed to get cloned injection labels: " (getInjectionWithLabels cloned) d' with
          | inr e => (inr e, d')
          | inl (r, _) => (inl r, d')
          end
      end
  end.

Definition runtime_row (req : RuntimeCreateInjectionReq) : InjectionRow :=
  mkInjectionRow 0 (ri_Name req) "injection" (ri_FaultType req) (ri_Category req) (ri_Description req)
    (Some (ri_DisplayConfig req)) (ri_EngineConfig req) (ri_Groundtruths req) (ri_GroundtruthSource req)
    (ri_PreDuration req) None None (ri_BenchmarkID req) (ri_PedestalID req) (Some (ri_TaskID req)) (ri_State req) enabled.
Definition create_injection (req : RuntimeCreateInjectionReq) (labels : list LabelItem) : Tx idb InjectionRow :=
  tx_require (negb (String.eqb (ri_Name req) "" || String.eqb (ri_TaskID req) ""))
    (tagged BadRequest "name and task_id are required") ;;^
  let^ injection := tx_on_err (fun e => if errors_Is DuplicatedKey e
                        then tagged AlreadyExists ("injection " +:+ ri_Name req +:+ " already exists") else e)
                      (createInjectionRecord (runtime_row req)) in
  attach_injection_labels (fi_ID injection) labels ;;^
  tx_ret injection.
Definition CreateInjectionRecord (req : RuntimeCreateInjectionReq) (labels : list LabelItem) (d : idb)
  : (InjectionRow + goerr) * idb := transaction (create_injection req labels) d.
End Orders.

(** *** Requests *)

Definition items_criteria (ids : list Z) (labels : nat) : res unit :=
  require (negb ((length ids =? 0) && (labels =? 0))%nat) "must provide one of: ids, labels, or tags" ;;?
  require (negb (negb (length ids =? 0) && negb (labels =? 0))%nat) "can only specify one deletion criteria (ids, labels, or tags)" ;;?
  for_each (fun i id => require (negb (id <=? 0)) ("invalid id at index " +:+ itoa (Z.of_nat i) +:+ ": " +:+ itoa id)) ids.
Definition validateInjectionLabelItems (items : list LabelItem) : res unit :=
  for_each (fun i l =>
    require (negb (String.eqb (trim_space (li_Key l)) "")) ("empty label key at index " +:+ itoa (Z.of_nat i)) ;;?
    require (negb (String.eqb (trim_space (li_Value l)) "")) ("empty label value at index " +:+ itoa (Z.of_nat i))) items.
Definition BatchDeleteInjectionReq_Validate (ids : list Z) (labels : list LabelItem) : res unit :=
  items_criteria ids (length labels) ;;?
  validateInjectionLabelItems labels.
Definition ManageInjectionLabelReq_Validate (add : list LabelItem) (remove : list string) : res unit :=
  require (negb ((length add =? 0) && (length remove =? 0))%nat) "at least one of add_labels or remove_labels must be provided" ;;?
  validateInjectionLabelItems add ;;?
  for_each (fun i key => require (negb (String.eqb (trim_space key) ""))
    ("empty label key at index " +:+ itoa (Z.of_nat i) +:+ " in remove_labels")) remove.
(** The identifiers seen so far are those of the items before. *)
Definition BatchManageInjectionLabelReq_Validate (items : list InjectionLabelOperation) : res unit :=
  require (negb (length items =? 0)%nat) "items list cannot be empty" ;;?
  for_each (fun i item =>
    let at_ := " for injection_id " +:+ itoa (lo_ID item) +:+ " at index " +:+ itoa (Z.of_nat i) in
    require (negb (in_ids (map lo_ID (take i items)) (lo_ID item)))
      ("duplicate injection_id at index " +:+ itoa (Z.of_nat i) +:+ ": " +:+ itoa (lo_ID item)) ;;?
    require (negb (lo_ID item <=? 0)) ("invalid injection_id at index " +:+ itoa (Z.of_nat i) +:+ ": " +:+ itoa (lo_ID item)) ;;?
    require (negb ((length (lo_Add item) =? 0) && (length (lo_Remove item) =? 0))%nat)
      ("at least one of add_labels or remove_labels must be provided" +:+ at_) ;;?
    res_wrap ("invalid add_labels" +:+ at_ +:+ ": ") (validateInjectionLabelItems (lo_Add item)) ;;?
    res_wrap ("invalid remove_labels" +:+ at_ +:+ ": ") (validateInjectionLabelItems (lo_Remove item))) items.
Definition UpdateGroundtruthReq_Validate (g : list Groundtruth) : res unit :=
  require (negb (length g =? 0)%nat) "at least one ground truth entry is required".

(** ** The invariant *)

(** Owners of a kind exist when they are rows. *)
Definition owned (injections executions : list Z) (k : LabelLink) : Prop :=
  match k_Kind k with
  | Injections_ => k_Owner k ∈ injections
  | Executions_ => k_Owner k ∈ executions
  | _ => True
  end.
Record idb_ok (d : idb) : Prop := {
  inj_labels : labels_ok (i_labels d);
  inj_ids : NoDup (map fi_ID (t_injections d)) /\ Forall (fun i => i < i_next_injection d) (map fi_ID (t_injections d));
  inj_times : Forall (fun r => times_ok r = true) (t_injections d);
  inj_executions : NoDup (map ex_ID (t_executions d)) /\ Forall (fun i => i < i_next_execution d) (map ex_ID (t_executions d));
  inj_owners : Forall (owned (map fi_ID (t_injections d)) (map ex_ID (t_executions d))) (t_links (i_labels d))
}.

(** *** What the parts keep *)

Lemma on_labels_inl {A} (m : Tx ldb A) d a d' :
  on_labels m d = inl (a, d') <-> exists l, m (i_labels d) = inl (a, l) /\ d' = set_i_labels l d.
Proof.
  unfold on_labels, tx_on. destruct (m (i_labels d)) as [[b l]|e]; split; try done.
  - intros [= <- <-]. by exists l.
  - by intros (? & [= <- <-] & ->).
  - by intros (? & ? & _).
Qed.
(** A change of labels whose new links belong to rows. *)
Lemma set_labels_ok l d :
  idb_ok d -> labels_ok l ->
  (forall k, k ∈ t_links l -> k ∈ t_links (i_labels d) \/ owned (map fi_ID (t_injections d)) (map ex_ID (t_executions d)) k) ->
  idb_ok (set_i_labels l d).
Proof.
  intros [H1 H2 H3 H4 H5] Hl Hk. split; try done. cbn [i_labels set_i_labels t_injections t_executions].
  rewrite Forall_forall in H5 |- *. intros k [?|?]%Hk; [by apply H5|done].
Qed.
Lemma on_labels_keeps {A} (m : Tx ldb A) :
  tx_keeps labels_ok m -> (forall l a l', m l = inl (a, l') -> t_links l' ⊆ t_links l) -> tx_keeps idb_ok (on_labels m).
Proof.
  intros Hm Hs d a d' Hd (l & E & ->)%on_labels_inl. apply set_labels_ok; [done|by eapply Hm; [apply Hd|]|].
  intros k Hk. left. by eapply Hs.
Qed.
Lemma filter_subset {A} (p : A -> bool) l : List.filter p l ⊆ l.
Proof. intros x. rewrite !list_elem_of_In. by intros [? _]%filter_In. Qed.
Lemma clear_links_subset kind owners ids l u l' : clear_links kind owners ids l = inl (u, l') -> t_links l' ⊆ t_links l.
Proof. unfold clear_links. destruct owners; [by intros [= _ <-]|]. intros [= _ <-]. apply filter_subset. Qed.
Lemma decrease_links ids n l u l' : BatchDecreaseLabelUsages ids n l = inl (u, l') -> t_links l' = t_links l.
Proof. unfold BatchDecreaseLabelUsages, tx_when. destruct (negb _); by intros [= _ <-]. Qed.
Lemma detach_subset kind owner keys l u l' : detach_labels kind owner keys l = inl (u, l') -> t_links l' ⊆ t_links l.
Proof.
  intros (ids & l1 & [= <- <-] & Hr)%tx_bind_inl. revert Hr. destruct (map l_ID _) as [|i ids]; [by intros [= _ <-]|].
  intros ([] & l2 & Hc & Hd)%tx_bind_inl. apply clear_links_subset in Hc. apply decrease_links in Hd. by rewrite Hd.
Qed.

Lemma load_inl id d r d' : loadInjection id d = inl (r, d') -> d' = d /\ r ∈ t_injections d /\ fi_ID r = id.
Proof.
  intros [E ->]%tx_wrap_inl%tx_first_inl. split; [done|]. apply find_some in E as [Hr E%Z.eqb_eq].
  by rewrite list_elem_of_In.
Qed.
Lemma existing_inl id d r d' : existing_injection id d = inl (r, d') -> d' = d /\ r ∈ t_injections d /\ fi_ID r = id.
Proof. intros E%tx_wrap_inl. by apply load_inl. Qed.
Lemma with_labels_inl id d r d' :
  getInjectionWithLabels id d = inl (r, d') ->
  d' = d /\ r.1 ∈ t_injections d /\ fi_ID r.1 = id /\ r.2 = labels_of Injections_ id (i_labels d).
Proof.
  intros (r0 & d1 & (-> & Hr & <-)%load_inl & [= <- <-])%tx_bind_inl. done.
Qed.

(** An update of rows that keeps identifiers. *)
Lemma update_injections_inl p f d n d' :
  update_injections p f d = inl (n, d') ->
  let hit := fun r => p r && live r in
  n = Z.of_nat (length (List.filter hit (t_injections d))) /\
  (forall r, r ∈ t_injections d -> hit r = true -> times_ok (f r) = true) /\
  d' = set_injections (map (fun r => if hit r then f r else r) (t_injections d)) d.
Proof.
  unfold update_injections. intros E. simpl. revert E. destruct (forallb _ _) eqn:Ef; [|done]. intros [= <- <-].
  split; [done|]. split; [|done]. intros r Hr Hh. rewrite forallb_forall in Ef. apply list_elem_of_In, Ef in Hr. by rewrite Hh in Hr.
Qed.
Lemma map_rows_ok (h : InjectionRow -> InjectionRow) d :
  idb_ok d -> (forall r, fi_ID (h r) = fi_ID r) -> (forall r, r ∈ t_injections d -> times_ok r = true -> times_ok (h r) = true) ->
  idb_ok (set_injections (map h (t_injections d)) d).
Proof.
  intros [H1 H2 H3 H4 H5] Hi Ht. assert (E : map fi_ID (map h (t_injections d)) = map fi_ID (t_injections d)).
  { rewrite map_map. by apply map_ext. }
  split; cbn [i_labels t_injections t_executions set_injections i_next_injection i_next_execution]; rewrite ?E; try done.
  rewrite Forall_forall in H3. apply Forall_forall. intros r (r0 & -> & Hr)%list_elem_of_fmap. by apply Ht, H3.
Qed.
Lemma update_injections_keeps p f : (forall r, fi_ID (f r) = fi_ID r) -> tx_keeps idb_ok (update_injections p f).
Proof.
  intros Hf d n d' Hd (_ & Ht & ->)%update_injections_inl. apply map_rows_ok; [done|..]; intros r.
  - by case_match.
  - intros Hr Hok. case_match eqn:E; [by apply Ht|done].
Qed.
Lemma updateInjectionFields_keeps id f : (forall r, fi_ID (f r) = fi_ID r) -> tx_keeps idb_ok (updateInjectionFields id f).
Proof. intros Hf. apply tx_keeps_bind; [by apply tx_keeps_on_err, update_injections_keeps|]. intros. apply tx_keeps_require. Qed.

(** A new row. *)
Lemma create_inl r d r' d' :
  createInjectionRecord r d = inl (r', d') ->
  r' = fi_with_id (i_next_injection d) (injection_defaults r) /\ times_ok r' = true /\
  d' = mkIdb (i_labels d) (t_injections d ++ [r']) (t_executions d) (t_detector d) (t_granularity d)
         (i_next_injection d + 1) (i_next_execution d).
Proof.
  unfold createInjectionRecord, tx_wrap, tx_on_err. destruct (times_ok _) eqn:E; [|done]. by intros [= <- <-].
Qed.
Lemma fresh_id_nodup l n : NoDup l -> Forall (fun i => i < n) l -> NoDup (l ++ [n]).
Proof.
  intros Hnd Hlt. apply NoDup_app. split; [done|]. split; [|apply NoDup_singleton].
  intros i Hi ->%list_elem_of_singleton. rewrite Forall_forall in Hlt. specialize (Hlt _ Hi). lia.
Qed.
Lemma create_keeps r : tx_keeps idb_ok (createInjectionRecord r).
Proof.
  intros d r' d' [H1 [H2 H2'] H3 H4 H5] (E & Ht & ->)%create_inl. assert (Ei : fi_ID r' = i_next_injection d) by by subst.
  split; cbn [i_labels t_injections t_executions i_next_injection i_next_execution]; rewrite ?map_app; simpl; rewrite ?Ei; try done.
  - split; [by apply fresh_id_nodup|]. apply Forall_app. split; [|repeat constructor; lia].
    eapply Forall_impl; [exact H2'|]. simpl. lia.
  - apply Forall_app. by repeat constructor.
  - eapply Forall_impl; [exact H5|]. intros k. unfold owned. destruct (k_Kind k); try done. intros Hk.
    apply elem_of_app. by left.
Qed.

Section Keeps.
Context (order : gmap string LabelItem -> list (string * LabelItem)) (Horder : forall m, order m ≡ₚ map_to_list m).

(** Attaching is [attach_labels] of the table of labels, with errors of its own. *)
Lemma attach_inl id items d u d' :
  attach_injection_labels order id items d = inl (u, d') <->
  on_labels (attach_labels order true Injections_ id items injection_category) d = inl (u, d').
Proof.
  unfold attach_injection_labels. destruct items as [|i items].
  { assert (Hnil : order ∅ = []) by (apply Permutation_nil; by rewrite Horder, map_to_list_empty). rewrite on_labels_inl.
    split; [intros [= <- <-]|intros (l & [= <- <-] & ->)]; [|by destruct d as [[]]].
    exists (i_labels d). split; [done|]. by destruct d. }
  rewrite on_labels_inl, tx_bind_inl. unfold attach_labels. split.
  - intros (ls & d1 & (l & E & ->)%tx_wrap_inl%on_labels_inl & (l' & E' & ->)%tx_wrap_inl%tx_wrap_inl%on_labels_inl).
    exists l'. split; [|done]. apply tx_bind_inl. exists ls, l. split; [|done]. by apply tx_wrap_inl.
  - intros (l' & (ls & l & E%tx_wrap_inl & E')%tx_bind_inl & ->). exists ls, (set_i_labels l d). split.
    + apply tx_wrap_inl, on_labels_inl. by exists l.
    + apply tx_wrap_inl, tx_wrap_inl, on_labels_inl. by exists l'.
Qed.
Lemma attach_links strict kind owner items category l u l' :
  attach_labels order strict kind owner items category l = inl (u, l') ->
  forall k, k ∈ t_links l' -> k ∈ t_links l \/ (k_Kind k = kind /\ k_Owner k = owner).
Proof.
  intros (ls & l1 & Hc%tx_wrap_inl & Hl)%tx_bind_inl k Hk.
  apply createOrUpdate_shape in Hc as (? & ? & ? & _ & _ & _ & _ & _ & _ & _ & _ & E); [|done].
  assert (El : t_links l1 = t_links l) by by rewrite E. rewrite <- El.
  assert (Hor : k ∈ t_links l1 \/ k ∈ links_to kind owner (map l_ID ls)).
  { destruct strict.
    - apply insert_links_inl in Hl as (-> & _ & _). cbn [t_links set_links] in Hk. by apply elem_of_app in Hk.
    - injection Hl as _ <-. cbn [t_links set_links] in Hk. revert Hk.
      generalize (t_links l1) as base. induction (links_to kind owner (map l_ID ls)) as [|y ys IH]; intros base; simpl; [by left|].
      case_bool_decide as Hy; intros [H|H]%IH; [by left|right; by right| |right; by right].
      apply elem_of_app in H as [H| ->%list_elem_of_singleton]; [by left|right; by left]. }
  destruct Hor as [?|(i & -> & _)%list_elem_of_fmap]; [by left|by right].
Qed.
Lemma attach_keeps id items d u d' :
  idb_ok d -> id ∈ map fi_ID (t_injections d) -> attach_injection_labels order id items d = inl (u, d') -> idb_ok d'.
Proof.
  intros Hd Hid (l & E & ->)%attach_inl%on_labels_inl. apply set_labels_ok; [done|..].
  - eapply attach_labels_keeps; [exact Horder|apply Hd|exact E].
  - intros k Hk. eapply attach_links in E as [?|[Ek Eo]]; [by left| |exact Hk]. right. unfold owned. by rewrite Ek, Eo.
Qed.
Lemma attach_rows id items d u d' :
  attach_injection_labels order id items d = inl (u, d') ->
  t_injections d' = t_injections d /\ t_executions d' = t_executions d.
Proof. by intros (l & _ & ->)%attach_inl%on_labels_inl. Qed.
End Keeps.

Lemma delete_injections_keeps ids : tx_keeps idb_ok (delete_injections ids).
Proof. apply tx_keeps_do. intros d Hd. by apply map_rows_ok; [done|intros r; by case_match..]. Qed.
Lemma delete_executions_keeps ids : tx_keeps idb_ok (delete_executions ids).
Proof.
  apply tx_keeps_do. intros d [H1 H2 H3 H4 H5].
  assert (E : map ex_ID (t_executions (set_executions (map (fun x => if in_ids ids (ex_ID x) && negb (ex_Status x =? deleted)
                   then ex_with (ex_Duration x) (ex_State x) deleted x else x) (t_executions d)) d)) = map ex_ID (t_executions d)).
  { cbn [t_executions set_executions]. rewrite map_map. apply map_ext. intros x. by case_match. }
  split; rewrite ?E; done.
Qed.
Lemma clear_keeps kind owners ids : tx_keeps idb_ok (on_labels (clear_links kind owners ids)).
Proof. apply on_labels_keeps; [apply clear_links_keeps|]. intros l u l'. apply clear_links_subset. Qed.
Lemma statement_keeps {A} I o (m : Tx idb A) : tx_keeps I m -> tx_keeps I (statement o m).
Proof. destruct o; [intros _; apply tx_keeps_err|done]. Qed.
Lemma cascade_keeps refused ids : tx_keeps idb_ok (deleteInjectionsCascade refused ids).
Proof.
  assert (Hif : forall {A} (l : list Z) (m n : Tx idb A), tx_keeps idb_ok m -> tx_keeps idb_ok n ->
            tx_keeps idb_ok (match l with [] => m | _ => n end)) by (by intros A [|? ?]).
  apply tx_keeps_bind; [|intros xs; apply tx_keeps_bind; [apply tx_keeps_when, tx_keeps_bind|intros _; apply tx_keeps_bind]]; try intros _;
    apply tx_keeps_on_err, Hif; try apply tx_keeps_ret; apply tx_keeps_on_err, statement_keeps;
    first [apply tx_keeps_get | apply clear_keeps | apply delete_executions_keeps | apply delete_injections_keeps].
Qed.
Lemma deletion_transaction_keeps (I : idb -> Prop) refused m d : tx_keeps I m -> I d -> I (deletion_transaction refused m d).2.
Proof.
  intros Hm. apply (tx_keeps_transaction I). apply tx_keeps_bind; [apply statement_keeps, tx_keeps_ret|]. intros _.
  apply tx_keeps_bind; [done|]. intros _. apply statement_keeps, tx_keeps_ret.
Qed.

(** *** The services keep it *)

Lemma existing_keeps id : tx_keeps idb_ok (existing_injection id).
Proof. intros d r d' Hd (-> & _)%existing_inl. done. Qed.
Lemma update_state_keeps name st : tx_keeps idb_ok (update_state name st).
Proof.
  apply tx_keeps_bind; [apply tx_keeps_require|]. intros _. apply tx_keeps_bind; [|intros; by apply updateInjectionFields_keeps].
  apply tx_keeps_on_err, tx_keeps_on_err, tx_keeps_first.
Qed.
Lemma load_keeps id : tx_keeps idb_ok (loadInjection id).
Proof. apply tx_keeps_on_err, tx_keeps_first. Qed.
Lemma update_times_keeps name s e : tx_keeps idb_ok (update_times name s e).
Proof.
  apply tx_keeps_bind; [apply tx_keeps_require|]. intros _. apply tx_keeps_bind.
  { apply tx_keeps_on_err, tx_keeps_on_err, tx_keeps_first. }
  intros r. apply tx_keeps_bind; [by apply updateInjectionFields_keeps|]. intros _. apply load_keeps.
Qed.
Lemma groundtruth_keeps id g : tx_keeps idb_ok (UpdateGroundtruth id g).
Proof.
  apply tx_keeps_bind; [apply load_keeps|]. intros _.
  apply tx_keeps_bind; [by apply tx_keeps_on_err, update_injections_keeps|]. intros. apply tx_keeps_require.
Qed.
(** What a deletion keeps, when the cascade does. *)
Lemma deletion_keeps_any (I : idb -> Prop) refused ids items d :
  (forall l, tx_keeps I (deleteInjectionsCascade refused l)) -> I d -> I (Service_BatchDelete_injections refused ids items d).2.
Proof.
  intros Hc Hd. assert (Hids : forall l, I (batchDeleteByIDs refused l d).2).
  { intros [|i l]; [done|]. exact (deletion_transaction_keeps I refused _ d (Hc (i :: l)) Hd). }
  destruct ids; [|apply Hids]. destruct items; [done|]. unfold Service_BatchDelete_injections, batchDeleteByLabels.
  destruct (refused ListInjections); [done|apply Hids].
Qed.
Lemma deletion_keeps refused ids items d : idb_ok d -> idb_ok (Service_BatchDelete_injections refused ids items d).2.
Proof. apply deletion_keeps_any. intros l. apply cascade_keeps. Qed.

Section ServiceKeeps.
Context (order : gmap string LabelItem -> list (string * LabelItem)) (Horder : forall m, order m ≡ₚ map_to_list m).

Lemma manage_keeps add remove id : tx_keeps idb_ok (manage_labels order add remove id).
Proof.
  intros d r d' Hd (inj & d1 & (-> & Hin & Hid)%existing_inl & Hr)%tx_bind_inl.
  apply tx_bind_inl in Hr as (u & d2 & Ha & Hr). assert (Hd2 : idb_ok d2).
  { eapply attach_keeps; [done| |by apply list_elem_of_fmap_2|]; done. }
  revert r d' Hd2 Hr. apply tx_keeps_bind.
  - apply tx_keeps_when, on_labels_keeps; [apply detach_labels_keeps|]. intros l v l'. apply detach_subset.
  - intros _ d3 r d4 Hd3 (-> & _)%tx_wrap_inl%with_labels_inl. done.
Qed.

Lemma create_and_attach r labels (known : goerr -> goerr) {A} (k : InjectionRow -> A) :
  tx_keeps idb_ok (let^ x := tx_on_err known (createInjectionRecord r) in
                   attach_injection_labels order (fi_ID x) labels ;;^ tx_ret (k x)).
Proof.
  intros d a d' Hd (x & d1 & E%tx_wrap_inl & (u & d2 & Ha & [= _ <-])%tx_bind_inl)%tx_bind_inl.
  assert (Hd1 := create_keeps _ _ _ _ Hd E). eapply attach_keeps; [done..| |done].
  apply create_inl in E as (_ & _ & ->). cbn [t_injections]. rewrite map_app. apply elem_of_app. right. by left.
Qed.
Lemma creation_keeps req labels : tx_keeps idb_ok (create_injection order req labels).
Proof.
  apply tx_keeps_bind; [apply tx_keeps_require|]. intros _. apply (create_and_attach _ _ _ (fun x => x)).
Qed.
Lemma clone_keeps id name labels d : idb_ok d -> idb_ok (Clone order id name labels d).2.
Proof.
  intros Hd. unfold Clone. destruct (existing_injection id d) as [[original d0]|e] eqn:E; [|done].
  apply existing_inl in E as (-> & _ & _).
  match goal with |- context [transaction ?m d] => assert (H : idb_ok (transaction m d).2) end.
  { apply tx_keeps_transaction; [apply (create_and_attach _ _ _ fi_ID)|done]. }
  destruct (transaction _ d) as [[cloned|e] d']; [|done]. by destruct (tx_wrap _ _ d') as [[? ?]|?].
Qed.

(** *** A batch *)

(** What the loop over the injections of a batch keeps. *)
Definition batch_ok (labels injections : list Z) (b : batch) : Prop :=
  idb_ok (b_db b) /\ map l_ID (t_labels (i_labels (b_db b))) = labels /\ map fi_ID (t_injections (b_db b)) = injections.

Lemma addInjectionLabels_inl id ids d u d' :
  addInjectionLabels id ids d = inl (u, d') ->
  d' = set_i_labels (set_links (t_links (i_labels d) ++ links_to Injections_ id ids) (i_labels d)) d.
Proof. intros (l & (-> & _ & _)%insert_links_inl & ->)%tx_wrap_inl%on_labels_inl. done. Qed.

Lemma addInjectionLabels_keeps id ids d u d' :
  idb_ok d -> id ∈ map fi_ID (t_injections d) -> (forall i, i ∈ ids -> i ∈ map l_ID (t_labels (i_labels d))) ->
  addInjectionLabels id ids d = inl (u, d') -> idb_ok d'.
Proof.
  intros Hd Hid Hids (l & E & ->)%tx_wrap_inl%on_labels_inl. apply set_labels_ok; [done|..].
  - eapply insert_links_ok; [apply Hd| |exact E]. apply Forall_forall. intros k (i & -> & Hi)%list_elem_of_fmap. by apply Hids.
  - apply insert_links_inl in E as (-> & _ & _). cbn [t_links set_links]. intros k [?|(i & -> & _)%list_elem_of_fmap]%elem_of_app;
      [by left|by right].
Qed.

Lemma known_ids_in (m : gmap string Z) items (P : Z -> Prop) : map_Forall (fun _ i => P i) m -> Forall P (known_ids m items).
Proof.
  intros Hm. apply Forall_forall. intros i (x & _ & Hx)%list_elem_of_omap. by eapply Hm.
Qed.
Lemma label_map_ids ls : map_Forall (fun _ i => i ∈ map l_ID ls) (label_map ls).
Proof.
  unfold label_map. enough (H : forall (m : gmap string Z) acc, map_Forall (fun _ i => i ∈ acc) m ->
    map_Forall (fun _ i => i ∈ acc ++ map l_ID ls) (fold_left (fun m l => <[kv_text (l_Key l) (l_Value l) := l_ID l]> m) ls m)).
  { apply (H ∅ []). apply map_Forall_empty. }
  induction ls as [|l ls IH]; intros m acc Hm; simpl; [by rewrite app_nil_r|].
  rewrite cons_middle, app_assoc. apply IH. apply map_Forall_insert_2.
  - apply elem_of_app. right. by left.
  - intros k i Hi. apply elem_of_app. left. by eapply Hm.
Qed.

Lemma batch_one_keeps addMap removeMap ops labels injections id b :
  map_Forall (fun _ i => i ∈ labels) addMap -> id ∈ injections ->
  batch_ok labels injections b -> batch_ok labels injections (batch_one addMap removeMap ops id b).
Proof.
  intros Hmap Hid (Hd & Hl & Hi). unfold batch_one. destruct (ops !! id) as [op|]; [|done].
  assert (Hadd : Forall (fun i => i ∈ labels) (known_ids addMap (lo_Add op))) by by apply known_ids_in.
  set (adds := known_ids addMap (lo_Add op)) in *.
  destruct (match adds with [] => inl (tt, b_db b) | _ => addInjectionLabels id adds (b_db b) end) as [[u d]|e] eqn:E; [|done].
  assert (Hd1 : idb_ok d /\ map l_ID (t_labels (i_labels d)) = labels /\ map fi_ID (t_injections d) = injections).
  { clearbody adds. destruct adds as [|a adds]; [by injection E as <- <-|]. split; [|by apply addInjectionLabels_inl in E as ->].
    eapply addInjectionLabels_keeps; [exact Hd|by rewrite Hi| |exact E]. rewrite Hl. by apply Forall_forall. }
  clear E. destruct Hd1 as (Hd1 & Hl1 & Hi1).
  destruct (known_ids removeMap (lo_Remove op)) as [|x xs]; [done|].
  destruct (on_labels (clear_links Injections_ [id] (x :: xs)) d) as [[v d2]|e] eqn:E; [|done].
  assert (Hd2 := clear_keeps _ _ _ _ _ _ Hd1 E). apply on_labels_inl in E as (l & [= _ <-] & ->). done.
Qed.
Lemma batch_all_keeps addMap removeMap ops labels injections ids b :
  map_Forall (fun _ i => i ∈ labels) addMap -> (forall id, id ∈ ids -> id ∈ injections) ->
  batch_ok labels injections b -> batch_ok labels injections (fold_left (fun b id => batch_one addMap removeMap ops id b) ids b).
Proof.
  intros Hmap. revert b. induction ids as [|id ids IH]; intros b Hids Hb; [done|]. simpl. apply IH.
  - intros x Hx. apply Hids. by right.
  - apply batch_one_keeps; [done| |done]. apply Hids. by left.
Qed.

Lemma listed_by_id ids d r : r ∈ listFaultInjectionsByID ids d <-> r ∈ t_injections d /\ fi_ID r ∈ ids /\ live r = true.
Proof.
  unfold listFaultInjectionsByID. rewrite list_elem_of_In, filter_In, <- list_elem_of_In, andb_true_iff.
  unfold in_ids. rewrite existsb_elem. split; [intros (? & (x & ? & ->%Z.eqb_eq) & ?); done|].
  intros (? & ? & ?). split; [done|]. split; [|done]. exists (fi_ID r). split; [done|by apply Z.eqb_eq].
Qed.
Lemma in_ids_spec ids n : in_ids ids n = true <-> n ∈ ids.
Proof. unfold in_ids. rewrite existsb_elem. split; [by intros (x & ? & ->%Z.eqb_eq)|]. intros ?. exists n. by rewrite Z.eqb_refl. Qed.

Lemma BatchManageLabels_keeps op_order items d : idb_ok d -> idb_ok (BatchManageLabels order op_order items d).2.
Proof.
  intros Hd. unfold BatchManageLabels. destruct items as [|i items]; [done|]. cbv beta iota zeta.
  set (ids := map lo_ID (i :: items)). destruct (List.filter _ ids) as [|v valid] eqn:Ev; [done|].
  destruct (collect_items _ _ _ _) as [adds removes].
  match goal with |- context [match ?x with inl _ => _ | inr _ => _ end] => destruct x as [[ls d1]|e] eqn:E end; [|done].
  assert (Hd1 : idb_ok d1 /\ (forall n, n ∈ map l_ID ls -> n ∈ map l_ID (t_labels (i_labels d1))) /\ t_injections d1 = t_injections d).
  { destruct adds as [|a adds]; [injection E as <- <-; split; [done|]; split; [by intros n ?%not_elem_of_nil|done]|].
    apply tx_wrap_inl, on_labels_inl in E as (l & E & ->). split; [|split; [|done]].
    - apply set_labels_ok; [done|by eapply request_labels_keeps; [apply Hd|exact E]|].
      apply createOrUpdate_shape in E as (? & ? & ? & _ & _ & _ & _ & _ & _ & _ & _ & ->); [|done]. by left.
    - intros n Hn. apply (request_labels_ids order Horder _ _ _ _ _ Injections_ 0) in E. rewrite Forall_forall in E.
      apply (E (mkLabelLink Injections_ 0 n)). apply list_elem_of_fmap. by exists n. }
  destruct Hd1 as (Hd1 & Hls & Hrows). cbn [snd].
  match goal with |- context [fold_left ?f (v :: valid) ?b0] => set (b := fold_left f (v :: valid) b0) end.
  assert (Hb : batch_ok (map l_ID (t_labels (i_labels d1))) (map fi_ID (t_injections d1)) b).
  { apply batch_all_keeps; [|rewrite <- Ev|done].
    - eapply map_Forall_impl; [apply label_map_ids|]. intros k n Hn. by apply Hls.
    - intros n Hn%list_elem_of_In%filter_In. destruct Hn as [_ (r & -> & (Hr & _)%listed_by_id)%in_ids_spec%list_elem_of_fmap].
      rewrite Hrows. by apply list_elem_of_fmap_2. }
  destruct Hb as (Hb & _ & _). by destruct (b_found b).
Qed.
End ServiceKeeps.

(** One operation of the backend on injections. *)
Inductive injection_step : idb -> idb -> Prop :=
| inj_create order req labels d (Horder : forall m, order m ≡ₚ map_to_list m) :
    injection_step d (CreateInjectionRecord order req labels d).2
| inj_clone order id name labels d (Horder : forall m, order m ≡ₚ map_to_list m) : injection_step d (Clone order id name labels d).2
| inj_labels_of order add remove id d (Horder : forall m, order m ≡ₚ map_to_list m) :
    injection_step d (ManageLabels order add remove id d).2
| inj_batch order op_order items d (Horder : forall m, order m ≡ₚ map_to_list m) :
    injection_step d (BatchManageLabels order op_order items d).2
| inj_truth id g d : injection_step d (transaction (UpdateGroundtruth id g) d).2
| inj_state name st d : injection_step d (Service_UpdateInjectionState name st d).2
| inj_timestamps name s e d : injection_step d (Service_UpdateInjectionTimestamps name s e d).2
| inj_delete refused ids items d : injection_step d (Service_BatchDelete_injections refused ids items d).2.

Lemma injection_step_keeps d d' : idb_ok d -> injection_step d d' -> idb_ok d'.
Proof.
  intros Hd Hs. revert Hd. destruct Hs; intros Hd.
  - refine (tx_keeps_transaction idb_ok _ _ _ _); [by apply creation_keeps|done].
  - by apply clone_keeps.
  - refine (tx_keeps_transaction idb_ok _ _ _ _); [by apply manage_keeps|done].
  - by apply BatchManageLabels_keeps.
  - refine (tx_keeps_transaction idb_ok _ _ _ _); [apply groundtruth_keeps|done].
  - refine (tx_keeps_transaction idb_ok _ _ _ _); [apply update_state_keeps|done].
  - refine (tx_keeps_transaction idb_ok _ _ _ _); [apply update_times_keeps|done].
  - by apply deletion_keeps.
Qed.

(** ** What the services do *)

Definition injection_has (id : Z) (k v : string) (d : idb) : Prop := has_label Injections_ id k v (i_labels d).

(** The rows a state of the tables has, apart from labels. *)
Definition same_rows (d d' : idb) : Prop :=
  t_injections d' = t_injections d /\ t_executions d' = t_executions d /\ t_detector d' = t_detector d /\
  t_granularity d' = t_granularity d.

(** *** Labels *)

Section LabelSpecs.
Context (order : gmap string LabelItem -> list (string * LabelItem)) (Horder : forall m, order m ≡ₚ map_to_list m).

Lemma attach_injection_spec id items d u d' :
  idb_ok d -> attach_injection_labels order id items d = inl (u, d') ->
  same_rows d d' /\ labels_ok (i_labels d') /\
  (forall k v, injection_has id k v d' <-> injection_has id k v d \/ wanted items k v) /\
  (forall kind owner k v, (kind, owner) <> (Injections_, id) ->
     has_label kind owner k v (i_labels d') <-> has_label kind owner k v (i_labels d)).
Proof.
  intros Hd (l & E & ->)%(attach_inl order Horder)%on_labels_inl. split; [done|].
  split; [exact (attach_labels_keeps order Horder _ _ _ _ _ _ _ _ (inj_labels _ Hd) E)|].
  apply (attach_labels_spec order Horder) in E as [? ?]; [done|apply Hd].
Qed.

(** Managing the labels of an injection: when it succeeds, the injection exists and has
    the labels it had and those to add, except the ones whose key is to be removed - an
    added label too; the response lists them; other owners, the injections and the
    executions are as before.  When it fails nothing is changed. *)
Theorem ManageLabels_spec add remove id d r d' :
  idb_ok d -> ManageLabels order add remove id d = (r, d') ->
  match r with
  | inl (row, labels) =>
      row ∈ t_injections d /\ fi_ID row = id /\ labels = labels_of Injections_ id (i_labels d') /\ same_rows d d' /\
      (forall k v, (exists l, l ∈ labels /\ l_Key l = k /\ l_Value l = v) <->
                   (injection_has id k v d \/ wanted add k v) /\ k ∉ remove) /\
      (forall kind owner k v, (kind, owner) <> (Injections_, id) ->
         has_label kind owner k v (i_labels d') <-> has_label kind owner k v (i_labels d))
  | inr _ => d' = d
  end.
Proof.
  intros Hd. unfold ManageLabels. destruct r as [[row labels]|e]; [|by intros [_ ?]%transaction_inr].
  intros (inj & d1 & (-> & Hin & Hid)%existing_inl & (u & d2 & Ha & (v & d3 & Hr & Hg)%tx_bind_inl)%tx_bind_inl)%transaction_inl%tx_bind_inl.
  apply tx_wrap_inl, with_labels_inl in Hg as (-> & Hrow & Hrid & Hl). cbn [fst snd] in *. subst labels.
  rewrite Hid in Ha. apply attach_injection_spec in Ha as (Hsame & Hok & Hthis & Hother); [|done].
  assert (Hdet : same_rows d2 d3 /\ (forall k v, injection_has id k v d3 <-> injection_has id k v d2 /\ k ∉ remove) /\
     (forall kind owner k v, (kind, owner) <> (Injections_, id) ->
         has_label kind owner k v (i_labels d3) <-> has_label kind owner k v (i_labels d2))).
  { destruct remove as [|k0 ks]; [injection Hr as _ <-; split; [done|]; split; [|done]; intros k x; split; [|by intros [? _]];
      intros ?; split; [done|apply not_elem_of_nil]|].
    apply on_labels_inl in Hr as (l & E & ->). split; [done|]. exact (detach_labels_spec _ _ _ _ _ _ Hok E). }
  destruct Hdet as ((E1 & E2 & E3 & E4) & Hthis' & Hother'). destruct Hsame as (F1 & F2 & F3 & F4).
  split; [by rewrite <- F1, <- E1|]. split; [done|]. split; [done|]. split; [split_and!; congruence|]. split.
  - intros k x. rewrite <- Hthis. apply Hthis'.
  - intros kind owner k x Hne. by rewrite Hother', Hother.
Qed.

(** *** Creation *)

Lemma insert_links_total ls l : NoDup ls -> (forall k, k ∈ ls -> k ∉ t_links l) -> exists l', insert_links ls l = inl (tt, l').
Proof.
  intros Hnd. revert l. induction Hnd as [|k ls Hk _ IH]; intros l Hl; [by eexists|]. cbn [insert_links].
  rewrite bool_decide_eq_false_2 by (apply Hl; by left). apply IH. intros x Hx. cbn [t_links set_links].
  rewrite elem_of_app, list_elem_of_singleton. intros [?| ->]; [|done]. eapply Hl; [by right|done].
Qed.

(** The record of a new injection: under a name and a task, and when no label key has a
    colon, the runtime's request is stored as one new row with a fresh identifier, in the
    state and with the data that were asked for, and its labels are those of the request;
    every other row, and the labels of every other owner, are as before. *)
Theorem CreateInjectionRecord_spec req labels d :
  idb_ok d -> ri_Name req <> "" -> ri_TaskID req <> "" ->
  Forall (fun i => free_of ":" (li_Key i)) labels -> Forall (fun l => free_of ":" (l_Key l)) (t_labels (i_labels d)) ->
  exists r d', CreateInjectionRecord order req labels d = (inl r, d') /\
    t_injections d' = t_injections d ++ [r] /\ t_executions d' = t_executions d /\
    fi_ID r = i_next_injection d /\ (fi_ID r ∉ map fi_ID (t_injections d)) /\
    fi_Name r = ri_Name req /\ fi_TaskID r = Some (ri_TaskID req) /\ fi_State r = ri_State req /\ live r = true /\
    fi_EngineConfig r = ri_EngineConfig req /\ fi_Groundtruths r = ri_Groundtruths req /\
    (forall k v, injection_has (fi_ID r) k v d' <-> wanted labels k v) /\
    (forall kind owner k v, (kind, owner) <> (Injections_, fi_ID r) ->
       has_label kind owner k v (i_labels d') <-> has_label kind owner k v (i_labels d)).
Proof.
  intros Hd Hname Htask Hfree Hfree'. set (r := fi_with_id (i_next_injection d) (injection_defaults (runtime_row req))).
  set (d1 := mkIdb (i_labels d) (t_injections d ++ [r]) (t_executions d) (t_detector d) (t_granularity d)
                (i_next_injection d + 1) (i_next_execution d)).
  assert (Hfresh : i_next_injection d ∉ map fi_ID (t_injections d)).
  { destruct Hd as [_ [_ Hlt] _ _ _]. rewrite Forall_forall in Hlt. intros Hin. specialize (Hlt _ Hin). lia. }
  assert (Ei : fi_ID r = i_next_injection d) by done.
  assert (Hfields : fi_Name r = ri_Name req /\ fi_TaskID r = Some (ri_TaskID req) /\ fi_State r = ri_State req /\ live r = true /\
      fi_EngineConfig r = ri_EngineConfig req /\ fi_Groundtruths r = ri_Groundtruths req /\ times_ok r = true).
  { subst r. unfold injection_defaults. cbn. by destruct (String.eqb (ri_GroundtruthSource req) ""). }
  assert (Hc : createInjectionRecord (runtime_row req) d = inl (r, d1)).
  { unfold createInjectionRecord, tx_wrap, tx_on_err. fold r. by destruct Hfields as (_ & _ & _ & _ & _ & _ & ->). }
  clearbody r. destruct Hfields as (N1 & N2 & N3 & N4 & N5 & N6 & Ht).
  assert (Hd1 : idb_ok d1) by by eapply create_keeps.
  assert (Hnone : forall k v, ~ injection_has (fi_ID r) k v d1).
  { intros k v (l & [_ Hk]%elem_labels_of & _). destruct Hd as [_ _ _ _ Ho]. rewrite Forall_forall in Ho.
    apply Ho in Hk. unfold owned in Hk. cbn in Hk. by rewrite Ei in Hk. }
  assert (Ha : exists d', attach_injection_labels order (fi_ID r) labels d1 = inl (tt, d')).
  { unfold attach_injection_labels. destruct labels as [|i items]; [by eexists|].
    destruct (request_labels_total order Horder (i :: items) injection_category (i_labels d1)) as (ls & l1 & E); [done..|].
    assert (Hcreate : tx_wrap "failed to create or update labels: "
              (on_labels (CreateOrUpdateLabelsFromItems order (i :: items) injection_category)) d1 = inl (ls, set_i_labels l1 d1)).
    { apply tx_wrap_inl, on_labels_inl. by exists l1. }
    unfold tx_bind at 1. rewrite Hcreate. apply (request_labels order Horder) in E as (_ & Hnd & _ & _ & _ & _ & Hlk); [|apply Hd1].
    destruct (insert_links_total (links_to Injections_ (fi_ID r) (map l_ID ls)) l1) as [l2 E2].
    - unfold links_to. apply NoDup_fmap_2; [|done]. by intros ? ? [= ->].
    - intros k (n & -> & _)%list_elem_of_fmap Hk. rewrite Hlk in Hk. destruct Hd as [_ _ _ _ Ho]. rewrite Forall_forall in Ho.
      apply Ho in Hk. unfold owned in Hk. cbn in Hk. by rewrite Ei in Hk.
    - exists (set_i_labels l2 (set_i_labels l1 d1)). apply tx_wrap_inl, tx_wrap_inl, on_labels_inl. by exists l2. }
  destruct Ha as (d' & Ha). exists r, d'. split.
  - unfold CreateInjectionRecord, transaction, create_injection. unfold tx_bind at 1.
    rewrite (proj2 (String.eqb_neq _ _) Hname), (proj2 (String.eqb_neq _ _) Htask). cbn [orb negb tx_require].
    unfold tx_ret at 1, tx_bind at 1, tx_on_err. rewrite Hc. unfold tx_bind. by rewrite Ha.
  - apply attach_injection_spec in Ha as ((E1 & E2 & _) & _ & Hthis & Hother); [|done]. rewrite E1, E2.
    split; [done|]. split; [done|]. split; [done|]. split; [by rewrite Ei|]. do 6 (split; [done|]). split; [|done].
    intros k v. rewrite Hthis. split; [by intros [?%Hnone|?]|by right].
Qed.
End LabelSpecs.

(** *** Updates by the runtime *)

Definition named (name : string) (r : InjectionRow) : bool := String.eqb (fi_Name r) name && live r.
Definition status_is (status : Z) (e : goerr) : Prop := option_map fst (HandleServiceError (Some e)) = Some status.

Lemma tagged_status s text status : status_of (Is s) = status -> status_is status (tagged s text).
Proof. intros <-. unfold status_is, tagged. rewrite status_wrap. done. Qed.

Lemma named_inl name d r d' : named_injection name d = inl (r, d') <-> find (named name) (t_injections d) = Some r /\ d' = d.
Proof. unfold named_injection, findInjectionByName, tx_wrap. by rewrite !tx_wrap_inl, tx_first_inl. Qed.
Lemma named_inr name d : find (named name) (t_injections d) = None ->
  named_injection name d = inr (tagged NotFound ("injection " +:+ name +:+ " not found")).
Proof.
  intros H. unfold named_injection, findInjectionByName, tx_wrap, tx_on_err, tx_first. fold (named name). by rewrite H.
Qed.
Lemma find_named name (l : list InjectionRow) r : find (named name) l = Some r -> r ∈ l /\ fi_Name r = name /\ live r = true.
Proof.
  intros [Hr [E%String.eqb_eq Hl]%andb_true_iff]%find_some. by rewrite list_elem_of_In.
Qed.

(** The live row of an identifier, and only it, is changed. *)
Lemma updateInjectionFields_spec (r : InjectionRow) f d :
  idb_ok d -> r ∈ t_injections d -> live r = true ->
  updateInjectionFields (fi_ID r) f d =
  if times_ok (f r) then inl (tt, set_injections (map (fun x => if fi_ID x =? fi_ID r then f x else x) (t_injections d)) d)
  else inr (Wrap ("failed to update injection " +:+ itoa (fi_ID r) +:+ ": ") check_violated "").
Proof.
  intros Hd Hr Hl.
  assert (Hone : forall x, x ∈ t_injections d -> (fi_ID x =? fi_ID r) = true -> x = r).
  { intros x Hx E%Z.eqb_eq. exact (nodup_map_inj fi_ID _ x r (proj1 (inj_ids _ Hd)) Hx Hr E). }
  unfold updateInjectionFields, update_injections, tx_bind, tx_wrap, tx_on_err.
  assert (Eh : forallb (fun x => negb ((fi_ID x =? fi_ID r) && live x) || times_ok (f x)) (t_injections d) = times_ok (f r)).
  { apply eq_true_iff_eq. rewrite forallb_forall. split.
    - intros H. specialize (H r). rewrite <- list_elem_of_In in H. specialize (H Hr). by rewrite Z.eqb_refl, Hl in H.
    - intros H x Hx%list_elem_of_In. destruct (fi_ID x =? fi_ID r) eqn:E; [|done]. apply Hone in E; [|done]. subst x. by rewrite H, orb_true_r. }
  rewrite Eh. destruct (times_ok (f r)); [|done].
  assert (Hm : map (fun x => if (fi_ID x =? fi_ID r) && live x then f x else x) (t_injections d)
             = map (fun x => if fi_ID x =? fi_ID r then f x else x) (t_injections d)).
  { apply map_ext_in. intros x Hx%list_elem_of_In. destruct (fi_ID x =? fi_ID r) eqn:E; [|done]. apply Hone in E; [|done]. subst x. by rewrite Hl. }
  rewrite Hm. assert (Hlen : (Z.of_nat (length (List.filter (fun x => (fi_ID x =? fi_ID r) && live x) (t_injections d))) =? 0) = false).
  { apply Z.eqb_neq. assert (Hin : r ∈ List.filter (fun x => (fi_ID x =? fi_ID r) && live x) (t_injections d)).
    { apply list_elem_of_In, filter_In. rewrite <- list_elem_of_In, Z.eqb_refl. done. }
    destruct (List.filter _ _); [by apply not_elem_of_nil in Hin|]. simpl. lia. }
  by rewrite Hlen.
Qed.

Lemma state_stored name st r d :
  idb_ok d -> name <> "" -> find (named name) (t_injections d) = Some r ->
  Service_UpdateInjectionState name st d =
  (inl tt, set_injections (map (fun x => if fi_ID x =? fi_ID r then fi_with_state st x else x) (t_injections d)) d).
Proof.
  intros Hd Hn E. unfold Service_UpdateInjectionState, transaction, update_state. unfold tx_bind at 1.
  rewrite (proj2 (String.eqb_neq _ _) Hn). cbn [negb tx_require tx_ret]. unfold tx_ret, tx_bind.
  rewrite (proj2 (named_inl name d r d)) by done. apply find_named in E as (Hr & _ & Hl).
  assert (Ht : times_ok (fi_with_state st r) = true).
  { destruct Hd as [_ _ Ht _ _]. rewrite Forall_forall in Ht. exact (Ht r Hr). }
  by rewrite (updateInjectionFields_spec r _ d Hd Hr Hl), Ht.
Qed.

(** A state the runtime reports: it is stored in the first row of that name that is not
    deleted, whose other columns and whose fellow rows stay as they are; without a name it
    is a bad request and without such a row not found, and nothing is stored. *)
Theorem UpdateInjectionState_spec name st d :
  idb_ok d ->
  match find (named name) (t_injections d) with
  | Some r =>
      name <> "" -> exists d', Service_UpdateInjectionState name st d = (inl tt, d') /\
        t_injections d' = map (fun x => if fi_ID x =? fi_ID r then fi_with_state st x else x) (t_injections d) /\
        t_executions d' = t_executions d /\ i_labels d' = i_labels d
  | None => name <> "" -> exists e, Service_UpdateInjectionState name st d = (inr e, d) /\ status_is 404 e
  end /\
  (name = "" -> exists e, Service_UpdateInjectionState name st d = (inr e, d) /\ status_is 400 e).
Proof.
  intros Hd. split.
  - destruct (find (named name) (t_injections d)) as [r|] eqn:E; intros Hn.
    + rewrite (state_stored name st r d Hd Hn E). by eexists.
    + unfold Service_UpdateInjectionState, transaction, update_state. unfold tx_bind at 1.
      rewrite (proj2 (String.eqb_neq _ _) Hn). cbn [negb tx_require tx_ret]. unfold tx_ret, tx_bind.
      rewrite (named_inr _ _ E). eexists. split; [done|]. by apply tagged_status.
  - intros ->. cbn. eexists. split; [done|]. by apply tagged_status.
Qed.

(** The times of a row are stored together when the start is before the end; when it is not
    the statement is refused, a 500, and the row keeps the times it had. *)
Theorem UpdateInjectionTimestamps_spec name s e r d :
  idb_ok d -> name <> "" -> find (named name) (t_injections d) = Some r ->
  if s <? e then
    exists d', Service_UpdateInjectionTimestamps name s e d = (inl (fi_with_times (Some s) (Some e) r), d') /\
      t_injections d' = map (fun x => if fi_ID x =? fi_ID r then fi_with_times (Some s) (Some e) x else x) (t_injections d)
  else exists err, Service_UpdateInjectionTimestamps name s e d = (inr err, d) /\ status_is 500 err.
Proof.
  intros Hd Hn E. assert (Hf := E). apply find_named in Hf as (Hr & _ & Hl).
  assert (E0 : update_times name s e d =
            (updateInjectionFields (fi_ID r) (fi_with_times (Some s) (Some e)) ;;^ loadInjection (fi_ID r)) d).
  { unfold update_times. unfold tx_bind at 1. rewrite (proj2 (String.eqb_neq _ _) Hn). cbn [negb tx_require].
    unfold tx_ret, tx_bind at 1. by rewrite (proj2 (named_inl name d r d)) by done. }
  unfold Service_UpdateInjectionTimestamps, transaction. rewrite E0. clear E0. unfold tx_bind.
  rewrite (updateInjectionFields_spec r _ d Hd Hr Hl).
  assert (Ht : times_ok (fi_with_times (Some s) (Some e) r) = (s <? e)) by done. rewrite Ht.
  destruct (s <? e).
  - set (d1 := set_injections _ d).
    assert (Hd1 : idb_ok d1).
    { assert (Hu := updateInjectionFields_keeps (fi_ID r) (fi_with_times (Some s) (Some e)) (fun _ => eq_refl) d tt d1 Hd).
      apply Hu. by rewrite (updateInjectionFields_spec r _ d Hd Hr Hl), Ht. }
    exists d1. split; [|done]. assert (Hin : fi_with_times (Some s) (Some e) r ∈ t_injections d1).
    { unfold d1. cbn [t_injections set_injections]. apply list_elem_of_fmap. exists r. by rewrite Z.eqb_refl. }
    unfold loadInjection, tx_wrap, tx_on_err, tx_first.
    destruct (find (fun x => fi_ID x =? fi_ID r) (t_injections d1)) as [x|] eqn:Ef.
    + apply find_some in Ef as [Hx Ex%Z.eqb_eq]. rewrite <- list_elem_of_In in Hx.
      by rewrite (nodup_map_inj fi_ID _ x _ (proj1 (inj_ids _ Hd1)) Hx Hin Ex).
    + exfalso. rewrite list_elem_of_In in Hin. apply (find_none _ _ Ef) in Hin. cbn in Hin. by rewrite Z.eqb_refl in Hin.
  - eexists. split; [done|]. unfold status_is, check_violated. by rewrite status_wrap.
Qed.

(** *** Deletion *)

Lemma clear_links_other kind owners ids l u l' x :
  clear_links kind owners ids l = inl (u, l') -> k_Kind x <> kind \/ k_Owner x ∉ owners -> x ∈ t_links l' <-> x ∈ t_links l.
Proof.
  unfold clear_links. destruct owners as [|o owners]; [by intros [= _ <-]|]. intros [= _ <-] Hx. cbn [t_links set_links].
  rewrite list_elem_of_In, filter_In, <- list_elem_of_In. split; [by intros [? _]|]. intros ?. split; [done|].
  apply negb_true_iff. destruct Hx as [Hk|Ho]; [by rewrite bool_decide_eq_false_2|].
  apply andb_false_iff. left. apply andb_false_iff. right. apply not_true_iff_false. intros Hin. by apply Ho, (in_ids_spec (o :: owners)).
Qed.
Lemma clear_links_gone kind owners l u l' x :
  clear_links kind owners [] l = inl (u, l') -> k_Kind x = kind -> k_Owner x ∈ owners -> x ∉ t_links l'.
Proof.
  unfold clear_links. destruct owners as [|o owners]; [by intros _ _ ?%not_elem_of_nil|]. intros [= _ <-] Hk Ho Hin.
  cbn [t_links set_links] in Hin. apply list_elem_of_In, filter_In in Hin as [_ Hin].
  apply (in_ids_spec (o :: owners)) in Ho. unfold in_ids in Ho. rewrite bool_decide_eq_true_2 in Hin by done. rewrite andb_true_l, andb_true_r in Hin.
  apply negb_true_iff in Hin. cbn [existsb] in Ho. congruence.
Qed.

(** The row is deleted when [p], otherwise as it was. *)
Definition deleted_injection (p : bool) (r : InjectionRow) : InjectionRow := if p && live r then fi_with_status deleted r else r.
Definition deleted_execution (p : bool) (x : ExecutionRow) : ExecutionRow :=
  if p && negb (ex_Status x =? deleted) then ex_with (ex_Duration x) (ex_State x) deleted x else x.

(** The live executions on the injections. *)
Definition runs_on (ids : list Z) (d : idb) : list Z := map ex_ID (listExecutionsByDatapackIDs ids d).
Lemma elem_of_runs_on ids d n :
  n ∈ runs_on ids d <-> exists x, x ∈ t_executions d /\ ex_ID x = n /\ ex_DatapackID x ∈ ids /\ ex_Status x <> deleted.
Proof.
  unfold runs_on, listExecutionsByDatapackIDs. rewrite list_elem_of_fmap. split.
  - intros (x & -> & [Hx [Hi Hs]%andb_true_iff]%list_elem_of_In%filter_In). exists x. rewrite list_elem_of_In.
    apply in_ids_spec in Hi. split_and!; try done. by apply negb_true_iff, Z.eqb_neq in Hs.
  - intros (x & Hx & <- & Hi & Hs). exists x. split; [done|]. apply list_elem_of_In, filter_In. rewrite <- list_elem_of_In.
    split; [done|]. rewrite (proj2 (in_ids_spec _ _) Hi). by apply Z.eqb_neq in Hs as ->.
Qed.
Lemma delete_runs ids d : idb_ok d ->
  map (fun x => if in_ids (runs_on ids d) (ex_ID x) && negb (ex_Status x =? deleted) then ex_with (ex_Duration x) (ex_State x) deleted x else x)
    (t_executions d) = map (fun x => deleted_execution (in_ids ids (ex_DatapackID x)) x) (t_executions d).
Proof.
  intros Hd. apply map_ext_in. intros x Hx%list_elem_of_In. unfold deleted_execution. destruct (ex_Status x =? deleted) eqn:Es; [by rewrite !andb_false_r|].
  cbn [negb]. rewrite !andb_true_r. assert (in_ids (runs_on ids d) (ex_ID x) = in_ids ids (ex_DatapackID x)) as ->; [|done].
  apply eq_true_iff_eq. rewrite !in_ids_spec, elem_of_runs_on. split.
  - intros (y & Hy & E & Hi & _). by rewrite <- (nodup_map_inj ex_ID _ y x (proj1 (inj_executions _ Hd)) Hy Hx E).
  - intros Hi. exists x. split_and!; try done. by apply Z.eqb_neq in Es.
Qed.
Lemma clear_links_total kind owners l : exists l', clear_links kind owners [] l = inl (tt, l') /\ t_labels l' = t_labels l.
Proof. unfold clear_links. destruct owners; [by exists l|]. by eexists. Qed.

(** What is left of the tables when the injections are gone. *)
Record cascaded (ids : list Z) (d d' : idb) : Prop := {
  casc_injections : t_injections d' = map (fun r => deleted_injection (in_ids ids (fi_ID r)) r) (t_injections d);
  casc_executions : t_executions d' = map (fun x => deleted_execution (in_ids ids (ex_DatapackID x)) x) (t_executions d);
  casc_labels : t_labels (i_labels d') = t_labels (i_labels d);
  casc_links k : k ∈ t_links (i_labels d') <-> k ∈ t_links (i_labels d) /\
    match k_Kind k with
    | Injections_ => k_Owner k ∉ ids
    | Executions_ => ~ exists x, x ∈ t_executions d /\ ex_ID x = k_Owner k /\ ex_DatapackID x ∈ ids /\ ex_Status x <> deleted
    | _ => True
    end
}.
(** The links that two rounds of clearing leave. *)
Lemma cleared_links ids d l1 l2 k :
  clear_links Executions_ (runs_on ids d) [] (i_labels d) = inl (tt, l1) -> clear_links Injections_ ids [] l1 = inl (tt, l2) ->
  k ∈ t_links l2 <-> k ∈ t_links (i_labels d) /\
    match k_Kind k with
    | Injections_ => k_Owner k ∉ ids
    | Executions_ => ~ exists x, x ∈ t_executions d /\ ex_ID x = k_Owner k /\ ex_DatapackID x ∈ ids /\ ex_Status x <> deleted
    | _ => True
    end.
Proof.
  intros C1 C2. destruct (k_Kind k) eqn:Ek;
    try (rewrite (clear_links_other _ _ _ _ _ _ k C2), (clear_links_other _ _ _ _ _ _ k C1) by (left; by rewrite Ek); tauto).
  - rewrite <- (clear_links_other _ _ _ _ _ _ k C1) by (left; by rewrite Ek). destruct (decide (k_Owner k ∈ ids)) as [Hi|Hi].
    + split; [|by intros [_ ?]]. intros H. by apply (clear_links_gone _ _ _ _ _ k C2) in H.
    + rewrite (clear_links_other _ _ _ _ _ _ k C2) by (by right). tauto.
  - rewrite (clear_links_other _ _ _ _ _ _ k C2) by (left; by rewrite Ek). rewrite <- elem_of_runs_on.
    destruct (decide (k_Owner k ∈ runs_on ids d)) as [Hi|Hi].
    + split; [|by intros [_ ?]]. intros H. by apply (clear_links_gone _ _ _ _ _ k C1) in H.
    + rewrite (clear_links_other _ _ _ _ _ _ k C1) by (by right). tauto.
Qed.

(** What a deletion asks for, in order: the executions only when there are any. *)
Definition asked_by_cascade (ids : list Z) (d : idb) : list deletion_statement :=
  [ListExecutions] ++ match runs_on ids d with [] => [] | _ => [ClearExecutionLabels; DeleteExecutions] end ++
  [ClearInjectionLabels; DeleteInjections].
Definition asked (ids : list Z) (d : idb) : list deletion_statement := [BeginDeletion] ++ asked_by_cascade ids d ++ [CommitDeletion].
Fixpoint first_refusal (refused : refusals) (l : list deletion_statement) : option string :=
  match l with
  | [] => None
  | s :: l => match refused s with Some e => Some e | None => first_refusal refused l end
  end.
Fixpoint root (e : goerr) : goerr := match e with Wrap _ e _ => root e | _ => e end.

Lemma first_refusal_app refused l l' :
  first_refusal refused (l ++ l') = match first_refusal refused l with Some e => Some e | None => first_refusal refused l' end.
Proof. induction l as [|s l IH]; [done|]. cbn. by destruct (refused s). Qed.
Lemma cascade_run refused ids d : idb_ok d -> ids <> [] ->
  match first_refusal refused (asked_by_cascade ids d) with
  | None => exists d', deleteInjectionsCascade refused ids d = inl (tt, d') /\ cascaded ids d d'
  | Some text => exists e, deleteInjectionsCascade refused ids d = inr e /\ root e = New text
  end.
Proof.
  intros Hd Hne. destruct (clear_links_total Executions_ (runs_on ids d) (i_labels d)) as (l1 & C1 & L1).
  destruct (clear_links_total Injections_ ids l1) as (l2 & C2 & L2).
  pose proof (delete_runs ids d Hd) as Hx. pose proof (fun k => cleared_links ids d l1 l2 k C1 C2) as Hl.
  unfold asked_by_cascade, deleteInjectionsCascade, repo_listExecutionsByDatapackIDs, removeLabelsFromExecutions, batchDeleteExecutions,
    clearInjectionLabels, batchDeleteInjections.
  destruct ids as [|i0 ids0]; [done|]. set (ids := i0 :: ids0) in *. clearbody ids. cbn [app first_refusal].
  unfold tx_bind, tx_wrap, tx_on_err. destruct (refused ListExecutions) as [e|]; [by eexists|]. cbn [statement]. unfold tx_get.
  change (map ex_ID (listExecutionsByDatapackIDs ids d)) with (runs_on ids d).
  set (xs := runs_on ids d) in *. clearbody xs. destruct xs as [|x0 xs]; cbn [length Nat.eqb negb tx_when app first_refusal].
  - injection C1 as <-. unfold tx_ret. destruct (refused ClearInjectionLabels) as [e|]; [by eexists|].
    cbn [statement]. unfold on_labels, tx_on. rewrite C2. destruct (refused DeleteInjections) as [e|]; [by eexists|].
    eexists. split; [reflexivity|]. split; [done| |by cbn; rewrite L2|done]. cbn. rewrite <- Hx. cbn. by rewrite map_id.
  - unfold tx_bind, tx_on_err. destruct (refused ClearExecutionLabels) as [e|]; [by eexists|].
    cbn [statement]. unfold on_labels, tx_on. rewrite C1. destruct (refused DeleteExecutions) as [e|]; [by eexists|].
    cbn [statement]. unfold delete_executions, tx_do.
    destruct (refused ClearInjectionLabels) as [e|]; [by eexists|].
    cbn [statement]. cbn [i_labels set_executions set_i_labels]. rewrite C2. destruct (refused DeleteInjections) as [e|]; [by eexists|].
    eexists. split; [reflexivity|]. split; [done|exact Hx|by cbn; rewrite L2, L1|done].
Qed.

(** C29. Deleting injections takes everything that hangs on them along, or fails and changes
    nothing.  It succeeds exactly when the database refuses none of the statements it is asked
    for; then the rows named are marked deleted and so are the executions on them, neither has
    a label any more, and all other rows, labels and links - the counts of uses too - are as
    before.  Otherwise the error of the first statement that is refused is returned, wrapped,
    and the tables are as they were. *)
Theorem deletion_cascades refused ids items d :
  idb_ok d -> ids <> [] ->
  match first_refusal refused (asked ids d) with
  | None => exists d', Service_BatchDelete_injections refused ids items d = (inl tt, d') /\ cascaded ids d d'
  | Some text => exists e, Service_BatchDelete_injections refused ids items d = (inr e, d) /\ root e = New text
  end.
Proof.
  intros Hd Hne. unfold Service_BatchDelete_injections. destruct ids as [|i0 ids0]; [done|]. unfold batchDeleteByIDs, deletion_transaction.
  pose proof (cascade_run refused (i0 :: ids0) d Hd Hne) as Hc. unfold asked, transaction. cbn [app first_refusal].
  destruct (refused BeginDeletion) as [e|]; [by eexists|]. unfold tx_bind, tx_ret. cbn [statement]. cbv beta iota.
  rewrite first_refusal_app. destruct (first_refusal refused (asked_by_cascade _ d)) as [text|].
  - destruct Hc as (e & -> & He). by exists e.
  - destruct Hc as (d' & -> & Hd'). cbn [first_refusal]. destruct (refused CommitDeletion) as [e|]; [by eexists|].
    exists d'. split; [reflexivity|exact Hd'].
Qed.

(** *** A batch of label operations *)

Section Batch.
Context (order : gmap string LabelItem -> list (string * LabelItem)).
Context (op_order : gmap Z InjectionLabelOperation -> list (Z * InjectionLabelOperation)).

(** The rows and the counts while the batch runs: [n] injections are found or failed, and
    those still to come are among the found. *)
Record batch_counts (rows : list InjectionRow) (n : Z) (rest : list Z) (b : batch) : Prop := {
  bc_rows : t_injections (b_db b) = rows;
  bc_total : br_FailedCount (b_resp b) + Z.of_nat (length (b_found b)) = n;
  bc_failed : br_FailedCount (b_resp b) = Z.of_nat (length (br_FailedItems (b_resp b)));
  bc_none : br_SuccessCount (b_resp b) = 0 /\ br_SuccessItems (b_resp b) = [];
  bc_found : NoDup (b_found b) /\ (forall i, i ∈ b_found b -> exists r, r ∈ rows /\ fi_ID r = i /\ live r = true);
  bc_rest : NoDup rest /\ (forall i, i ∈ rest -> i ∈ b_found b)
}.

Lemma filter_other (l : list Z) i : NoDup l -> i ∈ l -> length (List.filter (fun n => negb (n =? i)) l) = pred (length l).
Proof.
  induction 1 as [|x l Hx Hnd IH]; [by intros ?%not_elem_of_nil|]. intros [<-|Hi]%elem_of_cons; simpl.
  - rewrite Z.eqb_refl. simpl. rewrite forallb_filter_id; [done|]. apply forallb_forall. intros y Hy%list_elem_of_In.
    apply negb_true_iff, Z.eqb_neq. by intros ->.
  - destruct (Z.eqb_spec x i); [by subst|]. simpl. rewrite IH by done. destruct l; [by apply not_elem_of_nil in Hi|done].
Qed.

Lemma batch_fail_counts rows n i rest what e b :
  batch_counts rows n (i :: rest) b -> batch_counts rows n rest (batch_fail i what e b).
Proof.
  intros [H1 H2 H3 H4 [H5 H5'] [[H6 H6'']%NoDup_cons H6']]. assert (Hi : i ∈ b_found b) by (apply H6'; by left).
  split; cbn [batch_fail b_resp b_found b_db br_fail br_FailedCount br_FailedItems br_SuccessCount br_SuccessItems]; try done.
  - rewrite filter_other by done. destruct (b_found b); [by apply not_elem_of_nil in Hi|]. simpl in *. lia.
  - rewrite length_app. simpl. lia.
  - split; [apply NoDup_ListNoDup, List.NoDup_filter, NoDup_ListNoDup, H5|]. intros x Hx. apply H5'. by apply filter_subset in Hx.
  - split; [done|]. intros x Hx. apply list_elem_of_In, filter_In. rewrite <- list_elem_of_In. split; [apply H6'; by right|].
    apply negb_true_iff, Z.eqb_neq. by intros ->.
Qed.
Lemma batch_db_counts rows n i rest d b :
  t_injections d = rows -> batch_counts rows n (i :: rest) b -> batch_counts rows n rest (mkBatch (b_resp b) (b_found b) d).
Proof.
  intros Hd [H1 H2 H3 H4 H5 [[H6 H6'']%NoDup_cons H6']]. split; try done. split; [done|]. intros x Hx. apply H6'. by right.
Qed.
Lemma batch_one_counts rows n addMap removeMap ops i rest b :
  batch_counts rows n (i :: rest) b -> batch_counts rows n rest (batch_one addMap removeMap ops i b).
Proof.
  intros Hb. assert (Hrows := bc_rows _ _ _ _ Hb). unfold batch_one. destruct (ops !! i) as [op|].
  2: { assert (H := batch_db_counts rows n i rest (b_db b) b Hrows Hb). by destruct b. }
  destruct (match known_ids addMap (lo_Add op) with [] => _ | _ => _ end) as [[u d]|e] eqn:E; [|by apply batch_fail_counts].
  assert (Hd : t_injections d = rows).
  { destruct (known_ids addMap (lo_Add op)); [by injection E as _ <-|]. by apply addInjectionLabels_inl in E as ->. }
  destruct (match known_ids removeMap (lo_Remove op) with [] => _ | _ => _ end) as [[v d2]|e] eqn:E2.
  - eapply batch_db_counts; [|done]. destruct (known_ids removeMap (lo_Remove op)); [by injection E2 as _ <-|].
    by apply on_labels_inl in E2 as (lb & _ & ->).
  - apply batch_fail_counts. destruct Hb as [H1 H2 H3 H4 H5 H6]. by split.
Qed.
Lemma batch_all_counts rows n addMap removeMap ops rest b :
  batch_counts rows n rest b -> batch_counts rows n [] (fold_left (fun b i => batch_one addMap removeMap ops i b) rest b).
Proof. revert b. induction rest as [|i rest IH]; intros b Hb; [done|]. simpl. by apply IH, batch_one_counts. Qed.

Lemma listed_length ids d :
  NoDup (map fi_ID (t_injections d)) -> NoDup ids ->
  (forall i, i ∈ ids -> exists r, r ∈ t_injections d /\ fi_ID r = i /\ live r = true) ->
  length (listFaultInjectionsByID ids d) = length ids.
Proof.
  intros Hnd Hids Hall. rewrite <- (length_map fi_ID). apply Permutation_length, NoDup_Permutation; [|done|].
  - by apply nodup_map_filter.
  - intros i. split.
    + intros (r & -> & (_ & ? & _)%listed_by_id)%list_elem_of_fmap. done.
    + intros Hi. destruct (Hall i Hi) as (r & Hr & <- & Hl). apply list_elem_of_fmap_2. by apply listed_by_id.
Qed.

Lemma fail_all_counts (l : list Z) f r0 :
  br_FailedCount r0 = Z.of_nat (length (br_FailedItems r0)) ->
  let r := fold_left (fun r i => br_fail (f i) r) l r0 in
  br_FailedCount r = br_FailedCount r0 + Z.of_nat (length l) /\ br_FailedCount r = Z.of_nat (length (br_FailedItems r)) /\
  br_SuccessCount r = br_SuccessCount r0 /\ br_SuccessItems r = br_SuccessItems r0.
Proof.
  revert r0. induction l as [|i l IH]; intros r0 H0; simpl; [split_and!; try done; lia|].
  destruct (IH (br_fail (f i) r0)) as (-> & E & -> & ->); [cbn; rewrite length_app; simpl; lia|]. cbn. split; [lia|]. split; [|done].
  rewrite <- E. cbn. lia.
Qed.

(** The report of a batch: when the call succeeds it accounts for every injection that
    was named, each of them once - the failed and the successful ones add up to the
    operations, the counts are those of the lists, and a success is a stored injection
    shown with the labels it has in the end.  The rows are not touched. *)
Theorem batch_accounts items d resp d' :
  idb_ok d -> NoDup (map lo_ID items) -> BatchManageLabels order op_order items d = (resp, None, d') ->
  br_FailedCount resp = Z.of_nat (length (br_FailedItems resp)) /\
  br_SuccessCount resp = Z.of_nat (length (br_SuccessItems resp)) /\
  br_FailedCount resp + br_SuccessCount resp = Z.of_nat (length items) /\
  (forall row labels, (row, labels) ∈ br_SuccessItems resp ->
     row ∈ t_injections d /\ labels = labels_of Injections_ (fi_ID row) (i_labels d')) /\
  t_injections d' = t_injections d.
Proof.
  intros Hd Hnd. unfold BatchManageLabels. destruct items as [|it items].
  { intros [= <- <-]. split_and!; try done. by intros ? ? ?%not_elem_of_nil. }
  rewrite <- (length_map lo_ID). cbv beta iota zeta. set (ids := map lo_ID (it :: items)) in *. clearbody ids.
  set (found := map fi_ID (listFaultInjectionsByID ids d)). set (lost := List.filter (fun id => negb (in_ids found id)) ids).
  destruct (fail_all_counts lost (fun id => "Injection ID " +:+ itoa id +:+ " not found") (mkBatchResp 0 [] 0 []) eq_refl)
    as (Hf1 & Hf2 & Hf3 & Hf4).
  set (r0 := fold_left _ lost (mkBatchResp 0 [] 0 [])) in *. clearbody r0. cbn in Hf1, Hf3, Hf4.
  set (valid := List.filter (in_ids found) ids). destruct valid as [|v vs] eqn:Ev; [done|]. rewrite <- Ev. clear Ev.
  destruct (collect_items _ _ _ _) as [adds removes].
  match goal with |- context [match ?x with inl _ => _ | inr _ => _ end] => destruct x as [[ls d1]|e] eqn:E end; [|done].
  assert (Hrows : t_injections d1 = t_injections d).
  { destruct adds; [by injection E as _ <-|]. by apply tx_wrap_inl, on_labels_inl in E as (lb & _ & ->). }
  match goal with |- context [fold_left ?f valid ?b0] => set (b := fold_left f valid b0) end.
  assert (Hfound : NoDup found /\ forall i, i ∈ found <-> i ∈ ids /\ exists r, r ∈ t_injections d /\ fi_ID r = i /\ live r = true).
  { split.
    - apply nodup_map_filter, Hd.
    - intros i. unfold found. rewrite list_elem_of_fmap. split.
      + intros (r & -> & (Hr & Hi & Hl)%listed_by_id). split; [done|]. by exists r.
      + intros (Hi & r & Hr & <- & Hl). exists r. split; [done|]. by apply listed_by_id. }
  destruct Hfound as [Hfnd Hfin].
  assert (Hb : batch_counts (t_injections d) (Z.of_nat (length ids)) [] b).
  { apply batch_all_counts. split; cbn [b_db b_resp b_found]; try done.
    - rewrite Hf1. assert (Hsplit := filter_split_length (in_ids found) ids).
      assert (Hlen : length (List.filter (in_ids found) ids) = length found).
      { apply Permutation_length, NoDup_Permutation; [|done|].
        - apply NoDup_ListNoDup, List.NoDup_filter, NoDup_ListNoDup, Hnd.
        - intros i. rewrite list_elem_of_In, filter_In, <- list_elem_of_In, in_ids_spec. split; [by intros [_ ?]|].
          intros Hi. split; [|done]. by apply Hfin in Hi as [? _]. }
      unfold lost. lia.
    - split; [done|]. intros i Hi. by apply Hfin in Hi as [_ ?].
    - split; [apply NoDup_ListNoDup, List.NoDup_filter, NoDup_ListNoDup, Hnd|].
      intros i Hi. unfold valid in Hi. apply list_elem_of_In, filter_In in Hi as [_ Hi]. by apply in_ids_spec. }
  destruct Hb as [B1 B2 B3 [B4 B5] [B6 B7] _]. clearbody b. 
  destruct (b_found b) as [|x xs] eqn:Ex.
  - intros [= <- <-]. rewrite B4, B5. simpl in B2. split_and!; try done; by intros ? ? ?%not_elem_of_nil.
  - intros [= <- <-]. cbn [succeed_all b_resp b_db]. rewrite <- Ex in *.
    assert (Hlen := listed_length (b_found b) (b_db b)). rewrite B1 in Hlen. specialize (Hlen (proj1 (inj_ids _ Hd)) B6 B7).
    assert (Hin : forall r, r ∈ listFaultInjectionsByID (b_found b) (b_db b) -> r ∈ t_injections d).
    { intros r (Hr & _)%listed_by_id. by rewrite <- B1. }
    set (show := fun row => (row, labels_of Injections_ (fi_ID row) (i_labels (b_db b)))).
    assert (Hfold : forall l r, fold_left (fun r row => br_succeed (show row) r) l r =
        mkBatchResp (br_FailedCount r) (br_FailedItems r) (br_SuccessCount r + Z.of_nat (length l)) (br_SuccessItems r ++ map show l)).
    { clear. induction l as [|y l IH]; intros r; simpl; [rewrite app_nil_r, Z.add_0_r; by destruct r|].
      rewrite IH. cbn. rewrite <- app_assoc. f_equal. lia. }
    unfold show in Hfold. rewrite Hfold. cbn [br_FailedCount br_FailedItems br_SuccessCount br_SuccessItems].
    rewrite B5. cbn [app]. rewrite length_map. split_and!; try done; [lia|lia|].
    intros row labels (y & [= -> ->] & Hy)%list_elem_of_fmap. split; [by apply Hin|done].
Qed.
End Batch.

(** ** Together *)

(** Whatever operations on injections follow each other: identifiers stay unique, no
    stored row starts after it ends, labels stay as their own invariant says, and no link
    belongs to an injection or an execution that was never stored. *)
Theorem injections_stay_ok d0 d : idb_ok d0 -> rtc injection_step d0 d -> idb_ok d.
Proof. intros Hd Hs. induction Hs as [|x y z Hxy _ IH]; [done|]. apply IH. by eapply injection_step_keeps. Qed.

(** The services test for an error the repository never returns: an injection that is not
    there is an internal error for whoever reads it, labels it or clones it, while a
    download answers not found. *)
Theorem missing_injection_is_500 order add remove name labels id d :
  find (fun r => fi_ID r =? id) (t_injections d) = None ->
  exists e1 e2 e3 e4, GetInjection id d = inr e1 /\ ManageLabels order add remove id d = (inr e2, d) /\
    Clone order id name labels d = (inr e3, d) /\ getReadyDatapack id d = inr e4 /\
    status_is 500 e1 /\ status_is 500 e2 /\ status_is 500 e3 /\ status_is 404 e4.
Proof.
  intros Hf. assert (Hl : loadInjection id d = inr (Wrap ("failed to find injection with id " +:+ itoa id +:+ ": ") (Is RecordNotFound) "")).
  { unfold loadInjection, tx_wrap, tx_on_err, tx_first. by rewrite Hf. }
  assert (He : existing_injection id d = inr (Wrap "failed to get injection: "
                 (Wrap ("failed to find injection with id " +:+ itoa id +:+ ": ") (Is RecordNotFound) "") "")).
  { unfold existing_injection, known_as, tx_on_err. by rewrite Hl. }
  assert (Hg : GetInjection id d = inr (Wrap "failed to get injection: "
                 (Wrap ("failed to find injection with id " +:+ itoa id +:+ ": ") (Is RecordNotFound) "") "")).
  { unfold GetInjection, known_as, tx_on_err, getInjectionWithLabels, tx_bind. by rewrite Hl. }
  assert (Hr : getReadyDatapack id d = inr (missing_injection id)).
  { unfold getReadyDatapack, ready_injection, known_as, tx_on_err, tx_bind. by rewrite Hl. }
  assert (Hm : ManageLabels order add remove id d = (inr (Wrap "failed to get injection: "
                 (Wrap ("failed to find injection with id " +:+ itoa id +:+ ": ") (Is RecordNotFound) "") ""), d)).
  { unfold ManageLabels, transaction, manage_labels. unfold tx_bind at 1. by rewrite He. }
  assert (Hc : Clone order id name labels d = (inr (Wrap "failed to get injection: "
                 (Wrap ("failed to find injection with id " +:+ itoa id +:+ ": ") (Is RecordNotFound) "") ""), d)).
  { unfold Clone. by rewrite He. }
  do 4 eexists. split; [exact Hg|]. split; [exact Hm|]. split; [exact Hc|]. split; [exact Hr|].
  unfold status_is. rewrite !status_wrap. by split_and!.
Qed.

Module InjectionSample.
Definition order (m : gmap string LabelItem) : list (string * LabelItem) := map_to_list m.
Definition op_order (m : gmap Z InjectionLabelOperation) : list (Z * InjectionLabelOperation) := map_to_list m.
Lemma order_ok m : order m ≡ₚ map_to_list m.
Proof. done. Qed.
Definition item (k v : string) : LabelItem := mkLabelItem k v false.
Definition request (name : string) : RuntimeCreateInjectionReq :=
  mkCreateInjection name 3 "ts" "" "{}" "{}" [] "" 4 "task-1" None None [] DatapackInitial.
Definition empty : idb := mkIdb (mkLdb [] [] 1) [] [] [] [] 1 1.
Definition d1 : idb := (CreateInjectionRecord order (request "ts-1") [item "env" "prod"] empty).2.
Definition d2 : idb := (CreateInjectionRecord order (request "ts-2") [item "env" "test"] d1).2.

Lemma no_injections_ok : idb_ok empty.
Proof. split; try (repeat constructor); simpl; try done; repeat constructor. Qed.
Lemma inj_steps : rtc injection_step empty d2.
Proof. eapply rtc_l; [exact (inj_create order (request "ts-1") [item "env" "prod"] empty order_ok)|].
  eapply rtc_l; [exact (inj_create order (request "ts-2") [item "env" "test"] d1 order_ok)|]. apply rtc_refl. Qed.
Lemma injections_stay_ok_witness : idb_ok d2 /\ map fi_ID (t_injections d2) = [1; 2].
Proof. split; [exact (injections_stay_ok empty d2 no_injections_ok inj_steps)|]. vm_compute. done. Defined.

Lemma inj1_ok : idb_ok d1.
Proof. exact (injection_step_keeps _ _ no_injections_ok (inj_create order (request "ts-1") [item "env" "prod"] empty order_ok)). Qed.
Lemma inj2_ok : idb_ok d2.
Proof. exact (injection_step_keeps _ _ inj1_ok (inj_create order (request "ts-2") [item "env" "test"] d1 order_ok)). Qed.

(** Two labels more, one of them removed at once. *)
Definition managed : ((labelled + goerr) * idb) := ManageLabels order [item "env" "dev"; item "team" "red"] ["env"] 1 d2.
Lemma managed_eq : managed = (fst managed, snd managed).
Proof. by destruct managed. Qed.
Lemma ManageLabels_spec_witness :
  match fst managed with
  | inl (row, labels) =>
      row ∈ t_injections d2 /\ fi_ID row = 1 /\ labels = labels_of Injections_ 1 (i_labels (snd managed)) /\
      map (fun l => (l_Key l, l_Value l, l_Usage l)) labels = [("team", "red", 1)]
  | inr _ => False
  end.
Proof.
  assert (H := ManageLabels_spec order order_ok [item "env" "dev"; item "team" "red"] ["env"] 1 d2 _ _ inj2_ok managed_eq).
  assert (E : match fst managed with inl (_, labels) => map (fun l => (l_Key l, l_Value l, l_Usage l)) labels = [("team", "red", 1)]
              | inr _ => False end) by (vm_compute; done).
  destruct (fst managed) as [[row labels]|e]; [|done]. destruct H as (H1 & H2 & H3 & _). exact (conj H1 (conj H2 (conj H3 E))).
Defined.

Lemma CreateInjectionRecord_spec_witness :
  has_label Injections_ 2 "env" "test" (i_labels d2) /\ ~ has_label Injections_ 2 "env" "prod" (i_labels d2).
Proof.
  destruct (CreateInjectionRecord_spec order order_ok (request "ts-2") [item "env" "test"] d1 inj1_ok) as
    (r & d' & E & _ & _ & Hid & _ & _ & _ & _ & _ & _ & _ & Hlab & _); [done|done|apply (bool_decide_unpack _); vm_compute; done..|].
  assert (Er : fi_ID r = 2) by (rewrite Hid; vm_compute; reflexivity).
  assert (Ed : d2 = d') by (change d2 with (snd (CreateInjectionRecord order (request "ts-2") [item "env" "test"] d1)); rewrite E; reflexivity).
  rewrite Er in Hlab. rewrite Ed. split.
  - apply (proj2 (Hlab "env" "test")). exists (item "env" "test"). split; reflexivity.
  - intros H. apply (proj1 (Hlab "env" "prod")) in H as (i & Hi & Hv). revert Hi. vm_compute. intros [= <-]. discriminate Hv.
Defined.

Lemma found1 : option_map fi_ID (find (named "ts-1") (t_injections d2)) = Some 1.
Proof. vm_compute. reflexivity. Qed.
Lemma name1 : "ts-1" <> "".
Proof. discriminate. Qed.
Lemma UpdateInjectionState_spec_witness :
  exists d', Service_UpdateInjectionState "ts-1" DatapackBuildSuccess d2 = (inl tt, d') /\
    t_injections d' = map (fun x => if fi_ID x =? 1 then fi_with_state DatapackBuildSuccess x else x) (t_injections d2).
Proof.
  destruct (UpdateInjectionState_spec "ts-1" DatapackBuildSuccess d2 inj2_ok) as [H _]. assert (F := found1). revert H F.
  generalize (find (named "ts-1") (t_injections d2)). intros [r|] H F; [|discriminate F].
  injection F as F. rewrite F in H. destruct (H name1) as (d' & H1 & H2 & _). exists d'. exact (conj H1 H2).
Defined.

(** With an execution on the first injection. *)
Definition run : ExecutionRow := mkExecutionRow 1 0 None 7 1 None ExecutionInitial enabled.
Definition d3 : idb := mkIdb (i_labels d2) (t_injections d2) [run] [] [] (i_next_injection d2) 2.
Lemma inj3_ok : idb_ok d3.
Proof.
  destruct inj2_ok as [H1 H2 H3 H4 H5]. split; try done.
  - split; [apply NoDup_singleton|by repeat constructor].
  - cbn [d3 t_injections t_executions i_labels]. eapply Forall_impl; [exact H5|]. intros k. unfold owned.
    destruct (k_Kind k); try done. intros Hk. exfalso. revert Hk. vm_compute. by intros ?%not_elem_of_nil.
Qed.
(** The deletion goes through; and once more, with a database that refuses the last statement. *)
Definition deletes (refused : refusals) := Service_BatchDelete_injections refused [1] [] d3.
Definition refuses_last : refusals := fun s => if decide (s = DeleteInjections) then Some "lock wait timeout" else None.
Lemma deletion_cascades_witness :
  (let d' := (deletes (fun _ => None)).2 in
   map ex_Status (t_executions d') = [deleted] /\ map fi_Status (t_injections d') = [deleted; enabled] /\
   ~ mkLabelLink Injections_ 1 1 ∈ t_links (i_labels d')) /\
  exists e, deletes refuses_last = (inr e, d3) /\ root e = New "lock wait timeout".
Proof.
  split; [|exact (deletion_cascades refuses_last [1] [] d3 inj3_ok (fun E => eq_ind [1] (fun l => match l with [] => False | _ => True end) I [] E))].
  destruct (deletion_cascades (fun _ => None) [1] [] d3 inj3_ok) as (d' & E & [E1 E2 _ E4]); [done|]. unfold deletes. rewrite E. cbn [snd].
  rewrite E1, E2. split; [vm_compute; done|]. split; [vm_compute; done|]. rewrite E4. cbn. intros [_ H]. apply H. by left.
Defined.

Definition ops : list InjectionLabelOperation := [mkLabelOperation 1 [item "team" "red"] []; mkLabelOperation 9 [] [item "env" "prod"]].
Definition batch_result := BatchManageLabels order op_order ops d2.
Lemma batch_eq : BatchManageLabels order op_order ops d2 = (fst (fst batch_result), None, snd batch_result).
Proof. vm_compute. done. Qed.
Lemma ops_distinct : NoDup (map lo_ID ops).
Proof. apply (bool_decide_unpack _). vm_compute. reflexivity. Qed.
Lemma batch_accounts_witness :
  br_FailedCount (fst (fst batch_result)) + br_SuccessCount (fst (fst batch_result)) = Z.of_nat (length ops) /\
  br_FailedItems (fst (fst batch_result)) = ["Injection ID 9 not found"].
Proof.
  destruct (batch_accounts order op_order ops d2 _ _ inj2_ok ops_distinct batch_eq) as (_ & _ & H & _).
  split; [exact H|]. vm_compute. reflexivity.
Defined.

(** Adding a label the injection has already is an internal error. *)
Example attached_label_is_an_error :
  match fst (ManageLabels order [item "env" "prod"] [] 1 d2) with
  | inr e => option_map fst (HandleServiceError (Some e)) = Some 500
  | inl _ => False
  end.
Proof. vm_compute. done. Qed.
(** A batch that takes a label from one injection and gives it to another: the one it is
    to lose keeps it when the addition comes first in the iteration. *)
Example batch_keeps_removed_label :
  let r := BatchManageLabels order op_order [mkLabelOperation 2 [item "env" "prod"] []; mkLabelOperation 1 [] [item "env" "prod"]] d2 in
  let flipped := BatchManageLabels order (fun m => reverse (op_order m))
                   [mkLabelOperation 2 [item "env" "prod"] []; mkLabelOperation 1 [] [item "env" "prod"]] d2 in
  let labels := fun (x : BatchManageInjectionLabelResp * option goerr * idb) =>
                  map (fun s => (fi_ID (fst s), map (fun l => (l_Key l, l_Value l)) (snd s))) (br_SuccessItems (fst (fst x))) in
  labels r <> labels flipped.
Proof. vm_compute. done. Qed.
(** One key with two values in one batch: only one of them is ever created. *)
Example batch_loses_a_value :
  map (fun s => map (fun l => (l_Key l, l_Value l)) (snd s))
    (br_SuccessItems (fst (fst (BatchManageLabels order op_order
       [mkLabelOperation 1 [item "team" "red"] []; mkLabelOperation 2 [item "team" "blue"] []] d2))))
  = [[("env", "prod"); ("team", "red")]; [("env", "test")]] \/
  map (fun s => map (fun l => (l_Key l, l_Value l)) (snd s))
    (br_SuccessItems (fst (fst (BatchManageLabels order op_order
       [mkLabelOperation 1 [item "team" "red"] []; mkLabelOperation 2 [item "team" "blue"] []] d2))))
  = [[("env", "prod")]; [("env", "test"); ("team", "blue")]].
Proof. vm_compute. by (left + right). Qed.
End InjectionSample.
