(* ===== verification/Executions.v ===== *)
(** * The service of executions ([module/execution/])

    An execution is one run of an algorithm on a datapack: its row is created when the job
    is started, its results are uploaded by the job, its state is set once by the runtime.
    The tables are those of [Injections]. *)

From Stdlib Require Import QArith.
From S2P Require Import Prelude GoStrings Consts Search Tables Labels Injections.
#[local] Open Scope Z_scope.

(** ** The repository *)

Definition present (id : Z) (x : ExecutionRow) : bool := (ex_ID x =? id) && negb (ex_Status x =? deleted).
Definition loadExecution (id : Z) : Tx idb ExecutionRow :=
  tx_wrap ("failed to find execution " +:+ itoa id +:+ ": ") (tx_first (fun d => find (present id) (t_executions d))).
Definition execution_labelled : Type := ExecutionRow * list Label.
Definition getExecutionView (id : Z) : Tx idb execution_labelled :=
  let^ x := tx_wrap ("failed to find execution result with id " +:+ itoa id +:+ ": ")
              (tx_first (fun d => find (present id) (t_executions d))) in
  tx_get (fun d => (x, labels_of Executions_ (ex_ID x) (i_labels d))).

Definition foreign_key_violated : goerr := New "violates foreign key constraint".
(** The datapack must be a row, deleted or not. *)
Definition createExecution (x : ExecutionRow) : Tx idb ExecutionRow :=
  tx_wrap "failed to create execution: " (fun d =>
    let x := mkExecutionRow (i_next_execution d) (ex_Duration x) (ex_TaskID x) (ex_AlgorithmVersionID x) (ex_DatapackID x)
               (ex_DatasetVersionID x) (ex_State x) (ex_Status x) in
    if in_ids (map fi_ID (t_injections d)) (ex_DatapackID x) then
      inl (x, mkIdb (i_labels d) (t_injections d) (t_executions d ++ [x]) (t_detector d) (t_granularity d)
                (i_next_injection d) (i_next_execution d + 1))
    else inr foreign_key_violated).
(** An UPDATE of the rows that are present: their number. *)
Definition update_executions (id : Z) (f : ExecutionRow -> ExecutionRow) : Tx idb Z := fun d =>
  inl (Z.of_nat (length (List.filter (present id) (t_executions d))),
       set_executions (map (fun x => if present id x then f x else x) (t_executions d)) d).
Definition updateExecutionFields (id : Z) (f : ExecutionRow -> ExecutionRow) : Tx idb unit :=
  let^ rows := tx_wrap ("failed to update execution " +:+ itoa id +:+ ": ") (update_executions id f) in
  tx_require (negb (rows =? 0)) (tagged NotFound ("execution " +:+ itoa id +:+ " not found")).

Definition with_duration (q : Q) (x : ExecutionRow) : ExecutionRow := ex_with q (ex_State x) (ex_Status x) x.
Definition with_state (st : ExecutionState) (x : ExecutionRow) : ExecutionRow := ex_with (ex_Duration x) st (ex_Status x) x.
Definition updateExecutionDuration (id : Z) (duration : Q) : Tx idb unit :=
  let^ x := tx_on_err (fun e => if errors_Is RecordNotFound e then tagged NotFound ("execution " +:+ itoa id +:+ " not found")
                                else Wrap ("execution " +:+ itoa id +:+ " not found: ") e "")
              (tx_first (fun d => find (present id) (t_executions d))) in
  tx_require (ex_Status x =? enabled) (New ("must upload results for an active execution " +:+ itoa id)) ;;^
  tx_require (negb (bool_decide (ex_State x = ExecutionSuccess)))
    (New ("cannot upload results for a successful execution " +:+ itoa id)) ;;^
  let^ rows := tx_wrap ("failed to update execution " +:+ itoa id +:+ " duration: ") (update_executions id (with_duration duration)) in
  tx_require (negb (rows =? 0)) (New "execution not found or no changes made").

Definition addExecutionLabels (id : Z) (labelIDs : list Z) : Tx idb unit :=
  tx_wrap "failed to add execution-label associatons: " (on_labels (insert_missing_links (links_to Executions_ id labelIDs))).
(** Labels and rows of the executions named. *)
Definition batchDeleteExecutions (ids : list Z) : Tx idb unit :=
  match ids with
  | [] => tx_ret tt
  | _ => on_labels (clear_links Executions_ ids []) ;;^ delete_executions ids
  end.
Definition listExecutionIDsByLabelItems (items : list LabelItem) (d : idb) : list Z :=
  map ex_ID (List.filter (fun x => negb (ex_Status x =? deleted) &&
    match items with
    | [] => negb (length (labels_of Executions_ (ex_ID x) (i_labels d)) =? 0)%nat
    | _ => existsb (fun l => existsb (fun i => has_kv (li_Key i) (li_Value i) l) items) (labels_of Executions_ (ex_ID x) (i_labels d))
    end) (t_executions d)).
Definition saveDetectorResults (rs : list DetectorResult) : Tx idb unit :=
  tx_require (negb (length rs =? 0)%nat) (New "no detector results to save") ;;^
  tx_do (fun d => set_results (t_detector d ++ rs) (t_granularity d) d).
Definition saveGranularityResults (rs : list GranularityResult) : Tx idb unit :=
  tx_require (negb (length rs =? 0)%nat) (New "no granularity results to create") ;;^
  tx_each (fun r => tx_do (fun d => set_results (t_detector d) (t_granularity d ++ [r]) d)) rs.

(** ** The service *)

Definition execution_category : Z := LabelCategory_code ExecutionCategory.
Definition missing_execution (id : Z) : goerr := tagged NotFound ("execution id: " +:+ itoa id).

(** The name of the container of an algorithm version, and that of the detector. *)
Section Results.
Context (algorithm_name : Z -> string) (detector : string).

Definition results_of (id : Z) (d : idb) : list DetectorResultItem * list GranularityResultItem :=
  (map dr_Item (List.filter (fun r => dr_ExecutionID r =? id) (t_detector d)),
   map gr_Item (List.filter (fun r => gr_ExecutionID r =? id) (t_granularity d))).
Definition getExecutionResultView (id : Z)
  : Tx idb (execution_labelled * list DetectorResultItem * list GranularityResultItem) :=
  let^ view := getExecutionView id in
  tx_get (fun d =>
    let '(ds, gs) := results_of (ex_ID (fst view)) d in
    if String.eqb (algorithm_name (ex_AlgorithmVersionID (fst view))) detector then (view, ds, []) else (view, [], gs)).
Definition Service_GetExecution (id : Z)
  : Tx idb (execution_labelled * list DetectorResultItem * list GranularityResultItem) :=
  known_as either_not_found (missing_execution id) "failed to get execution: " (getExecutionResultView id).
End Results.

Definition HasAnomalies (items : list DetectorResultItem) : bool :=
  existsb (fun i => negb (String.eqb (di_Issues i) "{}") && negb (String.eqb (di_Issues i) "")) items.
Definition upload_detector (items : list DetectorResultItem) (duration : Q) (id : Z) : Tx idb (Z * bool) :=
  updateExecutionDuration id duration ;;^
  tx_wrap ("failed to save detector results for execution " +:+ itoa id +:+ ": ")
    (saveDetectorResults (map (fun i => mkDetectorResult i id) items)) ;;^
  tx_ret (Z.of_nat (length items), HasAnomalies items).
Definition UploadDetectorResults (items : list DetectorResultItem) (duration : Q) (id : Z) (d : idb) : ((Z * bool) + goerr) * idb :=
  transaction (upload_detector items duration id) d.
Definition upload_granularity (items : list GranularityResultItem) (duration : Q) (id : Z) : Tx idb Z :=
  updateExecutionDuration id duration ;;^
  tx_wrap ("failed to save detector results for execution " +:+ itoa id +:+ ": ")
    (saveGranularityResults (map (fun i => mkGranularityResult i id) items)) ;;^
  tx_ret (Z.of_nat (length items)).
Definition UploadGranularityResults (items : list GranularityResultItem) (duration : Q) (id : Z) (d : idb) : (Z + goerr) * idb :=
  transaction (upload_granularity items duration id) d.

(** The state may leave [Initial], and no other state. *)
Definition update_execution_state (id : Z) (st : ExecutionState) : Tx idb unit :=
  tx_require (negb (id <=? 0)) (tagged BadRequest "execution_id is required") ;;^
  let^ x := tx_on_err (fun e => if errors_Is RecordNotFound e then tagged NotFound ("execution " +:+ itoa id +:+ " not found") else e)
              (loadExecution id) in
  tx_require (bool_decide (ex_State x = ExecutionInitial))
    (New ("cannot change state of execution " +:+ itoa id +:+ " from " +:+ GetExecutionStateName (ExecutionState_code (ex_State x)) +:+
          " to " +:+ GetExecutionStateName (ExecutionState_code st))) ;;^
  updateExecutionFields id (with_state st).
Definition Service_UpdateExecutionState (id : Z) (st : ExecutionState) (d : idb) : (unit + goerr) * idb :=
  transaction (update_execution_state id st) d.

Definition execution_batchDeleteByIDs (ids : list Z) (d : idb) : (unit + goerr) * idb :=
  match ids with
  | [] => (inl tt, d)
  | _ => transaction (batchDeleteExecutions ids) d
  end.
Definition execution_batchDeleteByLabels (items : list LabelItem) (d : idb) : (unit + goerr) * idb :=
  match items with
  | [] => (inl tt, d)
  | _ => execution_batchDeleteByIDs (listExecutionIDsByLabelItems items d) d
  end.
Definition Service_BatchDelete_executions (ids : list Z) (items : list LabelItem) (d : idb) : (unit + goerr) * idb :=
  match ids with
  | [] => execution_batchDeleteByLabels items d
  | _ => execution_batchDeleteByIDs ids d
  end.

Section ExecutionLabels.
Context (order : gmap string LabelItem -> list (string * LabelItem)).

Definition attach_execution_labels (id : Z) (items : list LabelItem) : Tx idb unit :=
  match items with
  | [] => tx_ret tt
  | _ =>
      let^ labels := tx_wrap "failed to create or update labels: "
                       (on_labels (CreateOrUpdateLabelsFromItems order items execution_category)) in
      tx_wrap "failed to add execution labels: " (addExecutionLabels id (map l_ID labels))
  end.
Definition manage_execution_labels (add : list LabelItem) (remove : list string) (id : Z) : Tx idb execution_labelled :=
  let^ (x, _) := known_as (errors_Is NotFound) (missing_execution id) "failed to get execution: " (getExecutionView id) in
  attach_execution_labels (ex_ID x) add ;;^
  tx_when (negb (length remove =? 0)%nat) (on_labels (detach_labels Executions_ id remove)) ;;^
  tx_wrap "failed to reload execution labels: " (getExecutionView id).
Definition execution_ManageLabels (add : list LabelItem) (remove : list string) (id : Z) (d : idb)
  : (execution_labelled + goerr) * idb := transaction (manage_execution_labels add remove id) d.

Definition create_execution (taskID : string) (algorithmVersionID datapackID : Z) (datasetVersionID : option Z)
    (labels : list LabelItem) : Tx idb Z :=
  tx_require (negb (String.eqb taskID "")) (tagged BadRequest "task_id is required") ;;^
  tx_require (negb ((algorithmVersionID <=? 0) || (datapackID <=? 0)))
    (tagged BadRequest "algorithm_version_id and datapack_id are required") ;;^
  let^ x := tx_on_err (fun e => if errors_Is DuplicatedKey e
                then tagged AlreadyExists ("execution already exists for task " +:+ taskID) else e)
              (createExecution (mkExecutionRow 0 0 (Some taskID) algorithmVersionID datapackID datasetVersionID
                                  ExecutionInitial enabled)) in
  attach_execution_labels (ex_ID x) labels ;;^
  tx_ret (ex_ID x).
Definition CreateExecutionRecord (taskID : string) (algorithmVersionID datapackID : Z) (datasetVersionID : option Z)
    (labels : list LabelItem) (d : idb) : (Z + goerr) * idb :=
  transaction (create_execution taskID algorithmVersionID datapackID datasetVersionID labels) d.
End ExecutionLabels.

(** ** Requests *)

Definition not_rate (o : option Q) : bool := match o with Some q => negb (Qle_bool 0 q && Qle_bool q 1) | None => false end.
Definition negative (o : option Q) : bool := match o with Some q => negb (Qle_bool 0 q) | None => false end.
Definition DetectorResultItem_Validate (i : DetectorResultItem) : res unit :=
  require (negb (String.eqb (di_SpanName i) "")) "span_name cannot be empty" ;;?
  require (negb (String.eqb (di_Issues i) "")) "issues cannot be empty" ;;?
  require (negb (not_rate (di_AbnormalSuccRate i))) "abnormal_succ_rate must be between 0-1" ;;?
  require (negb (not_rate (di_NormalSuccRate i))) "normal_succ_rate must be between 0-1" ;;?
  require (negb (negative (di_AbnormalAvgDuration i))) "abnormal_avg_duration cannot be negative" ;;?
  require (negb (negative (di_NormalAvgDuration i))) "normal_avg_duration cannot be negative".
Definition GranularityResultItem_Validate (i : GranularityResultItem) : res unit :=
  require (negb (String.eqb (gi_Level i) "")) "level cannot be empty" ;;?
  require (negb (String.eqb (gi_Result i) "")) "result cannot be empty" ;;?
  require (negb (gi_Rank i <=? 0)) "rank must be positive" ;;?
  require (Qle_bool 0 (gi_Confidence i) && Qle_bool (gi_Confidence i) 1) "confidence must be between 0-1".
Definition failed_result (i : nat) : string := "validation failed for result " +:+ itoa (Z.of_nat i + 1) +:+ ": ".
Definition UploadDetectorResultReq_Validate (items : list DetectorResultItem) : res unit :=
  require (negb (length items =? 0)%nat) "at least one detection result is required" ;;?
  for_each (fun i r => res_wrap (failed_result i) (DetectorResultItem_Validate r)) items.
(** The ranks seen so far are those of the items before. *)
Definition UploadGranularityResultReq_Validate (items : list GranularityResultItem) : res unit :=
  require (negb (length items =? 0)%nat) "at least one granularity result is required" ;;?
  for_each (fun i r =>
    res_wrap (failed_result i) (GranularityResultItem_Validate r) ;;?
    require (negb (existsb (Z.eqb (gi_Rank r)) (map gi_Rank (take i items))))
      ("rank " +:+ itoa (gi_Rank r) +:+ " appeared repeatedly")) items.

(** ** The invariant of the tables *)

Lemma present_spec id x : present id x = true <-> ex_ID x = id /\ ex_Status x <> deleted.
Proof. unfold present. rewrite andb_true_iff, Z.eqb_eq, negb_true_iff, Z.eqb_neq. done. Qed.

Lemma map_executions_ok (h : ExecutionRow -> ExecutionRow) d :
  (forall x, ex_ID (h x) = ex_ID x) -> idb_ok d -> idb_ok (set_executions (map h (t_executions d)) d).
Proof.
  intros Hh [H1 H2 H3 H4 H5]. assert (E : map ex_ID (map h (t_executions d)) = map ex_ID (t_executions d)).
  { rewrite map_map. by apply map_ext. }
  split; cbn [i_labels t_injections t_executions set_executions i_next_injection i_next_execution]; by rewrite ?E.
Qed.
Lemma update_executions_keeps id f : (forall x, ex_ID (f x) = ex_ID x) -> tx_keeps idb_ok (update_executions id f).
Proof. intros Hf d n d' Hd [= _ <-]. apply map_executions_ok; [|done]. intros x. by case_match. Qed.
Lemma set_results_keeps (f : idb -> list DetectorResult) (g : idb -> list GranularityResult) :
  tx_keeps idb_ok (tx_do (fun d => set_results (f d) (g d) d)).
Proof. apply tx_keeps_do. intros d [H1 H2 H3 H4 H5]. by split. Qed.
Lemma duration_keeps id q : tx_keeps idb_ok (updateExecutionDuration id q).
Proof.
  apply tx_keeps_bind; [apply tx_keeps_on_err, tx_keeps_first|]. intros x. do 2 (apply tx_keeps_bind; [apply tx_keeps_require|intros _]).
  apply tx_keeps_bind; [by apply tx_keeps_on_err, update_executions_keeps|]. intros n. apply tx_keeps_require.
Qed.
Lemma upload_detector_keeps items q id : tx_keeps idb_ok (upload_detector items q id).
Proof.
  apply tx_keeps_bind; [apply duration_keeps|]. intros _. apply tx_keeps_bind; [|intros; apply tx_keeps_ret].
  apply tx_keeps_on_err, tx_keeps_bind; [apply tx_keeps_require|]. intros _. apply set_results_keeps.
Qed.
Lemma upload_granularity_keeps items q id : tx_keeps idb_ok (upload_granularity items q id).
Proof.
  apply tx_keeps_bind; [apply duration_keeps|]. intros _. apply tx_keeps_bind; [|intros; apply tx_keeps_ret].
  apply tx_keeps_on_err, tx_keeps_bind; [apply tx_keeps_require|]. intros _. apply tx_keeps_each. intros r _. apply set_results_keeps.
Qed.
Lemma execution_state_keeps id st : tx_keeps idb_ok (update_execution_state id st).
Proof.
  apply tx_keeps_bind; [apply tx_keeps_require|]. intros _. apply tx_keeps_bind.
  { apply tx_keeps_on_err, tx_keeps_on_err, tx_keeps_first. }
  intros x. apply tx_keeps_bind; [apply tx_keeps_require|]. intros _.
  apply tx_keeps_bind; [by apply tx_keeps_on_err, update_executions_keeps|]. intros n. apply tx_keeps_require.
Qed.
Lemma execution_deletion_keeps ids items d : idb_ok d -> idb_ok (Service_BatchDelete_executions ids items d).2.
Proof.
  assert (H : forall l d, idb_ok d -> idb_ok (execution_batchDeleteByIDs l d).2).
  { intros l d0 Hd. destruct l as [|i l]; [done|]. apply (tx_keeps_transaction idb_ok (batchDeleteExecutions (i :: l)) d0); [|done].
    apply tx_keeps_bind; [apply clear_keeps|]. intros _. apply delete_executions_keeps. }
  intros Hd. destruct ids; [|by apply H]. destruct items; [done|]. by apply H.
Qed.

Lemma view_inl id d r d' :
  getExecutionView id d = inl (r, d') ->
  d' = d /\ r.1 ∈ t_executions d /\ ex_ID r.1 = id /\ ex_Status r.1 <> deleted /\ r.2 = labels_of Executions_ id (i_labels d).
Proof.
  intros (x & d1 & [E ->]%tx_wrap_inl%tx_first_inl & [= <- <-])%tx_bind_inl.
  apply find_some in E as [Hx [E Hs]%present_spec]. rewrite <- list_elem_of_In in Hx. cbn [fst snd]. by rewrite E.
Qed.
Lemma create_execution_inl x d x' d' :
  createExecution x d = inl (x', d') ->
  x' = mkExecutionRow (i_next_execution d) (ex_Duration x) (ex_TaskID x) (ex_AlgorithmVersionID x) (ex_DatapackID x)
         (ex_DatasetVersionID x) (ex_State x) (ex_Status x) /\
  (ex_DatapackID x ∈ map fi_ID (t_injections d)) /\
  d' = mkIdb (i_labels d) (t_injections d) (t_executions d ++ [x']) (t_detector d) (t_granularity d)
         (i_next_injection d) (i_next_execution d + 1).
Proof.
  unfold createExecution, tx_wrap, tx_on_err. cbn [ex_DatapackID]. destruct (in_ids _ _) eqn:E; [|done]. apply in_ids_spec in E.
  by intros [= <- <-].
Qed.
Lemma create_execution_keeps x : tx_keeps idb_ok (createExecution x).
Proof.
  intros d x' d' [H1 H2 H3 [H4 H4'] H5] (E & _ & ->)%create_execution_inl. assert (Ei : ex_ID x' = i_next_execution d) by by subst.
  split; cbn [i_labels t_injections t_executions i_next_injection i_next_execution]; rewrite ?map_app; simpl; rewrite ?Ei; try done.
  - split; [by apply fresh_id_nodup|]. apply Forall_app. split; [|repeat constructor; lia].
    eapply Forall_impl; [exact H4'|]. simpl. lia.
  - eapply Forall_impl; [exact H5|]. intros k. unfold owned. destruct (k_Kind k); try done. intros Hk. apply elem_of_app. by left.
Qed.

Section ExecutionAttach.
Context (order : gmap string LabelItem -> list (string * LabelItem)) (Horder : forall m, order m ≡ₚ map_to_list m).

Lemma attach_execution_inl id items d u d' :
  attach_execution_labels order id items d = inl (u, d') <->
  on_labels (attach_labels order false Executions_ id items execution_category) d = inl (u, d').
Proof.
  unfold attach_execution_labels. destruct items as [|i items].
  { rewrite on_labels_inl.
    split; [intros [= <- <-]|intros (l & [= <- <-] & ->)]; [|by destruct d as [[]]].
    exists (i_labels d). split; [|by destruct d]. cbn. by destruct (i_labels d). }
  rewrite on_labels_inl, tx_bind_inl. unfold attach_labels. split.
  - intros (ls & d1 & (l & E & ->)%tx_wrap_inl%on_labels_inl & (l' & E' & ->)%tx_wrap_inl%tx_wrap_inl%on_labels_inl).
    exists l'. split; [|done]. apply tx_bind_inl. exists ls, l. split; [|done]. by apply tx_wrap_inl.
  - intros (l' & (ls & l & E%tx_wrap_inl & E')%tx_bind_inl & ->). exists ls, (set_i_labels l d). split.
    + apply tx_wrap_inl, on_labels_inl. by exists l.
    + apply tx_wrap_inl, tx_wrap_inl, on_labels_inl. by exists l'.
Qed.
Lemma attach_execution_keeps id items d u d' :
  idb_ok d -> id ∈ map ex_ID (t_executions d) -> attach_execution_labels order id items d = inl (u, d') -> idb_ok d'.
Proof.
  intros Hd Hid (l & E & ->)%attach_execution_inl%on_labels_inl. apply set_labels_ok; [done|..].
  - eapply attach_labels_keeps; [exact Horder|apply Hd|exact E].
  - intros k Hk. eapply (attach_links order Horder) in E as [?|[Ek Eo]]; [by left| |exact Hk]. right. unfold owned. by rewrite Ek, Eo.
Qed.

Lemma manage_execution_keeps add remove id : tx_keeps idb_ok (manage_execution_labels order add remove id).
Proof.
  intros d r d' Hd ([x ls] & d1 & (-> & Hin & Hid & _)%tx_wrap_inl%view_inl & Hr)%tx_bind_inl.
  apply tx_bind_inl in Hr as (u & d2 & Ha & Hr). assert (Hd2 : idb_ok d2).
  { cbn [fst] in Hin. apply (attach_execution_keeps (ex_ID x) add d u d2 Hd); [by apply list_elem_of_fmap_2|done]. }
  revert r d' Hd2 Hr. apply tx_keeps_bind.
  - apply tx_keeps_when, on_labels_keeps; [apply detach_labels_keeps|]. intros l v l'. apply detach_subset.
  - intros _ d3 r d4 Hd3 (-> & _)%tx_wrap_inl%view_inl. done.
Qed.
Lemma creation_of_execution_keeps task algorithm datapack dataset labels :
  tx_keeps idb_ok (create_execution order task algorithm datapack dataset labels).
Proof.
  apply tx_keeps_bind; [apply tx_keeps_require|]. intros _. apply tx_keeps_bind; [apply tx_keeps_require|]. intros _.
  intros d a d' Hd (x & d1 & E%tx_wrap_inl & (u & d2 & Ha & [= _ <-])%tx_bind_inl)%tx_bind_inl.
  assert (Hd1 := create_execution_keeps _ _ _ _ Hd E). eapply attach_execution_keeps; [done..| |done].
  apply create_execution_inl in E as (_ & _ & ->). cbn [t_executions]. rewrite map_app. apply elem_of_app. right. by left.
Qed.
End ExecutionAttach.

(** One operation of the backend on executions or injections. *)
Inductive execution_step : idb -> idb -> Prop :=
| exec_create order task algorithm datapack dataset labels d (Horder : forall m, order m ≡ₚ map_to_list m) :
    execution_step d (CreateExecutionRecord order task algorithm datapack dataset labels d).2
| exec_labels order add remove id d (Horder : forall m, order m ≡ₚ map_to_list m) :
    execution_step d (execution_ManageLabels order add remove id d).2
| exec_state id st d : execution_step d (Service_UpdateExecutionState id st d).2
| exec_detector items q id d : execution_step d (UploadDetectorResults items q id d).2
| exec_granularity items q id d : execution_step d (UploadGranularityResults items q id d).2
| exec_delete ids items d : execution_step d (Service_BatchDelete_executions ids items d).2
| exec_injection d d' : injection_step d d' -> execution_step d d'.

Lemma execution_step_keeps d d' : idb_ok d -> execution_step d d' -> idb_ok d'.
Proof.
  intros Hd Hs. revert Hd. destruct Hs; intros Hd.
  - refine (tx_keeps_transaction idb_ok _ _ _ _); [by apply creation_of_execution_keeps|done].
  - refine (tx_keeps_transaction idb_ok _ _ _ _); [by apply manage_execution_keeps|done].
  - refine (tx_keeps_transaction idb_ok _ _ _ _); [apply execution_state_keeps|done].
  - refine (tx_keeps_transaction idb_ok _ _ _ _); [apply upload_detector_keeps|done].
  - refine (tx_keeps_transaction idb_ok _ _ _ _); [apply upload_granularity_keeps|done].
  - by apply execution_deletion_keeps.
  - by eapply injection_step_keeps.
Qed.

(** ** What an ended execution keeps *)

(** The run as it was: nothing but labels and the deletion mark differs. *)
Definition same_run (x x' : ExecutionRow) : Prop :=
  ex_ID x' = ex_ID x /\ ex_State x' = ex_State x /\ ex_Duration x' = ex_Duration x.
Definition framed (d0 d : idb) : Prop :=
  (forall x, x ∈ t_executions d0 -> exists x', x' ∈ t_executions d /\ same_run x x') /\
  t_detector d = t_detector d0 /\ t_granularity d = t_granularity d0.

Lemma framed_refl d : framed d d.
Proof. split; [|done]. intros x Hx. by exists x. Qed.
Lemma on_labels_framed {A} d0 (m : Tx ldb A) : tx_keeps (framed d0) (on_labels m).
Proof. intros d a d' Hd (l & _ & ->)%on_labels_inl. done. Qed.
Lemma update_injections_framed d0 p f : tx_keeps (framed d0) (update_injections p f).
Proof. intros d n d' Hd (_ & _ & ->)%update_injections_inl. done. Qed.
Lemma create_framed d0 r : tx_keeps (framed d0) (createInjectionRecord r).
Proof. intros d r' d' Hd (_ & _ & ->)%create_inl. done. Qed.
Lemma delete_executions_framed d0 ids : tx_keeps (framed d0) (delete_executions ids).
Proof.
  apply tx_keeps_do. intros d [Hx Hr]. split; [|done]. intros x (x' & Hx' & E1 & E2 & E3)%Hx.
  eexists. split; [by apply list_elem_of_fmap_2|]. unfold same_run. by case_match.
Qed.
Lemma load_framed d0 id : tx_keeps (framed d0) (loadInjection id).
Proof. apply tx_keeps_on_err, tx_keeps_first. Qed.

(** Computations built from parts that keep the runs. *)
Ltac frame_steps :=
  repeat first
    [ apply tx_keeps_ret | apply tx_keeps_err | apply tx_keeps_get | apply tx_keeps_require | apply tx_keeps_first
    | apply on_labels_framed | apply update_injections_framed | apply create_framed | apply delete_executions_framed
    | apply load_framed | apply tx_keeps_on_err | apply tx_keeps_when
    | (apply tx_keeps_bind; [|intros ?]) ].

Lemma attach_injection_framed d0 order id items : tx_keeps (framed d0) (attach_injection_labels order id items).
Proof. unfold attach_injection_labels. destruct items; unfold addInjectionLabels; frame_steps. Qed.
Lemma cascade_framed d0 refused ids : tx_keeps (framed d0) (deleteInjectionsCascade refused ids).
Proof.
  unfold deleteInjectionsCascade, repo_listExecutionsByDatapackIDs, removeLabelsFromExecutions, Injections.batchDeleteExecutions,
    clearInjectionLabels, batchDeleteInjections, statement.
  frame_steps; repeat case_match; frame_steps; by apply tx_keeps_do.
Qed.

Lemma batch_one_labels addMap removeMap ops i b :
  exists l, b_db (batch_one addMap removeMap ops i b) = set_i_labels l (b_db b).
Proof.
  assert (Hid : forall d : idb, exists l, d = set_i_labels l d) by (intros d; exists (i_labels d); by destruct d).
  unfold batch_one. destruct (ops !! i) as [op|]; [|apply Hid].
  destruct (match known_ids addMap (lo_Add op) with [] => _ | _ => _ end) as [[u d]|e] eqn:E; [|apply Hid].
  assert (Hd : exists l, d = set_i_labels l (b_db b)).
  { destruct (known_ids addMap (lo_Add op)); [injection E as _ <-; apply Hid|]. apply addInjectionLabels_inl in E. eauto. }
  destruct Hd as (l & ->).
  destruct (match known_ids removeMap (lo_Remove op) with [] => _ | _ => _ end) as [[v d2]|e] eqn:E2; [|by exists l].
  destruct (known_ids removeMap (lo_Remove op)); [injection E2 as _ <-; by exists l|].
  apply on_labels_inl in E2 as (l2 & _ & ->). by exists l2.
Qed.
Lemma batch_framed d0 order op_order items d : framed d0 d -> framed d0 (BatchManageLabels order op_order items d).2.
Proof.
  assert (Hset : forall l d, framed d0 d -> framed d0 (set_i_labels l d)) by done.
  intros Hd. unfold BatchManageLabels. destruct items as [|i items]; [done|]. cbv beta iota zeta.
  destruct (List.filter _ (map lo_ID (i :: items))) as [|v valid]; [done|].
  destruct (collect_items _ _ _ _) as [adds removes].
  match goal with |- context [match ?x with inl _ => _ | inr _ => _ end] => destruct x as [[ls d1]|e] eqn:E end; [|done].
  assert (Hd1 : framed d0 d1).
  { destruct adds; [by injection E as _ <-|]. apply tx_wrap_inl, on_labels_inl in E as (lb & _ & ->). by apply Hset. }
  cbn [snd]. match goal with |- context [fold_left ?f ?l ?b0] => set (b := fold_left f l b0) end.
  assert (Hb : framed d0 (b_db b)).
  { subst b. generalize (v :: valid) as todo.
    match goal with |- forall todo, framed _ (b_db (fold_left _ _ ?b0)) => assert (H0 : framed d0 (b_db b0)) by done; revert H0; generalize b0 end.
    intros b0 H0 todo. revert b0 H0. induction todo as [|t todo IH]; intros b0 H0; [done|]. simpl. apply IH.
    match goal with |- context [batch_one ?a ?r ?o t b0] => destruct (batch_one_labels a r o t b0) as (l & ->) end. by apply Hset. }
  by destruct (b_found b).
Qed.
Lemma injection_step_framed d d' : injection_step d d' -> framed d d'.
Proof.
  intros [order req labels d1 Ho|order id name labels d1 Ho|order add remove id d1 Ho|order op_order items d1 Ho|id g d1|name st d1|name s e d1|refused ids items d1].
  - refine (tx_keeps_transaction (framed d1) _ _ _ (framed_refl d1)). unfold create_injection. frame_steps. apply attach_injection_framed.
  - unfold Clone. destruct (existing_injection id d1) as [[original d2]|e] eqn:E; [|apply framed_refl].
    match goal with |- context [transaction ?m d1] => assert (H : framed d1 (transaction m d1).2) end.
    { apply tx_keeps_transaction; [|apply framed_refl]. unfold known_as. frame_steps. apply attach_injection_framed. }
    destruct (transaction _ d1) as [[cloned|err] d4]; [|done]. by destruct (tx_wrap _ _ d4) as [[? ?]|?].
  - refine (tx_keeps_transaction (framed d1) _ _ _ (framed_refl d1)). unfold manage_labels, existing_injection, known_as, getInjectionWithLabels.
    frame_steps. apply attach_injection_framed.
  - apply batch_framed, framed_refl.
  - refine (tx_keeps_transaction (framed d1) _ _ _ (framed_refl d1)). unfold UpdateGroundtruth, updateGroundtruth. frame_steps.
  - refine (tx_keeps_transaction (framed d1) _ _ _ (framed_refl d1)).
    unfold update_state, named_injection, findInjectionByName. frame_steps.
  - refine (tx_keeps_transaction (framed d1) _ _ _ (framed_refl d1)).
    unfold update_times, named_injection, findInjectionByName. frame_steps.
  - apply deletion_keeps_any; [intros l; apply cascade_framed|apply framed_refl].
Qed.

(** *** Every step *)

Definition ended (x : ExecutionRow) : Prop := ex_State x <> ExecutionInitial.
(** What [d'] keeps of the runs of [d] that had ended. *)
Definition keeps_ended (d d' : idb) : Prop :=
  forall x, x ∈ t_executions d -> ended x ->
    exists x', x' ∈ t_executions d' /\ ex_ID x' = ex_ID x /\ ex_State x' = ex_State x /\
      (ex_State x = ExecutionSuccess -> ex_Duration x' = ex_Duration x /\ results_of (ex_ID x) d' = results_of (ex_ID x) d).

Lemma framed_keeps_ended d d' : framed d d' -> keeps_ended d d'.
Proof.
  intros [Hx [E1 E2]] x Hin _. destruct (Hx x Hin) as (x' & Hx' & H1 & H2 & H3). exists x'. split_and!; try done.
  intros _. split; [done|]. unfold results_of. by rewrite E1, E2.
Qed.
Lemma keeps_ended_refl d : keeps_ended d d.
Proof. apply framed_keeps_ended, framed_refl. Qed.

(** The row that is present under an identifier. *)
Lemma find_present id l x : find (present id) l = Some x -> x ∈ l /\ ex_ID x = id /\ ex_Status x <> deleted.
Proof. intros [Hx Hp%present_spec]%find_some. by rewrite list_elem_of_In. Qed.

Lemma duration_inl id q d u d' :
  updateExecutionDuration id q d = inl (u, d') ->
  exists x, find (present id) (t_executions d) = Some x /\ ex_Status x = enabled /\ ex_State x <> ExecutionSuccess /\
    d' = set_executions (map (fun x => if present id x then with_duration q x else x) (t_executions d)) d.
Proof.
  intros (x & d1 & [E ->]%tx_wrap_inl%tx_first_inl & Hr)%tx_bind_inl.
  apply tx_bind_inl in Hr as (? & ? & [Hs%Z.eqb_eq ->]%tx_require_inl & Hr).
  apply tx_bind_inl in Hr as (? & ? & [Hn%negb_true_iff%bool_decide_eq_false ->]%tx_require_inl & Hr).
  apply tx_bind_inl in Hr as (n & d2 & [= _ <-] & [_ ->]%tx_require_inl). by exists x.
Qed.

(** An upload for one execution that is not successful, and nothing else. *)
Lemma upload_keeps_ended id (x0 : ExecutionRow) h ds gs d :
  idb_ok d -> find (present id) (t_executions d) = Some x0 -> ex_State x0 <> ExecutionSuccess ->
  (forall x, same_run x (h x) \/ (present id x = true /\ ex_ID (h x) = ex_ID x /\ ex_State (h x) = ex_State x)) ->
  Forall (fun r => dr_ExecutionID r = id) ds -> Forall (fun r => gr_ExecutionID r = id) gs ->
  keeps_ended d (set_results (t_detector d ++ ds) (t_granularity d ++ gs) (set_executions (map h (t_executions d)) d)).
Proof.
  intros Hd (Hx0 & Hid & _)%find_present Hn Hh Hds Hgs x Hx He. exists (h x). split; [by apply list_elem_of_fmap_2|].
  assert (Hone : ex_ID x = id -> x = x0).
  { intros E. exact (nodup_map_inj ex_ID _ x x0 (proj1 (inj_executions _ Hd)) Hx Hx0 (eq_trans E (eq_sym Hid))). }
  destruct (Hh x) as [(E1 & E2 & E3)|(Hp & E1 & E2)]; (split; [done|]; split; [done|]; intros Hs).
  - split; [done|]. assert (Hne : ex_ID x <> id) by (intros E%Hone; by subst).
    unfold results_of. cbn [t_detector t_granularity set_results set_executions].
    rewrite !List.filter_app, !map_app.
    assert (N1 : List.filter (fun r => dr_ExecutionID r =? ex_ID x) ds = []).
    { clear -Hds Hne. induction Hds as [|r ds Hr _ IH]; [done|]. simpl. rewrite Hr. by destruct (Z.eqb_spec id (ex_ID x)). }
    assert (N2 : List.filter (fun r => gr_ExecutionID r =? ex_ID x) gs = []).
    { clear -Hgs Hne. induction Hgs as [|r gs Hr _ IH]; [done|]. simpl. rewrite Hr. by destruct (Z.eqb_spec id (ex_ID x)). }
    rewrite N1, N2. simpl. by rewrite !app_nil_r.
  - exfalso. apply present_spec in Hp as [E _]. apply Hone in E. by subst.
Qed.

Lemma save_granularity_inl rs d u d' :
  saveGranularityResults rs d = inl (u, d') -> d' = set_results (t_detector d) (t_granularity d ++ rs) d.
Proof.
  intros (? & ? & [_ ->]%tx_require_inl & Hr)%tx_bind_inl. revert d Hr. induction rs as [|r rs IH]; intros d.
  - intros [= _ <-]. rewrite app_nil_r. by destruct d.
  - cbn [tx_each]. intros (? & d1 & [= _ <-] & Hr)%tx_bind_inl. apply IH in Hr as ->.
    cbn [t_granularity t_detector set_results]. by rewrite <- app_assoc.
Qed.

Lemma with_duration_case id q x :
  same_run x (if present id x then with_duration q x else x) \/
  (present id x = true /\ ex_ID (if present id x then with_duration q x else x) = ex_ID x /\
   ex_State (if present id x then with_duration q x else x) = ex_State x).
Proof. destruct (present id x); [by right|by left]. Qed.

Lemma set_nothing d : set_results (t_detector d ++ []) (t_granularity d ++ []) d = d.
Proof. rewrite !app_nil_r. by destruct d. Qed.

Lemma execution_step_ended d d' : idb_ok d -> execution_step d d' -> keeps_ended d d'.
Proof.
  intros Hd Hs. revert Hd. destruct Hs as [order task algorithm datapack dataset labels d Ho|order add remove id d Ho|id st d|items q id d|items q id d|ids items d|d d' Hi]; intros Hd.
  - unfold CreateExecutionRecord, transaction. destruct (create_execution _ _ _ _ _ _ d) as [[n d']|e] eqn:E; [|apply keeps_ended_refl].
    apply framed_keeps_ended. apply tx_bind_inl in E as (? & ? & [_ ->]%tx_require_inl & E).
    apply tx_bind_inl in E as (? & ? & [_ ->]%tx_require_inl & E).
    apply tx_bind_inl in E as (made & d1 & (_ & _ & ->)%tx_wrap_inl%create_execution_inl & E).
    apply tx_bind_inl in E as (? & d2 & (lb & _ & ->)%(attach_execution_inl order)%on_labels_inl & [= _ <-]).
    split; [|done]. intros y Hy. exists y. split; [|done]. cbn. apply elem_of_app. by left.
  - apply framed_keeps_ended. refine (tx_keeps_transaction (framed d) _ _ _ (framed_refl d)).
    unfold manage_execution_labels, known_as, getExecutionView. apply tx_keeps_bind; [frame_steps|]. intros [x ls].
    unfold attach_execution_labels, addExecutionLabels. destruct add; frame_steps.
  - unfold Service_UpdateExecutionState, transaction. destruct (update_execution_state id st d) as [[u d']|e] eqn:E; [|apply keeps_ended_refl].
    apply tx_bind_inl in E as (? & ? & [_ ->]%tx_require_inl & E).
    apply tx_bind_inl in E as (x0 & ? & [Ef ->]%tx_wrap_inl%tx_wrap_inl%tx_first_inl & E).
    apply tx_bind_inl in E as (? & ? & [Hi%bool_decide_eq_true ->]%tx_require_inl & E).
    apply tx_bind_inl in E as (n & d2 & [= _ <-] & [_ ->]%tx_require_inl).
    apply find_present in Ef as (Hx0 & Hid & _). intros y Hy He. exists y. split; [|done]. cbn [t_executions set_executions].
    apply list_elem_of_fmap. exists y. split; [|done]. destruct (present id y) eqn:Ep; [|done]. exfalso.
    apply present_spec in Ep as [E _]. apply He.
    by rewrite (nodup_map_inj ex_ID _ y x0 (proj1 (inj_executions _ Hd)) Hy Hx0 (eq_trans E (eq_sym Hid))).
  - unfold UploadDetectorResults, transaction. destruct (upload_detector items q id d) as [[u d']|e] eqn:E; [|apply keeps_ended_refl].
    apply tx_bind_inl in E as (? & d1 & (x0 & Ef & _ & Hns & ->)%duration_inl & E).
    apply tx_bind_inl in E as (? & d2 & E%tx_wrap_inl & [= _ <-]).
    apply tx_bind_inl in E as (? & ? & [_ ->]%tx_require_inl & [= _ <-]).
    cbn [snd]. assert (H := upload_keeps_ended id x0 _ (map (fun i => mkDetectorResult i id) items) [] d Hd Ef Hns (with_duration_case id q)).
    rewrite app_nil_r in H. apply H; [|constructor]. by apply Forall_map, Forall_true.
  - unfold UploadGranularityResults, transaction. destruct (upload_granularity items q id d) as [[u d']|e] eqn:E; [|apply keeps_ended_refl].
    apply tx_bind_inl in E as (? & d1 & (x0 & Ef & _ & Hns & ->)%duration_inl & E).
    apply tx_bind_inl in E as (? & d2 & ->%tx_wrap_inl%save_granularity_inl & [= _ <-]).
    cbn [snd]. assert (H := upload_keeps_ended id x0 _ [] (map (fun i => mkGranularityResult i id) items) d Hd Ef Hns (with_duration_case id q)).
    rewrite app_nil_r in H. apply H; [constructor|]. by apply Forall_map, Forall_true.
  - apply framed_keeps_ended. assert (H : forall l d0, framed d0 (execution_batchDeleteByIDs l d0).2).
    { intros l d0. destruct l as [|i l]; [apply framed_refl|].
      apply (tx_keeps_transaction (framed d0) (batchDeleteExecutions (i :: l)) d0); [unfold batchDeleteExecutions; frame_steps|apply framed_refl]. }
    unfold Service_BatchDelete_executions. destruct ids; [|apply H]. destruct items; [apply framed_refl|apply H].
  - by apply framed_keeps_ended, injection_step_framed.
Qed.

(** C27. An execution that has ended stays ended: whatever operations on executions,
    injections and labels follow, its state never changes again, and when it was successful
    neither do its duration and its results - no upload, late update, deletion or
    relabelling touches them. *)
Theorem ended_execution_stays d0 d x :
  idb_ok d0 -> rtc execution_step d0 d -> x ∈ t_executions d0 -> ended x ->
  exists x', x' ∈ t_executions d /\ ex_ID x' = ex_ID x /\ ex_State x' = ex_State x /\
    (ex_State x = ExecutionSuccess -> ex_Duration x' = ex_Duration x /\ results_of (ex_ID x) d = results_of (ex_ID x) d0).
Proof.
  intros Hd Hs. revert x. induction Hs as [d|d d1 d2 H1 _ IH]; intros x Hx He; [by apply keeps_ended_refl|].
  destruct (execution_step_ended _ _ Hd H1 x Hx He) as (x1 & Hx1 & E1 & E2 & E3).
  destruct (IH (execution_step_keeps _ _ Hd H1) x1 Hx1) as (x2 & Hx2 & F1 & F2 & F3); [unfold ended; congruence|].
  exists x2. split; [done|]. split; [congruence|]. split; [congruence|]. intros Hsucc. destruct (E3 Hsucc) as [G1 G2].
  destruct F3 as [F3 F4]; [congruence|]. rewrite E1 in F4. split; congruence.
Qed.

(** ** What the operations do *)

Lemma present_unique (x y : ExecutionRow) d :
  idb_ok d -> x ∈ t_executions d -> y ∈ t_executions d -> ex_ID x = ex_ID y -> x = y.
Proof. intros Hd. exact (nodup_map_inj ex_ID _ x y (proj1 (inj_executions _ Hd))). Qed.
Lemma update_present (x : ExecutionRow) f d :
  idb_ok d -> find (present (ex_ID x)) (t_executions d) = Some x ->
  update_executions (ex_ID x) f d =
  inl (Z.of_nat (length (List.filter (present (ex_ID x)) (t_executions d))),
       set_executions (map (fun y => if ex_ID y =? ex_ID x then f y else y) (t_executions d)) d) /\
  (Z.of_nat (length (List.filter (present (ex_ID x)) (t_executions d))) =? 0) = false.
Proof.
  intros Hd Hf. assert (Hx := Hf). apply find_present in Hx as (Hx & _ & Hs). split.
  - unfold update_executions. do 3 f_equal. apply map_ext_in. intros y Hy%list_elem_of_In.
    destruct (Z.eqb_spec (ex_ID y) (ex_ID x)) as [E|E].
    + rewrite (present_unique y x d Hd Hy Hx E). by rewrite (proj2 (present_spec _ _)).
    + destruct (present (ex_ID x) y) eqn:Ep; [|done]. by apply present_spec in Ep as [? _].
  - apply Z.eqb_neq. assert (Hin : x ∈ List.filter (present (ex_ID x)) (t_executions d)).
    { apply list_elem_of_In, filter_In. rewrite <- list_elem_of_In. split; [done|]. by apply present_spec. }
    destruct (List.filter _ _); [by apply not_elem_of_nil in Hin|]. simpl. lia.
Qed.

(** The state of an execution as the runtime reports it: it is stored when the execution
    is there and still initial; an execution that has ended refuses it with an internal
    error, an unknown one is not found, no identifier is a bad request, and then nothing
    is changed. *)
Theorem UpdateExecutionState_spec id st d :
  idb_ok d ->
  let '(r, d') := Service_UpdateExecutionState id st d in
  if id <=? 0 then d' = d /\ exists e, r = inr e /\ status_is 400 e
  else match find (present id) (t_executions d) with
  | None => d' = d /\ exists e, r = inr e /\ status_is 404 e
  | Some x =>
      if bool_decide (ex_State x = ExecutionInitial) then
        r = inl tt /\ d' = set_executions (map (fun y => if ex_ID y =? id then with_state st y else y) (t_executions d)) d
      else d' = d /\ exists e, r = inr e /\ status_is 500 e
  end.
Proof.
  intros Hd. unfold Service_UpdateExecutionState, transaction, update_execution_state. unfold tx_bind at 1.
  destruct (id <=? 0); cbn [negb tx_require].
  { split; [done|]. eexists. split; [done|]. by apply tagged_status. }
  unfold tx_ret, loadExecution, tx_wrap, tx_first. unfold tx_bind at 1. unfold tx_on_err at 1 2.
  destruct (find (present id) (t_executions d)) as [x|] eqn:Ef.
  - unfold tx_bind at 1. case_bool_decide as Hs; cbn [tx_require].
    + assert (Hid := Ef). apply find_present in Hid as (_ & <- & _). destruct (update_present x (with_state st) d Hd Ef) as [Hu Hn].
      unfold tx_ret, updateExecutionFields, tx_wrap, tx_on_err, tx_bind. rewrite Hu, Hn. done.
    + split; [done|]. eexists. by split.
  - split; [done|]. eexists. split; [done|]. by apply tagged_status.
Qed.

(** Results of an algorithm: for an enabled execution that is not successful, uploading
    a non-empty list stores it with the duration; whoever then reads the execution finds
    the duration, its labels and the results - those of earlier uploads first - unless the
    algorithm is the detector, whose ranked results are never shown. *)
Theorem uploaded_results_are_read algorithm_name detector items q x d :
  idb_ok d -> find (present (ex_ID x)) (t_executions d) = Some x -> ex_Status x = enabled -> ex_State x <> ExecutionSuccess ->
  items <> [] ->
  exists d', UploadGranularityResults items q (ex_ID x) d = (inl (Z.of_nat (length items)), d') /\
    Service_GetExecution algorithm_name detector (ex_ID x) d' =
      inl ((with_duration q x, labels_of Executions_ (ex_ID x) (i_labels d)),
           if String.eqb (algorithm_name (ex_AlgorithmVersionID x)) detector then (results_of (ex_ID x) d).1 else [],
           if String.eqb (algorithm_name (ex_AlgorithmVersionID x)) detector then [] else (results_of (ex_ID x) d).2 ++ items, d').
Proof.
  intros Hd Hf Hst Hns Hne. destruct (update_present x (with_duration q) d Hd Hf) as [Hu Hn].
  set (d1 := set_executions (map (fun y => if ex_ID y =? ex_ID x then with_duration q y else y) (t_executions d)) d) in *.
  assert (Hdur : updateExecutionDuration (ex_ID x) q d = inl (tt, d1)).
  { unfold updateExecutionDuration, tx_first, tx_wrap. unfold tx_bind at 1. unfold tx_on_err at 1. rewrite Hf.
    rewrite Hst, Z.eqb_refl. cbn [tx_require]. rewrite bool_decide_eq_false_2 by done. cbn [negb tx_require].
    unfold tx_ret, tx_bind, tx_on_err. rewrite Hu, Hn. done. }
  assert (Hsave : forall rs d, tx_each (fun r => tx_do (fun d => set_results (t_detector d) (t_granularity d ++ [r]) d)) rs d
                    = inl (tt, set_results (t_detector d) (t_granularity d ++ rs) d)).
  { induction rs as [|r rs IH]; intros d0; cbn [tx_each]; [rewrite app_nil_r; by destruct d0|].
    unfold tx_bind, tx_do. rewrite IH. cbn [t_detector t_granularity set_results]. by rewrite <- app_assoc. }
  exists (set_results (t_detector d1) (t_granularity d1 ++ map (fun i => mkGranularityResult i (ex_ID x)) items) d1). split.
  - unfold UploadGranularityResults, transaction, upload_granularity, tx_wrap, saveGranularityResults. unfold tx_bind at 1. rewrite Hdur.
    rewrite length_map. destruct items as [|i items]; [done|]. cbn [length Nat.eqb negb tx_require].
    unfold tx_bind at 1, tx_on_err. unfold tx_bind at 1, tx_ret at 1. by rewrite Hsave.
  - unfold Service_GetExecution, getExecutionResultView, getExecutionView, known_as, tx_wrap, tx_first, tx_on_err, tx_get, tx_bind.
    cbn [t_executions set_results]. unfold d1 at 1. cbn [t_executions set_executions].
    assert (Hfind : find (present (ex_ID x)) (map (fun y => if ex_ID y =? ex_ID x then with_duration q y else y) (t_executions d))
              = Some (with_duration q x)).
    { clear -Hf. induction (t_executions d) as [|y l IH]; [done|]. simpl in *.
      assert (Hp : present (ex_ID x) (if ex_ID y =? ex_ID x then with_duration q y else y) = present (ex_ID x) y) by by destruct (ex_ID y =? ex_ID x).
      rewrite Hp. destruct (present (ex_ID x) y) eqn:Ep; [|by apply IH]. injection Hf as ->. by rewrite Z.eqb_refl. }
    rewrite Hfind. cbn [fst ex_ID with_duration ex_with ex_AlgorithmVersionID]. unfold results_of. cbn [t_granularity t_detector set_results].
    assert (E1 : t_granularity d1 = t_granularity d) by done. assert (E2 : t_detector d1 = t_detector d) by done. rewrite E1, E2.
    rewrite List.filter_app, map_app.
    assert (Hnew : map gr_Item (List.filter (fun r => gr_ExecutionID r =? ex_ID x) (map (fun i => mkGranularityResult i (ex_ID x)) items)) = items).
    { clear. induction items as [|i items IH]; [done|]. simpl. rewrite Z.eqb_refl. simpl. by rewrite IH. }
    rewrite Hnew. destruct (String.eqb _ detector); done.
Qed.

(** A new execution: for a task, an algorithm version and a datapack that is stored,
    when no label key has a colon, one row is added: initial, enabled, under a fresh
    identifier, with the labels of the request; the labels of other owners are as before. *)
Theorem CreateExecutionRecord_spec order (Horder : forall m, order m ≡ₚ map_to_list m) task algorithm datapack dataset labels d :
  idb_ok d -> task <> "" -> 0 < algorithm -> 0 < datapack -> datapack ∈ map fi_ID (t_injections d) ->
  Forall (fun i => free_of ":" (li_Key i)) labels -> Forall (fun l => free_of ":" (l_Key l)) (t_labels (i_labels d)) ->
  exists d', CreateExecutionRecord order task algorithm datapack dataset labels d = (inl (i_next_execution d), d') /\
    t_injections d' = t_injections d /\
    t_executions d' = t_executions d ++
      [mkExecutionRow (i_next_execution d) 0 (Some task) algorithm datapack dataset ExecutionInitial enabled] /\
    (i_next_execution d ∉ map ex_ID (t_executions d)) /\
    (forall k v, has_label Executions_ (i_next_execution d) k v (i_labels d') <-> wanted labels k v) /\
    (forall kind owner k v, (kind, owner) <> (Executions_, i_next_execution d) ->
       has_label kind owner k v (i_labels d') <-> has_label kind owner k v (i_labels d)).
Proof.
  intros Hd Htask Ha Hp Hin Hfree Hfree'.
  set (x := mkExecutionRow (i_next_execution d) 0 (Some task) algorithm datapack dataset ExecutionInitial enabled).
  set (d1 := mkIdb (i_labels d) (t_injections d) (t_executions d ++ [x]) (t_detector d) (t_granularity d)
                (i_next_injection d) (i_next_execution d + 1)).
  assert (Hfresh : i_next_execution d ∉ map ex_ID (t_executions d)).
  { destruct Hd as [_ _ _ [_ Hlt] _]. rewrite Forall_forall in Hlt. intros H. specialize (Hlt _ H). lia. }
  assert (Hc : createExecution (mkExecutionRow 0 0 (Some task) algorithm datapack dataset ExecutionInitial enabled) d = inl (x, d1)).
  { unfold createExecution, tx_wrap, tx_on_err. cbn [ex_DatapackID]. by rewrite (proj2 (in_ids_spec _ _) Hin). }
  assert (Hd1 : idb_ok d1) by by eapply create_execution_keeps.
  assert (Hat : exists d', attach_execution_labels order (i_next_execution d) labels d1 = inl (tt, d')).
  { unfold attach_execution_labels. destruct labels as [|i items]; [by eexists|].
    destruct (request_labels_total order Horder (i :: items) execution_category (i_labels d1)) as (ls & l1 & E); [done..|].
    assert (Hcreate : tx_wrap "failed to create or update labels: "
              (on_labels (CreateOrUpdateLabelsFromItems order (i :: items) execution_category)) d1 = inl (ls, set_i_labels l1 d1)).
    { apply tx_wrap_inl, on_labels_inl. by exists l1. }
    unfold tx_bind. rewrite Hcreate. eexists. done. }
  destruct Hat as (d' & Hat). exists d'. split.
  - unfold CreateExecutionRecord, transaction, create_execution. unfold tx_bind at 1.
    rewrite (proj2 (String.eqb_neq _ _) Htask). cbn [negb tx_require]. unfold tx_ret at 1, tx_bind at 1.
    rewrite (proj2 (Z.leb_gt _ _) Ha), (proj2 (Z.leb_gt _ _) Hp). cbn [orb negb tx_require].
    unfold tx_ret at 1, tx_bind at 1, tx_on_err. rewrite Hc. cbn [ex_ID x]. unfold tx_bind. by rewrite Hat.
  - apply attach_execution_inl, on_labels_inl in Hat as (l & E & ->).
    apply (attach_labels_spec order Horder) in E as [Hthis Hother]; [|apply Hd1]. split; [done|]. split; [done|]. split; [done|].
    split; [|done]. intros k v. rewrite Hthis. split; [|by right]. intros [(l0 & [_ Hk]%elem_labels_of & _)|?]; [|done].
    destruct Hd as [_ _ _ _ Ho]. rewrite Forall_forall in Ho. apply Ho in Hk. unfold owned in Hk. cbn in Hk. done.
Qed.

Module ExecutionSample.
Import InjectionSample.
Definition e1 : idb := (CreateExecutionRecord order "task-9" 7 1 None [item "tag" "x"] d2).2.
Definition results : list GranularityResultItem := [mkGranularityItem "service" "ts-order" 1 (1 # 2)].
Definition e2 : idb := (UploadGranularityResults results (3 # 2) 1 e1).2.
Definition e3 : idb := (Service_UpdateExecutionState 1 ExecutionSuccess e2).2.
Definition e4 : idb := (UploadGranularityResults results 9 1 e3).2.

Lemma step1 : execution_step d2 e1.
Proof. exact (exec_create order "task-9" 7 1 None [item "tag" "x"] d2 order_ok). Qed.
Lemma e1_ok : idb_ok e1.
Proof. exact (execution_step_keeps _ _ inj2_ok step1). Qed.
Lemma e2_ok : idb_ok e2.
Proof. exact (execution_step_keeps _ _ e1_ok (exec_granularity results (3 # 2) 1 e1)). Qed.
Lemma e3_ok : idb_ok e3.
Proof. exact (execution_step_keeps _ _ e2_ok (exec_state 1 ExecutionSuccess e2)). Qed.
Definition run1 (q : Q) (st : ExecutionState) : ExecutionRow := mkExecutionRow 1 q (Some "task-9") 7 1 None st enabled.
Lemma e1_rows : t_executions e1 = [run1 0 ExecutionInitial].
Proof. vm_compute. reflexivity. Qed.
Lemma e3_rows : t_executions e3 = [run1 (3 # 2) ExecutionSuccess].
Proof. vm_compute. reflexivity. Qed.
Lemma late_steps : rtc execution_step e3 e4.
Proof. eapply rtc_l; [exact (exec_granularity results 9 1 e3)|apply rtc_refl]. Qed.

Lemma success_ended : ended (run1 (3 # 2) ExecutionSuccess).
Proof. discriminate. Qed.
(** A late upload changes nothing. *)
Lemma ended_execution_stays_witness :
  exists x', x' ∈ t_executions e4 /\ ex_ID x' = 1 /\ ex_State x' = ExecutionSuccess /\
    ex_Duration x' = 3 # 2 /\ results_of 1 e4 = results_of 1 e3.
Proof.
  assert (Hin : run1 (3 # 2) ExecutionSuccess ∈ t_executions e3) by (rewrite e3_rows; left).
  destruct (ended_execution_stays e3 e4 _ e3_ok late_steps Hin success_ended) as (x' & H1 & H2 & H3 & H4).
  destruct (H4 eq_refl) as [H5 H6]. exists x'. exact (conj H1 (conj H2 (conj H3 (conj H5 H6)))).
Defined.

Lemma UpdateExecutionState_spec_witness :
  let '(r, d') := Service_UpdateExecutionState 1 ExecutionFailed e3 in
  d' = e3 /\ exists e, r = inr e /\ status_is 500 e.
Proof.
  assert (H := UpdateExecutionState_spec 1 ExecutionFailed e3 e3_ok). rewrite e3_rows in H. exact H.
Defined.

Lemma found_run : find (present (ex_ID (run1 0 ExecutionInitial))) (t_executions e1) = Some (run1 0 ExecutionInitial).
Proof. rewrite e1_rows. reflexivity. Qed.
Lemma not_success : ex_State (run1 0 ExecutionInitial) <> ExecutionSuccess.
Proof. discriminate. Qed.
Lemma some_results : results <> [].
Proof. discriminate. Qed.
Lemma uploaded_results_are_read_witness :
  exists d', UploadGranularityResults results (3 # 2) 1 e1 = (inl 1, d') /\
    exists view, Service_GetExecution (fun _ => "rca") "detector" 1 d' = inl (view, [], results, d') /\
                 ex_Duration view.1 = 3 # 2.
Proof.
  destruct (uploaded_results_are_read (fun _ => "rca") "detector" results (3 # 2) _ e1 e1_ok found_run eq_refl not_success some_results)
    as (d' & H1 & H2).
  exists d'. split; [exact H1|]. eexists. split; [exact H2|reflexivity].
Defined.

Lemma task_named : "task-9" <> "".
Proof. discriminate. Qed.
Lemma datapack_there : 1 ∈ map fi_ID (t_injections d2).
Proof. apply (bool_decide_unpack _). vm_compute. exact I. Qed.
Lemma plain_key : Forall (fun i => free_of ":" (li_Key i)) [item "tag" "x"].
Proof. apply (bool_decide_unpack _). vm_compute. exact I. Qed.
Lemma plain_keys : Forall (fun l => free_of ":" (l_Key l)) (t_labels (i_labels d2)).
Proof. apply (bool_decide_unpack _). vm_compute. exact I. Qed.
Lemma CreateExecutionRecord_spec_witness :
  exists d', CreateExecutionRecord order "task-9" 7 1 None [item "tag" "x"] d2 = (inl (i_next_execution d2), d') /\
    has_label Executions_ (i_next_execution d2) "tag" "x" (i_labels d').
Proof.
  destruct (CreateExecutionRecord_spec order order_ok "task-9" 7 1 None [item "tag" "x"] d2 inj2_ok task_named eq_refl eq_refl
              datapack_there plain_key plain_keys) as (d' & H1 & _ & _ & _ & H5 & _).
  exists d'. split; [exact H1|]. apply (proj2 (H5 "tag" "x")). exists (item "tag" "x"). split; reflexivity.
Defined.

(** The results of an execution that failed can still be replaced, by adding to them. *)
Example failed_execution_takes_results :
  let failed := (Service_UpdateExecutionState 1 ExecutionFailed e2).2 in
  results_of 1 (UploadGranularityResults results 9 1 failed).2 = ([], results ++ results).
Proof. vm_compute. reflexivity. Qed.
End ExecutionSample.
