(* ===== verification/Owners.v ===== *)
(** * The owners of injections and executions
      ([service/consumer/owner_adapter.go])

    The runtime reaches the rows of [Injections] and [Executions] through an adapter, which
    asks a remote service when one is enabled and the service of the same process
    otherwise.  The services of the process are the instances of the classes that
    [EventHandler], [FaultInjection] and [Executors] are written against. *)

From Stdlib Require Import QArith.
From S2P Require Import Prelude GoStrings Consts Redis Task TaskQueue TaskSubmit TaskWorker FaultBatch EventHandler Executors Search InjectionSpec FaultInjection Tables Labels Injections Executions.
#[local] Open Scope Z_scope.

(** ** The adapter *)

(** What the adapter was built with: whether the remote client is there and enabled,
    whether it is required, whether the service of the process is there. *)
Record owner_adapter := mkOwnerAdapter { oa_remote : bool; oa_requireRemote : bool; oa_local : bool }.
Definition through {S A} (a : owner_adapter) (missing : string) (remote local : M S A) : M S A :=
  if oa_remote a then remote
  else if oa_requireRemote a then m_err "orchestrator-service owner is not configured"
  else if oa_local a then local
  else m_err missing.

Definition injection_owner {S A} (a : owner_adapter) : M S A -> M S A -> M S A := through a "missing injection owner service".
Definition execution_owner {S A} (a : owner_adapter) : M S A -> M S A -> M S A := through a "missing execution owner service".

(** The text of an error is what the runtime sees of it. *)
Definition served {S A} (f : S -> (A + goerr) * S) : M S A := fun s =>
  let '(r, s') := f s in (s', match r with inl a => Ok a | inr e => Err (err_text e) end).

Section Local.
Context (order : gmap string LabelItem -> list (string * LabelItem)).
Context (time_text : option Z -> string).                  (* a time, or none, as JSON prints it *)
Context (algorithm_name : Z -> string) (detector : string).

(** [dto.LabelItem] of a payload. *)
Definition label_item (v : value) : LabelItem :=
  match v with
  | VMap m =>
      let text := fun k => match find (fun p => String.eqb (fst p) k) m with Some (_, VStr s) => s | _ => "" end in
      mkLabelItem (text "key") (text "value")
        (match find (fun p => String.eqb (fst p) "is_system") m with Some (_, VBool b) => b | _ => false end)
  | _ => mkLabelItem "" "" false
  end.
Definition NewInjectionItem (r : InjectionRow) : InjectionItem :=
  mkInjectionItem (fi_ID r) (fi_Name r) (fi_PreDuration r) (time_text (fi_StartTime r)) (time_text (fi_EndTime r)).

Definition local_UpdateInjectionState (name : string) (st : DatapackState) : M idb unit :=
  served (Service_UpdateInjectionState name st).
Definition local_UpdateInjectionTimestamps (name : string) (s e : Z) : M idb InjectionItem :=
  let! r := served (Service_UpdateInjectionTimestamps name s e) in m_ret (NewInjectionItem r).
Definition local_UpdateExecutionState (id : Z) (st : ExecutionState) : M idb unit :=
  served (Service_UpdateExecutionState id st).
Definition local_CreateInjection (req : RuntimeCreateInjectionReq) : M idb Z :=
  let! r := served (CreateInjectionRecord order req (map label_item (ri_Labels req))) in m_ret (fi_ID r).
Definition local_CreateExecution (taskID : string) (algorithm datapack : Z) (dataset : option Z) (labels : list value) : M idb Z :=
  served (CreateExecutionRecord order taskID algorithm datapack dataset (map label_item labels)).
Definition stat (name : string) (o : option Q) : list (string * value) :=
  match o with Some q => [(name, VFloat q)] | None => [] end.
Definition detector_value (i : DetectorResultItem) : string * value :=
  (di_Issues i, VMap ([("span_name", VStr (di_SpanName i)); ("issues", VStr (di_Issues i))]
     ++ stat "abnormal_avg_duration" (di_AbnormalAvgDuration i) ++ stat "normal_avg_duration" (di_NormalAvgDuration i)
     ++ stat "abnormal_succ_rate" (di_AbnormalSuccRate i) ++ stat "normal_succ_rate" (di_NormalSuccRate i)
     ++ stat "abnormal_p90" (di_AbnormalP90 i) ++ stat "normal_p90" (di_NormalP90 i)
     ++ stat "abnormal_p95" (di_AbnormalP95 i) ++ stat "normal_p95" (di_NormalP95 i)
     ++ stat "abnormal_p99" (di_AbnormalP99 i) ++ stat "normal_p99" (di_NormalP99 i))).
Definition granularity_value (i : GranularityResultItem) : value :=
  VMap [("level", VStr (gi_Level i)); ("result", VStr (gi_Result i)); ("rank", VInt (gi_Rank i)); ("confidence", VFloat (gi_Confidence i))].
Definition local_GetExecution (id : Z) : M idb (list (string * value) * list value) :=
  let! r := served (fun d => match Service_GetExecution algorithm_name detector id d with inl (a, d') => (inl a, d') | inr e => (inr e, d) end) in
  let '(_, ds, gs) := r in m_ret (map detector_value ds, map granularity_value gs).

#[export] Instance local_state_owners : StateOwners idb := {
  UpdateInjectionState := local_UpdateInjectionState;
  UpdateInjectionTimestamps := local_UpdateInjectionTimestamps;
  UpdateExecutionState := local_UpdateExecutionState
}.
#[export] Instance local_execution_owner : ExecutionOwner idb := {
  CreateExecution := local_CreateExecution;
  GetExecution := local_GetExecution
}.
(** The chaos library creates the resources; the rows are those of the process. *)
#[export] Instance local_fault_owner `{ChaosLib}
    (create : list InjectionConf -> string -> string -> gmap string string -> gmap string string -> M idb (list string))
  : FaultOwner idb := {
  BatchCreate := create;
  CreateInjection := local_CreateInjection
}.
End Local.

(** ** From creation to the end of the fault *)

Lemma served_ok {S A} (f : S -> (A + goerr) * S) s s' a : served f s = (s', Ok a) <-> f s = (inl a, s').
Proof. unfold served. destruct (f s) as [[b|e] t]; split; intros H; simplify_eq; done. Qed.

Lemma created_row order (Horder : forall m, order m ≡ₚ map_to_list m) req labels d r d' :
  CreateInjectionRecord order req labels d = (inl r, d') ->
  r = fi_with_id (i_next_injection d) (injection_defaults (runtime_row req)) /\ ri_Name req <> "" /\
  t_injections d' = t_injections d ++ [r].
Proof.
  intros E%transaction_inl. apply tx_bind_inl in E as (? & ? & [Hn ->]%tx_require_inl & E).
  apply tx_bind_inl in E as (made & d1 & (Er & _ & ->)%tx_wrap_inl%create_inl & E).
  apply tx_bind_inl in E as (? & d2 & (lb & _ & ->)%(attach_inl order Horder)%on_labels_inl & [= <- <-]).
  split; [done|]. split; [|done]. apply negb_true_iff, orb_false_iff in Hn as [Hn _]. by apply String.eqb_neq in Hn.
Qed.

Lemma find_last {A} (p : A -> bool) l x : find p l = None -> p x = true -> find p (l ++ [x]) = Some x.
Proof.
  intros Hl Hx. induction l as [|y l IH]; simpl in *; [by rewrite Hx|]. destruct (p y); [done|]. by apply IH.
Qed.
Lemma map_other (f : InjectionRow -> InjectionRow) l id :
  id ∉ map fi_ID l -> map (fun x => if fi_ID x =? id then f x else x) l = l.
Proof.
  induction l as [|y l IH]; [done|]. simpl. intros [Hy Hl]%not_elem_of_cons. rewrite IH by done.
  by destruct (Z.eqb_spec (fi_ID y) id).
Qed.

Section Lifecycle.
Context {D R : Type} `{WorkerDB D} `{TaskStore D} `{RedisServer R} `{TaskCodec} `{AnnotationCodec}.
Context (order : gmap string LabelItem -> list (string * LabelItem)) (Horder : forall m, order m ≡ₚ map_to_list m).
Context (time_text : option Z -> string).
#[local] Existing Instance local_state_owners.

(** The life of an injection in the tables of the process: the row the executor creates
    under a name that no other live injection has is the row the event of the resource
    finds; when the fault succeeded, with a start before its end, that row alone changes:
    it is marked as injected and has the two times.  Nothing else hangs on which store
    the handler was built with. *)
Theorem injected_row_is_updated req d0 d1 id h env ids pa namespace s e (w : hworld D R idb) :
  idb_ok d0 -> find (named (ri_Name req)) (t_injections d0) = None ->
  local_CreateInjection order req d0 = (d1, Ok id) ->
  h_injection h = true -> hw_store w = d1 -> s < e ->
  let after := hw_store (fst (@inject_succeeded D R idb _ _ _ _ (local_state_owners time_text) h env ids pa namespace s e (ri_Name req) w)) in
  exists r, fi_ID r = id /\ fi_Name r = ri_Name req /\ fi_State r = DatapackInjectSuccess /\
    fi_StartTime r = Some s /\ fi_EndTime r = Some e /\ fi_Groundtruths r = ri_Groundtruths req /\
    t_injections after = t_injections d0 ++ [r].
Proof.
  intros Hd Hnone Hc Hi Hw Hse. unfold local_CreateInjection in Hc. apply m_bind_ok in Hc as (s1 & r & Hc%served_ok & [= -> <-]).
  assert (Hd1 : idb_ok d1).
  { apply (injection_step_keeps d0 d1 Hd). assert (Hs := inj_create order req (map label_item (ri_Labels req)) d0 Horder). by rewrite Hc in Hs. }
  assert (Hfresh : i_next_injection d0 ∉ map fi_ID (t_injections d0)).
  { destruct Hd as [_ [_ Hlt] _ _ _]. rewrite Forall_forall in Hlt. intros Hin. specialize (Hlt _ Hin). lia. }
  apply (created_row order Horder) in Hc as (Er & Hn & Hrows).
  assert (Hr : fi_ID r = i_next_injection d0 /\ fi_Name r = ri_Name req /\ fi_Groundtruths r = ri_Groundtruths req /\ live r = true).
  { rewrite Er. unfold injection_defaults. cbn. by destruct (String.eqb (ri_GroundtruthSource req) ""). }
  clear Er. destruct Hr as (Hid & Hname & Hgt & Hlive).
  assert (Hnamed : forall x, fi_Name x = fi_Name r -> fi_Status x = fi_Status r -> named (ri_Name req) x = true).
  { intros x E1 E2. unfold named, live. rewrite E1, E2, Hname, String.eqb_refl. exact Hlive. }
  set (r1 := fi_with_state DatapackInjectSuccess r). set (r2 := fi_with_times (Some s) (Some e) r1).
  assert (Hf1 : find (named (ri_Name req)) (t_injections d1) = Some r) by (rewrite Hrows; apply find_last; [done|by apply Hnamed]).
  assert (Hset : forall f, map (fun x => if fi_ID x =? fi_ID r then f x else x) (t_injections d0 ++ [r]) = t_injections d0 ++ [f r]).
  { intros f. rewrite map_app, map_other by by rewrite Hid. simpl. by rewrite Z.eqb_refl. }
  assert (Hs1 := state_stored (ri_Name req) DatapackInjectSuccess r d1 Hd1 Hn Hf1). rewrite Hrows, Hset in Hs1.
  set (d2 := set_injections (t_injections d0 ++ [r1]) d1) in *.
  assert (Hd2 : idb_ok d2).
  { apply (injection_step_keeps d1 d2 Hd1). assert (Hs := inj_state (ri_Name req) DatapackInjectSuccess d1). by rewrite Hs1 in Hs. }
  assert (Hf2 : find (named (ri_Name req)) (t_injections d2) = Some r1) by (apply find_last; [done|by apply Hnamed]).
  assert (Ht := UpdateInjectionTimestamps_spec (ri_Name req) s e r1 d2 Hd2 Hn Hf2).
  rewrite (proj2 (Z.ltb_lt _ _) Hse) in Ht. destruct Ht as (d3 & Hs2 & Hrows3).
  exists r2. split; [done|]. do 5 (split; [done|]).
  rewrite inject_succeeded_store by done. rewrite Hw. cbn [UpdateInjectionState UpdateInjectionTimestamps local_state_owners].
  unfold local_UpdateInjectionState, local_UpdateInjectionTimestamps, served at 1, m_bind, served.
  rewrite Hs1. cbn [fst]. fold r1. fold d2. rewrite Hs2. cbn [fst m_ret]. rewrite Hrows3. unfold d2. cbn [t_injections set_injections].
  change (fi_ID r1) with (fi_ID r). rewrite map_app, map_other by by rewrite Hid. simpl. by rewrite Z.eqb_refl.
Qed.
End Lifecycle.

Module OwnerSample.
Import InjectionSample HandlerSample.
#[local] Existing Instance ToyCodec.toy.
#[local] Existing Instance SubmitSample.memory_store.
Definition named_request : RuntimeCreateInjectionReq := request "ts-3".
Definition times (o : option Z) : string := match o with Some t => itoa t | None => "" end.
Definition created : idb * res Z := local_CreateInjection order named_request d2.
Lemma created_eq : local_CreateInjection order named_request d2 = (fst created, Ok 3).
Proof. vm_compute. reflexivity. Qed.
Lemma name_is_new : find (named (ri_Name named_request)) (t_injections d2) = None.
Proof. vm_compute. reflexivity. Qed.
(** The world of the handler's sample, with the tables as its store. *)
Definition world3 : hworld (task_db * bool) keyspace idb :=
  mkHWorld (hw_worker world0) false NewFaultBatchManager (fst created).
Definition event_annotations : k8sAnnotationData :=
  mkAnnotations None None (Some (mkVersionItem 3 "v1" "image" "" 4 "clickhouse" [] None)) None None.
Lemma injected_row_is_updated_witness :
  exists r, fi_ID r = 3 /\ fi_State r = DatapackInjectSuccess /\ fi_StartTime r = Some 10 /\
    t_injections (hw_store (fst (@inject_succeeded _ keyspace idb _ _ _ _ (local_state_owners times) full_handler env0 
       (identifiers parent) event_annotations "ts" 10 20 "ts-3" world3))) = t_injections d2 ++ [r].
Proof.
  destruct (injected_row_is_updated order order_ok times named_request d2 (fst created) 3 full_handler env0 (identifiers parent)
    event_annotations "ts" 10 20 world3 inj2_ok name_is_new created_eq eq_refl eq_refl eq_refl) as (r & H1 & _ & H3 & H4 & _ & _ & H7).
  exists r. exact (conj H1 (conj H3 (conj H4 H7))).
Defined.
End OwnerSample.
