(* ===== verification/Datasets.v ===== *)
(** * Datasets ([module/dataset/])

    Datasets with their versions and the datapacks of a version: the repository, the
    operations of the service, and the resolution of the references of a request.  The
    datapacks are rows of injections.  [Save] is modelled on the columns of its own row;
    times of creation and the orders that depend on them are left out, so are the lists
    and the search. *)

From S2P Require Import Prelude GoStrings Consts Parameters Task EventHandler FaultInjection Tables Resolve Containers Labels Injections.
#[local] Open Scope Z_scope.

(** ** Rows *)

Record DatasetRow := mkDataset {
  ds_ID : Z; ds_Name : string; ds_Type : string; ds_Description : string; ds_IsPublic : bool; ds_Status : Z
}.
Record DatasetVersionRow := mkDatasetVersion {
  dv_ID : Z; dv_Name : string; dv_NameMajor : Z; dv_NameMinor : Z; dv_NamePatch : Z; dv_Checksum : string;
  dv_FileCount : Z; dv_DatasetID : Z; dv_UserID : Z; dv_Status : Z
}.
Record UserDataset := mkUserDataset { ud_UserID : Z; ud_DatasetID : Z; ud_RoleID : Z; ud_Status : Z }.
(** A datapack of a version; the pair is the primary key. *)
Record DatasetVersionInjection := mkDVI { dvi_Version : Z; dvi_Injection : Z }.
#[export] Instance DatasetVersionInjection_eq_dec : EqDecision DatasetVersionInjection.
Proof. solve_decision. Defined.

Record ddb := mkDdb {
  d_injections : idb;
  t_datasets : list DatasetRow;
  t_dversions : list DatasetVersionRow;
  t_user_datasets : list UserDataset;
  t_datapacks : list DatasetVersionInjection;
  t_droles : list RoleRow;
  d_next_dataset : Z;
  d_next_version : Z
}.
Definition set_d_injections (i : idb) (d : ddb) : ddb :=
  mkDdb i (t_datasets d) (t_dversions d) (t_user_datasets d) (t_datapacks d) (t_droles d) (d_next_dataset d) (d_next_version d).
Definition set_datasets (l : list DatasetRow) (d : ddb) : ddb :=
  mkDdb (d_injections d) l (t_dversions d) (t_user_datasets d) (t_datapacks d) (t_droles d) (d_next_dataset d) (d_next_version d).
Definition set_dversions (l : list DatasetVersionRow) (d : ddb) : ddb :=
  mkDdb (d_injections d) (t_datasets d) l (t_user_datasets d) (t_datapacks d) (t_droles d) (d_next_dataset d) (d_next_version d).
Definition set_user_datasets (l : list UserDataset) (d : ddb) : ddb :=
  mkDdb (d_injections d) (t_datasets d) (t_dversions d) l (t_datapacks d) (t_droles d) (d_next_dataset d) (d_next_version d).
Definition set_datapacks (l : list DatasetVersionInjection) (d : ddb) : ddb :=
  mkDdb (d_injections d) (t_datasets d) (t_dversions d) (t_user_datasets d) l (t_droles d) (d_next_dataset d) (d_next_version d).
Definition on_injections {A} (m : Tx idb A) : Tx ddb A := tx_on d_injections set_d_injections m.

Definition ds_with_status (s : Z) (x : DatasetRow) : DatasetRow :=
  mkDataset (ds_ID x) (ds_Name x) (ds_Type x) (ds_Description x) (ds_IsPublic x) s.
Definition dv_with_status (s : Z) (v : DatasetVersionRow) : DatasetVersionRow :=
  mkDatasetVersion (dv_ID v) (dv_Name v) (dv_NameMajor v) (dv_NameMinor v) (dv_NamePatch v) (dv_Checksum v)
    (dv_FileCount v) (dv_DatasetID v) (dv_UserID v) s.
Definition dv_with_count (n : Z) (v : DatasetVersionRow) : DatasetVersionRow :=
  mkDatasetVersion (dv_ID v) (dv_Name v) (dv_NameMajor v) (dv_NameMinor v) (dv_NamePatch v) (dv_Checksum v)
    n (dv_DatasetID v) (dv_UserID v) (dv_Status v).
Definition dv_with_owner (dataset user : Z) (v : DatasetVersionRow) : DatasetVersionRow :=
  mkDatasetVersion (dv_ID v) (dv_Name v) (dv_NameMajor v) (dv_NameMinor v) (dv_NamePatch v) (dv_Checksum v)
    (dv_FileCount v) dataset user (dv_Status v).
Definition dv_with_id (id : Z) (v : DatasetVersionRow) : DatasetVersionRow :=
  mkDatasetVersion id (dv_Name v) (dv_NameMajor v) (dv_NameMinor v) (dv_NamePatch v) (dv_Checksum v)
    (dv_FileCount v) (dv_DatasetID v) (dv_UserID v) (dv_Status v).
Definition ud_with_status (s : Z) (u : UserDataset) : UserDataset :=
  mkUserDataset (ud_UserID u) (ud_DatasetID u) (ud_RoleID u) s.

(** The generated columns of the unique keys. *)
Definition active_dataset_name (x : DatasetRow) : option string := if 0 <=? ds_Status x then Some (ds_Name x) else None.
Definition active_dataset_version (v : DatasetVersionRow) : option (Z * string) :=
  if 0 <=? dv_Status v then Some (dv_DatasetID v, dv_Name v) else None.
Definition active_user_dataset (u : UserDataset) : option (Z * Z * Z) :=
  if 0 <=? ud_Status u then Some (ud_UserID u, ud_DatasetID u, ud_RoleID u) else None.
Definition count_violated : goerr := New "Check constraint 'chk_dataset_versions_file_count' is violated.".

(** ** The repository *)

Definition RoleDatasetAdmin : string := "dataset_admin".
Definition dataset_role (name : string) : Tx ddb RoleRow :=
  tx_wrap ("failed to find role with name " +:+ name +:+ ": ")
    (tx_first (fun d => find (fun r => String.eqb (ro_Name r) name && negb (ro_Status r =? deleted)) (t_droles d))).

(** The errors of some calls keep only the text of gorm's. *)
Definition tx_flat {S A} (pre : string) (m : Tx S A) : Tx S A := tx_on_err (Flat pre) m.
Definition createDataset (x : DatasetRow) : Tx ddb DatasetRow :=
  tx_flat "failed to create dataset: " (fun d =>
    let x := mkDataset (d_next_dataset d) (ds_Name x) (ds_Type x) (ds_Description x) (ds_IsPublic x)
               (if ds_Status x =? 0 then enabled else ds_Status x) in
    if key_free active_dataset_name (t_datasets d) x
    then inl (x, mkDdb (d_injections d) (t_datasets d ++ [x]) (t_dversions d) (t_user_datasets d) (t_datapacks d)
                   (t_droles d) (d_next_dataset d + 1) (d_next_version d))
    else inr (Is DuplicatedKey)).
Definition createUserDataset (u : UserDataset) : Tx ddb unit :=
  tx_wrap "failed to create user-dataset association: " (fun d =>
    if key_free active_user_dataset (t_user_datasets d) u
    then inl (tt, set_user_datasets (t_user_datasets d ++ [u]) d) else inr (Is DuplicatedKey)).
Definition live_version_of (datasetID : Z) (v : DatasetVersionRow) : bool :=
  (dv_DatasetID v =? datasetID) && negb (dv_Status v =? deleted).
Definition batchDeleteDatasetVersions (datasetID : Z) : Tx ddb Z := fun d =>
  let '(n, rows) := soft_delete (live_version_of datasetID) (dv_with_status deleted) (t_dversions d) in
  inl (n, set_dversions rows d).
Definition removeUsersFromDataset (datasetID : Z) : Tx ddb Z := fun d =>
  let '(n, rows) := soft_delete (fun u => (ud_DatasetID u =? datasetID) && negb (ud_Status u =? deleted))
                      (ud_with_status deleted) (t_user_datasets d) in
  inl (n, set_user_datasets rows d).
Definition live_dataset (datasetID : Z) (x : DatasetRow) : bool :=
  (ds_ID x =? datasetID) && negb (ds_Status x =? deleted).
Definition deleteDataset (datasetID : Z) : Tx ddb Z := fun d =>
  let '(n, rows) := soft_delete (live_dataset datasetID) (ds_with_status deleted) (t_datasets d) in
  inl (n, set_datasets rows d).
Definition getDatasetByID (datasetID : Z) : Tx ddb DatasetRow :=
  tx_flat "failed to get dataset: " (tx_first (fun d => find (live_dataset datasetID) (t_datasets d))).
(** All versions, deleted ones too. *)
Definition listDatasetVersionsByDatasetID (datasetID : Z) (d : ddb) : list DatasetVersionRow :=
  List.filter (fun v => dv_DatasetID v =? datasetID) (t_dversions d).
Definition updateDataset (x : DatasetRow) : Tx ddb unit :=
  tx_flat "failed to update dataset: " (fun d =>
    if key_free active_dataset_name (List.filter (fun y => negb (ds_ID y =? ds_ID x)) (t_datasets d)) x
    then inl (tt, set_datasets (save_row ds_ID x (t_datasets d)) d) else inr (Is DuplicatedKey)).
Definition deleteDatasetVersion (versionID : Z) : Tx ddb Z := fun d =>
  let '(n, rows) := soft_delete (fun v => (dv_ID v =? versionID) && negb (dv_Status v =? deleted))
                      (dv_with_status deleted) (t_dversions d) in
  inl (n, set_dversions rows d).
(** Deleted or not. *)
Definition getDatasetVersionByID (versionID : Z) : Tx ddb DatasetVersionRow :=
  tx_flat "failed to get dataset version: " (tx_first (fun d => find (fun v => dv_ID v =? versionID) (t_dversions d))).
Definition updateDatasetVersion (v : DatasetVersionRow) : Tx ddb unit :=
  tx_wrap "failed to update dataset version: " (fun d =>
    if negb (0 <=? dv_FileCount v) then inr count_violated
    else if key_free active_dataset_version (List.filter (fun y => negb (dv_ID y =? dv_ID v)) (t_dversions d)) v
    then inl (tt, set_dversions (save_row dv_ID v (t_dversions d)) d) else inr (Is DuplicatedKey)).

(** [BeforeCreate]: the numbers of the name; a name left empty takes the default of the
    table, without its numbers. *)
Definition DatasetVersion_BeforeCreate (v : DatasetVersionRow) : res DatasetVersionRow :=
  if String.eqb (dv_Name v) "" then
    Ok (mkDatasetVersion (dv_ID v) "1.0.0" (dv_NameMajor v) (dv_NameMinor v) (dv_NamePatch v) (dv_Checksum v)
          (dv_FileCount v) (dv_DatasetID v) (dv_UserID v) (dv_Status v))
  else
    let? (major, minor, patch) := res_wrap "invalid semantic version: " (ParseSemanticVersion (dv_Name v)) in
    Ok (mkDatasetVersion (dv_ID v) (dv_Name v) major minor patch (dv_Checksum v)
          (dv_FileCount v) (dv_DatasetID v) (dv_UserID v) (dv_Status v)).
Definition tx_res {S A} (r : res A) : Tx S A := match r with Ok a => tx_ret a | Err e => tx_err (New e) end.
Definition insert_version (v : DatasetVersionRow) : Tx ddb DatasetVersionRow :=
  let^ v := tx_res (DatasetVersion_BeforeCreate v) in fun d =>
  let v := dv_with_id (d_next_version d) (if dv_Status v =? 0 then dv_with_status enabled v else v) in
  if negb (0 <=? dv_FileCount v) then inr count_violated
  else if key_free active_dataset_version (t_dversions d) v
  then inl (v, mkDdb (d_injections d) (t_datasets d) (t_dversions d ++ [v]) (t_user_datasets d) (t_datapacks d)
                 (t_droles d) (d_next_dataset d) (d_next_version d + 1))
  else inr (Is DuplicatedKey).
Fixpoint insert_dversions (vs : list DatasetVersionRow) : Tx ddb (list DatasetVersionRow) :=
  match vs with
  | [] => tx_ret []
  | v :: rest => let^ v := insert_version v in let^ l := insert_dversions rest in tx_ret (v :: l)
  end.
Definition batchCreateDatasetVersions (vs : list DatasetVersionRow) : Tx ddb (list DatasetVersionRow) :=
  tx_require (negb (length vs =? 0)%nat) (New "no dataset versions to create") ;;^
  tx_wrap "failed to batch create dataset versions: " (insert_dversions vs).

(** Datapacks that are built, and nothing more or less; among injections of one name the
    last row counts. *)
Definition built (r : InjectionRow) : bool := bool_decide (fi_State r = DatapackBuildSuccess).
Definition listInjectionIDsByNames (names : list string) (d : ddb) : gmap string Z :=
  fold_left (fun m r => <[fi_Name r := fi_ID r]> m)
    (List.filter (fun r => built r && (fi_Status r =? enabled) && existsb (String.eqb (fi_Name r)) names)
       (t_injections (d_injections d))) ∅.
Definition add_datapack (l : list DatasetVersionInjection) (k : DatasetVersionInjection) : list DatasetVersionInjection :=
  if bool_decide (k ∈ l) then l else l ++ [k].
Definition addDatasetVersionInjections (items : list DatasetVersionInjection) : Tx ddb unit :=
  tx_do (fun d => set_datapacks (fold_left add_datapack items (t_datapacks d)) d).
Definition clearDatasetVersionInjections (versionIDs injectionIDs : list Z) : Tx ddb unit :=
  tx_do (fun d =>
    match versionIDs with
    | [] => d
    | _ => set_datapacks (List.filter (fun k => negb (in_ids versionIDs (dvi_Version k) &&
             match injectionIDs with [] => true | _ => in_ids injectionIDs (dvi_Injection k) end)) (t_datapacks d)) d
    end).
Definition ListInjectionsByDatasetVersionID (versionID : Z) (d : ddb) : list InjectionRow :=
  List.filter (fun r => built r && live r && bool_decide (mkDVI versionID (fi_ID r) ∈ t_datapacks d))
    (t_injections (d_injections d)).

(** ** Resolution of references *)

Record DatasetRef := mkDatasetRef { dref_Name : string; dref_Version : string }.
Definition DatasetRef_Validate (ref : DatasetRef) : res unit :=
  require (negb (String.eqb (dref_Name ref) "")) "dataset name is required" ;;?
  (if negb (String.eqb (dref_Version ref) "") then
     let? _ := res_wrap ("invalid semantic version: " +:+ dref_Version ref +:+ ", ")
                 (ParseSemanticVersion (dref_Version ref)) in Ok tt
   else Ok tt).

(** The rows a user sees: see [Resolve.seen_rows]. *)
Definition dataset_memberships (d : ddb) (userID : Z) (x : DatasetRow) : list UserDataset :=
  List.filter (fun u => (ud_DatasetID u =? ds_ID x) && (ud_UserID u =? userID) && (ud_Status u =? enabled))
    (t_user_datasets d).
Definition dataset_rows {A} (d : ddb) (userID : Z) (x : DatasetRow) (row : A) : list A :=
  seen_rows userID (ds_IsPublic x) (dataset_memberships d userID x) row.
(** [dv.dataset_id DESC, dv.name_major DESC, dv.name_minor DESC, dv.name_patch DESC]. *)
Definition later_or_same (a b : DatasetVersionRow * DatasetRow) : bool :=
  let '(i, x, y, z) := (dv_DatasetID a.1, dv_NameMajor a.1, dv_NameMinor a.1, dv_NamePatch a.1) in
  let '(j, u, v, w) := (dv_DatasetID b.1, dv_NameMajor b.1, dv_NameMinor b.1, dv_NamePatch b.1) in
  if i =? j then if x =? u then if y =? v then w <=? z else v <? y else u <? x else j <? i.
Definition dv_before (a b : DatasetVersionRow * DatasetRow) : Prop := later_or_same a b = true.
#[export] Instance dv_before_dec a b : Decision (dv_before a b).
Proof. unfold dv_before. apply _. Defined.
Definition dv_rows (d : ddb) (names : list string) (userID : Z) : list (DatasetVersionRow * DatasetRow) :=
  concat (map (fun v =>
    if dv_Status v =? enabled then
      concat (map (fun x =>
        if (ds_ID x =? dv_DatasetID v) && existsb (String.eqb (ds_Name x)) names && (ds_Status x =? enabled)
        then dataset_rows d userID x (v, x) else []) (t_datasets d))
    else []) (t_dversions d)).
Definition batchGetDatasetVersions (d : ddb) (names : list string) (userID : Z) : list (DatasetVersionRow * DatasetRow) :=
  match names with
  | [] => []
  | _ => merge_sort dv_before (dv_rows d names userID)
  end.
Definition getUniqueVersionsForDatasetRefs (d : ddb) (refs : list DatasetRef) (userID : Z)
  : list (DatasetVersionRow * DatasetRow) :=
  batchGetDatasetVersions d
    (elements (list_to_set (C := gset string) (filter (fun n => n <> "") (map dref_Name refs)))) userID.

(** The versions of a dataset under its name: in the order of the query, and by the name
    of the version (the last one of a name). *)
Definition ds_flatMap (rows : list (DatasetVersionRow * DatasetRow)) : gmap string (list DatasetVersionRow) :=
  flat_map_of (fun r => ds_Name r.2) fst rows.
Definition ds_hierarchicalMap (rows : list (DatasetVersionRow * DatasetRow))
  : gmap string (gmap string DatasetVersionRow) :=
  hierarchical_map_of (fun r => ds_Name r.2) (fun r => dv_Name r.1) fst rows.
(** A list of the first map is never empty, see [Resolve.flat_map_lookup]. *)
Definition resolve_dataset (rows : list (DatasetVersionRow * DatasetRow)) (ref : DatasetRef) : res DatasetVersionRow :=
  let unknown := "dataset not found: " +:+ dref_Name ref in
  if negb (String.eqb (dref_Version ref) "") then
    let? versions := or_error (ds_hierarchicalMap rows !! dref_Name ref) unknown in
    or_error (versions !! dref_Version ref)
      ("dataset version not found: " +:+ dref_Name ref +:+ ":" +:+ dref_Version ref)
  else
    let? versions := or_error (ds_flatMap rows !! dref_Name ref) unknown in
    or_error (head versions) "index out of range".
Fixpoint resolve_datasets (rows : list (DatasetVersionRow * DatasetRow)) (refs : list DatasetRef)
  : res (list (DatasetRef * DatasetVersionRow)) :=
  match refs with
  | [] => Ok []
  | ref :: rest =>
      let? v := resolve_dataset rows ref in let? l := resolve_datasets rows rest in Ok ((ref, v) :: l)
  end.
(** The result for each reference, in order. *)
Definition ResolveDatasetVersions (d : ddb) (refs : list DatasetRef) (userID : Z)
  : res (list (DatasetRef * DatasetVersionRow)) :=
  resolve_datasets (getUniqueVersionsForDatasetRefs d refs userID) refs.

(** ** The service *)

Record CreateDatasetReq := mkCreateDataset {
  cd_Name : string; cd_Type : string; cd_Description : string; cd_IsPublic : option bool;
  cd_Version : option (string * list string)
}.
Definition CreateDatasetVersionReq_Validate (req : string * list string) : res (string * list string) :=
  let name := trim_space req.1 in
  require (negb (String.eqb name "")) "name cannot be empty" ;;?
  (let? _ := res_wrap ("invalid semantic version: " +:+ name +:+ ", ") (ParseSemanticVersion name) in
   for_each (fun i datapack => require (negb (String.eqb (trim_space datapack) ""))
               ("empty datapack name at index " +:+ itoa (Z.of_nat i))) req.2 ;;?
   Ok (name, req.2)).
Definition CreateDatasetReq_Validate (req : CreateDatasetReq) : res CreateDatasetReq :=
  let name := trim_space (cd_Name req) in
  let type := trim_space (cd_Type req) in
  require (negb (String.eqb name "")) "dataset name cannot be empty" ;;?
  require (negb (String.eqb type "")) "dataset type cannot be empty" ;;?
  (let? version :=
     match cd_Version req with
     | None => Ok None
     | Some v => res_map Some (res_wrap "invalid dataset version request: " (CreateDatasetVersionReq_Validate v))
     end in
   Ok (mkCreateDataset name type (cd_Description req) (Some (default true (cd_IsPublic req))) version)).
Definition ConvertToDataset (req : CreateDatasetReq) : DatasetRow :=
  mkDataset 0 (cd_Name req) (cd_Type req) (cd_Description req) (default true (cd_IsPublic req)) enabled.
Definition ConvertToDatasetVersion (req : string * list string) : DatasetVersionRow :=
  mkDatasetVersion 0 req.1 0 0 0 "" 0 0 0 enabled.

Definition createDatasetVersionsCore (vs : list DatasetVersionRow) : Tx ddb (list DatasetVersionRow) :=
  match vs with
  | [] => tx_ret []
  | _ => tx_wrap "failed to create dataset versions: " (batchCreateDatasetVersions vs)
  end.
Definition createDatasetCore (x : DatasetRow) (vs : list DatasetVersionRow) (userID : Z) : Tx ddb DatasetRow :=
  let^ role := known_as (errors_Is RecordNotFound) (tagged NotFound ("role " +:+ RoleDatasetAdmin +:+ " not found"))
                 "failed to get dataset owner role: " (dataset_role RoleDatasetAdmin) in
  let^ x := tx_on_err (fun e => if errors_Is DuplicatedKey e then Is AlreadyExists else e) (createDataset x) in
  tx_wrap "failed to associate dataset with user: "
    (createUserDataset (mkUserDataset userID (ds_ID x) (ro_ID role) enabled)) ;;^
  match vs with
  | [] => tx_ret x
  | _ => tx_wrap "failed to create dataset versions: "
           (createDatasetVersionsCore (map (dv_with_owner (ds_ID x) userID) vs)) ;;^
         tx_ret x
  end.
Definition create_dataset (req : CreateDatasetReq) (userID : Z) : Tx ddb DatasetRow :=
  tx_wrap "failed to create dataset: "
    (createDatasetCore (ConvertToDataset req)
       (match cd_Version req with Some v => [ConvertToDatasetVersion v] | None => [] end) userID).
Definition Service_CreateDataset (req : CreateDatasetReq) (userID : Z) (d : ddb) : (DatasetRow + goerr) * ddb :=
  let '(r, d) := transaction (create_dataset req userID) d in
  (match r with inl x => inl x | inr e => inr (Wrap "failed to create dataset: " e "") end, d).

Definition missing_dataset (id : Z) : goerr := tagged NotFound ("dataset id: " +:+ itoa id).
Definition delete_dataset (id : Z) : Tx ddb unit :=
  batchDeleteDatasetVersions id ;;^
  removeUsersFromDataset id ;;^
  let^ rows := deleteDataset id in
  tx_require (negb (rows =? 0)) (tagged NotFound ("dataset id " +:+ itoa id +:+ " not found")).
Definition Service_DeleteDataset (id : Z) (d : ddb) : (unit + goerr) * ddb := transaction (delete_dataset id) d.

Definition existing_dataset (id : Z) : Tx ddb DatasetRow :=
  known_as (errors_Is RecordNotFound) (missing_dataset id) "failed to get dataset: " (getDatasetByID id).
Definition GetDataset (id : Z) : Tx ddb (DatasetRow * list DatasetVersionRow) :=
  let^ x := existing_dataset id in
  tx_get (fun d => (x, listDatasetVersionsByDatasetID (ds_ID x) d)).

Record UpdateDatasetReq := mkUpdateDataset { ud_Description : option string; ud_IsPublic : option bool; ud_NewStatus : option Z }.
Definition UpdateDatasetReq_Validate (req : UpdateDatasetReq) : res unit := validateStatus (ud_NewStatus req) true.
Definition PatchDatasetModel (req : UpdateDatasetReq) (x : DatasetRow) : DatasetRow :=
  mkDataset (ds_ID x) (ds_Name x) (ds_Type x) (default (ds_Description x) (ud_Description req))
    (default (ds_IsPublic x) (ud_IsPublic req)) (default (ds_Status x) (ud_NewStatus req)).
Definition update_dataset (req : UpdateDatasetReq) (id : Z) : Tx ddb DatasetRow :=
  let^ x := existing_dataset id in
  tx_wrap "failed to update dataset: " (updateDataset (PatchDatasetModel req x)) ;;^
  tx_ret (PatchDatasetModel req x).
Definition Service_UpdateDataset (req : UpdateDatasetReq) (id : Z) (d : ddb) : (DatasetRow + goerr) * ddb :=
  transaction (update_dataset req id) d.

(** *** Versions *)

Definition missing_version (id : Z) : goerr := tagged NotFound ("version id: " +:+ itoa id).
Definition existing_version (known : goerr) (id : Z) : Tx ddb DatasetVersionRow :=
  known_as (errors_Is RecordNotFound) known "failed to get dataset version: " (getDatasetVersionByID id).

(** The links of the named datapacks; a name that is not found ends it. *)
Fixpoint datapack_links (ids : gmap string Z) (versionID : Z) (datapacks : list string)
  : list DatasetVersionInjection + goerr :=
  match datapacks with
  | [] => inl []
  | name :: rest =>
      match ids !! name with
      | None => inr (New ("injection not found: " +:+ name))
      | Some id =>
          match datapack_links ids versionID rest with
          | inl l => inl (mkDVI versionID id :: l)
          | inr e => inr e
          end
      end
  end.
Definition linkDatapacksToDatasetVersion (versionID : Z) (datapacks : list string) : Tx ddb unit :=
  let^ ids := tx_get (listInjectionIDsByNames datapacks) in
  match datapack_links ids versionID datapacks with
  | inl items => addDatasetVersionInjections items
  | inr e => tx_err e
  end.
Definition link_when (versionID : Z) (datapacks : list string) : Tx ddb unit :=
  tx_when (negb (length datapacks =? 0)%nat)
    (tx_wrap "failed to link datapacks to dataset version: " (linkDatapacksToDatasetVersion versionID datapacks)).
Definition create_version (req : string * list string) (datasetID userID : Z) : Tx ddb DatasetVersionRow :=
  let^ vs := tx_wrap "failed to create dataset version: "
               (createDatasetVersionsCore [dv_with_owner datasetID userID (ConvertToDatasetVersion req)]) in
  match vs with
  | [] => tx_err (New "index out of range")
  | v :: _ => link_when (dv_ID v) req.2 ;;^ tx_ret v
  end.
Definition Service_CreateDatasetVersion (req : string * list string) (datasetID userID : Z) (d : ddb)
  : (DatasetVersionRow + goerr) * ddb :=
  let '(r, d) := transaction (create_version req datasetID userID) d in
  (match r with inl x => inl x | inr e => inr (Wrap "failed to create dataset version: " e "") end, d).

Definition Service_DeleteDatasetVersion (id : Z) : Tx ddb unit :=
  let^ rows := deleteDatasetVersion id in
  tx_require (negb (rows =? 0)) (tagged NotFound ("dataset version id " +:+ itoa id +:+ " not found")).
Definition GetDatasetVersion (datasetID versionID : Z) : Tx ddb DatasetVersionRow :=
  existing_dataset datasetID ;;^ existing_version (missing_version versionID) versionID.
Definition UpdateDatasetVersionReq_Validate (status : option Z) : res unit := validateStatus status true.
Definition PatchDatasetVersionModel (status : option Z) (v : DatasetVersionRow) : DatasetVersionRow :=
  match status with Some s => dv_with_status s v | None => v end.
Definition update_version (status : option Z) (versionID : Z) : Tx ddb DatasetVersionRow :=
  let^ v := existing_version (missing_version versionID) versionID in
  tx_wrap "failed to update dataset version: " (updateDatasetVersion (PatchDatasetVersionModel status v)) ;;^
  tx_ret (PatchDatasetVersionModel status v).
Definition Service_UpdateDatasetVersion (status : option Z) (versionID : Z) (d : ddb)
  : (DatasetVersionRow + goerr) * ddb :=
  let '(r, d) := transaction (update_version status versionID) d in
  (match r with inl x => inl x | inr e => inr (Wrap "failed to update dataset version: " e "") end, d).
Definition GetDatasetVersionFilename (datasetID versionID : Z) : Tx ddb string :=
  let^ x := existing_dataset datasetID in
  let^ v := existing_version (missing_version versionID) versionID in
  tx_ret (ds_Name x +:+ "-" +:+ dv_Name v).

(** *** Datapacks of a version *)

Record ManageDatasetVersionInjectionReq := mkManageDatapacks { md_Add : list string; md_Remove : list string }.
Definition ManageDatasetVersionInjectionReq_Validate (req : ManageDatasetVersionInjectionReq) : res unit :=
  let named l := for_each (fun i datapack => require (negb (String.eqb (trim_space datapack) ""))
                   ("empty datapack name at index " +:+ itoa (Z.of_nat i) +:+ " in add_datapacks")) l in
  require (negb ((length (md_Add req) =? 0) && (length (md_Remove req) =? 0))%nat)
    "at least one of add_injections or remove_injections must be provided" ;;?
  named (md_Add req) ;;? named (md_Remove req).
Definition unlink_datapacks (versionID : Z) (datapacks : list string) : Tx ddb unit :=
  let^ ids := tx_get (listInjectionIDsByNames datapacks) in
  tx_require (size ids =? length datapacks)%nat (New "some datapacks to remove were not found") ;;^
  match datapack_links ids versionID datapacks with
  | inl items => tx_wrap "failed to remove dataset version datapacks: "
                   (clearDatasetVersionInjections [versionID] (map dvi_Injection items))
  | inr e => tx_err e
  end.
Definition manage_datapacks (req : ManageDatasetVersionInjectionReq) (versionID : Z)
  : Tx ddb (DatasetVersionRow * list InjectionRow) :=
  let^ version := existing_version (tagged NotFound ("dataset version id: " +:+ itoa versionID)) versionID in
  link_when versionID (md_Add req) ;;^
  tx_when (negb (length (md_Remove req) =? 0)%nat) (unlink_datapacks (dv_ID version) (md_Remove req)) ;;^
  let^ datapacks := tx_get (ListInjectionsByDatasetVersionID (dv_ID version)) in
  let version := dv_with_count (dv_FileCount version + Z.of_nat (length (md_Add req)) - Z.of_nat (length (md_Remove req)))
                   version in
  tx_wrap "failed to update dataset version file count: " (updateDatasetVersion version) ;;^
  tx_ret (version, datapacks).
Definition ManageDatasetVersionInjections (req : ManageDatasetVersionInjectionReq) (versionID : Z) (d : ddb)
  : ((DatasetVersionRow * list InjectionRow) + goerr) * ddb := transaction (manage_datapacks req versionID) d.

(** *** Labels *)

Section DatasetLabels.
Context (order : gmap string LabelItem -> list (string * LabelItem)).
Definition dataset_category : Z := LabelCategory_code DatasetCategory.
Definition manage_dataset_labels (add : list LabelItem) (remove : list string) (id : Z)
  : Tx ddb (DatasetRow * list Label) :=
  let^ x := existing_dataset id in
  tx_when (negb (length add =? 0)%nat)
    (on_injections (on_labels (attach_labels order false Datasets_ id add dataset_category))) ;;^
  tx_when (negb (length remove =? 0)%nat) (on_injections (on_labels (detach_labels Datasets_ id remove))) ;;^
  tx_get (fun d => (x, labels_of Datasets_ (ds_ID x) (i_labels (d_injections d)))).
Definition ManageDatasetLabels (add : list LabelItem) (remove : list string) (id : Z) (d : ddb)
  : ((DatasetRow * list Label) + goerr) * ddb := transaction (manage_dataset_labels add remove id) d.
End DatasetLabels.

(** ** The invariant *)

Record datasets_ok (d : ddb) : Prop := {
  dat_injections : idb_ok (d_injections d);
  dat_ids : NoDup (map ds_ID (t_datasets d)) /\ Forall (fun i => i < d_next_dataset d) (map ds_ID (t_datasets d));
  dat_names : NoDup (omap active_dataset_name (t_datasets d));
  dat_versions : NoDup (map dv_ID (t_dversions d)) /\ Forall (fun i => i < d_next_version d) (map dv_ID (t_dversions d));
  dat_version_names : NoDup (omap active_dataset_version (t_dversions d));
  dat_counts : Forall (fun v => 0 <= dv_FileCount v) (t_dversions d);
  dat_members : NoDup (omap active_user_dataset (t_user_datasets d));
  dat_links : NoDup (t_datapacks d) /\
    Forall (fun k => dvi_Version k ∈ map dv_ID (t_dversions d) /\
                     dvi_Injection k ∈ map fi_ID (t_injections (d_injections d))) (t_datapacks d)
}.

Ltac dat := constructor; cbn [d_injections t_datasets t_dversions t_user_datasets t_datapacks d_next_dataset d_next_version
  set_d_injections set_datasets set_dversions set_user_datasets set_datapacks]; try done.

Lemma fresh_below ids n :
  NoDup ids /\ Forall (fun i => i < n) ids -> NoDup (ids ++ [n]) /\ Forall (fun i => i < n + 1) (ids ++ [n]).
Proof.
  intros [Hnd Hlt]. split; [by apply fresh_id_nodup|]. apply Forall_app.
  split; [eapply Forall_impl; [exact Hlt|simpl; lia]|repeat constructor; lia].
Qed.

Lemma map_if_ids {A} (id : A -> Z) (p : A -> bool) (f : A -> A) l :
  (forall x, id (f x) = id x) -> map id (map (fun x => if p x then f x else x) l) = map id l.
Proof. intros Hf. rewrite map_map. apply map_ext. intros x. by case_match. Qed.

Lemma save_row_forall {A} (id : A -> Z) (P : A -> Prop) x l : P x -> Forall P l -> Forall P (save_row id x l).
Proof. intros Hx Hl. apply Forall_map. eapply Forall_impl; [exact Hl|]. intros y Hy. by case_match. Qed.

(** *** Statements *)

Lemma createDataset_inl x d x' d' :
  createDataset x d = inl (x', d') ->
  ds_ID x' = d_next_dataset d /\ key_free active_dataset_name (t_datasets d) x' = true /\
  d' = mkDdb (d_injections d) (t_datasets d ++ [x']) (t_dversions d) (t_user_datasets d) (t_datapacks d)
         (t_droles d) (d_next_dataset d + 1) (d_next_version d).
Proof.
  unfold createDataset, tx_flat. rewrite tx_wrap_inl. destruct (key_free _ _ _) eqn:E; [|done]. by intros [= <- <-].
Qed.
Lemma createDataset_keeps x : tx_keeps datasets_ok (createDataset x).
Proof.
  intros d x' d' [H1 H2 H3 H4 H5 H6 H7 H8] (Hid & Hf & ->)%createDataset_inl. dat.
  - rewrite map_app. simpl. rewrite Hid. by apply fresh_below.
  - by apply keys_add.
Qed.
Lemma createUserDataset_keeps u : tx_keeps datasets_ok (createUserDataset u).
Proof.
  apply tx_keeps_on_err. intros d x' d' [H1 H2 H3 H4 H5 H6 H7 H8]. cbv beta. destruct (key_free _ _ _) eqn:E; [|done].
  intros [= _ <-]. dat. by apply keys_add.
Qed.

Lemma kill_dversions_keeps p : tx_keeps datasets_ok (fun d =>
  let '(n, rows) := soft_delete p (dv_with_status deleted) (t_dversions d) in inl (n, set_dversions rows d)).
Proof.
  intros d n d' [H1 H2 H3 H4 H5 H6 H7 H8] [= _ <-]. dat.
  - by rewrite map_if_ids.
  - by apply keys_kill.
  - apply Forall_map. eapply Forall_impl; [exact H6|]. intros v Hv. by case_match.
  - by rewrite map_if_ids.
Qed.
Lemma kill_users_keeps id : tx_keeps datasets_ok (removeUsersFromDataset id).
Proof. intros d n d' [H1 H2 H3 H4 H5 H6 H7 H8] [= _ <-]. dat. by apply keys_kill. Qed.
Lemma deleteDataset_keeps id : tx_keeps datasets_ok (deleteDataset id).
Proof. intros d n d' [H1 H2 H3 H4 H5 H6 H7 H8] [= _ <-]. dat; [by rewrite map_if_ids|by apply keys_kill]. Qed.
Lemma updateDataset_keeps x : tx_keeps datasets_ok (updateDataset x).
Proof.
  apply tx_keeps_on_err. intros d x' d' [H1 H2 H3 H4 H5 H6 H7 H8]. cbv beta. destruct (key_free _ _ _) eqn:E; [|done].
  intros [= _ <-]. dat; [by rewrite save_row_ids|]. by apply keys_save; [apply H2|..].
Qed.
Lemma save_version_inl v d u d' :
  updateDatasetVersion v d = inl (u, d') ->
  0 <= dv_FileCount v /\
  key_free active_dataset_version (List.filter (fun y => negb (dv_ID y =? dv_ID v)) (t_dversions d)) v = true /\
  d' = set_dversions (save_row dv_ID v (t_dversions d)) d.
Proof.
  unfold updateDatasetVersion, tx_wrap. rewrite tx_wrap_inl. destruct (Z.leb_spec 0 (dv_FileCount v)); [|done]. cbn [negb].
  destruct (key_free _ _ _) eqn:E; [|done]. by intros [= _ <-].
Qed.
Lemma updateDatasetVersion_keeps v : tx_keeps datasets_ok (updateDatasetVersion v).
Proof.
  intros d u d' [H1 H2 H3 H4 H5 H6 H7 H8] (Hc & Hf & ->)%save_version_inl. dat; rewrite ?save_row_ids; try done.
  - by apply keys_save; [apply H4|..].
  - by apply save_row_forall.
Qed.

Lemma before_create_id v v' :
  DatasetVersion_BeforeCreate v = Ok v' ->
  dv_FileCount v' = dv_FileCount v /\ dv_DatasetID v' = dv_DatasetID v /\ dv_UserID v' = dv_UserID v /\
  dv_Status v' = dv_Status v.
Proof.
  unfold DatasetVersion_BeforeCreate. destruct (String.eqb _ _); [by intros [= <-]|].
  intros ([[? ?] ?] & _ & [= <-])%res_bind_ok. done.
Qed.
Lemma insert_version_inl v d v' d' :
  insert_version v d = inl (v', d') ->
  dv_ID v' = d_next_version d /\ dv_FileCount v' = dv_FileCount v /\ 0 <= dv_FileCount v' /\
  dv_DatasetID v' = dv_DatasetID v /\ key_free active_dataset_version (t_dversions d) v' = true /\
  d' = mkDdb (d_injections d) (t_datasets d) (t_dversions d ++ [v']) (t_user_datasets d) (t_datapacks d)
         (t_droles d) (d_next_dataset d) (d_next_version d + 1).
Proof.
  intros (v0 & d0 & E & Hr)%tx_bind_inl. assert (Hd : d0 = d /\ DatasetVersion_BeforeCreate v = Ok v0).
  { revert E. unfold tx_res, tx_ret, tx_err. destruct (DatasetVersion_BeforeCreate v); [by intros [= -> ->]|done]. }
  destruct Hd as [-> (Hc & Hds & _ & _)%before_create_id]. revert Hr. cbv beta zeta.
  set (w := dv_with_id _ _). assert (Hw : dv_ID w = d_next_version d /\ dv_FileCount w = dv_FileCount v /\ dv_DatasetID w = dv_DatasetID v)
    by (unfold w; case_match; by rewrite ?Hc, ?Hds).
  clearbody w. destruct Hw as (Hw1 & Hw2 & Hw3). destruct (Z.leb_spec 0 (dv_FileCount w)); [|done]. cbn [negb].
  destruct (key_free _ _ w) eqn:E1; [|done]. by intros [= <- <-].
Qed.
Lemma insert_version_keeps v : tx_keeps datasets_ok (insert_version v).
Proof.
  intros d v' d' [H1 H2 H3 H4 H5 H6 H7 [H8 H9]] (Hid & _ & Hc & _ & Hf & ->)%insert_version_inl. dat.
  - rewrite map_app. simpl. rewrite Hid. by apply fresh_below.
  - by apply keys_add.
  - apply Forall_app. split; [done|by constructor].
  - split; [done|]. eapply Forall_impl; [exact H9|]. intros k [? ?]. rewrite map_app, elem_of_app. tauto.
Qed.
Lemma insert_versions_ok vs : tx_keeps datasets_ok (insert_dversions vs).
Proof.
  induction vs as [|v vs IH]; [apply tx_keeps_ret|]. apply tx_keeps_bind; [apply insert_version_keeps|]. intros v'.
  apply tx_keeps_bind; [apply IH|]. intros l. apply tx_keeps_ret.
Qed.

(** *** Links of datapacks *)

Lemma existsb_name n names : existsb (String.eqb n) names = true <-> n ∈ names.
Proof.
  rewrite existsb_elem. split; [by intros (? & ? & ->%String.eqb_eq)|]. intros H. exists n. by rewrite String.eqb_refl.
Qed.
(** What the lookup by names gives: built, enabled injections of those names. *)
Definition selectable (names : list string) (r : InjectionRow) : bool :=
  built r && (fi_Status r =? enabled) && existsb (String.eqb (fi_Name r)) names.
Lemma last_named_spec (rows : list InjectionRow) (m : gmap string Z) n id :
  fold_left (fun m r => <[fi_Name r := fi_ID r]> m) rows m !! n = Some id ->
  (exists r, r ∈ rows /\ fi_Name r = n /\ fi_ID r = id) \/ m !! n = Some id.
Proof.
  revert m. induction rows as [|r rows IH]; intros m; cbn [fold_left]; [by right|].
  intros [(r' & Hr & ?)|Hm]%IH; [left; exists r'; split; [by right|done]|].
  apply lookup_insert_Some in Hm as [[<- <-]|[_ Hm]]; [left; exists r; split; [by left|done]|by right].
Qed.
Lemma ids_by_names names d n id :
  listInjectionIDsByNames names d !! n = Some id ->
  exists r, r ∈ t_injections (d_injections d) /\ fi_Name r = n /\ fi_ID r = id /\
    fi_State r = DatapackBuildSuccess /\ fi_Status r = enabled /\ n ∈ names.
Proof.
  intros [(r & Hr & Hn & Hid)|Hm]%last_named_spec; [|by rewrite lookup_empty in Hm].
  apply list_elem_of_In, filter_In in Hr as [Hr Hs]. unfold built in Hs. bool_to_prop. exists r.
  rewrite list_elem_of_In. split_and!; try done.
  match goal with H : existsb _ _ = true |- _ => apply existsb_name in H end. congruence.
Qed.
Lemma datapack_links_inl ids versionID names items :
  datapack_links ids versionID names = inl items ->
  length items = length names /\
  (forall k, k ∈ items <-> dvi_Version k = versionID /\ exists n, n ∈ names /\ ids !! n = Some (dvi_Injection k)).
Proof.
  revert items. induction names as [|n names IH]; intros items; cbn [datapack_links].
  - intros [= <-]. split; [done|]. intros k. split; [by intros ?%not_elem_of_nil|]. by intros (_ & n & ?%not_elem_of_nil & _).
  - destruct (ids !! n) as [id|] eqn:En; [|done]. destruct (datapack_links _ _ names) as [l|e] eqn:E; [|done].
    intros [= <-]. destruct (IH l eq_refl) as [Hlen Hl]. split; [by simpl; rewrite Hlen|]. intros k.
    rewrite elem_of_cons, Hl. split.
    + intros [->|(Hv & n' & Hn & ?)]; [split; [done|]; exists n; split; [by left|done]|].
      split; [done|]. exists n'. split; [by right|done].
    + intros (Hv & n' & [->|Hn]%elem_of_cons & Hi); [left|right; split; [done|by exists n']].
      destruct k as [a b]. simpl in *. congruence.
Qed.
Lemma add_datapacks_spec items l :
  NoDup l -> NoDup (fold_left add_datapack items l) /\
  (forall k, k ∈ fold_left add_datapack items l <-> k ∈ l \/ k ∈ items).
Proof.
  revert l. induction items as [|x items IH]; intros l Hnd; cbn [fold_left].
  { split; [done|]. intros k. split; [by left|]. by intros [?|?%not_elem_of_nil]. }
  assert (Hl : NoDup (add_datapack l x) /\ forall k, k ∈ add_datapack l x <-> k ∈ l \/ k = x).
  { unfold add_datapack. case_bool_decide; [split; [done|]; intros k; split; [by left|]; by intros [?| ->]|].
    split; [apply NoDup_app; split; [done|]; split; [by intros ? ? ->%list_elem_of_singleton|apply NoDup_singleton]|].
    intros k. by rewrite elem_of_app, list_elem_of_singleton. }
  destruct Hl as [H1 H2]. destruct (IH _ H1) as [H3 H4]. split; [done|]. intros k. rewrite H4, H2, elem_of_cons. tauto.
Qed.

(** The injections the names of a request stand for. *)
Definition named_built (names : list string) (d : ddb) (id : Z) : Prop :=
  exists n, n ∈ names /\ listInjectionIDsByNames names d !! n = Some id.
Lemma named_built_row names d id :
  named_built names d id ->
  exists r, r ∈ t_injections (d_injections d) /\ fi_ID r = id /\ fi_Name r ∈ names /\
    fi_State r = DatapackBuildSuccess /\ fi_Status r = enabled.
Proof. intros (n & Hn & (r & Hr & <- & ? & ? & ? & ?)%ids_by_names). by exists r. Qed.

Lemma set_datapacks_ok l d :
  datasets_ok d -> NoDup l ->
  (forall k, k ∈ l -> k ∈ t_datapacks d \/ (dvi_Version k ∈ map dv_ID (t_dversions d) /\
                                            dvi_Injection k ∈ map fi_ID (t_injections (d_injections d)))) ->
  datasets_ok (set_datapacks l d).
Proof.
  intros [H1 H2 H3 H4 H5 H6 H7 [H8 H9]] Hl Hk. dat. split; [done|]. rewrite Forall_forall in H9 |- *.
  intros k [?|?]%Hk; [by apply H9|done].
Qed.
Lemma link_datapacks_spec versionID names d u d' :
  datasets_ok d -> versionID ∈ map dv_ID (t_dversions d) -> link_when versionID names d = inl (u, d') ->
  datasets_ok d' /\ (exists l, d' = set_datapacks l d) /\
  (forall k, k ∈ t_datapacks d' <-> k ∈ t_datapacks d \/ (dvi_Version k = versionID /\ named_built names d (dvi_Injection k))).
Proof.
  intros Hd Hv. unfold link_when. destruct names as [|n0 names].
  { intros [= _ <-]. split; [done|]. split; [by exists (t_datapacks d); destruct d|]. intros k. split; [by left|].
    intros [?|(_ & n & ?%not_elem_of_nil & _)]; done. }
  set (all := n0 :: names). change (tx_when (negb (length all =? 0)%nat)) with (fun m : Tx ddb unit => m). cbv beta.
  intros (ids & d0 & [= <- <-] & Hr)%tx_wrap_inl%tx_bind_inl. destruct (datapack_links _ _ _) as [items|e] eqn:E; [|done].
  apply datapack_links_inl in E as [_ Hi]. injection Hr as _ <-.
  destruct (add_datapacks_spec items (t_datapacks d)) as [Hnd Hk]; [apply Hd|]. split.
  - apply set_datapacks_ok; [done..|]. intros k [?|(-> & Hn)%Hi]%Hk; [by left|right]. split; [done|].
    apply named_built_row in Hn as (r & Hr & <- & _). by apply list_elem_of_fmap_2.
  - split; [by eexists|]. intros k. cbn [t_datapacks set_datapacks]. rewrite Hk, Hi. done.
Qed.
Lemma unlink_datapacks_spec versionID names d u d' :
  datasets_ok d -> names <> [] -> unlink_datapacks versionID names d = inl (u, d') ->
  datasets_ok d' /\ (exists l, d' = set_datapacks l d) /\ size (listInjectionIDsByNames names d) = length names /\
  (forall k, k ∈ t_datapacks d' <-> k ∈ t_datapacks d /\ ~ (dvi_Version k = versionID /\ named_built names d (dvi_Injection k))).
Proof.
  intros Hd Hne (ids & d0 & [= <- <-] & Hr)%tx_bind_inl.
  apply tx_bind_inl in Hr as ([] & d0 & [Hs ->]%tx_require_inl & Hr). apply Nat.eqb_eq in Hs.
  destruct (datapack_links _ _ _) as [items|e] eqn:E; [|done]. apply datapack_links_inl in E as [Hlen Hi].
  apply tx_wrap_inl in Hr. injection Hr as _ <-.
  destruct (map dvi_Injection items) as [|i0 js] eqn:Em.
  { destruct items; [|done]. simpl in Hlen. by destruct names. }
  rewrite <- Em. split; [|split; [by eexists|split; [done|]]].
  - apply set_datapacks_ok; [done| |].
    + apply nodup_filter, Hd.
    + intros k Hk%filter_subset. by left.
  - intros k. cbn [t_datapacks set_datapacks]. rewrite list_elem_of_In, filter_In, <- list_elem_of_In.
    assert (Hin : in_ids [versionID] (dvi_Version k) && in_ids (map dvi_Injection items) (dvi_Injection k) = true <->
                  dvi_Version k = versionID /\ named_built names d (dvi_Injection k)).
    { rewrite andb_true_iff. unfold in_ids at 1. simpl. rewrite orb_false_r, Z.eqb_eq. unfold in_ids. rewrite existsb_elem.
      split.
      - intros [-> (i & Hin & ->%Z.eqb_eq)]. split; [done|]. apply list_elem_of_fmap in Hin as (y & -> & Hy).
        by apply Hi in Hy as [_ ?].
      - intros [-> Hn]. split; [done|]. exists (dvi_Injection k). rewrite Z.eqb_refl. split; [|done].
        apply list_elem_of_fmap. exists (mkDVI versionID (dvi_Injection k)). split; [done|]. by apply Hi. }
    rewrite negb_true_iff, <- not_true_iff_false, Hin. done.
Qed.

(** *** Operations *)

Lemma existing_version_inl known id d v d' :
  existing_version known id d = inl (v, d') -> d' = d /\ v ∈ t_dversions d /\ dv_ID v = id.
Proof.
  intros [E ->]%tx_wrap_inl%tx_wrap_inl%tx_first_inl. split; [done|]. apply find_some in E as [? ?%Z.eqb_eq].
  by rewrite list_elem_of_In.
Qed.
Lemma existing_dataset_inl id d x d' :
  existing_dataset id d = inl (x, d') ->
  d' = d /\ x ∈ t_datasets d /\ ds_ID x = id /\ ds_Status x <> deleted.
Proof.
  intros [E ->]%tx_wrap_inl%tx_wrap_inl%tx_first_inl. split; [done|]. apply find_some in E as [? E].
  unfold live_dataset in E. bool_to_prop. by rewrite list_elem_of_In.
Qed.

Lemma versions_core_keeps vs : tx_keeps datasets_ok (createDatasetVersionsCore vs).
Proof.
  destruct vs as [|v vs]; [apply tx_keeps_ret|]. apply tx_keeps_on_err. apply tx_keeps_bind; [apply tx_keeps_require|].
  intros _. apply tx_keeps_on_err, insert_versions_ok.
Qed.
Lemma create_dataset_keeps req user : tx_keeps datasets_ok (create_dataset req user).
Proof.
  apply tx_keeps_on_err. apply tx_keeps_bind; [do 2 apply tx_keeps_on_err; apply tx_keeps_first|]. intros role.
  apply tx_keeps_bind; [apply tx_keeps_on_err, createDataset_keeps|]. intros x.
  apply tx_keeps_bind; [apply tx_keeps_on_err, createUserDataset_keeps|]. intros _.
  destruct (cd_Version req); [|apply tx_keeps_ret].
  apply tx_keeps_bind; [apply tx_keeps_on_err, versions_core_keeps|]. intros _. apply tx_keeps_ret.
Qed.
Lemma delete_dataset_keeps id : tx_keeps datasets_ok (delete_dataset id).
Proof.
  apply tx_keeps_bind; [apply kill_dversions_keeps|]. intros _.
  apply tx_keeps_bind; [apply kill_users_keeps|]. intros _.
  apply tx_keeps_bind; [apply deleteDataset_keeps|]. intros n. apply tx_keeps_require.
Qed.
Lemma existing_dataset_keeps id : tx_keeps datasets_ok (existing_dataset id).
Proof. intros d x d' Hd (-> & _)%existing_dataset_inl. done. Qed.
Lemma update_dataset_keeps req id : tx_keeps datasets_ok (update_dataset req id).
Proof.
  apply tx_keeps_bind; [apply existing_dataset_keeps|]. intros x.
  apply tx_keeps_bind; [apply tx_keeps_on_err, updateDataset_keeps|]. intros _. apply tx_keeps_ret.
Qed.
Lemma update_version_keeps status id : tx_keeps datasets_ok (update_version status id).
Proof.
  apply tx_keeps_bind; [by intros d v d' Hd (-> & _)%existing_version_inl|]. intros v.
  apply tx_keeps_bind; [apply tx_keeps_on_err, updateDatasetVersion_keeps|]. intros _. apply tx_keeps_ret.
Qed.
Lemma delete_version_keeps id : tx_keeps datasets_ok (Service_DeleteDatasetVersion id).
Proof. apply tx_keeps_bind; [apply kill_dversions_keeps|]. intros n. apply tx_keeps_require. Qed.

Lemma created_version vs d l d' :
  insert_dversions vs d = inl (l, d') -> Forall (fun v => dv_ID v ∈ map dv_ID (t_dversions d')) l.
Proof.
  revert d l d'. induction vs as [|v vs IH]; intros d l d'; [by intros [= <- <-]|].
  intros (v' & d1 & Hv & (l' & d2 & Hl & [= <- <-])%tx_bind_inl)%tx_bind_inl.
  constructor; [|by eapply IH]. apply insert_version_inl in Hv as (_ & _ & _ & _ & _ & ->).
  assert (Hin : dv_ID v' ∈ map dv_ID (t_dversions d ++ [v'])) by (rewrite map_app, elem_of_app; right; simpl; by left).
  clear IH. set (d1 := mkDdb _ _ _ _ _ _ _ _) in Hl. change (t_dversions d ++ [v']) with (t_dversions d1) in Hin.
  clearbody d1. revert d1 l' d2 Hl Hin. induction vs as [|w vs IH]; intros d1 l' d2; [by intros [= _ <-]|].
  intros (w' & d3 & Hw & (l3 & d4 & Hl & [= _ <-])%tx_bind_inl)%tx_bind_inl Hin. eapply IH; [exact Hl|].
  apply insert_version_inl in Hw as (_ & _ & _ & _ & _ & ->). cbn [t_dversions]. rewrite map_app, elem_of_app. by left.
Qed.
Lemma create_version_keeps req dataset user : tx_keeps datasets_ok (create_version req dataset user).
Proof.
  intros d v d' Hd (vs & d1 & Hc%tx_wrap_inl & Hr)%tx_bind_inl.
  assert (Hd1 : datasets_ok d1) by by eapply versions_core_keeps. destruct vs as [|w vs]; [done|].
  apply tx_bind_inl in Hr as (u & d2 & Hl & [= _ <-]). apply link_datapacks_spec in Hl as [? _]; [done..|].
  apply tx_wrap_inl in Hc. apply tx_bind_inl in Hc as ([] & d0 & [_ ->]%tx_require_inl & Hi%tx_wrap_inl).
  apply created_version in Hi. by inversion Hi.
Qed.
Lemma manage_datapacks_keeps req versionID : tx_keeps datasets_ok (manage_datapacks req versionID).
Proof.
  intros d r d' Hd (v & d0 & (-> & Hv & Ev)%existing_version_inl & Hr)%tx_bind_inl.
  assert (Hin : versionID ∈ map dv_ID (t_dversions d)) by (rewrite <- Ev; by apply list_elem_of_fmap_2).
  apply tx_bind_inl in Hr as (u1 & d1 & (Hd1 & _)%link_datapacks_spec & Hr); [|done..].
  apply tx_bind_inl in Hr as (u2 & d2 & Hu & Hr).
  assert (Hd2 : datasets_ok d2).
  { destruct (md_Remove req) as [|n l]; [by injection Hu as _ <-|].
    eapply (unlink_datapacks_spec _ (n :: l)); [exact Hd1|done|exact Hu]. }
  apply tx_bind_inl in Hr as (l & d3 & [= <- <-] & (u3 & d4 & Hs%tx_wrap_inl & [= _ <-])%tx_bind_inl).
  by eapply updateDatasetVersion_keeps.
Qed.
Lemma on_injections_inl {A} (m : Tx idb A) d a d' :
  on_injections m d = inl (a, d') <-> exists i, m (d_injections d) = inl (a, i) /\ d' = set_d_injections i d.
Proof.
  unfold on_injections, tx_on. destruct (m (d_injections d)) as [[b l]|e]; split; try done.
  - intros [= <- <-]. by exists l.
  - by intros (? & [= <- <-] & ->).
  - by intros (? & ? & _).
Qed.

Section LabelKeeps.
Context (order : gmap string LabelItem -> list (string * LabelItem)) (Horder : forall m, order m ≡ₚ map_to_list m).

(** Labels of datasets leave the injections as they are. *)
Lemma dataset_labels_keep (m : Tx ldb unit) :
  tx_keeps labels_ok m -> (forall l u l', m l = inl (u, l') -> forall k, k ∈ t_links l' -> k ∈ t_links l \/ k_Kind k = Datasets_) ->
  tx_keeps datasets_ok (on_injections (on_labels m)).
Proof.
  intros Hm Hk d u d' [H1 H2 H3 H4 H5 H6 H7 H8] (i & (l & E & ->)%on_labels_inl & ->)%on_injections_inl. dat.
  apply set_labels_ok; [done|by eapply Hm; [apply H1|]|]. intros k Hin. destruct (Hk _ _ _ E k Hin) as [?|Ek]; [by left|].
  right. unfold owned. by rewrite Ek.
Qed.
Lemma manage_dataset_labels_keeps add remove id : tx_keeps datasets_ok (manage_dataset_labels order add remove id).
Proof.
  apply tx_keeps_bind; [apply existing_dataset_keeps|]. intros x.
  apply tx_keeps_bind; [apply tx_keeps_when, dataset_labels_keep|intros _; apply tx_keeps_bind; [apply tx_keeps_when, dataset_labels_keep|]].
  - by apply attach_labels_keeps.
  - intros l u l' E k Hk. destruct (attach_links order Horder _ _ _ _ _ _ _ _ E k Hk) as [?|[? _]]; [by left|by right].
  - apply detach_labels_keeps.
  - intros l u l' E k Hk. left. by eapply detach_subset.
  - intros _. apply tx_keeps_get.
Qed.
End LabelKeeps.

(** One operation of the backend on datasets. *)
Inductive dataset_step : ddb -> ddb -> Prop :=
| dat_create req user d : dataset_step d (Service_CreateDataset req user d).2
| dat_delete id d : dataset_step d (Service_DeleteDataset id d).2
| dat_update req id d : dataset_step d (Service_UpdateDataset req id d).2
| dat_create_version req dataset user d : dataset_step d (Service_CreateDatasetVersion req dataset user d).2
| dat_delete_version id d : dataset_step d (transaction (Service_DeleteDatasetVersion id) d).2
| dat_update_version status id d : dataset_step d (Service_UpdateDatasetVersion status id d).2
| dat_manage req id d : dataset_step d (ManageDatasetVersionInjections req id d).2
| dat_labels order add remove id d (Horder : forall m, order m ≡ₚ map_to_list m) :
    dataset_step d (ManageDatasetLabels order add remove id d).2.

Lemma transaction_pair_keeps {S A B} (I : S -> Prop) (m : Tx S A) (f : A + goerr -> B) d :
  tx_keeps I m -> I d -> I (let '(r, d') := transaction m d in (f r, d')).2.
Proof.
  intros Hm Hd. pose proof (tx_keeps_transaction I m d Hm Hd) as H. by destruct (transaction m d).
Qed.
Lemma dataset_step_keeps d d' : dataset_step d d' -> datasets_ok d -> datasets_ok d'.
Proof.
  intros Hs Hd. destruct Hs.
  - unfold Service_CreateDataset. apply transaction_pair_keeps; [apply create_dataset_keeps|done].
  - apply (tx_keeps_transaction datasets_ok); [apply delete_dataset_keeps|done].
  - apply (tx_keeps_transaction datasets_ok); [apply update_dataset_keeps|done].
  - unfold Service_CreateDatasetVersion. apply transaction_pair_keeps; [apply create_version_keeps|done].
  - apply (tx_keeps_transaction datasets_ok); [apply delete_version_keeps|done].
  - unfold Service_UpdateDatasetVersion. apply transaction_pair_keeps; [apply update_version_keeps|done].
  - apply (tx_keeps_transaction datasets_ok); [apply manage_datapacks_keeps|done].
  - apply (tx_keeps_transaction datasets_ok); [by apply manage_dataset_labels_keeps|done].
Qed.

(** The tables of datasets: whatever the operations do one after the other, identifiers
    stay unique and new ones fresh, no two datasets that are not deleted share a name, no
    two versions of a dataset that are not deleted share a name, no count of files is
    negative, and a datapack is listed once in a version, both of them stored. *)
Theorem datasets_stay_ok d0 d :
  datasets_ok d0 -> rtc dataset_step d0 d ->
  datasets_ok d /\
  (forall x y, x ∈ t_datasets d -> y ∈ t_datasets d -> 0 <= ds_Status x -> 0 <= ds_Status y -> ds_Name x = ds_Name y -> x = y) /\
  (forall v w, v ∈ t_dversions d -> w ∈ t_dversions d -> 0 <= dv_Status v -> 0 <= dv_Status w ->
     dv_DatasetID v = dv_DatasetID w -> dv_Name v = dv_Name w -> v = w).
Proof.
  intros Hd Hs. assert (Hok : datasets_ok d).
  { induction Hs as [|x y z Hxy _ IH]; [done|]. apply IH. by eapply dataset_step_keeps. }
  split; [done|]. split.
  - intros x y Hx Hy Sx Sy E. eapply (nodup_key_inj active_dataset_name); [apply Hok|done..| |].
    + unfold active_dataset_name. by rewrite (proj2 (Z.leb_le 0 (ds_Status x)) Sx).
    + unfold active_dataset_name. by rewrite (proj2 (Z.leb_le 0 (ds_Status y)) Sy), E.
  - intros v w Hv Hw Sv Sw E1 E2. eapply (nodup_key_inj active_dataset_version); [apply Hok|done..| |].
    + unfold active_dataset_version. by rewrite (proj2 (Z.leb_le 0 (dv_Status v)) Sv).
    + unfold active_dataset_version. by rewrite (proj2 (Z.leb_le 0 (dv_Status w)) Sw), E1, E2.
Qed.

(** ** What a reference resolves to *)

Definition dataset_visible (d : ddb) (userID : Z) (x : DatasetRow) : Prop :=
  userID <= 0 \/ ds_IsPublic x = true \/
  exists u, u ∈ t_user_datasets d /\ ud_DatasetID u = ds_ID x /\ ud_UserID u = userID /\ ud_Status u = enabled.
(** A row of the query: an enabled version with its enabled dataset, which the user sees. *)
Definition dataset_usable (d : ddb) (userID : Z) (v : DatasetVersionRow) (x : DatasetRow) : Prop :=
  v ∈ t_dversions d /\ dv_Status v = enabled /\ x ∈ t_datasets d /\ ds_ID x = dv_DatasetID v /\
  ds_Status x = enabled /\ dataset_visible d userID x.

Lemma elem_of_dataset_rows {A} d userID x (row r : A) :
  r ∈ dataset_rows d userID x row <-> r = row /\ dataset_visible d userID x.
Proof.
  unfold dataset_rows, dataset_visible. rewrite elem_of_seen_rows.
  assert (Hm : (exists u, u ∈ t_user_datasets d /\ ud_DatasetID u = ds_ID x /\ ud_UserID u = userID /\ ud_Status u = enabled)
               <-> exists u, u ∈ dataset_memberships d userID x).
  { split; intros (u & Hu); exists u; revert Hu; unfold dataset_memberships;
      rewrite (list_elem_of_In (List.filter _ _) u), filter_In, <- list_elem_of_In, !andb_true_iff, !Z.eqb_eq; tauto. }
  by rewrite Hm.
Qed.
Lemma elem_of_dv_rows d names userID v x :
  (v, x) ∈ dv_rows d names userID <-> dataset_usable d userID v x /\ ds_Name x ∈ names.
Proof.
  unfold dv_rows, dataset_usable. rewrite elem_of_concat_map. split.
  - intros (v' & Hv & Hr). destruct (dv_Status v' =? enabled) eqn:Es; [|by apply not_elem_of_nil in Hr].
    apply elem_of_concat_map in Hr as (x' & Hx & Hr).
    destruct (_ && _) eqn:E in Hr; [|by apply not_elem_of_nil in Hr]. bool_to_prop.
    apply elem_of_dataset_rows in Hr as [[= -> ->] Hvis].
    match goal with H : existsb _ _ = true |- _ => apply existsb_name in H end. done.
  - intros [(Hv & Hs & Hx & Hid & Hxs & Hvis) Hn]. exists v. split; [done|].
    rewrite Hs, Z.eqb_refl. apply elem_of_concat_map. exists x. split; [done|].
    rewrite (proj2 (existsb_name (ds_Name x) names) Hn), Hid, Hxs, !Z.eqb_refl. simpl. by apply elem_of_dataset_rows.
Qed.

#[export] Instance dv_before_trans : Transitive dv_before.
Proof.
  intros [a ca] [b cb] [c cc]. unfold dv_before, later_or_same. cbn [fst].
  intros H1 H2. repeat case_match; bool_to_prop; try done; lia.
Qed.
#[export] Instance dv_before_total : Total dv_before.
Proof.
  intros [a ca] [b cb]. unfold dv_before, later_or_same. cbn [fst].
  repeat case_match; bool_to_prop; try lia; rewrite ?Z.leb_le, ?Z.ltb_lt; lia.
Qed.

Lemma unique_versions_spec d refs userID :
  StronglySorted dv_before (getUniqueVersionsForDatasetRefs d refs userID) /\
  forall v x, (v, x) ∈ getUniqueVersionsForDatasetRefs d refs userID <->
    dataset_usable d userID v x /\ ds_Name x <> "" /\ exists ref, ref ∈ refs /\ dref_Name ref = ds_Name x.
Proof.
  unfold getUniqueVersionsForDatasetRefs. set (names := elements _).
  assert (Hn : forall n, n ∈ names <-> n <> "" /\ exists ref, ref ∈ refs /\ dref_Name ref = n).
  { intros n. unfold names. rewrite elem_of_elements, elem_of_list_to_set, list_elem_of_filter.
    split; intros [Hne H]; (split; [done|]).
    - apply list_elem_of_fmap in H as (ref & -> & Hr). by exists ref.
    - destruct H as (ref & Hr & <-). by apply list_elem_of_fmap_2. }
  clearbody names. unfold batchGetDatasetVersions. split.
  - destruct names; [constructor|]. apply StronglySorted_merge_sort; apply _.
  - intros v x. rewrite <- Hn. destruct names as [|n names].
    + split; [by intros ?%not_elem_of_nil|]. by intros [_ ?%not_elem_of_nil].
    + rewrite merge_sort_Permutation. apply elem_of_dv_rows.
Qed.

(** What one reference needs, and what it gives. *)
Definition resolves_to (d : ddb) (userID : Z) (ref : DatasetRef) (v : DatasetVersionRow) : Prop :=
  exists x, dataset_usable d userID v x /\ ds_Name x = dref_Name ref /\
    (dref_Version ref <> "" -> dv_Name v = dref_Version ref) /\
    (dref_Version ref = "" -> forall v' x', dataset_usable d userID v' x' -> ds_Name x' = dref_Name ref -> dv_before (v, x) (v', x')).
Definition resolvable (d : ddb) (userID : Z) (ref : DatasetRef) : Prop :=
  dref_Name ref <> "" /\ exists v x, dataset_usable d userID v x /\ ds_Name x = dref_Name ref /\
    (dref_Version ref = "" \/ dv_Name v = dref_Version ref).

Lemma resolve_one d refs userID ref :
  ref ∈ refs ->
  match resolve_dataset (getUniqueVersionsForDatasetRefs d refs userID) ref with
  | Ok v => resolvable d userID ref /\ resolves_to d userID ref v
  | Err _ => ~ resolvable d userID ref
  end.
Proof.
  intros Href. destruct (unique_versions_spec d refs userID) as [Hsort Hrows].
  set (rows := getUniqueVersionsForDatasetRefs d refs userID) in *. clearbody rows.
  assert (Hin : forall v x, dataset_usable d userID v x -> ds_Name x = dref_Name ref -> dref_Name ref <> "" -> (v, x) ∈ rows).
  { intros v x Hu Hn Hne. apply Hrows. split; [done|]. rewrite Hn. split; [done|]. by exists ref. }
  unfold resolve_dataset. destruct (String.eqb_spec (dref_Version ref) "") as [E|E]; cbn [negb].
  - destruct (ds_flatMap rows !! dref_Name ref) as [l|] eqn:Ef; cbn [or_error res_bind].
    + destruct l as [|v l]; cbn [head or_error].
      { unfold ds_flatMap in Ef. rewrite flat_map_lookup in Ef. by destruct (map fst _). }
      apply (flat_map_head _ _ dv_before) in Ef as ([w x] & Hr & Hw & Hn & Hs). simpl in Hw, Hn. subst w.
      apply Hrows in Hr as (Hu & Hne & _). rewrite Hn in Hne. split.
      { split; [done|]. exists v, x. split_and!; try done. by left. }
      exists x. split_and!; try done. intros _ v' x' Hu' Hn'. apply (Hs Hsort (v', x')); [by apply Hin|done].
    + intros (Hne & v & x & Hu & Hn & _). unfold ds_flatMap in Ef. rewrite flat_map_lookup in Ef.
      destruct (map fst _) eqn:Em; [|done]. apply map_eq_nil in Em.
      assert (Hf : In (v, x) []) by (rewrite <- Em; apply filter_In; split; [apply list_elem_of_In; by apply Hin|by apply String.eqb_eq]).
      done.
  - assert (Hfound : resolvable d userID ref -> exists w vs, ds_hierarchicalMap rows !! dref_Name ref = Some vs /\ vs !! dref_Version ref = Some w).
    { intros (Hne & v & x & Hu & Hn & [?|Hv]); [done|].
      destruct (hierarchical_complete (fun r => ds_Name r.2) (fun r => dv_Name r.1) fst rows (v, x)) as (w & vs & Hvs & Hw); [by apply Hin|].
      simpl in Hvs, Hw. rewrite Hn in Hvs. rewrite Hv in Hw. by exists w, vs. }
    destruct (ds_hierarchicalMap rows !! dref_Name ref) as [vs|] eqn:Eh; cbn [or_error res_bind].
    + destruct (vs !! dref_Version ref) as [v|] eqn:Ev; cbn [or_error].
      * destruct (hierarchical_sound (fun r => ds_Name r.2) (fun r => dv_Name r.1) fst rows (dref_Name ref) (dref_Version ref) v)
          as ([w x] & Hr & Hw & Hn & Hv); [by exists vs|]. simpl in Hw, Hn, Hv. subst w.
        apply Hrows in Hr as (Hu & Hne & _). rewrite Hn in Hne. split.
        -- split; [done|]. exists v, x. split_and!; try done. by right.
        -- by exists x.
      * intros (w & vs' & [= <-] & Hw)%Hfound. congruence.
    + by intros (w & vs' & ? & _)%Hfound.
Qed.

(** Resolving references to datasets: it succeeds exactly when every reference has a
    name and an enabled version of an enabled dataset of that name which the user may see
    - the version named, when one is; each reference then gets the version named, or the
    newest one the user could have named. *)
Theorem ResolveDatasetVersions_spec d refs userID :
  match ResolveDatasetVersions d refs userID with
  | Ok l => map fst l = refs /\ (forall ref, ref ∈ refs -> resolvable d userID ref) /\
            (forall ref v, (ref, v) ∈ l -> resolves_to d userID ref v)
  | Err _ => exists ref, ref ∈ refs /\ ~ resolvable d userID ref
  end.
Proof.
  unfold ResolveDatasetVersions. pose proof (resolve_one d refs userID) as Hone.
  set (rows := getUniqueVersionsForDatasetRefs d refs userID) in *. clearbody rows. induction refs as [|ref rest IH].
  { cbn [resolve_datasets]. split_and!; try done; by intros * ?%not_elem_of_nil. }
  cbn [resolve_datasets]. pose proof (Hone ref ltac:(by left)) as H1.
  destruct (resolve_dataset rows ref) as [v|e]; cbn [res_bind]; [|exists ref; split; [by left|done]].
  assert (IH' := IH (fun r Hr => Hone r ltac:(by right))). clear IH.
  destruct (resolve_datasets rows rest) as [l|e]; cbn [res_bind].
  - destruct IH' as (E & Hr & Hl). destruct H1 as [H1 H2]. split_and!; [simpl; by rewrite E|..].
    + intros r [->|?]%elem_of_cons; [done|by apply Hr].
    + intros r w [[= -> ->]|?]%elem_of_cons; [done|by apply Hl].
  - destruct IH' as (r & Hr & Hno). exists r. split; [by right|done].
Qed.

(** ** What the services do *)

Lemma ids_same_injections names d l : listInjectionIDsByNames names (set_datapacks l d) = listInjectionIDsByNames names d.
Proof. done. Qed.

(** C24. Changing the datapacks of a version: an error changes nothing.  Otherwise the version
    exists, it has the datapacks it had and those to add, without those to remove - names
    stand for enabled injections whose datapack is built, so the ones that went on to
    detection can neither be added nor removed -, every other version has what it had, and
    the count of files moves by the lengths of the two lists, which must not make it
    negative. *)
Theorem ManageDatasetVersionInjections_spec req versionID d r d' :
  datasets_ok d -> ManageDatasetVersionInjections req versionID d = (r, d') ->
  match r with
  | inr _ => d' = d
  | inl (v, datapacks) => exists v0, v0 ∈ t_dversions d /\ dv_ID v0 = versionID /\
      (forall k, k ∈ t_datapacks d' <->
         (k ∈ t_datapacks d \/ (dvi_Version k = versionID /\ named_built (md_Add req) d (dvi_Injection k))) /\
         ~ (dvi_Version k = versionID /\ named_built (md_Remove req) d (dvi_Injection k))) /\
      v = dv_with_count (dv_FileCount v0 + Z.of_nat (length (md_Add req)) - Z.of_nat (length (md_Remove req))) v0 /\
      v ∈ t_dversions d' /\ 0 <= dv_FileCount v /\
      (forall i, i ∈ datapacks <-> i ∈ t_injections (d_injections d) /\ fi_State i = DatapackBuildSuccess /\
                                   fi_Status i <> deleted /\ mkDVI versionID (fi_ID i) ∈ t_datapacks d')
  end.
Proof.
  intros Hd. unfold ManageDatasetVersionInjections, transaction. destruct (manage_datapacks req versionID d) as [[[v dps] d1]|e] eqn:E;
    intros [= <- <-]; [|done].
  apply tx_bind_inl in E as (v0 & d0 & (-> & Hv & Ev)%existing_version_inl & Hr).
  assert (Hin : versionID ∈ map dv_ID (t_dversions d)) by (rewrite <- Ev; by apply list_elem_of_fmap_2).
  apply tx_bind_inl in Hr as (u1 & d2 & (Hd1 & (l1 & ->) & Hk1)%link_datapacks_spec & Hr); [|done..].
  apply tx_bind_inl in Hr as (u2 & d3 & Hu & Hr).
  assert (Hd3 : exists l2, d3 = set_datapacks l2 d /\ forall k, k ∈ l2 <-> k ∈ l1 /\
                  ~ (dvi_Version k = versionID /\ named_built (md_Remove req) d (dvi_Injection k))).
  { destruct (md_Remove req) as [|n l].
    - injection Hu as _ <-. exists l1. split; [done|]. intros k. split; [|by intros [? _]]. intros Hk. split; [done|].
      by intros (_ & m & ?%not_elem_of_nil & _).
    - rewrite Ev in Hu. apply (unlink_datapacks_spec _ (n :: l)) in Hu as (_ & (l2 & ->) & _ & Hk2); [|done..].
      exists l2. split; [done|]. exact Hk2. }
  destruct Hd3 as (l2 & -> & Hk2). cbn [t_datapacks set_datapacks] in Hk1.
  apply tx_bind_inl in Hr as (l & d4 & [= <- <-] & (u3 & d5 & (Hc & _ & ->)%tx_wrap_inl%save_version_inl & [= <- <- <-])%tx_bind_inl).
  exists v0. split; [done|]. split; [done|]. split; [intros k; by rewrite Hk2, Hk1|]. split; [done|]. split.
  - cbn [t_dversions set_dversions]. apply list_elem_of_fmap. exists v0. by rewrite Z.eqb_refl.
  - split; [exact Hc|]. intros i. unfold ListInjectionsByDatasetVersionID, built, live.
    rewrite list_elem_of_In, filter_In, <- list_elem_of_In, !andb_true_iff, !bool_decide_eq_true, negb_true_iff, Z.eqb_neq, Ev.
    cbn [t_datapacks d_injections set_dversions set_datapacks]. tauto.
Qed.

(** A dataset that is not there: the service tests for an error whose identity the
    repository has lost, so reading and updating answer an internal error where deleting
    answers not found; a name that is taken is an internal error too, not a conflict. *)
Theorem dataset_errors_lost id req upd user d :
  find (live_dataset id) (t_datasets d) = None ->
  (exists e1 e2 e3, GetDataset id d = inr e1 /\ Service_UpdateDataset upd id d = (inr e2, d) /\
     Service_DeleteDataset id d = (inr e3, d) /\ status_is 500 e1 /\ status_is 500 e2 /\ status_is 404 e3) /\
  ((exists x, x ∈ t_datasets d /\ 0 <= ds_Status x /\ ds_Name x = cd_Name req) ->
   find (fun r => String.eqb (ro_Name r) RoleDatasetAdmin && negb (ro_Status r =? deleted)) (t_droles d) <> None ->
   exists e, Service_CreateDataset req user d = (inr e, d) /\ status_is 500 e).
Proof.
  intros Hf. split.
  - assert (He : existing_dataset id d = inr (Wrap "failed to get dataset: " (Flat "failed to get dataset: " (Is RecordNotFound)) "")).
    { unfold existing_dataset, known_as, getDatasetByID, tx_flat, tx_on_err, tx_first. by rewrite Hf. }
    do 3 eexists. split; [unfold GetDataset, tx_bind; rewrite He; reflexivity|].
    split; [unfold Service_UpdateDataset, transaction, update_dataset, tx_bind; rewrite He; reflexivity|].
    split.
    { unfold Service_DeleteDataset, transaction, delete_dataset, batchDeleteDatasetVersions, removeUsersFromDataset, deleteDataset,
        soft_delete, tx_bind. cbn [t_datasets set_dversions set_user_datasets].
      assert (Hn : List.filter (live_dataset id) (t_datasets d) = []).
      { generalize (find_none _ _ Hf). induction (t_datasets d) as [|x l IH]; intros Hl; [done|]. simpl.
        rewrite (Hl x) by (by left). apply IH; [|intros y Hy; apply Hl; by right].
        clear -Hl. induction l; [done|]. simpl. rewrite (Hl a) by (right; by left). apply IHl. intros y [->|Hy]; apply Hl; [by left|by right; right]. }
      rewrite Hn. reflexivity. }
    split_and!; unfold status_is; rewrite ?status_wrap; reflexivity.
  - intros (x & Hx & Hst & Hn) Hrole. destruct (find _ (t_droles d)) as [role|] eqn:Er; [|done].
    eexists. split.
    { unfold Service_CreateDataset, transaction, create_dataset, tx_wrap, tx_on_err, createDatasetCore, tx_bind.
      unfold known_as, dataset_role, tx_wrap, tx_on_err, tx_first. rewrite Er.
      unfold createDataset, tx_flat, tx_on_err. cbn [ds_Status ConvertToDataset].
      set (row := mkDataset _ _ _ _ _ _). assert (Hk : key_free active_dataset_name (t_datasets d) row = false).
      { apply not_true_iff_false. rewrite key_free_spec. intros Hfree. apply (Hfree (cd_Name req) eq_refl).
        apply elem_of_keys. exists x. split; [done|]. unfold active_dataset_name. rewrite (proj2 (Z.leb_le 0 _) Hst). by rewrite Hn. }
      rewrite Hk. reflexivity. }
    unfold status_is. rewrite !status_wrap. reflexivity.
Qed.

(** ** A concrete dataset *)

Module DatasetSample.
Import InjectionSample.

(** Two injections, the first with a built datapack. *)
Definition injections : idb := (Service_UpdateInjectionState "ts-1" DatapackBuildSuccess InjectionSample.d2).2.
Definition empty : ddb := mkDdb injections [] [] [] [] [mkRoleRow 3 RoleDatasetAdmin enabled] 1 1.
Definition req : CreateDatasetReq := mkCreateDataset "bench" "microservice" "" (Some false) None.
Definition d1 : ddb := (Service_CreateDataset req 7 empty).2.
Definition d2 : ddb := (Service_CreateDatasetVersion ("1.2.0", ["ts-1"]) 1 7 d1).2.
Definition d3 : ddb := (Service_CreateDatasetVersion ("1.10.0", []) 1 7 d2).2.

Lemma injections_ok : idb_ok injections.
Proof.
  refine (injection_step_keeps InjectionSample.d2 _ _ (inj_state "ts-1" DatapackBuildSuccess _)).
  refine (injection_step_keeps InjectionSample.d1 _ _ (inj_create order (request "ts-2") [item "env" "test"] _ order_ok)).
  exact (injection_step_keeps InjectionSample.empty _ no_injections_ok (inj_create order (request "ts-1") [item "env" "prod"] _ order_ok)).
Qed.
Lemma datasets_empty_ok : datasets_ok empty.
Proof. split; [exact injections_ok|..]; cbn; try done; try (split; [constructor|done]); constructor. Qed.
Lemma dat_step1 : dataset_step empty d1.
Proof. unfold d1. apply dat_create. Qed.
Lemma dat_step2 : dataset_step d1 d2.
Proof. unfold d2. apply dat_create_version. Qed.
Lemma dat_step3 : dataset_step d2 d3.
Proof. unfold d3. apply dat_create_version. Qed.
Lemma dataset_steps : rtc dataset_step empty d3.
Proof. exact (rtc_l _ _ _ _ dat_step1 (rtc_l _ _ _ _ dat_step2 (rtc_once _ _ dat_step3))). Qed.
Lemma dataset2_ok : datasets_ok d2.
Proof. exact (dataset_step_keeps d1 d2 dat_step2 (dataset_step_keeps empty d1 dat_step1 datasets_empty_ok)). Qed.
Lemma d3_versions : map dv_Name (t_dversions d3) = ["1.2.0"; "1.10.0"].
Proof. vm_compute. reflexivity. Qed.
Lemma datasets_stay_ok_witness : datasets_ok d3 /\ map dv_Name (t_dversions d3) = ["1.2.0"; "1.10.0"].
Proof. exact (conj (proj1 (datasets_stay_ok empty d3 datasets_empty_ok dataset_steps)) d3_versions). Defined.

(** The newest version by its numbers, not by its text; nothing for a stranger. *)
Definition resolved (user : Z) (ref : DatasetRef) : res (list string) :=
  res_map (map (fun r => dv_Name r.2)) (ResolveDatasetVersions d3 [ref] user).
Example newest_version : resolved 7 (mkDatasetRef "bench" "") = Ok ["1.10.0"].
Proof. vm_compute. reflexivity. Qed.
Example private_dataset : resolved 8 (mkDatasetRef "bench" "") = Err "dataset not found: bench".
Proof. vm_compute. reflexivity. Qed.

(** A datapack that is added again is counted again and listed once. *)
Definition again : ManageDatasetVersionInjectionReq := mkManageDatapacks ["ts-1"; "ts-1"] [].
Definition managed := ManageDatasetVersionInjections again 1 d2.
Definition counted : option (Z * nat) :=
  match managed.1 with inl (v, dps) => Some (dv_FileCount v, length dps) | inr _ => None end.
Example counted_twice : counted = Some (2, 1%nat).
Proof. vm_compute. reflexivity. Qed.
Lemma managed_pair : ManageDatasetVersionInjections again 1 d2 = (managed.1, managed.2).
Proof. unfold managed. apply surjective_pairing. Qed.
Lemma managed_succeeds : match managed.1 with inl _ => true | inr _ => false end = true.
Proof. vm_compute. reflexivity. Qed.
Lemma managed_links : t_datapacks managed.2 = [mkDVI 1 1].
Proof. vm_compute. reflexivity. Qed.
Lemma ManageDatasetVersionInjections_spec_witness :
  exists v dps, managed.1 = inl (v, dps) /\ 0 <= dv_FileCount v /\ v ∈ t_dversions managed.2.
Proof.
  pose proof (ManageDatasetVersionInjections_spec again 1 d2 managed.1 managed.2 dataset2_ok managed_pair) as H.
  pose proof managed_succeeds as Hs. revert H Hs. generalize managed.2 as d'. generalize managed.1 as r. intros [[v dps]|e] d' H Hs.
  - destruct H as (v0 & _ & _ & _ & _ & Hv & Hc & _). exists v, dps. exact (conj eq_refl (conj Hc Hv)).
  - discriminate Hs.
Defined.

(** A version cannot lose a datapack that it lists once detection has run on it, nor give
    back one that was counted when the version was created. *)
Definition detected : ddb :=
  set_d_injections (Service_UpdateInjectionState "ts-1" DatapackDetectorSuccess injections).2 d2.
Definition text_of {A} (r : A + goerr) : string := match r with inl _ => "" | inr e => err_text e end.
Example detected_datapack_stays :
  text_of (ManageDatasetVersionInjections (mkManageDatapacks [] ["ts-1"]) 1 detected).1 = "some datapacks to remove were not found".
Proof. vm_compute. reflexivity. Qed.
Example first_removal_fails :
  text_of (ManageDatasetVersionInjections (mkManageDatapacks [] ["ts-1"]) 1 d2).1
  = "failed to update dataset version file count: failed to update dataset version: Check constraint 'chk_dataset_versions_file_count' is violated.".
Proof. vm_compute. reflexivity. Qed.
End DatasetSample.
