(* ===== verification/Submission.v ===== *)
(** * Submissions ([module/injection/service.go], [module/execution/service.go])

    How a request of a user becomes tasks: the references are resolved, the parameters
    are rendered, the batches are parsed and compared with what is stored, and each that
    is left is submitted as the first task of a trace.  The tables that are only read are
    arguments; what is written - the rows of tasks and traces, the keys of Redis - is the
    state. *)

From Stdlib Require Import QArith.QArith_base.
From S2P Require Import Prelude GoStrings Consts Redis Gateway Task TaskQueue TaskSubmit Partial HelmValues Parameters.
From S2P Require Import NamespaceLock RateLimiter FaultBatch EventHandler Executors InjectionSpec FriendlySpec FaultInjection Payloads.
From S2P Require Import Tables Containers Labels Injections Datasets.
#[local] Open Scope Z_scope.

(** ** Requests *)

(** [dto.ContainerSpec]. *)
Record ContainerSpec := mkContainerSpec { sp_Ref : ContainerRef; sp_EnvVars : list ParameterSpec; sp_Payload : vmap }.
Definition spec_valid (s : ContainerSpec) : res unit := ContainerSpec_Validate (sp_Ref s) (sp_EnvVars s).

(** The request of an injection after [ResolveSpecs]. *)
Record SubmitInjectionReq `{ChaosLib} := mkSubmitInjection {
  si_ProjectName : string;
  si_Pedestal : option ContainerSpec;
  si_Benchmark : option ContainerSpec;
  si_Interval : Z;
  si_PreDuration : Z;
  si_Specs : nat;                                  (* the number of raw batches *)
  si_Algorithms : list ContainerSpec;
  si_Labels : list LabelItem;
  si_Resolved : list (list Node);
  si_Guided : list (list GuidedConfig)
}.
Arguments mkSubmitInjection {_}.
(** The name of the detector is configuration. *)
Definition SubmitInjectionReq_Validate `{ChaosLib} (detector : string) (req : SubmitInjectionReq) : res unit :=
  let? pedestal := or_error (si_Pedestal req) "pedestal must not be nil" in
  res_wrap "invalid pedestal: " (spec_valid pedestal) ;;?
  (let? _ := or_error (si_Benchmark req) "benchmark must not be nil" in
   require (negb (si_Interval req <=? si_PreDuration req)) "interval must be greater than pre_duration" ;;?
   require (negb (si_Specs req =? 0)%nat) "specs must not be empty" ;;?
   for_each (fun idx algorithm =>
     res_wrap ("invalid algorithm at index " +:+ itoa (Z.of_nat idx) +:+ ": ") (spec_valid algorithm) ;;?
     require (negb (String.eqb (rf_Name (sp_Ref algorithm)) detector))
       ("algorithm name " +:+ detector +:+ " is reserved and cannot be used")) (si_Algorithms req)).

(** What a build and an execution start from: a datapack or a dataset. *)
Record BuildingSpec := mkBuildingSpec {
  bs_Benchmark : ContainerSpec; bs_Datapack : option string; bs_Dataset : option DatasetRef; bs_PreDuration : option Z
}.
Record ExecutionSpec := mkExecutionSpec {
  es_Algorithm : ContainerSpec; es_Datapack : option string; es_Dataset : option DatasetRef
}.
Definition source_valid (datapack : option string) (dataset : option DatasetRef) : res unit :=
  require (bool_decide (is_Some datapack) || bool_decide (is_Some dataset)) "either datapack or dataset must be specified" ;;?
  require (negb (bool_decide (is_Some datapack) && bool_decide (is_Some dataset))) "cannot specify both datapack and dataset" ;;?
  require (negb (bool_decide (datapack = Some ""))) "datapack name cannot be empty" ;;?
  match dataset with Some ref => res_wrap "invalid dataset: " (DatasetRef_Validate ref) | None => Ok tt end.
Definition BuildingSpec_Validate (spec : BuildingSpec) : res unit :=
  source_valid (bs_Datapack spec) (bs_Dataset spec) ;;?
  match bs_PreDuration spec with
  | Some n => require (negb (n <=? 0)) "pre_duration must be greater than 0"
  | None => Ok tt
  end.
Definition ExecutionSpec_Validate (detector : string) (spec : ExecutionSpec) : res unit :=
  source_valid (es_Datapack spec) (es_Dataset spec) ;;?
  res_wrap "invalid algorithm: " (spec_valid (es_Algorithm spec)) ;;?
  require (negb (String.eqb (rf_Name (sp_Ref (es_Algorithm spec))) detector)) "detector algorithm cannot be used for execution".

Record SubmitDatapackBuildingReq := mkSubmitBuilding {
  sb_ProjectName : string; sb_Specs : list BuildingSpec; sb_Labels : list LabelItem
}.
Definition SubmitDatapackBuildingReq_Validate (req : SubmitDatapackBuildingReq) : res unit :=
  require (negb (length (sb_Specs req) =? 0)%nat) "at least one datapack spec is required" ;;?
  for_each (fun _ spec => res_wrap "invalid datapack spec: " (BuildingSpec_Validate spec)) (sb_Specs req) ;;?
  validateInjectionLabelItems (sb_Labels req).
Record SubmitExecutionReq := mkSubmitExecution {
  se_ProjectName : string; se_Specs : list ExecutionSpec; se_Labels : list LabelItem
}.
Definition validateExecutionLabelItems (labels : list LabelItem) : res unit := validateInjectionLabelItems labels.
Definition SubmitExecutionReq_Validate (detector : string) (req : SubmitExecutionReq) : res unit :=
  require (negb (String.eqb (se_ProjectName req) "")) "project_name is required" ;;?
  require (negb (length (se_Specs req) =? 0)%nat) "at least one execution spec is required" ;;?
  for_each (fun i spec => res_wrap ("invalid execution spec at index " +:+ itoa (Z.of_nat i) +:+ ": ")
                            (ExecutionSpec_Validate detector spec)) (se_Specs req) ;;?
  validateExecutionLabelItems (se_Labels req).

(** ** Tables that are read *)

Record ProjectRow := mkProject { pj_ID : Z; pj_Name : string; pj_Status : Z }.
Record HelmConfigRow := mkHelmRow { hr_ID : Z; hr_VersionID : Z; hr_Config : HelmConfigItem; hr_Checksum : string }.
Record sdb := mkSdb {
  s_containers : cdb;
  s_helm : list HelmConfigRow;
  s_helm_links : list Link;                        (* chart, parameter *)
  s_datasets : ddb;
  s_projects : list ProjectRow
}.

Definition resolveProject (d : sdb) (name : string) : res ProjectRow :=
  or_error (find (fun p => String.eqb (pj_Name p) name && negb (pj_Status p =? Containers.deleted)) (s_projects d))
    ("record not found: project " +:+ name +:+ " not found").
Definition loadPedestalHelmConfig (d : sdb) (versionID : Z) : res HelmConfigRow :=
  or_error (find (fun h => hr_VersionID h =? versionID) (s_helm d))
    ("record not found: helm config not found for pedestal version id " +:+ itoa versionID).

(** [NewHelmConfigItem] leaves the values out. *)
Definition NewHelmConfigItem (h : HelmConfigRow) : HelmConfigItem :=
  let c := hr_Config h in
  mkHelmConfig (hc_Version c) (hc_RepoURL c) (hc_RepoName c) (hc_ChartName c) (hc_LocalPath c) (hc_ValueFile c) [].
Definition with_values (vs : list ParameterItem) (c : HelmConfigItem) : HelmConfigItem :=
  mkHelmConfig (hc_Version c) (hc_RepoURL c) (hc_RepoName c) (hc_ChartName c) (hc_LocalPath c) (hc_ValueFile c) vs.
(** The container of a version is preloaded, whatever its status. *)
Definition NewContainerVersionItem (d : sdb) (v : ContainerVersion) : ContainerVersionItem :=
  let container := find (fun c => c_ID c =? cv_ContainerID v) (t_containers (s_containers d)) in
  mkVersionItem (cv_ID v) (cv_Name v) (ImageRef v) (cv_Command v)
    (match container with Some c => c_ID c | None => 0 end) (match container with Some c => c_Name c | None => "" end) [] None.
Definition with_extra (h : HelmConfigItem) (i : ContainerVersionItem) : ContainerVersionItem :=
  mkVersionItem (cvi_ID i) (cvi_Name i) (cvi_ImageRef i) (cvi_Command i) (cvi_ContainerID i) (cvi_ContainerName i)
    (cvi_EnvVars i) (Some h).

Section Parameters.
Context `{FloatText} (d : sdb).
Definition ListContainerVersionEnvVars (specs : list ParameterSpec) (version : ContainerVersion) : P (list ParameterItem) :=
  listParameterItemsWithDB specs
    (fun keys => Ok (listContainerVersionEnvVars (t_params (s_containers d)) (t_env_links (s_containers d)) (cv_ID version) keys))
    (Some version).
(** The version of the chart is preloaded for the templates. *)
Definition ListHelmConfigValues (specs : list ParameterSpec) (cfg : HelmConfigRow) : P (list ParameterItem) :=
  listParameterItemsWithDB specs
    (fun keys => Ok (listHelmConfigValues (t_params (s_containers d)) (s_helm_links d) (hr_ID cfg) keys))
    (find (fun v => cv_ID v =? hr_VersionID cfg) (t_versions (s_containers d))).
(** The versions of the references, in order. *)
Definition versions_of (specs : list ContainerSpec) (containerType userID : Z) : P (list ContainerVersion) :=
  let> l := ResolveContainerVersions (s_containers d) (map sp_Ref specs) containerType userID in p_ret (map snd l).
(** A version with its own variables and those of the request. *)
Definition version_item (what : string) (spec : ContainerSpec) (v : ContainerVersion) : P ContainerVersionItem :=
  let> envVars := p_wrap ("failed to list " +:+ what +:+ " env vars: ") (ListContainerVersionEnvVars (sp_EnvVars spec) v) in
  p_ret (set_env_vars envVars (NewContainerVersionItem d v)).
End Parameters.

(** Engine configurations that have been injected and are not marked as invalid. *)
Definition marked_invalid (d : idb) (id : Z) : bool :=
  existsb (fun l => String.eqb (l_Key l) LabelKeyTag && String.eqb (l_Value l) "invalid") (labels_of Injections_ id (i_labels d)).
Definition injected_before (d : idb) (r : InjectionRow) : bool :=
  (DatapackState_code DatapackInjectSuccess <=? DatapackState_code (fi_State r)) && (fi_Status r =? Containers.enabled)
  && negb (marked_invalid d (fi_ID r)).
Definition listExistingEngineConfigs (d : idb) (configs : list string) : res (list string) :=
  match configs with
  | [] => Ok []
  | _ => Ok (map fi_EngineConfig
           (List.filter (fun r => existsb (String.eqb (fi_EngineConfig r)) configs && injected_before d r) (t_injections d)))
  end.

(** A datapack with its labels, and the datapacks of a request. *)
Definition datapack_of (d : idb) (r : InjectionRow) : Datapack :=
  mkDatapack (fi_Name r) (fi_State r) (map (fun l => (l_Key l, l_Value l)) (labels_of Injections_ (fi_ID r) (i_labels d)))
    (fi_ID r) (fi_PreDuration r) (fi_StartTime r) (fi_EndTime r).
Definition find_datapack (d : idb) (name : string) : res Datapack :=
  match findInjectionByName name d with
  | inl (r, _) => Ok (datapack_of d r)
  | inr e => Err (err_text e)
  end.
Definition resolve_version (d : ddb) (userID : Z) (ref : DatasetRef) : res (option Z) :=
  let? l := ResolveDatasetVersions d [ref] userID in Ok (head (map (fun r => dv_ID r.2) l)).
Definition version_datapacks (d : ddb) (version : Z) : res (list Datapack) :=
  Ok (map (datapack_of (d_injections d)) (ListInjectionsByDatasetVersionID version d)).
Definition request_datapacks (d : ddb) (userID : Z) (name : option string) (ref : option DatasetRef) (taskType : TaskType)
  : res (list Datapack * option Z) :=
  ResolveDatapacks (find_datapack (d_injections d)) (resolve_version d userID) (version_datapacks d) name ref taskType.

(** ** The services *)

(** A handler over a state: the state afterwards, and its result or a panic. *)
Definition H (W A : Type) : Type := W -> W * P A.
Definition h_ret {W A} (a : A) : H W A := fun w => (w, p_ret a).
Definition h_lift {W A} (m : P A) : H W A := fun w => (w, m).
Definition h_bind {W A B} (m : H W A) (k : A -> H W B) : H W B := fun w =>
  match m w with
  | (w', Returns (Ok a)) => k a w'
  | (w', Returns (Err e)) => (w', Returns (Err e))
  | (w', Panics) => (w', Panics)
  end.
Definition h_run {W A} (m : M W A) : H W A := fun w => let '(w', r) := m w in (w', Returns r).
Definition h_wrap {W A} (prefix : string) (m : H W A) : H W A := fun w => let '(w', r) := m w in (w', p_wrap prefix r).
Notation "'let~' x := m 'in' k" := (h_bind m (fun x => k))
  (at level 10, x pattern, m at level 100, k at level 200) : go_scope.

Section Services.
Context {D R : Type} `{TaskStore D} `{RedisServer R} `{TaskCodec} `{ChaosLib} `{FloatText}.
Context (d : sdb).
(** What the libraries print: a list of a values file, nodes and guided configurations,
    the cached algorithms, a time or none, the row of a chart. *)
Context (json_list : list value -> res string).
Context (nodes_value : list Node -> value) (guided_value : list GuidedConfig -> value).
Context (algorithms_json : list ContainerVersionItem -> res string).
Context (time_text : option Z -> string) (helm_row_value : HelmConfigRow -> value).
(** The order of an iteration over a set, the clock at each position, what each
    submission takes from its environment, the carrier of the group. *)
Context (order : gset string -> list string) (now : nat -> Z) (env : nat -> submit_env).
Context (carrier : option (gmap string string)).

Definition W : Type := D * R.

Record SubmitInjectionItem := mkSubmitItem { it_Index : Z; it_TraceID : string; it_TaskID : string }.
Record InjectionWarnings := mkWarnings {
  DuplicateServicesInBatch : list string; DuplicateBatchesInRequest : list Z; BatchesExistInDatabase : list Z
}.
Record SubmitInjectionResp := mkSubmitResp {
  sr_GroupID : string; sr_Items : list SubmitInjectionItem; sr_OriginalCount : Z; sr_Warnings : option InjectionWarnings
}.

(** *** Injections *)

(** The batches that are read without a warning, and the warnings. *)
Definition parse_batches {A} (what : string) (parse : Z -> A -> P (injectionProcessItem * string)) (batches : list A)
  : P (list injectionProcessItem * list string) :=
  p_fold (fun i '(items, warnings) batch =>
    let> (item, warning) := p_wrap ("failed to parse " +:+ what +:+ " batch " +:+ itoa (Z.of_nat i) +:+ ": ")
                              (parse (Z.of_nat i) batch) in
    if negb (String.eqb warning "") then p_ret (items, warnings ++ [warning]) else p_ret (items ++ [item], warnings))
    0%nat ([], []) batches.
Definition parse_request (req : SubmitInjectionReq) (pedestal : string) : P (list injectionProcessItem * list string) :=
  p_require (negb ((length (si_Resolved req) =? 0) && (length (si_Guided req) =? 0))%nat)
    "no resolved specs available; call ResolveSpecs before SubmitFaultInjection" ;;>
  if (0 <? length (si_Guided req))%nat then parse_batches "guided spec" (parseBatchGuidedSpecs pedestal) (si_Guided req)
  else parse_batches "injection spec" (parseBatchInjectionSpecs pedestal) (si_Resolved req).

(** The pedestal with the values of its chart. *)
Definition pedestal_item (spec : ContainerSpec) (userID : Z) : P (ContainerVersionItem * HelmConfigRow) :=
  let> versions := p_wrap "failed to map pedestal container ref to version: "
                     (versions_of d [spec] (ContainerType_code ContainerTypePedestal) userID) in
  let> version := p_lift (or_error (head versions) ("pedestal version not found for container: " +:+ rf_Name (sp_Ref spec)
                    +:+ " (version: " +:+ rf_Version (sp_Ref spec) +:+ ")")) in
  let> helmConfig := p_lift (loadPedestalHelmConfig d (cv_ID version)) in
  let params := map (fun kv => mkSpec kv.1 kv.2) (flattenYAMLToParameters json_list (sp_Payload spec) "") in
  let> helmValues := p_wrap "failed to render pedestal helm values: " (ListHelmConfigValues d params helmConfig) in
  p_ret (with_extra (with_values helmValues (NewHelmConfigItem helmConfig)) (NewContainerVersionItem d version), helmConfig).
Definition benchmark_item (spec : ContainerSpec) (userID : Z) : P ContainerVersionItem :=
  let> versions := p_wrap "failed to map benchmark container ref to version: "
                     (versions_of d [spec] (ContainerType_code ContainerTypeBenchmark) userID) in
  let> version := p_lift (or_error (head versions) ("benchmark version not found for container: " +:+ rf_Name (sp_Ref spec)
                    +:+ " (version: " +:+ rf_Version (sp_Ref spec) +:+ ")")) in
  version_item d "benchmark" spec version.
Fixpoint algorithm_items (specs : list (ContainerSpec * ContainerVersion)) : P (list ContainerVersionItem) :=
  match specs with
  | [] => p_ret []
  | (spec, v) :: rest =>
      let> item := version_item d "algorithm" spec v in let> items := algorithm_items rest in p_ret (item :: items)
  end.

Record injection_plan := mkPlan {
  pl_ProjectID : Z; pl_Pedestal : ContainerVersionItem; pl_Helm : HelmConfigRow; pl_Benchmark : ContainerVersionItem;
  pl_Items : list injectionProcessItem; pl_Count : Z; pl_Warnings : option InjectionWarnings
}.
Definition warnings_of (parsed : list string) (repeated stored : list Z) : option InjectionWarnings :=
  if ((0 <? length parsed) || (0 <? length repeated) || (0 <? length stored))%nat
  then Some (mkWarnings parsed repeated stored) else None.
Definition project_of (projectID : option Z) (name : string) : res Z :=
  match projectID with Some id => Ok id | None => res_map pj_ID (resolveProject d name) end.
Definition existing_configs_of : list string -> res (list string) := listExistingEngineConfigs (d_injections (s_datasets d)).

(** Everything that is checked before something is written. *)
Definition plan_injection (req : SubmitInjectionReq) (userID : Z) (projectID : option Z) : P injection_plan :=
  let> projectID := p_lift (project_of projectID (si_ProjectName req)) in
  let> pedestal := p_get (si_Pedestal req) in
  let> (pedestalItem, helmConfig) := pedestal_item pedestal userID in
  let> benchmark := p_get (si_Benchmark req) in
  let> benchmarkItem := benchmark_item benchmark userID in
  let> (processed, parseWarnings) := parse_request req (cvi_ContainerName pedestalItem) in
  let> (unique, repeated, stored) := p_wrap "failed to remove duplicated batches: "
                                       (p_lift (removeDuplicated order existing_configs_of now processed)) in
  p_ret (mkPlan projectID pedestalItem helmConfig benchmarkItem unique (Z.of_nat (length processed))
           (warnings_of parseWarnings repeated stored)).
Definition plan_algorithms (req : SubmitInjectionReq) (userID : Z) : P (list ContainerVersionItem) :=
  match si_Algorithms req with
  | [] => p_ret []
  | specs =>
      let> versions := p_wrap "failed to map container refs to versions: "
                         (versions_of d specs (ContainerType_code ContainerTypeAlgorithm) userID) in
      algorithm_items (zip specs versions)
  end.
Definition store_algorithms (groupID : string) (items : list ContainerVersionItem) : M R unit :=
  if (0 <? length items)%nat then
    m_wrap "failed to store injection algorithms: " (SetHashField InjectionAlgorithmsKey groupID (algorithms_json items))
  else m_ret tt.

Definition label_value (l : LabelItem) : value :=
  VMap ([("key", VStr (li_Key l)); ("value", VStr (li_Value l))] ++ omit_empty (negb (li_IsSystem l)) ("is_system", VBool (li_IsSystem l))).
Definition inject_payload (req : SubmitInjectionReq) (plan : injection_plan) (item : injectionProcessItem) : list (string * value) :=
  [("benchmark_version", item_value (pl_Benchmark plan)); ("pre_duration", VInt (si_PreDuration req));
   ("labels", VList (map label_value (si_Labels req))); ("system", VStr (cvi_ContainerName (pl_Pedestal plan)));
   if (0 <? length (guidedConfigs item))%nat then ("guided_configs", guided_value (guidedConfigs item))
   else ("nodes", nodes_value (nodes item))].
Definition restart_payload_of (req : SubmitInjectionReq) (plan : injection_plan) (item : injectionProcessItem) : gmap string value :=
  {[ "pedestal_version" := item_value (pl_Pedestal plan); "helm_config" := helm_row_value (pl_Helm plan);
     "interval" := VInt (si_Interval req); "fault_duration" := VInt (faultDuration item);
     "inject_payload" := VMap (inject_payload req plan item) ]}.
(** A task that starts a trace. *)
Definition first_task (ty : TaskType) (immediate : bool) (executeTime : Z) (payload : gmap string value)
    (groupID : string) (projectID userID : Z) (extra : option (gmap string value)) : UnifiedTask :=
  {| TaskID := ""; Type_ := ty; Immediate := immediate; ExecuteTime := executeTime; CronExpr := ""; ReStartNum := 0;
     Retry := mkRetry 0 0; Payload := payload; Level := 0; Sequence := 0; ParentTaskID := None; TraceID := "";
     GroupID := groupID; ProjectID := projectID; UserID := userID; State_ := TaskPending; TraceCarrier := None;
     GroupCarrier := carrier; Extra := extra |}.
Definition restart_task_of (req : SubmitInjectionReq) (plan : injection_plan) (groupID : string) (userID : Z)
    (item : injectionProcessItem) : UnifiedTask :=
  first_task TaskTypeRestartPedestal false (executeTime item / 10 ^ 9) (restart_payload_of req plan item) groupID
    (pl_ProjectID plan) userID (Some {["injection_algorithms" := VInt (Z.of_nat (length (si_Algorithms req)))]}).

(** One submission after the other: a failure ends it, what was submitted stays. *)
Fixpoint submit_all {A B} (failure : string) (task : A -> UnifiedTask) (item : A -> UnifiedTask -> B) (i : nat) (l : list A)
  : M W (list B) :=
  match l with
  | [] => m_ret []
  | x :: rest =>
      let! t := m_wrap failure (SubmitTaskWithDB (env i) (task x)) in
      let! items := submit_all failure task item (Datatypes.S i) rest in
      m_ret (item x t :: items)
  end.
Definition by_index (a b : SubmitInjectionItem) : Prop := it_Index a <= it_Index b.
#[global] Instance by_index_dec a b : Decision (by_index a b).
Proof. unfold by_index. apply _. Defined.

Definition SubmitFaultInjection (req : SubmitInjectionReq) (groupID : string) (userID : Z) (projectID : option Z)
  : H W SubmitInjectionResp :=
  let~ plan := h_lift (plan_injection req userID projectID) in
  let~ algorithms := h_lift (plan_algorithms req userID) in
  let~ _ := h_run (fun '(db, redis) => let '(redis, r) := store_algorithms groupID algorithms redis in ((db, redis), r)) in
  let~ items := h_run (submit_all "failed to submit fault injection task: " (restart_task_of req plan groupID userID)
                         (fun item t => mkSubmitItem (index item) (TraceID t) (TaskID t)) 0 (pl_Items plan)) in
  h_ret (mkSubmitResp groupID (merge_sort by_index items) (pl_Count plan) (pl_Warnings plan)).

(** *** Datapack builds *)

Record SubmitBuildingItem := mkBuildingItem { bi_Index : Z; bi_TraceID : string; bi_TaskID : string }.
Definition datapack_item (dp : Datapack) : InjectionItem :=
  mkInjectionItem (dp_ID dp) (dp_Name dp) (dp_PreDuration dp) (time_text (dp_StartTime dp)) (time_text (dp_EndTime dp)).
Definition timed (dp : Datapack) : bool :=
  match dp_StartTime dp, dp_EndTime dp with Some _, Some _ => true | _, _ => false end.
Definition optional_id (id : option Z) : value := match id with Some n => VInt n | None => VNil end.
Definition build_payload_of (labels : list LabelItem) (benchmark : ContainerVersionItem) (version : option Z) (dp : Datapack)
  : gmap string value :=
  {[ "benchmark" := item_value benchmark; "datapack" := datapack_value (datapack_item dp);
     "dataset_version_id" := optional_id version; "labels" := VList (map label_value labels) ]}.
(** The datapacks of one specification, one after the other: the times are checked, the
    item is prepared, the task is submitted; [i] counts the tasks. *)
Fixpoint submit_datapacks {A B} (failure : string) (prepare : P A) (task : A -> Datapack -> UnifiedTask)
    (item : Datapack -> UnifiedTask -> B) (i : nat) (dps : list Datapack) : H W (list B) :=
  match dps with
  | [] => h_ret []
  | dp :: rest =>
      let~ _ := h_lift (p_require (timed dp) ("datapack " +:+ dp_Name dp +:+ " does not have valid start_time and end_time")) in
      let~ a := h_lift prepare in
      let~ t := h_run (m_wrap failure (SubmitTaskWithDB (env i) (task a dp))) in
      let~ items := submit_datapacks failure prepare task item (Datatypes.S i) rest in
      h_ret (item dp t :: items)
  end.
Fixpoint submit_builds (req : SubmitDatapackBuildingReq) (groupID : string) (userID projectID : Z) (idx : Z) (i : nat)
    (specs : list (BuildingSpec * ContainerVersion)) : H W (list SubmitBuildingItem) :=
  match specs with
  | [] => h_ret []
  | (spec, v) :: rest =>
      let~ (dps, version) := h_lift (p_wrap "failed to extract datapacks: " (p_lift
        (request_datapacks (s_datasets d) userID (bs_Datapack spec) (bs_Dataset spec) TaskTypeBuildDatapack))) in
      let~ benchmark := h_lift (version_item d "benchmark" (bs_Benchmark spec) v) in
      let~ items := submit_datapacks "failed to submit datapack building task: " (p_ret benchmark)
        (fun benchmark dp => first_task TaskTypeBuildDatapack true 0 (build_payload_of (sb_Labels req) benchmark version dp)
                     groupID projectID userID None)
        (fun _ t => mkBuildingItem idx (TraceID t) (TaskID t)) i dps in
      let~ others := submit_builds req groupID userID projectID (idx + 1) (i + length dps)%nat rest in
      h_ret (items ++ others)
  end.
Definition SubmitDatapackBuilding (req : SubmitDatapackBuildingReq) (groupID : string) (userID : Z) (projectID : option Z)
  : H W (string * list SubmitBuildingItem) :=
  let~ projectID := h_lift (p_lift (project_of projectID (sb_ProjectName req))) in
  let~ versions := h_lift (p_wrap "failed to map container refs to versions: "
    (versions_of d (map bs_Benchmark (sb_Specs req)) (ContainerType_code ContainerTypeBenchmark) userID)) in
  let~ items := submit_builds req groupID userID projectID 0 0 (zip (sb_Specs req) versions) in
  h_ret (groupID, items).

(** *** Executions *)

Record SubmitExecutionItem := mkExecutionItem {
  ei_Index : Z; ei_TraceID : string; ei_TaskID : string; ei_AlgorithmID : Z; ei_AlgorithmVersionID : Z; ei_DatapackID : Z
}.
Definition DefaultInvalidID : Z := 0.
Definition execution_payload_of (labels : list LabelItem) (algorithm : ContainerVersionItem) (version : option Z) (dp : Datapack)
  : gmap string value :=
  {[ "algorithm" := item_value algorithm; "datapack" := datapack_value (datapack_item dp);
     "dataset_version_id" := VInt (default DefaultInvalidID version); "labels" := VList (map label_value labels) ]}.
(** The variables are resolved for each datapack. *)
Definition submit_execution_spec (req : SubmitExecutionReq) (groupID : string) (userID projectID idx : Z) (i : nat)
    (spec : ExecutionSpec) (v : ContainerVersion) (dps : list Datapack) (version : option Z) : H W (list SubmitExecutionItem) :=
  submit_datapacks "failed to submit task: " (version_item d "algorithm" (es_Algorithm spec) v)
    (fun algorithm dp => first_task TaskTypeRunAlgorithm true 0 (execution_payload_of (se_Labels req) algorithm version dp)
                           groupID projectID userID None)
    (fun dp t => mkExecutionItem idx (TraceID t) (TaskID t) (cv_ContainerID v) (cv_ID v) (dp_ID dp)) i dps.
Fixpoint submit_executions (req : SubmitExecutionReq) (groupID : string) (userID projectID : Z) (idx : Z) (i : nat)
    (specs : list (ExecutionSpec * ContainerVersion)) : H W (list SubmitExecutionItem) :=
  match specs with
  | [] => h_ret []
  | (spec, v) :: rest =>
      let~ (dps, version) := h_lift (p_wrap "failed to extract datapacks: " (p_lift
        (request_datapacks (s_datasets d) userID (es_Datapack spec) (es_Dataset spec) TaskTypeRunAlgorithm))) in
      let~ items := submit_execution_spec req groupID userID projectID idx i spec v dps version in
      let~ others := submit_executions req groupID userID projectID (idx + 1) (i + length dps)%nat rest in
      h_ret (items ++ others)
  end.
Definition SubmitAlgorithmExecution (req : SubmitExecutionReq) (groupID : string) (userID : Z)
  : H W (string * list SubmitExecutionItem) :=
  let~ project := h_lift (p_lift (resolveProject d (se_ProjectName req))) in
  let~ versions := h_lift (p_wrap "failed to map container refs to versions: "
    (versions_of d (map es_Algorithm (se_Specs req)) (ContainerType_code ContainerTypeAlgorithm) userID)) in
  let~ _ := h_lift (p_require (negb (length versions =? 0)%nat) "no valid algorithm versions found for the provided specs") in
  let~ items := submit_executions req groupID userID (pj_ID project) 0 0 (zip (se_Specs req) versions) in
  h_ret (groupID, items).
End Services.

(** ** What is written *)

Section Written.
Context {D R : Type} `{TaskStoreLaws D} `{RedisLaws R} `{TaskCodec} (env : nat -> submit_env).

(** Submissions that succeed, one after the other, from the position on. *)
Inductive submitted : nat -> list UnifiedTask -> D * R -> list UnifiedTask -> D * R -> Prop :=
| submitted_nil i w : submitted i [] w [] w
| submitted_cons i t ts w w1 t' ts' w' :
    SubmitTaskWithDB (env i) t w = (w1, Ok t') -> submitted (Datatypes.S i) ts w1 ts' w' ->
    submitted i (t :: ts) w (t' :: ts') w'.

Lemma h_bind_ok {S A B} (m : H S A) (k : A -> H S B) w w' b :
  h_bind m k w = (w', Returns (Ok b)) <-> exists w1 a, m w = (w1, Returns (Ok a)) /\ k a w1 = (w', Returns (Ok b)).
Proof.
  unfold h_bind. destruct (m w) as [w1 [[a|e]|]]; split.
  - intros E. by exists w1, a.
  - by intros (? & ? & [= <- <-] & ?).
  - done.
  - by intros (? & ? & ? & _).
  - done.
  - by intros (? & ? & ? & _).
Qed.
Lemma h_lift_ok {S A} (m : P A) (w w' : S) a : h_lift m w = (w', Returns (Ok a)) <-> m = Returns (Ok a) /\ w' = w.
Proof. unfold h_lift. split; [by intros [= <- ->]|by intros [-> ->]]. Qed.
Lemma h_run_ok {S A} (m : M S A) w w' a : h_run m w = (w', Returns (Ok a)) <-> m w = (w', Ok a).
Proof. unfold h_run. destruct (m w). split; [by intros [= -> ->]|by intros [= -> ->]]. Qed.
Lemma m_wrap_pair {S A} p (m : M S A) w w' a : m_wrap p m w = (w', Ok a) <-> m w = (w', Ok a).
Proof. unfold m_wrap. destruct (m w) as [w1 [x|e]]; simpl; split; congruence. Qed.
Lemma m_bind_pair {S A B} (m : M S A) (k : A -> M S B) w w' b :
  m_bind m k w = (w', Ok b) <-> exists w1 a, m w = (w1, Ok a) /\ k a w1 = (w', Ok b).
Proof.
  unfold m_bind. destruct (m w) as [w1 [a|e]]; split.
  - intros E. by exists w1, a.
  - by intros (? & ? & [= <- <-] & ?).
  - done.
  - by intros (? & ? & ? & _).
Qed.

Lemma submit_all_ok {A B} failure (task : A -> UnifiedTask) (item : A -> UnifiedTask -> B) i l w w' items :
  submit_all env failure task item i l w = (w', Ok items) <->
  exists ts, submitted i (map task l) w ts w' /\ items = zip_with item l ts.
Proof.
  revert i w w' items. induction l as [|x l IH]; intros i w w' items; cbn [submit_all map].
  - split.
    + intros [= <- <-]. exists []. split; [constructor|done].
    + intros (ts & Hs & ->). by inversion Hs; subst.
  - rewrite m_bind_pair. split.
    + intros (w1 & t & Ht & Hr). apply m_wrap_pair in Ht. apply m_bind_pair in Hr as (w2 & items' & Hr & [= <- <-]).
      apply IH in Hr as (ts & Hs & ->). exists (t :: ts). split; [by econstructor|done].
    + intros (ts & Hs & ->). inversion Hs as [|? ? ? ? w1 t ts' ? Ht Hrest]; subst.
      exists w1, t. split; [by apply m_wrap_pair|]. apply m_bind_pair. exists w', (zip_with item l ts').
      split; [|done]. apply IH. by exists ts'.
Qed.
(** A submission that fails ends the loop; those before it have been made. *)
Lemma submit_all_err {A B} failure (task : A -> UnifiedTask) (item : A -> UnifiedTask -> B) i l w w' e :
  submit_all env failure task item i l w = (w', Err e) ->
  exists l1 x l2 ts w1 e', l = l1 ++ x :: l2 /\ submitted i (map task l1) w ts w1 /\
    SubmitTaskWithDB (env (i + length l1)%nat) (task x) w1 = (w', Err e') /\ e = failure +:+ e'.
Proof.
  revert i w. induction l as [|x l IH]; intros i w; cbn [submit_all map]; [done|].
  unfold m_bind at 1, m_wrap. destruct (SubmitTaskWithDB (env i) (task x) w) as [w1 [t|e']] eqn:Et; cbn [res_wrap].
  - unfold m_bind. destruct (submit_all env failure task item (Datatypes.S i) l w1) as [w2 [its|e1]] eqn:Er; [done|].
    intros [= <- <-]. apply IH in Er as (l1 & y & l2 & ts & w3 & e2 & -> & Hs & Hf & ->).
    exists (x :: l1), y, l2, (t :: ts), w3, e2. split; [done|]. split; [by econstructor|]. split; [|done].
    cbn [length]. by rewrite Nat.add_succ_r.
  - intros [= <- <-]. exists [], x, l, [], w, e'. split; [done|]. split; [constructor|]. by rewrite Nat.add_0_r.
Qed.

(** What a submission that succeeds leaves of a delayed task. *)
Lemma submit_delayed senv t (w w' : D * R) t' :
  SubmitTaskWithDB senv t w = (w', Ok t') -> Type_ t <> TaskTypeCronJob ->
  Payload t' = Payload t /\ Type_ t' = Type_ t /\
  exists data, marshal_task t' = Ok data /\
    if Immediate t then fifo w'.2 = fifo w.2 ++ [data] /\ delayed w'.2 = delayed w.2
    else ExecuteTime t' = ExecuteTime t /\ fifo w'.2 = fifo w.2 /\ delayed w'.2 = <[data := ExecuteTime t']> (delayed w.2).
Proof.
  destruct w as [db r]. unfold SubmitTaskWithDB. destruct (prepare senv db t) as [[[t1 trace] task]|e] eqn:Ep; [|by intros [=]].
  destruct (TaskSubmit.transaction (store_rows trace task) db) as [db1 [[]|e]] eqn:Et; [|by intros [=]].
  destruct (marshal_task t1) as [data|e] eqn:Em; [|by intros [=]].
  destruct (enqueue senv t1 data r) as [r1 [[]|e]] eqn:Eq; [|by intros [=]]. intros [= <- <-] Hty.
  apply enqueue_ok in Eq as (Hq & _ & _). destruct (prepare_fields _ _ _ _ _ _ Ep) as (_ & _ & _ & _ & Himm & _ & _ & Ht & _).
  assert (Hp := prepare_payload _ _ _ _ _ _ Ep). rewrite Himm in Hq. split; [tauto|]. split; [done|].
  exists data. split; [done|]. destruct (Immediate t) eqn:Ei; [done|]. destruct Hq as [? ?]. split; [|done].
  by eapply prepare_time.
Qed.
(** Of a list of restarts, each is in the delayed queue at the end. *)
Lemma delayed_kept i ts (w w' : D * R) ts' data :
  submitted i ts w ts' w' -> Forall (fun t => Type_ t = TaskTypeRestartPedestal /\ Immediate t = false) ts ->
  fifo w'.2 = fifo w.2 /\ (is_Some (delayed w.2 !! data) -> is_Some (delayed w'.2 !! data)).
Proof.
  intros Hs. induction Hs as [i w|i t ts w w1 t' ts' w' Ht _ IH]; intros Hall; [done|].
  apply Forall_cons in Hall as [[Hty Him] Hall]. destruct (IH Hall) as [Hf Hd].
  apply submit_delayed in Ht as (_ & _ & data1 & _ & Hq); [|by rewrite Hty]. rewrite Him in Hq. destruct Hq as (_ & Hf1 & Hd1).
  split; [by rewrite Hf, Hf1|]. intros Hin. apply Hd. rewrite Hd1. destruct (decide (data1 = data)) as [->|Hne].
  - rewrite lookup_insert_eq. by eexists.
  - by rewrite lookup_insert_ne.
Qed.
Lemma submitted_delayed i ts (w w' : D * R) ts' :
  submitted i ts w ts' w' -> Forall (fun t => Type_ t = TaskTypeRestartPedestal /\ Immediate t = false) ts ->
  forall t, t ∈ ts' -> Type_ t = TaskTypeRestartPedestal /\ fifo w'.2 = fifo w.2 /\
    exists data, marshal_task t = Ok data /\ is_Some (delayed w'.2 !! data).
Proof.
  intros Hs. induction Hs as [i w|i t ts w w1 t' ts' w' Ht Hrest IH]; intros Hall u; [by intros ?%not_elem_of_nil|].
  apply Forall_cons in Hall as [[Hty Him] Hall].
  apply submit_delayed in Ht as (_ & Hty' & data1 & Hm & Hq); [|by rewrite Hty]. rewrite Him in Hq. destruct Hq as (_ & Hf1 & Hd1).
  intros [->|Hu]%elem_of_cons.
  - destruct (delayed_kept _ _ _ _ _ data1 Hrest Hall) as [Hf Hd]. split; [by rewrite Hty', Hty|]. split; [by rewrite Hf, Hf1|].
    exists data1. split; [done|]. apply Hd. rewrite Hd1, lookup_insert_eq. by eexists.
  - destruct (IH Hall u Hu) as (? & Hf & Hx). split; [done|]. split; [by rewrite Hf, Hf1|done].
Qed.
End Written.

(** ** A request with a dataset *)

Lemma version_datapacks_state d version dps :
  version_datapacks d version = Ok dps -> Forall (fun dp => dp_State dp = DatapackBuildSuccess) dps.
Proof.
  intros [= <-]. apply Forall_map, Forall_forall. intros r Hr. unfold ListInjectionsByDatasetVersionID in Hr.
  apply list_elem_of_In, filter_In in Hr as [_ Hr]. unfold built in Hr. bool_to_prop. done.
Qed.
(** The datasets list datapacks that are built and not yet examined, the executions want
    datapacks that the detector has examined: no dataset can be executed. *)
Lemma dataset_not_executable d userID ref : exists e, request_datapacks d userID None ref TaskTypeRunAlgorithm = Err e.
Proof.
  destruct (request_datapacks d userID None ref TaskTypeRunAlgorithm) as [[dps version]|e] eqn:E; [exfalso|by exists e].
  apply ResolveDatapacks_spec in E as (states & [= <-] & Hne & Hall & r & v & -> & _ & _ & Hl).
  apply version_datapacks_state in Hl. destruct dps as [|dp dps]; [done|].
  destruct (Hall dp ltac:(by left)) as [Hin _]. apply list_elem_of_singleton in Hin.
  apply Forall_cons in Hl as [Hl _]. rewrite Hl in Hin. discriminate Hin.
Qed.

Section Properties.
Context {D R : Type} `{TaskStoreLaws D} `{RedisLaws R} `{TaskCodec} `{ChaosLib} `{FloatText}.
Context (d : sdb) (json_list : list value -> res string) (nodes_value : list Node -> value) (guided_value : list GuidedConfig -> value).
Context (algorithms_json : list ContainerVersionItem -> res string) (time_text : option Z -> string).
Context (helm_row_value : HelmConfigRow -> value) (order : gset string -> list string) (now : nat -> Z) (env : nat -> submit_env).
Context (carrier : option (gmap string string)).

#[local] Abbreviation execute := (SubmitAlgorithmExecution d time_text env carrier).
#[local] Abbreviation inject := (SubmitFaultInjection d json_list nodes_value guided_value algorithms_json helm_row_value order now env carrier).

Lemma executions_name_datapacks req groupID userID projectID idx i specs (w w' : D * R) items :
  submit_executions d time_text env carrier req groupID userID projectID idx i specs w = (w', Returns (Ok items)) ->
  Forall (fun s => is_Some (es_Datapack s.1)) specs.
Proof.
  revert idx i w w' items. induction specs as [|[spec v] rest IH]; intros idx i w w' items; [by constructor|]. cbn [submit_executions].
  intros (w1 & [dps version] & [E ->]%h_lift_ok & Hr)%h_bind_ok.
  apply h_bind_ok in Hr as (w2 & its & _ & Hr). apply h_bind_ok in Hr as (w3 & others & Hr & _).
  constructor; [|by eapply IH]. cbn [fst]. destruct (es_Datapack spec) as [name|] eqn:En; [by eexists|exfalso].
  apply p_wrap_ok in E. injection E as E. destruct (dataset_not_executable (s_datasets d) userID (es_Dataset spec)) as (e & He). congruence.
Qed.

(** An algorithm is never executed on a dataset: whatever the tables hold, a request of
    which one specification names a dataset is not accepted, since the datapacks that a
    dataset lists are those whose build has succeeded and the datapacks that an execution
    wants are those the detector has examined. *)
Theorem no_execution_of_datasets req groupID userID (w w' : D * R) r spec :
  spec ∈ se_Specs req -> es_Datapack spec = None -> execute req groupID userID w = (w', r) ->
  forall resp, r <> Returns (Ok resp).
Proof.
  intros Hs Hn E resp ->. apply h_bind_ok in E as (w1 & project & [_ ->]%h_lift_ok & E).
  apply h_bind_ok in E as (w2 & versions & [Hv ->]%h_lift_ok & E). apply h_bind_ok in E as (w3 & u & [_ ->]%h_lift_ok & E).
  apply h_bind_ok in E as (w4 & items & Hx & _). apply executions_name_datapacks in Hx.
  apply p_wrap_ok in Hv. unfold versions_of in Hv. apply p_bind_ok in Hv as (l & Hl & [= <-]).
  assert (Hlen : length (map snd l) = length (se_Specs req)).
  { rewrite length_map. unfold ResolveContainerVersions in Hl.
    apply resolve_all_ok, Forall2_length in Hl. by rewrite <- Hl, !length_map. }
  apply list_elem_of_lookup in Hs as (k & Hk). destruct (lookup_lt_is_Some_2 (map snd l) k) as (v & Hv).
  { rewrite Hlen. by eapply lookup_lt_Some. }
  rewrite Forall_forall in Hx. destruct (Hx (spec, v)) as (name & ?); [|cbn [fst] in *; congruence].
  apply list_elem_of_lookup. exists k. rewrite lookup_zip_with, Hk, Hv. done.
Qed.
End Properties.

(** ** What a request of injections leaves *)

Lemma kept_indexes `{ChaosLib} now stored earlier i keys items :
  map index (omap (kept_item now) (judge stored earlier i (zip keys items))) `sublist_of` map index items.
Proof.
  revert earlier i keys. induction items as [|it rest IH]; intros earlier i keys; [by destruct keys|].
  destruct keys as [|k keys]; [apply sublist_nil_l|]. cbn [zip zip_with judge map].
  destruct (judge_key stored earlier k); cbn [omap list_omap kept_item map].
  - apply (sublist_skip (index it)). apply IH.
  - apply sublist_cons, IH.
  - apply sublist_cons, IH.
Qed.
Lemma sublist_sorted {A} (R : A -> A -> Prop) (l k : list A) : l `sublist_of` k -> StronglySorted R k -> StronglySorted R l.
Proof.
  induction 1 as [|x l k Hs IH|x l k Hs IH]; [done|..]; intros Hk; apply StronglySorted_inv in Hk as [Hk Hx].
  - constructor; [by apply IH|]. rewrite Forall_forall in Hx |- *. intros y Hy. apply Hx. by eapply sublist_subseteq.
  - by apply IH.
Qed.

#[export] Instance by_index_trans : Transitive by_index.
Proof. intros a b c. unfold by_index. lia. Qed.
#[export] Instance by_index_total : Total by_index.
Proof. intros a b. unfold by_index. lia. Qed.

(** The batches that are read come in the order of the request. *)
Lemma parse_batches_indexes `{ChaosLib} {A} what (parse : Z -> A -> P (injectionProcessItem * string)) batches items warnings :
  (forall i batch it w, parse i batch = Returns (Ok (it, w)) -> index it = i) ->
  parse_batches what parse batches = Returns (Ok (items, warnings)) ->
  StronglySorted Z.lt (map index items).
Proof.
  intros Hp E. unfold parse_batches in E.
  eapply (p_fold_inv (fun i s _ => StronglySorted Z.lt (map index s.1) /\ Forall (fun n => n < Z.of_nat i) (map index s.1)))
    in E as [? _]; [done|split; constructor|].
  intros j [its ws] batch rest t' [Hs Hb]. cbn [fst] in *. cbv beta iota. intros Hstep.
  apply p_bind_ok in Hstep as ([it w] & Hit%p_wrap_ok%Hp & Hr). assert (Hb' : Forall (fun n => n < Z.of_nat (Datatypes.S j)) (map index its)).
  { eapply Forall_impl; [exact Hb|]. simpl. lia. }
  destruct (negb _); injection Hr as <-; cbn [fst]; [done|]. rewrite map_app. cbn [map]. split.
  - clear Hb'. induction (map index its) as [|n l IH]; [repeat constructor|]. apply StronglySorted_inv in Hs as [Hs Hn].
    apply Forall_cons in Hb as [Hbn Hb]. cbn [app]. constructor; [by apply IH|]. apply Forall_app. split; [done|].
    constructor; [by rewrite Hit|constructor].
  - apply Forall_app. split; [done|]. constructor; [rewrite Hit; lia|constructor].
Qed.
Lemma parse_request_indexes `{ChaosLib} req pedestal items warnings :
  parse_request req pedestal = Returns (Ok (items, warnings)) -> StronglySorted Z.lt (map index items).
Proof.
  unfold parse_request. rewrite p_bind_ok. intros ([] & _ & E). destruct (0 <? _)%nat.
  - eapply parse_batches_indexes; [|exact E]. intros i batch it w Hp. unfold parseBatchGuidedSpecs in Hp.
    apply p_bind_ok in Hp as ([] & _ & Hp). apply p_bind_ok in Hp as ([m [sn ws]] & _ & [= <- _]). done.
  - eapply parse_batches_indexes; [|exact E]. intros i batch it w Hp. unfold parseBatchInjectionSpecs in Hp.
    apply p_bind_ok in Hp as ([] & _ & Hp). apply p_bind_ok in Hp as (m & _ & Hp).
    apply p_bind_ok in Hp as ([sn ws] & _ & [= <- _]). done.
Qed.

(** The configurations that have been injected. *)
Definition injected_configs (d : idb) : gset string :=
  list_to_set (map fi_EngineConfig (List.filter (injected_before d) (t_injections d))).
Lemma existing_answers d : answers (listExistingEngineConfigs d) (injected_configs d).
Proof.
  intros ks. unfold listExistingEngineConfigs, injected_configs. destruct ks as [|k0 ks].
  { exists []. split; [done|]. intros k. split; [by intros ?%not_elem_of_nil|by intros [?%not_elem_of_nil _]]. }
  set (all := k0 :: ks). eexists. split; [reflexivity|]. intros k. rewrite elem_of_list_to_set, !list_elem_of_fmap. split.
  - intros (r & -> & Hr). apply list_elem_of_In, filter_In in Hr as [Hr Hb]. apply andb_true_iff in Hb as [Hk Hi].
    apply existsb_name in Hk. split; [done|]. exists r. split; [done|]. by apply list_elem_of_In, filter_In.
  - intros [Hk (r & -> & Hr)]. exists r. split; [done|]. apply list_elem_of_In, filter_In in Hr as [Hr Hi].
    apply list_elem_of_In, filter_In. split; [done|]. apply andb_true_iff. split; [by apply existsb_name|done].
Qed.

Section Injections.
Context {D R : Type} `{TaskStoreLaws D} `{RedisLaws R} `{TaskCodec} `{ChaosLib} `{FloatText}.
Context (d : sdb) (json_list : list value -> res string) (nodes_value : list Node -> value) (guided_value : list GuidedConfig -> value).
Context (algorithms_json : list ContainerVersionItem -> res string).
Context (helm_row_value : HelmConfigRow -> value) (order : gset string -> list string) (now : nat -> Z) (env : nat -> submit_env).
Context (carrier : option (gmap string string)).
#[local] Abbreviation inject := (SubmitFaultInjection d json_list nodes_value guided_value algorithms_json helm_row_value order now env carrier).
#[local] Abbreviation plan_of := (plan_injection d json_list order now).
#[local] Abbreviation task_of := (restart_task_of nodes_value guided_value helm_row_value carrier).

Lemma plan_items req userID projectID plan :
  (forall s, order s ≡ₚ elements s) -> plan_of req userID projectID = Returns (Ok plan) ->
  StronglySorted Z.lt (map index (pl_Items plan)) /\
  NoDup (filter (fun k => k <> "") (config_of <$> pl_Items plan)) /\
  forall item, item ∈ pl_Items plan -> config_of item <> "" -> config_of item ∉ injected_configs (d_injections (s_datasets d)).
Proof.
  intros Ho. unfold plan_injection. rewrite p_bind_ok. intros (pid & _ & E).
  apply p_bind_ok in E as (pedestal & _ & E). apply p_bind_ok in E as ([pitem helm] & _ & E).
  apply p_bind_ok in E as (bm & _ & E). apply p_bind_ok in E as (bitem & _ & E).
  apply p_bind_ok in E as ([processed ws] & Hp%parse_request_indexes & E).
  apply p_bind_ok in E as ([[unique rep] sto] & Hr%p_wrap_ok & [= <-]). injection Hr as Hr. cbn [pl_Items].
  destruct (engine_configs 0 processed) as [keys|e] eqn:Ek.
  2:{ unfold removeDuplicated in Hr. by rewrite Ek in Hr. }
  change (existing_configs_of d) with (listExistingEngineConfigs (d_injections (s_datasets d))) in Hr.
  rewrite (removeDuplicated_spec _ _ _ processed keys _ (existing_answers _) Ho Ek) in Hr. injection Hr as <- _ _.
  apply engine_configs_of in Ek as ->. split; [|split; [exact (fresh_nodup order (existing_configs_of d) now _ _ _ _)|]].
  - eapply sublist_sorted; [apply kept_indexes|done].
  - intros item Hin Hne. assert (Hc : config_of item ∈ (config_of <$>
        (omap (kept_item now) (judge (injected_configs (d_injections (s_datasets d))) ∅ 0 (zip (config_of <$> processed) processed)))))
      by by apply list_elem_of_fmap_2.
    by apply (fresh_configs order (existing_configs_of d)) in Hc as (_ & _ & ?).
Qed.

(** Whatever the plan and the algorithms are, an error in them writes nothing. *)
Lemma store_frame groupID items (db : D) (r : R) w' u :
  (let '(redis, o) := store_algorithms algorithms_json groupID items r in ((db, redis), o)) = (w', u) -> w'.1 = db.
Proof. destruct (store_algorithms _ _ _ r) as [r' o]. by intros [= <- _]. Qed.

(** C10. Submitting injections.  When it succeeds, the batches of the plan were submitted one
    after the other, each as the first task of a trace, a restart that waits for its time
    in the delayed queue, and the response lists them by the index of their batch; no
    two of the batches have one configuration, and none has one that was injected before
    and is not marked as invalid.  When it fails, no task was stored, or those of the
    first batches were and stay; when it panics, nothing was written. *)
Theorem SubmitFaultInjection_spec req groupID userID projectID (w w' : D * R) r :
  (forall s, order s ≡ₚ elements s) -> inject req groupID userID projectID w = (w', r) ->
  match r with
  | Returns (Ok resp) => exists plan w1 ts,
      plan_of req userID projectID = Returns (Ok plan) /\ w1.1 = w.1 /\
      submitted env 0 (map (task_of req plan groupID userID) (pl_Items plan)) w1 ts w' /\
      (forall t, t ∈ ts -> Type_ t = TaskTypeRestartPedestal /\ fifo w'.2 = fifo w1.2 /\
         exists data, marshal_task t = Ok data /\ is_Some (delayed w'.2 !! data)) /\
      sr_Items resp ≡ₚ zip_with (fun item t => mkSubmitItem (index item) (TraceID t) (TaskID t)) (pl_Items plan) ts /\
      StronglySorted by_index (sr_Items resp) /\ NoDup (map index (pl_Items plan)) /\
      NoDup (filter (fun k => k <> "") (config_of <$> pl_Items plan)) /\
      (forall item, item ∈ pl_Items plan -> config_of item <> "" ->
         config_of item ∉ injected_configs (d_injections (s_datasets d)))
  | Returns (Err _) => w'.1 = w.1 \/ exists plan w1 w2 l1 x l2 ts e,
      plan_of req userID projectID = Returns (Ok plan) /\ w1.1 = w.1 /\ pl_Items plan = l1 ++ x :: l2 /\
      submitted env 0 (map (task_of req plan groupID userID) l1) w1 ts w2 /\
      SubmitTaskWithDB (env (length l1)) (task_of req plan groupID userID x) w2 = (w', Err e)
  | Panics => w' = w
  end.
Proof.
  intros Ho E. unfold SubmitFaultInjection in E. unfold h_bind at 1 in E. unfold h_lift at 1 in E.
  destruct (plan_of req userID projectID) as [[plan|e]|] eqn:Ep; [|injection E as <- <-; by left|by injection E as <- <-].
  unfold h_bind at 1 in E. unfold h_lift at 1 in E.
  destruct (plan_algorithms d req userID) as [[algs|e]|]; [|injection E as <- <-; by left|by injection E as <- <-].
  unfold h_bind at 1, h_run at 1 in E. destruct w as [db r0].
  destruct (let '(redis, o) := store_algorithms _ _ _ r0 in _) as [w1 o] eqn:Es.
  assert (Hw1 := store_frame _ _ _ _ _ _ Es). destruct o as [u|e]; [|injection E as <- <-; by left].
  unfold h_bind, h_run in E. destruct (submit_all _ _ _ _ _ _ w1) as [w2 [items|e]] eqn:Ea.
  - injection E as <- <-. apply submit_all_ok in Ea as (ts & Hs & ->).
    destruct (plan_items _ _ _ _ Ho Ep) as (Hsort & Hnd & Hnew). exists plan, w1, ts. cbn [sr_Items].
    split; [done|]. split; [done|]. split; [done|]. split; [eapply submitted_delayed; [exact Hs|by apply Forall_map, Forall_forall]|].
    split; [apply merge_sort_Permutation|]. split; [apply StronglySorted_merge_sort; apply _|]. split; [|done].
    clear -Hsort. induction Hsort as [|n l _ IH Hx]; [constructor|]. apply NoDup_cons. split; [|done].
    intros Hin. rewrite Forall_forall in Hx. specialize (Hx n Hin). lia.
  - injection E as <- <-. right. apply submit_all_err in Ea as (l1 & x & l2 & ts & w3 & e' & El & Hs & Hf & _).
    exists plan, w1, w3, l1, x, l2, ts, e'. by rewrite Nat.add_0_l in Hf.
Qed.
End Injections.

(** ** What is submitted is read *)

Section Accepted.
Context (valid_time : string -> bool) (to_options : option value -> res value).
#[local] Existing Instance json_payloads.
#[local] Abbreviation codec := (json_payloads valid_time to_options).
Context `{ChaosLib} (nodes_value : list Node -> value) (guided_value : list GuidedConfig -> value).
Context (time_text : option Z -> string) (helm_row_value : HelmConfigRow -> value).

Lemma labels_read ls : @to_labels codec (Some (json_any (VList (map label_value ls)))) = Ok (map label_value ls).
Proof.
  cbn [to_labels json_payloads json_any Payloads.json_list]. induction ls as [|[k v sys] ls IH]; [done|]. cbn [map json_elements]. rewrite IH.
  by destruct sys.
Qed.

(** C13. What the services submit is what the executors accept.  A restart is read as the
    pedestal with its chart, the interval, the duration and the payload of the injection,
    exactly when interval and duration are positive: a batch of guided faults without a
    duration is submitted and refused when it runs.  A build and an execution are read as
    the items and labels they were made of, the build with the version of the dataset or
    none, the execution with none when there is no dataset. *)
Theorem submissions_accepted req plan item labels bm algorithm version dp :
  item_exact (pl_Pedestal plan) -> item_exact bm -> item_exact algorithm ->
  datapack_exact valid_time (datapack_item time_text dp) ->
  match @parseRestartPayload codec (json_payload (restart_payload_of nodes_value guided_value helm_row_value req plan item)) with
  | Ok p => 0 < faultDuration item /\ 0 < si_Interval req /\
      p = mkRestartPayload (json_item (pl_Pedestal plan)) (si_Interval req) (faultDuration item)
            (map (fun kv => (kv.1, json_any kv.2)) (inject_payload nodes_value guided_value req plan item))
  | Err _ => faultDuration item <= 0 \/ si_Interval req <= 0
  end /\
  @parseDatapackPayload codec (json_payload (build_payload_of time_text labels bm version dp))
    = Ok (mkDatapackPayload (json_item bm) (datapack_item time_text dp) version (map label_value labels)) /\
  @parseExecutionPayload codec (json_payload (execution_payload_of time_text labels algorithm version dp))
    = Ok (mkExecutionPayload (json_item algorithm) (datapack_item time_text dp)
            (version ≫= fun v => if v <=? 0 then None else Some v) (map label_value labels)).
Proof.
  intros Hp Hb Ha Hd. split; [|split].
  - unfold parseRestartPayload. set (m := restart_payload_of _ _ _ req plan item).
    rewrite (payload_key m "pedestal_version" _ eq_refl), (payload_key m "inject_payload" _ eq_refl).
    rewrite (positive_json m "interval" _ eq_refl), (positive_json m "fault_duration" _ eq_refl).
    rewrite item_read by done. cbn [res_bind].
    destruct (Z.leb_spec (si_Interval req) 0); cbn [or_error res_bind]; [by right|].
    destruct (Z.leb_spec (faultDuration item) 0); cbn [or_error res_bind]; [by left|].
    cbn [json_any res_bind]. split_and!; [lia..|done].
  - unfold parseDatapackPayload, GetPointerIntFromMap. set (m := build_payload_of _ labels bm version dp).
    rewrite (payload_key m "benchmark" _ eq_refl), (payload_key m "datapack" _ eq_refl),
      (payload_key m "dataset_version_id" _ eq_refl), (payload_key m "labels" _ eq_refl).
    rewrite item_read by done. cbn [res_wrap res_bind]. rewrite datapack_read by done. cbn [res_wrap res_bind].
    rewrite labels_read. destruct version as [v|]; [|done]. cbn [optional_id json_any].
    by rewrite int_of_inject, Qeq_bool_refl.
  - unfold parseExecutionPayload. set (m := execution_payload_of _ labels algorithm version dp).
    rewrite (payload_key m "algorithm" _ eq_refl), (payload_key m "datapack" _ eq_refl), (payload_key m "labels" _ eq_refl).
    rewrite item_read by done. cbn [res_wrap res_bind]. rewrite datapack_read by done. cbn [res_wrap res_bind].
    rewrite (positive_json m "dataset_version_id" _ eq_refl).
    rewrite labels_read. by destruct version.
Qed.
End Accepted.

(** ** Concrete submissions *)

Module SubmissionSample.
Import SpecSample ParameterSample SubmitSample DatasetSample.
#[local] Existing Instance ToyCodec.toy.

Definition version_row (id container : Z) (name : string) : ContainerVersion :=
  mkVersion id name 1 0 0 "" "docker.io" "lib" "app" "v1" "" 0 container 1 1 "".
Definition containers : cdb :=
  mkCdb [mkContainer 1 "ts" 2 "" true 1; mkContainer 2 "clickhouse" 1 "" true 1; mkContainer 3 "rca" 0 "" true 1]
    [version_row 11 1 "1.0.0"; version_row 12 2 "1.0.0"; version_row 13 3 "1.0.0"] [] [] [] [] [] 20.
Definition chart : HelmConfigItem := mkHelmConfig "1.0.0" "https://charts" "charts" "ts" "" "" [].
Definition tables0 (datasets : ddb) : sdb :=
  mkSdb containers [mkHelmRow 21 11 chart ""] [] datasets [mkProject 31 "pair" 1].
Definition spec_of (name : string) : ContainerSpec := mkContainerSpec (mkRef name "") [] [].
(** Three batches, the last like the first. *)
Definition injection_request : SubmitInjectionReq :=
  mkSubmitInjection "pair" (Some (spec_of "ts")) (Some (spec_of "clickhouse")) 10 5 3 [] [mkLabelItem "env" "prod" false]
    [[fault 4 5]; [fault 0 7]; [fault 4 5]] [].
Definition env_of (i : nat) : submit_env :=
  mkSubmitEnv ("tr-" +:+ itoa (Z.of_nat i)) ("ta-" +:+ itoa (Z.of_nat i)) 1000 (fun _ => Ok 60) (fun e r => itoa e +:+ r).
Definition w0 : (task_db * bool) * keyspace := ((empty_db, false), empty_keyspace).
Definition nodes0 (l : list Node) : value := VList (map (fun n => VInt (Value n)) l).
Definition guided0 (l : list (string * Z)) : value := VList (map (fun g => VStr g.1) l).
Definition submitted_injections :=
  SubmitFaultInjection (tables0 DatasetSample.d3) (fun _ => Ok "[]") nodes0 guided0 (fun _ => Ok "[]") (fun _ => VNil) elements
    (fun _ => 5000000000) env_of None injection_request "group" 1 None w0.
Definition listed {W A} (r : W * P A) : option A := match r.2 with Returns (Ok a) => Some a | _ => None end.
Definition injected_items : option (list (Z * string) * option (list Z)) :=
  (fun resp => (map (fun i => (it_Index i, it_TaskID i)) (sr_Items resp), DuplicateBatchesInRequest <$> sr_Warnings resp))
    <$> listed submitted_injections.

(** The second batch starts two seconds after the first, the third repeats the first. *)
Example two_of_three : injected_items = Some ([(0, "ta-0"); (1, "ta-1")], Some [2]).
Proof. vm_compute. reflexivity. Qed.
Example their_times : (delayed submitted_injections.1.2 !! "ta-0", delayed submitted_injections.1.2 !! "ta-1") = (Some 5, Some 7).
Proof. vm_compute. reflexivity. Qed.

Lemma elements_order (s : gset string) : elements s ≡ₚ elements s.
Proof. done. Qed.
Lemma submitted_pair : submitted_injections = (submitted_injections.1, submitted_injections.2).
Proof. apply surjective_pairing. Qed.
Lemma listed_some : match submitted_injections.2 with Returns (Ok _) => true | _ => false end = true.
Proof. vm_compute. reflexivity. Qed.
Lemma SubmitFaultInjection_spec_witness :
  exists resp, submitted_injections.2 = Returns (Ok resp) /\ StronglySorted by_index (sr_Items resp).
Proof.
  pose proof (SubmitFaultInjection_spec (tables0 DatasetSample.d3) (fun _ => Ok "[]") nodes0 guided0 (fun _ => Ok "[]") (fun _ => VNil)
    elements (fun _ => 5000000000) env_of None injection_request "group" 1 None w0 submitted_injections.1 submitted_injections.2
    elements_order submitted_pair) as H.
  pose proof listed_some as Hl. revert H Hl. generalize submitted_injections.2 as r. intros [[resp|e]|] H Hl.
  - exists resp. split; [exact eq_refl|]. destruct H as (plan & w1 & ts & _ & _ & _ & _ & _ & Hs & _). exact Hs.
  - discriminate Hl.
  - discriminate Hl.
Defined.

(** The only datapack of the dataset is built; the execution is refused. *)
Definition execution_request : SubmitExecutionReq :=
  mkSubmitExecution "pair" [mkExecutionSpec (spec_of "rca") None (Some (mkDatasetRef "bench" "1.2.0"))] [].
Definition refused := SubmitAlgorithmExecution (tables0 DatasetSample.d3) (fun _ => "") env_of None execution_request "group" 7 w0.
Example dataset_refused :
  refused.2 = Returns (Err "failed to extract datapacks: datapack ts-1 is not in a valid state for execution").
Proof. vm_compute. reflexivity. Qed.
Lemma refused_pair : refused = (refused.1, refused.2).
Proof. apply surjective_pairing. Qed.
Lemma no_execution_of_datasets_witness : listed refused = None.
Proof.
  pose proof (no_execution_of_datasets (tables0 DatasetSample.d3) (fun _ => "") env_of None execution_request "group" 7 w0
    refused.1 refused.2 (mkExecutionSpec (spec_of "rca") None (Some (mkDatasetRef "bench" "1.2.0")))
    (list_elem_of_here _ _) eq_refl refused_pair) as H.
  unfold listed. revert H. generalize refused.2 as r. intros [[x|e]|] H; [destruct (H x eq_refl)|exact eq_refl|exact eq_refl].
Defined.

(** A batch without a duration is refused when it runs. *)
Definition timeless : injectionProcessItem := mkItem 0 0 [] [("cart", 0)] 0.
Definition plan0 : injection_plan :=
  mkPlan 31 (NewContainerVersionItem (tables0 DatasetSample.d3) (version_row 11 1 "1.0.0")) (mkHelmRow 21 11 chart "")
    (NewContainerVersionItem (tables0 DatasetSample.d3) (version_row 12 2 "1.0.0")) [timeless] 1 None.
Definition dp0 : Datapack := mkDatapack "ts-1" DatapackBuildSuccess [] 1 4 (Some 0) (Some 60).
Definition text0 (t : option Z) : string := match t with Some z => itoa z | None => "" end.
Lemma items_exact0 : item_exact (pl_Pedestal plan0) /\ item_exact (pl_Benchmark plan0) /\ datapack_exact (fun _ => true) (datapack_item text0 dp0).
Proof. unfold item_exact, datapack_exact, exact_int, max_float_int. vm_compute. repeat split; discriminate. Qed.
Lemma submissions_accepted_witness :
  match @parseRestartPayload (json_payloads (fun _ => true) (fun _ => Err "")) (json_payload (restart_payload_of nodes0 guided0 (fun _ => VNil) injection_request plan0 timeless)) with
  | Ok _ => False
  | Err _ => True
  end.
Proof.
  destruct items_exact0 as (Hp & Hb & Hd).
  pose proof (submissions_accepted (fun _ => true) (fun _ => Err "") nodes0 guided0 text0 (fun _ => VNil) injection_request plan0 timeless
    [] (pl_Benchmark plan0) (pl_Benchmark plan0) None dp0 Hp Hb Hb Hd) as [H _].
  revert H. generalize (@parseRestartPayload (json_payloads (fun _ => true) (fun _ => Err ""))
    (json_payload (restart_payload_of nodes0 guided0 (fun _ => VNil) injection_request plan0 timeless))) as r.
  intros [p|e] H; [destruct H as [H _]; exact (Z.lt_irrefl 0 H)|exact I].
Defined.
End SubmissionSample.
