(* ===== verification/Paths.v ===== *)
(** * File paths ([path/filepath], [utils/file.go])

    A path is the names it is made of and whether it starts at the root.  The stores build
    their paths with [Join] and [Clean] and compare them as texts; the lemmas say what the
    comparisons mean for the names. *)

From S2P Require Import Prelude GoStrings.
#[local] Open Scope nat_scope.


Record path := mkPath { p_rooted : bool; p_names : list string }.

(** One name of a path that is read from the left, the latest name first. *)
Definition walk_step (rooted : bool) (acc : list string) (e : string) : list string :=
  if String.eqb e "" || String.eqb e "." then acc
  else if String.eqb e ".." then
    match acc with
    | [] => if rooted then [] else [".."]
    | t :: rest => if String.eqb t ".." then ".." :: acc else rest
    end
  else e :: acc.
Definition walk (rooted : bool) (acc es : list string) : list string := fold_left (walk_step rooted) es acc.
Definition parse_path (s : string) : path :=
  let rooted := has_prefix s "/" in mkPath rooted (rev (walk rooted [] (split "/" s))).
Definition render (p : path) : string :=
  if p_rooted p then "/" +:+ join "/" (p_names p) else match p_names p with [] => "." | names => join "/" names end.

(** [filepath.Clean] and [filepath.Join]. *)
Definition Clean (s : string) : string := render (parse_path s).
Fixpoint Join (l : list string) : string :=
  match l with
  | [] => ""
  | e :: rest => if String.eqb e "" then Join rest else Clean (join "/" l)
  end.

(** [filepath.Base], [filepath.Dir], [filepath.Ext]. *)
Definition is_slash (c : ascii) : bool := Ascii.eqb c "/".
Fixpoint take_while (p : ascii -> bool) (l : list ascii) : list ascii :=
  match l with
  | c :: l' => if p c then c :: take_while p l' else []
  | [] => []
  end.
Definition last_name (l : list ascii) : list ascii := rev (take_while (fun c => negb (is_slash c)) (rev l)).
Definition Base (s : string) : string :=
  if String.eqb s "" then "."
  else match rev (drop_while is_slash (rev (chars s))) with
       | [] => "/"
       | l => of_chars (last_name l)
       end.
Definition Dir (s : string) : string :=
  Clean (of_chars (rev (drop_while (fun c => negb (is_slash c)) (rev (chars s))))).
Definition is_dot (c : ascii) : bool := Ascii.eqb c ".".
Definition Ext (s : string) : string :=
  let l := last_name (chars s) in
  if existsb is_dot l then "." +:+ of_chars (rev (take_while (fun c => negb (is_dot c)) (rev l))) else "".

(** [filepath.Rel]: the names that two paths share are left out, each name that is left of
    the base is a step up. *)
Fixpoint strip_common (b t : list string) : list string * list string :=
  match b, t with
  | x :: b', y :: t' => if String.eqb x y then strip_common b' t' else (b, t)
  | _, _ => (b, t)
  end.
Definition Rel (base targ : string) : res string :=
  let b := parse_path base in let t := parse_path targ in
  let cannot := "Rel: can't make " +:+ targ +:+ " relative to " +:+ base in
  if String.eqb (Clean targ) (Clean base) then Ok "."
  else if negb (Bool.eqb (p_rooted b) (p_rooted t)) then Err cannot
  else let '(bs, ts) := strip_common (p_names b) (p_names t) in
       if match bs with x :: _ => String.eqb x ".." | [] => false end then Err cannot
       else Ok (join "/" (map (fun _ => "..") bs ++ ts)).

(** [IsAllowedPath]: the root is configuration. *)
Definition IsAllowedPath (allowedRoot path : string) : bool :=
  match Rel allowedRoot path with
  | Ok rel => negb (str_contains rel "..")
  | Err _ => false
  end.

(** ** Patterns *)

(** [filepath.Match] on the name of a file, which has no separator: a pattern that is not
    well formed matches nothing. *)
Inductive glob :=
| GStar
| GAny
| GClass (negated : bool) (ranges : list (ascii * ascii))
| GLit (c : ascii).

(** A character of a class, which an escape may precede. *)
Definition class_char (l : list ascii) : option (ascii * list ascii) :=
  match l with
  | [] => None
  | c :: l' =>
      if Ascii.eqb c "-" || Ascii.eqb c "]" then None
      else if Ascii.eqb c "\" then match l' with d :: l'' => Some (d, l'') | [] => None end
      else Some (c, l')
  end ≫= fun '(c, rest) => match rest with [] => None | _ => Some (c, rest) end.
Fixpoint class_ranges (fuel : nat) (l : list ascii) (acc : list (ascii * ascii)) : option (list (ascii * ascii) * list ascii) :=
  match fuel with
  | O => None
  | S fuel =>
      match l with
      | "]"%char :: l' => if (0 <? length acc)%nat then Some (acc, l')
                          else class_char l ≫= fun '(c, rest) => class_ranges fuel rest (acc ++ [(c, c)])
      | _ =>
          class_char l ≫= fun '(lo, rest) =>
          match rest with
          | "-"%char :: rest' => class_char rest' ≫= fun '(hi, rest'') => class_ranges fuel rest'' (acc ++ [(lo, hi)])
          | _ => class_ranges fuel rest (acc ++ [(lo, lo)])
          end
      end
  end.
Fixpoint parse_glob (fuel : nat) (l : list ascii) : option (list glob) :=
  match fuel with
  | O => None
  | S fuel =>
      match l with
      | [] => Some []
      | c :: l' =>
          if Ascii.eqb c "*" then cons GStar <$> parse_glob fuel l'
          else if Ascii.eqb c "?" then cons GAny <$> parse_glob fuel l'
          else if Ascii.eqb c "[" then
            let '(negated, l1) := match l' with d :: l'' => if Ascii.eqb d "^" then (true, l'') else (false, l') | [] => (false, []) end in
            class_ranges (S (length l1)) l1 [] ≫= fun '(ranges, rest) => cons (GClass negated ranges) <$> parse_glob fuel rest
          else if Ascii.eqb c "\" then
            match l' with
            | d :: l'' => cons (GLit d) <$> parse_glob fuel l''
            | [] => None
            end
          else cons (GLit c) <$> parse_glob fuel l'
      end
  end.
Definition glob_char (g : glob) (c : ascii) : bool :=
  match g with
  | GStar => false
  | GAny => negb (is_slash c)
  | GClass negated ranges => xorb negated (existsb (fun r => in_range r.1 r.2 c) ranges)
  | GLit d => Ascii.eqb c d
  end.
Fixpoint glob_matches (gs : list glob) : list ascii -> bool :=
  match gs with
  | [] => fun l => match l with [] => true | _ => false end
  | GStar :: gs' => fix star l :=
      glob_matches gs' l || match l with c :: l' => negb (is_slash c) && star l' | [] => false end
  | g :: gs' => fun l => match l with c :: l' => glob_char g c && glob_matches gs' l' | [] => false end
  end.
Definition Match (pattern name : string) : bool :=
  match parse_glob (S (String.length pattern)) (chars pattern) with
  | Some gs => glob_matches gs (chars name)
  | None => false
  end.

Record ExculdeRule := mkRule { Pattern : string; IsGlob : bool }.
Definition MatchFile (fileName : string) (rule : ExculdeRule) : bool :=
  if IsGlob rule then Match (Pattern rule) fileName else String.eqb fileName (Pattern rule).

(** ** What splitting does to a concatenation *)

Lemma split_chars_append sep l1 l2 acc :
  split_chars sep acc (l1 ++ sep :: l2) = split_chars sep acc l1 ++ split_chars sep [] l2.
Proof.
  revert acc. induction l1 as [|c l1 IH]; intros acc; simpl; [by rewrite Ascii.eqb_refl|].
  case_match; [simpl; by rewrite IH|apply IH].
Qed.
Lemma split_append a b : split "/" (a +:+ "/" +:+ b) = split "/" a ++ split "/" b.
Proof. unfold split. rewrite !chars_app. simpl. by rewrite split_chars_append, map_app. Qed.
Lemma split_free_all s : Forall (free_of "/") (split "/" s).
Proof.
  unfold split. apply Forall_map. eapply Forall_impl; [apply split_chars_free, not_elem_of_nil|].
  intros l Hl. unfold free_of. by rewrite chars_of_chars.
Qed.
Lemma split_ne s : split "/" s <> [].
Proof. unfold split. intros E%map_eq_nil. by apply split_chars_nonempty in E. Qed.
Lemma join_app l k : l <> [] -> k <> [] -> join "/" (l ++ k) = join "/" l +:+ "/" +:+ join "/" k.
Proof.
  induction l as [|x l IH]; [done|intros _ Hk]. destruct l as [|y l]; [by destruct k|].
  change (join "/" ((x :: y :: l) ++ k)) with (x +:+ "/" +:+ join "/" ((y :: l) ++ k)). rewrite IH by done.
  change (join "/" (x :: y :: l)) with (x +:+ "/" +:+ join "/" (y :: l)). by rewrite !str_app_assoc.
Qed.
(** Without a separator between them, the last piece of the first is continued. *)
Lemma split_chars_glue sep l1 l2 acc :
  exists ls last h tl, split_chars sep acc l1 = ls ++ [last] /\ split_chars sep [] l2 = h :: tl /\
    split_chars sep acc (l1 ++ l2) = ls ++ (last ++ h) :: tl.
Proof.
  revert acc. induction l1 as [|c l1 IH]; intros acc; simpl.
  - destruct (split_chars sep [] l2) as [|h tl] eqn:E; [by apply split_chars_nonempty in E|].
    exists [], (rev acc), h, tl. split; [done|]. split; [done|]. simpl. clear -E. revert acc h tl E.
    assert (Hg : forall l acc acc', exists h tl, split_chars sep acc l = (rev acc ++ h) :: tl /\ split_chars sep acc' l = (rev acc' ++ h) :: tl).
    { induction l as [|c l IH]; intros acc acc'; simpl.
      - exists [], []. by rewrite !app_nil_r.
      - case_match.
        + exists [], (split_chars sep [] l). by rewrite !app_nil_r.
        + destruct (IH (c :: acc) (c :: acc')) as (h & tl & -> & ->). exists (c :: h), tl. simpl. by rewrite <- !app_assoc. }
    intros acc h tl E. destruct (Hg l2 acc []) as (h' & tl' & -> & E'). rewrite E in E'. simpl in E'. congruence.
  - case_match.
    + destruct (IH []) as (ls & la & h & tl & -> & E2 & ->). by exists (rev acc :: ls), la, h, tl.
    + apply IH.
Qed.
Lemma split_glue a t :
  exists ls x h tl, split "/" a = ls ++ [x] /\ split "/" (a +:+ t) = ls ++ (x +:+ h) :: tl.
Proof.
  unfold split. rewrite chars_app. destruct (split_chars_glue "/" (chars a) (chars t) []) as (ls & la & h & tl & -> & _ & ->).
  exists (map of_chars ls), (of_chars la), (of_chars h), (map of_chars tl). rewrite !map_app. simpl. split; [done|].
  by rewrite of_chars_app.
Qed.

Lemma prefix_chars_spec p l : prefix_chars p l = true <-> exists t, l = p ++ t.
Proof.
  revert l. induction p as [|a p IH]; intros l; simpl; [split; [by exists l|done]|]. destruct l as [|b l].
  - split; [done|by intros (t & ?)].
  - rewrite andb_true_iff, IH. split.
    + intros [->%Ascii.eqb_eq (t & ->)]. by exists t.
    + intros (t & [= <- ->]). rewrite Ascii.eqb_refl. split; [done|by exists t].
Qed.
Lemma has_prefix_spec s p : has_prefix s p = true <-> exists t, s = p +:+ t.
Proof.
  unfold has_prefix. rewrite prefix_chars_spec. split.
  - intros (t & E). exists (of_chars t). apply chars_inj. by rewrite chars_app, chars_of_chars.
  - intros (t & ->). exists (chars t). by rewrite chars_app.
Qed.

(** ** Clean paths *)

Definition plain (e : string) : Prop := e <> "" /\ e <> "." /\ e <> ".." /\ free_of "/" e.
#[export] Instance plain_dec e : Decision (plain e).
Proof. unfold plain. apply _. Defined.
Definition clean_names (rooted : bool) (names : list string) : Prop :=
  exists n rest, names = replicate n ".." ++ rest /\ Forall plain rest /\ (rooted = true -> n = 0).
Definition clean (p : path) : Prop := clean_names (p_rooted p) (p_names p).

Lemma plain_rooted names : clean_names true names <-> Forall plain names.
Proof.
  split; [intros (n & rest & -> & H & Hn); by rewrite (Hn eq_refl)|intros H; by exists 0, names].
Qed.
Lemma plain_step r acc e : plain e -> walk_step r acc e = e :: acc.
Proof.
  intros (H1 & H2 & H3 & _). unfold walk_step. rewrite (proj2 (String.eqb_neq _ _) H1), (proj2 (String.eqb_neq _ _) H2),
    (proj2 (String.eqb_neq _ _) H3). done.
Qed.
Lemma walk_plain r acc es : Forall plain es -> walk r acc es = rev es ++ acc.
Proof.
  revert acc. induction es as [|e es IH]; intros acc H; [done|]. apply Forall_cons in H as [He H].
  unfold walk in *. simpl. rewrite plain_step by done. rewrite IH by done. by rewrite <- app_assoc.
Qed.
Lemma walk_app r acc es es' : walk r acc (es ++ es') = walk r (walk r acc es) es'.
Proof. apply fold_left_app. Qed.
Lemma replicate_snoc {A} n (x : A) : replicate n x ++ [x] = replicate (S n) x.
Proof. by rewrite <- replicate_cons_app. Qed.
Lemma rev_replicate {A} n (x : A) : rev (replicate n x) = replicate n x.
Proof. induction n as [|n IH]; [done|]. simpl. by rewrite IH, replicate_snoc. Qed.
Lemma walk_dots n : walk false [] (replicate n "..") = replicate n "..".
Proof.
  assert (H : forall k, walk false (replicate k "..") (replicate n "..") = replicate (n + k) ".."); [|specialize (H 0); by rewrite Nat.add_0_r in H].
  induction n as [|n IH]; intros k; [done|]. unfold walk. simpl. change (fold_left _ ?l ?a) with (walk false a l).
  assert (E : walk_step false (replicate k "..") ".." = replicate (S k) "..") by (by destruct k). rewrite E, IH. by rewrite Nat.add_succ_r.
Qed.
Lemma walk_clean r names : clean_names r names -> walk r [] names = rev names.
Proof.
  intros (n & rest & -> & Hr & Hn). rewrite walk_app. destruct r.
  - rewrite (Hn eq_refl). simpl. by rewrite walk_plain, app_nil_r.
  - rewrite walk_dots, walk_plain by done. rewrite rev_app_distr. by rewrite rev_replicate.
Qed.
Lemma step_keeps_clean r acc e : free_of "/" e -> clean_names r (rev acc) -> clean_names r (rev (walk_step r acc e)).
Proof.
  intros He (n & rest & E & Hr & Hn). unfold walk_step.
  destruct (String.eqb_spec e ""); [by exists n, rest|]. destruct (String.eqb_spec e "."); [by exists n, rest|]. cbn [orb].
  destruct (String.eqb_spec e "..") as [->|].
  - destruct acc as [|t acc].
    + destruct r; [by exists 0, []|by exists 1, []].
    + simpl in E. destruct (decide (rest = [])) as [->|Hne].
      * rewrite app_nil_r in E. destruct n as [|n]; [by destruct (rev acc)|]. rewrite <- replicate_snoc in E.
        apply app_inj_tail in E as [E ->]. rewrite String.eqb_refl. exists (S (S n)), []. split; [|split; [done|]].
        { simpl. rewrite app_nil_r, E. by rewrite !replicate_snoc. }
        intros ->. discriminate (Hn eq_refl).
      * destruct (exists_last Hne) as (rest' & x & ->). rewrite app_assoc in E. apply app_inj_tail in E as [E ->].
        apply Forall_app in Hr as [Hr Hx]. apply Forall_cons in Hx as [(_ & _ & Hx & _) _].
        rewrite (proj2 (String.eqb_neq _ _) Hx). by exists n, rest'.
  - simpl. exists n, (rest ++ [e]). rewrite E, app_assoc. split; [done|]. split; [|done]. apply Forall_app. split; [done|].
    by constructor.
Qed.
Lemma walk_keeps_clean r es : forall acc, Forall (free_of "/") es -> clean_names r (rev acc) -> clean_names r (rev (walk r acc es)).
Proof.
  induction es as [|e es IH]; intros acc H Hc; [done|]. apply Forall_cons in H as [He H]. apply IH; [done|]. by apply step_keeps_clean.
Qed.
Lemma parse_clean s : clean (parse_path s).
Proof. unfold clean, parse_path. cbn [p_rooted p_names]. apply walk_keeps_clean; [apply split_free_all|]. by exists 0, []. Qed.

Lemma clean_free r names : clean_names r names -> Forall (free_of "/") names.
Proof.
  intros (n & rest & -> & H & _). apply Forall_app. split.
  - apply Forall_replicate. by apply (bool_decide_unpack (free_of "/" "..")).
  - eapply Forall_impl; [exact H|]. by intros e (_ & _ & _ & ?).
Qed.
Lemma clean_first r e names : clean_names r (e :: names) -> e <> "" /\ e <> ".".
Proof.
  intros (n & rest & E & H & _). destruct n as [|n]; simpl in E; [subst rest|by injection E as -> _].
  apply Forall_cons in H as [(? & ? & _) _]. done.
Qed.
Lemma split_render p : clean p -> split "/" (render p) =
  if p_rooted p then "" :: match p_names p with [] => [""] | names => names end
  else match p_names p with [] => ["."] | names => names end.
Proof.
  intros H. assert (Hf := clean_free _ _ H). destruct p as [r names]. unfold render. simpl in *. destruct r.
  - change ("/" +:+ join "/" names) with ("" +:+ "/" +:+ join "/" names). rewrite split_append. f_equal.
    destruct names as [|e names]; [done|]. by apply (split_join "/" (e :: names)).
  - destruct names as [|e names]; [done|]. by apply (split_join "/" (e :: names)).
Qed.
Lemma split_rooted s : has_prefix s "/" = match split "/" s with x :: _ :: _ => String.eqb x "" | _ => false end.
Proof.
  destruct (has_prefix s "/") eqn:E.
  - apply has_prefix_spec in E as (t & ->). change ("/" +:+ t) with ("" +:+ "/" +:+ t). rewrite split_append.
    change (split "/" "") with [""]. destruct (split "/" t) eqn:Et; [by apply split_ne in Et|done].
  - destruct (split "/" s) as [|x [|y l]] eqn:Es; [done..|]. destruct (String.eqb_spec x "") as [->|]; [exfalso|done].
    assert (Hj : s = join "/" ("" :: y :: l)) by by rewrite <- Es, join_split. rewrite Hj in E. discriminate E.
Qed.
Lemma parse_render p : clean p -> parse_path (render p) = p.
Proof.
  intros H. assert (Hs := split_render p H). unfold parse_path. rewrite split_rooted, Hs. destruct p as [r names].
  unfold clean in H. simpl in *. destruct r.
  - destruct names as [|e names]; [done|]. cbn [String.eqb]. f_equal.
    change (walk true [] ("" :: e :: names)) with (walk true [] (e :: names)). rewrite walk_clean by done. apply rev_involutive.
  - destruct names as [|e names]; [done|]. assert (Hne := clean_first _ _ _ H).
    assert (match names with [] => false | _ :: _ => String.eqb e "" end = false) as ->.
    { destruct names; [done|]. apply String.eqb_neq, Hne. }
    f_equal. rewrite walk_clean by done. apply rev_involutive.
Qed.
Lemma parse_Clean s : parse_path (Clean s) = parse_path s.
Proof. apply parse_render, parse_clean. Qed.

(** Cleaning twice is cleaning once. *)
Lemma Clean_idempotent s : Clean (Clean s) = Clean s.
Proof. unfold Clean at 1. by rewrite parse_Clean. Qed.
Lemma render_inj p q : clean p -> clean q -> render p = render q -> p = q.
Proof. intros Hp Hq E. by rewrite <- (parse_render p), E, parse_render. Qed.

(** ** Paths that are put together *)

(** The path [b] read from the path [p]. *)
Definition resolve (p : path) (b : string) : path :=
  mkPath (p_rooted p) (rev (walk (p_rooted p) (rev (p_names p)) (split "/" b))).
Lemma resolve_clean p b : clean p -> clean (resolve p b).
Proof. intros H. apply walk_keeps_clean; [apply split_free_all|]. by rewrite rev_involutive. Qed.
Lemma Join_two a b : a <> "" -> Join [a; b] = render (resolve (parse_path a) b).
Proof.
  intros Ha. cbn [Join]. rewrite (proj2 (String.eqb_neq _ _) Ha). unfold Clean. f_equal.
  unfold parse_path at 1, resolve, parse_path. cbn [p_rooted p_names].
  assert (Hr : has_prefix (join "/" [a; b]) "/" = has_prefix a "/").
  { destruct a as [|c a]; [done|]. unfold has_prefix. cbn [join]. rewrite chars_app. simpl. by rewrite !andb_true_r. }
  rewrite Hr. change (join "/" [a; b]) with (a +:+ "/" +:+ b). by rewrite split_append, walk_app, rev_involutive.
Qed.
Lemma parse_Join a b : a <> "" -> parse_path (Join [a; b]) = resolve (parse_path a) b.
Proof. intros Ha. rewrite Join_two by done. apply parse_render, resolve_clean, parse_clean. Qed.

(** Reading a path that stays below where it starts only adds names. *)
Lemma resolve_plain p b : Forall plain (split "/" b) -> resolve p b = mkPath (p_rooted p) (p_names p ++ split "/" b).
Proof. intros H. unfold resolve. rewrite walk_plain by done. by rewrite rev_app_distr, !rev_involutive. Qed.
Lemma resolve_name p x : plain x -> resolve p x = mkPath (p_rooted p) (p_names p ++ [x]).
Proof.
  intros H. assert (Hs : split "/" x = [x]) by by apply split_free, H. rewrite resolve_plain, Hs; [done|]. rewrite Hs. apply Forall_cons. by split.
Qed.
(** A path without steps up, cleaned, only adds its names. *)
Lemma resolve_Clean p b names :
  parse_path b = mkPath (p_rooted (parse_path b)) names -> Forall plain names ->
  resolve p (Clean b) = mkPath (p_rooted p) (p_names p ++ names).
Proof.
  intros E Hn. unfold resolve, Clean. rewrite split_render by apply parse_clean. rewrite E. cbn [p_rooted p_names]. f_equal.
  destruct (p_rooted (parse_path b)), names as [|e names].
  - change (walk ?r ?a _) with a. by rewrite rev_involutive, app_nil_r.
  - change (walk ?r ?a ("" :: ?l)) with (walk r a l). rewrite walk_plain by done. by rewrite rev_app_distr, !rev_involutive.
  - change (walk ?r ?a _) with a. by rewrite rev_involutive, app_nil_r.
  - rewrite walk_plain by done. by rewrite rev_app_distr, !rev_involutive.
Qed.

(** ** What the comparisons of texts mean *)

Lemma split_prefix_slash p q t :
  render p = render q +:+ "/" +:+ t -> split "/" (render p) = split "/" (render q) ++ split "/" t.
Proof. intros ->. apply split_append. Qed.

Definition below (p q : path) : Prop := p_rooted p = p_rooted q /\ exists e rest, p_names p = p_names q ++ e :: rest.

(** The text with a separator is a prefix exactly when the path lies below. *)
Lemma has_prefix_below p q :
  clean p -> clean q -> p_names q <> [] -> has_prefix (render p) (render q +:+ "/") = true <-> below p q.
Proof.
  intros Hp Hq Hne. rewrite has_prefix_spec. split.
  - intros (t & E). rewrite <- str_app_assoc in E. apply split_prefix_slash in E. rewrite !split_render in E by done.
    destruct (split "/" t) as [|h tl] eqn:Et; [by apply split_ne in Et|].
    destruct p as [rp np], q as [rq nq]. unfold below, clean in *. simpl in *. destruct nq as [|x nq]; [done|]. destruct rp, rq.
    + injection E as E. destruct np as [|y np].
      * simpl in E. by destruct nq.
      * split; [done|]. by exists h, tl.
    + simpl in E. injection E as E1 _. destruct (clean_first _ _ _ Hq). congruence.
    + simpl in E. destruct np as [|y np]; [done|]. injection E as E1 _. destruct (clean_first _ _ _ Hp). congruence.
    + destruct np as [|y np].
      * simpl in E. by destruct nq.
      * split; [done|]. by exists h, tl.
  - intros (Hr & e & rest & En). exists (join "/" (e :: rest)). rewrite <- str_app_assoc.
    unfold render. rewrite Hr, En. destruct (p_rooted q).
    + rewrite join_app by done. by rewrite !str_app_assoc.
    + destruct (p_names q) as [|x l]; [done|]. by apply (join_app (x :: l)).
Qed.

(** Without it, the last name may be continued. *)
Lemma has_prefix_sibling p q qs x :
  clean p -> clean q -> p_rooted q = true -> p_names q = qs ++ [x] -> has_prefix (render p) (render q) = true ->
  p_rooted p = true /\ exists h rest, p_names p = qs ++ (x +:+ h) :: rest.
Proof.
  intros Hp Hq Hr En (t & E)%has_prefix_spec. destruct (split_glue (render q) t) as (ls & y & h & tl & E1 & E2).
  rewrite <- E in E2. rewrite split_render in E1, E2 by done. rewrite Hr, En in E1. assert (Hm : match qs ++ [x] with [] => [""] | names => names end = qs ++ [x]) by by destruct qs.
  rewrite Hm in E1. change ("" :: qs ++ [x]) with (("" :: qs) ++ [x]) in E1. apply app_inj_tail in E1 as [<- <-].
  destruct (p_rooted p) eqn:Erp.
  - split; [done|]. injection E2 as E2. exists h, tl. destruct (p_names p) as [|n np] eqn:Enp; [|by rewrite E2].
    exfalso. destruct qs as [|q0 qs]; [|by destruct qs]. injection E2 as E2 <-. destruct x as [|c x]; [|discriminate E2].
    unfold clean in Hq. rewrite Hr, En in Hq. by destruct (clean_first _ _ _ Hq).
  - exfalso. destruct (p_names p) as [|n np] eqn:Enp; [done|]. injection E2 as -> _. unfold clean in Hp. rewrite Enp in Hp.
    by destruct (clean_first _ _ _ Hp).
Qed.

Lemma contains_spec p l : contains_chars p l = true <-> exists a b, l = a ++ p ++ b.
Proof.
  induction l as [|c l IH]; simpl; rewrite orb_true_iff, prefix_chars_spec.
  - split.
    + intros [(t & E)|?]; [|done]. by exists [], t.
    + intros (a & b & E). destruct a; [|done]. left. by exists b.
  - rewrite IH. split.
    + intros [(t & E)|(a & b & ->)]; [by exists [], t|by exists (c :: a), b].
    + intros (a & b & E). destruct a as [|d a]; [left; by exists b|]. injection E as <- E. right. by exists a, b.
Qed.
Lemma str_contains_spec s sub : str_contains s sub = true <-> exists a b, s = a +:+ sub +:+ b.
Proof.
  unfold str_contains. rewrite contains_spec. split.
  - intros (a & b & E). exists (of_chars a), (of_chars b). apply chars_inj. by rewrite !chars_app, !chars_of_chars.
  - intros (a & b & ->). exists (chars a), (chars b). by rewrite !chars_app.
Qed.
Lemma contains_join x l sub : x ∈ l -> str_contains x sub = true -> str_contains (join "/" l) sub = true.
Proof.
  intros Hin (a & b & ->)%str_contains_spec. apply str_contains_spec. induction l as [|y l IH]; [by apply not_elem_of_nil in Hin|].
  apply elem_of_cons in Hin as [<-|Hin].
  - destruct l as [|z l]; [by exists a, b|]. exists a, (b +:+ "/" +:+ join "/" (z :: l)).
    change (join "/" ((a +:+ sub +:+ b) :: z :: l)) with ((a +:+ sub +:+ b) +:+ "/" +:+ join "/" (z :: l)). by rewrite !str_app_assoc.
  - destruct (IH Hin) as (a' & b' & E). destruct l as [|z l]; [by apply not_elem_of_nil in Hin|].
    exists (y +:+ "/" +:+ a'), b'. change (join "/" (y :: z :: l)) with (y +:+ "/" +:+ join "/" (z :: l)). rewrite E. by rewrite !str_app_assoc.
Qed.
Lemma strip_common_spec b t : exists c, b = c ++ (strip_common b t).1 /\ t = c ++ (strip_common b t).2.
Proof.
  revert t. induction b as [|x b IH]; intros t; [by exists []|]. destruct t as [|y t]; [by exists []|]. simpl.
  destruct (String.eqb_spec x y) as [->|]; [|by exists []]. destruct (IH t) as (c & E1 & E2). exists (y :: c). simpl. by rewrite <- E1, <- E2.
Qed.

(** An allowed path lies under the root. *)
Lemma IsAllowedPath_inside root s :
  p_rooted (parse_path root) = true -> IsAllowedPath root s = true ->
  p_rooted (parse_path s) = true /\ exists rest, p_names (parse_path s) = p_names (parse_path root) ++ rest /\
    Forall (fun e => str_contains e ".." = false) rest.
Proof.
  intros Hr. unfold IsAllowedPath, Rel. destruct (String.eqb_spec (Clean s) (Clean root)) as [E|_].
  { intros _. apply render_inj in E; [|apply parse_clean..]. rewrite E. split; [done|]. exists []. by rewrite app_nil_r. }
  rewrite Hr. destruct (p_rooted (parse_path s)) eqn:Es; [|done]. simpl.
  destruct (strip_common_spec (p_names (parse_path root)) (p_names (parse_path s))) as (c & E1 & E2).
  destruct (strip_common _ _) as [bs ts]. simpl in *. destruct bs as [|x bs].
  - rewrite app_nil_r in E1. intros Hc%negb_true_iff. split; [done|]. exists ts. rewrite E1. split; [done|]. apply Forall_forall.
    intros e He. destruct (str_contains e "..") eqn:Ee; [|done]. by rewrite (contains_join e) in Hc.
  - destruct (String.eqb x ".."); [done|]. intros Hc%negb_true_iff. exfalso. rewrite (contains_join "..") in Hc; [done|by left|done].
Qed.

(** ** The folder and the name of a path *)

Lemma drop_until p l1 c l2 : Forall (fun x => p x = true) l1 -> p c = false -> drop_while p (l1 ++ c :: l2) = c :: l2.
Proof. intros H Hc. induction H as [|x l Hx H IH]; simpl; [by rewrite Hc|by rewrite Hx]. Qed.
Lemma take_until p l1 c l2 : Forall (fun x => p x = true) l1 -> p c = false -> take_while p (l1 ++ c :: l2) = l1.
Proof. intros H Hc. induction H as [|x l Hx H IH]; simpl; [by rewrite Hc|by rewrite Hx, IH]. Qed.
Lemma free_no_slash x : free_of "/" x -> Forall (fun c => negb (is_slash c) = true) (rev (chars x)).
Proof.
  intros H. apply Forall_rev, Forall_forall. intros c Hc. unfold is_slash. destruct (Ascii.eqb_spec c "/"%char) as [->|]; [|done].
  by destruct H.
Qed.
(** A rooted path as the text of its folder, a separator and its name. *)
Definition folder_text (ns : list string) : string := match ns with [] => "" | _ => "/" +:+ join "/" ns end.
Lemma render_snoc ns x : render (mkPath true (ns ++ [x])) = folder_text ns +:+ "/" +:+ x.
Proof.
  unfold render, folder_text. cbn [p_rooted p_names]. destruct ns as [|y ns]; [done|]. rewrite <- str_app_assoc. f_equal.
  by rewrite (join_app (y :: ns) [x]).
Qed.
Lemma parse_folder ns : Forall plain ns -> parse_path (folder_text ns +:+ "/" +:+ "") = mkPath true ns.
Proof.
  intros H. assert (Hc : clean (mkPath true ns)) by by apply plain_rooted. destruct ns as [|y ns]; [done|].
  change (folder_text (y :: ns)) with (render (mkPath true (y :: ns))). set (b := render (mkPath true (y :: ns))).
  assert (Hb : b <> "") by done. rewrite <- parse_Clean. change (Clean (b +:+ "/" +:+ "")) with (Clean (join "/" [b; ""])).
  replace (Clean (join "/" [b; ""])) with (Join [b; ""]); [|cbn [Join]; by rewrite (proj2 (String.eqb_neq _ _) Hb)].
  rewrite parse_Join by done. unfold b. rewrite parse_render by done. unfold resolve. cbn [p_rooted p_names].
  change (split "/" "") with [""]. change (walk true ?a [""]) with a. by rewrite rev_involutive.
Qed.
Lemma Dir_render ns x : Forall plain (ns ++ [x]) -> parse_path (Dir (render (mkPath true (ns ++ [x])))) = mkPath true ns.
Proof.
  intros [Hns (Hx & _)%Forall_cons]%Forall_app. unfold Dir. rewrite parse_Clean, render_snoc, !chars_app.
  change (chars "/") with ["/"%char]. rewrite !rev_app_distr. simpl. rewrite <- app_assoc. simpl.
  rewrite drop_until; [|apply free_no_slash, Hx|done]. simpl. rewrite rev_involutive.
  rewrite <- (parse_folder ns Hns). f_equal. apply chars_inj. rewrite chars_of_chars, !chars_app. done.
Qed.
Lemma Base_render ns x : plain x -> Base (render (mkPath true (ns ++ [x]))) = x.
Proof.
  intros Hx. assert (Hf : free_of "/" x) by apply Hx. rewrite render_snoc. unfold Base.
  destruct (String.eqb_spec (folder_text ns +:+ "/" +:+ x) "") as [E|_]; [by destruct ns|].
  rewrite !chars_app. change (chars "/") with ["/"%char]. rewrite !rev_app_distr. simpl. rewrite <- app_assoc. simpl.
  assert (Hd : forall l, drop_while is_slash (rev (chars x) ++ l) = rev (chars x) ++ l).
  { intros l. apply free_no_slash in Hf. destruct (rev (chars x)) as [|c r] eqn:E.
    - exfalso. assert (Hl : chars x = []) by by rewrite <- (rev_involutive (chars x)), E. destruct x; [|done]. by destruct Hx.
    - apply Forall_cons in Hf as [Hc _]. simpl. by destruct (is_slash c). }
  rewrite Hd, rev_app_distr, rev_involutive. simpl. rewrite rev_involutive. unfold last_name.
  destruct ((chars (folder_text ns) ++ ["/"%char]) ++ chars x) as [|a l] eqn:E; [by destruct (chars (folder_text ns))|].
  rewrite <- E, !rev_app_distr. simpl. rewrite take_until; [|apply free_no_slash, Hf|done].
  by rewrite rev_involutive, of_chars_chars.
Qed.
