(* ===== verification/Files.v ===== *)
(** * The file system ([os], [archive/zip], [utils/file.go])

    Folders and regular files under the names of their paths, without symbolic links; a
    path that is not rooted starts at the root.  An operation fails where the system says so
    (a name that does not exist, a file where a folder is needed); permissions and faults of
    the disk are not modelled. *)

From stdpp Require Import sorting.
From S2P Require Import Prelude GoStrings Paths.
#[local] Open Scope nat_scope.

Inductive node :=
| Folder
| Regular (data : string) (mtime : Z).
Abbreviation fsys := (gmap (list string) node).
Inductive errno := ENOENT | ENOTDIR | EISDIR.
#[export] Instance node_eq_dec : EqDecision node.
Proof. solve_decision. Defined.
#[export] Instance errno_eq_dec : EqDecision errno.
Proof. solve_decision. Defined.
Definition errno_text (e : errno) : string :=
  match e with
  | ENOENT => "no such file or directory"
  | ENOTDIR => "not a directory"
  | EISDIR => "is a directory"
  end.
(** An error of [os]: the operation, the path and the reason. *)
Definition os_error (op path : string) (e : errno) : string := op +:+ " " +:+ path +:+ ": " +:+ errno_text e.
Definition at_names (path : string) : list string := p_names (parse_path path).

(** ** Operations *)

Fixpoint find_node (f : fsys) (pre todo : list string) (cur : node) : node + errno :=
  match todo with
  | [] => inl cur
  | n :: rest =>
      match cur with
      | Regular _ _ => inr ENOTDIR
      | Folder =>
          match f !! (pre ++ [n]) with
          | Some c => find_node f (pre ++ [n]) rest c
          | None => inr ENOENT
          end
      end
  end.
(** [os.Stat], and [os.IsNotExist] of its error. *)
Definition stat (f : fsys) (p : list string) : node + errno := find_node f [] p Folder.
Definition not_exist (r : node + errno) : bool := match r with inr ENOENT => true | _ => false end.

(** [os.MkdirAll]: the folders that are missing, from the root on. *)
Fixpoint mkdirs (f : fsys) (pre todo : list string) : fsys * option errno :=
  match todo with
  | [] => (f, None)
  | n :: rest =>
      let q := pre ++ [n] in
      match f !! q with
      | Some Folder => mkdirs f q rest
      | Some (Regular _ _) => (f, Some ENOTDIR)
      | None => mkdirs (<[q := Folder]> f) q rest
      end
  end.
Definition MkdirAll (f : fsys) (p : list string) : fsys * option errno := mkdirs f [] p.

(** [os.OpenFile] with [O_CREATE] and [O_TRUNC], or [os.Create]: an empty file. *)
Definition create_file (f : fsys) (p : list string) (now : Z) : fsys * option errno :=
  match stat f (removelast p) with
  | inr e => (f, Some e)
  | inl (Regular _ _) => (f, Some ENOTDIR)
  | inl Folder =>
      match stat f p with
      | inl Folder => (f, Some EISDIR)
      | _ => (<[p := Regular "" now]> f, None)
      end
  end.
(** [io.Copy] to an open file. *)
Definition write_file (f : fsys) (p : list string) (data : string) (now : Z) : fsys := <[p := Regular data now]> f.
(** [os.RemoveAll]. *)
Definition remove_all (f : fsys) (p : list string) : fsys := filter (fun kv => ~ p `prefix_of` kv.1) f.

Fixpoint strip (p k : list string) : option (list string) :=
  match p, k with
  | [], _ => Some k
  | x :: p', y :: k' => if String.eqb x y then strip p' k' else None
  | _ :: _, [] => None
  end.
Definition child_of (p : list string) (kv : list string * node) : option (string * node) :=
  match strip p kv.1 with
  | Some [n] => Some (n, kv.2)
  | _ => None
  end.
Definition name_before (a b : string * node) : Prop := String.leb a.1 b.1 = true.
#[export] Instance name_before_dec a b : Decision (name_before a b).
Proof. unfold name_before. apply _. Defined.
(** [os.ReadDir]: what a folder contains, in the order of the names. *)
Definition read_dir (f : fsys) (p : list string) : list (string * node) :=
  merge_sort name_before (omap (child_of p) (map_to_list f)).

(** The length of the longest path: walks below it come to an end. *)
Definition depth (f : fsys) : nat := foldr Nat.max 0 (map (fun kv => length kv.1) (map_to_list f)).

(** [filepath.WalkDir]: the regular files below a folder with their names from there, each
    folder in the order of its names. *)
Fixpoint walk_files (fuel : nat) (f : fsys) (p rel : list string) : list (list string * (string * Z)) :=
  match fuel with
  | O => []
  | S fuel =>
      concat (map (fun '(n, c) => match c with
                    | Folder => walk_files fuel f (p ++ [n]) (rel ++ [n])
                    | Regular data t => [(rel ++ [n], (data, t))]
                    end) (read_dir f p))
  end.
Definition WalkDir (f : fsys) (p : list string) : list (list string * (string * Z)) + errno :=
  match stat f p with
  | inr e => inr e
  | inl (Regular data t) => inl [([], (data, t))]
  | inl Folder => inl (walk_files (S (depth f)) f p [])
  end.

(** ** Archives *)

(** What [archive/zip] gives of an entry: its name, whether it is a folder, and its content,
    which may not open or break while it is copied. *)
Inductive zcontent :=
| Content (data : string)
| Broken (before : string) (e : string)
| Closed (e : string).
Record zentry := mkEntry { z_Name : string; z_Dir : bool; z_Content : zcontent }.

(** [AddToZip]: an entry after the others. *)
Definition AddToZip (w : list zentry) (data zipPath : string) : list zentry := w ++ [mkEntry zipPath false (Content data)].

(** The writing of one entry below a folder. *)
Definition extract_file (f : fsys) (dest name : string) (now : Z) (c : zcontent) (texts : string * string * string) : fsys * res unit :=
  let '(creating, opening, copying) := texts in
  match create_file f (at_names dest) now with
  | (f, Some e) => (f, Err (creating +:+ os_error "open" dest e))
  | (f, None) =>
      match c with
      | Closed e => (f, Err (opening +:+ e))
      | Broken before e => (write_file f (at_names dest) before now, Err (copying +:+ e))
      | Content data => (write_file f (at_names dest) data now, Ok tt)
      end
  end.

(** ** A file system that hangs together *)

Definition node_at (f : fsys) (p : list string) : option node := match p with [] => Some Folder | _ => f !! p end.
(** What has a name lies in a folder; the root has none; the names are those of a path. *)
Definition fs_ok (f : fsys) : Prop :=
  f !! [] = None /\ (forall p n c, f !! (p ++ [n]) = Some c -> node_at f p = Some Folder) /\
  map_Forall (fun k _ => Forall plain k) f.

Lemma node_at_cons f n p : node_at f (p ++ [n]) = f !! (p ++ [n]).
Proof. unfold node_at. destruct (p ++ [n]) eqn:E; [by destruct p|done]. Qed.
Lemma prefix_folder f p q c : fs_ok f -> f !! (p ++ q) = Some c -> q <> [] -> node_at f p = Some Folder.
Proof.
  intros (_ & Hf & _). revert c. induction q as [|x q IH] using rev_ind; [done|]. intros c Hc _. rewrite app_assoc in Hc.
  apply Hf in Hc. destruct q as [|y q]; [by rewrite app_nil_r in Hc|].
  unfold node_at in Hc. destruct (p ++ y :: q) eqn:E; [by destruct p|]. by apply (IH _ Hc).
Qed.
Lemma find_node_spec f pre todo c : fs_ok f -> node_at f pre = Some c ->
  match find_node f pre todo c with
  | inl c' => node_at f (pre ++ todo) = Some c'
  | inr e => node_at f (pre ++ todo) = None
  end.
Proof.
  intros Hf. revert pre c. induction todo as [|n todo IH]; intros pre c Hc; simpl; [by rewrite app_nil_r|].
  assert (Hna : forall k, node_at f (pre ++ n :: k) = f !! (pre ++ n :: k)).
  { intros k. unfold node_at. destruct (pre ++ n :: k) eqn:E; [by destruct pre|done]. }
  destruct c as [|data t].
  - destruct (f !! (pre ++ [n])) as [c'|] eqn:En.
    + rewrite <- node_at_cons in En. specialize (IH _ _ En). by rewrite <- app_assoc in IH.
    + rewrite Hna. destruct todo as [|m todo]; [done|]. destruct (f !! (pre ++ n :: m :: todo)) as [c'|] eqn:E; [|done].
      exfalso. change (n :: m :: todo) with ([n] ++ m :: todo) in E. rewrite app_assoc in E. apply (prefix_folder f) in E; [|done..].
      rewrite node_at_cons in E. congruence.
  - rewrite Hna. destruct (f !! (pre ++ n :: todo)) as [c'|] eqn:E; [exfalso|done].
    apply (prefix_folder f) in E; [|done..]. rewrite Hc in E. done.
Qed.
Lemma stat_inl f p c : fs_ok f -> stat f p = inl c <-> node_at f p = Some c.
Proof.
  intros Hf. assert (H := find_node_spec f [] p Folder Hf eq_refl). unfold stat. simpl in H.
  destruct (find_node f [] p Folder) as [c'|e]; split; congruence.
Qed.
Lemma stat_inr f p : fs_ok f -> (exists e, stat f p = inr e) <-> node_at f p = None.
Proof.
  intros Hf. assert (H := find_node_spec f [] p Folder Hf eq_refl). unfold stat. simpl in H.
  destruct (find_node f [] p Folder) as [c'|e]; split; [by intros (? & ?)|congruence|done|by exists e].
Qed.

(** Two file systems that differ by folders on the way to [p] only. *)
Definition grown (p : list string) (f f' : fsys) : Prop :=
  forall k, f' !! k = f !! k \/ (f !! k = None /\ f' !! k = Some Folder /\ k `prefix_of` p).
Lemma grown_refl p f : grown p f f.
Proof. intros k. by left. Qed.

Lemma insert_ok f p n c :
  fs_ok f -> Forall plain (p ++ [n]) -> node_at f p = Some Folder -> match f !! (p ++ [n]) with Some Folder => c = Folder | _ => True end ->
  fs_ok (<[p ++ [n] := c]> f).
Proof.
  intros (H0 & Hf & Hall) Hpl Hp Hn. split; [rewrite lookup_insert_ne; [done|by destruct p]|].
  split; [|by apply map_Forall_insert_2]. intros q m c' H. assert (Hq : node_at f q = Some Folder).
  { destruct (decide (p ++ [n] = q ++ [m])) as [E|Hne].
    - apply app_inj_tail in E as [<- _]. done.
    - rewrite lookup_insert_ne in H by done. by eapply Hf. }
  destruct (decide (p ++ [n] = q)) as [<-|Hne].
  - rewrite node_at_cons in *. rewrite Hq in Hn. by rewrite lookup_insert_eq, Hn.
  - unfold node_at in *. destruct q; [done|]. by rewrite lookup_insert_ne.
Qed.

Lemma mkdirs_spec f pre todo f' r :
  fs_ok f -> Forall plain (pre ++ todo) -> node_at f pre = Some Folder -> mkdirs f pre todo = (f', r) ->
  fs_ok f' /\ grown (pre ++ todo) f f' /\ (r = None -> node_at f' (pre ++ todo) = Some Folder).
Proof.
  revert f pre. induction todo as [|n todo IH]; intros f pre Hf Hpl Hp; cbn [mkdirs].
  - intros [= <- <-]. rewrite app_nil_r. split; [done|]. split; [apply grown_refl|done].
  - replace (pre ++ n :: todo) with ((pre ++ [n]) ++ todo) in * by by rewrite <- app_assoc.
    destruct (f !! (pre ++ [n])) as [[|data t]|] eqn:En.
    + intros E. apply IH in E; [done..|by rewrite node_at_cons].
    + intros [= <- <-]. split; [done|]. split; [apply grown_refl|done].
    + intros E. apply IH in E as (Hf' & Hg & Hr).
      * split; [done|]. split; [|done]. intros k. destruct (decide (pre ++ [n] = k)) as [<-|Hk].
        -- right. split; [done|]. destruct (Hg (pre ++ [n])) as [->|(E & _)]; rewrite lookup_insert_eq in *; [|done].
           split; [done|by eexists].
        -- destruct (Hg k) as [->|(E & ? & ?)]; rewrite lookup_insert_ne in * by done; [by left|by right].
      * apply insert_ok; [done|by apply Forall_app in Hpl as [? _]|done|by rewrite En].
      * done.
      * by rewrite node_at_cons, lookup_insert_eq.
Qed.
Lemma MkdirAll_spec f p f' r : fs_ok f -> Forall plain p -> MkdirAll f p = (f', r) ->
  fs_ok f' /\ grown p f f' /\ (r = None -> node_at f' p = Some Folder).
Proof. intros Hf Hp E. by apply (mkdirs_spec f [] p f' r). Qed.
(** Nothing is made of a folder that exists. *)
Lemma mkdirs_existing f pre todo : fs_ok f -> node_at f (pre ++ todo) = Some Folder -> mkdirs f pre todo = (f, None).
Proof.
  intros Hf. revert pre. induction todo as [|n todo IH]; intros pre Hp; [done|]. cbn [mkdirs].
  assert (Hn : f !! (pre ++ [n]) = Some Folder).
  { rewrite <- node_at_cons. change (n :: todo) with ([n] ++ todo) in Hp. rewrite app_assoc in Hp. destruct todo as [|m todo].
    - by rewrite app_nil_r in Hp.
    - assert (E : f !! ((pre ++ [n]) ++ m :: todo) = Some Folder).
      { unfold node_at in Hp. destruct ((pre ++ [n]) ++ m :: todo) eqn:E; [by destruct pre|done]. }
      by apply (prefix_folder f _ _ _ Hf E). }
  rewrite Hn. apply IH. by rewrite <- app_assoc.
Qed.

Lemma create_file_spec f p now f' r : fs_ok f -> Forall plain p -> create_file f p now = (f', r) ->
  fs_ok f' /\ match r with
              | Some _ => f' = f
              | None => f' = <[p := Regular "" now]> f /\ p <> [] /\ f !! p <> Some Folder
              end.
Proof.
  intros Hf Hpl. unfold create_file. destruct (stat f (removelast p)) as [[|data t]|e] eqn:Ep; [|by intros [= <- <-]..].
  apply stat_inl in Ep; [|done]. destruct p as [|x p0] using rev_ind; [by intros [= <- <-]|]. clear IHp0. rewrite removelast_last in Ep.
  destruct (stat f (p0 ++ [x])) as [[|data t]|e] eqn:Es; intros [= <- <-]; [done| |].
  - apply stat_inl in Es; [|done]. rewrite node_at_cons in Es. split; [apply insert_ok; [done..|by rewrite Es]|].
    split; [done|]. split; [by destruct p0|by rewrite Es].
  - assert (En : node_at f (p0 ++ [x]) = None) by (apply stat_inr; [done|by exists e]). rewrite node_at_cons in En.
    split; [apply insert_ok; [done..|by rewrite En]|]. split; [done|]. split; [by destruct p0|by rewrite En].
Qed.
Lemma write_file_spec f p data now data' now' : p <> [] -> f !! p = Some (Regular data' now') -> fs_ok f -> fs_ok (write_file f p data now).
Proof.
  intros Hne Hp Hf. destruct (exists_last Hne) as (p0 & x & ->). apply insert_ok; [done| | |by rewrite Hp].
  - destruct Hf as (_ & _ & Hall). by apply (Hall _ _ Hp).
  - destruct Hf as (_ & Hf & _). by eapply Hf.
Qed.

Lemma remove_all_lookup f p k : remove_all f p !! k = if bool_decide (p `prefix_of` k) then None else f !! k.
Proof.
  unfold remove_all. rewrite map_lookup_filter. case_bool_decide as Hp; destruct (f !! k); simpl; [|done| |done].
  - destruct (decide (~ p `prefix_of` k)) as [?|Hn]; simpl; [done|]. by rewrite option_guard_False.
  - by rewrite option_guard_True.
Qed.
Lemma remove_all_ok f p : p <> [] -> fs_ok f -> fs_ok (remove_all f p).
Proof.
  intros Hne (H0 & Hf & Hall). split; [rewrite remove_all_lookup; by case_bool_decide|].
  split; [|intros k c; rewrite remove_all_lookup; case_bool_decide; [done|apply Hall]]. intros q n c. rewrite remove_all_lookup. case_bool_decide as Hn; [done|].
  intros H. apply Hf in H. destruct q as [|x q]; [done|]. unfold node_at in *. rewrite remove_all_lookup.
  case_bool_decide as Hq; [|done]. exfalso. apply Hn. etrans; [exact Hq|by apply prefix_app_r].
Qed.

(** ** What a folder contains *)

Lemma strip_spec p k r : strip p k = Some r <-> k = p ++ r.
Proof.
  revert k. induction p as [|x p IH]; intros k; simpl; [split; congruence|]. destruct k as [|y k]; [done|].
  destruct (String.eqb_spec x y) as [->|Hne].
  - rewrite IH. split; [by intros ->|by intros [= ->]].
  - split; [done|by intros [= ? _]].
Qed.
Lemma child_of_spec p kv n c : child_of p kv = Some (n, c) <-> kv = (p ++ [n], c).
Proof.
  destruct kv as [k c']. unfold child_of. simpl. destruct (strip p k) as [r|] eqn:E.
  - apply strip_spec in E as ->. destruct r as [|m [|m' r]].
    + split; [done|]. intros [= E%app_inv_head _]. done.
    + split; [by intros [= -> ->]|]. by intros [= [= ->]%app_inv_head ->].
    + split; [done|]. by intros [= [= _ ?]%app_inv_head _].
  - split; [done|]. intros [= -> ->]. assert (strip p (p ++ [n]) = Some [n]) by by apply strip_spec. congruence.
Qed.
Lemma read_dir_in f p n c : (n, c) ∈ read_dir f p <-> f !! (p ++ [n]) = Some c.
Proof.
  unfold read_dir. rewrite merge_sort_Permutation, list_elem_of_omap. rewrite <- elem_of_map_to_list. split.
  - intros (kv & Hkv & E%child_of_spec). by subst.
  - intros H. exists (p ++ [n], c). split; [done|]. by apply child_of_spec.
Qed.
Lemma read_dir_nodup f p : NoDup (map fst (read_dir f p)).
Proof.
  unfold read_dir. rewrite merge_sort_Permutation. assert (H := NoDup_fst_map_to_list f). revert H.
  induction (map_to_list f) as [|kv l IH]; intros H; [constructor|]. apply NoDup_cons in H as [Hk H]. cbn [omap list_omap].
  destruct (child_of p kv) as [[n c]|] eqn:E; [|by apply IH]. apply child_of_spec in E as ->. simpl. apply NoDup_cons. split; [|by apply IH].
  intros ((m & c') & -> & Hin)%list_elem_of_fmap. apply list_elem_of_omap in Hin as (kv & Hkv & ->%child_of_spec).
  apply Hk. apply list_elem_of_fmap. by exists (p ++ [m], c').
Qed.

Lemma depth_bound f k c : f !! k = Some c -> length k <= depth f.
Proof.
  intros H%elem_of_map_to_list. unfold depth. induction (map_to_list f) as [|kv l IH]; [by apply not_elem_of_nil in H|].
  apply elem_of_cons in H as [<-|H]; simpl; [lia|]. specialize (IH H). lia.
Qed.
Lemma walk_files_in fuel f p rel x data t : fs_ok f ->
  (x, (data, t)) ∈ walk_files fuel f p rel <->
  exists r, x = rel ++ r /\ r <> [] /\ length r <= fuel /\ f !! (p ++ r) = Some (Regular data t).
Proof.
  intros Hf. revert p rel. induction fuel as [|fuel IH]; intros p rel; cbn [walk_files].
  { split; [by intros ?%not_elem_of_nil|]. intros ([|y r] & _ & ? & Hl & _); [done|simpl in Hl; lia]. }
  rewrite list_elem_of_In, in_concat. setoid_rewrite in_map_iff. setoid_rewrite <- list_elem_of_In. split.
  - intros (l & ([n c] & <- & Hc%read_dir_in) & Hx). destruct c as [|data' t'].
    + apply IH in Hx as (r & -> & Hne & Hl & Hr). exists (n :: r). rewrite <- !app_assoc in *. simpl. split; [done|]. split; [done|]. split; [lia|done].
    + apply list_elem_of_singleton in Hx as [= -> -> ->]. exists [n]. split; [done|]. split; [done|]. split; [simpl; lia|done].
  - intros ([|n r] & -> & Hne & Hl & Hr); [done|]. simpl in Hl. destruct r as [|m r].
    + eexists. split; [exists (n, Regular data t); split; [reflexivity|by apply read_dir_in]|]. by left.
    + assert (Hn : node_at f (p ++ [n]) = Some Folder).
      { change (n :: m :: r) with ([n] ++ m :: r) in Hr. rewrite app_assoc in Hr. by apply (prefix_folder f _ _ _ Hf Hr). }
      rewrite node_at_cons in Hn. eexists. split; [exists (n, Folder); split; [reflexivity|by apply read_dir_in]|].
      apply IH. exists (m :: r). rewrite <- !app_assoc. split; [done|]. split; [done|]. split; [simpl in *; lia|done].
Qed.
Lemma walk_files_nodup fuel f p rel : fs_ok f -> NoDup (map fst (walk_files fuel f p rel)).
Proof.
  intros Hf. revert p rel. induction fuel as [|fuel IH]; intros p rel; cbn [walk_files]; [constructor|].
  assert (Hnd := read_dir_nodup f p). induction (read_dir f p) as [|[n c] l IHl]; [constructor|]. cbn [map concat] in *.
  apply NoDup_cons in Hnd as [Hn Hnd]. rewrite map_app. apply NoDup_app. split; [|split; [|by apply IHl]].
  - destruct c; [apply IH|]. apply NoDup_singleton.
  - assert (Hhead : forall y e, y ∈ map fst match e with Folder => walk_files fuel f (p ++ [n]) (rel ++ [n]) | Regular data t => [(rel ++ [n], (data, t))] end ->
        exists r, y = rel ++ n :: r).
    { intros y [|data t] Hy.
      - apply list_elem_of_fmap in Hy as ([x [data t]] & -> & (r & -> & _)%walk_files_in); [|done]. exists r. by rewrite <- app_assoc.
      - apply list_elem_of_singleton in Hy as ->. by exists []. }
    intros y (r & ->)%Hhead Hin. apply Hn. clear -Hin Hf. induction l as [|[m c'] l IHl]; [by apply not_elem_of_nil in Hin|].
    cbn [map concat] in Hin. rewrite map_app in Hin. apply elem_of_app in Hin as [Hin|Hin]; [|right; by apply IHl].
    assert (n = m) as ->; [|by left]. destruct c' as [|data t].
    + apply list_elem_of_fmap in Hin as ([x [data t]] & E & (r' & -> & _)%walk_files_in); [|done].
      simpl in E. rewrite <- app_assoc in E. apply app_inv_head in E. by injection E.
    + apply list_elem_of_singleton in Hin. apply app_inv_head in Hin. by injection Hin.
Qed.
(** The walk finds every file below a folder, once. *)
Lemma WalkDir_folder f p : fs_ok f -> node_at f p = Some Folder -> exists l, WalkDir f p = inl l /\ NoDup (map fst l) /\
  forall r data t, (r, (data, t)) ∈ l <-> r <> [] /\ f !! (p ++ r) = Some (Regular data t).
Proof.
  intros Hf Hp. unfold WalkDir. rewrite (proj2 (stat_inl f p Folder Hf) Hp). eexists. split; [reflexivity|].
  split; [by apply walk_files_nodup|]. intros r data t. rewrite walk_files_in by done. split.
  - by intros (r' & -> & ? & _ & ?).
  - intros [Hne Hr]. exists r. split; [done|]. split; [done|]. split; [|done]. apply depth_bound in Hr. rewrite length_app in Hr. lia.
Qed.

(** ** What stays outside of a folder *)

(** Outside of [p] nothing changes, but folders may be made on the way to it. *)
Definition stays (p : list string) (f f' : fsys) : Prop :=
  forall k, ~ p `prefix_of` k -> f' !! k = f !! k \/ (f !! k = None /\ f' !! k = Some Folder /\ k `prefix_of` p).
#[export] Instance stays_refl p : Reflexive (stays p).
Proof. intros f k _. by left. Qed.
#[export] Instance stays_trans p : Transitive (stays p).
Proof.
  intros f g h Hfg Hgh k Hk. destruct (Hfg k Hk) as [E|(E & E' & ?)], (Hgh k Hk) as [E2|(E2 & ? & ?)].
  - left. congruence.
  - right. split; [congruence|done].
  - right. split; [done|]. split; [congruence|done].
  - congruence.
Qed.
Lemma grown_stays p q f f' : p `prefix_of` q \/ q `prefix_of` p -> grown q f f' -> stays p f f'.
Proof.
  intros Hpq Hg k Hk. destruct (Hg k) as [->|(? & ? & Hq)]; [by left|right]. split; [done|]. split; [done|].
  destruct Hpq as [Hpq|Hqp]; [|by etrans]. by destruct (prefix_weak_total _ _ _ Hq Hpq).
Qed.
Lemma insert_stays p q f c : p `prefix_of` q -> stays p f (<[q := c]> f).
Proof. intros Hpq k Hk. left. apply lookup_insert_ne. by intros ->. Qed.
Lemma removed_grown p f f' : fs_ok f -> node_at f p = None -> stays p f f' -> grown p f (remove_all f' p).
Proof.
  intros Hf Hn Hs k. rewrite remove_all_lookup. case_bool_decide as Hk.
  - left. symmetry. destruct Hk as (r & ->). destruct (f !! (p ++ r)) as [c|] eqn:E; [exfalso|done]. destruct r as [|y r].
    + rewrite app_nil_r in E. destruct p; [done|]. simpl in Hn. congruence.
    + apply (prefix_folder f _ _ _ Hf) in E; [|done]. congruence.
  - destruct (Hs k Hk) as [?|?]; [by left|by right].
Qed.
Lemma extract_file_spec f dest name now c texts p f' r :
  fs_ok f -> Forall plain (at_names dest) -> p `prefix_of` at_names dest ->
  extract_file f dest name now c texts = (f', r) -> fs_ok f' /\ stays p f f'.
Proof.
  intros Hf Hpl Hp. destruct texts as [[t1 t2] t3]. unfold extract_file.
  destruct (create_file f (at_names dest) now) as [f1 [e|]] eqn:Ec; (apply create_file_spec in Ec as [Hf1 Hc]; [|done..]).
  { intros [= <- <-]. by rewrite Hc. }
  destruct Hc as (-> & Hne & _).
  assert (Hw : forall data, fs_ok (write_file (<[at_names dest := Regular "" now]> f) (at_names dest) data now)).
  { intros data. eapply write_file_spec; [done|apply lookup_insert_eq|done]. }
  assert (Hs : forall data, stays p f (write_file (<[at_names dest := Regular "" now]> f) (at_names dest) data now)).
  { intros data. etrans; by apply insert_stays. }
  destruct c; intros [= <- <-]; (split; [done|]); [done..|]. by apply insert_stays.
Qed.

(** Folders can be made when no file is on the way. *)
Lemma mkdirs_total f pre todo :
  (forall a b, todo = a ++ b -> a <> [] -> forall data t, f !! (pre ++ a) <> Some (Regular data t)) -> (mkdirs f pre todo).2 = None.
Proof.
  revert f pre. induction todo as [|n todo IH]; intros f pre H; [done|]. cbn [mkdirs].
  assert (Hn : forall a b, todo = a ++ b -> a <> [] -> forall data t, f !! ((pre ++ [n]) ++ a) <> Some (Regular data t)).
  { intros a b -> Ha. rewrite <- app_assoc. by apply (H (n :: a) b). }
  destruct (f !! (pre ++ [n])) as [[|data t]|] eqn:En.
  - by apply IH.
  - by destruct (H [n] todo eq_refl ltac:(done) data t).
  - apply IH. intros a b -> Ha data t. destruct a as [|y a]; [done|]. rewrite lookup_insert_ne; [by eapply Hn|].
    intros E. apply (f_equal length) in E. rewrite !length_app in E. simpl in E. lia.
Qed.
Lemma mkdirs_result f p : fs_ok f -> Forall plain p -> (forall k data t, k `prefix_of` p -> f !! k <> Some (Regular data t)) ->
  exists f', MkdirAll f p = (f', None) /\ fs_ok f' /\ grown p f f' /\ node_at f' p = Some Folder.
Proof.
  intros Hf Hp Hk. destruct (MkdirAll f p) as [f' r] eqn:E. assert (Hr : r = None).
  { change r with (f', r).2. rewrite <- E. apply mkdirs_total. intros a b -> _ data t. apply Hk. by eexists. }
  subst r. apply MkdirAll_spec in E as (? & ? & H); [|done..]. exists f'. split; [done|]. split; [done|]. split; [done|by apply H].
Qed.
Lemma on_the_way f p k : fs_ok f -> node_at f p = Some Folder -> k `prefix_of` p -> node_at f k = Some Folder.
Proof.
  intros Hf Hp (b & ->). destruct b as [|y b]; [by rewrite app_nil_r in Hp|].
  unfold node_at in Hp. destruct (k ++ y :: b) eqn:E; [by destruct k|]. rewrite <- E in Hp. by apply (prefix_folder f _ _ _ Hf Hp).
Qed.
