(* ===== verification/DatapackStore.v ===== *)
(** * Files of datapacks ([module/injection/datapack_store.go], [module/injection/archive.go],
      [module/dataset/file_store.go], the upload and the downloads of
      [module/injection/service.go])

    Each datapack has a folder under the path that is configured.  The stores read it, list
    it, put it into an archive and fill it from one; the service ties this to the rows. *)

From S2P Require Import Prelude GoStrings Consts Tables Labels FaultInjection Injections Paths Files.
#[local] Open Scope Z_scope.

(** ** Listings *)

Inductive DatapackFileItem :=
| mkFileItem (Name Path Size : string) (ModTime : option Z) (Children : list DatapackFileItem).
Definition f_Children (i : DatapackFileItem) : list DatapackFileItem := let 'mkFileItem _ _ _ _ c := i in c.
Record DatapackFilesResp := mkFilesResp { dfr_Files : list DatapackFileItem; dfr_FileCount : Z; dfr_DirCount : Z }.

(** [%.1f] of a quotient that a float64 holds exactly: the tenth that is nearest, the even
    one of two. *)
Definition one_decimal (num den : Z) : string :=
  let q := 10 * num / den in
  let r := 10 * num mod den in
  let q := if (den <? 2 * r) || ((2 * r =? den) && Z.odd q) then q + 1 else q in
  itoa (q / 10) +:+ "." +:+ itoa (q mod 10).
(** Sizes below 2^53 are meant. *)
Definition formatFileSize (bytes : Z) : string :=
  let kb := 1024 in let mb := 1024 * 1024 in
  if bytes <? mb then one_decimal bytes kb +:+ "KB" else one_decimal bytes mb +:+ "MB".

Definition validParquetFiles : list string :=
  ["abnormal_traces.parquet"; "abnormal_metrics.parquet"; "abnormal_logs.parquet";
   "normal_traces.parquet"; "normal_metrics.parquet"; "normal_logs.parquet"].
Definition DownloadFilename : string := "package".

Definition content_types : list (list string * string) :=
  [([".json"], "application/json"); ([".yaml"; ".yml"], "application/x-yaml"); ([".txt"; ".log"], "text/plain");
   ([".csv"], "text/csv"); ([".xml"], "application/xml"); ([".html"; ".htm"], "text/html"); ([".pdf"], "application/pdf");
   ([".zip"], "application/zip"); ([".tar"; ".gz"; ".tgz"], "application/x-tar")].
Definition content_type (fileName : string) : string :=
  match find (fun c => existsb (String.eqb (Ext fileName)) c.1) content_types with
  | Some c => c.2
  | None => "application/octet-stream"
  end.

(** The archive that is written, and how a call ends. *)
Definition zip_writer : Type := list zentry.

Section Store.
(** [jfs.dataset_path], which the stores and [IsAllowedPath] read. *)
Context (basePath : string).

Definition RootDir (datapackName : string) : string := Join [basePath; datapackName].
Definition allowed_dir (workDir : string) : res unit :=
  require (IsAllowedPath basePath workDir) ("invalid path access to " +:+ workDir).

(** *** Packages *)

(** The path that the walk hands over for a file. *)
Definition entry_path (workDir : string) (r : list string) : string := fold_left (fun p n => Join [p; n]) r workDir.
Definition zip_name (workDir : string) (r : list string) : string :=
  let relPath := match Rel workDir (entry_path workDir r) with Ok rel => rel | Err _ => "" end in
  Join [DownloadFilename; Base workDir; relPath].
Definition excluded (rules : list ExculdeRule) (workDir : string) (r : list string) : bool :=
  existsb (MatchFile (Base (entry_path workDir r))) rules.
Definition add_walked (workDir : string) (rules : list ExculdeRule) (w : zip_writer) (e : list string * (string * Z)) : zip_writer :=
  if excluded rules workDir e.1 then w else AddToZip w e.2.1 (zip_name workDir e.1).
Definition package_directory (what : string) (f : fsys) (w : zip_writer) (workDir : string) (rules : list ExculdeRule)
  : zip_writer * res unit :=
  match WalkDir f (at_names workDir) with
  | inr e => (w, Err (what +:+ ": " +:+ os_error "lstat" workDir e))
  | inl files => (fold_left (add_walked workDir rules) files w, Ok tt)
  end.
Definition packageDatapackDirectoryToZip (f : fsys) (w : zip_writer) (workDir : string) (rules : list ExculdeRule)
  : zip_writer * res unit :=
  package_directory ("failed to package datapack directory " +:+ Base workDir) f w workDir rules.
Definition Package (f : fsys) (w : zip_writer) (datapackName : string) (rules : list ExculdeRule) : zip_writer * res unit :=
  let workDir := RootDir datapackName in
  match allowed_dir workDir with
  | Err e => (w, Err e)
  | Ok _ => packageDatapackDirectoryToZip f w workDir rules
  end.

(** The store of the datasets. *)
Definition packageDatapackToZip (f : fsys) (w : zip_writer) (datapack : InjectionRow) (rules : list ExculdeRule)
  : zip_writer * res unit :=
  if negb (ready datapack) then (w, Err ("datapack " +:+ fi_Name datapack +:+ " is not in a downloadable state"))
  else let workDir := RootDir (fi_Name datapack) in
       match allowed_dir workDir with
       | Err e => (w, Err e)
       | Ok _ => package_directory ("failed to package datapack " +:+ fi_Name datapack) f w workDir rules
       end.
Fixpoint PackageToZip (f : fsys) (w : zip_writer) (datapacks : list InjectionRow) (rules : list ExculdeRule)
  : zip_writer * res unit :=
  match datapacks with
  | [] => (w, Ok tt)
  | dp :: rest =>
      match packageDatapackToZip f w dp rules with
      | (w, Ok _) => PackageToZip f w rest rules
      | (w, Err e) => (w, Err e)
      end
  end.

(** *** The tree of the files *)

Definition children_text (children : list DatapackFileItem) : string :=
  let sub := length (List.filter (fun c => negb (length (f_Children c) =? 0)%nat) children) in
  let files := length (List.filter (fun c => (length (f_Children c) =? 0)%nat) children) in
  itoa (Z.of_nat sub) +:+ " subfolders, " +:+ itoa (Z.of_nat files) +:+ " files".
Definition counts : Type := Z * Z.
(** One entry after the other: the items and the numbers of files and folders so far. *)
Fixpoint build_items (sub : string -> counts -> res (list DatapackFileItem * counts)) (relPath : string)
    (entries : list (string * node)) (n : counts) : res (list DatapackFileItem * counts) :=
  match entries with
  | [] => Ok ([], n)
  | (name, c) :: rest =>
      let itemRelPath := Join [relPath; name] in
      let? (item, n) := match c with
        | Folder => let? (children, (files, dirs)) := sub itemRelPath n in
                    Ok (mkFileItem name itemRelPath (children_text children) None children, (files, dirs + 1))
        | Regular data t => Ok (mkFileItem name itemRelPath (formatFileSize (str_len data)) (Some t) [], (n.1 + 1, n.2))
        end in
      let? (items, n) := build_items sub relPath rest n in
      Ok (item :: items, n)
  end.
Fixpoint buildFileTree (fuel : nat) (f : fsys) (workDir relPath : string) (n : counts) : res (list DatapackFileItem * counts) :=
  match fuel with
  | O => Err "out of fuel"
  | S fuel =>
      let currentPath := Join [workDir; relPath] in
      match stat f (at_names currentPath) with
      | inr e => Err (os_error "open" currentPath e)
      | inl (Regular _ _) => Err (os_error "readdirent" currentPath ENOTDIR)
      | inl Folder => build_items (buildFileTree fuel f workDir) relPath (read_dir f (at_names currentPath)) n
      end
  end.
Definition BuildFileTree (f : fsys) (datapackName : string) (datapackID : Z) : res DatapackFilesResp :=
  let workDir := RootDir datapackName in
  allowed_dir workDir ;;?
  require (negb (not_exist (stat f (at_names workDir)))) ("datapack directory not found for datapack id " +:+ itoa datapackID) ;;?
  let? (items, (files, dirs)) := buildFileTree (S (depth f)) f workDir "" (0, 0) in
  Ok (mkFilesResp items files dirs).

(** *** One file *)

Definition resolveFilePath (f : fsys) (datapackName filePath : string) : string + goerr :=
  let workDir := RootDir datapackName in
  if negb (IsAllowedPath basePath workDir) then inr (New ("invalid path access to " +:+ workDir))
  else let cleanPath := Clean filePath in
       let fullPath := Join [workDir; cleanPath] in
       if negb (has_prefix fullPath workDir) then inr (New "invalid file path: path traversal detected")
       else if negb (IsAllowedPath basePath fullPath) then inr (New "invalid file path access")
       else match stat f (at_names fullPath) with
            | inr ENOENT => inr (tagged NotFound ("file not found: " +:+ cleanPath))
            | inr e => inr (New ("failed to stat file: " +:+ os_error "stat" fullPath e))
            | inl Folder => inr (New ("path is a directory, not a file: " +:+ cleanPath))
            | inl (Regular _ _) => inl fullPath
            end.
Record opened_file := mkOpened { of_Name : string; of_Type : string; of_Size : Z; of_Data : string }.
Definition OpenFile (f : fsys) (datapackName filePath : string) : opened_file + goerr :=
  match resolveFilePath f datapackName filePath with
  | inr e => inr e
  | inl fullPath =>
      match stat f (at_names fullPath) with
      | inl (Regular data _) => inl (mkOpened (Base fullPath) (content_type (Base fullPath)) (str_len data) data)
      | inl Folder => inl (mkOpened (Base fullPath) (content_type (Base fullPath)) 0 "")
      | inr e => inr (New ("failed to open file: " +:+ os_error "open" fullPath e))
      end
  end.

(** *** Archives that are uploaded *)

Definition ValidateArchive (archive : res (list zentry)) : res unit :=
  let? entries := res_wrap "failed to open zip archive: " archive in
  require (existsb (fun e => existsb (String.eqb (Base (z_Name e))) validParquetFiles) entries)
    "archive must contain at least one parquet file from: abnormal_traces.parquet, abnormal_metrics.parquet, abnormal_logs.parquet, normal_traces.parquet, normal_metrics.parquet, normal_logs.parquet".
Definition EnsureDatapackDirAvailable (f : fsys) (datapackName : string) : string + goerr :=
  if String.eqb basePath "" then inr (New "dataset path not configured")
  else let targetDir := RootDir datapackName in
       match stat f (at_names targetDir) with
       | inl _ => inr (tagged AlreadyExists ("directory " +:+ datapackName +:+ " already exists"))
       | inr _ => inl targetDir
       end.

Definition extract_texts (name : string) : string * string * string :=
  ("failed to create file " +:+ name +:+ ": ", "failed to open file in archive " +:+ name +:+ ": ",
   "failed to extract file " +:+ name +:+ ": ").
(** The check that an entry stays in the folder. *)
Definition inside (targetDir destPath : string) : bool :=
  has_prefix (Clean destPath) (Clean targetDir +:+ "/") || String.eqb (Clean destPath) (Clean targetDir).
Definition extract_entry (now : Z) (targetDir : string) (f : fsys) (e : zentry) : fsys * res unit :=
  let destPath := Join [targetDir; z_Name e] in
  if negb (inside targetDir destPath) then (f, Err ("illegal file path in archive: " +:+ z_Name e))
  else if z_Dir e then
    match MkdirAll f (at_names destPath) with
    | (f, Some err) => (f, Err ("failed to create directory " +:+ z_Name e +:+ ": " +:+ os_error "mkdir" destPath err))
    | (f, None) => (f, Ok tt)
    end
  else match MkdirAll f (at_names (Dir destPath)) with
       | (f, Some err) => (f, Err ("failed to create parent directory for " +:+ z_Name e +:+ ": " +:+ os_error "mkdir" (Dir destPath) err))
       | (f, None) => extract_file f destPath (z_Name e) now (z_Content e) (extract_texts (z_Name e))
       end.
Fixpoint extract_all (now : Z) (targetDir : string) (f : fsys) (entries : list zentry) : fsys * res unit :=
  match entries with
  | [] => (f, Ok tt)
  | e :: rest =>
      match extract_entry now targetDir f e with
      | (f, Ok _) => extract_all now targetDir f rest
      | (f, Err err) => (f, Err err)
      end
  end.
Definition ExtractArchive (now : Z) (f : fsys) (archive : res (list zentry)) (targetDir : string) : fsys * res unit :=
  match archive with
  | Err e => (f, Err ("failed to open zip archive: " +:+ e))
  | Ok entries =>
      match MkdirAll f (at_names targetDir) with
      | (f, Some err) => (f, Err ("failed to create target directory: " +:+ os_error "mkdir" targetDir err))
      | (f, None) => extract_all now targetDir f entries
      end
  end.

(** [json.Unmarshal] of [injection.json]: its two lists of ground truths. *)
Context (parse_truths : string -> option (list Groundtruth * list Groundtruth)).
Definition ExtractGroundtruths (f : fsys) (dir : string) : list Groundtruth :=
  match stat f (at_names (Join [dir; "injection.json"])) with
  | inl (Regular data _) =>
      match parse_truths data with
      | Some ([], groundTruth) => groundTruth
      | Some (groundtruths, _) => groundtruths
      | None => []
      end
  | _ => []
  end.

(** ** The service *)

Record UploadDatapackReq := mkUpload {
  up_Name : string; up_Description : string; up_Category : string; up_Labels : string; up_Groundtruths : string
}.
Definition UploadDatapackReq_Validate (req : UploadDatapackReq) : res unit :=
  require (negb (String.eqb (trim_space (up_Name req)) "")) "name is required".
(** [json.Unmarshal] of a field that holds a list. *)
Definition parse_field {A} (what : string) (parse : string -> res (list A)) (field : string) : res (list A) :=
  if String.eqb field "" then Ok [] else res_wrap ("invalid " +:+ what +:+ " JSON: ") (parse field).
Context (labels_json : string -> res (list LabelItem)) (groundtruths_json : string -> res (list Groundtruth)).
Definition ParseLabels (req : UploadDatapackReq) : res (list LabelItem) := parse_field "labels" labels_json (up_Labels req).
Definition ParseGroundtruths (req : UploadDatapackReq) : res (list Groundtruth) :=
  parse_field "ground_truths" groundtruths_json (up_Groundtruths req).

Definition GroundtruthSourceImported : string := "imported".
Definition upload_truths (f : fsys) (targetDir : string) (given : list Groundtruth) : list Groundtruth * string :=
  match given with
  | _ :: _ => (given, GroundtruthSourceManual)
  | [] => match ExtractGroundtruths f targetDir with
          | [] => ([], "")
          | found => (found, GroundtruthSourceImported)
          end
  end.
Definition uploaded_row (req : UploadDatapackReq) (truths : list Groundtruth * string) : InjectionRow :=
  mkInjectionRow 0 (up_Name req) "manual" 0 (up_Category req) (up_Description req) None "" truths.1 truths.2 0
    None None None None None DatapackBuildSuccess enabled.

Context (order : gmap string LabelItem -> list (string * LabelItem)).
(** The reading of the archive of the bytes that were saved. *)
Context (read_zip : string -> res (list zentry)).

Definition create_uploaded (row : InjectionRow) (labels : list LabelItem) : Tx idb InjectionRow :=
  let^ injection := createInjectionRecord row in
  attach_injection_labels order (fi_ID injection) labels ;;^
  tx_ret injection.
Definition bad_request (e : string) : goerr := tagged BadRequest e.
(** The temporary file, which is removed at the end in any case, is where the bytes arrive;
    [upload] is an error when they do not. *)
Definition UploadDatapack (now : Z) (req : UploadDatapackReq) (upload : string + goerr) (w : fsys * idb)
  : ((Z * string) + goerr) * (fsys * idb) :=
  let '(f, d) := w in
  match ParseLabels req, ParseGroundtruths req with
  | Err e, _ => (inr (bad_request e), w)
  | _, Err e => (inr (bad_request e), w)
  | Ok labels, Ok given =>
      match findInjectionByName (up_Name req) d with
      | inl _ => (inr (tagged AlreadyExists ("injection with name " +:+ up_Name req +:+ " already exists")), w)
      | inr _ =>
          match upload with
          | inr e => (inr e, w)
          | inl bytes =>
              match ValidateArchive (read_zip bytes) with
              | Err e => (inr (bad_request e), w)
              | Ok _ =>
                  match EnsureDatapackDirAvailable f (up_Name req) with
                  | inr e => (inr e, w)
                  | inl targetDir =>
                      match ExtractArchive now f (read_zip bytes) targetDir with
                      | (f1, Err e) => (inr (New ("failed to extract archive: " +:+ e)), (remove_all f1 (at_names targetDir), d))
                      | (f1, Ok _) =>
                          match transaction (create_uploaded (uploaded_row req (upload_truths f1 targetDir given)) labels) d with
                          | (inr e, d1) => (inr e, (remove_all f1 (at_names targetDir), d1))
                          | (inl r, d1) => (inl (fi_ID r, fi_Name r), (f1, d1))
                          end
                      end
                  end
              end
          end
      end
  end.

(** The downloads: the datapack must be ready. *)
Definition with_datapack {A} (id : Z) (d : idb) (k : string -> A + goerr) : A + goerr :=
  match getReadyDatapack id d with
  | inl (r, _) => k (fi_Name r)
  | inr e => inr e
  end.
Definition DownloadDatapack (f : fsys) (d : idb) (w : zip_writer) (rules : list ExculdeRule) (id : Z) : zip_writer + goerr :=
  with_datapack id d (fun name =>
    match Package f w name rules with
    | (w, Ok _) => inl w
    | (_, Err e) => inr (New ("failed to package injection to zip: " +:+ e))
    end).
Definition GetDatapackFiles (f : fsys) (d : idb) (id : Z) : DatapackFilesResp + goerr :=
  with_datapack id d (fun name =>
    match BuildFileTree f name id with
    | Ok resp => inl resp
    | Err e => inr (New ("failed to build file tree: " +:+ e))
    end).
Definition DownloadDatapackFile (f : fsys) (d : idb) (id : Z) (filePath : string) : opened_file + goerr :=
  with_datapack id d (fun name => OpenFile f name filePath).
End Store.

(** ** Archives stay in their folder *)

Section Extraction.
Context (target : string) (T : list string).
Context (target_names : parse_path target = mkPath true T) (below_root : T <> []).

Lemma target_ne : target <> "".
Proof. intros E. by rewrite E in target_names. Qed.
Lemma target_plain : Forall plain T.
Proof. apply plain_rooted. pose proof (parse_clean target) as H. by rewrite target_names in H. Qed.
(** The names of an entry that passes the check are below those of the folder. *)
Lemma inside_names name : inside target (Join [target; name]) = true ->
  exists D, Join [target; name] = render (mkPath true D) /\ parse_path (Join [target; name]) = mkPath true D /\
    Forall plain D /\ T `prefix_of` D.
Proof.
  set (p := resolve (mkPath true T) name). assert (Hc : clean (mkPath true T)) by by apply plain_rooted, target_plain.
  assert (Hp : clean p) by by apply resolve_clean. unfold inside. rewrite Join_two by apply target_ne. rewrite target_names. fold p.
  replace (Clean (render p)) with (render p) by (unfold Clean; by rewrite parse_render).
  replace (Clean target) with (render (mkPath true T)) by (unfold Clean; by rewrite target_names).
  intros H. exists (p_names p). split; [done|]. split; [by rewrite parse_render|]. split; [by apply plain_rooted|].
  apply orb_true_iff in H as [H|H].
  - apply has_prefix_below in H as (_ & e & rest & ->); [|done..]. by eexists.
  - apply String.eqb_eq, render_inj in H; [|done..]. by rewrite H.
Qed.
Lemma extract_entry_spec now f e f' r :
  fs_ok f -> extract_entry now target f e = (f', r) -> fs_ok f' /\ stays T f f'.
Proof.
  intros Hf. unfold extract_entry. destruct (inside target (Join [target; z_Name e])) eqn:Ei; cbn [negb].
  2:{ by intros [= <- <-]. }
  apply inside_names in Ei as (D & Er & Ep & HD & HT). assert (En : at_names (Join [target; z_Name e]) = D) by by unfold at_names; rewrite Ep.
  destruct (z_Dir e).
  - rewrite En. destruct (MkdirAll f D) as [f1 r1] eqn:Em. apply MkdirAll_spec in Em as (Hf1 & Hg & _); [|done..].
    assert (Hs : stays T f f1) by (eapply grown_stays; [by left|done]). destruct r1; by intros [= <- <-].
  - destruct D as [|x ns _] using rev_ind; [by apply prefix_nil_inv in HT|].
    assert (Ed : at_names (Dir (Join [target; z_Name e])) = ns) by (unfold at_names; by rewrite Er, Dir_render).
    rewrite Ed. destruct (MkdirAll f ns) as [f1 r1] eqn:Em. apply MkdirAll_spec in Em as (Hf1 & Hg & _); [|done|by apply Forall_app in HD as [? _]].
    assert (Hs : stays T f f1).
    { eapply grown_stays; [|done]. apply (prefix_weak_total T ns (ns ++ [x])); [done|by apply prefix_app_r]. }
    destruct r1 as [err|]; [by intros [= <- <-]|]. intros E. apply (extract_file_spec _ _ _ _ _ _ T) in E as [? ?]; [|done|by rewrite En..].
    split; [done|]. by etrans.
Qed.
Lemma extract_all_spec now entries : forall f f' r,
  fs_ok f -> extract_all now target f entries = (f', r) -> fs_ok f' /\ stays T f f'.
Proof.
  induction entries as [|e entries IH]; intros f f' r Hf; cbn [extract_all]; [by intros [= <- <-]|].
  destruct (extract_entry now target f e) as [f1 r1] eqn:E. apply extract_entry_spec in E as [Hf1 Hs1]; [|done].
  destruct r1 as [u|err]; [|by intros [= <- <-]]. intros E. apply IH in E as [? ?]; [|done]. split; [done|]. by etrans.
Qed.

(** *** Archives of files *)

(** The files of an archive: relative paths of plain names, of which none leads through
    another. *)
Definition file_list : Type := list (list string * string).
Definition archive_of (files : file_list) : list zentry := map (fun e => mkEntry (join "/" e.1) false (Content e.2)) files.
Definition apart (files : file_list) : Prop :=
  NoDup (map fst files) /\ Forall (fun r => r <> [] /\ Forall plain r) (map fst files) /\
  forall r r', r ∈ map fst files -> r' ∈ map fst files -> r `prefix_of` r' -> r = r'.
(** The folder holds these files, and the folders that lead to them. *)
Definition holds (now : Z) (f : fsys) (files : file_list) : Prop :=
  fs_ok f /\ node_at f T = Some Folder /\
  (forall r data t, f !! (T ++ r) = Some (Regular data t) <-> (r, data) ∈ files /\ t = now) /\
  (forall r, r <> [] -> f !! (T ++ r) = Some Folder -> exists x n b, x ∈ map fst files /\ x = r ++ n :: b).

Lemma plain_join r : r <> [] -> Forall plain r -> split "/" (join "/" r) = r.
Proof. intros Hne H. apply (split_join "/"); [done|]. eapply Forall_impl; [exact H|]. by intros e (_ & _ & _ & ?). Qed.
Lemma dest_of r : r <> [] -> Forall plain r -> Join [target; join "/" r] = render (mkPath true (T ++ r)).
Proof.
  intros Hne H. rewrite Join_two, target_names by apply target_ne. by rewrite resolve_plain; rewrite plain_join.
Qed.
Lemma dest_inside r : r <> [] -> Forall plain r -> inside target (render (mkPath true (T ++ r))) = true.
Proof.
  intros Hne H. assert (Hc : forall l, Forall plain l -> clean (mkPath true l)) by by intros l ?; apply plain_rooted.
  assert (HTr : Forall plain (T ++ r)) by (apply Forall_app; split; [apply target_plain|done]).
  unfold inside. replace (Clean (render (mkPath true (T ++ r)))) with (render (mkPath true (T ++ r)))
    by (unfold Clean; by rewrite parse_render by by apply Hc). unfold Clean. rewrite target_names. apply orb_true_iff. left.
  apply has_prefix_below; [by apply Hc|apply Hc, target_plain|done|]. split; [done|]. destruct r as [|e r]; [done|]. by exists e, r.
Qed.

(** A new file, [ns ++ [x]], next to the others. *)
Section OneMore.
Context (now : Z) (f : fsys) (files : file_list) (ns : list string) (x data : string).
Context (Hh : holds now f files) (Ha : apart (files ++ [(ns ++ [x], data)])).

Lemma more_plain : Forall plain (T ++ ns ++ [x]).
Proof.
  apply Forall_app. split; [apply target_plain|]. destruct Ha as (_ & Hpl & _). rewrite Forall_forall in Hpl. apply Hpl.
  rewrite map_app. apply elem_of_app. right. by left.
Qed.
Lemma more_new : ns ++ [x] ∉ map fst files.
Proof. destruct Ha as (Hnd & _). rewrite map_app in Hnd. intros Hx. apply NoDup_app in Hnd as (_ & Hnd & _). apply (Hnd _ Hx). by left. Qed.
Lemma more_apart r : r ∈ map fst files -> ~ r `prefix_of` ns ++ [x] /\ ~ ns ++ [x] `prefix_of` r.
Proof.
  intros Hr. destruct Ha as (_ & _ & Hap). rewrite map_app in Hap.
  assert (Hin : r ∈ map fst files ++ [ns ++ [x]]) by (apply elem_of_app; by left).
  assert (Hlast : ns ++ [x] ∈ map fst files ++ [ns ++ [x]]) by (apply elem_of_app; right; by left).
  split; intros Hp; apply more_new; [rewrite <- (Hap _ _ Hin Hlast Hp)|rewrite (Hap _ _ Hlast Hin Hp)]; done.
Qed.
Lemma more_way k d t : k `prefix_of` T ++ ns -> f !! k <> Some (Regular d t).
Proof.
  destruct Hh as (Hf & HT & Hreg & _). intros Hk Hkf. destruct (prefix_weak_total k T (T ++ ns)) as [HkT|[a ->]]; [done|by apply prefix_app_r| |].
  - apply (on_the_way f T k Hf HT) in HkT. unfold node_at in HkT. destruct k; [|congruence]. destruct Hf as [H0 _]. congruence.
  - apply Hreg in Hkf as [Hkf _]. apply prefix_app_inv in Hk. apply (proj1 (more_apart a ltac:(apply list_elem_of_fmap; by exists (a, d)))).
    destruct Hk as (b & ->). exists (b ++ [x]). by rewrite app_assoc.
Qed.
Lemma more_file f1 : grown (T ++ ns) f f1 -> f1 !! (T ++ ns ++ [x]) <> Some Folder.
Proof.
  destruct Hh as (_ & _ & _ & Hdir). intros Hg E. destruct (Hg (T ++ ns ++ [x])) as [Eq|(_ & _ & Hpre)].
  - rewrite Eq in E. apply Hdir in E as (y & n & b & Hy & ->); [|by destruct ns]. apply (proj2 (more_apart _ Hy)). by eexists.
  - apply prefix_length in Hpre. rewrite !length_app in Hpre. simpl in Hpre. lia.
Qed.
Lemma more_holds f1 : fs_ok f1 -> grown (T ++ ns) f f1 -> node_at f1 (T ++ ns) = Some Folder ->
  holds now (<[T ++ ns ++ [x] := Regular data now]> f1) (files ++ [(ns ++ [x], data)]).
Proof.
  intros Hf1 Hg Hp. assert (Hnf := more_file f1 Hg). destruct Hh as (Hf & HT & Hreg & Hdir). split; [|split; [|split]].
  - rewrite app_assoc in *. apply insert_ok; [done|rewrite <- app_assoc; apply more_plain|done|].
    by destruct (f1 !! ((T ++ ns) ++ [x])) as [[]|].
  - unfold node_at in *. destruct T as [|y T0] eqn:ET; [done|]. rewrite lookup_insert_ne.
    + destruct (Hg (y :: T0)) as [->|(E & _)]; [done|congruence].
    + intros E. apply (f_equal length) in E. rewrite !length_app in E. simpl in E. lia.
  - intros r d t. rewrite elem_of_app, list_elem_of_singleton. destruct (decide (r = ns ++ [x])) as [->|Hr].
    + rewrite lookup_insert_eq. split; [by intros [= -> ->]; auto|]. intros [[Hin|[= ->]] ->]; [|done]. destruct more_new.
      apply list_elem_of_fmap. by exists (ns ++ [x], d).
    + rewrite lookup_insert_ne by by intros E%app_inv_head. destruct (Hg (T ++ r)) as [->|(E & E' & _)].
      * rewrite Hreg. split; [by intros [? ->]; auto|]. intros [[?|[= ? _]] ->]; done.
      * rewrite E'. split; [done|]. intros [[Hin|[= ? _]] ->]; [|done]. assert (Hc : f !! (T ++ r) = Some (Regular d now)) by by apply Hreg. congruence.
  - intros r Hne. rewrite map_app. destruct (decide (r = ns ++ [x])) as [->|Hr]; [by rewrite lookup_insert_eq|].
    rewrite lookup_insert_ne by by intros E%app_inv_head. intros E. destruct (Hg (T ++ r)) as [Eq|(_ & _ & Hpre)].
    + rewrite Eq in E. apply Hdir in E as (y & n & b & Hy & ->); [|done]. eexists _, _, _. split; [|reflexivity]. apply elem_of_app. by left.
    + apply prefix_app_inv in Hpre as (b & ->). destruct b as [|n b].
      * exists (r ++ [x]), x, []. rewrite app_nil_r. split; [|done]. apply elem_of_app. right. by left.
      * exists ((r ++ n :: b) ++ [x]), n, (b ++ [x]). split; [|by rewrite <- app_assoc]. apply elem_of_app. right. by left.
Qed.
Lemma extract_one : exists f', extract_entry now target f (mkEntry (join "/" (ns ++ [x])) false (Content data)) = (f', Ok tt) /\
  holds now f' (files ++ [(ns ++ [x], data)]).
Proof.
  assert (HTr := more_plain). assert (Hpl : Forall plain (ns ++ [x])) by by apply Forall_app in HTr as [_ ?].
  assert (Hne : ns ++ [x] <> []) by by destruct ns. destruct Hh as (Hf & _).
  unfold extract_entry. cbn [z_Name z_Dir z_Content]. rewrite dest_of, dest_inside by done. cbn [negb].
  assert (Ed : at_names (Dir (render (mkPath true (T ++ ns ++ [x])))) = T ++ ns).
  { unfold at_names. rewrite app_assoc in *. by rewrite Dir_render. }
  rewrite Ed. assert (HTn : Forall plain (T ++ ns)) by (rewrite app_assoc in HTr; by apply Forall_app in HTr as [? _]).
  destruct (mkdirs_result f (T ++ ns) Hf HTn more_way) as (f1 & -> & Hf1 & Hg & Hp1).
  assert (Hat : at_names (render (mkPath true (T ++ ns ++ [x]))) = T ++ ns ++ [x]).
  { unfold at_names. rewrite parse_render; [done|by apply plain_rooted]. }
  assert (Hnf := more_file f1 Hg). unfold extract_file. cbn [extract_texts]. rewrite Hat. unfold create_file.
  rewrite app_assoc, removelast_last, (proj2 (stat_inl f1 (T ++ ns) Folder Hf1) Hp1), <- app_assoc.
  eexists. split; [|by apply more_holds]. destruct (stat f1 (T ++ ns ++ [x])) as [[|d0 t0]|err] eqn:Es.
  - apply stat_inl in Es; [|done]. rewrite app_assoc, node_at_cons, <- app_assoc in Es. done.
  - unfold write_file. by rewrite insert_insert_eq.
  - unfold write_file. by rewrite insert_insert_eq.
Qed.
End OneMore.

Lemma apart_app l1 l2 : apart (l1 ++ l2) -> apart l1.
Proof.
  unfold apart. rewrite map_app. intros (Hnd & Hpl & Hap). apply NoDup_app in Hnd as (Hnd & _). apply Forall_app in Hpl as [Hpl _].
  split; [done|]. split; [done|]. intros r r' Hr Hr'. apply Hap; apply elem_of_app; by left.
Qed.
(** The archive of files that lie apart is extracted, to these files. *)
Lemma extract_files now files f : forall done, holds now f done -> apart (done ++ files) ->
  exists f', extract_all now target f (archive_of files) = (f', Ok tt) /\ holds now f' (done ++ files).
Proof.
  revert f. induction files as [|[r data] files IH]; intros f dn Hh Ha; cbn [archive_of map extract_all fst snd].
  { exists f. rewrite app_nil_r. done. }
  replace (dn ++ (r, data) :: files) with ((dn ++ [(r, data)]) ++ files) in * by by rewrite <- app_assoc.
  assert (Ha1 := apart_app _ _ Ha). assert (Hne : r <> []).
  { destruct Ha1 as (_ & Hpl & _). rewrite Forall_forall in Hpl. apply Hpl. rewrite map_app. apply elem_of_app. right. by left. }
  destruct (exists_last Hne) as (ns & x & ->). destruct (extract_one now f dn ns x data Hh Ha1) as (f1 & -> & Hh1).
  by apply IH.
Qed.
(** Whatever an archive contains, its extraction - whether it succeeds or fails - leaves
    everything outside of the folder it is extracted to as it was; only folders on the way
    to that folder may be made. *)
Lemma ExtractArchive_stays now f archive f' r :
  fs_ok f -> ExtractArchive now f archive target = (f', r) -> fs_ok f' /\ stays T f f'.
Proof.
  intros Hf. unfold ExtractArchive. destruct archive as [entries|e]; [|by intros [= <- <-]].
  unfold at_names. rewrite target_names. cbn [p_names]. destruct (MkdirAll f T) as [f1 r1] eqn:Em.
  apply MkdirAll_spec in Em as (Hf1 & Hg & _); [|done|apply target_plain].
  assert (Hs : stays T f f1) by (eapply grown_stays; [by left|done]). destruct r1 as [err|]; [by intros [= <- <-]|].
  intros E. apply extract_all_spec in E as [? ?]; [|done]. split; [done|]. by etrans.
Qed.
End Extraction.

(** ** Folders and their datapacks *)

Section Folders.
Context (basePath : string).
#[local] Abbreviation root := (at_names basePath).

(** The base path starts at the root. *)
Context (rooted : p_rooted (parse_path basePath) = true).

Lemma base_ne : basePath <> "".
Proof. intros E. by rewrite E in rooted. Qed.
Lemma base_plain : Forall plain root.
Proof. apply plain_rooted. rewrite <- rooted. apply parse_clean. Qed.

(** A name that is one element of a path has its own folder. *)
Lemma RootDir_names name : plain name -> parse_path (RootDir basePath name) = mkPath true (root ++ [name]).
Proof. intros H. unfold RootDir. rewrite parse_Join by apply base_ne. by rewrite resolve_name, rooted. Qed.
Lemma RootDir_text name : plain name -> RootDir basePath name = render (mkPath true (root ++ [name])).
Proof. intros H. unfold RootDir. rewrite Join_two by apply base_ne. by rewrite resolve_name, rooted. Qed.

Lemma folder_clean name : plain name -> clean (mkPath true (root ++ [name])).
Proof. intros H. apply plain_rooted, Forall_app. split; [apply base_plain|by apply Forall_singleton]. Qed.

Lemma RootDir_parse name : parse_path (RootDir basePath name) = mkPath true (p_names (resolve (parse_path basePath) name)).
Proof. unfold RootDir. rewrite parse_Join by apply base_ne. unfold resolve. by rewrite rooted. Qed.

(** A file that is handed out exists, is a regular file and lies under the path of the
    datapacks.  It lies in the folder of the datapack, or - the texts of the paths are
    compared, not their names - in a folder whose name goes on from the name of the
    datapack, and then the path that was asked for starts with a step up. *)
Theorem resolveFilePath_spec f name filePath full :
  fs_ok f -> plain name -> resolveFilePath basePath f name filePath = inl full ->
  exists x rest data t, f !! at_names full = Some (Regular data t) /\ at_names full = root ++ x :: rest /\
    Forall (fun e => str_contains e ".." = false) (x :: rest) /\
    (x = name \/ (has_prefix x name = true /\ exists up, p_names (parse_path filePath) = ".." :: up)).
Proof.
  intros Hf Hn. unfold resolveFilePath. rewrite (RootDir_text name) by done. set (wd := mkPath true (root ++ [name])).
  assert (Hwd : clean wd) by by apply folder_clean. destruct (IsAllowedPath basePath (render wd)); [|done].
  assert (Hwne : render wd <> "") by (unfold wd, render; simpl; destruct (root ++ [name]); discriminate).
  rewrite Join_two, parse_render by done. set (p := resolve wd (Clean filePath)). assert (Hp : clean p) by by apply resolve_clean.
  destruct (has_prefix (render p) (render wd)) eqn:Epre; [|done]. destruct (IsAllowedPath basePath (render p)) eqn:Eal; [|done].
  cbn [negb]. destruct (stat f (at_names (render p))) as [[|data t]|[]] eqn:Es; [done| |done..]. intros [= <-].
  apply IsAllowedPath_inside in Eal as (Hr & rest & En & Hdots); [|done]. unfold at_names in *. rewrite parse_render in * by done.
  apply (has_prefix_sibling p wd root name) in Epre as (_ & h & rest' & En'); [|done..].
  rewrite En' in En. apply app_inv_head in En as <-. exists (name +:+ h), rest', data, t.
  assert (Hne : p_names p <> []) by (rewrite En'; by destruct root).
  split; [apply stat_inl in Es; [|done]; unfold node_at in Es; by destruct (p_names p)|]. split; [done|]. split; [done|].
  destruct (parse_clean filePath) as (n & names & Efp & Hpl & _). destruct n as [|n].
  - left. simpl in Efp. subst p. rewrite (resolve_Clean wd filePath names) in En'; [|by rewrite <- Efp|done].
    simpl in En'. rewrite <- app_assoc in En'. apply app_inv_head in En'. by injection En'.
  - right. split; [apply has_prefix_spec; by exists h|]. exists (replicate n ".." ++ names). by rewrite Efp.
Qed.

(** *** Uploads *)

Context (parse_truths : string -> option (list Groundtruth * list Groundtruth)).
Context (labels_json : string -> res (list LabelItem)) (groundtruths_json : string -> res (list Groundtruth)).
Context (order : gmap string LabelItem -> list (string * LabelItem)) (Horder : forall m, order m ≡ₚ map_to_list m).
Context (read_zip : string -> res (list zentry)).
#[local] Abbreviation upload_datapack := (UploadDatapack basePath parse_truths labels_json groundtruths_json order read_zip).

Lemma injection_defaults_fields r :
  fi_Name (injection_defaults r) = fi_Name r /\ fi_State (injection_defaults r) = fi_State r /\
  (fi_Status r <> 0 -> fi_Status (injection_defaults r) = fi_Status r).
Proof.
  unfold injection_defaults. destruct (String.eqb (fi_GroundtruthSource r) ""); cbn; (split; [done|]); (split; [done|]); intros H;
    by rewrite (proj2 (Z.eqb_neq _ _) H).
Qed.
Lemma create_uploaded_inl row labels d r d' :
  create_uploaded order row labels d = inl (r, d') ->
  r = fi_with_id (i_next_injection d) (injection_defaults row) /\ t_injections d' = t_injections d ++ [r].
Proof.
  intros (r1 & d1 & (-> & _ & ->)%create_inl & H)%tx_bind_inl. apply tx_bind_inl in H as (u & d2 & Ha & [= <- <-]).
  apply attach_rows in Ha as [Ha _]; [|done]. split; [done|]. by rewrite Ha.
Qed.
Lemma create_uploaded_keeps row labels : tx_keeps idb_ok (create_uploaded order row labels).
Proof.
  intros d r d' Hd (r1 & d1 & H1 & H)%tx_bind_inl. assert (Hd1 := create_keeps _ _ _ _ Hd H1). apply create_inl in H1 as (-> & _ & ->).
  apply tx_bind_inl in H as (u & d2 & Ha & [= <- <-]). eapply (attach_keeps order Horder _ _ _ _ _ Hd1); [|exact Ha].
  cbn [t_injections]. rewrite map_app. apply elem_of_app. right. by left.
Qed.

(** C17. Uploading a datapack, with whatever archive.  When it fails, no row is written and
    no file is left: only folders on the way to the folder of the datapack may have been
    made.  When it succeeds, no enabled or disabled row had the name, the folder was not
    there, nothing outside of it is changed, and there is a row with a fresh identifier for
    a datapack that is built. *)
Theorem UploadDatapack_spec now req upload f d r f' d' :
  fs_ok f -> idb_ok d -> upload_datapack now req upload (f, d) = (r, (f', d')) ->
  let T := at_names (RootDir basePath (up_Name req)) in
  fs_ok f' /\ idb_ok d' /\
  match r with
  | inr _ => d' = d /\ grown T f f'
  | inl (id, name) =>
      name = up_Name req /\ id = i_next_injection d /\ Forall (fun x => fi_Name x = name -> live x = false) (t_injections d) /\
      node_at f T = None /\ stays T f f' /\
      exists row, t_injections d' = t_injections d ++ [row] /\ fi_ID row = id /\ fi_Name row = name /\
        fi_State row = DatapackBuildSuccess /\ live row = true
  end.
Proof.
  intros Hf Hd E T.
  match goal with |- ?G => assert (Hno : forall e, (inr e, (f, d)) = (r, (f', d')) -> G) end.
  { intros e [= <- <- <-]. split; [done|]. split; [done|]. split; [done|apply grown_refl]. }
  unfold UploadDatapack in E. destruct (ParseLabels labels_json req) as [labels|e]; [|by eapply Hno].
  destruct (ParseGroundtruths groundtruths_json req) as [given|e]; [|by eapply Hno].
  destruct (findInjectionByName (up_Name req) d) as [x|e] eqn:Efind; [by eapply Hno|].
  destruct upload as [bytes|e']; [|by eapply Hno]. destruct (ValidateArchive (read_zip bytes)) as [u|e']; [|by eapply Hno].
  unfold EnsureDatapackDirAvailable in E. destruct (String.eqb basePath ""); [by eapply Hno|].
  fold T in E. destruct (stat f T) as [c|err] eqn:Es; [by eapply Hno|].
  assert (HTn : node_at f T = None) by (apply stat_inr; [done|by exists err]).
  assert (HT : T <> []) by (intros HT; by rewrite HT in HTn).
  destruct (ExtractArchive now f (read_zip bytes) (RootDir basePath (up_Name req))) as [f1 r1] eqn:Ex.
  apply (ExtractArchive_stays _ T) in Ex as [Hf1 Hs]; [|by unfold T, at_names; rewrite RootDir_parse|done..].
  assert (Hrem : fs_ok (remove_all f1 T) /\ grown T f (remove_all f1 T)).
  { split; [by apply remove_all_ok|by apply removed_grown]. }
  destruct r1 as [u1|e1]; [|injection E as <- <- <-; by split_and!; try apply Hrem].
  unfold transaction in E. destruct (create_uploaded _ _ _ d) as [[row d1]|e1] eqn:Ec.
  2:{ injection E as <- <- <-. by split_and!; try apply Hrem. }
  injection E as <- <- <-. assert (Hd1 := create_uploaded_keeps _ _ _ _ _ Hd Ec). apply create_uploaded_inl in Ec as [-> Hrows].
  set (row := uploaded_row req _) in *. destruct (injection_defaults_fields row) as (En & Est & Eus).
  cbn [fi_ID fi_Name fi_State fi_with_id]. split; [done|]. split; [done|]. split; [done|]. split; [done|]. split.
  { apply Forall_forall. intros x Hx Hn. unfold findInjectionByName, tx_wrap, tx_on_err, tx_first in Efind.
    destruct (find _ (t_injections d)) as [y|] eqn:Ef; [done|]. eapply find_none in Ef; [|by apply list_elem_of_In].
    cbn [fi_with_id fi_Name] in Hn. rewrite Hn, En in Ef. unfold row in Ef. cbn [uploaded_row fi_Name] in Ef. by rewrite String.eqb_refl in Ef. }
  split; [done|]. split; [done|]. eexists. split; [exact Hrows|]. split; [done|]. split; [done|]. split; [done|].
  unfold live. cbn [fi_Status fi_with_id]. by rewrite Eus.
Qed.

(** *** Relative paths *)

Lemma Clean_join l : l <> [] -> Forall plain l -> Clean (join "/" l) = join "/" l.
Proof.
  intros Hne H. assert (Hc : clean (mkPath false l)) by by exists 0%nat, l. assert (E : join "/" l = render (mkPath false l)) by by destruct l.
  unfold Clean. rewrite E at 1. by rewrite parse_render.
Qed.
Lemma strip_self l r : strip_common l (l ++ r) = ([], r).
Proof. induction l as [|x l IH]; simpl; [by destruct r|]. by rewrite String.eqb_refl. Qed.
Lemma Rel_below ns r : Forall plain (ns ++ r) -> r <> [] -> Rel (render (mkPath true ns)) (render (mkPath true (ns ++ r))) = Ok (join "/" r).
Proof.
  intros H Hr. assert (Hc : clean (mkPath true (ns ++ r))) by by apply plain_rooted.
  assert (Hc' : clean (mkPath true ns)) by (apply plain_rooted; by apply Forall_app in H as [? _]).
  unfold Rel, Clean. rewrite !parse_render by done. destruct (String.eqb_spec (render (mkPath true (ns ++ r))) (render (mkPath true ns))) as [E|_].
  - apply render_inj in E; [|done..]. injection E as E. apply (f_equal length) in E. rewrite length_app in E. destruct r; [done|]. simpl in E. lia.
  - cbn [p_rooted p_names Bool.eqb negb]. by rewrite strip_self.
Qed.
Lemma entry_path_names r : forall ns, Forall plain (ns ++ r) -> entry_path (render (mkPath true ns)) r = render (mkPath true (ns ++ r)).
Proof.
  induction r as [|x r IH]; intros ns H; [by rewrite app_nil_r|]. unfold entry_path. cbn [fold_left].
  assert (Hc : clean (mkPath true ns)) by (apply plain_rooted; by apply Forall_app in H as [? _]).
  rewrite Join_two by done. rewrite parse_render by done. assert (Hx : plain x) by (apply Forall_app in H as [_ H]; by apply Forall_cons in H as [? _]).
  rewrite resolve_name by done. cbn [p_rooted p_names]. specialize (IH (ns ++ [x])). rewrite <- app_assoc in IH. by apply IH.
Qed.
Lemma zip_name_of name r : plain name -> Forall plain r -> r <> [] ->
  zip_name (render (mkPath true (root ++ [name]))) r = join "/" (DownloadFilename :: name :: r).
Proof.
  intros Hn Hr Hne. assert (Hall : Forall plain ((root ++ [name]) ++ r)).
  { apply Forall_app. split; [|done]. apply Forall_app. split; [apply base_plain|by apply Forall_singleton]. }
  unfold zip_name. rewrite entry_path_names, Rel_below, Base_render by done. cbn [Join]. cbn [String.eqb DownloadFilename].
  rewrite <- (Clean_join (DownloadFilename :: name :: r)); [|done|].
  - f_equal. destruct r as [|y r]; [done|]. reflexivity.
  - apply Forall_cons. split; [by apply (bool_decide_unpack (plain DownloadFilename))|]. by apply Forall_cons.
Qed.
Lemma allowed_folder name : plain name -> str_contains name ".." = false -> IsAllowedPath basePath (render (mkPath true (root ++ [name]))) = true.
Proof.
  intros Hn Hd. assert (Hall : Forall plain (root ++ [name])) by (apply Forall_app; split; [apply base_plain|by apply Forall_singleton]).
  assert (E : parse_path basePath = mkPath true root) by (unfold at_names; rewrite <- rooted; by case (parse_path basePath)).
  unfold IsAllowedPath. assert (Hrel : Rel basePath (render (mkPath true (root ++ [name]))) = Rel (render (mkPath true root)) (render (mkPath true (root ++ [name])))).
  { unfold Rel, Clean. rewrite E, !parse_render by (apply plain_rooted; done || apply base_plain).
    destruct (String.eqb _ _); [done|]. cbn [p_rooted p_names Bool.eqb negb]. by rewrite strip_self. }
  rewrite Hrel, Rel_below by done. cbn [join]. by rewrite Hd.
Qed.

(** *** What is listed *)

Fixpoint tree_files (i : DatapackFileItem) : list (string * Z) :=
  let 'mkFileItem _ path _ t children := i in
  match t with Some t => [(path, t)] | None => concat (map tree_files children) end.
Fixpoint tree_folders (i : DatapackFileItem) : list string :=
  let 'mkFileItem _ path _ t children := i in
  match t with Some _ => [] | None => path :: concat (map tree_folders children) end.
Definition listed_as (items : list DatapackFileItem) (n n' : counts) (files : list (list string * (string * Z))) : Prop :=
  concat (map tree_files items) = map (fun e => (join "/" e.1, e.2.2)) files /\
  n'.1 = n.1 + Z.of_nat (length files) /\ n'.2 = n.2 + Z.of_nat (length (concat (map tree_folders items))).

Section Tree.
Context (f : fsys) (wd : string) (T : list string) (Hf : fs_ok f) (Hwd : parse_path wd = mkPath true T).

Lemma rel_Join rel name : Forall plain rel -> plain name -> Join [join "/" rel; name] = join "/" (rel ++ [name]).
Proof.
  intros Hrel Hn. assert (Hall : Forall plain (rel ++ [name])) by (apply Forall_app; split; [done|by apply Forall_singleton]).
  rewrite <- (Clean_join (rel ++ [name])); [|by destruct rel|done]. destruct rel as [|x rel].
  - cbn [join Join]. assert (Hne : name <> "") by apply Hn. by rewrite (proj2 (String.eqb_neq _ _) Hne).
  - rewrite join_app by done. cbn [Join]. destruct (String.eqb_spec (join "/" (x :: rel)) "") as [E|_]; [|done].
    exfalso. apply Forall_cons in Hrel as [(Hx & _) _]. destruct rel; cbn [join] in E; [done|]. by destruct x.
Qed.
Lemma current_names rel : Forall plain rel -> at_names (Join [wd; join "/" rel]) = T ++ rel.
Proof.
  intros Hrel. assert (Hne : wd <> "") by (intros E; by rewrite E in Hwd). unfold at_names. rewrite parse_Join, Hwd by done.
  destruct rel as [|x rel].
  - cbn. by rewrite rev_involutive, app_nil_r.
  - by rewrite resolve_plain; rewrite plain_join.
Qed.

Lemma build_items_spec fuel rel :
  Forall plain rel -> (forall n, Forall plain (rel ++ [n]) -> node_at f (T ++ rel ++ [n]) = Some Folder -> forall c,
    exists items c', buildFileTree fuel f wd (join "/" (rel ++ [n])) c = Ok (items, c') /\
      listed_as items c c' (walk_files fuel f (T ++ rel ++ [n]) (rel ++ [n]))) ->
  forall entries c, (forall n nd, (n, nd) ∈ entries -> f !! (T ++ rel ++ [n]) = Some nd) ->
  exists items c', build_items (buildFileTree fuel f wd) (join "/" rel) entries c = Ok (items, c') /\
    listed_as items c c' (concat (map (fun '(n, c) => match c with
        | Folder => walk_files fuel f ((T ++ rel) ++ [n]) (rel ++ [n])
        | Regular data t => [(rel ++ [n], (data, t))] end) entries)).
Proof.
  intros Hrel Hsub entries. induction entries as [|[name nd] entries IH]; intros c Hin; cbn [build_items map concat].
  { exists [], c. split; [done|]. split; [done|]. simpl. lia. }
  assert (Hnd : f !! (T ++ rel ++ [name]) = Some nd) by (apply Hin; by left).
  assert (Hn : Forall plain (rel ++ [name])) by (destruct Hf as (_ & _ & Hp); specialize (Hp _ _ Hnd); by apply Forall_app in Hp as [_ ?]).
  rewrite rel_Join by (done || by apply Forall_app in Hn as [_ Hn]; apply Forall_cons in Hn as [? _]).
  assert (IH' : forall c, exists items c', build_items (buildFileTree fuel f wd) (join "/" rel) entries c = Ok (items, c') /\ listed_as items c c' _)
    by (intros c1; apply (IH c1); intros n nd' Hn'; apply Hin; by right).
  destruct nd as [|data t].
  - destruct (Hsub name Hn) with (c := c) as (kids & [cf cd] & -> & Hk & Hc1 & Hc2); [by rewrite app_assoc in *; rewrite node_at_cons|].
    cbn [res_bind]. destruct (IH' (cf, cd + 1)) as (items & c' & -> & Hi & Hd1 & Hd2). cbn [res_bind]. eexists _, c'. split; [reflexivity|].
    rewrite <- app_assoc. cbn [fst snd] in *. split; [|split].
    + cbn [map concat tree_files]. by rewrite Hk, Hi, map_app.
    + rewrite Hd1, Hc1, length_app. lia.
    + cbn [map concat tree_folders]. rewrite Hd2, Hc2. cbn [app length]. rewrite length_app. lia.
  - cbn [res_bind]. destruct (IH' (c.1 + 1, c.2)) as (items & c' & -> & Hi & Hd1 & Hd2). cbn [res_bind]. eexists _, c'. split; [reflexivity|].
    cbn [fst snd] in *. split; [|split].
    + cbn [map concat tree_files app]. by rewrite Hi.
    + rewrite Hd1. cbn [app length]. lia.
    + rewrite Hd2. done.
Qed.
Lemma tree_spec fuel : forall rel c, Forall plain rel -> node_at f (T ++ rel) = Some Folder ->
  (forall r, is_Some (f !! (T ++ rel ++ r)) -> (length r < fuel)%nat) -> (0 < fuel)%nat ->
  exists items c', buildFileTree fuel f wd (join "/" rel) c = Ok (items, c') /\ listed_as items c c' (walk_files fuel f (T ++ rel) rel).
Proof.
  induction fuel as [|fuel IH]; intros rel c Hrel Hn Hfuel Hpos; [lia|]. cbn [buildFileTree walk_files].
  rewrite current_names, (proj2 (stat_inl f _ _ Hf) Hn) by done. apply build_items_spec; [done| |].
  - intros n Hp Hnd c1. apply IH; [done|done| |].
    + intros r Hr. rewrite <- app_assoc in Hr. apply Hfuel in Hr. simpl in Hr. lia.
    + rewrite app_assoc, node_at_cons, <- app_assoc in Hnd. assert (H := Hfuel [n] ltac:(by eexists)). simpl in H. lia.
  - intros n nd Hin%read_dir_in. by rewrite <- app_assoc in Hin.
Qed.
End Tree.

(** The tree of the files of a datapack shows what its package contains: when the folder
    is there, the files of the tree are those the walk of the package visits, in its order
    and under their paths, the first count is their number and the second that of the
    folders shown.  When it is not there, there is an error. *)
Theorem BuildFileTree_spec f name datapackID :
  fs_ok f -> plain name -> str_contains name ".." = false ->
  match node_at f (root ++ [name]) with
  | Some Folder => exists resp files, BuildFileTree basePath f name datapackID = Ok resp /\ WalkDir f (root ++ [name]) = inl files /\
      listed_as (dfr_Files resp) (0, 0) (dfr_FileCount resp, dfr_DirCount resp) files
  | _ => exists e, BuildFileTree basePath f name datapackID = Err e
  end.
Proof.
  intros Hf Hn Hd. unfold BuildFileTree, allowed_dir. rewrite RootDir_text, allowed_folder by done. cbn [require res_bind].
  assert (Hp : parse_path (render (mkPath true (root ++ [name]))) = mkPath true (root ++ [name])) by by apply parse_render, folder_clean.
  assert (Hat : at_names (render (mkPath true (root ++ [name]))) = root ++ [name]) by (unfold at_names at 1; by rewrite Hp).
  rewrite Hat. destruct (node_at f (root ++ [name])) as [[|data t]|] eqn:En.
  - rewrite (proj2 (stat_inl f _ _ Hf) En). cbn [not_exist negb require res_bind].
    destruct (tree_spec f _ (root ++ [name]) Hf Hp (Datatypes.S (depth f)) [] (0, 0)) as (items & [a b] & E & Hl);
      [constructor|by rewrite app_nil_r| |lia|].
    { intros r (c & Hr). apply depth_bound in Hr. rewrite !length_app in Hr. simpl in Hr. lia. }
    change (join "/" []) with "" in E. rewrite E. cbn [res_bind]. rewrite app_nil_r in Hl. eexists _, _. split; [reflexivity|].
    split; [|exact Hl]. unfold WalkDir. by rewrite (proj2 (stat_inl f _ _ Hf) En).
  - rewrite (proj2 (stat_inl f _ _ Hf) En). cbn [not_exist negb require res_bind buildFileTree].
    assert (Hc := current_names _ (root ++ [name]) Hp [] ltac:(constructor)). change (join "/" []) with "" in Hc. rewrite Hc, app_nil_r.
    rewrite (proj2 (stat_inl f _ _ Hf) En). by eexists.
  - destruct (proj2 (stat_inr f _ Hf) En) as (e & Es). rewrite Es. destruct e; cbn [not_exist negb require res_bind buildFileTree]; [by eexists|..];
      assert (Hc := current_names _ (root ++ [name]) Hp [] ltac:(constructor)); change (join "/" []) with "" in Hc; rewrite Hc, app_nil_r, Es; by eexists.
Qed.

(** *** What is packaged *)


(** The package of a folder that holds these files. *)
Lemma package_held now f w name files :
  plain name -> str_contains name ".." = false -> holds (root ++ [name]) now f files -> apart files ->
  exists l, Package basePath f w name [] = (w ++ map (fun e => mkEntry (join "/" (DownloadFilename :: name :: e.1)) false (Content e.2)) l, Ok tt) /\
    l ≡ₚ files.
Proof.
  intros Hn Hd (Hf & HT & Hreg & _) (Hnd & Hpl & _). unfold Package, allowed_dir. rewrite RootDir_text, allowed_folder by done. cbn [require].
  unfold packageDatapackDirectoryToZip, package_directory.
  assert (Hat : at_names (render (mkPath true (root ++ [name]))) = root ++ [name]).
  { unfold at_names at 1. rewrite parse_render by by apply folder_clean. done. }
  rewrite Hat. destruct (WalkDir_folder f (root ++ [name]) Hf HT) as (walked & -> & Hndw & Hw).
  exists (map (fun e => (e.1, e.2.1)) walked). split.
  - f_equal. assert (Hok : Forall (fun e => e.1 <> [] /\ Forall plain e.1) walked).
    { apply Forall_forall. intros [r [data t]] H. apply Hw in H as [Hne [H _]%Hreg]. split; [done|].
      rewrite Forall_forall in Hpl. apply Hpl, list_elem_of_fmap. by exists (r, data). }
    clear Hw Hndw. revert w. induction Hok as [|[r [data t]] l [Hne Hr] _ IH]; intros w; [by rewrite app_nil_r|]. cbn [fold_left map fst snd].
    unfold add_walked at 2, excluded. cbn [existsb fst snd]. unfold AddToZip. rewrite IH, zip_name_of by done. by rewrite <- app_assoc.
  - apply NoDup_Permutation.
    + clear -Hndw. induction walked as [|[r [data t]] l IH]; [constructor|]. cbn [map fst snd] in *. apply NoDup_cons in Hndw as [Hx H].
      apply NoDup_cons. split; [|by apply IH]. intros ([r' [d t']] & [= -> _] & Hin)%list_elem_of_fmap. apply Hx, list_elem_of_fmap. by exists (r', (d, t')).
    + clear -Hnd. induction files as [|[r data] l IH]; [constructor|]. cbn [map fst] in *. apply NoDup_cons in Hnd as [Hx H].
      apply NoDup_cons. split; [|by apply IH]. intros Hin. apply Hx, list_elem_of_fmap. by exists (r, data).
    + intros [r data]. split.
      * intros ([r' [d t]] & [= -> ->] & Hin)%list_elem_of_fmap. apply Hw in Hin as [_ Hin]. by apply Hreg in Hin as [? _].
      * intros Hin. apply list_elem_of_fmap. exists (r, (data, now)). split; [done|]. apply Hw. split; [|by apply Hreg].
        rewrite Forall_forall in Hpl. apply Hpl, list_elem_of_fmap. by exists (r, data).
Qed.

(** C16. What is uploaded is downloaded, for a datapack whose name is one component of a
    path without two dots in a row, under a base path from the root: when it is uploaded
    from an archive of files that lie apart, the package that is downloaded afterwards has
    exactly these files with their contents, each under the name of the datapack.  Other
    names are stored and lost: see [dotted_name_is_lost] and [upload_escapes]. *)
Theorem uploaded_is_downloaded now req bytes files f d id name f' d' :
  fs_ok f -> idb_ok d -> plain (up_Name req) -> str_contains (up_Name req) ".." = false ->
  read_zip bytes = Ok (archive_of files) -> apart files ->
  upload_datapack now req (inl bytes) (f, d) = (inl (id, name), (f', d')) ->
  exists w, DownloadDatapack basePath f' d' [] [] id = inl w /\
    w ≡ₚ map (fun e => mkEntry (join "/" (DownloadFilename :: name :: e.1)) false (Content e.2)) files.
Proof.
  intros Hf Hd Hn Hdots Hzip Ha E. unfold UploadDatapack in E. destruct (ParseLabels labels_json req) as [labels|e]; [|done].
  destruct (ParseGroundtruths groundtruths_json req) as [given|e]; [|done]. destruct (findInjectionByName (up_Name req) d); [done|].
  rewrite Hzip in E. destruct (ValidateArchive _) as [u|e']; [|done]. unfold EnsureDatapackDirAvailable in E.
  destruct (String.eqb basePath ""); [done|]. assert (HT := RootDir_names _ Hn).
  assert (Hat : at_names (RootDir basePath (up_Name req)) = root ++ [up_Name req]) by (unfold at_names at 1; by rewrite HT).
  rewrite Hat in E. destruct (stat f (root ++ [up_Name req])) as [c|err] eqn:Es; [done|].
  assert (HTn : node_at f (root ++ [up_Name req]) = None) by (apply stat_inr; [done|by exists err]).
  unfold ExtractArchive in E. rewrite Hat in E. assert (HTp := folder_clean _ Hn). apply plain_rooted in HTp.
  destruct (MkdirAll f (root ++ [up_Name req])) as [f0 [e0|]] eqn:Em; [done|].
  apply MkdirAll_spec in Em as (Hf0 & Hg & Hp); [|done..]. specialize (Hp eq_refl).
  assert (Hempty : forall r, r <> [] -> f0 !! ((root ++ [up_Name req]) ++ r) = None).
  { intros r Hne. destruct (Hg ((root ++ [up_Name req]) ++ r)) as [->|(_ & _ & Hpre)].
    - destruct (f !! _) as [c|] eqn:Ec; [|done]. apply (prefix_folder f _ _ _ Hf) in Ec; [congruence|done].
    - apply prefix_length in Hpre. rewrite !length_app in Hpre. destruct r; [done|]. simpl in Hpre. lia. }
  assert (Hh : holds (root ++ [up_Name req]) now f0 []).
  { split; [done|]. split; [done|]. split.
    - intros r data t. split; [|by intros [?%not_elem_of_nil _]]. destruct r as [|y r]; [|by rewrite Hempty].
      rewrite app_nil_r. rewrite node_at_cons in Hp. by rewrite Hp.
    - intros r Hne. by rewrite Hempty. }
  assert (Hroot : root ++ [up_Name req] <> []) by by destruct root.
  destruct (extract_files (RootDir basePath (up_Name req)) (root ++ [up_Name req]) HT Hroot now files f0 [] Hh Ha) as (f1 & Hx & Hh1).
  rewrite Hx in E. unfold transaction in E. destruct (create_uploaded _ _ _ d) as [[row d1]|e1] eqn:Ec; [|done].
  injection E as <- <- <- <-. assert (Hd1 := create_uploaded_keeps _ _ _ _ _ Hd Ec). apply create_uploaded_inl in Ec as [-> Hrows].
  set (row := fi_with_id _ _) in *. destruct (injection_defaults_fields (uploaded_row req (upload_truths parse_truths f1 (RootDir basePath (up_Name req)) given))) as (En & Est & _).
  assert (Hrd : ready row = true) by (unfold ready, row; cbn [fi_State fi_with_id]; by rewrite Est).
  assert (Hready : getReadyDatapack (fi_ID row) d1 = inl (row, d1)).
  { unfold getReadyDatapack, ready_injection, known_as, loadInjection, tx_wrap, tx_on_err, tx_bind, tx_first.
    destruct (find (fun r => fi_ID r =? fi_ID row) (t_injections d1)) as [r|] eqn:Ef.
    - apply find_some in Ef as [Hin Hid%Z.eqb_eq]. assert (Er : r = row); [|by rewrite Er, Hrd].
      destruct (inj_ids _ Hd1) as [Hnd _]. eapply (nodup_map_inj fi_ID); [exact Hnd|by apply list_elem_of_In| |done].
      rewrite Hrows. apply elem_of_app. right. by left.
    - eapply find_none in Ef; [|rewrite Hrows; apply in_or_app; right; by left]. by rewrite Z.eqb_refl in Ef. }
  unfold DownloadDatapack, with_datapack. rewrite Hready. assert (Hname : fi_Name row = up_Name req) by (unfold row; cbn [fi_Name fi_with_id]; by rewrite En). rewrite !Hname.
  destruct (package_held now f1 [] (up_Name req) files Hn Hdots Hh1 Ha) as (l & -> & Hl). eexists. split; [reflexivity|].
  simpl. by rewrite Hl.
Qed.
End Folders.

(** ** Concrete files *)

Module StoreSample.
Definition base : string := "/ds".
Definition files0 : file_list := [(["normal_logs.parquet"], "n"); (["a"; "b.txt"], "hello"); (["a"; "c.log"], "x")].
Definition upload_request (name : string) : UploadDatapackReq := mkUpload name "by hand" "ts" "" "".
Definition f0 : fsys := <[["ds"] := Folder]> (<[["ds"; "ts-10"] := Folder]> (<[["ds"; "ts-10"; "secret.txt"] := Regular "s" 1]> ∅)).
Definition d0 : idb := InjectionSample.empty.
Definition uploaded (name : string) :=
  UploadDatapack base (fun _ => None) (fun _ => Ok []) (fun _ => Ok []) InjectionSample.order (fun _ => Ok (archive_of files0)) 7
    (upload_request name) (inl "zip") (f0, d0).
Definition f1 : fsys := (uploaded "ts-1").2.1.
Definition d1 : idb := (uploaded "ts-1").2.2.

Lemma base_rooted : p_rooted (parse_path base) = true.
Proof. reflexivity. Qed.
Lemma f0_ok : fs_ok f0.
Proof.
  assert (H0 : fs_ok ∅) by (split; [done|split; [by intros p n c ?%lookup_empty_Some|apply map_Forall_empty]]).
  unfold f0. rewrite (insert_insert_ne _ ["ds"] ["ds"; "ts-10"]), (insert_insert_ne _ ["ds"] ["ds"; "ts-10"; "secret.txt"]) by done.
  rewrite (insert_insert_ne _ ["ds"; "ts-10"] ["ds"; "ts-10"; "secret.txt"]) by done.
  apply (insert_ok _ ["ds"; "ts-10"] "secret.txt"); [apply (insert_ok _ ["ds"] "ts-10"); [apply (insert_ok _ [] "ds"); [done|..]|..]|..];
    by apply (bool_decide_unpack _).
Qed.
Lemma order0 m : InjectionSample.order m ≡ₚ map_to_list m.
Proof. done. Qed.
Lemma uploaded_id : (uploaded "ts-1").1 = inl (1, "ts-1").
Proof. vm_compute. reflexivity. Qed.
Lemma uploaded_pair : uploaded "ts-1" = (inl (1, "ts-1"), (f1, d1)).
Proof. rewrite <- uploaded_id. unfold f1, d1. by destruct (uploaded "ts-1") as [? []]. Qed.
Lemma UploadDatapack_spec_witness : fs_ok f1 /\ stays ["ds"; "ts-1"] f0 f1.
Proof.
  destruct (UploadDatapack_spec base base_rooted (fun _ => None) (fun _ => Ok []) (fun _ => Ok []) InjectionSample.order order0
    (fun _ => Ok (archive_of files0)) 7 (upload_request "ts-1") (inl "zip") f0 d0 (inl (1, "ts-1")) f1 d1 f0_ok InjectionSample.no_injections_ok uploaded_pair)
    as (H & _ & _ & _ & _ & _ & Hs & _). exact (conj H Hs).
Defined.
Definition extracted := ExtractArchive 7 f0 (Ok (archive_of files0)) "/ds/ts-1".
Definition f3 : fsys := extracted.1.
Lemma f3_ok : fs_ok f3.
Proof.
  by apply (ExtractArchive_stays "/ds/ts-1" ["ds"; "ts-1"] eq_refl ltac:(done) 7 f0 (Ok (archive_of files0)) f3 extracted.2 f0_ok), surjective_pairing.
Qed.

Lemma name_plain : plain "ts-1".
Proof. by apply (bool_decide_unpack _). Qed.
Lemma files_apart : apart files0.
Proof.
  split; [by apply (bool_decide_unpack _)|]. split; [by apply (bool_decide_unpack _)|]. intros r r' Hr Hr'. cbn in Hr, Hr'.
  repeat (apply elem_of_cons in Hr as [->|Hr]); repeat (apply elem_of_cons in Hr' as [->|Hr']);
    try (by apply not_elem_of_nil in Hr); try (by apply not_elem_of_nil in Hr'); intros [k E]; by inversion E.
Qed.
Definition download := DownloadDatapack base f1 d1 [] [] 1.
Lemma uploaded_is_downloaded_witness :
  match download with inl w => w ≡ₚ [mkEntry "package/ts-1/normal_logs.parquet" false (Content "n"); mkEntry "package/ts-1/a/b.txt" false (Content "hello");
                                     mkEntry "package/ts-1/a/c.log" false (Content "x")] | inr _ => False end.
Proof.
  destruct (uploaded_is_downloaded base base_rooted (fun _ => None) (fun _ => Ok []) (fun _ => Ok []) InjectionSample.order order0
    (fun _ => Ok (archive_of files0)) 7 (upload_request "ts-1") "zip" files0 f0 d0 1 "ts-1" f1 d1 f0_ok InjectionSample.no_injections_ok name_plain eq_refl eq_refl
    files_apart uploaded_pair) as (w & Hw & Hp). unfold download. rewrite Hw. exact Hp.
Defined.

(** The folder of another datapack is read through a name that goes on. *)
Definition sibling := resolveFilePath base f3 "ts-1" "../ts-10/secret.txt".
Example sibling_is_read : sibling = inl "/ds/ts-10/secret.txt".
Proof. vm_compute. reflexivity. Qed.
Lemma resolveFilePath_spec_witness : exists x rest, at_names "/ds/ts-10/secret.txt" = ["ds"] ++ x :: rest /\ has_prefix x "ts-1" = true.
Proof.
  destruct (resolveFilePath_spec base base_rooted f3 "ts-1" "../ts-10/secret.txt" "/ds/ts-10/secret.txt" f3_ok name_plain sibling_is_read)
    as (x & rest & data & t & _ & E & _ & Hx).
  exists x, rest. split; [exact E|]. destruct Hx as [->|[Hx _]]; [reflexivity|exact Hx].
Defined.
Example other_folder_is_not : resolveFilePath base f3 "ts-10" "../ts-1/a/b.txt" = inr (New "invalid file path: path traversal detected").
Proof. vm_compute. reflexivity. Qed.

(** A name with a step up is extracted outside of the base path. *)
Example upload_escapes : let '(r, (f, _)) := uploaded "../x" in (r, f !! ["x"; "a"; "b.txt"]) = (inl (1, "../x"), Some (Regular "hello" 7)).
Proof. vm_compute. reflexivity. Qed.
(** A name with two dots is stored and can never be downloaded. *)
Example dotted_name_is_lost : let '(r, (f, d)) := uploaded "v1..2" in
  (r, DownloadDatapack base f d [] [] 1) = (inl (1, "v1..2"), inr (New "failed to package injection to zip: invalid path access to /ds/v1..2")).
Proof. vm_compute. reflexivity. Qed.

Lemma tree_folder : node_at f3 (at_names base ++ ["ts-1"]) = Some Folder.
Proof. vm_compute. reflexivity. Qed.
Lemma BuildFileTree_spec_witness : exists resp, BuildFileTree base f3 "ts-1" 1 = Ok resp.
Proof.
  pose proof (BuildFileTree_spec base base_rooted f3 "ts-1" 1 f3_ok name_plain eq_refl) as H. rewrite tree_folder in H.
  destruct H as (resp & _ & E & _). exists resp. exact E.
Defined.
(** A folder without files in it is counted as a file of its parent. *)
Definition f2 : fsys := <[["ds"; "ts-1"; "a"; "empty"] := Folder]> f3.
Fixpoint tree_sizes (i : DatapackFileItem) : list (string * string) :=
  let 'mkFileItem _ path size _ children := i in (path, size) :: concat (map tree_sizes children).
Example empty_folder_is_a_file :
  res_map (fun resp => (concat (map tree_sizes (dfr_Files resp)), dfr_FileCount resp, dfr_DirCount resp)) (BuildFileTree base f2 "ts-1" 1)
  = Ok ([("a", "0 subfolders, 3 files"); ("a/b.txt", "0.0KB"); ("a/c.log", "0.0KB"); ("a/empty", "0 subfolders, 0 files"); ("normal_logs.parquet", "0.0KB")], 3, 2).
Proof. vm_compute. reflexivity. Qed.
Example size_texts : map formatFileSize [0; 256; 1536; 1048576; 1572864; 1625293] = ["0.0KB"; "0.2KB"; "1.5KB"; "1.0MB"; "1.5MB"; "1.6MB"].
Proof. vm_compute. reflexivity. Qed.
End StoreSample.
