(* ===== verification/ConfigValues.v ===== *)
(** * Configured values ([config/config.go], [service/common/dynamic_config.go],
      [model/entity.go])

    A dynamic configuration has a type and constraints; its value is a text that is
    validated against them and parsed into the settings of a process. *)

From Stdlib Require Import QArith.QArith_base.
From S2P Require Import Prelude GoStrings Consts HelmValues Parameters Tables.
#[local] Open Scope Z_scope.

(** [DynamicConfig], without its timestamps and associations. *)
Record DynamicConfig := mkConfig {
  dc_ID : Z; dc_Key : string; dc_Scope : Z; dc_Category : string; dc_ValueType : Z; dc_Description : string;
  dc_IsSecret : bool; dc_DefaultValue : string; dc_MinValue : option Q; dc_MaxValue : option Q;
  dc_Pattern : string; dc_Options : string; dc_UpdatedBy : option Z
}.

(** ** Settings of a process *)

Inductive setting := SStr (s : string) | SBool (b : bool) | SInt (z : Z) | SFloat (q : Q) | SList (l : list string).
(** The types that the switches name. *)
Definition config_types : list ConfigValueType :=
  [ConfigValueTypeString; ConfigValueTypeBool; ConfigValueTypeInt; ConfigValueTypeFloat; ConfigValueTypeStringArray].
Definition config_type (valueType : Z) : option ConfigValueType := enum_find (map (fun t => (t, t)) config_types) valueType.

(** What was set with [viper.Set]; the names of settings have no case. *)
Abbreviation viper := (gmap string setting).
Definition viper_Set (key : string) (x : setting) (v : viper) : viper := <[to_lower key := x]> v.

(** [float64(n)]: the nearest number with 53 bits, the even one of two. *)
Definition float64_of_int (n : Z) : Z :=
  let a := Z.abs n in
  if a <? 2 ^ 53 then n
  else let e := Z.log2 a - 52 in
       let q := a / 2 ^ e in
       let r := a mod 2 ^ e in
       let half := 2 ^ (e - 1) in
       Z.sgn n * ((if (half <? r) || ((r =? half) && Z.odd q) then q + 1 else q) * 2 ^ e).

(** Regular expressions, the decoder of JSON lists and the texts of values in messages. *)
Class ConfigTexts := {
  MatchString : string -> string -> res bool;
  json_strings : string -> res (list string);
  json_ints : string -> res (list Z);
  json_floats : string -> res (list Q);
  json_bools : string -> res (list bool);
  num_error : string -> string -> string;     (* the text of a NumError *)
  f_text : Q -> string;                       (* %f *)
  list_text : list string -> string           (* %v *)
}.

Section Values.
Context `{FloatText} `{ConfigTexts}.

Definition SetViperValue (key value : string) (valueType : Z) (v : viper) : res viper :=
  match config_type valueType with
  | Some ConfigValueTypeString => Ok (viper_Set key (SStr value) v)
  | Some ConfigValueTypeBool =>
      match ParseBool value with
      | Some b => Ok (viper_Set key (SBool b) v)
      | None => Err ("invalid bool value for " +:+ key +:+ ": " +:+ num_error "ParseBool" value)
      end
  | Some ConfigValueTypeInt =>
      match atoi value with
      | Some n => Ok (viper_Set key (SInt n) v)
      | None => Err ("invalid int value for " +:+ key +:+ ": " +:+ num_error "Atoi" value)
      end
  | Some ConfigValueTypeFloat =>
      match ParseFloat value with
      | Some q => Ok (viper_Set key (SFloat q) v)
      | None => Err ("invalid float value for " +:+ key +:+ ": " +:+ num_error "ParseFloat" value)
      end
  | Some ConfigValueTypeStringArray =>
      match json_strings value with
      | Ok l => Ok (viper_Set key (SList l) v)
      | Err _ => Ok (viper_Set key (SList (map trim_space (split "," value))) v)
      end
  | None => Err ("unsupported value type " +:+ itoa valueType +:+ " for key " +:+ key)
  end.

(** ** Validation *)

Record configTypeConstraints := mkConstraints { supportsMinMax : bool; supportsPattern : bool; supportsOptions : bool }.
Definition configTypeRules : list (ConfigValueType * configTypeConstraints) :=
  [(ConfigValueTypeBool, mkConstraints false false true);
   (ConfigValueTypeInt, mkConstraints true false true);
   (ConfigValueTypeFloat, mkConstraints true false true);
   (ConfigValueTypeString, mkConstraints false true true);
   (ConfigValueTypeStringArray, mkConstraints false false false)].

Definition ValidateConfigMetadataConstraints (cfg : DynamicConfig) : res unit :=
  let? rules := or_error (enum_find configTypeRules (dc_ValueType cfg)) ("unknown value type: " +:+ itoa (dc_ValueType cfg)) in
  let inapplicable := fun field => field +:+ " is not applicable for " +:+ GetDynamicConfigTypeName (dc_ValueType cfg) +:+ " type" in
  require (supportsMinMax rules || negb (bool_decide (is_Some (dc_MinValue cfg)))) (inapplicable "min_value") ;;?
  require (supportsMinMax rules || negb (bool_decide (is_Some (dc_MaxValue cfg)))) (inapplicable "max_value") ;;?
  require (supportsPattern rules || String.eqb (dc_Pattern cfg) "") (inapplicable "pattern") ;;?
  require (supportsOptions rules || String.eqb (dc_Options cfg) "") (inapplicable "options").

Definition Qlt_bool (x y : Q) : bool := negb (Qle_bool y x).
(** The bounds, for the value and its text. *)
Definition in_bounds (cfg : DynamicConfig) (value : Q) (text : string) : res unit :=
  match dc_MinValue cfg with
  | Some m => require (negb (Qlt_bool value m)) ("value " +:+ text +:+ " is below minimum " +:+ FormatFloat m)
  | None => Ok tt
  end ;;?
  match dc_MaxValue cfg with
  | Some m => require (negb (Qlt_bool m value)) ("value " +:+ text +:+ " exceeds maximum " +:+ FormatFloat m)
  | None => Ok tt
  end.
Definition one_of (holds : bool) (value : string) (options : list string) : res unit :=
  require holds ("value '" +:+ value +:+ "' is not in allowed options: " +:+ list_text options).
Definition validateConfigOptions (cfg : DynamicConfig) (value : string) : res unit :=
  let decode := fun {A} kind (r : res A) => res_wrap ("invalid options format (expected []" +:+ kind +:+ "): ") r in
  match config_type (dc_ValueType cfg) with
  | Some ConfigValueTypeString =>
      let? allowed := decode "string" (json_strings (dc_Options cfg)) in one_of (existsb (String.eqb value) allowed) value allowed
  | Some ConfigValueTypeInt =>
      let? allowed := decode "int" (json_ints (dc_Options cfg)) in
      let intVal := default 0 (atoi value) in
      one_of (existsb (Z.eqb intVal) allowed) (itoa intVal) (map itoa allowed)
  | Some ConfigValueTypeFloat =>
      let? allowed := decode "float64" (json_floats (dc_Options cfg)) in
      let floatVal := default 0%Q (ParseFloat value) in
      one_of (existsb (Qeq_bool floatVal) allowed) (f_text floatVal) (map FormatFloat allowed)
  | Some ConfigValueTypeBool =>
      let? allowed := decode "bool" (json_bools (dc_Options cfg)) in
      let boolVal := default false (ParseBool value) in
      one_of (existsb (Bool.eqb boolVal) allowed) (FormatBool boolVal) (map FormatBool allowed)
  | Some ConfigValueTypeStringArray => Err "options field is not applicable for string array type"
  | None => Ok tt
  end.
Definition ValidateConfig (cfg : DynamicConfig) (value : string) : res unit :=
  ValidateConfigMetadataConstraints cfg ;;?
  match config_type (dc_ValueType cfg) with
  | Some ConfigValueTypeBool => require (bool_decide (is_Some (ParseBool value))) ("invalid boolean value: " +:+ value)
  | Some ConfigValueTypeInt =>
      let? intVal := or_error (atoi value) ("invalid integer value: " +:+ value) in
      in_bounds cfg (inject_Z (float64_of_int intVal)) (itoa intVal)
  | Some ConfigValueTypeFloat =>
      let? floatVal := or_error (ParseFloat value) ("invalid float value: " +:+ value) in
      in_bounds cfg floatVal (f_text floatVal)
  | Some ConfigValueTypeString =>
      if String.eqb (dc_Pattern cfg) "" then Ok tt
      else let? matched := res_wrap "invalid regex pattern: " (MatchString (dc_Pattern cfg) value) in
           require matched "value does not match required pattern"
  | Some ConfigValueTypeStringArray => res_wrap "invalid string array format: " (json_strings value) ;;? Ok tt
  | None => Ok tt
  end ;;?
  (if String.eqb (dc_Options cfg) "" then Ok tt else validateConfigOptions cfg value).

(** *** What validation means *)

(** A setting that a configuration accepts for a text. *)
Inductive accepted (cfg : DynamicConfig) (value : string) : setting -> Prop :=
| accepted_string :
    dc_ValueType cfg = ConfigValueType_code ConfigValueTypeString ->
    (dc_Pattern cfg <> "" -> MatchString (dc_Pattern cfg) value = Ok true) ->
    (dc_Options cfg <> "" -> exists l, json_strings (dc_Options cfg) = Ok l /\ value ∈ l) -> accepted cfg value (SStr value)
| accepted_bool b :
    dc_ValueType cfg = ConfigValueType_code ConfigValueTypeBool -> ParseBool value = Some b ->
    (dc_Options cfg <> "" -> exists l, json_bools (dc_Options cfg) = Ok l /\ b ∈ l) -> accepted cfg value (SBool b)
| accepted_int n :
    dc_ValueType cfg = ConfigValueType_code ConfigValueTypeInt -> atoi value = Some n ->
    (forall m, dc_MinValue cfg = Some m -> (m <= inject_Z (float64_of_int n))%Q) ->
    (forall m, dc_MaxValue cfg = Some m -> (inject_Z (float64_of_int n) <= m)%Q) ->
    (dc_Options cfg <> "" -> exists l, json_ints (dc_Options cfg) = Ok l /\ n ∈ l) -> accepted cfg value (SInt n)
| accepted_float q :
    dc_ValueType cfg = ConfigValueType_code ConfigValueTypeFloat -> ParseFloat value = Some q ->
    (forall m, dc_MinValue cfg = Some m -> (m <= q)%Q) -> (forall m, dc_MaxValue cfg = Some m -> (q <= m)%Q) ->
    (dc_Options cfg <> "" -> exists l x, json_floats (dc_Options cfg) = Ok l /\ x ∈ l /\ (q == x)%Q) -> accepted cfg value (SFloat q)
| accepted_list l :
    dc_ValueType cfg = ConfigValueType_code ConfigValueTypeStringArray -> json_strings value = Ok l -> dc_Options cfg = "" ->
    accepted cfg value (SList l).

Lemma in_bounds_spec cfg q text : in_bounds cfg q text = Ok tt <->
  (forall m, dc_MinValue cfg = Some m -> (m <= q)%Q) /\ (forall m, dc_MaxValue cfg = Some m -> (q <= m)%Q).
Proof.
  unfold in_bounds, Qlt_bool. destruct (dc_MinValue cfg) as [m|], (dc_MaxValue cfg) as [m'|]; cbn [res_bind];
    rewrite ?negb_involutive.
  - destruct (Qle_bool m q) eqn:E, (Qle_bool q m') eqn:E'; cbn; split; try done.
    + intros _. apply Qle_bool_iff in E, E'. split; by intros ? [= <-].
    + intros [_ H2]. specialize (H2 _ eq_refl). apply Qle_bool_iff in H2. congruence.
    + intros [H1 _]. specialize (H1 _ eq_refl). apply Qle_bool_iff in H1. congruence.
    + intros [H1 _]. specialize (H1 _ eq_refl). apply Qle_bool_iff in H1. congruence.
  - destruct (Qle_bool m q) eqn:E; cbn; split; try done.
    + intros _. apply Qle_bool_iff in E. split; [by intros ? [= <-]|done].
    + intros [H1 _]. specialize (H1 _ eq_refl). apply Qle_bool_iff in H1. congruence.
  - destruct (Qle_bool q m') eqn:E; cbn; split; try done.
    + intros _. apply Qle_bool_iff in E. split; [done|by intros ? [= <-]].
    + intros [_ H1]. specialize (H1 _ eq_refl). apply Qle_bool_iff in H1. congruence.
  - by split.
Qed.
Lemma config_type_spec z t : config_type z = Some t <-> z = ConfigValueType_code t.
Proof.
  unfold config_type. split.
  - cbn [config_types map enum_find]. repeat (match goal with |- context [enum_code ?t =? z] => destruct (Z.eqb_spec (enum_code t) z) as [E|_] end; [intros [= <-]; exact (eq_sym E)|]). done.
  - intros ->. by destruct t.
Qed.
Lemma rules_of t : enum_find configTypeRules (ConfigValueType_code t) = Some
  match t with
  | ConfigValueTypeBool => mkConstraints false false true
  | ConfigValueTypeInt | ConfigValueTypeFloat => mkConstraints true false true
  | ConfigValueTypeString => mkConstraints false true true
  | ConfigValueTypeStringArray => mkConstraints false false false
  end.
Proof. by destruct t. Qed.
Lemma no_rules z : config_type z = None -> enum_find configTypeRules z = None.
Proof.
  unfold config_type. cbn [config_types configTypeRules map enum_find].
  repeat (match goal with |- context [enum_code ?t =? z] => destruct (enum_code t =? z) end; [done|]). done.
Qed.
Lemma seq_ok (m k : res unit) : (m ;;? k) = Ok tt <-> m = Ok tt /\ k = Ok tt.
Proof. destruct m as [[]|e]; cbn; split; [done|by intros [_ ?]|done|by intros [? _]]. Qed.
Definition options_hold (cfg : DynamicConfig) (value : string) (t : ConfigValueType) : Prop :=
  dc_Options cfg <> "" ->
  match t with
  | ConfigValueTypeString => exists l, json_strings (dc_Options cfg) = Ok l /\ value ∈ l
  | ConfigValueTypeInt => exists l, json_ints (dc_Options cfg) = Ok l /\ default 0 (atoi value) ∈ l
  | ConfigValueTypeFloat => exists l x, json_floats (dc_Options cfg) = Ok l /\ x ∈ l /\ (default 0%Q (ParseFloat value) == x)%Q
  | ConfigValueTypeBool => exists l, json_bools (dc_Options cfg) = Ok l /\ default false (ParseBool value) ∈ l
  | ConfigValueTypeStringArray => False
  end.
Lemma options_spec cfg value t : config_type (dc_ValueType cfg) = Some t ->
  (if String.eqb (dc_Options cfg) "" then Ok tt else validateConfigOptions cfg value) = Ok tt <-> options_hold cfg value t.
Proof.
  intros Et. unfold options_hold, validateConfigOptions, one_of. rewrite Et. destruct (String.eqb_spec (dc_Options cfg) "") as [E|E]; [by split|].
  assert (Hi : forall P : Prop, (dc_Options cfg <> "" -> P) <-> P) by (intros P; tauto). rewrite Hi.
  destruct t; rewrite ?res_bind_ok; (try setoid_rewrite res_wrap_ok); (try setoid_rewrite require_ok); cbn [res_wrap].
  - split; intros (l & Hl & Hx); exists l; (split; [done|]); [|apply existsb_elem; exists value; split; [done|apply String.eqb_refl]].
    by apply existsb_elem in Hx as (y & Hy & <-%String.eqb_eq).
  - split; intros (l & Hl & Hx); exists l; (split; [done|]); [|apply existsb_exists; exists (default false (ParseBool value)); split; [by apply list_elem_of_In|apply Bool.eqb_reflx]].
    apply existsb_exists in Hx as (y & Hy & <-%Bool.eqb_prop). by apply list_elem_of_In.
  - split; intros (l & Hl & Hx); exists l; (split; [done|]); [|apply existsb_exists; exists (default 0 (atoi value)); split; [by apply list_elem_of_In|apply Z.eqb_refl]].
    apply existsb_exists in Hx as (y & Hy & <-%Z.eqb_eq). by apply list_elem_of_In.
  - split.
    + intros (l & Hl & (y & Hy & Hq)%existsb_exists). exists l, y. split; [done|]. split; [by apply list_elem_of_In|by apply Qeq_bool_iff].
    + intros (l & y & Hl & Hy & Hq). exists l. split; [done|]. apply existsb_exists. exists y. split; [by apply list_elem_of_In|by apply Qeq_bool_iff].
  - done.
Qed.

(** What validation accepts is what the process can be set to.  A text passes exactly
    when the constraints fit the type and there is a setting of that type for it that
    matches the pattern, lies within the bounds - compared as floating point numbers - and
    is one of the options, as far as they are given; and this setting is what the text
    is parsed into. *)
Theorem ValidateConfig_spec cfg value v :
  ((ValidateConfig cfg value = Ok tt <-> ValidateConfigMetadataConstraints cfg = Ok tt /\ exists x, accepted cfg value x) /\
   forall x, accepted cfg value x -> SetViperValue (dc_Key cfg) value (dc_ValueType cfg) v = Ok (viper_Set (dc_Key cfg) x v)).
Proof.
  split.
  - unfold ValidateConfig. rewrite !seq_ok.
    destruct (config_type (dc_ValueType cfg)) as [t|] eqn:Et.
    2:{ split; [|intros [_ (x & Hx)]; destruct Hx as [E|? E|? E|? E|? E]; rewrite E in Et; discriminate Et].
        intros (Hm & _). unfold ValidateConfigMetadataConstraints in Hm. rewrite (no_rules _ Et) in Hm. cbn [or_error res_bind] in Hm. discriminate Hm. }
    assert (Ec := proj1 (config_type_spec _ _) Et). rewrite (options_spec cfg value t Et).
    split.
    + intros (Hm & Hv & Ho). split; [done|]. destruct t.
      * exists (SStr value). constructor; [done| |done]. intros Hp. rewrite (proj2 (String.eqb_neq _ _) Hp) in Hv.
        apply res_bind_ok in Hv as ([] & Hmt%res_wrap_ok & Hv); [done|by apply require_ok in Hv].
      * apply require_ok, bool_decide_eq_true in Hv as (b & Hb). exists (SBool b). constructor; [done..|].
        intros Hne. specialize (Ho Hne). by rewrite Hb in Ho.
      * apply res_bind_ok in Hv as (n & Hn%or_error_ok & [Hmin Hmax]%in_bounds_spec). exists (SInt n). constructor; [done..|].
        intros Hne. specialize (Ho Hne). by rewrite Hn in Ho.
      * apply res_bind_ok in Hv as (q & Hq%or_error_ok & [Hmin Hmax]%in_bounds_spec). exists (SFloat q). constructor; [done..|].
        intros Hne. specialize (Ho Hne). by rewrite Hq in Ho.
      * apply res_bind_ok in Hv as (l & Hl%res_wrap_ok & _). exists (SList l). constructor; [done..|].
        destruct (String.eqb_spec (dc_Options cfg) "") as [|Hne]; [done|]. by destruct (Ho Hne).
    + intros [Hm (x & Hx)]. split; [done|].
      destruct Hx as [E Hp Ho|b E Hb Ho|n E Hn Hmin Hmax Ho|q E Hq Hmin Hmax Ho|l E Hl Ho]; rewrite E in Ec;
        (destruct t; try discriminate Ec); clear Ec.
      * split; [|done]. destruct (String.eqb_spec (dc_Pattern cfg) "") as [|Hne]; [done|]. by rewrite (Hp Hne).
      * split; [by rewrite Hb|]. intros Hne. by rewrite Hb; apply Ho.
      * split; [rewrite Hn; by apply in_bounds_spec|]. intros Hne. by rewrite Hn; apply Ho.
      * split; [rewrite Hq; by apply in_bounds_spec|]. intros Hne. by rewrite Hq; apply Ho.
      * split; [by rewrite Hl|]. intros Hne. by destruct Hne.
  - intros x Hx. unfold SetViperValue. destruct Hx as [E|b E Hb|n E Hn|q E Hq|l E Hl]; rewrite E.
    + done.
    + change (config_type _) with (Some ConfigValueTypeBool). by rewrite Hb.
    + change (config_type _) with (Some ConfigValueTypeInt). by rewrite Hn.
    + change (config_type _) with (Some ConfigValueTypeFloat). by rewrite Hq.
    + change (config_type _) with (Some ConfigValueTypeStringArray). by rewrite Hl.
Qed.
End Values.
