(* ===== verification/ConfigService.v ===== *)
(** * The service of dynamic configurations ([module/system/service.go],
      [module/system/repository.go], [module/system/api_types.go], [infra/etcd/gateway.go])

    A configuration has a row, a value in etcd and one in the settings of the process; each
    change is recorded in a history, from which it can be taken back.  The sizes of columns
    are taken to be enough, bounds to have at most the four decimals that a row keeps.  A
    request to etcd that fails may have been carried out nevertheless. *)

From Stdlib Require Import QArith.QArith_base.
From S2P Require Import Prelude GoStrings Consts HelmValues Parameters Tables ConfigValues.
#[local] Open Scope Z_scope.

(** ** Data *)

Inductive ConfigHistoryChangeField :=
| ChangeFieldValue | ChangeFieldDescription | ChangeFieldDefaultValue | ChangeFieldMinValue | ChangeFieldMaxValue
| ChangeFieldPattern | ChangeFieldOptions.
#[export] Instance change_field_eq_dec : EqDecision ConfigHistoryChangeField.
Proof. solve_decision. Defined.
Definition ConfigHistoryChangeField_code (f : ConfigHistoryChangeField) : Z :=
  match f with
  | ChangeFieldValue => 0 | ChangeFieldDescription => 1 | ChangeFieldDefaultValue => 2 | ChangeFieldMinValue => 3
  | ChangeFieldMaxValue => 4 | ChangeFieldPattern => 5 | ChangeFieldOptions => 6
  end.

(** [ConfigHistory], without its time. *)
Record ConfigHistory := mkHistory {
  ch_ID : Z; ch_ChangeType : ConfigHistoryChangeType; ch_ChangeField : ConfigHistoryChangeField;
  ch_OldValue : string; ch_NewValue : string; ch_Reason : string; ch_ConfigID : Z; ch_RolledBackFromID : option Z;
  ch_OperatorID : option Z; ch_IPAddress : string; ch_UserAgent : string
}.
Record configUpdateContext := mkUpdateContext {
  uc_ChangeField : ConfigHistoryChangeField; uc_OldValue : string; uc_NewValue : string; uc_Reason : string;
  uc_OperatorID : Z; uc_IpAddress : string; uc_UserAgent : string
}.
Record configHistoryParams := mkHistoryParams {
  hp_ConfigID : Z; hp_ChangeType : ConfigHistoryChangeType; hp_RollbackFromID : option Z; hp_Context : configUpdateContext
}.

(** The tables. *)
Record cdb := mkCdb { t_configs : list DynamicConfig; t_histories : list ConfigHistory; t_next_history : Z }.
(** What becomes of a request to etcd: it is served; it fails; or it is carried out and fails
    nevertheless, as when the answer does not come in time. *)
Inductive fate := Served | Lost (e : string) | Unanswered (e : string).
(** The tables, etcd, the settings of the process; the fates of the next requests to etcd,
    where all that follow are served; how long was slept, in nanoseconds. *)
Record cworld := mkCworld {
  cw_db : cdb; cw_etcd : gmap string string; cw_viper : viper; cw_faults : list fate; cw_slept : list Z
}.
Definition cw_set_db (d : cdb) (w : cworld) : cworld := mkCworld d (cw_etcd w) (cw_viper w) (cw_faults w) (cw_slept w).
Definition cw_set_etcd (e : gmap string string) (w : cworld) : cworld := mkCworld (cw_db w) e (cw_viper w) (cw_faults w) (cw_slept w).
Definition cw_set_viper (v : viper) (w : cworld) : cworld := mkCworld (cw_db w) (cw_etcd w) v (cw_faults w) (cw_slept w).
Definition cw_set_faults (f : list fate) (w : cworld) : cworld := mkCworld (cw_db w) (cw_etcd w) (cw_viper w) f (cw_slept w).

(** What a call does; an error takes nothing back. *)
Definition Act (A : Type) : Type := cworld -> (A + goerr) * cworld.
Definition c_ret {A} (a : A) : Act A := fun w => (inl a, w).
Definition c_err {A} (e : goerr) : Act A := fun w => (inr e, w).
Definition c_bind {A B} (m : Act A) (k : A -> Act B) : Act B := fun w =>
  match m w with
  | (inl a, w') => k a w'
  | (inr e, w') => (inr e, w')
  end.
Definition c_on_err {A} (f : goerr -> goerr) (m : Act A) : Act A := fun w =>
  match m w with
  | (inl a, w') => (inl a, w')
  | (inr e, w') => (inr (f e), w')
  end.
Definition c_wrap {A} (pre : string) : Act A -> Act A := c_on_err (fun e => Wrap pre e "").
Definition c_require (cond : bool) (e : goerr) : Act unit := if cond then c_ret tt else c_err e.
Definition c_res {A} (r : res A) : Act A := match r with Ok a => c_ret a | Err e => c_err (New e) end.
(** A query and a transaction. *)
Definition c_tx {A} (m : Tx cdb A) : Act A := fun w => let '(r, d) := transaction m (cw_db w) in (r, cw_set_db d w).
Declare Scope config_scope.
Notation "'let#' x := m 'in' k" := (c_bind m (fun x => k))
  (at level 10, x pattern, m at level 100, k at level 200) : config_scope.
Notation "m ';;#' k" := (c_bind m (fun _ => k))
  (at level 100, k at level 200, right associativity) : config_scope.
#[local] Open Scope config_scope.

(** ** etcd *)

(** A request that has an effect on etcd. *)
Definition request (effect : cworld -> cworld) : Act unit := fun w =>
  let after := cw_set_faults (tail (cw_faults w)) w in
  match head (cw_faults w) with
  | None | Some Served => (inl tt, effect after)
  | Some (Lost e) => (inr (New e), after)
  | Some (Unanswered e) => (inr (New e), effect after)
  end.
Definition etcd_Get (key : string) : Act string :=
  c_wrap "failed to get key: " (request id) ;;# fun w =>
  match cw_etcd w !! key with
  | Some v => (inl v, w)
  | None => (inr (New ("key not found: " +:+ key)), w)
  end.
(** Without a lease. *)
Definition etcd_Put (key value : string) : Act unit :=
  c_wrap "failed to put key: " (request (fun w => cw_set_etcd (<[key := value]> (cw_etcd w)) w)).

Definition ConfigEtcdProducerPrefix : string := "/rcabench/config/producer/".
Definition ConfigEtcdConsumerPrefix : string := "/rcabench/config/consumer/".
Definition ConfigEtcdGlobalPrefix : string := "/rcabench/config/global/".
Definition scope_of (scope : Z) : option ConfigScope :=
  enum_find (map (fun s => (s, s)) [ConfigScopeProducer; ConfigScopeConsumer; ConfigScopeGlobal]) scope.
Definition etcdPrefixForScope (scope : Z) : string :=
  match scope_of scope with
  | Some ConfigScopeProducer => ConfigEtcdProducerPrefix
  | Some ConfigScopeConsumer => ConfigEtcdConsumerPrefix
  | Some ConfigScopeGlobal => ConfigEtcdGlobalPrefix
  | None => ""
  end.
Definition etcd_key (cfg : DynamicConfig) : string := etcdPrefixForScope (dc_Scope cfg) +:+ dc_Key cfg.

(** ** The repository *)

Definition getConfigByID (configID : Z) : Tx cdb DynamicConfig :=
  tx_wrap ("failed to find config with id " +:+ itoa configID +:+ ": ")
    (tx_first (fun d => find (fun c => dc_ID c =? configID) (t_configs d))).
Definition updateConfig (cfg : DynamicConfig) : Tx cdb unit :=
  tx_wrap "failed to update config: "
    (tx_do (fun d => mkCdb (save_row dc_ID cfg (t_configs d)) (t_histories d) (t_next_history d))).
Definition getConfigHistory (historyID : Z) : Tx cdb ConfigHistory :=
  tx_wrap ("failed to find config history with id " +:+ itoa historyID +:+ ": ")
    (tx_first (fun d => find (fun h => ch_ID h =? historyID) (t_histories d))).
Definition h_with_id (id : Z) (h : ConfigHistory) : ConfigHistory :=
  mkHistory id (ch_ChangeType h) (ch_ChangeField h) (ch_OldValue h) (ch_NewValue h) (ch_Reason h) (ch_ConfigID h)
    (ch_RolledBackFromID h) (ch_OperatorID h) (ch_IPAddress h) (ch_UserAgent h).
Definition repo_createConfigHistory (h : ConfigHistory) : Tx cdb unit :=
  tx_wrap "failed to create config history: "
    (tx_do (fun d => mkCdb (t_configs d) (t_histories d ++ [h_with_id (t_next_history d) h]) (t_next_history d + 1))).

(** ** Changes *)

Definition createConfigHistory (params : configHistoryParams) : Tx cdb unit :=
  let c := hp_Context params in
  tx_wrap "failed to create config history: "
    (repo_createConfigHistory
       (mkHistory 0 (hp_ChangeType params) (uc_ChangeField c) (uc_OldValue c) (uc_NewValue c) (uc_Reason c) (hp_ConfigID params)
          (hp_RollbackFromID params) (Some (uc_OperatorID c)) (uc_IpAddress c) (uc_UserAgent c))).
Definition createConfigRollback (cfg : DynamicConfig) (historyID : option Z) (updateContext : configUpdateContext) : Act DynamicConfig :=
  c_tx (tx_wrap "failed to update config: " (updateConfig cfg) ;;^
        tx_wrap "failed to create rollback history: "
          (createConfigHistory (mkHistoryParams (dc_ID cfg) ChangeTypeRollback historyID updateContext)) ;;^
        tx_ret cfg).
(** A row that is read, [ErrNotFound] when it is not there. *)
Definition read_row {A} (what : string) (failed : string) (m : Tx cdb A) : Act A :=
  c_on_err (fun e => if errors_Is RecordNotFound e then tagged NotFound what else Wrap failed e "") (c_tx m).
Definition existing_config (configID : Z) : Act DynamicConfig :=
  read_row ("configuration with id " +:+ itoa configID +:+ " not found") "failed to get config: " (getConfigByID configID).
Definition existing_history (historyID : Z) : Act ConfigHistory :=
  read_row ("history entry with id " +:+ itoa historyID +:+ " not found") "failed to get config history: " (getConfigHistory historyID).

(** What the process relies on: how a float is read by [fmt.Sscanf], how [%f] prints it, how
    the answer of a consumer is decoded. *)
Record ConfigUpdateResponse := mkUpdateResponse { ur_ID : string; ur_Success : bool; ur_Error : string }.
Class ServiceTexts := {
  Sscanf_f : string -> res Q;
  decode_response : string -> option ConfigUpdateResponse
}.
(** What a subscriber gets: whether it could subscribe, the messages, and whether the
    channel was closed before the time was over. *)
Record subscription := mkSubscription { sb_error : option string; sb_messages : list string; sb_closed : bool }.

Section Service.
Context `{FloatText} `{ConfigTexts} `{ServiceTexts}.

(** *** Values *)

Definition is_scope (cfg : DynamicConfig) (s : ConfigScope) : bool := dc_Scope cfg =? enum_code s.
Definition setViperIfNeeded (cfg : DynamicConfig) (newValue : string) : Act unit := fun w =>
  if is_scope cfg ConfigScopeConsumer then (inl tt, w)
  else match SetViperValue (dc_Key cfg) newValue (dc_ValueType cfg) (cw_viper w) with
       | Ok v => (inl tt, cw_set_viper v w)
       | Err e => (inr (New e), w)
       end.

Definition sleep (ns : Z) : Act unit := fun w => (inl tt, mkCworld (cw_db w) (cw_etcd w) (cw_viper w) (cw_faults w) (cw_slept w ++ [ns])).
Definition baseDelay : Z := 500000000.
(** [attempts] are left of [maxRetries]. *)
Fixpoint publish_attempts (attempts : nat) (maxRetries : Z) (key value : string) (lastErr : option goerr) : Act unit :=
  match attempts with
  | O => c_err (match lastErr with
                | Some e => Wrap ("failed to publish config to etcd after " +:+ itoa maxRetries +:+ " attempts: ") e ""
                | None => New ("failed to publish config to etcd after " +:+ itoa maxRetries +:+ " attempts: %!w(<nil>)")
                end)
  | S n =>
      let attempt := maxRetries - Z.of_nat attempts in
      (if 0 <? attempt then sleep (baseDelay * Z.shiftl 1 (attempt - 1)) else c_ret tt) ;;# fun w =>
      match etcd_Put key value w with
      | (inl u, w') => (inl u, w')
      | (inr e, w') => publish_attempts n maxRetries key value (Some e) w'
      end
  end.
Definition publishConfigToEtcdWithRetry (key value : string) (maxRetries : Z) : Act unit :=
  publish_attempts (Z.to_nat maxRetries) maxRetries key value None.

Fixpoint first_response (messages : list string) : option ConfigUpdateResponse :=
  match messages with
  | [] => None
  | m :: ms => match decode_response m with Some r => Some r | None => first_response ms end
  end.
Definition waitForConfigUpdateResponse (sub : subscription) : Act ConfigUpdateResponse :=
  match sb_error sub with
  | Some e => c_err (Wrap "failed to confirm subscription: " (New e) "")
  | None =>
      match first_response (sb_messages sub) with
      | Some r => c_ret r
      | None => if sb_closed sub then c_err (New "subscription channel closed unexpectedly")
                else c_err (New "timeout waiting for config update response after 10s")
      end
  end.
Definition propagateValueChange (sub : subscription) (cfg : DynamicConfig) (newValue opDesc : string) : Act unit :=
  if negb (is_scope cfg ConfigScopeGlobal) && negb (is_scope cfg ConfigScopeConsumer) then c_ret tt
  else
    c_wrap "config saved to database but failed to publish to etcd: " (publishConfigToEtcdWithRetry (etcd_key cfg) newValue 3) ;;#
    if is_scope cfg ConfigScopeConsumer then
      let# resp := c_wrap ("config " +:+ opDesc +:+ " but consumer did not respond: ") (waitForConfigUpdateResponse sub) in
      c_require (ur_Success resp) (New ("consumer failed to process config " +:+ opDesc +:+ ": " +:+ ur_Error resp))
    else c_ret tt.

Record UpdateConfigValueReq := mkUpdateValueReq { uv_Value : string; uv_Reason : string }.
Record RollbackConfigReq := mkRollbackReq { rb_HistoryID : Z; rb_Reason : string }.
(** Who asks. *)
Record caller := mkCaller { ca_userID : Z; ca_ipAddress : string; ca_userAgent : string }.
Definition value_context (field : ConfigHistoryChangeField) (oldValue newValue reason : string) (who : caller) : configUpdateContext :=
  mkUpdateContext field oldValue newValue reason (ca_userID who) (ca_ipAddress who) (ca_userAgent who).

Definition UpdateConfigValue (sub : subscription) (req : UpdateConfigValueReq) (configID : Z) (who : caller) : Act unit :=
  let# existingConfig := existing_config configID in
  let# oldValue := c_wrap "failed to get current config value from etcd: " (etcd_Get (etcd_key existingConfig)) in
  let newValue := uv_Value req in
  c_wrap "invalid config value: " (c_res (ValidateConfig existingConfig newValue)) ;;#
  c_wrap "failed to set config value in viper: " (setViperIfNeeded existingConfig newValue) ;;#
  c_wrap "failed to create config history: "
    (c_tx (createConfigHistory (mkHistoryParams (dc_ID existingConfig) ChangeTypeUpdate None
                                  (value_context ChangeFieldValue oldValue newValue (uv_Reason req) who)))) ;;#
  propagateValueChange sub existingConfig newValue "update".

Definition RollbackConfigValue (sub : subscription) (req : RollbackConfigReq) (configID : Z) (who : caller) : Act unit :=
  let# history := existing_history (rb_HistoryID req) in
  c_require (bool_decide (ch_ChangeField history = ChangeFieldValue))
    (New ("history entry " +:+ itoa (rb_HistoryID req) +:+ " is not a value change (field: "
            +:+ itoa (ConfigHistoryChangeField_code (ch_ChangeField history)) +:+ ")")) ;;#
  let# existingConfig := existing_config configID in
  let# oldValue := c_wrap "failed to get current config value from etcd: " (etcd_Get (etcd_key existingConfig)) in
  let newValue := ch_OldValue history in
  c_wrap "invalid config after rollback: " (c_res (ValidateConfig existingConfig newValue)) ;;#
  c_wrap "failed to set config value in viper: " (setViperIfNeeded existingConfig newValue) ;;#
  createConfigRollback existingConfig (Some (ch_ID history)) (value_context ChangeFieldValue oldValue newValue (rb_Reason req) who) ;;#
  propagateValueChange sub existingConfig newValue "rollback".

(** *** Metadata *)

Record UpdateConfigMetadataReq := mkUpdateMetadataReq {
  um_DefaultValue : option string; um_Description : option string; um_MinValue : option Q; um_MaxValue : option Q;
  um_Pattern : option string; um_Options : option string; um_Reason : string
}.
Definition given {A} (o : option A) : Z := match o with Some _ => 1 | None => 0 end.
Definition fieldCount (req : UpdateConfigMetadataReq) : Z :=
  given (um_DefaultValue req) + given (um_Description req) + given (um_MinValue req) + given (um_MaxValue req)
  + given (um_Pattern req) + given (um_Options req).
Definition UpdateConfigMetadataReq_Validate (req : UpdateConfigMetadataReq) : res unit :=
  require (negb (fieldCount req =? 0)) "at least one metadata field must be provided for update" ;;?
  require (negb (1 <? fieldCount req)) "can only update one metadata field at a time".
Definition GetChangeField (req : UpdateConfigMetadataReq) : ConfigHistoryChangeField :=
  match um_DefaultValue req, um_Description req, um_MinValue req, um_MaxValue req, um_Pattern req, um_Options req with
  | Some _, _, _, _, _, _ => ChangeFieldDefaultValue
  | _, Some _, _, _, _, _ => ChangeFieldDescription
  | _, _, Some _, _, _, _ => ChangeFieldMinValue
  | _, _, _, Some _, _, _ => ChangeFieldMaxValue
  | _, _, _, _, Some _, _ => ChangeFieldPattern
  | _, _, _, _, _, Some _ => ChangeFieldOptions
  | _, _, _, _, _, _ => ChangeFieldValue
  end.

Definition dc_with (description default_ : string) (min max : option Q) (pattern options : string) (by_ : option Z) (c : DynamicConfig)
    : DynamicConfig :=
  mkConfig (dc_ID c) (dc_Key c) (dc_Scope c) (dc_Category c) (dc_ValueType c) description (dc_IsSecret c) default_ min max
    pattern options by_.
Definition with_DefaultValue (s : string) (c : DynamicConfig) : DynamicConfig :=
  dc_with (dc_Description c) s (dc_MinValue c) (dc_MaxValue c) (dc_Pattern c) (dc_Options c) (dc_UpdatedBy c) c.
Definition with_Description (s : string) (c : DynamicConfig) : DynamicConfig :=
  dc_with s (dc_DefaultValue c) (dc_MinValue c) (dc_MaxValue c) (dc_Pattern c) (dc_Options c) (dc_UpdatedBy c) c.
Definition with_MinValue (q : option Q) (c : DynamicConfig) : DynamicConfig :=
  dc_with (dc_Description c) (dc_DefaultValue c) q (dc_MaxValue c) (dc_Pattern c) (dc_Options c) (dc_UpdatedBy c) c.
Definition with_MaxValue (q : option Q) (c : DynamicConfig) : DynamicConfig :=
  dc_with (dc_Description c) (dc_DefaultValue c) (dc_MinValue c) q (dc_Pattern c) (dc_Options c) (dc_UpdatedBy c) c.
Definition with_Pattern (s : string) (c : DynamicConfig) : DynamicConfig :=
  dc_with (dc_Description c) (dc_DefaultValue c) (dc_MinValue c) (dc_MaxValue c) s (dc_Options c) (dc_UpdatedBy c) c.
Definition with_Options (s : string) (c : DynamicConfig) : DynamicConfig :=
  dc_with (dc_Description c) (dc_DefaultValue c) (dc_MinValue c) (dc_MaxValue c) (dc_Pattern c) s (dc_UpdatedBy c) c.
Definition with_UpdatedBy (u : Z) (c : DynamicConfig) : DynamicConfig :=
  dc_with (dc_Description c) (dc_DefaultValue c) (dc_MinValue c) (dc_MaxValue c) (dc_Pattern c) (dc_Options c) (Some u) c.

(** [%v] of a pointer to a float: its address.  [addresses] are those of the old bounds and
    of the new ones, as they are printed. *)
Record addresses := mkAddresses { ad_min : string; ad_max : string; ad_new_min : string; ad_new_max : string }.
Definition pointer_text (address : string) (p : option Q) : string := match p with Some _ => address | None => "<nil>" end.
Definition PatchConfigModel (ad : addresses) (req : UpdateConfigMetadataReq) (target : DynamicConfig)
    : string * string * DynamicConfig :=
  let patch {A} (o : option A) (old : DynamicConfig -> string) (new : A -> string) (set : A -> DynamicConfig -> DynamicConfig)
      (r : string * string * DynamicConfig) :=
    match o with Some a => (old r.2, new a, set a r.2) | None => r end in
  let r := ("", "", target) in
  let r := patch (um_DefaultValue req) dc_DefaultValue (fun s => s) with_DefaultValue r in
  let r := patch (um_Description req) dc_Description (fun s => s) with_Description r in
  let r := patch (um_MinValue req) (fun c => pointer_text (ad_min ad) (dc_MinValue c)) (fun _ => ad_new_min ad)
             (fun q => with_MinValue (Some q)) r in
  let r := patch (um_MaxValue req) (fun c => pointer_text (ad_max ad) (dc_MaxValue c)) (fun _ => ad_new_max ad)
             (fun q => with_MaxValue (Some q)) r in
  let r := patch (um_Pattern req) dc_Pattern (fun s => s) with_Pattern r in
  patch (um_Options req) dc_Options (fun s => s) with_Options r.

Definition UpdateConfigMetadata (ad : addresses) (req : UpdateConfigMetadataReq) (configID : Z) (who : caller) : Act DynamicConfig :=
  let# existingConfig := existing_config configID in
  let '(oldValue, newValue, existingConfig) := PatchConfigModel ad req existingConfig in
  c_wrap "invalid config after metadata update: " (c_res (ValidateConfigMetadataConstraints existingConfig)) ;;#
  let existingConfig := with_UpdatedBy (ca_userID who) existingConfig in
  c_tx (tx_wrap "failed to update config: " (updateConfig existingConfig) ;;^
        tx_wrap "failed to create config history: "
          (createConfigHistory (mkHistoryParams (dc_ID existingConfig) ChangeTypeUpdate None
                                  (value_context (GetChangeField req) oldValue newValue (um_Reason req) who))) ;;^
        tx_ret existingConfig).

Definition bound_text (o : option Q) : string := match o with Some q => f_text q | None => "" end.
Definition read_bound (what s : string) : res (option Q) :=
  if String.eqb s "" then Ok None
  else let? q := res_wrap ("failed to parse " +:+ what +:+ " value: ") (Sscanf_f s) in Ok (Some q).
(** The old value, the new one and the configuration with it. *)
Definition rollbackMetaFieldValue (cfg : DynamicConfig) (changeField : ConfigHistoryChangeField) (targetValue : string)
    : res (string * string * DynamicConfig) :=
  match changeField with
  | ChangeFieldDefaultValue => Ok (dc_DefaultValue cfg, targetValue, with_DefaultValue targetValue cfg)
  | ChangeFieldDescription => Ok (dc_Description cfg, targetValue, with_Description targetValue cfg)
  | ChangeFieldMinValue =>
      let? b := read_bound "min" targetValue in Ok (bound_text (dc_MinValue cfg), targetValue, with_MinValue b cfg)
  | ChangeFieldMaxValue =>
      let? b := read_bound "max" targetValue in Ok (bound_text (dc_MaxValue cfg), targetValue, with_MaxValue b cfg)
  | ChangeFieldPattern => Ok (dc_Pattern cfg, targetValue, with_Pattern targetValue cfg)
  | ChangeFieldOptions => Ok (dc_Options cfg, targetValue, with_Options targetValue cfg)
  | ChangeFieldValue => Err ("unknown change field: " +:+ itoa (ConfigHistoryChangeField_code ChangeFieldValue))
  end.
Definition RollbackConfigMetadata (req : RollbackConfigReq) (configID : Z) (who : caller) : Act DynamicConfig :=
  let# history := existing_history (rb_HistoryID req) in
  c_require (negb (bool_decide (ch_ChangeField history = ChangeFieldValue)))
    (New ("history entry " +:+ itoa (rb_HistoryID req) +:+ " is a value change, use RollbackConfigValue instead")) ;;#
  let# existingConfig := existing_config configID in
  let# (oldValue, newValue, existingConfig) :=
    c_wrap "failed to rollback metadata field: " (c_res (rollbackMetaFieldValue existingConfig (ch_ChangeField history) (ch_OldValue history))) in
  c_wrap "invalid config after metadata rollback: " (c_res (ValidateConfigMetadataConstraints existingConfig)) ;;#
  createConfigRollback existingConfig (Some (ch_ID history))
    (value_context (ch_ChangeField history) oldValue newValue (rb_Reason req) who).
End Service.

(** ** How calls run *)

Lemma c_bind_out {A B} (m : Act A) (k : A -> Act B) w r w' : c_bind m k w = (r, w') ->
  (exists e, m w = (inr e, w') /\ r = inr e) \/ (exists a w1, m w = (inl a, w1) /\ k a w1 = (r, w')).
Proof. unfold c_bind. destruct (m w) as [[a|e] w1]; [intros Hk; right; eauto|]. intros [= <- <-]. left. eauto. Qed.
Lemma c_on_err_out {A} f (m : Act A) w r w' : c_on_err f m w = (r, w') ->
  (exists e, m w = (inr e, w') /\ r = inr (f e)) \/ (exists a, m w = (inl a, w') /\ r = inl a).
Proof. unfold c_on_err. destruct (m w) as [[a|e] w1]; intros [= <- <-]; eauto. Qed.
Lemma c_bind_run {A B} (m : Act A) (k : A -> Act B) w a w1 : m w = (inl a, w1) -> c_bind m k w = k a w1.
Proof. unfold c_bind. by intros ->. Qed.
Lemma c_on_err_run {A} f (m : Act A) w a w1 : m w = (inl a, w1) -> c_on_err f m w = (inl a, w1).
Proof. unfold c_on_err. by intros ->. Qed.
Lemma c_require_out c e w r w' : c_require c e w = (r, w') -> w' = w /\ ((c = true /\ r = inl tt) \/ (c = false /\ r = inr e)).
Proof. unfold c_require. destruct c; intros [= <- <-]; eauto. Qed.
Lemma c_res_out {A} (x : res A) w r w' : c_res x w = (r, w') ->
  w' = w /\ ((exists a, x = Ok a /\ r = inl a) \/ (exists e, x = Err e /\ r = inr (New e))).
Proof. unfold c_res. destruct x; intros [= <- <-]; eauto. Qed.
Lemma set_db_id w : cw_set_db (cw_db w) w = w.
Proof. by destruct w. Qed.
Lemma read_row_out {A} what failed (m : Tx cdb A) w r w' :
  (forall d a d', m d = inl (a, d') -> d' = d) -> read_row what failed m w = (r, w') ->
  w' = w /\ ((exists e, r = inr e) \/ exists a, r = inl a /\ m (cw_db w) = inl (a, cw_db w)).
Proof.
  intros Hm. unfold read_row. intros [(e & Hr & ->)|(a & Hr & ->)]%c_on_err_out; revert Hr; unfold c_tx, transaction;
    destruct (m (cw_db w)) as [[a' d']|e'] eqn:E; intros [= <- <-].
  - rewrite set_db_id. eauto.
  - pose proof (Hm _ _ _ E) as ->. rewrite set_db_id. eauto.
Qed.
Definition config_row (id : Z) (d : cdb) : option DynamicConfig := find (fun c => dc_ID c =? id) (t_configs d).
Definition history_row (id : Z) (d : cdb) : option ConfigHistory := find (fun h => ch_ID h =? id) (t_histories d).
Lemma existing_config_out id w r w' : existing_config id w = (r, w') ->
  w' = w /\ ((exists e, r = inr e) \/ exists cfg, r = inl cfg /\ config_row id (cw_db w) = Some cfg).
Proof.
  intros [-> [?|(cfg & -> & (H & _)%tx_wrap_inl%tx_first_inl)]]%read_row_out; [by eauto|split; [done|]; right; by exists cfg|].
  by intros d a d' (_ & ->)%tx_wrap_inl%tx_first_inl.
Qed.
Lemma existing_history_out id w r w' : existing_history id w = (r, w') ->
  w' = w /\ ((exists e, r = inr e) \/ exists h, r = inl h /\ history_row id (cw_db w) = Some h).
Proof.
  intros [-> [?|(h & -> & (H & _)%tx_wrap_inl%tx_first_inl)]]%read_row_out; [by eauto|split; [done|]; right; by exists h|].
  by intros d a d' (_ & ->)%tx_wrap_inl%tx_first_inl.
Qed.
Lemma existing_config_run id w cfg : config_row id (cw_db w) = Some cfg -> existing_config id w = (inl cfg, w).
Proof.
  intros Hc. unfold existing_config, read_row, c_on_err, c_tx, transaction, getConfigByID, tx_wrap, tx_on_err, tx_first.
  fold (config_row id (cw_db w)). by rewrite Hc, set_db_id.
Qed.
Lemma existing_history_run id w h : history_row id (cw_db w) = Some h -> existing_history id w = (inl h, w).
Proof.
  intros Hh. unfold existing_history, read_row, c_on_err, c_tx, transaction, getConfigHistory, tx_wrap, tx_on_err, tx_first.
  fold (history_row id (cw_db w)). by rewrite Hh, set_db_id.
Qed.

(** Requests to etcd. *)
Lemma set_faults_id w : cw_faults w = [] -> cw_set_faults (tail (cw_faults w)) w = w.
Proof. destruct w as [d e v f s]. cbn. by intros ->. Qed.
Lemma request_id pre w r w' : c_wrap pre (request id) w = (r, w') -> w' = cw_set_faults (tail (cw_faults w)) w.
Proof. unfold c_wrap, c_on_err, request. destruct (head (cw_faults w)) as [[|e|e]|]; by intros [= <- <-]. Qed.
Lemma etcd_Get_out key w r w' : etcd_Get key w = (r, w') ->
  w' = cw_set_faults (tail (cw_faults w)) w /\ ((exists e, r = inr e) \/ exists v, r = inl v /\ cw_etcd w !! key = Some v).
Proof.
  intros [(e & Hr%request_id & ->)|([] & w1 & ->%request_id & Hk)]%c_bind_out; [eauto|].
  cbn [cw_etcd cw_set_faults] in Hk. destruct (cw_etcd w !! key) eqn:E; injection Hk as <- <-; eauto.
Qed.
(** The value is in etcd, or the request failed before it was. *)
Definition put (key value : string) (ok : bool) (etcd etcd' : gmap string string) : Prop :=
  etcd' = <[key := value]> etcd \/ ok = false /\ etcd' = etcd.
Definition succeeded {A} (r : A + goerr) : bool := match r with inl _ => true | inr _ => false end.
Lemma put_trans key value ok etcd etcd1 etcd2 :
  put key value false etcd etcd1 -> put key value ok etcd1 etcd2 -> put key value ok etcd etcd2.
Proof. unfold put. intros [->|[_ ->]] [->|[? ->]]; rewrite ?insert_insert_eq; auto. Qed.
Lemma etcd_Put_out key value w r w' : etcd_Put key value w = (r, w') ->
  cw_db w' = cw_db w /\ cw_viper w' = cw_viper w /\ cw_slept w' = cw_slept w /\ cw_faults w' = tail (cw_faults w) /\
  put key value (succeeded r) (cw_etcd w) (cw_etcd w').
Proof.
  unfold etcd_Put, c_wrap, c_on_err, request, put.
  destruct (head (cw_faults w)) as [[|e|e]|]; intros [= <- <-]; cbn; auto 7.
Qed.
Lemma etcd_Get_run key w v : cw_faults w = [] -> cw_etcd w !! key = Some v -> etcd_Get key w = (inl v, w).
Proof.
  intros Hf Hv. unfold etcd_Get, c_wrap, c_bind, c_on_err, request. rewrite set_faults_id by done. rewrite Hf. cbn. by rewrite Hv.
Qed.
Lemma etcd_Get_missing key w : cw_faults w = [] -> cw_etcd w !! key = None -> etcd_Get key w = (inr (New ("key not found: " +:+ key)), w).
Proof.
  intros Hf Hv. unfold etcd_Get, c_wrap, c_bind, c_on_err, request. rewrite set_faults_id by done. rewrite Hf. cbn. by rewrite Hv.
Qed.
Lemma etcd_Put_run key value w : cw_faults w = [] -> etcd_Put key value w = (inl tt, cw_set_etcd (<[key := value]> (cw_etcd w)) w).
Proof. intros Hf. unfold etcd_Put, c_wrap, c_on_err, request. rewrite set_faults_id by done. by rewrite Hf. Qed.

(** ** Publication *)

Definition fails (f : fate) : bool := match f with Served => false | _ => true end.
(** How many requests fail before one goes well. *)
Fixpoint failures (fs : list fate) : nat :=
  match fs with f :: fs => if fails f then S (failures fs) else O | [] => O end.
Definition untouched (w w' : cworld) : Prop := cw_db w' = cw_db w /\ cw_viper w' = cw_viper w /\ cw_etcd w' = cw_etcd w.
Definition published (key value : string) (ok : bool) (w w' : cworld) : Prop :=
  cw_db w' = cw_db w /\ cw_viper w' = cw_viper w /\ put key value ok (cw_etcd w) (cw_etcd w').

Section Publication.
Context `{FloatText} `{ConfigTexts} `{ServiceTexts}.

Lemma publish_attempts_out n max key value last w r w' : publish_attempts n max key value last w = (r, w') ->
  published key value (succeeded r) w w'.
Proof.
  revert last w. induction n as [|n IH]; intros last w; cbn [publish_attempts].
  { intros [= <- <-]. split; [done|]. split; [done|]. by right. }
  intros [(e & Hs & ->)|([] & w1 & Hs & Hk)]%c_bind_out.
  { destruct (0 <? _) in Hs; discriminate Hs. }
  assert (cw_db w1 = cw_db w /\ cw_viper w1 = cw_viper w /\ cw_etcd w1 = cw_etcd w) as (D & V & E)
    by (destruct (0 <? _) in Hs; injection Hs as <-; done).
  destruct (etcd_Put key value w1) as [r1 w2] eqn:Hp. apply etcd_Put_out in Hp as (D1 & V1 & _ & _ & E1). rewrite E in E1.
  destruct r1 as [[]|e].
  - injection Hk as <- <-. split; [by rewrite D1|]. split; [by rewrite V1|done].
  - apply IH in Hk as (D2 & V2 & E2). split; [by rewrite D2, D1|]. split; [by rewrite V2, V1|]. by apply (put_trans _ _ _ _ (cw_etcd w2)).
Qed.

(** The delays before [n] attempts with the numbers from [i] on. *)
Definition delays (i n : nat) : list Z := map (fun k => baseDelay * 2 ^ (Z.of_nat k - 1)) (seq i n).
Lemma etcd_Put_fails key value w : succeeded (etcd_Put key value w).1 = (failures (cw_faults w) <? 1)%nat.
Proof. unfold etcd_Put, c_wrap, c_on_err, request. by destruct (cw_faults w) as [|[|e|e] fs]. Qed.
Lemma failures_tail fs : (failures fs <? 1)%nat = false -> failures fs = S (failures (tail fs)).
Proof. destruct fs as [|[|e|e] fs]; done. Qed.

Lemma publish_attempts_run n i max key value last w : max = Z.of_nat (i + n) -> (0 < i)%nat ->
  let attempts := Nat.min (S (failures (cw_faults w))) n in
  let '(r, w') := publish_attempts n max key value last w in
  succeeded r = (failures (cw_faults w) <? n)%nat /\ cw_slept w' = cw_slept w ++ delays i attempts.
Proof.
  intros -> Hi. revert i Hi last w. induction n as [|n IH]; intros i Hi last w; cbn [publish_attempts].
  { rewrite Nat.min_0_r. cbn. by rewrite app_nil_r. }
  unfold c_bind at 1. replace (Z.of_nat (i + S n) - Z.of_nat (S n)) with (Z.of_nat i) by lia.
  destruct (Z.ltb_spec 0 (Z.of_nat i)) as [_|]; [|lia].
  assert (Hd : baseDelay * Z.shiftl 1 (Z.of_nat i - 1) = baseDelay * 2 ^ (Z.of_nat i - 1)) by (rewrite Z.shiftl_1_l; reflexivity).
  rewrite Hd. destruct (sleep _ w) as [rs w1] eqn:Hs. injection Hs as <- Hw1.
  assert (cw_faults w1 = cw_faults w /\ cw_slept w1 = cw_slept w ++ [baseDelay * 2 ^ (Z.of_nat i - 1)]) as [F1 S1] by (by subst w1).
  pose proof (etcd_Put_fails key value w1) as Hf. destruct (etcd_Put key value w1) as [r1 w2] eqn:Hp.
  apply etcd_Put_out in Hp as (_ & _ & S2 & F2 & _). rewrite F1 in Hf, F2. rewrite S1 in S2. destruct r1 as [[]|e]; cbn in Hf.
  - destruct (failures (cw_faults w)); [|discriminate Hf]. by rewrite S2.
  - symmetry in Hf. apply failures_tail in Hf. specialize (IH (S i) ltac:(lia) (Some e) w2).
    replace (S i + n)%nat with (i + S n)%nat in IH by lia. rewrite F2, S2 in IH.
    destruct (publish_attempts n _ key value _ _) as [r w']. destruct IH as [-> ->]. rewrite Hf. split; [done|]. by rewrite <- app_assoc.
Qed.

(** Publishing to etcd is tried three times at most, half a second and then a second
    after the attempt before, until one goes well: it succeeds exactly when fewer than
    three requests in a row fail; then etcd has the value.  Otherwise it has the value too,
    if one of the requests was carried out, or is unchanged.  The tables and the settings
    are unchanged in both cases. *)
Theorem publishConfigToEtcdWithRetry_spec key value w :
  let failed := failures (cw_faults w) in
  let '(r, w') := publishConfigToEtcdWithRetry key value 3 w in
  succeeded r = (failed <? 3)%nat /\ published key value (succeeded r) w w' /\
  cw_slept w' = cw_slept w ++ take failed [500000000; 1000000000].
Proof.
  unfold publishConfigToEtcdWithRetry. change (Z.to_nat 3) with 3%nat. cbv zeta.
  destruct (publish_attempts 3 3 key value None w) as [r w'] eqn:Hp.
  pose proof (publish_attempts_out _ _ _ _ _ _ _ _ Hp) as Hpub.
  cut (succeeded r = (failures (cw_faults w) <? 3)%nat /\ cw_slept w' = cw_slept w ++ take (failures (cw_faults w)) [500000000; 1000000000]); [tauto|].
  change (match etcd_Put key value w with (inl u, w1) => (inl u, w1) | (inr e, w1) => publish_attempts 2 3 key value (Some e) w1 end = (r, w')) in Hp.
  pose proof (etcd_Put_fails key value w) as Hf. destruct (etcd_Put key value w) as [r1 w1] eqn:Hput.
  apply etcd_Put_out in Hput as (_ & _ & S1 & F1 & _). destruct r1 as [[]|e]; cbn in Hf.
  - injection Hp as <- <-. destruct (failures (cw_faults w)); [|discriminate Hf]. rewrite S1. cbn. by rewrite app_nil_r.
  - symmetry in Hf. apply failures_tail in Hf.
    pose proof (publish_attempts_run 2 1 3 key value (Some e) w1 eq_refl ltac:(lia)) as Hrun. cbv zeta in Hrun. rewrite Hp, F1, S1 in Hrun.
    destruct Hrun as [-> ->]. rewrite Hf. split; [done|]. f_equal. by destruct (failures (tail (cw_faults w))) as [|[|k]].
Qed.
End Publication.

(** ** Values *)

Section Changes.
Context `{FloatText} `{ConfigTexts} `{ServiceTexts}.

(** The history row that a change of a value leaves. *)
Definition value_row (id : Z) (type : ConfigHistoryChangeType) (from : option Z) (cfg : DynamicConfig) (old new reason : string) (who : caller)
    : ConfigHistory :=
  mkHistory id type ChangeFieldValue old new reason (dc_ID cfg) from (Some (ca_userID who)) (ca_ipAddress who) (ca_userAgent who).
Definition with_history (h : ConfigHistory) (d : cdb) : cdb := mkCdb (t_configs d) (t_histories d ++ [h]) (t_next_history d + 1).

(** What carries the new value on, after the history is written: nothing for the scope of
    the producer; etcd for the others, and the answer of the consumer for its own. *)
Definition carried_on (sub : subscription) (cfg : DynamicConfig) (w w' : cworld) (new : string) (done_ : bool) : Prop :=
  if is_scope cfg ConfigScopeGlobal || is_scope cfg ConfigScopeConsumer then
    exists ok, published (etcd_key cfg) new ok w w' /\
      done_ = ok && (negb (is_scope cfg ConfigScopeConsumer)
                     || (bool_decide (sb_error sub = None) && default false (ur_Success <$> first_response (sb_messages sub))))
  else untouched w w' /\ done_ = true.

Lemma propagate_out sub cfg new op w r w' : propagateValueChange sub cfg new op w = (r, w') ->
  carried_on sub cfg w w' new (succeeded r).
Proof.
  unfold propagateValueChange, carried_on. rewrite <- negb_orb. destruct (_ || _); cbn [negb]; [|by intros [= <- <-]].
  intros [(e & [(e' & Hp & ->)|(? & _ & [=])]%c_on_err_out & ->)|([] & w1 & [(? & _ & [=])|(? & Hp & _)]%c_on_err_out & Hk)]%c_bind_out.
  - apply publish_attempts_out in Hp. by exists false.
  - apply publish_attempts_out in Hp as Hpub. exists true.
    destruct (is_scope cfg ConfigScopeConsumer); [|by injection Hk as <- <-]. cbn [negb orb andb].
    apply c_bind_out in Hk as [(e & [(e' & Hw & _)|(? & _ & [=])]%c_on_err_out & ->)|(resp & w2 & [(? & _ & [=])|(? & Hw & [= ->])]%c_on_err_out & Hk)];
      unfold waitForConfigUpdateResponse in Hw; destruct (sb_error sub) as [er|]; try discriminate Hw.
    + by injection Hw as _ <-.
    + destruct (first_response (sb_messages sub)); [discriminate Hw|]. destruct (sb_closed sub); by injection Hw as _ <-.
    + destruct (first_response (sb_messages sub)) as [resp'|]; [|destruct (sb_closed sub); discriminate Hw]. injection Hw as -> <-.
      apply c_require_out in Hk as [-> [[Hs ->]|[Hs ->]]]; (split; [done|]); by rewrite bool_decide_eq_true_2; [cbn; rewrite Hs|].
Qed.
Lemma setViper_out cfg new w r w' : setViperIfNeeded cfg new w = (r, w') ->
  (w' = w /\ exists e, r = inr e) \/
  (r = inl tt /\ w' = cw_set_viper (if is_scope cfg ConfigScopeConsumer then cw_viper w
                                     else match SetViperValue (dc_Key cfg) new (dc_ValueType cfg) (cw_viper w) with Ok v => v | Err _ => cw_viper w end) w).
Proof.
  unfold setViperIfNeeded. destruct (is_scope _ _); [intros [= <- <-]; right; by destruct w|].
  destruct (SetViperValue _ _ _ _) as [v|e]; intros [= <- <-]; [by right|left; eauto].
Qed.
Lemma create_history_run params w :
  c_tx (createConfigHistory params) w =
    (inl tt, cw_set_db (with_history (mkHistory (t_next_history (cw_db w)) (hp_ChangeType params) (uc_ChangeField (hp_Context params))
       (uc_OldValue (hp_Context params)) (uc_NewValue (hp_Context params)) (uc_Reason (hp_Context params)) (hp_ConfigID params)
       (hp_RollbackFromID params) (Some (uc_OperatorID (hp_Context params))) (uc_IpAddress (hp_Context params)) (uc_UserAgent (hp_Context params)))
       (cw_db w)) w).
Proof. reflexivity. Qed.
Lemma create_rollback_run cfg from c w :
  createConfigRollback cfg from c w =
    (inl cfg, cw_set_db (with_history (mkHistory (t_next_history (cw_db w)) ChangeTypeRollback (uc_ChangeField c) (uc_OldValue c) (uc_NewValue c)
       (uc_Reason c) (dc_ID cfg) from (Some (uc_OperatorID c)) (uc_IpAddress c) (uc_UserAgent c))
       (mkCdb (save_row dc_ID cfg (t_configs (cw_db w))) (t_histories (cw_db w)) (t_next_history (cw_db w)))) w).
Proof. reflexivity. Qed.
Lemma save_same id w cfg : config_row id (cw_db w) = Some cfg -> NoDup (map dc_ID (t_configs (cw_db w))) ->
  save_row dc_ID cfg (t_configs (cw_db w)) = t_configs (cw_db w).
Proof.
  unfold config_row. intros Hf Hnd. apply find_some in Hf as [Hin _]. apply list_elem_of_In in Hin.
  unfold save_row. rewrite <- (map_id (t_configs (cw_db w))) at 2. apply map_ext_in. intros y Hy%list_elem_of_In.
  destruct (Z.eqb_spec (dc_ID y) (dc_ID cfg)) as [E|]; [|done]. by apply (nodup_map_inj dc_ID (t_configs (cw_db w))).
Qed.

(** A value that is accepted went into the settings - unless they are those of the
    consumer - and into the history; then it was carried on. *)
Definition value_changed (sub : subscription) (type : ConfigHistoryChangeType) (from : option Z) (cfg : DynamicConfig)
    (old new reason : string) (who : caller) (ok : bool) (w w' : cworld) : Prop :=
  cw_etcd w !! etcd_key cfg = Some old /\ ValidateConfigMetadataConstraints cfg = Ok tt /\
  exists x w1, accepted cfg new x /\
    cw_db w1 = with_history (value_row (t_next_history (cw_db w)) type from cfg old new reason who) (cw_db w) /\
    cw_viper w1 = (if is_scope cfg ConfigScopeConsumer then cw_viper w else viper_Set (dc_Key cfg) x (cw_viper w)) /\
    cw_etcd w1 = cw_etcd w /\ carried_on sub cfg w1 w' new ok.
Definition value_steps {A} (sub : subscription) (cfg : DynamicConfig) (invalid new op : string) (record : string -> Act A) : Act unit :=
  let# oldValue := c_wrap "failed to get current config value from etcd: " (etcd_Get (etcd_key cfg)) in
  c_wrap invalid (c_res (ValidateConfig cfg new)) ;;#
  c_wrap "failed to set config value in viper: " (setViperIfNeeded cfg new) ;;#
  record oldValue ;;#
  propagateValueChange sub cfg new op.

Lemma value_steps_out {A} sub cfg invalid new op (record : string -> Act A) type from reason who w r w' :
  (forall old w1, cw_db w1 = cw_db w -> exists a, record old w1 =
     (inl a, cw_set_db (with_history (value_row (t_next_history (cw_db w)) type from cfg old new reason who) (cw_db w)) w1)) ->
  value_steps sub cfg invalid new op record w = (r, w') ->
  (succeeded r = false /\ untouched w w') \/ exists old, value_changed sub type from cfg old new reason who (succeeded r) w w'.
Proof.
  intros Hrec. unfold value_steps. intros [(e & [(e' & Hg & _)|(? & _ & [=])]%c_on_err_out & ->)|(old & w1 & [(? & _ & [=])|(? & Hg & [= <-])]%c_on_err_out & Hk)]%c_bind_out.
  { apply etcd_Get_out in Hg as [-> _]. by left. }
  apply etcd_Get_out in Hg as [-> [[? [=]]|(v & [= <-] & Hold)]].
  apply c_bind_out in Hk as [(e & [(e' & [-> _]%c_res_out & _)|(? & _ & [=])]%c_on_err_out & ->)|([] & w2 & [(? & _ & [=])|(u & Hv & _)]%c_on_err_out & Hk)].
  { by left. }
  apply c_res_out in Hv as [-> [([] & Hv & _)|(? & _ & [=])]].
  destruct (proj1 (proj1 (ValidateConfig_spec cfg new ∅)) Hv) as [Hm (st & Hst)].
  apply c_bind_out in Hk as [(e & [(e' & Hs & ->)|(? & _ & [=])]%c_on_err_out & ->)|([] & w2 & [(? & _ & [=])|(u' & Hs & _)]%c_on_err_out & Hk)];
    apply setViper_out in Hs as [[-> [e0 He]]|[He ->]]; try discriminate He.
  { by left. }
  right. exists old. split; [done|]. split; [done|]. rewrite (proj2 (ValidateConfig_spec cfg new _) st Hst) in Hk.
  match type of Hk with c_bind _ _ ?w2 = _ => destruct (Hrec old w2 eq_refl) as [a Ha] end. rewrite (c_bind_run _ _ _ _ _ Ha) in Hk. apply propagate_out in Hk.
  exists st. eexists. split; [exact Hst|]. refine (conj _ (conj _ (conj _ Hk))); reflexivity.
Qed.

Lemma UpdateConfigValue_out sub req id who w r w' : UpdateConfigValue sub req id who w = (r, w') ->
  (succeeded r = false /\ untouched w w') \/
  exists cfg old, config_row id (cw_db w) = Some cfg /\
    value_changed sub ChangeTypeUpdate None cfg old (uv_Value req) (uv_Reason req) who (succeeded r) w w'.
Proof.
  unfold UpdateConfigValue.
  intros [(e & Hc & ->)|(cfg & w1 & Hc & Hk)]%c_bind_out; apply existing_config_out in Hc as [-> [[e' He]|(c & [= <-] & Hc)]]; try discriminate He.
  { by left. }
  change (value_steps sub cfg "invalid config value: " (uv_Value req) "update" (fun oldValue =>
            c_wrap "failed to create config history: "
              (c_tx (createConfigHistory (mkHistoryParams (dc_ID cfg) ChangeTypeUpdate None
                 (value_context ChangeFieldValue oldValue (uv_Value req) (uv_Reason req) who))))) w = (r, w')) in Hk.
  apply (value_steps_out _ _ _ _ _ _ ChangeTypeUpdate None (uv_Reason req) who) in Hk as [?|[old Hch]]; [by left|right; eauto|].
  intros old w1 Hd. exists tt. rewrite <- Hd. by apply c_on_err_run.
Qed.

(** What an update of a value does.  Either it fails and leaves the tables, the settings
    and etcd as they were; or the configuration is there, etcd had an old value, the new one
    is accepted, the settings of the process hold it (unless the scope is that of the
    consumer), the history has one more row with the old value and the new one, and the
    value was carried on: for the scopes global and consumer etcd holds it, or three
    attempts to put it there failed - then the history keeps the row nevertheless, and etcd
    may have it or not -, and the
    call succeeds when the first answer of the consumer that can be read is a success; for
    the scope of the producer etcd keeps the old value and the call succeeds. *)
Theorem UpdateConfigValue_spec sub req id who w :
  let '(r, w') := UpdateConfigValue sub req id who w in
  (succeeded r = false /\ untouched w w') \/
  exists cfg old, config_row id (cw_db w) = Some cfg /\
    value_changed sub ChangeTypeUpdate None cfg old (uv_Value req) (uv_Reason req) who (succeeded r) w w'.
Proof. destruct (UpdateConfigValue sub req id who w) as [r w'] eqn:Hu. exact (UpdateConfigValue_out _ _ _ _ _ _ _ Hu). Qed.
(** A rollback does the same with the old value of a history row, which need not be one of
    this configuration. *)
Lemma RollbackConfigValue_out sub req id who w r w' : NoDup (map dc_ID (t_configs (cw_db w))) ->
  RollbackConfigValue sub req id who w = (r, w') ->
  (succeeded r = false /\ untouched w w') \/
  exists h cfg old, history_row (rb_HistoryID req) (cw_db w) = Some h /\ ch_ChangeField h = ChangeFieldValue /\ config_row id (cw_db w) = Some cfg /\
    value_changed sub ChangeTypeRollback (Some (ch_ID h)) cfg old (ch_OldValue h) (rb_Reason req) who (succeeded r) w w'.
Proof.
  intros Hnd. unfold RollbackConfigValue.
  intros [(e & Hc & ->)|(h & w1 & Hc & Hk)]%c_bind_out; apply existing_history_out in Hc as [-> [[e' He]|(h' & [= <-] & Hh)]]; try discriminate He; [by left|].
  apply c_bind_out in Hk as [(e & [-> _]%c_require_out & ->)|([] & w1 & Hc & Hk)]; [by left|].
  apply c_require_out in Hc as [-> [[Hf%bool_decide_eq_true _]|[_ [=]]]].
  apply c_bind_out in Hk as [(e & Hc & ->)|(cfg & w1 & Hc & Hk)]; apply existing_config_out in Hc as [-> [[e' He]|(c & [= <-] & Hc)]]; try discriminate He.
  { by left. }
  change (value_steps sub cfg "invalid config after rollback: " (ch_OldValue h) "rollback" (fun oldValue =>
     createConfigRollback cfg (Some (ch_ID h)) (value_context ChangeFieldValue oldValue (ch_OldValue h) (rb_Reason req) who)) w = (r, w')) in Hk.
  apply (value_steps_out _ _ _ _ _ _ ChangeTypeRollback (Some (ch_ID h)) (rb_Reason req) who) in Hk as [?|[old Hch]]; [by left|right; exists h, cfg, old; done|].
  intros old w1 Hd. exists cfg. rewrite create_rollback_run, Hd, (save_same _ _ _ Hc Hnd). by destruct (cw_db w).
Qed.

(** *** Taking a change back *)

(** Rows are found by their identifiers. *)
Record histories_ok (d : cdb) : Prop := {
  config_ids : NoDup (map dc_ID (t_configs d));
  history_ids : NoDup (map ch_ID (t_histories d));
  history_below : Forall (fun h => ch_ID h < t_next_history d) (t_histories d);
  history_configs : Forall (fun h => ch_ConfigID h ∈ map dc_ID (t_configs d)) (t_histories d);
  rolled_back_from : Forall (fun h => forall i, ch_RolledBackFromID h = Some i -> i < ch_ID h /\ i ∈ map ch_ID (t_histories d)) (t_histories d)
}.
Lemma new_history_found d h : histories_ok d -> ch_ID h = t_next_history d -> history_row (t_next_history d) (with_history h d) = Some h.
Proof.
  intros Hok Hid. unfold history_row, with_history. cbn [t_histories]. pose proof (history_below d Hok) as Hb.
  induction Hb as [|x l Hx _ IH]; cbn [app find].
  - by rewrite Hid, Z.eqb_refl.
  - destruct (Z.eqb_spec (ch_ID x) (t_next_history d)); [lia|done].
Qed.
Lemma config_row_history id h d : config_row id (with_history h d) = config_row id d.
Proof. done. Qed.
Lemma global_scope cfg : is_scope cfg ConfigScopeGlobal = true -> is_scope cfg ConfigScopeConsumer = false.
Proof. unfold is_scope. intros ->%Z.eqb_eq. done. Qed.

Lemma publish_run key value w : cw_faults w = [] ->
  publishConfigToEtcdWithRetry key value 3 w = (inl tt, cw_set_etcd (<[key := value]> (cw_etcd w)) w).
Proof.
  intros Hf. unfold publishConfigToEtcdWithRetry. change (Z.to_nat 3) with 3%nat. cbn [publish_attempts]. unfold c_bind at 1.
  change (0 <? 3 - Z.of_nat 3) with false. cbn [c_ret]. by rewrite (etcd_Put_run _ _ _ Hf).
Qed.
Lemma rollback_run sub req id who w h cfg old st :
  cw_faults w = [] -> history_row (rb_HistoryID req) (cw_db w) = Some h -> ch_ChangeField h = ChangeFieldValue ->
  config_row id (cw_db w) = Some cfg -> is_scope cfg ConfigScopeGlobal = true -> cw_etcd w !! etcd_key cfg = Some old ->
  ValidateConfigMetadataConstraints cfg = Ok tt -> accepted cfg (ch_OldValue h) st ->
  exists w', RollbackConfigValue sub req id who w = (inl tt, w') /\ cw_etcd w' = <[etcd_key cfg := ch_OldValue h]> (cw_etcd w) /\
    cw_viper w' = viper_Set (dc_Key cfg) st (cw_viper w).
Proof.
  intros Hfa Hh Hf Hc Hg Hold Hm Hst. unfold RollbackConfigValue.
  rewrite (c_bind_run _ _ _ _ _ (existing_history_run _ _ _ Hh)). rewrite (bool_decide_eq_true_2 _ Hf). unfold c_bind at 1. cbn [c_require c_ret].
  rewrite (c_bind_run _ _ _ _ _ (existing_config_run _ _ _ Hc)). unfold c_wrap at 1.
  rewrite (c_bind_run _ _ _ _ _ (c_on_err_run _ _ _ _ _ (etcd_Get_run _ _ _ Hfa Hold))).
  assert (ValidateConfig cfg (ch_OldValue h) = Ok tt) as -> by (apply (proj1 (ValidateConfig_spec cfg (ch_OldValue h) ∅)); eauto).
  unfold c_bind at 1, c_wrap at 1, c_on_err at 1. cbn [c_res c_ret].
  unfold c_bind at 1, c_wrap at 1, c_on_err at 1, setViperIfNeeded. rewrite (global_scope _ Hg), (proj2 (ValidateConfig_spec cfg _ _) st Hst).
  rewrite (c_bind_run _ _ _ _ _ (create_rollback_run _ _ _ _)).
  unfold propagateValueChange. rewrite Hg, (global_scope _ Hg). cbn [negb andb].
  unfold c_wrap. erewrite c_bind_run; [|apply c_on_err_run, publish_run; exact Hfa].
  eexists. split; [reflexivity|]. done.
Qed.

(** C18. A rollback brings the old value back.  When an update of a value of the global scope
    succeeded and the old value is still accepted, taking the history row it left back
    succeeds (as long as etcd answers): etcd is again what it was before the update, and the
    settings of the process hold what the old value is parsed into. *)
Theorem value_rollback_restores sub sub' req id who who' reason cfg old st w w1 :
  histories_ok (cw_db w) -> config_row id (cw_db w) = Some cfg -> is_scope cfg ConfigScopeGlobal = true ->
  cw_etcd w !! etcd_key cfg = Some old -> accepted cfg old st ->
  UpdateConfigValue sub req id who w = (inl tt, w1) -> cw_faults w1 = [] ->
  exists w2, RollbackConfigValue sub' (mkRollbackReq (t_next_history (cw_db w)) reason) id who' w1 = (inl tt, w2) /\
    cw_etcd w2 = cw_etcd w /\ cw_viper w2 !! to_lower (dc_Key cfg) = Some st.
Proof.
  intros Hok Hc Hg Hold Hst Hu Hfa.
  assert (value_changed sub ChangeTypeUpdate None cfg old (uv_Value req) (uv_Reason req) who true w w1) as Hch.
  { pose proof (UpdateConfigValue_out sub req id who w _ _ Hu) as [[[=] _]|(cfg' & old' & Hc' & Hch)].
    rewrite Hc in Hc'. injection Hc' as <-. destruct Hch as [Ho Hch]. rewrite Hold in Ho. injection Ho as <-. by split. }
  destruct Hch as [_ [Hm (x & w0 & Hx & D0 & V0 & E0 & Hcar)]]. unfold carried_on in Hcar. rewrite Hg in Hcar. cbn [orb] in Hcar.
  destruct Hcar as (ok & (D1 & V1 & E1) & [-> _]%eq_sym%andb_true_iff). destruct E1 as [E1|[[=] _]].
  set (h := value_row (t_next_history (cw_db w)) ChangeTypeUpdate None cfg old (uv_Value req) (uv_Reason req) who) in *.
  assert (Hh : history_row (t_next_history (cw_db w)) (cw_db w1) = Some h) by (rewrite D1, D0; by apply new_history_found).
  destruct (rollback_run sub' (mkRollbackReq (t_next_history (cw_db w)) reason) id who' w1 h cfg (uv_Value req) st)
    as (w2 & Hr & E2 & V2); [done|done|done|by rewrite D1, D0|done|rewrite E1; apply lookup_insert_eq|done..|].
  exists w2. split; [exact Hr|]. split; [|rewrite V2; apply lookup_insert_eq].
  rewrite E2, E1, E0. cbn. rewrite insert_insert_eq. by apply insert_id.
Qed.

(** *** Metadata *)

Definition meta_row (id : Z) (type : ConfigHistoryChangeType) (from : option Z) (cfg : DynamicConfig) (field : ConfigHistoryChangeField)
    (old new reason : string) (who : caller) : ConfigHistory :=
  mkHistory id type field old new reason (dc_ID cfg) from (Some (ca_userID who)) (ca_ipAddress who) (ca_userAgent who).
Definition saved (cfg : DynamicConfig) (h : ConfigHistory) (d : cdb) : cdb :=
  with_history h (mkCdb (save_row dc_ID cfg (t_configs d)) (t_histories d) (t_next_history d)).
Lemma UpdateConfigMetadata_out ad req id who w r w' : UpdateConfigMetadata ad req id who w = (r, w') ->
  (succeeded r = false /\ w' = w) \/
  exists cfg old new cfg', config_row id (cw_db w) = Some cfg /\ PatchConfigModel ad req cfg = (old, new, cfg') /\
    ValidateConfigMetadataConstraints cfg' = Ok tt /\ r = inl (with_UpdatedBy (ca_userID who) cfg') /\
    w' = cw_set_db (saved (with_UpdatedBy (ca_userID who) cfg')
           (meta_row (t_next_history (cw_db w)) ChangeTypeUpdate None cfg' (GetChangeField req) old new (um_Reason req) who) (cw_db w)) w.
Proof.
  unfold UpdateConfigMetadata.
  intros [(e & Hc & ->)|(cfg & w1 & Hc & Hk)]%c_bind_out; apply existing_config_out in Hc as [-> [[e' He]|(c & [= <-] & Hc)]]; try discriminate He.
  { by left. }
  destruct (PatchConfigModel ad req cfg) as [[old new] cfg'] eqn:Hp.
  apply c_bind_out in Hk as [(e & [(e' & [-> _]%c_res_out & _)|(? & _ & [=])]%c_on_err_out & ->)|([] & w2 & [(? & _ & [=])|(u & Hv & _)]%c_on_err_out & Hk)].
  { by left. }
  apply c_res_out in Hv as [-> [([] & Hv & _)|(? & _ & [=])]].
  right. exists cfg, old, new, cfg'. injection Hk as <- <-. done.
Qed.
Lemma RollbackConfigMetadata_out req id who w r w' : RollbackConfigMetadata req id who w = (r, w') ->
  (succeeded r = false /\ w' = w) \/
  exists h cfg old new cfg', history_row (rb_HistoryID req) (cw_db w) = Some h /\ config_row id (cw_db w) = Some cfg /\
    rollbackMetaFieldValue cfg (ch_ChangeField h) (ch_OldValue h) = Ok (old, new, cfg') /\
    ValidateConfigMetadataConstraints cfg' = Ok tt /\ r = inl cfg' /\
    w' = cw_set_db (saved cfg' (meta_row (t_next_history (cw_db w)) ChangeTypeRollback (Some (ch_ID h)) cfg' (ch_ChangeField h) old new
           (rb_Reason req) who) (cw_db w)) w.
Proof.
  unfold RollbackConfigMetadata.
  intros [(e & Hc & ->)|(h & w1 & Hc & Hk)]%c_bind_out; apply existing_history_out in Hc as [-> [[e' He]|(h' & [= <-] & Hh)]]; try discriminate He; [by left|].
  apply c_bind_out in Hk as [(e & [-> _]%c_require_out & ->)|([] & w1 & Hc & Hk)]; [by left|].
  apply c_require_out in Hc as [-> _].
  apply c_bind_out in Hk as [(e & Hc & ->)|(cfg & w1 & Hc & Hk)]; apply existing_config_out in Hc as [-> [[e' He]|(c & [= <-] & Hc)]]; try discriminate He.
  { by left. }
  apply c_bind_out in Hk as [(e & [(e' & [-> _]%c_res_out & _)|(? & _ & [=])]%c_on_err_out & ->)|([[old new] cfg'] & w2 & [(? & _ & [=])|(? & Hv & [= <-])]%c_on_err_out & Hk)].
  { by left. }
  apply c_res_out in Hv as [-> [(? & Hr & [= <-])|(? & _ & [=])]].
  apply c_bind_out in Hk as [(e & [(e' & [-> _]%c_res_out & _)|(? & _ & [=])]%c_on_err_out & ->)|([] & w2 & [(? & _ & [=])|(u & Hv & _)]%c_on_err_out & Hk)].
  { by left. }
  apply c_res_out in Hv as [-> [([] & Hv & _)|(? & _ & [=])]].
  right. exists h, cfg, old, new, cfg'. injection Hk as <- <-. done.
Qed.

(** What no change touches. *)
Definition identity (c : DynamicConfig) := (dc_ID c, dc_Key c, dc_Scope c, dc_Category c, dc_ValueType c, dc_IsSecret c).
Lemma patch_identity ad req cfg old new cfg' : PatchConfigModel ad req cfg = (old, new, cfg') -> identity cfg' = identity cfg.
Proof.
  unfold PatchConfigModel. destruct req as [[?|] [?|] [?|] [?|] [?|] [?|] ?];
    cbn [um_DefaultValue um_Description um_MinValue um_MaxValue um_Pattern um_Options snd]; intros [= _ _ <-]; done.
Qed.
Lemma rollback_identity cfg f t old new cfg' : rollbackMetaFieldValue cfg f t = Ok (old, new, cfg') -> identity cfg' = identity cfg.
Proof.
  destruct f; cbn [rollbackMetaFieldValue]; try (intros [= _ _ <-]; done); try discriminate;
    intros (b & _ & [= _ _ <-])%res_bind_ok; done.
Qed.

(** ** The history grows *)

Inductive db_changed (d : cdb) : cdb -> Prop :=
| db_same : db_changed d d
| db_saved cfg cfg' h : config_row (dc_ID cfg) d = Some cfg -> identity cfg' = identity cfg -> ch_ID h = t_next_history d ->
    ch_ConfigID h = dc_ID cfg -> (forall i, ch_RolledBackFromID h = Some i -> exists h', history_row i d = Some h') ->
    db_changed d (saved cfg' h d).
Lemma config_row_id id d cfg : config_row id d = Some cfg -> dc_ID cfg = id /\ cfg ∈ t_configs d.
Proof. unfold config_row. intros [Hin Hid%Z.eqb_eq]%find_some. by apply list_elem_of_In in Hin. Qed.
Lemma history_row_id id d h : history_row id d = Some h -> ch_ID h = id /\ h ∈ t_histories d.
Proof. unfold history_row. intros [Hin Hid%Z.eqb_eq]%find_some. by apply list_elem_of_In in Hin. Qed.
Lemma save_identities cfg cfg' (rows : list DynamicConfig) : NoDup (map dc_ID rows) -> cfg ∈ rows -> identity cfg' = identity cfg ->
  map identity (save_row dc_ID cfg' rows) = map identity rows.
Proof.
  intros Hnd Hin Hi. unfold save_row. rewrite map_map. apply map_ext_in. intros y Hy%list_elem_of_In.
  destruct (Z.eqb_spec (dc_ID y) (dc_ID cfg')) as [E|]; [|done]. rewrite Hi. f_equal.
  apply (nodup_map_inj dc_ID rows); [done..|]. unfold identity in Hi. congruence.
Qed.
Lemma db_changed_ok d d' : histories_ok d -> db_changed d d' ->
  histories_ok d' /\ t_histories d `prefix_of` t_histories d' /\ map identity (t_configs d') = map identity (t_configs d).
Proof.
  intros Hok [|cfg cfg' h Hc Hi Hid Hcfg Hfrom]; [done|]. destruct Hok as [C1 C2 C3 C4 C5]. apply config_row_id in Hc as [_ Hin].
  assert (Hids : map dc_ID (save_row dc_ID cfg' (t_configs d)) = map dc_ID (t_configs d)) by apply save_row_ids.
  unfold saved, with_history. cbn [t_configs t_histories t_next_history]. split; [|split].
  - split; cbn [t_configs t_histories t_next_history]; rewrite ?Hids.
    + done.
    + rewrite map_app. apply NoDup_app. split; [done|]. split; [|by apply NoDup_singleton].
      intros x (y & -> & Hy)%list_elem_of_fmap Hx%list_elem_of_singleton. rewrite Forall_forall in C3. specialize (C3 y Hy). lia.
    + apply Forall_app. split; [|apply Forall_singleton; lia]. eapply Forall_impl; [exact C3|]. cbn. lia.
    + apply Forall_app. split; [done|]. apply Forall_singleton. rewrite Hcfg. by apply list_elem_of_fmap_2.
    + rewrite map_app. apply Forall_app. split.
      * eapply Forall_impl; [exact C5|]. cbn. intros x Hx i Ei. destruct (Hx i Ei). split; [done|]. apply elem_of_app. by left.
      * apply Forall_singleton. intros i (h' & [Hi' Hin']%history_row_id)%Hfrom. rewrite Forall_forall in C3. specialize (C3 h' Hin').
        split; [lia|]. apply elem_of_app. left. rewrite <- Hi'. by apply list_elem_of_fmap_2.
  - by exists [h].
  - by apply (save_identities cfg).
Qed.

(** A change of a configuration, and whatever happens to etcd and to the settings. *)
Inductive config_step : cworld -> cworld -> Prop :=
| step_update_value sub req id who w : config_step w (UpdateConfigValue sub req id who w).2
| step_rollback_value sub req id who w : config_step w (RollbackConfigValue sub req id who w).2
| step_update_metadata ad req id who w : config_step w (UpdateConfigMetadata ad req id who w).2
| step_rollback_metadata req id who w : config_step w (RollbackConfigMetadata req id who w).2
| step_environment w etcd viper faults slept : config_step w (mkCworld (cw_db w) etcd viper faults slept).

Lemma value_changed_db sub type from cfg old new reason who ok w w' : histories_ok (cw_db w) -> config_row (dc_ID cfg) (cw_db w) = Some cfg ->
  (forall i, from = Some i -> exists h', history_row i (cw_db w) = Some h') ->
  value_changed sub type from cfg old new reason who ok w w' -> db_changed (cw_db w) (cw_db w').
Proof.
  intros Hok Hc Hfrom (_ & _ & x & w1 & _ & D & _ & _ & Hcar).
  assert (cw_db w' = cw_db w1) as ->.
  { unfold carried_on in Hcar. destruct (_ || _); [destruct Hcar as (? & (-> & _) & _)|destruct Hcar as ((-> & _) & _)]; done. }
  rewrite D. pose proof (db_saved (cw_db w) cfg cfg (value_row (t_next_history (cw_db w)) type from cfg old new reason who) Hc eq_refl eq_refl eq_refl Hfrom) as Hs.
  unfold saved in Hs. rewrite (save_same _ _ _ Hc (config_ids _ Hok)) in Hs. by destruct (cw_db w).
Qed.
Lemma config_step_db w w' : histories_ok (cw_db w) -> config_step w w' -> db_changed (cw_db w) (cw_db w').
Proof.
  intros Hok Hs. destruct Hs as [sub req id who w|sub req id who w|ad req id who w|req id who w|].
  - destruct (UpdateConfigValue _ _ _ _ _) as [r w'] eqn:E. cbn [snd]. apply UpdateConfigValue_out in E as [[_ (-> & _)]|(cfg & old & Hc & Hch)]; [constructor|].
    destruct (config_row_id _ _ _ Hc) as [<- _]. apply (value_changed_db _ _ _ _ _ _ _ _ _ _ _ Hok Hc) in Hch; [done|by intros i [=]].
  - destruct (RollbackConfigValue _ _ _ _ _) as [r w'] eqn:E. cbn [snd].
    apply RollbackConfigValue_out in E as [[_ (-> & _)]|(h & cfg & old & Hh & _ & Hc & Hch)]; [constructor| |exact (config_ids _ Hok)].
    destruct (config_row_id _ _ _ Hc) as [<- _]. apply (value_changed_db _ _ _ _ _ _ _ _ _ _ _ Hok Hc) in Hch; [done|].
    intros i [= <-]. exists h. by destruct (history_row_id _ _ _ Hh) as [-> _].
  - destruct (UpdateConfigMetadata _ _ _ _ _) as [r w'] eqn:E. cbn [snd]. apply UpdateConfigMetadata_out in E as [[_ ->]|(cfg & old & new & cfg' & Hc & Hp & _ & _ & ->)]; [constructor|].
    destruct (config_row_id _ _ _ Hc) as [<- _]. apply patch_identity in Hp. apply (db_saved _ cfg); [done|exact Hp|done| |done].
    unfold identity in Hp. cbn. congruence.
  - destruct (RollbackConfigMetadata _ _ _ _) as [r w'] eqn:E. cbn [snd].
    apply RollbackConfigMetadata_out in E as [[_ ->]|(h & cfg & old & new & cfg' & Hh & Hc & Hp & _ & _ & ->)]; [constructor|].
    destruct (config_row_id _ _ _ Hc) as [<- _]. apply rollback_identity in Hp. apply (db_saved _ cfg); [done|exact Hp|done| |].
    + unfold identity in Hp. cbn. congruence.
    + intros i [= <-]. exists h. by destruct (history_row_id _ _ _ Hh) as [-> _].
  - constructor.
Qed.

(** C30. The history of configurations only grows.  Whatever sequence of updates and rollbacks
    of values and metadata is run, and whatever happens to etcd and to the settings
    meanwhile: no row of the history is changed or removed, each has an identifier of its
    own, belongs to a configuration and goes back to an earlier row if to any; and what a
    configuration is - its key, scope, category, type and secrecy - never changes. *)
Theorem config_history_grows w w' : histories_ok (cw_db w) -> rtc config_step w w' ->
  histories_ok (cw_db w') /\ t_histories (cw_db w) `prefix_of` t_histories (cw_db w') /\
  map identity (t_configs (cw_db w')) = map identity (t_configs (cw_db w)).
Proof.
  intros Hok Hs. induction Hs as [|w w1 w2 Hstep _ IH]; [done|].
  destruct (db_changed_ok _ _ Hok (config_step_db _ _ Hok Hstep)) as (Hok1 & Hp1 & Hi1).
  destruct (IH Hok1) as (Hok2 & Hp2 & Hi2). split; [done|]. split; [by etrans|congruence].
Qed.

(** *** Taking metadata back *)

Definition is_hex (c : ascii) : bool := is_digit c || ((97 <=? Z.of_N (N_of_ascii c)) && (Z.of_N (N_of_ascii c) <=? 102)).
(** The text of a pointer. *)
Definition is_pointer (s : string) : bool :=
  String.eqb s "<nil>" || (has_prefix s "0x" && forallb is_hex (drop 2 (chars s))).
Definition single_text (req : UpdateConfigMetadataReq) : bool :=
  match um_MinValue req, um_MaxValue req with None, None => true | _, _ => false end.
Lemma saved_rows cfg cfg' h d : NoDup (map dc_ID (t_configs d)) -> config_row (dc_ID cfg) d = Some cfg -> dc_ID cfg' = dc_ID cfg ->
  config_row (dc_ID cfg) (saved cfg' h d) = Some cfg'.
Proof.
  unfold config_row, saved, with_history. cbn [t_configs]. intros Hnd Hf Hid.
  induction (t_configs d) as [|c l IH]; [done|]. cbn [find save_row map] in *. rewrite Hid.
  destruct (Z.eqb_spec (dc_ID c) (dc_ID cfg)) as [E|E].
  - by rewrite Hid, Z.eqb_refl.
  - rewrite (proj2 (Z.eqb_neq _ _) E). unfold save_row in IH. rewrite Hid in IH. apply IH; [by inversion_clear Hnd|done].
Qed.
Lemma new_saved_history cfg' h d : histories_ok d -> ch_ID h = t_next_history d -> history_row (t_next_history d) (saved cfg' h d) = Some h.
Proof. intros Hok Hid. exact (new_history_found d h Hok Hid). Qed.
Lemma rollback_metadata_eq req id who w h cfg :
  history_row (rb_HistoryID req) (cw_db w) = Some h -> ch_ChangeField h <> ChangeFieldValue -> config_row id (cw_db w) = Some cfg ->
  RollbackConfigMetadata req id who w =
    match rollbackMetaFieldValue cfg (ch_ChangeField h) (ch_OldValue h) with
    | Ok (old, new, cfg') =>
        match ValidateConfigMetadataConstraints cfg' with
        | Ok _ => (inl cfg', cw_set_db (saved cfg' (meta_row (t_next_history (cw_db w)) ChangeTypeRollback (Some (ch_ID h)) cfg'
                     (ch_ChangeField h) old new (rb_Reason req) who) (cw_db w)) w)
        | Err e => (inr (Wrap "invalid config after metadata rollback: " (New e) ""), w)
        end
    | Err e => (inr (Wrap "failed to rollback metadata field: " (New e) ""), w)
    end.
Proof.
  intros Hh Hf Hc. unfold RollbackConfigMetadata. rewrite (c_bind_run _ _ _ _ _ (existing_history_run _ _ _ Hh)).
  rewrite (bool_decide_eq_false_2 _ Hf). unfold c_bind at 1. cbn [negb c_require c_ret].
  rewrite (c_bind_run _ _ _ _ _ (existing_config_run _ _ _ Hc)). unfold c_bind at 1, c_wrap at 1, c_on_err at 1.
  destruct (rollbackMetaFieldValue _ _ _) as [[[old new] cfg']|e]; cbn [c_res c_ret c_err]; [|done].
  unfold c_bind at 1, c_wrap at 1, c_on_err at 1. by destruct (ValidateConfigMetadataConstraints cfg') as [[]|e].
Qed.

(** Which changes of metadata can be taken back.  After a request for one field
    succeeded, the rollback of the history row it left brings a text field back: the
    configuration is what it was, with the caller as the one who updated it last.  For a bound the
    history has the text of a pointer, which is no number: the rollback always fails and
    changes nothing. *)
Theorem metadata_rollback ad req id who who' reason w cfg c1 w1
    (Hscan : forall s, is_pointer s = true -> is_ok (Sscanf_f s) = false)
    (Hmin : is_pointer (ad_min ad) = true) (Hmax : is_pointer (ad_max ad) = true) :
  histories_ok (cw_db w) -> UpdateConfigMetadataReq_Validate req = Ok tt -> config_row id (cw_db w) = Some cfg ->
  ValidateConfigMetadataConstraints cfg = Ok tt -> UpdateConfigMetadata ad req id who w = (inl c1, w1) ->
  let '(r, w2) := RollbackConfigMetadata (mkRollbackReq (t_next_history (cw_db w)) reason) id who' w1 in
  if single_text req then r = inl (with_UpdatedBy (ca_userID who) cfg) /\ config_row id (cw_db w2) = Some (with_UpdatedBy (ca_userID who) cfg)
  else succeeded r = false /\ w2 = w1.
Proof.
  intros Hok Hval Hc Hm Hu.
  apply UpdateConfigMetadata_out in Hu as [[[=] _]|(cfg0 & old & new & cfg' & Hc' & Hp & Hm' & [= ->] & ->)].
  rewrite Hc in Hc'. injection Hc' as <-. pose proof (patch_identity _ _ _ _ _ _ Hp) as Hid.
  destruct (config_row_id _ _ _ Hc) as [<- _]. assert (dc_ID cfg' = dc_ID cfg) as Hid' by (unfold identity in Hid; congruence).
  set (c1 := with_UpdatedBy (ca_userID who) cfg').
  set (h := meta_row (t_next_history (cw_db w)) ChangeTypeUpdate None cfg' (GetChangeField req) old new (um_Reason req) who).
  assert (Hh : history_row (t_next_history (cw_db w)) (saved c1 h (cw_db w)) = Some h) by by apply new_saved_history.
  assert (Hf : ch_ChangeField h <> ChangeFieldValue).
  { destruct req as [[?|] [?|] [?|] [?|] [?|] [?|] ?]; try discriminate Hval; cbn; discriminate. }
  erewrite rollback_metadata_eq; [|exact Hh|exact Hf|exact (saved_rows cfg c1 h (cw_db w) (config_ids _ Hok) Hc Hid')].
  assert (Hb : forall q a, is_pointer a = true -> exists e, Sscanf_f (pointer_text a q) = Err e /\ pointer_text a q <> "").
  { intros q a Ha. assert (is_pointer (pointer_text a q) = true) as Hpt by by destruct q.
    specialize (Hscan _ Hpt). destruct (Sscanf_f _) as [?|e]; [discriminate Hscan|]. exists e. split; [done|]. intros E. rewrite E in Hpt. discriminate Hpt. }
  assert (Hmc : forall u, ValidateConfigMetadataConstraints (with_UpdatedBy u cfg) = Ok tt) by done.
  destruct req as [[?|] [?|] [?|] [?|] [?|] [?|] ?]; try discriminate Hval; injection Hp as <- <- <-; subst c1 h;
    cbn [meta_row ch_ChangeField ch_OldValue GetChangeField um_DefaultValue um_Description um_MinValue um_MaxValue um_Pattern um_Options
         rollbackMetaFieldValue single_text].
  all: try (destruct (Hb (dc_MinValue cfg) _ Hmin) as (e & He & Hne); unfold read_bound; rewrite (proj2 (String.eqb_neq _ _) Hne), He; done).
  all: try (destruct (Hb (dc_MaxValue cfg) _ Hmax) as (e & He & Hne); unfold read_bound; rewrite (proj2 (String.eqb_neq _ _) Hne), He; done).
  all: match goal with |- context [ValidateConfigMetadataConstraints ?c] => change c with (with_UpdatedBy (ca_userID who) cfg) end; rewrite Hmc;
    split; [reflexivity|]; cbn [cw_db cw_set_db].
  all: match goal with |- config_row _ (saved ?c ?h (saved ?c1 ?h1 ?d)) = _ => refine (saved_rows c1 c h (saved c1 h1 d) _ (saved_rows cfg c1 h1 d (config_ids _ Hok) Hc Hid') eq_refl) end.
  all: unfold saved, with_history; cbn [t_configs]; rewrite save_row_ids; exact (config_ids _ Hok).
Qed.
End Changes.

Module ConfigSample.
Import ParameterSample.
#[export] Instance config_texts : ConfigTexts := {|
  MatchString p s := Ok (String.eqb p s); json_strings s := Ok (split "," s); json_ints s := Err s; json_floats s := Err s; json_bools s := Err s;
  num_error f s := f +:+ ": parsing " +:+ s; f_text := FormatFloat; list_text := join " "
|}.
#[export] Instance service_texts : ServiceTexts := {|
  Sscanf_f s := match ParseFloat s with Some q => if is_pointer s then Err "syntax" else Ok q | None => Err "syntax" end;
  decode_response s := if String.eqb s "ok" then Some (mkUpdateResponse "1" true "") else None
|}.
Definition limit : DynamicConfig :=
  mkConfig 1 "Rate.Limit" 2 "rate" 2 "the limit" false "5" (Some 1%Q) (Some 10%Q) "" "" None.
Definition detector : DynamicConfig := mkConfig 2 "algo.detector" 2 "algo" 0 "" false "" None None "" "" None.
Definition w0 : cworld :=
  mkCworld (mkCdb [limit; detector] [] 1) {[etcd_key limit := "5"; etcd_key detector := "abc"]} ∅ [] [].
Definition nobody : caller := mkCaller 9 "10.0.0.1" "curl".
Definition silent : subscription := mkSubscription None [] false.
Definition w1 : cworld := (UpdateConfigValue silent (mkUpdateValueReq "7" "more") 1 nobody w0).2.

Lemma w0_ok : histories_ok (cw_db w0).
Proof. split; cbn; [repeat constructor; set_solver|constructor..]. Qed.
Lemma five_accepted : accepted limit "5" (SInt 5).
Proof. apply accepted_int; [done..| | |done]; intros m [= <-]; vm_compute; discriminate. Qed.
Lemma seven_goes_in : UpdateConfigValue silent (mkUpdateValueReq "7" "more") 1 nobody w0 = (inl tt, w1).
Proof. vm_compute. reflexivity. Qed.
Lemma value_rollback_restores_witness :
  exists w2, RollbackConfigValue silent (mkRollbackReq 1 "back") 1 nobody w1 = (inl tt, w2) /\
    cw_etcd w2 = cw_etcd w0 /\ cw_viper w2 !! "rate.limit" = Some (SInt 5).
Proof.
  refine (value_rollback_restores silent silent (mkUpdateValueReq "7" "more") 1 nobody nobody "back" limit "5" (SInt 5) w0 w1
            w0_ok eq_refl eq_refl _ five_accepted seven_goes_in _); vm_compute; reflexivity.
Defined.
Lemma one_update : rtc config_step w0 w1.
Proof. apply rtc_once. exact (step_update_value silent (mkUpdateValueReq "7" "more") 1 nobody w0). Qed.
Lemma config_history_grows_witness :
  histories_ok (cw_db w1) /\ map (fun h => (ch_ID h, ch_OldValue h, ch_NewValue h)) (t_histories (cw_db w1)) = [(1, "5", "7")].
Proof. split; [exact (proj1 (config_history_grows w0 w1 w0_ok one_update))|vm_compute; reflexivity]. Defined.

Definition ad0 : addresses := mkAddresses "0xc0001" "0xc0002" "0xc0003" "0xc0004".
Definition only_max : UpdateConfigMetadataReq := mkUpdateMetadataReq None None None (Some 20%Q) None None "wider".
Definition described : UpdateConfigMetadataReq := mkUpdateMetadataReq None (Some "a limit") None None None None "words".
Lemma pointers_are_no_numbers s : is_pointer s = true -> is_ok (Sscanf_f s) = false.
Proof. intros Hp. cbn [Sscanf_f service_texts]. rewrite Hp. by destruct (ParseFloat s). Qed.
Lemma metadata_rollback_witness :
  (RollbackConfigMetadata (mkRollbackReq 1 "back") 1 nobody (UpdateConfigMetadata ad0 described 1 nobody w0).2).1 = inl (with_UpdatedBy 9 limit) /\
  succeeded (RollbackConfigMetadata (mkRollbackReq 1 "back") 1 nobody (UpdateConfigMetadata ad0 only_max 1 nobody w0).2).1 = false.
Proof.
  split.
  - pose proof (metadata_rollback ad0 described 1 nobody nobody "back" w0 limit _ _ pointers_are_no_numbers eq_refl eq_refl w0_ok eq_refl eq_refl eq_refl
      (surjective_pairing (UpdateConfigMetadata ad0 described 1 nobody w0))) as Hr.
    match type of Hr with let '(_, _) := ?x in _ => rewrite (surjective_pairing x) in Hr end. exact (proj1 Hr).
  - pose proof (metadata_rollback ad0 only_max 1 nobody nobody "back" w0 limit _ _ pointers_are_no_numbers eq_refl eq_refl w0_ok eq_refl eq_refl eq_refl
      (surjective_pairing (UpdateConfigMetadata ad0 only_max 1 nobody w0))) as Hr.
    match type of Hr with let '(_, _) := ?x in _ => rewrite (surjective_pairing x) in Hr end. exact (proj1 Hr).
Defined.

(** A value is rolled back to the old value of another configuration. *)
Example history_of_another :
  (RollbackConfigValue silent (mkRollbackReq 1 "wrong") 2 nobody w1).1 = inl tt /\
  cw_etcd (RollbackConfigValue silent (mkRollbackReq 1 "wrong") 2 nobody w1).2 !! etcd_key detector = Some "5".
Proof. split; vm_compute; reflexivity. Qed.
(** A value that etcd does not have yet cannot be set. *)
Example unknown_to_etcd :
  (UpdateConfigValue silent (mkUpdateValueReq "7" "first") 1 nobody (cw_set_etcd ∅ w0)).1
    = inr (Wrap "failed to get current config value from etcd: " (New "key not found: /rcabench/config/global/Rate.Limit") "").
Proof. vm_compute. reflexivity. Qed.
End ConfigSample.
