(* ===== verification/ChaosSystems.v ===== *)
(** * Chaos systems ([module/chaossystem/], [config/chaos_system.go])

    A system is a target of faults: a row with the pattern of its namespaces and their
    number.  The runtime keeps a copy of the rows that are enabled and makes the list of
    namespaces of it. *)

From S2P Require Import Prelude GoStrings Consts Tables Labels.
#[local] Open Scope Z_scope.

(** ** Data *)

Record System := mkSystem {
  sy_ID : Z; sy_Name : string; sy_DisplayName : string; sy_NsPattern : string; sy_ExtractPattern : string;
  sy_Count : Z; sy_Description : string; sy_IsBuiltin : bool; sy_Status : Z
}.
Record SystemMetadata := mkSystemMetadata { sm_ID : Z; sm_SystemName : string; sm_MetadataType : string; sm_ServiceName : string; sm_Data : string }.
(** The calls of the chaos library, whose failures are only logged. *)
Inductive chaos_call := RegisterSystem (name nsPattern displayName : string) | UnregisterSystem (name : string).
Record sdb := mkSdb { t_systems : list System; t_metadata : list SystemMetadata; t_calls : list chaos_call; t_system_id : Z; t_metadata_id : Z }.
Definition set_systems (l : list System) (d : sdb) : sdb := mkSdb l (t_metadata d) (t_calls d) (t_system_id d) (t_metadata_id d).
Definition set_metadata (l : list SystemMetadata) (d : sdb) : sdb := mkSdb (t_systems d) l (t_calls d) (t_system_id d) (t_metadata_id d).
Definition chaos_do (c : chaos_call) : Tx sdb unit :=
  tx_do (fun d => mkSdb (t_systems d) (t_metadata d) (t_calls d ++ [c]) (t_system_id d) (t_metadata_id d)).

(** ** The repository *)

Definition live_system (id : Z) (s : System) : bool := (sy_ID s =? id) && negb (sy_Status s =? deleted).
Definition system_missing (id : Z) : goerr := Wrap ("system with id " +:+ itoa id +:+ ": ") (Is NotFound) "".
Definition GetSystemByID (id : Z) : Tx sdb System :=
  tx_on_err (fun _ => system_missing id) (tx_first (fun d => find (live_system id) (t_systems d))).
(** A name is unique among all rows, the deleted ones too. *)
Definition repo_CreateSystem (s : System) : Tx sdb System :=
  tx_wrap "failed to create system: " (fun d =>
    let s := mkSystem (t_system_id d) (sy_Name s) (sy_DisplayName s) (sy_NsPattern s) (sy_ExtractPattern s)
               (if sy_Count s =? 0 then 1 else sy_Count s) (sy_Description s) (sy_IsBuiltin s) (sy_Status s) in
    if key_free (fun s => Some (sy_Name s)) (t_systems d) s
    then inl (s, mkSdb (t_systems d ++ [s]) (t_metadata d) (t_calls d) (t_system_id d + 1) (t_metadata_id d))
    else inr (Is DuplicatedKey)).
(** An UPDATE of the row with this identifier, unless it is deleted. *)
Definition update_system (id : Z) (f : System -> System) : Tx sdb unit := fun d =>
  if existsb (live_system id) (t_systems d)
  then inl (tt, set_systems (map (fun s => if live_system id s then f s else s) (t_systems d)) d)
  else inr (system_missing id).
Definition with_status (st : Z) (s : System) : System :=
  mkSystem (sy_ID s) (sy_Name s) (sy_DisplayName s) (sy_NsPattern s) (sy_ExtractPattern s) (sy_Count s) (sy_Description s) (sy_IsBuiltin s) st.
Definition repo_DeleteSystem (id : Z) : Tx sdb unit := update_system id (with_status deleted).
(** The conflict clause names columns without a unique index: a row is always added, unless
    the statement fails; then the first row with these names is given the data. *)
Definition same_metadata (a b : SystemMetadata) : bool :=
  String.eqb (sm_SystemName a) (sm_SystemName b) && String.eqb (sm_MetadataType a) (sm_MetadataType b)
  && String.eqb (sm_ServiceName a) (sm_ServiceName b).
Definition m_with (id : Z) (data : string) (m : SystemMetadata) : SystemMetadata :=
  mkSystemMetadata id (sm_SystemName m) (sm_MetadataType m) (sm_ServiceName m) data.
Definition UpsertSystemMetadata (fails : SystemMetadata -> option string) (m : SystemMetadata) : Tx sdb unit := fun d =>
  match fails m with
  | None => inl (tt, mkSdb (t_systems d) (t_metadata d ++ [m_with (t_metadata_id d) (sm_Data m) m]) (t_calls d) (t_system_id d) (t_metadata_id d + 1))
  | Some e =>
      match find (same_metadata m) (t_metadata d) with
      | Some existing =>
          inl (tt, set_metadata (map (fun x => if sm_ID x =? sm_ID existing then m_with (sm_ID x) (sm_Data m) x else x) (t_metadata d)) d)
      | None => inr (Wrap "failed to upsert system metadata: " (New e) "")
      end
  end.
Definition ListSystemMetadata (systemName metadataType : string) (d : sdb) : list SystemMetadata :=
  List.filter (fun m => String.eqb (sm_SystemName m) systemName
                        && (String.eqb metadataType "" || String.eqb (sm_MetadataType m) metadataType)) (t_metadata d).

(** ** The service *)

Record CreateChaosSystemReq := mkCreateSystem {
  cs_Name : string; cs_DisplayName : string; cs_NsPattern : string; cs_ExtractPattern : string; cs_Count : Z; cs_Description : string
}.
Record UpdateChaosSystemReq := mkUpdateSystem {
  us_DisplayName : option string; us_NsPattern : option string; us_ExtractPattern : option string; us_Count : option Z; us_Description : option string
}.
Record UpsertSystemMetadataReq := mkUpsertMetadata { um_MetadataType : string; um_ServiceName : string; um_Data : string }.

(** Regular expressions; [FindStringSubmatch] gives the groups of a match. *)
Class Regexps := {
  Compile : string -> res unit;
  FindStringSubmatch : string -> string -> option (list string);
  MatchesPattern : string -> string -> bool
}.

Section Service.
Context `{Regexps}.
(** Both [%w] of the format are lost to those who unwrap the error. *)
Definition valid_regex (field pattern : string) : Tx sdb unit :=
  match Compile pattern with
  | Ok _ => tx_ret tt
  | Err e => tx_err (New ("invalid " +:+ field +:+ " regex: " +:+ e +:+ ": bad request"))
  end.
Definition register (s : System) : Tx sdb unit := chaos_do (RegisterSystem (sy_Name s) (sy_NsPattern s) (sy_DisplayName s)).
(** The services of this module run their statements one by one, not in a transaction. *)
Definition CreateSystem (req : CreateChaosSystemReq) : Tx sdb System :=
  valid_regex "ns_pattern" (cs_NsPattern req) ;;^
  valid_regex "extract_pattern" (cs_ExtractPattern req) ;;^
  let^ system := tx_wrap "failed to create system: "
    (repo_CreateSystem (mkSystem 0 (cs_Name req) (cs_DisplayName req) (cs_NsPattern req) (cs_ExtractPattern req) (cs_Count req)
                          (cs_Description req) false enabled)) in
  register system ;;^ tx_ret system.
Definition given_regex (field : string) (o : option string) : Tx sdb unit := match o with Some p => valid_regex field p | None => tx_ret tt end.
Definition updates_of (req : UpdateChaosSystemReq) (s : System) : System :=
  mkSystem (sy_ID s) (sy_Name s) (default (sy_DisplayName s) (us_DisplayName req)) (default (sy_NsPattern s) (us_NsPattern req))
    (default (sy_ExtractPattern s) (us_ExtractPattern req)) (default (sy_Count s) (us_Count req))
    (default (sy_Description s) (us_Description req)) (sy_IsBuiltin s) (sy_Status s).
Definition no_updates (req : UpdateChaosSystemReq) : bool :=
  match us_DisplayName req, us_NsPattern req, us_ExtractPattern req, us_Count req, us_Description req with
  | None, None, None, None, None => true
  | _, _, _, _, _ => false
  end.
Definition UpdateSystem (id : Z) (req : UpdateChaosSystemReq) : Tx sdb System :=
  let^ system := GetSystemByID id in
  given_regex "ns_pattern" (us_NsPattern req) ;;^
  given_regex "extract_pattern" (us_ExtractPattern req) ;;^
  if no_updates req then tx_ret system
  else
    update_system id (updates_of req) ;;^
    let^ system := GetSystemByID id in
    register system ;;^ tx_ret system.
Definition DeleteSystem (id : Z) : Tx sdb unit :=
  let^ system := GetSystemByID id in
  tx_require (negb (sy_IsBuiltin system)) (Wrap ("cannot delete builtin system " +:+ sy_Name system +:+ ": ") (Is BadRequest) "") ;;^
  repo_DeleteSystem id ;;^
  chaos_do (UnregisterSystem (sy_Name system)).
(** The items before one that fails stay. *)
Fixpoint upsert_items (fails : SystemMetadata -> option string) (name : string) (items : list UpsertSystemMetadataReq) (d : sdb)
    : (unit + goerr) * sdb :=
  match items with
  | [] => (inl tt, d)
  | i :: items =>
      match UpsertSystemMetadata fails (mkSystemMetadata 0 name (um_MetadataType i) (um_ServiceName i) (um_Data i)) d with
      | inl (_, d') => upsert_items fails name items d'
      | inr e => (inr (Wrap ("failed to upsert metadata (type=" +:+ um_MetadataType i +:+ ", service=" +:+ um_ServiceName i +:+ "): ") e ""), d)
      end
  end.
Definition UpsertMetadata (fails : SystemMetadata -> option string) (id : Z) (items : list UpsertSystemMetadataReq) (d : sdb)
    : (unit + goerr) * sdb :=
  match GetSystemByID id d with
  | inl (system, d') => upsert_items fails (sy_Name system) items d'
  | inr e => (inr e, d)
  end.
Definition ListMetadata (id : Z) (metadataType : string) : Tx sdb (list SystemMetadata) :=
  let^ system := GetSystemByID id in tx_get (ListSystemMetadata (sy_Name system) metadataType).
End Service.

(** ** The systems of the runtime ([config/chaos_system.go]) *)

Record ChaosSystemConfig := mkChaosSystem { ccf_System : string; ccf_Count : Z; ccf_NsPattern : string; ccf_ExtractPattern : string }.
Abbreviation manager := (gmap string ChaosSystemConfig).
Definition row_config (s : System) : ChaosSystemConfig := mkChaosSystem (sy_Name s) (sy_Count s) (sy_NsPattern s) (sy_ExtractPattern s).
(** The enabled rows, nothing when there is none or the table cannot be read. *)
Definition loadFromSystemTable (rows : res (list System)) : option manager :=
  match rows with
  | Err _ => None
  | Ok rows =>
      match List.filter (fun s => sy_Status s =? 1) rows with
      | [] => None
      | rows => Some (fold_left (fun m s => <[sy_Name s := row_config s]> m) rows ∅)
      end
  end.
(** What the dynamic configuration has instead, in the order of the range over the map:
    each system with what is decoded of it; [valid] is [SystemType.IsValid]. *)
Fixpoint load_configured (valid : string -> bool) (cfg : list (string * res ChaosSystemConfig)) (m : manager) : res manager :=
  match cfg with
  | [] => Ok m
  | (sys, c) :: cfg =>
      let? c := res_wrap ("failed to decode config for system " +:+ sys +:+ ": ") c in
      require (valid sys) ("invalid system type: " +:+ sys) ;;?
      load_configured valid cfg (<[sys := mkChaosSystem sys (ccf_Count c) (ccf_NsPattern c) (ccf_ExtractPattern c)]> m)
  end.
Definition load (rows : res (list System)) (valid : string -> bool) (cfg : list (string * res ChaosSystemConfig)) : res manager :=
  match loadFromSystemTable rows with
  | Some m => Ok m
  | None => load_configured valid cfg ∅
  end.

(** *** Namespaces *)

Definition remove_anchors (pattern : string) : string :=
  let t := match chars pattern with c :: l => if Ascii.eqb c "^" then of_chars l else pattern | [] => pattern end in
  match rev (chars t) with c :: l => if Ascii.eqb c "$" then of_chars (rev l) else t | [] => t end.
(** [\d+] becomes [%d]; the text does not contain itself shifted. *)
Fixpoint replace_digits (l : list ascii) : list ascii :=
  match l with
  | "\"%char :: "d"%char :: "+"%char :: l => "%"%char :: "d"%char :: replace_digits l
  | c :: l => c :: replace_digits l
  | [] => []
  end.
Definition convertPatternToTemplate (pattern : string) : string := of_chars (replace_digits (chars (remove_anchors pattern))).
(** [fmt.Sprintf] of one number, for a template whose only verbs are [%d]. *)
Fixpoint sprintf_chars (l : list ascii) (arg : option string) : string :=
  match l with
  | "%"%char :: "d"%char :: l =>
      match arg with
      | Some a => a +:+ sprintf_chars l None
      | None => "%!d(MISSING)" +:+ sprintf_chars l None
      end
  | c :: l => String c (sprintf_chars l arg)
  | [] => match arg with Some a => "%!(EXTRA int=" +:+ a +:+ ")" | None => "" end
  end.
Definition sprintf_d (template : string) (n : Z) : string := sprintf_chars (chars template) (Some (itoa n)).
Definition system_namespaces (cfg : ChaosSystemConfig) : res (list string) :=
  let template := convertPatternToTemplate (ccf_NsPattern cfg) in
  require (negb (String.eqb template "")) ("failed to convert ns_pattern to template: " +:+ ccf_NsPattern cfg) ;;?
  Ok (map (fun i => sprintf_d template (Z.of_nat i)) (seq 0 (Z.to_nat (ccf_Count cfg)))).
(** [order] is the order of the range over the map. *)
Fixpoint namespaces_of (l : list ChaosSystemConfig) : res (list string) :=
  match l with
  | [] => Ok []
  | cfg :: l => let? ns := system_namespaces cfg in let? rest := namespaces_of l in Ok (ns ++ rest)
  end.
Definition GetAllNamespaces (order : manager -> list (string * ChaosSystemConfig)) (m : manager) : res (list string) :=
  namespaces_of (map snd (order m)).

(** [Sscanf] of [%d] on the group of a match, as [scan] reads it. *)
Definition ExtractNsNumber `{Regexps} (scan : string -> res Z) (cfg : ChaosSystemConfig) (namespace : string) : res Z :=
  require (negb (String.eqb (ccf_ExtractPattern cfg) "")) ("extract pattern not defined for system " +:+ ccf_System cfg) ;;?
  res_wrap ("invalid extract pattern for system " +:+ ccf_System cfg +:+ ": ") (Compile (ccf_ExtractPattern cfg)) ;;?
  match FindStringSubmatch (ccf_ExtractPattern cfg) namespace ≫= fun m => m !! 2%nat with
  | Some group => res_wrap ("failed to parse number from namespace '" +:+ namespace +:+ "': ") (scan group)
  | None => Err ("namespace '" +:+ namespace +:+ "' does not match extract pattern for system " +:+ ccf_System cfg)
  end.

Example template_ts : convertPatternToTemplate "^ts\d+$" = "ts%d". Proof. reflexivity. Qed.
Example template_suffix : convertPatternToTemplate "^test_\d+_suffix$" = "test_%d_suffix". Proof. reflexivity. Qed.

(** ** Namespaces of a pattern *)

Definition plain (s : string) : Prop := ("\"%char ∉ chars s) /\ ("%"%char ∉ chars s).
Lemma replace_digits_plain l l' : "\"%char ∉ l -> replace_digits (l ++ l') = l ++ replace_digits l'.
Proof.
  induction l as [|c l IH]; intros Hn; [done|]. rewrite not_elem_of_cons in Hn. destruct Hn as [Hc Hl]. cbn [app replace_digits].
  destruct c as [[] [] [] [] [] [] [] []]; by rewrite IH.
Qed.
Lemma sprintf_plain l l' arg : "%"%char ∉ l -> sprintf_chars (l ++ l') arg = of_chars l +:+ sprintf_chars l' arg.
Proof.
  induction l as [|c l IH]; intros Hn; [done|]. rewrite not_elem_of_cons in Hn. destruct Hn as [Hc Hl]. cbn [app sprintf_chars of_chars].
  assert (sprintf_chars (c :: l ++ l') arg = String c (sprintf_chars (l ++ l') arg)) as Hs.
  { destruct c as [[] [] [] [] [] [] [] []]; try reflexivity. by destruct Hc. }
  cbn [sprintf_chars] in Hs. rewrite Hs, IH by done. reflexivity.
Qed.
Lemma remove_anchors_around s : remove_anchors ("^" +:+ (s +:+ "$")) = s.
Proof.
  unfold remove_anchors. rewrite !chars_app. change (chars "^") with ["^"%char]. change (chars "$") with ["$"%char]. cbn [app].
  change (Ascii.eqb "^" "^") with true. cbn match. rewrite chars_of_chars, rev_app_distr. cbn [rev app].
  change (Ascii.eqb "$" "$") with true. cbn match. by rewrite rev_involutive, of_chars_chars.
Qed.
Lemma template_of pre suf : plain pre -> plain suf -> convertPatternToTemplate ("^" +:+ ((pre +:+ "\d+" +:+ suf) +:+ "$")) = pre +:+ "%d" +:+ suf.
Proof.
  intros [Hp _] [Hs _]. unfold convertPatternToTemplate. rewrite remove_anchors_around, !chars_app, replace_digits_plain by done.
  change (chars "\d+") with ["\"%char; "d"%char; "+"%char]. cbn [app replace_digits].
  rewrite <- (app_nil_r (chars suf)), replace_digits_plain by done. cbn [replace_digits]. rewrite app_nil_r.
  rewrite of_chars_app, of_chars_chars. f_equal. cbn. by rewrite of_chars_chars.
Qed.
Lemma sprintf_of pre suf n : plain pre -> plain suf -> sprintf_d (pre +:+ "%d" +:+ suf) n = pre +:+ itoa n +:+ suf.
Proof.
  intros [_ Hp] [_ Hs]. unfold sprintf_d. rewrite !chars_app, sprintf_plain by done. change (chars "%d") with ["%"%char; "d"%char]. cbn [app sprintf_chars].
  rewrite of_chars_chars. f_equal. f_equal. rewrite <- (app_nil_r (chars suf)), sprintf_plain, of_chars_chars by done. cbn [sprintf_chars].
  apply chars_inj. by rewrite chars_app, app_nil_r.
Qed.
Lemma str_app_inj_l p s t : p +:+ s = p +:+ t -> s = t.
Proof. intros E. apply chars_inj. assert (chars (p +:+ s) = chars (p +:+ t)) as Hc by by rewrite E. rewrite !chars_app in Hc. by apply app_inv_head in Hc. Qed.
Lemma str_app_inj_r p s t : s +:+ p = t +:+ p -> s = t.
Proof. intros E. apply chars_inj. assert (chars (s +:+ p) = chars (t +:+ p)) as Hc by by rewrite E. rewrite !chars_app in Hc. by apply app_inv_tail in Hc. Qed.

(** The namespaces of a system.  For a pattern [^<pre>\d+<suf>$], whose two texts hold no
    backslash and no percent sign, the list is [<pre>0<suf>], [<pre>1<suf>], ... up to the
    configured number, and no namespace occurs twice. *)
Theorem pattern_namespaces cfg pre suf :
  ccf_NsPattern cfg = "^" +:+ ((pre +:+ "\d+" +:+ suf) +:+ "$") -> plain pre -> plain suf -> ccf_Count cfg < 2 ^ 63 ->
  exists l, system_namespaces cfg = Ok l /\ NoDup l /\ length l = Z.to_nat (ccf_Count cfg) /\
    forall i, (i < length l)%nat -> l !! i = Some (pre +:+ itoa (Z.of_nat i) +:+ suf).
Proof.
  intros Hpat Hp Hs Hc. unfold system_namespaces. rewrite Hpat, template_of by done.
  assert (String.eqb (pre +:+ "%d" +:+ suf) "" = false) as ->.
  { apply String.eqb_neq. intros E. assert (length (chars (pre +:+ "%d" +:+ suf)) = 0%nat) as Hl by by rewrite E.
    rewrite !chars_app, !length_app in Hl. cbn in Hl. lia. }
  cbn [negb require res_bind]. eexists. split; [reflexivity|]. split; [|split].
  - apply NoDup_fmap_2_strong; [|apply NoDup_seq]. intros i j [_ Hi]%elem_of_seq [_ Hj]%elem_of_seq E. rewrite !sprintf_of in E by done.
    apply str_app_inj_l, str_app_inj_r in E.
    assert (forall k, (k < 0 + Z.to_nat (ccf_Count cfg))%nat -> min_int64 <= Z.of_nat k <= max_int64) as Hb by (unfold min_int64, max_int64; lia).
    pose proof (atoi_itoa (Z.of_nat i) (Hb i Hi)) as Ei. rewrite E, (atoi_itoa _ (Hb j Hj)) in Ei. injection Ei. lia.
  - by rewrite length_map, length_seq.
  - intros i Hi. rewrite length_map, length_seq in Hi. rewrite list_lookup_fmap, lookup_seq_lt by done. cbn. by rewrite sprintf_of.
Qed.

(** ** What stays of a system *)

Record systems_ok (d : sdb) : Prop := {
  system_names : NoDup (map sy_Name (t_systems d));
  system_ids : NoDup (map sy_ID (t_systems d));
  systems_below : Forall (fun s => sy_ID s < t_system_id d) (t_systems d)
}.
Section Steps.
Context `{Regexps}.

Inductive system_step : sdb -> sdb -> Prop :=
| step_create req d s d' : CreateSystem req d = inl (s, d') -> system_step d d'
| step_update id req d s d' : UpdateSystem id req d = inl (s, d') -> system_step d d'
| step_delete id d u d' : DeleteSystem id d = inl (u, d') -> system_step d d'
| step_metadata fails id items d : system_step d (UpsertMetadata fails id items d).2.

(** What a call does to the rows. *)
Inductive rows_changed (d : sdb) : list System -> Z -> Prop :=
| rows_same : rows_changed d (t_systems d) (t_system_id d)
| rows_added s : sy_ID s = t_system_id d -> sy_Name s ∉ map sy_Name (t_systems d) -> sy_IsBuiltin s = false ->
    rows_changed d (t_systems d ++ [s]) (t_system_id d + 1)
| rows_updated id f : (forall s, sy_ID (f s) = sy_ID s /\ sy_Name (f s) = sy_Name s /\ sy_IsBuiltin (f s) = sy_IsBuiltin s) ->
    (forall s, s ∈ t_systems d -> live_system id s = true -> sy_IsBuiltin s = true -> sy_Status (f s) = sy_Status s) ->
    rows_changed d (map (fun s => if live_system id s then f s else s) (t_systems d)) (t_system_id d).

Lemma GetSystemByID_inl id d s d' : GetSystemByID id d = inl (s, d') <-> find (live_system id) (t_systems d) = Some s /\ d' = d.
Proof. unfold GetSystemByID. by rewrite tx_wrap_inl, tx_first_inl. Qed.
Lemma valid_regex_inl f p d u d' : valid_regex f p d = inl (u, d') -> d' = d.
Proof. unfold valid_regex. destruct (Compile p); [by intros [= _ <-]|discriminate]. Qed.
Lemma given_regex_inl f o d u d' : given_regex f o d = inl (u, d') -> d' = d.
Proof. destruct o; [apply valid_regex_inl|by intros [= _ <-]]. Qed.
Lemma update_system_inl id f d u d' : update_system id f d = inl (u, d') ->
  d' = set_systems (map (fun s => if live_system id s then f s else s) (t_systems d)) d.
Proof. unfold update_system. destruct (existsb _ _); [by intros [= _ <-]|discriminate]. Qed.

Lemma create_rows req d s d' : CreateSystem req d = inl (s, d') -> rows_changed d (t_systems d') (t_system_id d').
Proof.
  unfold CreateSystem. intros (? & d1 & ->%valid_regex_inl & (? & d2 & ->%valid_regex_inl & (s0 & d3 & Hc & (? & d4 & [= _ <-] & [= <- <-])%tx_bind_inl)%tx_bind_inl)%tx_bind_inl)%tx_bind_inl.
  unfold repo_CreateSystem, tx_wrap in Hc. rewrite !tx_wrap_inl in Hc. destruct (key_free _ _ _) eqn:E; [|discriminate]. injection Hc as <- <-.
  cbn. apply rows_added; [done| |done]. cbn in E. apply negb_true_iff in E. intros (y & Hy & Hin)%list_elem_of_fmap.
  apply not_true_iff_false in E. apply E, existsb_elem. exists y. split; [done|]. apply bool_decide_eq_true. by f_equal.
Qed.
Lemma update_rows id req d s d' : UpdateSystem id req d = inl (s, d') -> rows_changed d (t_systems d') (t_system_id d').
Proof.
  unfold UpdateSystem. intros (s0 & d1 & [_ ->]%GetSystemByID_inl & (? & d2 & ->%given_regex_inl & (? & d3 & ->%given_regex_inl & Hu)%tx_bind_inl)%tx_bind_inl)%tx_bind_inl.
  destruct (no_updates req); [by injection Hu as _ <-; constructor|].
  apply tx_bind_inl in Hu as (? & d4 & ->%update_system_inl & (? & d5 & [_ ->]%GetSystemByID_inl & (? & d6 & [= _ <-] & [= _ <-])%tx_bind_inl)%tx_bind_inl).
  cbn. apply rows_updated; [done|]. intros s1 _ _ _. done.
Qed.
Lemma delete_rows id d u d' : NoDup (map sy_ID (t_systems d)) -> DeleteSystem id d = inl (u, d') -> rows_changed d (t_systems d') (t_system_id d').
Proof.
  intros Hnd. unfold DeleteSystem. intros (s0 & d1 & [Hf ->]%GetSystemByID_inl & (? & d2 & [Hb ->]%tx_require_inl & (? & d3 & ->%update_system_inl & [= _ <-])%tx_bind_inl)%tx_bind_inl)%tx_bind_inl.
  cbn. apply rows_updated; [done|]. intros s1 Hin Hl Hbi. apply find_some in Hf as [Hin0%list_elem_of_In Hl0].
  assert (s1 = s0) as ->; [|by rewrite Hbi in Hb]. unfold live_system in Hl, Hl0. apply andb_true_iff in Hl as [Hl%Z.eqb_eq _], Hl0 as [Hl0%Z.eqb_eq _].
  apply (nodup_map_inj sy_ID (t_systems d)); congruence.
Qed.
Lemma upsert_items_rows fails name items d : t_systems (upsert_items fails name items d).2 = t_systems d /\ t_system_id (upsert_items fails name items d).2 = t_system_id d.
Proof.
  revert d. induction items as [|i items IH]; intros d; [done|]. cbn [upsert_items].
  destruct (UpsertSystemMetadata _ _ d) as [[? d']|e] eqn:E; [|done]. destruct (IH d') as [-> ->]. revert E. unfold UpsertSystemMetadata.
  destruct (fails _); [destruct (find _ _)|]; by intros [= _ <-].
Qed.
Lemma step_rows d d' : systems_ok d -> system_step d d' -> rows_changed d (t_systems d') (t_system_id d').
Proof.
  intros Hok Hstep. destruct Hstep as [req d s d' Hs|id req d s d' Hs|id d u d' Hs|fails id items d].
  - by eapply create_rows.
  - by eapply update_rows.
  - eapply delete_rows; [exact (system_ids _ Hok)|done].
  - unfold UpsertMetadata. destruct (GetSystemByID id _) as [[s d']|e] eqn:E; [|constructor]. apply GetSystemByID_inl in E as [_ ->].
    destruct (upsert_items_rows fails (sy_Name s) items d) as [-> ->]. constructor.
Qed.
(** The builtin systems that are not deleted. *)
Definition builtin (d : sdb) : list (Z * string * Z) :=
  map (fun s => (sy_ID s, sy_Name s, sy_Status s)) (List.filter sy_IsBuiltin (t_systems d)).
Lemma rows_changed_ok d d' : systems_ok d -> rows_changed d (t_systems d') (t_system_id d') ->
  systems_ok d' /\ builtin d' = builtin d /\ map sy_Name (t_systems d) `prefix_of` map sy_Name (t_systems d').
Proof.
  intros [N I L] Hr. unfold builtin. inversion Hr as [E1 E2|s Hid Hnew Hb E1 E2|id f Hf Hst E1 E2]; clear Hr.
  - split; [split; by rewrite <- ?E1, <- ?E2|]. split; reflexivity.
  - split; [split; rewrite <- ?E1, <- ?E2|split].
    + rewrite map_app. apply NoDup_app. split; [done|]. split; [|by apply NoDup_singleton]. intros x Hx ->%list_elem_of_singleton. by apply Hnew.
    + rewrite map_app. apply NoDup_app. split; [done|]. split; [|by apply NoDup_singleton].
      intros x (y & -> & Hy)%list_elem_of_fmap Hx%list_elem_of_singleton. rewrite Forall_forall in L. specialize (L y Hy). lia.
    + apply Forall_app. split; [eapply Forall_impl; [exact L|]; cbn; lia|]. apply Forall_singleton. lia.
    + rewrite List.filter_app, map_app. cbn. by rewrite Hb, app_nil_r.
    + rewrite map_app. by exists [sy_Name s].
  - assert (forall {A} (g : System -> A), (forall s, g (f s) = g s) -> map g (map (fun s => if live_system id s then f s else s) (t_systems d)) = map g (t_systems d)) as Hg.
    { intros A g Hg. rewrite map_map. apply map_ext. intros s. by destruct (live_system id s). }
    split; [split; rewrite <- ?E1, <- ?E2|split].
    + rewrite Hg; [done|]. intros s. by destruct (Hf s) as (_ & ? & _).
    + rewrite Hg; [done|]. intros s. by destruct (Hf s) as (? & _).
    + apply Forall_map. eapply Forall_impl; [exact L|]. cbn. intros s. destruct (live_system id s); [|done]. by destruct (Hf s) as (-> & _).
    + clear E1 E2 N I L Hg. induction (t_systems d) as [|s l IH]; [done|]. cbn [map List.filter].
      assert (sy_IsBuiltin (if live_system id s then f s else s) = sy_IsBuiltin s) as -> by (destruct (live_system id s); [by destruct (Hf s) as (_ & _ & ?)|done]).
      assert (IH' := IH (fun x Hx => Hst x (list_elem_of_further _ _ _ Hx))). destruct (sy_IsBuiltin s) eqn:Eb; [|exact IH']. cbn [map]. apply f_equal2; [|exact IH'].
      destruct (live_system id s) eqn:El; [|done]. destruct (Hf s) as (-> & -> & _). rewrite (Hst s); [done|by left|done..].
    + rewrite Hg; [reflexivity|]. intros s. by destruct (Hf s) as (_ & ? & _).
Qed.

(** Systems stay what they are.  Whatever is created, updated and deleted: names and
    identifiers stay unique, no name is given up - a deleted system keeps it -, and the
    builtin systems keep their names and their status: none is ever deleted. *)
Theorem builtin_systems_stay d d' : systems_ok d -> rtc system_step d d' ->
  systems_ok d' /\ builtin d' = builtin d /\ map sy_Name (t_systems d) `prefix_of` map sy_Name (t_systems d').
Proof.
  intros Hok Hs. induction Hs as [|d d1 d2 Hstep _ IH]; [done|].
  destruct (rows_changed_ok d d1 Hok (step_rows _ _ Hok Hstep)) as (Hok1 & Hb1 & Hp1).
  destruct (IH Hok1) as (Hok2 & Hb2 & Hp2). split; [done|]. split; [congruence|by etrans].
Qed.
End Steps.

(** A name that was deleted cannot be used again: the creation fails with a duplicate key,
    which is answered with 500. *)
Lemma deleted_name_is_kept `{Regexps} req d : (exists s, s ∈ t_systems d /\ sy_Name s = cs_Name req) ->
  exists e, CreateSystem req d = inr e /\ option_map fst (HandleServiceError (Some e)) = Some 500.
Proof.
  intros (s & Hin & Hn). unfold CreateSystem, valid_regex, tx_bind. destruct (Compile (cs_NsPattern req)); [|eexists; split; reflexivity].
  cbn [tx_ret]. destruct (Compile (cs_ExtractPattern req)); [|eexists; split; reflexivity]. cbn [tx_ret].
  unfold repo_CreateSystem, tx_wrap, tx_on_err. cbn [sy_Name].
  assert (key_free (fun s => Some (sy_Name s)) (t_systems d)
    (mkSystem (t_system_id d) (cs_Name req) (cs_DisplayName req) (cs_NsPattern req) (cs_ExtractPattern req)
       (if cs_Count req =? 0 then 1 else cs_Count req) (cs_Description req) false enabled) = false) as Hk.
  { unfold key_free. cbn [sy_Name]. apply negb_false_iff, existsb_elem. exists s. split; [done|]. apply bool_decide_eq_true. by f_equal. }
  cbn in Hk |- *. rewrite Hk. eexists. split; reflexivity.
Qed.

Lemma fold_rows l (m : manager) n : NoDup (map sy_Name l) ->
  fold_left (fun m s => <[sy_Name s := row_config s]> m) l m !! n =
    match find (fun s => String.eqb (sy_Name s) n) l with Some s => Some (row_config s) | None => m !! n end.
Proof.
  revert m. induction l as [|s l IH]; intros m Hnd; [done|]. cbn [map] in Hnd. apply NoDup_cons in Hnd as [Hs Hnd]. cbn [fold_left find].
  rewrite IH by done. destruct (String.eqb_spec (sy_Name s) n) as [<-|Hn].
  - destruct (find _ l) as [s'|] eqn:E; [|by rewrite lookup_insert_eq]. apply find_some in E as [Hin%list_elem_of_In Hn%String.eqb_eq].
    destruct Hs. apply list_elem_of_fmap. by exists s'.
  - by rewrite lookup_insert_ne.
Qed.
(** The runtime has exactly the enabled systems.  When the table can be read and some row
    is enabled, the configuration is that of the enabled rows, whatever the dynamic
    configuration has for the systems. *)
Theorem load_enabled d valid cfg : systems_ok d -> (exists s, s ∈ t_systems d /\ sy_Status s = enabled) ->
  exists m, load (Ok (t_systems d)) valid cfg = Ok m /\
    forall n c, m !! n = Some c <-> exists s, s ∈ t_systems d /\ sy_Status s = enabled /\ sy_Name s = n /\ row_config s = c.
Proof.
  intros Hok (s0 & Hin0 & Hst0). unfold load, loadFromSystemTable. set (l := List.filter _ _).
  assert (Hl : forall s, s ∈ l <-> s ∈ t_systems d /\ sy_Status s = enabled).
  { intros s. unfold l. rewrite !list_elem_of_In, filter_In, Z.eqb_eq. done. }
  assert (Hnd : NoDup (map sy_Name l)) by apply nodup_map_filter, (system_names _ Hok).
  assert (Hm : forall n c, fold_left (fun m s => <[sy_Name s := row_config s]> m) l (∅ : manager) !! n = Some c <->
     exists s, s ∈ t_systems d /\ sy_Status s = enabled /\ sy_Name s = n /\ row_config s = c).
  { intros n c. rewrite fold_rows by done. split.
    - destruct (find _ l) as [s|] eqn:E; [intros [= <-]|by rewrite lookup_empty]. apply find_some in E as [Hin%list_elem_of_In Hn%String.eqb_eq].
      apply Hl in Hin as [? ?]. by exists s.
    - intros (s & Hin & Hst & <- & <-). destruct (find _ l) as [s'|] eqn:E.
      + apply find_some in E as [Hin'%list_elem_of_In Hn%String.eqb_eq]. apply Hl in Hin' as [Hin' _].
        by rewrite (nodup_map_inj sy_Name (t_systems d) s' s (system_names _ Hok) Hin' Hin Hn).
      + pose proof (find_none _ _ E s) as Hf. cbn in Hf. rewrite String.eqb_refl in Hf. discriminate Hf. apply list_elem_of_In. by apply Hl. }
  destruct l as [|s l'] eqn:El; [|by eexists].
  exfalso. assert (s0 ∈ ([] : list System)) as Hn by (apply Hl; done). by apply not_elem_of_nil in Hn.
Qed.

Module ChaosSample.
#[export] Instance regexps : Regexps := {|
  Compile p := if str_contains p "[" then Err "missing closing ]" else Ok tt;
  FindStringSubmatch p s := None; MatchesPattern p s := has_prefix s (str_take 2 p)
|}.
Definition builtin_ts : System := mkSystem 1 "ts" "Train Ticket" "^ts\d+$" "^(ts)(\d+)$" 2 "" true enabled.
Definition d0 : sdb := mkSdb [builtin_ts] [] [] 2 1.
Definition otel : CreateChaosSystemReq := mkCreateSystem "otel" "OTel" "^otel-\d+$" "^(otel-)(\d+)$" 3 "".
Definition d1 : sdb := (transaction (CreateSystem otel) d0).2.
Definition d2 : sdb := (transaction (DeleteSystem 2) d1).2.

Lemma d0_ok : systems_ok d0.
Proof. split; cbn; [repeat constructor; set_solver|repeat constructor; set_solver|repeat constructor]. Qed.
Lemma two_steps : rtc system_step d0 d2.
Proof.
  eapply rtc_l; [eapply (step_create otel d0 _ d1); vm_compute; reflexivity|].
  eapply rtc_l; [eapply (step_delete 2 d1 tt d2); vm_compute; reflexivity|]. constructor.
Qed.
Lemma builtin_systems_stay_witness :
  builtin d2 = [(1, "ts", 1)] /\ map (fun s => (sy_Name s, sy_Status s)) (t_systems d2) = [("ts", 1); ("otel", deleted)].
Proof.
  split; [|vm_compute; reflexivity].
  rewrite (proj1 (proj2 (builtin_systems_stay d0 d2 d0_ok two_steps))). vm_compute. reflexivity.
Defined.
Example builtin_is_not_deleted : (transaction (DeleteSystem 1) d0).1 = inr (Wrap "cannot delete builtin system ts: " (Is BadRequest) "").
Proof. reflexivity. Qed.

Lemma pattern_namespaces_witness :
  exists l, system_namespaces (row_config builtin_ts) = Ok l /\ length l = 2%nat /\ l !! 1%nat = Some "ts1".
Proof.
  destruct (pattern_namespaces (row_config builtin_ts) "ts" "" eq_refl ltac:(split; vm_compute; set_solver) ltac:(split; vm_compute; set_solver) ltac:(vm_compute; reflexivity))
    as (l & Hl & _ & Hn & Hi). exists l. split; [exact Hl|]. split; [exact Hn|]. refine (eq_trans (Hi 1%nat _) _); [rewrite Hn; cbn; lia|reflexivity].
Defined.
Lemma load_enabled_witness :
  exists m, load (Ok (t_systems d0)) (fun _ => false) [("hs", Ok (mkChaosSystem "" 5 "^hs\d+$" ""))] = Ok m /\
    m !! "ts" = Some (row_config builtin_ts) /\ m !! "hs" = None.
Proof.
  destruct (load_enabled d0 (fun _ => false) [("hs", Ok (mkChaosSystem "" 5 "^hs\d+$" ""))] d0_ok) as (m & Hm & Hspec).
  { exists builtin_ts. split; [by left|reflexivity]. }
  exists m. split; [exact Hm|]. split; [apply Hspec; exists builtin_ts; repeat split; by left|].
  destruct (m !! "hs") as [c|] eqn:E; [|reflexivity]. apply Hspec in E as (s & Hs & _ & Hn & _).
  apply list_elem_of_singleton in Hs as ->. discriminate Hn.
Defined.
End ChaosSample.
