(* ===== verification/ConfigListener.v ===== *)
(** * Changes of configurations in the runtime ([service/common/config_registry.go],
      [service/common/config_listener.go], [service/common/config_store.go],
      [service/consumer/config_handlers.go])

    A process loads the values of a scope from etcd, watches them and hands each change to
    the handler of the category, which applies it and answers on a channel. *)

From Stdlib Require Import QArith.QArith_base.
From S2P Require Import Prelude GoStrings Consts Redis HelmValues Parameters NamespaceLock RateLimiter Tables ConfigValues ConfigService ChaosSystems.
#[local] Open Scope Z_scope.

(** ** Handlers *)

Inductive ConfigHandler := algoConfigHandler | chaosSystemCountHandler | rateLimitingConfigHandler.
Definition Category (h : ConfigHandler) : string :=
  match h with
  | algoConfigHandler => "algo"
  | chaosSystemCountHandler => "injection.system.count"
  | rateLimitingConfigHandler => "rate_limiting"
  end.
Definition Scope (h : ConfigHandler) : Z :=
  match h with
  | algoConfigHandler => enum_code ConfigScopeGlobal
  | chaosSystemCountHandler | rateLimitingConfigHandler => enum_code ConfigScopeConsumer
  end.
(** [handlers[scope][category]]. *)
Abbreviation registry := (gmap (Z * string) ConfigHandler).
Definition register (h : ConfigHandler) (r : registry) : registry := <[(Scope h, Category h) := h]> r.
Definition ensureRegistered (h : ConfigHandler) (r : registry) : bool * registry :=
  match r !! (Scope h, Category h) with
  | Some _ => (false, r)
  | None => (true, register h r)
  end.
Definition RegisterGlobalHandlers (r : registry) : registry := (ensureRegistered algoConfigHandler r).2.
Definition RegisterConsumerHandlers (r : registry) : registry :=
  register rateLimitingConfigHandler (register chaosSystemCountHandler r).

(** ** The process *)

Record process (R : Type) := mkProcess {
  p_db : cdb; p_viper : viper; p_detector : string;
  p_responses : list (bool * string);                (* published: success and error *)
  p_manager : manager; p_monitor : option (monitor R);
  p_informers : list (list string * list string);    (* given to the controller: to add, to remove *)
  p_restart : option TokenBucketRateLimiter; p_build : option TokenBucketRateLimiter; p_algo : option TokenBucketRateLimiter
}.
Arguments mkProcess {R}. Arguments p_db {R}. Arguments p_viper {R}. Arguments p_detector {R}. Arguments p_responses {R}.
Arguments p_manager {R}. Arguments p_monitor {R}. Arguments p_informers {R}. Arguments p_restart {R}. Arguments p_build {R}. Arguments p_algo {R}.
(** What the process is connected to and was configured with. *)
Record process_env := mkProcessEnv {
  pe_publisher : bool; pe_publish_fails : bool;
  pe_rows : res (list System); pe_valid : string -> bool;
  pe_configured : viper -> list (string * res ChaosSystemConfig);
  pe_order : manager -> list (string * ChaosSystemConfig);
  pe_monitor : monitor_env;
  pe_controller : bool; pe_add_informers : list string -> res unit;
  pe_file : string -> Z;                             (* GetInt of what was not set *)
  pe_cast : setting -> Z                             (* cast.ToInt *)
}.

Section Process.
Context {R : Type} `{RedisServer R}.
Context `{FloatText} `{ConfigTexts}.
Context (env : process_env).

Definition set_viper (v : viper) (w : process R) : process R :=
  mkProcess (p_db w) v (p_detector w) (p_responses w) (p_manager w) (p_monitor w) (p_informers w) (p_restart w) (p_build w) (p_algo w).
Definition set_detector (s : string) (w : process R) : process R :=
  mkProcess (p_db w) (p_viper w) s (p_responses w) (p_manager w) (p_monitor w) (p_informers w) (p_restart w) (p_build w) (p_algo w).
Definition add_response (r : bool * string) (w : process R) : process R :=
  mkProcess (p_db w) (p_viper w) (p_detector w) (p_responses w ++ [r]) (p_manager w) (p_monitor w) (p_informers w) (p_restart w) (p_build w) (p_algo w).
Definition set_manager (m : manager) (w : process R) : process R :=
  mkProcess (p_db w) (p_viper w) (p_detector w) (p_responses w) m (p_monitor w) (p_informers w) (p_restart w) (p_build w) (p_algo w).
Definition set_monitor (m : option (monitor R)) (w : process R) : process R :=
  mkProcess (p_db w) (p_viper w) (p_detector w) (p_responses w) (p_manager w) m (p_informers w) (p_restart w) (p_build w) (p_algo w).
Definition add_informers (i : list string * list string) (w : process R) : process R :=
  mkProcess (p_db w) (p_viper w) (p_detector w) (p_responses w) (p_manager w) (p_monitor w) (p_informers w ++ [i]) (p_restart w) (p_build w) (p_algo w).
Definition map_limiters (r b a : TokenBucketRateLimiter -> TokenBucketRateLimiter) (w : process R) : process R :=
  mkProcess (p_db w) (p_viper w) (p_detector w) (p_responses w) (p_manager w) (p_monitor w) (p_informers w)
    (r <$> p_restart w) (b <$> p_build w) (a <$> p_algo w).
Definition p_do (f : process R -> process R) : B (process R) unit := fun w => Finished (f w) (Ok tt).
Definition p_get {A} (f : process R -> A) : B (process R) A := fun w => Finished w (Ok (f w)).
Definition GetInt (key : string) (w : process R) : Z :=
  match p_viper w !! to_lower key with
  | Some (SInt n) => n
  | Some x => pe_cast env x
  | None => pe_file env key
  end.

(** The answer goes out when the function returns, whatever it returns. *)
Definition PublishWrapper (function : B (process R) unit) : B (process R) unit :=
  b_defer (fun r =>
      if pe_publisher env && negb (pe_publish_fails env)
      then p_do (add_response (match r with Ok _ => (true, "") | Err e => (false, e) end))
      else b_ret tt)
    (b_wrap "error applying config update: " function).

Definition DetectorKey : string := "algo.detector".
Definition algo_Handle (key newValue : string) : B (process R) unit :=
  PublishWrapper (if String.eqb key DetectorKey then p_do (set_detector newValue) else b_ret tt).

(** *** Namespaces *)

Definition Reload (callback : B (process R) unit) : B (process R) unit := fun w =>
  match load (pe_rows env) (pe_valid env) (pe_configured env (p_viper w)) with
  | Err e => Finished w (Err e)
  | Ok m => b_wrap "callback execution failed: " callback (set_manager m w)
  end.
Definition env_with (ns : res (list string)) (e : monitor_env) : monitor_env :=
  mkMonitorEnv (mon_now e) ns (range_set e) (compile_pattern e) (lock_json e) (mon_caller e).
Definition UpdateK8sController (toAdd toRemove : list string) : B (process R) unit :=
  if negb (pe_controller env) then b_ret tt
  else
    match toAdd with
    | [] => b_ret tt
    | _ => fun w => match pe_add_informers env toAdd with
                    | Ok _ => Finished (add_informers (toAdd, []) w) (Ok tt)
                    | Err e => Finished w (Err ("failed to add namespace informers: " +:+ e))
                    end
    end ;;%
    match toRemove with
    | [] => b_ret tt
    | _ => p_do (add_informers ([], toRemove))
    end.
Definition refresh : B (process R) (option NamespaceRefreshResult) := fun w =>
  match p_monitor w with
  | None => Finished w (Ok None)
  | Some m =>
      match RefreshNamespaces (env_with (ChaosSystems.GetAllNamespaces (pe_order env) (p_manager w)) (pe_monitor env)) m with
      | Finished m' r => Finished (set_monitor (Some m') w) (res_map Some r)
      | Blocked m' => Blocked (set_monitor (Some m') w)
      end
  end.
Definition onUpdate : B (process R) unit :=
  let% result := b_wrap "failed to refresh namespaces: " refresh in
  match result with
  | None => b_ret tt
  | Some r => UpdateK8sController (Added r ++ Recovered r) (Disabled r ++ Deleted r)
  end.
Definition chaosSystemCount_Handle : B (process R) unit := PublishWrapper (Reload onUpdate).

(** *** Limits *)

Definition MaxTokensKeyRestartPedestal : string := "rate_limiting.max_concurrent_restarts_pedestal".
Definition MaxTokensKeyBuildContainer : string := "rate_limiting.max_concurrent_build_container".
Definition MaxTokensKeyAlgoExecution : string := "rate_limiting.max_concurrent_algo_execution".
Definition same_timeout (maxTokens : Z) (r : TokenBucketRateLimiter) : TokenBucketRateLimiter :=
  UpdateConfig maxTokens (GetConfig r).2 r.
Definition same_tokens (timeout : Z) (r : TokenBucketRateLimiter) : TokenBucketRateLimiter := UpdateConfig (GetConfig r).1 timeout r.
(** Timeouts below 2^33 seconds are meant: the code counts nanoseconds. *)
Definition rateLimiting_Handle (key : string) : B (process R) unit :=
  PublishWrapper (
    if String.eqb key "rate_limiting.max_concurrent_builds" then
      let% maxTokens := p_get (GetInt MaxTokensKeyBuildContainer) in p_do (map_limiters id (same_timeout maxTokens) id)
    else if String.eqb key "rate_limiting.max_concurrent_restarts" then
      let% maxTokens := p_get (GetInt MaxTokensKeyRestartPedestal) in p_do (map_limiters (same_timeout maxTokens) id id)
    else if String.eqb key "rate_limiting.max_concurrent_algo_execution" then
      let% maxTokens := p_get (GetInt MaxTokensKeyAlgoExecution) in p_do (map_limiters id id (same_timeout maxTokens))
    else if String.eqb key "rate_limiting.token_wait_timeout" then
      let% timeout := p_get (GetInt "rate_limiting.token_wait_timeout") in
      p_do (map_limiters (same_tokens timeout) (same_tokens timeout) (same_tokens timeout))
    else b_ret tt).

Definition Handle (h : ConfigHandler) (key newValue : string) : B (process R) unit :=
  match h with
  | algoConfigHandler => algo_Handle key newValue
  | chaosSystemCountHandler => chaosSystemCount_Handle
  | rateLimitingConfigHandler => rateLimiting_Handle key
  end.

(** ** Changes *)

(** The row with the least identifier; rows are kept in this order. *)
Definition getConfigByKey (key : string) (d : cdb) : option DynamicConfig := find (fun c => String.eqb (dc_Key c) key) (t_configs d).
Definition listConfigsByScope (by_key : list DynamicConfig -> list DynamicConfig) (scope : Z) (d : cdb) : list DynamicConfig :=
  by_key (List.filter (fun c => dc_Scope c =? scope) (t_configs d)).
Definition set_value (cfg_key value : string) (type : Z) : B (process R) unit := fun w =>
  match SetViperValue cfg_key value type (p_viper w) with
  | Ok v => Finished (set_viper v w) (Ok tt)
  | Err e => Finished w (Err e)
  end.
Definition handleConfigChange (r : registry) (key newValue : string) : B (process R) unit := fun w =>
  match getConfigByKey key (p_db w) with
  | None => Finished w (Err ("failed to retrieve existing config " +:+ key +:+ " from database: failed to find config with key " +:+ key +:+ ": record not found"))
  | Some existingConfig =>
      match r !! (dc_Scope existingConfig, dc_Category existingConfig) with
      | None => set_value key newValue (dc_ValueType existingConfig) w
      | Some handler =>
          (b_attempt (set_value key newValue (dc_ValueType existingConfig)) ;;%
           b_wrap ("handler failed for config " +:+ key +:+ ": ") (Handle handler key newValue)) w
      end
  end.

(** An event of the watcher of a prefix; the value of a deletion is empty. *)
Record etcd_event := mkEvent { ev_key : string; ev_value : string }.
Definition handleEtcdEvent (r : registry) (prefix : string) (ev : etcd_event) : B (process R) unit :=
  if (String.length (ev_key ev) <=? String.length prefix)%nat then b_ret tt
  else b_attempt (handleConfigChange r (str_drop (String.length prefix) (ev_key ev)) (ev_value ev)) ;;% b_ret tt.
(** The events of one answer of the watch, one after the other. *)
Fixpoint handle_events (r : registry) (prefix : string) (evs : list etcd_event) : B (process R) unit :=
  match evs with
  | [] => b_ret tt
  | ev :: evs => handleEtcdEvent r prefix ev ;;% handle_events r prefix evs
  end.
End Process.

(** ** Loading a scope *)

Definition scopePrefix (scope : Z) : option string :=
  match scope_of scope with Some _ => Some (etcdPrefixForScope scope) | None => None end.

Section Loading.
Context `{FloatText} `{ConfigTexts}.
Context (by_key : list DynamicConfig -> list DynamicConfig).

Definition attempt {A} (m : Act A) : Act (A + goerr) := fun w => let '(r, w') := m w in (inl r, w').
(** One configuration: what is in etcd, and its default only if that is empty. *)
Definition load_one (prefix : string) (meta : DynamicConfig) : Act unit := fun w =>
  let etcdKey := prefix +:+ dc_Key meta in
  match etcd_Get etcdKey w with
  | (inr _, w) => (inl tt, w)
  | (inl etcdValue, w) =>
      let '(value, w) :=
        if String.eqb etcdValue "" then
          match etcd_Put etcdKey (dc_DefaultValue meta) w with
          | (inr _, w) => (None, w)
          | (inl _, w) => (Some (dc_DefaultValue meta), w)
          end
        else (Some etcdValue, w) in
      match value with
      | None => (inl tt, w)
      | Some valueToLoad =>
          match SetViperValue (dc_Key meta) valueToLoad (dc_ValueType meta) (cw_viper w) with
          | Ok v => (inl tt, cw_set_viper v w)
          | Err _ => (inl tt, w)
          end
      end
  end.
Fixpoint load_all (prefix : string) (metas : list DynamicConfig) : Act unit := fun w =>
  match metas with
  | [] => (inl tt, w)
  | m :: metas => match load_one prefix m w with (_, w') => load_all prefix metas w' end
  end.
Definition loadScopeFromEtcd (scope : Z) (prefix : string) : Act unit := fun w =>
  load_all prefix (listConfigsByScope by_key scope (cw_db w)) w.
(** The scopes that are loaded and watched; the watchers started. *)
Definition EnsureScope (scope : Z) (active : gset Z) : Act (gset Z) := fun w =>
  match scopePrefix scope with
  | None => (inl active, w)
  | Some prefix =>
      if decide (scope ∈ active) then (inl active, w)
      else match loadScopeFromEtcd scope prefix w with
           | (inl _, w') => (inl ({[scope]} ∪ active), w')
           | (inr e, w') => (inr (Wrap ("failed to load " +:+ GetConfigScopeName scope +:+ " configs from etcd: ") e ""), w')
           end
  end.
End Loading.

(** ** A change that arrives *)

Lemma length_of_chars s : String.length s = length (chars s).
Proof. induction s as [|c s IH]; [done|]. cbn. by rewrite IH. Qed.
Lemma event_key prefix key : str_drop (String.length prefix) (prefix +:+ key) = key.
Proof. unfold str_drop. by rewrite chars_app, length_of_chars, drop_app_length, of_chars_chars. Qed.
Lemma event_key_longer prefix key : key <> "" -> (String.length (prefix +:+ key) <=? String.length prefix)%nat = false.
Proof.
  intros Hk. apply Nat.leb_gt. rewrite !length_of_chars, chars_app, length_app. destruct key as [|c key]; [done|]. cbn. lia.
Qed.

Section Changes.
Context {R : Type} `{RedisServer R}.
Context `{FloatText} `{ConfigTexts} `{ServiceTexts}.
Context (env : process_env).
(** The answers of the process go out. *)
Definition answering : Prop := pe_publisher env = true /\ pe_publish_fails env = false.
Definition handlers : registry := RegisterConsumerHandlers (RegisterGlobalHandlers ∅).

(** A limiter with another limit, another timeout; numbers that are not positive are ignored. *)
Definition with_tokens (n : Z) (lim : TokenBucketRateLimiter) : TokenBucketRateLimiter :=
  mkLimiter (bucketKey lim) (if 0 <? n then n else maxTokens lim) (waitTimeout lim) (serviceName lim).
Definition with_timeout (n : Z) (lim : TokenBucketRateLimiter) : TokenBucketRateLimiter :=
  mkLimiter (bucketKey lim) (maxTokens lim) (if 0 <? n then n else waitTimeout lim) (serviceName lim).
(** The number that a setting is read as. *)
Definition number (x : setting) : Z := match x with SInt n => n | _ => pe_cast env x end.
(** What a change of [key] to the number [n] does to the limiters: a timeout goes to all of
    them, a limit of executions to theirs; a change of the builds or of the restarts gives
    their limiter what was - and is - set under another key. *)
Definition limits_after (key : string) (n : Z) (w w' : process R) : Prop :=
  if String.eqb key "rate_limiting.token_wait_timeout" then
    p_restart w' = with_timeout n <$> p_restart w /\ p_build w' = with_timeout n <$> p_build w /\ p_algo w' = with_timeout n <$> p_algo w
  else
    p_algo w' = (if String.eqb key MaxTokensKeyAlgoExecution then with_tokens n <$> p_algo w else p_algo w) /\
    p_build w' = (if String.eqb key "rate_limiting.max_concurrent_builds"
                  then with_tokens (GetInt env "rate_limiting.max_concurrent_build_container" w) <$> p_build w else p_build w) /\
    p_restart w' = (if String.eqb key "rate_limiting.max_concurrent_restarts"
                    then with_tokens (GetInt env "rate_limiting.max_concurrent_restarts_pedestal" w) <$> p_restart w else p_restart w).

Lemma option_map_id {A} (o : option A) : id <$> o = o.
Proof. by destruct o. Qed.
Lemma same_timeout_eq n (o : option TokenBucketRateLimiter) : same_timeout n <$> o = with_tokens n <$> o.
Proof. destruct o as [[k m t s]|]; [|done]. unfold same_timeout, UpdateConfig, with_tokens. cbn. destruct (0 <? n), (Z.ltb_spec 0 t); done. Qed.
Lemma same_tokens_eq n (o : option TokenBucketRateLimiter) : same_tokens n <$> o = with_timeout n <$> o.
Proof. destruct o as [[k m t s]|]; [|done]. unfold same_tokens, UpdateConfig, with_timeout. cbn. destruct (0 <? n), (Z.ltb_spec 0 m); done. Qed.
Lemma get_own key x v (w : process R) : GetInt env key (set_viper (viper_Set key x v) w) = number x.
Proof. unfold GetInt, viper_Set. cbn [set_viper p_viper]. rewrite lookup_insert_eq. by destruct x. Qed.
Lemma get_other k key x (w : process R) : String.eqb (to_lower k) (to_lower key) = false ->
  GetInt env k (set_viper (viper_Set key x (p_viper w)) w) = GetInt env k w.
Proof. intros Hk%String.eqb_neq. unfold GetInt, viper_Set. cbn [set_viper p_viper]. rewrite lookup_insert_ne; [done|]. congruence. Qed.
Lemma rate_handle_run key x w : answering ->
  exists w', rateLimiting_Handle env key (set_viper (viper_Set key x (p_viper w)) w) = Finished w' (Ok tt) /\
    p_viper w' = viper_Set key x (p_viper w) /\ p_responses w' = p_responses w ++ [(true, "")] /\ limits_after key (number x) w w'.
Proof.
  intros [Hp Hf]. unfold rateLimiting_Handle, PublishWrapper, b_defer, limits_after, MaxTokensKeyAlgoExecution, b_wrap, b_bind, p_get, p_do. rewrite Hp, Hf. cbn [andb negb].
  destruct (String.eqb_spec key "rate_limiting.max_concurrent_builds") as [->|Hn1];
    [|destruct (String.eqb_spec key "rate_limiting.max_concurrent_restarts") as [->|Hn2];
      [|destruct (String.eqb_spec key "rate_limiting.max_concurrent_algo_execution") as [->|Hn3];
        [|destruct (String.eqb_spec key "rate_limiting.token_wait_timeout") as [->|Hn4]]]];
    rewrite ?get_own; rewrite ?get_other by (vm_compute; reflexivity);
    eexists; (split; [reflexivity|]); cbn -[String.eqb GetInt viper_Set same_timeout same_tokens with_tokens with_timeout number];
    rewrite ?option_map_id, ?same_timeout_eq, ?same_tokens_eq; try done.
Qed.
Lemma rate_change_run key value cfg x w : answering ->
  getConfigByKey key (p_db w) = Some cfg -> is_scope cfg ConfigScopeConsumer = true -> dc_Category cfg = "rate_limiting" ->
  SetViperValue key value (dc_ValueType cfg) (p_viper w) = Ok (viper_Set key x (p_viper w)) ->
  exists w', handleConfigChange env handlers key value w = Finished w' (Ok tt) /\ p_viper w' = viper_Set key x (p_viper w) /\
    p_responses w' = p_responses w ++ [(true, "")] /\ limits_after key (number x) w w'.
Proof.
  intros Ha Hg Hs Hc Hv. unfold handleConfigChange. rewrite Hg, Hc. unfold is_scope in Hs. apply Z.eqb_eq in Hs. rewrite Hs.
  change (handlers !! (enum_code ConfigScopeConsumer, "rate_limiting")) with (Some rateLimitingConfigHandler). cbn match.
  unfold b_bind, b_attempt, b_wrap, set_value. rewrite Hv. cbn [Handle].
  destruct (rate_handle_run key x w Ha) as (w' & -> & Hw). by exists w'.
Qed.

(** C21. What an update of a rate limit does in the consumer.  When the producer's update of a
    row of the category rate_limiting in the consumer's scope succeeds, etcd holds the new
    text, and the consumer - which reads the same row, and whose answers go out - handles the
    event of it: its settings hold what the text is parsed into, a success is answered, and
    the limiters are given the new number where it is positive: the limit of algorithm
    executions goes to their limiter, which keeps its timeout, and the time to wait goes to
    all three, which keep their limits.  A new limit of the builds or of the restarts has no
    effect: their limiter is given what is set under another key. *)
Theorem consumer_limit_takes_effect sub req id who wp wp' (w : process R) cfg :
  answering -> UpdateConfigValue sub req id who wp = (inl tt, wp') -> config_row id (cw_db wp) = Some cfg ->
  is_scope cfg ConfigScopeConsumer = true -> dc_Category cfg = "rate_limiting" -> dc_Key cfg <> "" ->
  getConfigByKey (dc_Key cfg) (p_db w) = Some cfg ->
  exists x w', accepted cfg (uv_Value req) x /\ cw_etcd wp' !! etcd_key cfg = Some (uv_Value req) /\
    handleEtcdEvent env handlers ConfigEtcdConsumerPrefix (mkEvent (etcd_key cfg) (uv_Value req)) w = Finished w' (Ok tt) /\
    p_viper w' = viper_Set (dc_Key cfg) x (p_viper w) /\ p_responses w' = p_responses w ++ [(true, "")] /\
    limits_after (dc_Key cfg) (number x) w w'.
Proof.
  intros Ha Hu Hc Hs Hcat Hkey Hg.
  apply UpdateConfigValue_out in Hu as [[[=] _]|(cfg' & old & Hc' & (_ & _ & x & w1 & Hx & _ & _ & E1 & Hcar))].
  rewrite Hc in Hc'. injection Hc' as <-. unfold carried_on in Hcar. rewrite Hs, orb_true_r in Hcar.
  destruct Hcar as (ok & (_ & _ & E) & [-> _]%eq_sym%andb_true_iff). destruct E as [E|[[=] _]].
  assert (Hpre : etcd_key cfg = ConfigEtcdConsumerPrefix +:+ dc_Key cfg).
  { unfold etcd_key, etcdPrefixForScope. unfold is_scope in Hs. apply Z.eqb_eq in Hs. by rewrite Hs. }
  destruct (rate_change_run (dc_Key cfg) (uv_Value req) cfg x w Ha Hg Hs Hcat (proj2 (ValidateConfig_spec cfg (uv_Value req) _) x Hx))
    as (w' & Hrun & Hv & Hr & Hl).
  exists x, w'. split; [done|]. split; [rewrite E; apply lookup_insert_eq|]. split; [|done].
  unfold handleEtcdEvent. cbn [ev_key ev_value]. rewrite Hpre, event_key_longer, event_key by done. unfold b_bind, b_attempt. by rewrite Hrun.
Qed.

(** The limits of builds and restarts are read under other keys than those that are watched:
    whatever they are set to, the limiters become the same. *)
Lemma two_limits_are_not_applied key value value' x x' cfg w w1 w2 :
  answering -> key = "rate_limiting.max_concurrent_builds" \/ key = "rate_limiting.max_concurrent_restarts" ->
  getConfigByKey key (p_db w) = Some cfg -> is_scope cfg ConfigScopeConsumer = true -> dc_Category cfg = "rate_limiting" ->
  SetViperValue key value (dc_ValueType cfg) (p_viper w) = Ok (viper_Set key x (p_viper w)) ->
  SetViperValue key value' (dc_ValueType cfg) (p_viper w) = Ok (viper_Set key x' (p_viper w)) ->
  handleConfigChange env handlers key value w = Finished w1 (Ok tt) -> handleConfigChange env handlers key value' w = Finished w2 (Ok tt) ->
  p_build w1 = p_build w2 /\ p_restart w1 = p_restart w2.
Proof.
  intros Ha Hk Hg Hs Hcat Hv Hv' H1' H2'.
  destruct (rate_change_run key value cfg x w Ha Hg Hs Hcat Hv) as (w1' & E1 & _ & _ & L1).
  destruct (rate_change_run key value' cfg x' w Ha Hg Hs Hcat Hv') as (w2' & E2 & _ & _ & L2).
  rewrite H1' in E1. rewrite H2' in E2. injection E1 as ->. injection E2 as ->.
  destruct Hk as [-> | ->]; cbn -[GetInt] in L1, L2; destruct L1 as (_ & -> & ->), L2 as (_ & -> & ->); done.
Qed.

(** A change of the number of namespaces of a system is never answered when the runtime has a
    monitor: the refresh waits for a lock that it holds itself. *)
Lemma count_change_blocks value cfg x w m mn ns key :
  getConfigByKey key (p_db w) = Some cfg -> is_scope cfg ConfigScopeConsumer = true -> dc_Category cfg = "injection.system.count" ->
  SetViperValue key value (dc_ValueType cfg) (p_viper w) = Ok (viper_Set key x (p_viper w)) ->
  load (pe_rows env) (pe_valid env) (pe_configured env (viper_Set key x (p_viper w))) = Ok m ->
  ChaosSystems.GetAllNamespaces (pe_order env) m = Ok ns -> p_monitor w = Some mn -> mu_locked mn = false ->
  exists w', handleConfigChange env handlers key value w = Blocked w' /\ p_responses w' = p_responses w.
Proof.
  intros Hg Hs Hcat Hv Hl Hns Hmon Hmu. unfold handleConfigChange. rewrite Hg, Hcat. unfold is_scope in Hs. apply Z.eqb_eq in Hs. rewrite Hs.
  change (handlers !! (enum_code ConfigScopeConsumer, "injection.system.count")) with (Some chaosSystemCountHandler). cbn match.
  unfold b_bind at 1, b_attempt at 1, set_value. rewrite Hv. unfold b_wrap at 1. cbn [Handle].
  unfold chaosSystemCount_Handle, PublishWrapper, b_defer, b_wrap, Reload. cbn [set_viper p_viper]. rewrite Hl.
  unfold b_wrap, onUpdate, b_bind, b_wrap, refresh. cbn [set_manager p_monitor set_viper p_manager]. rewrite Hmon, Hns.
  destruct mn as [mu rd]. cbn in Hmu. subst mu.
  rewrite (RefreshNamespaces_deadlocks (env_with (Ok ns) (pe_monitor env)) (mkMonitor false rd) ns) by done.
  eexists. split; reflexivity.
Qed.
End Changes.

(** ** What is loaded *)

Section Loads.
Context `{FloatText} `{ConfigTexts}.

(** The setting that a text of a configuration becomes. *)
Definition parsed (meta : DynamicConfig) (text : string) : option setting :=
  match SetViperValue (dc_Key meta) text (dc_ValueType meta) ∅ with
  | Ok v => v !! to_lower (dc_Key meta)
  | Err _ => None
  end.
Lemma set_parsed meta text v :
  match parsed meta text with
  | Some x => SetViperValue (dc_Key meta) text (dc_ValueType meta) v = Ok (viper_Set (dc_Key meta) x v)
  | None => exists e, SetViperValue (dc_Key meta) text (dc_ValueType meta) v = Err e
  end.
Proof.
  unfold parsed, SetViperValue, viper_Set.
  destruct (config_type _) as [[]|]; [|destruct (ParseBool text)|destruct (atoi text)|destruct (ParseFloat text)|destruct (json_strings text)|];
    rewrite ?lookup_insert_eq; eauto.
Qed.
Definition value_to_load (prefix : string) (etcd : gmap string string) (meta : DynamicConfig) : option string :=
  (fun t => if String.eqb t "" then dc_DefaultValue meta else t) <$> etcd !! (prefix +:+ dc_Key meta).
Definition loaded_one (prefix : string) (etcd : gmap string string) (meta : DynamicConfig) (v : viper) : viper :=
  match value_to_load prefix etcd meta ≫= parsed meta with
  | Some x => viper_Set (dc_Key meta) x v
  | None => v
  end.
Lemma load_one_run prefix meta w : cw_faults w = [] ->
  let w' := (load_one prefix meta w).2 in
  cw_faults w' = [] /\ cw_db w' = cw_db w /\ cw_viper w' = loaded_one prefix (cw_etcd w) meta (cw_viper w) /\
  cw_etcd w' = (if bool_decide (cw_etcd w !! (prefix +:+ dc_Key meta) = Some "")
                then <[prefix +:+ dc_Key meta := dc_DefaultValue meta]> (cw_etcd w) else cw_etcd w).
Proof.
  intros Hf. unfold load_one, loaded_one, value_to_load.
  destruct (cw_etcd w !! (prefix +:+ dc_Key meta)) as [t|] eqn:E.
  - rewrite (etcd_Get_run _ _ _ Hf E). cbn [fmap option_fmap option_map mbind option_bind]. destruct (String.eqb_spec t "") as [->|Ht].
    + rewrite (etcd_Put_run _ _ _ Hf), bool_decide_eq_true_2 by done. cbn [cw_set_etcd cw_viper].
      pose proof (set_parsed meta (dc_DefaultValue meta) (cw_viper w)) as Hp. destruct (parsed meta _); [rewrite Hp|destruct Hp as [e ->]]; done.
    + rewrite bool_decide_eq_false_2 by congruence.
      pose proof (set_parsed meta t (cw_viper w)) as Hp. destruct (parsed meta _); [rewrite Hp|destruct Hp as [e ->]]; done.
  - rewrite bool_decide_eq_false_2 by done. by rewrite (etcd_Get_missing _ _ Hf E).
Qed.
Lemma prefix_inj p a b : p +:+ a = p +:+ b -> a = b.
Proof. apply str_app_inj_l. Qed.

Lemma load_one_etcd prefix meta w : cw_faults w = [] ->
  let w' := (load_one prefix meta w).2 in
  cw_etcd w' !! (prefix +:+ dc_Key meta) = value_to_load prefix (cw_etcd w) meta /\
  (forall k, k <> prefix +:+ dc_Key meta -> cw_etcd w' !! k = cw_etcd w !! k).
Proof.
  intros Hf. pose proof (load_one_run prefix meta w Hf) as Hl. cbv zeta in Hl |- *. destruct Hl as (_ & _ & _ & ->).
  unfold value_to_load. case_bool_decide as Hb.
  - split; [by rewrite lookup_insert_eq, Hb|]. intros k Hk. by apply lookup_insert_ne.
  - split; [|done]. destruct (cw_etcd w !! (prefix +:+ dc_Key meta)) as [t|]; [|done]. cbn.
    destruct (String.eqb_spec t ""); [by subst|done].
Qed.
Lemma load_all_run prefix metas w : NoDup (map (fun m => to_lower (dc_Key m)) metas) -> cw_faults w = [] ->
  let '(r, w') := load_all prefix metas w in
  r = inl tt /\ cw_db w' = cw_db w /\
  (forall m, m ∈ metas -> cw_viper w' !! to_lower (dc_Key m) =
     match value_to_load prefix (cw_etcd w) m ≫= parsed m with Some x => Some x | None => cw_viper w !! to_lower (dc_Key m) end) /\
  (forall k, k ∉ map (fun m => to_lower (dc_Key m)) metas -> cw_viper w' !! k = cw_viper w !! k) /\
  (forall m, m ∈ metas -> cw_etcd w' !! (prefix +:+ dc_Key m) = value_to_load prefix (cw_etcd w) m) /\
  (forall k, k ∉ map (fun m => prefix +:+ dc_Key m) metas -> cw_etcd w' !! k = cw_etcd w !! k).
Proof.
  intros Hnd. revert w. induction metas as [|m metas IH]; intros w Hf; cbn [load_all].
  { split_and!; try done; by intros m ?%not_elem_of_nil. }
  pose proof (load_one_run prefix m w Hf) as H1'. pose proof (load_one_etcd prefix m w Hf) as H2'.
  destruct (load_one prefix m w) as [r1 w1]. cbn [snd] in H1', H2'. destruct H1' as (F1 & D1 & V1 & _), H2' as [E1 Eo1].
  cbn [map] in Hnd. apply NoDup_cons in Hnd as [Hm Hnd]. specialize (IH Hnd w1 F1). destruct (load_all prefix metas w1) as [r w'].
  destruct IH as (-> & D & Hv & Ho & He & Heo). rewrite D, D1. split; [done|]. split; [done|].
  assert (Hfresh : forall m', m' ∈ metas -> to_lower (dc_Key m') <> to_lower (dc_Key m)).
  { intros m' Hin Ek. apply Hm. rewrite <- Ek. exact (list_elem_of_fmap_2 (fun m => to_lower (dc_Key m)) metas m' Hin). }
  assert (Hother : forall m', m' ∈ metas -> value_to_load prefix (cw_etcd w1) m' = value_to_load prefix (cw_etcd w) m').
  { intros m' Hin. unfold value_to_load. rewrite Eo1; [done|]. intros Ek%prefix_inj. apply (Hfresh m' Hin). by rewrite Ek. }
  assert (Hset : forall k, k <> to_lower (dc_Key m) -> cw_viper w1 !! k = cw_viper w !! k).
  { intros k Hk. rewrite V1. unfold loaded_one. destruct (_ ≫= _); [|done]. apply lookup_insert_ne. congruence. }
  split; [|split; [|split]].
  - intros m' [->|Hin]%elem_of_cons.
    + rewrite Ho by done. rewrite V1. unfold loaded_one. destruct (_ ≫= _); [apply lookup_insert_eq|done].
    + rewrite Hv, Hother, Hset by auto. done.
  - intros k [Hk1 Hk2]%not_elem_of_cons. rewrite Ho by done. by apply Hset.
  - intros m' [->|Hin]%elem_of_cons; [|by rewrite He, Hother].
    rewrite Heo; [done|]. intros (m' & Ek%prefix_inj & Hin)%list_elem_of_fmap. apply (Hfresh m' Hin). by rewrite Ek.
  - intros k [Hk1 Hk2]%not_elem_of_cons. rewrite Heo by done. by apply Eo1.
Qed.

(** C22. What a process knows after it loaded a scope.  When etcd answers and the keys of the
    scope differ in more than case: the setting of each configuration is what its text in
    etcd is parsed into - its default where the text is empty - and is left as it was where
    the text cannot be parsed or etcd does not have the key; all other settings are left.  In
    etcd the texts of the scope that were empty are their defaults afterwards, and nothing
    else changes: a key that etcd does not have is not initialised with its default, although
    the comments of the function say so. *)
Theorem loadScopeFromEtcd_spec by_key scope prefix w :
  (forall l, by_key l ≡ₚ l) -> cw_faults w = [] ->
  let metas := List.filter (fun c => dc_Scope c =? scope) (t_configs (cw_db w)) in
  NoDup (map (fun m => to_lower (dc_Key m)) metas) ->
  let '(r, w') := loadScopeFromEtcd by_key scope prefix w in
  r = inl tt /\ cw_db w' = cw_db w /\
  (forall m, m ∈ metas -> cw_viper w' !! to_lower (dc_Key m) =
     match value_to_load prefix (cw_etcd w) m ≫= parsed m with Some x => Some x | None => cw_viper w !! to_lower (dc_Key m) end) /\
  (forall k, k ∉ map (fun m => to_lower (dc_Key m)) metas -> cw_viper w' !! k = cw_viper w !! k) /\
  (forall m, m ∈ metas -> cw_etcd w' !! (prefix +:+ dc_Key m) = value_to_load prefix (cw_etcd w) m) /\
  (forall k, k ∉ map (fun m => prefix +:+ dc_Key m) metas -> cw_etcd w' !! k = cw_etcd w !! k).
Proof.
  intros Hperm Hf metas Hnd. unfold loadScopeFromEtcd, listConfigsByScope. fold metas.
  assert (Hnd' : NoDup (map (fun m => to_lower (dc_Key m)) (by_key metas))) by (by rewrite (Permutation_map _ (Hperm metas))).
  pose proof (load_all_run prefix (by_key metas) w Hnd' Hf) as Hl. destruct (load_all prefix (by_key metas) w) as [r w'].
  destruct Hl as (Hr & Hd & Hv & Ho & He & Heo). split; [done|]. split; [done|]. split; [|split; [|split]].
  - intros m Hm. apply Hv. by rewrite Hperm.
  - intros k Hk. apply Ho. by rewrite (Permutation_map _ (Hperm metas)).
  - intros m Hm. apply He. by rewrite Hperm.
  - intros k Hk. apply Heo. by rewrite (Permutation_map _ (Hperm metas)).
Qed.
End Loads.

Module ListenerSample.
Import ParameterSample ConfigSample.
Definition limit : DynamicConfig :=
  mkConfig 3 MaxTokensKeyAlgoExecution 1 "rate_limiting" 2 "" false "5" (Some 1%Q) (Some 50%Q) "" "" None.
Definition builds : DynamicConfig :=
  mkConfig 4 "rate_limiting.max_concurrent_builds" 1 "rate_limiting" 2 "" false "3" None None "" "" None.
Definition wp : cworld := mkCworld (mkCdb [limit; builds] [] 1) {[etcd_key limit := "5"]} ∅ [] [].
Definition answered : subscription := mkSubscription None ["noise"; "ok"] false.
Definition wp' : cworld := (UpdateConfigValue answered (mkUpdateValueReq "8" "faster") 3 nobody wp).2.
Definition bucket : TokenBucketRateLimiter := mkLimiter "token_bucket:algo_execution" 5 10 "algo_execution".
Definition w : process keyspace := mkProcess (cw_db wp) ∅ "" [] ∅ None [] None None (Some bucket).
Definition menv : monitor_env := mkMonitorEnv 0 (Ok []) elements (fun _ => Ok (fun _ => true)) (fun _ => Ok "") ("", "", "").
Definition env : process_env :=
  mkProcessEnv true false (Ok []) (fun _ => true) (fun _ => []) map_to_list menv true (fun _ => Ok tt) (fun _ => 0) (fun _ => 0).

Lemma eight_goes_in : UpdateConfigValue answered (mkUpdateValueReq "8" "faster") 3 nobody wp = (inl tt, wp').
Proof. vm_compute. reflexivity. Qed.
Lemma consumer_limit_takes_effect_witness :
  exists w', handleEtcdEvent env handlers ConfigEtcdConsumerPrefix (mkEvent (etcd_key limit) "8") w = Finished w' (Ok tt) /\
    p_responses w' = [(true, "")] /\ p_algo w' = Some (mkLimiter "token_bucket:algo_execution" 8 10 "algo_execution").
Proof.
  destruct (consumer_limit_takes_effect env answered (mkUpdateValueReq "8" "faster") 3 nobody wp wp' w limit (conj eq_refl eq_refl)
    eight_goes_in eq_refl eq_refl eq_refl ltac:(intros E; discriminate E) eq_refl) as (x & w' & Hx & _ & Hrun & Hv & Hr & Hl & _).
  exists w'. split; [exact Hrun|]. split; [exact Hr|].
  destruct Hx as [E|b E|n E Hn|q E|l E]; [discriminate E|discriminate E| |discriminate E|discriminate E].
  injection Hn as <-. exact Hl.
Defined.
(** The text of [limit] is empty in etcd: its default is loaded and put there.  That of
    [builds] is not in etcd: it is not loaded and its default goes nowhere. *)
Definition wl : cworld := mkCworld (mkCdb [limit; builds] [] 1) {[etcd_key limit := ""]} ∅ [] [].
Lemma loadScopeFromEtcd_spec_witness :
  let w' := (loadScopeFromEtcd (fun l => l) 1 ConfigEtcdConsumerPrefix wl).2 in
  cw_viper w' !! MaxTokensKeyAlgoExecution = Some (SInt 5) /\ cw_viper w' !! "rate_limiting.max_concurrent_builds" = None /\
  cw_etcd w' !! etcd_key limit = Some "5" /\ cw_etcd w' !! etcd_key builds = None.
Proof.
  assert (Hnd : NoDup (map (fun m => to_lower (dc_Key m)) (List.filter (fun c => dc_Scope c =? 1) (t_configs (cw_db wl))))).
  { vm_compute. repeat constructor; set_solver. }
  pose proof (loadScopeFromEtcd_spec (fun l => l) 1 ConfigEtcdConsumerPrefix wl (fun l => Permutation_refl l) eq_refl Hnd) as Hs.
  rewrite (surjective_pairing (loadScopeFromEtcd _ _ _ wl)) in Hs. destruct Hs as (_ & _ & Hv & _ & He & _). split; [|split; [|split]].
  - refine (eq_trans (Hv limit _) _); [left|vm_compute; reflexivity].
  - refine (eq_trans (Hv builds _) _); [right; left|vm_compute; reflexivity].
  - refine (eq_trans (He limit _) _); [left|vm_compute; reflexivity].
  - refine (eq_trans (He builds _) _); [right; left|vm_compute; reflexivity].
Defined.
End ListenerSample.
