(* ===== verification/Accounts.v ===== *)
(** * Access management: the tables and their operations ([module/user/], [module/rbac/])

    Users, roles, permissions, and what gives a permission to a user: direct grants, global
    roles, and roles in a team, a project, a container or a dataset.  The repositories of
    users and roles and the operations of their services; [Teams] adds teams and projects,
    and [Access] relates them to the checks of [Permissions].  The membership tables are one
    list, tagged by the kind of what the membership is of.  Columns of times other than the
    last login and the expiry of a grant are left out, and so is the order of a join.

    Whether the database accepts a value for a generated column is a parameter: MySQL
    refuses the statement (error 3105). *)

From S2P Require Import Prelude GoStrings Consts PermissionTables Passwords Tables Search Containers Datasets Labels Permissions.
#[local] Open Scope Z_scope.

(** ** Rows *)

Record UserRow := mkUserRow {
  us_ID : Z; us_Username : string; us_Email : string; us_Password : string; us_FullName : string;
  us_Avatar : string; us_Phone : string; us_LastLoginAt : option Z; us_IsActive : bool; us_Status : Z
}.
Record Role := mkRole {
  rl_ID : Z; rl_Name : string; rl_DisplayName : string; rl_Description : string; rl_IsSystem : bool; rl_Status : Z
}.
Record Permission := mkPerm {
  pr_ID : Z; pr_Name : string; pr_DisplayName : string; pr_Description : string; pr_Action : string;
  pr_Scope : string; pr_ResourceID : Z; pr_IsSystem : bool; pr_Status : Z
}.
Record Team := mkTeam { tm_ID : Z; tm_Name : string; tm_Description : string; tm_IsPublic : bool; tm_Status : Z }.
Record Project := mkProjectRow {
  po_ID : Z; po_Name : string; po_Description : string; po_TeamID : option Z; po_IsPublic : bool; po_Status : Z
}.
(** A row of [user_teams], [user_projects], [user_containers] or [user_datasets], in the
    order of their identifiers. *)
Inductive scope_kind := OfTeam | OfProject | OfContainer | OfDataset.
#[export] Instance scope_kind_eq_dec : EqDecision scope_kind.
Proof. solve_decision. Defined.
Record Member := mkMember { me_Kind : scope_kind; me_User : Z; me_Scope : Z; me_Role : Z; me_Status : Z }.

Record adb := mkAdb {
  a_users : list UserRow;
  a_roles : list Role;
  a_permissions : list Permission;
  a_resources : list ResourceRow;
  a_user_permissions : list UserPermission;
  a_role_permissions : list (Z * Z);      (* role, permission *)
  a_user_roles : list (Z * Z);            (* user, role *)
  a_members : list Member;
  a_teams : list Team;
  a_projects : list Project;
  a_containers : list Container;
  a_datasets : list DatasetRow;
  a_labels : ldb;
  a_next : Z                              (* an identifier no table has *)
}.
Definition set_users l d := mkAdb l (a_roles d) (a_permissions d) (a_resources d) (a_user_permissions d)
  (a_role_permissions d) (a_user_roles d) (a_members d) (a_teams d) (a_projects d) (a_containers d) (a_datasets d)
  (a_labels d) (a_next d).
Definition set_roles l d := mkAdb (a_users d) l (a_permissions d) (a_resources d) (a_user_permissions d)
  (a_role_permissions d) (a_user_roles d) (a_members d) (a_teams d) (a_projects d) (a_containers d) (a_datasets d)
  (a_labels d) (a_next d).
Definition set_user_permissions l d := mkAdb (a_users d) (a_roles d) (a_permissions d) (a_resources d) l
  (a_role_permissions d) (a_user_roles d) (a_members d) (a_teams d) (a_projects d) (a_containers d) (a_datasets d)
  (a_labels d) (a_next d).
Definition set_role_permissions l d := mkAdb (a_users d) (a_roles d) (a_permissions d) (a_resources d)
  (a_user_permissions d) l (a_user_roles d) (a_members d) (a_teams d) (a_projects d) (a_containers d) (a_datasets d)
  (a_labels d) (a_next d).
Definition set_user_roles l d := mkAdb (a_users d) (a_roles d) (a_permissions d) (a_resources d)
  (a_user_permissions d) (a_role_permissions d) l (a_members d) (a_teams d) (a_projects d) (a_containers d)
  (a_datasets d) (a_labels d) (a_next d).
Definition set_members l d := mkAdb (a_users d) (a_roles d) (a_permissions d) (a_resources d)
  (a_user_permissions d) (a_role_permissions d) (a_user_roles d) l (a_teams d) (a_projects d) (a_containers d)
  (a_datasets d) (a_labels d) (a_next d).
Definition set_teams l d := mkAdb (a_users d) (a_roles d) (a_permissions d) (a_resources d)
  (a_user_permissions d) (a_role_permissions d) (a_user_roles d) (a_members d) l (a_projects d) (a_containers d)
  (a_datasets d) (a_labels d) (a_next d).
Definition set_projects l d := mkAdb (a_users d) (a_roles d) (a_permissions d) (a_resources d)
  (a_user_permissions d) (a_role_permissions d) (a_user_roles d) (a_members d) (a_teams d) l (a_containers d)
  (a_datasets d) (a_labels d) (a_next d).
Definition set_a_labels l d := mkAdb (a_users d) (a_roles d) (a_permissions d) (a_resources d)
  (a_user_permissions d) (a_role_permissions d) (a_user_roles d) (a_members d) (a_teams d) (a_projects d)
  (a_containers d) (a_datasets d) l (a_next d).
Definition take_next (d : adb) : Z * adb := (a_next d,
  mkAdb (a_users d) (a_roles d) (a_permissions d) (a_resources d) (a_user_permissions d) (a_role_permissions d)
    (a_user_roles d) (a_members d) (a_teams d) (a_projects d) (a_containers d) (a_datasets d) (a_labels d) (a_next d + 1)).

(** Rows with another status. *)
Definition us_with_status (s : Z) (u : UserRow) : UserRow :=
  mkUserRow (us_ID u) (us_Username u) (us_Email u) (us_Password u) (us_FullName u) (us_Avatar u) (us_Phone u)
    (us_LastLoginAt u) (us_IsActive u) s.
Definition rl_with_status (s : Z) (r : Role) : Role :=
  mkRole (rl_ID r) (rl_Name r) (rl_DisplayName r) (rl_Description r) (rl_IsSystem r) s.
Definition me_with_status (s : Z) (m : Member) : Member :=
  mkMember (me_Kind m) (me_User m) (me_Scope m) (me_Role m) s.

(** The unique keys: user names and emails of all users, the names of the roles that are
    not deleted, the three keys of a direct grant (a null column makes no key), and the
    generated column of a membership. *)
Definition active_role_name (r : Role) : option string := if 0 <=? rl_Status r then Some (rl_Name r) else None.
Definition grant_key (col : UserPermission -> option Z) (p : UserPermission) : option (Z * Z * Z) :=
  (fun c => (up_user p, up_permission p, c)) <$> col p.
Definition member_key (m : Member) : option (scope_kind * (Z * Z * Z)) :=
  if 0 <=? me_Status m then Some (me_Kind m, (me_User m, me_Scope m, me_Role m)) else None.

(** ** Statements *)

Definition insert_user_row (u : UserRow) : Tx adb UserRow := fun d =>
  let '(id, d) := take_next d in
  let u := mkUserRow id (us_Username u) (us_Email u) (us_Password u) (us_FullName u) (us_Avatar u) (us_Phone u)
             (us_LastLoginAt u) (us_IsActive u) (us_Status u) in
  if key_free (fun x => Some (us_Username x)) (a_users d) u && key_free (fun x => Some (us_Email x)) (a_users d) u
  then inl (u, set_users (a_users d ++ [u]) d) else inr (Is DuplicatedKey).
Definition save_user (u : UserRow) : Tx adb unit := fun d =>
  let others := List.filter (fun y => negb (us_ID y =? us_ID u)) (a_users d) in
  if key_free (fun x => Some (us_Username x)) others u && key_free (fun x => Some (us_Email x)) others u
  then inl (tt, set_users (save_row us_ID u (a_users d)) d) else inr (Is DuplicatedKey).
Definition save_role (r : Role) : Tx adb unit := fun d =>
  if key_free active_role_name (List.filter (fun y => negb (rl_ID y =? rl_ID r)) (a_roles d)) r
  then inl (tt, set_roles (save_row rl_ID r (a_roles d)) d) else inr (Is DuplicatedKey).
Definition insert_user_role (ur : Z * Z) : Tx adb unit := fun d =>
  if bool_decide (ur ∈ a_user_roles d) then inr (Is DuplicatedKey)
  else inl (tt, set_user_roles (a_user_roles d ++ [ur]) d).
(** One INSERT of several rows: all of them or none. *)
Fixpoint insert_role_permissions (l : list (Z * Z)) : Tx adb unit :=
  match l with
  | [] => tx_ret tt
  | rp :: rest => fun d =>
      if bool_decide (rp ∈ a_role_permissions d) then inr (Is DuplicatedKey)
      else insert_role_permissions rest (set_role_permissions (a_role_permissions d ++ [rp]) d)
  end.
Definition grant_free (rows : list UserPermission) (p : UserPermission) : bool :=
  key_free (grant_key up_container) rows p && key_free (grant_key up_dataset) rows p
  && key_free (grant_key up_project) rows p.
Fixpoint insert_user_permissions (l : list UserPermission) : Tx adb unit :=
  match l with
  | [] => tx_ret tt
  | p :: rest => fun d =>
      if grant_free (a_user_permissions d) p
      then insert_user_permissions rest (set_user_permissions (a_user_permissions d ++ [p]) d)
      else inr (Is DuplicatedKey)
  end.
(** [Update("status", CommonDeleted)] on the memberships that match and are not deleted:
    their number. *)
Definition delete_members (p : Member -> bool) : Tx adb Z := fun d =>
  let '(n, rows) := soft_delete (fun m => p m && negb (me_Status m =? deleted)) (me_with_status deleted) (a_members d) in
  inl (n, set_members rows d).
Definition is_of (k : scope_kind) (m : Member) : bool := bool_decide (me_Kind m = k).

Section Statements.
Context (generated_refused : bool).

(** [Create] without [Omit] of the generated column gives it the empty string. *)
Definition generated_column (table column : string) : goerr :=
  New ("Error 3105 (HY000): The value specified for generated column '" +:+ column +:+ "' in table '"
       +:+ table +:+ "' is not allowed.").
Definition generated_written {A} (table column : string) (m : Tx adb A) : Tx adb A :=
  if generated_refused then tx_err (generated_column table column) else m.

Definition insert_member (m : Member) : Tx adb unit := fun d =>
  let m := if me_Status m =? 0 then me_with_status enabled m else m in
  if key_free member_key (a_members d) m then inl (tt, set_members (a_members d ++ [m]) d)
  else inr (Is DuplicatedKey).

Definition insert_role (r : Role) : Tx adb Role := fun d =>
  let '(id, d) := take_next d in
  let r := mkRole id (rl_Name r) (rl_DisplayName r) (rl_Description r) (rl_IsSystem r)
             (if rl_Status r =? 0 then enabled else rl_Status r) in
  if key_free active_role_name (a_roles d) r then inl (r, set_roles (a_roles d ++ [r]) d)
  else inr (Is DuplicatedKey).

(** ** The repository of users *)

Definition not_found (entity : string) (id : Z) : string :=
  "failed to find " +:+ entity +:+ " with id " +:+ itoa id +:+ ": ".
Definition alive {A} (id status : A -> Z) (key : Z) (rows : list A) : option A :=
  find (fun x => (id x =? key) && negb (status x =? deleted)) rows.
(** [ensureActiveRecordExists]: a row that is not deleted. *)
Definition ensureActiveRecordExists {A} (entity : string) (rows : adb -> list A) (idOf status : A -> Z) (id : Z)
  : Tx adb unit :=
  tx_wrap (not_found entity id) (tx_first (fun d => alive idOf status id (rows d))) ;;^ tx_ret tt.
Definition ensureUser : Z -> Tx adb unit := ensureActiveRecordExists "user" a_users us_ID us_Status.
Definition ensureRole : Z -> Tx adb unit := ensureActiveRecordExists "role" a_roles rl_ID rl_Status.
Definition ensureContainer : Z -> Tx adb unit := ensureActiveRecordExists "container" a_containers c_ID c_Status.
Definition ensureDataset : Z -> Tx adb unit := ensureActiveRecordExists "dataset" a_datasets ds_ID ds_Status.
Definition ensureProject : Z -> Tx adb unit := ensureActiveRecordExists "project" a_projects po_ID po_Status.

Definition getUserDetailBase (userID : Z) : Tx adb UserRow :=
  tx_wrap (not_found "user" userID) (tx_first (fun d => find (fun u => us_ID u =? userID) (a_users d))).

(** The checks look at deleted users too. *)
Definition createUserIfUnique `{GoCrypto} (salt : res string) (user : UserRow) : Tx adb UserRow :=
  let^ byName := tx_get (fun d => find (fun u => String.eqb (us_Username u) (us_Username user)) (a_users d)) in
  tx_require (match byName with None => true | Some _ => false end)
    (tagged AlreadyExists ("username " +:+ us_Username user +:+ " already exists")) ;;^
  let^ byEmail := tx_get (fun d => find (fun u => String.eqb (us_Email u) (us_Email user)) (a_users d)) in
  tx_require (match byEmail with None => true | Some _ => false end)
    (tagged AlreadyExists ("email " +:+ us_Email user +:+ " already exists")) ;;^
  tx_wrap "failed to create user: "
    (match HashPassword salt (us_Password user) with     (* [BeforeCreate] *)
     | Err e => tx_err (Wrap "failed to hash password: " (New e) "")
     | Ok hashed => insert_user_row (mkUserRow (us_ID user) (us_Username user) (us_Email user) hashed (us_FullName user)
                      (us_Avatar user) (us_Phone user) (us_LastLoginAt user) (us_IsActive user) (us_Status user))
     end).

Definition deleteUserCascade (userID : Z) : Tx adb Z :=
  ensureUser userID ;;^
  delete_members (fun m => is_of OfContainer m && (me_User m =? userID)) ;;^
  delete_members (fun m => is_of OfDataset m && (me_User m =? userID)) ;;^
  delete_members (fun m => is_of OfProject m && (me_User m =? userID)) ;;^
  tx_do (fun d => set_user_permissions (List.filter (fun p => negb (up_user p =? userID)) (a_user_permissions d)) d) ;;^
  tx_do (fun d => set_user_roles (List.filter (fun ur => negb (fst ur =? userID)) (a_user_roles d)) d) ;;^
  fun d =>
    let '(n, rows) := soft_delete (fun u => (us_ID u =? userID) && negb (us_Status u =? deleted))
                        (us_with_status deleted) (a_users d) in
    inl (n, set_users rows d).

(** The rows of a page, and how many there are in all. *)
Definition unless {A} (o : option A) (p : A -> bool) : bool := match o with None => true | Some a => p a end.
Definition listUserViews (limit offset : Z) (isActive : option bool) (status : option Z) (d : adb)
  : list UserRow * Z :=
  let rows := List.filter (fun u => negb (us_Status u =? deleted) && unless status (Z.eqb (us_Status u))
                                    && unless isActive (Bool.eqb (us_IsActive u))) (a_users d) in
  (page_rows limit offset rows, Z.of_nat (length rows)).

(** Deleted users are found too. *)
Definition updateMutableUser (userID : Z) (patch : UserRow -> UserRow) : Tx adb UserRow :=
  let^ user := getUserDetailBase userID in
  tx_wrap "failed to update user: " (save_user (patch user)) ;;^
  tx_ret (patch user).

Record user_relations := mkRelations {
  rel_roles : list Role; rel_permissions : list Permission; rel_containers : list Member;
  rel_datasets : list Member; rel_projects : list Member
}.
(** A join with [roles] or [permissions], the enabled rows of it. *)
Definition joined {A B} (idOf status : B -> Z) (link : A -> Z) (links : list A) (rows : list B) : list B :=
  concat (map (fun l => List.filter (fun x => (idOf x =? link l) && (status x =? enabled)) rows) links).
Definition loadUserDetailRelations (userID : Z) (d : adb) : user_relations :=
  let members k := List.filter (fun m => is_of k m && (me_User m =? userID) && negb (me_Status m =? deleted)) (a_members d) in
  mkRelations
    (joined rl_ID rl_Status snd (List.filter (fun ur => fst ur =? userID) (a_user_roles d)) (a_roles d))
    (joined pr_ID pr_Status up_permission (List.filter (fun up => up_user up =? userID) (a_user_permissions d)) (a_permissions d))
    (members OfContainer) (members OfDataset) (members OfProject).

Definition assignGlobalRole (userID roleID : Z) : Tx adb unit :=
  ensureUser userID ;;^ ensureRole roleID ;;^
  tx_wrap "failed to create user-role association: " (insert_user_role (userID, roleID)).
Definition removeGlobalRole (userID roleID : Z) : Tx adb unit :=
  ensureUser userID ;;^ ensureRole roleID ;;^
  tx_do (fun d => set_user_roles
    (List.filter (fun ur => negb ((fst ur =? userID) && (snd ur =? roleID))) (a_user_roles d)) d).

(** The enabled ones among them. *)
Definition listPermissionsByIDs (permissionIDs : list Z) (d : adb) : list Permission :=
  match permissionIDs with
  | [] => []
  | _ => List.filter (fun p => existsb (Z.eqb (pr_ID p)) permissionIDs && (pr_Status p =? enabled)) (a_permissions d)
  end.
Definition permission_known (permissions : list Permission) (id : Z) : bool :=
  existsb (fun p => pr_ID p =? id) permissions.
Definition permission_missing (id : Z) : goerr := tagged NotFound ("permission id " +:+ itoa id +:+ " not found").

Record AssignUserPermissionItem := mkItem {
  it_PermissionID : Z; it_GrantType : option Z; it_ExpiresAt : option Z;
  it_ContainerID : option Z; it_DatasetID : option Z; it_ProjectID : option Z
}.
(** The grant type is there: [Validate] asks for it. *)
Definition ConvertToUserPermission (userID : Z) (item : AssignUserPermissionItem) : UserPermission :=
  mkUserPermission userID (it_PermissionID item) (default 0 (it_GrantType item)) (it_ExpiresAt item)
    (it_ProjectID item) (it_ContainerID item) (it_DatasetID item).
Definition ensure_target (entity : string) (ensure : Z -> Tx adb unit) (target : option Z) : Tx adb unit :=
  match target with
  | None => tx_ret tt
  | Some id => tx_on_err (fun _ => tagged NotFound (entity +:+ " id " +:+ itoa id +:+ " not found")) (ensure id)
  end.
Definition check_item (permissions : list Permission) (item : AssignUserPermissionItem) : Tx adb unit :=
  tx_require (permission_known permissions (it_PermissionID item)) (permission_missing (it_PermissionID item)) ;;^
  ensure_target "container" ensureContainer (it_ContainerID item) ;;^
  ensure_target "dataset" ensureDataset (it_DatasetID item) ;;^
  ensure_target "project" ensureProject (it_ProjectID item).
Definition buildUserPermissions (userID : Z) (items : list AssignUserPermissionItem) : Tx adb (list UserPermission) :=
  ensureUser userID ;;^
  let^ permissions := tx_get (listPermissionsByIDs (map it_PermissionID items)) in
  tx_each (check_item permissions) items ;;^
  tx_ret (map (ConvertToUserPermission userID) items).
Definition batchCreateUserPermissions (l : list UserPermission) : Tx adb unit :=
  tx_wrap "failed to batch create user permissions: " (insert_user_permissions l).
Definition batchDeleteUserPermissions (userID : Z) (permissionIDs : list Z) : Tx adb unit :=
  ensureUser userID ;;^
  let^ permissions := tx_get (listPermissionsByIDs permissionIDs) in
  tx_each (fun id => tx_require (permission_known permissions id) (permission_missing id)) permissionIDs ;;^
  tx_do (fun d => set_user_permissions
    (List.filter (fun p => negb ((up_user p =? userID) && existsb (Z.eqb (up_permission p)) permissionIDs))
       (a_user_permissions d)) d).

(** [assignContainerRole], [assignDatasetRole] and [assignProjectRole] differ in the
    table; none of them leaves the generated column out. *)
Definition kind_name (k : scope_kind) : string :=
  match k with OfTeam => "team" | OfProject => "project" | OfContainer => "container" | OfDataset => "dataset" end.
Definition ensure_scope (k : scope_kind) : Z -> Tx adb unit :=
  match k with
  | OfTeam => ensureActiveRecordExists "team" a_teams tm_ID tm_Status
  | OfProject => ensureProject
  | OfContainer => ensureContainer
  | OfDataset => ensureDataset
  end.
Definition assignScopeRole (k : scope_kind) (userID scopeID roleID : Z) : Tx adb unit :=
  ensureUser userID ;;^ ensure_scope k scopeID ;;^ ensureRole roleID ;;^
  tx_wrap ("failed to create user-" +:+ kind_name k +:+ " association: ")
    (generated_written ("user_" +:+ kind_name k +:+ "s") ("active_user_" +:+ kind_name k)
       (insert_member (mkMember k userID scopeID roleID 0))).
Definition removeScopeRole (k : scope_kind) (userID scopeID : Z) : Tx adb Z :=
  ensureUser userID ;;^ ensure_scope k scopeID ;;^
  delete_members (fun m => is_of k m && (me_User m =? userID) && (me_Scope m =? scopeID)).
Definition assignContainerRole : Z -> Z -> Z -> Tx adb unit := assignScopeRole OfContainer.
Definition assignDatasetRole : Z -> Z -> Z -> Tx adb unit := assignScopeRole OfDataset.
Definition assignProjectRole : Z -> Z -> Z -> Tx adb unit := assignScopeRole OfProject.
Definition removeContainerRole : Z -> Z -> Tx adb Z := removeScopeRole OfContainer.
Definition removeDatasetRole : Z -> Z -> Tx adb Z := removeScopeRole OfDataset.
Definition removeProjectRole : Z -> Z -> Tx adb Z := removeScopeRole OfProject.

(** ** The service of users *)

Record CreateUserReq := mkCreateUser {
  cu_Username : string; cu_Email : string; cu_Password : string; cu_FullName : string; cu_Phone : string; cu_Avatar : string
}.
(** Trims, then checks. *)
Definition CreateUserReq_Validate (req : CreateUserReq) : res CreateUserReq :=
  let req := mkCreateUser (trim_space (cu_Username req)) (trim_space (cu_Email req)) (cu_Password req)
               (cu_FullName req) (cu_Phone req) (cu_Avatar req) in
  require (negb (String.eqb (cu_Username req) "")) "username cannot be empty" ;;?
  require (negb (String.eqb (cu_Email req) "")) "email cannot be empty" ;;?
  require (negb (str_len (cu_Password req) <? 8)) "password must be at least 8 characters" ;;?
  Ok req.
(** The error of a validation, wrapped. *)
Definition tx_valid {S A} (r : res A) : Tx S A :=
  match r with Ok a => tx_ret a | Err e => tx_err (Wrap "validation failed: " (New e) "") end.

(** [UserResp]: no password. *)
Record UserResp := mkUserResp {
  ur_ID : Z; ur_Username : string; ur_Email : string; ur_FullName : string; ur_Avatar : string; ur_Phone : string;
  ur_IsActive : bool; ur_Status : string; ur_LastLoginAt : option Z
}.
Definition NewUserResp (u : UserRow) : UserResp :=
  mkUserResp (us_ID u) (us_Username u) (us_Email u) (us_FullName u) (us_Avatar u) (us_Phone u) (us_IsActive u)
    (GetStatusTypeName (us_Status u)) (us_LastLoginAt u).

Definition new_user (req : CreateUserReq) : UserRow :=
  mkUserRow 0 (cu_Username req) (cu_Email req) (cu_Password req) (cu_FullName req) (cu_Avatar req) (cu_Phone req)
    None true enabled.
Definition CreateUser `{GoCrypto} (salt : res string) (req : CreateUserReq) (d : adb) : (UserResp + goerr) * adb :=
  transaction (let^ req := tx_valid (CreateUserReq_Validate req) in
               let^ user := createUserIfUnique salt (new_user req) in
               tx_ret (NewUserResp user)) d.

Definition DeleteUser (userID : Z) (d : adb) : (unit + goerr) * adb :=
  transaction (
    tx_on_err (fun e => if errors_Is NotFound e then tagged NotFound "user not found" else Wrap "failed to get user: " e "")
      (ensureUser userID) ;;^
    let^ rows := deleteUserCascade userID in
    tx_require (negb (rows =? 0)) (tagged NotFound ("user id " +:+ itoa userID +:+ " not found"))) d.

Record UpdateUserReq := mkUpdateUser {
  uu_Email : option string; uu_FullName : option string; uu_Phone : option string; uu_Avatar : option string;
  uu_IsActive : option bool; uu_Status : option Z
}.
Definition PatchUserModel (req : UpdateUserReq) (u : UserRow) : UserRow :=
  mkUserRow (us_ID u) (us_Username u) (default (us_Email u) (uu_Email req)) (us_Password u)
    (default (us_FullName u) (uu_FullName req)) (default (us_Avatar u) (uu_Avatar req))
    (default (us_Phone u) (uu_Phone req)) (us_LastLoginAt u) (default (us_IsActive u) (uu_IsActive req))
    (default (us_Status u) (uu_Status req)).
Definition UpdateUser (req : UpdateUserReq) (userID : Z) (d : adb) : (UserResp + goerr) * adb :=
  transaction (
    tx_valid (Labels.validateStatus (uu_Status req) true) ;;^
    let^ user := tx_on_err (fun e => if errors_Is NotFound e then tagged NotFound "user not found"
                                     else Wrap "failed to get user: " e "")
                   (updateMutableUser userID (PatchUserModel req)) in
    tx_ret (NewUserResp user)) d.

Definition GetUserDetail (userID : Z) : Tx adb (UserResp * user_relations) :=
  let^ user := tx_on_err (fun e => if errors_Is NotFound e
                            then tagged NotFound ("user with ID " +:+ itoa userID +:+ " not found")
                            else Wrap "failed to get user: " e "") (getUserDetailBase userID) in
  let^ rel := tx_get (loadUserDetailRelations (us_ID user)) in
  tx_ret (NewUserResp user, rel).

Definition ListUsers (page : PaginationReq) (isActive : option bool) (status : option Z) (d : adb)
  : res (list UserResp * PaginationInfo) :=
  res_wrap "validation failed: " (
    let? page := PaginationReq_Validate page in
    Labels.validateStatus status false ;;?
    let '(limit, offset) := ToGormParams page in
    let '(users, total) := listUserViews limit offset isActive status d in
    Ok (map NewUserResp users, ConvertToPaginationInfo page total)).

(** What the services make of an error of an assignment. *)
Definition assign_error (missing duplicate : string) (e : goerr) : goerr :=
  if errors_Is NotFound e then tagged NotFound missing
  else if errors_Is DuplicatedKey e then tagged AlreadyExists duplicate
  else e.
(** ... of roles, which looks at the user again. *)
Definition role_error {A} (userID : Z) (duplicate : option string) (m : Tx adb A) : Tx adb A := fun s =>
  match m s with
  | inl r => inl r
  | inr e =>
      if errors_Is NotFound e then
        match ensureUser userID s with
        | inr _ => inr (tagged NotFound "user not found")
        | inl _ => inr (tagged NotFound "role not found")
        end
      else match duplicate with
           | Some text => if errors_Is DuplicatedKey e then inr (tagged AlreadyExists text) else inr e
           | None => inr e
           end
  end.
Definition AssignRole (userID roleID : Z) (d : adb) : (unit + goerr) * adb :=
  transaction (role_error userID (Some "user already has this role") (assignGlobalRole userID roleID)) d.
Definition RemoveRole (userID roleID : Z) (d : adb) : (unit + goerr) * adb :=
  transaction (role_error userID None (removeGlobalRole userID roleID)) d.

Definition AssignPermissions (items : list AssignUserPermissionItem) (userID : Z) (d : adb) : (unit + goerr) * adb :=
  transaction (
    let^ userPermissions := tx_on_err (fun e => if errors_Is NotFound e
                              then tagged NotFound "failed to resolve permission assignment targets" else e)
                              (buildUserPermissions userID items) in
    tx_on_err (fun e => if errors_Is DuplicatedKey e
                        then tagged AlreadyExists "user already has one or more of these permissions"
                        else Wrap "failed to assign permissions to user: " e "")
      (batchCreateUserPermissions userPermissions)) d.
Definition RemovePermissions (permissionIDs : list Z) (userID : Z) (d : adb) : (unit + goerr) * adb :=
  transaction (
    tx_on_err (fun e => if errors_Is NotFound e then tagged NotFound "failed to resolve user or permissions"
                        else Wrap "failed to remove permissions from user: " e "")
      (batchDeleteUserPermissions userID permissionIDs)) d.

(** [AssignContainer], [AssignDataset], [AssignProject] and their removals. *)
Definition AssignScope (k : scope_kind) (userID scopeID roleID : Z) (d : adb) : (unit + goerr) * adb :=
  transaction (tx_on_err (assign_error ("user/" +:+ kind_name k +:+ "/role not found")
                            ("user already assigned to this " +:+ kind_name k))
                 (assignScopeRole k userID scopeID roleID)) d.
Definition RemoveScope (k : scope_kind) (userID scopeID : Z) (d : adb) : (unit + goerr) * adb :=
  transaction (
    let^ rows := tx_wrap ("failed to remove user from " +:+ kind_name k +:+ ": ") (removeScopeRole k userID scopeID) in
    tx_require (negb (rows =? 0)) (tagged NotFound ("user is not assigned to this " +:+ kind_name k))) d.

Definition AssignContainer : Z -> Z -> Z -> adb -> (unit + goerr) * adb := AssignScope OfContainer.
Definition AssignDataset : Z -> Z -> Z -> adb -> (unit + goerr) * adb := AssignScope OfDataset.
Definition AssignProject : Z -> Z -> Z -> adb -> (unit + goerr) * adb := AssignScope OfProject.
Definition RemoveContainer : Z -> Z -> adb -> (unit + goerr) * adb := RemoveScope OfContainer.
Definition RemoveDataset : Z -> Z -> adb -> (unit + goerr) * adb := RemoveScope OfDataset.
Definition RemoveProject : Z -> Z -> adb -> (unit + goerr) * adb := RemoveScope OfProject.

(** [AssignUserPermissionReq.Validate]; the text of a bad grant type prints the address
    of the value. *)
Definition AssignUserPermissionItem_Validate (now : Z) (item : AssignUserPermissionItem) : res unit :=
  match it_GrantType item with
  | None => Err "grant_type is required"
  | Some g =>
      require (existsb (fun x => GrantType_code x =? g) ValidGrantTypes) "invalid grant_type" ;;?
      require (match it_ExpiresAt item with Some e => negb (e <? now) | None => true end)
        "expires_at cannot be in the past"
  end.
Definition AssignUserPermissionReq_Validate (now : nat -> Z) (items : list AssignUserPermissionItem) : res unit :=
  require (negb (length items =? 0)%nat) "items cannot be empty" ;;?
  for_each (fun i item => res_wrap ("invalid item " +:+ itoa (Z.of_nat i) +:+ ": ")
                            (AssignUserPermissionItem_Validate (now i) item)) items.
Definition RemoveUserPermissionReq_Validate (permissionIDs : list Z) : res unit :=
  require (negb (length permissionIDs =? 0)%nat) "permission_ids cannot be empty" ;;?
  for_each (fun _ id => require (negb (id <=? 0)) ("invalid permission ID: " +:+ itoa id)) permissionIDs.

(** ** Roles and permissions ([module/rbac/]) *)

Definition loadRole (roleID : Z) : Tx adb Role :=
  tx_wrap (not_found "role" roleID) (tx_first (fun d => alive rl_ID rl_Status roleID (a_roles d))).
(** Role that a request may change. *)
Definition not_system (what : string) (role : Role) : Tx adb unit :=
  tx_require (negb (rl_IsSystem role)) (tagged PermissionDenied what).

Definition createRoleRecord (role : Role) : Tx adb Role :=
  tx_wrap "failed to create role: " (generated_written "roles" "active_name" (insert_role role)).
Definition deleteRoleCascade (roleID : Z) : Tx adb Z :=
  let^ role := loadRole roleID in
  not_system "cannot delete system role" role ;;^
  delete_members (fun m => is_of OfContainer m && (me_Role m =? rl_ID role)) ;;^
  delete_members (fun m => is_of OfDataset m && (me_Role m =? rl_ID role)) ;;^
  delete_members (fun m => is_of OfProject m && (me_Role m =? rl_ID role)) ;;^
  tx_do (fun d => set_role_permissions (List.filter (fun rp => negb (fst rp =? rl_ID role)) (a_role_permissions d)) d) ;;^
  tx_do (fun d => set_user_roles (List.filter (fun ur => negb (snd ur =? rl_ID role)) (a_user_roles d)) d) ;;^
  fun d =>
    let '(n, rows) := soft_delete (fun r => (rl_ID r =? rl_ID role) && negb (rl_Status r =? deleted))
                        (rl_with_status deleted) (a_roles d) in
    inl (n, set_roles rows d).

(** The enabled users of a join with [user_roles]. *)
Definition users_with_role (roleID : Z) (d : adb) : list UserRow :=
  joined us_ID us_Status fst (List.filter (fun ur => snd ur =? roleID) (a_user_roles d)) (a_users d).
Definition loadRoleDetail (roleID : Z) : Tx adb (Role * Z * list Permission) :=
  let^ role := loadRole roleID in
  let^ userCount := tx_get (fun d => Z.of_nat (length (users_with_role (rl_ID role) d))) in
  let^ permissions := tx_get (fun d =>
    joined pr_ID pr_Status snd (List.filter (fun rp => fst rp =? rl_ID role) (a_role_permissions d)) (a_permissions d)) in
  tx_ret (role, userCount, permissions).
Definition listUsersFromRole (roleID : Z) : Tx adb (list UserRow) :=
  let^ role := loadRole roleID in tx_get (users_with_role (rl_ID role)).
Definition updateMutableRole (roleID : Z) (patch : Role -> Role) : Tx adb Role :=
  let^ role := loadRole roleID in
  not_system "cannot update system role" role ;;^
  tx_wrap "failed to update role: " (save_role (patch role)) ;;^
  tx_ret (patch role).

(** [buildAssignablePermissionMap] and the loop that follows it. *)
Definition all_assignable (permissionIDs : list Z) : Tx adb unit :=
  let^ permissions := tx_get (listPermissionsByIDs (remove_dups permissionIDs)) in
  tx_each (fun id => tx_require (permission_known permissions id) (permission_missing id)) permissionIDs.
Definition assignRolePermissions (roleID : Z) (permissionIDs : list Z) : Tx adb unit :=
  let^ role := loadRole roleID in
  not_system "cannot assign permissions to system role" role ;;^
  all_assignable permissionIDs ;;^
  tx_wrap "failed to batch create role permissions: " (insert_role_permissions (map (pair (rl_ID role)) permissionIDs)).
Definition removeRolePermissions (roleID : Z) (permissionIDs : list Z) : Tx adb unit :=
  let^ role := loadRole roleID in
  not_system "cannot remove permissions of system role" role ;;^
  all_assignable permissionIDs ;;^
  tx_do (fun d => set_role_permissions
    (List.filter (fun rp => negb ((fst rp =? rl_ID role) && existsb (Z.eqb (snd rp)) permissionIDs))
       (a_role_permissions d)) d).

Definition getPermissionDetail (permissionID : Z) : Tx adb Permission :=
  tx_wrap (not_found "permission" permissionID)
    (tx_first (fun d => alive pr_ID pr_Status permissionID (a_permissions d))).
Definition listRolesFromPermission (permissionID : Z) : Tx adb (list Role) :=
  let^ permission := getPermissionDetail permissionID in
  tx_get (fun d => concat (map (fun rp => List.filter (fun r => (rl_ID r =? fst rp) && negb (rl_Status r =? deleted)) (a_roles d))
    (List.filter (fun rp => snd rp =? pr_ID permission) (a_role_permissions d)))).

(** *** The service *)

Record CreateRoleReq := mkCreateRole { cr_Name : string; cr_DisplayName : string; cr_Description : string }.
Definition ConvertToRole (req : CreateRoleReq) : Role :=
  mkRole 0 (cr_Name req) (cr_DisplayName req) (cr_Description req) false enabled.
Record UpdateRoleReq := mkUpdateRole {
  ro_DisplayName : option string; ro_Description : option string; ro_NewStatus : option Z
}.
(** Trims the name, then checks the status; the handler calls it. *)
Definition UpdateRoleReq_Validate (req : UpdateRoleReq) : res UpdateRoleReq :=
  let name := match ro_DisplayName req with
              | Some n => Some (if String.eqb n "" then n else trim_space n)
              | None => None
              end in
  Labels.validateStatus (ro_NewStatus req) true ;;?
  Ok (mkUpdateRole name (ro_Description req) (ro_NewStatus req)).
Definition PatchRoleModel (req : UpdateRoleReq) (r : Role) : Role :=
  mkRole (rl_ID r) (rl_Name r) (default (rl_DisplayName r) (ro_DisplayName req))
    (default (rl_Description r) (ro_Description req)) (rl_IsSystem r) (default (rl_Status r) (ro_NewStatus req)).

Record RoleResp := mkRoleResp {
  rr_ID : Z; rr_Name : string; rr_DisplayName : string; rr_Type : string; rr_IsSystem : bool; rr_Status : string
}.
Definition NewRoleResp (r : Role) : RoleResp :=
  mkRoleResp (rl_ID r) (rl_Name r) (rl_DisplayName r) "" (rl_IsSystem r) (GetStatusTypeName (rl_Status r)).

Definition CreateRole (req : CreateRoleReq) (d : adb) : (RoleResp + goerr) * adb :=
  let role := ConvertToRole req in
  transaction (
    let^ role := tx_on_err (fun e => if errors_Is DuplicatedKey e
                              then tagged AlreadyExists ("role with name " +:+ rl_Name role +:+ " already exists") else e)
                   (createRoleRecord role) in
    tx_ret (NewRoleResp role)) d.
Definition DeleteRole (roleID : Z) (d : adb) : (unit + goerr) * adb :=
  transaction (
    let^ rows := tx_on_err (fun e => if errors_Is NotFound e then tagged NotFound "role not found" else e)
                   (deleteRoleCascade roleID) in
    tx_require (negb (rows =? 0)) (tagged NotFound ("role id " +:+ itoa roleID +:+ " not found"))) d.
Definition UpdateRole (req : UpdateRoleReq) (roleID : Z) (d : adb) : (RoleResp + goerr) * adb :=
  transaction (let^ role := updateMutableRole roleID (PatchRoleModel req) in tx_ret (NewRoleResp role)) d.
Definition AssignRolePermissions (permissionIDs : list Z) (roleID : Z) (d : adb) : (unit + goerr) * adb :=
  transaction (
    tx_on_err (fun e => if errors_Is DuplicatedKey e
                        then tagged AlreadyExists "role already has one or more of these permissions"
                        else Wrap "failed to assign permissions to role: " e "")
      (assignRolePermissions roleID permissionIDs)) d.
Definition RemoveRolePermissions (permissionIDs : list Z) (roleID : Z) (d : adb) : (unit + goerr) * adb :=
  transaction (tx_wrap "failed to remove permissions from role: " (removeRolePermissions roleID permissionIDs)) d.
(** *** What is shown *)

(** [PermissionResp]: the resource is not loaded with the rows of a join, so its name is
    empty. *)
Record PermissionResp := mkPermissionResp {
  pp_ID : Z; pp_Name : string; pp_DisplayName : string; pp_Action : string; pp_Scope : string; pp_IsSystem : bool;
  pp_Status : string; pp_Resource : string
}.
Definition NewPermissionResp (resource : option ResourceRow) (p : Permission) : PermissionResp :=
  mkPermissionResp (pr_ID p) (pr_Name p) (pr_DisplayName p) (pr_Action p) (pr_Scope p) (pr_IsSystem p)
    (GetStatusTypeName (pr_Status p)) (match resource with Some r => r_name r | None => "" end).
(** A missing row that the service means to answer with "not found". *)
Definition missing_row (what other : string) (e : goerr) : goerr :=
  if errors_Is NotFound e then tagged NotFound what else Wrap other e "".

Definition GetRole (roleID : Z) : Tx adb (RoleResp * string * Z * list PermissionResp) :=
  let^ (role, userCount, permissions) :=
    tx_on_err (missing_row ("role with ID " +:+ itoa roleID +:+ " not found") "failed to get role: ") (loadRoleDetail roleID) in
  tx_ret (NewRoleResp role, rl_Description role, userCount, map (NewPermissionResp None) permissions).
Definition ListUsersFromRole (roleID : Z) : Tx adb (list UserResp) :=
  let^ users := tx_on_err (fun e => if errors_Is NotFound e then tagged NotFound "role not found" else e)
                  (listUsersFromRole roleID) in
  tx_ret (map NewUserResp users).
(** The resource is preloaded. *)
Definition GetPermission (permissionID : Z) : Tx adb (PermissionResp * string) :=
  let^ permission := tx_on_err (missing_row "permission not found" "failed to get permission: ") (getPermissionDetail permissionID) in
  let^ resource := tx_get (fun d => find (fun r => r_id r =? pr_ResourceID permission) (a_resources d)) in
  tx_ret (NewPermissionResp resource permission, pr_Description permission).
Definition ListRolesFromPermission (permissionID : Z) : Tx adb (list RoleResp) :=
  let^ roles := tx_on_err (fun e => if errors_Is NotFound e then tagged NotFound "permission not found" else e)
                  (listRolesFromPermission permissionID) in
  tx_ret (map NewRoleResp roles).
End Statements.
