(* ===== verification/Teams.v ===== *)
(** * Teams and projects ([module/team/], [module/project/])

    The repositories of teams and projects and the operations of their services that
    change tables or decide about access, on the tables of [Accounts].  The operations of
    a team run outside a transaction, each statement committed by itself; but each of
    them has one statement that writes, the creation of a team excepted, which is a
    transaction.  The statistics of a project and the reader of another service are left
    out. *)

From S2P Require Import Prelude GoStrings Consts PermissionTables Passwords Tables Search Containers Datasets Labels Permissions Accounts.
#[local] Open Scope Z_scope.

(** ** Statements *)

Definition active_team_name (t : Team) : option string := if 0 <=? tm_Status t then Some (tm_Name t) else None.
Definition active_project_name (p : Project) : option string := if 0 <=? po_Status p then Some (po_Name p) else None.
Definition tm_with_status (s : Z) (t : Team) : Team := mkTeam (tm_ID t) (tm_Name t) (tm_Description t) (tm_IsPublic t) s.
Definition po_with_status (s : Z) (p : Project) : Project :=
  mkProjectRow (po_ID p) (po_Name p) (po_Description p) (po_TeamID p) (po_IsPublic p) s.

Definition insert_team (t : Team) : Tx adb Team := fun d =>
  let '(id, d) := take_next d in
  let t := mkTeam id (tm_Name t) (tm_Description t) (tm_IsPublic t) (if tm_Status t =? 0 then enabled else tm_Status t) in
  if key_free active_team_name (a_teams d) t then inl (t, set_teams (a_teams d ++ [t]) d) else inr (Is DuplicatedKey).
Definition save_team (t : Team) : Tx adb unit := fun d =>
  if key_free active_team_name (List.filter (fun y => negb (tm_ID y =? tm_ID t)) (a_teams d)) t
  then inl (tt, set_teams (save_row tm_ID t (a_teams d)) d) else inr (Is DuplicatedKey).
Definition insert_project (p : Project) : Tx adb Project := fun d =>
  let '(id, d) := take_next d in
  let p := mkProjectRow id (po_Name p) (po_Description p) (po_TeamID p) (po_IsPublic p)
             (if po_Status p =? 0 then enabled else po_Status p) in
  if key_free active_project_name (a_projects d) p then inl (p, set_projects (a_projects d ++ [p]) d)
  else inr (Is DuplicatedKey).
Definition save_project (p : Project) : Tx adb unit := fun d =>
  if key_free active_project_name (List.filter (fun y => negb (po_ID y =? po_ID p)) (a_projects d)) p
  then inl (tt, set_projects (save_row po_ID p (a_projects d)) d) else inr (Is DuplicatedKey).

(** The first row that matches, replaced. *)
Fixpoint change_first {A} (p : A -> bool) (f : A -> A) (rows : list A) : list A :=
  match rows with
  | [] => []
  | x :: rest => if p x then f x :: rest else x :: change_first p f rest
  end.

Definition roleNamed (name : string) (d : adb) : option Role :=
  find (fun r => String.eqb (rl_Name r) name && negb (rl_Status r =? deleted)) (a_roles d).

Section Teams.
Context (generated_refused : bool).
Abbreviation written := (generated_written generated_refused).

(** ** The repository of teams *)

(** Deleted teams too. *)
Definition loadTeam (teamID : Z) : Tx adb Team :=
  tx_wrap (not_found "team" teamID) (tx_first (fun d => find (fun t => tm_ID t =? teamID) (a_teams d))).
(** [loadTeam], a missing row as [consts.ErrNotFound]. *)
Definition existing_team (teamID : Z) : Tx adb unit :=
  tx_on_err (fun e => if errors_Is RecordNotFound e then Is NotFound else e) (loadTeam teamID) ;;^ tx_ret tt.

Definition createTeamWithCreator (team : Team) (userID : Z) : Tx adb Team :=
  let^ superAdminRole := tx_wrap "failed to get super_admin role: " (tx_first (roleNamed RoleSuperAdmin)) in
  let^ team := tx_wrap "failed to create team: " (insert_team team) in
  tx_wrap "failed to create user-team association: "
    (insert_member (mkMember OfTeam userID (tm_ID team) (rl_ID superAdminRole) enabled)) ;;^
  tx_ret team.

Definition enabled_members (k : scope_kind) (scopeID : Z) (d : adb) : list Member :=
  List.filter (fun m => is_of k m && (me_Scope m =? scopeID) && (me_Status m =? enabled)) (a_members d).
Definition loadTeamDetailBase (teamID : Z) : Tx adb (Team * Z) :=
  let^ team := loadTeam teamID in
  let^ count := tx_get (fun d => Z.of_nat (length (enabled_members OfTeam teamID d))) in
  tx_ret (team, count).

Definition listVisibleTeams (limit offset : Z) (isPublic : option bool) (status : option Z) (userID : Z) (isAdmin : bool)
    (d : adb) : list Team * Z :=
  let teamIDs := map me_Scope (List.filter (fun m => is_of OfTeam m && (me_User m =? userID) && (me_Status m =? enabled))
                                 (a_members d)) in
  if negb isAdmin && (length teamIDs =? 0)%nat then ([], 0)
  else
    let rows := List.filter (fun t => unless isPublic (Bool.eqb (tm_IsPublic t)) && unless status (Z.eqb (tm_Status t))
                                      && (isAdmin || existsb (Z.eqb (tm_ID t)) teamIDs)) (a_teams d) in
    (page_rows limit offset rows, Z.of_nat (length rows)).

Definition updateMutableTeam (teamID : Z) (patch : Team -> Team) : Tx adb Team :=
  let^ team := loadTeam teamID in
  tx_wrap "failed to update team: " (save_team (patch team)) ;;^
  tx_ret (patch team).

Definition loadRoleByID (roleID : Z) : Tx adb Role :=
  tx_wrap (not_found "role" roleID) (tx_first (fun d => alive rl_ID rl_Status roleID (a_roles d))).
Definition addMember (teamID : Z) (username : string) (roleID : Z) : Tx adb unit :=
  existing_team teamID ;;^
  let^ user := tx_wrap ("failed to find user with username " +:+ username +:+ ": ")
                 (tx_first (fun d => find (fun u => String.eqb (us_Username u) username) (a_users d))) in
  loadRoleByID roleID ;;^
  tx_wrap "failed to create user-team association: "
    (insert_member (mkMember OfTeam (us_ID user) teamID roleID enabled)).
Definition removeMember (teamID userID : Z) : Tx adb Z :=
  existing_team teamID ;;^
  delete_members (fun m => is_of OfTeam m && (me_User m =? userID) && (me_Scope m =? teamID)).
Definition enabled_member (k : scope_kind) (userID scopeID : Z) (m : Member) : bool :=
  is_of k m && (me_User m =? userID) && (me_Scope m =? scopeID) && (me_Status m =? enabled).
Definition set_me_role (role : Z) (m : Member) : Member :=
  mkMember (me_Kind m) (me_User m) (me_Scope m) role (me_Status m).
(** [First] with the role preloaded, another role, and a [Save] of all columns, the
    generated one included.  gorm saves a loaded association with its row and writes the
    identifier of the role it loaded back into the column. *)
Definition saved_role (d : adb) (m : Member) (roleID : Z) : Z :=
  match find (fun r => rl_ID r =? me_Role m) (a_roles d) with Some role => rl_ID role | None => roleID end.
Definition updateMemberRole (teamID targetUserID roleID : Z) : Tx adb unit :=
  existing_team teamID ;;^
  loadRoleByID roleID ;;^
  let^ userTeam := tx_first (fun d => find (enabled_member OfTeam targetUserID teamID) (a_members d)) in
  written "user_teams" "active_user_team" (fun d =>
    let rows := change_first (enabled_member OfTeam targetUserID teamID)
                  (set_me_role (saved_role d userTeam roleID)) (a_members d) in
    if bool_decide (NoDup (omap member_key rows)) then inl (tt, set_members rows d) else inr (Is DuplicatedKey)).

(** The rows of the members of a team, with the display name of the role. *)
Record TeamMemberResp := mkTeamMember {
  tr_UserID : Z; tr_Username : string; tr_FullName : string; tr_Email : string; tr_RoleID : Z; tr_RoleName : option string
}.
Definition member_views (teamID : Z) (d : adb) : list TeamMemberResp :=
  concat (map (fun m =>
    map (fun u => mkTeamMember (us_ID u) (us_Username u) (us_FullName u) (us_Email u) (me_Role m)
                    (rl_DisplayName <$> find (fun r => rl_ID r =? me_Role m) (a_roles d)))
      (List.filter (fun u => (us_ID u =? me_User m) && negb (us_Status u =? deleted)) (a_users d)))
    (enabled_members OfTeam teamID d)).
Definition listTeamMembers (teamID limit offset : Z) : Tx adb (list TeamMemberResp * Z) :=
  existing_team teamID ;;^
  tx_get (fun d => let rows := member_views teamID d in (page_rows limit offset rows, Z.of_nat (length rows))).

Definition loadUserTeamMembership (userID teamID : Z) : Tx adb Member :=
  tx_first (fun d => find (enabled_member OfTeam userID teamID) (a_members d)).
Definition deleteTeam (teamID : Z) : Tx adb Z := fun d =>
  let '(n, rows) := soft_delete (fun t => (tm_ID t =? teamID) && negb (tm_Status t =? deleted)) (tm_with_status deleted)
                      (a_teams d) in
  inl (n, set_teams rows d).

(** ** The service of teams *)

Record CreateTeamReq := mkCreateTeam { ct_Name : string; ct_Description : string; ct_IsPublic : option bool }.
(** Trims the name and fills the default. *)
Definition CreateTeamReq_Validate (req : CreateTeamReq) : res CreateTeamReq :=
  let name := trim_space (ct_Name req) in
  require (negb (String.eqb name "")) "team name cannot be empty" ;;?
  Ok (mkCreateTeam name (ct_Description req) (Some (default true (ct_IsPublic req)))).
(** Of a request that was validated. *)
Definition ConvertToTeam (req : CreateTeamReq) : Team :=
  mkTeam 0 (ct_Name req) (ct_Description req) (default false (ct_IsPublic req)) enabled.
Definition UpdateMutable_team (description : option string) (isPublic : option bool) (status : option Z) (t : Team) : Team :=
  mkTeam (tm_ID t) (tm_Name t) (default (tm_Description t) description) (default (tm_IsPublic t) isPublic)
    (default (tm_Status t) status).

Definition CreateTeam (req : CreateTeamReq) (userID : Z) (d : adb) : (Team + goerr) * adb :=
  transaction (tx_on_err (fun e => if errors_Is AlreadyExists e then Is AlreadyExists else e)
                 (createTeamWithCreator (ConvertToTeam req) userID)) d.
Definition DeleteTeam (teamID : Z) (d : adb) : (unit + goerr) * adb :=
  transaction (let^ rows := deleteTeam teamID in tx_require (negb (rows =? 0)) (Is NotFound)) d.
Definition UpdateTeam (description : option string) (isPublic : option bool) (status : option Z) (teamID : Z) (d : adb)
  : (Team + goerr) * adb :=
  transaction (tx_on_err (fun e => if errors_Is RecordNotFound e then Is NotFound else e)
                 (updateMutableTeam teamID (UpdateMutable_team description isPublic status))) d.
Definition AddMember (username : string) (roleID teamID : Z) (d : adb) : (unit + goerr) * adb :=
  transaction (tx_on_err (fun e => if errors_Is NotFound e then Is NotFound
                                   else if errors_Is RecordNotFound e then New "user or role not found"
                                   else if errors_Is AlreadyExists e then Is AlreadyExists else e)
                 (addMember teamID username roleID)) d.
Definition AddTeamMemberReq_Validate (username : string) (roleID : Z) : res string :=
  let username := trim_space username in
  require (negb (String.eqb username "")) "username cannot be empty" ;;?
  require (negb (roleID <=? 0)) "invalid role_id" ;;?
  Ok username.
Definition RemoveMember (teamID currentUserID targetUserID : Z) (d : adb) : (unit + goerr) * adb :=
  transaction (
    tx_require (negb (targetUserID =? currentUserID)) (New "cannot remove yourself from the team") ;;^
    let^ rows := tx_on_err (fun e => if errors_Is NotFound e || errors_Is RecordNotFound e then Is NotFound else e)
                   (removeMember teamID targetUserID) in
    tx_require (negb (rows =? 0)) (New "user is not a member of this team")) d.
Definition UpdateMemberRole (roleID teamID targetUserID : Z) (d : adb) : (unit + goerr) * adb :=
  transaction (tx_on_err (fun e => if errors_Is NotFound e then Is NotFound
                                   else if errors_Is RecordNotFound e then New "role not found" else e)
                 (updateMemberRole teamID targetUserID roleID)) d.

Record TeamResp := mkTeamResp { te_ID : Z; te_Name : string; te_Description : string; te_IsPublic : bool; te_Status : string }.
Definition NewTeamResp (t : Team) : TeamResp :=
  mkTeamResp (tm_ID t) (tm_Name t) (tm_Description t) (tm_IsPublic t) (GetStatusTypeName (tm_Status t)).
Definition ListTeamReq_Validate (page : PaginationReq) (status : option Z) : res PaginationReq :=
  let? page := PaginationReq_Validate page in Labels.validateStatus status false ;;? Ok page.
Definition ListTeams (page : PaginationReq) (isPublic : option bool) (status : option Z) (userID : Z) (isAdmin : bool) (d : adb)
  : list TeamResp * PaginationInfo :=
  let '(limit, offset) := ToGormParams page in
  let '(teams, total) := listVisibleTeams limit offset isPublic status userID isAdmin d in
  (map NewTeamResp teams, ConvertToPaginationInfo page total).
Definition ListMembers (page : PaginationReq) (teamID : Z) : Tx adb (list TeamMemberResp * PaginationInfo) :=
  let '(limit, offset) := ToGormParams page in
  let^ (members, total) := listTeamMembers teamID limit offset in
  tx_ret (members, ConvertToPaginationInfo page total).

(** What the service answers about a team, a missing row being no. *)
Definition or_no (m : Tx adb bool) (d : adb) : bool + goerr :=
  match m d with
  | inl (b, _) => inl b
  | inr e => if errors_Is RecordNotFound e then inl false else inr e
  end.
Definition IsUserInTeam (userID teamID : Z) : adb -> bool + goerr :=
  or_no (loadUserTeamMembership userID teamID ;;^ tx_ret true).
Definition IsUserTeamAdmin (userID teamID : Z) : adb -> bool + goerr :=
  or_no (let^ ut := loadUserTeamMembership userID teamID in
         tx_get (fun d => match find (fun r => rl_ID r =? me_Role ut) (a_roles d) with
                          | Some role => String.eqb (rl_Name role) RoleTeamAdmin
                          | None => false
                          end)).
Definition IsTeamPublic (teamID : Z) : adb -> bool + goerr :=
  or_no (let^ team := loadTeam teamID in tx_ret (tm_IsPublic team)).

(** ** Projects *)

Definition loadProjectRecord (projectID : Z) : Tx adb Project :=
  tx_wrap (not_found "project" projectID) (tx_first (fun d => find (fun p => po_ID p =? projectID) (a_projects d))).
Definition createProjectWithOwner (project : Project) (userID : Z) : Tx adb Project :=
  let^ role := tx_wrap "failed to get project owner role: " (tx_first (roleNamed RoleProjectAdmin)) in
  let^ project := tx_wrap "failed to create project: " (insert_project project) in
  tx_wrap "failed to create user-project association: "
    (written "user_projects" "active_user_project"
       (insert_member (mkMember OfProject userID (po_ID project) (rl_ID role) enabled))) ;;^
  tx_ret project.
Definition deleteProjectCascade (projectID : Z) : Tx adb Z :=
  delete_members (fun m => is_of OfProject m && (me_Scope m =? projectID)) ;;^
  fun d =>
    let '(n, rows) := soft_delete (fun p => (po_ID p =? projectID) && negb (po_Status p =? deleted)) (po_with_status deleted)
                        (a_projects d) in
    inl (n, set_projects rows d).
Definition loadProjectDetailBase (projectID : Z) : Tx adb (Project * Z) :=
  let^ project := loadProjectRecord projectID in
  let^ count := tx_get (fun d => Z.of_nat (length (enabled_members OfProject (po_ID project) d))) in
  tx_ret (project, count).
Definition updateMutableProject (projectID : Z) (patch : Project -> Project) : Tx adb Project :=
  let^ project := loadProjectRecord projectID in
  tx_wrap "failed to update project: " (save_project (patch project)) ;;^
  tx_ret (patch project).

(** The labels of a project: links that are added (one INSERT), links that are taken away
    by their keys with one use less for each of their labels. *)
Definition on_a_labels {A} (m : Tx ldb A) : Tx adb A := tx_on a_labels set_a_labels m.
Definition linked_ids (projectID : Z) (keys : list string) (d : ldb) : list Z :=
  map l_ID (List.filter (fun l => existsb (String.eqb (l_Key l)) keys) (labels_of Projects_ projectID d)).
Definition manageProjectLabels (projectID : Z) (addLabelIDs : list Z) (removeKeys : list string)
  : Tx adb (Project * list Label) :=
  let^ project := loadProjectRecord projectID in
  tx_when (negb (length addLabelIDs =? 0)%nat)
    (tx_wrap "failed to add project-label associations: "
       (on_a_labels (insert_links (links_to Projects_ projectID addLabelIDs)))) ;;^
  tx_when (negb (length removeKeys =? 0)%nat)
    (let^ labelIDs := tx_get (fun d => linked_ids projectID removeKeys (a_labels d)) in
     tx_when (negb (length labelIDs =? 0)%nat)
       (on_a_labels (clear_links Projects_ [projectID] labelIDs ;;^ BatchDecreaseLabelUsages labelIDs 1))) ;;^
  let^ labels := tx_get (fun d => labels_of Projects_ (po_ID project) (a_labels d)) in
  tx_ret (project, labels).

Record CreateProjectReq := mkCreateProject { cp_Name : string; cp_Description : string; cp_IsPublic : option bool }.
Definition CreateProjectReq_Validate (req : CreateProjectReq) : res CreateProjectReq :=
  let name := trim_space (cp_Name req) in
  require (negb (String.eqb name "")) "project name cannot be empty" ;;?
  Ok (mkCreateProject name (cp_Description req) (Some (default true (cp_IsPublic req)))).
Definition ConvertToProject (req : CreateProjectReq) : Project :=
  mkProjectRow 0 (cp_Name req) (cp_Description req) None (default false (cp_IsPublic req)) enabled.
Definition CreateProject (req : CreateProjectReq) (userID : Z) (d : adb) : (Project + goerr) * adb :=
  transaction (
    let^ req := tx_valid (CreateProjectReq_Validate req) in
    tx_on_err (fun e => if errors_Is DuplicatedKey e
                        then tagged AlreadyExists ("project with name " +:+ cp_Name req +:+ " already exists")
                        else if errors_Is NotFound e then Wrap "" e (": role " +:+ RoleProjectAdmin +:+ " not found")
                        else e)
      (createProjectWithOwner (ConvertToProject req) userID)) d.
Definition DeleteProject (projectID : Z) (d : adb) : (unit + goerr) * adb :=
  transaction (
    let^ rows := deleteProjectCascade projectID in
    tx_require (negb (rows =? 0)) (tagged NotFound ("project id " +:+ itoa projectID +:+ " not found"))) d.
Definition PatchProjectModel (description : option string) (isPublic : option bool) (status : option Z) (p : Project)
  : Project :=
  mkProjectRow (po_ID p) (po_Name p) (default (po_Description p) description) (po_TeamID p)
    (default (po_IsPublic p) isPublic) (default (po_Status p) status).
Definition UpdateProject (description : option string) (isPublic : option bool) (status : option Z) (projectID : Z) (d : adb)
  : (Project + goerr) * adb :=
  transaction (
    tx_valid (Labels.validateStatus status true) ;;^
    tx_wrap "failed to get project: " (updateMutableProject projectID (PatchProjectModel description isPublic status))) d.

Definition ManageProjectLabelReq_Validate (add : list LabelItem) (remove : list string) : res unit :=
  require (negb ((length add =? 0)%nat && (length remove =? 0)%nat))
    "at least one of add_labels or remove_labels must be provided" ;;?
  for_each (fun i l =>
    require (negb (String.eqb (trim_space (li_Key l)) "")) ("empty label key at index " +:+ itoa (Z.of_nat i) +:+ " in add_labels") ;;?
    require (negb (String.eqb (trim_space (li_Value l)) "")) ("empty label value at index " +:+ itoa (Z.of_nat i) +:+ " in add_labels"))
    add ;;?
  for_each (fun i k => require (negb (String.eqb (trim_space k) ""))
    ("empty label key at index " +:+ itoa (Z.of_nat i) +:+ " in remove_labels")) remove.
Definition ManageProjectLabels (order : gmap string LabelItem -> list (string * LabelItem))
    (add : list LabelItem) (remove : list string) (projectID : Z) (d : adb) : ((Project * list Label) + goerr) * adb :=
  transaction (
    let^ labels := tx_wrap "failed to create or update labels: "
                     (on_a_labels (CreateOrUpdateLabelsFromItems order add (LabelCategory_code ProjectCategory))) in
    tx_on_err (fun e => if errors_Is NotFound e || errors_Is RecordNotFound e
                        then tagged NotFound ("project id: " +:+ itoa projectID)
                        else Wrap "failed to manage project labels: " e "")
      (manageProjectLabels projectID (map l_ID labels) remove)) d.
End Teams.
