(* ===== verification/Access.v ===== *)
(** * What access management guarantees

    The invariant of the tables of [Accounts] under every operation of users, roles, teams
    and projects; what each assignment and removal does to the permissions that the checks
    of [Permissions] grant, with [granted] as the specification; and that the answers of
    the services about a team are those of the checks. *)

From S2P Require Import Prelude GoStrings Consts PermissionTables Passwords Tables Search Containers Datasets Labels Permissions Accounts Teams.
#[local] Open Scope Z_scope.

(** ** The invariant *)

(** Identifiers of a table, below the next one. *)
Definition ids_ok {A} (id : A -> Z) (next : Z) (rows : list A) : Prop :=
  NoDup (map id rows) /\ Forall (fun i => i < next) (map id rows).
Definition grants_ok (rows : list UserPermission) : Prop :=
  NoDup (omap (grant_key up_container) rows) /\ NoDup (omap (grant_key up_dataset) rows) /\
  NoDup (omap (grant_key up_project) rows).

Record access_ok (d : adb) : Prop := {
  ok_users : ids_ok us_ID (a_next d) (a_users d) /\ NoDup (omap (fun x => Some (us_Username x)) (a_users d)) /\
             NoDup (omap (fun x => Some (us_Email x)) (a_users d));
  ok_roles : ids_ok rl_ID (a_next d) (a_roles d) /\ NoDup (omap active_role_name (a_roles d));
  ok_teams : ids_ok tm_ID (a_next d) (a_teams d) /\ NoDup (omap active_team_name (a_teams d));
  ok_projects : ids_ok po_ID (a_next d) (a_projects d) /\ NoDup (omap active_project_name (a_projects d));
  ok_grants : grants_ok (a_user_permissions d);
  ok_role_permissions : NoDup (a_role_permissions d);
  ok_user_roles : NoDup (a_user_roles d);
  ok_members : NoDup (omap member_key (a_members d));
  ok_labels : labels_ok (a_labels d)
}.

(** *** Tables *)

Section Tables.
Context {A : Type} (id : A -> Z).

Lemma ids_add next x rows : ids_ok id next rows -> id x = next -> ids_ok id (next + 1) (rows ++ [x]).
Proof.
  intros [Hnd Hlt] Hx. unfold ids_ok. rewrite map_app. simpl. split.
  - apply NoDup_app. split; [done|]. split; [|apply NoDup_singleton].
    intros i Hi ->%list_elem_of_singleton. rewrite Forall_forall in Hlt. specialize (Hlt _ Hi). lia.
  - apply Forall_app. split; [|constructor; [lia|done]]. eapply Forall_impl; [exact Hlt|]. simpl. lia.
Qed.
Lemma ids_weaken next rows : ids_ok id next rows -> ids_ok id (next + 1) rows.
Proof. intros [Hnd Hlt]. split; [done|]. eapply Forall_impl; [exact Hlt|]. simpl. lia. Qed.
Lemma ids_same next rows rows' : map id rows' = map id rows -> ids_ok id next rows -> ids_ok id next rows'.
Proof. unfold ids_ok. by intros ->. Qed.
Lemma map_keeps (f : A -> A) rows : (forall x, id (f x) = id x) -> map id (map f rows) = map id rows.
Proof. intros Hf. rewrite map_map. by apply map_ext. Qed.
Lemma ids_find next rows x y : ids_ok id next rows -> x ∈ rows -> find (fun z => id z =? id x) rows = Some y -> y = x.
Proof.
  intros [Hnd _] Hx Hf. apply find_some in Hf as [Hin Heq]. apply (nodup_map_inj id rows); [done| |done|lia].
  by apply list_elem_of_In.
Qed.
End Tables.

Lemma length_filter_pos {A} (p : A -> bool) (l : list A) :
  (exists x, x ∈ l /\ p x = true) -> (0 < length (List.filter p l))%nat.
Proof.
  intros (x & Hx & Hp). destruct (List.filter p l) eqn:E; [|simpl; lia]. exfalso.
  assert (Hin : In x (List.filter p l)) by (apply filter_In; by rewrite <- list_elem_of_In). by rewrite E in Hin.
Qed.

Lemma alive_inl {A} (idOf status : A -> Z) key rows x :
  alive idOf status key rows = Some x -> x ∈ rows /\ idOf x = key /\ status x <> deleted.
Proof.
  unfold alive. intros [Hin Hb]%find_some. bool_to_prop. split; [by apply list_elem_of_In|].
  split; [lia|done].
Qed.

(** Keeping the rows of a filter keeps a key unique. *)
Lemma keys_filter {A K} (key : A -> option K) (p : A -> bool) (l : list A) :
  NoDup (omap key l) -> NoDup (omap key (List.filter p l)).
Proof.
  intros Hnd. eapply sublist_NoDup; [exact Hnd|]. clear Hnd. induction l as [|x l IH]; [done|]. simpl.
  destruct (p x); simpl; destruct (key x); by first [apply sublist_skip|apply sublist_cons|idtac].
Qed.

(** *** Statements keep it *)

Ltac access_case := constructor; cbn [a_users a_roles a_teams a_projects a_user_permissions a_role_permissions a_user_roles
  a_members a_labels a_next set_users set_roles set_user_permissions set_role_permissions set_user_roles set_members set_teams
  set_projects set_a_labels take_next fst snd]; try done.

Lemma take_next_ok d : access_ok d -> access_ok (take_next d).2.
Proof.
  intros []. destruct ok_users0 as (? & ? & ?), ok_roles0, ok_teams0, ok_projects0.
  access_case; split_and?; eauto using ids_weaken.
Qed.

Lemma insert_user_row_keeps u : tx_keeps access_ok (insert_user_row u).
Proof.
  intros d r d' Hd. unfold insert_user_row. cbn [take_next a_users].
  destruct (key_free _ _ _) eqn:E1; [|done]. destruct (key_free (fun x => Some (us_Email x)) _ _) eqn:E2; [|done].
  cbn [andb]. intros [= _ <-]. apply take_next_ok in Hd as Hn. destruct Hn. destruct Hd as [(? & ? & ?) ? ? ? ? ? ? ? ?].
  access_case. split; [by apply ids_add|]. split; by apply keys_add.
Qed.
Lemma save_user_keeps u : tx_keeps access_ok (save_user u).
Proof.
  intros d r d' Hd. unfold save_user. destruct (key_free _ _ _) eqn:E1; [|done].
  destruct (key_free (fun x => Some (us_Email x)) _ _) eqn:E2; [|done].
  cbn [andb]. intros [= _ <-]. destruct Hd as [([? ?] & ? & ?) ? ? ? ? ? ? ? ?].
  access_case. split; [apply (ids_same _ _ (a_users d)); [apply save_row_ids|done]|]. split; by apply keys_save.
Qed.
Lemma insert_role_keeps r : tx_keeps access_ok (insert_role r).
Proof.
  intros d x d' Hd. unfold insert_role. cbn [take_next a_roles]. destruct (key_free _ _ _) eqn:E1; [|done].
  intros [= _ <-]. apply take_next_ok in Hd as Hn. destruct Hn. destruct Hd as [? [? ?] ? ? ? ? ? ? ?].
  access_case. split; [by apply ids_add|by apply keys_add].
Qed.
Lemma save_role_keeps r : tx_keeps access_ok (save_role r).
Proof.
  intros d x d' Hd. unfold save_role. destruct (key_free _ _ _) eqn:E1; [|done].
  intros [= _ <-]. destruct Hd as [? [[? ?] ?] ? ? ? ? ? ? ?].
  access_case. split; [apply (ids_same _ _ (a_roles d)); [apply save_row_ids|done]|by apply keys_save].
Qed.
Lemma insert_team_keeps t : tx_keeps access_ok (insert_team t).
Proof.
  intros d x d' Hd. unfold insert_team. cbn [take_next a_teams]. destruct (key_free _ _ _) eqn:E1; [|done].
  intros [= _ <-]. apply take_next_ok in Hd as Hn. destruct Hn. destruct Hd as [? ? [? ?] ? ? ? ? ? ?].
  access_case. split; [by apply ids_add|by apply keys_add].
Qed.
Lemma save_team_keeps t : tx_keeps access_ok (save_team t).
Proof.
  intros d x d' Hd. unfold save_team. destruct (key_free _ _ _) eqn:E1; [|done].
  intros [= _ <-]. destruct Hd as [? ? [[? ?] ?] ? ? ? ? ? ?].
  access_case. split; [apply (ids_same _ _ (a_teams d)); [apply save_row_ids|done]|by apply keys_save].
Qed.
Lemma insert_project_keeps p : tx_keeps access_ok (insert_project p).
Proof.
  intros d x d' Hd. unfold insert_project. cbn [take_next a_projects]. destruct (key_free _ _ _) eqn:E1; [|done].
  intros [= _ <-]. apply take_next_ok in Hd as Hn. destruct Hn. destruct Hd as [? ? ? [? ?] ? ? ? ? ?].
  access_case. split; [by apply ids_add|by apply keys_add].
Qed.
Lemma save_project_keeps p : tx_keeps access_ok (save_project p).
Proof.
  intros d x d' Hd. unfold save_project. destruct (key_free _ _ _) eqn:E1; [|done].
  intros [= _ <-]. destruct Hd as [? ? ? [[? ?] ?] ? ? ? ? ?].
  access_case. split; [apply (ids_same _ _ (a_projects d)); [apply save_row_ids|done]|by apply keys_save].
Qed.
Lemma insert_member_keeps m : tx_keeps access_ok (insert_member m).
Proof.
  intros d x d' Hd. unfold insert_member. destruct (key_free _ _ _) eqn:E1; [|done].
  intros [= _ <-]. destruct Hd. access_case. by apply keys_add.
Qed.
Lemma nodup_snoc {A} `{EqDecision A} (l : list A) x : x ∉ l -> NoDup l -> NoDup (l ++ [x]).
Proof.
  intros Hx Hnd. apply NoDup_app. split; [done|]. split; [|apply NoDup_singleton]. by intros y Hy ->%list_elem_of_singleton.
Qed.
Lemma insert_user_role_keeps ur : tx_keeps access_ok (insert_user_role ur).
Proof.
  intros d x d' Hd. unfold insert_user_role. case_bool_decide; [done|].
  intros [= _ <-]. destruct Hd. access_case. by apply nodup_snoc.
Qed.
Lemma insert_role_permissions_keeps l : tx_keeps access_ok (insert_role_permissions l).
Proof.
  induction l as [|rp l IH]; [apply tx_keeps_ret|]. intros d x d' Hd. cbn [insert_role_permissions].
  case_bool_decide; [done|]. apply IH. destruct Hd. access_case. by apply nodup_snoc.
Qed.
Lemma insert_user_permissions_keeps l : tx_keeps access_ok (insert_user_permissions l).
Proof.
  induction l as [|p l IH]; [apply tx_keeps_ret|]. intros d x d' Hd. cbn [insert_user_permissions].
  destruct (grant_free _ p) eqn:E; [|done]. apply IH. unfold grant_free in E. bool_to_prop.
  destruct Hd as [? ? ? ? (? & ? & ?) ? ? ? ?]. access_case. split_and!; by apply keys_add.
Qed.
Lemma deleted_no_key m : member_key (me_with_status deleted m) = None.
Proof. done. Qed.
Lemma delete_members_keeps p : tx_keeps access_ok (delete_members p).
Proof.
  intros d n d' Hd [= _ <-]. destruct Hd. access_case. by apply keys_kill.
Qed.
Lemma filter_user_permissions_keeps p :
  tx_keeps access_ok (tx_do (fun d => set_user_permissions (List.filter p (a_user_permissions d)) d)).
Proof.
  apply tx_keeps_do. intros d [? ? ? ? (? & ? & ?) ? ? ? ?]. access_case. split_and!; by apply keys_filter.
Qed.
Lemma filter_user_roles_keeps p : tx_keeps access_ok (tx_do (fun d => set_user_roles (List.filter p (a_user_roles d)) d)).
Proof. apply tx_keeps_do. intros d []. access_case. by apply nodup_filter. Qed.
Lemma filter_role_permissions_keeps p :
  tx_keeps access_ok (tx_do (fun d => set_role_permissions (List.filter p (a_role_permissions d)) d)).
Proof. apply tx_keeps_do. intros d []. access_case. by apply nodup_filter. Qed.
Lemma generated_written_keeps {A} g t c (m : Tx adb A) : tx_keeps access_ok m -> tx_keeps access_ok (generated_written g t c m).
Proof. destruct g; [|done]. intros _. apply tx_keeps_err. Qed.
#[export] Hint Resolve insert_user_row_keeps save_user_keeps insert_role_keeps save_role_keeps insert_team_keeps save_team_keeps
  insert_project_keeps save_project_keeps insert_member_keeps insert_user_role_keeps insert_role_permissions_keeps
  insert_user_permissions_keeps delete_members_keeps filter_user_permissions_keeps filter_user_roles_keeps
  filter_role_permissions_keeps generated_written_keeps : aegis.

Section SoftDelete.
Context {A : Type} (id : A -> Z) (key : A -> option string) (p : A -> bool) (kill : A -> A).
Context (kill_id : forall x, id (kill x) = id x) (kill_key : forall x, key (kill x) = None).
Lemma soft_delete_ok next rows :
  ids_ok id next rows /\ NoDup (omap key rows) ->
  ids_ok id next (soft_delete p kill rows).2 /\ NoDup (omap key (soft_delete p kill rows).2).
Proof.
  intros [Hi Hk]. split; [|by apply keys_kill]. eapply ids_same; [|exact Hi]. apply map_keeps.
  intros x. destruct (p x); auto.
Qed.
End SoftDelete.

Lemma delete_user_row_keeps userID : tx_keeps access_ok (fun d =>
  let '(n, rows) := soft_delete (fun u => (us_ID u =? userID) && negb (us_Status u =? deleted))
                      (us_with_status deleted) (a_users d) in
  inl (n, set_users rows d)).
Proof.
  intros d n d' Hd [= _ <-]. destruct Hd as [(? & ? & ?) ? ? ? ? ? ? ? ?]. access_case. split; [|split].
  - eapply ids_same; [|done]. apply map_keeps. intros x. by case_match.
  - rewrite keys_map; [done|]. intros x. by case_match.
  - rewrite keys_map; [done|]. intros x. by case_match.
Qed.
Lemma delete_role_row_keeps (q : Role -> bool) : tx_keeps access_ok (fun d =>
  let '(n, rows) := soft_delete q (rl_with_status deleted) (a_roles d) in inl (n, set_roles rows d)).
Proof. intros d n d' Hd [= _ <-]. destruct Hd. access_case. by apply (soft_delete_ok rl_ID active_role_name q). Qed.
Lemma delete_team_row_keeps (q : Team -> bool) : tx_keeps access_ok (fun d =>
  let '(n, rows) := soft_delete q (tm_with_status deleted) (a_teams d) in inl (n, set_teams rows d)).
Proof. intros d n d' Hd [= _ <-]. destruct Hd. access_case. by apply (soft_delete_ok tm_ID active_team_name q). Qed.
Lemma delete_project_row_keeps (q : Project -> bool) : tx_keeps access_ok (fun d =>
  let '(n, rows) := soft_delete q (po_with_status deleted) (a_projects d) in inl (n, set_projects rows d)).
Proof. intros d n d' Hd [= _ <-]. destruct Hd. access_case. by apply (soft_delete_ok po_ID active_project_name q). Qed.
Lemma update_member_rows_keeps (f : adb -> list Member) : tx_keeps access_ok (fun d =>
  if bool_decide (NoDup (omap member_key (f d))) then inl (tt, set_members (f d) d) else inr (Is DuplicatedKey)).
Proof. intros d n d' Hd. case_bool_decide; [|done]. intros [= _ <-]. destruct Hd. by access_case. Qed.
#[export] Hint Resolve delete_user_row_keeps delete_role_row_keeps delete_team_row_keeps delete_project_row_keeps
  update_member_rows_keeps : aegis.

(** *** Operations keep it *)

(** Goes through the code of a transaction to its statements. *)
Ltac tx_steps :=
  repeat first
    [ solve [eauto 2 with aegis]
    | progress unfold tx_wrap, tx_valid, tx_when
    | apply tx_keeps_on_err
    | apply tx_keeps_bind; [|intros ?]
    | apply tx_keeps_each; intros ? _
    | apply generated_written_keeps
    | case_match ].

Lemma ensure_keeps {A} entity rows idOf status i : tx_keeps access_ok (@ensureActiveRecordExists A entity rows idOf status i).
Proof. unfold ensureActiveRecordExists. tx_steps. Qed.
Lemma ensure_scope_keeps k i : tx_keeps access_ok (ensure_scope k i).
Proof. destruct k; apply ensure_keeps. Qed.
#[export] Hint Resolve ensure_scope_keeps : aegis.
#[export] Hint Extern 1 (tx_keeps access_ok (ensureUser _)) => apply ensure_keeps : aegis.
#[export] Hint Extern 1 (tx_keeps access_ok (ensureRole _)) => apply ensure_keeps : aegis.

Lemma role_error_keeps {A} u dup (m : Tx adb A) : tx_keeps access_ok m -> tx_keeps access_ok (role_error u dup m).
Proof.
  intros Hm d a d' Hd. unfold role_error. destruct (m d) as [[b d1]|e] eqn:E; [intros [= <- <-]; by eapply Hm|].
  destruct (errors_Is NotFound e); [by destruct (ensureUser u d)|]. destruct dup; [|done]. by destruct (errors_Is _ e).
Qed.
Lemma ensure_target_keeps entity ensure target :
  (forall i, tx_keeps access_ok (ensure i)) -> tx_keeps access_ok (ensure_target entity ensure target).
Proof. intros He. unfold ensure_target. destruct target; [apply tx_keeps_on_err, He|apply tx_keeps_ret]. Qed.
Lemma existing_team_keeps i : tx_keeps access_ok (existing_team i).
Proof. unfold existing_team, loadTeam. tx_steps. Qed.

Lemma deleteUserCascade_keeps u : tx_keeps access_ok (deleteUserCascade u).
Proof. unfold deleteUserCascade. tx_steps. Qed.
Lemma deleteRoleCascade_keeps r : tx_keeps access_ok (deleteRoleCascade r).
Proof. unfold deleteRoleCascade, loadRole, not_system. tx_steps. Qed.
Lemma check_item_keeps ps item : tx_keeps access_ok (check_item ps item).
Proof.
  unfold check_item. apply tx_keeps_bind; [apply tx_keeps_require|]. intros _.
  repeat (first [apply tx_keeps_bind; [|intros _] | apply ensure_target_keeps; intros i; apply ensure_keeps]).
Qed.
#[export] Hint Resolve role_error_keeps existing_team_keeps deleteUserCascade_keeps deleteRoleCascade_keeps check_item_keeps : aegis.

Lemma insert_links_keeps_access kind owner (ids : list Z) d u d' :
  access_ok d -> Forall (fun i => i ∈ map l_ID (t_labels (a_labels d))) ids ->
  on_a_labels (insert_links (links_to kind owner ids)) d = inl (u, d') -> access_ok d'.
Proof.
  intros Hd Hids. unfold on_a_labels, tx_on. destruct (insert_links _ _) as [[[] l]|e] eqn:E; [|done]. intros [= _ <-].
  eapply insert_links_ok in E; [destruct Hd; by access_case|apply Hd|].
  apply Forall_forall. intros k (i & -> & Hi)%list_elem_of_fmap. rewrite Forall_forall in Hids. by apply Hids.
Qed.
Lemma on_a_labels_keeps {A} (m : Tx ldb A) : tx_keeps labels_ok m -> tx_keeps access_ok (on_a_labels m).
Proof.
  intros Hm d a d' Hd. unfold on_a_labels, tx_on. destruct (m (a_labels d)) as [[b l]|e] eqn:E; [|done]. intros [= _ <-].
  assert (labels_ok l) by (eapply Hm; [apply Hd|exact E]). destruct Hd. by access_case.
Qed.

(** One operation of the services of users, roles, teams and projects. *)
Section Steps.
Context `{GoCrypto} (generated_refused : bool).
Inductive access_step : adb -> adb -> Prop :=
| step_create_user salt req d : access_step d (CreateUser salt req d).2
| step_update_user req u d : access_step d (UpdateUser req u d).2
| step_delete_user u d : access_step d (DeleteUser u d).2
| step_assign_role u r d : access_step d (AssignRole u r d).2
| step_remove_role u r d : access_step d (RemoveRole u r d).2
| step_assign_permissions items u d : access_step d (AssignPermissions items u d).2
| step_remove_permissions ids u d : access_step d (RemovePermissions ids u d).2
| step_assign_scope k u s r d : access_step d (AssignScope generated_refused k u s r d).2
| step_remove_scope k u s d : access_step d (RemoveScope k u s d).2
| step_create_role req d : access_step d (CreateRole generated_refused req d).2
| step_update_role req r d : access_step d (UpdateRole req r d).2
| step_delete_role r d : access_step d (DeleteRole r d).2
| step_assign_role_permissions ids r d : access_step d (AssignRolePermissions ids r d).2
| step_remove_role_permissions ids r d : access_step d (RemoveRolePermissions ids r d).2
| step_create_team req u d : access_step d (CreateTeam req u d).2
| step_update_team desc pub st t d : access_step d (UpdateTeam desc pub st t d).2
| step_delete_team t d : access_step d (DeleteTeam t d).2
| step_add_member name r t d : access_step d (AddMember name r t d).2
| step_remove_member t cur u d : access_step d (RemoveMember t cur u d).2
| step_update_member_role r t u d : access_step d (UpdateMemberRole generated_refused r t u d).2
| step_create_project req u d : access_step d (CreateProject generated_refused req u d).2
| step_update_project desc pub st p d : access_step d (UpdateProject desc pub st p d).2
| step_delete_project p d : access_step d (DeleteProject p d).2
| step_manage_project_labels order add remove p d :
    (forall m, order m ≡ₚ map_to_list m) -> access_step d (ManageProjectLabels order add remove p d).2.
End Steps.

Lemma ManageProjectLabels_keeps order (Horder : forall m, order m ≡ₚ map_to_list m) add remove p d :
  access_ok d -> access_ok (ManageProjectLabels order add remove p d).2.
Proof.
  intros Hd. unfold ManageProjectLabels, transaction. destruct (tx_bind _ _ _) as [[r d']|e] eqn:E; [|done].
  apply tx_bind_inl in E as (labels & d1 & Hc%tx_wrap_inl & Hm%tx_wrap_inl).
  assert (Hd1 : access_ok d1).
  { eapply (on_a_labels_keeps (CreateOrUpdateLabelsFromItems order add _)); [apply request_labels_keeps|exact Hd|exact Hc]. }
  assert (Hids : Forall (fun i => i ∈ map l_ID (t_labels (a_labels d1))) (map l_ID labels)).
  { unfold on_a_labels, tx_on in Hc. destruct (CreateOrUpdateLabelsFromItems _ _ _ _) as [[ls l]|e] eqn:E; [|done].
    injection Hc as <- <-. cbn [a_labels set_a_labels].
    apply (request_labels_ids order Horder _ _ _ _ _ Projects_ p) in E. unfold links_to in E.
    rewrite Forall_map in E. exact E. }
  clear Hc. unfold manageProjectLabels in Hm. apply tx_bind_inl in Hm as (project & d2 & [_ ->]%tx_wrap_inl%tx_first_inl & Hm).
  apply tx_bind_inl in Hm as ([] & d2 & Hadd & Hm). assert (Hd2 : access_ok d2).
  { unfold tx_when in Hadd. destruct (negb _); [|by injection Hadd as <-]. apply tx_wrap_inl in Hadd.
    by eapply insert_links_keeps_access. }
  refine (tx_keeps_bind access_ok _ _ _ _ d2 _ _ Hd2 Hm); [|intros; tx_steps]. apply tx_keeps_when. tx_steps.
  apply on_a_labels_keeps. apply tx_keeps_bind; [apply clear_links_keeps|]. intros _. apply decrease_keeps.
Qed.

Ltac head_of t := lazymatch t with ?f _ => head_of f | _ => t end.

Lemma access_step_ok `{GoCrypto} g d d' : access_step g d d' -> access_ok d -> access_ok d'.
Proof.
  destruct 1; intros Hd; [match goal with |- access_ok (?f).2 =>
    let h := head_of f in unfold h; apply tx_keeps_transaction; [|exact Hd] end..|].
  - unfold createUserIfUnique. tx_steps.
  - unfold updateMutableUser, getUserDetailBase. tx_steps.
  - tx_steps.
  - unfold assignGlobalRole. apply role_error_keeps. tx_steps.
  - unfold removeGlobalRole. apply role_error_keeps. tx_steps.
  - unfold buildUserPermissions, batchCreateUserPermissions. tx_steps.
  - unfold batchDeleteUserPermissions. tx_steps.
  - unfold assignScopeRole. tx_steps.
  - unfold removeScopeRole. tx_steps.
  - unfold createRoleRecord. tx_steps.
  - unfold updateMutableRole, loadRole, not_system. tx_steps.
  - tx_steps.
  - unfold assignRolePermissions, loadRole, not_system, all_assignable. tx_steps.
  - unfold removeRolePermissions, loadRole, not_system, all_assignable. tx_steps.
  - unfold createTeamWithCreator. tx_steps.
  - unfold updateMutableTeam, loadTeam. tx_steps.
  - unfold deleteTeam. tx_steps.
  - unfold addMember, loadRoleByID. tx_steps.
  - unfold removeMember. tx_steps.
  - unfold updateMemberRole, loadRoleByID. tx_steps.
  - unfold createProjectWithOwner. tx_steps.
  - unfold updateMutableProject, loadProjectRecord. tx_steps.
  - unfold deleteProjectCascade. tx_steps.
  - by apply ManageProjectLabels_keeps.
Qed.

(** ** Unique keys *)

(** C40. Whatever the services of users, roles, teams and projects do one after the other:
    identifiers stay unique and new ones fresh, no two users share a name or an email, no
    two undeleted roles, teams or projects a name, no role is given twice to a user and no
    permission twice to a role, a user holds a role at most once in a team, project,
    container or dataset, and the table of labels keeps its invariant. *)
Theorem access_stays_ok `{GoCrypto} g d0 d :
  access_ok d0 -> rtc (access_step g) d0 d ->
  access_ok d /\
  (forall u v, u ∈ a_users d -> v ∈ a_users d ->
     us_ID u = us_ID v \/ us_Username u = us_Username v \/ us_Email u = us_Email v -> u = v) /\
  (forall r s, r ∈ a_roles d -> s ∈ a_roles d -> 0 <= rl_Status r -> 0 <= rl_Status s ->
     rl_Name r = rl_Name s -> r = s) /\
  (forall m n, m ∈ a_members d -> n ∈ a_members d -> 0 <= me_Status m -> 0 <= me_Status n ->
     me_Kind m = me_Kind n -> me_User m = me_User n -> me_Scope m = me_Scope n -> me_Role m = me_Role n -> m = n).
Proof.
  intros Hok Hsteps. assert (Hd : access_ok d).
  { induction Hsteps as [|x y z Hxy _ IH]; [done|]. apply IH. by eapply access_step_ok. }
  split; [done|]. destruct Hd as [([Hu _] & Hn & He) [_ Hr] _ _ _ _ _ Hm _]. split_and!.
  - intros u v Hu1 Hv1 [E|[E|E]].
    + by apply (nodup_map_inj us_ID (a_users d)).
    + apply (nodup_key_inj (fun x => Some (us_Username x)) (a_users d) u v (us_Username u)); congruence.
    + apply (nodup_key_inj (fun x => Some (us_Email x)) (a_users d) u v (us_Email u)); congruence.
  - intros r s Hr1 Hs1 Hr0 Hs0 E.
    apply (nodup_key_inj active_role_name (a_roles d) r s (rl_Name r)); try done; unfold active_role_name.
    + by destruct (Z.leb_spec 0 (rl_Status r)); [|lia].
    + destruct (Z.leb_spec 0 (rl_Status s)); [congruence|lia].
  - intros m n Hm1 Hn1 Hm0 Hn0 E1 E2 E3 E4.
    apply (nodup_key_inj member_key (a_members d) m n (me_Kind m, (me_User m, me_Scope m, me_Role m))); try done;
      unfold member_key.
    + by destruct (Z.leb_spec 0 (me_Status m)); [|lia].
    + destruct (Z.leb_spec 0 (me_Status n)); [congruence|lia].
Qed.

(** ** The checks on these tables *)

Definition memberships_of (k : scope_kind) (d : adb) : list Membership :=
  map (fun m => mkMembership (me_User m) (me_Scope m) (me_Role m) (me_Status m)) (List.filter (is_of k) (a_members d)).
(** The tables as the checks of [middleware/deps.go] query them. *)
Definition access_tables (d : adb) : perm_tables :=
  mkTables (a_resources d)
    (map (fun p => mkPermission (pr_ID p) (pr_Action p) (pr_Scope p) (pr_ResourceID p) (pr_Status p)) (a_permissions d))
    (a_user_permissions d) (a_role_permissions d) (a_user_roles d)
    (memberships_of OfTeam d) (memberships_of OfProject d) (memberships_of OfContainer d) (memberships_of OfDataset d)
    (map (fun r => (rl_ID r, rl_Name r)) (a_roles d)) (map (fun t => (tm_ID t, tm_IsPublic t)) (a_teams d)).
(** Where a request is made. *)
Definition scope_of (k : scope_kind) (p : CheckPermissionParams) : option Z :=
  match k with
  | OfTeam => p_TeamID p | OfProject => p_ProjectID p | OfContainer => p_ContainerID p | OfDataset => p_DatasetID p
  end.

(** A right, in terms of the tables of this file. *)
Definition direct_grant (now : Z) (d : adb) (p : CheckPermissionParams) (permission : Z) : Prop :=
  exists up, up ∈ a_user_permissions d /\ up_user up = p_UserID p /\ up_permission up = permission /\
    up_grant up = grant_code /\ (forall e, up_expires up = Some e -> now < e) /\
    null_or (up_project up) (p_ProjectID p) = true /\ null_or (up_container up) (p_ContainerID p) = true /\
    null_or (up_dataset up) (p_DatasetID p) = true.
Definition active_member (d : adb) (m : Member) : Prop := m ∈ a_members d /\ me_Status m = enabled.
Definition role_grant (d : adb) (p : CheckPermissionParams) (permission role : Z) : Prop :=
  (role, permission) ∈ a_role_permissions d /\
  ((p_UserID p, role) ∈ a_user_roles d \/
   exists m, active_member d m /\ me_User m = p_UserID p /\ scope_of (me_Kind m) p = Some (me_Scope m) /\ me_Role m = role).
Definition has_access (now : Z) (d : adb) (p : CheckPermissionParams) (permission : Z) : Prop :=
  granted now (access_tables d) p permission.

Lemma elem_of_memberships k d b :
  b ∈ memberships_of k d <-> exists m, m ∈ a_members d /\ me_Kind m = k /\
    b = mkMembership (me_User m) (me_Scope m) (me_Role m) (me_Status m).
Proof.
  unfold memberships_of. rewrite list_elem_of_fmap. split.
  - intros (m & -> & Hm). rewrite list_elem_of_In, filter_In in Hm. destruct Hm as [Hm Hk].
    exists m. rewrite list_elem_of_In. unfold is_of in Hk. by rewrite bool_decide_eq_true in Hk.
  - intros (m & Hm & Hk & ->). exists m. split; [done|]. rewrite list_elem_of_In, filter_In. split; [by apply list_elem_of_In|].
    by apply bool_decide_eq_true.
Qed.

Lemma has_access_iff now d p permission :
  has_access now d p permission <-> direct_grant now d p permission \/ exists role, role_grant d p permission role.
Proof.
  unfold has_access, granted, direct_grant, role_grant, active_member. cbn [t_user_permissions t_role_permissions t_user_roles access_tables].
  split; (intros [Hd|(role & Hg & Hr)]; [by left|right; exists role; split; [done|]]).
  - destruct Hr as [Hr|(ms & scope & b & Hms & Hb & Hu & Hs & Hst & Hrole)]; [by left|right].
    assert (exists k, ms = memberships_of k d /\ scope = scope_of k p) as (k & -> & ->).
    { cbn [t_user_teams t_user_projects t_user_containers t_user_datasets access_tables] in Hms.
      repeat (apply elem_of_cons in Hms as [[= -> ->]|Hms]); [..|by apply not_elem_of_nil in Hms];
        [by exists OfTeam|by exists OfProject|by exists OfContainer|by exists OfDataset]. }
    apply elem_of_memberships in Hb as (m & Hm & <- & ->). simpl in *. exists m. split_and!; try done.
  - destruct Hr as [Hr|(m & (Hm & Hst) & Hu & Hs & Hrole)]; [by left|right].
    exists (memberships_of (me_Kind m) d), (scope_of (me_Kind m) p), (mkMembership (me_User m) (me_Scope m) (me_Role m) (me_Status m)).
    split; [cbn [t_user_teams t_user_projects t_user_containers t_user_datasets access_tables]; destruct (me_Kind m); set_solver|].
    split; [apply elem_of_memberships; by exists m|]. done.
Qed.

(** ** Memberships that are deleted or added *)

Lemma delete_members_inl p d n d' :
  delete_members p d = inl (n, d') ->
  (exists l, d' = set_members l d) /\ (forall m, active_member d' m <-> active_member d m /\ p m = false) /\
  n = Z.of_nat (length (List.filter (fun m => p m && negb (me_Status m =? deleted)) (a_members d))).
Proof.
  unfold delete_members. intros [= <- <-]. split; [by eexists|]. split; [|done]. intros m. unfold active_member. cbn [a_members set_members].
  rewrite list_elem_of_fmap. split.
  - intros [(x & -> & Hx) He]. destruct (p x) eqn:Ep; cbn [andb] in *; [|done].
    destruct (Z.eqb_spec (me_Status x) deleted); cbn [negb] in *; [by rewrite e in He|done].
  - intros ((Hm & He) & Hp). split; [|done]. exists m. by rewrite Hp.
Qed.
Lemma insert_member_inl m d x d' :
  insert_member m d = inl (x, d') -> me_Status m = 0 \/ me_Status m = enabled ->
  let m' := me_with_status enabled m in
  d' = set_members (a_members d ++ [m']) d /\ key_free member_key (a_members d) m' = true.
Proof.
  unfold insert_member. intros Hr Hm. replace (if me_Status m =? 0 then _ else m) with (me_with_status enabled m) in Hr.
  - destruct (key_free _ _ _) eqn:E; [|done]. by injection Hr as _ <-.
  - destruct m as [k u s r st]. simpl in *. destruct Hm as [-> | ->]; done.
Qed.
Lemma active_snoc l m d x : active_member (set_members (l ++ [me_with_status enabled m]) d) x <->
  active_member (set_members l d) x \/ x = me_with_status enabled m.
Proof.
  unfold active_member. cbn [a_members set_members]. rewrite elem_of_app, list_elem_of_singleton. split.
  - intros [[?| ->] ?]; [by left|by right].
  - intros [[? ?]| ->]; split; auto.
Qed.

Lemma ensure_inl {A} entity rows (idOf status : A -> Z) i d u d' :
  ensureActiveRecordExists entity rows idOf status i d = inl (u, d') <->
  d' = d /\ exists x, alive idOf status i (rows d) = Some x.
Proof.
  unfold ensureActiveRecordExists, tx_wrap. destruct u. rewrite tx_bind_inl. split.
  - intros (x & s & [Hx ->]%tx_wrap_inl%tx_first_inl & [= <-]). split; [done|by exists x].
  - intros (-> & x & Hx). exists x, d. split; [by apply tx_wrap_inl, tx_first_inl|done].
Qed.

(** A user, role, team or project that is there and not deleted. *)
Definition present {A} (idOf status : A -> Z) (i : Z) (rows : list A) : Prop :=
  exists x, x ∈ rows /\ idOf x = i /\ status x <> deleted.
Lemma present_alive {A} (idOf status : A -> Z) i rows :
  (exists x, alive idOf status i rows = Some x) <-> present idOf status i rows.
Proof.
  split; [intros (x & Hx%alive_inl); by exists x|]. intros (x & Hx & Hi & Hs). unfold alive.
  destruct (find _ rows) as [y|] eqn:E; [by exists y|]. exfalso. rewrite list_elem_of_In in Hx.
  apply (find_none _ _ E) in Hx. rewrite Hi, Z.eqb_refl in Hx. simpl in Hx.
  by destruct (Z.eqb_spec (status x) deleted).
Qed.

(** The memberships of containers, datasets and projects that match. *)
Lemma three_deletions (q : Member -> bool) d n1 d1 n2 d2 n3 d3 :
  delete_members (fun m => is_of OfContainer m && q m) d = inl (n1, d1) ->
  delete_members (fun m => is_of OfDataset m && q m) d1 = inl (n2, d2) ->
  delete_members (fun m => is_of OfProject m && q m) d2 = inl (n3, d3) ->
  (exists l, d3 = set_members l d) /\
  forall m, active_member d3 m <-> active_member d m /\ ~ (me_Kind m <> OfTeam /\ q m = true).
Proof.
  intros ((l1 & ->) & H1 & _)%delete_members_inl ((l2 & ->) & H2 & _)%delete_members_inl ((l3 & ->) & H3 & _)%delete_members_inl.
  split; [by exists l3|]. intros m. rewrite H3, H2, H1. unfold is_of.
  destruct (q m); rewrite ?andb_false_r, ?andb_true_r; [|intuition congruence].
  destruct (me_Kind m); cbn; (split; [intros [[[Ha Hc1] Hc2] Hc3]; split; [done|]|intros [Ha Hn]]); try done;
    try (by intros [? _]); try (by destruct Hn; split).
Qed.

Lemma deleteUserCascade_inl u d n d' :
  deleteUserCascade u d = inl (n, d') ->
  present us_ID us_Status u (a_users d) /\
  a_users d' = map (fun x => if (us_ID x =? u) && negb (us_Status x =? deleted) then us_with_status deleted x else x) (a_users d) /\
  a_user_permissions d' = List.filter (fun p => negb (up_user p =? u)) (a_user_permissions d) /\
  a_user_roles d' = List.filter (fun ur => negb (fst ur =? u)) (a_user_roles d) /\
  a_role_permissions d' = a_role_permissions d /\
  (forall m, active_member d' m <-> active_member d m /\ ~ (me_Kind m <> OfTeam /\ me_User m = u)) /\
  n = Z.of_nat (length (List.filter (fun x => (us_ID x =? u) && negb (us_Status x =? deleted)) (a_users d))).
Proof.
  unfold deleteUserCascade. intros H. repeat (rewrite tx_bind_inl in H). destruct H as ([] & d0 & H0 & H).
  apply ensure_inl in H0 as [-> Hp%present_alive].
  apply tx_bind_inl in H as (n1 & d1 & H1 & H). apply tx_bind_inl in H as (n2 & d2 & H2 & H).
  apply tx_bind_inl in H as (n3 & d3 & H3 & H).
  destruct (three_deletions (fun m => me_User m =? u) _ _ _ _ _ _ _ H1 H2 H3) as [(l & ->) Hm]. clear H1 H2 H3.
  apply tx_bind_inl in H as ([] & d4 & [= <-] & H). apply tx_bind_inl in H as ([] & d5 & [= <-] & H).
  injection H as <- <-. split; [done|]. split_and!; try done.
  intros m. transitivity (active_member (set_members l d) m); [done|]. by rewrite Hm, Z.eqb_eq.
Qed.

(** What a user can do depends on the user's own rows and the permissions of roles. *)
Lemma has_access_ext now d d' p permission :
  (forall up, up_user up = p_UserID p -> up ∈ a_user_permissions d' <-> up ∈ a_user_permissions d) ->
  (forall role, (role, permission) ∈ a_role_permissions d' <-> (role, permission) ∈ a_role_permissions d) ->
  (forall role, (p_UserID p, role) ∈ a_user_roles d' <-> (p_UserID p, role) ∈ a_user_roles d) ->
  (forall m, me_User m = p_UserID p -> active_member d' m <-> active_member d m) ->
  has_access now d' p permission <-> has_access now d p permission.
Proof.
  intros Hup Hrp Hur Hm. rewrite !has_access_iff. unfold direct_grant, role_grant. setoid_rewrite Hrp. setoid_rewrite Hur.
  split; (intros [(up & Hin & Hu & Hrest)|(role & Hg & [Hin|(m & Hma & Hmu & Hrest)])];
    [left; exists up; split; [by apply Hup|done]|right; exists role; split; [done|by left]|
     right; exists role; split; [done|]; right; exists m; split; [by apply Hm|done]]).
Qed.
Lemma elem_of_lfilter {A} (p : A -> bool) (l : list A) x : x ∈ List.filter p l <-> x ∈ l /\ p x = true.
Proof. by rewrite !list_elem_of_In, filter_In. Qed.

Lemma DeleteUser_total u d : present us_ID us_Status u (a_users d) -> exists d', DeleteUser u d = (inl tt, d').
Proof.
  intros Hp. assert (He : ensureUser u d = inl (tt, d)) by (apply ensure_inl; split; [done|by apply present_alive]).
  destruct Hp as (x & Hx & Hi & Hs). unfold DeleteUser, transaction, tx_bind at 1, tx_on_err. rewrite He.
  unfold tx_bind at 1, deleteUserCascade, tx_bind at 1. rewrite He. unfold tx_bind, delete_members, tx_do. simpl.
  set (k := length _). assert (0 < k)%nat.
  { unfold k. apply length_filter_pos. exists x. split; [done|]. rewrite Hi, Z.eqb_refl. by destruct (Z.eqb_spec (us_Status x) deleted). }
  destruct (Z.eqb_spec (Z.of_nat k) 0); [lia|by eexists].
Qed.

Lemma deleted_rows u (rows : list UserRow) x :
  x ∈ map (fun x => if (us_ID x =? u) && negb (us_Status x =? deleted) then us_with_status deleted x else x) rows <->
  (x ∈ rows /\ us_ID x <> u) \/ exists y, y ∈ rows /\ us_ID y = u /\ x = us_with_status deleted y.
Proof.
  assert (Hsame : forall y, us_Status y = deleted -> us_with_status deleted y = y) by (by intros [] <-).
  rewrite list_elem_of_fmap. split.
  - intros (y & -> & Hy). destruct (Z.eqb_spec (us_ID y) u); simpl; [|left; by split].
    right. exists y. destruct (Z.eqb_spec (us_Status y) deleted); simpl; [|done]. by rewrite Hsame.
  - intros [[Hx Hi]|(y & Hy & <- & ->)].
    + exists x. split; [|done]. by destruct (Z.eqb_spec (us_ID x) u).
    + exists y. split; [|done]. rewrite Z.eqb_refl. simpl. destruct (Z.eqb_spec (us_Status y) deleted); simpl; [|done]. by apply Hsame.
Qed.

(** C26. Deleting a user takes away what the user could do, and nothing else: it succeeds
    exactly for a user who is there; afterwards the user has the rights that come with
    roles in teams and no others - memberships of teams are left - and every other user has
    the rights they had; the row is marked deleted and no other row is touched.  A deletion
    that fails changes nothing. *)
Theorem DeleteUser_spec u d r d' :
  DeleteUser u d = (r, d') ->
  (r = inl tt <-> present us_ID us_Status u (a_users d)) /\
  match r with
  | inr _ => d' = d
  | inl _ =>
      (forall now p permission, p_UserID p = u ->
         has_access now d' p permission <->
         exists m, active_member d m /\ me_Kind m = OfTeam /\ me_User m = u /\ p_TeamID p = Some (me_Scope m) /\
           (me_Role m, permission) ∈ a_role_permissions d) /\
      (forall now p permission, p_UserID p <> u -> has_access now d' p permission <-> has_access now d p permission) /\
      (forall x, x ∈ a_users d' <-> (x ∈ a_users d /\ us_ID x <> u) \/
         exists y, y ∈ a_users d /\ us_ID y = u /\ x = us_with_status deleted y)
  end.
Proof.
  intros Hr. destruct r as [[]|e].
  2:{ split; [|by apply transaction_inr in Hr as [_ ->]]. split; [done|]. intros (s & Hs)%DeleteUser_total. congruence. }
  unfold DeleteUser in Hr. rewrite transaction_inl in Hr.
  apply tx_bind_inl in Hr as ([] & d0 & [-> _]%tx_wrap_inl%ensure_inl & Hr).
  apply tx_bind_inl in Hr as (n & d1 & Hr & [_ ->]%tx_require_inl).
  apply deleteUserCascade_inl in Hr as (Hp & Hus & Hup & Hur & Hrp & Hm & _). split; [done|]. split; [|split].
  - intros now p permission Hu. rewrite has_access_iff. unfold direct_grant, role_grant. rewrite Hup, Hur, Hrp. split.
    + intros [(up & [_ Hin]%elem_of_lfilter & Hupu & _)|(role & Hg & [[_ Hin]%elem_of_lfilter|(m & (Hma & Hk)%Hm & Hmu & Hsc & Hr)])].
      * rewrite Hupu, Hu, Z.eqb_refl in Hin. done.
      * cbn [fst] in Hin. rewrite Hu, Z.eqb_refl in Hin. done.
      * exists m. subst role. destruct (me_Kind m) eqn:Ek; try (exfalso; apply Hk; split; [done|congruence]).
        split_and!; try done; congruence.
    + intros (m & Hma & Hk & Hmu & Hsc & Hg). right. exists (me_Role m). split; [done|]. right. exists m.
      split; [apply Hm; split; [done|]; by intros [? _]|]. rewrite Hk. split_and!; try done; congruence.
  - intros now p permission Hu. apply has_access_ext.
    + intros up Hup1. rewrite Hup, elem_of_lfilter. split; [by intros [? _]|]. intros ?. split; [done|lia].
    + by rewrite Hrp.
    + intros role. rewrite Hur, elem_of_lfilter. cbn [fst]. split; [by intros [? _]|]. intros ?. split; [done|lia].
    + intros m Hmu. rewrite Hm. split; [by intros [? _]|]. intros ?. split; [done|]. intros [_ ?]. congruence.
  - intros x. rewrite Hus. apply deleted_rows.
Qed.

(** ** Giving and taking roles *)

Lemma insert_user_role_inl ur d x d' :
  insert_user_role ur d = inl (x, d') <-> (ur ∉ a_user_roles d) /\ x = tt /\ d' = set_user_roles (a_user_roles d ++ [ur]) d.
Proof. unfold insert_user_role. case_bool_decide; split; try done; [by intros [? _]|by intros [= <- <-]|by intros (_ & -> & ->)]. Qed.
Lemma role_error_inl {A} u dup (m : Tx adb A) d r : role_error u dup m d = inl r <-> m d = inl r.
Proof.
  unfold role_error. destruct (m d) as [?|e]; [done|]. split; [|done]. destruct (errors_Is NotFound e); [by destruct (ensureUser u d)|].
  destruct dup; [|done]. by destruct (errors_Is _ e).
Qed.

(** A global role is given to a user who is there, when the role is and the user does
    not have it; the user then has the rights they had and those of the role, everybody
    else has the rights they had. *)
Theorem AssignRole_spec u role d r d' :
  AssignRole u role d = (r, d') ->
  (r = inl tt <-> present us_ID us_Status u (a_users d) /\ present rl_ID rl_Status role (a_roles d) /\
                  (u, role) ∉ a_user_roles d) /\
  match r with
  | inr _ => d' = d
  | inl _ => forall now p permission,
      has_access now d' p permission <->
      has_access now d p permission \/ (p_UserID p = u /\ (role, permission) ∈ a_role_permissions d)
  end.
Proof.
  assert (Hiff : forall s, assignGlobalRole u role d = inl (tt, s) <->
    (present us_ID us_Status u (a_users d) /\ present rl_ID rl_Status role (a_roles d) /\ (u, role) ∉ a_user_roles d) /\
    s = set_user_roles (a_user_roles d ++ [(u, role)]) d).
  { intros s. unfold assignGlobalRole, ensureUser, ensureRole, tx_wrap. rewrite tx_bind_inl, <- !present_alive. split.
    - intros ([] & d0 & [-> H1]%ensure_inl & H). apply tx_bind_inl in H as ([] & d0 & [-> H2]%ensure_inl & H).
      by apply tx_wrap_inl, insert_user_role_inl in H as (? & _ & ->).
    - intros ((H1 & H2 & H3) & ->). exists tt, d. split; [by apply ensure_inl|]. apply tx_bind_inl. exists tt, d.
      split; [by apply ensure_inl|]. by apply tx_wrap_inl, insert_user_role_inl. }
  intros Hr. destruct r as [[]|e].
  - apply transaction_inl, role_error_inl, Hiff in Hr as [Hc ->]. split; [done|]. intros now p permission.
    rewrite !has_access_iff. unfold direct_grant, role_grant, active_member. cbn [a_user_permissions a_role_permissions a_user_roles a_members set_user_roles].
    assert (Hl : forall x, (p_UserID p, x) ∈ a_user_roles d ++ [(u, role)] <->
              (p_UserID p, x) ∈ a_user_roles d \/ (p_UserID p = u /\ x = role)).
    { intros x. rewrite elem_of_app, list_elem_of_singleton. split; (intros [?|?]; [by left|right; intuition congruence]). }
    setoid_rewrite Hl. split.
    + intros [?|(x & Hg & [[?|[? ->]]|?])]; [by left; left| |by right|]; left; right; exists x; split; auto.
    + intros [[?|(x & Hg & [?|?])]|[? ?]]; [by left|right; exists x..|right; exists role]; split; auto.
  - apply transaction_inr in Hr as [Hr ->]. split; [|done]. split; [done|]. intros Hc.
    destruct (proj2 (Hiff _) (conj Hc eq_refl)). exfalso. unfold role_error in Hr. by rewrite (proj2 (Hiff _) (conj Hc eq_refl)) in Hr.
Qed.

(** Taking it away: the user keeps the rights that do not come with holding that role
    globally. *)
Theorem RemoveRole_spec u role d r d' :
  RemoveRole u role d = (r, d') ->
  (r = inl tt <-> present us_ID us_Status u (a_users d) /\ present rl_ID rl_Status role (a_roles d)) /\
  match r with
  | inr _ => d' = d
  | inl _ => forall now p permission,
      has_access now d' p permission <->
      direct_grant now d p permission \/ exists role', (role', permission) ∈ a_role_permissions d /\
        (((p_UserID p, role') ∈ a_user_roles d /\ (p_UserID p, role') <> (u, role)) \/
         exists m, active_member d m /\ me_User m = p_UserID p /\ scope_of (me_Kind m) p = Some (me_Scope m) /\ me_Role m = role')
  end.
Proof.
  set (left_roles := List.filter (fun ur => negb ((fst ur =? u) && (snd ur =? role))) (a_user_roles d)).
  assert (Hiff : forall s, removeGlobalRole u role d = inl (tt, s) <->
    (present us_ID us_Status u (a_users d) /\ present rl_ID rl_Status role (a_roles d)) /\ s = set_user_roles left_roles d).
  { intros s. unfold removeGlobalRole, ensureUser, ensureRole. rewrite tx_bind_inl, <- !present_alive. split.
    - intros ([] & d0 & [-> H1]%ensure_inl & H). apply tx_bind_inl in H as ([] & d0 & [-> H2]%ensure_inl & [= <-]). done.
    - intros ((H1 & H2) & ->). exists tt, d. split; [by apply ensure_inl|]. apply tx_bind_inl. exists tt, d.
      split; [by apply ensure_inl|done]. }
  intros Hr. destruct r as [[]|e].
  - apply transaction_inl, role_error_inl, Hiff in Hr as [Hc ->]. split; [done|]. intros now p permission.
    rewrite !has_access_iff. unfold direct_grant, role_grant, active_member. cbn [a_user_permissions a_role_permissions a_user_roles a_members set_user_roles].
    assert (Hl : forall x, (p_UserID p, x) ∈ left_roles <-> (p_UserID p, x) ∈ a_user_roles d /\ (p_UserID p, x) <> (u, role)).
    { intros x. unfold left_roles. rewrite elem_of_lfilter. cbn [fst snd].
      destruct (Z.eqb_spec (p_UserID p) u), (Z.eqb_spec x role); simpl; split; intuition congruence. }
    setoid_rewrite Hl. done.
  - apply transaction_inr in Hr as [Hr ->]. split; [|done]. split; [done|]. intros Hc. exfalso.
    unfold role_error in Hr. by rewrite (proj2 (Hiff _) (conj Hc eq_refl)) in Hr.
Qed.

Definition scope_present (k : scope_kind) (i : Z) (d : adb) : Prop :=
  match k with
  | OfTeam => present tm_ID tm_Status i (a_teams d)
  | OfProject => present po_ID po_Status i (a_projects d)
  | OfContainer => present c_ID c_Status i (a_containers d)
  | OfDataset => present ds_ID ds_Status i (a_datasets d)
  end.
Lemma ensure_scope_inl k i d u d' : ensure_scope k i d = inl (u, d') <-> d' = d /\ scope_present k i d.
Proof. destruct k; unfold scope_present; rewrite <- present_alive; apply ensure_inl. Qed.
Definition holds (d : adb) (k : scope_kind) (u s role : Z) : Prop :=
  exists m, m ∈ a_members d /\ 0 <= me_Status m /\ me_Kind m = k /\ me_User m = u /\ me_Scope m = s /\ me_Role m = role.
Lemma member_free_iff d k u s role st : 0 <= st ->
  key_free member_key (a_members d) (mkMember k u s role st) = true <-> ~ holds d k u s role.
Proof.
  intros Hst. rewrite key_free_spec. unfold member_key at 1. cbn [me_Status me_Kind me_User me_Scope me_Role].
  destruct (Z.leb_spec 0 st); [|lia]. unfold holds. split.
  - intros Hk (m & Hm & H0 & <- & <- & <- & <-). apply (Hk _ eq_refl), elem_of_keys. exists m. split; [done|].
    unfold member_key. by destruct (Z.leb_spec 0 (me_Status m)); [|lia].
  - intros Hn k' [= <-] (m & Hm & Ek)%elem_of_keys. apply Hn. exists m. unfold member_key in Ek.
    destruct (Z.leb_spec 0 (me_Status m)); [|done]. by injection Ek as -> -> -> ->.
Qed.

(** Giving a user a role in a project, container or dataset: the statement writes the
    generated column, so a database that refuses that refuses every assignment; any other
    accepts it when user, role and scope are there and the user does not hold the role, and
    then the user has the rights of the role in that scope and nothing else changes. *)
Theorem AssignScope_spec g k u s role d r d' :
  AssignScope g k u s role d = (r, d') ->
  (r = inl tt <-> g = false /\ present us_ID us_Status u (a_users d) /\ scope_present k s d /\
                  present rl_ID rl_Status role (a_roles d) /\ ~ holds d k u s role) /\
  match r with
  | inr _ => d' = d
  | inl _ => forall now p permission,
      has_access now d' p permission <->
      has_access now d p permission \/
      (p_UserID p = u /\ scope_of k p = Some s /\ (role, permission) ∈ a_role_permissions d)
  end.
Proof.
  set (row := mkMember k u s role enabled).
  assert (Hiff : forall s', assignScopeRole g k u s role d = inl (tt, s') <->
    (g = false /\ present us_ID us_Status u (a_users d) /\ scope_present k s d /\ present rl_ID rl_Status role (a_roles d) /\
     ~ holds d k u s role) /\ s' = set_members (a_members d ++ [row]) d).
  { intros s'. unfold assignScopeRole, ensureUser, ensureRole, tx_wrap.
    rewrite tx_bind_inl, <- !present_alive, <- (member_free_iff d k u s role enabled) by done. split.
    - intros ([] & d0 & [-> H1]%ensure_inl & H). apply tx_bind_inl in H as ([] & d0 & [-> H2]%ensure_scope_inl & H).
      apply tx_bind_inl in H as ([] & d0 & [-> H3]%ensure_inl & H%tx_wrap_inl).
      destruct g; [done|]. cbn [generated_written] in H. apply insert_member_inl in H as [-> Hf]; [|by left]. done.
    - intros ((-> & H1 & H2 & H3 & H4) & ->). exists tt, d. split; [by apply ensure_inl|]. apply tx_bind_inl. exists tt, d.
      split; [by apply ensure_scope_inl|]. apply tx_bind_inl. exists tt, d. split; [by apply ensure_inl|].
      apply tx_wrap_inl. unfold generated_written, insert_member. simpl. unfold me_with_status. simpl.
      by rewrite H4. }
  intros Hr. destruct r as [[]|e].
  - apply transaction_inl, tx_wrap_inl, Hiff in Hr as [Hc ->]. split; [done|]. intros now p permission.
    rewrite !has_access_iff. unfold direct_grant, role_grant.
    assert (Ha : forall m, active_member (set_members (a_members d ++ [row]) d) m <-> active_member d m \/ m = row).
    { intros m. apply (active_snoc (a_members d) row d m). }
    cbn [a_user_permissions a_role_permissions a_user_roles set_members]. setoid_rewrite Ha. unfold row. split.
    + intros [?|(x & Hg & [?|(m & [Hm| ->] & Hu & Hs & Hx)])]; [by left; left|left; right; exists x; split; [done|]..|].
      * by left.
      * right. by exists m.
      * right. simpl in *. by subst.
    + intros [[?|(x & Hg & [?|(m & Hm & Hrest)])]|(Hu & Hs & Hg)]; [by left|right; exists x; split; [done|]..|].
      * by left.
      * right. exists m. split; [by left|done].
      * right. exists role. split; [done|]. right. exists (mkMember k u s role enabled). by split; [right|].
  - apply transaction_inr in Hr as [Hr ->]. split; [|done]. split; [done|]. intros Hc. exfalso.
    unfold tx_on_err in Hr. by rewrite (proj2 (Hiff _) (conj Hc eq_refl)) in Hr.
Qed.

(** Taking a user out of a scope, whatever the roles held there. *)
Theorem RemoveScope_spec k u s d r d' :
  RemoveScope k u s d = (r, d') ->
  (r = inl tt -> exists m, m ∈ a_members d /\ me_Status m <> deleted /\ me_Kind m = k /\ me_User m = u /\ me_Scope m = s) /\
  match r with
  | inr _ => d' = d
  | inl _ => (forall m, active_member d' m <-> active_member d m /\ ~ (me_Kind m = k /\ me_User m = u /\ me_Scope m = s)) /\
             (forall now p permission, p_UserID p <> u \/ scope_of k p <> Some s ->
                has_access now d' p permission <-> has_access now d p permission)
  end.
Proof.
  intros Hr. destruct r as [[]|e]; [|split; [done|by apply transaction_inr in Hr as [_ ->]]].
  apply transaction_inl, tx_bind_inl in Hr as (n & d1 & H%tx_wrap_inl & [Hn ->]%tx_require_inl).
  apply tx_bind_inl in H as ([] & d0 & [-> _]%ensure_inl & H). apply tx_bind_inl in H as ([] & d0 & [-> _]%ensure_scope_inl & H).
  apply delete_members_inl in H as ((l & ->) & Ha & ->). split.
  - intros _. destruct (List.filter _ (a_members d)) as [|m ms] eqn:E; [done|].
    assert (Hm : m ∈ List.filter (fun m => is_of k m && (me_User m =? u) && (me_Scope m =? s) && negb (me_Status m =? deleted)) (a_members d))
      by (rewrite E; by left).
    apply elem_of_lfilter in Hm as [Hm Hb]. exists m. unfold is_of in Hb. bool_to_prop.
    by split_and!.
  - assert (Hiff : forall m, active_member (set_members l d) m <->
      active_member d m /\ ~ (me_Kind m = k /\ me_User m = u /\ me_Scope m = s)).
    { intros m. rewrite Ha. unfold is_of. destruct (bool_decide_reflect (me_Kind m = k)), (Z.eqb_spec (me_User m) u),
        (Z.eqb_spec (me_Scope m) s); simpl; intuition congruence. }
    split; [done|]. intros now p permission Hp. rewrite !has_access_iff. unfold direct_grant, role_grant. setoid_rewrite Hiff.
    cbn [a_user_permissions a_role_permissions a_user_roles set_members].
    split; (intros [?|(x & Hg & [?|(m & Hm & Hu & Hs & Hx)])]; [by left|right; exists x; split; [done|by left]|
      right; exists x; split; [done|right; exists m]]).
    + by destruct Hm as [? _].
    + split_and!; try done. intros (Hk & Hu' & Hs'). rewrite Hk in Hs. destruct Hp as [?|Hp]; [congruence|]. apply Hp. congruence.
Qed.

(** ** Roles *)

Lemma loadRole_inl i d role d' : loadRole i d = inl (role, d') <-> d' = d /\ alive rl_ID rl_Status i (a_roles d) = Some role.
Proof. unfold loadRole, tx_wrap. rewrite tx_wrap_inl, tx_first_inl. intuition. Qed.
Lemma not_system_inl what role d u d' : not_system what role d = inl (u, d') <-> rl_IsSystem role = false /\ d' = d.
Proof. unfold not_system. rewrite tx_require_inl, negb_true_iff. done. Qed.

Lemma deleteRoleCascade_inl i d n d' :
  deleteRoleCascade i d = inl (n, d') ->
  exists role, alive rl_ID rl_Status i (a_roles d) = Some role /\ rl_IsSystem role = false /\
  a_roles d' = map (fun x => if (rl_ID x =? i) && negb (rl_Status x =? deleted) then rl_with_status deleted x else x) (a_roles d) /\
  a_user_permissions d' = a_user_permissions d /\
  a_user_roles d' = List.filter (fun ur => negb (snd ur =? i)) (a_user_roles d) /\
  a_role_permissions d' = List.filter (fun rp => negb (fst rp =? i)) (a_role_permissions d) /\
  (forall m, active_member d' m <-> active_member d m /\ ~ (me_Kind m <> OfTeam /\ me_Role m = i)) /\
  n = Z.of_nat (length (List.filter (fun x => (rl_ID x =? i) && negb (rl_Status x =? deleted)) (a_roles d))).
Proof.
  unfold deleteRoleCascade. intros H. apply tx_bind_inl in H as (role & d0 & [-> Hal]%loadRole_inl & H).
  assert (Hi := Hal). apply alive_inl in Hi as (_ & Hi & _).
  apply tx_bind_inl in H as ([] & d0 & [Hsys ->]%not_system_inl & H). rewrite !Hi in H. exists role. split; [done|]. split; [done|].
  apply tx_bind_inl in H as (n1 & d1 & H1 & H). apply tx_bind_inl in H as (n2 & d2 & H2 & H).
  apply tx_bind_inl in H as (n3 & d3 & H3 & H).
  destruct (three_deletions (fun m => me_Role m =? i) _ _ _ _ _ _ _ H1 H2 H3) as [(l & ->) Hm]. clear H1 H2 H3.
  apply tx_bind_inl in H as ([] & d4 & [= <-] & H). apply tx_bind_inl in H as ([] & d5 & [= <-] & H).
  injection H as <- <-. split_and!; try done.
  intros m. transitivity (active_member (set_members l d) m); [done|]. by rewrite Hm, Z.eqb_eq.
Qed.

(** Deleting a role succeeds only for a role that is there and is not a system role, and
    takes away exactly the rights that come with it: afterwards a user has what was granted
    directly or came with another role.  A deletion that fails changes nothing. *)
Theorem DeleteRole_spec i d r d' :
  DeleteRole i d = (r, d') ->
  (r = inl tt -> exists role, role ∈ a_roles d /\ rl_ID role = i /\ rl_Status role <> deleted /\ rl_IsSystem role = false) /\
  match r with
  | inr _ => d' = d
  | inl _ => forall now p permission,
      has_access now d' p permission <->
      direct_grant now d p permission \/ exists role, role <> i /\ role_grant d p permission role
  end.
Proof.
  intros Hr. destruct r as [[]|e]; [|split; [done|by apply transaction_inr in Hr as [_ ->]]].
  apply transaction_inl, tx_bind_inl in Hr as (n & d1 & H%tx_wrap_inl & [Hn ->]%tx_require_inl).
  apply deleteRoleCascade_inl in H as (role & (Hin & Hi & Hst)%alive_inl & Hsys & _ & Hup & Hur & Hrp & Hm & _). split.
  - intros _. by exists role.
  - intros now p permission. rewrite has_access_iff. unfold direct_grant, role_grant. rewrite Hup, Hur, Hrp. setoid_rewrite Hm.
    setoid_rewrite elem_of_lfilter. cbn [fst snd]. split.
    + intros [?|(x & [Hg Hx] & [[? _]|(m & [Hma _] & Hrest)])]; [by left|right; exists x; split; [lia|]; split; [done|]..].
      * by left.
      * right. by exists m.
    + intros [?|(x & Hx & Hg & [?|(m & Hma & Hu & Hs & Hmr)])]; [by left|right; exists x; split; [split; [done|lia]|]..].
      * left. split; [done|lia].
      * right. exists m. split_and!; try done. intros [_ ?]. congruence.
Qed.

(** *** System roles *)

(** The tables of roles and of their permissions are these. *)
Definition roles_are (rs : list Role) (rps : list (Z * Z)) (d : adb) : Prop :=
  a_roles d = rs /\ a_role_permissions d = rps.

Section Frame.
Context (rs : list Role) (rps : list (Z * Z)).
Abbreviation same := (roles_are rs rps).

(** A statement on other tables. *)
Ltac other_tables :=
  intros d a d' [<- <-]; unfold roles_are, take_next; repeat case_match; try done; intros [= _ <-]; done.
Lemma insert_user_row_same u : tx_keeps same (insert_user_row u).
Proof. unfold insert_user_row. other_tables. Qed.
Lemma save_user_same u : tx_keeps same (save_user u).
Proof. unfold save_user. other_tables. Qed.
Lemma insert_team_same t : tx_keeps same (insert_team t).
Proof. unfold insert_team. other_tables. Qed.
Lemma save_team_same t : tx_keeps same (save_team t).
Proof. unfold save_team. other_tables. Qed.
Lemma insert_project_same p : tx_keeps same (insert_project p).
Proof. unfold insert_project. other_tables. Qed.
Lemma save_project_same p : tx_keeps same (save_project p).
Proof. unfold save_project. other_tables. Qed.
Lemma insert_member_same m : tx_keeps same (insert_member m).
Proof. unfold insert_member. other_tables. Qed.
Lemma insert_user_role_same ur : tx_keeps same (insert_user_role ur).
Proof. unfold insert_user_role. other_tables. Qed.
Lemma delete_members_same p : tx_keeps same (delete_members p).
Proof. unfold delete_members, soft_delete. other_tables. Qed.
Lemma insert_user_permissions_same l : tx_keeps same (insert_user_permissions l).
Proof.
  induction l as [|p l IH]; [apply tx_keeps_ret|]. intros d x d' Hd. cbn [insert_user_permissions].
  destruct (grant_free _ p); [|done]. by apply IH.
Qed.
Lemma do_same f : (forall d, a_roles (f d) = a_roles d /\ a_role_permissions (f d) = a_role_permissions d) -> tx_keeps same (tx_do f).
Proof. intros Hf. apply tx_keeps_do. intros d [<- <-]. apply Hf. Qed.
Lemma on_a_labels_same {A} (m : Tx ldb A) : tx_keeps same (on_a_labels m).
Proof. unfold on_a_labels, tx_on. other_tables. Qed.
Lemma rows_same {A} (f : adb -> (A * adb) + goerr) :
  (forall d a d', f d = inl (a, d') -> a_roles d' = a_roles d /\ a_role_permissions d' = a_role_permissions d) -> tx_keeps same f.
Proof. intros Hf d a d' [<- <-] H. by eapply Hf. Qed.
Lemma ensure_same {A} entity rows idOf status i : tx_keeps same (@ensureActiveRecordExists A entity rows idOf status i).
Proof. intros d u d' Hd [-> _]%ensure_inl. done. Qed.
Lemma ensure_scope_same k i : tx_keeps same (ensure_scope k i).
Proof. intros d u d' Hd [-> _]%ensure_scope_inl. done. Qed.
Lemma role_error_same {A} u dup (m : Tx adb A) : tx_keeps same m -> tx_keeps same (role_error u dup m).
Proof. intros Hm d a d' Hd E%role_error_inl. by eapply Hm. Qed.
Lemma written_same {A} g t c (m : Tx adb A) : tx_keeps same m -> tx_keeps same (generated_written g t c m).
Proof. destruct g; [|done]. intros _. apply tx_keeps_err. Qed.
End Frame.
#[export] Hint Resolve insert_user_row_same save_user_same insert_team_same save_team_same insert_project_same save_project_same
  insert_member_same insert_user_role_same delete_members_same insert_user_permissions_same on_a_labels_same
  ensure_scope_same role_error_same written_same : aegis.
#[export] Hint Extern 1 (tx_keeps (roles_are _ _) (ensureActiveRecordExists _ _ _ _ _)) => apply ensure_same : aegis.
#[export] Hint Extern 1 (tx_keeps (roles_are _ _) (ensureUser _)) => apply ensure_same : aegis.
#[export] Hint Extern 1 (tx_keeps (roles_are _ _) (ensureRole _)) => apply ensure_same : aegis.
#[export] Hint Extern 1 (tx_keeps (roles_are _ _) (ensureContainer _)) => apply ensure_same : aegis.
#[export] Hint Extern 1 (tx_keeps (roles_are _ _) (ensureDataset _)) => apply ensure_same : aegis.
#[export] Hint Extern 1 (tx_keeps (roles_are _ _) (ensureProject _)) => apply ensure_same : aegis.
#[export] Hint Extern 1 (tx_keeps (roles_are _ _) (tx_do _)) => apply do_same; intros ?; split; reflexivity : aegis.

(** Goes through the code, unfolding as it goes. *)
Ltac same_steps :=
  repeat first
    [ solve [eauto 2 with aegis]
    | progress unfold tx_wrap, tx_valid, tx_when, ensure_target, check_item, existing_team, loadTeam, loadRoleByID
    | apply tx_keeps_on_err
    | apply role_error_same
    | apply tx_keeps_bind; [|intros ?]
    | apply tx_keeps_each; intros ? _
    | apply written_same
    | case_match ].

(** The operations that leave the tables of roles and their permissions alone. *)
Lemma roles_same `{GoCrypto} g d d' :
  access_step g d d' ->
  roles_are (a_roles d) (a_role_permissions d) d' \/
  (exists req, d' = (CreateRole g req d).2) \/ (exists req i, d' = (UpdateRole req i d).2) \/
  (exists i, d' = (DeleteRole i d).2) \/ (exists ids i, d' = (AssignRolePermissions ids i d).2) \/
  (exists ids i, d' = (RemoveRolePermissions ids i d).2).
Proof.
  destruct 1;
    lazymatch goal with
    | |- roles_are _ _ (CreateRole _ ?r _).2 \/ _ => right; left; by exists r
    | |- roles_are _ _ (UpdateRole ?r ?i _).2 \/ _ => right; right; left; by exists r, i
    | |- roles_are _ _ (DeleteRole ?i _).2 \/ _ => do 3 right; left; by exists i
    | |- roles_are _ _ (AssignRolePermissions ?l ?i _).2 \/ _ => do 4 right; left; by exists l, i
    | |- roles_are _ _ (RemoveRolePermissions ?l ?i _).2 \/ _ => do 5 right; by exists l, i
    | |- _ => left
    end;
    assert (Hs : roles_are (a_roles d) (a_role_permissions d) d) by done; revert Hs;
    match goal with |- _ -> roles_are ?rs ?rps (?f).2 =>
      let h := head_of f in unfold h; intros Hs; apply tx_keeps_transaction; [|exact Hs] end.
  - unfold createUserIfUnique. same_steps.
  - unfold updateMutableUser, getUserDetailBase. same_steps.
  - unfold deleteUserCascade. same_steps. apply rows_same. by intros ? ? ? [= _ <-].
  - unfold assignGlobalRole. same_steps.
  - unfold removeGlobalRole. same_steps.
  - unfold buildUserPermissions, batchCreateUserPermissions. same_steps.
  - unfold batchDeleteUserPermissions. same_steps.
  - unfold assignScopeRole. same_steps.
  - unfold removeScopeRole. same_steps.
  - unfold createTeamWithCreator. same_steps.
  - unfold updateMutableTeam. same_steps.
  - unfold deleteTeam. same_steps. apply rows_same. by intros ? ? ? [= _ <-].
  - unfold addMember. same_steps.
  - unfold removeMember. same_steps.
  - unfold updateMemberRole. same_steps. apply rows_same. intros ? ? ?. case_bool_decide; [|done]. by intros [= _ <-].
  - unfold createProjectWithOwner. same_steps.
  - unfold updateMutableProject, loadProjectRecord. same_steps.
  - unfold deleteProjectCascade. same_steps. apply rows_same. by intros ? ? ? [= _ <-].
  - unfold manageProjectLabels, loadProjectRecord. same_steps.
Qed.

(** A role and its permissions are the same in both. *)
Definition role_fixed (d d' : adb) (r : Role) : Prop :=
  r ∈ a_roles d' /\ forall permission, (rl_ID r, permission) ∈ a_role_permissions d' <-> (rl_ID r, permission) ∈ a_role_permissions d.

Lemma insert_role_permissions_inl l d u d' :
  insert_role_permissions l d = inl (u, d') -> d' = set_role_permissions (a_role_permissions d ++ l) d.
Proof.
  revert d. induction l as [|rp l IH]; intros d; cbn [insert_role_permissions].
  { intros [= _ <-]. rewrite app_nil_r. by destruct d. }
  case_bool_decide; [done|]. intros ->%IH. unfold set_role_permissions. cbn [a_role_permissions a_users a_roles a_permissions a_resources
    a_user_permissions a_user_roles a_members a_teams a_projects a_containers a_datasets a_labels a_next]. by rewrite <- app_assoc.
Qed.

Section SystemRoles.
Context (d : adb) (Hok : access_ok d) (r : Role) (Hr : r ∈ a_roles d) (Hsys : rl_IsSystem r = true).

(** A role that an operation may change is another one. *)
Lemma not_the_system_role i role : alive rl_ID rl_Status i (a_roles d) = Some role -> rl_IsSystem role = false ->
  rl_ID role = i /\ rl_ID r <> rl_ID role.
Proof.
  intros (Hin & Hi & _)%alive_inl Hns. split; [done|]. intros E. destruct Hok as [_ [[Hnd _] _] _ _ _ _ _ _ _].
  assert (r = role) by (by apply (nodup_map_inj rl_ID (a_roles d))). congruence.
Qed.

Lemma CreateRole_fixed g req : role_fixed d (CreateRole g req d).2 r.
Proof.
  unfold CreateRole, transaction. destruct (tx_bind _ _ d) as [[x d']|e] eqn:E; [|done]. cbn [snd].
  apply tx_bind_inl in E as (role & d1 & E%tx_wrap_inl%tx_wrap_inl & [= _ <-]). destruct g; [done|]. cbn [generated_written] in E.
  unfold insert_role, take_next in E. destruct (key_free _ _ _); [|done]. injection E as _ <-. split; [|done].
  cbn [a_roles set_roles]. apply elem_of_app. by left.
Qed.
Lemma UpdateRole_fixed req i : role_fixed d (UpdateRole req i d).2 r.
Proof.
  unfold UpdateRole, transaction. destruct (tx_bind _ _ d) as [[x d']|e] eqn:E; [|done]. cbn [snd].
  apply tx_bind_inl in E as (role & d1 & E & [= _ <-]). unfold updateMutableRole in E.
  apply tx_bind_inl in E as (role0 & d2 & [-> Hal]%loadRole_inl & E). apply tx_bind_inl in E as ([] & d2 & [Hns ->]%not_system_inl & E).
  apply tx_bind_inl in E as (u & d2 & E%tx_wrap_inl & [= _ <-]). destruct (not_the_system_role _ _ Hal Hns) as [_ Hne].
  unfold save_role in E. destruct (key_free _ _ _); [|done]. injection E as _ <-. split; [|done].
  cbn [a_roles set_roles]. unfold save_row. apply list_elem_of_fmap. exists r. split; [|done].
  destruct (Z.eqb_spec (rl_ID r) (rl_ID (PatchRoleModel req role0))); [by destruct Hne|done].
Qed.
Lemma DeleteRole_fixed i : role_fixed d (DeleteRole i d).2 r.
Proof.
  unfold DeleteRole, transaction. destruct (tx_bind _ _ d) as [[x d']|e] eqn:E; [|done]. cbn [snd].
  apply tx_bind_inl in E as (n & d1 & E%tx_wrap_inl & [_ ->]%tx_require_inl).
  apply deleteRoleCascade_inl in E as (role & Hal & Hns & Hro & _ & _ & Hrp & _).
  destruct (not_the_system_role _ _ Hal Hns) as [<- Hne]. split.
  - rewrite Hro. apply list_elem_of_fmap. exists r. split; [|done]. by destruct (Z.eqb_spec (rl_ID r) (rl_ID role)).
  - intros p. rewrite Hrp, elem_of_lfilter. cbn [fst]. split; [by intros [? _]|]. intros ?. split; [done|lia].
Qed.
Lemma AssignRolePermissions_fixed ids i : role_fixed d (AssignRolePermissions ids i d).2 r.
Proof.
  unfold AssignRolePermissions, transaction. destruct (tx_on_err _ _ d) as [[x d']|e] eqn:E; [|done]. cbn [snd].
  apply tx_wrap_inl in E. unfold assignRolePermissions in E.
  apply tx_bind_inl in E as (role & d2 & [-> Hal]%loadRole_inl & E). apply tx_bind_inl in E as ([] & d2 & [Hns ->]%not_system_inl & E).
  destruct (not_the_system_role _ _ Hal Hns) as [_ Hne].
  apply tx_bind_inl in E as ([] & d2 & Ha & E%tx_wrap_inl%insert_role_permissions_inl).
  assert (Hd2 : d2 = d).
  { refine (tx_keeps_bind (fun s => s = d) _ _ _ _ d _ _ eq_refl Ha); [apply tx_keeps_get|]. intros ps. apply tx_keeps_each. intros ? _. apply tx_keeps_require. }
  subst. split; [done|]. intros p. cbn [a_role_permissions set_role_permissions]. rewrite elem_of_app. split; [|by left].
  intros [?|Hin]; [done|]. apply list_elem_of_fmap in Hin as (q & [= E _] & _). congruence.
Qed.
Lemma RemoveRolePermissions_fixed ids i : role_fixed d (RemoveRolePermissions ids i d).2 r.
Proof.
  unfold RemoveRolePermissions, transaction. destruct (tx_wrap _ _ d) as [[x d']|e] eqn:E; [|done]. cbn [snd].
  apply tx_wrap_inl in E. unfold removeRolePermissions in E.
  apply tx_bind_inl in E as (role & d2 & [-> Hal]%loadRole_inl & E). apply tx_bind_inl in E as ([] & d2 & [Hns ->]%not_system_inl & E).
  destruct (not_the_system_role _ _ Hal Hns) as [_ Hne].
  apply tx_bind_inl in E as ([] & d2 & Ha & [= _ <-]).
  assert (Hd2 : d2 = d).
  { refine (tx_keeps_bind (fun s => s = d) _ _ _ _ d _ _ eq_refl Ha); [apply tx_keeps_get|]. intros ps. apply tx_keeps_each. intros ? _. apply tx_keeps_require. }
  subst. split; [done|]. intros p. cbn [a_role_permissions set_role_permissions]. rewrite elem_of_lfilter. cbn [fst].
  split; [by intros [? _]|]. intros ?. split; [done|]. by destruct (Z.eqb_spec (rl_ID r) (rl_ID role)).
Qed.
End SystemRoles.

(** C39. The system roles are out of reach: whatever the services of users, roles, teams and
    projects do one after the other, a system role is still there, with its name, its status
    and exactly its permissions. *)
Theorem system_roles_fixed `{GoCrypto} g d d' r :
  access_ok d -> rtc (access_step g) d d' -> r ∈ a_roles d -> rl_IsSystem r = true -> role_fixed d d' r.
Proof.
  intros Hok Hs. induction Hs as [d|d1 d2 d3 H12 _ IH]; intros Hr Hsys; [done|].
  assert (Hf : role_fixed d1 d2 r).
  { destruct (roles_same g d1 d2 H12) as [[E1 E2]|[(req & ->)|[(req & i & ->)|[(i & ->)|[(ids & i & ->)|(ids & i & ->)]]]]].
    - unfold role_fixed. by rewrite E1, E2.
    - by apply CreateRole_fixed.
    - by apply UpdateRole_fixed.
    - by apply DeleteRole_fixed.
    - by apply AssignRolePermissions_fixed.
    - by apply RemoveRolePermissions_fixed. }
  destruct Hf as [Hr2 Hp2]. apply access_step_ok in H12; [|done]. destruct (IH H12 Hr2 Hsys) as [Hr3 Hp3].
  split; [done|]. intros p. by rewrite Hp3, Hp2.
Qed.

(** ** Statements that write a generated column *)

(** In a database that refuses values for generated columns, as MySQL does, no role is
    created, nobody gets a role in a project, a container or a dataset, no project is
    created and no member of a team gets another role: every attempt fails and changes
    nothing. *)
Theorem generated_columns_block req u preq k s role team d :
  (exists e, CreateRole true req d = (inr e, d)) /\
  (exists e, AssignScope true k u s role d = (inr e, d)) /\
  (exists e, CreateProject true preq u d = (inr e, d)) /\
  (exists e, UpdateMemberRole true role team u d = (inr e, d)).
Proof.
  assert (Hfail : forall A (m : Tx adb A), (forall a d', m d <> inl (a, d')) -> exists e, transaction m d = (inr e, d)).
  { intros A m Hm. unfold transaction. destruct (m d) as [[a d']|e] eqn:E; [by destruct (Hm a d')|by exists e]. }
  split_and!; apply Hfail; intros a d' H.
  - by apply tx_bind_inl in H as (x & d1 & H%tx_wrap_inl & _).
  - apply tx_wrap_inl in H. unfold assignScopeRole in H. apply tx_bind_inl in H as (x & d1 & _ & H).
    apply tx_bind_inl in H as (y & d2 & _ & H). apply tx_bind_inl in H as (z & d3 & _ & H). by apply tx_wrap_inl in H.
  - apply tx_bind_inl in H as (x & d1 & _ & H%tx_wrap_inl). unfold createProjectWithOwner in H.
    apply tx_bind_inl in H as (y & d2 & _ & H). apply tx_bind_inl in H as (z & d3 & _ & H).
    by apply tx_bind_inl in H as (w & d4 & H%tx_wrap_inl & _).
  - apply tx_wrap_inl in H. unfold updateMemberRole in H. apply tx_bind_inl in H as (x & d1 & _ & H).
    apply tx_bind_inl in H as (y & d2 & _ & H). by apply tx_bind_inl in H as (z & d3 & _ & H).
Qed.

(** Where they are accepted, changing the role of a member still changes nothing: the
    preloaded role is written back into the row. *)
Theorem UpdateMemberRole_keeps_role role team u d d' :
  (forall m, m ∈ a_members d -> exists r, r ∈ a_roles d /\ rl_ID r = me_Role m) ->
  UpdateMemberRole false role team u d = (inl tt, d') -> a_members d' = a_members d.
Proof.
  intros Hfk Hr. apply transaction_inl, tx_wrap_inl in Hr. unfold updateMemberRole in Hr.
  apply tx_bind_inl in Hr as (x & d1 & H1 & Hr).
  assert (Hsame : forall s, existing_team team d = inl (x, s) -> s = d).
  { intros s H. unfold existing_team in H. by apply tx_bind_inl in H as (t & s1 & [_ ->]%tx_wrap_inl%tx_wrap_inl%tx_first_inl & [= _ <-]). }
  apply Hsame in H1 as ->. apply tx_bind_inl in Hr as (y & d1 & [_ ->]%tx_wrap_inl%tx_first_inl & Hr).
  apply tx_bind_inl in Hr as (m & d1 & [Hf ->]%tx_first_inl & Hr). cbn [generated_written] in Hr.
  case_bool_decide; [|done]. injection Hr as <-. cbn [a_members set_members].
  assert (Hm : m ∈ a_members d) by (apply find_some in Hf as [? _]; by apply list_elem_of_In).
  assert (E : saved_role d m role = me_Role m).
  { unfold saved_role. destruct (find _ (a_roles d)) as [r|] eqn:Ef; [apply find_some in Ef as [_ ?]; lia|].
    destruct (Hfk m Hm) as (r & Hr & Hi). rewrite list_elem_of_In in Hr. apply (find_none _ _ Ef) in Hr. lia. }
  rewrite E. clear - Hf. induction (a_members d) as [|z l IH]; [done|]. simpl in *.
  destruct (enabled_member OfTeam u team z); [|f_equal; by apply IH]. injection Hf as ->. by destruct m.
Qed.

(** ** The answers about teams *)

Lemma find_membership (P : Member -> bool) (Q : Membership -> bool) k d :
  (forall m, is_of k m = true -> Q (mkMembership (me_User m) (me_Scope m) (me_Role m) (me_Status m)) = P m) ->
  List.find Q (memberships_of k d) =
  (fun m => mkMembership (me_User m) (me_Scope m) (me_Role m) (me_Status m)) <$> find (fun m => is_of k m && P m) (a_members d).
Proof.
  intros HPQ. unfold memberships_of. induction (a_members d) as [|m l IH]; [done|]. cbn [List.filter find].
  destruct (is_of k m) eqn:E; cbn [map find andb]; [|done]. rewrite HPQ by done. by destruct (P m).
Qed.
Lemma find_ext_eq {A} (p q : A -> bool) l : (forall x, p x = q x) -> find p l = find q l.
Proof. intros Hpq. induction l as [|x l IH]; [done|]. simpl. rewrite Hpq. by destruct (q x). Qed.
Lemma team_membership u team d :
  q_membership (memberships_of OfTeam d) u team =
  (fun m => mkMembership (me_User m) (me_Scope m) (me_Role m) (me_Status m)) <$> find (enabled_member OfTeam u team) (a_members d).
Proof.
  unfold q_membership. rewrite (find_membership (fun m => (me_User m =? u) && (me_Scope m =? team) && (me_Status m =? enabled))) by done.
  f_equal. apply find_ext_eq. intros m. unfold enabled_member. by rewrite !andb_assoc.
Qed.
Lemma role_name_find i d :
  role_name (access_tables d) i = rl_Name <$> find (fun r => rl_ID r =? i) (a_roles d).
Proof.
  unfold role_name. cbn [t_roles access_tables Permissions.t_roles]. induction (a_roles d) as [|r l IH]; [done|]. simpl.
  by destruct (rl_ID r =? i).
Qed.
Lemma team_public_find i d :
  List.find (fun r => fst r =? i) (t_teams (access_tables d)) =
  (fun t => (tm_ID t, tm_IsPublic t)) <$> find (fun t => tm_ID t =? i) (a_teams d).
Proof. cbn [t_teams access_tables]. induction (a_teams d) as [|t l IH]; [done|]. simpl. by destruct (tm_ID t =? i). Qed.

(** The team service and the middleware agree: on the same tables they give the same
    answers to who is in a team, who administers it and whether it is public. *)
Theorem team_answers_agree {D} `{PermissionDBLaws D} (c : D) d u team b :
  Permissions.tables c = access_tables d ->
  (db_IsUserInTeam u team c = Ok b -> IsUserInTeam u team d = inl b) /\
  (db_IsUserTeamAdmin u team c = Ok b -> IsUserTeamAdmin u team d = inl b) /\
  (db_IsTeamPublic team c = Ok b -> IsTeamPublic team d = inl b).
Proof.
  intros Ht. unfold IsUserInTeam, IsUserTeamAdmin, IsTeamPublic, or_no, loadUserTeamMembership, loadTeam, tx_bind, tx_wrap, tx_on_err, tx_first.
  split_and!; intros Hq; apply res_bind_ok in Hq as (x & Hx%query_ok & [= <-]); rewrite Ht in Hx; subst x.
  - cbn [t_user_teams access_tables]. rewrite team_membership. by destruct (find (enabled_member _ _ _) _).
  - cbn [t_user_teams access_tables]. rewrite team_membership. destruct (find (enabled_member _ _ _) _) as [m|]; [|done]. simpl.
    change (role_name _ (mb_role _)) with (role_name (access_tables d) (me_Role m)). rewrite role_name_find.
    by destruct (find (fun r => rl_ID r =? me_Role m) (a_roles d)).
  - rewrite team_public_find. by destruct (find (fun t => tm_ID t =? team) (a_teams d)).
Qed.

(** The user who creates a team is in it but does not administer it: the membership comes
    with the role of the system's administrators, and administrators of a team are those
    with the role of that name. *)
Theorem creator_is_no_team_admin req u d team d' :
  access_ok d -> (forall m, m ∈ a_members d -> me_Scope m < a_next d) ->
  CreateTeam req u d = (inl team, d') ->
  IsUserInTeam u (tm_ID team) d' = inl true /\ IsUserTeamAdmin u (tm_ID team) d' = inl false.
Proof.
  intros Hok Hfresh Hr. apply transaction_inl, tx_wrap_inl in Hr. unfold createTeamWithCreator in Hr.
  apply tx_bind_inl in Hr as (role & d1 & [Hrole ->]%tx_wrap_inl%tx_first_inl & Hr).
  apply tx_bind_inl in Hr as (t & d1 & Hi%tx_wrap_inl & Hr). apply tx_bind_inl in Hr as (x & d2 & Hm%tx_wrap_inl & [= -> ->]).
  unfold insert_team, take_next in Hi. destruct (key_free _ _ _); [|done]. injection Hi as <- <-.
  apply insert_member_inl in Hm as [-> _]; [|by right]. cbn [tm_ID].
  assert (Hf : find (enabled_member OfTeam u (a_next d)) (a_members d ++ [me_with_status enabled (mkMember OfTeam u (a_next d) (rl_ID role) enabled)])
     = Some (mkMember OfTeam u (a_next d) (rl_ID role) enabled)).
  { induction (a_members d) as [|m l IH]; simpl.
    - unfold enabled_member, is_of. simpl. by rewrite !Z.eqb_refl.
    - assert (Hlt := Hfresh m ltac:(by left)). unfold enabled_member at 1.
      destruct (Z.eqb_spec (me_Scope m) (a_next d)); [lia|]. rewrite !andb_false_r. cbn [andb].
      apply IH. intros m' ?. apply Hfresh. by right. }
  assert (Hin : role ∈ a_roles d /\ rl_Name role = RoleSuperAdmin).
  { unfold roleNamed in Hrole. apply find_some in Hrole as [Hin Hb]. bool_to_prop.
    split; [by apply list_elem_of_In|]. by apply String.eqb_eq. }
  unfold IsUserInTeam, IsUserTeamAdmin, or_no, loadUserTeamMembership, tx_bind, tx_first. cbn [a_members set_members set_teams a_roles tm_ID].
  rewrite Hf. split; [done|]. unfold tx_get. cbn [a_roles set_members set_teams me_Role].
  destruct (find (fun r => rl_ID r =? rl_ID role) (a_roles d)) as [r|] eqn:Ef; [|done].
  destruct Hok as [_ [Hids _] _ _ _ _ _ _ _]. destruct Hin as [Hin Hn]. rewrite (ids_find rl_ID _ _ role r Hids Hin Ef), Hn. done.
Qed.

(** ** New and old users *)

Lemma CreateUserReq_Validate_ok req req' :
  CreateUserReq_Validate req = Ok req' <->
  trim_space (cu_Username req) <> "" /\ trim_space (cu_Email req) <> "" /\ 8 <= str_len (cu_Password req) /\
  req' = mkCreateUser (trim_space (cu_Username req)) (trim_space (cu_Email req)) (cu_Password req) (cu_FullName req)
           (cu_Phone req) (cu_Avatar req).
Proof.
  unfold CreateUserReq_Validate. cbn [cu_Username cu_Email cu_Password].
  destruct (String.eqb_spec (trim_space (cu_Username req)) ""); [split; [done|by intros [? _]]|].
  destruct (String.eqb_spec (trim_space (cu_Email req)) ""); [split; [done|by intros (_ & ? & _)]|].
  destruct (Z.ltb_spec (str_len (cu_Password req)) 8); simpl; [split; [done|]; intros (_ & _ & ? & _); lia|].
  split; [by intros [= <-]|by intros (_ & _ & _ & ->)].
Qed.

Lemma name_free {A} (f : A -> string) (rows : list A) x :
  (forall y, y ∈ rows -> f y <> f x) -> key_free (fun z => Some (f z)) rows x = true.
Proof. intros Hn. apply key_free_spec. intros k [= <-] (y & Hy & [= E])%elem_of_keys. by apply (Hn y). Qed.
Lemma first_none {A} (p : A -> bool) rows :
  (match find p rows with None => true | Some _ => false end) = true <-> forall x, x ∈ rows -> p x = false.
Proof.
  destruct (find p rows) as [x|] eqn:E; split; try done.
  - intros Hn. apply find_some in E as [Hin Hp]. rewrite Hn in Hp; [done|]. by apply list_elem_of_In.
  - intros _ x Hx. rewrite list_elem_of_In in Hx. by apply (find_none _ _ E).
Qed.

(** An account is created exactly when the trimmed name and email are not empty, no user
    - deleted ones included - has the name or the email, and the password has 8 to 128
    bytes; it is a new row, enabled and active, whose stored password accepts the password
    of the request, and nothing else changes.  An attempt that fails changes nothing. *)
Theorem CreateUser_spec `{GoCrypto} salt req d r d' :
  let name := trim_space (cu_Username req) in
  let email := trim_space (cu_Email req) in
  CreateUser (Ok salt) req d = (r, d') ->
  ((exists resp, r = inl resp) <->
     name <> "" /\ email <> "" /\ MinPasswordLength <= str_len (cu_Password req) <= MaxPasswordLength /\
     (forall u, u ∈ a_users d -> us_Username u <> name /\ us_Email u <> email)) /\
  match r with
  | inr _ => d' = d
  | inl resp => exists row, a_users d' = a_users d ++ [row] /\ us_ID row = a_next d /\ resp = NewUserResp row /\
      us_Username row = name /\ us_Email row = email /\ us_IsActive row = true /\ us_Status row = enabled /\
      VerifyPassword (cu_Password req) (us_Password row) = true /\
      d' = set_users (a_users d') (take_next d).2
  end.
Proof.
  intros name email Hr. set (free := fun u => us_Username u <> name /\ us_Email u <> email).
  assert (Hnames : forall f text, (forall u : UserRow, u ∈ a_users d -> String.eqb (f u) text = false) <-> forall u, u ∈ a_users d -> f u <> text).
  { intros f text. split; intros Hn u Hu; by apply String.eqb_neq, Hn. }
  destruct r as [resp|e].
  - apply transaction_inl, tx_bind_inl in Hr as (req' & d0 & Hv & Hr). unfold tx_valid in Hv.
    destruct (CreateUserReq_Validate req) as [v|] eqn:Ev; [|done]. injection Hv as <- <-.
    apply CreateUserReq_Validate_ok in Ev as (Hn & He & Hl & ->). apply tx_bind_inl in Hr as (u & d1 & Hr & [= <- <-]).
    unfold createUserIfUnique in Hr. cbn [new_user us_Username us_Email us_Password cu_Username cu_Email cu_Password] in Hr.
    apply tx_bind_inl in Hr as (o1 & d2 & [= <- <-] & Hr). apply tx_bind_inl in Hr as ([] & d2 & [H1 ->]%tx_require_inl & Hr).
    apply tx_bind_inl in Hr as (o2 & d2 & [= <- <-] & Hr). apply tx_bind_inl in Hr as ([] & d2 & [H2 ->]%tx_require_inl & Hr).
    rewrite first_none in H1, H2. pose proof (proj1 (Hnames us_Username name) H1) as Hun. pose proof (proj1 (Hnames us_Email email) H2) as Hue.
    apply tx_wrap_inl in Hr. destruct (HashPassword (Ok salt) (cu_Password req)) as [h|] eqn:Eh; [|done].
    destruct (password_check _ _ _ Eh) as [Hpw _]. apply HashPassword_ok in Eh as (s & _ & _ & Hlen).
    unfold insert_user_row, take_next in Hr. destruct (_ && _); [|done]. injection Hr as <- <-. split.
    + split; [|by eexists]. intros _. split_and!; try done; try lia. intros v Hv. by split; [apply Hun|apply Hue].
    + eexists. by split_and!.
  - apply transaction_inr in Hr as [Hr ->]. split; [|done]. split; [by intros []|]. intros (Hn & He & Hl & Hf). exfalso.
    unfold tx_bind at 1, tx_valid in Hr.
    assert (Ev : CreateUserReq_Validate req = Ok (mkCreateUser name email (cu_Password req) (cu_FullName req) (cu_Phone req) (cu_Avatar req))).
    { apply CreateUserReq_Validate_ok. by split_and!; [..|unfold MinPasswordLength in Hl; lia|]. }
    rewrite Ev in Hr. unfold tx_ret, createUserIfUnique in Hr. cbn [new_user us_Username us_Email us_Password cu_Username cu_Email cu_Password] in Hr.
    unfold tx_bind at 1 2, tx_get at 1 in Hr.
    rewrite (proj2 (first_none _ _) (proj2 (Hnames us_Username name) (fun u Hu => proj1 (Hf u Hu)))) in Hr.
    unfold tx_bind at 1, tx_require at 1, tx_ret at 1, tx_bind at 1, tx_get at 1 in Hr.
    rewrite (proj2 (first_none _ _) (proj2 (Hnames us_Email email) (fun u Hu => proj2 (Hf u Hu)))) in Hr.
    unfold tx_bind at 1, tx_require at 1, tx_ret at 1, tx_wrap, tx_on_err in Hr.
    assert (Eh := proj2 (HashPassword_total salt (cu_Password req)) Hl). destruct (HashPassword _ _) as [h|]; [|done].
    unfold insert_user_row, take_next in Hr. cbn [a_users us_Username us_Email] in Hr.
    rewrite !name_free in Hr; [done|intros y Hy; by apply Hf..].
Qed.

(** The rows of users are changed whether they are deleted or not: an update that carries
    the status "enabled" brings a deleted user back. *)
Theorem UpdateUser_revives u d :
  access_ok d -> u ∈ a_users d -> us_Status u = deleted ->
  exists resp d', UpdateUser (mkUpdateUser None None None None None (Some enabled)) (us_ID u) d = (inl resp, d') /\
    us_with_status enabled u ∈ a_users d'.
Proof.
  intros Hok Hu Hst. destruct Hok as [(Hids & Hn & He) _ _ _ _ _ _ _ _].
  assert (Hf : find (fun x => us_ID x =? us_ID u) (a_users d) = Some u).
  { destruct (find _ (a_users d)) as [x|] eqn:E; [f_equal; by eapply (ids_find us_ID)|]. exfalso.
    rewrite list_elem_of_In in Hu. apply (find_none _ _ E) in Hu. lia. }
  unfold UpdateUser, transaction, updateMutableUser, getUserDetailBase, tx_wrap, tx_valid, tx_bind, tx_on_err, tx_first, save_user.
  change (Labels.validateStatus _ true) with (Ok tt). unfold tx_ret. cbn beta iota. rewrite Hf.
  replace (PatchUserModel _ u) with (us_with_status enabled u) by by destruct u.
  assert (Hfree : forall f : UserRow -> string, (forall s, f (us_with_status s u) = f u) -> NoDup (omap (fun x => Some (f x)) (a_users d)) ->
    key_free (fun x => Some (f x)) (List.filter (fun y => negb (us_ID y =? us_ID (us_with_status enabled u))) (a_users d)) (us_with_status enabled u) = true).
  { intros f Hfs Hnd. apply name_free. intros y [Hy Hne]%elem_of_lfilter E. rewrite Hfs in E.
    assert (y = u) by (by apply (nodup_key_inj (fun x => Some (f x)) (a_users d) y u (f u)); [..|congruence|]). subst y. simpl in Hne.
    by rewrite Z.eqb_refl in Hne. }
  rewrite !Hfree by done. simpl. eexists _, _. split; [done|]. cbn [a_users set_users]. unfold save_row.
  apply list_elem_of_fmap. exists u. simpl. by rewrite Z.eqb_refl.
Qed.

(** A user, or role, that is not there is answered with 500: the services look for
    [consts.ErrNotFound], and the repository wraps gorm's own error. *)
Theorem missing_user_is_500 u role d :
  ~ present us_ID us_Status u (a_users d) ->
  (exists e, DeleteUser u d = (inr e, d) /\ option_map fst (HandleServiceError (Some e)) = Some 500) /\
  (exists e, AssignRole u role d = (inr e, d) /\ option_map fst (HandleServiceError (Some e)) = Some 500).
Proof.
  intros Hn. assert (He : ensureUser u d = inr (Wrap (not_found "user" u) (Is RecordNotFound) "")).
  { unfold ensureUser, ensureActiveRecordExists, tx_wrap, tx_on_err, tx_first, tx_bind.
    destruct (alive us_ID us_Status u (a_users d)) as [x|] eqn:E; [|done]. destruct Hn. apply present_alive. by exists x. }
  split; eexists; split.
  - unfold DeleteUser, transaction, tx_bind at 1, tx_on_err. by rewrite He.
  - change (errors_Is NotFound _) with false. cbn iota. by rewrite !status_wrap.
  - unfold AssignRole, transaction, role_error, assignGlobalRole, tx_bind at 1. by rewrite He.
  - by rewrite !status_wrap.
Qed.

(** ** The theorems at concrete tables *)
Module AccessSample.
#[local] Existing Instance ToyCrypto.toy_crypto.

(** Alice is a member of team 6 and project 7 and has a role everywhere; Bob is new. *)
Definition alice : UserRow := mkUserRow 1 "alice" "a@x" "hash" "Alice" "" "" None true enabled.
Definition admins : Role := mkRole 2 "super_admin" "Admins" "" true enabled.
Definition members : Role := mkRole 3 "member" "Members" "" false enabled.
Definition read_projects : Permission := mkPerm 4 "read_projects" "Read" "" "read" "all" 5 true enabled.
Definition d0 : adb :=
  mkAdb [alice] [admins; members] [read_projects] [mkResource 5 "project" enabled] [] [(2, 4); (3, 4)] [(1, 3)]
    [mkMember OfTeam 1 6 3 enabled; mkMember OfProject 1 7 3 enabled] [mkTeam 6 "team" "" true enabled]
    [mkProjectRow 7 "project" "" (Some 6) false enabled] [] [] (mkLdb [] [] 1) 10.
Definition at_project : CheckPermissionParams := mkParams 1 "read" "all" "project" None (Some 7) None None.

Lemma sample_ok : access_ok d0.
Proof.
  assert (Hdec : forall P `{Decision P}, bool_decide P = true -> P) by (intros P ?; apply bool_decide_eq_true).
  constructor; [..|constructor]; unfold ids_ok, grants_ok; split_and?; apply (Hdec _ _); vm_compute; reflexivity.
Qed.

Definition without_alice : adb := (DeleteUser 1 d0).2.
Definition steps_end : adb := (DeleteRole 3 without_alice).2.
Lemma d0_steps : rtc (access_step true) d0 steps_end.
Proof.
  exact (rtc_l _ d0 without_alice steps_end (step_delete_user true 1 d0)
           (rtc_once _ _ (step_delete_role true 3 without_alice))).
Qed.

Lemma access_stays_ok_witness : access_ok steps_end.
Proof. exact (proj1 (access_stays_ok true d0 steps_end sample_ok d0_steps)). Defined.

Lemma system_roles_fixed_witness : role_fixed d0 steps_end admins.
Proof. apply (system_roles_fixed true d0 steps_end admins sample_ok d0_steps); [by left|reflexivity]. Defined.

(** Alice loses what project 7 gave her. *)
Lemma DeleteUser_spec_witness :
  has_access 0 d0 at_project 4 /\ ~ has_access 0 (DeleteUser 1 d0).2 at_project 4.
Proof.
  split.
  - apply (q_has_permission_spec 0). vm_compute. reflexivity.
  - destruct (DeleteUser_spec 1 d0 (inl tt) (DeleteUser 1 d0).2) as (_ & Hu & _); [vm_compute; reflexivity|].
    rewrite (Hu 0 at_project 4 eq_refl). intros (m & _ & _ & _ & [=] & _).
Defined.

Lemma AssignRole_spec_witness :
  has_access 0 (AssignRole 1 2 d0).2 (mkParams 1 "read" "all" "project" None None None None) 4.
Proof.
  destruct (AssignRole_spec 1 2 d0 (inl tt) (AssignRole 1 2 d0).2) as [_ Ha]; [vm_compute; reflexivity|].
  apply Ha. right. split; [reflexivity|]. apply list_elem_of_here.
Defined.

Lemma AssignScope_spec_witness :
  (exists e, (AssignScope true OfProject 1 7 2 d0) = (inr e, d0)) /\
  has_access 0 (AssignScope false OfProject 1 7 2 d0).2 at_project 4.
Proof.
  split.
  - destruct (AssignScope true OfProject 1 7 2 d0) as [[[]|e] d'] eqn:E.
    + destruct (AssignScope_spec true OfProject 1 7 2 d0 (inl tt) d' E) as [[Hg _] _]. by destruct (Hg eq_refl).
    + destruct (AssignScope_spec true OfProject 1 7 2 d0 (inr e) d' E) as [_ ->]. by exists e.
  - destruct (AssignScope_spec false OfProject 1 7 2 d0 (inl tt) (AssignScope false OfProject 1 7 2 d0).2) as [_ Ha];
      [vm_compute; reflexivity|].
    apply Ha. right. split_and!; try reflexivity. apply list_elem_of_here.
Defined.

Lemma DeleteRole_spec_witness : ~ has_access 0 (DeleteRole 3 d0).2 at_project 4.
Proof.
  destruct (DeleteRole_spec 3 d0 (inl tt) (DeleteRole 3 d0).2) as [_ Ha]; [vm_compute; reflexivity|].
  rewrite (Ha 0 at_project 4). intros [(up & Hin & _)|(role & Hne & Hg & Hr)]; [by apply not_elem_of_nil in Hin|].
  destruct Hr as [Hin|(m & [Hm _] & _ & _ & <-)].
  - apply list_elem_of_singleton in Hin. injection Hin as ->. done.
  - apply elem_of_cons in Hm as [->|Hm%list_elem_of_singleton]; [done|by subst].
Defined.

Definition bob : CreateUserReq := mkCreateUser " bob " "b@x" "password1" "Bob" "" "".
Lemma CreateUser_spec_witness :
  exists row, a_users (CreateUser (Ok "salt") bob d0).2 = [alice; row] /\ us_Username row = "bob" /\
    VerifyPassword "password1" (us_Password row) = true.
Proof.
  destruct (CreateUser (Ok "salt") bob d0) as [r d'] eqn:E.
  destruct (CreateUser_spec "salt" bob d0 r d' E) as [Hiff Hr]. destruct r as [resp|e].
  - destruct Hr as (row & Hu & _ & _ & Hn & _ & _ & _ & Hv & _). exists row. by split_and!.
  - exfalso. destruct Hiff as [_ Hiff]. destruct Hiff as [resp [=]].
    split; [done|]. split; [done|]. split; [vm_compute; split; congruence|].
    intros u ->%list_elem_of_singleton. vm_compute. split; congruence.
Defined.

#[local] Existing Instance PermissionSample.memory_db.
#[local] Existing Instance PermissionSample.memory_db_laws.
Lemma team_answers_agree_witness : IsUserInTeam 1 6 d0 = inl true.
Proof.
  apply (@team_answers_agree perm_tables PermissionSample.memory_db PermissionSample.memory_db_laws (access_tables d0) d0 1 6 true eq_refl).
  vm_compute. reflexivity.
Defined.
End AccessSample.
