(* ===== verification/LimiterAdmin.v ===== *)
(** * Administration of the token buckets ([module/ratelimiter/])

    The service lists the buckets with their holders, deletes a bucket, and collects the
    tokens that ended or unknown tasks still hold; the consumer runs the collection when it
    starts.  The database is only read: [first] is the answer of the query for the state of
    a task.  The order in which Go visits a map is an argument. *)

From S2P Require Import Prelude GoStrings Consts Redis Gateway Tables RateLimiter.
#[local] Open Scope Z_scope.

Definition tokenBucketKeyPrefix : string := "token_bucket:".

(** [TrimPrefix]. *)
Definition trim_prefix (s p : string) : string :=
  if has_prefix s p then str_drop (String.length p) s else s.

Record RateLimiterHolder := mkHolder { lh_TaskID : string; lh_TaskState : string; lh_IsTerminal : bool }.
Record RateLimiterItem := mkLimiterItem {
  rl_Bucket : string; rl_Key : string; rl_Capacity : Z; rl_Held : Z; rl_Holders : list RateLimiterHolder
}.

Definition knownBuckets : gmap string Z :=
  {[TokenBucketKey RestartPedestalConfig := DefaultMaxTokens RestartPedestalConfig;
    TokenBucketKey BuildContainerConfig := DefaultMaxTokens BuildContainerConfig;
    TokenBucketKey AlgoExecutionConfig := DefaultMaxTokens AlgoExecutionConfig]}.

Definition isTerminalState (state : TaskState) : bool :=
  bool_decide (state = TaskCompleted) || bool_decide (state = TaskError) || bool_decide (state = TaskCancelled).

Definition resolveBucketKey (name : string) : string :=
  if String.prefix tokenBucketKeyPrefix name then name else tokenBucketKeyPrefix +:+ name.

Section Service.
Context {R : Type} `{RedisServer R}.
Context (first : string -> TaskState + goerr).
Context (order : gmap string Z -> list (string * Z)).

(** The state when there is a row, deleted or not; nothing when there is none; an error. *)
Definition lookupTaskStateWith (taskID : string) : option TaskState + goerr :=
  match first taskID with
  | inl state => inl (Some state)
  | inr (Is RecordNotFound) => inl None
  | inr e => inr e
  end.

(** [List]: a failed lookup is logged, and found is false. *)
Definition holder_item (taskID : string) : RateLimiterHolder :=
  match lookupTaskStateWith taskID with
  | inl (Some state) => mkHolder taskID (GetTaskStateName (TaskState_code state)) (isTerminalState state)
  | inl None | inr _ => mkHolder taskID "Unknown" true
  end.
Fixpoint list_items (buckets : list (string * Z)) : M R (list RateLimiterItem) :=
  match buckets with
  | [] => m_ret []
  | (key, capacity) :: rest =>
      let! holders := m_wrap ("smembers " +:+ key +:+ ": ") (SetMembers key) in
      let! items := list_items rest in
      m_ret (mkLimiterItem (trim_prefix key tokenBucketKeyPrefix) key capacity (Z.of_nat (length holders))
               (map holder_item holders) :: items)
  end.
Definition List_ : M R (list RateLimiterItem) :=
  let! extra := m_wrap "scan token buckets: " (ScanKeys tokenBucketKeyPrefix) in
  let bucketCaps := fold_left (fun caps key => match caps !! key with Some _ => caps | None => <[key := 0]> caps end)
                      extra knownBuckets in
  list_items (order bucketCaps).

Definition Reset_ (bucket : string) : R -> R * option goerr := fun r =>
  let key := resolveBucketKey bucket in
  match knownBuckets !! key with
  | None => (r, Some (tagged BadRequest ("unknown bucket " +:+ go_quote bucket)))
  | Some _ =>
      let '(r1, n) := DeleteKey key r in
      (r1, match n with
           | Err e => Some (New ("del " +:+ key +:+ ": " +:+ e))
           | Ok n => if n =? 0 then Some (tagged NotFound ("bucket " +:+ go_quote bucket +:+ " not present in redis"))
                     else None
           end)
  end.

(** Whether the collection takes the token of a task; a failed lookup is logged and skipped. *)
Definition collectable (taskID : string) : bool :=
  match lookupTaskStateWith taskID with
  | inl (Some state) => isTerminalState state
  | inl None => true
  | inr _ => false
  end.
(** [gcWith]: the tokens released, the buckets touched, and the error that stopped it. *)
Fixpoint gc_buckets (keys : list string) (released touched : Z) (r : R) : R * (Z * Z * option string) :=
  match keys with
  | [] => (r, (released, touched, None))
  | key :: rest =>
      let '(r1, holders) := SetMembers key r in
      match holders with
      | Err e => (r1, (released, touched, Some ("smembers " +:+ key +:+ ": " +:+ e)))
      | Ok holders =>
          let toRelease := List.filter collectable holders in
          if (length toRelease =? 0)%nat then gc_buckets rest released touched r1
          else
            let '(r2, n) := SetRemove key toRelease r1 in
            match n with
            | Err e => (r2, (released, touched, Some ("srem " +:+ key +:+ ": " +:+ e)))
            | Ok n => if 0 <? n then gc_buckets rest (released + n) (touched + 1) r2
                      else gc_buckets rest released touched r2
            end
      end
  end.
Definition gcWith (buckets : gmap string Z) (r : R) : R * (Z * Z * option string) :=
  gc_buckets (order buckets).*1 0 0 r.
Definition GC : R -> R * (Z * Z * option string) := gcWith knownBuckets.
End Service.

(** ** Facts *)

Lemma sum_perm {A} (h : A -> Z) l l' :
  l ≡ₚ l' -> foldr (fun x n => h x + n) 0 l = foldr (fun x n => h x + n) 0 l'.
Proof. induction 1; simpl; lia. Qed.

(** A token is leaked when its task ended or has no row. *)
Definition leaked (first : string -> TaskState + goerr) (id : string) : bool :=
  match first id with
  | inl state => bool_decide (state ∈ [TaskCompleted; TaskError; TaskCancelled])
  | inr (Is RecordNotFound) => true
  | inr _ => false
  end.

Lemma isTerminalState_iff state :
  isTerminalState state = bool_decide (state ∈ [TaskCompleted; TaskError; TaskCancelled]).
Proof. by destruct state. Qed.

Lemma collectable_leaked first id : collectable first id = leaked first id.
Proof.
  unfold collectable, lookupTaskStateWith, leaked. destruct (first id) as [st|[t|[]|? ? ?]]; try done.
  apply isTerminalState_iff.
Qed.

Section Safety.
Context {R : Type} `{RedisLaws R} (first : string -> TaskState + goerr).

Lemma SetMembers_effect key (r r' : R) o :
  SetMembers key r = (r', o) ->
  keys r' = keys r /\ forall l, o = Ok l -> l ≡ₚ elements (kset key (keys r)).
Proof.
  unfold SetMembers, key_error, m_wrap. destruct (exec (SMEMBERS key) r) as [r1 o1] eqn:Ex. intros [= <- <-].
  split; [by eapply exec_reads; [apply reads_SMEMBERS|]|].
  intros l Hl. destruct o1 as [l1|e]; [|done]. simpl in Hl. injection Hl as <-.
  apply exec_ok in Ex. simpl in Ex. injection Ex as _ <-. apply set_order_perm.
Qed.

(** A removal takes out some of what was asked for, of this set, and all of it when it answers. *)
Lemma SetRemove_effect key ms (r r' : R) o :
  SetRemove key ms r = (r', o) ->
  (keys r' = keys r \/ keys r' = upd_set key (kset key (keys r) ∖ list_to_set ms) (keys r)).
Proof.
  unfold SetRemove, key_error, m_wrap. destruct (exec (SREM key ms) r) as [r1 o1] eqn:Ex. intros [= <- <-].
  by apply exec_keys in Ex.
Qed.

Definition safe_step (r r' : R) : Prop :=
  forall key id, (id ∈ holders key r' -> id ∈ holders key r) /\
    (id ∈ holders key r -> leaked first id = false -> id ∈ holders key r').

Lemma SetRemove_safe key l (r r1 : R) n :
  l ≡ₚ elements (kset key (keys r)) ->
  SetRemove key (List.filter (collectable first) l) r = (r1, n) -> safe_step r r1.
Proof.
  intros Hl E k id. unfold holders. destruct (SetRemove_effect _ _ _ _ _ E) as [-> | ->]; [done|].
  rewrite kset_upd. case_decide; [subst k|done]. split; [by intros [Hin _]%elem_of_difference|].
  intros Hin Hlk. apply elem_of_difference. split; [done|]. intros Hx%elem_of_list_to_set.
  apply list_elem_of_In, filter_In in Hx as [_ Hx]. rewrite collectable_leaked in Hx. congruence.
Qed.

Lemma gc_buckets_safe ks rel tch (r r' : R) out :
  gc_buckets first ks rel tch r = (r', out) -> safe_step r r'.
Proof.
  revert rel tch r. induction ks as [|key ks IH]; intros rel tch r; simpl; [by intros [= <- _]|].
  destruct (SetMembers key r) as [r1 o] eqn:Em. destruct (SetMembers_effect _ _ _ _ Em) as [Hk Ho].
  assert (Hkeep : forall r2, safe_step r1 r2 -> safe_step r r2).
  { intros r2 Hs k id. specialize (Hs k id). unfold holders in *. by rewrite Hk in Hs. }
  destruct o as [l|e]; [|intros [= <- _]; by apply Hkeep].
  specialize (Ho l eq_refl). rewrite <- Hk in Ho.
  destruct (length _ =? 0)%nat; [intros E; apply Hkeep; by eapply IH|].
  destruct (SetRemove key _ r1) as [r2 n] eqn:Er. pose proof (SetRemove_safe _ _ _ _ _ Ho Er) as Hs.
  assert (Hthen : forall r3, safe_step r2 r3 -> safe_step r r3).
  { intros r3 H3. apply Hkeep. intros k id. destruct (Hs k id), (H3 k id). split; auto. }
  destruct n as [n|e]; [|intros [= <- _]; by apply Hthen].
  destruct (0 <? n); intros E; apply Hthen; by eapply IH.
Qed.
(** C23. The collection never takes a token from a task that is still alive.  Whatever the
    server does - commands that fail, with or without effect - and however far the
    collection gets, no bucket gains a holder, and every holder whose task is in a state
    that is not terminal, or whose state could not be read, keeps its token. *)
Theorem GC_spares_the_living order (r r' : R) out key id :
  GC first order r = (r', out) -> id ∈ holders key r ->
  (exists state, first id = inl state /\ state ∉ [TaskCompleted; TaskError; TaskCancelled]) \/
  (exists e, first id = inr e /\ e <> Is RecordNotFound) ->
  id ∈ holders key r' /\ forall k, holders k r' ⊆ holders k r.
Proof.
  intros E Hin Hlive. unfold GC, gcWith in E. apply gc_buckets_safe in E as Hs. split; [|intros k x; apply Hs].
  apply Hs; [done|]. unfold leaked. destruct Hlive as [(st & -> & Hst) | (e & -> & He)]; [by apply bool_decide_eq_false|].
  by destruct e as [|[]|].
Qed.
End Safety.

Section Theorems.
Context {R : Type} `{RedisLaws R} `{!RedisReliable R}.
Context (first : string -> TaskState + goerr).
Context (order : gmap string Z -> list (string * Z)) (order_perm : forall m, order m ≡ₚ map_to_list m).

(** What remains of a bucket, and what goes. *)
Definition kept (X : gset string) : gset string := filter (fun id => leaked first id = false) X.
Definition gone (X : gset string) : gset string := filter (fun id => leaked first id = true) X.
Definition collect_key (key : string) (ks : keyspace) : keyspace :=
  if decide (gone (kset key ks) = ∅) then ks else upd_set key (kset key ks ∖ gone (kset key ks)) ks.
Definition collect (buckets : list string) (ks : keyspace) : keyspace :=
  fold_left (fun ks key => collect_key key ks) buckets ks.

Lemma gone_filter key (ks : keyspace) l :
  l ≡ₚ elements (kset key ks) ->
  (list_to_set (List.filter (collectable first) l) : gset string) = gone (kset key ks).
Proof.
  intros Hl. apply set_eq. intros x. unfold gone. rewrite elem_of_list_to_set, elem_of_filter.
  rewrite list_elem_of_In, filter_In, <- list_elem_of_In, Hl, elem_of_elements, collectable_leaked. tauto.
Qed.

Lemma minus_gone X : X ∖ gone X = kept X.
Proof.
  apply set_eq. intros x. unfold kept, gone. rewrite elem_of_difference, !elem_of_filter.
  destruct (leaked first x); split; intros [? ?]; [tauto|done|done|]. split; [done|]. by intros [? ?].
Qed.

Lemma meet_gone X : X ∩ gone X = gone X.
Proof. apply set_eq. intros x. unfold gone. rewrite elem_of_intersection, elem_of_filter. tauto. Qed.
Lemma gone_size X : gone X <> ∅ -> 0 < Z.of_nat (size (gone X)).
Proof. intros Hne. assert (size (gone X) <> 0%nat) by (intros Hz; by apply size_empty_iff, leibniz_equiv in Hz). lia. Qed.
Lemma kept_kept X : kept (kept X) = kept X.
Proof. apply set_eq. intros x. unfold kept. rewrite !elem_of_filter. tauto. Qed.

Definition leaks (key : string) (ks : keyspace) : Z := Z.of_nat (size (gone (kset key ks))).

(** One bucket of the collection. *)
Lemma gc_bucket_run key rest rel tch (r : R) :
  exists r', keys r' = collect_key key (keys r) /\
    gc_buckets first (key :: rest) rel tch r =
    let g := leaks key (keys r) in
    gc_buckets first rest (rel + g) (tch + if g =? 0 then 0 else 1) r'.
Proof.
  unfold leaks. simpl. destruct (SetMembers key r) as [r1 o] eqn:Em.
  destruct (SetMembers_effect _ _ _ _ Em) as [Hk Ho].
  assert (Hok : exists l, o = Ok l).
  { unfold SetMembers, key_error, m_wrap in Em. pose proof (exec_reliable _ (SMEMBERS key) r) as Hx.
    destruct (exec (SMEMBERS key) r) as [r2 o2]. simpl in Hx. injection Hx as _ ->. injection Em as _ <-. by eexists. }
  destruct Hok as [l ->]. specialize (Ho l eq_refl). pose proof (gone_filter _ _ _ Ho) as Hg. unfold collect_key.
  destruct (Nat.eqb_spec (length (List.filter (collectable first) l)) 0) as [Hz|Hz].
  - apply nil_length_inv in Hz. rewrite Hz in Hg. rewrite <- Hg. change (list_to_set []) with (∅ : gset string).
    exists r1. rewrite decide_True, size_empty by done. split; [done|]. by rewrite !Z.add_0_r.
  - assert (Hne : gone (kset key (keys r)) <> ∅).
    { rewrite <- Hg. destruct (List.filter _ l) as [|x l']; [done|]. simpl. intros E.
      apply (not_elem_of_empty (C := gset string) x). rewrite <- E. apply elem_of_union. left. by apply elem_of_singleton. }
    rewrite decide_False by done.
    unfold SetRemove, key_error, m_wrap. pose proof (exec_reliable _ (SREM key (List.filter (collectable first) l)) r1) as Hx.
    destruct (exec (SREM key _) r1) as [r2 o2]. simpl in Hx. rewrite Hk, Hg in Hx. injection Hx as Hk2 ->. simpl.
    rewrite meet_gone. pose proof (gone_size _ Hne) as Hpos.
    exists r2. split; [done|].
    destruct (Z.ltb_spec 0 (Z.of_nat (size (gone (kset key (keys r)))))); [|lia].
    destruct (Z.eqb_spec (Z.of_nat (size (gone (kset key (keys r))))) 0); [lia|done].
Qed.

Lemma collect_key_lookup key k ks :
  kset k (collect_key key ks) = if decide (k = key) then kept (kset k ks) else kset k ks.
Proof.
  unfold collect_key. case_decide as Hg.
  - case_decide; [subst k|done]. by rewrite <- minus_gone, Hg, difference_empty_L.
  - rewrite kset_upd. case_decide; [subst k|done]. apply minus_gone.
Qed.

Lemma collect_lookup bs k ks :
  kset k (collect bs ks) = if decide (k ∈ bs) then kept (kset k ks) else kset k ks.
Proof.
  unfold collect. revert ks. induction bs as [|b bs IH]; intros ks; cbn [fold_left].
  - rewrite decide_False; [done|apply not_elem_of_nil].
  - rewrite IH, collect_key_lookup. destruct (decide (k = b)) as [->|Hne].
    + rewrite (decide_True (P := b ∈ b :: bs)) by by left. case_decide; [apply kept_kept|done].
    + destruct (decide (k ∈ bs)) as [Hin|Hout].
      * by rewrite (decide_True (P := k ∈ b :: bs)) by by right.
      * by rewrite (decide_False (P := k ∈ b :: bs)) by (intros [|]%elem_of_cons; done).
Qed.

(** The totals over distinct buckets do not see what was collected before. *)
Lemma gc_buckets_run bs rel tch (r : R) :
  NoDup bs ->
  exists r', keys r' = collect bs (keys r) /\
    gc_buckets first bs rel tch r =
      (r', (rel + foldr (fun key n => leaks key (keys r) + n) 0 bs,
            tch + foldr (fun key n => (if leaks key (keys r) =? 0 then 0 else 1) + n) 0 bs, None)).
Proof.
  revert rel tch r. induction bs as [|b bs IH]; intros rel tch r Hnd.
  { exists r. split; [done|]. simpl. by rewrite !Z.add_0_r. }
  apply NoDup_cons in Hnd as [Hb Hnd]. destruct (gc_bucket_run b bs rel tch r) as (r1 & Hk & ->).
  cbv zeta. destruct (IH (rel + leaks b (keys r)) (tch + if leaks b (keys r) =? 0 then 0 else 1) r1 Hnd)
    as (r2 & Hk2 & E). exists r2. split; [by rewrite Hk2, Hk|]. rewrite E. clear E.
  assert (Hsame : forall key, key ∈ bs -> leaks key (keys r1) = leaks key (keys r)).
  { intros key Hin. unfold leaks. rewrite Hk, collect_key_lookup, decide_False; [done|]. by intros ->. }
  assert (Hfold : forall (h : Z -> Z), foldr (fun key n => h (leaks key (keys r1)) + n) 0 bs =
    foldr (fun key n => h (leaks key (keys r)) + n) 0 bs).
  { intros h. clear -Hsame. induction bs as [|c bs IHb]; [done|]. simpl.
    rewrite Hsame, IHb by set_solver. done. }
  simpl. rewrite (Hfold (fun z => z)), (Hfold (fun z => if z =? 0 then 0 else 1)).
  by rewrite <- !Z.add_assoc.
Qed.

(** What the collection does when the server answers.  In each of the three known
    buckets exactly the tokens of tasks that ended or have no row are gone, every other
    key keeps its set, and the two totals are the number of tokens released and of
    buckets that had any; the order in which the map of buckets is visited is immaterial. *)
Theorem GC_spec (r : R) :
  exists r', (forall key, holders key r' =
      if decide (key ∈ dom knownBuckets) then kept (holders key r) else holders key r) /\
    GC first order r =
      (r', (foldr (fun key n => leaks key (keys r) + n) 0 (order knownBuckets).*1,
            foldr (fun key n => (if leaks key (keys r) =? 0 then 0 else 1) + n) 0 (order knownBuckets).*1, None)) /\
    foldr (fun key n => leaks key (keys r) + n) 0 (order knownBuckets).*1 =
    leaks (bucketKey (NewRestartPedestalRateLimiter (fun _ => 0))) (keys r) +
    leaks (bucketKey (NewBuildContainerRateLimiter (fun _ => 0))) (keys r) +
    leaks (bucketKey (NewAlgoExecutionRateLimiter (fun _ => 0))) (keys r).
Proof.
  assert (Hnd : NoDup (order knownBuckets).*1).
  { rewrite (order_perm knownBuckets). apply NoDup_fst_map_to_list. }
  destruct (gc_buckets_run _ 0 0 r Hnd) as (r' & Hk & E). exists r'. split_and!.
  - intros key. unfold holders. rewrite Hk, collect_lookup.
    assert (Hiff : key ∈ (order knownBuckets).*1 <-> key ∈ dom knownBuckets).
    { rewrite (order_perm knownBuckets), elem_of_dom, list_elem_of_fmap. split.
      - intros ([k c] & -> & Hin%elem_of_map_to_list). by exists c.
      - intros [c Hc]. exists (key, c). by rewrite elem_of_map_to_list. }
    destruct (decide (key ∈ dom knownBuckets)), (decide (key ∈ (order knownBuckets).*1)); tauto.
  - exact E.
  - assert (Hp : (order knownBuckets).*1 ≡ₚ
      [TokenBucketKey RestartPedestalConfig; TokenBucketKey BuildContainerConfig; TokenBucketKey AlgoExecutionConfig]).
    { rewrite (order_perm knownBuckets). unfold knownBuckets.
      rewrite !map_to_list_insert by (by vm_compute). by rewrite map_to_list_singleton. }
    rewrite (sum_perm (fun key => leaks key (keys r)) _ _ Hp). simpl. lia.
Qed.

(** Collecting gives the capacity back: a task that waits for a token gets it when,
    counting only the tasks that are alive, the bucket is below its limit, however many
    tokens had been leaked. *)
Theorem GC_unblocks lim (r : R) task :
  bucketKey lim ∈ dom knownBuckets ->
  Z.of_nat (size (kept (holders (bucketKey lim) r))) < maxTokens lim ->
  exists r', AcquireToken lim task (GC first order r).1 = (r', Ok true) /\ task ∈ holders (bucketKey lim) r'.
Proof.
  intros Hb Hlt. destruct (GC_spec r) as (r1 & Hh & -> & _). simpl.
  specialize (Hh (bucketKey lim)). rewrite decide_True in Hh by done.
  destruct (AcquireToken lim task r1) as [r2 o] eqn:E.
  assert (Ho : exists b, o = Ok b).
  { revert E. unfold AcquireToken, store_acquire, RunScript, m_bind, m_wrap.
    pose proof (exec_reliable _ (EVAL (acquire_script (bucketKey lim) (maxTokens lim) task)) r1) as Hx.
    destruct (exec (EVAL _) r1) as [r3 o3]. simpl in Hx. unfold m_wrap in Hx. rewrite acquire_script_spec in Hx.
    destruct (_ <? _); injection Hx as _ ->; simpl; intros [= _ <-]; eauto. }
  destruct Ho as [b ->]. destruct (acquire_reply _ _ _ _ _ E) as [-> Hr]. rewrite Hh in *.
  destruct (Z.ltb_spec (Z.of_nat (size (kept (holders (bucketKey lim) r)))) (maxTokens lim)); [|lia].
  exists r2. split; [done|]. rewrite Hr. apply elem_of_union. left. by apply elem_of_singleton.
Qed.

(** ** Listing and resetting *)

(** What a holder is shown as. *)
Lemma holder_item_terminal id state : first id = inl state -> lh_IsTerminal (holder_item first id) = leaked first id.
Proof. unfold holder_item, lookupTaskStateWith, leaked. intros ->. apply isTerminalState_iff. Qed.
Lemma holder_item_absent id : first id = inr (Is RecordNotFound) -> lh_IsTerminal (holder_item first id) = leaked first id.
Proof. unfold holder_item, lookupTaskStateWith, leaked. by intros ->. Qed.

Lemma SetMembers_run key (r : R) :
  exists r' l, SetMembers key r = (r', Ok l) /\ keys r' = keys r /\ l ≡ₚ elements (holders key r).
Proof.
  destruct (SetMembers key r) as [r1 o] eqn:Em. destruct (SetMembers_effect _ _ _ _ Em) as [Hk Ho].
  assert (Hok : exists l, o = Ok l).
  { unfold SetMembers, key_error, m_wrap in Em. pose proof (exec_reliable _ (SMEMBERS key) r) as Hx.
    destruct (exec (SMEMBERS key) r) as [r2 o2]. simpl in Hx. injection Hx as _ ->. injection Em as _ <-. by eexists. }
  destruct Hok as [l ->]. exists r1, l. split; [done|]. split; [done|]. by apply Ho.
Qed.

Definition shows (r : R) (bucket : string * Z) (item : RateLimiterItem) : Prop :=
  rl_Key item = bucket.1 /\ rl_Capacity item = bucket.2 /\
  rl_Held item = Z.of_nat (size (holders bucket.1 r)) /\
  rl_Holders item ≡ₚ map (holder_item first) (elements (holders bucket.1 r)).

Lemma list_items_run bs (r : R) :
  exists r' items, list_items first bs r = (r', Ok items) /\ keys r' = keys r /\ Forall2 (shows r) bs items.
Proof.
  revert r. induction bs as [|[key cap] bs IH]; intros r; [by exists r, []|].
  destruct (SetMembers_run key r) as (r1 & l & E1 & Hk1 & Hl). destruct (IH r1) as (r2 & items & E2 & Hk2 & Hi).
  eexists r2, (_ :: items). simpl. unfold m_bind, m_wrap. rewrite E1. simpl. unfold m_bind in E2 |- *. rewrite E2.
  split; [reflexivity|]. split; [congruence|]. constructor.
  - unfold shows. cbn [rl_Key rl_Capacity rl_Held rl_Holders fst snd]. split_and!; [done|done| |by rewrite Hl].
    by rewrite Hl.
  - eapply Forall2_impl; [exact Hi|]. intros b i. unfold shows, holders. by rewrite Hk1.
Qed.

(** The buckets of a list: the known ones and any other key of the server with the prefix. *)
Lemma listed_caps extra k :
  fold_left (fun caps key => match caps !! key with Some _ => caps | None => <[key := 0]> caps end) extra knownBuckets !! k =
  match knownBuckets !! k with
  | Some c => Some c
  | None => if decide (k ∈ extra) then Some 0 else None
  end.
Proof.
  assert (Hgen : forall caps : gmap string Z,
    fold_left (fun caps key => match caps !! key with Some _ => caps | None => <[key := 0]> caps end) extra caps !! k =
    match caps !! k with Some c => Some c | None => if decide (k ∈ extra) then Some 0 else None end); [|apply Hgen].
  induction extra as [|x extra IH]; intros caps; cbn [fold_left].
  - rewrite decide_False by apply not_elem_of_nil. by destruct (caps !! k).
  - rewrite IH. destruct (decide (k = x)) as [->|Hne].
    + rewrite (decide_True (P := x ∈ x :: extra)) by by left.
      destruct (caps !! x) as [c|] eqn:E; [by rewrite E|by rewrite lookup_insert_eq].
    + replace (match caps !! x with Some _ => caps | None => <[x := 0]> caps end !! k) with (caps !! k)
        by (destruct (caps !! x); [done|by rewrite lookup_insert_ne]).
      destruct (caps !! k); [done|]. destruct (decide (k ∈ extra)) as [Hin|Hout].
      * by rewrite (decide_True (P := k ∈ x :: extra)) by by right.
      * by rewrite (decide_False (P := k ∈ x :: extra)) by (intros [|]%elem_of_cons; done).
Qed.

(** What the list of buckets says.  There is exactly one item for each known bucket
    and for each other key of the server with the prefix, with its holders as they are;
    nothing is changed.  The capacity is the constant of the code, zero for an unknown key:
    the limit that is configured, which is the one tokens are given by, is not shown. *)
Theorem List_spec (r : R) :
  exists r' items caps, List_ first order r = (r', Ok items) /\ keys r' = keys r /\
    Forall2 (shows r) (order caps) items /\
    (forall k c, caps !! k = Some c <->
      knownBuckets !! k = Some c \/
      (knownBuckets !! k = None /\ c = 0 /\ k ∈ all_keys (keys r) /\ String.prefix tokenBucketKeyPrefix k = true)).
Proof.
  unfold List_, ScanKeys, m_bind, m_wrap.
  pose proof (exec_reliable _ (SCAN tokenBucketKeyPrefix) r) as Hx.
  destruct (exec (SCAN tokenBucketKeyPrefix) r) as [r1 o]. simpl in Hx. injection Hx as Hk ->. simpl.
  set (extra := List.filter _ _). set (caps := fold_left _ extra knownBuckets).
  destruct (list_items_run (order caps) r1) as (r2 & items & E & Hk2 & Hi).
  exists r2, items, caps. split; [done|]. split; [congruence|]. split.
  { eapply Forall2_impl; [exact Hi|]. intros b i. unfold shows, holders. by rewrite Hk. }
  intros k c. unfold caps. rewrite listed_caps.
  assert (Hex : k ∈ extra <-> k ∈ all_keys (keys r) /\ String.prefix tokenBucketKeyPrefix k = true).
  { unfold extra. by rewrite list_elem_of_In, filter_In, <- list_elem_of_In, elem_of_elements. }
  destruct (knownBuckets !! k) as [c0|] eqn:Ek.
  { split; [by left|]. by intros [?|[? _]]. }
  case_decide as Hd; rewrite Hex in Hd.
  - split; [intros [= <-]; right; by destruct Hd|]. by intros [?|(_ & -> & _)].
  - split; [done|]. intros [?|(_ & _ & Hd')]; [done|]. by destruct Hd.
Qed.

(** Resetting a bucket, named with or without the prefix.  A name that is not one of
    the three is a 400 and a bucket that is not on the server a 404, both without effect;
    otherwise every token of that bucket is free and no other key has changed. *)
Theorem Reset_spec bucket (r : R) :
  let key := resolveBucketKey bucket in
  let '(r', err) := Reset_ bucket r in
  if decide (key ∈ dom knownBuckets) then
    if decide (key ∈ all_keys (keys r)) then
      err = None /\ holders key r' = ∅ /\ (forall k, k <> key -> holders k r' = holders k r)
    else (exists msg, HandleServiceError err = Some (404, msg)) /\ keys r' = del_key key (keys r)
  else (exists msg, HandleServiceError err = Some (400, msg)) /\ keys r' = keys r.
Proof.
  intros key. unfold Reset_. fold key. destruct (decide (key ∈ dom knownBuckets)) as [Hin|Hout].
  - apply elem_of_dom in Hin as [c ->].
    unfold DeleteKey, m_wrap. pose proof (exec_reliable _ (DEL key) r) as Hx.
    destruct (exec (DEL key) r) as [r1 o]. simpl in Hx. injection Hx as Hk ->. simpl.
    destruct (decide (key ∈ all_keys (keys r))); simpl.
    + split; [done|]. unfold holders. rewrite Hk. unfold kset, set_expired. simpl. split; [by rewrite !lookup_delete_eq|].
      intros k Hne. by rewrite !lookup_delete_ne.
    + split; [by eexists|done].
  - apply not_elem_of_dom in Hout as ->. split; [by eexists|done].
Qed.
End Theorems.

(** A holder whose state could not be read is shown as ended, although the collection
    would leave it its token. *)
Theorem unread_state_shown_as_ended first id e :
  first id = inr e -> e <> Is RecordNotFound ->
  lh_IsTerminal (holder_item first id) = true /\ collectable first id = false.
Proof. unfold holder_item, collectable, lookupTaskStateWith. intros -> He. by destruct e as [|[]|]. Qed.

Module LimiterAdminSample.
Definition order : gmap string Z -> list (string * Z) := map_to_list.
Lemma map_order_ok m : order m ≡ₚ map_to_list m. Proof. done. Qed.
Definition algo : TokenBucketRateLimiter := NewAlgoExecutionRateLimiter (fun _ => 2).
Definition first (id : string) : TaskState + goerr :=
  if String.eqb id "run" then inl TaskRunning else if String.eqb id "end" then inl TaskError
  else if String.eqb id "odd" then inr (New "timeout") else inr (Is RecordNotFound).
Definition r0 : keyspace := upd_set (bucketKey algo) {["run"; "end"; "lost"]} empty_keyspace.

Lemma GC_spares_the_living_witness : "run" ∈ holders (bucketKey algo) (GC first order r0).1.
Proof.
  destruct (GC first order r0) as [r1 out] eqn:E.
  refine (proj1 (GC_spares_the_living first order r0 r1 out (bucketKey algo) "run" E _ _)).
  - by vm_compute.
  - left. exists TaskRunning. split; [reflexivity|]. by apply (bool_decide_unpack (TaskRunning ∉ [TaskCompleted; TaskError; TaskCancelled])).
Defined.

Example r0_collected : (GC first order r0).2 = (2, 1, None).
Proof. by vm_compute. Qed.

Lemma GC_spec_witness :
  exists r', forall key, holders key r' = if decide (key ∈ dom knownBuckets) then kept first (holders key r0) else holders key r0.
Proof. destruct (GC_spec first order map_order_ok r0) as (r' & Hk & _). exists r'. exact Hk. Defined.

Lemma GC_unblocks_witness : exists r', AcquireToken algo "next" (GC first order r0).1 = (r', Ok true).
Proof.
  destruct (GC_unblocks first order map_order_ok algo r0 "next") as (r' & E & _).
  - by vm_compute.
  - by vm_compute.
  - by exists r'.
Defined.

Lemma List_spec_witness : exists r' items, List_ first order r0 = (r', Ok items) /\ keys r' = keys r0.
Proof. destruct (List_spec first order r0) as (r' & items & _ & E & Hk & _). exists r', items. exact (conj E Hk). Defined.

Lemma unread_state_shown_as_ended_witness : lh_IsTerminal (holder_item first "odd") = true.
Proof. exact (proj1 (unread_state_shown_as_ended first "odd" (New "timeout") eq_refl ltac:(discriminate))). Defined.
End LimiterAdminSample.
