(* ===== verification/TaskLogs.v ===== *)
(** * Logs of tasks ([service/logreceiver/], [infra/loki/client.go],
      [module/task/log_service.go])

    A collector posts log records in the OTLP form; the receiver turns those of tasks into
    entries and publishes each on the channel of its task.  The collector also feeds Loki,
    which answers the history of a task.  A client of the web socket gets the history, then
    what is published, until the task ends.  Decoding (JSON, protobuf, gzip), the publisher
    and Loki are parameters; a time is a number of nanoseconds since 1970. *)

From Stdlib Require Import QArith.
From S2P Require Import Prelude GoStrings Consts HelmValues Tables.
#[local] Open Scope Z_scope.

Definition LogLevelError : string := "error".
Definition LogLevelWarn : string := "warn".
Definition LogLevelInfo : string := "info".
Definition LogLevelDebug : string := "debug".

Record LogEntry := mkLogEntry {
  le_Timestamp : Z; le_Line : string; le_TaskID : string; le_JobID : string; le_TraceID : string; le_Level : string
}.

(** ** OTLP messages, as the protobuf package declares them *)

(** An array, a map or no value at all is kept as its JSON text. *)
Inductive AnyValue :=
| StringValue (s : string)
| IntValue (z : Z)
| DoubleValue (q : Q)
| BoolValue (b : bool)
| BytesValue (s : string)
| OtherValue (json : string).
Record KeyValue := mkKV { kv_Key : string; kv_Value : option AnyValue }.
Record LogRecord := mkLogRecord {
  lr_TimeUnixNano : Z; lr_ObservedTimeUnixNano : Z; lr_SeverityText : string; lr_SeverityNumber : Z;
  lr_Body : option AnyValue; lr_Attributes : list KeyValue
}.
(** The attributes of the resource, and the records of each scope. *)
Record ResourceLogs := mkResourceLogs { rs_Attributes : list KeyValue; rs_ScopeLogs : list (list LogRecord) }.

(** ** The parser ([parser.go]) *)

Section Parser.
(** [%f]. *)
Context (print_f : Q -> string).

Definition print_bool (b : bool) : string := if b then "true" else "false".
Definition kv_text (v : AnyValue) : option string :=
  match v with
  | StringValue s => Some s
  | IntValue z => Some (itoa z)
  | BoolValue b => Some (print_bool b)
  | DoubleValue q => Some (print_f q)
  | BytesValue _ | OtherValue _ => None
  end.
Definition kvListToMap (attrs : list KeyValue) : gmap string string :=
  fold_left (fun m kv =>
    match kv_Value kv ≫= kv_text with
    | Some text => <[kv_Key kv := text]> m
    | None => m
    end) attrs ∅.

Definition parseTimestamp (now timeNano observedNano : Z) : Z :=
  let ns := if timeNano =? 0 then observedNano else timeNano in
  if ns =? 0 then now else wrap64 ns.

Definition extractBody (lr : LogRecord) : string :=
  match lr_Body lr with
  | None => ""
  | Some (StringValue s) => s
  | Some (IntValue z) => itoa z
  | Some (DoubleValue q) => print_f q
  | Some (BoolValue b) => print_bool b
  | Some (BytesValue s) => s
  | Some (OtherValue json) => json
  end.

Definition SEVERITY_NUMBER_DEBUG : Z := 5.
Definition SEVERITY_NUMBER_INFO : Z := 9.
Definition SEVERITY_NUMBER_WARN : Z := 13.
Definition SEVERITY_NUMBER_ERROR : Z := 17.
Definition mapSeverity (severityText : string) (severityNumber : Z) : string :=
  if negb (String.eqb severityText "") then severityText
  else if SEVERITY_NUMBER_ERROR <=? severityNumber then LogLevelError
  else if SEVERITY_NUMBER_WARN <=? severityNumber then LogLevelWarn
  else if SEVERITY_NUMBER_INFO <=? severityNumber then LogLevelInfo
  else if SEVERITY_NUMBER_DEBUG <=? severityNumber then LogLevelDebug
  else LogLevelInfo.

Fixpoint firstNonEmpty (values : list string) : string :=
  match values with
  | [] => ""
  | v :: rest => if String.eqb v "" then firstNonEmpty rest else v
  end.

Definition parseLogRecord (now : Z) (lr : LogRecord) (resAttrs : gmap string string) : LogEntry :=
  let logAttrs := kvListToMap (lr_Attributes lr) in
  let either key := firstNonEmpty [default "" (logAttrs !! key); default "" (resAttrs !! key)] in
  mkLogEntry (parseTimestamp now (lr_TimeUnixNano lr) (lr_ObservedTimeUnixNano lr)) (extractBody lr)
    (either "task_id") (either "job_id") (either "trace_id")
    (mapSeverity (lr_SeverityText lr) (lr_SeverityNumber lr)).

Definition has_task (entry : LogEntry) : bool := negb (String.eqb (le_TaskID entry) "").
Definition parse_resource (now : Z) (rl : ResourceLogs) : list LogEntry :=
  let resAttrs := kvListToMap (rs_Attributes rl) in
  List.filter has_task (map (fun lr => parseLogRecord now lr resAttrs) (concat (rs_ScopeLogs rl))).
Definition parseOTLPLogs (now : Z) (req : list ResourceLogs) : list LogEntry :=
  concat (map (parse_resource now) req).
End Parser.

(** ** The receiver ([receiver.go]) *)

(** What [json.Unmarshal] fills for one resource. *)
Record RawValue := mkRawValue { rv_StringValue : option string; rv_IntValue : option string; rv_BoolValue : option bool }.
Record RawRecord := mkRawRecord {
  rr_TimeUnixNano : string; rr_ObservedTimeUnixNano : string; rr_SeverityText : string;
  rr_Body : option string; rr_Attributes : list (string * option string)
}.
Record RawResource := mkRawResource {
  rw_Attributes : list (string * RawValue); rw_ScopeLogs : list (list RawRecord)
}.

(** [fmt.Sscanf(s, "%d", &ts)] on an unsigned 64-bit integer that was zero: spaces, then
    digits; without digits or out of range it stays zero. *)
Fixpoint take_digits (l : list ascii) : list ascii :=
  match l with
  | c :: l' => if is_digit c then c :: take_digits l' else []
  | [] => []
  end.
Definition scan_uint64 (s : string) : Z :=
  let v := default 0 (digits_val 0 (take_digits (drop_while is_space (chars s)))) in
  if v <? 2 ^ 64 then v else 0.

Definition raw_kv (attr : string * RawValue) : KeyValue :=
  mkKV attr.1 (match rv_StringValue attr.2, rv_IntValue attr.2 with
               | Some s, _ => Some (StringValue s)
               | None, Some s => Some (StringValue s)
               | None, None => None
               end).
Definition raw_record (lr : RawRecord) : LogRecord :=
  mkLogRecord (if String.eqb (rr_TimeUnixNano lr) "" then 0 else scan_uint64 (rr_TimeUnixNano lr))
    (if String.eqb (rr_ObservedTimeUnixNano lr) "" then 0 else scan_uint64 (rr_ObservedTimeUnixNano lr))
    (rr_SeverityText lr) 0 (StringValue <$> rr_Body lr)
    (map (fun attr => mkKV attr.1 (StringValue <$> attr.2)) (rr_Attributes lr)).
Definition raw_resource (raw : RawResource) : ResourceLogs :=
  mkResourceLogs (map raw_kv (rw_Attributes raw)) (map (map raw_record) (rw_ScopeLogs raw)).

Definition PubSubChannelPrefix : string := "joblogs".
Definition DefaultPort : Z := 4319.
Definition DefaultMaxRequestSize : Z := 5 * 1024 * 1024.

Record log_metrics := mkLogMetrics { receivedTotal : Z; publishedTotal : Z; errorsTotal : Z }.
Record http_request := mkHttpRequest {
  hr_Method : string; hr_Body : res string; hr_ContentEncoding : string; hr_ContentType : string
}.

Section Receiver.
Context (print_f : Q -> string).
(** The decoders: gzip (opening, then reading), protobuf, and the three uses of JSON. *)
Context (gzip_open : string -> res string) (gzip_read : string -> res string).
Context (proto_decode : string -> res (list ResourceLogs)).
Context (json_object : string -> res (gmap string string)) (json_array : string -> res (list string)).
Context (json_resource : string -> res RawResource).
(** The publisher, when there is one, and what it changes. *)
Context {W : Type} (publisher : option (string -> LogEntry -> W -> W * res unit)).

Record receiver := mkReceiver { or_port : Z; or_maxRequestSize : Z; or_metrics : log_metrics; or_world : W }.
Definition NewOTLPLogReceiver (port maxRequestSize : Z) (w : W) : receiver :=
  mkReceiver (if port =? 0 then DefaultPort else port)
    (if maxRequestSize =? 0 then DefaultMaxRequestSize else maxRequestSize) (mkLogMetrics 0 0 0) w.

Definition parseResourceLog (data : string) : res ResourceLogs :=
  res_map raw_resource (res_wrap "unmarshal resource log: " (json_resource data)).
(** A resource that does not decode is logged and left out. *)
Definition well_formed (data : string) : option ResourceLogs :=
  match parseResourceLog data with Ok rl => Some rl | Err _ => None end.
Definition parseJSONRequest (body : string) : res (list ResourceLogs) :=
  let? raw := res_wrap "invalid JSON: " (json_object body) in
  let? resourceLogsRaw := or_error (raw !! "resourceLogs") "missing 'resourceLogs' field" in
  let? resourceLogs := res_wrap "invalid 'resourceLogs': " (json_array resourceLogsRaw) in
  Ok (omap well_formed resourceLogs).

Definition publishLogEntry (entry : LogEntry) (w : W) : W * res unit :=
  match publisher with
  | None => (w, Err "log publisher not initialized")
  | Some publish => publish (PubSubChannelPrefix +:+ ":" +:+ le_TaskID entry) entry w
  end.
Fixpoint publish_all (entries : list LogEntry) (m : log_metrics) (w : W) : log_metrics * W :=
  match entries with
  | [] => (m, w)
  | entry :: rest =>
      let '(w', err) := publishLogEntry entry w in
      let m' := match err with
                | Ok _ => mkLogMetrics (receivedTotal m) (publishedTotal m + 1) (errorsTotal m)
                | Err _ => mkLogMetrics (receivedTotal m) (publishedTotal m) (errorsTotal m + 1)
                end in
      publish_all rest m' w'
  end.

(** The body, cut at the limit, and decompressed; an error that counts, or not. *)
Definition read_request (maxSize : Z) (req : http_request) : (string + (Z * string)) * bool :=
  match res_map (str_take (Z.to_nat maxSize)) (hr_Body req) with
  | Err _ => (inr (400, "failed to read request body"), true)
  | Ok body =>
      if String.eqb body "" then (inr (400, "empty request body"), false)
      else if String.eqb (hr_ContentEncoding req) "gzip" then
        match gzip_open body with
        | Err _ => (inr (400, "failed to parse gzip body"), true)
        | Ok stream =>
            match gzip_read stream with
            | Err _ => (inr (400, "failed to decompress gzip body"), true)
            | Ok body => (inl body, false)
            end
        end
      else (inl body, false)
  end.
Definition decode_request (contentType body : string) : (list ResourceLogs + (Z * string)) * bool :=
  if String.eqb contentType "application/x-protobuf" || String.eqb contentType "application/protobuf" then
    match proto_decode body with
    | Ok l => (inl l, false)
    | Err _ => (inr (400, "failed to parse protobuf request"), true)
    end
  else if String.eqb contentType "application/json" || String.eqb contentType "" then
    match parseJSONRequest body with
    | Ok l => (inl l, false)
    | Err _ => (inr (400, "failed to parse JSON request"), true)
    end
  else (inr (415, "unsupported content type: " +:+ contentType), false).

Definition count_error (counts : bool) (r : receiver) : receiver :=
  let m := or_metrics r in
  mkReceiver (or_port r) (or_maxRequestSize r)
    (mkLogMetrics (receivedTotal m) (publishedTotal m) (errorsTotal m + if counts then 1 else 0)) (or_world r).
(** [handleLogs]: the receiver afterwards, the status and the body of the response. *)
Definition handleLogs (now : Z) (req : http_request) (r : receiver) : receiver * (Z * string) :=
  if negb (String.eqb (hr_Method req) "POST") then (r, (405, "method not allowed"))
  else
    match read_request (or_maxRequestSize r) req with
    | (inr answer, counts) => (count_error counts r, answer)
    | (inl body, _) =>
        match decode_request (hr_ContentType req) body with
        | (inr answer, counts) => (count_error counts r, answer)
        | (inl exportReq, _) =>
            let entries := parseOTLPLogs print_f now exportReq in
            let m := or_metrics r in
            let m := mkLogMetrics (receivedTotal m + Z.of_nat (length entries)) (publishedTotal m) (errorsTotal m) in
            let '(m, w) := publish_all entries m (or_world r) in
            (mkReceiver (or_port r) (or_maxRequestSize r) m w, (200, "{}"))
        end
    end.
End Receiver.

(** ** History ([infra/loki/client.go]) *)

Record loki_stream := mkStream { ls_labels : gmap string string; ls_values : list (list string) }.
(** The request that is sent: the times are in nanoseconds. *)
Record loki_query := mkLokiQuery {
  lq_taskID : string; lq_start : Z; lq_end : Z; lq_limit : Z; lq_direction : string
}.
(** [QueryOpts]; a zero time is no time. *)
Record QueryOpts := mkQueryOpts {
  qo_Start : option Z; qo_End : option Z; qo_Limit : Z; qo_Direction : string
}.

Section Loki.
(** The answer of the server, status and body, and the decoded body: status and streams. *)
Context (loki : loki_query -> res (Z * string)) (loki_json : string -> res (string * list loki_stream)).
(** [config.GetInt("loki.max_entries")]. *)
Context (max_entries : Z).

Definition stream_entry (taskID : string) (labels : gmap string string) (value : list string) : option LogEntry :=
  match value with
  | stamp :: line :: _ =>
      match atoi stamp with
      | Some nsec => Some (mkLogEntry nsec line taskID (default "" (labels !! "job_id")) (default "" (labels !! "trace_id")) "")
      | None => None
      end
  | _ => None
  end.
Definition stream_entries (taskID : string) (result : loki_stream) : list LogEntry :=
  omap (stream_entry taskID (ls_labels result)) (ls_values result).
Definition fill_query (now : Z) (taskID : string) (opts : QueryOpts) : loki_query :=
  mkLokiQuery taskID (default (now - 3600 * 10 ^ 9) (qo_Start opts)) (default now (qo_End opts))
    (if qo_Limit opts <=? 0 then (if 0 <? max_entries then max_entries else 5000) else qo_Limit opts)
    (if String.eqb (qo_Direction opts) "" then "forward" else qo_Direction opts).
Definition Client_QueryJobLogs (now : Z) (taskID : string) (opts : QueryOpts) : res (list LogEntry) :=
  require (negb (String.eqb taskID "")) "taskID is required" ;;?
  (let? (status, body) := res_wrap "loki query failed: " (loki (fill_query now taskID opts)) in
   require (status =? 200) ("loki query returned status " +:+ itoa status +:+ ": " +:+ str_take 1024 body) ;;?
   (let? (status, results) := res_wrap "failed to parse Loki response: " (loki_json body) in
    require (String.eqb status "success") ("loki query status: " +:+ status) ;;?
    Ok (concat (map (stream_entries taskID) results)))).
(** The gateway of [module/task]. *)
Definition QueryJobLogs (now : Z) (taskID : string) (start : Z) : res (list LogEntry) :=
  Client_QueryJobLogs now taskID (mkQueryOpts (Some start) None 0 "forward").
End Loki.

(** ** The stream of a web socket ([log_service.go]) *)

Definition WSLogTypeHistory : string := "history".
Definition WSLogTypeRealtime : string := "realtime".
Definition WSLogTypeEnd : string := "end".
Definition WSLogTypeError : string := "error".
Record WSLogMessage := mkWSLog { ws_Type : string; ws_Logs : list LogEntry; ws_Message : string; ws_Total : Z }.

(** What goes out: a message, or the frame that closes the connection. *)
Inductive ws_out :=
| Sent (m : WSLogMessage)
| ClosedNormal (reason : string).

(** What the loops wait for: a published text, the end of the channel, the goroutine that
    polls the state of the task, the context, and the timer of the last flush. *)
Inductive stream_event :=
| EvPublished (payload : string)
| EvChannelClosed
| EvTaskDone
| EvCancelled
| EvFlushTimer.

Definition isTaskTerminal (state : TaskState) : bool :=
  bool_decide (state = TaskCompleted) || bool_decide (state = TaskError) || bool_decide (state = TaskCancelled).

(** The channel [TaskQueueStore.SubscribeJobLogs] listens to. *)
Definition jobLogsChannelPrefix : string := "joblogs".
Definition SubscribeJobLogs (taskID : string) : string := jobLogsChannelPrefix +:+ ":" +:+ taskID.

Section Stream.
Context (entry_json : string -> res LogEntry).

Definition ForwardRedisLog (lastHistoricalTime : option Z) (payload : string) : list ws_out :=
  match entry_json payload with
  | Err _ => []
  | Ok entry =>
      match lastHistoricalTime with
      | Some last => if last <? le_Timestamp entry then [Sent (mkWSLog WSLogTypeRealtime [entry] "" 0)] else []
      | None => [Sent (mkWSLog WSLogTypeRealtime [entry] "" 0)]
      end
  end.

Definition completed_end : list ws_out := [Sent (mkWSLog WSLogTypeEnd [] "task completed" 0); ClosedNormal "task completed"].
Fixpoint flushAndClose (last : option Z) (events : list stream_event) : list ws_out :=
  match events with
  | [] => []
  | EvPublished payload :: rest => ForwardRedisLog last payload ++ flushAndClose last rest
  | EvChannelClosed :: _ | EvFlushTimer :: _ => completed_end
  | EvTaskDone :: rest | EvCancelled :: rest => flushAndClose last rest
  end.
Fixpoint streamRealtime (last : option Z) (events : list stream_event) : list ws_out :=
  match events with
  | [] => []
  | EvCancelled :: _ => []
  | EvTaskDone :: rest => flushAndClose last rest
  | EvPublished payload :: rest => ForwardRedisLog last payload ++ streamRealtime last rest
  | EvChannelClosed :: _ => [Sent (mkWSLog WSLogTypeError [] "log stream interrupted" 0)]
  | EvFlushTimer :: rest => streamRealtime last rest
  end.

(** The messages of the history, and the time after which published entries are new; a
    zero time when there is no history. *)
Definition sendHistoricalLogs (history : res (list LogEntry)) : list ws_out * option Z :=
  match history with
  | Err _ | Ok [] => ([], None)
  | Ok logs =>
      ([Sent (mkWSLog WSLogTypeHistory logs "" (Z.of_nat (length logs)))], le_Timestamp <$> last logs)
  end.
Definition StreamLogs (subscribed : bool) (history : res (list LogEntry)) (state : TaskState) (events : list stream_event)
  : list ws_out :=
  if negb subscribed then [Sent (mkWSLog WSLogTypeError [] "failed to subscribe to log stream" 0)]
  else
    let '(out, last) := sendHistoricalLogs history in
    out ++ if isTaskTerminal state
           then [Sent (mkWSLog WSLogTypeEnd [] "task already completed" 0); ClosedNormal "task completed"]
           else streamRealtime last events.
End Stream.

(** [pollTaskCompletion]: the tick at which the task is seen to have ended; a state that
    cannot be read is tried again at the next tick. *)
Fixpoint pollTaskCompletion (ticks : list (TaskState + goerr)) : option nat :=
  match ticks with
  | [] => None
  | inl state :: rest => if isTaskTerminal state then Some 0%nat else S <$> pollTaskCompletion rest
  | inr _ :: rest => S <$> pollTaskCompletion rest
  end.

(** ** Facts on the receiver *)

Lemma firstNonEmpty_two a b : firstNonEmpty [a; b] = if String.eqb a "" then b else a.
Proof. simpl. destruct (String.eqb a ""); [|done]. destruct (String.eqb_spec b ""); congruence. Qed.

Section ParserFacts.
Context (print_f : Q -> string).

Definition attr_text (kv : KeyValue) : option (string * string) := pair (kv_Key kv) <$> (kv_Value kv ≫= kv_text print_f).
(** The last attribute of a key that can be read counts. *)
Lemma kvListToMap_lookup attrs key :
  kvListToMap print_f attrs !! key = snd <$> last (List.filter (fun kv => String.eqb (fst kv) key) (omap attr_text attrs)).
Proof.
  induction attrs as [|kv attrs IH] using rev_ind; [done|].
  unfold kvListToMap in *. rewrite fold_left_app, omap_app. cbn [fold_left].
  change (omap attr_text [kv]) with (match attr_text kv with Some x => [x] | None => [] end).
  unfold attr_text at 2. destruct (kv_Value kv ≫= kv_text print_f) as [text|]; cbn [fmap option_fmap option_map];
    [|by rewrite app_nil_r].
  rewrite List.filter_app. cbn [List.filter fst]. destruct (String.eqb_spec (kv_Key kv) key) as [<-|Hne].
  - by rewrite lookup_insert_eq, last_snoc.
  - by rewrite lookup_insert_ne, app_nil_r.
Qed.

Lemma parseOTLPLogs_in now req entry :
  entry ∈ parseOTLPLogs print_f now req <->
  exists rl scope lr, rl ∈ req /\ scope ∈ rs_ScopeLogs rl /\ lr ∈ scope /\
    entry = parseLogRecord print_f now lr (kvListToMap print_f (rs_Attributes rl)) /\ le_TaskID entry <> "".
Proof.
  unfold parseOTLPLogs. rewrite elem_of_concat_map. split.
  - intros (rl & Hrl & Hin). unfold parse_resource in Hin.
    apply list_elem_of_In, filter_In in Hin as [Hin Ht]. apply in_map_iff in Hin as (lr & <- & Hlr).
    apply in_concat in Hlr as (scope & Hs & Hlr). exists rl, scope, lr. rewrite !list_elem_of_In in *.
    unfold has_task in Ht. split_and!; try done. intros Hz. by rewrite Hz in Ht.
  - intros (rl & scope & lr & Hrl & Hs & Hlr & -> & Ht). exists rl. split; [done|]. unfold parse_resource.
    apply list_elem_of_In, filter_In. split.
    + apply in_map_iff. exists lr. split; [done|]. apply in_concat. exists scope. by rewrite <- !list_elem_of_In.
    + unfold has_task. by destruct (String.eqb_spec (le_TaskID (parseLogRecord print_f now lr (kvListToMap print_f (rs_Attributes rl)))) "").
Qed.
End ParserFacts.

(** A record belongs to the task it names itself, or else to that of its resource;
    in the same way for its job and its trace.  A record without a task is not published. *)
Theorem parseLogRecord_precedence print_f now lr resAttrs key field :
  (key, field) ∈ [("task_id", le_TaskID); ("job_id", le_JobID); ("trace_id", le_TraceID)] ->
  let own := default "" (kvListToMap print_f (lr_Attributes lr) !! key) in
  field (parseLogRecord print_f now lr resAttrs) = if String.eqb own "" then default "" (resAttrs !! key) else own.
Proof.
  intros Hin own. unfold own. rewrite <- firstNonEmpty_two.
  repeat (apply elem_of_cons in Hin as [[= -> ->]|Hin]; [done|]). by apply not_elem_of_nil in Hin.
Qed.

(** ** The two encodings *)

(** What the JSON form can say: texts, and times as decimal numbers. *)
Definition text_value (v : option AnyValue) : bool :=
  match v with None | Some (StringValue _) => true | Some _ => false end.
Definition raw_text (v : option AnyValue) : option string := match v with Some (StringValue s) => Some s | _ => None end.
Definition plain_record (lr : LogRecord) : Prop :=
  0 <= lr_TimeUnixNano lr < 2 ^ 64 /\ 0 <= lr_ObservedTimeUnixNano lr < 2 ^ 64 /\
  lr_SeverityNumber lr = 0 /\ text_value (lr_Body lr) = true /\
  Forall (fun kv => text_value (kv_Value kv) = true) (lr_Attributes lr).
Definition plain_resource (rl : ResourceLogs) : Prop :=
  Forall (fun kv => text_value (kv_Value kv) = true) (rs_Attributes rl) /\
  Forall (Forall plain_record) (rs_ScopeLogs rl).
Definition encode_record (lr : LogRecord) : RawRecord :=
  mkRawRecord (itoa (lr_TimeUnixNano lr)) (itoa (lr_ObservedTimeUnixNano lr)) (lr_SeverityText lr) (raw_text (lr_Body lr))
    (map (fun kv => (kv_Key kv, raw_text (kv_Value kv))) (lr_Attributes lr)).
Definition encode_resource (rl : ResourceLogs) : RawResource :=
  mkRawResource (map (fun kv => (kv_Key kv, mkRawValue (raw_text (kv_Value kv)) None None)) (rs_Attributes rl))
    (map (map encode_record) (rs_ScopeLogs rl)).

Lemma take_digits_all l : Forall (fun c => is_digit c = true) l -> take_digits l = l.
Proof. induction 1 as [|c l Hc _ IH]; [done|]. simpl. by rewrite Hc, IH. Qed.
Lemma digit_not_space d : is_digit d = true -> is_space d = false.
Proof. by destruct d as [[] [] [] [] [] [] [] []]. Qed.

(** A time in decimal is read back. *)
Lemma scan_itoa n : 0 <= n < 2 ^ 64 -> scan_uint64 (itoa n) = n /\ String.eqb (itoa n) "" = false.
Proof.
  intros Hn. unfold scan_uint64, itoa. destruct (Z.ltb_spec n 0); [lia|]. rewrite chars_of_chars.
  destruct (pos_digits_head 20 n [] ltac:(lia)) as (d & l & E & m & ->).
  pose proof (pos_digits_digits 20 n [] ltac:(lia) (Forall_nil_2 _)) as Hd. rewrite E in Hd |- *.
  assert (Hdrop : drop_while is_space (digit_char (m mod 10) :: l) = digit_char (m mod 10) :: l).
  { apply Forall_cons in Hd as [Hd _]. simpl. by rewrite digit_not_space. }
  rewrite Hdrop, take_digits_all by done. split; [|done].
  rewrite <- E, pos_digits_val by lia. simpl. destruct (Z.ltb_spec n (2 ^ 64)); [done|lia].
Qed.

Lemma raw_text_value v : text_value v = true -> StringValue <$> raw_text v = v.
Proof. by destruct v as [[]|]. Qed.

(** The JSON form of a request of plain texts says the same as the request: every
    resource is decoded to what was encoded, so both forms give the same entries. *)
Theorem json_form_roundtrip rl : plain_resource rl -> raw_resource (encode_resource rl) = rl.
Proof.
  intros [Ha Hs]. destruct rl as [attrs scopes]. unfold raw_resource, encode_resource. cbn in *. f_equal.
  - induction Ha as [|[k v] attrs Hv _ IH]; [done|]. cbn in *. rewrite IH. f_equal. unfold raw_kv. cbn. f_equal.
    by destruct v as [[]|].
  - induction Hs as [|scope scopes Hsc _ IH]; [done|]. cbn. rewrite IH. f_equal.
    induction Hsc as [|[t o sev num body las] scope (Ht & Ho & Hn & Hb & Hl) _ IH2]; [done|]. cbn in *. rewrite IH2. f_equal.
    unfold raw_record, encode_record. cbn. destruct (scan_itoa t Ht) as [-> ->], (scan_itoa o Ho) as [-> ->].
    rewrite raw_text_value by done. subst num. f_equal.
    induction Hl as [|[k v] las Hv _ IH3]; [done|]. cbn in *. by rewrite IH3, raw_text_value.
Qed.

(** The severity number is lost in the JSON form: a record without a severity text that
    the protobuf form reports as an error is reported as information. *)
Theorem json_form_loses_severity print_f now lr attrs :
  lr_SeverityText lr = "" -> SEVERITY_NUMBER_ERROR <= lr_SeverityNumber lr ->
  le_Level (parseLogRecord print_f now lr attrs) = LogLevelError /\
  le_Level (parseLogRecord print_f now (raw_record (encode_record lr)) attrs) = LogLevelInfo.
Proof.
  intros Ht Hn. unfold parseLogRecord, mapSeverity. simpl. rewrite Ht. simpl.
  by apply Z.leb_le in Hn as ->.
Qed.

(** ** The receiver *)

Section ReceiverFacts.
Context (print_f : Q -> string) (gzip_open gzip_read : string -> res string).
Context (proto_decode : string -> res (list ResourceLogs)).
Context (json_object : string -> res (gmap string string)) (json_array : string -> res (list string)).
Context (json_resource : string -> res RawResource).
Context {W : Type} (publisher : option (string -> LogEntry -> W -> W * res unit)).
Abbreviation serve := (handleLogs print_f gzip_open gzip_read proto_decode json_object json_array json_resource publisher).
Abbreviation decode := (decode_request proto_decode json_object json_array json_resource).

(** The effect of publishing in order, whatever fails. *)
Definition published_in (w : W) (entries : list LogEntry) : W :=
  fold_left (fun w entry => (publishLogEntry publisher entry w).1) entries w.

Lemma publish_all_spec entries m w :
  let '(m', w') := publish_all publisher entries m w in
  w' = published_in w entries /\ receivedTotal m' = receivedTotal m /\
  publishedTotal m <= publishedTotal m' /\ errorsTotal m <= errorsTotal m' /\
  publishedTotal m' + errorsTotal m' = publishedTotal m + errorsTotal m + Z.of_nat (length entries).
Proof.
  revert m w. induction entries as [|entry entries IH]; intros m w; [split; [done|simpl; lia]|].
  cbn [publish_all published_in fold_left]. unfold published_in. cbn [fold_left].
  destruct (publishLogEntry publisher entry w) as [w' [[]|e]]; cbn [fst];
    match goal with |- context [publish_all _ _ ?m' ?v] => specialize (IH m' v) end;
    destruct (publish_all _ _ _ _) as [m2 w2]; destruct IH as (-> & Hr & Hp & He & Hs); simpl in *;
    (split; [done|]); lia.
Qed.

(** What the receiver does with a request.  Only a POST whose body can be read,
    decompressed and decoded is served, with a 200; every other request is answered by a
    400, 405 or 415, publishes nothing, and counts at most one error.  For one that is
    served the entries of its records are published in order, each one even when another
    failed, and every entry received counts either as published or as an error. *)
Theorem handleLogs_spec now req (r : receiver) :
  let '(r', (status, _)) := serve now req r in
  let m := or_metrics r in let m' := or_metrics r' in
  (status = 200 /\ hr_Method req = "POST" /\ exists body l,
     (read_request gzip_open gzip_read (or_maxRequestSize r) req).1 = inl body /\ (decode (hr_ContentType req) body).1 = inl l /\
     let entries := parseOTLPLogs print_f now l in
     or_world r' = published_in (or_world r) entries /\
     receivedTotal m' = receivedTotal m + Z.of_nat (length entries) /\
     publishedTotal m' + errorsTotal m' = publishedTotal m + errorsTotal m + Z.of_nat (length entries)) \/
  (status ∈ [400; 405; 415] /\ or_world r' = or_world r /\ receivedTotal m' = receivedTotal m /\
   publishedTotal m' = publishedTotal m /\ errorsTotal m <= errorsTotal m' <= errorsTotal m + 1).
Proof.
  unfold handleLogs. destruct (String.eqb_spec (hr_Method req) "POST") as [Hm|_]; cbn [negb].
  2: { right. split; [by right; left|]. split; [done|]. lia. }
  destruct (read_request gzip_open gzip_read (or_maxRequestSize r) req) as [[body|[status text]] counts] eqn:Er.
  2: { right. unfold count_error. simpl. split; [|split; [done|destruct counts; lia]]. revert Er. unfold read_request. clear.
       crush_match; intros [= <- <- <-]; by left. }
  destruct (decode (hr_ContentType req) body) as [[l|[status text]] counts2] eqn:Ed.
  2: { right. unfold count_error. simpl. split; [|split; [done|destruct counts2; lia]]. revert Ed. unfold decode_request. clear.
       crush_match; intros [= <- <- <-]; set_solver. }
  match goal with |- context [publish_all publisher ?e ?m ?w] => pose proof (publish_all_spec e m w) as Hp end.
  destruct (publish_all _ _ _ _) as [m2 w2]. destruct Hp as (-> & Hr & _ & _ & Hs). simpl in *.
  left. split; [done|]. split; [done|]. exists body, l. split; [done|]. split; [by rewrite Ed|]. by split.
Qed.
End ReceiverFacts.

(** A publisher that takes everything, as the list of what went to which channel. *)
Definition recorder (channel : string) (entry : LogEntry) (w : list (string * LogEntry)) : list (string * LogEntry) * res unit :=
  (w ++ [(channel, entry)], Ok tt).
Definition on_channel (channel : string) (w : list (string * LogEntry)) : list LogEntry :=
  map snd (List.filter (fun p => String.eqb p.1 channel) w).

Lemma channel_inj t t' : String.eqb (PubSubChannelPrefix +:+ ":" +:+ t) (SubscribeJobLogs t') = String.eqb t t'.
Proof. done. Qed.

(** The two sides agree on the channel: what a client that subscribed to a task is
    given is, in order, the entries of that task and of no other. *)
Theorem subscriber_sees_its_task taskID entries w :
  on_channel (SubscribeJobLogs taskID) (published_in (Some recorder) w entries) =
  on_channel (SubscribeJobLogs taskID) w ++ List.filter (fun e => String.eqb (le_TaskID e) taskID) entries.
Proof.
  unfold published_in. revert w. induction entries as [|e entries IH]; intros w; cbn [fold_left]; [by rewrite app_nil_r|].
  rewrite IH. unfold on_channel. simpl. rewrite List.filter_app, map_app, <- app_assoc. f_equal.
  cbn [List.filter fst]. rewrite channel_inj. by destruct (String.eqb (le_TaskID e) taskID).
Qed.

(** ** The history *)

(** What a history is: Loki is asked for the entries of the task from the given time to
    now, oldest first and with a positive limit; every entry of the answer is a line of one
    of the streams with a time that is a number, under the name of the task, and the
    streams follow one another as they are, not merged by time. *)
Theorem QueryJobLogs_spec loki loki_json max_entries now taskID start entries :
  QueryJobLogs loki loki_json max_entries now taskID start = Ok entries ->
  taskID <> "" /\
  exists body results limit, 0 < limit /\
    loki (mkLokiQuery taskID start now limit "forward") = Ok (200, body) /\ loki_json body = Ok ("success", results) /\
    entries = concat (map (stream_entries taskID) results) /\
    (forall e, e ∈ entries <-> exists result value stamp line, result ∈ results /\ value ∈ ls_values result /\
       take 2 value = [stamp; line] /\ atoi stamp = Some (le_Timestamp e) /\ le_Line e = line /\
       e = mkLogEntry (le_Timestamp e) line taskID (default "" (ls_labels result !! "job_id"))
             (default "" (ls_labels result !! "trace_id")) "").
Proof.
  unfold QueryJobLogs, Client_QueryJobLogs, fill_query. cbn [qo_Start qo_End qo_Limit qo_Direction default].
  set (limit := if 0 <=? 0 then _ else 0). change (if String.eqb "forward" "" then _ else _) with "forward".
  intros (u & Ht%require_ok & H1)%res_bind_ok. apply res_bind_ok in H1 as ([status body] & Hl & H2).
  apply res_bind_ok in H2 as (u2 & Hst%require_ok & H3). apply res_bind_ok in H3 as ([st results] & Hj & H4).
  apply res_bind_ok in H4 as (u3 & Hs%require_ok & [= <-]).
  apply res_wrap_ok in Hl, Hj. apply Z.eqb_eq in Hst as ->. apply String.eqb_eq in Hs as ->.
  apply negb_true_iff, String.eqb_neq in Ht. split; [done|]. exists body, results, limit.
  split. { unfold limit. cbn. destruct (Z.ltb_spec 0 max_entries); [done|lia]. }
  split; [done|]. split; [done|]. split; [done|].
  intros e. rewrite elem_of_concat_map. split.
  - intros (result & Hr & He). apply list_elem_of_omap in He as (value & Hv & He). exists result, value.
    destruct value as [|stamp [|line rest]]; try done. simpl in He.
    destruct (atoi stamp) as [n|] eqn:Ea; [|done]. injection He as <-. exists stamp, line. by split_and!.
  - intros (result & value & stamp & line & Hr & Hv & Htk & Ha & Hln & He). exists result. split; [done|].
    apply list_elem_of_omap. exists value. split; [done|].
    destruct value as [|s1 [|s2 rest]]; simpl in Htk; try done. injection Htk as -> ->. simpl.
    by rewrite Ha, <- He.
Qed.

(** ** The stream *)

(** The entries of the messages of a kind. *)
Definition logs_of (kind : string) (out : list ws_out) : list LogEntry :=
  concat (map (fun o => match o with Sent m => if String.eqb (ws_Type m) kind then ws_Logs m else [] | ClosedNormal _ => [] end) out).
Lemma logs_of_app kind a b : logs_of kind (a ++ b) = logs_of kind a ++ logs_of kind b.
Proof. unfold logs_of. by rewrite map_app, concat_app. Qed.

Definition decoded (entry_json : string -> res LogEntry) (payload : string) : option LogEntry :=
  match entry_json payload with Ok e => Some e | Err _ => None end.
Definition newer (last : option Z) (e : LogEntry) : bool :=
  match last with Some t => t <? le_Timestamp e | None => true end.

Section StreamFacts.
Context (entry_json : string -> res LogEntry).

Lemma forward_all last payloads :
  concat (map (ForwardRedisLog entry_json last) payloads) =
  map (fun e => Sent (mkWSLog WSLogTypeRealtime [e] "" 0)) (List.filter (newer last) (omap (decoded entry_json) payloads)).
Proof.
  induction payloads as [|p payloads IH]; [done|]. cbn [map concat]. rewrite IH. clear IH.
  cbn [omap list_omap]. unfold ForwardRedisLog, decoded at 2. destruct (entry_json p) as [e|err]; [|done].
  cbn [List.filter]. unfold newer at 2. destruct last as [t|]; [|done]. by destruct (t <? le_Timestamp e).
Qed.

Lemma streamRealtime_published last payloads events :
  streamRealtime entry_json last (map EvPublished payloads ++ events) =
  concat (map (ForwardRedisLog entry_json last) payloads) ++ streamRealtime entry_json last events.
Proof. induction payloads as [|p payloads IH]; [done|]. cbn. by rewrite IH, app_assoc. Qed.
Lemma flushAndClose_published last payloads events :
  flushAndClose entry_json last (map EvPublished payloads ++ events) =
  concat (map (ForwardRedisLog entry_json last) payloads) ++ flushAndClose entry_json last events.
Proof. induction payloads as [|p payloads IH]; [done|]. cbn. by rewrite IH, app_assoc. Qed.

(** A complete stream: a client that subscribed before the task ended gets the history
    in one message, then each entry published before or during the last flush that is newer
    than the last line of the history, in order and one by one, and then the end. *)
Theorem StreamLogs_complete history state before during :
  isTaskTerminal state = false ->
  let '(first, last) := sendHistoricalLogs history in
  StreamLogs entry_json true history state
    (map EvPublished before ++ EvTaskDone :: map EvPublished during ++ [EvFlushTimer]) =
  first ++ map (fun e => Sent (mkWSLog WSLogTypeRealtime [e] "" 0))
             (List.filter (newer last) (omap (decoded entry_json) (before ++ during))) ++
  [Sent (mkWSLog WSLogTypeEnd [] "task completed" 0); ClosedNormal "task completed"].
Proof.
  intros Hst. unfold StreamLogs. cbn [negb]. destruct (sendHistoricalLogs history) as [out last]. rewrite Hst. f_equal.
  rewrite streamRealtime_published. cbn [streamRealtime]. rewrite flushAndClose_published, !forward_all.
  by rewrite omap_app, List.filter_app, map_app, <- app_assoc.
Qed.

Lemma forward_newer last p e :
  e ∈ logs_of WSLogTypeRealtime (ForwardRedisLog entry_json last p) -> newer last e = true.
Proof.
  unfold ForwardRedisLog. destruct (entry_json p) as [x|err]; [|by intros ?%not_elem_of_nil].
  destruct last as [t|]; [|done]. destruct (t <? le_Timestamp x) eqn:E; [|by intros ?%not_elem_of_nil].
  cbn. by intros ->%list_elem_of_singleton.
Qed.
Lemma flush_newer last events e :
  e ∈ logs_of WSLogTypeRealtime (flushAndClose entry_json last events) -> newer last e = true.
Proof.
  induction events as [|[p| | | |] events IH]; cbn [flushAndClose]; try done; try by intros ?%not_elem_of_nil.
  rewrite logs_of_app. intros [He|He]%elem_of_app; [by eapply forward_newer|by apply IH].
Qed.
Lemma realtime_newer last events e :
  e ∈ logs_of WSLogTypeRealtime (streamRealtime entry_json last events) -> newer last e = true.
Proof.
  induction events as [|[p| | | |] events IH]; cbn [streamRealtime]; try done; try by intros ?%not_elem_of_nil.
  - rewrite logs_of_app. intros [He|He]%elem_of_app; [by eapply forward_newer|by apply IH].
  - apply flush_newer.
Qed.

(** No line of the history is sent again, when the history is in the order of time:
    whatever is published, and whenever the stream ends, an entry that is sent as new is
    later than every entry of the history. *)
Theorem StreamLogs_no_repeat logs state events e e' :
  (forall i j x y, logs !! i = Some x -> logs !! j = Some y -> (i <= j)%nat -> le_Timestamp x <= le_Timestamp y) ->
  e ∈ logs -> e' ∈ logs_of WSLogTypeRealtime (StreamLogs entry_json true (Ok logs) state events) ->
  le_Timestamp e < le_Timestamp e'.
Proof.
  intros Hsort He He'. unfold StreamLogs in He'. cbn [negb] in He'.
  destruct logs as [|x0 logs0] eqn:El; [by apply not_elem_of_nil in He|]. rewrite <- El in *.
  assert (Hlast : exists t, le_Timestamp <$> last logs = Some t /\ le_Timestamp e <= t).
  { apply list_elem_of_lookup in He as [i Hi]. destruct (last logs) as [x|] eqn:E.
    - exists (le_Timestamp x). split; [done|]. rewrite last_lookup in E. eapply Hsort; [exact Hi|exact E|].
      apply lookup_lt_Some in Hi. lia.
    - apply last_None in E. by rewrite E in Hi. }
  destruct Hlast as (t & Et & Hle).
  assert (Hh : sendHistoricalLogs (Ok logs) =
    ([Sent (mkWSLog WSLogTypeHistory logs "" (Z.of_nat (length logs)))], Some t)).
  { unfold sendHistoricalLogs. rewrite El, <- El. by rewrite Et. }
  rewrite Hh, logs_of_app in He'. apply elem_of_app in He' as [He'|He']; [by apply not_elem_of_nil in He'|].
  destruct (isTaskTerminal state); [by apply not_elem_of_nil in He'|].
  apply realtime_newer in He'. simpl in He'. bool_to_prop. lia.
Qed.

(** With more than one stream the history is not in the order of time, and a line that
    is newer than the last one of the last stream is sent twice when it is published. *)
Theorem StreamLogs_repeats l1 l2 e z payload state :
  e ∈ l1 -> last l2 = Some z -> le_Timestamp z < le_Timestamp e -> entry_json payload = Ok e -> isTaskTerminal state = false ->
  let out := StreamLogs entry_json true (Ok (l1 ++ l2)) state [EvPublished payload] in
  e ∈ logs_of WSLogTypeHistory out /\ e ∈ logs_of WSLogTypeRealtime out.
Proof.
  intros He Hz Hlt Hp Hst out. unfold out, StreamLogs. cbn [negb].
  assert (Hh : sendHistoricalLogs (Ok (l1 ++ l2)) =
    ([Sent (mkWSLog WSLogTypeHistory (l1 ++ l2) "" (Z.of_nat (length (l1 ++ l2))))], Some (le_Timestamp z))).
  { unfold sendHistoricalLogs. destruct (l1 ++ l2) as [|x l] eqn:E.
    - apply app_eq_nil in E as [-> _]. by apply not_elem_of_nil in He.
    - rewrite <- E, last_app, Hz. done. }
  rewrite Hh, Hst. cbn [streamRealtime]. unfold ForwardRedisLog. rewrite Hp.
  apply Z.ltb_lt in Hlt as ->. rewrite !logs_of_app. cbn. split.
  - rewrite !app_nil_r. apply elem_of_app. by left.
  - by left.
Qed.
End StreamFacts.

(** The poll that ends a stream: it reports at the first tick at which the state can be
    read and is terminal, whatever failed before. *)
Theorem pollTaskCompletion_first ticks n :
  pollTaskCompletion ticks = Some n <->
  (exists state, ticks !! n = Some (inl state) /\ isTaskTerminal state = true) /\
  (forall k state, (k < n)%nat -> ticks !! k = Some (inl state) -> isTaskTerminal state = false).
Proof.
  revert n. induction ticks as [|[state|e] ticks IH]; intros n; cbn [pollTaskCompletion].
  - split; [done|]. by intros [(st & Hst & _) _].
  - destruct (isTaskTerminal state) eqn:Et.
    + split.
      * intros [= <-]. split; [by exists state|]. intros k st Hk. lia.
      * intros [_ Hno]. destruct n as [|n]; [done|]. rewrite (Hno 0%nat state) in Et; [done|lia|done].
    + destruct n as [|n].
      * split; [by destruct (pollTaskCompletion ticks)|]. intros [(st & [= <-] & Hst) _]. congruence.
      * rewrite fmap_Some. split.
        -- intros (m & Hm & [= <-]). apply IH in Hm as [Hst Hno]. split; [done|].
           intros [|k] st Hk Hl; simpl in Hl; [congruence|]. apply (Hno k); [lia|done].
        -- intros [Hst Hno]. exists n. split; [|done]. apply IH. split; [done|].
           intros k st Hk Hl. apply (Hno (S k)); [lia|done].
  - destruct n as [|n].
    + split; [by destruct (pollTaskCompletion ticks)|]. by intros [(st & [=] & _) _].
    + rewrite fmap_Some. split.
      * intros (m & Hm & [= <-]). apply IH in Hm as [Hst Hno]. split; [done|].
        intros [|k] st Hk Hl; simpl in Hl; [done|]. apply (Hno k); [lia|done].
      * intros [Hst Hno]. exists n. split; [|done]. apply IH. split; [done|].
        intros k st Hk Hl. apply (Hno (S k)); [lia|done].
Qed.

Module LogSample.
Definition entry (t : Z) (line : string) : LogEntry := mkLogEntry t line "T" "" "" "info".
(** A payload is the line of an entry; its time is its length. *)
Definition entry_json (p : string) : res LogEntry :=
  if String.eqb p "" then Err "unexpected end of JSON input" else Ok (entry (str_len p) p).
Definition logs : list LogEntry := [entry 1 "a"; entry 2 "bb"].

Lemma StreamLogs_complete_witness :
  StreamLogs entry_json true (Ok logs) TaskRunning
    (map EvPublished ["bb"; ""] ++ EvTaskDone :: map EvPublished ["ccc"] ++ [EvFlushTimer]) =
  [Sent (mkWSLog WSLogTypeHistory logs "" 2); Sent (mkWSLog WSLogTypeRealtime [entry 3 "ccc"] "" 0);
   Sent (mkWSLog WSLogTypeEnd [] "task completed" 0); ClosedNormal "task completed"].
Proof. exact (StreamLogs_complete entry_json (Ok logs) TaskRunning ["bb"; ""] ["ccc"] eq_refl). Defined.

Lemma StreamLogs_no_repeat_witness : 1 < 3.
Proof.
  apply (StreamLogs_no_repeat entry_json logs TaskRunning [EvPublished "ccc"] (entry 1 "a") (entry 3 "ccc")).
  - intros [|[|i]] [|[|j]] x y Hx Hy Hij; simpl in *; simplify_eq; simpl; lia.
  - by left.
  - by left.
Defined.

Lemma StreamLogs_repeats_witness :
  entry 3 "ccc" ∈ logs_of WSLogTypeRealtime
    (StreamLogs entry_json true (Ok ([entry 3 "ccc"] ++ [entry 1 "a"])) TaskRunning [EvPublished "ccc"]).
Proof.
  refine (proj2 (StreamLogs_repeats entry_json [entry 3 "ccc"] [entry 1 "a"] (entry 3 "ccc") (entry 1 "a") "ccc" TaskRunning _ _ _ _ _)).
  - by left.
  - reflexivity.
  - simpl. lia.
  - reflexivity.
  - reflexivity.
Defined.

Definition record : LogRecord :=
  mkLogRecord 1700000000123456789 0 "warn" 0 (Some (StringValue "line")) [mkKV "task_id" (Some (StringValue "T")); mkKV "x" None].
Definition resource : ResourceLogs := mkResourceLogs [mkKV "trace_id" (Some (StringValue "R"))] [[record]; []].
Lemma json_form_roundtrip_witness : raw_resource (encode_resource resource) = resource.
Proof.
  apply (json_form_roundtrip resource). split.
  - by repeat constructor.
  - apply Forall_cons. split; [|by repeat constructor]. apply Forall_cons. split; [|constructor].
    unfold plain_record. simpl. split_and!; try lia; try reflexivity. by repeat constructor.
Defined.

Lemma parseLogRecord_precedence_witness :
  le_TaskID (parseLogRecord (fun _ => "") 5 record ∅) = "T" /\ le_TraceID (parseLogRecord (fun _ => "") 5 record {["trace_id" := "R"]}) = "R".
Proof.
  split.
  - exact (parseLogRecord_precedence (fun _ => "") 5 record ∅ "task_id" le_TaskID ltac:(by left)).
  - exact (parseLogRecord_precedence (fun _ => "") 5 record {["trace_id" := "R"]} "trace_id" le_TraceID ltac:(by do 2 right; left)).
Defined.
End LogSample.
