(* ===== verification/TaskService.v ===== *)
(** * The service of tasks ([module/task/])

    It reads the rows the workers write, deletes them softly, moves a pending task to the
    front of the delayed queue, and serves the logs.  A row of the table is a [TaskRow] with
    its two times; the queue is the server of [Redis]. *)

From stdpp Require Import sorting.
From S2P Require Import Prelude GoStrings Consts Redis Gateway Task TaskQueue TaskSubmit Search Tables TaskLogs.
#[local] Open Scope Z_scope.

(** ** Requests ([api_types.go]) *)

Record ListTaskReq := mkListTasks {
  lt_Page : PaginationReq; lt_TaskType : option Z; lt_Immediate : option bool; lt_TraceID : string; lt_GroupID : string;
  lt_ProjectID : Z; lt_State : option Z; lt_Status : option Z
}.
Record ListTaskFilters := mkTaskFilters {
  tf_TaskType : option Z; tf_Immediate : option bool; tf_TraceID : string; tf_GroupID : string; tf_ProjectID : Z;
  tf_State : option Z; tf_Status : option Z
}.

Section Requests.
Context (IsValidUUID : string -> bool).

Definition BatchDeleteTaskReq_Validate (ids : list string) : res unit :=
  for_each (fun i id =>
    require (negb (String.eqb (trim_space id) "")) ("empty id at index " +:+ itoa (Z.of_nat i)) ;;?
    require (IsValidUUID id) ("invalid UUID format for id at index " +:+ itoa (Z.of_nat i) +:+ ": " +:+ id)) ids.

Definition validateState : option Z -> res unit :=
  opt_check (fun s => require (enum_mem ValidTaskStates s) ("invalid task state: " +:+ itoa s)).
Definition validateTaskType : option Z -> res unit :=
  opt_check (fun t => require (enum_mem ValidTaskTypes t) ("invalid task type: " +:+ itoa t)).
Definition validateStatus : option Z -> res unit :=
  opt_check (fun s => require (enum_mem ValidStatuses s) ("invalid status value: " +:+ itoa s)).
Definition validateUUID (id : string) : res unit :=
  if String.eqb id "" then Ok tt else require (IsValidUUID id) ("invalid UUID format: " +:+ id).

(** The page gets its defaults. *)
Definition ListTaskReq_Validate (req : ListTaskReq) : res ListTaskReq :=
  let? page := PaginationReq_Validate (lt_Page req) in
  validateTaskType (lt_TaskType req) ;;?
  validateUUID (lt_TraceID req) ;;?
  validateUUID (lt_GroupID req) ;;?
  require (negb (lt_ProjectID req <? 0)) ("invalid project ID: " +:+ itoa (lt_ProjectID req)) ;;?
  validateState (lt_State req) ;;?
  validateStatus (lt_Status req) ;;?
  Ok (mkListTasks page (lt_TaskType req) (lt_Immediate req) (lt_TraceID req) (lt_GroupID req) (lt_ProjectID req)
        (lt_State req) (lt_Status req)).
End Requests.

Definition ToFilterOptions (req : ListTaskReq) : ListTaskFilters :=
  mkTaskFilters (lt_TaskType req) (lt_Immediate req) (lt_TraceID req) (lt_GroupID req) (lt_ProjectID req) (lt_State req)
    (lt_Status req).

(** ** Rows and responses *)

Record TaskRec := mkTaskRec { tk_Row : TaskRow; tk_CreatedAt : Z; tk_UpdatedAt : Z }.

Definition with_time (t : Z) (r : TaskRow) : TaskRow :=
  {| row_ID := row_ID r; row_Type := row_Type r; row_Immediate := row_Immediate r; row_ExecuteTime := t;
     row_CronExpr := row_CronExpr r; row_Payload := row_Payload r; row_Level := row_Level r; row_Sequence := row_Sequence r;
     row_State := row_State r; row_Status := row_Status r; row_ParentTaskID := row_ParentTaskID r; row_TraceID := row_TraceID r |}.
Definition with_status (s : StatusType) (r : TaskRow) : TaskRow :=
  {| row_ID := row_ID r; row_Type := row_Type r; row_Immediate := row_Immediate r; row_ExecuteTime := row_ExecuteTime r;
     row_CronExpr := row_CronExpr r; row_Payload := row_Payload r; row_Level := row_Level r; row_Sequence := row_Sequence r;
     row_State := row_State r; row_Status := s; row_ParentTaskID := row_ParentTaskID r; row_TraceID := row_TraceID r |}.

Record TaskResp := mkTaskResp {
  tp_ID : string; tp_Type : string; tp_Immediate : bool; tp_ExecuteTime : Z; tp_CronExpr : string; tp_TraceID : string;
  tp_GroupID : string; tp_State : string; tp_Status : string; tp_ProjectID : Z; tp_ProjectName : string;
  tp_CreatedAt : Z; tp_UpdatedAt : Z
}.
(** The literal sets neither the group nor the project. *)
Definition NewTaskResp (t : TaskRec) : TaskResp :=
  let r := tk_Row t in
  mkTaskResp (row_ID r) (GetTaskTypeName (TaskType_code (row_Type r))) (row_Immediate r) (row_ExecuteTime r) (row_CronExpr r)
    (row_TraceID r) "" (GetTaskStateName (TaskState_code (row_State r))) (GetStatusTypeName (StatusType_code (row_Status r)))
    0 "" (tk_CreatedAt t) (tk_UpdatedAt t).
Record TaskDetailResp := mkTaskDetail { td_Task : TaskResp; td_Payload : option (gmap string value); td_Logs : list string }.
Definition NewTaskDetailResp `{TaskCodec} (t : TaskRec) (logs : list string) : TaskDetailResp :=
  mkTaskDetail (NewTaskResp t)
    (if String.eqb (row_Payload (tk_Row t)) "" then None
     else match unmarshal_object (row_Payload (tk_Row t)) with Ok payload => payload | Err _ => None end)
    logs.

(** ** The repository *)

Definition task_live (t : TaskRec) : bool := negb (bool_decide (row_Status (tk_Row t) = CommonDeleted)).
Definition has_id (id : string) (t : TaskRec) : bool := String.eqb (row_ID (tk_Row t)) id.

(** The table, and the errors the database gives to a read and to a write, if any. *)
Section Repository.
Context (read_fails write_fails : option goerr).

Definition read {A} (m : Tx (list TaskRec) A) : Tx (list TaskRec) A :=
  match read_fails with Some e => tx_err e | None => m end.
Definition write {A} (m : Tx (list TaskRec) A) : Tx (list TaskRec) A :=
  match write_fails with Some e => tx_err e | None => m end.

Definition Repo_BatchDelete (clock : Z) (taskIDs : list string) : Tx (list TaskRec) unit :=
  match taskIDs with
  | [] => tx_ret tt
  | _ => tx_wrap "failed to batch delete tasks: " (write (tx_do (map (fun t =>
           if existsb (fun id => has_id id t) taskIDs && task_live t
           then mkTaskRec (with_status CommonDeleted (tk_Row t)) (tk_CreatedAt t) clock else t))))
  end.
Definition GetByID (taskID : string) : Tx (list TaskRec) TaskRec :=
  tx_wrap ("failed to find task with id " +:+ taskID +:+ ": ")
    (read (tx_first (List.find (fun t => has_id taskID t && task_live t)))).
Definition UpdateExecuteTime (clock : Z) (taskID : string) (executeTime : Z) : Tx (list TaskRec) unit :=
  write (tx_do (map (fun t => if has_id taskID t then mkTaskRec (with_time executeTime (tk_Row t)) (tk_CreatedAt t) clock else t))).

(** The conditions of a list.  The table has no column [group_id] and no column
    [project_id]: the database refuses such a query. *)
Definition unknown_column (column : string) : goerr := New ("Unknown column '" +:+ column +:+ "' in 'where clause'").
Definition opt_eq {A} `{EqDecision A} (wanted : option A) (x : A) : bool :=
  match wanted with Some w => bool_decide (x = w) | None => true end.
Definition task_matches (f : ListTaskFilters) (t : TaskRec) : bool :=
  let r := tk_Row t in
  opt_eq (tf_Immediate f) (row_Immediate r) && opt_eq (tf_TaskType f) (TaskType_code (row_Type r)) &&
  (String.eqb (tf_TraceID f) "" || String.eqb (row_TraceID r) (tf_TraceID f)) &&
  opt_eq (tf_State f) (TaskState_code (row_State r)) && opt_eq (tf_Status f) (StatusType_code (row_Status r)).
Definition select_tasks (f : ListTaskFilters) (rows : list TaskRec) : list TaskRec + goerr :=
  if negb (String.eqb (tf_GroupID f) "") then inr (unknown_column "group_id")
  else if 0 <? tf_ProjectID f then inr (unknown_column "project_id")
  else inl (List.filter (task_matches f) rows).
Definition created_later (a b : TaskRec) : Prop := tk_CreatedAt b <= tk_CreatedAt a.
#[export] Instance created_later_dec : RelDecision created_later.
Proof. intros a b. unfold created_later. apply _. Defined.
Definition Repo_List (limit offset : Z) (f : ListTaskFilters) : Tx (list TaskRec) (list TaskRec * Z) :=
  let^ selected := tx_wrap "failed to count tasks: " (read (fun rows =>
    match select_tasks f rows with inl l => inl (l, rows) | inr e => inr e end)) in
  tx_ret (page_rows limit offset (merge_sort created_later selected), Z.of_nat (length selected)).

(** ** The service *)

Definition not_found_as (prefix taskID : string) (m : Tx (list TaskRec) TaskRec) : Tx (list TaskRec) TaskRec :=
  tx_on_err (fun e => if errors_Is RecordNotFound e then tagged NotFound ("task id: " +:+ taskID) else Wrap prefix e "") m.
Definition Service_BatchDelete (clock : Z) (taskIDs : list string) : Tx (list TaskRec) unit :=
  match taskIDs with [] => tx_ret tt | _ => Repo_BatchDelete clock taskIDs end.
Definition Service_List (req : ListTaskReq) : Tx (list TaskRec) (list TaskResp * PaginationInfo) :=
  let '(limit, offset) := ToGormParams (lt_Page req) in
  let^ (tasks, total) := tx_wrap "failed to list tasks: " (Repo_List limit offset (ToFilterOptions req)) in
  tx_ret (map NewTaskResp tasks, ConvertToPaginationInfo (lt_Page req) total).
Definition GetForLogStream (taskID : string) : Tx (list TaskRec) TaskRec :=
  not_found_as "failed to get task: " taskID (GetByID taskID).

(** The logs, [loki] being [QueryJobLogs] at this moment. *)
Section Logs.
Context (loki : string -> Z -> res (list LogEntry)).
Definition queryHistoricalLogs (t : TaskRec) : list string :=
  match loki (row_ID (tk_Row t)) (tk_CreatedAt t) with
  | Ok entries => map le_Line entries
  | Err _ => []
  end.
Definition GetDetail `{TaskCodec} (taskID : string) : Tx (list TaskRec) TaskDetailResp :=
  let^ t := not_found_as "failed to get task: " taskID (GetByID taskID) in
  tx_ret (NewTaskDetailResp t (queryHistoricalLogs t)).

Record TaskLogPollResp := mkPollResp { pr_Logs : list LogEntry; pr_Terminal : bool; pr_State : string; pr_CreatedAt : Z }.
(** The cursor [after] is the zero time for a client that has nothing yet. *)
Definition poll_start (t : TaskRec) (after : option Z) : Z :=
  match after with
  | Some a => if tk_CreatedAt t <? a then a + 1 else tk_CreatedAt t
  | None => tk_CreatedAt t
  end.
Definition PollLogs (taskID : string) (after : option Z) : Tx (list TaskRec) TaskLogPollResp :=
  let^ t := not_found_as "failed to get task: " taskID (GetByID taskID) in
  match loki (row_ID (tk_Row t)) (poll_start t after) with
  | Err e => tx_err (New ("failed to query task logs: " +:+ e))
  | Ok entries =>
      tx_ret (mkPollResp entries (isTaskTerminal (row_State (tk_Row t)))
                (GetTaskStateName (TaskState_code (row_State (tk_Row t)))) (tk_CreatedAt t))
  end.
End Logs.

(** ** Expediting *)

Section Expedite.
Context {R : Type} `{RedisServer R} `{TaskCodec}.
(** The fields of the event as go-redis sends them: the payload is its JSON text. *)
Context (scheduled_json : Z -> string -> string).

Definition emitExpediteScheduledEvent (t : TaskRec) (executeTime : Z) (r : R) : R :=
  let row := tk_Row t in
  if String.eqb (row_TraceID row) "" then r
  else (XAdd (StreamTraceLogKey (row_TraceID row))
          (ToRedisStream (row_ID row) (row_Type row) "" "" "0" EventTaskScheduled
             (scheduled_json executeTime TaskScheduledReasonExpedite)) r).1.

(** [clock] in nanoseconds.  The queue is changed only after the row; its error is logged. *)
Definition Expedite (clock : Z) (taskID : string) (rows : list TaskRec) (r : R)
  : (TaskResp + goerr) * list TaskRec * R :=
  match not_found_as "failed to load task: " taskID (GetByID taskID) rows with
  | inr e => (inr e, rows, r)
  | inl (t, rows) =>
      if negb (bool_decide (row_State (tk_Row t) = TaskPending)) then
        (inr (tagged BadRequest ("state=" +:+ GetTaskStateName (TaskState_code (row_State (tk_Row t))) +:+ ", cannot expedite")),
         rows, r)
      else
        let now := clock / 10 ^ 9 in
        if row_ExecuteTime (tk_Row t) <=? now then (inl (NewTaskResp t), rows, r)
        else
          match tx_wrap "failed to update execute_time: " (UpdateExecuteTime clock taskID now) rows with
          | inr e => (inr e, rows, r)
          | inl (_, rows') =>
              let r1 := (ExpediteDelayedTask taskID now r).1 in
              let r2 := emitExpediteScheduledEvent t now r1 in
              (inl (NewTaskResp (mkTaskRec (with_time now (tk_Row t)) (tk_CreatedAt t) (tk_UpdatedAt t))), rows', r2)
          end
  end.
End Expedite.
End Repository.

(** ** Facts *)

Lemma loaded prefix taskID rows :
  not_found_as prefix taskID (GetByID None taskID) rows =
  match List.find (fun t => has_id taskID t && task_live t) rows with
  | Some t => inl (t, rows)
  | None => inr (tagged NotFound ("task id: " +:+ taskID))
  end.
Proof.
  unfold not_found_as, GetByID, read, tx_wrap, tx_on_err, tx_first. by destruct (List.find _ rows).
Qed.

Lemma status_404 text : exists msg, HandleServiceError (Some (tagged NotFound text)) = Some (404, msg).
Proof. by eexists. Qed.

Section Expediting.
Context {R : Type} `{RedisLaws R} `{TaskCodec} (scheduled_json : Z -> string -> string).
Abbreviation expedite := (Expedite (R := R) None None scheduled_json).

Definition expedited (taskID : string) (clock : Z) (rows : list TaskRec) : list TaskRec :=
  map (fun t => if has_id taskID t then mkTaskRec (with_time (clock / 10 ^ 9) (tk_Row t)) (tk_CreatedAt t) clock else t) rows.

(** What expediting answers.  A task that is not there is a 404 and one that is not
    pending a 400; a task already due is returned as it is; in these three cases nothing is
    written.  Any other pending task gets the present as its time, in its row and in the
    answer, no other row changes, and the answer does not depend on the queue. *)
Theorem Expedite_spec clock taskID rows (r : R) :
  let now := clock / 10 ^ 9 in
  let '(answer, rows', r') := expedite clock taskID rows r in
  match List.find (fun t => has_id taskID t && task_live t) rows with
  | None => (exists e msg, answer = inr e /\ HandleServiceError (Some e) = Some (404, msg)) /\ rows' = rows /\ r' = r
  | Some t =>
      if decide (row_State (tk_Row t) = TaskPending) then
        if row_ExecuteTime (tk_Row t) <=? now then answer = inl (NewTaskResp t) /\ rows' = rows /\ r' = r
        else (exists resp, answer = inl resp /\ tp_ID resp = taskID /\ tp_ExecuteTime resp = now /\ tp_State resp = "Pending") /\
             rows' = expedited taskID clock rows /\
             r' = emitExpediteScheduledEvent scheduled_json t now (ExpediteDelayedTask taskID now r).1
      else (exists e msg, answer = inr e /\ HandleServiceError (Some e) = Some (400, msg)) /\ rows' = rows /\ r' = r
  end.
Proof.
  intros now. unfold Expedite. rewrite loaded. destruct (List.find _ rows) as [t|] eqn:Ef.
  2: { destruct (status_404 ("task id: " +:+ taskID)) as [msg Hm]. split; [by eexists _, msg|done]. }
  apply find_some in Ef as [_ [Hid%String.eqb_eq _]%andb_true_iff].
  destruct (decide (row_State (tk_Row t) = TaskPending)) as [Hp|Hp].
  2: { rewrite bool_decide_eq_false_2 by done. cbn [negb]. split; [by eexists _, _|done]. }
  rewrite bool_decide_eq_true_2 by done. cbn [negb]. fold now.
  destruct (row_ExecuteTime (tk_Row t) <=? now); [done|]. cbn. split; [|done].
  eexists. split; [done|]. cbn. rewrite Hp. by split_and!.
Qed.

(** An error leaves no trace: whenever expediting fails, because of the request or of
    the database, neither the row nor the queue has changed. *)
Theorem Expedite_error_keeps read_fails write_fails clock taskID rows (r : R) e rows' r' :
  Expedite read_fails write_fails scheduled_json clock taskID rows r = (inr e, rows', r') -> rows' = rows /\ r' = r.
Proof.
  unfold Expedite. destruct (not_found_as _ _ _ rows) as [[t rows1]|e1] eqn:El; [|by intros [= _ <- <-]].
  assert (rows1 = rows) as ->.
  { revert El. unfold not_found_as, GetByID, read, tx_wrap. destruct read_fails; [done|].
    unfold tx_on_err, tx_first. destruct (List.find _ rows); [by intros [= _ <-]|done]. }
  destruct (bool_decide _); cbn [negb]; [|by intros [= _ <- <-]].
  destruct (_ <=? _); [done|]. destruct (tx_wrap _ _ rows) as [[[] rows2]|e2]; [done|by intros [= _ <- <-]].
Qed.

Lemma emit_delayed t now (r : R) :
  delayed (emitExpediteScheduledEvent scheduled_json t now r) = delayed r.
Proof.
  unfold emitExpediteScheduledEvent, XAdd, m_wrap. destruct (String.eqb _ ""); [done|].
  destruct (exec _ r) as [r1 o] eqn:Ex. simpl. apply exec_keys in Ex as [Ex|Ex]; unfold delayed; by rewrite Ex.
Qed.

(** C38. An expedited task is taken up by the next promotion.  When its document was found
    in the delayed queue, it is there with the present as its time and score, so a
    promotion at that moment or later puts it on the ready list, with the others that are
    due - whatever happened to the event in between. *)
Theorem Expedite_runs_next clock taskID rows (r : R) t tick r2 tasks :
  let now := clock / 10 ^ 9 in
  List.find (fun t => has_id taskID t && task_live t) rows = Some t ->
  row_State (tk_Row t) = TaskPending -> now < row_ExecuteTime (tk_Row t) ->
  (ExpediteDelayedTask taskID now r).2 = Ok true -> 0 <= now <= tick ->
  ProcessDelayedTasks tick (expedite clock taskID rows r).2 = (r2, Ok tasks) ->
  exists m obj, m ∈ tasks /\ m ∈ ready r2 /\ object_id (Some obj) = taskID /\
    marshal_object (<["execute_time" := VInt now]> obj) = Ok m.
Proof.
  intros now Hf Hp Hlt Hx Htick Hpr. pose proof (Expedite_spec clock taskID rows r) as Hs. cbv zeta in Hs.
  destruct (expedite clock taskID rows r) as [[answer rows'] r'] eqn:E. simpl in Hpr.
  rewrite Hf, decide_True in Hs by done. fold now in Hs.
  destruct (Z.leb_spec (row_ExecuteTime (tk_Row t)) now); [lia|]. destruct Hs as (_ & _ & ->).
  destruct (ExpediteDelayedTask taskID now r) as [r1 o] eqn:Ed. simpl in Hx, Hpr. subst o.
  apply ExpediteDelayedTask_spec in Ed as (m & obj & u & _ & Hid & Ho & Hu & Hd & _).
  apply ProcessDelayedTasks_moves_due in Hpr as (_ & Hr & Hin & _).
  assert (Hu' : u ∈ tasks).
  { apply Hin. exists now. split; [|done]. by rewrite emit_delayed, Hd, lookup_insert_eq. }
  exists u, obj. split; [done|]. split.
  - rewrite Hr. apply elem_of_app. left. by rewrite list_elem_of_In, <- in_rev, <- list_elem_of_In.
  - split; [|done]. unfold member_is_task in Hid. rewrite Ho in Hid. by apply String.eqb_eq in Hid.
Qed.
End Expediting.

(** ** Deletion and lists *)

Definition named (ids : list string) (t : TaskRec) : bool := existsb (fun id => has_id id t) ids.
Definition deleted_at (clock : Z) (ids : list string) (t : TaskRec) : TaskRec :=
  if named ids t && task_live t then mkTaskRec (with_status CommonDeleted (tk_Row t)) (tk_CreatedAt t) clock else t.

(** A deletion by a list of identifiers: exactly the rows that are named and live become
    deleted, nothing else of them changes but the time of the change; each of them is then
    a 404 to every read; and deleting again changes nothing. *)
Theorem BatchDelete_spec clock ids rows :
  exists rows', Service_BatchDelete None clock ids rows = inl (tt, rows') /\ rows' = map (deleted_at clock ids) rows /\
    (forall id prefix, id ∈ ids -> not_found_as prefix id (GetByID None id) rows' = inr (tagged NotFound ("task id: " +:+ id))) /\
    (forall clock', Service_BatchDelete None clock' ids rows' = inl (tt, rows')).
Proof.
  assert (Hrun : forall c rs, Service_BatchDelete None c ids rs = inl (tt, map (deleted_at c ids) rs)).
  { intros c rs. destruct ids as [|id ids']; [|done]. unfold Service_BatchDelete, deleted_at, tx_ret. simpl.
    by rewrite map_id. }
  exists (map (deleted_at clock ids) rows). split; [apply Hrun|]. split; [done|]. split.
  - intros id prefix Hid. rewrite loaded. destruct (List.find _ (map _ rows)) as [t|] eqn:Ef; [|done]. exfalso.
    apply find_some in Ef as [Hin [Hi Hl]%andb_true_iff]. apply in_map_iff in Hin as (x & <- & _).
    unfold deleted_at in Hi, Hl. destruct (named ids x && task_live x) eqn:En; [done|].
    rewrite Hl, andb_true_r in En. apply not_true_iff_false in En. apply En, existsb_elem. by exists id.
  - intros clock'. rewrite Hrun. do 2 f_equal. rewrite map_map. apply map_ext. intros t.
    unfold deleted_at. destruct (named ids t && task_live t) eqn:En; [|by rewrite En].
    by rewrite andb_comm.
Qed.

(** A list of tasks.  Filtering by group or by project always fails, because the table
    has no such columns; otherwise the answer is the page of the rows that match, the
    latest first, with their total number - deleted rows included when no status is asked
    for - and no task shows its group or its project. *)
Theorem Service_List_spec req rows :
  match Service_List None req rows with
  | inr e => lt_GroupID req <> "" \/ 0 < lt_ProjectID req
  | inl (tasks, info, rows') =>
      rows' = rows /\ lt_GroupID req = "" /\ lt_ProjectID req <= 0 /\
      exists all, all ≡ₚ List.filter (task_matches (ToFilterOptions req)) rows /\ Sorted created_later all /\
        tasks = map NewTaskResp (page_rows (ToGormParams (lt_Page req)).1 (ToGormParams (lt_Page req)).2 all) /\
        pi_Total info = Z.of_nat (length all) /\
        Forall (fun resp => tp_GroupID resp = "" /\ tp_ProjectID resp = 0) tasks
  end.
Proof.
  unfold Service_List, Repo_List, read, tx_wrap, tx_on_err, tx_bind.
  destruct (ToGormParams (lt_Page req)) as [limit offset] eqn:Eg. unfold select_tasks. cbn [tf_GroupID tf_ProjectID ToFilterOptions].
  destruct (String.eqb_spec (lt_GroupID req) "") as [Hg|Hg]; cbn [negb]; [|by left].
  destruct (Z.ltb_spec 0 (lt_ProjectID req)); [by right|]. cbn [tx_ret]. unfold tx_ret. cbn [fst snd].
  set (selected := List.filter _ rows). split_and!; [done|done|done|].
  exists (merge_sort created_later selected). split_and!.
  - apply merge_sort_Permutation.
  - apply Sorted_merge_sort. intros a b. unfold created_later. lia.
  - done.
  - unfold ConvertToPaginationInfo. cbn. by rewrite merge_sort_Permutation.
  - apply Forall_forall. intros x Hx. apply list_elem_of_In, in_map_iff in Hx as (t & <- & _). done.
Qed.

(** ** Polling the logs *)

(** What Loki holds of a task, and an answer with all of it from a time on. *)
Definition served_by (store : list LogEntry) (loki : string -> Z -> res (list LogEntry)) (taskID : string) : Prop :=
  forall start, loki taskID start = Ok (List.filter (fun e => start <=? le_Timestamp e) store).

(** A poll resumes where the last one ended: a client that gives the time of the last
    line it has gets exactly the lines that are later, none again; one that has nothing
    gets all the lines since the task was created.  What is lost is a line with the very
    time of the cursor. *)
Theorem PollLogs_resumes loki store taskID after rows resp rows' :
  served_by store loki taskID ->
  PollLogs None loki taskID after rows = inl (resp, rows') ->
  exists t, t ∈ rows /\ has_id taskID t = true /\ rows' = rows /\
    pr_Terminal resp = isTaskTerminal (row_State (tk_Row t)) /\
    pr_Logs resp = List.filter (fun e => match after with
                                         | Some a => if tk_CreatedAt t <? a then a <? le_Timestamp e else tk_CreatedAt t <=? le_Timestamp e
                                         | None => tk_CreatedAt t <=? le_Timestamp e
                                         end) store.
Proof.
  intros Hs. unfold PollLogs, tx_bind. rewrite loaded. destruct (List.find _ rows) as [t|] eqn:Ef; [|done].
  apply find_some in Ef as [Hin [Hid _]%andb_true_iff]. pose proof Hid as Hid'. apply String.eqb_eq in Hid' as ->.
  rewrite Hs. intros [= <- <-]. exists t. split; [by apply list_elem_of_In|]. split; [done|]. split; [done|]. split; [done|].
  cbn [pr_Logs]. apply filter_ext. intros e. unfold poll_start. destruct after as [a|]; [|done].
  destruct (tk_CreatedAt t <? a); [|done]. apply eq_true_iff_eq. rewrite Z.leb_le, Z.ltb_lt. lia.
Qed.

Lemma filter_none {A} (p : A -> bool) l : (forall x, x ∈ l -> p x = false) -> List.filter p l = [].
Proof.
  induction l as [|x l IH]; [done|]. intros H. cbn [List.filter]. rewrite H by by left. apply IH. intros y Hy. apply H. by right.
Qed.
Lemma filter_every {A} (p : A -> bool) l : (forall x, x ∈ l -> p x = true) -> List.filter p l = l.
Proof.
  induction l as [|x l IH]; [done|]. intros H. cbn [List.filter]. rewrite H by by left. f_equal. apply IH. intros y Hy. apply H. by right.
Qed.

(** Two polls in a row give the lines of the store once each: when the first ended with
    the last line there was, the second gives exactly the lines that came since, provided
    that their times are later. *)
Theorem polls_chain loki store1 store2 taskID rows t z resp rows' :
  served_by (store1 ++ store2) loki taskID ->
  tk_CreatedAt t < le_Timestamp z ->
  (forall e, e ∈ store1 -> le_Timestamp e <= le_Timestamp z) -> (forall e, e ∈ store2 -> le_Timestamp z < le_Timestamp e) ->
  List.find (fun t => has_id taskID t && task_live t) rows = Some t ->
  PollLogs None loki taskID (Some (le_Timestamp z)) rows = inl (resp, rows') -> pr_Logs resp = store2.
Proof.
  intros Hs Hc H1 H2 Hf. unfold PollLogs, tx_bind. rewrite loaded, Hf. apply find_some in Hf as [_ [Hid _]%andb_true_iff].
  apply String.eqb_eq in Hid as ->. rewrite Hs. intros [= <- _]. cbn [pr_Logs]. unfold poll_start.
  apply Z.ltb_lt in Hc as ->. rewrite List.filter_app, filter_none, filter_every; [done|..].
  - intros e He. apply H2 in He. apply Z.leb_le. lia.
  - intros e He. apply H1 in He. apply Z.leb_gt. lia.
Qed.

Module TaskServiceSample.
#[local] Existing Instance ToyCodec.toy.
#[local] Existing Instance ToyCodec.toy_laws.
Definition row (id : string) (at_ : Z) (st : TaskState) : TaskRec :=
  mkTaskRec (mkTaskRow id TaskTypeBuildDatapack false at_ "" "" 1 0 st CommonEnabled None "T") 5 6.
Definition rows : list TaskRec := [row "a" 0 TaskCompleted; row "c" 40 TaskPending].
Definition sj (t : Z) (reason : string) : string := reason.
Definition clock : Z := 7 * 10 ^ 9 + 3.
Definition queue : keyspace := QueueSample.two_due.

Definition expedited_queue : keyspace := (Expedite None None sj clock "c" rows queue).2.
Lemma promoted_tasks :
  ProcessDelayedTasks 9 expedited_queue = ((ProcessDelayedTasks 9 expedited_queue).1, Ok ["b"; "a"; "c@7"]).
Proof. vm_compute. reflexivity. Qed.

Lemma Expedite_runs_next_witness :
  exists m obj, m ∈ ["b"; "a"; "c@7"] /\ object_id (Some obj) = "c" /\ marshal_object (<["execute_time" := VInt 7]> obj) = Ok m.
Proof.
  destruct (Expedite_runs_next sj clock "c" rows queue (row "c" 40 TaskPending) 9 (ProcessDelayedTasks 9 expedited_queue).1 ["b"; "a"; "c@7"]) as (m & obj & Hm & _ & Hid & Ho).
  - reflexivity.
  - reflexivity.
  - vm_compute. reflexivity.
  - vm_compute. reflexivity.
  - vm_compute. split; discriminate.
  - exact promoted_tasks.
  - exists m, obj. split; [exact Hm|]. split; [exact Hid|exact Ho].
Defined.

Lemma Expedite_error_keeps_witness :
  (Expedite None (Some (New "deadlock")) sj clock "c" rows queue).1.2 = rows.
Proof.
  destruct (Expedite None (Some (New "deadlock")) sj clock "c" rows queue) as [[[resp|e] rows'] r'] eqn:E.
  - vm_compute in E. discriminate E.
  - exact (proj1 (Expedite_error_keeps sj None (Some (New "deadlock")) clock "c" rows queue e rows' r' E)).
Defined.

Definition store : list LogEntry := [LogSample.entry 8 "one"].
Definition later : list LogEntry := [LogSample.entry 9 "two"; LogSample.entry 11 "three"].
Definition loki (taskID : string) (start : Z) : res (list LogEntry) :=
  Ok (List.filter (fun e => start <=? le_Timestamp e) (store ++ later)).

Lemma polls_chain_witness :
  exists resp rows', PollLogs None loki "c" (Some 8) rows = inl (resp, rows') /\ pr_Logs resp = later.
Proof.
  eexists _, _. split; [reflexivity|].
  apply (polls_chain loki store later "c" rows (row "c" 40 TaskPending) (LogSample.entry 8 "one") _ rows).
  - intros start. reflexivity.
  - simpl. lia.
  - intros e ->%list_elem_of_singleton. simpl. lia.
  - intros e He. simpl. repeat (apply elem_of_cons in He as [->|He]; [simpl; lia|]). by apply not_elem_of_nil in He.
  - reflexivity.
  - reflexivity.
Defined.

Lemma PollLogs_resumes_witness : exists t, t ∈ rows /\ has_id "c" t = true.
Proof.
  destruct (PollLogs None loki "c" None rows) as [[resp rows']|e] eqn:E.
  - destruct (PollLogs_resumes loki (store ++ later) "c" None rows resp rows') as (t & Ht & Hid & _).
    + intros start. reflexivity.
    + exact E.
    + exists t. split; [exact Ht|exact Hid].
  - vm_compute in E. discriminate E.
Defined.
End TaskServiceSample.
