(* ===== verification/Streams.v ===== *)
(** * Streams of events ([module/trace/], [module/group/])

    The workers append the events of a trace to a Redis stream, and the end of each trace
    to the stream of its group.  A client follows one of them by server-sent events: what
    is there already, then what comes, until a processor finds that the trace, or the
    group, is complete.  The XREAD of Redis is an argument, with its laws: it answers the
    oldest entries after an identifier that the stream still has, for a stream that grows at
    its end and loses its oldest entries; and it waits for one when there is none. *)

From Stdlib Require Import QArith Qminmax.
From S2P Require Import Prelude GoStrings Consts Redis Gateway Task TaskQueue TraceUpdate TaskSubmit EventHandler Executors Search Tables TaskService.
#[local] Open Scope Z_scope.

(** ** Messages *)

(** A value of a message: go-redis gives texts. *)
Inductive mvalue :=
| MText (s : string)
| MNil
| MOther.
Record XMessage := mkMessage { xm_ID : string; xm_Values : gmap string mvalue }.

(** What is sent: an event with its identifier, or the end. *)
Inductive sse (E : Type) :=
| Update (id : string) (e : E)
| End_.
Arguments Update {E} id e.
Arguments End_ {E}.

(** How a session ends: complete, answered by an error of the server, stopped after an error
    in the middle, left by the client; or it still waits for the answer of a read. *)
Inductive ending := Completed | ServerError (msg : string) | Stopped | Left | Waits.

(** ** The session: [GetTraceStream] and [GetGroupStream] *)

(** What the two handlers say: when a read fails, when the history cannot be read, when it
    cannot be sent, and when a later read fails. *)
Record session_texts := mkTexts { st_read : string; st_history : string; st_send : string; st_live : string }.

Section Session.
Context {P E : Type} (texts : session_texts).
(** [sendTraceSSEEvents] and [sendGroupSSEEvents]: what goes out, the identifier to go on
    from, whether the stream is complete, and an error. *)
Context (send : P -> list XMessage -> list (sse E) * P * string * bool * option string).
(** The XREAD of each step: after an identifier, of at most so many messages, waiting so many
    nanoseconds or, for zero, for ever; nothing as long as there is no answer.  And whether an
    error is that of the context. *)
Context (xread : nat -> string -> nat -> Z -> option (res (list XMessage))) (cancelled : string -> bool).

Definition from_id (lastID : string) : string := if String.eqb lastID "" then "0" else lastID.
(** [ReadTraceStreamMessages] and [ReadGroupStreamMessages]. *)
Definition read_messages (k : nat) (lastID : string) (count : nat) (block : Z) : option (res (list XMessage)) :=
  res_wrap (st_read texts +:+ "redis XREAD failed: ") <$> xread k (from_id lastID) count block.
Definition second : Z := 1000000000.

Fixpoint live_loop (steps k : nat) (p : P) (lastID : string) : list (sse E) * ending :=
  match steps with
  | O => ([], Left)
  | S steps =>
      match read_messages k lastID 10 second with
      | None => ([], Waits)
      | Some (Err e) => if cancelled e then ([], Left) else ([], ServerError (st_live texts))
      | Some (Ok []) => live_loop steps (S k) p lastID
      | Some (Ok msgs) =>
          match send p msgs with
          | (out, _, _, _, Some _) => (out, Stopped)
          | (out, p', lastID', completed, None) =>
              if completed then (out, Completed)
              else let '(rest, e) := live_loop steps (S k) p' lastID' in (out ++ rest, e)
          end
      end
  end.
(** [steps] is the number of live reads before the client leaves.  The history is read with
    a wait of zero. *)
Definition session (steps : nat) (p : P) (lastID : string) : list (sse E) * ending :=
  match read_messages 0 lastID 100 0 with
  | None => ([], Waits)
  | Some (Err _) => ([], ServerError (st_history texts))
  | Some (Ok []) => live_loop steps 1 p lastID
  | Some (Ok historical) =>
      match send p historical with
      | (out, _, _, _, Some _) => (out, ServerError (st_send texts))
      | (out, p', lastID', completed, None) =>
          if completed then (out, Completed)
          else let '(rest, e) := live_loop steps 1 p' lastID' in (out ++ rest, e)
      end
  end.
End Session.
Definition trace_texts : session_texts :=
  mkTexts "failed to read stream messages: " "Failed to read event history" "Failed to send stream events" "Failed to read stream events".
Definition group_texts : session_texts :=
  mkTexts "failed to read group stream messages: " "Failed to read group event history" "Failed to send group stream events"
    "Failed to read group stream events".

(** ** Events of a trace ([module/trace/stream.go]) *)

(** The payloads that have a type; of a result the algorithm is read, the rest is only
    passed on. *)
Inductive payload_type := ExecutionInfo_ | ExecutionResult_ | DatapackInfo_ | DatapackResult_ | JobMessage_.
#[export] Instance payload_type_eq_dec : EqDecision payload_type.
Proof. solve_decision. Defined.
Record stream_payload := mkPayload { pl_type : payload_type; pl_Algorithm : string; pl_text : string }.

Definition payloadTypeRegistry (event : string) : option payload_type :=
  if String.eqb event EventAlgoRunStarted then Some ExecutionInfo_
  else if String.eqb event EventAlgoRunSucceed || String.eqb event EventAlgoRunFailed then Some ExecutionResult_
  else if String.eqb event EventDatapackBuildStarted then Some DatapackInfo_
  else if String.eqb event EventDatapackBuildSucceed || String.eqb event EventDatapackBuildFailed then Some DatapackResult_
  else if String.eqb event EventJobSucceed || String.eqb event EventJobFailed then Some JobMessage_
  else None.

Record StreamEvent := mkStreamEvent {
  se_TimeStamp : Z; se_TaskID : string; se_TaskType : TaskType; se_FnName : string; se_FileName : string;
  se_Line : Z; se_EventName : string; se_Payload : option stream_payload
}.

Section TraceStream.
(** [json.Unmarshal] at a type: the algorithm, for a result. *)
Context (decode : payload_type -> string -> res string).

Definition parsePayloadByEventType (event text : string) : res (option stream_payload) :=
  match payloadTypeRegistry event with
  | None => Ok None
  | Some ty =>
      let? algorithm := res_wrap ("failed to unmarshal payload for event " +:+ event +:+ ": ") (decode ty text) in
      Ok (Some (mkPayload ty algorithm text))
  end.

Definition bad_key (key : string) : string := "missing or invalid key " +:+ key +:+ " in redis stream message values".
(** A key that may be absent, and holds a text otherwise; [name] is what the error names. *)
Definition text_key (values : gmap string mvalue) (key name : string) : res (option string) :=
  match values !! key with
  | None => Ok None
  | Some (MText s) => Ok (Some s)
  | Some _ => Err (bad_key name)
  end.
Definition parseStreamEvent (id : string) (values : gmap string mvalue) : res StreamEvent :=
  let? taskID := match values !! "task_id" with
                 | Some (MText s) => if String.eqb s "" then Err (bad_key "task_id") else Ok s
                 | _ => Err (bad_key "task_id")
                 end in
  let? timeStamp := or_error (atoi (default "" (head (split "-" id)))) "invalid syntax" in
  let? typeName := text_key values "task_type" "task_type" in
  let? taskType := match typeName with
                   | None => Ok TaskTypeBuildContainer   (* the zero value *)
                   | Some name => or_error (GetTaskTypeByName name) ("unknown task type name: " +:+ name)
                   end in
  let? fnName := text_key values "function_name" "function_name" in
  let? fileName := text_key values "file_name" "task_id" in
  let? lineText := text_key values "line" "line" in
  let? line := match lineText with
               | None => Ok 0
               | Some text => or_error (atoi text) "invalid line number: invalid syntax"
               end in
  let? eventName := text_key values "name" "name" in
  let eventName := default "" eventName in
  let? payload := match values !! "payload" with
                  | None | Some MNil => Ok None
                  | Some (MText text) => match parsePayloadByEventType eventName text with
                                         | Ok payload => Ok payload
                                         | Err _ => Err (bad_key "payload")
                                         end
                  | Some MOther => Err (bad_key "payload")
                  end in
  Ok (mkStreamEvent timeStamp taskID taskType (default "" fnName) (default "" fileName) line eventName payload).

Record StreamProcessor := mkProcessor { sp_isCompleted : bool; sp_algorithmMap : gset string; sp_finishedCount : Z }.
Definition NewStreamProcessor (algorithms : list ContainerVersionItem) : StreamProcessor :=
  mkProcessor false (list_to_set (map cvi_ContainerName algorithms)) 0.

Definition ends_trace (event : string) : bool :=
  existsb (String.eqb event) [EventImageBuildSucceed; EventRestartPedestalFailed; EventFaultInjectionFailed;
    EventDatapackBuildFailed; EventDatapackNoAnomaly; EventDatapackNoDetectorData].
Definition complete (sp : StreamProcessor) (b : bool) : StreamProcessor :=
  mkProcessor b (sp_algorithmMap sp) (sp_finishedCount sp).
Definition ProcessMessageForSSE (sp : StreamProcessor) (msg : XMessage) : StreamProcessor * res (string * StreamEvent) :=
  match parseStreamEvent (xm_ID msg) (xm_Values msg) with
  | Err e => (sp, Err ("failed to parse stream message value: " +:+ e))
  | Ok event =>
      let name := se_EventName event in
      let done sp := (sp, Ok (xm_ID msg, event)) in
      if ends_trace name then done (complete sp true)
      else if String.eqb name EventDatapackResultCollection then
        done (complete sp (size (sp_algorithmMap sp) =? 0)%nat)
      else if String.eqb name EventAlgoResultCollection || String.eqb name EventAlgoRunFailed then
        match se_Payload event with
        | Some payload =>
            if bool_decide (pl_type payload = ExecutionResult_) then
              if (size (sp_algorithmMap sp) =? 0)%nat then done (complete sp true)
              else if bool_decide (pl_Algorithm payload ∈ sp_algorithmMap sp) then
                let count := sp_finishedCount sp + 1 in
                done (mkProcessor (if Z.of_nat (size (sp_algorithmMap sp)) <=? count then true else sp_isCompleted sp)
                        (sp_algorithmMap sp) count)
              else done sp
            else (sp, Err "invalid payload type for task status update event")
        | None => (sp, Err "invalid payload type for task status update event")
        end
      else done sp
  end.

(** The first message that fails ends the stream. *)
Fixpoint send_trace (sp : StreamProcessor) (msgs : list XMessage) (lastID : string)
  : list (sse StreamEvent) * StreamProcessor * string * bool * option string :=
  match msgs with
  | [] => (if sp_isCompleted sp then [End_] else [], sp, lastID, sp_isCompleted sp, None)
  | msg :: rest =>
      match ProcessMessageForSSE sp msg with
      | (sp', Err e) => ([End_], sp', "", true, Some e)
      | (sp', Ok (id, event)) =>
          let '(out, sp2, last, completed, err) := send_trace sp' rest id in (Update id event :: out, sp2, last, completed, err)
      end
  end.
Definition sendTraceSSEEvents (sp : StreamProcessor) (msgs : list XMessage) :=
  match msgs with
  | [] => ([], sp, "", false, Some "no messages to process")
  | _ => send_trace sp msgs ""
  end.
End TraceStream.

(** The algorithms that a trace waits for: those kept in the cache for its group, without
    the detector. *)
Section Algorithms.
Context {R : Type} `{RedisServer R}.
Context (algorithms_json : string -> res (list ContainerVersionItem)) (detector : string).
Definition GetTraceStreamAlgorithms (trace : res TraceRow) : M R (list ContainerVersionItem) :=
  let! trace := m_wrap "failed to fetch trace: " (m_lift trace) in
  let! cached := (if bool_decide (tr_Type trace = TraceTypeFullPipeline)
                  then CheckCachedField InjectionAlgorithmsKey (tr_GroupID trace) else m_ret false) in
  let! algorithms := (if cached
                      then m_wrap "failed to get algorithms from Redis: "
                             (GetHashField algorithms_json [] InjectionAlgorithmsKey (tr_GroupID trace))
                      else m_ret []) in
  m_ret (List.filter (fun a => negb (String.eqb (cvi_ContainerName a) detector)) algorithms).
Definition GetTraceStreamProcessor (trace : res TraceRow) : M R StreamProcessor :=
  let! algorithms := GetTraceStreamAlgorithms trace in m_ret (NewStreamProcessor algorithms).
End Algorithms.

(** An identifier of a stream in a request; empty means from the start. *)
Definition GetTraceStreamReq_Validate (lastID : string) : res string :=
  let lastID := if String.eqb lastID "" then "0" else lastID in
  if String.eqb lastID "0" then Ok lastID
  else
    let l := chars lastID in
    let bad := (Z.of_nat (length l) <? 3) || bool_decide (head l = Some "-"%char) || bool_decide (last l = Some "-"%char)
               || negb (length (List.filter (Ascii.eqb "-") l) =? 1)%nat in
    if bad then Err "invalid last_id format: must be '0' or a valid stream ID (e.g., 1678886400000-0)" else Ok lastID.

(** ** Events of a group ([module/group/]) *)

Record GroupEvent := mkGroupStreamEvent { ge_TraceID : string; ge_State : Z; ge_LastEvent : string }.
(** What the worker publishes, its state in decimal ([MarshalBinary]). *)
Definition group_message (id : string) (e : GroupStreamEvent) : XMessage :=
  mkMessage id {["trace_id" := MText (gse_TraceID e); "state" := MText (itoa (TraceState_code (gse_State e)));
                 "last_event" := MText (gse_LastEvent e)]}.

Record GroupStreamProcessor := mkGroupProcessor { gp_totalTraces : Z; gp_finishedCount : Z }.
Definition NewGroupStreamProcessor (totalTraces : Z) : GroupStreamProcessor := mkGroupProcessor totalTraces 0.
Definition IsCompleted (p : GroupStreamProcessor) : bool :=
  (0 <? gp_totalTraces p) && (gp_totalTraces p <=? gp_finishedCount p).
Definition group_key (key : string) : string := "missing or invalid " +:+ key +:+ " in group stream message".
Definition ProcessGroupMessage (p : GroupStreamProcessor) (msg : XMessage) : GroupStreamProcessor * res GroupEvent :=
  let result :=
    let? traceID := match xm_Values msg !! "trace_id" with
                    | Some (MText s) => if String.eqb s "" then Err (group_key "trace_id") else Ok s
                    | _ => Err (group_key "trace_id")
                    end in
    let? stateStr := match xm_Values msg !! "state" with Some (MText s) => Ok s | _ => Err (group_key "state") end in
    let? state := or_error (atoi stateStr) ("invalid trace state value " +:+ stateStr +:+ " in group stream message: invalid syntax") in
    let? lastEvent := match xm_Values msg !! "last_event" with Some (MText s) => Ok s | _ => Err (group_key "last_event") end in
    Ok (mkGroupStreamEvent traceID state lastEvent) in
  (match result with Ok _ => mkGroupProcessor (gp_totalTraces p) (gp_finishedCount p + 1) | Err _ => p end, result).

(** A message that fails is logged and passed over. *)
Fixpoint send_group (p : GroupStreamProcessor) (msgs : list XMessage) (lastID : string)
  : list (sse GroupEvent) * GroupStreamProcessor * string * bool * option string :=
  match msgs with
  | [] => (if IsCompleted p then [End_] else [], p, lastID, IsCompleted p, None)
  | msg :: rest =>
      let '(p', result) := ProcessGroupMessage p msg in
      let '(out, p2, last, completed, err) := send_group p' rest (xm_ID msg) in
      (match result with Ok e => Update (xm_ID msg) e :: out | Err _ => out end, p2, last, completed, err)
  end.
Definition sendGroupSSEEvents (p : GroupStreamProcessor) (msgs : list XMessage) :=
  match msgs with
  | [] => ([], p, "", false, Some "no messages to process")
  | _ => send_group p msgs ""
  end.

Definition GetGroupStreamReq_Validate (lastID : string) : res string :=
  let lastID := if String.eqb lastID "" then "0" else lastID in
  if String.eqb lastID "0" then Ok lastID
  else if (length (List.filter (Ascii.eqb "-") (chars lastID)) =? 1)%nat then Ok lastID
  else Err "invalid last_id format: must be '0' or a valid stream ID (e.g., 1678886400000-0)".

(** *** The traces of a group and their statistics *)

Record TraceRec := mkTraceRec { gt_Row : TraceRow; gt_Tasks : list TaskRec }.
Definition trace_live (t : TraceRec) : bool := negb (bool_decide (tr_Status (gt_Row t) = CommonDeleted)).
Definition started_later (a b : TraceRec) : Prop := tr_StartTime (gt_Row b) <= tr_StartTime (gt_Row a).
#[export] Instance started_later_dec : RelDecision started_later.
Proof. intros a b. unfold started_later. apply _. Defined.
Definition of_group (groupID : string) (t : TraceRec) : bool := String.eqb (tr_GroupID (gt_Row t)) groupID && trace_live t.
Definition GetTracesByGroupID (groupID : string) (rows : list TraceRec) : list TraceRec :=
  merge_sort started_later (List.filter (of_group groupID) rows).
Definition CountTracesByGroupID (groupID : string) (rows : list TraceRec) : Z :=
  Z.of_nat (length (List.filter (of_group groupID) rows)).
Definition GetGroupTraceCount (groupID : string) (rows : list TraceRec) : res Z :=
  let total := CountTracesByGroupID groupID rows in
  if total =? 0 then Err ("the group " +:+ groupID +:+ " does not exist") else Ok total.
Definition Service_NewGroupStreamProcessor (groupID : string) (rows : list TraceRec) : res GroupStreamProcessor :=
  let? total := GetGroupTraceCount groupID rows in Ok (NewGroupStreamProcessor total).

(** [d.Seconds()] of a number of nanoseconds. *)
Definition Seconds (ns : Z) : Q := (inject_Z ns / inject_Z (10 ^ 9))%Q.
Definition Qsum (l : list Q) : Q := fold_left Qplus l 0%Q.
Definition mean (l : list Q) : Q := (Qsum l / inject_Z (Z.of_nat (length l)))%Q.

Record TraceStatsItem := mkTraceStats {
  ti_TraceID : string; ti_Type : string; ti_State : string; ti_StartTime : Z; ti_EndTime : option Z; ti_CurrentEvent : string;
  ti_CurrentTask : string; ti_TaskTypeDurations : option (gmap string Q)
}.
Definition ended_task (t : TaskRec) : bool :=
  bool_decide (row_State (tk_Row t) = TaskCompleted) || bool_decide (row_State (tk_Row t) = TaskError).
Definition type_name (t : TaskRec) : string := GetTaskTypeName (TaskType_code (row_Type (tk_Row t))).
Definition append_to {A} (m : gmap string (list A)) (key : string) (x : A) : gmap string (list A) :=
  <[key := default [] (m !! key) ++ [x]]> m.
Definition NewTraceStats (t : TraceRec) : TraceStatsItem :=
  let r := gt_Row t in
  let '(current, durations) :=
    match gt_Tasks t with
    | [] => ("", None)
    | first :: _ =>
        let by_type := fold_left (fun m task => if ended_task task then append_to m (type_name task) task else m) (gt_Tasks t) ∅ in
        (row_ID (tk_Row first),
         Some ((fun tasks => mean (map (fun task => Seconds (tk_UpdatedAt task - tk_CreatedAt task)) tasks)) <$> by_type))
    end in
  mkTraceStats (tr_ID r) (GetTraceTypeName (TraceType_code (tr_Type r))) (GetTraceStateName (TraceState_code (tr_State r)))
    (tr_StartTime r) (tr_EndTime r) (tr_LastEvent r) current durations.

Record GroupStats := mkGroupStats {
  gs_TotalTraces : Z; gs_AvgDuration : Q; gs_MinDuration : Q; gs_MaxDuration : Q; gs_TraceStateMap : gmap string (list TraceStatsItem)
}.
Definition NewDefaultGroupStats : GroupStats := mkGroupStats 0 0 0 0 ∅.
(** [slices.Min] and [slices.Max] panic on an empty slice. *)
Definition slices_pick (pick : Q -> Q -> Q) (l : list Q) : outcome Q :=
  match l with [] => Panics | x :: rest => Returns (fold_left pick rest x) end.
Definition durations_of (traces : list TraceRec) : list Q :=
  omap (fun t => (fun e => Seconds (e - tr_StartTime (gt_Row t))) <$> tr_EndTime (gt_Row t)) traces.
Definition state_map (traces : list TraceRec) : gmap string (list TraceStatsItem) :=
  fold_left (fun m t => append_to m (GetTraceStateName (TraceState_code (tr_State (gt_Row t)))) (NewTraceStats t)) traces ∅.
Definition GetGroupStats (groupID : string) (rows : list TraceRec) : outcome GroupStats :=
  let traces := GetTracesByGroupID groupID rows in
  match traces with
  | [] => Returns NewDefaultGroupStats
  | _ =>
      let durations := durations_of traces in
      match slices_pick Qmin durations, slices_pick Qmax durations with
      | Returns lo, Returns hi =>
          Returns (mkGroupStats (Z.of_nat (length traces)) (mean durations) lo hi (state_map traces))
      | _, _ => Panics
      end
  end.

(** *** The handlers: a response with a status, or a session *)

Section Handlers.
Context (IsValidUUID : string -> bool) (decode : payload_type -> string -> res string).
Context (xread : nat -> string -> nat -> Z -> option (res (list XMessage))) (cancelled : string -> bool).

Definition open_stream {P E} (what : string) (texts : session_texts)
    (send : P -> list XMessage -> list (sse E) * P * string * bool * option string)
    (validate : string -> res string) (id lastID : string) (processor : res P) (steps : nat)
  : (Z * string) + (list (sse E) * ending) :=
  if negb (IsValidUUID id) then inl (400, "Invalid " +:+ what +:+ " ID")
  else
    match validate lastID with
    | Err e => inl (400, "Validation failed: " +:+ e)
    | Ok lastID =>
        match processor with
        | Err e => inl (500, "Failed to initialize " +:+ what +:+ " stream: " +:+ e)
        | Ok p => inr (session texts send xread cancelled steps p lastID)
        end
    end.
Definition GetTraceStream := open_stream "trace" trace_texts (sendTraceSSEEvents decode) GetTraceStreamReq_Validate.
Definition GetGroupStream := open_stream "group" group_texts sendGroupSSEEvents GetGroupStreamReq_Validate.
End Handlers.

(** ** Facts on sessions *)

Definition sent_ids {E} (out : list (sse E)) : list string :=
  omap (fun o => match o with Update id _ => Some id | End_ => None end) out.
Lemma sent_ids_app {E} (a b : list (sse E)) : sent_ids (a ++ b) = sent_ids a ++ sent_ids b.
Proof. apply omap_app. Qed.

(** *** Identifiers and reads *)

Section Reads.
(** How Redis reads an identifier: milliseconds and a number. *)
Context (id_of : string -> option (Z * Z)).

Definition id_ltb (a b : Z * Z) : bool := (a.1 <? b.1) || (a.1 =? b.1) && (a.2 <? b.2).
Definition newer (i : Z * Z) (m : XMessage) : bool := match id_of (xm_ID m) with Some j => id_ltb i j | None => false end.
Definition before (a b : XMessage) : Prop := exists i, id_of (xm_ID a) = Some i /\ newer i b = true.
(** The messages of a log after an identifier. *)
Definition after (i : Z * Z) (log : list XMessage) : list XMessage := List.filter (newer i) log.
(** How many are up to it. *)
Definition seen (i : Z * Z) (log : list XMessage) : nat := length (List.filter (fun m => negb (newer i m)) log).

(** A stream at the time when each read is answered: all that was ever published, and how
    many of the oldest entries it has lost. *)
Record stream := mkStream { published : nat -> list XMessage; evicted : nat -> nat }.
Definition kept (s : stream) (k : nat) : list XMessage := drop (evicted s k) (published s k).

(** The laws of a stream whose entries are added with MAXLEN ~ 1000, and of its XREAD: entries
    are added at the end, under growing identifiers; of the oldest, those before the last
    thousand may be gone.  A read that does not fail was given an identifier, and answers the
    oldest entries after it; when there are none it waits, and is answered with nothing only
    when it is not to wait for ever. *)
Record xread_laws (s : stream) (read : nat -> string -> nat -> Z -> option (res (list XMessage))) : Prop := {
  empty_id : id_of "" = None;
  published_grows k : published s k `prefix_of` published s (S k);
  published_ids k : StronglySorted before (published s k);
  evicted_grows k : (evicted s k <= evicted s (S k))%nat;
  evicted_oldest k : (evicted s k <= length (published s k) - 1000)%nat;
  read_answer k lastID n block :
    (exists e, read k lastID n block = Some (Err e)) \/
    exists i, id_of lastID = Some i /\
      read k lastID n block = match after i (kept s k) with
                              | [] => if block =? 0 then None else Some (Ok [])
                              | new => Some (Ok (take n new))
                              end
}.

Lemma id_ltb_trans a b c : id_ltb a b = true -> id_ltb b c = true -> id_ltb a c = true.
Proof. unfold id_ltb. rewrite !orb_true_iff, !andb_true_iff, !Z.ltb_lt, !Z.eqb_eq. lia. Qed.
Lemma id_ltb_irrefl a : id_ltb a a = false.
Proof. unfold id_ltb. rewrite !Z.ltb_irrefl. by rewrite andb_false_r. Qed.
Lemma newer_trans i a b : newer i a = true -> before a b -> newer i b = true.
Proof.
  intros Ha (j & Hj & Hb). unfold newer in *. rewrite Hj in Ha. destruct (id_of (xm_ID b)); [|done]. by eapply id_ltb_trans.
Qed.
Lemma before_not a b : before a b -> ~ before b a.
Proof.
  intros (i & Hi & Hb) Hba. pose proof (newer_trans _ _ _ Hb Hba) as Ha. unfold newer in Ha. rewrite Hi, id_ltb_irrefl in Ha. done.
Qed.
Lemma sorted_all_newer i a l : StronglySorted before (a :: l) -> newer i a = true -> seen i l = 0%nat.
Proof.
  intros [_ Hall]%StronglySorted_inv Ha. unfold seen. induction Hall as [|b l Hb _ IH]; [done|].
  cbn [List.filter]. by rewrite (newer_trans i a b).
Qed.
Lemma after_drop i l c : StronglySorted before l -> after i (drop c l) = drop (Nat.max c (seen i l)) l.
Proof.
  revert c. induction l as [|a l IH]; intros c Hs; [by rewrite !drop_nil|].
  pose proof (proj1 (StronglySorted_inv Hs)) as Hl. unfold seen. cbn [List.filter]. destruct (newer i a) eqn:Ea; cbn [negb].
  - pose proof (sorted_all_newer i a l Hs Ea) as H0. fold (seen i l). rewrite H0, Nat.max_0_r. destruct c as [|c].
    + cbn [drop after List.filter]. unfold after. cbn [List.filter]. rewrite Ea. f_equal.
      specialize (IH 0%nat Hl). by rewrite H0 in IH.
    + cbn [drop]. rewrite IH, H0 by done. by rewrite Nat.max_0_r.
  - cbn [length]. fold (seen i l). destruct c as [|c].
    + cbn [drop Nat.max]. unfold after. cbn [List.filter]. rewrite Ea. exact (IH 0%nat Hl).
    + cbn [drop Nat.max]. by apply IH.
Qed.
Lemma after_suffix i l : StronglySorted before l -> after i l = drop (seen i l) l.
Proof. exact (after_drop i l 0). Qed.
Lemma seen_app i l l' : seen i (l ++ l') = (seen i l + seen i l')%nat.
Proof. unfold seen. by rewrite List.filter_app, length_app. Qed.
Lemma seen_le i l : (seen i l <= length l)%nat.
Proof. unfold seen. apply List.filter_length_le. Qed.
(** What comes later is not among the seen, unless all that was there before is. *)
Lemma seen_prefix i l l' : StronglySorted before (l ++ l') -> seen i l = Nat.min (seen i (l ++ l')) (length l).
Proof.
  rewrite seen_app. induction l as [|a l IH]; intros Hs; [cbn; lia|]. cbn [app] in Hs.
  pose proof (proj1 (StronglySorted_inv Hs)) as Hl. specialize (IH Hl). unfold seen in *. cbn [List.filter length].
  destruct (newer i a) eqn:Ea; cbn [negb length]; [|lia].
  pose proof (sorted_all_newer i a (l ++ l') Hs Ea) as H0. rewrite seen_app in H0. unfold seen in H0. lia.
Qed.
Lemma sorted_before l p q a b : StronglySorted before l -> l !! p = Some a -> l !! q = Some b -> (p < q)%nat -> before a b.
Proof.
  intros Hs. revert p q. induction Hs as [|x l _ IH Hall]; intros p q Ha Hb Hpq; [done|].
  destruct p as [|p], q as [|q]; try lia; cbn in Ha, Hb.
  - injection Ha as ->. rewrite Forall_lookup in Hall. by eapply Hall.
  - apply (IH p q); [done..|lia].
Qed.
Lemma seen_at l p m i : StronglySorted before l -> l !! p = Some m -> id_of (xm_ID m) = Some i -> seen i l = S p.
Proof.
  intros Hs. revert p. induction Hs as [|x l Hs IH Hall]; intros p Hp Hi; [done|].
  destruct p as [|p]; cbn in Hp.
  - injection Hp as ->. unfold seen. cbn [List.filter].
    assert (newer i m = false) as -> by (unfold newer; rewrite Hi; apply id_ltb_irrefl). cbn [negb length]. f_equal.
    fold (seen i l). destruct l as [|b l]; [done|].
    apply Forall_cons in Hall as [(i' & Hi' & Hb) _]. rewrite Hi in Hi'. injection Hi' as <-.
    pose proof (sorted_all_newer i b l Hs Hb) as H0. unfold seen in *. cbn [List.filter]. by rewrite Hb.
  - unfold seen. cbn [List.filter]. assert (newer i x = false) as ->.
    { apply not_true_iff_false. intros Hx. rewrite Forall_lookup in Hall. specialize (Hall p m Hp).
      pose proof (newer_trans _ _ _ Hx Hall) as Hm. unfold newer in Hm. by rewrite Hi, id_ltb_irrefl in Hm. }
    cbn [negb length]. f_equal. by apply IH.
Qed.

(** *** What a follower gets of a log *)

(** From the position [q] of the log [l] to [q'], where it misses only some of the first [c]. *)
Inductive follows (l : list XMessage) (c : nat) : nat -> list XMessage -> nat -> Prop :=
| follows_stop q : follows l c q [] q
| follows_read q a n got q' :
    (q <= a)%nat -> (a = q \/ a <= c)%nat -> (a + n <= length l)%nat -> follows l c (a + n) got q' ->
    follows l c q (take n (drop a l) ++ got) q'.

Lemma follows_sublist l c q got q' : follows l c q got q' -> got `sublist_of` drop q l.
Proof.
  induction 1 as [q|q a n got q' Hqa _ _ _ IH]; [apply sublist_nil_l|].
  replace (drop q l) with (take (a - q) (drop q l) ++ take n (drop a l) ++ drop (a + n) l).
  - apply sublist_inserts_l. by apply sublist_app.
  - rewrite <- drop_drop, take_drop. replace a with (q + (a - q))%nat at 2 by lia. by rewrite <- drop_drop, take_drop.
Qed.
Lemma follows_prefix l c q got q' : follows l c q got q' -> (c <= q)%nat -> got `prefix_of` drop q l.
Proof.
  induction 1 as [q|q a n got q' Hqa Hc _ _ IH]; intros Hq; [apply prefix_nil|].
  assert (a = q) as -> by lia. rewrite <- (take_drop n (drop q l)) at 2. rewrite drop_drop. apply prefix_app, IH. lia.
Qed.
(** Up to where it stands, it has got everything that is not among the first [c]. *)
Lemma follows_all l c q got q' p m : follows l c q got q' -> (q <= p < q')%nat -> l !! p = Some m -> m ∈ got \/ m ∈ take c l.
Proof.
  intros Hf. revert p m. induction Hf as [q|q a n got q' Hqa Hc _ _ IH]; intros p m Hp Hm; [lia|].
  destruct (decide (p < a)%nat) as [Hpa|Hpa].
  - right. apply (list_elem_of_lookup_2 _ p). rewrite lookup_take_lt; [done|lia].
  - destruct (decide (p < a + n)%nat) as [Hpn|Hpn].
    + left. apply elem_of_app. left. apply (list_elem_of_lookup_2 _ (p - a)). rewrite lookup_take_lt, lookup_drop by lia.
      by replace (a + (p - a))%nat with p by lia.
    + destruct (IH p m) as [?|?]; [lia|done| |by right]. left. apply elem_of_app. by right.
Qed.
Lemma follows_within l c q got q' m : follows l c q got q' -> m ∈ got -> exists p, (q <= p < q')%nat /\ l !! p = Some m.
Proof.
  induction 1 as [q|q a n got q' Hqa Hc Hn Hf IH]; [by intros ?%not_elem_of_nil|].
  assert (Hle : (a + n <= q')%nat) by (clear -Hf; induction Hf; lia).
  intros [Hin|Hin]%elem_of_app.
  - apply list_elem_of_lookup in Hin as [p Hp]. apply lookup_take_Some in Hp as [Hp Hlt]. rewrite lookup_drop in Hp.
    exists (a + p)%nat. split; [lia|done].
  - destruct (IH Hin) as (p & Hp & Hm). exists p. split; [lia|done].
Qed.
End Reads.

Section SessionFacts.
Context {P E : Type} (texts : session_texts) (send : P -> list XMessage -> list (sse E) * P * string * bool * option string).
(** What a batch of good messages sends: all of them when there is no error, and a first
    part of them when there is; the next read starts after the last one. *)
Context (good : XMessage -> Prop).
Context (send_ok : forall p msgs out p' last c, Forall good msgs -> msgs <> [] -> send p msgs = (out, p', last, c, None) ->
  sent_ids out = map xm_ID msgs /\ exists msg, list.last msgs = Some msg /\ last = xm_ID msg).
Context (send_err : forall p msgs out p' last c e, Forall good msgs -> send p msgs = (out, p', last, c, Some e) ->
  sent_ids out `prefix_of` map xm_ID msgs).
Context (id_of : string -> option (Z * Z)) (s : stream) (read : nat -> string -> nat -> Z -> option (res (list XMessage))).
Context (laws : xread_laws id_of s read) (Hgood : forall k, Forall good (published s k)) (cancelled : string -> bool).
(** The last read, and all that was published by then. *)
Context (K : nat).
Abbreviation whole := (published s K).
Abbreviation lost := (evicted s K).
Abbreviation seen := (seen id_of).

Lemma published_le k : (k <= K)%nat -> exists rest, whole = published s k ++ rest.
Proof.
  intros [d ->]%Nat.le_sum. clear Hgood. induction d as [|d [r Hr]]; [exists []; by rewrite Nat.add_0_r, app_nil_r|].
  rewrite Nat.add_succ_r. destruct (published_grows _ _ _ laws (k + d)) as [r' Hr']. exists (r ++ r'). by rewrite Hr', Hr, app_assoc.
Qed.
Lemma evicted_le k : (k <= K)%nat -> (evicted s k <= lost)%nat.
Proof.
  intros [d ->]%Nat.le_sum. induction d as [|d IH]; [by rewrite Nat.add_0_r|].
  rewrite Nat.add_succ_r. pose proof (evicted_grows _ _ _ laws (k + d)). lia.
Qed.
(** What is there to be read, by positions. *)
Lemma available k i : (k <= K)%nat ->
  after id_of i (kept s k) = drop (Nat.max (evicted s k) (seen i whole)) (published s k).
Proof.
  intros HK. unfold kept. rewrite (after_drop id_of) by apply (published_ids _ _ _ laws). destruct (published_le k HK) as [rest Hrest].
  pose proof (published_ids _ _ _ laws K) as Hs. rewrite Hrest in Hs. pose proof (seen_prefix id_of i _ _ Hs) as Hp. rewrite <- Hrest in Hp.
  rewrite Hp. destruct (le_lt_dec (seen i whole) (length (published s k))).
  - by rewrite Nat.min_l.
  - rewrite !drop_ge; [done|lia|lia].
Qed.

(** A read: it fails, or answers a part of the whole log, after which the session stands. *)
Lemma read_batch k lastID n block i : (k <= K)%nat -> (0 < n)%nat -> id_of (from_id lastID) = Some i ->
  let a := Nat.max (evicted s k) (seen i whole) in
  (exists e, read_messages texts read k lastID n block = Some (Err e) /\ exists e0, read k (from_id lastID) n block = Some (Err e0)) \/
  ((length (published s k) <= a)%nat /\ read_messages texts read k lastID n block = if block =? 0 then None else Some (Ok [])) \/
  exists m, (0 < m)%nat /\ m = Nat.min n (length (published s k) - a) /\ (a + m <= length (published s k))%nat /\ Forall good (take m (drop a whole)) /\
    read_messages texts read k lastID n block = Some (Ok (take m (drop a whole))).
Proof.
  intros HK Hn Hi a. unfold read_messages. destruct (read_answer _ _ _ laws k (from_id lastID) n block) as [[e He]|(i' & Hi' & Hr)].
  { left. rewrite He. eexists. split; [reflexivity|eauto]. }
  right. rewrite Hi in Hi'. injection Hi' as <-. rewrite available in Hr by done. fold a in Hr.
  destruct (drop a (published s k)) as [|m0 new] eqn:Ed.
  { left. apply (f_equal length) in Ed. rewrite length_drop in Ed. cbn in Ed. split; [lia|]. rewrite Hr. by destruct (block =? 0). }
  right. exists (Nat.min n (length (published s k) - a)). rewrite <- Ed in Hr.
  assert (Hlen : (0 < length (published s k) - a)%nat) by (rewrite <- length_drop, Ed; cbn; lia).
  destruct (published_le k HK) as [rest Hrest].
  assert (take (Nat.min n (length (published s k) - a)) (drop a whole) = take n (drop a (published s k))) as ->.
  { rewrite Hrest, drop_app_le, <- length_drop by lia. rewrite take_app_le by lia.
    destruct (le_lt_dec n (length (drop a (published s k)))); [by rewrite Nat.min_l|].
    rewrite Nat.min_r by lia. by rewrite !take_ge by lia. }
  split; [lia|]. split; [done|]. split; [lia|]. split; [apply Forall_take, Forall_drop, Hgood|]. by rewrite Hr.
Qed.
(** Where the session stands after a batch. *)
Lemma last_stands a m msg i : (0 < m)%nat -> (a + m <= length whole)%nat -> newer id_of i msg = true ->
  list.last (take m (drop a whole)) = Some msg -> exists j, id_of (from_id (xm_ID msg)) = Some j /\ seen j whole = (a + m)%nat.
Proof.
  intros Hm Ha Hnew Hl. assert (exists j, id_of (xm_ID msg) = Some j) as [j Hj] by (unfold newer in Hnew; destruct (id_of _); [eauto|done]).
  exists j. split.
  - unfold from_id. destruct (String.eqb_spec (xm_ID msg) "") as [E0|]; [|done]. rewrite E0, (empty_id _ _ _ laws) in Hj. done.
  - rewrite last_lookup, length_take, length_drop in Hl. rewrite lookup_take_lt, lookup_drop in Hl by lia.
    rewrite (seen_at id_of whole (a + (m - 1)) msg j); [lia|apply (published_ids _ _ _ laws)| |done]. rewrite <- Hl. f_equal. lia.
Qed.
Lemma whole_newer i p msg : (seen i whole <= p)%nat -> whole !! p = Some msg -> newer id_of i msg = true.
Proof.
  intros Hp Hm. assert (msg ∈ after id_of i whole) as Hin.
  { rewrite after_suffix by apply (published_ids _ _ _ laws). apply (list_elem_of_lookup_2 _ (p - seen i whole)). rewrite lookup_drop.
    rewrite <- Hm. f_equal. lia. }
  apply list_elem_of_In, filter_In in Hin. tauto.
Qed.
(** What one batch sends. *)
Lemma batch_sent i a m p out p' last' c err :
  (0 < m)%nat -> (a + m <= length whole)%nat -> (seen i whole <= a)%nat -> Forall good (take m (drop a whole)) ->
  send p (take m (drop a whole)) = (out, p', last', c, err) ->
  (exists j, (j <= m)%nat /\ sent_ids out = map xm_ID (take j (drop a whole))) /\
  (err = None -> sent_ids out = map xm_ID (take m (drop a whole)) /\ exists j, id_of (from_id last') = Some j /\ seen j whole = (a + m)%nat).
Proof.
  intros Hm Ha Hi Hg Es. assert (Hlen : length (take m (drop a whole)) = m) by (rewrite length_take, length_drop; lia).
  destruct err as [e|].
  - split; [|done]. destruct (send_err _ _ _ _ _ _ _ Hg Es) as [l Hl]. exists (Nat.min (length (sent_ids out)) m). split; [lia|].
    rewrite <- take_take, <- firstn_map, Hl, take_app_length. done.
  - assert (Hne : take m (drop a whole) <> []) by (intros Hz; rewrite Hz in Hlen; cbn in Hlen; lia).
    destruct (send_ok _ _ _ _ _ _ Hg Hne Es) as (Hids & msg & Hlast & ->). split; [by exists m|]. intros _. split; [done|].
    apply (last_stands a m msg i); [done..| |done].
    rewrite last_lookup, Hlen, lookup_take_lt, lookup_drop in Hlast by lia. by apply (whole_newer i (a + Nat.pred m)); [lia|].
Qed.

(** No read after an identifier fails. *)
Definition reliable : Prop := forall k lastID i n block e, id_of lastID = Some i -> read k lastID n block <> Some (Err e).

(** What the session has sent when it stood at [q], and that it keeps up with its reads. *)
Definition sent_from (q bound : nat) (r : list (sse E) * ending) : Prop :=
  exists got q', follows whole lost q got q' /\ sent_ids r.1 = map xm_ID got /\ (reliable -> r.2 = Left -> (bound <= q')%nat).
Lemma sent_part q a m j bound (out : list (sse E)) e : (q <= a)%nat -> (a = q \/ a <= lost)%nat -> (a + m <= length whole)%nat -> (j <= m)%nat ->
  sent_ids out = map xm_ID (take j (drop a whole)) -> e <> Left -> sent_from q bound (out, e).
Proof.
  intros Hq Ha Hm Hj Hs He. exists (take j (drop a whole) ++ []), (a + j)%nat. split; [|split; [by rewrite app_nil_r|done]].
  apply follows_read; [done..|lia|constructor].
Qed.
Lemma sent_then q a m bound (out : list (sse E)) r : (q <= a)%nat -> (a = q \/ a <= lost)%nat -> (a + m <= length whole)%nat ->
  sent_ids out = map xm_ID (take m (drop a whole)) -> sent_from (a + m) bound r -> sent_from q bound (let '(rest, e) := r in (out ++ rest, e)).
Proof.
  destruct r as [rest e]. intros Hq Ha Hm Hs (got & q' & Hf & Hsent & Hup). cbn [fst snd] in *.
  exists (take m (drop a whole) ++ got), q'. split; [by apply follows_read|]. cbn [fst snd]. by rewrite sent_ids_app, map_app, Hs, Hsent.
Qed.

Lemma live_loop_sent steps k p lastID i : (k + steps <= K)%nat -> id_of (from_id lastID) = Some i ->
  sent_from (seen i whole) (Nat.min (seen i whole + 10 * steps) (length (published s k))) (live_loop texts send read cancelled steps k p lastID).
Proof.
  revert k p lastID i. induction steps as [|steps IH]; intros k p lastID i HK Hi; cbn [live_loop].
  { exists [], (seen i whole). split; [constructor|]. split; [done|]. intros _ _. lia. }
  assert (Hgrow : (length (published s k) <= length (published s (S k)))%nat) by apply prefix_length, (published_grows _ _ _ laws).
  pose proof (evicted_le k ltac:(lia)) as Hev. destruct (published_le k ltac:(lia)) as [rest Hrest].
  assert (Hwhole : (length (published s k) <= length whole)%nat) by (rewrite Hrest, length_app; lia).
  destruct (read_batch k lastID 10 second i ltac:(lia) ltac:(lia) Hi) as [(e & -> & e0 & He0)|[[Hle ->]|(m & Hm & Em & Ha & Hg & ->)]].
  - destruct (cancelled e); exists [], (seen i whole); (split; [constructor|]); (split; [done|]); [|done]. intros Hr. by apply (Hr _ _ _ _ _ _ Hi) in He0.
  - destruct (IH (S k) p lastID i ltac:(lia) Hi) as (got & q' & Hf & Hs & Hup). exists got, q'. split; [done|]. split; [done|].
    intros Hr He. specialize (Hup Hr He). pose proof (evicted_oldest _ _ _ laws k). lia.
  - set (a := Nat.max (evicted s k) (seen i whole)) in *. assert (Haq : (a = seen i whole \/ a <= lost)%nat) by lia.
    destruct (take m (drop a whole)) as [|m0 ms0] eqn:Et.
    { apply (f_equal length) in Et. rewrite length_take, length_drop in Et. cbn in Et. lia. }
    rewrite <- Et in *. destruct (send p (take m (drop a whole))) as [[[[out p'] last'] c] err] eqn:Es.
    destruct (batch_sent i a m p out p' last' c err Hm ltac:(lia) ltac:(lia) Hg Es) as [(j & Hj & Hpart) Hnext].
    destruct err as [e|]; [by apply (sent_part _ a m j); [lia|done|lia|..]|].
    destruct c; [by apply (sent_part _ a m j); [lia|done|lia|..]|].
    destruct (Hnext eq_refl) as (Hall & i' & Hi' & Hat). specialize (IH (S k) p' last' i' ltac:(lia) Hi'). rewrite Hat in IH.
    apply (sent_then _ a m); [lia|done|lia|done|]. destruct IH as (got & q' & Hf & Hs & Hup). exists got, q'. split; [done|]. split; [done|].
    intros Hr He. specialize (Hup Hr He). lia.
Qed.
Lemma session_sent steps p lastID i : (S steps <= K)%nat -> id_of (from_id lastID) = Some i ->
  sent_from (seen i whole) (Nat.min (seen i whole + 100 + 10 * steps) (length (published s 0))) (session texts send read cancelled steps p lastID).
Proof.
  intros HK Hi. unfold session.
  assert (Hgrow : (length (published s 0) <= length (published s 1))%nat) by apply prefix_length, (published_grows _ _ _ laws).
  pose proof (evicted_le 0 ltac:(lia)) as Hev. destruct (published_le 0 ltac:(lia)) as [rest Hrest].
  assert (Hwhole : (length (published s 0) <= length whole)%nat) by (rewrite Hrest, length_app; lia).
  destruct (read_batch 0 lastID 100 0 i ltac:(lia) ltac:(lia) Hi) as [(e & -> & _)|[[Hle ->]|(m & Hm & Em & Ha & Hg & ->)]].
  - exists [], (seen i whole). split; [constructor|]. done.
  - exists [], (seen i whole). split; [constructor|]. done.
  - set (a := Nat.max (evicted s 0) (seen i whole)) in *. assert (Haq : (a = seen i whole \/ a <= lost)%nat) by lia.
    destruct (take m (drop a whole)) as [|m0 ms0] eqn:Et.
    { apply (f_equal length) in Et. rewrite length_take, length_drop in Et. cbn in Et. lia. }
    rewrite <- Et in *. destruct (send p (take m (drop a whole))) as [[[[out p'] last'] c] err] eqn:Es.
    destruct (batch_sent i a m p out p' last' c err Hm ltac:(lia) ltac:(lia) Hg Es) as [(j & Hj & Hpart) Hnext].
    destruct err as [e|]; [by apply (sent_part _ a m j); [lia|done|lia|..]|].
    destruct c; [by apply (sent_part _ a m j); [lia|done|lia|..]|].
    destruct (Hnext eq_refl) as (Hall & i' & Hi' & Hat). pose proof (live_loop_sent steps 1 p' last' i' ltac:(lia) Hi') as Hl. rewrite Hat in Hl.
    apply (sent_then _ a m); [lia|done|lia|done|]. destruct Hl as (got & q' & Hf & Hs & Hup). exists got, q'. split; [done|]. split; [done|].
    intros Hr He. specialize (Hup Hr He). lia.
Qed.

Lemma live_loop_answered steps k p lastID : (live_loop texts send read cancelled steps k p lastID).2 <> Waits.
Proof.
  revert k p lastID. induction steps as [|steps IH]; intros k p lastID; [done|]. cbn [live_loop]. unfold read_messages.
  assert (exists r, read k (from_id lastID) 10 second = Some r) as [r ->].
  { destruct (read_answer _ _ _ laws k (from_id lastID) 10 second) as [[e ->]|(i & _ & ->)]; [by eexists|]. destruct (after _ _ _); by eexists. }
  cbn. destruct r as [[|m msgs]|e]; cbn; [apply IH| |by destruct (cancelled _)].
  destruct (send p (m :: msgs)) as [[[[out p'] last'] c] [e|]]; [done|]. destruct c; [done|].
  specialize (IH (S k) p' last'). by destruct (live_loop _ _ _ _ _ _ _ _).
Qed.
Lemma session_waits steps p lastID i : id_of (from_id lastID) = Some i -> (session texts send read cancelled steps p lastID).2 = Waits ->
  (session texts send read cancelled steps p lastID).1 = [] /\ after id_of i (kept s 0) = [].
Proof.
  intros Hi. unfold session, read_messages. destruct (read_answer _ _ _ laws 0 (from_id lastID) 100 0) as [[e ->]|(i' & Hi' & ->)]; [done|].
  rewrite Hi in Hi'. injection Hi' as <-. destruct (after id_of i (kept s 0)) as [|m0 new]; [done|]. cbn.
  match goal with |- context [send p ?b] => destruct (send p b) as [[[[out p'] last'] c] [e|]] end; [done|]. destruct c; [done|].
  pose proof (live_loop_answered steps 1 p' last') as Hl. by destruct (live_loop _ _ _ _ _ _ _ _).
Qed.
End SessionFacts.

(** What a client that follows a stream is sent, [l], of all that was published up to the read
    [K]: messages after its identifier, in order and each once; one that is passed over was
    lost by the stream; and none is as long as there are no more than a thousand. *)
Record followed (id_of : string -> option (Z * Z)) (s : stream) (i : Z * Z) (K : nat) (l : list XMessage) : Prop := {
  followed_part : l `sublist_of` after id_of i (published s K);
  followed_gap m m' : m ∈ after id_of i (published s K) -> m' ∈ l -> before id_of m m' ->
    m ∈ l \/ m ∈ take (evicted s K) (published s K);
  followed_thousand : (length (after id_of i (published s K)) <= 1000)%nat -> l `prefix_of` after id_of i (published s K)
}.

Section SessionFollowed.
Context {P E : Type} (texts : session_texts) (send : P -> list XMessage -> list (sse E) * P * string * bool * option string).
Context (good : XMessage -> Prop).
Context (send_ok : forall p msgs out p' last c, Forall good msgs -> msgs <> [] -> send p msgs = (out, p', last, c, None) ->
  sent_ids out = map xm_ID msgs /\ exists msg, list.last msgs = Some msg /\ last = xm_ID msg).
Context (send_err : forall p msgs out p' last c e, Forall good msgs -> send p msgs = (out, p', last, c, Some e) ->
  sent_ids out `prefix_of` map xm_ID msgs).
Context (id_of : string -> option (Z * Z)) (s : stream) (read : nat -> string -> nat -> Z -> option (res (list XMessage))).
Context (laws : xread_laws id_of s read) (Hgood : forall k, Forall good (published s k)) (cancelled : string -> bool).

Lemma follows_followed i K l q' : follows (published s K) (evicted s K) (seen id_of i (published s K)) l q' -> followed id_of s i K l.
Proof.
  intros Hf. pose proof (published_ids _ _ _ laws K) as Hs. pose proof (after_suffix id_of i _ Hs) as Ha. split; rewrite Ha.
  - by apply (follows_sublist _ _ _ _ _ Hf).
  - intros m m' Hm Hm' Hb. apply list_elem_of_lookup in Hm as [j Hj]. rewrite lookup_drop in Hj.
    destruct (follows_within _ _ _ _ _ _ Hf Hm') as (p' & Hp' & Hlk). apply (follows_all _ _ _ _ _ (seen id_of i (published s K) + j) _ Hf); [|done].
    destruct (Nat.lt_trichotomy (seen id_of i (published s K) + j) p') as [?|[E0|Hgt]]; [lia| |].
    + rewrite E0, Hlk in Hj. injection Hj as ->. exfalso. by apply (before_not id_of m m).
    + exfalso. apply (before_not id_of _ _ Hb). by apply (sorted_before id_of _ p' (seen id_of i (published s K) + j) _ _ Hs).
  - rewrite length_drop. intros Hlen. apply (follows_prefix _ _ _ _ _ Hf). pose proof (evicted_oldest _ _ _ laws K). lia.
Qed.
(** Everything there was at first, as far as the reads go, is sent or lost. *)
Lemma caught_up i K n l q' m : follows (published s K) (evicted s K) (seen id_of i (published s K)) l q' ->
  (Nat.min (seen id_of i (published s K) + n) (length (published s 0)) <= q')%nat -> m ∈ take n (after id_of i (published s 0)) ->
  m ∈ l \/ m ∈ take (evicted s K) (published s K).
Proof.
  intros Hf Hq Hm. destruct (published_le id_of s read laws K 0 ltac:(lia)) as [rest Hrest].
  pose proof (published_ids _ _ _ laws K) as Hs. pose proof Hs as Hs'. rewrite Hrest in Hs'.
  pose proof (seen_prefix id_of i _ _ Hs') as Hp. rewrite <- Hrest in Hp.
  rewrite after_suffix in Hm by apply (published_ids _ _ _ laws). apply list_elem_of_lookup in Hm as [j Hj].
  apply lookup_take_Some in Hj as [Hj Hlt]. rewrite lookup_drop in Hj. pose proof (lookup_lt_Some _ _ _ Hj) as Hl.
  apply (follows_all _ _ _ _ _ (seen id_of i (published s 0) + j) _ Hf); [lia|]. rewrite Hrest. by apply lookup_app_l_Some.
Qed.

Definition session_outcome (steps : nat) (lastID : string) (r : list (sse E) * ending) : Prop :=
  match id_of (from_id lastID) with
  | None => r = ([], ServerError (st_history texts))
  | Some i =>
      exists l, sent_ids r.1 = map xm_ID l /\ followed id_of s i (S steps) l /\
        (r.2 = Waits -> l = [] /\ after id_of i (kept s 0) = []) /\
        (reliable id_of read -> r.2 = Left -> forall m, m ∈ take (100 + 10 * steps) (after id_of i (published s 0)) ->
           m ∈ l \/ m ∈ take (evicted s (S steps)) (published s (S steps)))
  end.
Lemma session_followed steps p lastID : session_outcome steps lastID (session texts send read cancelled steps p lastID).
Proof.
  unfold session_outcome. destruct (id_of (from_id lastID)) as [i|] eqn:Hi.
  - destruct (session_sent texts send good send_ok send_err id_of s read laws Hgood cancelled (S steps) steps p lastID i (Nat.le_refl _) Hi)
      as (l & q' & Hf & Hs & Hup).
    exists l. split; [done|]. split; [by eapply follows_followed|]. split.
    + intros Hw. destruct (session_waits texts send id_of s read laws cancelled steps p lastID i Hi Hw) as [H0 Ha]. split; [|done].
      rewrite H0 in Hs. by destruct l.
    + intros Hr He m Hm. eapply caught_up; [done| |done]. rewrite Nat.add_assoc. by apply Hup.
  - unfold session, read_messages. by destruct (read_answer _ _ _ laws 0 (from_id lastID) 100 0) as [[e ->]|(i' & Hi' & _)]; [|rewrite Hi in Hi'].
Qed.
End SessionFollowed.

(** ** Facts on the stream of a trace *)

Section TraceFacts.
Context (decode : payload_type -> string -> res string).
Abbreviation process := (ProcessMessageForSSE decode).

Lemma process_id sp msg sp' id event : process sp msg = (sp', Ok (id, event)) -> id = xm_ID msg.
Proof.
  unfold ProcessMessageForSSE. destruct (parseStreamEvent _ _ _) as [ev|e]; [|done].
  repeat case_match; intros; simplify_eq; done.
Qed.

Lemma send_trace_ids sp msgs last0 out sp' last c err :
  send_trace decode sp msgs last0 = (out, sp', last, c, err) ->
  match err with
  | None => sent_ids out = map xm_ID msgs /\ last = default last0 (xm_ID <$> list.last msgs)
  | Some _ => sent_ids out `prefix_of` map xm_ID msgs
  end.
Proof.
  revert sp last0 out sp' last c err. induction msgs as [|msg msgs IH]; intros sp last0 out sp' last c err; cbn [send_trace].
  - intros [= <- <- <- <- <-]. by destruct (sp_isCompleted sp).
  - destruct (process sp msg) as [sp1 [[id event]|e]] eqn:Ep.
    2: { intros [= <- <- <- <- <-]. apply prefix_nil. }
    apply process_id in Ep as ->.
    destruct (send_trace decode sp1 msgs (xm_ID msg)) as [[[[out1 sp2] last1] c1] err1] eqn:Es.
    intros [= <- <- <- <- <-]. specialize (IH _ _ _ _ _ _ _ Es). destruct err1 as [e|].
    + by apply prefix_cons.
    + destruct IH as [Hi Hl]. split; [by simpl; f_equal|]. rewrite Hl. destruct msgs as [|m2 msgs]; [done|].
      rewrite last_cons_cons. destruct (list.last (m2 :: msgs)) eqn:E; [done|by apply last_None in E].
Qed.

Lemma trace_send_ok p msgs out p' last c : msgs <> [] -> sendTraceSSEEvents decode p msgs = (out, p', last, c, None) ->
  sent_ids out = map xm_ID msgs /\ exists msg, list.last msgs = Some msg /\ last = xm_ID msg.
Proof.
  intros Hne Hs. destruct msgs as [|m msgs]; [done|]. cbn [sendTraceSSEEvents] in Hs.
  apply send_trace_ids in Hs as [Hi Hl]. split; [done|]. rewrite Hl.
  destruct (list.last (m :: msgs)) as [z|] eqn:E; [by exists z|by apply last_None in E].
Qed.
Lemma trace_send_err p msgs out p' last c e : sendTraceSSEEvents decode p msgs = (out, p', last, c, Some e) ->
  sent_ids out `prefix_of` map xm_ID msgs.
Proof.
  intros Hs. destruct msgs as [|m msgs].
  - simpl in Hs. injection Hs as <- _ _ _ _. apply prefix_nil.
  - cbn [sendTraceSSEEvents] in Hs. by apply send_trace_ids in Hs.
Qed.

(** C25. The stream of a trace has no gaps.  Whatever reads fail, a client that gives an
    identifier is sent events published after it, each once and in order, from the history
    into the live part; an event is passed over only if the stream had lost it, which keeps
    the last thousand: with no more than a thousand events after the identifier, what is sent
    is the first of them, without a gap.  It waits only when there is no event after the
    identifier.  When no read fails and it stays for [steps] live reads, it has been sent the
    first [100 + 10 * steps] events that were there at first, but for those that were lost.
    An identifier that Redis cannot read is answered with an error. *)
Theorem trace_session_gapless id_of s read cancelled steps sp lastID :
  xread_laws id_of s read ->
  session_outcome trace_texts id_of s read steps lastID (session trace_texts (sendTraceSSEEvents decode) read cancelled steps sp lastID).
Proof.
  intros laws. apply (session_followed _ _ (fun _ => True)); [|intros p msgs out p' last c e _; apply trace_send_err|done|].
  - intros p msgs out p' last c _. apply trace_send_ok.
  - intros k. by apply Forall_true.
Qed.

(** The values of a message as they come back. *)
Definition message_values (fields : list (string * string)) : gmap string mvalue := MText <$> list_to_map fields.

(** What the workers publish is what the stream reads: an event with a task, a number as
    its line and a payload that decodes at the type of the event - or of an event without
    a type, whose payload is dropped - comes back with its task, type, position and name. *)
Theorem trace_event_roundtrip id ts taskID ty file fn line n name payload read_payload :
  taskID <> "" -> atoi (default "" (head (split "-" id))) = Some ts -> atoi line = Some n ->
  parsePayloadByEventType decode name payload = Ok read_payload ->
  parseStreamEvent decode id (message_values (ToRedisStream taskID ty file fn line name payload)) =
  Ok (mkStreamEvent ts taskID ty fn file n name read_payload).
Proof.
  intros Ht Hts Hn Hp. apply String.eqb_neq in Ht. unfold parseStreamEvent, message_values, ToRedisStream, text_key.
  rewrite !lookup_fmap. cbn [list_to_map foldr fst snd].
  repeat (rewrite lookup_insert_eq || rewrite lookup_insert_ne by done). cbn [fmap option_fmap option_map].
  rewrite Ht. cbn [res_bind]. rewrite Hts. cbn [res_bind or_error]. change (TaskType_code ty) with (enum_code ty).
  rewrite GetTaskTypeByName_Name. cbn [res_bind or_error]. rewrite Hn. cbn [res_bind or_error].
  change (default "" (Some ?x)) with x. by rewrite Hp.
Qed.

(** The collection of an algorithm's result has no payload type. *)
Lemma collection_payload id values event :
  parseStreamEvent decode id values = Ok event -> se_EventName event = EventAlgoResultCollection -> se_Payload event = None.
Proof.
  intros Hp Hn. revert Hp. unfold parseStreamEvent.
    destruct (match values !! "task_id" with Some (MText s) => if String.eqb s "" then _ else Ok s | _ => _ end); [|done]. cbn [res_bind].
    destruct (or_error (atoi _) _); [|done]. cbn [res_bind].
    destruct (text_key (values) "task_type" "task_type"); [|done]. cbn [res_bind].
    match goal with |- context [res_bind (match ?x with None => Ok TaskTypeBuildContainer | Some _ => _ end) _] =>
      destruct (match x with None => Ok TaskTypeBuildContainer | Some name => or_error (GetTaskTypeByName name) ("unknown task type name: " +:+ name) end) end; [|done].
    cbn [res_bind]. destruct (text_key _ "function_name" _); [|done]. cbn [res_bind].
    destruct (text_key _ "file_name" _); [|done]. cbn [res_bind]. destruct (text_key _ "line" _) as [lt|]; [|done]. cbn [res_bind].
    destruct (match lt with None => Ok 0 | Some text => or_error (atoi text) "invalid line number: invalid syntax" end); [|done].
    cbn [res_bind]. destruct (text_key _ "name" _) as [nm|]; [|done]. cbn [res_bind].
    destruct (values !! "payload") as [[text| |]|]; try (by intros [= <-]); try done.
    destruct (parsePayloadByEventType decode (default "" nm) text) as [pl|] eqn:Epl; [|done]. cbn [res_bind].
    intros [= <-]. cbn in Hn |- *. rewrite Hn in Epl. unfold parsePayloadByEventType in Epl. cbn in Epl. by injection Epl as <-.
Qed.

(** A result of an algorithm never passes the stream.  The event that the worker
    publishes when the result of an algorithm was collected has no payload type, so its
    payload is dropped and the message is refused as invalid, whatever it carries; in the
    stream the end is sent in its place, and nothing after it. *)
Theorem algorithm_result_ends_stream sp msg event rest lastID :
  parseStreamEvent decode (xm_ID msg) (xm_Values msg) = Ok event -> se_EventName event = EventAlgoResultCollection ->
  se_Payload event = None /\
  exists e, send_trace decode sp (msg :: rest) lastID = ([End_], sp, "", true, Some e).
Proof.
  intros Hp Hn.
  pose proof (collection_payload _ _ _ Hp Hn) as Hnone.
  split; [done|]. cbn [send_trace]. unfold ProcessMessageForSSE. rewrite Hp, Hn, Hnone. cbn. by eexists.
Qed.

(** When a stream says that the trace is complete on its own account.  Without
    algorithms to wait for, the collection of the datapack's result completes it; with
    some, only as many failed runs of such algorithms as there are algorithms do - or one of the
    events that end a trace at once. *)
Theorem trace_completion sp msg sp' id event :
  process sp msg = (sp', Ok (id, event)) -> sp_isCompleted sp = false ->
  sp_isCompleted sp' = true <->
  ends_trace (se_EventName event) = true \/
  (sp_algorithmMap sp = ∅ /\ se_EventName event ∈ [EventDatapackResultCollection; EventAlgoRunFailed]) \/
  (exists payload, se_EventName event = EventAlgoRunFailed /\ se_Payload event = Some payload /\
     pl_Algorithm payload ∈ sp_algorithmMap sp /\ Z.of_nat (size (sp_algorithmMap sp)) <= sp_finishedCount sp + 1).
Proof.
  unfold ProcessMessageForSSE. destruct (parseStreamEvent _ _ _) as [ev|e] eqn:Hp; [|done].
  assert (Hend : forall s b, size (sp_algorithmMap s) = b -> sp_algorithmMap s = ∅ <-> b = 0%nat).
  { intros s b <-. split; [intros ->; apply size_empty|]. intros Hz. by apply size_empty_iff, leibniz_equiv in Hz. }
  destruct (ends_trace (se_EventName ev)) eqn:E1.
  { intros [= <- _ <-] _. split; [by left|done]. }
  destruct (String.eqb_spec (se_EventName ev) EventDatapackResultCollection) as [E2|N2].
  { intros [= <- _ <-] _. cbn [complete sp_isCompleted]. destruct (Nat.eqb_spec (size (sp_algorithmMap sp)) 0) as [Hz|Hz].
    - split; [|done]. intros _. right. left. split; [by apply (Hend sp _ eq_refl)|]. rewrite E2. by left.
    - split; [done|]. rewrite E1, E2. intros [?|[[He _]|(pl & ? & _)]]; try done. by apply (Hend sp _ eq_refl) in He. }
  destruct (String.eqb_spec (se_EventName ev) EventAlgoResultCollection) as [E3|N3].
  { by rewrite (collection_payload _ _ _ Hp E3). }
  destruct (String.eqb_spec (se_EventName ev) EventAlgoRunFailed) as [E4|N4]; cbn [orb].
  2: { intros [= <- _ <-] Hc. rewrite E1. split; [congruence|].
       intros [?|[[_ Hin]|(pl & ? & _)]]; try done. apply elem_of_cons in Hin as [?|Hin]; [done|].
       by apply list_elem_of_singleton in Hin. }
  destruct (se_Payload ev) as [pl|] eqn:Epl; [|done]. destruct (bool_decide (pl_type pl = ExecutionResult_)); [|done].
  destruct (Nat.eqb_spec (size (sp_algorithmMap sp)) 0) as [Hz|Hz].
  { intros [= <- _ <-] _. split; [|done]. intros _. right. left. split; [by apply (Hend sp _ eq_refl)|]. rewrite E4. by right; left. }
  assert (Hne : sp_algorithmMap sp <> ∅) by (intros He; by apply (Hend sp _ eq_refl) in He).
  destruct (bool_decide (pl_Algorithm pl ∈ sp_algorithmMap sp)) eqn:Ea; intros [= <- _ <-] Hc; cbn [sp_isCompleted]; rewrite E1.
  - apply bool_decide_eq_true in Ea. destruct (Z.leb_spec (Z.of_nat (size (sp_algorithmMap sp))) (sp_finishedCount sp + 1)).
    + split; [|done]. intros _. right. right. by exists pl.
    + rewrite Hc. split; [done|]. intros [?|[[? _]|(pl' & _ & Hpl & _ & ?)]]; try done. lia.
  - apply bool_decide_eq_false in Ea. rewrite Hc. split; [done|].
    intros [?|[[? _]|(pl' & _ & Hpl & Hin & _)]]; try done. rewrite Epl in Hpl. injection Hpl as <-. done.
Qed.
End TraceFacts.

(** ** Facts on the stream of a group *)

(** What the worker publishes when a trace ends is what a follower of its group is told. *)
Theorem group_event_roundtrip p id e :
  gse_TraceID e <> "" ->
  ProcessGroupMessage p (group_message id e) =
  (mkGroupProcessor (gp_totalTraces p) (gp_finishedCount p + 1),
   Ok (mkGroupStreamEvent (gse_TraceID e) (TraceState_code (gse_State e)) (gse_LastEvent e))).
Proof.
  intros Ht%String.eqb_neq. unfold ProcessGroupMessage, group_message. cbn [xm_Values].
  repeat (rewrite lookup_insert_eq || rewrite lookup_insert_ne by done || rewrite lookup_singleton_eq).
  rewrite Ht. cbn [res_bind]. rewrite atoi_itoa by (destruct (gse_State e); vm_compute; split; discriminate). done.
Qed.

Definition group_ok (msg : XMessage) : Prop := exists e, forall p, snd (ProcessGroupMessage p msg) = Ok e.

Lemma process_group_count p msg :
  gp_totalTraces (ProcessGroupMessage p msg).1 = gp_totalTraces p /\
  gp_finishedCount (ProcessGroupMessage p msg).1 =
    gp_finishedCount p + (if is_ok (ProcessGroupMessage p msg).2 then 1 else 0).
Proof. unfold ProcessGroupMessage. cbv zeta. cbn [fst snd]. case_match; simpl; (split; [done|lia]). Qed.

(** The count of a processor is what it has sent. *)
Lemma send_group_spec p msgs last0 :
  let '(out, p', last, c, err) := send_group p msgs last0 in
  err = None /\ gp_totalTraces p' = gp_totalTraces p /\ c = IsCompleted p' /\
  gp_finishedCount p' = gp_finishedCount p + Z.of_nat (length (sent_ids out)) /\
  last = default last0 (xm_ID <$> list.last msgs) /\
  (Forall group_ok msgs -> sent_ids out = map xm_ID msgs).
Proof.
  revert p last0. induction msgs as [|msg msgs IH]; intros p last0; cbn [send_group].
  - split_and!; try done; destruct (IsCompleted p); simpl; done || lia.
  - pose proof (process_group_count p msg) as [Ht Hc]. destruct (ProcessGroupMessage p msg) as [p1 r] eqn:Ep. simpl in Ht, Hc.
    specialize (IH p1 (xm_ID msg)). destruct (send_group p1 msgs (xm_ID msg)) as [[[[out p2] last] c] err].
    destruct IH as (-> & Ht2 & -> & Hc2 & -> & Hids). split; [done|]. split; [congruence|]. split; [done|]. split; [|split].
    + destruct r; simpl in Hc |- *; unfold sent_ids in *; simpl; lia.
    + destruct msgs as [|m2 msgs]; [done|]. rewrite last_cons_cons.
      destruct (list.last (m2 :: msgs)) eqn:E; [done|by apply last_None in E].
    + intros [[e He] Hg]%Forall_cons. specialize (He p). rewrite Ep in He. simpl in He. subst r. simpl. f_equal. by apply Hids.
Qed.

Lemma group_session_outcome id_of s read cancelled steps p lastID :
  xread_laws id_of s read -> (forall k, Forall group_ok (published s k)) ->
  session_outcome group_texts id_of s read steps lastID (session group_texts sendGroupSSEEvents read cancelled steps p lastID).
Proof.
  intros laws Hg. apply (session_followed _ _ group_ok); [| |done..].
  - intros p0 msgs out p' last c Hok Hne Hs. destruct msgs as [|m msgs]; [done|]. cbn [sendGroupSSEEvents] in Hs.
    pose proof (send_group_spec p0 (m :: msgs) "") as Hspec. rewrite Hs in Hspec. destruct Hspec as (_ & _ & _ & _ & Hl & Hi).
    split; [by apply Hi|]. rewrite Hl. destruct (list.last (m :: msgs)) as [z|] eqn:E; [by exists z|by apply last_None in E].
  - intros p0 msgs out p' last c e _ Hs. destruct msgs as [|m msgs].
    + simpl in Hs. injection Hs as <- _ _ _ _. apply prefix_nil.
    + cbn [sendGroupSSEEvents] in Hs. pose proof (send_group_spec p0 (m :: msgs) "") as Hspec. rewrite Hs in Hspec. by destruct Hspec.
Qed.

(** The stream of a group has no gaps either when its messages are well formed. *)
Theorem group_session_gapless id_of s read cancelled steps p lastID :
  xread_laws id_of s read -> (forall k, Forall group_ok (published s k)) ->
  session_outcome group_texts id_of s read steps lastID (session group_texts sendGroupSSEEvents read cancelled steps p lastID).
Proof. apply group_session_outcome. Qed.

Lemma sendGroup_completed p msgs out p' last c err :
  sendGroupSSEEvents p msgs = (out, p', last, c, err) ->
  gp_totalTraces p' = gp_totalTraces p /\ gp_finishedCount p' = gp_finishedCount p + Z.of_nat (length (sent_ids out)) /\
  (c = true -> gp_totalTraces p <= gp_finishedCount p').
Proof.
  destruct msgs as [|m msgs]; cbn [sendGroupSSEEvents].
  - intros [= <- <- _ <- _]. simpl. split; [done|]. split; [lia|done].
  - intros Hs. pose proof (send_group_spec p (m :: msgs) "") as Hspec. rewrite Hs in Hspec.
    destruct Hspec as (_ & Ht & -> & Hc & _). split; [done|]. split; [done|]. unfold IsCompleted. intros [_ H]%andb_true_iff.
    apply Z.leb_le in H. lia.
Qed.

Lemma live_group_count read cancelled steps k p lastID out :
  live_loop group_texts sendGroupSSEEvents read cancelled steps k p lastID = (out, Completed) ->
  gp_totalTraces p <= gp_finishedCount p + Z.of_nat (length (sent_ids out)).
Proof.
  revert k p lastID out. induction steps as [|steps IH]; intros k p lastID out; cbn [live_loop]; [done|].
  destruct (read_messages _ _ _ _ _ _) as [[[|m msgs]|e]|]; [apply IH| |by destruct (cancelled e)|done].
  destruct (sendGroupSSEEvents p (m :: msgs)) as [[[[out1 p'] last'] c] [e|]] eqn:Es; [done|].
  apply sendGroup_completed in Es as (Ht & Hc & Hdone). destruct c.
  - intros [= <-]. specialize (Hdone eq_refl). lia.
  - destruct (live_loop _ _ _ _ _ _ p' last') as [rest e] eqn:El. intros [= <- ->]. apply IH in El.
    rewrite sent_ids_app, length_app. lia.
Qed.

Lemma session_group_count read cancelled steps p lastID out :
  session group_texts sendGroupSSEEvents read cancelled steps p lastID = (out, Completed) ->
  gp_totalTraces p <= gp_finishedCount p + Z.of_nat (length (sent_ids out)).
Proof.
  unfold session. destruct (read_messages _ _ _ _ _ _) as [[[|m msgs]|e]|]; [apply live_group_count| |done|done].
  destruct (sendGroupSSEEvents p (m :: msgs)) as [[[[out1 p'] last'] c] [e|]] eqn:Es; [done|].
  apply sendGroup_completed in Es as (Ht & Hc & Hdone). destruct c.
  - intros [= <-]. specialize (Hdone eq_refl). lia.
  - destruct (live_loop _ _ _ _ _ _ p' last') as [rest e] eqn:El. intros [= <- ->]. apply live_group_count in El.
    rewrite sent_ids_app, length_app. lia.
Qed.

(** A client that comes back is never told the end.  A session counts only what it sends
    itself, so one that resumes after the first events of a group whose stream gets one event
    for each trace, and no more, does not complete, however long it lasts. *)
Theorem resumed_group_never_completes id_of s read cancelled steps total lastID i m out :
  xread_laws id_of s read -> (forall k, Forall group_ok (published s k)) -> Z.of_nat (length (published s (S steps))) <= total ->
  id_of (from_id lastID) = Some i -> m ∈ published s (S steps) -> newer id_of i m = false ->
  session group_texts sendGroupSSEEvents read cancelled steps (NewGroupStreamProcessor total) lastID <> (out, Completed).
Proof.
  intros laws Hg Hlen Hi Hm Hold Hs. pose proof Hs as Hc. apply session_group_count in Hc. simpl in Hc.
  pose proof (group_session_outcome id_of s read cancelled steps (NewGroupStreamProcessor total) lastID laws Hg) as Ho.
  rewrite Hs in Ho. unfold session_outcome in Ho. rewrite Hi in Ho. destruct Ho as (l & Hids & [Hpart _ _] & _). cbn [fst] in Hids.
  apply sublist_length in Hpart. rewrite Hids, length_map in Hc.
  assert (length (after id_of i (published s (S steps))) < length (published s (S steps)))%nat; [|lia].
  unfold after. rewrite <- (List.filter_length (newer id_of i) (published s (S steps))).
  assert (Hin : In m (List.filter (fun x => negb (newer id_of i x)) (published s (S steps)))) by (apply filter_In; split; [by apply list_elem_of_In|by rewrite Hold]).
  destruct (List.filter (fun x => negb (newer id_of i x)) _); [done|]. cbn. lia.
Qed.

(** ** Facts on the statistics *)

Lemma GetTracesByGroupID_perm groupID rows : GetTracesByGroupID groupID rows ≡ₚ List.filter (of_group groupID) rows.
Proof. apply merge_sort_Permutation. Qed.

(** The statistics of a group that runs.  The call panics exactly when the group has
    traces and none of them has ended yet, as every group is at first. *)
Theorem GetGroupStats_panics groupID rows :
  GetGroupStats groupID rows = Panics <->
  (exists t, t ∈ rows /\ of_group groupID t = true) /\
  (forall t, t ∈ rows -> of_group groupID t = true -> tr_EndTime (gt_Row t) = None).
Proof.
  unfold GetGroupStats. pose proof (GetTracesByGroupID_perm groupID rows) as Hp.
  assert (Hin : forall t, t ∈ GetTracesByGroupID groupID rows <-> t ∈ rows /\ of_group groupID t = true).
  { intros t. by rewrite Hp, list_elem_of_In, filter_In, <- list_elem_of_In. }
  destruct (GetTracesByGroupID groupID rows) as [|t0 ts] eqn:Et.
  - split; [done|]. intros [(t & Ht) _]. apply Hin in Ht. by apply not_elem_of_nil in Ht.
  - rewrite <- Et in Hin |- *.
    assert (Hsome : exists t, t ∈ rows /\ of_group groupID t = true).
    { exists t0. apply Hin. rewrite Et. by left. }
    destruct (durations_of (GetTracesByGroupID groupID rows)) as [|d ds] eqn:Ed; cbn [slices_pick].
    + split; [|done]. intros _. split; [done|]. intros t Hr Hg.
      destruct (tr_EndTime (gt_Row t)) as [e|] eqn:Ee; [|done]. exfalso.
      assert (Hx : Seconds (e - tr_StartTime (gt_Row t)) ∈ durations_of (GetTracesByGroupID groupID rows)).
      { unfold durations_of. apply list_elem_of_omap. exists t. split; [by apply Hin|]. by rewrite Ee. }
      rewrite Ed in Hx. by apply not_elem_of_nil in Hx.
    + split; [done|]. intros [_ Hall]. exfalso.
      assert (Hx : d ∈ durations_of (GetTracesByGroupID groupID rows)) by (rewrite Ed; by left).
      unfold durations_of in Hx. apply list_elem_of_omap in Hx as (t & Ht & Hd). apply Hin in Ht as [Hr Hg].
      by rewrite (Hall t Hr Hg) in Hd.
Qed.

Lemma fold_Qmin_le rest x y : y ∈ x :: rest -> (fold_left Qmin rest x <= y)%Q.
Proof.
  revert x y. induction rest as [|z rest IH]; intros x y; cbn [fold_left].
  - intros ->%list_elem_of_singleton. apply Qle_refl.
  - intros [->|[->|Hy]%elem_of_cons]%elem_of_cons.
    + eapply Qle_trans; [apply IH; by left|]. apply Q.le_min_l.
    + eapply Qle_trans; [apply IH; by left|]. apply Q.le_min_r.
    + apply IH. by right.
Qed.
Lemma fold_Qmax_ge rest x y : y ∈ x :: rest -> (y <= fold_left Qmax rest x)%Q.
Proof.
  revert x y. induction rest as [|z rest IH]; intros x y; cbn [fold_left].
  - intros ->%list_elem_of_singleton. apply Qle_refl.
  - intros [->|[->|Hy]%elem_of_cons]%elem_of_cons.
    + eapply Qle_trans; [|apply IH; by left]. apply Q.le_max_l.
    + eapply Qle_trans; [|apply IH; by left]. apply Q.le_max_r.
    + apply IH. by right.
Qed.

Lemma filter_perm {A} (p : A -> bool) l l' : l ≡ₚ l' -> List.filter p l ≡ₚ List.filter p l'.
Proof.
  induction 1 as [|x l l' _ IH|x y l|l1 l2 l3 _ IH1 _ IH2]; simpl; [done| | |by etrans].
  - destruct (p x); [by constructor|done].
  - destruct (p x), (p y); try done. constructor.
Qed.

Definition state_name (t : TraceRec) : string := GetTraceStateName (TraceState_code (tr_State (gt_Row t))).
Lemma state_map_lookup traces name :
  default [] (state_map traces !! name) =
  map NewTraceStats (List.filter (fun t => String.eqb (state_name t) name) traces).
Proof.
  unfold state_map. induction traces as [|t traces IH] using rev_ind; [done|].
  rewrite fold_left_app, List.filter_app, map_app. cbn [fold_left List.filter]. fold (state_name t). unfold append_to at 1.
  destruct (String.eqb_spec (state_name t) name) as [<-|Hne].
  - by rewrite lookup_insert_eq, <- IH.
  - by rewrite lookup_insert_ne, app_nil_r.
Qed.

(** The statistics of a group, when there are any.  The total is the number of its
    traces that are not deleted; each of them is listed once, under the name of its state;
    and the duration of every trace that ended lies between the minimum and the maximum. *)
Theorem GetGroupStats_spec groupID rows s :
  GetGroupStats groupID rows = Returns s ->
  let traces := List.filter (of_group groupID) rows in
  gs_TotalTraces s = Z.of_nat (length traces) /\
  (forall name, default [] (gs_TraceStateMap s !! name) ≡ₚ
     map NewTraceStats (List.filter (fun t => String.eqb (state_name t) name) traces)) /\
  (forall t e, t ∈ traces -> tr_EndTime (gt_Row t) = Some e ->
     (gs_MinDuration s <= Seconds (e - tr_StartTime (gt_Row t)) <= gs_MaxDuration s)%Q).
Proof.
  intros H traces. pose proof (GetTracesByGroupID_perm groupID rows) as Hp. fold traces in Hp. unfold GetGroupStats in H.
  destruct (GetTracesByGroupID groupID rows) as [|t0 ts] eqn:Et.
  - apply Permutation_nil_l in Hp. rewrite <- Hp. injection H as <-. split; [done|]. split; [done|].
    intros t e Ht. by apply not_elem_of_nil in Ht.
  - rewrite <- Et in *. destruct (durations_of (GetTracesByGroupID groupID rows)) as [|d ds] eqn:Ed; [done|].
    cbn [slices_pick] in H. injection H as <-.
    cbn [gs_TotalTraces gs_TraceStateMap gs_MinDuration gs_MaxDuration]. split; [by rewrite Hp|]. split.
    + intros name. rewrite state_map_lookup. by apply Permutation_map, filter_perm.
    + intros t e Ht He.
      assert (Hx : Seconds (e - tr_StartTime (gt_Row t)) ∈ d :: ds).
      { rewrite <- Ed. unfold durations_of. apply list_elem_of_omap. exists t. split; [by rewrite Hp|]. by rewrite He. }
      split; [by apply fold_Qmin_le|by apply fold_Qmax_ge].
Qed.

Module StreamSample.
Definition decode (ty : payload_type) (text : string) : res string := Ok text.
Definition ended (id trace : string) : XMessage := group_message id (mkGroupEvent "g" trace TraceCompleted "e").
(** Identifiers of Redis, in decimal; a number that is left out is zero. *)
Definition id_of (text : string) : option (Z * Z) :=
  match split "-" text with
  | [ms] => (fun n => (n, 0)) <$> atoi ms
  | [ms; number] => match atoi ms, atoi number with Some n, Some q => Some (n, q) | _, _ => None end
  | _ => None
  end.
(** A read that never fails, of a stream that is given by its messages: one more with each
    read. *)
Definition growing (messages : list XMessage) : stream := mkStream (fun k => take (S k) messages) (fun _ => 0%nat).
Definition answer (s : stream) (k : nat) (lastID : string) (n : nat) (block : Z) : option (res (list XMessage)) :=
  match id_of lastID with
  | None => Some (Err "ERR Invalid stream ID specified as stream command argument")
  | Some i => match after id_of i (kept s k) with
              | [] => if block =? 0 then None else Some (Ok [])
              | new => Some (Ok (take n new))
              end
  end.
Lemma sorted_take {A} (R : A -> A -> Prop) n l : StronglySorted R l -> StronglySorted R (take n l).
Proof.
  intros Hs. revert n. induction Hs as [|x l _ IH Hall]; intros [|n]; cbn; try constructor; [apply IH|by apply Forall_take].
Qed.
Lemma growing_laws messages : StronglySorted (before id_of) messages -> xread_laws id_of (growing messages) (answer (growing messages)).
Proof.
  intros Hs. split.
  - by vm_compute.
  - intros k. cbn [growing published]. exists (take 1 (drop (S k) messages)). by rewrite take_take_drop, Nat.add_1_r.
  - intros k. by apply sorted_take.
  - done.
  - cbn. lia.
  - intros k lastID n block. unfold answer. destruct (id_of lastID) as [i|]; [right; eauto|left; eauto].
Qed.

Definition log : list XMessage := [ended "5-0" "t1"; ended "6-0" "t2"].
Lemma log_sorted : StronglySorted (before id_of) log.
Proof. repeat constructor; by eexists. Qed.
Definition read := answer (growing log).
Lemma log_ok k : Forall group_ok (published (growing log) k).
Proof.
  assert (Hok : forall id trace, trace <> "" -> group_ok (ended id trace)).
  { intros id trace Ht. eexists. intros p. unfold ended. by rewrite group_event_roundtrip. }
  apply Forall_take. unfold log. repeat (apply Forall_cons; split; [by apply Hok|]). constructor.
Qed.
Abbreviation group_session := (session group_texts sendGroupSSEEvents).

Example followed_to_the_end : group_session read (fun _ => false) 3 (NewGroupStreamProcessor 2) "0" =
  ([Update "5-0" (mkGroupStreamEvent "t1" 2 "e"); Update "6-0" (mkGroupStreamEvent "t2" 2 "e"); End_], Completed).
Proof. by vm_compute. Qed.
(** Nothing is in the stream after the identifier: the history is waited for. *)
Example history_is_awaited : group_session read (fun _ => false) 3 (NewGroupStreamProcessor 2) "7-0" = ([], Waits).
Proof. by vm_compute. Qed.

Lemma resumed_group_never_completes_witness :
  group_session read (fun _ => false) 3 (NewGroupStreamProcessor 2) "5-0" <> ([Update "6-0" (mkGroupStreamEvent "t2" 2 "e"); End_], Completed).
Proof.
  apply (resumed_group_never_completes id_of (growing log) read (fun _ => false) 3 2 "5-0" (5, 0) (ended "5-0" "t1")).
  - exact (growing_laws log log_sorted).
  - exact log_ok.
  - cbn. lia.
  - vm_compute. reflexivity.
  - left.
  - vm_compute. reflexivity.
Defined.

Lemma group_session_gapless_witness :
  exists l, sent_ids (group_session read (fun _ => false) 3 (NewGroupStreamProcessor 2) "0").1 = map xm_ID l /\
    l `prefix_of` after id_of (0, 0) (published (growing log) 4).
Proof.
  destruct (group_session_gapless id_of (growing log) read (fun _ => false) 3 (NewGroupStreamProcessor 2) "0" (growing_laws log log_sorted) log_ok)
    as (l & Hl & [_ _ Ht] & _).
  exists l. split; [exact Hl|]. apply Ht. vm_compute. lia.
Defined.

Lemma growing_reliable messages : reliable id_of (answer (growing messages)).
Proof. intros k lastID i n block e Hi. unfold answer. rewrite Hi. destruct (after _ _ _); [destruct (block =? 0)|]; discriminate. Qed.

(** Three events, one of them there at first; the client gives an identifier between them. *)
Definition tlog : list XMessage :=
  map (fun id => mkMessage id {["task_id" := MText "T"; "name" := MText EventTaskStarted]}) ["5-0"; "6-0"; "7-0"].
Lemma tlog_sorted : StronglySorted (before id_of) tlog.
Proof. repeat constructor; by eexists. Qed.
Definition trace_session (lastID : string) :=
  session trace_texts (sendTraceSSEEvents decode) (answer (growing tlog)) (fun _ => false) 3 (NewStreamProcessor []) lastID.
Lemma trace_session_gapless_witness :
  exists l, sent_ids (trace_session "4-9").1 = map xm_ID l /\ l `prefix_of` tlog /\ mkMessage "5-0" (xm_Values (hd (ended "" "") tlog)) ∈ l.
Proof.
  destruct (trace_session_gapless decode id_of (growing tlog) (answer (growing tlog)) (fun _ => false) 3 (NewStreamProcessor []) "4-9"
    (growing_laws tlog tlog_sorted)) as (l & Hl & [_ _ Ht] & _ & Hup).
  exists l. split; [exact Hl|]. split; [apply Ht; vm_compute; lia|].
  destruct (Hup (growing_reliable tlog) eq_refl
    (mkMessage "5-0" (xm_Values (hd (ended "" "") tlog)))) as [Hin|Hin]; [|exact Hin|].
  - left.
  - by apply not_elem_of_nil in Hin.
Defined.

Lemma group_event_roundtrip_witness :
  (ProcessGroupMessage (NewGroupStreamProcessor 2) (ended "5-0" "t1")).2 = Ok (mkGroupStreamEvent "t1" 2 "e").
Proof. exact (f_equal snd (group_event_roundtrip (NewGroupStreamProcessor 2) "5-0" (mkGroupEvent "g" "t1" TraceCompleted "e") ltac:(discriminate))). Defined.

(** The collection of a result as the worker publishes it. *)
Definition collected : gmap string mvalue :=
  message_values (ToRedisStream "T" TaskTypeCollectResult "f.go" "fn" "7" EventAlgoResultCollection "[]").
Lemma trace_event_roundtrip_witness :
  parseStreamEvent decode "1700-0" collected = Ok (mkStreamEvent 1700 "T" TaskTypeCollectResult "fn" "f.go" 7 EventAlgoResultCollection None).
Proof.
  apply (trace_event_roundtrip decode "1700-0" 1700 "T" TaskTypeCollectResult "f.go" "fn" "7" 7 EventAlgoResultCollection "[]" None).
  - discriminate.
  - reflexivity.
  - reflexivity.
  - reflexivity.
Defined.
Definition collected_message : XMessage := mkMessage "1700-0" collected.
Lemma algorithm_result_ends_stream_witness :
  exists e, send_trace decode (NewStreamProcessor []) [collected_message; ended "5-0" "t1"] "" =
    ([End_], NewStreamProcessor [], "", true, Some e).
Proof.
  refine (proj2 (algorithm_result_ends_stream decode (NewStreamProcessor []) collected_message _ [ended "5-0" "t1"] "" _ _)).
  - exact trace_event_roundtrip_witness.
  - reflexivity.
Defined.

Definition trace (id : string) (end_ : option Z) (st : TraceState) : TraceRec :=
  mkTraceRec (mkTraceRow id TraceTypeFullPipeline "e" 0 end_ 1 "g" 1 st CommonEnabled) [].
Definition traces : list TraceRec := [trace "a" (Some 3000000000) TraceCompleted; trace "b" None TraceRunning; trace "c" (Some 5000000000) TraceFailed].
Example running_group_panics : GetGroupStats "g" [trace "b" None TraceRunning] = Panics.
Proof. by vm_compute. Qed.
Lemma GetGroupStats_spec_witness : exists s, GetGroupStats "g" traces = Returns s /\ gs_TotalTraces s = 3.
Proof.
  destruct (GetGroupStats "g" traces) as [s|] eqn:E.
  - exists s. split; [reflexivity|]. exact (proj1 (GetGroupStats_spec "g" traces s E)).
  - vm_compute in E. discriminate E.
Defined.
End StreamSample.
